(* ===== verification/_CoqProject ===== *)
-Q . S2P
Prelude.v
EventBus.v
ConfigRev.v
ConfigStore.v
ConfigNode.v
Merge3way.v
ConfigRoot.v
ConfigDemo.v
ConfigIsolation.v
ConfigTree.v
ConfigUpdate.v
ConfigAdd.v
ConfigSpec.v
ConfigLoad.v
MergeSpec.v
Handlers.v
HandlersSpec.v
HandlersDemo.v
OFP.v
FlowDecomposer.v
DeviceGraph.v
LogicalDevice.v
LogicalTables.v
LogicalSync.v
FlowDemo.v
PonSim.v
PonSimSpec.v
DeviceAgent.v
AdapterAgent.v
PonAdapters.v
PonAdaptersSpec.v
Simulated.v
Microsemi.v
MicrosemiSpec.v
MicrosemiLive.v
Igmp.v
MessageQueue.v
OfConnection.v
OfAgents.v
OfConverter.v
OfProtocol.v
PacketPath.v
Cluster.v
Coordinator.v
NetconfReply.v
NetconfConnection.v
NetconfRpc.v
NetconfServer.v
NetconfSpec.v
NetconfRequests.v
LoxiWire.v
LoxiSpec.v
LoxiRoundtrip.v
LoxiTotal.v
LoxiEqual.v
LoxiPrint.v
LoxiMessage.v
Of10Common.v
Of10Message.v
Of11Common.v
Of11Message.v
Of12Match.v
Of12Common.v
Of12Message.v
Of13Match.v
Of13Action.v
Of13Instruction.v
Of13Common.v
Of13Message.v
Of14Match.v
Of14Action.v
Of14Instruction.v
Of14Prop.v
Of14Common.v
Of14Message.v
Openflow.v
OmciEntities.v
OmciMessages.v
OmciSpec.v
