(* ===== verification/Prelude.v ===== *)
(** * VOLTHA core: a verification development

    VOLTHA hides a passive optical network (an OLT and the ONUs behind it) behind
    one logical OpenFlow switch.  This library models the core of the program,
    its Python sources, as executable definitions and proves what makes it
    correct.

    ** The program and the files

    - The configuration (src/voltha/core/config) is a versioned tree of messages.
      Nodes keep branches of hashed revisions; a root routes updates, adds and
      removes by path, opens, merges and cancels transactions and runs callbacks.
        ConfigRev      data revisions, child fields, hashes (config_rev.py)
        ConfigStore    the heap of nodes, branches, proxies, the revision cache,
                       the key-value store, creating nodes (config_node.py,
                       config_branch.py, config_proxy.py, config_rev_persisted.py)
        ConfigNode     get, update, add, remove, tags, proxies (config_node.py)
        Merge3way      three-way merge of a transaction branch (merge_3way.py)
        ConfigRoot     root operations, deferred callbacks, transactions
                       (config_root.py, config_proxy.py, config_txn.py)
        ConfigIsolation  transactions are isolated until they are committed
        MergeSpec      the merge of keyed children, key by key
        ConfigTree, ConfigUpdate, ConfigAdd, ConfigSpec
                       the abstract tree, the specification of the operations on
                       it, and the refinement
        ConfigLoad     loading a persisted tree (config_rev_persisted.py)
        ConfigDemo     a small message schema on which witnesses compute
    - Flow handling: the agent of a logical device (logical_device_agent.py)
      keeps the flow and group tables of the logical switch, computes the routes
      between its ports (device_graph.py), decomposes the flows into rules for
      the devices (flow_decomposer.py) and writes them to the devices.
        OFP            OpenFlow messages, constructors and extractors
        FlowDecomposer decompose_flow, decompose_rules, over an interface [Router]
        DeviceGraph    the graph walk and the routes
        LogicalDevice  the agent, which implements [Router]
        LogicalTables  the tables as finite maps
        LogicalSync    from a table change to the rules of the devices
        FlowDemo       an OLT with two ONUs, and witnesses
    - Devices: the device agent (device_agent.py) runs the admin-state machine of
      a device and hands it to its adapter; the adapter agent (adapter_agent.py)
      is the adapter's way into the configuration; the loader (loader.py) finds
      and starts the adapters, and the registry (registry.py) holds components.
        DeviceAgent, AdapterAgent
    - The adapters of the simulated PON (adapters/ponsim_olt, adapters/ponsim_onu)
        PonAdapters       activation, flow tables, packets in band
        PonAdaptersSpec   what the activations build, and what pushes leave behind;
                          a PON of two ONUs, and witnesses
    - The adapters of simulated devices (adapters/simulated_olt, simulated_onu)
        Simulated      activation in any order, the shared queue, flow tables
    - The adapter of the Microsemi OLT (adapters/microsemi)
        Microsemi      the automata of the OLT and of its ONUs, the device manager
        MicrosemiSpec  what holds in every run
        MicrosemiLive  bringing up an OLT; several OLTs, several ONUs; witnesses
    - The data plane of the simulated PON (src/ponsim/ponsim.py)
        PonSim         matching, actions on shared frame objects, the devices
        PonSimSpec     flow selection, the VLAN edge of an ONU, both directions;
                       concrete frames, and witnesses
    - Requests to the core over gRPC (local_handler.py, global_handler.py,
      dispatcher.py): every handler, over the configuration and the agents
        Handlers       the handlers and the dispatcher
        HandlersSpec   what they answer, over the schema of the core's messages
        HandlersDemo   a schema, and witnesses
    - Packets and messages between adapters, agents and the controller
        PacketPath     packet-in, packet-out, proxied messages on the event bus;
                       the OpenFlow agent as a whole, and packet-in through it
    - Several instances of the core share the work over Consul
        Cluster        leader.py and worker.py: assignments by consistent hashing
        Coordinator    coordinator.py: retries, leader election, stopping
    - The OpenFlow agent (src/ofagent) presents the logical devices to a controller
        OfConnection   byte stream to messages and back (of_connection.py)
        OfAgents       connections to controllers, the set of agents (agent.py,
                       connection_mgr.py)
        OfConverter    messages of the core from and to OpenFlow (converter.py)
        OfProtocol     request handlers with their calls (of_protocol_handler.py)
    - The OpenFlow bindings (src/ofagent/loxi): 1740 generated classes in five
      versions, each a value that names its fields in wire order
        LoxiWire       readers, packing, comparison: how a class description acts
        LoxiSpec, LoxiRoundtrip, LoxiTotal, LoxiEqual, LoxiMessage
                       wire formats, round trip, termination, equality, headers
        LoxiPrint      printing: pp.py, util.py and the methods pretty_print
        Of10Common ... Of14Message
                       the classes, and the module of each version
        Openflow       the five modules together, and behind the connection
    - The NETCONF server (src/netconf)
        NetconfReply       replies in the shape of YANG, error objects
        NetconfConnection  framing and chunking of messages
        NetconfRpc         requests, their handlers and the reply of get
        NetconfServer      sessions, the protocol handler, events
        NetconfSpec        the invariant of the sessions
        NetconfRequests    the outcome of every request; a session of two
                           clients, and witnesses
    - Shared services: the event bus (common/event_bus.py) and the message queue
      (common/utils/message_queue.py)
        EventBus, MessageQueue
    - OMCI, the management protocol of ONUs (voltha/extensions/omci)
        OmciEntities   attribute tables and masks (omci_defs.py, omci_entities.py)
        OmciMessages   messages and frames (omci_messages.py, omci_frame.py)
        OmciSpec       masks and the round trip of frames; a wire format, and
                       witnesses
    - IGMP packets (voltha/extensions/IGMP.py)
        Igmp           the coding of times, building packets, the IP header

    ** How code becomes definitions

    A function that can raise returns [result] (below), with the exception as a
    value of [exn]; code that changes state is a function of the monad [M], in
    which a raised exception keeps the writes made before it, as in Python.
    Dictionaries are association lists ([od_get], [od_set]) where their order can
    be seen and finite maps elsewhere; objects that the code shares and mutates
    (list objects of the event bus, nodes of the configuration, device messages,
    frames) live in heaps and are passed by reference.  A method decorated with
    inlineCallbacks is cut at its yields: a continuation says for what it waits,
    and events resume it; steps of several such methods interleave.  The bindings
    are generated by one template, so a class is data and the template's methods
    are functions of that data.

    Loops and recursions that are not structural take fuel, and running out of it
    is the exception [OutOfFuel], which the theorems rule out: the depth of a
    message for creating nodes, the number of devices for the graph walk, two
    devices for a frame through the PON, two nested updates for the device agent,
    one round more than there are identifiers for a fresh id, the length of the
    buffer for unpacking and for cutting a stream, eight levels for the hierarchy
    of the classes of a message, the depth of an object for packing and
    comparing, the depth of a tree for rewriting it, the messages in the queue
    for the loop of a session, the height of a stored tree for loading it, four
    states for a chain of conditions of an automaton.

    Code that is not in the repository is a class with its documented behaviour
    as laws, and an instance that satisfies them: messages and hashes of the
    configuration ([Env], [Proto], [NoCollisions]), message types ([Messages],
    [VolthaSchema]), path search of the graph library ([NetworkX]), the flow hash
    ([FlowHash]), frames ([Scapy]), the wire format of a field ([FieldCodec]),
    consistent hashing and Consul, XML ([Lxml], [DictToXml]), packets on the wire
    and identifiers ([Packets], [Uuid]), automata ([Automata]), texts of strings
    and numbers ([PyText]), adapters ([Adapter]), callbacks ([Callbacks],
    [PostCallbacks]).  [Passive] is what theorems on the configuration ask of
    callbacks: those before a change do not change the configuration, and those
    after it, like the ones by which the core makes its agents, only make proxies
    and register callbacks.  Components meet in such classes too: the decomposer
    asks a [Router] for routes, which the logical device agent implements; the
    connection of the OpenFlow agent
    reads messages through [Loxi], which the bindings implement; the handlers
    reach the core through [CoreServices].

    ** What the theorems show

    - Configuration: in every state that succeeding commands, and failing ones
      other than refused changes of a key, lead to from a new root, every update,
      add and remove does what its specification on the abstract tree says,
      exceptions included; every read through every node agrees with that tree;
      keys stay unique; a refused change of a key leaves the child changed; what
      is done in
      a transaction cannot be seen outside, and cancelling it leaves no trace; a
      merge of lists in the same order, whose children merge, finds exactly the
      colliding keys and gives every other key what both sides made of it; a
      persisted tree is loaded as it was stored.
    - Handlers: lookups answer with what the tree holds; a device that is created
      is stored with the fields that it needs, and how creation fails; a device
      that is activated is stored as enabled.
    - Flows: the tables behave as finite maps under the flow and group
      modifications; every computed route is a route of the device graph; the
      rules a device is given come from its default rules or from a logical flow
      whose route passes it, use only ports it has, and reach it whenever the
      table changes; and how a failure of the default rules blocks all pushes.
    - Data plane: the default rules of an ONU are exactly a VLAN edge; frames
      cross the PON in both directions with the right tags, once.
    - Agents: whatever updates are stored or refused, a device is adopted at most
      once; activation; updates the state
      machine rules out are stored nevertheless; activation writes to committed
      data; peers of ports stay symmetric; new logical devices get fresh ids;
      packets and messages reach whom they are meant for, a packet-in up to the
      transport of the connection to the controller.
    - Adapters of the simulated PON: the pending activations build the PON in the
      configuration, whatever their order; flow tables reach the simulator, though
      no push to an ONU returns; packets survive the in-band channel.
    - Simulated devices: in whatever order the reactor runs the activations, they
      end, and no ONU is left waiting for an answer; which flow tables are accepted.
    - Microsemi: the first OLT, when it answers, comes up with its logical device,
      whatever other packets come in between; it is used only after every channel
      acknowledged every setting; its frames are numbered; and where the adapter
      falls short: transmitters are never checked, a second
      OLT is taken for set up after one answer, ONUs share a logical port.
    - Cluster: all work is assigned, to the member the hash says; there is one
      leader unless a session is lost; waiting ends.
    - OpenFlow agent: how the bytes arrive does not matter; a stream of messages
      is read back as it was sent; receiving always ends; every object of the
      five versions that its wire format can carry (of a class other than the
      experimenter actions that pad their data) is unpacked as it was packed, and
      compared as equal exactly when it is equal; what is received can be
      printed, except in version 1.1; requests are answered once,
      and which one silences the agent; flows survive the conversion.
    - NETCONF: messages survive the framing; sessions are consistent whatever
      happens; a request is answered, or it ends the session; the reply has the
      content of the core's answer, though a single list loses the borders
      between its entries.
    - Services: a subscriber is called exactly once per publication, and what the
      list that publish extends does to pattern subscribers; the message queue
      loses nothing and never holds back a message that is waited for, and what
      cancelling a getter does.
    - OMCI: masks and attribute names are inverse, and every frame that is built is
      dissected into itself.
    - IGMP: the code of a time is the greatest that stands for no longer one.

    ** What is not modelled

    Deleting persisted entries when the garbage collector frees a revision; that
    a commit as a whole is correct (the merge of one keyed list is); start-up and
    shut-down of the processes, discovery of services, the threads that carry gRPC
    streams; the adapters of the Tibit, Maple and Broadcom devices, which exchange
    frames and remote calls with them, and the wire format of Microsemi's messages,
    which scapy derives from field lists; the REST gateway, which generates its
    code, and the command line; raw sockets; of the bindings, the tables of
    constants that only name values; of NETCONF, the SSH server, the YANG generator
    and the gRPC client. *)

From Stdlib Require Import DecimalString HexadecimalString.
From stdpp Require Import prelude strings gmap list.

(** ** Exceptions and results

    Python exceptions are values.  [exn] lists the exception classes the
    modelled code raises or lets escape. *)
Inductive exn : Type :=
  | KeyError | ValueError | IndexError | LookupError | TypeError
  | AttributeError | AssertionError | NotImplementedError
  | MergeConflictException | ClosedTransactionError | InvalidStateTransition
  | OmciUninitializedFieldError
  | StructError | ProtocolError | OpenFlowProtocolError | AlreadyCalledError
  | ConsulException | StaleMembershipEntryException
  | ZeroDivisionError | NameError | XMLSyntaxError
  | NcBadMsg | NcNotImpl | NcSessionError
  | GenericException
  | OutOfFuel.

#[export] Instance exn_eq_dec : EqDecision exn.
Proof. solve_decision. Defined.

Inductive result (A : Type) : Type :=
  | Ok (a : A)
  | Raise (e : exn).
Arguments Ok {A} a.
Arguments Raise {A} e.

#[export] Instance result_eq_dec {A} `{!EqDecision A} : EqDecision (result A).
Proof. solve_decision. Defined.

#[export] Instance result_ret : MRet result := λ A, @Ok A.
#[export] Instance result_bind : MBind result := λ A B f m,
  match m with Ok a => f a | Raise e => Raise e end.
#[export] Instance result_fmap : FMap result := λ A B f m,
  match m with Ok a => Ok (f a) | Raise e => Raise e end.

(** A computation over a mutable state of type [S]: a raised exception does
    not undo the writes made before it, as in Python. *)
Definition M (S A : Type) : Type := S → result A * S.

#[export] Instance M_ret {S} : MRet (M S) := λ A a s, (Ok a, s).
#[export] Instance M_bind {S} : MBind (M S) := λ A B f m s,
  match m s with
  | (Ok a, s') => f a s'
  | (Raise e, s') => (Raise e, s')
  end.

Definition raise {S A} (e : exn) : M S A := λ s, (Raise e, s).
Definition get_state {S} : M S S := λ s, (Ok s, s).
Definition modify {S} (f : S → S) : M S unit := λ s, (Ok tt, f s).
Definition lift {S A} (r : result A) : M S A := λ s, (r, s).

(** [o.[k]] on a dict raises [KeyError]; the other lookups name their error. *)
Definition of_option {A} (e : exn) (o : option A) : result A :=
  match o with Some a => Ok a | None => Raise e end.

(** Python's [assert]. *)
Definition assert_ (b : bool) : result unit :=
  if b then Ok tt else Raise AssertionError.

(** ** Inversion lemmas of the two monads *)

Create HintDb voltha.

Section monads.
Context {S A B : Type}.

Lemma result_bind_Ok (m : result A) (f : A → result B) b :
  m ≫= f = Ok b ↔ ∃ a, m = Ok a ∧ f a = Ok b.
Proof. destruct m; simpl; naive_solver. Qed.

Lemma result_bind_Raise (m : result A) (f : A → result B) e :
  m ≫= f = Raise e ↔ m = Raise e ∨ ∃ a, m = Ok a ∧ f a = Raise e.
Proof. destruct m; simpl; naive_solver. Qed.

Lemma of_option_Ok e (o : option A) a : of_option e o = Ok a ↔ o = Some a.
Proof. destruct o; simpl; naive_solver. Qed.

Lemma M_bind_Ok (m : M S A) (f : A → M S B) s b s' :
  (m ≫= f) s = (Ok b, s') ↔
  ∃ a s1, m s = (Ok a, s1) ∧ f a s1 = (Ok b, s').
Proof.
  unfold mbind, M_bind. destruct (m s) as [[a|e] s1]; naive_solver.
Qed.

Lemma M_bind_eq (m : M S A) (f : A → M S B) s a s1 :
  m s = (Ok a, s1) → (m ≫= f) s = f a s1.
Proof. unfold mbind, M_bind. by intros ->. Qed.

Lemma M_bind_assoc {C} (m : M S A) (f : A → M S B) (g : B → M S C) s :
  ((m ≫= f) ≫= g) s = (m ≫= (λ a, f a ≫= g)) s.
Proof. unfold mbind, M_bind. by destruct (m s) as [[]]. Qed.
Lemma M_bind_Raise_eq (m : M S A) (f : A → M S B) s e s1 :
  m s = (Raise e, s1) → (m ≫= f) s = (Raise e, s1).
Proof. unfold mbind, M_bind. by intros ->. Qed.
End monads.

Lemma assert_Ok b : assert_ b = Ok tt ↔ b = true.
Proof. destruct b; simpl; naive_solver. Qed.

Lemma mapM_Ok {A B} (f : A → result B) (l : list A) (k : list B) :
  mapM f l = Ok k ↔ Forall2 (λ a b, f a = Ok b) l k.
Proof.
  revert k. induction l as [|a l IH]; intros k; simpl.
  - split; [intros [= <-]; constructor | by inversion 1].
  - rewrite result_bind_Ok. setoid_rewrite result_bind_Ok. split.
    + intros (b & Hb & k' & Hk & [= <-]). constructor; [done|]. by apply IH.
    + inversion 1 as [|? b ? k' Hb Hk]; subst. exists b. split; [done|].
      exists k'. split; [by apply IH | done].
Qed.

(** Case analysis on the steps of a successful computation. *)
Ltac inv_ok :=
  repeat match goal with
  | H : mbind _ _ = Ok _ |- _ =>
      apply result_bind_Ok in H; destruct H as (? & ? & H)
  | H : of_option _ _ = Ok _ |- _ => apply of_option_Ok in H
  | H : assert_ _ = Ok _ |- _ => apply assert_Ok in H
  | H : Ok _ = Ok _ |- _ => injection H as H
  | H : Raise _ = Ok _ |- _ => discriminate H
  | H : mret _ = Ok _ |- _ => unfold mret, result_ret in H
  end; subst.

(** ** Ordered dictionaries

    [collections.OrderedDict], and plain Python dicts iterated in some order:
    an association list without duplicate keys. *)
Section odict.
Context {K V : Type} `{!EqDecision K}.

Fixpoint od_get (k : K) (d : list (K * V)) : option V :=
  match d with
  | [] => None
  | (k', v) :: d => if decide (k = k') then Some v else od_get k d
  end.

(** [d[k] = v]: an existing key keeps its place, a new one goes last. *)
Fixpoint od_set (k : K) (v : V) (d : list (K * V)) : list (K * V) :=
  match d with
  | [] => [(k, v)]
  | (k', v') :: d =>
      if decide (k = k') then (k, v) :: d else (k', v') :: od_set k v d
  end.

(** [del d[k]] (the callers test membership first). *)
Fixpoint od_del (k : K) (d : list (K * V)) : list (K * V) :=
  match d with
  | [] => []
  | (k', v) :: d => if decide (k = k') then d else (k', v) :: od_del k d
  end.

Definition od_keys (d : list (K * V)) : list K := d.*1.
Definition od_values (d : list (K * V)) : list V := d.*2.

(** [OrderedDict((k, v) for ...)]: later pairs overwrite earlier ones. *)
Definition od_of_list (l : list (K * V)) : list (K * V) :=
  foldl (λ d kv, od_set kv.1 kv.2 d) [] l.

Lemma od_get_set k v d : od_get k (od_set k v d) = Some v.
Proof.
  induction d as [|[k' v'] d IH]; simpl; repeat (case_decide; simpl); try done.
Qed.

Lemma od_get_set_ne k k' v d : k ≠ k' → od_get k' (od_set k v d) = od_get k' d.
Proof.
  intros Hne. induction d as [|[k2 v2] d IH]; simpl.
  - by rewrite decide_False by congruence.
  - case_decide; simpl; repeat case_decide; congruence.
Qed.

Lemma od_get_None k d : od_get k d = None ↔ k ∉ od_keys d.
Proof.
  induction d as [|[k' v'] d IH]; simpl.
  - split; [by intros _ ?%not_elem_of_nil | done].
  - unfold od_keys in *. simpl. rewrite not_elem_of_cons.
    case_decide; [naive_solver|]. rewrite IH. naive_solver.
Qed.

Lemma od_get_Some_elem k v d : od_get k d = Some v → (k, v) ∈ d.
Proof.
  induction d as [|[k' v'] d IH]; simpl; [done|].
  case_decide; [intros [= ->]; subst; left | intros; right; auto].
Qed.

Lemma od_get_elem k v d : NoDup (od_keys d) → (k, v) ∈ d → od_get k d = Some v.
Proof.
  unfold od_keys. induction d as [|[k' v'] d IH]; simpl.
  - by intros _ ?%not_elem_of_nil.
  - rewrite NoDup_cons, elem_of_cons. intros [Hni Hnd] [[= -> ->]|Hin].
    + by rewrite decide_True.
    + rewrite decide_False; [auto|]. intros ->. apply Hni.
      apply list_elem_of_fmap. by exists (k', v).
Qed.

Lemma od_set_keys_in k v d :
  k ∈ od_keys d → od_keys (od_set k v d) = od_keys d.
Proof.
  unfold od_keys. induction d as [|[k' v'] d IH]; simpl.
  - by intros ?%not_elem_of_nil.
  - rewrite elem_of_cons. case_decide; csimpl; [by subst|].
    intros [?|?]; [done|]. f_equal. by apply IH.
Qed.

Lemma od_set_notin k v d : k ∉ od_keys d → od_set k v d = d ++ [(k, v)].
Proof.
  unfold od_keys. induction d as [|[k' v'] d IH]; simpl; [done|].
  rewrite not_elem_of_cons. intros [Hne Hni].
  rewrite decide_False by done. by rewrite IH.
Qed.

Lemma od_keys_set_elem k k' v d :
  k' ∈ od_keys (od_set k v d) ↔ k' = k ∨ k' ∈ od_keys d.
Proof.
  destruct (decide (k ∈ od_keys d)) as [Hin|Hni].
  - rewrite od_set_keys_in by done. naive_solver.
  - rewrite od_set_notin by done. unfold od_keys. rewrite fmap_app. simpl.
    rewrite elem_of_app, list_elem_of_singleton. naive_solver.
Qed.

Lemma od_set_NoDup k v d : NoDup (od_keys d) → NoDup (od_keys (od_set k v d)).
Proof.
  intros Hnd. destruct (decide (k ∈ od_keys d)) as [Hin|Hni].
  - by rewrite od_set_keys_in.
  - rewrite od_set_notin by done. unfold od_keys in *. rewrite fmap_app. simpl.
    apply NoDup_app. split_and!; [done| |apply NoDup_singleton].
    intros x Hx. rewrite list_elem_of_singleton. by intros ->.
Qed.

Lemma Forall_od_set (P : K * V → Prop) k v d :
  Forall P d → P (k, v) → Forall P (od_set k v d).
Proof.
  intros Hd Hv. induction Hd as [|[k' v'] d Hx Hd IH]; simpl; [by constructor|].
  case_decide; by constructor.
Qed.
Lemma Forall_od_of_list (P : K * V → Prop) l : Forall P l → Forall P (od_of_list l).
Proof.
  unfold od_of_list. assert (Forall P (@nil (K * V))) as Hnil by constructor. revert Hnil.
  generalize (@nil (K * V)). induction l as [|[k v] l IH]; intros d Hd Hl; [done|].
  inversion_clear Hl as [|? ? Hkv Hl']. simpl. apply IH; [|done]. by apply Forall_od_set.
Qed.

Lemma od_of_list_NoDup_aux l d :
  NoDup (od_keys d) →
  NoDup (od_keys (foldl (λ d kv, od_set kv.1 kv.2 d) d l)).
Proof.
  revert d. induction l as [|[k v] l IH]; simpl; intros d Hd; [done|].
  apply IH. by apply od_set_NoDup.
Qed.

Lemma od_of_list_NoDup l : NoDup (od_keys (od_of_list l)).
Proof. apply od_of_list_NoDup_aux. constructor. Qed.

Lemma od_of_list_id_aux l d :
  NoDup (od_keys (d ++ l)) →
  foldl (λ d kv, od_set kv.1 kv.2 d) d l = d ++ l.
Proof.
  revert d. induction l as [|[k v] l IH]; simpl; intros d Hnd.
  - by rewrite app_nil_r.
  - rewrite od_set_notin.
    + rewrite IH; rewrite <-app_assoc; done.
    + unfold od_keys in *. rewrite fmap_app in Hnd. simpl in Hnd.
      apply NoDup_app in Hnd as (_ & Hd & _). intros Hin.
      apply (Hd k Hin). left.
Qed.

(** Building the dict from pairs with distinct keys changes nothing. *)
Lemma od_of_list_id l : NoDup (od_keys l) → od_of_list l = l.
Proof. intros Hnd. by apply od_of_list_id_aux. Qed.

Lemma od_get_del k k' d :
  NoDup (od_keys d) →
  od_get k' (od_del k d) = if decide (k' = k) then None else od_get k' d.
Proof.
  unfold od_keys. induction d as [|[k2 v2] d IH]; simpl.
  - by case_decide.
  - rewrite NoDup_cons. intros [Hni Hnd]. specialize (IH Hnd).
    destruct (decide (k = k2)) as [->|Hne].
    + destruct (decide (k' = k2)) as [->|Hne']; [|done].
      by apply od_get_None.
    + simpl. rewrite IH. repeat case_decide; congruence.
Qed.

Lemma od_del_sublist k d : od_del k d `sublist_of` d.
Proof.
  induction d as [|[k2 v2] d IH]; simpl; [done|].
  case_decide; [by apply sublist_cons | by apply sublist_skip].
Qed.

Lemma od_del_NoDup k d : NoDup (od_keys d) → NoDup (od_keys (od_del k d)).
Proof.
  intros Hnd. eapply sublist_NoDup; [done|]. apply fmap_sublist, od_del_sublist.
Qed.
End odict.

#[export] Hint Resolve od_set_NoDup od_del_NoDup od_of_list_NoDup : voltha.

(** ** List operations of Python *)

(** First index whose element satisfies [p], with the element. *)
Fixpoint find_index {A} (p : A → bool) (l : list A) : option (nat * A) :=
  match l with
  | [] => None
  | a :: l =>
      if p a then Some (0, a)
      else match find_index p l with
           | Some (i, b) => Some (S i, b)
           | None => None
           end
  end.

Section lists.
Context {A : Type}.
Implicit Types l : list A.

Lemma find_index_Some (p : A → bool) l i a :
  find_index p l = Some (i, a) ↔
  l !! i = Some a ∧ p a = true ∧ ∀ j b, j < i → l !! j = Some b → p b = false.
Proof.
  revert i. induction l as [|x l IH]; intros i; simpl; [naive_solver|].
  destruct (p x) eqn:Hx.
  - split.
    + intros [= <- <-]. split_and!; try done. lia.
    + intros (Hl & Hp & Hlt). destruct i as [|i]; simpl in *; [naive_solver|].
      specialize (Hlt 0 x ltac:(lia) eq_refl). congruence.
  - destruct (find_index p l) as [[j b]|] eqn:Hf.
    + split.
      * intros [= <- <-]. destruct (proj1 (IH j) eq_refl) as (Hl & Hp & Hlt).
        split_and!; [done|done|]. intros [|k] c Hk Hc; simpl in *; [congruence|].
        apply (Hlt k); [lia|done].
      * intros (Hl & Hp & Hlt). destruct i as [|i]; simpl in *; [congruence|].
        assert (Some (j, b) = Some (i, a)) as [= -> ->]; [|done].
        apply IH. split_and!; try done. intros k c Hk Hc.
        apply (Hlt (S k) c); [lia|done].
    + split; [done|]. intros (Hl & Hp & Hlt). destruct i as [|i]; simpl in *; [congruence|].
      assert (@None (nat * A) = Some (i, a)) as ?; [|done].
      apply IH. split_and!; try done. intros k c Hk Hc.
      apply (Hlt (S k) c); [lia|done].
Qed.

Lemma find_index_None (p : A → bool) l :
  find_index p l = None ↔ ∀ a, a ∈ l → p a = false.
Proof.
  induction l as [|x l IH]; simpl.
  - split; [by intros _ ? ?%not_elem_of_nil | done].
  - destruct (p x) eqn:Hx.
    + split; [done|]. intros H. specialize (H x ltac:(left)). congruence.
    + destruct (find_index p l) as [[j b]|].
      * split; [done|]. intros H. enough (Some (j, b) = None) by done.
        apply IH. intros a Ha. apply H. by right.
      * split; [|done]. intros _ a [->|Ha]%elem_of_cons; [done|].
        by apply (proj1 IH).
Qed.

Lemma find_index_ext (p q : A → bool) l :
  (∀ a, p a = q a) → find_index p l = find_index q l.
Proof. intros Hpq. induction l as [|x l IH]; simpl; [done|]. by rewrite Hpq, IH. Qed.

Lemma find_index_first (p : A → bool) l i a :
  find_index p l = Some (i, a) →
  ∃ l1 l2, l = l1 ++ a :: l2 ∧ p a = true ∧ (∀ b, b ∈ l1 → p b = false) ∧
    delete i l = l1 ++ l2 ∧ ∀ b, <[i := b]> l = l1 ++ b :: l2.
Proof.
  intros (Hl & Hp & Hbefore)%find_index_Some. exists (take i l), (drop (S i) l).
  split_and!; [by rewrite take_drop_middle|done| |by rewrite delete_take_drop|].
  - intros b (j & Hj)%list_elem_of_lookup_1. apply lookup_take_Some in Hj as [Hj Hlt].
    by apply (Hbefore j).
  - intros b. apply insert_take_drop. by eapply lookup_lt_Some.
Qed.

Lemma find_index_split (p : A → bool) l i a :
  find_index p l = Some (i, a) →
  ∃ l1 l2, l = l1 ++ a :: l2 ∧ p a = true ∧ delete i l = l1 ++ l2 ∧
    ∀ b, <[i := b]> l = l1 ++ b :: l2.
Proof. intros (l1 & l2 & ? & ? & _ & ? & ?)%find_index_first. by exists l1, l2. Qed.

(** Elements of a list are told apart by a projection without duplicates. *)
Lemma NoDup_fmap_inj {B} (f : A → B) l x y :
  NoDup (f <$> l) → x ∈ l → y ∈ l → f x = f y → x = y.
Proof.
  intros Hnd (i & Hi)%list_elem_of_lookup_1 (j & Hj)%list_elem_of_lookup_1 Hf.
  assert (i = j) as ->; [|congruence]. eapply (NoDup_lookup _ i j (f x) Hnd).
  - by rewrite list_lookup_fmap, Hi.
  - by rewrite list_lookup_fmap, Hj, Hf.
Qed.
End lists.

Lemma filter_ext_in {A} (P Q : A → Prop) `{!∀ x, Decision (P x), !∀ x, Decision (Q x)} (l : list A) :
  (∀ x, x ∈ l → P x ↔ Q x) → filter P l = filter Q l.
Proof.
  induction l as [|x l IH]; intros HPQ; [done|]. rewrite !filter_cons.
  rewrite IH by (intros; apply HPQ; by right).
  destruct (decide (P x)) as [HP|HP], (decide (Q x)) as [HQ|HQ]; try done; exfalso;
    specialize (HPQ x ltac:(left)); tauto.
Qed.

Lemma filter_all {A} (P : A → Prop) `{∀ x, Decision (P x)} l : Forall P l → filter P l = l.
Proof. induction 1 as [|x l Hx Hl IH]; [done|]. rewrite filter_cons_True by done. by rewrite IH. Qed.

(** ** Strings *)

(** Numbers as Python writes them *)
(** "%d" *)
Definition py_dec (z : Z) : string := DecimalString.NilZero.string_of_int (Z.to_int z).
(** "%x" of a natural number *)
Definition hex_digits (z : Z) : string := HexadecimalString.NilZero.string_of_uint (N.to_hex_uint (Z.to_N z)).
Definition py_sign (z : Z) : string := if bool_decide (z < 0)%Z then "-" else "".
(** "%#x" *)
Definition py_hex (z : Z) : string := py_sign z +:+ "0x" +:+ hex_digits (Z.abs z).
(** "%02x": the sign counts *)
Definition py_hex02 (z : Z) : string :=
  let s := py_sign z +:+ hex_digits (Z.abs z) in
  if bool_decide (String.length s < 2)%nat then "0" +:+ s else s.

Definition py_join (sep : string) (l : list string) : string := String.concat sep l.

Lemma append_assoc (a b c : string) : (a +:+ b) +:+ c = a +:+ (b +:+ c).
Proof.
  induction a as [|x a IH]; [done|].
  change ((String x a +:+ b) +:+ c) with (String x ((a +:+ b) +:+ c)). by rewrite IH.
Qed.
Lemma append_empty_r (s : string) : s +:+ "" = s.
Proof. induction s as [|c s IH]; [done|]. exact (f_equal (String c) IH). Qed.
Lemma string_length_app s1 s2 : String.length (s1 +:+ s2) = (String.length s1 + String.length s2)%nat.
Proof. induction s1 as [|c s1 IH]; [done|]. simpl. f_equal. exact IH. Qed.

(** ** Relational postconditions of stateful computations

    [rel_post R m]: whatever [m] does, normally or with an exception, relates
    the state before to the state after by [R].  For a preorder [R] this is
    compositional, and the database [rel_post] holds the rules. *)
Definition rel_post {S A} (R : S → S → Prop) (m : M S A) : Prop :=
  ∀ s, R s (m s).2.

Section rel_post.
Context {S : Type} (R : S → S → Prop) `{!PreOrder R}.

Lemma rel_post_ret {A} (a : A) : rel_post R (mret a).
Proof. intros s. simpl. reflexivity. Qed.

Lemma rel_post_raise {A} e : rel_post R (raise (A:=A) e).
Proof. intros s. simpl. reflexivity. Qed.

Lemma rel_post_lift {A} (r : result A) : rel_post R (lift r).
Proof. intros s. simpl. reflexivity. Qed.

Lemma rel_post_bind {A B} (m : M S A) (f : A → M S B) :
  rel_post R m → (∀ a, rel_post R (f a)) → rel_post R (m ≫= f).
Proof.
  intros Hm Hf s. unfold mbind, M_bind. specialize (Hm s).
  destruct (m s) as [[a|e] s']; simpl in *; [|done].
  etransitivity; [done|apply Hf].
Qed.

Lemma rel_post_bind_weak {A B} (m : M S A) (f : A → M S B) :
  rel_post R m → (∀ a s s', m s = (Ok a, s') → R s' (f a s').2) →
  rel_post R (m ≫= f).
Proof.
  intros Hm Hf s. unfold mbind, M_bind. specialize (Hm s).
  destruct (m s) as [[a|e] s'] eqn:E; simpl in *; [|done].
  etransitivity; [done|by eapply Hf].
Qed.

Lemma rel_post_modify (f : S → S) : (∀ s, R s (f s)) → rel_post R (modify f).
Proof. intros Hf s. apply Hf. Qed.
End rel_post.

Create HintDb rel_post.
#[export] Hint Resolve rel_post_ret rel_post_raise rel_post_lift rel_post_bind : rel_post.

(** Splits the conditionals and matches of a program under [rel_post]. *)
Ltac rel_post_step :=
  match goal with
  | |- ∀ _, _ => intros ?
  | |- rel_post _ (mbind _ _) => apply rel_post_bind; [apply _| |]
  | |- rel_post _ (if ?b then _ else _) => destruct b
  | |- rel_post _ (match ?x with _ => _ end) => destruct x
  | |- rel_post _ (let _ := _ in _) => cbv zeta
  | |- _ => solve [eauto with rel_post typeclass_instances]
  end.
Ltac rel_post_solve := repeat rel_post_step.
