(* ===== verification/EventBus.v ===== *)
(** * The internal publish/subscribe bus (common/event_bus.py)

    [EventBus.subscriptions] is a dict from topic to a list of subscription
    objects; the key [None] holds the subscriptions whose topic is a compiled
    regular expression.  [publish] fetches the list stored under the topic and
    extends that very list object with the matching regular-expression
    subscriptions, so the model writes the extended list back: the aliasing is
    part of the behaviour.

    A subscription object is a record with an identity [s_id]; [list.remove]
    compares identities.  Callbacks are functions that may raise; a callback
    that itself (un)subscribes on the bus during its own dispatch is outside
    the model. *)

From stdpp Require Import prelude strings gmap list.
From S2P Require Import Prelude.

Section event_bus.
  Context {Msg : Type}.

(** What a caller may pass as a topic: a string, a compiled regex (its
    [match] method) or anything else. *)
Inductive topic_arg : Type :=
  | TopicStr (t : string)
  | TopicRegex (rx_match : string → bool)
  | TopicOther.

Record subscription : Type := mk_subscription {
  s_id : nat;
  s_predicate : option (Msg → result bool);
  s_callback : string → Msg → result unit;
  s_topic : topic_arg;
}.

Record bus : Type := mk_bus {
  subscriptions : gmap (option string) (list subscription);
  subs_topic_map : gmap nat (option string);
  next_id : nat;
}.

Definition empty_bus : bus := mk_bus ∅ ∅ 0.

(** [EventBus._get_topic_key] *)
Definition get_topic_key (topic : topic_arg) : result (option string) :=
  match topic with
  | TopicStr t => Ok (Some t)
  | TopicRegex _ => Ok None
  | TopicOther => Raise AttributeError
  end.

(** [self.subscriptions.get(key, [])] *)
Definition subs_at (b : bus) (key : option string) : list subscription :=
  default [] (subscriptions b !! key).

(** [EventBus.list_subscribers] *)
Definition list_subscribers (b : bus) (topic : option string) : list subscription :=
  match topic with
  | None => concat ((map_to_list (subscriptions b)).*2)
  | Some t => subs_at b (Some t)
  end.

(** [EventBus.subscribe]: the object is built before the topic is looked at,
    and nothing is stored when [get_topic_key] raises. *)
Definition subscribe (topic : topic_arg) (callback : string → Msg → result unit)
    (predicate : option (Msg → result bool)) : M bus subscription := λ b,
  let s := mk_subscription (next_id b) predicate callback topic in
  match get_topic_key topic with
  | Raise e => (Raise e, b)
  | Ok key =>
      (Ok s,
       mk_bus (<[key := subs_at b key ++ [s]]> (subscriptions b))
              (<[s_id s := key]> (subs_topic_map b))
              (S (next_id b)))
  end.

(** [list.remove]: drops the first occurrence, [ValueError] when absent. *)
Fixpoint remove_first (i : nat) (l : list subscription) : result (list subscription) :=
  match l with
  | [] => Raise ValueError
  | s :: l =>
      if decide (s_id s = i) then Ok l
      else match remove_first i l with
           | Ok l' => Ok (s :: l')
           | Raise e => Raise e
           end
  end.

(** [EventBus.unsubscribe] *)
Definition unsubscribe (s : subscription) : M bus unit := λ b,
  match subs_topic_map b !! s_id s with
  | None => (Raise KeyError, b)
  | Some key =>
      match subscriptions b !! key with
      | None => (Raise KeyError, b)
      | Some l =>
          match remove_first (s_id s) l with
          | Raise e => (Raise e, b)
          | Ok l' => (Ok tt, mk_bus (<[key := l']> (subscriptions b))
                                    (subs_topic_map b) (next_id b))
          end
      end
  end.

(** [s.topic.match(topic)] for a subscription stored under [None]. *)
Definition regex_matches (topic : string) (s : subscription) : bool :=
  match s_topic s with TopicRegex f => f topic | _ => false end.

(** The [passes] helper with the [predicate is None] test of the loop: a
    predicate that raises counts as no match. *)
Definition accepts (msg : Msg) (s : subscription) : bool :=
  match s_predicate s with
  | None => true
  | Some p => match p msg with Ok r => r | Raise _ => false end
  end.

(** [EventBus.publish]: the identities of the subscriptions whose callback is
    run, in order (an exception of a callback is logged and dropped). *)
Definition publish (topic : string) (msg : Msg) : M bus (list nat) := λ b,
  let rx := filter (λ s, regex_matches topic s) (subs_at b None) in
  let subscribers := subs_at b (Some topic) ++ rx in
  let b' := match subscriptions b !! Some topic with
            | Some _ => mk_bus (<[Some topic := subscribers]> (subscriptions b))
                               (subs_topic_map b) (next_id b)
            | None => b
            end in
  (Ok (s_id <$> filter (λ s, accepts msg s) subscribers), b').

Fixpoint publish_n (n : nat) (topic : string) (msg : Msg) : M bus unit :=
  match n with
  | 0 => mret tt
  | S n => _ ← publish topic msg; publish_n n topic msg
  end.

(** ** Lemmas *)

Lemma publish_bus topic msg b :
  ∃ subs, (publish topic msg b).2 =
          mk_bus subs (subs_topic_map b) (next_id b) ∧
  (∀ k, k ≠ Some topic → subs !! k = subscriptions b !! k) ∧
  subs !! Some topic =
    (λ l, l ++ filter (λ s, regex_matches topic s) (subs_at b None)) <$>
      subscriptions b !! Some topic.
Proof.
  unfold publish, subs_at. destruct b as [subs tm n]; simpl.
  destruct (subs !! Some topic) as [l|] eqn:Hl; simpl.
  - eexists. split; [done|]. split.
    + intros k Hk. by rewrite lookup_insert_ne.
    + by rewrite lookup_insert_eq.
  - exists subs. by rewrite Hl.
Qed.

Lemma publish_subs_at_None topic msg b :
  subs_at (publish topic msg b).2 None = subs_at b None.
Proof.
  destruct (publish_bus topic msg b) as (subs & -> & Hk & _).
  unfold subs_at. simpl. by rewrite Hk.
Qed.

Lemma publish_n_subs n topic msg b l :
  subscriptions b !! Some topic = Some l →
  ∃ b', publish_n n topic msg b = (Ok tt, b') ∧
    subs_at b' None = subs_at b None ∧
    subscriptions b' !! Some topic =
      Some (l ++ concat (replicate n
                 (filter (λ s, regex_matches topic s) (subs_at b None)))).
Proof.
  revert b l. induction n as [|n IH]; intros b l Hl; simpl.
  - exists b. by rewrite app_nil_r.
  - destruct (publish_bus topic msg b) as (subs & Hb & Hk & Ht).
    rewrite Hl in Ht. simpl in Ht.
    destruct (IH (publish topic msg b).2
                 (l ++ filter (λ s, regex_matches topic s) (subs_at b None)))
      as (b' & Hp & HN & Hs).
    { by rewrite Hb. }
    exists b'. rewrite publish_subs_at_None in HN, Hs.
    rewrite <-app_assoc in Hs. done.
Qed.

Lemma remove_first_elem i l l' :
  remove_first i l = Ok l' → ∃ s l1 l2,
    l = l1 ++ s :: l2 ∧ l' = l1 ++ l2 ∧ s_id s = i ∧ i ∉ s_id <$> l1.
Proof.
  revert l'. induction l as [|s l IH]; simpl; [done|]. intros l'.
  case_decide as Hi.
  - intros [= <-]. exists s, [], l. split_and!; try done. apply not_elem_of_nil.
  - destruct (remove_first i l) as [k|] eqn:Hr; [|done]. intros [= <-].
    destruct (IH k eq_refl) as (s' & l1 & l2 & -> & -> & Hs & Hn).
    exists s', (s :: l1), l2. split_and!; try done. csimpl.
    apply not_elem_of_cons. naive_solver.
Qed.

Lemma remove_first_in i l : i ∈ s_id <$> l → ∃ l', remove_first i l = Ok l'.
Proof.
  induction l as [|s l IH]; csimpl; [by intros ?%not_elem_of_nil|].
  case_decide as Hi; [eauto|]. intros [->|Hin]%elem_of_cons; [done|].
  destruct (IH Hin) as [l' ->]. eauto.
Qed.

(** ** Reachable buses *)

Inductive bus_step : bus → bus → Prop :=
  | step_subscribe topic cb p b r b' :
      subscribe topic cb p b = (r, b') → bus_step b b'
  | step_unsubscribe s b r b' :
      unsubscribe s b = (r, b') → bus_step b b'
  | step_publish topic msg b r b' :
      publish topic msg b = (r, b') → bus_step b b'.

Definition reachable (b : bus) : Prop := rtc bus_step empty_bus b.

Definition is_str (s : subscription) : bool :=
  match s_topic s with TopicStr _ => true | _ => false end.

Definition stored (b : bus) (s : subscription) : Prop :=
  ∃ key l, subscriptions b !! key = Some l ∧ s ∈ l.

(** What holds of every reachable bus: identities are allocated once; a
    string subscription sits under its own topic only, at most once. *)
Record bus_ok (b : bus) : Prop := mk_bus_ok {
  ok_fresh s : stored b s → s_id s < next_id b;
  ok_ids s s' : stored b s → stored b s' → s_id s = s_id s' → s = s';
  ok_key key l s t : subscriptions b !! key = Some l → s ∈ l →
    s_topic s = TopicStr t → key = Some t;
  ok_mapped s t : stored b s → s_topic s = TopicStr t →
    subs_topic_map b !! s_id s = Some (Some t);
  ok_once key l : subscriptions b !! key = Some l →
    NoDup (s_id <$> filter (λ s, is_str s) l);
}.

Lemma empty_bus_ok : bus_ok empty_bus.
Proof.
  split; simpl.
  - intros s (key & l & Hl & _). simpl in Hl. by rewrite lookup_empty in Hl.
  - intros s s' (key & l & Hl & _). simpl in Hl. by rewrite lookup_empty in Hl.
  - intros key l s t Hl. simpl in Hl. by rewrite lookup_empty in Hl.
  - intros s t (key & l & Hl & _). simpl in Hl. by rewrite lookup_empty in Hl.
  - intros key l Hl. simpl in Hl. by rewrite lookup_empty in Hl.
Qed.

(** Replacing one list by a list of subscriptions already stored keeps the
    invariant when the new list respects keys and multiplicity. *)
Lemma bus_ok_set b key l :
  bus_ok b →
  (∀ s, s ∈ l → stored b s) →
  (∀ s t, s ∈ l → s_topic s = TopicStr t → key = Some t) →
  NoDup (s_id <$> filter (λ s, is_str s) l) →
  bus_ok (mk_bus (<[key := l]> (subscriptions b)) (subs_topic_map b) (next_id b)).
Proof.
  intros Hok Hst Hkey Hnd.
  assert (∀ s, stored (mk_bus (<[key := l]> (subscriptions b))
            (subs_topic_map b) (next_id b)) s → stored b s) as Hback.
  { intros s (k & l' & Hl & Hs). simpl in Hl.
    destruct (decide (key = k)) as [->|Hne].
    - rewrite lookup_insert_eq in Hl. naive_solver.
    - rewrite lookup_insert_ne in Hl by done. by exists k, l'. }
  split; simpl.
  - intros s Hs. by apply (ok_fresh b Hok), Hback.
  - intros s s' Hs Hs'. by apply (ok_ids b Hok); apply Hback.
  - intros k l' s t Hl Hs Ht. destruct (decide (key = k)) as [->|Hne].
    + rewrite lookup_insert_eq in Hl. naive_solver.
    + rewrite lookup_insert_ne in Hl by done. by eapply (ok_key b Hok).
  - intros s t Hs. by apply (ok_mapped b Hok), Hback.
  - intros k l' Hl. destruct (decide (key = k)) as [->|Hne].
    + rewrite lookup_insert_eq in Hl. naive_solver.
    + rewrite lookup_insert_ne in Hl by done. by eapply (ok_once b Hok).
Qed.

Lemma subs_at_stored b key s : s ∈ subs_at b key → stored b s.
Proof.
  unfold subs_at. destruct (subscriptions b !! key) as [l|] eqn:Hl; simpl.
  - intros Hs. by exists key, l.
  - by intros ?%not_elem_of_nil.
Qed.

Lemma filter_rx_no_str topic (l : list subscription) :
  filter (λ s, is_str s) (filter (λ s, regex_matches topic s) l) = [].
Proof.
  induction l as [|s l IH]; [done|]. rewrite filter_cons. case_decide as Hm; [|done].
  rewrite filter_cons. rewrite decide_False; [done|].
  unfold regex_matches, is_str in *. destruct (s_topic s); simpl in *; tauto.
Qed.

Lemma publish_ok topic msg b : bus_ok b → bus_ok (publish topic msg b).2.
Proof.
  intros Hok. unfold publish. simpl.
  destruct (subscriptions b !! Some topic) as [l|] eqn:Hl; [|done].
  assert (subs_at b (Some topic) = l) as -> by (unfold subs_at; by rewrite Hl).
  apply bus_ok_set; [done| | |].
  - intros s [Hs|Hs]%elem_of_app; [by exists (Some topic), l|].
    apply list_elem_of_filter in Hs as [_ Hs]. by eapply subs_at_stored.
  - intros s t [Hs|Hs]%elem_of_app Ht; [by eapply (ok_key b Hok)|].
    apply list_elem_of_filter in Hs as [Hm _]. unfold regex_matches in Hm.
    by rewrite Ht in Hm.
  - rewrite filter_app, filter_rx_no_str, app_nil_r. by eapply (ok_once b Hok).
Qed.

Lemma unsubscribe_ok s b : bus_ok b → bus_ok (unsubscribe s b).2.
Proof.
  intros Hok. unfold unsubscribe.
  destruct (subs_topic_map b !! s_id s) as [key|]; [|done].
  destruct (subscriptions b !! key) as [l|] eqn:Hl; [|done].
  destruct (remove_first (s_id s) l) as [l'|] eqn:Hr; [|done]. simpl.
  apply remove_first_elem in Hr as (s' & l1 & l2 & -> & -> & _ & _).
  assert (∀ x, x ∈ l1 ++ l2 → x ∈ l1 ++ s' :: l2) as Hsub.
  { intros x. rewrite !elem_of_app, elem_of_cons. naive_solver. }
  apply bus_ok_set; [done| | |].
  - intros x Hx. exists key, (l1 ++ s' :: l2). auto.
  - intros x t Hx. eapply (ok_key b Hok); [done|]. auto.
  - eapply sublist_NoDup; [by eapply (ok_once b Hok)|].
    apply fmap_sublist. rewrite !filter_app. apply sublist_app; [done|].
    rewrite filter_cons. case_decide; [by apply sublist_cons|done].
Qed.

Lemma subscribe_ok topic cb p b : bus_ok b → bus_ok (subscribe topic cb p b).2.
Proof.
  intros Hok. unfold subscribe.
  destruct (get_topic_key topic) as [key|] eqn:Hk; [|done].
  cbv beta iota zeta delta [snd].
  set (s := mk_subscription (next_id b) p cb topic).
  assert (∀ x k l, <[key := subs_at b key ++ [s]]> (subscriptions b) !! k = Some l →
            x ∈ l → (x = s ∧ k = key) ∨
            ∃ l0, subscriptions b !! k = Some l0 ∧ x ∈ l0) as Hback.
  { intros x k l Hl Hx. destruct (decide (key = k)) as [->|Hne].
    - rewrite lookup_insert_eq in Hl. injection Hl as <-.
      apply elem_of_app in Hx as [Hx|Hx%list_elem_of_singleton]; [|by left].
      unfold subs_at in Hx. destruct (subscriptions b !! k) as [l0|]; simpl in Hx;
        [eauto | by apply not_elem_of_nil in Hx].
    - rewrite lookup_insert_ne in Hl by done. eauto. }
  assert (∀ x, stored b x → s_id x < next_id b) as Hfr by apply (ok_fresh b Hok).
  split; simpl.
  - intros x (k & l & Hl & Hx). destruct (Hback x k l Hl Hx) as [[-> _]|(l0 & ? & ?)];
      [simpl; lia|]. enough (s_id x < next_id b) by lia. apply Hfr. by exists k, l0.
  - intros x x' (k & l & Hl & Hx) (k' & l' & Hl' & Hx') Heq.
    destruct (Hback x k l Hl Hx) as [[-> _]|(l0 & ? & ?)];
    destruct (Hback x' k' l' Hl' Hx') as [[-> _]|(l1 & ? & ?)]; try done.
    + simpl in Heq. enough (s_id x' < next_id b) by lia. apply Hfr. by exists k', l1.
    + simpl in Heq. enough (s_id x < next_id b) by lia. apply Hfr. by exists k, l0.
    + apply (ok_ids b Hok); [by exists k, l0|by exists k', l1|done].
  - intros k l x t Hl Hx Ht. destruct (Hback x k l Hl Hx) as [[-> ->]|(l0 & ? & ?)].
    + simpl in Ht. subst topic. simpl in Hk. congruence.
    + by eapply (ok_key b Hok).
  - intros x t (k & l & Hl & Hx) Ht.
    destruct (Hback x k l Hl Hx) as [[-> ->]|(l0 & ? & ?)].
    + rewrite lookup_insert_eq. simpl in Ht. subst topic. simpl in Hk. congruence.
    + assert (stored b x) as Hxs by (by exists k, l0).
      rewrite lookup_insert_ne; [by apply (ok_mapped b Hok)|].
      apply Hfr in Hxs. lia.
  - intros k l Hl. destruct (decide (key = k)) as [->|Hne].
    + rewrite lookup_insert_eq in Hl. injection Hl as <-.
      rewrite filter_app, fmap_app. apply NoDup_app. split_and!.
      * unfold subs_at. destruct (subscriptions b !! k) as [l0|] eqn:?; simpl;
          [by eapply (ok_once b Hok) | constructor].
      * intros i Hi Hi'. apply list_elem_of_fmap in Hi as (x & -> & Hx).
        apply list_elem_of_filter in Hx as [_ Hx]. apply subs_at_stored in Hx.
        apply Hfr in Hx. apply list_elem_of_fmap in Hi' as (y & Hy & Hin).
        apply list_elem_of_filter in Hin as [_ ->%list_elem_of_singleton].
        simpl in Hy. lia.
      * rewrite filter_cons. case_decide; csimpl; [apply NoDup_singleton|constructor].
    + rewrite lookup_insert_ne in Hl by done. by eapply (ok_once b Hok).
Qed.

Lemma step_ok b b' : bus_step b b' → bus_ok b → bus_ok b'.
Proof.
  destruct 1 as [? ? ? ? ? ? H|? ? ? ? H|? ? ? ? ? H]; intros Hok;
    apply (f_equal snd) in H; cbn [snd] in H; subst;
    auto using subscribe_ok, unsubscribe_ok, publish_ok.
Qed.

Lemma steps_ok b b' : rtc bus_step b b' → bus_ok b → bus_ok b'.
Proof. induction 1; eauto using step_ok. Qed.

Lemma reachable_ok b : reachable b → bus_ok b.
Proof. intros H. eapply steps_ok; [done|]. apply empty_bus_ok. Qed.

(** The identities a publication reaches are stored at the topic, or under
    [None] with a matching expression. *)
Lemma publish_ids topic msg b ids b' i :
  publish topic msg b = (Ok ids, b') → i ∈ ids →
  ∃ s, s_id s = i ∧ stored b s ∧
       (s ∈ subs_at b (Some topic) ∨ regex_matches topic s = true).
Proof.
  unfold publish. intros [= <- _] Hi.
  apply list_elem_of_fmap in Hi as (s & -> & Hs).
  apply list_elem_of_filter in Hs as [_ [Hs|Hs]%elem_of_app].
  - exists s. split_and!; [done|by eapply subs_at_stored|by left].
  - apply list_elem_of_filter in Hs as [Hm Hs].
    exists s. split_and!; [done|by eapply subs_at_stored|right].
    by destruct (regex_matches topic s).
Qed.

Lemma subs_at_once b key :
  bus_ok b → NoDup (s_id <$> filter (λ s, is_str s) (subs_at b key)).
Proof.
  intros Hok. unfold subs_at. destruct (subscriptions b !! key) as [l|] eqn:Hl; simpl.
  - by eapply (ok_once b Hok).
  - constructor.
Qed.

(** An identity that is allocated but stored nowhere never comes back. *)
Definition gone (i : nat) (b : bus) : Prop :=
  i < next_id b ∧ ∀ s, stored b s → s_id s ≠ i.

Lemma step_gone i b b' : bus_step b b' → gone i b → gone i b'.
Proof.
  intros Hstep [Hi Hg]. destruct Hstep as [tp cb p b r b' H|x b r b' H|tp msg b r b' H];
    apply (f_equal snd) in H; cbn [snd] in H; subst.
  - unfold subscribe. destruct (get_topic_key tp) as [key|]; [|done].
    split; simpl; [lia|]. intros s (k & l & Hl & Hs). simpl in Hl.
    destruct (decide (key = k)) as [->|Hne].
    + rewrite lookup_insert_eq in Hl. injection Hl as <-.
      apply elem_of_app in Hs as [Hs| ->%list_elem_of_singleton]; [|simpl; lia].
      by apply Hg, (subs_at_stored b k).
    + rewrite lookup_insert_ne in Hl by done. apply Hg. by exists k, l.
  - unfold unsubscribe. destruct (subs_topic_map b !! s_id x) as [key|]; [|done].
    destruct (subscriptions b !! key) as [l|] eqn:Hl; [|done].
    destruct (remove_first (s_id x) l) as [l'|] eqn:Hr; [|done].
    apply remove_first_elem in Hr as (s' & l1 & l2 & -> & -> & _ & _).
    split; simpl; [done|]. intros s (k & l' & Hl' & Hs). simpl in Hl'.
    destruct (decide (key = k)) as [->|Hne].
    + rewrite lookup_insert_eq in Hl'. injection Hl' as <-. apply Hg.
      exists k, (l1 ++ s' :: l2). split; [done|].
      rewrite elem_of_app, elem_of_cons. apply elem_of_app in Hs. naive_solver.
    + rewrite lookup_insert_ne in Hl' by done. apply Hg. by exists k, l'.
  - unfold publish. simpl. destruct (subscriptions b !! Some tp) as [l|] eqn:Hl; [|done].
    split; simpl; [done|]. intros s (k & l' & Hl' & Hs). simpl in Hl'.
    destruct (decide (Some tp = k)) as [<-|Hne].
    + rewrite lookup_insert_eq in Hl'. injection Hl' as <-.
      apply elem_of_app in Hs as [Hs|Hs]; [by apply Hg, (subs_at_stored b (Some tp))|].
      apply list_elem_of_filter in Hs as [_ Hs]. by apply Hg, (subs_at_stored b None).
    + rewrite lookup_insert_ne in Hl' by done. apply Hg. by exists k, l'.
Qed.

Lemma steps_gone i b b' : rtc bus_step b b' → gone i b → gone i b'.
Proof. induction 1; eauto using step_gone. Qed.

End event_bus.
Arguments subscription : clear implicits.
Arguments bus : clear implicits.

(** ** Delivery *)

(** How often a publication reaches the identity [i]. *)
Definition hits (i : nat) (ids : list nat) : nat := length (filter (λ j, j = i) ids).

Lemma hits_cons i j ids : hits i (j :: ids) = (if decide (j = i) then 1 else 0) + hits i ids.
Proof. unfold hits. rewrite filter_cons. by case_decide. Qed.

Lemma hits_app i k1 k2 : hits i (k1 ++ k2) = hits i k1 + hits i k2.
Proof. unfold hits. by rewrite filter_app, length_app. Qed.

Lemma hits_absent i ids : i ∉ ids → hits i ids = 0.
Proof.
  induction ids as [|j ids IH]; [done|]. rewrite not_elem_of_cons, hits_cons.
  intros [Hne Hni]. by rewrite decide_False, IH by done.
Qed.

Lemma accepted_ids {Msg} msg (l : list (subscription Msg)) i :
  i ∉ s_id <$> l → i ∉ s_id <$> filter (λ s, accepts msg s) l.
Proof.
  intros Hni Hin. apply Hni. apply list_elem_of_fmap in Hin as (y & -> & Hy).
  apply list_elem_of_filter in Hy as [_ Hy]. apply list_elem_of_fmap. eauto.
Qed.

(** A list whose string subscriptions are distinct reaches each of them once. *)
Lemma hits_once {Msg} (l : list (subscription Msg)) (s : subscription Msg) msg :
  is_str s = true → s ∈ l →
  (∀ x, x ∈ l → s_id x = s_id s → x = s) →
  NoDup (s_id <$> filter (λ s, is_str s) l) →
  hits (s_id s) (s_id <$> filter (λ s, accepts msg s) l) =
  if accepts msg s then 1 else 0.
Proof.
  intros Hstr. induction l as [|x l IH]; intros Hs Huniq Hnd.
  { by apply not_elem_of_nil in Hs. }
  assert (∀ y, y ∈ l → s_id y = s_id s → y = s) as Huniq'.
  { intros y Hy. apply Huniq. by right. }
  rewrite !filter_cons in Hnd |- *.
  destruct (decide (s_id x = s_id s)) as [Heq|Hne].
  - assert (x = s) as -> by (apply Huniq; [left|done]).
    rewrite Hstr in Hnd. simpl in Hnd. apply NoDup_cons in Hnd as [Hni _].
    assert (s_id s ∉ s_id <$> l) as Hni'.
    { intros Hin. apply Hni. apply list_elem_of_fmap in Hin as (y & Hy & Hin).
      rewrite (Huniq' y) in Hin by done. apply list_elem_of_fmap. exists s.
      split; [done|]. apply list_elem_of_filter. by rewrite Hstr. }
    apply (accepted_ids msg) in Hni'. destruct (accepts msg s); csimpl.
    + by rewrite hits_cons, decide_True, hits_absent.
    + by rewrite hits_absent.
  - apply elem_of_cons in Hs as [->|Hs]; [done|].
    rewrite <-IH; [|done|done|].
    + destruct (decide (accepts msg x)); csimpl; [|done].
      by rewrite hits_cons, decide_False.
    + case_decide; [by apply NoDup_cons in Hnd as [_ ?] | done].
Qed.

Lemma stored_str_at {Msg} (b : bus Msg) s t :
  bus_ok b → stored b s → s_topic s = TopicStr t → s ∈ subs_at b (Some t).
Proof.
  intros Hok (key & l & Hl & Hs) Ht. unfold subs_at.
  rewrite <-(ok_key b Hok key l s t Hl Hs Ht), Hl. done.
Qed.

Lemma str_not_regex {Msg} (s : subscription Msg) t topic :
  s_topic s = TopicStr t → regex_matches topic s = false.
Proof. unfold regex_matches. by intros ->. Qed.

Lemma concat_replicate_comm {A} n (l : list A) :
  concat (replicate n l) ++ l = l ++ concat (replicate n l).
Proof.
  induction n as [|n IH]; simpl; [by rewrite app_nil_r|]. by rewrite <-app_assoc, IH.
Qed.

(** On every reachable bus a subscription to the string topic [t] is
    called exactly once by a publication on [t] whose message passes its
    predicate, and never by any other publication. *)
Theorem string_subscriber_once {Msg} (b b' : bus Msg) topic msg ids s t :
  reachable b → stored b s → s_topic s = TopicStr t →
  publish topic msg b = (Ok ids, b') →
  hits (s_id s) ids =
    if decide (topic = t) then (if accepts msg s then 1 else 0) else 0.
Proof.
  intros Hr Hst Ht Hp. apply reachable_ok in Hr as Hok.
  case_decide as Htt.
  - subst topic. unfold publish in Hp. injection Hp as <- _.
    rewrite filter_app, fmap_app, hits_app, (hits_absent _ (_ <$> filter _ (filter _ _))).
    + rewrite Nat.add_0_r. apply hits_once; [|by apply stored_str_at| |by apply subs_at_once].
      * unfold is_str. by rewrite Ht.
      * intros x Hx. apply (ok_ids b Hok); [by eapply subs_at_stored|done].
    + apply accepted_ids. intros Hin. apply list_elem_of_fmap in Hin as (x & Hid & Hx).
      apply list_elem_of_filter in Hx as [Hm Hx]. apply subs_at_stored in Hx.
      rewrite (ok_ids b Hok s x Hst Hx Hid) in Ht. by rewrite (str_not_regex x t) in Hm.
  - apply hits_absent. intros Hin.
    destruct (publish_ids topic msg b ids b' _ Hp Hin) as (x & Hid & Hx & Hwhere).
    assert (x = s) as -> by (by apply (ok_ids b Hok)).
    destruct Hwhere as [Hat|Hm]; [|by rewrite (str_not_regex s t) in Hm].
    unfold subs_at in Hat. destruct (subscriptions b !! Some topic) as [l|] eqn:Hl.
    + pose proof (ok_key b Hok _ _ _ _ Hl Hat Ht). congruence.
    + by apply not_elem_of_nil in Hat.
Qed.

(** Unsubscribing a string subscription succeeds on every reachable bus
    and is final: whatever is done on the bus afterwards, no publication
    reaches it again. *)
Theorem unsubscribe_string_final {Msg} (b : bus Msg) s t :
  reachable b → stored b s → s_topic s = TopicStr t →
  ∃ b1, unsubscribe s b = (Ok tt, b1) ∧
    ∀ b2 topic msg ids b3, rtc bus_step b1 b2 →
      publish topic msg b2 = (Ok ids, b3) → s_id s ∉ ids.
Proof.
  intros Hr Hst Ht. apply reachable_ok in Hr as Hok.
  pose proof (stored_str_at b s t Hok Hst Ht) as Hat.
  unfold unsubscribe. rewrite (ok_mapped b Hok s t Hst Ht).
  unfold subs_at in Hat. destruct (subscriptions b !! Some t) as [l|] eqn:Hl;
    [|by apply not_elem_of_nil in Hat]. simpl in Hat.
  destruct (remove_first_in (s_id s) l) as [l' Hr'];
    [apply list_elem_of_fmap; eauto|]. rewrite Hr'.
  eexists; split; [done|]. intros b2 topic msg ids b3 Hsteps Hp Hin.
  destruct (publish_ids topic msg b2 ids b3 _ Hp Hin) as (x & Hid & Hx & _).
  eapply (steps_gone (s_id s)); [done| |done|done].
  split; simpl; [by apply (ok_fresh b Hok)|].
  intros y (k & ly & Hly & Hy) Hyid. simpl in Hly.
  apply remove_first_elem in Hr' as (s' & l1 & l2 & -> & -> & Hs' & Hni).
  destruct (decide (Some t = k)) as [<-|Hne].
  - rewrite lookup_insert_eq in Hly. injection Hly as <-.
    assert (s' = s) as ->.
    { apply (ok_ids b Hok); [|done|done]. exists (Some t), (l1 ++ s' :: l2).
      split; [done|]. rewrite elem_of_app, elem_of_cons. auto. }
    assert (y = s) as ->.
    { apply (ok_ids b Hok); [|done|done]. exists (Some t), (l1 ++ s :: l2).
      split; [done|]. rewrite elem_of_app, elem_of_cons. apply elem_of_app in Hy. naive_solver. }
    pose proof (ok_once b Hok _ _ Hl) as Hnd.
    rewrite filter_app, filter_cons, fmap_app in Hnd.
    rewrite decide_True in Hnd by (unfold is_str; by rewrite Ht).
    apply elem_of_app in Hy as [Hy|Hy]; [apply Hni; apply list_elem_of_fmap; eauto|].
    apply NoDup_app in Hnd as (_ & _ & Hnd). csimpl in Hnd. apply NoDup_cons in Hnd as [Hnd _].
    apply Hnd. apply list_elem_of_fmap. exists s. split; [done|].
    apply list_elem_of_filter. split; [unfold is_str; by rewrite Ht|done].
  - rewrite lookup_insert_ne in Hly by done.
    assert (y = s) as ->.
    { apply (ok_ids b Hok); [|done|done]. by exists k, ly. }
    by rewrite (ok_key b Hok _ _ _ _ Hly Hy Ht) in Hne.
Qed.

(** The list object [publish] extends is the stored one, so matching
    regular-expression subscriptions accumulate: once a topic has a string
    subscription, the [n]+1st publication calls each of them [n]+1 times. *)
Theorem regex_subscribers_accumulate {Msg} (b : bus Msg) topic l msg msg' n :
  subscriptions b !! Some topic = Some l →
  ∃ b1 b2, publish_n n topic msg b = (Ok tt, b1) ∧
    publish topic msg' b1 =
      (Ok (s_id <$> filter (λ s, accepts msg' s)
             (l ++ concat (replicate (S n)
                (filter (λ s, regex_matches topic s) (subs_at b None))))), b2).
Proof.
  intros Hl. destruct (publish_n_subs n topic msg b l Hl) as (b1 & Hn & HN & Hs).
  exists b1. eexists. split; [done|]. unfold publish. rewrite HN.
  unfold subs_at at 1. rewrite Hs. simpl. by rewrite <-app_assoc, concat_replicate_comm.
Qed.

(** A regular-expression subscription keeps being called after a
    successful unsubscribe, when the topic has a string subscription and was
    published to in between. *)
Theorem regex_subscriber_survives_unsubscribe {Msg} (b : bus Msg) topic l s msg msg' :
  subscriptions b !! Some topic = Some l → s ∈ subs_at b None →
  subs_topic_map b !! s_id s = Some None →
  regex_matches topic s = true → accepts msg' s = true →
  ∃ i1 b1 b2 ids b3, publish topic msg b = (Ok i1, b1) ∧
    unsubscribe s b1 = (Ok tt, b2) ∧
    publish topic msg' b2 = (Ok ids, b3) ∧ s_id s ∈ ids.
Proof.
  intros Hl Hs Hm Hrx Hacc.
  destruct (subscriptions b !! None) as [lN|] eqn:HN;
    [|unfold subs_at in Hs; rewrite HN in Hs; by apply not_elem_of_nil in Hs].
  assert (subs_at b None = lN) as HsN by (unfold subs_at; by rewrite HN).
  destruct (remove_first_in (s_id s) lN) as [lN' HlN'];
    [apply list_elem_of_fmap; rewrite HsN in Hs; eauto|].
  destruct (publish topic msg b) as [r b1] eqn:Hp. unfold publish in Hp.
  rewrite Hl in Hp. injection Hp as <- <-. do 5 eexists. split; [done|].
  unfold unsubscribe. simpl. rewrite Hm, lookup_insert_ne, HN, HlN' by done.
  split; [done|]. unfold publish. split; [done|].
  apply list_elem_of_fmap. exists s. split; [done|].
  apply list_elem_of_filter. split; [by rewrite Hacc|]. apply elem_of_app. left.
  unfold subs_at. simpl. rewrite lookup_insert_ne, lookup_insert_eq by done. simpl.
  apply elem_of_app. right. apply list_elem_of_filter. split; [by rewrite Hrx|].
  exact Hs.
Qed.

(** ** Witnesses: a bus with one string and one expression subscription *)

Definition demo_cb : string → nat → result unit := λ _ _, Ok tt.
Definition demo_sub0 : subscription nat :=
  mk_subscription 0 None demo_cb (TopicStr "a").
Definition demo_sub1 : subscription nat :=
  mk_subscription 1 (Some (λ n, Ok (bool_decide (n < 10)))) demo_cb
    (TopicRegex (λ t, bool_decide (t = "a"))).
Definition demo_bus1 : bus nat :=
  (subscribe (TopicStr "a") demo_cb None empty_bus).2.
Definition demo_bus : bus nat :=
  (subscribe (s_topic demo_sub1) demo_cb (s_predicate demo_sub1) demo_bus1).2.

Lemma bus_demo_reachable : reachable demo_bus.
Proof.
  eapply rtc_l; [by eapply (step_subscribe (TopicStr "a") demo_cb None)|].
  apply rtc_once. by eapply (step_subscribe (s_topic demo_sub1)).
Qed.

Lemma demo_stored : stored demo_bus demo_sub0.
Proof. exists (Some "a"), [demo_sub0]. split; [done|left]. Qed.

Lemma string_subscriber_once_witness :
  hits 0 ((s_id <$> [demo_sub0; demo_sub1])) = 1.
Proof.
  exact (string_subscriber_once demo_bus _ "a" 3 _ demo_sub0 "a"
           bus_demo_reachable demo_stored eq_refl eq_refl).
Defined.

Lemma unsubscribe_string_final_witness :
  ∃ b1, unsubscribe demo_sub0 demo_bus = (Ok tt, b1) ∧
    ∀ b2 topic msg ids b3, rtc bus_step b1 b2 →
      publish topic msg b2 = (Ok ids, b3) → 0 ∉ ids.
Proof.
  exact (unsubscribe_string_final demo_bus demo_sub0 "a"
           bus_demo_reachable demo_stored eq_refl).
Defined.

Lemma regex_subscribers_accumulate_witness :
  ∃ b1 b2, publish_n 2 "a" 3 demo_bus = (Ok tt, b1) ∧
    publish "a" 4 b1 = (Ok [0; 1; 1; 1], b2).
Proof.
  exact (regex_subscribers_accumulate demo_bus "a" [demo_sub0] 3 4 2 eq_refl).
Defined.

Lemma regex_subscriber_survives_unsubscribe_witness :
  ∃ i1 b1 b2 ids b3, publish "a" 3 demo_bus = (Ok i1, b1) ∧
    unsubscribe demo_sub1 b1 = (Ok tt, b2) ∧
    publish "a" 4 b2 = (Ok ids, b3) ∧ 1 ∈ ids.
Proof.
  apply (regex_subscriber_survives_unsubscribe demo_bus "a" [demo_sub0] demo_sub1 3 4);
    try reflexivity. left.
Defined.
