(* ===== verification/ConfigRev.v ===== *)
(** * Configuration revisions (voltha/core/config/config_rev.py, config_branch.py)

    A [ConfigRevision] is immutable, so the model keeps it by value: its
    identity, the immutable part of the branch object it points to (the node
    and the transaction id), its [ConfigDataRevision], the lists of child
    revisions per field, and its hash.  Python compares revisions by identity
    ([==] on lists of revisions included), which is [r_id].

    Protobuf messages, their descriptors and MD5 are third-party code: they
    are the fields of the class [Env], and what the theorems need of them is
    stated as laws where it is used. *)

From Stdlib Require Import Ascii.
From stdpp Require Import prelude strings gmap list.
From S2P Require Import Prelude.

(** ** Descriptors (google.protobuf.descriptor) and field values *)

Inductive key_type : Type := TYPE_STRING | TYPE_INTEGRAL | TYPE_OTHER.
Inductive access : Type := CONFIG | READ_ONLY | REAL_TIME.

#[export] Instance access_eq_dec : EqDecision access.
Proof. solve_decision. Defined.

Record field_desc : Type := mk_field_desc {
  fd_name : string;
  fd_label : Z;                      (** 3 is LABEL_REPEATED *)
  fd_has_options : bool;
  fd_child_node : option string;     (** the child_node option's [key], may be empty *)
  fd_access : option access;         (** the access option *)
  fd_key_type : key_type;            (** type of the key field in [message_type] *)
  fd_module : string;
  fd_type : string;                  (** name of the concrete class *)
}.

(** The value of a scalar attribute; other values are compared as a code. *)
Inductive attr : Type := AStr (s : string) | AInt (z : Z) | AOther (p : positive).

#[export] Instance attr_eq_dec : EqDecision attr.
Proof. solve_decision. Defined.

(** ** The third-party environment *)
Class Env : Type := {
  msg : Type;
  msg_eq_dec :: EqDecision msg;
  hash : Type;
  hash_eq_dec :: EqDecision hash;
  hash_countable :: Countable hash;
  DESCRIPTOR : string → list field_desc;
  msg_type : msg → string;                        (* m.__class__.__name__ *)
  getattr : msg → string → attr;                  (* scalar getattr *)
  get_repeated : msg → string → list msg;         (* getattr of a repeated message field *)
  get_message : msg → string → msg;               (* getattr of a message field *)
  HasField : msg → string → bool;
  ClearField : msg → string → msg;
  add_MergeFrom : msg → string → msg → msg;       (* getattr(m, f).add().MergeFrom(c) *)
  MergeFrom : msg → string → msg → msg;           (* getattr(m, f).MergeFrom(c) *)
  msg_depth : msg → nat;                          (* nesting of a message *)
  md5_data : msg → hash;                          (* hash of module, class and serialization *)
  md5_content : hash → list hash → hash;          (* hash of the config and children hashes *)
}.

(** ** Field metadata *)

(** Python's [int(s)] on a string: surrounding blanks, a sign, digits. *)
Definition is_blank (a : Ascii.ascii) : bool :=
  bool_decide (a = " "%char ∨ a = "009"%char ∨ a = "010"%char ∨ a = "011"%char
               ∨ a = "012"%char ∨ a = "013"%char).
Fixpoint lstrip (l : list Ascii.ascii) : list Ascii.ascii :=
  match l with
  | a :: l' => if is_blank a then lstrip l' else l
  | [] => []
  end.
Definition strip (l : list Ascii.ascii) : list Ascii.ascii := rev (lstrip (rev (lstrip l))).
Definition digit_of (a : Ascii.ascii) : option Z :=
  let n := Z.of_N (Ascii.N_of_ascii a) in
  if bool_decide (48 ≤ n ∧ n ≤ 57)%Z then Some (n - 48)%Z else None.
Fixpoint digits (acc : Z) (l : list Ascii.ascii) : option Z :=
  match l with
  | [] => Some acc
  | a :: l => d ← digit_of a; digits (acc * 10 + d)%Z l
  end.
Definition int_of_string (s : string) : result Z :=
  let digits1 (l : list Ascii.ascii) : option Z :=
    match l with [] => None | _ => digits 0 l end in
  of_option ValueError
    match strip (String.list_ascii_of_string s) with
    | "-"%char :: l => Z.opp <$> digits1 l
    | "+"%char :: l => digits1 l
    | l => digits1 l
    end.

Record child_type : Type := mk_child_type {
  ct_module : string;
  ct_type : string;
  is_container : bool;
  ct_key : option string;                  (** [None] for an empty key *)
  key_from_str : string → result attr;
}.

(** Transactions and node objects are named by numbers. *)
Notation txid := nat (only parsing).
Notation node_id := nat (only parsing).

Section config_rev.
Context `{Env}.

(** [children_fields]: the caching of the result is not observable. *)
Definition child_field (f : field_desc) : result (option (string * child_type)) :=
  if fd_has_options f then
    match fd_child_node f with
    | None => Ok None
    | Some metakey =>
        conv ← (if bool_decide (metakey = "") then Ok (λ _ : string, Raise TypeError)
                else match fd_key_type f with
                     | TYPE_STRING => Ok (λ s : string, Ok (AStr s))
                     | TYPE_INTEGRAL =>
                         Ok (λ s : string, z ← int_of_string s; Ok (AInt z))
                     | TYPE_OTHER => Raise NotImplementedError
                     end);
        Ok (Some (fd_name f,
                  mk_child_type (fd_module f) (fd_type f)
                    (bool_decide (fd_label f = 3%Z))
                    (if bool_decide (metakey = "") then None else Some metakey) conv))
    end
  else Ok None.

Definition children_fields (cls : string) : result (list (string * child_type)) :=
  l ← mapM child_field (DESCRIPTOR cls);
  Ok (od_of_list (omap id l)).

(** [access_rights] *)
Definition access_rights (cls : string) : list (string * access) :=
  od_of_list (omap (λ f, if fd_has_options f
                         then (λ a, (fd_name f, a)) <$> fd_access f else None)
                   (DESCRIPTOR cls)).

(** [check_access_violation] of config_node.py *)
Definition check_access_violation (new_msg old_msg : msg) : result unit :=
  if forallb (λ fa, negb (bool_decide (fa.2 = READ_ONLY)) ||
                    bool_decide (getattr new_msg fa.1 = getattr old_msg fa.1))
       (access_rights (msg_type new_msg))
  then Ok tt else Raise ValueError.

(** ** Revisions *)

(** [ConfigDataRevision] *)
Record cfg : Type := mk_cfg { c_hash : hash; c_data : msg }.
Definition ConfigDataRevision (data : msg) : cfg := mk_cfg (md5_data data) data.


(** The attributes of a [ConfigBranch] a revision reads through [_branch]. *)
Record branch_ref : Type := mk_branch_ref { br_node : node_id; br_txid : option txid }.

(** [ConfigRevision] *)
Inductive rev : Type :=
  Rev (r_id : nat) (r_branch : branch_ref) (r_config : cfg)
      (r_children : list (string * list rev)) (r_hash : hash).

Definition r_id (r : rev) : nat := let 'Rev i _ _ _ _ := r in i.
Definition r_branch (r : rev) : branch_ref := let 'Rev _ b _ _ _ := r in b.
Definition r_config (r : rev) : cfg := let 'Rev _ _ c _ _ := r in c.
Definition r_children (r : rev) : list (string * list rev) := let 'Rev _ _ _ c _ := r in c.
Definition r_hash (r : rev) : hash := let 'Rev _ _ _ _ h := r in h.
Definition r_data (r : rev) : msg := c_data (r_config r).
(** [ConfigRevision.node] *)
Definition r_node (r : rev) : node_id := br_node (r_branch r).

(** Induction over a revision and all revisions below it. *)
Fixpoint rev_ind' (P : rev → Prop)
    (IH : ∀ i b c ch h, (∀ f l x, (f, l) ∈ ch → x ∈ l → P x) → P (Rev i b c ch h))
    (r : rev) : P r.
Proof.
  destruct r as [i b c ch h]. apply IH.
  induction ch as [|[f l] ch IHch]; intros f' l' x Hin.
  - by apply not_elem_of_nil in Hin.
  - apply elem_of_cons in Hin as [[= -> ->]|Hin].
    + clear IHch. induction l as [|y l IHl]; intros Hx.
      * by apply not_elem_of_nil in Hx.
      * apply elem_of_cons in Hx as [->|Hx]; [apply rev_ind', IH | by apply IHl].
    + by apply (IHch f' l' x).
Qed.

(** [ConfigRevision._hash_content]: all children hashes in dict order, the
    boundaries between fields are not hashed. *)
Definition hash_content (c : cfg) (children : list (string * list rev)) : hash :=
  md5_content (c_hash c) (concat (map (λ fl : string * list rev, map r_hash fl.2) children)).

(** [lst1 == lst2] on lists of revisions: element identities. *)
Definition same_revs (l k : list rev) : bool :=
  bool_decide (map r_id l = map r_id k).

(** [ConfigRevision.get]: the children are assembled in the order of the field
    metadata; [depth] is decremented per level and never reaches 0 from below. *)
Definition assemble (field : string * child_type) (sub : list (result msg)) (data : msg)
    : result msg :=
  if is_container field.2 then
    foldl (λ acc c, d ← acc; m ← c; Ok (add_MergeFrom d field.1 m)) (Ok data) sub
  else
    match sub with
    | [] => Raise IndexError
    | c :: _ => m ← c; Ok (MergeFrom data field.1 m)
    end.

Fixpoint rev_get (depth : Z) (r : rev) {struct r} : result msg :=
  match r with
  | Rev _ _ c children _ =>
      let below :=
        (fix go_fields (cs : list (string * list rev)) : list (string * list (result msg)) :=
           match cs with
           | [] => []
           | (f, l) :: cs =>
               (f, (fix go (l : list rev) : list (result msg) :=
                      match l with
                      | [] => []
                      | x :: l => rev_get (depth - 1)%Z x :: go l
                      end) l) :: go_fields cs
           end) children in
      if bool_decide (depth = 0%Z) then Ok (c_data c)
      else
        fields ← children_fields (msg_type (c_data c));
        foldl (λ acc field,
                 data ← acc;
                 sub ← of_option KeyError (od_get field.1 below);
                 assemble field sub data)
              (Ok (c_data c)) fields
  end.

(** The children of a revision as [rev_get] sees them. *)
Definition rev_below (depth : Z) (ch : list (string * list rev))
    : list (string * list (result msg)) :=
  (λ fl : string * list rev, (fl.1, map (rev_get (depth - 1)%Z) fl.2)) <$> ch.

Lemma rev_get_eq depth i b c ch h :
  rev_get depth (Rev i b c ch h) =
  if bool_decide (depth = 0%Z) then Ok (c_data c)
  else
    fields ← children_fields (msg_type (c_data c));
    foldl (λ acc field,
             data ← acc;
             sub ← of_option KeyError (od_get field.1 (rev_below depth ch));
             assemble field sub data)
          (Ok (c_data c)) fields.
Proof.
  simpl. case_bool_decide; [done|].
  match goal with
  | |- context [ od_get _ (?F ch) ] => assert (F ch = rev_below depth ch) as ->; [|done]
  end.
  unfold rev_below. induction ch as [|[f l] ch IH]; [done|]. csimpl. by rewrite IH.
Qed.

(** The data of a revision alone. *)
Lemma rev_get_0 r : rev_get 0 r = Ok (r_data r).
Proof. by destruct r. Qed.

End config_rev.
