(* ===== verification/ConfigStore.v ===== *)
(** * The mutable part of the configuration tree

    Nodes, branches and proxies are mutable Python objects shared by
    reference; they live in a [store], indexed by node.  A branch object is
    only written through the [_branches] dict of its node, so it is kept
    there.  This file holds the store and the primitive operations that the
    node operations share: [ConfigRevision.__init__]/[_finalize]/[update_*],
    [PersistedConfigRevision.store], [ConfigNode._make_latest],
    [ConfigNode._initialize], [ConfigNode._mk_txbranch] and
    [ConfigProxy.invoke_callbacks].

    The dictionaries of weak references ([_rev_cache] and, for nodes below the
    root, [_revs]) are modelled as ordinary dictionaries: entries whose last
    reference is dropped may vanish in Python, which only the accessors by
    hash can observe. *)

From stdpp Require Import prelude strings gmap list.
From S2P Require Import Prelude ConfigRev.

(** [CallbackType] of config_proxy.py *)
Inductive CallbackType : Type :=
  | GET | PRE_UPDATE | POST_UPDATE | PRE_ADD | POST_ADD | PRE_REMOVE | POST_REMOVE
  | POST_LISTCHANGE.

#[export] Instance CallbackType_eq_dec : EqDecision CallbackType.
Proof. solve_decision. Defined.

(** Registered callbacks are named; what a synchronous callback (GET and the
    PRE hooks) does with its argument is a parameter. *)
Definition cb : Type := nat.

Class Callbacks `{Env} : Type := { call_sync : cb → msg → result msg }.

Section config_store.
Context `{Env, !Callbacks}.

(** [OperationContext] or a message, the argument of a deferred callback. *)
Inductive change_data : Type := ChMsg (m : msg) | ChContext (field_name : string).

(** [ConfigProxy]: the fields of a proxy, the proxied node holding it. *)
Record proxy : Type := mk_proxy {
  px_path : string;
  px_exclusive : bool;
  px_callbacks : list (CallbackType * list cb);
}.

(** [ConfigBranch] *)
Record branch : Type := mk_branch {
  b_txid : option txid;
  b_origin : option rev;
  b_revs : gmap hash rev;
  b_latest : rev;
}.

(** [ConfigNode] *)
Record node : Type := mk_node {
  n_type : string;
  n_branches : gmap (option txid) branch;
  n_tags : gmap string rev;
  n_proxy : option proxy;
}.

(** What is kept under a hash in the key/value store. *)
Inductive blob : Type :=
  | BRev (children : list (string * list hash)) (config : hash)
  | BData (data : msg).

(** All the state reachable from a [ConfigRoot]. *)
Record store : Type := mk_store {
  st_nodes : gmap node_id node;
  st_next_node : node_id;
  st_next_rev : nat;
  st_next_tx : txid;
  st_cache : gmap hash cfg;                      (* _rev_cache *)
  st_dirty : gmap txid (gset node_id);           (* _dirty_nodes *)
  st_queue : list (node_id * CallbackType * change_data);  (* _deferred_callback_queue *)
  st_kv : option (gmap hash blob);               (* _kv_store without its root entry *)
  st_root_blob : option (hash * list (string * hash));     (* _kv_store of root *)
  st_loading : bool;
  st_fake : gset nat;      (* the revisions whose own _kv_store is a dictionary made while loading *)
}.

Definition root_id : node_id := 0.

Definition upd_nodes (f : gmap node_id node → gmap node_id node) (st : store) : store :=
  mk_store (f (st_nodes st)) (st_next_node st) (st_next_rev st) (st_next_tx st)
    (st_cache st) (st_dirty st) (st_queue st) (st_kv st) (st_root_blob st) (st_loading st) (st_fake st).
Definition upd_dirty (f : gmap txid (gset node_id) → gmap txid (gset node_id)) (st : store)
    : store :=
  mk_store (st_nodes st) (st_next_node st) (st_next_rev st) (st_next_tx st)
    (st_cache st) (f (st_dirty st)) (st_queue st) (st_kv st) (st_root_blob st) (st_loading st) (st_fake st).
Definition set_queue (q : list (node_id * CallbackType * change_data)) (st : store) : store :=
  mk_store (st_nodes st) (st_next_node st) (st_next_rev st) (st_next_tx st)
    (st_cache st) (st_dirty st) q (st_kv st) (st_root_blob st) (st_loading st) (st_fake st).
Definition set_root_blob (b : option (hash * list (string * hash))) (st : store) : store :=
  mk_store (st_nodes st) (st_next_node st) (st_next_rev st) (st_next_tx st)
    (st_cache st) (st_dirty st) (st_queue st) (st_kv st) b (st_loading st) (st_fake st).

Definition set_branch (k : option txid) (b : branch) (n : node) : node :=
  mk_node (n_type n) (<[k := b]> (n_branches n)) (n_tags n) (n_proxy n).
Definition del_branch (k : option txid) (n : node) : node :=
  mk_node (n_type n) (delete k (n_branches n)) (n_tags n) (n_proxy n).

(** Dereferencing: a node identity always comes from an object of the store. *)
Definition get_node (nid : node_id) : M store node := λ st,
  (of_option KeyError (st_nodes st !! nid), st).
Definition put_node (nid : node_id) (n : node) : M store unit :=
  modify (upd_nodes (<[nid := n]>)).

(** ** Creating revisions *)

(** [PersistedConfigRevision.store_config] and [store] *)
Definition store_config (c : cfg) (kv : gmap hash blob) : gmap hash blob :=
  match kv !! c_hash c with Some _ => kv | None => <[c_hash c := BData (c_data c)]> kv end.
Definition store_rev (r : rev) (kv : gmap hash blob) : gmap hash blob :=
  match kv !! r_hash r with
  | Some _ => kv
  | None =>
      <[r_hash r := BRev ((λ fl : string * list rev, (fl.1, map r_hash fl.2)) <$> r_children r)
                         (c_hash (r_config r))]>
        (store_config (r_config r) kv)
  end.

(** [ConfigRevision._finalize], with [PersistedConfigRevision._finalize] when
    the root has a key/value store: a data object whose hash is cached is
    replaced by the cached one.  A revision keeps the key/value store the root
    had when the revision was constructed, a dictionary of its own while the
    root loads, and a copy of a revision ([copied]) keeps that of the copied
    one. *)
Definition writes_fake (copied : option rev) (st : store) : bool :=
  match copied with
  | None => st_loading st
  | Some r => bool_decide (r_id r ∈ st_fake st)
  end.
Definition finalize (copied : option rev) (br : branch_ref) (c : cfg)
    (children : list (string * list rev)) : M store rev := λ st,
  let c' := default c (st_cache st !! c_hash c) in
  let r := Rev (st_next_rev st) br c' children (hash_content c children) in
  let fake := writes_fake copied st in
  (Ok r,
   mk_store (st_nodes st) (st_next_node st) (S (st_next_rev st)) (st_next_tx st)
     (<[c_hash c := c']> (st_cache st)) (st_dirty st) (st_queue st)
     (if fake then st_kv st else store_rev r <$> st_kv st)
     (st_root_blob st) (st_loading st)
     (if fake then {[st_next_rev st]} ∪ st_fake st else st_fake st)).

(** [ConfigRoot.mkrev], i.e. the constructor of the revision class *)
Definition mkrev (br : branch_ref) (data : msg) (children : list (string * list rev)) : M store rev :=
  finalize None br (ConfigDataRevision data) children.

(** [ConfigRevision.update_data], [update_children], [update_all_children] *)
Definition update_data (r : rev) (data : msg) (br : branch_ref) : M store rev :=
  finalize (Some r) br (ConfigDataRevision data) (r_children r).
Definition update_children (r : rev) (name : string) (children : list rev) (br : branch_ref)
    : M store rev :=
  finalize (Some r) br (r_config r) (od_set name children (r_children r)).
Definition update_all_children (r : rev) (children : list (string * list rev)) (br : branch_ref)
    : M store rev :=
  finalize (Some r) br (r_config r) children.

(** ** Callbacks *)

(** [ConfigProxy.invoke_callbacks] without [proceed_on_errors]: each callback
    gets what the previous one returned. *)
Definition invoke_callbacks (px : proxy) (ty : CallbackType) (context : msg) : result msg :=
  foldl (λ acc c, m ← acc; call_sync c m) (Ok context)
        (default [] (od_get ty (px_callbacks px))).

(** [register_callback] and [unregister_callback] *)
Definition register_callback (ty : CallbackType) (c : cb) (px : proxy) : proxy :=
  mk_proxy (px_path px) (px_exclusive px)
    (od_set ty (default [] (od_get ty (px_callbacks px)) ++ [c]) (px_callbacks px)).
Fixpoint list_remove (c : cb) (l : list cb) : result (list cb) :=
  match l with
  | [] => Raise ValueError
  | d :: l => if decide (c = d) then Ok l else k ← list_remove c l; Ok (d :: k)
  end.
Definition unregister_callback (ty : CallbackType) (c : cb) (px : proxy) : result proxy :=
  l ← list_remove c (default [] (od_get ty (px_callbacks px)));
  Ok (mk_proxy (px_path px) (px_exclusive px) (od_set ty l (px_callbacks px))).

(** ** Branches *)

(** [ConfigNode._make_latest], and [ConfigRoot._make_latest] on the root: the
    announcements are queued for the committed branch only. *)
Definition make_latest (nid : node_id) (k : option txid) (r : rev)
    (announcements : list (CallbackType * change_data)) : M store unit :=
  n ← get_node nid;
  b ← lift (of_option KeyError (n_branches n !! k));
  let revs := match b_revs b !! r_hash r with
              | Some _ => b_revs b | None => <[r_hash r := r]> (b_revs b) end in
  _ ← put_node nid (set_branch k (mk_branch (b_txid b) (b_origin b) revs r) n);
  _ ← modify (λ st,
        if bool_decide (b_txid b = None) && bool_decide (is_Some (n_proxy n))
        then set_queue (st_queue st ++ ((λ a, (nid, a.1, a.2)) <$> announcements)) st
        else st);
  modify (λ st,
    if bool_decide (nid = root_id) && bool_decide (is_Some (st_kv st))
       && bool_decide (b_txid b = None)
    then set_root_blob
           (Some (r_hash r, (λ kv : string * rev, (kv.1, r_hash kv.2)) <$>
                              map_to_list (n_tags n))) st
    else st).

(** [ConfigNode.latest] *)
Definition latest (nid : node_id) : M store rev :=
  n ← get_node nid;
  b ← lift (of_option KeyError (n_branches n !! None));
  mret (b_latest b).

(** [ConfigNode._mk_txbranch], [ConfigNode._del_txbranch] *)
Definition mk_txbranch_node (nid : node_id) (t : txid) : M store branch :=
  n ← get_node nid;
  c ← lift (of_option KeyError (n_branches n !! None));
  let b := mk_branch (Some t) (Some (b_latest c)) ∅ (b_latest c) in
  _ ← put_node nid (set_branch (Some t) b n);
  mret b.
Definition del_txbranch_node (nid : node_id) (t : txid) : M store unit :=
  n ← get_node nid;
  _ ← lift (of_option KeyError (n_branches n !! Some t));
  put_node nid (del_branch (Some t) n).

(** ** Creating nodes *)

Definition alloc_node (ty : string) : M store node_id := λ st,
  (Ok (st_next_node st),
   mk_store (<[st_next_node st := mk_node ty ∅ ∅ None]> (st_nodes st))
     (S (st_next_node st)) (st_next_rev st) (st_next_tx st) (st_cache st) (st_dirty st)
     (st_queue st) (st_kv st) (st_root_blob st) (st_loading st) (st_fake st)).

(** The loop over a keyed container: a duplicate key is noticed after the
    child node is created. *)
Fixpoint init_keyed (mk : msg → M store rev) (keyname : string) (vs : list msg)
    (keys_seen : list attr) : M store (list rev) :=
  match vs with
  | [] => mret []
  | v :: vs =>
      r ← mk v;
      if decide (getattr v keyname ∈ keys_seen) then raise ValueError
      else k ← init_keyed mk keyname vs (getattr v keyname :: keys_seen); mret (r :: k)
  end.
Fixpoint init_plain (mk : msg → M store rev) (vs : list msg) : M store (list rev) :=
  match vs with
  | [] => mret []
  | v :: vs => r ← mk v; k ← init_plain mk vs; mret (r :: k)
  end.
Definition init_field (mk : msg → M store rev) (name : string) (field : child_type)
    (data : msg) : M store (list rev) :=
  if is_container field then
    match ct_key field with
    | Some keyname => init_keyed mk keyname (get_repeated data name) []
    | None => init_plain mk (get_repeated data name)
    end
  else r ← mk (get_message data name); mret [r].
Fixpoint init_fields (mk : msg → M store rev) (fields : list (string * child_type))
    (data : msg) (children : list (string * list rev))
    : M store (msg * list (string * list rev)) :=
  match fields with
  | [] => mret (data, children)
  | (name, field) :: fields =>
      l ← init_field mk name field data;
      init_fields mk fields (ClearField data name) (od_set name l children)
  end.

(** Storing the first branch of a node under [txid]; the branch object itself
    is a committed one. *)
Definition init_branch (nid : node_id) (k : option txid) (r : rev) : M store unit :=
  n ← get_node nid;
  put_node nid (set_branch k (mk_branch None None {[r_hash r := r]} r) n).

(** [ConfigNode.__init__] on a message with [_initialize]; the recursion is
    bounded by the nesting of the message. *)
Fixpoint mknode (fuel : nat) (data : msg) (k : option txid) : M store node_id :=
  match fuel with
  | 0 => raise OutOfFuel
  | S fuel =>
      nid ← alloc_node (msg_type data);
      fields ← lift (children_fields (msg_type data));
      dc ← init_fields (λ v, c ← mknode fuel v k; latest c) fields data [];
      r ← mkrev (mk_branch_ref nid None) dc.1 dc.2;
      _ ← init_branch nid k r;
      mret nid
  end.

Definition new_node (data : msg) : M store node_id := mknode (S (msg_depth data)) data None.

End config_store.
Arguments store {_}.
Arguments node {_}.
Arguments branch {_}.
