(* ===== verification/ConfigNode.v ===== *)
(** * Node operations (voltha/core/config/config_node.py)

    [get], [update], [add], [remove], tags and proxies of [ConfigNode].  Paths
    are strings cut at slashes as the code does; each level consumes at least
    one character, so [S (length path)] levels are enough. *)

From Stdlib Require Import Ascii.
From stdpp Require Import prelude strings gmap list.
From S2P Require Import Prelude ConfigRev ConfigStore.

(** ** Paths *)

(** [while path.startswith('/'): path = path[1:]] *)
Fixpoint strip_slashes (path : string) : string :=
  match path with
  | String "/"%char p => strip_slashes p
  | p => p
  end.

(** [head, _, tail = path.partition('/')] *)
Fixpoint partition (path : string) : string * string :=
  match path with
  | EmptyString => (EmptyString, EmptyString)
  | String "/"%char p => (EmptyString, p)
  | String a p => let '(h, t) := partition p in (String a h, t)
  end.

Section config_node.
Context `{Env, !Callbacks}.

(** [find_rev_by_key] *)
Definition has_key (keyname : string) (value : attr) (r : rev) : bool :=
  bool_decide (getattr (r_data r) keyname = value).
Definition find_rev_by_key (revs : list rev) (keyname : string) (value : attr)
    : result (nat * rev) :=
  of_option KeyError (find_index (has_key keyname value) revs).

(** [children_fields(cls)[name]] *)
Definition field_of (cls : string) (name : string) : result child_type :=
  fields ← children_fields cls;
  of_option KeyError (od_get name fields).

(** [rev._children[name]] *)
Definition children_of (r : rev) (name : string) : result (list rev) :=
  of_option KeyError (od_get name (r_children r)).

Definition head_of (l : list rev) : result rev := of_option IndexError (head l).

(** ** get *)

Inductive response : Type := One (m : msg) | Many (l : list msg).

(** [ConfigNode._do_get] *)
Definition do_get (st : store) (nid : node_id) (r : rev) (depth : Z) : result msg :=
  m ← rev_get depth r;
  n ← of_option KeyError (st_nodes st !! nid);
  match n_proxy n with
  | None => Ok m
  | Some px => invoke_callbacks px GET m
  end.

Definition do_get_all (st : store) (children : list rev) (depth : Z) : result response :=
  l ← mapM (λ c, do_get st (r_node c) c depth) children;
  Ok (Many l).

(** [ConfigNode._get] *)
Fixpoint get_ (fuel : nat) (st : store) (nid : node_id) (r : rev) (path : string) (depth : Z)
    : result response :=
  match fuel with
  | 0 => Raise OutOfFuel
  | S fuel =>
      if bool_decide (path = "") then m ← do_get st nid r depth; Ok (One m)
      else
        let '(name, path) := partition path in
        n ← of_option KeyError (st_nodes st !! nid);
        field ← field_of (n_type n) name;
        if is_container field then
          match ct_key field with
          | Some keyname =>
              children ← children_of r name;
              if bool_decide (path = "") then do_get_all st children depth
              else
                let '(key, path) := partition path in
                key ← key_from_str field key;
                '(_, child_rev) ← find_rev_by_key children keyname key;
                get_ fuel st (r_node child_rev) child_rev path depth
          | None =>
              if bool_decide (path = "") then
                children ← children_of r name; do_get_all st children depth
              else Raise LookupError
          end
        else
          children ← children_of r name;
          child_rev ← head_of children;
          get_ fuel st (r_node child_rev) child_rev path depth
  end.

(** [ConfigNode.get]; [deep] is [depth = -1]. *)
Definition get (st : store) (nid : node_id) (path : string) (hash_ : option hash) (depth : Z)
    (k : option txid) : result response :=
  let path := strip_slashes path in
  n ← of_option KeyError (st_nodes st !! nid);
  b ← of_option KeyError
        (match n_branches n !! k with Some b => Some b | None => n_branches n !! None end);
  r ← match hash_ with
      | Some h => of_option KeyError (b_revs b !! h)
      | None => Ok (b_latest b)
      end;
  get_ (S (String.length path)) st nid r path depth.

(** ** update *)

(** [ConfigNode._test_no_children] *)
Definition test_no_children (ty : string) (data : msg) : result unit :=
  fields ← children_fields ty;
  if forallb (λ nf : string * child_type,
                if is_container nf.2
                then bool_decide (get_repeated data nf.1 = [])
                else negb (HasField data nf.1)) fields
  then Ok tt else Raise NotImplementedError.

(** The [track_dirty] closure of [ConfigRoot] ([mk_branch] is [None] for the
    committed branch). *)
Definition track_dirty (k : option txid) (nid : node_id) : M store branch :=
  match k with
  | None => raise TypeError
  | Some t =>
      _ ← modify (upd_dirty (alter (λ s, {[nid]} ∪ s) t));
      mk_txbranch_node nid t
  end.

Definition get_branch (nid : node_id) (k : option txid) : M store branch :=
  n ← get_node nid;
  match n_branches n !! k with
  | Some b => mret b
  | None => track_dirty k nid
  end.

(** The synchronous hooks of a node, when it has a proxy. *)
Definition pre_hook (n : node) (ty : CallbackType) (data : msg) : result unit :=
  match n_proxy n with
  | None => Ok tt
  | Some px => _ ← invoke_callbacks px ty data; Ok tt
  end.

(** [ConfigNode._do_update] *)
Definition do_update (nid : node_id) (k : option txid) (data : msg) (strict : bool) : M store rev :=
  n ← get_node nid;
  _ ← lift (if bool_decide (msg_type data = n_type n) then Ok tt else Raise ValueError);
  _ ← lift (test_no_children (n_type n) data);
  _ ← lift (pre_hook n PRE_UPDATE data);
  b ← lift (of_option KeyError (n_branches n !! k));
  if bool_decide (r_data (b_latest b) = data) then mret (b_latest b)
  else
    _ ← lift (if strict then check_access_violation data (r_data (b_latest b)) else Ok tt);
    r ← update_data (b_latest b) data (mk_branch_ref nid (b_txid b));
    _ ← make_latest nid k r [(POST_UPDATE, ChMsg (r_data r))];
    mret r.

(** [ConfigNode.update] *)
Fixpoint update_ (fuel : nat) (nid : node_id) (path : string) (data : msg) (strict : bool)
    (k : option txid) : M store rev :=
  match fuel with
  | 0 => raise OutOfFuel
  | S fuel =>
      let path := strip_slashes path in
      b ← get_branch nid k;
      if bool_decide (path = "") then do_update nid k data strict
      else
        let r := b_latest b in
        let '(name, path) := partition path in
        n ← get_node nid;
        field ← lift (field_of (n_type n) name);
        if is_container field then
          if bool_decide (path = "") then raise ValueError
          else match ct_key field with
          | Some keyname =>
              let '(key, path) := partition path in
              key ← lift (key_from_str field key);
              children ← lift (children_of r name);
              '(idx, child_rev) ← lift (find_rev_by_key children keyname key);
              new_child_rev ← update_ fuel (r_node child_rev) path data strict k;
              if bool_decide (r_hash new_child_rev = r_hash child_rev) then mret r
              else if bool_decide (getattr (r_data new_child_rev) keyname ≠ key)
              then raise ValueError
              else
                r' ← update_children r name (<[idx := new_child_rev]> children)
                       (mk_branch_ref nid (b_txid b));
                _ ← make_latest nid k r' [];
                mret r'
          | None => raise ValueError
          end
        else
          children ← lift (children_of r name);
          child_rev ← lift (head_of children);
          new_child_rev ← update_ fuel (r_node child_rev) path data strict k;
          r' ← update_children r name [new_child_rev] (mk_branch_ref nid (b_txid b));
          _ ← make_latest nid k r' [];
          mret r'
  end.

(** ** add *)

(** [ConfigNode.add] *)
Fixpoint add_ (fuel : nat) (nid : node_id) (path : string) (data : msg) (k : option txid)
    : M store rev :=
  match fuel with
  | 0 => raise OutOfFuel
  | S fuel =>
      let path := strip_slashes path in
      if bool_decide (path = "") then raise ValueError
      else
        b ← get_branch nid k;
        let r := b_latest b in
        let '(name, path) := partition path in
        n ← get_node nid;
        field ← lift (field_of (n_type n) name);
        if is_container field then
          if bool_decide (path = "") then
            match ct_key field with
            | Some keyname =>
                _ ← lift (pre_hook n PRE_ADD data);
                children ← lift (children_of r name);
                match find_rev_by_key children keyname (getattr data keyname) with
                | Ok _ => raise ValueError
                | Raise _ =>
                    c ← new_node data;
                    child_rev ← latest c;
                    r' ← update_children r name (children ++ [child_rev])
                           (mk_branch_ref nid (b_txid b));
                    _ ← make_latest nid k r' [(POST_ADD, ChMsg data)];
                    mret r'
                end
            | None => raise ValueError
            end
          else match ct_key field with
          | Some keyname =>
              let '(key, path) := partition path in
              key ← lift (key_from_str field key);
              children ← lift (children_of r name);
              '(idx, child_rev) ← lift (find_rev_by_key children keyname key);
              new_child_rev ← add_ fuel (r_node child_rev) path data k;
              r' ← update_children r name (<[idx := new_child_rev]> children)
                     (mk_branch_ref nid (b_txid b));
              _ ← make_latest nid k r' [];
              mret r'
          | None => raise ValueError
          end
        else raise ValueError
  end.

(** ** remove *)

(** [ConfigNode.remove] *)
Fixpoint remove_ (fuel : nat) (nid : node_id) (path : string) (k : option txid) : M store rev :=
  match fuel with
  | 0 => raise OutOfFuel
  | S fuel =>
      let path := strip_slashes path in
      if bool_decide (path = "") then raise ValueError
      else
        b ← get_branch nid k;
        let r := b_latest b in
        let '(name, path) := partition path in
        n ← get_node nid;
        field ← lift (field_of (n_type n) name);
        if is_container field then
          if bool_decide (path = "") then raise ValueError
          else match ct_key field with
          | Some keyname =>
              let '(key, path) := partition path in
              key ← lift (key_from_str field key);
              children ← lift (children_of r name);
              '(idx, child_rev) ← lift (find_rev_by_key children keyname key);
              if bool_decide (path = "") then
                _ ← lift (pre_hook n PRE_REMOVE (r_data child_rev));
                let post_anno := match n_proxy n with
                                 | Some _ => [(POST_REMOVE, ChMsg (r_data child_rev))]
                                 | None => [] end in
                r' ← update_children r name (delete idx children) (mk_branch_ref nid (b_txid b));
                _ ← make_latest nid k r' post_anno;
                mret r'
              else
                new_child_rev ← remove_ fuel (r_node child_rev) path k;
                r' ← update_children r name (<[idx := new_child_rev]> children)
                       (mk_branch_ref nid (b_txid b));
                _ ← make_latest nid k r' [];
                mret r'
          | None => raise ValueError
          end
        else raise ValueError
  end.

(** ** Tags *)

(** [ConfigNode.tag], [by_tag], [delete_tag] *)
Definition tag (nid : node_id) (name : string) (hash_ : option hash) : M store unit :=
  n ← get_node nid;
  b ← lift (of_option KeyError (n_branches n !! None));
  r ← lift (match hash_ with
            | None => Ok (b_latest b)
            | Some h => of_option KeyError (b_revs b !! h)
            end);
  put_node nid (mk_node (n_type n) (n_branches n) (<[name := r]> (n_tags n)) (n_proxy n)).
Definition by_tag (nid : node_id) (name : string) : M store rev :=
  n ← get_node nid;
  lift (of_option KeyError (n_tags n !! name)).
Definition delete_tag (nid : node_id) (name : string) : M store unit :=
  n ← get_node nid;
  _ ← lift (of_option KeyError (n_tags n !! name));
  put_node nid (mk_node (n_type n) (n_branches n) (delete name (n_tags n)) (n_proxy n)).

(** [ConfigNode.prune_untagged] *)
Definition tag_hashes (n : node) : list hash := (λ kv : string * rev, r_hash kv.2) <$> map_to_list (n_tags n).
Definition prune_untagged (nid : node_id) : M store unit :=
  n ← get_node nid;
  b ← lift (of_option KeyError (n_branches n !! None));
  let keep := r_hash (b_latest b) :: tag_hashes n in
  let revs := filter (λ kv : hash * rev, kv.1 ∈ keep) (b_revs b) in
  put_node nid (set_branch None (mk_branch (b_txid b) (b_origin b) revs (b_latest b)) n).

(** ** Proxies *)

(** [ConfigNode._mk_proxy] *)
Definition mk_node_proxy (nid : node_id) (full_path : string) (exclusive : bool) : M store node_id :=
  n ← get_node nid;
  match n_proxy n with
  | None =>
      _ ← put_node nid (mk_node (n_type n) (n_branches n) (n_tags n)
                          (Some (mk_proxy full_path exclusive [])));
      mret nid
  | Some px => if px_exclusive px then raise ValueError else mret nid
  end.

(** [ConfigNode._get_proxy]: the node whose proxy is returned. *)
Fixpoint get_proxy_ (fuel : nat) (nid : node_id) (path full_path : string) (exclusive : bool)
    : M store node_id :=
  match fuel with
  | 0 => raise OutOfFuel
  | S fuel =>
      let path := strip_slashes path in
      if bool_decide (path = "") then mk_node_proxy nid full_path exclusive
      else
        r ← latest nid;
        let '(name, path) := partition path in
        n ← get_node nid;
        field ← lift (field_of (n_type n) name);
        if is_container field then
          if bool_decide (path = "") then raise ValueError
          else match ct_key field with
          | Some keyname =>
              let '(key, path) := partition path in
              key ← lift (key_from_str field key);
              children ← lift (children_of r name);
              '(_, child_rev) ← lift (find_rev_by_key children keyname key);
              get_proxy_ fuel (r_node child_rev) path full_path exclusive
          | None => raise ValueError
          end
        else
          children ← lift (children_of r name);
          child_rev ← lift (head_of children);
          get_proxy_ fuel (r_node child_rev) path full_path exclusive
  end.
Definition get_proxy (nid : node_id) (path : string) (exclusive : bool) : M store node_id :=
  get_proxy_ (S (String.length path)) nid path path exclusive.

End config_node.
