(* ===== verification/Merge3way.v ===== *)
(** * Three-way merge (voltha/core/config/merge_3way.py)

    The merge of one node's transaction revision into its committed revision,
    relative to the revision the transaction forked from.  [merge_child]
    merges a child that belongs to the transaction; in a dry run it returns
    Python's [None], which is why the lists under construction hold optional
    revisions. *)

From stdpp Require Import prelude strings gmap list.
From S2P Require Import Prelude ConfigRev ConfigStore ConfigNode.

Section merge.
Context `{Env, !Callbacks}.

(** [AnalyzeChanges] *)
Definition keymap (keyname : string) (l : list rev) : list (attr * nat) :=
  od_of_list (imap (λ i r, (getattr (r_data r) keyname, i)) l).

Record changes : Type := mk_changes {
  keymap1 : list (attr * nat);
  keymap2 : list (attr * nat);
  added_keys : list attr;
  removed_keys : list attr;
  changed_keys : list attr;
}.

(** [lst[keymap[k]]] *)
Definition rev_at (l : list rev) (km : list (attr * nat)) (k : attr) : result rev :=
  i ← of_option KeyError (od_get k km);
  of_option IndexError (l !! i).

Definition hash_differs (lst1 lst2 : list rev) (km1 km2 : list (attr * nat)) (k : attr) : bool :=
  match rev_at lst1 km1 k, rev_at lst2 km2 k with
  | Ok r1, Ok r2 => bool_decide (r_hash r1 ≠ r_hash r2)
  | _, _ => false
  end.

Definition AnalyzeChanges (lst1 lst2 : list rev) (keyname : string) : changes :=
  let km1 := keymap keyname lst1 in
  let km2 := keymap keyname lst2 in
  mk_changes km1 km2
    (filter (λ k, k ∉ od_keys km1) (od_keys km2))
    (filter (λ k, k ∉ od_keys km2) (od_keys km1))
    (filter (λ k, k ∈ od_keys km2 ∧ hash_differs lst1 lst2 km1 km2 k) (od_keys km1)).

Section node.
Context (merge_child : rev → M store (option rev)).

Definition announcement : Type := CallbackType * change_data.

(** [(CallbackType.X, new_rev.data)]: the attribute of [None] raises. *)
Definition announce (ty : CallbackType) (o : option rev) : result announcement :=
  r ← of_option AttributeError o;
  Ok (ty, ChMsg (r_data r)).

Fixpoint merge_all (l : list rev) : M store (list (option rev)) :=
  match l with
  | [] => mret []
  | r :: l => o ← merge_child r; k ← merge_all l; mret (o :: k)
  end.

(** The loops of the case where the destination did not change.  [new_list[idx]]
    is still the source's element when it is read, each index being visited once. *)
Fixpoint fast_added (src_list : list rev) (src : changes) (keys : list attr)
    (new_list : list (option rev)) (out : list announcement)
    : M store (list (option rev) * list announcement) :=
  match keys with
  | [] => mret (new_list, out)
  | k :: keys =>
      idx ← lift (of_option KeyError (od_get k (keymap2 src)));
      r ← lift (of_option IndexError (src_list !! idx));
      new_rev ← merge_child r;
      a ← lift (announce POST_ADD new_rev);
      fast_added src_list src keys (<[idx := new_rev]> new_list) (out ++ [a])
  end.
Fixpoint fast_removed (fork_list : list rev) (src : changes) (keys : list attr)
    (out : list announcement) : M store (list announcement) :=
  match keys with
  | [] => mret out
  | k :: keys =>
      old ← lift (rev_at fork_list (keymap1 src) k);
      fast_removed fork_list src keys (out ++ [(POST_REMOVE, ChMsg (r_data old))])
  end.
Fixpoint fast_changed (src_list : list rev) (src : changes) (keys : list attr)
    (new_list : list (option rev)) : M store (list (option rev)) :=
  match keys with
  | [] => mret new_list
  | k :: keys =>
      idx ← lift (of_option KeyError (od_get k (keymap2 src)));
      r ← lift (of_option IndexError (src_list !! idx));
      new_rev ← merge_child r;
      fast_changed src_list src keys (<[idx := new_rev]> new_list)
  end.
Definition merge_keyed_fast (fork_list src_list : list rev) (keyname : string)
    (out : list announcement) : M store (list (option rev) * list announcement) :=
  let src := AnalyzeChanges fork_list src_list keyname in
  '(new_list, out) ← fast_added src_list src (added_keys src) (Some <$> src_list) out;
  out ← fast_removed fork_list src (removed_keys src) out;
  new_list ← fast_changed src_list src (changed_keys src) new_list;
  mret (new_list, out).

(** The loops of the case where both sides changed. *)
Fixpoint both_added (src_list dst_list : list rev) (src dst : changes) (keys : list attr)
    (new_list : list (option rev)) (out : list announcement)
    : M store (list (option rev) * list announcement) :=
  match keys with
  | [] => mret (new_list, out)
  | k :: keys =>
      if decide (k ∈ added_keys dst) then
        child_dst_rev ← lift (rev_at dst_list (keymap2 dst) k);
        child_src_rev ← lift (rev_at src_list (keymap2 src) k);
        if bool_decide (r_hash child_dst_rev = r_hash child_src_rev) then
          _ ← merge_child child_dst_rev;
          both_added src_list dst_list src dst keys new_list out
        else raise MergeConflictException
      else
        r ← lift (rev_at src_list (keymap2 src) k);
        new_rev ← merge_child r;
        a ← lift (announce POST_ADD new_rev);
        both_added src_list dst_list src dst keys (new_list ++ [new_rev]) (out ++ [a])
  end.
Fixpoint both_changed (src_list dst_list : list rev) (src dst : changes) (keys : list attr)
    (new_list : list (option rev)) : M store (list (option rev)) :=
  match keys with
  | [] => mret new_list
  | k :: keys =>
      if decide (k ∈ removed_keys dst) then raise MergeConflictException
      else if decide (k ∈ changed_keys dst) then
        child_dst_rev ← lift (rev_at dst_list (keymap2 dst) k);
        child_src_rev ← lift (rev_at src_list (keymap2 src) k);
        if bool_decide (r_hash child_dst_rev = r_hash child_src_rev) then
          _ ← merge_child child_src_rev;
          both_changed src_list dst_list src dst keys new_list
        else if bool_decide (c_hash (r_config child_dst_rev) ≠ c_hash (r_config child_src_rev))
        then raise MergeConflictException
        else
          new_rev ← merge_child child_src_rev;
          idx ← lift (of_option KeyError (od_get k (keymap2 dst)));
          both_changed src_list dst_list src dst keys (<[idx := new_rev]> new_list)
      else
        r ← lift (rev_at src_list (keymap2 src) k);
        new_rev ← merge_child r;
        idx ← lift (of_option KeyError (od_get k (keymap2 dst)));
        both_changed src_list dst_list src dst keys (<[idx := new_rev]> new_list)
  end.
(** [keys] is the reversed list of removed keys; [new_list.pop(dst_idx)]. *)
Fixpoint both_removed (dst : changes) (keys : list attr)
    (new_list : list (option rev)) (out : list announcement)
    : M store (list (option rev) * list announcement) :=
  match keys with
  | [] => mret (new_list, out)
  | k :: keys =>
      if decide (k ∈ changed_keys dst) then raise MergeConflictException
      else if decide (k ∈ removed_keys dst) then both_removed dst keys new_list out
      else
        dst_idx ← lift (of_option KeyError (od_get k (keymap2 dst)));
        old_rev ← lift (of_option IndexError (new_list !! dst_idx));
        a ← lift (announce POST_REMOVE old_rev);
        both_removed dst keys (delete dst_idx new_list) (out ++ [a])
  end.
Definition merge_keyed_both (fork_list src_list dst_list : list rev) (keyname : string)
    (out : list announcement) : M store (list (option rev) * list announcement) :=
  let src := AnalyzeChanges fork_list src_list keyname in
  let dst := AnalyzeChanges fork_list dst_list keyname in
  '(new_list, out) ← both_added src_list dst_list src dst (added_keys src) (Some <$> dst_list) out;
  new_list ← both_changed src_list dst_list src dst (changed_keys src) new_list;
  both_removed dst (reverse (removed_keys src)) new_list out.

(** The body of the loop over the external children fields: the new list of
    the field, [None] where the destination's list is kept. *)
Definition merge_field (name : string) (field : child_type) (fork_list src_list dst_list : list rev)
    (out : list announcement) : M store (option (list (option rev)) * list announcement) :=
  if same_revs dst_list src_list then
    _ ← merge_all src_list; mret (None, out)
  else match ct_key field with
  | None =>
      if same_revs dst_list fork_list then
        if same_revs src_list fork_list then raise AssertionError
        else
          l ← merge_all src_list;
          mret (Some l, if is_container field
                        then out ++ [(POST_LISTCHANGE, ChContext name)] else out)
      else if same_revs src_list fork_list then mret (None, out)
      else raise MergeConflictException
  | Some keyname =>
      '(l, out) ← (if same_revs dst_list fork_list
                   then merge_keyed_fast fork_list src_list keyname out
                   else merge_keyed_both fork_list src_list dst_list keyname out);
      mret (Some l, out)
  end.

Fixpoint merge_fields (fields : list (string * child_type)) (fork_rev src_rev dst_rev : rev)
    (new_children : list (string * list (option rev))) (out : list announcement)
    : M store (list (string * list (option rev)) * list announcement) :=
  match fields with
  | [] => mret (new_children, out)
  | (name, field) :: fields =>
      fork_list ← lift (children_of fork_rev name);
      src_list ← lift (children_of src_rev name);
      dst_list ← lift (children_of dst_rev name);
      '(l, out) ← merge_field name field fork_list src_list dst_list out;
      merge_fields fields fork_rev src_rev dst_rev
        (match l with Some l => od_set name l new_children | None => new_children end) out
  end.

(** The test on the local data: has the configuration changed? *)
Definition merge_config (fork_rev src_rev dst_rev : rev) : result bool :=
  if bool_decide (c_hash (r_config dst_rev) = c_hash (r_config fork_rev))
  then Ok (bool_decide (c_hash (r_config dst_rev) ≠ c_hash (r_config src_rev)))
  else if bool_decide (c_hash (r_config dst_rev) ≠ c_hash (r_config src_rev))
       then Raise MergeConflictException
       else Ok true.

Definition all_merged (ch : list (string * list (option rev)))
    : result (list (string * list rev)) :=
  mapM (λ fl : string * list (option rev),
          l ← mapM (of_option AttributeError) fl.2; Ok (fl.1, l)) ch.

(** [merge_3way]; the dry run returns [(None, None)]. *)
Definition merge_3way (fork_rev src_rev dst_rev : rev) (dry_run : bool)
    : M store (option (rev * list announcement)) :=
  config_changed ← lift (merge_config fork_rev src_rev dst_rev);
  fields ← lift (children_fields (msg_type (r_data fork_rev)));
  '(ch, out) ← merge_fields fields fork_rev src_rev dst_rev
                 ((λ fl : string * list rev, (fl.1, Some <$> fl.2)) <$> r_children dst_rev) [];
  if dry_run then mret None
  else
    ch ← lift (all_merged ch);
    r ← update_all_children (if config_changed then src_rev else dst_rev) ch (r_branch dst_rev);
    mret (Some (r, if (config_changed : bool)
                   then out ++ [(POST_UPDATE, ChMsg (r_data r))] else out)).
End node.

(** [ConfigNode._merge_txbranch]; [merge_child] goes down the tree, so its
    height bounds the recursion. *)
Fixpoint merge_txbranch (fuel : nat) (nid : node_id) (t : txid) (dry_run : bool)
    : M store (option rev) :=
  match fuel with
  | 0 => raise OutOfFuel
  | S fuel =>
      let merge_child (child_rev : rev) : M store (option rev) :=
        if bool_decide (br_txid (r_branch child_rev) = Some t)
        then merge_txbranch fuel (r_node child_rev) t dry_run
        else mret (Some child_rev) in
      n ← get_node nid;
      src_branch ← lift (of_option KeyError (n_branches n !! Some t));
      dst_branch ← lift (of_option KeyError (n_branches n !! None));
      fork_rev ← lift (of_option AttributeError (b_origin src_branch));
      res ← merge_3way merge_child fork_rev (b_latest src_branch) (b_latest dst_branch) dry_run;
      match res with
      | None => mret None
      | Some (r, out) =>
          _ ← make_latest nid None r out;
          _ ← del_txbranch_node nid t;
          mret (Some r)
      end
  end.

End merge.
