(* ===== verification/ConfigRoot.v ===== *)
(** * The root of the configuration tree and its transactions
    (voltha/core/config/config_root.py, config_proxy.py, config_txn.py)

    [ConfigRoot] overrides the CRUD operations of its node: it checks that no
    callback is pending, tracks the nodes a transaction dirties, and runs the
    deferred callbacks when the operation is over, also when it raised.  A
    deferred callback is arbitrary code over the store: [call_post] is a
    parameter, and [cb_fuel] bounds the number of callbacks one operation
    runs. *)

From Stdlib Require Import Ascii.
From stdpp Require Import prelude strings gmap list.
From S2P Require Import Prelude ConfigRev ConfigStore ConfigNode Merge3way.

Class PostCallbacks `{Env} : Type := {
  call_post : cb → change_data → M store change_data;
  cb_fuel : nat;
}.

(** [try: m finally: f] *)
Definition try_finally {S A} (m : M S A) (f : M S unit) : M S A := λ s,
  let '(r, s1) := m s in
  match f s1 with
  | (Ok _, s2) => (r, s2)
  | (Raise e, s2) => (Raise e, s2)
  end.

Section config_root.
Context `{Env, !Callbacks, !PostCallbacks}.

(** ** Deferred callbacks *)

(** [ConfigProxy.invoke_callbacks] with [proceed_on_errors]: an exception is
    logged and the next callback gets the same context. *)
Fixpoint invoke_post (cbs : list cb) (context : change_data) : M store unit :=
  match cbs with
  | [] => mret tt
  | c :: cbs => λ st,
      match call_post c context st with
      | (Ok context', st') => invoke_post cbs context' st'
      | (Raise _, st') => invoke_post cbs context st'
      end
  end.

(** [ConfigRoot.execute_deferred_callbacks] *)
Fixpoint execute_deferred_callbacks (fuel : nat) : M store unit := λ st,
  match st_queue st with
  | [] => (Ok tt, st)
  | (nid, ty, context) :: q =>
      match fuel with
      | 0 => (Raise OutOfFuel, st)
      | S fuel =>
          let st' := set_queue q st in
          let cbs := match st_nodes st' !! nid with
                     | Some n => match n_proxy n with
                                 | Some px => default [] (od_get ty (px_callbacks px))
                                 | None => [] end
                     | None => [] end in
          (_ ← invoke_post cbs context; execute_deferred_callbacks fuel) st'
      end
  end.

(** [ConfigRoot.check_callback_queue] *)
Definition check_callback_queue : M store unit := λ st,
  (match st_queue st with [] => Ok tt | _ => Raise AssertionError end, st).

(** ** CRUD operations *)

(** [dirtied = self._dirty_nodes[txid]] when there is a transaction. *)
Definition check_txid (k : option txid) : M store unit := λ st,
  (match k with
   | None => Ok tt
   | Some t => match st_dirty st !! t with Some _ => Ok tt | None => Raise KeyError end
   end, st).

Definition root_op {A} (k : option txid) (op : M store A) : M store A :=
  _ ← check_callback_queue;
  try_finally (_ ← check_txid k; op) (execute_deferred_callbacks cb_fuel).

(** [ConfigRoot.update], [ConfigRoot.add], [ConfigRoot.remove] *)
Definition root_update (path : string) (data : msg) (strict : bool) (k : option txid) : M store rev :=
  root_op k (update_ (S (String.length path)) root_id path data strict k).
Definition root_add (path : string) (data : msg) (k : option txid) : M store rev :=
  root_op k (add_ (S (String.length path)) root_id path data k).
Definition root_remove (path : string) (k : option txid) : M store rev :=
  root_op k (remove_ (S (String.length path)) root_id path k).

(** ** Transaction branches *)

(** [ConfigRoot.mk_txbranch]: a fresh identifier stands for the uuid. *)
Definition fresh_txid : M store txid := λ st,
  (Ok (st_next_tx st),
   mk_store (st_nodes st) (st_next_node st) (st_next_rev st) (S (st_next_tx st))
     (st_cache st) (st_dirty st) (st_queue st) (st_kv st) (st_root_blob st) (st_loading st) (st_fake st)).
Definition mk_txbranch : M store txid :=
  t ← fresh_txid;
  _ ← modify (upd_dirty (<[t := {[root_id]}]>));
  _ ← mk_txbranch_node root_id t;
  mret t.

(** [ConfigRoot.del_txbranch] *)
Fixpoint del_branches (t : txid) (nids : list node_id) : M store unit :=
  match nids with
  | [] => mret tt
  | nid :: nids => _ ← del_txbranch_node nid t; del_branches t nids
  end.
Definition del_txbranch (t : txid) : M store unit :=
  st ← get_state;
  dirty ← lift (of_option KeyError (st_dirty st !! t));
  _ ← del_branches t (elements dirty);
  modify (upd_dirty (delete t)).

(** [ConfigRoot.fold_txbranch]: a dry run first, which on a conflict deletes
    the branch; the height of the tree is at most the number of nodes. *)
Definition fold_txbranch (t : txid) : M store unit := λ st,
  let fuel := S (st_next_node st) in
  match merge_txbranch fuel root_id t true st with
  | (Raise MergeConflictException, st1) =>
      (_ ← del_txbranch t; raise MergeConflictException) st1
  | (Raise e, st1) => (Raise e, st1)
  | (Ok _, st1) =>
      (_ ← try_finally (merge_txbranch fuel root_id t false)
             (execute_deferred_callbacks cb_fuel);
       mret tt) st1
  end.

(** ** Proxies (config_proxy.py) *)

(** [full_path = self._path if path == '/' else self._path + path], after the
    assertion that the path starts with a slash. *)
Definition full_path (proxy_path path : string) : result string :=
  match path with
  | String "/"%char "" => Ok proxy_path
  | String "/"%char _ => Ok (String.append proxy_path path)
  | _ => Raise AssertionError
  end.
Definition proxy_get (st : store) (nid : node_id) (path : string) (depth : Z) (k : option txid)
    : result response :=
  get st nid path None depth k.
Definition proxy_update (proxy_path path : string) (data : msg) (strict : bool) (k : option txid)
    : M store rev :=
  p ← lift (full_path proxy_path path); root_update p data strict k.
Definition proxy_add (proxy_path path : string) (data : msg) (k : option txid) : M store rev :=
  p ← lift (full_path proxy_path path); root_add p data k.
Definition proxy_remove (proxy_path path : string) (k : option txid) : M store rev :=
  p ← lift (full_path proxy_path path); root_remove p k.

(** ** Transactions (config_txn.py): the handle holds the proxied node with
    its path, and the transaction id until it is closed. *)
Record transaction : Type := mk_transaction {
  tx_node : node_id;
  tx_path : string;
  tx_id : option txid;
}.

Definition open_transaction (nid : node_id) (path : string) : M store transaction :=
  t ← mk_txbranch; mret (mk_transaction nid path (Some t)).
Definition tx_open (tx : transaction) : result txid :=
  of_option ClosedTransactionError (tx_id tx).
Definition tx_get (st : store) (tx : transaction) (path : string) (depth : Z) : result response :=
  t ← tx_open tx; proxy_get st (tx_node tx) path depth (Some t).
Definition tx_update (tx : transaction) (path : string) (data : msg) (strict : bool) : M store rev :=
  t ← lift (tx_open tx); proxy_update (tx_path tx) path data strict (Some t).
Definition tx_add (tx : transaction) (path : string) (data : msg) : M store rev :=
  t ← lift (tx_open tx); proxy_add (tx_path tx) path data (Some t).
Definition tx_remove (tx : transaction) (path : string) : M store rev :=
  t ← lift (tx_open tx); proxy_remove (tx_path tx) path (Some t).
(** [cancel] and [commit]: on a closed handle the id is [None], which is no key
    of [_dirty_nodes] and whose branch has no origin. *)
Definition tx_cancel (tx : transaction) : M store transaction :=
  t ← lift (of_option KeyError (tx_id tx));
  _ ← del_txbranch t;
  mret (mk_transaction (tx_node tx) (tx_path tx) None).
Definition tx_commit (tx : transaction) : M store transaction :=
  t ← lift (of_option AttributeError (tx_id tx));
  _ ← fold_txbranch t;
  mret (mk_transaction (tx_node tx) (tx_path tx) None).

(** ** Construction *)

Definition empty_store (kv : option (gmap hash blob)) : store :=
  mk_store ∅ 0 0 0 ∅ ∅ [] kv None false ∅.

(** [ConfigRoot.__init__] on a message: the root is the first node. *)
Definition new_root (data : msg) : M store unit :=
  nid ← new_node data;
  r ← latest nid;
  make_latest nid None r [].

End config_root.
