(* ===== verification/ConfigDemo.v ===== *)
(** * A concrete environment for the configuration tree

    A three-level schema in the style of voltha.proto: an instance with keyed
    devices, a device with keyed ports and one singular [Flows] child.  The
    hashes are an injective encoding.  It instantiates the class [Env], so the
    hypotheses of the theorems about the configuration tree can be met and
    their witnesses computed. *)

From stdpp Require Import prelude strings gmap list countable.
From S2P Require Import Prelude ConfigRev ConfigStore ConfigNode Merge3way ConfigRoot.

Record port := mk_port { port_no : Z; port_label : string }.
Record flows := mk_flows { flow_items : list Z }.
Record device := mk_device {
  dev_id : string; dev_vlan : Z; dev_ports : list port; dev_flows : option flows }.
Record instance := mk_instance { inst_id : string; inst_devices : list device }.

Inductive cmsg : Type :=
  | MPort (p : port) | MFlows (f : flows) | MDevice (d : device) | MInstance (i : instance).

#[export] Instance port_eq_dec : EqDecision port. Proof. solve_decision. Defined.
#[export] Instance flows_eq_dec : EqDecision flows. Proof. solve_decision. Defined.
#[export] Instance device_eq_dec : EqDecision device. Proof. solve_decision. Defined.
#[export] Instance instance_eq_dec : EqDecision instance. Proof. solve_decision. Defined.
#[export] Instance cmsg_eq_dec : EqDecision cmsg. Proof. solve_decision. Defined.

#[export] Program Instance port_countable : Countable port :=
  inj_countable' (λ p, (port_no p, port_label p)) (λ x, mk_port x.1 x.2) _.
Next Obligation. by intros []. Qed.
#[export] Program Instance flows_countable : Countable flows :=
  inj_countable' flow_items mk_flows _.
Next Obligation. by intros []. Qed.
#[export] Program Instance device_countable : Countable device :=
  inj_countable' (λ d, (dev_id d, dev_vlan d, dev_ports d, dev_flows d))
    (λ x, mk_device x.1.1.1 x.1.1.2 x.1.2 x.2) _.
Next Obligation. by intros []. Qed.
#[export] Program Instance instance_countable : Countable instance :=
  inj_countable' (λ i, (inst_id i, inst_devices i)) (λ x, mk_instance x.1 x.2) _.
Next Obligation. by intros []. Qed.
#[export] Program Instance cmsg_countable : Countable cmsg :=
  inj_countable'
    (λ m, match m with
          | MPort p => inl (inl p) | MFlows f => inl (inr f)
          | MDevice d => inr (inl d) | MInstance i => inr (inr i) end)
    (λ x, match x with
          | inl (inl p) => MPort p | inl (inr f) => MFlows f
          | inr (inl d) => MDevice d | inr (inr i) => MInstance i end) _.
Next Obligation. by intros []. Qed.

Definition demo_descriptor (cls : string) : list field_desc :=
  if bool_decide (cls = "Instance") then
    [mk_field_desc "id" 1 false None None TYPE_OTHER "voltha_pb2" "string";
     mk_field_desc "devices" 3 true (Some "id") None TYPE_STRING "device_pb2" "Device"]
  else if bool_decide (cls = "Device") then
    [mk_field_desc "id" 1 true None (Some READ_ONLY) TYPE_OTHER "device_pb2" "string";
     mk_field_desc "vlan" 1 false None None TYPE_OTHER "device_pb2" "uint32";
     mk_field_desc "ports" 3 true (Some "port_no") None TYPE_INTEGRAL "device_pb2" "Port";
     mk_field_desc "flows" 1 true (Some "") None TYPE_OTHER "openflow_13_pb2" "Flows"]
  else [].

Definition demo_type (m : cmsg) : string :=
  match m with
  | MPort _ => "Port" | MFlows _ => "Flows" | MDevice _ => "Device" | MInstance _ => "Instance"
  end.

Definition demo_getattr (m : cmsg) (f : string) : attr :=
  match m with
  | MPort p => if bool_decide (f = "port_no") then AInt (port_no p) else AStr (port_label p)
  | MFlows _ => AOther 1
  | MDevice d => if bool_decide (f = "id") then AStr (dev_id d) else AInt (dev_vlan d)
  | MInstance i => AStr (inst_id i)
  end.

Definition demo_repeated (m : cmsg) (f : string) : list cmsg :=
  match m with
  | MDevice d => if bool_decide (f = "ports") then MPort <$> dev_ports d else []
  | MInstance i => if bool_decide (f = "devices") then MDevice <$> inst_devices i else []
  | _ => []
  end.

Definition demo_message (m : cmsg) (f : string) : cmsg :=
  match m with
  | MDevice d => if bool_decide (f = "flows") then MFlows (default (mk_flows []) (dev_flows d))
                 else MFlows (mk_flows [])
  | _ => MFlows (mk_flows [])
  end.

Definition demo_has (m : cmsg) (f : string) : bool :=
  match m with MDevice d => bool_decide (is_Some (dev_flows d)) | _ => false end.

Definition demo_clear (m : cmsg) (f : string) : cmsg :=
  match m with
  | MDevice d =>
      if bool_decide (f = "ports") then MDevice (mk_device (dev_id d) (dev_vlan d) [] (dev_flows d))
      else if bool_decide (f = "flows")
           then MDevice (mk_device (dev_id d) (dev_vlan d) (dev_ports d) None)
           else m
  | MInstance i => if bool_decide (f = "devices") then MInstance (mk_instance (inst_id i) []) else m
  | _ => m
  end.

Definition demo_add (m : cmsg) (f : string) (c : cmsg) : cmsg :=
  match m, c with
  | MDevice d, MPort p =>
      MDevice (mk_device (dev_id d) (dev_vlan d) (dev_ports d ++ [p]) (dev_flows d))
  | MInstance i, MDevice d => MInstance (mk_instance (inst_id i) (inst_devices i ++ [d]))
  | _, _ => m
  end.

Definition demo_merge (m : cmsg) (f : string) (c : cmsg) : cmsg :=
  match m, c with
  | MDevice d, MFlows fl =>
      MDevice (mk_device (dev_id d) (dev_vlan d) (dev_ports d)
        (Some (mk_flows (flow_items (default (mk_flows []) (dev_flows d)) ++ flow_items fl))))
  | _, _ => m
  end.

Definition demo_depth (m : cmsg) : nat :=
  match m with MPort _ | MFlows _ => 0 | MDevice _ => 1 | MInstance _ => 2 end.

#[export] Instance demo_env : Env := {|
  msg := cmsg;
  hash := positive;
  DESCRIPTOR := demo_descriptor;
  msg_type := demo_type;
  getattr := demo_getattr;
  get_repeated := demo_repeated;
  get_message := demo_message;
  HasField := demo_has;
  ClearField := demo_clear;
  add_MergeFrom := demo_add;
  MergeFrom := demo_merge;
  msg_depth := demo_depth;
  md5_data := λ m, encode (inl m : cmsg + positive * list positive);
  md5_content := λ h l, encode (inr (h, l) : cmsg + positive * list positive);
|}.

(** Synchronous hooks that accept everything; deferred ones that make a proxy of
    the first device, as the agent of a device does. *)
#[export] Instance demo_callbacks : Callbacks := {| call_sync := λ _ m, Ok m |}.
#[export] Instance demo_post : PostCallbacks :=
  {| call_post := λ _ d, _ ← get_proxy root_id "/devices/1" false; mret d; cb_fuel := 10 |}.

(** ** A tree with two devices *)

Definition dev1 : device := mk_device "1" 10 [mk_port 1 "nni"; mk_port 2 "pon"] (Some (mk_flows [])).
Definition dev2 : device := mk_device "2" 20 [] (Some (mk_flows [])).
Definition demo_inst : cmsg := MInstance (mk_instance "voltha" [dev1; dev2]).
Definition demo_st : store := (new_root demo_inst (empty_store None)).2.

Definition bare (d : device) : device := mk_device (dev_id d) (dev_vlan d) [] None.
Definition with_vlan (v : Z) (d : device) : device :=
  mk_device (dev_id d) v (dev_ports d) (dev_flows d).
