(* ===== verification/ConfigIsolation.v ===== *)
(** * Transactions do not disturb the committed tree

    Every operation carried out under a transaction id, whether it succeeds or
    raises half-way, leaves the committed branch of every existing node, its
    type, its tags and its proxy as they were, and queues no callback. *)

From stdpp Require Import prelude strings gmap list.
From S2P Require Import Prelude ConfigRev ConfigStore ConfigNode Merge3way ConfigRoot ConfigDemo.

Section isolation.
Context `{Env, !Callbacks}.

(** Node identities are allocated in order. *)
Definition nodes_fresh (st : store) : Prop :=
  ∀ nid n, st_nodes st !! nid = Some n → nid < st_next_node st.

Record same_committed (n n' : node) : Prop := mk_same_committed {
  sc_type : n_type n' = n_type n;
  sc_branch : n_branches n' !! None = n_branches n !! None;
  sc_tags : n_tags n' = n_tags n;
  sc_proxy : n_proxy n' = n_proxy n;
}.

(** The committed flag of a transaction branch is never set. *)
Definition tx_branches_ok (st : store) : Prop :=
  ∀ nid n t b, st_nodes st !! nid = Some n → n_branches n !! Some t = Some b →
    b_txid b = Some t.

Definition iso_inv (st : store) : Prop := nodes_fresh st ∧ tx_branches_ok st.

(** Nothing committed changes in the nodes below [N]. *)
Record isolated_ok (N : nat) (st st' : store) : Prop := mk_isolated {
  iso_ok : iso_inv st';
  iso_next : st_next_node st ≤ st_next_node st';
  iso_nodes nid n : nid < N → st_nodes st !! nid = Some n →
    ∃ n', st_nodes st' !! nid = Some n' ∧ same_committed n n';
  iso_queue : st_queue st' = st_queue st;
  iso_blob : st_root_blob st' = st_root_blob st;
}.
Definition isolated (N : nat) (st st' : store) : Prop :=
  iso_inv st → N ≤ st_next_node st → isolated_ok N st st'.

#[export] Instance isolated_preorder N : PreOrder (isolated N).
Proof.
  split.
  - intros st Hok HN. split; try done. intros nid n _ Hn. by exists n.
  - intros s1 s2 s3 H12 H23 Hok HN. destruct (H12 Hok HN) as [F1 X1 N1 Q1 B1].
    destruct (H23 F1 ltac:(lia)) as [F2 X2 N2 Q2 B2].
    split; [done|lia| |congruence|congruence].
    intros nid n Hlt Hn. destruct (N1 nid n Hlt Hn) as (n2 & Hn2 & []).
    destruct (N2 nid n2 Hlt Hn2) as (n3 & Hn3 & []).
    exists n3. split; [done|]. split; congruence.
Qed.

Lemma iso_same_nodes N st st' :
  st_nodes st' = st_nodes st → st_next_node st' = st_next_node st →
  st_queue st' = st_queue st → st_root_blob st' = st_root_blob st → isolated N st st'.
Proof.
  intros HN Hx Hq Hb [Hf Ht] _. split; [split|lia| |done|done].
  - unfold nodes_fresh. rewrite HN, Hx. done.
  - unfold tx_branches_ok. rewrite HN. done.
  - intros nid n _ Hn. exists n. by rewrite HN.
Qed.

Lemma iso_get_node N nid : rel_post (isolated N) (get_node nid).
Proof. intros s. simpl. reflexivity. Qed.

Lemma iso_finalize N o br c ch : rel_post (isolated N) (finalize o br c ch).
Proof. intros s. by apply iso_same_nodes. Qed.

Lemma iso_upd_dirty N f : rel_post (isolated N) (modify (upd_dirty f)).
Proof. intros s. by apply iso_same_nodes. Qed.

(** Writing a branch under a transaction key, or a committed one to a node
    that is not below [N]. *)
Lemma iso_put_branch N nid k b n s :
  st_nodes s !! nid = Some n → b_txid b = k → (k ≠ None ∨ N ≤ nid) →
  isolated N s (put_node nid (set_branch k b n) s).2.
Proof.
  intros Hn Hb Hk [Hf Ht] HN. split; [split|done| |done|done].
  - intros m m0 Hm. cbn in Hm.
    apply lookup_insert_Some in Hm as [[<- _]|[_ Hm]]; cbn; by eapply Hf.
  - intros m m0 t' b' Hm Hb'. cbn in Hm.
    apply lookup_insert_Some in Hm as [[<- <-]|[_ Hm]]; [|by eapply Ht].
    cbn in Hb'. apply lookup_insert_Some in Hb' as [[-> <-]|[_ Hb']]; [done|].
    by eapply Ht.
  - intros m m0 Hlt Hm. cbn. destruct (decide (nid = m)) as [->|Hne].
    + exists (set_branch k b n). rewrite lookup_insert_eq. split; [done|].
      assert (m0 = n) as -> by congruence. split; try done. simpl.
      rewrite lookup_insert_ne; [done|]. destruct Hk; [done|lia].
    + exists m0. rewrite lookup_insert_ne by done. by split.
Qed.

(** A node that was read is in the store it was read from. *)
Lemma get_node_Ok nid s n s' : get_node nid s = (Ok n, s') → st_nodes s !! nid = Some n ∧ s' = s.
Proof. unfold get_node. destruct (st_nodes s !! nid); naive_solver. Qed.

Lemma iso_mk_txbranch_node N nid t : rel_post (isolated N) (mk_txbranch_node nid t).
Proof.
  unfold mk_txbranch_node. apply rel_post_bind_weak; [apply _|apply iso_get_node|].
  intros n s s' [Hn ->]%get_node_Ok. unfold mbind, M_bind, lift at 1.
  destruct (n_branches n !! None) as [c|]; simpl; [|reflexivity].
  apply (iso_put_branch N nid _ _ n s); auto.
Qed.

Lemma iso_make_latest N nid t r anns :
  rel_post (isolated N) (make_latest nid (Some t) r anns).
Proof.
  intros s Hok HN. unfold make_latest, mbind, M_bind at 1.
  destruct (get_node nid s) as [[n|e] s'] eqn:Hn;
    [|unfold get_node in Hn; simplify_eq; by apply isolated_preorder].
  apply get_node_Ok in Hn as [Hn ->]. unfold lift.
  destruct (n_branches n !! Some t) as [b|] eqn:Hb; simpl; [|by apply isolated_preorder].
  assert (b_txid b = Some t) as Htx by (destruct Hok as [_ Ht]; by eapply Ht).
  rewrite Htx. simpl. rewrite andb_false_r. simpl.
  apply (iso_put_branch N nid _ _ n s); auto.
Qed.

Lemma iso_track_dirty N t nid : rel_post (isolated N) (track_dirty (Some t) nid).
Proof.
  unfold track_dirty. apply rel_post_bind; [apply _|apply iso_upd_dirty|].
  intros _. apply iso_mk_txbranch_node.
Qed.

Lemma iso_get_branch N t nid : rel_post (isolated N) (get_branch nid (Some t)).
Proof.
  unfold get_branch. apply rel_post_bind; [apply _|apply iso_get_node|]. intros n.
  destruct (n_branches n !! Some t); [apply rel_post_ret, _|apply iso_track_dirty].
Qed.

(** New nodes only add to the store. *)
Lemma iso_alloc_node N ty : rel_post (isolated N) (alloc_node ty).
Proof.
  intros s [Hf Ht] HN. split; [split|cbn; lia| |done|done].
  - intros m m0 Hm. cbn in Hm |- *. apply lookup_insert_Some in Hm as [[<- _]|[_ Hm]]; [lia|].
    apply Hf in Hm. lia.
  - intros m m0 t b Hm Hb. cbn in Hm. apply lookup_insert_Some in Hm as [[<- <-]|[_ Hm]].
    + cbn in Hb. by rewrite lookup_empty in Hb.
    + by eapply Ht.
  - intros m m0 Hlt Hm. exists m0. cbn. rewrite lookup_insert_ne; [by split|]. lia.
Qed.

Lemma iso_init_branch N nid r : N ≤ nid → rel_post (isolated N) (init_branch nid None r).
Proof.
  intros HN. unfold init_branch. apply rel_post_bind_weak; [apply _|apply iso_get_node|].
  intros n s s' [Hn ->]%get_node_Ok. apply (iso_put_branch N nid _ _ n s); auto.
Qed.

#[local] Hint Resolve iso_get_node iso_finalize iso_mk_txbranch_node iso_make_latest
  iso_get_branch : rel_post.

Lemma iso_latest N nid : rel_post (isolated N) (latest nid).
Proof. unfold latest. rel_post_solve. Qed.

Lemma iso_init_keyed N mk keyname vs seen :
  (∀ v, rel_post (isolated N) (mk v)) → rel_post (isolated N) (init_keyed mk keyname vs seen).
Proof. intros Hmk. revert seen. induction vs; intros seen; simpl; rel_post_solve. Qed.

Lemma iso_init_plain N mk vs :
  (∀ v, rel_post (isolated N) (mk v)) → rel_post (isolated N) (init_plain mk vs).
Proof. intros Hmk. induction vs; simpl; rel_post_solve. Qed.

Lemma iso_init_field N mk name field data :
  (∀ v, rel_post (isolated N) (mk v)) → rel_post (isolated N) (init_field mk name field data).
Proof.
  intros Hmk. unfold init_field.
  destruct (is_container field); [destruct (ct_key field)|];
    eauto using iso_init_keyed, iso_init_plain. rel_post_solve.
Qed.

Lemma iso_init_fields N mk fields data ch :
  (∀ v, rel_post (isolated N) (mk v)) → rel_post (isolated N) (init_fields mk fields data ch).
Proof.
  intros Hmk. revert data ch. induction fields as [|[name field] fields IH];
    intros data ch; simpl; [rel_post_solve|].
  apply rel_post_bind; [apply _|by apply iso_init_field|]. intros l. apply IH.
Qed.

Lemma iso_mknode N fuel data : rel_post (isolated N) (mknode fuel data None).
Proof.
  revert data. induction fuel as [|fuel IH]; intros data; simpl; [apply rel_post_raise, _|].
  intros s Hok HN. rewrite (M_bind_eq _ _ s (st_next_node s) (alloc_node (msg_type data) s).2) by done.
  assert (isolated N s (alloc_node (msg_type data) s).2) as H1 by apply iso_alloc_node.
  eapply (transitivity (R := isolated N)); [exact H1| |done|done].
  assert (∀ m : M store node_id, rel_post (isolated N) m →
            isolated N (alloc_node (msg_type data) s).2 (m (alloc_node (msg_type data) s).2).2)
    as Happ by (intros m Hm; apply Hm).
  apply Happ. apply rel_post_bind; [apply _|apply rel_post_lift, _|]. intros fields.
  apply rel_post_bind; [apply _| |].
  { apply iso_init_fields. intros v. apply rel_post_bind; [apply _|apply IH|apply iso_latest]. }
  intros [d ch]. apply rel_post_bind; [apply _|apply iso_finalize|]. intros r.
  apply rel_post_bind; [apply _|by apply iso_init_branch|]. intros _. apply rel_post_ret, _.
Qed.

Lemma iso_new_node N data : rel_post (isolated N) (new_node data).
Proof. apply iso_mknode. Qed.

#[local] Hint Resolve iso_new_node iso_latest : rel_post.

(** ** The node operations under a transaction id *)

Lemma iso_do_update N nid t data strict : rel_post (isolated N) (do_update nid (Some t) data strict).
Proof. unfold do_update, update_data. rel_post_solve. Qed.

Lemma iso_update N fuel nid path data strict t :
  rel_post (isolated N) (update_ fuel nid path data strict (Some t)).
Proof.
  revert nid path. induction fuel as [|fuel IH]; intros nid path; cbn [update_];
    [rel_post_solve|]. unfold update_children.
  pose proof (iso_do_update N nid t data strict). rel_post_solve.
Qed.

Lemma iso_add N fuel nid path data t : rel_post (isolated N) (add_ fuel nid path data (Some t)).
Proof.
  revert nid path. induction fuel as [|fuel IH]; intros nid path; cbn [add_];
    [rel_post_solve|]. unfold update_children. rel_post_solve.
Qed.

Lemma iso_remove N fuel nid path t : rel_post (isolated N) (remove_ fuel nid path (Some t)).
Proof.
  revert nid path. induction fuel as [|fuel IH]; intros nid path; cbn [remove_];
    [rel_post_solve|]. unfold update_children. rel_post_solve.
Qed.

(** ** The root operations *)
Context `{!PostCallbacks}.

(** With nothing queued by the operation there is no callback to run. *)
Lemma iso_root_op {A} N k (op : M store A) :
  rel_post (isolated N) op → rel_post (isolated N) (root_op k op).
Proof.
  intros Hop s Hok HN. unfold root_op, mbind, M_bind at 1, check_callback_queue.
  destruct (st_queue s) as [|q qs] eqn:Hq; [|by apply isolated_preorder].
  unfold try_finally.
  assert (rel_post (isolated N) (_ ← check_txid k; op)) as Hm.
  { apply rel_post_bind; [apply _| |done]. intros s'. reflexivity. }
  specialize (Hm s Hok HN). unfold mbind, M_bind in Hm |- *.
  destruct (match check_txid k s with (Ok _, s') => op s' | (Raise e, s') => (Raise e, s') end)
    as [r s1]. simpl in Hm.
  pose proof (iso_queue _ _ _ Hm) as Hq1. rewrite Hq in Hq1.
  destruct cb_fuel; simpl; by rewrite Hq1.
Qed.

Lemma iso_root_update N path data strict t :
  rel_post (isolated N) (root_update path data strict (Some t)).
Proof. apply iso_root_op, iso_update. Qed.
Lemma iso_root_add N path data t : rel_post (isolated N) (root_add path data (Some t)).
Proof. apply iso_root_op, iso_add. Qed.
Lemma iso_root_remove N path t : rel_post (isolated N) (root_remove path (Some t)).
Proof. apply iso_root_op, iso_remove. Qed.

Lemma iso_mk_txbranch N : rel_post (isolated N) mk_txbranch.
Proof.
  unfold mk_txbranch. apply rel_post_bind; [apply _| |].
  { intros s. by apply iso_same_nodes. }
  intros t. apply rel_post_bind; [apply _|apply iso_upd_dirty|]. intros _. rel_post_solve.
Qed.

Lemma iso_del_node N nid t : rel_post (isolated N) (del_txbranch_node nid t).
Proof.
  unfold del_txbranch_node. apply rel_post_bind_weak; [apply _|apply iso_get_node|].
  intros n s s' [Hn ->]%get_node_Ok. unfold mbind, M_bind, lift.
  destruct (n_branches n !! Some t) as [b|]; simpl; [|reflexivity].
  intros [Hf Ht] HN. split; [split|done| |done|done].
  - intros m m0 Hm. cbn in Hm |- *.
    apply lookup_insert_Some in Hm as [[<- _]|[_ Hm]]; by eapply Hf.
  - intros m m0 t' b' Hm Hb'. cbn in Hm.
    apply lookup_insert_Some in Hm as [[<- <-]|[_ Hm]]; [|by eapply Ht].
    cbn in Hb'. apply lookup_delete_Some in Hb' as [_ Hb']. by eapply Ht.
  - intros m m0 Hlt Hm. cbn. destruct (decide (nid = m)) as [->|Hne].
    + exists (del_branch (Some t) n). rewrite lookup_insert_eq. split; [done|].
      assert (m0 = n) as -> by congruence. split; try done. simpl. by rewrite lookup_delete_ne.
    + exists m0. rewrite lookup_insert_ne by done. by split.
Qed.

Lemma iso_del_txbranch N t : rel_post (isolated N) (del_txbranch t).
Proof.
  unfold del_txbranch. apply rel_post_bind; [apply _| |].
  { intros s. simpl. reflexivity. }
  intros st. apply rel_post_bind; [apply _|apply rel_post_lift, _|]. intros dirty.
  apply rel_post_bind; [apply _| |intros _; apply iso_upd_dirty].
  generalize (elements dirty). intros l. induction l as [|nid l IH]; simpl; [rel_post_solve|].
  apply rel_post_bind; [apply _|apply iso_del_node|done].
Qed.

(** ** Reading the committed tree *)

(** A reading that succeeds sees only what [same_committed] preserves. *)
Lemma do_get_mono N st st' nid r depth m :
  nodes_fresh st → N = st_next_node st → isolated_ok N st st' →
  do_get st nid r depth = Ok m → do_get st' nid r depth = Ok m.
Proof.
  intros Hf -> Hiso. unfold do_get. intros. inv_ok.
  match goal with Hn : st_nodes st !! nid = Some ?n |- _ =>
    destruct (iso_nodes _ _ _ Hiso nid n (Hf _ _ Hn) Hn) as (n' & Hn' & []) end.
  match goal with Hr : rev_get _ _ = _ |- _ => rewrite Hr end.
  simpl. rewrite Hn'. simpl. by rewrite sc_proxy0.
Qed.

Lemma do_get_all_mono N st st' l depth x :
  nodes_fresh st → N = st_next_node st → isolated_ok N st st' →
  do_get_all st l depth = Ok x → do_get_all st' l depth = Ok x.
Proof.
  intros Hf HN Hiso. unfold do_get_all. intros. inv_ok.
  match goal with Hm : mapM _ l = Ok ?k |- _ =>
    assert (mapM (λ c, do_get st' (r_node c) c depth) l = Ok k) as ->; [|done];
    apply mapM_Ok in Hm; apply mapM_Ok; eapply Forall2_impl; [done|] end.
  intros c m0. by eapply do_get_mono.
Qed.

Lemma get__mono N st st' fuel nid r path depth x :
  nodes_fresh st → N = st_next_node st → isolated_ok N st st' →
  get_ fuel st nid r path depth = Ok x → get_ fuel st' nid r path depth = Ok x.
Proof.
  intros Hf -> Hiso. revert nid r path. induction fuel as [|fuel IH]; intros nid r path; simpl;
    [done|]. case_bool_decide.
  - intros. inv_ok. by erewrite (do_get_mono _ st st') by done.
  - destruct (partition path) as [name path'] eqn:Hp. intros Hget. inv_ok.
    match goal with Hn : st_nodes st !! nid = Some ?n |- _ =>
      destruct (iso_nodes _ _ _ Hiso nid n (Hf _ _ Hn) Hn) as (n' & Hn' & []) end.
    rewrite Hn'. simpl. rewrite sc_type0.
    match goal with Hfo : field_of _ _ = Ok ?f |- _ => rewrite Hfo; simpl; destruct (is_container f) end.
    + destruct (ct_key _) as [keyname|].
      * inv_ok. match goal with Hc : children_of _ _ = _ |- _ => rewrite Hc; simpl end.
        case_bool_decide; [by eapply (do_get_all_mono _ st st')|].
        destruct (partition path') as [key path'']. inv_ok.
        match goal with Hk : key_from_str _ _ = _ |- _ => rewrite Hk; simpl end.
        match goal with Hk : find_rev_by_key _ _ _ = Ok ?p |- _ =>
          destruct p as [i c]; rewrite Hk; simpl end. by apply IH.
      * case_bool_decide; [|done]. inv_ok.
        match goal with Hc : children_of _ _ = _ |- _ => rewrite Hc; simpl end.
        by eapply (do_get_all_mono _ st st').
    + inv_ok. match goal with Hc : children_of _ _ = _ |- _ => rewrite Hc; simpl end.
      match goal with Hc : head_of _ = _ |- _ => rewrite Hc; simpl end. by apply IH.
Qed.

Lemma get_mono st st' nid path h depth x :
  iso_inv st → isolated (st_next_node st) st st' →
  get st nid path h depth None = Ok x → get st' nid path h depth None = Ok x.
Proof.
  intros Hok Hiso. specialize (Hiso Hok (Nat.le_refl _)). destruct Hok as [Hf _].
  unfold get. intros. inv_ok.
  match goal with Hn : st_nodes st !! nid = Some ?n |- _ =>
    destruct (iso_nodes _ _ _ Hiso nid n (Hf _ _ Hn) Hn) as (n' & Hn' & []) end.
  rewrite Hn'. cbn [of_option mbind result_bind]. rewrite sc_branch0.
  destruct (n_branches _ !! None) as [b|]; [|done]. simplify_eq.
  cbn [of_option mbind result_bind].
  match goal with Hm : match h with _ => _ end = Ok _ |- _ => rewrite Hm end.
  cbn [of_option mbind result_bind]. by eapply (get__mono _ st st').
Qed.

(** ** Whole transactions *)

Inductive tx_op : Type :=
  | OpUpdate (path : string) (data : msg) (strict : bool)
  | OpAdd (path : string) (data : msg)
  | OpRemove (path : string).

Definition run_op (t : txid) (o : tx_op) : M store rev :=
  match o with
  | OpUpdate path data strict => root_update path data strict (Some t)
  | OpAdd path data => root_add path data (Some t)
  | OpRemove path => root_remove path (Some t)
  end.

(** The client goes on after an operation that raised. *)
Definition run_ops (t : txid) (ops : list tx_op) (st : store) : store :=
  foldl (λ st o, (run_op t o st).2) st ops.

Lemma iso_run_ops N t ops st : isolated N st (run_ops t ops st).
Proof.
  revert st. induction ops as [|o ops IH]; intros st; simpl; [reflexivity|].
  etransitivity; [|apply IH]. destruct o; simpl;
    [apply iso_root_update|apply iso_root_add|apply iso_root_remove].
Qed.

(** C3: Whatever a client does inside an open transaction (updates, adds and
    removes that succeed or raise), every read of the committed tree that
    succeeded before, at any node, path, hash and depth, still returns the
    same data, and no callback is queued. *)
Theorem transaction_isolated st t ops nid path h depth x :
  iso_inv st → get st nid path h depth None = Ok x →
  get (run_ops t ops st) nid path h depth None = Ok x ∧
  st_queue (run_ops t ops st) = st_queue st ∧ iso_inv (run_ops t ops st).
Proof.
  intros Hok Hget. pose proof (iso_run_ops (st_next_node st) t ops st) as Hiso.
  split_and!; [by eapply get_mono| |]; by destruct (Hiso Hok (Nat.le_refl _)).
Qed.

(** Opening a transaction, working in it and cancelling it (successfully or
    not) leaves every committed read as it was. *)
Theorem cancelled_transaction_no_effect st t st1 ops nid path h depth x :
  iso_inv st → mk_txbranch st = (Ok t, st1) →
  get st nid path h depth None = Ok x →
  get (del_txbranch t (run_ops t ops st1)).2 nid path h depth None = Ok x.
Proof.
  intros Hok Hmk Hget. eapply get_mono; [done| |done].
  etransitivity; [|apply iso_del_txbranch]. etransitivity; [|apply iso_run_ops].
  apply (f_equal snd) in Hmk. simpl in Hmk. subst st1. apply iso_mk_txbranch.
Qed.

End isolation.
#[export] Hint Resolve iso_get_node iso_finalize iso_mk_txbranch_node iso_make_latest
  iso_get_branch iso_new_node iso_latest : rel_post.

(** ** Witnesses on the two-device tree *)

(** [iso_inv] can be decided. *)
Definition iso_inv_b `{Env} (st : store) : bool :=
  bool_decide (map_Forall (λ nid n, nid < st_next_node st ∧
    map_Forall (λ k b, k = None ∨ b_txid b = k) (n_branches n)) (st_nodes st)).

Lemma iso_inv_b_ok `{Env} st : iso_inv_b st = true → iso_inv st.
Proof.
  intros HF%bool_decide_eq_true. split.
  - intros nid n Hn. by apply (HF nid n Hn).
  - intros nid n t b Hn Hb. by destruct (proj2 (HF nid n Hn) (Some t) b Hb).
Qed.

Lemma demo_iso_inv : iso_inv demo_st.
Proof. apply iso_inv_b_ok. vm_compute. reflexivity. Qed.

Definition demo_ops : list tx_op :=
  [OpUpdate "/devices/1" (MDevice (bare (with_vlan 99 dev1))) false;
   OpAdd "/devices/1" (MDevice dev2);
   OpRemove "/devices/2"].

Lemma transaction_isolated_witness :
  get (run_ops 0 demo_ops (mk_txbranch demo_st).2) 0 "/devices/1" None 0 None
    = Ok (One (MDevice (bare dev1))) ∧
  st_queue (run_ops 0 demo_ops (mk_txbranch demo_st).2) = [] ∧
  iso_inv (run_ops 0 demo_ops (mk_txbranch demo_st).2).
Proof.
  apply (transaction_isolated (mk_txbranch demo_st).2 0 demo_ops 0 "/devices/1" None 0).
  - apply (iso_mk_txbranch (st_next_node demo_st) demo_st demo_iso_inv (Nat.le_refl _)).
  - vm_compute. reflexivity.
Defined.

Lemma demo_mk_txbranch : mk_txbranch demo_st = (Ok 0, (mk_txbranch demo_st).2).
Proof.
  assert ((mk_txbranch demo_st).1 = Ok 0) as <- by (vm_compute; reflexivity).
  apply surjective_pairing.
Qed.

Lemma cancelled_transaction_no_effect_witness :
  get (del_txbranch 0 (run_ops 0 demo_ops (mk_txbranch demo_st).2)).2 0 "/devices/2" None 0 None
    = Ok (One (MDevice (bare dev2))).
Proof.
  apply (cancelled_transaction_no_effect demo_st 0 (mk_txbranch demo_st).2 demo_ops).
  - apply demo_iso_inv.
  - apply demo_mk_txbranch.
  - vm_compute. reflexivity.
Defined.
