(* ===== verification/ConfigTree.v ===== *)
(** * The committed tree as a value

    An abstract view of the configuration: a [tree] of messages with the node
    each one lives in.  [abs] reads it off a revision, [coh] says that every
    node of the tree agrees with it (the committed revision a node keeps is the
    one its ancestors hold), that the hashes are the hashes of the content, and
    that the children obey the schema: one child per singular field, distinct
    keys per keyed container.  The lemmas here are what the operations share:
    replacing one child and carrying the change one level up. *)

From stdpp Require Import prelude strings gmap list.
From S2P Require Import Prelude ConfigRev ConfigStore ConfigNode.

(** ** Association lists and lists of lists *)

Section od_split.
Context {V : Type}.
Implicit Types d : list (string * V).

Lemma od_get_split name d v :
  od_get name d = Some v → ∃ d1 d2, d = d1 ++ (name, v) :: d2 ∧
    ∀ v', od_set name v' d = d1 ++ (name, v') :: d2.
Proof.
  induction d as [|[k w] d IH]; simpl; [done|]. case_decide as Hk.
  - intros [= ->]. subst k. exists [], d. split; [done|]. done.
  - intros Hg. destruct (IH Hg) as (d1 & d2 & -> & Hset).
    exists ((k, w) :: d1), d2. split; [done|]. intros v'. by rewrite Hset.
Qed.
Lemma elem_of_od_set name v d f w :
  (f, w) ∈ od_set name v d → (f = name ∧ w = v) ∨ (f, w) ∈ d.
Proof.
  induction d as [|[k u] d IH]; simpl.
  - intros [= -> ->]%list_elem_of_singleton. by left.
  - case_decide; rewrite !elem_of_cons; naive_solver.
Qed.
End od_split.

Section tree.
Context `{Env, !Callbacks}.

Inductive tree : Type :=
  T (t_node : node_id) (t_data : msg) (t_children : list (string * list tree)).

Definition t_node (t : tree) : node_id := let 'T n _ _ := t in n.
Definition t_data (t : tree) : msg := let 'T _ d _ := t in d.
Definition t_children (t : tree) : list (string * list tree) := let 'T _ _ c := t in c.

Fixpoint abs (r : rev) : tree :=
  match r with
  | Rev _ b c ch _ =>
      T (br_node b) (c_data c)
        ((fix go_fields (cs : list (string * list rev)) : list (string * list tree) :=
            match cs with
            | [] => []
            | (f, l) :: cs =>
                (f, (fix go (l : list rev) : list tree :=
                       match l with [] => [] | x :: l => abs x :: go l end) l)
                :: go_fields cs
            end) ch)
  end.

Definition abs_field (fl : string * list rev) : string * list tree := (fl.1, map abs fl.2).
Definition abs_children (ch : list (string * list rev)) : list (string * list tree) :=
  map abs_field ch.

Lemma abs_eq r : abs r = T (r_node r) (r_data r) (abs_children (r_children r)).
Proof.
  destruct r as [i b c ch h]. unfold r_node, r_data, abs_children. simpl. f_equal.
  induction ch as [|[f l] ch IH]; [done|]. simpl. by rewrite IH.
Qed.

Lemma abs_node r : t_node (abs r) = r_node r.
Proof. by rewrite abs_eq. Qed.
Lemma abs_data r : t_data (abs r) = r_data r.
Proof. by rewrite abs_eq. Qed.

Lemma od_get_abs name ch : od_get name (abs_children ch) = map abs <$> od_get name ch.
Proof.
  induction ch as [|[f l] ch IH]; [done|]. simpl. by case_decide.
Qed.
Lemma od_set_abs name l ch :
  abs_children (od_set name l ch) = od_set name (map abs l) (abs_children ch).
Proof.
  induction ch as [|[f k] ch IH]; [done|]. simpl. case_decide; [done|]. simpl. by rewrite IH.
Qed.

(** ** Well-formed revisions: hashes are the hashes of the content *)

Inductive rev_ok : rev → Prop :=
  | rev_ok_intro i b c ch h :
      c_hash c = md5_data (c_data c) → h = hash_content c ch →
      (∀ f l x, (f, l) ∈ ch → x ∈ l → rev_ok x) → rev_ok (Rev i b c ch h).

Lemma rev_ok_config r : rev_ok r → c_hash (r_config r) = md5_data (r_data r).
Proof. by destruct 1. Qed.
Lemma rev_ok_children r f l x : rev_ok r → (f, l) ∈ r_children r → x ∈ l → rev_ok x.
Proof. destruct 1; eauto. Qed.

(** What the store keeps under a hash in the cache has that hash. *)
Definition cache_ok (st : store) : Prop :=
  ∀ h c, st_cache st !! h = Some c → c_hash c = h ∧ md5_data (c_data c) = h.

(** ** Nodes of a tree *)

Fixpoint tree_nodes (t : tree) : list node_id :=
  match t with
  | T n _ ch =>
      n :: (fix go_fields (cs : list (string * list tree)) : list node_id :=
              match cs with
              | [] => []
              | (_, l) :: cs =>
                  (fix go (l : list tree) : list node_id :=
                     match l with [] => [] | x :: l => tree_nodes x ++ go l end) l
                  ++ go_fields cs
              end) ch
  end.

Definition list_nodes (l : list tree) : list node_id := concat (map tree_nodes l).
Definition children_nodes (ch : list (string * list tree)) : list node_id :=
  concat (map (λ fl : string * list tree, list_nodes fl.2) ch).

Lemma tree_nodes_eq n d ch : tree_nodes (T n d ch) = n :: children_nodes ch.
Proof.
  simpl. f_equal. unfold children_nodes.
  induction ch as [|[f l] ch IH]; [done|]. simpl. rewrite IH. f_equal.
  unfold list_nodes. clear. induction l as [|x l IHl]; [done|]. simpl. by rewrite IHl.
Qed.

Lemma list_nodes_app l k : list_nodes (l ++ k) = list_nodes l ++ list_nodes k.
Proof. unfold list_nodes. by rewrite map_app, concat_app. Qed.
Lemma children_nodes_app l k : children_nodes (l ++ k) = children_nodes l ++ children_nodes k.
Proof. unfold children_nodes. by rewrite map_app, concat_app. Qed.
Lemma children_nodes_cons f l k : children_nodes ((f, l) :: k) = list_nodes l ++ children_nodes k.
Proof. done. Qed.
Lemma list_nodes_elem l x m : x ∈ l → m ∈ tree_nodes x → m ∈ list_nodes l.
Proof.
  intros Hx Hm. unfold list_nodes. induction l as [|y l IH]; [by apply not_elem_of_nil in Hx|].
  simpl. apply elem_of_app. apply elem_of_cons in Hx as [->|Hx]; [by left|right; auto].
Qed.
Lemma children_nodes_elem ch f l x m :
  (f, l) ∈ ch → x ∈ l → m ∈ tree_nodes x → m ∈ children_nodes ch.
Proof.
  intros Hf Hx Hm. induction ch as [|[g k] ch IH]; [by apply not_elem_of_nil in Hf|].
  rewrite children_nodes_cons. apply elem_of_app.
  apply elem_of_cons in Hf as [[= <- <-]|Hf]; [left; by eapply list_nodes_elem|right; auto].
Qed.

(** ** A child list with a hole *)

Definition plug (ch1 : list (string * list tree)) (name : string) (l1 mid l2 : list tree)
    (ch2 : list (string * list tree)) : list (string * list tree) :=
  ch1 ++ (name, l1 ++ mid ++ l2) :: ch2.
Definition rest_nodes (ch1 : list (string * list tree)) (l1 l2 : list tree)
    (ch2 : list (string * list tree)) : list node_id :=
  children_nodes ch1 ++ list_nodes l1 ++ list_nodes l2 ++ children_nodes ch2.

Lemma plug_nodes ch1 name l1 mid l2 ch2 :
  children_nodes (plug ch1 name l1 mid l2 ch2) ≡ₚ list_nodes mid ++ rest_nodes ch1 l1 l2 ch2.
Proof.
  unfold plug, rest_nodes. rewrite children_nodes_app, children_nodes_cons, !list_nodes_app.
  solve_Permutation.
Qed.

Lemma plug_elem ch1 name l1 mid l2 ch2 f l x :
  (f, l) ∈ plug ch1 name l1 mid l2 ch2 → x ∈ l →
  x ∈ mid ∨ (∀ m, m ∈ tree_nodes x → m ∈ rest_nodes ch1 l1 l2 ch2) ∧
             ∀ mid', ∃ l', (f, l') ∈ plug ch1 name l1 mid' l2 ch2 ∧ x ∈ l'.
Proof.
  unfold plug, rest_nodes. rewrite elem_of_app, elem_of_cons. intros Hf Hx.
  destruct Hf as [Hf|[[= -> ->]|Hf]].
  - right. split.
    + intros m Hm. apply elem_of_app. left. by eapply children_nodes_elem.
    + intros mid'. exists l. rewrite elem_of_app. auto.
  - rewrite !elem_of_app in Hx. destruct Hx as [Hx|[Hx|Hx]]; [right|by left|right]; split.
    + intros m Hm. rewrite !elem_of_app. right. left. by eapply list_nodes_elem.
    + intros mid'. exists (l1 ++ mid' ++ l2). rewrite !elem_of_app, elem_of_cons. auto.
    + intros m Hm. rewrite !elem_of_app. right. right. left. by eapply list_nodes_elem.
    + intros mid'. exists (l1 ++ mid' ++ l2). rewrite !elem_of_app, elem_of_cons. auto.
  - right. split.
    + intros m Hm. rewrite !elem_of_app. do 3 right. by eapply children_nodes_elem.
    + intros mid'. exists l. rewrite elem_of_app, elem_of_cons. auto.
Qed.

(** ** Coherence *)

(** The children obey the schema of the message type. *)
Definition field_wf (field : child_type) (l : list tree) : Prop :=
  if is_container field then
    match ct_key field with
    | Some k => NoDup (map (λ c, getattr (t_data c) k) l)
    | None => True
    end
  else length l = 1.
Definition node_wf (d : msg) (ch : list (string * list tree)) : Prop :=
  ∀ name field, field_of (msg_type d) name = Ok field →
    ∃ l, od_get name ch = Some l ∧ field_wf field l.

(** A node keeps the tree [t] as its committed content. *)
Record holds (ns : gmap node_id node) (t : tree) (n : node) (b : branch) : Prop := mk_holds {
  h_node : ns !! t_node t = Some n;
  h_type : n_type n = msg_type (t_data t);
  h_branch : n_branches n !! None = Some b;
  h_txid : b_txid b = None;
  h_abs : abs (b_latest b) = t;
  h_ok : rev_ok (b_latest b);
  h_wf : node_wf (t_data t) (t_children t);
}.

Inductive coh (ns : gmap node_id node) : tree → Prop :=
  | coh_intro nid d ch n b :
      holds ns (T nid d ch) n b →
      (∀ f l x, (f, l) ∈ ch → x ∈ l → coh ns x) →
      coh ns (T nid d ch).

Lemma coh_holds ns t : coh ns t → ∃ n b, holds ns t n b.
Proof. destruct 1; eauto. Qed.

Lemma coh_child ns t f l x : coh ns t → (f, l) ∈ t_children t → x ∈ l → coh ns x.
Proof. destruct 1; eauto. Qed.

(** Coherence depends on the nodes of the tree only. *)
Lemma coh_frame ns ns' t :
  coh ns t → (∀ m, m ∈ tree_nodes t → ns' !! m = ns !! m) → coh ns' t.
Proof.
  induction 1 as [nid d ch n b Hh Hch IH]. intros Hns.
  rewrite tree_nodes_eq in Hns. econstructor.
  - destruct Hh. split; [|done..]. cbn in *. rewrite Hns; [done|left].
  - intros f l x Hf Hx. apply (IH f l x Hf Hx). intros m Hm. apply Hns. right.
    by eapply children_nodes_elem.
Qed.

(** Rewriting a node with the same committed revision. *)
Lemma coh_relatest ns t n b n' b' :
  coh ns t → NoDup (tree_nodes t) → holds ns t n b →
  n_type n' = n_type n → n_branches n' !! None = Some b' → b_txid b' = None →
  b_latest b' = b_latest b → coh (<[t_node t := n']> ns) t.
Proof.
  intros Hcoh Hnd Hh Hty Hb Htx Hl. destruct Hcoh as [nid d ch n0 b0 Hh0 Hch].
  rewrite tree_nodes_eq in Hnd. apply NoDup_cons in Hnd as [Hni _]. econstructor.
  - destruct Hh as [? Hty' ? ? Habs Hok Hwf].
    apply (mk_holds _ _ n' b'); rewrite ?Hl, ?Hty; try done. apply lookup_insert_eq.
  - intros f l x Hf Hx. apply (coh_frame ns); [by eapply Hch|]. intros m Hm.
    apply lookup_insert_ne. intros <-. apply Hni. by eapply children_nodes_elem.
Qed.

(** ** Preconditions and effects of an operation on a tree *)

Record pre (st : store) (t : tree) : Prop := mk_pre {
  pre_coh : coh (st_nodes st) t;
  pre_nodup : NoDup (tree_nodes t);
  pre_fresh m : m ∈ tree_nodes t → m < st_next_node st;
  pre_cache : cache_ok st;
}.

(** [t] in [st] became [t'] in [st']: the new tree is coherent, its nodes are
    nodes of [t] or new ones, and no other node was written. *)
Record post (st : store) (t : tree) (st' : store) (t' : tree) : Prop := mk_post {
  post_coh : coh (st_nodes st') t';
  post_nodup : NoDup (tree_nodes t');
  post_nodes m : m ∈ tree_nodes t' →
    m ∈ tree_nodes t ∨ st_next_node st ≤ m < st_next_node st';
  post_frame m : m ∉ tree_nodes t → m < st_next_node st →
    st_nodes st' !! m = st_nodes st !! m;
  post_cache : cache_ok st';
  post_next : st_next_node st ≤ st_next_node st';
}.

Lemma post_pre st t st' t' : pre st t → post st t st' t' → pre st' t'.
Proof.
  intros [] []. split; try done. intros m Hm.
  destruct (post_nodes0 m Hm) as [Hin|?]; [|lia]. apply pre_fresh0 in Hin. lia.
Qed.

Lemma post_refl st t : pre st t → post st t st t.
Proof. intros []. split; try done. auto. Qed.

(** No two messages, and no two contents, share a hash. *)
Class NoCollisions : Prop := {
  md5_data_inj :: Inj (=) (=) md5_data;
  md5_content_inj h l h' l' : md5_content h l = md5_content h' l' → h = h' ∧ l = l';
}.
Context `{!NoCollisions}.

Lemma finalize_eq o br c ch st :
  cache_ok st → c_hash c = md5_data (c_data c) →
  ∃ st', finalize o br c ch st = (Ok (Rev (st_next_rev st) br c ch (hash_content c ch)), st') ∧
    st_nodes st' = st_nodes st ∧ st_next_node st' = st_next_node st ∧ cache_ok st'.
Proof.
  intros Hca Hc. unfold finalize.
  assert (default c (st_cache st !! c_hash c) = c) as ->.
  { destruct (st_cache st !! c_hash c) as [c'|] eqn:Hl; simpl; [|done].
    destruct (Hca _ _ Hl) as [Hh Hd]. destruct c as [h m], c' as [h' m']. simpl in *. subst.
    by apply md5_data_inj in Hd as ->. }
  eexists. split; [done|]. split_and!; try done.
  intros h c'. cbn. intros [[<- <-]|[_ Hl]]%lookup_insert_Some; [done|by apply Hca].
Qed.

Lemma make_latest_eq nid r anns st n b :
  st_nodes st !! nid = Some n → n_branches n !! None = Some b → b_txid b = None →
  ∃ revs st', make_latest nid None r anns st = (Ok tt, st') ∧
    st_nodes st' = <[nid := set_branch None (mk_branch None (b_origin b) revs r) n]> (st_nodes st) ∧
    st_next_node st' = st_next_node st ∧ st_cache st' = st_cache st.
Proof.
  intros Hn Hb Ht. unfold make_latest, mbind, M_bind, get_node, lift. rewrite Hn. simpl.
  rewrite Hb. simpl. rewrite Ht.
  exists (match b_revs b !! r_hash r with
          | Some _ => b_revs b | None => <[r_hash r := r]> (b_revs b) end).
  eexists. split; [done|]. split_and!; repeat case_match; done.
Qed.

(** Writing a new revision of a node whose children are already in place. *)
Lemma install st st1 nid d ch d' ch' n b o c chr (anns : rev → list (CallbackType * change_data)) :
  pre st (T nid d ch) → holds (st_nodes st) (T nid d ch) n b →
  cache_ok st1 → st_next_node st ≤ st_next_node st1 →
  (∀ m, m ∉ children_nodes ch → m < st_next_node st → st_nodes st1 !! m = st_nodes st !! m) →
  (∀ f l x, (f, l) ∈ ch' → x ∈ l → coh (st_nodes st1) x) →
  NoDup (nid :: children_nodes ch') →
  (∀ m, m ∈ children_nodes ch' → m ∈ children_nodes ch ∨ st_next_node st ≤ m < st_next_node st1) →
  node_wf d' ch' → msg_type d' = msg_type d →
  c_data c = d' → c_hash c = md5_data d' →
  abs_children chr = ch' → (∀ f l x, (f, l) ∈ chr → x ∈ l → rev_ok x) →
  ∃ r' st', (r' ← finalize o (mk_branch_ref nid None) c chr;
             _ ← make_latest nid None r' (anns r'); mret r') st1 = (Ok r', st') ∧
    abs r' = T nid d' ch' ∧ rev_ok r' ∧ r_hash r' = hash_content c chr ∧
    post st (T nid d ch) st' (T nid d' ch').
Proof.
  intros Hpre Hh Hca Hnx Hfr Hcoh Hnd Hsub Hwf Hty Hcd Hcm Habs Hok.
  destruct Hh as [Hn Hnt Hb Htx _ _ _]. cbn in Hn, Hnt.
  pose proof (pre_nodup _ _ Hpre) as Hnd0. rewrite tree_nodes_eq in Hnd0.
  apply NoDup_cons in Hnd0 as [Hni0 _].
  assert (nid < st_next_node st) as Hlt by (apply (pre_fresh _ _ Hpre); rewrite tree_nodes_eq; left).
  assert (st_nodes st1 !! nid = Some n) as Hn1 by (by rewrite Hfr).
  destruct (finalize_eq o (mk_branch_ref nid None) c chr st1) as (st2 & Hf & HN2 & HX2 & Hca2);
    [done|by rewrite Hcd|].
  set (r' := Rev _ _ _ _ _) in Hf.
  destruct (make_latest_eq nid r' (anns r') st2 n b) as (revs & st3 & Hm & HN3 & HX3 & Hc3);
    [by rewrite HN2|done|done|].
  exists r', st3. unfold mbind, M_bind. rewrite Hf. cbn beta iota. rewrite Hm.
  split; [done|].
  assert (abs r' = T nid d' ch') as Habs'.
  { rewrite abs_eq. f_equal; [exact Hcd|exact Habs]. }
  assert (rev_ok r') as Hok'. { unfold r'. constructor; [by rewrite Hcd|done|done]. }
  apply NoDup_cons in Hnd as [Hni Hnd].
  split; [done|]. split; [done|]. split; [done|]. split.
  - econstructor.
    + eapply (mk_holds _ _ (set_branch None (mk_branch None (b_origin b) revs r') n)
                (mk_branch None (b_origin b) revs r')); try done.
      * by rewrite HN3, HN2, lookup_insert_eq.
      * cbn. by rewrite Hty.
      * apply lookup_insert_eq.
    + intros f l x Hfl Hx. apply (coh_frame (st_nodes st1)); [by eapply Hcoh|].
      intros m Hm'. rewrite HN3, HN2. apply lookup_insert_ne. intros ->. apply Hni.
      by eapply children_nodes_elem.
  - rewrite tree_nodes_eq. by apply NoDup_cons.
  - intros m. rewrite !tree_nodes_eq, !elem_of_cons, HX3, HX2. intros [->|Hm']; [by do 2 left|].
    destruct (Hsub m Hm'); auto.
  - intros m. rewrite tree_nodes_eq, not_elem_of_cons. intros [Hne Hnin] Hltm.
    rewrite HN3, HN2, lookup_insert_ne by done. by apply Hfr.
  - unfold cache_ok. by rewrite Hc3.
  - by rewrite HX3, HX2.
Qed.

(** Replacing part of one child list and carrying the change one level up. *)
Lemma carry_up st st1 nid d ch1 name l1 mid mid' l2 ch2 n b l'
    (anns : rev → list (CallbackType * change_data)) :
  pre st (T nid d (plug ch1 name l1 mid l2 ch2)) →
  holds (st_nodes st) (T nid d (plug ch1 name l1 mid l2 ch2)) n b →
  (∀ v, od_set name v (plug ch1 name l1 mid l2 ch2) = ch1 ++ (name, v) :: ch2) →
  cache_ok st1 → st_next_node st ≤ st_next_node st1 →
  (∀ m, m ∉ list_nodes mid → m < st_next_node st → st_nodes st1 !! m = st_nodes st !! m) →
  (∀ x, x ∈ mid' → coh (st_nodes st1) x) → NoDup (list_nodes mid') →
  (∀ m, m ∈ list_nodes mid' → m ∈ list_nodes mid ∨ st_next_node st ≤ m < st_next_node st1) →
  node_wf d (plug ch1 name l1 mid' l2 ch2) →
  map abs l' = l1 ++ mid' ++ l2 → Forall rev_ok l' →
  ∃ r' st', (r' ← update_children (b_latest b) name l' (mk_branch_ref nid None);
             _ ← make_latest nid None r' (anns r'); mret r') st1 = (Ok r', st') ∧
    abs r' = T nid d (plug ch1 name l1 mid' l2 ch2) ∧ rev_ok r' ∧
    post st (T nid d (plug ch1 name l1 mid l2 ch2)) st'
         (T nid d (plug ch1 name l1 mid' l2 ch2)).
Proof.
  intros Hpre Hh Hset Hca Hnx Hfr Hcoh Hnd' Hsub Hwf Hl' Hok'.
  set (ch := plug ch1 name l1 mid l2 ch2) in *.
  set (ch' := plug ch1 name l1 mid' l2 ch2) in *.
  pose proof (plug_nodes ch1 name l1 mid l2 ch2) as Hp. fold ch in Hp.
  pose proof (plug_nodes ch1 name l1 mid' l2 ch2) as Hp'. fold ch' in Hp'.
  pose proof (pre_nodup _ _ Hpre) as Hnd. rewrite tree_nodes_eq, Hp in Hnd.
  apply NoDup_cons in Hnd as [Hni Hnd].
  apply NoDup_app in Hnd as (_ & Hdis & Hndr).
  assert (∀ m, m ∈ rest_nodes ch1 l1 l2 ch2 → m < st_next_node st) as Hltr.
  { intros m Hm. apply (pre_fresh _ _ Hpre). rewrite tree_nodes_eq, Hp. right.
    apply elem_of_app. by right. }
  assert (nid < st_next_node st) as Hlt by (apply (pre_fresh _ _ Hpre); rewrite tree_nodes_eq; left).
  assert (∀ m, m ∈ rest_nodes ch1 l1 l2 ch2 → m ∉ list_nodes mid') as Hdis'.
  { intros m Hm Hin. destruct (Hsub m Hin) as [Hin'|?]; [by eapply Hdis|].
    apply Hltr in Hm. lia. }
  pose proof (h_abs _ _ _ _ Hh) as Habs. pose proof (h_ok _ _ _ _ Hh) as Hokb.
  destruct (b_latest b) as [i0 b0 c0 chr0 h0] eqn:Hlat.
  inversion Hokb as [? ? ? ? ? Hc0 Hh0 Hr0]; subst. rewrite abs_eq in Habs.
  unfold r_node, r_data in Habs. cbn [r_children r_config r_branch] in Habs. injection Habs as Hnode Hdata Hch.
  unfold update_children. cbn [r_config r_children].
  destruct (install st st1 nid d ch d ch' n b (Some (Rev i0 b0 c0 chr0 (hash_content c0 chr0)))
    c0 (od_set name l' chr0) anns)
    as (r' & st' & Hrun & Ha & Hro & _ & Hpost); try done.
  - intros m Hm Hltm. apply Hfr; [|done]. intros Hin. apply Hm. rewrite Hp.
    apply elem_of_app. by left.
  - intros f l x Hf Hx. destruct (plug_elem _ _ _ _ _ _ _ _ _ Hf Hx) as [Hmid|[Hrest Hback]];
      [by apply Hcoh|].
    destruct (Hback mid) as (l0 & Hf0 & Hx0).
    apply (coh_frame (st_nodes st)); [by eapply (coh_child _ _ _ _ _ (pre_coh _ _ Hpre))|].
    intros m Hm. apply Hfr; [|by apply Hltr, Hrest]. intros Hin. by eapply Hdis, Hrest.
  - apply NoDup_cons. split.
    + rewrite Hp'. intros [Hin|Hin]%elem_of_app.
      * destruct (Hsub _ Hin) as [Hin'|?]; [|lia]. apply Hni. apply elem_of_app. by left.
      * apply Hni. apply elem_of_app. by right.
    + rewrite Hp'. apply NoDup_app. split_and!; [done| |done]. intros m Hin Hr. by eapply Hdis'.
  - intros m. rewrite Hp', elem_of_app. intros [Hin|Hin].
    + destruct (Hsub _ Hin) as [Hin'|?]; [left|by right]. rewrite Hp. apply elem_of_app. by left.
    + left. rewrite Hp. apply elem_of_app. by right.
  - rewrite Hc0. by rewrite Hdata.
  - rewrite od_set_abs, Hch, Hset. unfold ch', plug. by rewrite Hl'.
  - intros f l x Hf Hx. apply elem_of_od_set in Hf as [[-> ->]|Hf]; [|by eapply Hr0].
    rewrite Forall_forall in Hok'. by apply Hok'.
  - exists r', st'. done.
Qed.

End tree.
