(* ===== verification/ConfigUpdate.v ===== *)
(** * Updating the committed tree

    [t_update] and [t_remove] say what [ConfigNode.update] and
    [ConfigNode.remove] mean on the abstract tree: by recursion on the tree,
    with no node, branch, hash or revision in sight.  The theorems show that
    the operations of config_node.py implement them on every path, the errors
    included, and that a read after a write returns what was written. *)

From stdpp Require Import prelude strings gmap list.
From S2P Require Import Prelude ConfigRev ConfigStore ConfigNode ConfigTree.

Section update.
Context `{Env, !Callbacks}.

(** ** The specification *)

(** Replacing one element of the child list of one field. *)
Definition alter_field {A} (name : string) (f : A → result A) :
    list (string * A) → result (list (string * A)) :=
  fix go ch := match ch with
  | [] => Raise KeyError
  | (n, l) :: ch =>
      if decide (name = n) then l' ← f l; Ok ((n, l') :: ch)
      else ch' ← go ch; Ok ((n, l) :: ch')
  end.
Definition alter_first {A} (p : A → bool) (f : A → result A) : list A → result (list A) :=
  fix go l := match l with
  | [] => Raise KeyError
  | x :: l =>
      if p x then y ← f x; Ok (y :: l) else l' ← go l; Ok (x :: l')
  end.
Definition alter_head {A} (f : A → result A) (l : list A) : result (list A) :=
  match l with [] => Raise IndexError | x :: _ => y ← f x; Ok [y] end.
Definition remove_first {A} (p : A → bool) (f : A → result unit) : list A → result (list A) :=
  fix go l := match l with
  | [] => Raise KeyError
  | x :: l => if p x then _ ← f x; Ok l else l' ← go l; Ok (x :: l')
  end.

Definition t_has_key (keyname : string) (key : attr) (x : tree) : bool :=
  bool_decide (getattr (t_data x) keyname = key).
Definition same_key (keyname : string) (key : attr) (x : tree) : result tree :=
  if bool_decide (getattr (t_data x) keyname ≠ key) then Raise ValueError else Ok x.

(** The synchronous hook of a node, as the store has it. *)
Definition hook (ns : gmap node_id node) (ty : CallbackType) (nid : node_id) (data : msg)
    : result unit :=
  match ns !! nid with Some n => pre_hook n ty data | None => Raise KeyError end.

(** Writing the message of one node: its type, the absence of nested children,
    the hook and (when [strict]) the read-only fields are checked, in this
    order. *)
Definition t_write (ns : gmap node_id node) (data : msg) (strict : bool) (t : tree)
    : result tree :=
  let 'T nid d ch := t in
  if bool_decide (msg_type data = msg_type d) then
    _ ← test_no_children (msg_type d) data;
    _ ← hook ns PRE_UPDATE nid data;
    if bool_decide (d = data) then Ok t
    else _ ← (if strict then check_access_violation data d else Ok tt); Ok (T nid data ch)
  else Raise ValueError.

Fixpoint t_update (ns : gmap node_id node) (data : msg) (strict : bool) (t : tree)
    (path : string) {struct t} : result tree :=
  let path := strip_slashes path in
  if bool_decide (path = "") then t_write ns data strict t
  else
    let '(name, path) := partition path in
    match t with
    | T nid d ch =>
        field ← field_of (msg_type d) name;
        ch' ← (if is_container field then
                 if bool_decide (path = "") then Raise ValueError
                 else match ct_key field with
                 | Some keyname =>
                     let '(key, path) := partition path in
                     key ← key_from_str field key;
                     alter_field name (alter_first (t_has_key keyname key)
                       (λ x, y ← t_update ns data strict x path; same_key keyname key y)) ch
                 | None => Raise ValueError
                 end
               else alter_field name (alter_head (λ x, t_update ns data strict x path)) ch);
        Ok (T nid d ch')
    end.

(** The update is refused because the written message has another key than
    the one in the path; the nodes below the container are rewritten already. *)
Definition any_field {A} (name : string) (f : A → bool) : list (string * A) → bool :=
  fix go ch := match ch with
  | [] => false
  | (n, l) :: ch => if decide (name = n) then f l else go ch
  end.
Definition any_first {A} (p f : A → bool) : list A → bool :=
  fix go l := match l with [] => false | x :: l => if p x then f x else go l end.
Definition any_head {A} (f : A → bool) (l : list A) : bool :=
  match l with [] => false | x :: _ => f x end.

Fixpoint t_rekeys (ns : gmap node_id node) (data : msg) (strict : bool) (t : tree)
    (path : string) {struct t} : bool :=
  let path := strip_slashes path in
  if bool_decide (path = "") then false
  else
    let '(name, path) := partition path in
    match t with
    | T _ d ch =>
        match field_of (msg_type d) name with
        | Raise _ => false
        | Ok field =>
            if is_container field then
              match ct_key field with
              | None => false
              | Some keyname =>
                  let '(key, path) := partition path in
                  match key_from_str field key with
                  | Raise _ => false
                  | Ok key =>
                      any_field name (any_first (t_has_key keyname key)
                        (λ x, match t_update ns data strict x path with
                              | Ok y => negb (t_has_key keyname key y)
                              | Raise _ => t_rekeys ns data strict x path
                              end)) ch
                  end
              end
            else any_field name (any_head (λ x, t_rekeys ns data strict x path)) ch
        end
    end.

Fixpoint t_remove (ns : gmap node_id node) (t : tree) (path : string) {struct t} : result tree :=
  let path := strip_slashes path in
  if bool_decide (path = "") then Raise ValueError
  else
    let '(name, path) := partition path in
    match t with
    | T nid d ch =>
        field ← field_of (msg_type d) name;
        if is_container field then
          if bool_decide (path = "") then Raise ValueError
          else match ct_key field with
          | Some keyname =>
              let '(key, path) := partition path in
              key ← key_from_str field key;
              ch' ← (if bool_decide (path = "") then
                       alter_field name (remove_first (t_has_key keyname key)
                         (λ x, hook ns PRE_REMOVE nid (t_data x))) ch
                     else
                       alter_field name (alter_first (t_has_key keyname key)
                         (λ x, t_remove ns x path)) ch);
              Ok (T nid d ch')
          | None => Raise ValueError
          end
        else Raise ValueError
    end.

(** ** Lemmas on the specification *)

Lemma alter_field_eq {A} name (f : A → result A) ch :
  alter_field name f ch =
  match od_get name ch with
  | Some l => l' ← f l; Ok (od_set name l' ch)
  | None => Raise KeyError
  end.
Proof.
  induction ch as [|[n l] ch IH]; [done|]. simpl. case_decide as Hn; [by subst|].
  rewrite IH. destruct (od_get name ch) as [l'|]; [|done]. by destruct (f l').
Qed.

Lemma alter_first_eq {A B} (g : B → A) p f (l : list B) :
  alter_first p f (map g l) =
  match find_index (λ b, p (g b)) l with
  | Some (i, x) => y ← f (g x); Ok (<[i := y]> (map g l))
  | None => Raise KeyError
  end.
Proof.
  induction l as [|x l IH]; [done|]. simpl. destruct (p (g x)); [done|]. rewrite IH.
  destruct (find_index _ l) as [[i y]|]; [|done]. by destruct (f (g y)).
Qed.

Lemma remove_first_eq {A B} (g : B → A) p f (l : list B) :
  remove_first p f (map g l) =
  match find_index (λ b, p (g b)) l with
  | Some (i, x) => _ ← f (g x); Ok (delete i (map g l))
  | None => Raise KeyError
  end.
Proof.
  induction l as [|x l IH]; [done|]. simpl. destruct (p (g x)); [done|]. rewrite IH.
  destruct (find_index _ l) as [[i y]|]; [|done]. by destruct (f (g y)).
Qed.

Lemma any_field_eq {A} name (f : A → bool) ch :
  any_field name f ch = match od_get name ch with Some l => f l | None => false end.
Proof. induction ch as [|[n l] ch IH]; [done|]. simpl. by case_decide. Qed.
Lemma any_first_eq {A B} (g : B → A) p f (l : list B) :
  any_first p f (map g l) =
  match find_index (λ b, p (g b)) l with Some (_, x) => f (g x) | None => false end.
Proof.
  induction l as [|x l IH]; [done|]. simpl. destruct (p (g x)); [done|]. rewrite IH.
  by destruct (find_index _ l) as [[]|].
Qed.

(** The element found by key among the children of a revision. *)
Lemma find_key_abs keyname key l :
  find_index (λ b, t_has_key keyname key (abs b)) l = find_index (has_key keyname key) l.
Proof. apply find_index_ext. intros b. unfold t_has_key, has_key. by rewrite abs_data. Qed.

Lemma same_key_Ok keyname key x y : same_key keyname key x = Ok y ↔
  y = x ∧ getattr (t_data x) keyname = key.
Proof. unfold same_key. case_bool_decide; naive_solver. Qed.

Lemma strip_slashes_length path : String.length (strip_slashes path) ≤ String.length path.
Proof.
  induction path as [|a p IH]; [done|].
  destruct a as [[] [] [] [] [] [] [] []]; simpl in *; lia.
Qed.
Lemma partition_length path h t :
  partition path = (h, t) → path ≠ "" → String.length t < String.length path.
Proof.
  revert h t. induction path as [|a p IH]; intros h t; [done|]. intros Hp _.
  assert (String.length t ≤ String.length p); [|simpl; lia].
  destruct (partition p) as [h' t'] eqn:Hpp.
  destruct (decide (p = "")) as [->|Hne].
  - destruct a as [[] [] [] [] [] [] [] []]; simpl in *; simplify_eq; done.
  - specialize (IH _ _ eq_refl Hne).
    destruct a as [[] [] [] [] [] [] [] []]; simpl in *; rewrite ?Hpp in Hp; simplify_eq; lia.
Qed.

(** ** The hash of a tree *)

Fixpoint thash (t : tree) : hash :=
  match t with
  | T _ d ch => md5_content (md5_data d) (concat (map (λ fl, map thash fl.2) ch))
  end.

Lemma thash_abs r : rev_ok r → thash (abs r) = r_hash r.
Proof.
  induction 1 as [i b c ch h Hc Hh Hch IH]. rewrite abs_eq. subst h.
  unfold r_data, hash_content, abs_children. cbn [thash r_config r_children r_hash].
  rewrite Hc, map_map. do 2 f_equal. apply map_ext_in. intros [f l] Hf. cbn.
  rewrite map_map. apply map_ext_in. intros x Hx.
  apply (IH f l x); by apply list_elem_of_In.
Qed.

Context `{!NoCollisions}.

(** A child list in which one element got another hash has other hashes. *)
Lemma plug_hash_inj ch1 name l1 x y l2 ch2 (nid : node_id) d :
  thash (T nid d (plug ch1 name l1 [x] l2 ch2)) = thash (T nid d (plug ch1 name l1 [y] l2 ch2)) →
  thash x = thash y.
Proof.
  cbn [thash]. unfold plug. intros [_ Hl]%md5_content_inj.
  rewrite !map_app, !concat_app in Hl. apply app_inv_head in Hl.
  cbn in Hl. rewrite !map_app in Hl. cbn in Hl. rewrite <- !app_assoc in Hl.
  apply app_inv_head in Hl. by injection Hl.
Qed.

Lemma od_set_plug name ch l :
  od_get name ch = Some l → ∃ ch1 ch2,
    (∀ v, od_set name v ch = ch1 ++ (name, v) :: ch2) ∧
    ∀ l1 mid l2, l = l1 ++ mid ++ l2 → ch = plug ch1 name l1 mid l2 ch2.
Proof.
  intros (ch1 & ch2 & -> & Hset)%od_get_split. exists ch1, ch2. split; [done|].
  by intros l1 mid l2 ->.
Qed.

(** What an update of the children by key or of a singular child does: one
    child [x] became [y]. *)
Lemma t_update_step ns data strict nid d ch path name rest field t' :
  node_wf d ch →
  strip_slashes path ≠ "" → partition (strip_slashes path) = (name, rest) →
  field_of (msg_type d) name = Ok field →
  t_update ns data strict (T nid d ch) path = Ok t' →
  ∃ ch1 l1 x y l2 ch2 rest', ch = plug ch1 name l1 [x] l2 ch2 ∧
    t' = T nid d (plug ch1 name l1 [y] l2 ch2) ∧ t_update ns data strict x rest' = Ok y.
Proof.
  intros Hwf Hne Hp Hf. cbn [t_update]. rewrite bool_decide_false by done. rewrite Hp, Hf.
  cbn [mbind result_bind]. intros (ch' & Hch & [= <-])%result_bind_Ok.
  destruct (is_container field) eqn:Hco.
  - case_bool_decide; [done|]. destruct (ct_key field) as [keyname|]; [|done].
    destruct (partition rest) as [key rest'].
    apply result_bind_Ok in Hch as (k & _ & Hch). rewrite alter_field_eq in Hch.
    destruct (od_get name ch) as [l|] eqn:Hl; [|done].
    apply result_bind_Ok in Hch as (l' & Hl' & [= <-]).
    rewrite <- (map_id l), (alter_first_eq id), map_id in Hl'.
    destruct (find_index _ l) as [[i x]|] eqn:Hi; [|done].
    apply find_index_split in Hi as (l1 & l2 & Heq & _ & _ & Hins).
    apply result_bind_Ok in Hl' as (y & Hy & [= <-]).
    apply result_bind_Ok in Hy as (z & Hz & [-> _]%same_key_Ok).
    destruct (od_set_plug _ _ _ Hl) as (ch1 & ch2 & Hset & Hplug).
    exists ch1, l1, x, z, l2, ch2, rest'. split_and!; [by apply Hplug| |done].
    by rewrite Hins, Hset.
  - rewrite alter_field_eq in Hch. destruct (od_get name ch) as [l|] eqn:Hl; [|done].
    apply result_bind_Ok in Hch as (l' & Hl' & [= <-]).
    destruct l as [|x l]; [done|]. cbn in Hl'.
    apply result_bind_Ok in Hl' as (y & Hy & [= <-]).
    destruct (od_set_plug _ _ _ Hl) as (ch1 & ch2 & Hset & Hplug).
    assert (l = []) as ->.
    { destruct (Hwf _ _ Hf) as (l0 & Hl0 & Hfw). unfold field_wf in Hfw. rewrite Hco in Hfw.
      rewrite Hl in Hl0. injection Hl0 as <-. destruct l; [done|simpl in Hfw; lia]. }
    exists ch1, [], x, y, [], ch2, rest. split_and!; [by apply Hplug| |done]. by rewrite Hset.
Qed.

(** An update that leaves the hash alone leaves the tree alone. *)
Lemma t_update_hash ns ns' data strict t path t' :
  coh ns' t → t_update ns data strict t path = Ok t' → thash t' = thash t → t' = t.
Proof.
  intros Hcoh. revert path t'. induction Hcoh as [nid d ch n b Hh _ IH].
  intros path t' Hup Hhash. destruct (decide (strip_slashes path = "")) as [He|Hne].
  - cbn [t_update] in Hup. rewrite bool_decide_true in Hup by done. unfold t_write in Hup.
    case_bool_decide; [|done].
    apply result_bind_Ok in Hup as (_ & _ & Hup). apply result_bind_Ok in Hup as (_ & _ & Hup).
    case_bool_decide; [by simplify_eq|].
    apply result_bind_Ok in Hup as (_ & _ & Hup). simplify_eq/=.
    apply md5_content_inj in Hhash as [->%md5_data_inj _]. done.
  - destruct (partition (strip_slashes path)) as [name rest] eqn:Hp.
    destruct (field_of (msg_type d) name) as [field|e] eqn:Hf; last first.
    { cbn [t_update] in Hup. rewrite bool_decide_false in Hup by done.
      by rewrite Hp, Hf in Hup. }
    pose proof (h_wf _ _ _ _ Hh) as Hwf. cbn [t_data t_children] in Hwf.
    destruct (t_update_step _ _ _ _ _ _ _ _ _ _ _ Hwf Hne Hp Hf Hup)
      as (ch1 & l1 & x & y & l2 & ch2 & rest' & -> & -> & Hxy).
    apply plug_hash_inj in Hhash.
    rewrite (IH name (l1 ++ [x] ++ l2) x) with (path := rest') (t' := y); try done.
    + unfold plug. apply elem_of_app. right. left.
    + apply elem_of_app. right. left.
Qed.

(** ** Refinement *)

Lemma pre_child st nid d ch1 name l1 x l2 ch2 :
  pre st (T nid d (plug ch1 name l1 [x] l2 ch2)) → pre st x.
Proof.
  intros Hpre. pose proof (plug_nodes ch1 name l1 [x] l2 ch2) as Hp.
  assert (list_nodes [x] = tree_nodes x) as Hx by (unfold list_nodes; simpl; by rewrite app_nil_r).
  rewrite Hx in Hp. split.
  - eapply (coh_child _ _ name (l1 ++ [x] ++ l2) x (pre_coh _ _ Hpre)).
    + unfold plug. apply elem_of_app. right. left.
    + apply elem_of_app. right. left.
  - pose proof (pre_nodup _ _ Hpre) as Hnd. rewrite tree_nodes_eq, Hp in Hnd.
    apply NoDup_cons in Hnd as [_ Hnd]. by apply NoDup_app in Hnd as [? _].
  - intros m Hm. apply (pre_fresh _ _ Hpre). rewrite tree_nodes_eq, Hp. right.
    apply elem_of_app. by left.
  - apply Hpre.
Qed.

(** A child rewritten in place with the same content. *)
Lemma post_child st st1 nid d ch1 name l1 x l2 ch2 :
  pre st (T nid d (plug ch1 name l1 [x] l2 ch2)) → post st x st1 x →
  post st (T nid d (plug ch1 name l1 [x] l2 ch2)) st1 (T nid d (plug ch1 name l1 [x] l2 ch2)).
Proof.
  intros Hpre Hpost. set (t := T nid d _) in *.
  pose proof (plug_nodes ch1 name l1 [x] l2 ch2) as Hp.
  assert (list_nodes [x] = tree_nodes x) as Hx by (unfold list_nodes; simpl; by rewrite app_nil_r).
  rewrite Hx in Hp.
  pose proof (pre_nodup _ _ Hpre) as Hnd. unfold t in Hnd. rewrite tree_nodes_eq, Hp in Hnd.
  apply NoDup_cons in Hnd as [Hni Hnd]. apply NoDup_app in Hnd as (_ & Hdis & _).
  assert (∀ m, m ∈ tree_nodes t → m ∉ tree_nodes x → st_nodes st1 !! m = st_nodes st !! m) as Hfr.
  { intros m Hm Hmx. apply (post_frame _ _ _ _ Hpost); [done|by apply (pre_fresh _ _ Hpre)]. }
  assert (∀ m, m ∈ rest_nodes ch1 l1 l2 ch2 → st_nodes st1 !! m = st_nodes st !! m) as Hfr'.
  { intros m Hm. apply Hfr; [|intros Hmx; by eapply Hdis].
    unfold t. rewrite tree_nodes_eq, Hp. right. apply elem_of_app. by right. }
  split; [|apply Hpre|by left| |apply Hpost|apply Hpost].
  - destruct (coh_holds _ _ (pre_coh _ _ Hpre)) as (n & b & Hh). econstructor.
    + destruct Hh as [Hn ??????]. split; [|done..]. etrans; [|exact Hn]. apply Hfr.
      * unfold t. rewrite tree_nodes_eq. left.
      * intros Hin. apply Hni. apply elem_of_app. by left.
    + intros f l y Hf Hy. destruct (plug_elem _ _ _ _ _ _ _ _ _ Hf Hy) as [Hmid|[Hrest _]].
      * apply list_elem_of_singleton in Hmid as ->. apply Hpost.
      * apply (coh_frame (st_nodes st)); [by eapply (coh_child _ _ _ _ _ (pre_coh _ _ Hpre))|].
        intros m Hm. by apply Hfr', Hrest.
  - intros m Hm Hlt. apply (post_frame _ _ _ _ Hpost); [|done]. intros Hin. apply Hm.
    unfold t. rewrite tree_nodes_eq, Hp. right. apply elem_of_app. by left.
Qed.

(** Running [m] from [st] on the tree [t] yields what [spec] says: a revision
    of the specified tree, or the exception of the specification, which leaves
    the store as it was unless [partial] says that part of the work is done. *)
Definition refines (st : store) (t : tree) (m : M store rev) (spec : result tree)
    (partial : bool) : Prop :=
  match spec with
  | Ok t' => ∃ r' st', m st = (Ok r', st') ∧ abs r' = t' ∧ rev_ok r' ∧ post st t st' t'
  | Raise e => ∃ st', m st = (Raise e, st') ∧ (partial = false → st' = st)
  end.

Lemma do_update_refines st t n b data strict :
  pre st t → holds (st_nodes st) t n b →
  refines st t (do_update (t_node t) None data strict) (t_write (st_nodes st) data strict t) false.
Proof.
  intros Hpre Hh. destruct t as [nid d ch]. pose proof Hh as [Hn Hty Hb Htx Habs Hok Hwf].
  cbn [t_node t_data t_children] in *.
  unfold refines, t_write, hook. rewrite Hn. unfold do_update, mbind, M_bind, get_node.
  rewrite Hn. cbn [of_option]. rewrite Hty. unfold lift. cbn beta iota.
  case_bool_decide as Hmt; [|eauto].
  destruct (test_no_children _ _) as [[]|e]; cbn [mbind result_bind]; [|eauto].
  destruct (pre_hook n PRE_UPDATE data) as [[]|e]; cbn [mbind result_bind]; [|eauto].
  rewrite Hb. cbn [of_option].
  assert (r_data (b_latest b) = d) as Hd by (by rewrite <- abs_data, Habs).
  rewrite Hd. case_bool_decide as Heq.
  { subst data. exists (b_latest b), st. split_and!; [done|done|done|by apply post_refl]. }
  destruct (if strict then _ else _) as [[]|e]; cbn [result_bind]; [|eauto].
  unfold update_data. rewrite Htx.
  destruct (install st st nid d ch data ch n b (Some (b_latest b)) (ConfigDataRevision data) (r_children (b_latest b))
              (λ r, [(POST_UPDATE, ChMsg (r_data r))]))
    as (r' & st' & Hrun & Ha & Hro & _ & Hpost); try done; try apply Hpre.
  - intros f l x Hf Hx. by eapply (coh_child _ _ _ _ _ (pre_coh _ _ Hpre)).
  - rewrite <- (tree_nodes_eq nid d ch). apply Hpre.
  - by left.
  - intros name field. rewrite Hmt. apply Hwf.
  - rewrite abs_eq in Habs. by injection Habs.
  - intros f l x Hf Hx. by eapply rev_ok_children.
  - exists r', st'. by split_and!.
Qed.

Lemma node_wf_set d ch name field l' :
  node_wf d ch → field_of (msg_type d) name = Ok field → field_wf field l' →
  node_wf d (od_set name l' ch).
Proof.
  intros Hwf Hf Hl' name' field' Hf'. destruct (decide (name = name')) as [<-|Hne].
  - exists l'. rewrite od_get_set. split; [done|]. rewrite Hf in Hf'. by injection Hf' as <-.
  - rewrite od_get_set_ne by done. by apply Hwf.
Qed.

(** Exchanging part of the children of one field for already stored ones. *)
Lemma replace_children st st1 nid d ch n b name field lr1 mid mid' lr2 p
    (anns : rev → list (CallbackType * change_data)) :
  pre st (T nid d ch) → holds (st_nodes st) (T nid d ch) n b →
  od_get name (r_children (b_latest b)) = Some (lr1 ++ mid ++ lr2) →
  field_of (msg_type d) name = Ok field → field_wf field (map abs (lr1 ++ mid' ++ lr2)) →
  cache_ok st1 → st_next_node st ≤ st_next_node st1 →
  (∀ m, m ∉ list_nodes (map abs mid) → m < st_next_node st → st_nodes st1 !! m = st_nodes st !! m) →
  (∀ x, x ∈ map abs mid' → coh (st_nodes st1) x) → NoDup (list_nodes (map abs mid')) →
  (∀ m, m ∈ list_nodes (map abs mid') →
        m ∈ list_nodes (map abs mid) ∨ st_next_node st ≤ m < st_next_node st1) →
  Forall rev_ok mid' →
  refines st (T nid d ch)
    (λ _, (r' ← update_children (b_latest b) name (lr1 ++ mid' ++ lr2) (mk_branch_ref nid None);
           _ ← make_latest nid None r' (anns r'); mret r') st1)
    (Ok (T nid d (od_set name (map abs (lr1 ++ mid' ++ lr2)) ch))) p.
Proof.
  intros Hpre Hh Hl Hf Hfw Hca Hnx Hfr Hcoh Hnd Hsub Hok.
  pose proof (h_abs _ _ _ _ Hh) as Habs. rewrite abs_eq in Habs.
  injection Habs as _ _ Hch.
  assert (od_get name ch = Some (map abs (lr1 ++ mid ++ lr2))) as Hl' by (by rewrite <- Hch, od_get_abs, Hl).
  destruct (od_set_plug _ _ _ Hl') as (ch1 & ch2 & Hset & Hplug).
  assert (ch = plug ch1 name (map abs lr1) (map abs mid) (map abs lr2) ch2) as Heq.
  { apply Hplug. by rewrite !map_app. }
  pose proof (h_wf _ _ _ _ Hh) as Hwf. cbn [t_data t_children] in Hwf.
  pose proof (node_wf_set _ _ _ _ _ Hwf Hf Hfw) as Hwf'.
  assert (od_set name (map abs (lr1 ++ mid' ++ lr2)) ch =
          plug ch1 name (map abs lr1) (map abs mid') (map abs lr2) ch2) as Hset'.
  { by rewrite !map_app, Hset. }
  rewrite Hset' in Hwf' |- *. rewrite Heq in Hset, Hpre, Hh |- *.
  apply (carry_up st st1 nid d ch1 name (map abs lr1) (map abs mid) (map abs mid') (map abs lr2)
    ch2 n b (lr1 ++ mid' ++ lr2) anns); try done.
  - by rewrite !map_app.
  - apply od_get_Some_elem in Hl. rewrite !Forall_app. split_and!; [|done|];
      apply Forall_forall; intros x Hx; eapply rev_ok_children; eauto using h_ok; set_solver.
Qed.

(** Exchanging one child for the result of an operation on it. *)
Lemma replace_child st st1 nid d ch n b name field lr1 cr nr lr2
    (anns : rev → list (CallbackType * change_data)) p :
  pre st (T nid d ch) → holds (st_nodes st) (T nid d ch) n b →
  od_get name (r_children (b_latest b)) = Some (lr1 ++ cr :: lr2) →
  field_of (msg_type d) name = Ok field → field_wf field (map abs (lr1 ++ nr :: lr2)) →
  post st (abs cr) st1 (abs nr) → rev_ok nr →
  refines st (T nid d ch)
    (λ _, (r' ← update_children (b_latest b) name (lr1 ++ nr :: lr2) (mk_branch_ref nid None);
           _ ← make_latest nid None r' (anns r'); mret r') st1)
    (Ok (T nid d (od_set name (map abs (lr1 ++ nr :: lr2)) ch))) p.
Proof.
  intros Hpre Hh Hl Hf Hfw Hpost Hok.
  assert (∀ r, list_nodes (map abs [r]) = tree_nodes (abs r)) as Hln.
  { intros r. unfold list_nodes. simpl. by rewrite app_nil_r. }
  apply (replace_children st st1 nid d ch n b name field lr1 [cr] [nr] lr2 p anns); try done;
    rewrite ?Hln; try apply Hpost; [|by constructor].
  intros x Hx%list_elem_of_singleton. subst. apply Hpost.
Qed.

(** The child found by key and its place in the tree. *)
Lemma holds_children ns nid d ch n b name l :
  holds ns (T nid d ch) n b → od_get name (r_children (b_latest b)) = Some l →
  od_get name ch = Some (map abs l).
Proof.
  intros Hh Hl. pose proof (h_abs _ _ _ _ Hh) as Habs. rewrite abs_eq in Habs.
  injection Habs as _ _ <-. by rewrite od_get_abs, Hl.
Qed.
Lemma holds_children_None ns nid d ch n b name :
  holds ns (T nid d ch) n b → od_get name (r_children (b_latest b)) = None →
  od_get name ch = None.
Proof.
  intros Hh Hl. pose proof (h_abs _ _ _ _ Hh) as Habs. rewrite abs_eq in Habs.
  injection Habs as _ _ <-. by rewrite od_get_abs, Hl.
Qed.
Lemma pre_child_rev st nid d ch n b name lr1 cr lr2 :
  pre st (T nid d ch) → holds (st_nodes st) (T nid d ch) n b →
  od_get name (r_children (b_latest b)) = Some (lr1 ++ cr :: lr2) →
  pre st (abs cr) ∧ rev_ok cr.
Proof.
  intros Hpre Hh Hl. split.
  - pose proof (holds_children _ _ _ _ _ _ _ _ Hh Hl) as Hl'.
    destruct (od_set_plug _ _ _ Hl') as (ch1 & ch2 & _ & Hplug).
    rewrite (Hplug (map abs lr1) [abs cr] (map abs lr2)) in Hpre by (by rewrite map_app).
    by eapply pre_child.
  - eapply rev_ok_children; [apply (h_ok _ _ _ _ Hh)|by apply od_get_Some_elem|set_solver].
Qed.
Lemma field_wf_key field keyname l1 x y l2 :
  is_container field = true → ct_key field = Some keyname →
  getattr (t_data y) keyname = getattr (t_data x) keyname →
  field_wf field (l1 ++ x :: l2) → field_wf field (l1 ++ y :: l2).
Proof.
  unfold field_wf. intros -> -> Hk. by rewrite !map_app, !map_cons, Hk.
Qed.

(** Descending one level consumes part of the path. *)
Lemma path_tail path name rest key rest' fuel :
  strip_slashes path ≠ "" → partition (strip_slashes path) = (name, rest) →
  String.length path < S fuel →
  String.length rest < fuel ∧
  (rest ≠ "" → partition rest = (key, rest') → String.length rest' < fuel).
Proof.
  intros Hne Hp Hlt. pose proof (partition_length _ _ _ Hp Hne).
  pose proof (strip_slashes_length path). split; [lia|].
  intros Hr Hp'. pose proof (partition_length _ _ _ Hp' Hr). lia.
Qed.

Lemma get_branch_holds st nid d ch n b :
  holds (st_nodes st) (T nid d ch) n b → get_branch nid None st = (Ok b, st) ∧
    get_node nid st = (Ok n, st).
Proof.
  intros [Hn _ Hb _ _ _ _]. cbn in Hn. unfold get_branch, get_node, mbind, M_bind.
  rewrite Hn. cbn [of_option]. by rewrite Hb.
Qed.

(** Rules for [refines]: steps that leave the store alone, and exceptions that
    both sides raise. *)
Lemma refines_run {A} st t (m : M store A) f a spec p :
  m st = (Ok a, st) → refines st t (f a) spec p → refines st t (m ≫= f) spec p.
Proof. intros Hm. unfold refines, mbind, M_bind. by rewrite Hm. Qed.
Lemma refines_lift {A} st t (r : result A) (f : A → M store rev) (g : A → result tree) p :
  (∀ a, r = Ok a → refines st t (f a) (g a) p) → refines st t (lift r ≫= f) (r ≫= g) p.
Proof.
  intros Hfg. destruct r as [a|e]; [|by exists st]. cbn [mbind result_bind].
  eapply refines_run; [done|]. by apply Hfg.
Qed.
Lemma refines_raise st t e p : refines st t (raise e) (Raise e) p.
Proof. by exists st. Qed.

Lemma refines_spec st t m spec spec' p p' :
  refines st t m spec p → spec' = spec → p' = p → refines st t m spec' p'.
Proof. by intros ? -> ->. Qed.

(** An operation on a child, then the rest of the code on its result. *)
Lemma refines_child st t x (m : M store rev) f (sub spec : result tree) px p :
  refines st x m sub px →
  (∀ e, sub = Raise e → spec = Raise e ∧ p = px) →
  (∀ r st1, sub = Ok (abs r) → rev_ok r → post st x st1 (abs r) →
     refines st t (λ _, f r st1) spec p) →
  refines st t (m ≫= f) spec p.
Proof.
  intros Hm Hraise Hok. destruct sub as [y|e].
  - destruct Hm as (r & st1 & Hm & <- & Hro & Hpost).
    specialize (Hok r st1 eq_refl Hro Hpost). unfold refines, mbind, M_bind in *. by rewrite Hm.
  - destruct (Hraise e eq_refl) as [-> ->]. destruct Hm as (st' & Hm & Hst). exists st'.
    unfold mbind, M_bind. by rewrite Hm.
Qed.

(** The end of an update through a keyed container. *)
Lemma update_tail st nid d ch n b name field keyname k lr1 cr lr2 nr st1 :
  pre st (T nid d ch) → holds (st_nodes st) (T nid d ch) n b →
  od_get name (r_children (b_latest b)) = Some (lr1 ++ cr :: lr2) →
  field_of (msg_type d) name = Ok field → is_container field = true →
  ct_key field = Some keyname → has_key keyname k cr = true →
  post st (abs cr) st1 (abs nr) → rev_ok nr → rev_ok cr →
  (thash (abs nr) = thash (abs cr) → abs nr = abs cr) →
  refines st (T nid d ch)
    (λ _, (if bool_decide (r_hash nr = r_hash cr) then mret (b_latest b)
           else if bool_decide (getattr (r_data nr) keyname ≠ k) then raise ValueError
           else
             r' ← update_children (b_latest b) name (lr1 ++ nr :: lr2) (mk_branch_ref nid None);
             _ ← make_latest nid None r' []; mret r') st1)
    (_ ← same_key keyname k (abs nr); Ok (T nid d (od_set name (map abs (lr1 ++ nr :: lr2)) ch)))
    (negb (t_has_key keyname k (abs nr))).
Proof.
  intros Hpre Hh Hl Hf Hco Hck Hk%bool_decide_eq_true Hpost Hron Hroc Hinj.
  pose proof (h_wf _ _ _ _ Hh _ _ Hf) as (l0 & Hl0 & Hfw). cbn [t_children] in Hl0.
  pose proof (holds_children _ _ _ _ _ _ _ _ Hh Hl) as Hl'. rewrite Hl' in Hl0.
  injection Hl0 as <-. rewrite map_app, map_cons in Hl', Hfw.
  unfold same_key. rewrite abs_data. case_bool_decide as Hhash.
  - rewrite <- !thash_abs in Hhash by done. specialize (Hinj Hhash).
    rewrite <- (abs_data nr), Hinj, abs_data, bool_decide_false by auto.
    rewrite map_app, map_cons, Hinj in *. cbn [mbind result_bind].
    destruct (od_set_plug _ _ _ Hl') as (ch1 & ch2 & Hset & Hplug).
    specialize (Hplug (map abs lr1) [abs cr] (map abs lr2) eq_refl).
    rewrite Hset. unfold plug in Hplug. cbn in Hplug. rewrite <- Hplug.
    exists (b_latest b), st1. split_and!; [done|apply Hh|apply Hh|].
    rewrite Hplug in Hpre |- *. by apply (post_child _ _ _ _ _ _ _ (abs cr)).
  - case_bool_decide as Hkey.
    { exists st1. split; [done|]. unfold t_has_key. by rewrite abs_data, bool_decide_false. }
    cbn [mbind result_bind].
    eapply (replace_child _ _ _ _ _ _ _ _ _ _ _ _ _ (λ _, [])); try done.
    rewrite map_app, map_cons. eapply field_wf_key; [done|done| |exact Hfw].
    by rewrite !abs_data, Hk.
Qed.

Lemma update_refines_aux fuel : ∀ st t path data strict,
  pre st t → String.length path < fuel →
  refines st t (update_ fuel (t_node t) path data strict None)
    (t_update (st_nodes st) data strict t path) (t_rekeys (st_nodes st) data strict t path).
Proof.
  induction fuel as [|fuel IH]; intros st t path data strict Hpre Hlt; [lia|].
  destruct (coh_holds _ _ (pre_coh _ _ Hpre)) as (n & b & Hh).
  destruct t as [nid d ch]. destruct (get_branch_holds _ _ _ _ _ _ Hh) as [Hgb Hgn].
  pose proof (h_type _ _ _ _ Hh) as Hty. cbn [t_data] in Hty.
  pose proof (h_txid _ _ _ _ Hh) as Htx. pose proof (h_wf _ _ _ _ Hh) as Hwf.
  cbn [t_data t_children] in Hwf. cbn [update_ t_update t_rekeys t_node].
  eapply refines_run; [exact Hgb|].
  case_bool_decide as Hpe; [by eapply (do_update_refines st (T nid d ch))|].
  destruct (partition (strip_slashes path)) as [name rest] eqn:Hp.
  eapply refines_run; [exact Hgn|]. rewrite Hty. apply refines_lift. intros field Hf.
  rewrite Hf. destruct (is_container field) eqn:Hco.
  - case_bool_decide as Hre; [apply refines_raise|].
    destruct (ct_key field) as [keyname|] eqn:Hck; [|apply refines_raise].
    destruct (partition rest) as [key rest'] eqn:Hp'.
    destruct (key_from_str field key) as [k|e]; [|by exists st].
    eapply refines_run; [done|]. cbn [mbind result_bind]. rewrite alter_field_eq, any_field_eq.
    unfold children_of. destruct (od_get name (r_children (b_latest b))) as [lr|] eqn:Hl; last first.
    { rewrite (holds_children_None _ _ _ _ _ _ _ Hh Hl). by exists st. }
    eapply refines_run; [done|]. rewrite (holds_children _ _ _ _ _ _ _ _ Hh Hl).
    rewrite alter_first_eq, any_first_eq, find_key_abs. unfold find_rev_by_key.
    destruct (find_index (has_key keyname k) lr) as [[i cr]|] eqn:Hi; [|by exists st].
    eapply refines_run; [done|]. cbn beta iota.
    pose proof Hi as (lr1 & lr2 & -> & Hk & _ & Hins)%find_index_split.
    destruct (pre_child_rev _ _ _ _ _ _ _ _ _ _ Hpre Hh Hl) as [Hprec Hokc].
    eapply (refines_child _ _ (abs cr)).
    + rewrite <- (abs_node cr). apply IH; [done|]. by eapply path_tail.
    + by intros e ->.
    + intros nr st1 Hsub Hron Hpost. rewrite Htx, Hins.
      assert (∀ y, <[i := abs y]> (map abs (lr1 ++ cr :: lr2)) = map abs (lr1 ++ y :: lr2)) as Hmi.
      { intros y. rewrite <- (Hins y). symmetry. apply (list_fmap_insert abs). }
      eapply (refines_spec _ _ _ _ _ _ _ (update_tail _ _ _ _ _ _ _ _ _ _ _ _ _ nr st1
                Hpre Hh Hl Hf Hco Hck Hk Hpost Hron Hokc
                (t_update_hash _ _ _ _ _ _ _ (pre_coh _ _ Hprec) Hsub))).
      { rewrite Hsub. unfold same_key. cbn [mbind result_bind].
        case_bool_decide; [done|]. cbn [mbind result_bind]. by rewrite Hmi. }
      by rewrite Hsub.
  - unfold children_of.
    destruct (od_get name (r_children (b_latest b))) as [lr|] eqn:Hl; last first.
    { rewrite alter_field_eq, (holds_children_None _ _ _ _ _ _ _ Hh Hl). by exists st. }
    eapply refines_run; [done|]. rewrite alter_field_eq, (holds_children _ _ _ _ _ _ _ _ Hh Hl).
    destruct lr as [|cr lr]; [by exists st|]. eapply refines_run; [done|].
    destruct (Hwf _ _ Hf) as (l0 & Hl0 & Hfw).
    rewrite (holds_children _ _ _ _ _ _ _ _ Hh Hl) in Hl0. injection Hl0 as <-.
    unfold field_wf in Hfw. rewrite Hco in Hfw. destruct lr; [clear Hfw|simpl in Hfw; lia].
    destruct (pre_child_rev _ _ _ _ _ _ _ [] cr [] Hpre Hh Hl) as [Hprec Hokc].
    eapply (refines_child _ _ (abs cr)).
    + rewrite <- (abs_node cr). apply IH; [done|].
      by apply (path_tail _ _ _ "" "" _ Hpe Hp Hlt).
    + intros e Hsub. cbn. rewrite any_field_eq, (holds_children _ _ _ _ _ _ _ _ Hh Hl). cbn. by rewrite Hsub.
    + intros nr st1 Hsub Hron Hpost. rewrite Htx. cbn [alter_head map mbind result_bind].
      rewrite Hsub. cbn [mbind result_bind].
      eapply (replace_child _ _ _ _ _ _ _ _ _ [] cr nr [] (λ _, [])); try done.
      unfold field_wf. by rewrite Hco.
Qed.


Lemma field_wf_remove field keyname l1 x l2 :
  is_container field = true → ct_key field = Some keyname →
  field_wf field (l1 ++ x :: l2) → field_wf field (l1 ++ l2).
Proof.
  unfold field_wf. intros -> ->. rewrite !map_app, map_cons. intros Hnd.
  apply (sublist_NoDup _ _ Hnd). apply sublist_app; [done|by apply sublist_cons].
Qed.

(** The end of a removal at the container that holds the child. *)
Lemma remove_tail st nid d ch n b name field keyname lr1 cr lr2 anns :
  pre st (T nid d ch) → holds (st_nodes st) (T nid d ch) n b →
  od_get name (r_children (b_latest b)) = Some (lr1 ++ cr :: lr2) →
  field_of (msg_type d) name = Ok field → is_container field = true →
  ct_key field = Some keyname →
  refines st (T nid d ch)
    (r' ← update_children (b_latest b) name (lr1 ++ lr2) (mk_branch_ref nid None);
     _ ← make_latest nid None r' anns; mret r')
    (Ok (T nid d (od_set name (map abs (lr1 ++ lr2)) ch))) false.
Proof.
  intros Hpre Hh Hl Hf Hco Hck.
  pose proof (h_wf _ _ _ _ Hh _ _ Hf) as (l0 & Hl0 & Hfw). cbn [t_children] in Hl0.
  rewrite (holds_children _ _ _ _ _ _ _ _ Hh Hl) in Hl0. injection Hl0 as <-.
  apply (replace_children st st nid d ch n b name field lr1 [cr] [] lr2 false (λ _, anns)); try done.
  - rewrite map_app, map_cons in Hfw. cbn [app]. rewrite map_app. by eapply field_wf_remove.
  - apply Hpre.
  - by intros x ?%not_elem_of_nil.
  - constructor.
  - by intros m ?%not_elem_of_nil.
Qed.

(** Carrying up the new revision of a keyed child whose data did not change. *)
Lemma same_data_child st st1 nid d ch n b name field keyname lr1 cr nr lr2 p :
  pre st (T nid d ch) → holds (st_nodes st) (T nid d ch) n b →
  od_get name (r_children (b_latest b)) = Some (lr1 ++ cr :: lr2) →
  field_of (msg_type d) name = Ok field → is_container field = true →
  ct_key field = Some keyname → t_data (abs nr) = t_data (abs cr) →
  post st (abs cr) st1 (abs nr) → rev_ok nr →
  refines st (T nid d ch)
    (λ _, (r' ← update_children (b_latest b) name (lr1 ++ nr :: lr2) (mk_branch_ref nid None);
           _ ← make_latest nid None r' []; mret r') st1)
    (Ok (T nid d (od_set name (map abs (lr1 ++ nr :: lr2)) ch))) p.
Proof.
  intros Hpre Hh Hl Hf Hco Hck Hd Hpost Hron.
  destruct (h_wf _ _ _ _ Hh _ _ Hf) as (l0 & Hl0 & Hfw). cbn [t_children] in Hl0.
  rewrite (holds_children _ _ _ _ _ _ _ _ Hh Hl) in Hl0. injection Hl0 as <-.
  eapply (replace_child _ _ _ _ _ _ _ _ _ _ _ _ _ (λ _, [])); try done.
  rewrite map_app, map_cons in Hfw |- *.
  eapply field_wf_key; [done|done| |exact Hfw]. by rewrite Hd.
Qed.

Lemma t_remove_data ns t path t' : t_remove ns t path = Ok t' → t_data t' = t_data t.
Proof.
  destruct t as [nid d ch]. cbn [t_remove]. case_bool_decide; [done|].
  destruct (partition _) as [name rest]. intros (field & _ & Ht)%result_bind_Ok.
  destruct (is_container field); [|done]. case_bool_decide; [done|].
  destruct (ct_key field); [|done]. destruct (partition rest).
  apply result_bind_Ok in Ht as (k & _ & Ht). by apply result_bind_Ok in Ht as (ch' & _ & [= <-]).
Qed.

Lemma remove_refines_aux fuel : ∀ st t path,
  pre st t → String.length path < fuel →
  refines st t (remove_ fuel (t_node t) path None) (t_remove (st_nodes st) t path) false.
Proof.
  induction fuel as [|fuel IH]; intros st t path Hpre Hlt; [lia|].
  destruct (coh_holds _ _ (pre_coh _ _ Hpre)) as (n & b & Hh).
  destruct t as [nid d ch]. destruct (get_branch_holds _ _ _ _ _ _ Hh) as [Hgb Hgn].
  pose proof (h_type _ _ _ _ Hh) as Hty. cbn [t_data] in Hty.
  pose proof (h_txid _ _ _ _ Hh) as Htx.
  cbn [remove_ t_remove t_node]. case_bool_decide as Hpe; [apply refines_raise|].
  eapply refines_run; [exact Hgb|].
  destruct (partition (strip_slashes path)) as [name rest] eqn:Hp.
  eapply refines_run; [exact Hgn|]. rewrite Hty. apply refines_lift. intros field Hf.
  destruct (is_container field) eqn:Hco; [|apply refines_raise].
  case_bool_decide as Hre; [apply refines_raise|].
  destruct (ct_key field) as [keyname|] eqn:Hck; [|apply refines_raise].
  destruct (partition rest) as [key rest'] eqn:Hp'.
  destruct (key_from_str field key) as [k|e]; [|by exists st].
  eapply refines_run; [done|]. cbn [mbind result_bind]. rewrite !alter_field_eq.
  unfold children_of. destruct (od_get name (r_children (b_latest b))) as [lr|] eqn:Hl; last first.
  { rewrite (holds_children_None _ _ _ _ _ _ _ Hh Hl). case_bool_decide; by exists st. }
  eapply refines_run; [done|]. rewrite (holds_children _ _ _ _ _ _ _ _ Hh Hl).
  rewrite alter_first_eq, remove_first_eq, find_key_abs. unfold find_rev_by_key.
  destruct (find_index (has_key keyname k) lr) as [[i cr]|] eqn:Hi;
    [|case_bool_decide; by exists st].
  eapply refines_run; [done|]. cbn beta iota.
  pose proof Hi as (lr1 & lr2 & -> & Hk & Hdel & Hins)%find_index_split.
  rewrite Htx. case_bool_decide as Hre'.
  - unfold hook. rewrite (h_node _ _ _ _ Hh : st_nodes st !! nid = Some n), abs_data.
    destruct (pre_hook n PRE_REMOVE (r_data cr)) as [[]|e]; [|by exists st].
    eapply refines_run; [done|]. rewrite Hdel. cbn [mbind result_bind].
    assert (delete i (map abs (lr1 ++ cr :: lr2)) = map abs (lr1 ++ lr2)) as ->.
    { rewrite <- Hdel. symmetry. apply (list_fmap_delete abs). }
    by eapply remove_tail.
  - destruct (pre_child_rev _ _ _ _ _ _ _ _ _ _ Hpre Hh Hl) as [Hprec Hokc].
    eapply (refines_child _ _ (abs cr)).
    + rewrite <- (abs_node cr). apply IH; [done|]. by eapply path_tail.
    + by intros e ->.
    + intros nr st1 Hsub Hron Hpost. rewrite Hsub, Hins. cbn [mbind result_bind].
      assert (<[i := abs nr]> (map abs (lr1 ++ cr :: lr2)) = map abs (lr1 ++ nr :: lr2)) as ->.
      { rewrite <- (Hins nr). symmetry. apply (list_fmap_insert abs). }
      eapply same_data_child; try done. by eapply t_remove_data.
Qed.
End update.
