(* ===== verification/ConfigAdd.v ===== *)
(** * Building and adding configuration nodes

    A message handed to [ConfigNode.__init__] becomes a tree: every child
    field is cut out of the message and turned into child nodes.  [represents]
    relates the message to the tree; the lemmas show that [_initialize]
    builds such a tree in fresh nodes for every well-formed message, and
    [t_add] says what [ConfigNode.add] means on the abstract tree. *)

From stdpp Require Import prelude strings gmap list.
From S2P Require Import Prelude ConfigRev ConfigStore ConfigNode ConfigTree ConfigUpdate.

(** What the construction of nodes relies on: clearing a field touches nothing
    else, messages nest finitely, and no child field is named like a key (the
    schema's keys are id, port_no and instance_id). *)
Class Proto `{Env} : Prop := {
  clear_type m f : msg_type (ClearField m f) = msg_type m;
  clear_getattr m f k : f ≠ k → getattr (ClearField m f) k = getattr m k;
  clear_repeated m f g : f ≠ g → get_repeated (ClearField m f) g = get_repeated m g;
  clear_message m f g : f ≠ g → get_message (ClearField m f) g = get_message m g;
  depth_repeated m f field c :
    field_of (msg_type m) f = Ok field → is_container field = true →
    c ∈ get_repeated m f → msg_depth c < msg_depth m;
  depth_message m f field :
    field_of (msg_type m) f = Ok field → is_container field = false →
    msg_depth (get_message m f) < msg_depth m;
  key_scalar cls f field k cls' fields :
    field_of cls f = Ok field → is_container field = true → ct_key field = Some k →
    children_fields cls' = Ok fields → k ∉ od_keys fields;
}.

Section add.
Context `{Env, !Callbacks, !NoCollisions, !Proto}.

(** The messages a child field holds. *)
Definition kids (d : msg) (name : string) (field : child_type) : list msg :=
  if is_container field then get_repeated d name else [get_message d name].

(** A message [ConfigNode] accepts: supported descriptors and no duplicate key,
    at every level. *)
Inductive data_ok : msg → Prop :=
  | data_ok_intro d fields :
      children_fields (msg_type d) = Ok fields →
      (∀ name field k, od_get name fields = Some field → is_container field = true →
         ct_key field = Some k → NoDup (map (λ c, getattr c k) (get_repeated d name))) →
      (∀ name field c, od_get name fields = Some field → c ∈ kids d name field → data_ok c) →
      data_ok d.

(** The message without its child fields. *)
Definition clear_all (d : msg) (names : list string) : msg := foldl ClearField d names.

Inductive represents : msg → tree → Prop :=
  | represents_intro d nid fields ch :
      children_fields (msg_type d) = Ok fields →
      od_keys ch = od_keys fields →
      (∀ name field, od_get name fields = Some field → ∃ l, od_get name ch = Some l ∧
         length l = length (kids d name field) ∧
         ∀ i c x, kids d name field !! i = Some c → l !! i = Some x → represents c x) →
      represents d (T nid (clear_all d (od_keys fields)) ch).

(** New nodes: the trees [l] live in the nodes allocated between [st] and [st']. *)
Record fresh_list (st st' : store) (l : list tree) : Prop := mk_fresh_list {
  fl_coh x : x ∈ l → coh (st_nodes st') x;
  fl_nodup : NoDup (list_nodes l);
  fl_range m : m ∈ list_nodes l → st_next_node st ≤ m < st_next_node st';
  fl_frame m : m < st_next_node st → st_nodes st' !! m = st_nodes st !! m;
  fl_cache : cache_ok st';
  fl_next : st_next_node st ≤ st_next_node st';
}.

Lemma fresh_list_nil st : cache_ok st → fresh_list st st [].
Proof.
  intros Hc. split; try done.
  - by intros x ?%not_elem_of_nil.
  - constructor.
  - by intros m ?%not_elem_of_nil.
Qed.

Lemma fresh_list_app st st1 st2 l k :
  fresh_list st st1 l → fresh_list st1 st2 k → fresh_list st st2 (l ++ k).
Proof.
  intros Hl Hk. pose proof (fl_next _ _ _ Hl). pose proof (fl_next _ _ _ Hk).
  split; [..|apply Hk|lia].
  - intros x [Hx|Hx]%elem_of_app; [|by apply Hk].
    apply (coh_frame (st_nodes st1)); [by apply Hl|]. intros m Hm. apply Hk.
    by eapply (fl_range _ _ _ Hl), list_nodes_elem.
  - rewrite list_nodes_app. apply NoDup_app. split_and!; [apply Hl| |apply Hk].
    intros m Hm%(fl_range _ _ _ Hl) Hm'%(fl_range _ _ _ Hk). lia.
  - intros m. rewrite list_nodes_app, elem_of_app.
    intros [Hm%(fl_range _ _ _ Hl)|Hm%(fl_range _ _ _ Hk)]; lia.
  - intros m Hm. etrans; [apply Hk; lia|by apply Hl].
Qed.

Lemma fresh_list_cons st st1 st2 x k :
  fresh_list st st1 [x] → fresh_list st1 st2 k → fresh_list st st2 (x :: k).
Proof. apply (fresh_list_app st st1 st2 [x] k). Qed.

(** ** Creating the children *)

(** [mk] turns a message into a fresh node and returns its revision. *)
Definition builds (mk : msg → M store rev) (v : msg) : Prop :=
  ∀ st, cache_ok st → ∃ r st', mk v st = (Ok r, st') ∧
    fresh_list st st' [abs r] ∧ rev_ok r ∧ represents v (abs r) ∧ t_node (abs r) = st_next_node st.

Definition built_list (st st' : store) (vs : list msg) (l : list rev) : Prop :=
  fresh_list st st' (map abs l) ∧ Forall rev_ok l ∧ Forall2 represents vs (map abs l).

Lemma built_list_cons st st1 st2 v r vs l :
  fresh_list st st1 [abs r] → rev_ok r → represents v (abs r) →
  built_list st1 st2 vs l → built_list st st2 (v :: vs) (r :: l).
Proof.
  intros Hf Hr Hv (Hfl & Hrl & Hvl). split_and!; [|by constructor|by constructor].
  by eapply fresh_list_cons.
Qed.

Lemma init_plain_ok mk vs : Forall (builds mk) vs → ∀ st, cache_ok st →
  ∃ l st', init_plain mk vs st = (Ok l, st') ∧ built_list st st' vs l.
Proof.
  induction 1 as [|v vs Hv Hvs IH]; intros st Hc.
  - exists [], st. split; [done|]. split_and!; [by apply fresh_list_nil|constructor..].
  - destruct (Hv st Hc) as (r & st1 & Hr & Hfr & Hro & Hrep & _).
    destruct (IH st1 (fl_cache _ _ _ Hfr)) as (l & st2 & Hl & Hbl).
    exists (r :: l), st2. cbn [init_plain]. unfold mbind, M_bind. rewrite Hr, Hl.
    split; [done|]. by eapply built_list_cons.
Qed.

Lemma init_keyed_ok mk k vs : Forall (builds mk) vs → ∀ seen st, cache_ok st →
  NoDup (map (λ c, getattr c k) vs) → (∀ v, v ∈ vs → getattr v k ∉ seen) →
  ∃ l st', init_keyed mk k vs seen st = (Ok l, st') ∧ built_list st st' vs l.
Proof.
  induction 1 as [|v vs Hv Hvs IH]; intros seen st Hc Hnd Hseen.
  - exists [], st. split; [done|]. split_and!; [by apply fresh_list_nil|constructor..].
  - destruct (Hv st Hc) as (r & st1 & Hr & Hfr & Hro & Hrep & _).
    cbn [map] in Hnd. apply NoDup_cons in Hnd as [Hni Hnd].
    destruct (IH (getattr v k :: seen) st1 (fl_cache _ _ _ Hfr) Hnd) as (l & st2 & Hl & Hbl).
    { intros w Hw. apply not_elem_of_cons. split; [|apply Hseen; by right].
      intros Heq. apply Hni. rewrite <- Heq.
      apply list_elem_of_In, (in_map (λ c, getattr c k)). by apply list_elem_of_In. }
    exists (r :: l), st2. cbn [init_keyed]. unfold mbind, M_bind. rewrite Hr.
    rewrite decide_False by (apply Hseen; left). rewrite Hl.
    split; [done|]. by eapply built_list_cons.
Qed.

Lemma init_field_ok mk name field d :
  Forall (builds mk) (kids d name field) →
  (∀ k, is_container field = true → ct_key field = Some k →
        NoDup (map (λ c, getattr c k) (get_repeated d name))) →
  ∀ st, cache_ok st → ∃ l st', init_field mk name field d st = (Ok l, st') ∧
    built_list st st' (kids d name field) l.
Proof.
  unfold kids, init_field. intros Hmk Hnd st Hc. destruct (is_container field).
  - destruct (ct_key field) as [k|].
    + apply init_keyed_ok; auto. intros v _. apply not_elem_of_nil.
    + by apply init_plain_ok.
  - inversion_clear Hmk as [|? ? Hb _]. destruct (Hb st Hc) as (r & st1 & Hr & Hfr & Hro & Hrep & _).
    exists [r], st1. unfold mbind, M_bind. rewrite Hr. split; [done|].
    split_and!; [done|by constructor|by constructor].
Qed.

Lemma kids_clear d f name field : f ≠ name → kids (ClearField d f) name field = kids d name field.
Proof. intros Hne. unfold kids. by rewrite clear_repeated, clear_message. Qed.

Definition all_kids (ch : list (string * list rev)) : list tree :=
  concat (map (λ fl : string * list rev, map abs fl.2) ch).

Lemma all_kids_nodes ch : list_nodes (all_kids ch) = children_nodes (abs_children ch).
Proof.
  induction ch as [|[f l] ch IH]; [done|].
  change (all_kids ((f, l) :: ch)) with (map abs l ++ all_kids ch).
  rewrite list_nodes_app, IH. done.
Qed.

Lemma init_fields_ok mk fields : ∀ d acc st, cache_ok st →
  NoDup (od_keys fields) → (∀ name, name ∈ od_keys fields → name ∉ od_keys acc) →
  (∀ name field, od_get name fields = Some field → Forall (builds mk) (kids d name field) ∧
     ∀ k, is_container field = true → ct_key field = Some k →
          NoDup (map (λ c, getattr c k) (get_repeated d name))) →
  ∃ new st', init_fields mk fields d acc st =
       (Ok (clear_all d (od_keys fields), acc ++ new), st') ∧
    od_keys new = od_keys fields ∧ fresh_list st st' (all_kids new) ∧
    ∀ name field, od_get name fields = Some field →
      ∃ l, od_get name new = Some l ∧ Forall rev_ok l ∧
           Forall2 represents (kids d name field) (map abs l).
Proof.
  induction fields as [|[name field] fields IH]; intros d acc st Hc Hnd Hacc Hf.
  - exists [], st. rewrite app_nil_r. split_and!; [done|done|by apply fresh_list_nil|done].
  - cbn [init_fields]. apply NoDup_cons in Hnd as [Hni Hnd].
    destruct (Hf name field) as [Hmk Hk]; [simpl; by rewrite decide_True|].
    destruct (init_field_ok mk name field d Hmk Hk st Hc) as (l & st1 & Hl & Hfl & Hro & Hrep).
    destruct (IH (ClearField d name) (od_set name l acc) st1)
      as (new & st2 & Hrun & Hkeys & Hfr & Hnew); [apply Hfl|done| | |].
    + intros name' Hin. rewrite od_keys_set_elem. intros [->|Hin']; [done|].
      eapply Hacc; [|done]. by right.
    + intros name' field' Hg. assert (name ≠ name') as Hne.
      { intros ->. apply Hni. apply od_get_Some_elem in Hg.
        apply list_elem_of_fmap. by exists (name', field'). }
      rewrite kids_clear, clear_repeated by done. apply Hf. simpl. by rewrite decide_False.
    + exists ((name, l) :: new), st2. unfold mbind, M_bind. rewrite Hl.
      rewrite od_set_notin in Hrun |- * by (apply Hacc; left). rewrite <- app_assoc in Hrun.
      split; [exact Hrun|].
      split; [simpl; by rewrite <- Hkeys|]. split.
      { by eapply (fresh_list_app _ st1). }
      intros name' field'. simpl. case_decide as Hd.
      * intros [= <-]. subst. by exists l.
      * intros Hg. destruct (Hnew _ _ Hg) as (l' & Hl' & ? & Hrep').
        rewrite kids_clear in Hrep' by done. by exists l'.
Qed.

Lemma clear_all_type d names : msg_type (clear_all d names) = msg_type d.
Proof.
  revert d. induction names as [|f names IH]; intros d; [done|]. simpl.
  by rewrite IH, clear_type.
Qed.
Lemma clear_all_getattr d names k : k ∉ names → getattr (clear_all d names) k = getattr d k.
Proof.
  revert d. induction names as [|f names IH]; intros d Hk; [done|]. simpl.
  apply not_elem_of_cons in Hk as [Hne Hk]. by rewrite IH, clear_getattr.
Qed.

Lemma children_fields_NoDup cls fields : children_fields cls = Ok fields → NoDup (od_keys fields).
Proof.
  unfold children_fields. intros (l & _ & [= <-])%result_bind_Ok. apply od_of_list_NoDup.
Qed.

(** The tree of a message has the key of the message. *)
Lemma represents_key cls name field k v x :
  field_of cls name = Ok field → is_container field = true → ct_key field = Some k →
  represents v x → getattr (t_data x) k = getattr v k.
Proof.
  intros Hf Hco Hk Hx. destruct Hx as [v nid fields ch Hfs _ _]. cbn [t_data].
  apply clear_all_getattr. by eapply key_scalar.
Qed.

(** The children built for a message obey the schema. *)
Lemma built_node_wf d fields new :
  children_fields (msg_type d) = Ok fields →
  (∀ name field k, od_get name fields = Some field → is_container field = true →
     ct_key field = Some k → NoDup (map (λ c, getattr c k) (get_repeated d name))) →
  (∀ name field, od_get name fields = Some field → ∃ l, od_get name new = Some l ∧
     Forall rev_ok l ∧ Forall2 represents (kids d name field) (map abs l)) →
  node_wf (clear_all d (od_keys fields)) (abs_children new).
Proof.
  intros Hfs Hnd Hnew name field. rewrite clear_all_type. intros Hf. pose proof Hf as Hf'.
  unfold field_of in Hf. rewrite Hfs in Hf. cbn in Hf. apply of_option_Ok in Hf.
  destruct (Hnew _ _ Hf) as (l & Hl & _ & Hrep). exists (map abs l).
  rewrite od_get_abs, Hl. split; [done|]. unfold field_wf. unfold kids in Hrep.
  destruct (is_container field) eqn:Hco; [|by apply Forall2_length in Hrep].
  destruct (ct_key field) as [k|] eqn:Hk; [|done].
  specialize (Hnd _ _ _ Hf Hco Hk).
  assert (map (λ c, getattr (t_data c) k) (map abs l) = map (λ c, getattr c k) (get_repeated d name))
    as ->; [|done].
  clear Hl Hnd Hf. induction Hrep as [|v x vs l' Hvx Hrep IH]; [done|]. simpl. f_equal; [|done].
  by eapply represents_key.
Qed.

(** The last part of [ConfigNode.__init__]: the first revision of the new node. *)
Lemma first_revision st st2 ty d' new n0 :
  st_nodes st2 !! st_next_node st = Some n0 → n_type n0 = ty → n_branches n0 = ∅ →
  msg_type d' = ty → node_wf d' (abs_children new) →
  (∀ m, m < st_next_node st → st_nodes st2 !! m = st_nodes st !! m) → cache_ok st2 →
  S (st_next_node st) ≤ st_next_node st2 →
  (∀ x, x ∈ all_kids new → coh (st_nodes st2) x) → NoDup (list_nodes (all_kids new)) →
  (∀ m, m ∈ list_nodes (all_kids new) → S (st_next_node st) ≤ m < st_next_node st2) →
  (∀ f l x, (f, l) ∈ new → x ∈ l → rev_ok x) →
  ∃ r st', (r ← mkrev (mk_branch_ref (st_next_node st) None) d' new;
            _ ← init_branch (st_next_node st) None r;
            latest (st_next_node st)) st2 = (Ok r, st') ∧
    fresh_list st st' [abs r] ∧ rev_ok r ∧ abs r = T (st_next_node st) d' (abs_children new).
Proof.
  intros Hn0 Hty Hbr Hmt Hwf Hfr Hca Hnx Hcoh Hnd Hrng Hok. set (nid := st_next_node st) in *.
  destruct (finalize_eq None (mk_branch_ref nid None) (ConfigDataRevision d') new st2)
    as (st3 & Hrun & HN & HX & Hca3); [done|done|].
  set (r := Rev _ _ _ _ _) in Hrun.
  assert (abs r = T nid d' (abs_children new)) as Habs by (by rewrite abs_eq).
  assert (rev_ok r) as Hokr by (by constructor).
  set (b := mk_branch None None {[r_hash r := r]} r).
  set (st4 := upd_nodes (<[nid := set_branch None b n0]>) st3).
  exists r, st4. split.
  { unfold mkrev, mbind, M_bind. rewrite Hrun. unfold init_branch, get_node, mbind, M_bind.
    rewrite HN, Hn0. cbn [of_option]. unfold put_node, modify. fold b. fold st4.
    unfold latest, get_node, mbind, M_bind. unfold st4. cbn [st_nodes upd_nodes].
    rewrite lookup_insert_eq. cbn [of_option set_branch n_branches].
    by rewrite lookup_insert_eq. }
  assert (∀ m, m ≠ nid → st_nodes st4 !! m = st_nodes st2 !! m) as Hfr4.
  { intros m Hm. cbn. by rewrite lookup_insert_ne, HN. }
  split; [|done]. rewrite Habs. split.
  - intros x ->%list_elem_of_singleton. econstructor.
    + apply (mk_holds _ _ (set_branch None b n0) b); try done.
      * apply lookup_insert_eq.
      * cbn. by rewrite Hty.
      * apply lookup_insert_eq.
    + intros f l x Hf Hx. apply list_elem_of_fmap in Hf as ([f' l'] & [= -> ->] & Hf').
      assert (x ∈ all_kids new) as Hxk.
      { unfold all_kids. apply list_elem_of_In, in_concat. exists (map abs l').
        split; [|by apply list_elem_of_In]. apply list_elem_of_In in Hf'.
        by apply (in_map (λ fl : string * list rev, map abs fl.2)) in Hf'. }
      apply (coh_frame (st_nodes st2)); [by apply Hcoh|]. intros m Hm. apply Hfr4.
      intros ->. enough (S nid ≤ nid) by lia. apply Hrng. by eapply list_nodes_elem.
  - unfold list_nodes. cbn [map concat]. rewrite app_nil_r, tree_nodes_eq, <- all_kids_nodes.
    apply NoDup_cons. split; [|done]. intros Hin. apply Hrng in Hin. lia.
  - intros m. unfold list_nodes. cbn [map concat]. rewrite app_nil_r, tree_nodes_eq, <- all_kids_nodes.
    cbn [st_next_node st4 upd_nodes]. rewrite HX. intros [->|Hm%Hrng]%elem_of_cons; lia.
  - intros m Hm. rewrite Hfr4 by lia. by apply Hfr.
  - exact Hca3.
  - cbn. rewrite HX. lia.
Qed.

Lemma depth_kids m name field c :
  field_of (msg_type m) name = Ok field → c ∈ kids m name field → msg_depth c < msg_depth m.
Proof.
  unfold kids. intros Hf Hc. destruct (is_container field) eqn:Hco.
  - by eapply depth_repeated.
  - apply list_elem_of_singleton in Hc as ->. by eapply depth_message.
Qed.

Lemma built_revs_ok d fields new :
  NoDup (od_keys fields) → od_keys new = od_keys fields →
  (∀ name field, od_get name fields = Some field → ∃ l, od_get name new = Some l ∧
     Forall rev_ok l ∧ Forall2 represents (kids d name field) (map abs l)) →
  ∀ f l x, (f, l) ∈ new → x ∈ l → rev_ok x.
Proof.
  intros Hnd Hk Hnew f l x Hf Hx. rewrite <- Hk in Hnd. pose proof (od_get_elem _ _ _ Hnd Hf) as Hl.
  destruct (od_get f fields) as [field|] eqn:Hg.
  - destruct (Hnew _ _ Hg) as (l' & Hl' & Hok & _). rewrite Hl in Hl'. injection Hl' as <-.
    rewrite Forall_forall in Hok. by apply Hok.
  - apply od_get_None in Hg. rewrite <- Hk in Hg. destruct Hg.
    apply list_elem_of_fmap. by exists (f, l).
Qed.

Lemma od_keys_abs ch : od_keys (abs_children ch) = od_keys ch.
Proof.
  unfold od_keys, abs_children. induction ch as [|[f l] ch IH]; [done|]. simpl. by f_equal.
Qed.

Lemma represents_abs d fields new nid :
  children_fields (msg_type d) = Ok fields → od_keys new = od_keys fields →
  (∀ name field, od_get name fields = Some field → ∃ l, od_get name new = Some l ∧
     Forall rev_ok l ∧ Forall2 represents (kids d name field) (map abs l)) →
  represents d (T nid (clear_all d (od_keys fields)) (abs_children new)).
Proof.
  intros Hfs Hk Hnew. constructor; [done| |].
  - by rewrite od_keys_abs.
  - intros name field Hg. destruct (Hnew _ _ Hg) as (l & Hl & _ & Hrep).
    exists (map abs l). rewrite od_get_abs, Hl. split; [done|].
    split; [symmetry; by eapply Forall2_length|]. intros i c x Hc Hx.
    by eapply Forall2_lookup_lr.
Qed.

(** Every well-formed message is turned into a tree of fresh nodes, within the
    nesting of the message. *)
Lemma mknode_builds fuel : ∀ data, data_ok data → msg_depth data < fuel →
  builds (λ v, c ← mknode fuel v None; latest c) data.
Proof.
  induction fuel as [|fuel IH]; intros data Hdata Hdep; [lia|]. intros st Hc.
  destruct Hdata as [d fields Hfs Hkeys Hkids].
  set (mk := λ v, c ← mknode fuel v None; latest c).
  set (st1 := (alloc_node (msg_type d) st).2).
  assert (∀ name field, od_get name fields = Some field → field_of (msg_type d) name = Ok field) as Hfo.
  { intros name field Hg. unfold field_of. rewrite Hfs. cbn. by rewrite Hg. }
  destruct (init_fields_ok mk fields d [] st1) as (new & st2 & Hrun & Hnk & Hfl & Hnew).
  - exact Hc.
  - by eapply children_fields_NoDup.
  - intros name _. apply not_elem_of_nil.
  - intros name field Hg. split; [|intros k; by eapply Hkeys]. apply Forall_forall.
    intros c Hin. apply IH; [by eapply Hkids|].
    pose proof (depth_kids _ _ _ _ (Hfo _ _ Hg) Hin). lia.
  - assert (st_nodes st2 !! st_next_node st = Some (mk_node (msg_type d) ∅ ∅ None)) as Hn0.
    { rewrite (fl_frame _ _ _ Hfl) by (cbn; lia). apply lookup_insert_eq. }
    destruct (first_revision st st2 (msg_type d) (clear_all d (od_keys fields)) new _ Hn0)
      as (r & st' & Hr & Hfr & Hro & Habs); try done.
    + apply clear_all_type.
    + by eapply built_node_wf.
    + intros m Hm. rewrite (fl_frame _ _ _ Hfl) by (cbn; lia). cbn.
      by rewrite lookup_insert_ne by lia.
    + apply Hfl.
    + apply (fl_next _ _ _ Hfl).
    + apply (fl_coh _ _ _ Hfl).
    + apply Hfl.
    + apply (fl_range _ _ _ Hfl).
    + eapply built_revs_ok; [by eapply children_fields_NoDup|done|done].
    + exists r, st'. split; [|split_and!; [done|done| |by rewrite Habs]].
      * cbn [mknode]. fold mk. rewrite M_bind_assoc, (M_bind_eq _ _ _ (st_next_node st) st1) by done.
        rewrite M_bind_assoc, (M_bind_eq _ _ _ fields st1) by (unfold lift; by rewrite Hfs).
        rewrite M_bind_assoc, (M_bind_eq _ _ _ _ _ Hrun). cbn [fst snd app].
        rewrite M_bind_assoc. rewrite <- Hr. unfold mbind, M_bind.
        destruct (mkrev _ _ _ st2) as [[r'|e] st3]; [|done].
        by destruct (init_branch _ _ _ st3) as [[[]|e] st4].
      * rewrite Habs. by eapply represents_abs.
Qed.

Lemma mknode_id fuel data k st nid st' :
  mknode fuel data k st = (Ok nid, st') → nid = st_next_node st.
Proof.
  destruct fuel as [|fuel]; [done|]. cbn [mknode].
  intros (nid' & st1 & [= <- <-] & Hm)%M_bind_Ok.
  do 4 apply M_bind_Ok in Hm as (? & ? & _ & Hm). by injection Hm as <- _.
Qed.

(** ** The specification of [add] *)

(** What the new child would be: the tree of a node made for [data] in [st]. *)
Definition built (st : store) (data : msg) : result tree :=
  abs <$> ((c ← new_node data; latest c) st).1.

Lemma new_node_builds data : data_ok data → builds (λ v, c ← new_node v; latest c) data.
Proof. intros Hd. apply (mknode_builds (S (msg_depth data)) data Hd). lia. Qed.

Fixpoint t_add (ns : gmap node_id node) (data : msg) (new : result tree) (t : tree)
    (path : string) {struct t} : result tree :=
  let path := strip_slashes path in
  if bool_decide (path = "") then Raise ValueError
  else
    let '(name, path) := partition path in
    match t with
    | T nid d ch =>
        field ← field_of (msg_type d) name;
        if is_container field then
          match ct_key field with
          | Some keyname =>
              ch' ← (if bool_decide (path = "") then
                       _ ← hook ns PRE_ADD nid data;
                       alter_field name (λ l,
                         if existsb (t_has_key keyname (getattr data keyname)) l
                         then Raise ValueError
                         else x ← new; Ok (l ++ [x])) ch
                     else
                       let '(key, path) := partition path in
                       key ← key_from_str field key;
                       alter_field name (alter_first (t_has_key keyname key)
                         (λ x, t_add ns data new x path)) ch);
              Ok (T nid d ch')
          | None => Raise ValueError
          end
        else Raise ValueError
    end.

Lemma add_tail st nid d ch n b name field keyname lr r st1 data (anns : rev → list (CallbackType * change_data)) :
  pre st (T nid d ch) → holds (st_nodes st) (T nid d ch) n b →
  od_get name (r_children (b_latest b)) = Some lr →
  field_of (msg_type d) name = Ok field → is_container field = true →
  ct_key field = Some keyname →
  find_index (has_key keyname (getattr data keyname)) lr = None →
  fresh_list st st1 [abs r] → rev_ok r → represents data (abs r) →
  refines st (T nid d ch)
    (λ _, (r' ← update_children (b_latest b) name (lr ++ [r]) (mk_branch_ref nid None);
           _ ← make_latest nid None r' (anns r'); mret r') st1)
    (Ok (T nid d (od_set name (map abs lr ++ [abs r]) ch))) false.
Proof.
  intros Hpre Hh Hl Hf Hco Hck Hnone Hfl Hro Hrep.
  pose proof (h_wf _ _ _ _ Hh _ _ Hf) as (l0 & Hl0 & Hfw). cbn [t_children] in Hl0.
  rewrite (holds_children _ _ _ _ _ _ _ _ Hh Hl) in Hl0. injection Hl0 as <-.
  assert (map abs lr ++ [abs r] = map abs (lr ++ [r])) as -> by (by rewrite map_app).
  rewrite <- (app_nil_r [r]).
  apply (replace_children st st1 nid d ch n b name field lr [] [r] [] false anns); try done.
  - by rewrite !app_nil_r.
  - rewrite app_nil_r, map_app. unfold field_wf in Hfw |- *. rewrite Hco, Hck in Hfw |- *.
    rewrite map_app. apply NoDup_app. split_and!; [done| |cbn; apply NoDup_singleton].
    intros a Ha Ha'. cbn in Ha'. apply list_elem_of_singleton in Ha' as ->.
    rewrite (represents_key _ _ _ _ _ _ Hf Hco Hck Hrep) in Ha. rewrite map_map in Ha.
    apply list_elem_of_In, in_map_iff in Ha as (c & Hc & Hin). rewrite abs_data in Hc.
    apply list_elem_of_In in Hin. pose proof (proj1 (find_index_None _ _) Hnone c Hin) as Hno.
    unfold has_key in Hno. by rewrite bool_decide_true in Hno.
  - apply (fl_cache _ _ _ Hfl).
  - apply (fl_next _ _ _ Hfl).
  - intros m _. apply (fl_frame _ _ _ Hfl).
  - apply (fl_coh _ _ _ Hfl).
  - apply (fl_nodup _ _ _ Hfl).
  - intros m Hm. right. by apply (fl_range _ _ _ Hfl).
  - by constructor.
Qed.

Lemma existsb_find_index keyname key lr :
  existsb (t_has_key keyname key) (map abs lr) =
  match find_index (has_key keyname key) lr with Some _ => true | None => false end.
Proof.
  induction lr as [|x lr IH]; [done|]. cbn [map existsb find_index]. rewrite IH.
  assert (t_has_key keyname key (abs x) = has_key keyname key x) as ->.
  { unfold t_has_key. by rewrite abs_data. }
  destruct (has_key keyname key x); [done|]. by destruct (find_index _ lr) as [[]|].
Qed.

Lemma t_add_data ns data new t path t' : t_add ns data new t path = Ok t' → t_data t' = t_data t.
Proof.
  destruct t as [nid d ch]. cbn [t_add]. case_bool_decide; [done|].
  destruct (partition _) as [name rest]. intros (field & _ & Ht)%result_bind_Ok.
  destruct (is_container field); [|done]. destruct (ct_key field); [|done].
  by apply result_bind_Ok in Ht as (ch' & _ & [= <-]).
Qed.

Lemma add_refines_aux fuel : ∀ st t path data,
  pre st t → data_ok data → String.length path < fuel →
  refines st t (add_ fuel (t_node t) path data None)
    (t_add (st_nodes st) data (built st data) t path) false.
Proof.
  induction fuel as [|fuel IH]; intros st t path data Hpre Hdata Hlt; [lia|].
  destruct (coh_holds _ _ (pre_coh _ _ Hpre)) as (n & b & Hh).
  destruct t as [nid d ch]. destruct (get_branch_holds _ _ _ _ _ _ Hh) as [Hgb Hgn].
  pose proof (h_type _ _ _ _ Hh) as Hty. cbn [t_data] in Hty.
  pose proof (h_txid _ _ _ _ Hh) as Htx.
  cbn [add_ t_add t_node]. case_bool_decide as Hpe; [apply refines_raise|].
  eapply refines_run; [exact Hgb|].
  destruct (partition (strip_slashes path)) as [name rest] eqn:Hp.
  eapply refines_run; [exact Hgn|]. rewrite Hty. apply refines_lift. intros field Hf.
  destruct (is_container field) eqn:Hco; [|apply refines_raise].
  destruct (ct_key field) as [keyname|] eqn:Hck; [|case_bool_decide; apply refines_raise].
  unfold children_of. case_bool_decide as Hre.
  - unfold hook. rewrite (h_node _ _ _ _ Hh : st_nodes st !! nid = Some n).
    destruct (pre_hook n PRE_ADD data) as [[]|e]; [|by exists st].
    eapply refines_run; [done|]. rewrite alter_field_eq. cbn [mbind result_bind].
    destruct (od_get name (r_children (b_latest b))) as [lr|] eqn:Hl; last first.
    { rewrite (holds_children_None _ _ _ _ _ _ _ Hh Hl). by exists st. }
    eapply refines_run; [done|]. rewrite (holds_children _ _ _ _ _ _ _ _ Hh Hl).
    rewrite existsb_find_index. unfold find_rev_by_key.
    destruct (find_index _ lr) as [[i c]|] eqn:Hi; [apply refines_raise|]. cbn [of_option].
    destruct (new_node_builds data Hdata st (pre_cache _ _ Hpre))
      as (r & st1 & Hrun & Hfl & Hro & Hrep & _).
    unfold built. rewrite Hrun. cbn [fst fmap result_fmap mbind result_bind].
    unfold refines. rewrite <- M_bind_assoc, (M_bind_eq _ _ _ _ _ Hrun), Htx.
    by apply (add_tail st nid d ch n b name field keyname lr r st1 data (λ _, [(POST_ADD, ChMsg data)])).
  - destruct (partition rest) as [key rest'] eqn:Hp'.
    destruct (key_from_str field key) as [k|e]; [|by exists st].
    eapply refines_run; [done|]. cbn [mbind result_bind]. rewrite alter_field_eq.
    destruct (od_get name (r_children (b_latest b))) as [lr|] eqn:Hl; last first.
    { rewrite (holds_children_None _ _ _ _ _ _ _ Hh Hl). by exists st. }
    eapply refines_run; [done|]. rewrite (holds_children _ _ _ _ _ _ _ _ Hh Hl).
    rewrite alter_first_eq, find_key_abs. unfold find_rev_by_key.
    destruct (find_index (has_key keyname k) lr) as [[i cr]|] eqn:Hi; [|by exists st].
    eapply refines_run; [done|]. cbn beta iota.
    pose proof Hi as (lr1 & lr2 & -> & Hk & Hdel & Hins)%find_index_split. rewrite Htx.
    destruct (pre_child_rev _ _ _ _ _ _ _ _ _ _ Hpre Hh Hl) as [Hprec Hokc].
    eapply (refines_child _ _ (abs cr)).
    + rewrite <- (abs_node cr). apply IH; [done|done|]. by eapply path_tail.
    + by intros e ->.
    + intros nr st1 Hsub Hron Hpost. rewrite Hsub, Hins. cbn [mbind result_bind].
      assert (<[i := abs nr]> (map abs (lr1 ++ cr :: lr2)) = map abs (lr1 ++ nr :: lr2)) as ->.
      { rewrite <- (Hins nr). symmetry. apply (list_fmap_insert abs). }
      eapply same_data_child; try done. by eapply t_add_data.
Qed.
End add.
