(* ===== verification/ConfigSpec.v ===== *)
(** * The committed configuration against its specification

    [t_get] is the meaning of [ConfigNode.get] on the abstract tree.  The
    theorems of this file are the contract of the configuration tree outside
    of transactions: each operation does on the nodes what its specification
    says on the tree, sequences of operations at the root do so from the
    construction of the root on, and reads see the writes. *)

From Stdlib Require Import Ascii.
From stdpp Require Import prelude strings gmap list.
From S2P Require Import Prelude ConfigRev ConfigStore ConfigNode Merge3way ConfigRoot ConfigDemo ConfigTree ConfigUpdate ConfigAdd.

(** A path without empty segments inside: no two slashes in a row. *)
Fixpoint clean (p : string) : bool :=
  match p with
  | EmptyString => true
  | String a p' =>
      clean p' && match p' with
                  | String b _ => negb (bool_decide (a = "/"%char ∧ b = "/"%char))
                  | EmptyString => true
                  end
  end.

Section get.
Context `{Env, !Callbacks}.

(** ** Reading the tree *)

(** The message of a tree down to [depth] levels (-1: all of them). *)
Fixpoint t_msg (depth : Z) (t : tree) {struct t} : result msg :=
  match t with
  | T _ d ch =>
      if bool_decide (depth = 0%Z) then Ok d
      else
        fields ← children_fields (msg_type d);
        let below := map (λ fl, (fl.1, map (t_msg (depth - 1)) fl.2)) ch in
        foldl (λ acc field,
                 data ← acc;
                 sub ← of_option KeyError (od_get field.1 below);
                 assemble field sub data)
              (Ok d) fields
  end.

Lemma rev_get_abs depth r : rev_get depth r = t_msg depth (abs r).
Proof.
  revert depth. induction r as [i b c ch h IH] using rev_ind'. intros depth.
  rewrite rev_get_eq, abs_eq. unfold r_data. cbn [t_msg r_config r_children].
  case_bool_decide; [done|].
  assert (rev_below depth ch = map (λ fl, (fl.1, map (t_msg (depth - 1)) fl.2)) (abs_children ch))
    as ->; [|done].
  unfold rev_below, abs_children. rewrite map_map. apply map_ext_in. intros [f l] Hf. cbn.
  f_equal. rewrite map_map. apply map_ext_in. intros x Hx.
  apply (IH f l); by apply list_elem_of_In.
Qed.

(** What one node answers: its message, filtered by its GET callbacks. *)
Definition t_read (ns : gmap node_id node) (depth : Z) (t : tree) : result msg :=
  m ← t_msg depth t;
  n ← of_option KeyError (ns !! t_node t);
  match n_proxy n with
  | None => Ok m
  | Some px => invoke_callbacks px GET m
  end.

Definition find_first {A B} (p : A → bool) (f : A → result B) : list A → result B :=
  fix go l := match l with
  | [] => Raise KeyError
  | x :: l => if p x then f x else go l
  end.
Definition on_field {A B} (name : string) (f : A → result B) : list (string * A) → result B :=
  fix go ch := match ch with
  | [] => Raise KeyError
  | (n, l) :: ch => if decide (name = n) then f l else go ch
  end.
Definition on_head {A B} (f : A → result B) (l : list A) : result B :=
  match l with [] => Raise IndexError | x :: _ => f x end.

Fixpoint t_get (ns : gmap node_id node) (depth : Z) (t : tree) (path : string) {struct t}
    : result response :=
  if bool_decide (path = "") then One <$> t_read ns depth t
  else
    let '(name, path) := partition path in
    match t with
    | T nid d ch =>
        field ← field_of (msg_type d) name;
        if is_container field then
          if bool_decide (path = "") then
            on_field name (λ l, Many <$> mapM (t_read ns depth) l) ch
          else match ct_key field with
          | Some keyname =>
              on_field name (λ l,
                let '(key, path) := partition path in
                key ← key_from_str field key;
                find_first (t_has_key keyname key) (λ x, t_get ns depth x path) l) ch
          | None => Raise LookupError
          end
        else on_field name (on_head (λ x, t_get ns depth x path)) ch
    end.

Lemma on_field_eq {A B} name (f : A → result B) ch :
  on_field name f ch = (l ← of_option KeyError (od_get name ch); f l).
Proof. induction ch as [|[n l] ch IH]; [done|]. simpl. by case_decide. Qed.

Lemma find_first_eq {A B C} (g : C → A) p (f : A → result B) l :
  find_first p f (map g l) =
  match find_index (λ c, p (g c)) l with Some (_, x) => f (g x) | None => Raise KeyError end.
Proof.
  induction l as [|x l IH]; [done|]. simpl. destruct (p (g x)); [done|]. rewrite IH.
  by destruct (find_index _ l) as [[]|].
Qed.

Lemma do_get_abs st r depth :
  do_get st (r_node r) r depth = t_read (st_nodes st) depth (abs r).
Proof. unfold do_get, t_read. by rewrite rev_get_abs, abs_node. Qed.

Lemma do_get_all_abs st l depth :
  do_get_all st l depth = Many <$> mapM (t_read (st_nodes st) depth) (map abs l).
Proof.
  unfold do_get_all. induction l as [|x l IH]; [done|]. simpl. rewrite do_get_abs.
  destruct (t_read _ _ (abs x)); [|done]. simpl in *.
  destruct (mapM _ l), (mapM _ (map abs l)); simpl in *; congruence.
Qed.

(** Reading through a revision is reading the tree it holds. *)
Lemma get_abs fuel : ∀ st r path depth, coh (st_nodes st) (abs r) → String.length path < fuel →
  get_ fuel st (r_node r) r path depth = t_get (st_nodes st) depth (abs r) path.
Proof.
  induction fuel as [|fuel IH]; intros st r path depth Hcoh Hlt; [lia|].
  cbn [get_]. rewrite abs_eq in Hcoh |- *. cbn [t_get]. rewrite <- abs_eq in Hcoh.
  case_bool_decide as Hpe; [rewrite <- abs_eq, do_get_abs; by destruct (t_read _ _ _)|].
  destruct (partition path) as [name rest] eqn:Hp.
  pose proof (partition_length _ _ _ Hp Hpe) as Hlen.
  destruct (coh_holds _ _ Hcoh) as (n & b & [Hn Hty _ _ _ _ _]).
  rewrite abs_node in Hn. rewrite abs_data in Hty. rewrite Hn. cbn [of_option mbind result_bind].
  rewrite Hty.
  destruct (field_of _ name) as [field|e]; [|done]. cbn [mbind result_bind].
  assert (∀ l x, od_get name (r_children r) = Some l → x ∈ l → coh (st_nodes st) (abs x)) as Hkid.
  { intros l x Hl Hx. eapply (coh_child _ _ name (map abs l)); [exact Hcoh| |].
    - rewrite abs_eq. cbn [t_children]. apply od_get_Some_elem. by rewrite od_get_abs, Hl.
    - apply list_elem_of_In, in_map. by apply list_elem_of_In. }
  rewrite !on_field_eq, !od_get_abs. unfold children_of.
  destruct (od_get name (r_children r)) as [l|] eqn:Hl; cbn [of_option fmap option_fmap option_map mbind result_bind].
  - destruct (is_container field).
    + case_bool_decide as Hre.
      { destruct (ct_key field); apply do_get_all_abs. }
      destruct (ct_key field) as [keyname|]; [|done].
      destruct (partition rest) as [key rest'] eqn:Hp'.
      pose proof (partition_length _ _ _ Hp' Hre).
      rewrite on_field_eq, od_get_abs, Hl. cbn [of_option fmap option_fmap option_map mbind result_bind].
      destruct (key_from_str field key) as [k|]; [|done]. cbn [mbind result_bind].
      rewrite find_first_eq, find_key_abs. unfold find_rev_by_key.
      destruct (find_index _ l) as [[i x]|] eqn:Hi; [|done]. cbn [of_option mbind result_bind].
      apply find_index_Some in Hi as [Hx _]. apply IH; [|lia].
      by eapply Hkid, list_elem_of_lookup_2.
    + destruct l as [|x l]; [done|]. cbn. apply IH; [|lia]. eapply Hkid; [done|left].
  - destruct (is_container field); [|done]. case_bool_decide; destruct (ct_key field); try done.
    by rewrite on_field_eq, od_get_abs, Hl.
Qed.
End get.

Section contract.
Context `{Env, !Callbacks, !PostCallbacks, !NoCollisions, !Proto}.

(** ** Announcements queued by one operation *)

(** [m] queues at most one announcement, whatever happens. *)
Definition queues_nothing (st st' : store) : Prop := st_queue st' = st_queue st.
Definition queues_one (st st' : store) : Prop :=
  ∃ k, length k ≤ 1 ∧ st_queue st' = st_queue st ++ k.

#[local] Instance queues_nothing_preorder : PreOrder queues_nothing.
Proof. split; [by intros ?|intros ? ? ?; unfold queues_nothing; congruence]. Qed.

Lemma queues_nothing_one st st' : queues_nothing st st' → queues_one st st'.
Proof. exists []. rewrite app_nil_r. split; [simpl; lia|done]. Qed.
Lemma queues_one_l st st1 st2 : queues_nothing st st1 → queues_one st1 st2 → queues_one st st2.
Proof. unfold queues_nothing. intros Hq (k & Hk & Hq'). exists k. by rewrite <- Hq. Qed.
Lemma queues_one_r st st1 st2 : queues_one st st1 → queues_nothing st1 st2 → queues_one st st2.
Proof. unfold queues_nothing. intros (k & Hk & Hq) Hq'. exists k. by rewrite Hq'. Qed.

Lemma one_of_nothing {A} (m : M store A) : rel_post queues_nothing m → rel_post queues_one m.
Proof. intros Hm st. by apply queues_nothing_one. Qed.
Lemma one_bind_l {A B} (m : M store A) (f : A → M store B) :
  rel_post queues_nothing m → (∀ a, rel_post queues_one (f a)) → rel_post queues_one (m ≫= f).
Proof.
  intros Hm Hf st. unfold mbind, M_bind. specialize (Hm st).
  destruct (m st) as [[a|e] st1]; cbn in *; [|by apply queues_nothing_one].
  by eapply queues_one_l, Hf.
Qed.
Lemma one_bind_r {A B} (m : M store A) (f : A → M store B) :
  rel_post queues_one m → (∀ a, rel_post queues_nothing (f a)) → rel_post queues_one (m ≫= f).
Proof.
  intros Hm Hf st. unfold mbind, M_bind. specialize (Hm st).
  destruct (m st) as [[a|e] st1]; cbn in *; [|done].
  by eapply queues_one_r, Hf.
Qed.

Lemma nothing_get_node nid : rel_post queues_nothing (get_node nid).
Proof. done. Qed.
Lemma nothing_finalize o br c ch : rel_post queues_nothing (finalize o br c ch).
Proof. done. Qed.
Lemma nothing_modify_nodes nid n : rel_post queues_nothing (put_node nid n).
Proof. done. Qed.
Lemma nothing_upd_dirty f : rel_post queues_nothing (modify (upd_dirty f)).
Proof. done. Qed.
Lemma nothing_alloc ty : rel_post queues_nothing (alloc_node ty).
Proof. done. Qed.
#[local] Hint Resolve nothing_get_node nothing_finalize nothing_modify_nodes nothing_upd_dirty
  nothing_alloc : rel_post.

Lemma queues_make_latest nid k r anns : length anns ≤ 1 →
  rel_post queues_one (make_latest nid k r anns).
Proof.
  intros Hl. unfold make_latest. apply one_bind_l; [rel_post_solve|]. intros n.
  apply one_bind_l; [rel_post_solve|]. intros b. apply one_bind_l; [rel_post_solve|]. intros _.
  apply one_bind_r.
  - intros st. cbn. case_match; [|by apply queues_nothing_one].
    exists ((λ a, (nid, a.1, a.2)) <$> anns). by rewrite length_fmap.
  - intros _ st. cbn. by case_match.
Qed.
Lemma nothing_make_latest nid k r : rel_post queues_nothing (make_latest nid k r []).
Proof.
  unfold make_latest. rel_post_solve; intros st; cbn; case_match; try done.
  unfold queues_nothing. cbn. by rewrite app_nil_r.
Qed.
#[local] Hint Resolve nothing_make_latest : rel_post.

Lemma nothing_get_branch nid k : rel_post queues_nothing (get_branch nid k).
Proof. unfold get_branch, track_dirty, mk_txbranch_node. rel_post_solve. Qed.
Lemma nothing_latest nid : rel_post queues_nothing (latest nid).
Proof. unfold latest. rel_post_solve. Qed.
Lemma nothing_init_branch nid k r : rel_post queues_nothing (init_branch nid k r).
Proof. unfold init_branch. rel_post_solve. Qed.
#[local] Hint Resolve nothing_get_branch nothing_latest nothing_init_branch : rel_post.

Lemma nothing_init_field mk name field d :
  (∀ v, rel_post queues_nothing (mk v)) → rel_post queues_nothing (init_field mk name field d).
Proof.
  intros Hmk. unfold init_field. rel_post_solve.
  - generalize (@nil attr). induction (get_repeated d name); intros l'; simpl; rel_post_solve.
  - induction (get_repeated d name); simpl; rel_post_solve.
Qed.
Lemma nothing_mknode fuel data k : rel_post queues_nothing (mknode fuel data k).
Proof.
  revert data. induction fuel as [|fuel IH]; intros data; simpl; [rel_post_solve|].
  apply rel_post_bind; [apply _|rel_post_solve|]. intros nid.
  apply rel_post_bind; [apply _|rel_post_solve|]. intros fields.
  apply rel_post_bind; [apply _| |rel_post_solve].
  generalize (@nil (string * list rev)). generalize data at 1.
  induction fields as [|[name field] fields IHf]; intros d acc; simpl; [rel_post_solve|].
  apply rel_post_bind; [apply _| |auto].
  apply nothing_init_field. rel_post_solve.
Qed.
#[local] Hint Resolve nothing_mknode : rel_post.

(** Follows the program down to the one step that may announce. *)
Ltac one_step :=
  match goal with
  | |- ∀ _, _ => intros ?
  | |- rel_post queues_one (if ?b then _ else _) => destruct b
  | |- rel_post queues_one (match ?x with _ => _ end) => destruct x
  | |- rel_post queues_one (mbind _ _) =>
      first [apply one_bind_l; [solve [rel_post_solve]|]
            |apply one_bind_r; [|solve [rel_post_solve]]]
  | |- rel_post queues_one (make_latest _ _ _ _) =>
      apply queues_make_latest; repeat case_match; simpl; lia
  | |- _ => solve [eauto with rel_post]
  | |- _ => apply one_of_nothing; solve [rel_post_solve]
  end.
Ltac one_solve := repeat one_step.

Lemma queues_do_update nid k data strict : rel_post queues_one (do_update nid k data strict).
Proof. unfold do_update, update_data. one_solve. Qed.
#[local] Hint Resolve queues_do_update : rel_post.
Lemma queues_update fuel nid path data strict k :
  rel_post queues_one (update_ fuel nid path data strict k).
Proof.
  revert nid path. induction fuel as [|fuel IH]; intros nid path; cbn [update_];
    unfold update_children, new_node; cbv zeta; one_solve.
Qed.
Lemma queues_add fuel nid path data k : rel_post queues_one (add_ fuel nid path data k).
Proof.
  revert nid path. induction fuel as [|fuel IH]; intros nid path; cbn [add_];
    unfold update_children, new_node; cbv zeta; one_solve.
Qed.
Lemma queues_remove fuel nid path k : rel_post queues_one (remove_ fuel nid path k).
Proof.
  revert nid path. induction fuel as [|fuel IH]; intros nid path; cbn [remove_];
    unfold update_children; cbv zeta; one_solve.
Qed.

(** ** Commands at the root *)

(** A step that makes proxies and registers callbacks, and leaves the nodes
    alone otherwise. *)
Definition without_proxy (n : node) : node := mk_node (n_type n) (n_branches n) (n_tags n) None.
Record proxies_only (st st' : store) : Prop := mk_proxies_only {
  po_nodes nid : without_proxy <$> st_nodes st' !! nid = without_proxy <$> st_nodes st !! nid;
  po_next : st_next_node st' = st_next_node st;
  po_cache : st_cache st' = st_cache st;
  po_queue : st_queue st' = st_queue st;
}.
#[export] Instance proxies_only_preorder : PreOrder proxies_only.
Proof.
  split; [by intros ?|]. intros ? ? ? [] []. split; [|congruence..]. intros nid. etrans; eauto.
Qed.

Lemma po_put_node nid n st : without_proxy <$> st_nodes st !! nid = Some (without_proxy n) →
  proxies_only st (put_node nid n st).2.
Proof.
  intros Hn. split; [|done..]. intros m. cbn. destruct (decide (m = nid)) as [->|Hne].
  - by rewrite lookup_insert_eq, Hn.
  - by rewrite lookup_insert_ne.
Qed.
Lemma po_get_node nid : rel_post proxies_only (get_node nid).
Proof. intros st. reflexivity. Qed.
Lemma po_latest nid : rel_post proxies_only (latest nid).
Proof. unfold latest. rel_post_solve. apply po_get_node. Qed.

(** Making a proxy and registering a callback at it are such steps. *)
Lemma po_mk_node_proxy nid path exclusive : rel_post proxies_only (mk_node_proxy nid path exclusive).
Proof.
  intros st. unfold mk_node_proxy, get_node, mbind, M_bind.
  destruct (st_nodes st !! nid) as [n|] eqn:Hn; [|reflexivity]. cbn [of_option].
  destruct (n_proxy n) as [px|]; [destruct (px_exclusive px); reflexivity|].
  apply po_put_node. by rewrite Hn.
Qed.
Lemma po_get_proxy nid path exclusive : rel_post proxies_only (get_proxy nid path exclusive).
Proof.
  unfold get_proxy. generalize path at 3. generalize (S (String.length path)) as fuel.
  intros fuel full. revert nid path. induction fuel as [|fuel IH]; intros nid path; cbn [get_proxy_];
    [intros st; reflexivity|]. cbv zeta. repeat rel_post_step; auto using po_mk_node_proxy, po_get_node, po_latest with rel_post.
Qed.
Lemma po_register nid ty c n px st : st_nodes st !! nid = Some n → n_proxy n = Some px →
  proxies_only st (put_node nid (mk_node (n_type n) (n_branches n) (n_tags n)
                                   (Some (register_callback ty c px))) st).2.
Proof. intros Hn _. apply po_put_node. by rewrite Hn. Qed.

Lemma po_lookup st st' nid n : proxies_only st st' → st_nodes st !! nid = Some n →
  ∃ n', st_nodes st' !! nid = Some n' ∧ without_proxy n' = without_proxy n.
Proof.
  intros Hpo Hn. pose proof (po_nodes _ _ Hpo nid) as Hp. rewrite Hn in Hp.
  destruct (st_nodes st' !! nid) as [n'|]; [|done]. injection Hp as ???. exists n'.
  split; [done|]. unfold without_proxy. congruence.
Qed.
Lemma po_coh st st' t : proxies_only st st' → coh (st_nodes st) t → coh (st_nodes st') t.
Proof.
  intros Hpo. induction 1 as [nid d ch n b Hh _ IH]. destruct Hh as [Hn Hty Hb Htx Ha Hok Hwf].
  destruct (po_lookup _ _ _ _ Hpo Hn) as (n' & Hn' & [= Ht Hbr _]).
  econstructor; [|done]. split; [exact Hn'|by rewrite Ht|by rewrite Hbr|done..].
Qed.
Lemma po_pre st st' t : proxies_only st st' → pre st t → pre st' t.
Proof.
  intros Hpo [Hcoh Hnd Hfr Hca]. split; [by eapply po_coh|done| |].
  - intros m Hm. rewrite (po_next _ _ Hpo). by apply Hfr.
  - unfold cache_ok. rewrite (po_cache _ _ Hpo). exact Hca.
Qed.

(** Deferred callbacks that make proxies and register callbacks but do not
    write to the tree (which, of the callbacks of the program, is what the one
    of the core does when a device is added), and room for one. *)
Class Passive : Prop := {
  call_post_passive c d st : proxies_only st (call_post c d st).2;
  cb_fuel_pos : 1 ≤ cb_fuel;
}.
Context `{!Passive}.

Inductive cmd : Type :=
  | CUpdate (path : string) (data : msg) (strict : bool)
  | CAdd (path : string) (data : msg)
  | CRemove (path : string).

Definition run_cmd (c : cmd) : M store rev :=
  match c with
  | CUpdate path data strict => root_update path data strict None
  | CAdd path data => root_add path data None
  | CRemove path => root_remove path None
  end.
Definition t_cmd (st : store) (c : cmd) (t : tree) : result tree :=
  match c with
  | CUpdate path data strict => t_update (st_nodes st) data strict t path
  | CAdd path data => t_add (st_nodes st) data (built st data) t path
  | CRemove path => t_remove (st_nodes st) t path
  end.
Definition cmd_ok (c : cmd) : Prop :=
  match c with CAdd _ data => data_ok data | _ => True end.

(** The committed tree of a store between two operations. *)
Record config_inv (st : store) (t : tree) : Prop := mk_config_inv {
  ci_pre : pre st t;
  ci_root : t_node t = root_id;
  ci_queue : st_queue st = [];
}.

(** The update was refused after part of it was done. *)
Definition cmd_rekeys (st : store) (c : cmd) (t : tree) : bool :=
  match c with
  | CUpdate path data strict => t_rekeys (st_nodes st) data strict t path
  | CAdd _ _ | CRemove _ => false
  end.

Lemma invoke_post_passive cbs d st :
  ∃ st', invoke_post cbs d st = (Ok tt, st') ∧ proxies_only st st'.
Proof.
  revert d st. induction cbs as [|c cbs IH]; intros d st; [by exists st|]. cbn [invoke_post].
  pose proof (call_post_passive c d st) as Hp. destruct (call_post c d st) as [[d'|e] st1].
  all: cbn in Hp; edestruct IH as (st2 & Hrun & Hpo); exists st2; rewrite Hrun; split; [done|by etrans].
Qed.
Lemma execute_passive fuel st : length (st_queue st) ≤ fuel →
  ∃ st', execute_deferred_callbacks fuel st = (Ok tt, st') ∧ proxies_only (set_queue [] st) st'.
Proof.
  revert st. induction fuel as [|fuel IH]; intros st; simpl.
  - destruct (st_queue st) eqn:Hq; [|simpl; lia]. intros _. exists st. split; [done|].
    by split; cbn.
  - destruct (st_queue st) as [|[[nid ty] c] q] eqn:Hq.
    + intros _. exists st. split; [done|]. by split; cbn.
    + simpl. intros Hl. unfold mbind, M_bind.
      match goal with |- context [invoke_post ?cbs c ?s] =>
        destruct (invoke_post_passive cbs c s) as (st1 & -> & Hpo) end.
      destruct (IH st1) as (st2 & Hrun & Hpo2).
      { rewrite (po_queue _ _ Hpo). cbn. lia. }
      exists st2. split; [exact Hrun|]. etrans; [|exact Hpo2]. by destruct Hpo.
Qed.

Lemma pre_set_queue q st t : pre st t → pre (set_queue q st) t.
Proof. by intros []. Qed.

(** Outside of a transaction the root runs the operation of its node, then the
    callbacks. *)
Lemma root_op_refines st t (op : M store rev) spec partial :
  config_inv st t → rel_post queues_one op → refines st t op spec partial →
  (∀ t', spec = Ok t' → t_node t' = t_node t) →
  match spec with
  | Ok t' => ∃ r st', root_op None op st = (Ok r, st') ∧ abs r = t' ∧ config_inv st' t'
  | Raise e => ∃ st', root_op None op st = (Raise e, st') ∧ (partial = false → st' = st)
  end.
Proof.
  intros [Hpre Hroot Hq] Hone Href Hnode. unfold root_op.
  rewrite (M_bind_eq _ _ st tt st) by (unfold check_callback_queue; by rewrite Hq).
  unfold try_finally. rewrite (M_bind_eq _ _ st tt st) by done.
  specialize (Hone st). destruct (op st) as [res st1] eqn:Hop. cbn [snd] in Hone.
  destruct Hone as (k & Hk & Hq1). rewrite Hq in Hq1. cbn in Hq1.
  destruct (execute_passive cb_fuel st1) as (st2 & Hex & Hpo).
  { rewrite Hq1. pose proof cb_fuel_pos. lia. }
  rewrite Hex. unfold refines in Href. rewrite Hop in Href. destruct spec as [t'|e].
  - destruct Href as (r & st' & [= -> ->] & Habs & Hro & Hpost).
    exists r, st2. split_and!; [done|done|]. split.
    + eapply po_pre; [exact Hpo|]. apply pre_set_queue. by eapply post_pre.
    + by rewrite (Hnode t').
    + by rewrite (po_queue _ _ Hpo).
  - destruct Href as (st' & [= -> ->] & Hst). exists st2. split; [done|].
    intros Hp. specialize (Hst Hp). subst st'.
    destruct cb_fuel as [|f]; cbn in Hex; rewrite Hq in Hex; by injection Hex.
Qed.

Lemma t_update_node ns data strict t path t' :
  t_update ns data strict t path = Ok t' → t_node t' = t_node t.
Proof.
  destruct t as [nid d ch]. cbn [t_update]. case_bool_decide.
  - unfold t_write. case_bool_decide; [|done].
    intros (_ & _ & Ht)%result_bind_Ok. apply result_bind_Ok in Ht as (_ & _ & Ht).
    case_bool_decide; [by simplify_eq|]. by apply result_bind_Ok in Ht as (_ & _ & [= <-]).
  - destruct (partition _) as [name rest]. intros (field & _ & Ht)%result_bind_Ok.
    by apply result_bind_Ok in Ht as (ch' & _ & [= <-]).
Qed.
Lemma t_cmd_node st c t t' : t_cmd st c t = Ok t' → t_node t' = t_node t.
Proof.
  destruct c; [apply t_update_node|..]; destruct t as [nid d ch]; cbn [t_cmd t_add t_remove];
    (case_bool_decide; [done|]); destruct (partition _) as [name rest];
    intros (field & _ & Ht)%result_bind_Ok; (destruct (is_container field); [|done]).
  - destruct (ct_key field); [|done]. by apply result_bind_Ok in Ht as (ch' & _ & [= <-]).
  - case_bool_decide; [done|]. destruct (ct_key field); [|done]. destruct (partition rest).
    apply result_bind_Ok in Ht as (k & _ & Ht). by apply result_bind_Ok in Ht as (ch' & _ & [= <-]).
Qed.

Lemma cmd_step st t c : config_inv st t → cmd_ok c →
  match t_cmd st c t with
  | Ok t' => ∃ r st', run_cmd c st = (Ok r, st') ∧ abs r = t' ∧ config_inv st' t'
  | Raise e => ∃ st', run_cmd c st = (Raise e, st') ∧ (cmd_rekeys st c t = false → st' = st)
  end.
Proof.
  intros Hinv Hok. pose proof (ci_root _ _ Hinv) as Hr. pose proof (ci_pre _ _ Hinv) as Hpre.
  destruct c; cbn [run_cmd t_cmd cmd_rekeys]; unfold root_update, root_add, root_remove; rewrite <- Hr;
    (apply (root_op_refines st t); [done|..]).
  - apply queues_update.
  - apply update_refines_aux; [done|lia].
  - apply (t_cmd_node st (CUpdate path data strict)).
  - apply queues_add.
  - apply add_refines_aux; [done|done|lia].
  - apply (t_cmd_node st (CAdd path data)).
  - apply queues_remove.
  - apply remove_refines_aux; [done|lia].
  - apply (t_cmd_node st (CRemove path)).
Qed.

(** ** Construction *)

Lemma new_root_inv data kv : data_ok data →
  ∃ st t, new_root data (empty_store kv) = (Ok tt, st) ∧ config_inv st t ∧ represents data t.
Proof.
  intros Hd. assert (cache_ok (empty_store kv)) as Hc by (intros h c; cbn; by rewrite lookup_empty).
  destruct (new_node_builds data Hd (empty_store kv) Hc) as (r & st1 & Hrun & Hfl & Hro & Hrep & Hnode).
  pose proof Hrun as (nid & st0 & Hn & Hlat)%M_bind_Ok.
  assert (st0 = st1) as ->.
  { unfold latest in Hlat. apply M_bind_Ok in Hlat as (n & s & [= _ <-] & Hlat).
    apply M_bind_Ok in Hlat as (b & s & [= _ <-] & [= _ <-]). done. }
  pose proof (mknode_id _ _ _ _ _ _ Hn) as ->. cbn [st_next_node empty_store] in *.
  assert (coh (st_nodes st1) (abs r)) as Hcoh by (apply (fl_coh _ _ _ Hfl); left).
  destruct (coh_holds _ _ Hcoh) as (n & b & Hh). pose proof Hh as [Hnn Hty Hb Htx Hab _ _].
  rewrite Hnode in Hnn.
  destruct (make_latest_eq 0 r [] st1 n b Hnn Hb Htx) as (revs & st2 & Hm & HN & HX & HC).
  exists st2, (abs r). unfold new_root. rewrite (M_bind_eq _ _ _ _ _ Hn), (M_bind_eq _ _ _ _ _ Hlat).
  split; [exact Hm|]. split; [|done].
  pose proof (fl_nodup _ _ _ Hfl) as Hnd. unfold list_nodes in Hnd. cbn in Hnd. rewrite app_nil_r in Hnd.
  assert (b_latest b = r) as Hbl.
  { revert Hlat. unfold latest. rewrite (M_bind_eq _ _ _ n st1) by (unfold get_node; by rewrite Hnn).
    rewrite (M_bind_eq _ _ _ b st1) by (unfold lift; by rewrite Hb). by intros [= ->]. }
  split; [|done|].
  - split; [|done| |by unfold cache_ok; rewrite HC; apply (fl_cache _ _ _ Hfl)].
    + rewrite HN, <- Hnode. by apply (coh_relatest _ _ n b _ (mk_branch None (b_origin b) revs r));
        try apply lookup_insert_eq.
    + intros m Hm'. rewrite HX. apply (fl_range _ _ _ Hfl).
      unfold list_nodes. cbn. by rewrite app_nil_r.
  - assert (queues_nothing (empty_store kv) st2) as Hq; [|exact Hq].
    etrans.
    + pose proof (nothing_mknode (S (msg_depth data)) data None (empty_store kv)) as Hq.
      unfold new_node in Hn. rewrite Hn in Hq. exact Hq.
    + pose proof (nothing_make_latest 0 None r st1) as Hq. by rewrite Hm in Hq.
Qed.

(** The states a root goes through outside of transactions, each with the tree
    the specification assigns to it: after the construction, after a command
    that succeeded, and after proxies were made and callbacks registered.  A
    command that fails leaves the state as it was ([cmd_step]), except an update
    refused because the message has another key than the path: it has already
    rewritten the nodes below the container ([refused_key_change]), and what
    follows it is not among these states. *)
Inductive reachable : store → tree → Prop :=
  | reach_init data kv st r :
      data_ok data → new_root data (empty_store kv) = (Ok tt, st) →
      latest root_id st = (Ok r, st) → reachable st (abs r)
  | reach_cmd st t c t' r st' :
      reachable st t → cmd_ok c → t_cmd st c t = Ok t' → run_cmd c st = (Ok r, st') →
      reachable st' t'
  | reach_proxies st t st' : reachable st t → proxies_only st st' → reachable st' t.

Lemma latest_holds st t r n b :
  holds (st_nodes st) t n b → t_node t = root_id → latest root_id st = (Ok r, st) → abs r = t.
Proof.
  intros [Hn _ Hb _ Habs _ _] Hr. rewrite Hr in Hn. unfold latest.
  rewrite (M_bind_eq _ _ _ n st) by (unfold get_node; by rewrite Hn).
  rewrite (M_bind_eq _ _ _ b st) by (unfold lift; by rewrite Hb). intros [= <-]. done.
Qed.

Lemma reachable_inv st t : reachable st t → config_inv st t.
Proof.
  induction 1 as [data kv st r Hd Hnew Hlat|st t c t' r st' Hre Hinv Hok Hspec Hrun
    |st t st' Hre Hinv Hpo].
  - destruct (new_root_inv data kv Hd) as (st' & t & Hnew' & Hinv & _).
    rewrite Hnew in Hnew'. injection Hnew' as <-.
    destruct (coh_holds _ _ (pre_coh _ _ (ci_pre _ _ Hinv))) as (n & b & Hh).
    by rewrite (latest_holds _ _ _ _ _ Hh (ci_root _ _ Hinv) Hlat).
  - pose proof (cmd_step st t c Hinv Hok) as Hstep. rewrite Hspec in Hstep.
    destruct Hstep as (r0 & st0 & Hrun0 & _ & Hinv'). rewrite Hrun in Hrun0.
    by injection Hrun0 as <- <-.
  - destruct Hinv as [Hpre Hroot Hq]. split; [by eapply po_pre|done|].
    by rewrite (po_queue _ _ Hpo).
Qed.

Inductive subtree : tree → tree → Prop :=
  | subtree_refl t : subtree t t
  | subtree_child x t f l y : (f, l) ∈ t_children t → y ∈ l → subtree x y → subtree x t.

Lemma coh_subtree ns x t : subtree x t → coh ns t → coh ns x.
Proof. induction 1; eauto using coh_child. Qed.

(** ** Reads see writes *)

Lemma clean_partition p h t : clean p = true → partition p = (h, t) →
  clean t = true ∧ strip_slashes t = t.
Proof.
  revert h t. induction p as [|a p IH]; intros h t; [by intros _ [= <- <-]|].
  intros Hc Hp. cbn [clean] in Hc. apply andb_true_iff in Hc as [Hc Hs].
  destruct (decide (a = "/"%char)) as [->|Ha].
  - cbn in Hp. injection Hp as <- <-. split; [done|]. destruct p as [|b p]; [done|].
    case_bool_decide as Hb; [done|].
    destruct b as [[] [] [] [] [] [] [] []]; try done. naive_solver.
  - destruct (partition p) as [h' t'] eqn:Hpp. specialize (IH h' t' Hc eq_refl).
    assert (partition (String a p) = (String a h', t')) as Heq.
    { cbn. rewrite Hpp. destruct a as [[] [] [] [] [] [] [] []]; done. }
    rewrite Heq in Hp. by injection Hp as <- <-.
Qed.
Lemma clean_strip p : clean p = true → clean (strip_slashes p) = true.
Proof.
  induction p as [|a p IH]; [done|]. intros Hc. pose proof Hc as Hc'. cbn [clean] in Hc.
  apply andb_true_iff in Hc as [Hc _].
  destruct a as [[] [] [] [] [] [] [] []]; cbn [strip_slashes]; auto.
Qed.

Lemma find_alter {A B} p (f : A → result A) (l l' : list A) (g : A → result B) :
  alter_first p f l = Ok l' → (∀ x y, f x = Ok y → p y = true) →
  ∃ x y, x ∈ l ∧ y ∈ l' ∧ f x = Ok y ∧ find_first p g l' = g y.
Proof.
  intros Hl Hp. revert l' Hl. induction l as [|x l IH]; intros l'; simpl; [done|].
  destruct (p x) eqn:Hx.
  - intros (y & Hy & [= <-])%result_bind_Ok. exists x, y. split_and!; [left|left|done|].
    simpl. by rewrite (Hp _ _ Hy).
  - intros (k & Hk & [= <-])%result_bind_Ok. destruct (IH k Hk) as (x' & y & Hin & Hin' & Hy & Hg).
    exists x', y. split_and!; [by right|by right|done|]. simpl. by rewrite Hx.
Qed.

Lemma t_get_update ns ns1 ns' t path data strict t' depth :
  coh ns' t → clean path = true → t_update ns1 data strict t path = Ok t' →
  ∃ x, t_data x = data ∧ subtree x t' ∧
    t_get ns depth t' (strip_slashes path) = One <$> t_read ns depth x.
Proof.
  intros Hcoh. revert path t'. induction Hcoh as [nid d ch n b Hh Hk IH]. intros path t' Hcl.
  pose proof (clean_strip _ Hcl) as Hcl'. cbn [t_update]. case_bool_decide as Hpe.
  { unfold t_write. case_bool_decide; [|done].
    intros (_ & _ & Ht)%result_bind_Ok. apply result_bind_Ok in Ht as (_ & _ & Ht).
    rewrite Hpe. exists t'. split; [|split; [constructor|by destruct t']].
    case_bool_decide; [by simplify_eq|]. by apply result_bind_Ok in Ht as (_ & _ & [= <-]). }
  destruct (partition (strip_slashes path)) as [name rest] eqn:Hp.
  destruct (clean_partition _ _ _ Hcl' Hp) as [Hclr Hsr].
  intros (field & Hf & Ht)%result_bind_Ok. apply result_bind_Ok in Ht as (ch' & Hch & [= <-]).
  cbn [t_get]. rewrite bool_decide_false by done. rewrite Hp, Hf. cbn [mbind result_bind].
  assert (∀ f : list tree → result (list tree), alter_field name f ch = Ok ch' →
    ∃ l l', od_get name ch = Some l ∧ f l = Ok l' ∧ od_get name ch' = Some l') as Hal.
  { intros f. rewrite alter_field_eq. destruct (od_get name ch) as [l|]; [|done].
    intros (l' & Hl' & [= <-])%result_bind_Ok. exists l, l'. by rewrite od_get_set. }
  destruct (is_container field).
  - case_bool_decide as Hre; [done|]. destruct (ct_key field) as [keyname|]; [|done].
    destruct (partition rest) as [key rest'] eqn:Hp'.
    destruct (clean_partition _ _ _ Hclr Hp') as [Hclr' Hsr'].
    apply result_bind_Ok in Hch as (k & Hkey & Hch). apply Hal in Hch as (l & l' & Hl & Hl' & Hg).
    rewrite on_field_eq, Hg, Hkey. cbn [of_option mbind result_bind].
    destruct (find_alter _ _ _ _ (λ x, t_get ns depth x rest') Hl') as (x & y & Hx & Hin & Hy & ->).
    { intros x y (z & _ & [-> Hz]%same_key_Ok)%result_bind_Ok. by apply bool_decide_eq_true. }
    apply result_bind_Ok in Hy as (z & Hz & [-> _]%same_key_Ok).
    destruct (IH name l x) with (path := rest') (t' := z) as (w & Hw & Hsub & Hgw);
      eauto using od_get_Some_elem.
    rewrite Hsr' in Hgw. exists w. split_and!; [done| |done].
    by eapply subtree_child; [apply od_get_Some_elem|..].
  - apply Hal in Hch as (l & l' & Hl & Hl' & Hg). rewrite on_field_eq, Hg.
    destruct l as [|x l]; [done|]. cbn in Hl'. apply result_bind_Ok in Hl' as (y & Hy & [= <-]).
    destruct (IH name (x :: l) x) with (path := rest) (t' := y) as (w & Hw & Hsub & Hgw);
      eauto using od_get_Some_elem; [left|].
    rewrite Hsr in Hgw. exists w. split_and!; [done| |done].
    eapply subtree_child; [by apply od_get_Some_elem|left|done].
Qed.

(** ** The contract *)

(** C1: outside of transactions, with deferred callbacks that make proxies and
    register callbacks but do not write to the tree, each update, add and remove
    at the root does what its specification on the abstract tree says.  Where the
    specification raises an exception the command raises it and leaves the whole
    store as it was, with one exception: an update refused because the message
    has another key than its path raises, but has rewritten the nodes below the
    container.  Otherwise it succeeds and leads to a state that holds the
    specified tree.  This is so in every state reached from a new root by such
    commands and by making proxies and registering callbacks, as long as no
    update was refused for its key; an added message must not have two children
    with one key in a keyed container. *)
Theorem config_step st t c : reachable st t → cmd_ok c →
  match t_cmd st c t with
  | Ok t' => ∃ r st', run_cmd c st = (Ok r, st') ∧ abs r = t' ∧ reachable st' t'
  | Raise e => ∃ st', run_cmd c st = (Raise e, st') ∧ (cmd_rekeys st c t = false → st' = st)
  end.
Proof.
  intros Hre Hok. pose proof (cmd_step st t c (reachable_inv _ _ Hre) Hok) as Hstep.
  destruct (t_cmd st c t) as [t'|e] eqn:Hspec; [|done].
  destruct Hstep as (r & st' & Hrun & Habs & _). exists r, st'. split_and!; [done|done|].
  by eapply reach_cmd.
Qed.

Lemma config_get st x path depth : coh (st_nodes st) x →
  get st (t_node x) path None depth None = t_get (st_nodes st) depth x (strip_slashes path).
Proof.
  intros Hcoh. destruct (coh_holds _ _ Hcoh) as (n & b & [Hn _ Hb _ Habs _ _]).
  unfold get. rewrite Hn. cbn [of_option mbind result_bind]. rewrite Hb.
  cbn [of_option mbind result_bind].
  rewrite <- Habs, abs_node in Hn |- *. rewrite <- Habs in Hcoh.
  by apply get_abs; [|lia].
Qed.

(** C2: at every state C1 speaks about (reached from a new root outside of
    transactions, by commands none of which was an update refused for its key,
    and by making proxies and registering callbacks) a read through any node of
    the tree, at any path and depth, answers what the specification reads off
    that part of the tree: the nodes, which keep their revisions separately,
    agree with the root.  After an update that is refused for its key they do
    not: the node reads the refused message and the root the old one. *)
Theorem config_reads st t x path depth : reachable st t → subtree x t →
  get st (t_node x) path None depth None = t_get (st_nodes st) depth x (strip_slashes path).
Proof.
  intros Hre Hx. apply config_get. eapply coh_subtree; [done|].
  apply (ci_pre _ _ (reachable_inv _ _ Hre)).
Qed.

(** No reached tree has two children with the same key in a keyed
    container, and a singular child field always holds exactly one child. *)
Theorem config_children_wf st t x name field : reachable st t → subtree x t →
  field_of (msg_type (t_data x)) name = Ok field →
  ∃ l, od_get name (t_children x) = Some l ∧
    if is_container field then
      ∀ k, ct_key field = Some k → NoDup (map (λ c, getattr (t_data c) k) l)
    else ∃ c, l = [c].
Proof.
  intros Hre Hx Hf. pose proof (reachable_inv _ _ Hre) as Hinv.
  pose proof (coh_subtree _ _ _ Hx (pre_coh _ _ (ci_pre _ _ Hinv))) as Hcoh.
  destruct (coh_holds _ _ Hcoh) as (n & b & Hh). destruct (h_wf _ _ _ _ Hh _ _ Hf) as (l & Hl & Hw).
  exists l. split; [done|]. unfold field_wf in Hw. destruct (is_container field).
  - intros k Hk. by rewrite Hk in Hw.
  - destruct l as [|c [|? ?]]; try done. by exists c.
Qed.

(** No GET callback rewrites what is read. *)
Definition no_get_callbacks (st : store) : Prop := ∀ nid n px,
  st_nodes st !! nid = Some n → n_proxy n = Some px → od_get GET (px_callbacks px) = None.

Lemma t_read_plain st x m : no_get_callbacks st → is_Some (st_nodes st !! t_node x) →
  t_msg 0 x = Ok m → t_read (st_nodes st) 0 x = Ok m.
Proof.
  intros Hno [n Hn] Hm. unfold t_read. rewrite Hm, Hn. cbn [of_option mbind result_bind].
  destruct (n_proxy n) as [px|] eqn:Hpx; [|done].
  unfold invoke_callbacks. by rewrite (Hno _ _ _ Hn Hpx).
Qed.

(** After a successful update at a path, reading that path answers the
    message that was written. *)
Theorem read_after_update st t path data strict r st' : reachable st t → clean path = true →
  root_update path data strict None st = (Ok r, st') → no_get_callbacks st' →
  get st' root_id path None 0 None = Ok (One data).
Proof.
  intros Hre Hcl Hrun Hno. pose proof (reachable_inv _ _ Hre) as Hinv.
  pose proof (cmd_step st t (CUpdate path data strict) Hinv I) as Hstep. cbn [t_cmd run_cmd] in Hstep.
  destruct (t_update (st_nodes st) data strict t path) as [t'|e] eqn:Hup;
    [clear Hstep|destruct Hstep as (? & ? & _); congruence].
  assert (reachable st' t') as Hre' by (by apply (reach_cmd st t (CUpdate path data strict) t' r)).
  pose proof (reachable_inv _ _ Hre') as Hinv'.
  rewrite <- (ci_root _ _ Hinv'), (config_get st' t') by apply (ci_pre _ _ Hinv').
  destruct (t_get_update (st_nodes st') _ _ _ _ _ _ _ 0 (pre_coh _ _ (ci_pre _ _ Hinv)) Hcl Hup)
    as (x & Hx & Hsub & ->).
  destruct (coh_holds _ _ (coh_subtree _ _ _ Hsub (pre_coh _ _ (ci_pre _ _ Hinv'))))
    as (n & b & Hh).
  rewrite (t_read_plain st' x data); [done|done| |by destruct x; simpl in *; subst].
  by rewrite (h_node _ _ _ _ Hh).
Qed.
End contract.

(** ** The concrete environment *)

#[export] Instance demo_no_collisions : NoCollisions (H := demo_env).
Proof.
  split.
  - intros m m' Heq. apply (inj encode) in Heq. by injection Heq.
  - intros h l h' l' Heq. apply (inj encode) in Heq. by injection Heq.
Qed.

#[export] Instance demo_passive : Passive (H := demo_env).
Proof.
  split; [|simpl; lia]. intros c d.
  assert (rel_post proxies_only (_ ← get_proxy (H := demo_env) root_id "/devices/1" false; mret d)) as Hp;
    [|exact Hp].
  apply rel_post_bind; [apply _|apply po_get_proxy|]. intros _ st. reflexivity.
Qed.

Lemma demo_fields cls fields : children_fields (H := demo_env) cls = Ok fields →
  cls = "Instance" ∧ od_keys fields = ["devices"] ∨
  cls = "Device" ∧ od_keys fields = ["ports"; "flows"] ∨ fields = [].
Proof.
  unfold children_fields. cbn [DESCRIPTOR demo_env]. unfold demo_descriptor.
  case_bool_decide as Hi; [intros [= <-]; auto|].
  case_bool_decide as Hd; [intros [= <-]; auto|]. intros [= <-]. auto.
Qed.

#[export] Instance demo_proto : Proto (H := demo_env).
Proof.
  split.
  - intros m f. by destruct m; cbn; repeat (case_bool_decide; cbn).
  - intros m f k Hne. by destruct m; cbn; repeat (case_bool_decide; cbn).
  - intros m f g Hne. by destruct m; cbn; repeat (case_bool_decide; cbn); simplify_eq.
  - intros m f g Hne. by destruct m; cbn; repeat (case_bool_decide; cbn); simplify_eq.
  - intros m f field c _ _ Hc. destruct m; cbn in *; try by apply not_elem_of_nil in Hc.
    all: case_bool_decide; [|by apply not_elem_of_nil in Hc].
    all: apply list_elem_of_fmap in Hc as (? & -> & _); cbn; lia.
  - intros m f field Hf Hco. unfold field_of in Hf. apply result_bind_Ok in Hf as (fields & Hfs & Hf).
    apply of_option_Ok in Hf. destruct m; cbn in *; try lia; try (repeat case_bool_decide; cbn; lia).
    all: by injection Hfs as <-.
  - intros cls f field k cls' fields Hf Hco Hk Hfs. unfold field_of in Hf.
    apply result_bind_Ok in Hf as (fs & Hfs' & Hf%of_option_Ok).
    assert (k = "id" ∨ k = "port_no") as Hkk.
    { unfold children_fields in Hfs'. cbn [DESCRIPTOR demo_env] in Hfs'. unfold demo_descriptor in Hfs'.
      revert Hfs' Hf Hk. case_bool_decide; [|case_bool_decide]; intros [= <-]; cbn;
        intros Hf Hk; repeat (case_decide; simplify_eq/=); try done; auto. }
    destruct (demo_fields _ _ Hfs) as [[_ ->]|[[_ ->]| ->]]; destruct Hkk as [->| ->];
      by apply (bool_decide_unpack _).
Qed.

(** The demonstration tree and what is reached from it. *)
Lemma demo_leaf_ok m : children_fields (H := demo_env) (demo_type m) = Ok [] → data_ok (H := demo_env) m.
Proof. intros Hf. by eapply data_ok_intro. Qed.
#[local] Instance AInt_inj : Inj (=) (=) AInt.
Proof. by intros ? ? [=]. Qed.
Lemma demo_device_ok d : NoDup (map port_no (dev_ports d)) → data_ok (H := demo_env) (MDevice d).
Proof.
  intros Hnd. eapply data_ok_intro; [done|..]; cbn; intros name field.
  - intros k Hg Hco Hk. repeat (case_decide; simplify_eq/=). rewrite map_map. cbn.
    rewrite <- (map_map port_no AInt). by apply (NoDup_fmap_2 AInt).
  - intros c Hg Hc. unfold kids in Hc. repeat (case_decide; simplify_eq/=).
    + apply list_elem_of_fmap in Hc as (p & -> & _). by apply demo_leaf_ok.
    + apply list_elem_of_singleton in Hc as ->. by apply demo_leaf_ok.
Qed.
Lemma demo_data_ok : data_ok (H := demo_env) demo_inst.
Proof.
  eapply data_ok_intro; [done|..]; cbn; intros name field.
  - intros k Hg Hco Hk. repeat (case_decide; simplify_eq/=).
    by apply (bool_decide_unpack _).
  - intros c Hg Hc. unfold kids in Hc. repeat (case_decide; simplify_eq/=).
    rewrite !elem_of_cons in Hc.
    destruct Hc as [->|[->|?%not_elem_of_nil]]; [| |done]; apply demo_device_ok;
      by apply (bool_decide_unpack _).
Qed.

Definition demo_tree : tree :=
  match (latest root_id demo_st).1 with Ok r => abs r | Raise _ => T 0 (demo_inst : @msg demo_env) [] end.

Lemma demo_reachable : reachable demo_st demo_tree.
Proof.
  destruct (new_root_inv (H := demo_env) demo_inst None demo_data_ok) as (st & t & Hnew & Hinv & _).
  assert (demo_st = st) as Hst by (unfold demo_st; by rewrite Hnew).
  destruct (coh_holds _ _ (pre_coh _ _ (ci_pre _ _ Hinv))) as (n & b & Hh).
  assert (latest root_id st = (Ok (b_latest b), st)) as Hlat.
  { pose proof (h_node _ _ _ _ Hh) as Hn. rewrite (ci_root _ _ Hinv) in Hn. unfold latest.
    rewrite (M_bind_eq _ _ _ n st) by (unfold get_node; by rewrite Hn).
    by rewrite (M_bind_eq _ _ _ b st) by (unfold lift; by rewrite (h_branch _ _ _ _ Hh)). }
  unfold demo_tree. rewrite Hst, Hlat. apply (reach_init (H := demo_env) demo_inst None); [apply demo_data_ok|done|done].
Qed.

Definition demo_cmd : cmd := CUpdate "/devices/1" (MDevice (with_vlan 99 (bare dev1))) false.

Lemma config_step_witness :
  ∃ r st', run_cmd demo_cmd demo_st = (Ok r, st') ∧
    t_cmd demo_st demo_cmd demo_tree = Ok (abs r) ∧ reachable st' (abs r).
Proof.
  pose proof (config_step demo_st demo_tree demo_cmd demo_reachable I) as Hs.
  destruct (t_cmd demo_st demo_cmd demo_tree) as [t'|e] eqn:Hspec.
  - destruct Hs as (r & st' & Hrun & Habs & Hre). rewrite <- Habs in Hre |- *.
    exists r, st'. exact (conj Hrun (conj eq_refl Hre)).
  - exfalso. revert Hspec. vm_compute. discriminate.
Defined.

Lemma config_reads_witness :
  get demo_st 0 "/devices/2" None 0 None =
  t_get (st_nodes demo_st) 0 demo_tree "devices/2".
Proof.
  apply (config_reads demo_st demo_tree demo_tree "/devices/2" 0 demo_reachable).
  constructor.
Defined.

Lemma config_children_wf_witness :
  ∃ l, od_get "devices" (t_children demo_tree) = Some l ∧
    ∀ k, Some "id" = Some k → NoDup (map (λ c, getattr (t_data c) k) l).
Proof.
  destruct (config_children_wf demo_st demo_tree demo_tree "devices"
    (mk_child_type "device_pb2" "Device" true (Some "id") (λ s, Ok (AStr s)))
    demo_reachable) as (l & Hl & Hnd); [constructor|vm_compute; reflexivity|].
  exists l. split; [exact Hl|exact Hnd].
Defined.

Definition no_proxies (st : store) : bool :=
  forallb (λ kv : nat * node, match n_proxy kv.2 with None => true | Some _ => false end)
    (map_to_list (st_nodes st)).
Lemma no_proxies_ok st : no_proxies st = true → no_get_callbacks st.
Proof.
  intros Hall nid n px Hn Hpx. unfold no_proxies in Hall. rewrite forallb_forall in Hall.
  specialize (Hall (nid, n)). cbn in Hall. rewrite Hpx in Hall.
  assert (false = true); [|done]. apply Hall, list_elem_of_In. by apply elem_of_map_to_list.
Qed.

Lemma read_after_update_witness : ∃ r st',
  run_cmd demo_cmd demo_st = (Ok r, st') ∧
  get st' root_id "/devices/1" None 0 None = Ok (One (MDevice (with_vlan 99 (bare dev1)))).
Proof.
  destruct (run_cmd demo_cmd demo_st) as [[r|e] st'] eqn:Hrun.
  - exists r, st'. split; [reflexivity|].
    apply (read_after_update demo_st demo_tree "/devices/1" _ false r st' demo_reachable);
      [reflexivity|exact Hrun|].
    apply no_proxies_ok. assert (st' = (run_cmd demo_cmd demo_st).2) as -> by (by rewrite Hrun).
    vm_compute. reflexivity.
  - exfalso. assert ((run_cmd demo_cmd demo_st).1 = Raise e) as He by (by rewrite Hrun).
    revert He. vm_compute. discriminate.
Defined.

(** An update that is refused because the message has another key: the update
    raises, the node of the device reads the refused message, and the root still
    reads the old one. *)
Example refused_key_change :
  let '(res, st') := root_update "/devices/1" (MDevice (mk_device "9" 10 [] None)) false None demo_st in
  res = Raise ValueError ∧
  get st' 1 "/" None 0 None = Ok (One (MDevice (mk_device "9" 10 [] None))) ∧
  get st' root_id "/devices/1" None 0 None = Ok (One (MDevice (bare dev1))) ∧
  cmd_rekeys demo_st (CUpdate "/devices/1" (MDevice (mk_device "9" 10 [] None)) false) demo_tree = true.
Proof. vm_compute. split_and!; reflexivity. Qed.
