(* ===== verification/ConfigLoad.v ===== *)
(** * Loading a persisted configuration (config_rev_persisted.py, config_root.py)

    A revision is kept under its hash as the hash of its data and the hashes of
    its children; loading makes a node per revision, from the leaves up.  The
    loaded tree has the content and the hashes of the tree that was stored. *)

From stdpp Require Import prelude strings gmap list.
From S2P Require Import Prelude ConfigRev ConfigStore ConfigNode Merge3way ConfigRoot ConfigDemo ConfigIsolation ConfigTree ConfigUpdate ConfigAdd ConfigSpec.

Section load.
Context `{Env, !Callbacks, !PostCallbacks}.

(** [tmp_cls_loader]: a class by its module and name *)
Definition loader_modules : list string :=
  ["voltha_pb2"; "health_pb2"; "adapter_pb2"; "logical_device_pb2"; "device_pb2"; "openflow_13_pb2"].
Definition tmp_cls_loader (module_name cls_name : string) : result string :=
  if bool_decide (module_name ∈ loader_modules) then Ok cls_name else Raise KeyError.

(** [PersistedConfigRevision.load_config]; an entry that is no message does not parse *)
Definition load_config (kv : gmap hash blob) (config_hash : hash) : result msg :=
  match kv !! config_hash with
  | Some (BData data) => Ok data
  | Some (BRev _ _) => Raise GenericException
  | None => Raise KeyError
  end.
Definition load_blob (kv : gmap hash blob) (h : hash) : result (list (string * list hash) * hash) :=
  match kv !! h with
  | Some (BRev children config) => Ok (children, config)
  | Some (BData _) => Raise ValueError
  | None => Raise KeyError
  end.

(** The loops of [PersistedConfigRevision.load], which makes and loads a child
    node by the argument [child] *)
Fixpoint load_list (child : string → hash → M store rev) (cls : string) (hashes : list hash) :
    M store (list rev) :=
  match hashes with
  | [] => mret []
  | h :: hashes => r ← child cls h; l ← load_list child cls hashes; mret (r :: l)
  end.
Fixpoint load_fields (child : string → hash → M store rev) (fields : list (string * child_type))
    (children_list : list (string * list hash)) (assembled : list (string * list rev)) :
    M store (list (string * list rev)) :=
  match fields with
  | [] => mret assembled
  | (field_name, meta) :: fields =>
      child_msg_cls ← lift (tmp_cls_loader (ct_module meta) (ct_type meta));
      hashes ← lift (of_option KeyError (od_get field_name children_list));
      l ← load_list child child_msg_cls hashes;
      load_fields child fields children_list (od_set field_name l assembled)
  end.
Definition load (child : string → hash → M store rev) (br : branch_ref) (msg_cls : string) (h : hash) :
    M store rev :=
  st ← get_state;
  kv ← lift (of_option TypeError (st_kv st));
  data ← lift (load_blob kv h);
  config_data ← lift (load_config kv data.2);
  fields ← lift (children_fields msg_cls);
  assembled ← load_fields child fields data.1 [];
  mkrev br config_data assembled.

(** [ConfigNode.load_latest].  The branch gets the flag [auto_prune] where its
    constructor expects the transaction id: [mark] stands for that value, which
    is no transaction's id and not [None] either, so that [_make_latest] only
    writes to the branch. *)
Fixpoint load_latest (fuel : nat) (mark : txid) (nid : node_id) (latest_hash : hash) : M store unit :=
  match fuel with
  | 0 => raise OutOfFuel
  | S fuel =>
      n ← get_node nid;
      r ← load (λ cls h, c ← alloc_node cls; _ ← load_latest fuel mark c h; latest c)
            (mk_branch_ref nid (Some mark)) (n_type n) latest_hash;
      n ← get_node nid;
      put_node nid (set_branch None (mk_branch (Some mark) None {[r_hash r := r]} r) n)
  end.

Definition set_loading (b : bool) (st : store) : store :=
  mk_store (st_nodes st) (st_next_node st) (st_next_rev st) (st_next_tx st)
    (st_cache st) (st_dirty st) (st_queue st) (st_kv st) (st_root_blob st) b (st_fake st).

(** [ConfigRoot.load_from_persistence] *)
Definition load_from_persistence (fuel : nat) : M store unit :=
  _ ← modify (set_loading true);
  st ← get_state;
  root_data ← lift (of_option KeyError (st_root_blob st));
  mark ← fresh_txid;
  _ ← (match root_data.2 with [] => mret tt | _ => raise NotImplementedError end);
  _ ← load_latest fuel mark root_id root_data.1;
  modify (set_loading false).

(** [ConfigRoot.load]: a root on a fake store, which the real one then replaces;
    the revisions made so far keep the fake one *)
Definition load_root (fuel : nat) (initial : msg) (kv : gmap hash blob)
    (root_blob : option (hash * list (string * hash))) : M store unit :=
  _ ← new_root initial;
  _ ← modify (λ st, set_root_blob root_blob
        (mk_store (st_nodes st) (st_next_node st) (st_next_rev st) (st_next_tx st) (st_cache st)
           (st_dirty st) (st_queue st) (Some kv) (st_root_blob st) (st_loading st) (set_seq 0 (st_next_rev st))));
  load_from_persistence fuel.

(** ** What is stored, and what is the same *)

Fixpoint rheight (r : rev) : nat :=
  match r with
  | Rev _ _ _ ch _ =>
      S (foldr (λ fl n, foldr (λ x m, rheight x `max` m) 0 fl.2 `max` n) 0 ch)
  end.

Definition hashes_of (ch : list (string * list rev)) : list (string * list hash) :=
  (λ fl : string * list rev, (fl.1, map r_hash fl.2)) <$> ch.

(** The key-value store holds the revision [r] and everything below it; its
    children are those of its message type, in that order. *)
Inductive stored (kv : gmap hash blob) : rev → Prop :=
  | stored_intro i b c ch h fields :
      kv !! h = Some (BRev (hashes_of ch) (c_hash c)) →
      kv !! c_hash c = Some (BData (c_data c)) →
      children_fields (msg_type (c_data c)) = Ok fields →
      Forall2 (λ f fl, f.1 = fl.1 ∧ ct_module f.2 ∈ loader_modules ∧
                       Forall (λ x, msg_type (r_data x) = ct_type f.2) fl.2) fields ch →
      NoDup (od_keys fields) →
      (∀ f l x, (f, l) ∈ ch → x ∈ l → stored kv x) →
      stored kv (Rev i b c ch h).

(** A tree without its nodes *)
Fixpoint content (t : tree) : tree :=
  match t with T _ d ch => T 0 d (map (λ fl, (fl.1, map content fl.2)) ch) end.

Lemma content_eq n d ch : content (T n d ch) = T 0 d (map (λ fl, (fl.1, map content fl.2)) ch).
Proof. done. Qed.

(** The node of every message of a tree has it as its latest one, on a branch
    with the id [mark]. *)
Inductive kept_tree (mark : txid) (ns : gmap node_id node) : tree → Prop :=
  | kept_tree_intro nid d ch n b :
      ns !! nid = Some n → n_type n = msg_type d → n_branches n !! None = Some b →
      b_txid b = Some mark → abs (b_latest b) = T nid d ch →
      (∀ f l x, (f, l) ∈ ch → x ∈ l → kept_tree mark ns x) →
      kept_tree mark ns (T nid d ch).

Lemma kept_tree_frame mark ns ns' t : kept_tree mark ns t →
  (∀ m, m ∈ tree_nodes t → ns' !! m = ns !! m) → kept_tree mark ns' t.
Proof.
  induction 1 as [nid d ch n b Hn Hty Hb Htx Habs Hch IH]. intros Hns. rewrite tree_nodes_eq in Hns.
  econstructor; [by rewrite Hns by left|done|done|done|done|].
  intros f l x Hf Hx. apply (IH f l x Hf Hx). intros m Hm. apply Hns. right. by eapply children_nodes_elem.
Qed.

(** The trees [l] were loaded between [st] and [st'], into new nodes. *)
Record grown (mark : txid) (st st' : store) (l : list tree) : Prop := mk_grown {
  gr_kept x : x ∈ l → kept_tree mark (st_nodes st') x;
  gr_nodup : NoDup (list_nodes l);
  gr_range m : m ∈ list_nodes l → st_next_node st ≤ m < st_next_node st';
  gr_frame m : m < st_next_node st → st_nodes st' !! m = st_nodes st !! m;
  gr_cache : cache_ok st';
  gr_next : st_next_node st ≤ st_next_node st';
  gr_kv : st_kv st' = st_kv st;
  gr_loading : st_loading st' = st_loading st;
  gr_blob : st_root_blob st' = st_root_blob st;
}.

Lemma grown_nil mark st : cache_ok st → grown mark st st [].
Proof.
  intros Hc. split; try done; [by intros x ?%not_elem_of_nil|constructor|by intros m ?%not_elem_of_nil].
Qed.
Lemma grown_app mark st st1 st2 l k : grown mark st st1 l → grown mark st1 st2 k → grown mark st st2 (l ++ k).
Proof.
  intros [K1 N1 R1 F1 C1 X1 V1 L1 B1] [K2 N2 R2 F2 C2 X2 V2 L2 B2]. split; try done; try congruence; try lia.
  - intros x [Hx|Hx]%elem_of_app; [|by apply K2]. apply (kept_tree_frame mark (st_nodes st1)); [by apply K1|].
    intros m Hm. apply F2. assert (m ∈ list_nodes l) as [_ ?]%R1 by (by eapply list_nodes_elem). done.
  - rewrite list_nodes_app. apply NoDup_app. split_and!; [done| |done].
    intros m Hm1%R1 Hm2%R2. lia.
  - intros m. rewrite list_nodes_app, elem_of_app. intros [Hm%R1|Hm%R2]; lia.
  - intros m Hm. rewrite F2 by lia. by apply F1.
Qed.

Context `{!NoCollisions}.

(** [r'] has the content and the hash of [r]. *)
Record same_rev (r r' : rev) : Prop := mk_same {
  sr_content : content (abs r') = content (abs r);
  sr_hash : r_hash r' = r_hash r;
}.
Definition same_fields (fl fl' : string * list rev) : Prop := fl.1 = fl'.1 ∧ Forall2 same_rev fl.2 fl'.2.
Definition trees_of (ch : list (string * list rev)) : list tree := concat (map (λ fl, map abs fl.2) ch).

(** A child that loads: [child] makes a node for the revision [x]. *)
Definition loads (mark : txid) (kv : gmap hash blob) (child : string → hash → M store rev) (x : rev) : Prop :=
  ∀ st, st_kv st = Some kv → st_loading st = true → cache_ok st →
  ∃ r' st', child (msg_type (r_data x)) (r_hash x) st = (Ok r', st') ∧ same_rev x r' ∧
    grown mark st st' [abs r'].

Section loops.
Context (mark : txid) (kv : gmap hash blob) (child : string → hash → M store rev).

Lemma load_list_ok cls l st : Forall (λ x, msg_type (r_data x) = cls ∧ loads mark kv child x) l →
  st_kv st = Some kv → st_loading st = true → cache_ok st →
  ∃ l' st', load_list child cls (map r_hash l) st = (Ok l', st') ∧ Forall2 same_rev l l' ∧
    grown mark st st' (map abs l').
Proof.
  intros Hl. revert st. induction Hl as [|x l [Hty Hx] Hl IH]; intros st Hkv Hld Hc.
  - exists [], st. split_and!; [done|constructor|by apply grown_nil].
  - cbn [map load_list]. destruct (Hx st Hkv Hld Hc) as (r & st1 & Hrun & Hs & Hg).
    destruct (IH st1) as (l' & st2 & Hrun' & Hs' & Hg'); [by rewrite (gr_kv _ _ _ _ Hg)|
      by rewrite (gr_loading _ _ _ _ Hg)|apply Hg|].
    exists (r :: l'), st2. rewrite <- Hty in Hrun' |- *. erewrite M_bind_eq by exact Hrun.
    erewrite M_bind_eq by exact Hrun'. split_and!; [done|by constructor|].
    exact (grown_app _ _ _ _ [abs r] _ Hg Hg').
Qed.

Lemma load_fields_ok all fields ch assembled st :
  Forall2 (λ f fl, f.1 = fl.1 ∧ ct_module f.2 ∈ loader_modules ∧
                   Forall (λ x, msg_type (r_data x) = ct_type f.2) fl.2) fields ch →
  (∀ f l, (f, l) ∈ ch → od_get f (hashes_of all) = Some (map r_hash l)) →
  (∀ f l x, (f, l) ∈ ch → x ∈ l → loads mark kv child x) →
  NoDup (od_keys assembled ++ od_keys fields) →
  st_kv st = Some kv → st_loading st = true → cache_ok st →
  ∃ ch' st', load_fields child fields (hashes_of all) assembled st = (Ok (assembled ++ ch'), st') ∧
    Forall2 same_fields ch ch' ∧ grown mark st st' (trees_of ch').
Proof.
  intros Hf. revert assembled st. induction Hf as [|[name field] [name' l] fields ch (Hn & Hmod & Hty) Hf IH];
    intros assembled st Hget Hloads Hnd Hkv Hld Hc.
  - exists [], st. rewrite app_nil_r. split_and!; [done|constructor|by apply grown_nil].
  - cbn in Hn, Hmod, Hty. subst name'. cbn [load_fields]. unfold tmp_cls_loader. rewrite bool_decide_true by done.
    erewrite M_bind_eq by reflexivity. rewrite (Hget name l) by left. erewrite M_bind_eq by reflexivity.
    destruct (load_list_ok (ct_type field) l st) as (l' & st1 & Hrun & Hs & Hg); [|done|done|done|].
    { rewrite Forall_forall in Hty |- *. intros x Hx. split; [by apply Hty|]. apply (Hloads name l x); [left|done]. }
    erewrite M_bind_eq by exact Hrun.
    assert (name ∉ od_keys assembled) as Hni.
    { intros Hin. apply NoDup_app in Hnd as (_ & Hdis & _). apply (Hdis name Hin). left. }
    rewrite od_set_notin by done.
    destruct (IH (assembled ++ [(name, l')]) st1) as (ch' & st2 & Hrun' & Hs' & Hg').
    + intros f k Hin. apply Hget. by right.
    + intros f k x Hin. apply (Hloads f k). by right.
    + unfold od_keys in *. rewrite fmap_app. cbn in *. by rewrite <- app_assoc.
    + by rewrite (gr_kv _ _ _ _ Hg).
    + by rewrite (gr_loading _ _ _ _ Hg).
    + apply Hg.
    + exists ((name, l') :: ch'), st2. rewrite Hrun', <- app_assoc. split_and!; [done|by constructor|].
      exact (grown_app _ _ _ _ (map abs l') (trees_of ch') Hg Hg').
Qed.
End loops.

Lemma rheight_child i b c ch h f l x : (f, l) ∈ ch → x ∈ l → S (rheight x) ≤ rheight (Rev i b c ch h).
Proof.
  intros Hf Hx. cbn [rheight]. apply le_n_S. induction ch as [|[g k] ch IH]; [by apply not_elem_of_nil in Hf|].
  cbn [foldr snd]. apply elem_of_cons in Hf as [[= <- <-]|Hf]; [|specialize (IH Hf); lia].
  enough (rheight x ≤ foldr (λ x m, rheight x `max` m) 0 l) by lia. clear IH.
  induction l as [|y l IHl]; [by apply not_elem_of_nil in Hx|]. cbn [foldr].
  apply elem_of_cons in Hx as [<-|Hx]; [lia|specialize (IHl Hx); lia].
Qed.

(** Loading writes nothing to the key-value store. *)
Lemma finalize_loading br c ch st : st_loading st = true → cache_ok st → c_hash c = md5_data (c_data c) →
  ∃ st', finalize None br c ch st = (Ok (Rev (st_next_rev st) br c ch (hash_content c ch)), st') ∧
    st_nodes st' = st_nodes st ∧ st_next_node st' = st_next_node st ∧ cache_ok st' ∧
    st_kv st' = st_kv st ∧ st_loading st' = st_loading st ∧ st_root_blob st' = st_root_blob st.
Proof.
  intros Hl Hc Hh. destruct (finalize_eq None br c ch st Hc Hh) as (st' & Hf & Hn & Hx & Hc').
  exists st'. assert (st' = (finalize None br c ch st).2) as -> by (by rewrite Hf).
  split_and!; try done. unfold finalize. cbn. by rewrite Hl.
Qed.

Lemma same_hashes ch ch' : Forall2 same_fields ch ch' →
  map (λ fl : string * list rev, map r_hash fl.2) ch' = map (λ fl : string * list rev, map r_hash fl.2) ch.
Proof.
  induction 1 as [|fl fl' ch ch' [_ Hl] _ IH]; [done|]. cbn. rewrite IH. f_equal.
  induction Hl as [|x x' l l' [_ Hh] _ IHl]; [done|]. cbn. by rewrite Hh, IHl.
Qed.
Lemma same_contents ch ch' : Forall2 same_fields ch ch' →
  map (λ fl, (fl.1, map content fl.2)) (abs_children ch') = map (λ fl, (fl.1, map content fl.2)) (abs_children ch).
Proof.
  induction 1 as [|fl fl' ch ch' [Hn Hl] _ IH]; [done|]. unfold abs_children in *. cbn. rewrite IH, Hn. do 2 f_equal.
  induction Hl as [|x x' l l' [Hc _] _ IHl]; [done|]. cbn. by rewrite Hc, IHl.
Qed.
Lemma children_nodes_trees ch : children_nodes (abs_children ch) = list_nodes (trees_of ch).
Proof.
  induction ch as [|[f l] ch IH]; [done|]. change (trees_of ((f, l) :: ch)) with (map abs l ++ trees_of ch).
  rewrite list_nodes_app, <- IH. done.
Qed.

(** The outcome of loading a node *)
Record node_loaded (mark : txid) (st : store) (nid : node_id) (st' : store) (r' : rev) : Prop := {
  nl_latest : latest nid st' = (Ok r', st');
  nl_kept : kept_tree mark (st_nodes st') (abs r');
  nl_nodup : NoDup (tree_nodes (abs r'));
  nl_node : r_node r' = nid;
  nl_range m : m ∈ tree_nodes (abs r') → m = nid ∨ st_next_node st ≤ m < st_next_node st';
  nl_frame m : m ≠ nid → m < st_next_node st → st_nodes st' !! m = st_nodes st !! m;
  nl_cache : cache_ok st';
  nl_next : st_next_node st ≤ st_next_node st';
  nl_kv : st_kv st' = st_kv st;
  nl_loading : st_loading st' = st_loading st;
  nl_blob : st_root_blob st' = st_root_blob st;
}.

Definition node_loads (mark : txid) (kv : gmap hash blob) (r : rev) : Prop := ∀ fuel st nid n,
  rheight r ≤ fuel → st_kv st = Some kv → st_loading st = true → cache_ok st →
  st_nodes st !! nid = Some n → n_type n = msg_type (r_data r) → nid < st_next_node st →
  ∃ r' st', load_latest fuel mark nid (r_hash r) st = (Ok tt, st') ∧ same_rev r r' ∧
    node_loaded mark st nid st' r'.

(** A child is loaded into the node made for it. *)
Lemma child_loads mark kv fuel x : node_loads mark kv x → rheight x ≤ fuel →
  loads mark kv (λ cls h, c ← alloc_node cls; _ ← load_latest fuel mark c h; latest c) x.
Proof.
  intros Hx Hh st Hkv Hld Hc. set (cls := msg_type (r_data x)). set (st1 := (alloc_node cls st).2).
  destruct (Hx fuel st1 (st_next_node st) (mk_node cls ∅ ∅ None)) as (r' & st2 & Hrun & Hs & Hpost);
    [done|done|done|done|apply lookup_insert_eq|done|cbn; lia|].
  destruct Hpost as [Hlat Hkept Hnd Hnode Hran Hfr Hc' Hnx Hk Hl Hb].
  exists r', st2. split_and!; [|done|].
  { erewrite (M_bind_eq _ _ _ _ st1) by reflexivity. by erewrite M_bind_eq by exact Hrun. }
  cbn in Hran, Hfr, Hnx. split; try done; unfold list_nodes; cbn [map concat]; rewrite ?app_nil_r.
  - by intros t ->%list_elem_of_singleton.
  - done.
  - intros m [->|?]%Hran; lia.
  - intros m Hm. rewrite Hfr by lia. apply lookup_insert_ne. lia.
  - lia.
Qed.

Lemma load_node_ok mark kv r : stored kv r → rev_ok r → node_loads mark kv r.
Proof.
  induction r as [i b c ch h IH] using rev_ind'. intros Hst Hok.
  inversion Hst as [? ? ? ? ? fields Hblob Hdata Hfields Hshape Hnd Hbelow]; subst.
  inversion Hok as [? ? ? ? ? Hch Hh Hoks]; subst.
  intros [|fuel] st nid n Hfuel Hkv Hld Hc Hn Hty Hlt; [cbn in Hfuel; lia|].
  set (child := λ cls h, c ← alloc_node cls; _ ← load_latest fuel mark c h; latest c).
  assert (∀ f l, (f, l) ∈ ch → od_get f (hashes_of ch) = Some (map r_hash l)) as Hget.
  { intros f l Hin. apply od_get_elem; [|by apply (list_elem_of_fmap_2 (λ fl : string * list rev, (fl.1, map r_hash fl.2)) ch (f, l))].
    assert (od_keys (hashes_of ch) = od_keys fields) as ->; [|done]. unfold od_keys, hashes_of in *.
    clear -Hshape. induction Hshape as [|f fl fields ch [Hn _] _ IHs]; [done|]. cbn. by rewrite Hn, IHs. }
  destruct (load_fields_ok mark kv child ch fields ch [] st) as (ch' & st1 & Hrun & Hsame & Hg);
    [done|done| |done|done|done|done|].
  { intros f l x Hf Hx. apply child_loads; [apply (IH f l x Hf Hx); [by eapply Hbelow|by eapply Hoks]|].
    pose proof (rheight_child i b c ch (hash_content c ch) f l x Hf Hx). lia. }
  cbn [app] in Hrun. destruct Hg as [Gk Gn Gr Gf Gc Gx Gkv Gl Gb].
  destruct (finalize_loading (mk_branch_ref nid (Some mark)) c ch' st1)
    as (st2 & Hfin & Fn & Fx & Fc & Fkv & Fl & Fb); [by rewrite Gl|done|done|].
  set (r' := Rev _ _ _ _ _) in Hfin.
  assert (st_nodes st2 !! nid = Some n) as Hn2 by (rewrite Fn, Gf; done).
  set (n' := set_branch None (mk_branch (Some mark) None {[r_hash r' := r']} r') n).
  set (st3 := upd_nodes (<[nid := n']>) st2).
  assert (same_rev (Rev i b c ch (hash_content c ch)) r') as Hsr.
  { split.
    - rewrite !abs_eq, !content_eq. unfold r_data. cbn [r_config r_children r']. f_equal. by apply same_contents.
    - cbn. unfold hash_content. by rewrite (same_hashes _ _ Hsame). }
  assert (tree_nodes (abs r') = nid :: list_nodes (trees_of ch')) as Hnodes.
  { rewrite abs_eq, tree_nodes_eq. by rewrite children_nodes_trees. }
  assert (nid ∉ list_nodes (trees_of ch')) as Hni by (intros ?%Gr; lia).
  exists r', st3. split; [|split; [done|]].
  - cbn [load_latest]. erewrite (M_bind_eq _ _ st n st) by (unfold get_node; by rewrite Hn).
    erewrite (M_bind_eq _ _ st r' st2).
    2: { unfold load. rewrite (M_bind_eq get_state _ st st st eq_refl), Hkv.
         erewrite M_bind_eq by reflexivity. unfold load_blob. cbn [r_hash]. rewrite Hblob. erewrite M_bind_eq by reflexivity.
         unfold load_config. cbn [snd]. rewrite Hdata. erewrite M_bind_eq by reflexivity.
         rewrite Hty. unfold r_data. cbn [r_config]. rewrite Hfields. erewrite M_bind_eq by reflexivity.
         cbn [fst]. fold child. erewrite M_bind_eq by exact Hrun. unfold mkrev, ConfigDataRevision.
         rewrite <- Hch. destruct c. exact Hfin. }
    erewrite (M_bind_eq _ _ st2 n st2) by (unfold get_node; by rewrite Hn2). done.
  - split; rewrite ?Hnodes; try done.
    + unfold latest. erewrite (M_bind_eq _ _ st3 n' st3) by (unfold get_node, st3; cbn; by rewrite lookup_insert_eq).
      erewrite M_bind_eq by (cbn; by rewrite lookup_insert_eq). done.
    + rewrite abs_eq. econstructor; [apply lookup_insert_eq|exact Hty|apply lookup_insert_eq|done|apply abs_eq|].
      intros f l x Hf Hx. unfold st3. cbn. rewrite Fn.
      assert (x ∈ trees_of ch') as Hin.
      { unfold abs_children in Hf. apply list_elem_of_In, in_map_iff in Hf as ([f' l'] & Heq & Hf). injection Heq as <- <-.
        unfold trees_of. apply list_elem_of_In, in_concat. exists (map abs l'). split; [|by apply list_elem_of_In].
        apply in_map_iff. by exists (f', l'). }
      apply (kept_tree_frame mark (st_nodes st1)); [by apply Gk|]. intros m Hm.
      apply lookup_insert_ne. intros <-. apply Hni. by eapply list_nodes_elem.
    + by constructor.
    + intros m [->|Hm%Gr]%elem_of_cons; [by left|right]. cbn. lia.
    + intros m Hne Hm. unfold st3. cbn. rewrite lookup_insert_ne by done. by rewrite Fn, Gf.
    + cbn. lia.
    + cbn. congruence.
    + cbn. congruence.
    + cbn. congruence.
Qed.

(** ** Reading a loaded tree *)

Lemma t_msg_content depth r : t_msg depth (content (abs r)) = t_msg depth (abs r).
Proof.
  revert depth. induction r as [i b c ch h IH] using rev_ind'. intros depth.
  rewrite abs_eq, content_eq. cbn [t_msg]. case_bool_decide; [done|].
  assert (map (λ fl, (fl.1, map (t_msg (depth - 1)) fl.2))
            (map (λ fl, (fl.1, map content fl.2)) (abs_children ch)) =
          map (λ fl, (fl.1, map (t_msg (depth - 1)) fl.2)) (abs_children ch)) as Hmap.
  { unfold abs_children. rewrite !map_map. apply map_ext_in. intros [f l] Hf. cbn. f_equal.
    rewrite !map_map. apply map_ext_in. intros x Hx. apply (IH f l); by apply list_elem_of_In. }
  unfold r_data. cbn [r_config r_children]. by rewrite Hmap.
Qed.
Lemma same_rev_get r r' depth : same_rev r r' → rev_get depth r' = rev_get depth r.
Proof. intros [Hc _]. by rewrite !rev_get_abs, <- (t_msg_content depth r'), Hc, t_msg_content. Qed.

(** A decision procedure for [stored] and [rev_ok], for concrete stores *)
Definition blob_eqb (b : option blob) (ch : list (string * list hash)) (c : hash) : bool :=
  match b with Some (BRev ch' c') => bool_decide (ch' = ch) && bool_decide (c' = c) | _ => false end.
Definition data_eqb (b : option blob) (d : msg) : bool :=
  match b with Some (BData d') => bool_decide (d' = d) | _ => false end.
Fixpoint shapeb (fields : list (string * child_type)) (ch : list (string * list rev)) : bool :=
  match fields, ch with
  | [], [] => true
  | f :: fields, fl :: ch =>
      bool_decide (f.1 = fl.1) && bool_decide (ct_module f.2 ∈ loader_modules) &&
      forallb (λ x, bool_decide (msg_type (r_data x) = ct_type f.2)) fl.2 && shapeb fields ch
  | _, _ => false
  end.
Fixpoint storedb (fuel : nat) (kv : gmap hash blob) (r : rev) : bool :=
  match fuel with
  | 0 => false
  | S fuel =>
      let 'Rev _ _ c ch h := r in
      blob_eqb (kv !! h) (hashes_of ch) (c_hash c) && data_eqb (kv !! c_hash c) (c_data c) &&
      bool_decide (c_hash c = md5_data (c_data c)) && bool_decide (h = hash_content c ch) &&
      match children_fields (msg_type (c_data c)) with
      | Ok fields => shapeb fields ch && bool_decide (NoDup (od_keys fields))
      | Raise _ => false
      end && forallb (λ fl, forallb (storedb fuel kv) fl.2) ch
  end.
Lemma shapeb_ok fields ch : shapeb fields ch = true →
  Forall2 (λ f fl, f.1 = fl.1 ∧ ct_module f.2 ∈ loader_modules ∧
                   Forall (λ x, msg_type (r_data x) = ct_type f.2) fl.2) fields ch.
Proof.
  revert ch. induction fields as [|f fields IH]; intros [|fl ch]; try done. cbn [shapeb].
  intros [[[Hn Hm]%andb_prop Hl]%andb_prop Hs]%andb_prop. constructor; [|by apply IH].
  split_and!; [by apply bool_decide_eq_true in Hn|by apply bool_decide_eq_true in Hm|].
  apply Forall_forall. intros x Hx. rewrite forallb_forall in Hl. apply list_elem_of_In, Hl in Hx.
  by apply bool_decide_eq_true in Hx.
Qed.
Lemma storedb_ok fuel kv r : storedb fuel kv r = true → stored kv r ∧ rev_ok r.
Proof.
  revert r. induction fuel as [|fuel IH]; intros [i b c ch h]; [done|]. cbn [storedb].
  intros [[[[[Hb Hd]%andb_prop Hc]%andb_prop Hh]%andb_prop Hf]%andb_prop Hch]%andb_prop.
  assert (∀ f l x, (f, l) ∈ ch → x ∈ l → stored kv x ∧ rev_ok x) as Hkids.
  { intros f l x Hfl Hx. apply IH. rewrite forallb_forall in Hch. specialize (Hch (f, l)).
    apply list_elem_of_In, Hch in Hfl. cbn in Hfl. rewrite forallb_forall in Hfl. by apply Hfl, list_elem_of_In. }
  apply bool_decide_eq_true in Hc, Hh.
  destruct (children_fields _) as [fields|e] eqn:Hfields; [|done]. apply andb_prop in Hf as [Hs%shapeb_ok Hnd].
  unfold blob_eqb in Hb. unfold data_eqb in Hd.
  destruct (kv !! h) as [[ch' c'|]|] eqn:Hkh; [|done|done].
  destruct (kv !! c_hash c) as [[|d']|] eqn:Hkc; [done| |done].
  apply andb_prop in Hb as [->%bool_decide_eq_true ->%bool_decide_eq_true]. apply bool_decide_eq_true in Hd as ->.
  split; [|constructor; [done|done|]; intros; by eapply Hkids].
  econstructor; [done|done|done|done|by apply bool_decide_eq_true in Hnd|]. intros; by eapply Hkids.
Qed.

Context `{!Proto, !Passive}.

(** C16: a persisted configuration is loaded as it was stored.  Whenever the
    key-value store holds the revision [r], everything below it and its hash as
    the root's latest one (without tags), a new root that is loaded from it ends
    loading without an exception, and its latest revision has the hash of [r] and
    reads like [r] to every depth.  Every message of the tree lives in a node of
    its own that has it as its latest one, and loading leaves the key-value
    store as it was. *)
Theorem persisted_tree_loads (r : rev) (kv : gmap hash blob) (initial : msg) (fuel : nat) :
  stored kv r → rev_ok r → data_ok initial → msg_type initial = msg_type (r_data r) → rheight r ≤ fuel →
  ∃ st' r' mark,
    load_root fuel initial kv (Some (r_hash r, [])) (empty_store (Some ∅)) = (Ok tt, st') ∧
    latest root_id st' = (Ok r', st') ∧
    r_hash r' = r_hash r ∧ (∀ depth, rev_get depth r' = rev_get depth r) ∧
    kept_tree mark (st_nodes st') (abs r') ∧ NoDup (tree_nodes (abs r')) ∧
    st_kv st' = Some kv ∧ st_root_blob st' = Some (r_hash r, []) ∧ st_loading st' = false.
Proof.
  intros Hst Hok Hinit Hty Hfuel.
  destruct (new_root_inv initial (Some ∅) Hinit) as (st & t & Hnew & [Hpre Hroot Hq] & Hrep).
  destruct (coh_holds _ _ (pre_coh _ _ Hpre)) as (n & b & [Hn Hnt _ _ _ _ _]).
  assert (t_node t < st_next_node st) as Hlt.
  { apply (pre_fresh _ _ Hpre). destruct t. rewrite tree_nodes_eq. left. }
  rewrite Hroot in Hn, Hlt.
  set (st1 := mk_store (st_nodes st) (st_next_node st) (st_next_rev st) (S (st_next_tx st)) (st_cache st)
    (st_dirty st) (st_queue st) (Some kv) (Some (r_hash r, [])) true (set_seq 0 (st_next_rev st))).
  destruct (load_node_ok (st_next_tx st) kv r Hst Hok fuel st1 root_id n) as (r' & st2 & Hrun & Hs & Hl);
    [done|done|done|apply Hpre|done| |done|].
  { rewrite Hnt, <- Hty. destruct Hrep. apply clear_all_type. }
  destruct Hl as [Hlat Hkept Hnd Hnode Hran Hfr Hc Hnx Hkv Hld Hb].
  exists (set_loading false st2), r', (st_next_tx st). split_and!; try done; try (by apply Hs).
  - unfold load_root. erewrite M_bind_eq by exact Hnew. erewrite M_bind_eq by reflexivity.
    unfold load_from_persistence. do 2 erewrite M_bind_eq by reflexivity.
    do 3 erewrite M_bind_eq by reflexivity. cbn [fst]. by erewrite M_bind_eq by exact Hrun.
  - unfold latest in Hlat |- *. apply M_bind_Ok in Hlat as (n' & s' & Hn' & Hlat).
    unfold get_node in Hn'. destruct (st_nodes st2 !! root_id) as [m|] eqn:Hm; [|done]. injection Hn' as -> <-.
    erewrite (M_bind_eq _ _ _ n') by (unfold get_node; cbn; by rewrite Hm).
    destruct (n_branches n' !! None) as [br|]; [|done]. cbn in Hlat |- *. by injection Hlat as <-.
  - intros depth. by apply same_rev_get.
Qed.

End load.

(** ** A concrete store *)

(** A root with two devices is created over an empty key-value store, and one
    device is updated. *)
Definition kv_st : store := (run_cmd demo_cmd (new_root demo_inst (empty_store (Some ∅))).2).2.
Definition kv_rev : @rev demo_env :=
  match (latest root_id kv_st).1 with
  | Ok r => r
  | Raise _ => Rev 0 (mk_branch_ref 0 None) (ConfigDataRevision (demo_inst : @msg demo_env)) [] 1%positive
  end.
Definition kv_map : gmap (@hash demo_env) blob := default ∅ (st_kv kv_st).

Lemma persisted_tree_loads_witness :
  ∃ st' r' mark,
    load_root 4 demo_inst kv_map (Some (r_hash kv_rev, [])) (empty_store (Some ∅)) = (Ok tt, st') ∧
    latest root_id st' = (Ok r', st') ∧ (∀ depth, rev_get depth r' = rev_get depth kv_rev) ∧
    kept_tree mark (st_nodes st') (abs r').
Proof.
  assert (storedb 4 kv_map kv_rev = true) as [Hst Hok]%storedb_ok by (vm_compute; reflexivity).
  destruct (persisted_tree_loads kv_rev kv_map demo_inst 4 Hst Hok demo_data_ok)
    as (st' & r' & mark & Hrun & Hlat & _ & Hget & Hkept & _);
    [vm_compute; reflexivity | vm_compute; lia |].
  exists st', r', mark. exact (conj Hrun (conj Hlat (conj Hget Hkept))).
Defined.

(** What is written after loading is not persisted: the branch of the root does
    not count as the committed one, and the revisions made from the loaded ones
    go to the dictionaries those were made with. *)
Definition loaded_st : store :=
  (load_root 4 demo_inst kv_map (Some (r_hash kv_rev, [])) (empty_store (Some ∅))).2.
Definition later_cmd : cmd := CUpdate "/devices/2" (MDevice (with_vlan 7 (bare dev2))) false.
Example load_stops_persisting :
  let blob st := fst <$> st_root_blob st in
  let entries st := size <$> st_kv st in
  let succeeds st := match (run_cmd later_cmd st).1 with Ok _ => true | Raise _ => false end in
  let root_kept st := bool_decide (blob (run_cmd later_cmd st).2 = blob st) in
  let entries_kept st := bool_decide (entries (run_cmd later_cmd st).2 = entries st) in
  (succeeds kv_st, root_kept kv_st, entries_kept kv_st) = (true, false, false) ∧
  (succeeds loaded_st, root_kept loaded_st, entries_kept loaded_st) = (true, true, true).
Proof. split; vm_compute; reflexivity. Qed.
