(* ===== verification/MergeSpec.v ===== *)
(** * The three-way merge of keyed children, key by key (merge_3way.py)

    The merge of a keyed list of children walks over lists by index and changes
    a copy in place.  What it computes is a function of each key alone: the
    child with that key at the fork, in the transaction and in the committed
    tree.  The merge of the children themselves is a parameter. *)

From stdpp Require Import prelude strings gmap list sorting.
From S2P Require Import Prelude ConfigRev ConfigStore ConfigNode Merge3way ConfigRoot ConfigDemo.

(** ** Order of elements in a list *)

Section order.
Context {A : Type} `{EqDecision A}.
Implicit Types (l k : list A).

(** [x] stands before [y] in [k]. *)
Definition before (k : list A) (x y : A) : Prop := ∀ i j, k !! i = Some x → k !! j = Some y → i < j.

Lemma ss_suffix k p l : NoDup k → k = p ++ l → StronglySorted (before k) l.
Proof.
  intros Hnd. revert p. induction l as [|x l IH]; intros p ->; [constructor|].
  constructor; [apply (IH (p ++ [x])); by rewrite <- app_assoc|].
  apply Forall_forall. intros y Hy i j Hi Hj. apply list_elem_of_lookup in Hy as [m Hm].
  assert (i = length p) as ->.
  { apply (NoDup_lookup _ _ _ x Hnd); [done|]. by apply list_lookup_middle. }
  assert (j = length p + S m) as ->; [|lia].
  apply (NoDup_lookup _ _ _ y Hnd); [done|]. rewrite lookup_app_r by lia.
  by replace (length p + S m - length p) with (S m) by lia.
Qed.
Lemma ss_filter (R : relation A) (P : A → Prop) `{∀ x, Decision (P x)} l :
  StronglySorted R l → StronglySorted R (filter P l).
Proof.
  induction 1 as [|x l Hl IH Hx]; [constructor|]. rewrite filter_cons. case_decide; [|done].
  constructor; [done|]. rewrite Forall_forall in Hx |- *. intros y [_ Hy]%list_elem_of_filter. auto.
Qed.
Lemma ss_reverse (R : relation A) l : StronglySorted R l → StronglySorted (flip R) (reverse l).
Proof.
  induction 1 as [|x l Hl IH Hx]; [constructor|]. rewrite reverse_cons. apply StronglySorted_app_2; [|done|by repeat constructor].
  intros a b Ha ->%list_elem_of_singleton. rewrite Forall_forall in Hx. apply Hx. by apply elem_of_reverse.
Qed.

(** The elements that two lists share stand in the same order in both. *)
Definition same_order (l k : list A) : Prop := filter (λ x, x ∈ k) l = filter (λ x, x ∈ l) k.
Lemma same_order_before l k : NoDup k → same_order l k → StronglySorted (before k) l.
Proof.
  intros Hnd Ho. assert (StronglySorted (before k) (filter (λ x, x ∈ k) l)) as Hs.
  { rewrite Ho. apply ss_filter. by eapply (ss_suffix k []). }
  clear Ho. induction l as [|x l IH]; [constructor|]. rewrite filter_cons in Hs. case_decide as Hx.
  - apply StronglySorted_cons in Hs as [Hf Hs]. constructor; [by apply IH|].
    rewrite Forall_forall in Hf |- *. intros y Hy i j Hi Hj. apply (Hf y); [|done..].
    apply list_elem_of_filter. split; [by eapply list_elem_of_lookup_2|done].
  - constructor; [by apply IH|]. apply Forall_forall. intros y _ i j Hi. destruct Hx. by eapply list_elem_of_lookup_2.
Qed.
End order.

Section spec.
Context `{Env, !Callbacks}.

(** ** The specification *)

Section key.
Context (keyname : string).

Definition rkey (r : rev) : attr := getattr (r_data r) keyname.
Definition keys (l : list rev) : list attr := map rkey l.
Fixpoint by_key (k : attr) (l : list rev) : option rev :=
  match l with
  | [] => None
  | r :: l => if decide (rkey r = k) then Some r else by_key k l
  end.

(** The same on both sides: absent, or present with one hash *)
Definition unchanged (f s : option rev) : bool :=
  match f, s with
  | Some f, Some s => bool_decide (r_hash f = r_hash s)
  | None, None => true
  | _, _ => false
  end.

(** The child of the fork, of the source and of the destination collide: both
    sides changed it, differently, and not only in what is below it. *)
Definition conflict (f s d : option rev) : bool :=
  negb (unchanged f s) && negb (unchanged f d) && negb (unchanged s d) &&
  match f, s, d with
  | Some f, Some s, Some d => bool_decide (c_hash (r_config d) ≠ c_hash (r_config s))
  | _, _, _ => true
  end.

(** What the merged list has for a key.  The source did not change it: what the
    destination has.  The source removed it: nothing.  The source added or
    changed it: its child, merged, or the destination's equal one. *)
Definition outcome (R : rev → rev → Prop) (f s d o : option rev) : Prop :=
  if unchanged f s then unchanged d o
  else match s with
       | None => o = None
       | Some s' => (∃ o', o = Some o' ∧ R s' o') ∨ (unchanged s d ∧ o = d)
       end.

(** ** Lists with distinct keys *)

Lemma by_key_elem k l r : NoDup (keys l) → by_key k l = Some r ↔ r ∈ l ∧ rkey r = k.
Proof.
  unfold keys. induction l as [|x l IH]; cbn; intros Hnd.
  { split; [done|by intros [?%not_elem_of_nil _]]. }
  apply NoDup_cons in Hnd as [Hni Hnd]. case_decide as Hk.
  - split; [intros [= ->]; split; [left|done]|]. intros [[->|Hr]%elem_of_cons Hkr]; [done|].
    exfalso. apply Hni. rewrite Hk, <- Hkr. by apply (list_elem_of_fmap_2 rkey).
  - rewrite IH by done. split; intros [Hr Hkr]; (split; [|done]); [by right|].
    apply elem_of_cons in Hr as [->|Hr]; [by rewrite Hkr in Hk|done].
Qed.
Lemma by_key_None k l : by_key k l = None ↔ k ∉ keys l.
Proof.
  induction l as [|x l IH]; cbn; [split; [intros _; apply not_elem_of_nil|done]|].
  rewrite not_elem_of_cons. case_decide as Hk; [split; [done|by intros []]|]. rewrite IH. naive_solver.
Qed.
Lemma by_key_is_Some k l : is_Some (by_key k l) ↔ k ∈ keys l.
Proof. rewrite <- not_eq_None_Some, by_key_None. destruct (decide (k ∈ keys l)); naive_solver. Qed.

Lemma keymap_keys_aux l i : (imap (λ j r, (rkey r, i + j)) l).*1 = keys l.
Proof.
  revert i. induction l as [|x l IH]; intros i; [done|]. cbn. f_equal.
  transitivity (imap (λ j r, (rkey r, S i + j)) l).*1; [|apply IH]. f_equal. apply imap_ext. intros j r _. cbn. f_equal. lia.
Qed.
Lemma keymap_eq l : NoDup (keys l) → keymap keyname l = imap (λ i r, (rkey r, i)) l.
Proof.
  intros Hnd. unfold keymap. apply od_of_list_id. unfold od_keys.
  change (NoDup (imap (λ j r, (rkey r, 0 + j)) l).*1). by rewrite keymap_keys_aux.
Qed.
Lemma keymap_keys l : NoDup (keys l) → od_keys (keymap keyname l) = keys l.
Proof. intros Hnd. rewrite keymap_eq by done. apply (keymap_keys_aux l 0). Qed.
Lemma keymap_get l k i : NoDup (keys l) →
  od_get k (keymap keyname l) = Some i ↔ ∃ r, l !! i = Some r ∧ rkey r = k.
Proof.
  intros Hnd. assert ((k, i) ∈ keymap keyname l ↔ ∃ r, l !! i = Some r ∧ rkey r = k) as Hin.
  { rewrite keymap_eq, list_elem_of_lookup by done. setoid_rewrite list_lookup_imap.
    split; [intros (j & Hj)|intros (r & Hr & Hk); exists i; rewrite Hr; cbn; by rewrite Hk].
    destruct (l !! j) as [r|] eqn:Hr; [|done]. cbn in Hj. injection Hj as <- <-. by exists r. }
  rewrite <- Hin. split.
  - apply od_get_Some_elem.
  - apply od_get_elem. by rewrite keymap_keys.
Qed.
Lemma rev_at_eq l k : NoDup (keys l) →
  rev_at l (keymap keyname l) k = of_option KeyError (by_key k l).
Proof.
  intros Hnd. unfold rev_at. destruct (od_get k (keymap keyname l)) as [i|] eqn:Hi.
  - apply keymap_get in Hi as (r & Hr & Hk); [|done]. cbn. rewrite Hr.
    assert (by_key k l = Some r) as -> by (apply by_key_elem; [done|split; [by eapply list_elem_of_lookup_2|done]]).
    done.
  - apply od_get_None in Hi. rewrite keymap_keys in Hi by done. by apply by_key_None in Hi as ->.
Qed.

(** What [AnalyzeChanges] finds *)
Section changes.
Context (l k : list rev) (Hl : NoDup (keys l)) (Hk : NoDup (keys k)).

Lemma elem_added x : x ∈ added_keys (AnalyzeChanges l k keyname) ↔
  by_key x l = None ∧ is_Some (by_key x k).
Proof. cbn. by rewrite list_elem_of_filter, !keymap_keys, by_key_None, by_key_is_Some. Qed.
Lemma elem_removed x : x ∈ removed_keys (AnalyzeChanges l k keyname) ↔
  is_Some (by_key x l) ∧ by_key x k = None.
Proof. cbn. rewrite list_elem_of_filter, !keymap_keys, by_key_None, by_key_is_Some by done. naive_solver. Qed.
Lemma elem_changed x : x ∈ changed_keys (AnalyzeChanges l k keyname) ↔
  ∃ r s, by_key x l = Some r ∧ by_key x k = Some s ∧ r_hash r ≠ r_hash s.
Proof.
  cbn. rewrite list_elem_of_filter, !keymap_keys by done. unfold hash_differs.
  rewrite !rev_at_eq by done. rewrite <- !by_key_is_Some.
  destruct (by_key x l) as [r|], (by_key x k) as [s|]; cbn; split; try naive_solver.
Qed.
Lemma added_NoDup : NoDup (added_keys (AnalyzeChanges l k keyname)).
Proof. apply NoDup_filter. by rewrite keymap_keys. Qed.
Lemma changed_NoDup : NoDup (changed_keys (AnalyzeChanges l k keyname)).
Proof. apply NoDup_filter. by rewrite keymap_keys. Qed.
Lemma removed_NoDup : NoDup (removed_keys (AnalyzeChanges l k keyname)).
Proof. apply NoDup_filter. by rewrite keymap_keys. Qed.
End changes.

(** ** The loops *)

Section loops.
Context (fork src dst : list rev).
Context (Hfork : NoDup (keys fork)) (Hsrc : NoDup (keys src)) (Hdst : NoDup (keys dst)).

(** [merge_child] succeeds on the children at hand, keeps [I], and relates the
    merged child to the source's by [R]. *)
Context (I : store → Prop) (R : rev → rev → Prop) (merge_child : rev → M store (option rev)).
Context (Hmc : ∀ r st, r ∈ src ++ dst → I st →
  ∃ r' st', merge_child r st = (Ok (Some r'), st') ∧ I st' ∧ R r r').
Context (HR : ∀ r r', R r r' → rkey r' = rkey r).

Definition clash (k : attr) : bool := conflict (by_key k fork) (by_key k src) (by_key k dst).
Definition clear_of (ks : list attr) : Prop := ∀ k, k ∈ ks → clash k = false.
Definition clashes (ks : list attr) : Prop := ∃ k, k ∈ ks ∧ clash k = true.

Lemma clear_cons k ks : clash k = false → clear_of ks → clear_of (k :: ks).
Proof. intros Hk Hks x [->|Hx]%elem_of_cons; auto. Qed.
Lemma clashes_cons k ks : clashes ks → clashes (k :: ks).
Proof. intros (x & Hx & Hc). exists x. split; [by right|done]. Qed.

(** A loop either meets a key that collides, or succeeds on keys that do not. *)
Definition loop_result {A} (ks : list attr) (m : M store A) (st : store) (Q : A → Prop) : Prop :=
  (clashes ks ∧ ∃ st', m st = (Raise MergeConflictException, st')) ∨
  (clear_of ks ∧ ∃ a st', m st = (Ok a, st') ∧ I st' ∧ Q a).

Lemma loop_here {A} k ks (m : M store A) st (Q : A → Prop) : clash k = true →
  m st = (Raise MergeConflictException, st) → loop_result (k :: ks) m st Q.
Proof. intros Hk Hm. left. split; [exists k; split; [left|done]|by exists st]. Qed.
Lemma loop_next {A} k ks (m m' : M store A) st st' (P Q : A → Prop) : clash k = false → m st = m' st' →
  loop_result ks m' st' P → (∀ a, P a → Q a) → loop_result (k :: ks) m st Q.
Proof.
  intros Hk Hm [[Hc Hr]|[Hc (a & s & Hr & Hi & Ha)]] HPQ; [left|right]; rewrite Hm.
  - split; [by apply clashes_cons|done].
  - split; [by apply clear_cons|]. exists a, s. auto.
Qed.

(** Reading from the key maps, and running a step *)
Ltac run_at := repeat (erewrite M_bind_eq by
  (cbn [keymap1 keymap2 AnalyzeChanges]; rewrite ?rev_at_eq by done;
   repeat match goal with E : by_key ?k ?l = _ |- context [by_key ?k ?l] => rewrite E end; reflexivity)).
Ltac run E := erewrite M_bind_eq by exact E; cbn beta iota.
Ltac by_cases Hf Hs Hd Hh := unfold clash, conflict, unchanged; rewrite Hf, Hs, Hd; cbn; repeat case_bool_decide; cbn; congruence.

Local Notation SRC := (AnalyzeChanges fork src keyname).
Local Notation DST := (AnalyzeChanges fork dst keyname).

Lemma by_key_src k s : by_key k src = Some s → s ∈ src ++ dst ∧ rkey s = k.
Proof. intros [Hs Hk]%by_key_elem; [|done]. rewrite elem_of_app. auto. Qed.
Lemma by_key_dst k d : by_key k dst = Some d → d ∈ src ++ dst ∧ rkey d = k.
Proof. intros [Hd Hk]%by_key_elem; [|done]. rewrite elem_of_app. auto. Qed.
Lemma dst_index k d : by_key k dst = Some d → ∃ i, od_get k (keymap keyname dst) = Some i ∧ dst !! i = Some d.
Proof.
  intros [Hd Hk]%by_key_elem; [|done]. apply list_elem_of_lookup in Hd as [i Hi].
  exists i. split; [|done]. apply keymap_get; [done|]. by exists d.
Qed.
Lemma dst_index_eq i j d d' : dst !! i = Some d → dst !! j = Some d' → rkey d = rkey d' → i = j.
Proof.
  intros Hi Hj Hk. apply (NoDup_lookup _ i j (rkey d) Hdst); unfold keys.
  - by rewrite list_lookup_fmap, Hi.
  - by rewrite list_lookup_fmap, Hj, Hk.
Qed.

(** The added children go to the end of the list. *)
Definition added_ok (ks : list attr) (nl : list rev) (p : list (option rev) * list announcement) : Prop :=
  ∃ new, p.1 = Some <$> nl ++ new ∧
    Forall2 (λ k r, ∃ s, by_key k src = Some s ∧ R s r) (filter (λ k, by_key k dst = None) ks) new.
Lemma both_added_ok ks : (∀ k, k ∈ ks → k ∈ added_keys SRC) → ∀ nl out st, I st →
  loop_result ks (both_added merge_child src dst SRC DST ks (Some <$> nl) out) st (added_ok ks nl).
Proof.
  induction ks as [|k ks IH]; intros Hks nl out st Hi.
  { right. split; [by intros k ?%not_elem_of_nil|]. exists (Some <$> nl, out), st. split_and!; [done|done|].
    exists []. rewrite app_nil_r. split; [done|constructor]. }
  assert (∀ x, x ∈ ks → x ∈ added_keys SRC) as Hks' by (intros x Hx; apply Hks; by right).
  assert (by_key k fork = None ∧ is_Some (by_key k src)) as (Hf & s & Hs).
  { apply elem_added; [done..|]. apply Hks. left. }
  destruct (by_key_src k s Hs) as [Hin Hk]. unfold clash in *.
  destruct (by_key k dst) as [d|] eqn:Hd.
  - assert (k ∈ added_keys DST) as Ha by (apply elem_added; [done..|by rewrite Hd]).
    destruct (decide (r_hash d = r_hash s)) as [Hh|Hh].
    + destruct (Hmc d st) as (r' & st' & Hrun & Hi' & _); [by eapply by_key_dst|done|].
      eapply (loop_next k ks _ _ _ st'); [| |by apply IH|].
      * by_cases Hf Hs Hd Hh.
      * cbn [both_added]. rewrite decide_True by done. run_at. rewrite bool_decide_true by done. by run Hrun.
      * intros p (new & Hp & Hn). exists new. rewrite filter_cons_False by (by rewrite Hd). done.
    + apply loop_here; [by_cases Hf Hs Hd Hh|]. cbn [both_added]. rewrite decide_True by done. run_at.
      by rewrite bool_decide_false.
  - destruct (Hmc s st) as (r' & st' & Hrun & Hi' & Hr); [done..|].
    eapply (loop_next k ks _ _ _ st' _ _); [by_cases Hf Hs Hd Hd| |by apply IH|].
    + cbn [both_added]. rewrite decide_False by (rewrite elem_added, Hd by done; by intros [_ [? ?]]).
      run_at. run Hrun. run_at. rewrite <- fmap_snoc. reflexivity.
    + intros p (new & Hp & Hn). exists (r' :: new). rewrite <- app_assoc in Hp. split; [done|].
      rewrite filter_cons_True by done. constructor; [by exists s|done].
Qed.

(** The changed children are replaced in place: what [nl'] has at an index comes
    from the source, or is what [nl] had there. *)
Definition replaced (base : list rev) (eq : rev → Prop) (ks : list attr) (nl nl' : list rev) : Prop :=
  length nl' = length nl ∧ ∀ i o, nl' !! i = Some o →
    (∃ x s, base !! i = Some x ∧ rkey x ∈ ks ∧ by_key (rkey x) src = Some s ∧ R s o) ∨
    (nl !! i = Some o ∧ ∀ x, base !! i = Some x → rkey x ∈ ks → eq x).
Definition changed_ok (base : list rev) (eq : rev → Prop) (ks : list attr) (nl : list rev) (l : list (option rev)) : Prop :=
  ∃ nl', l = Some <$> nl' ∧ replaced base eq ks nl nl'.

Lemma replaced_nil base eq nl : replaced base eq [] nl nl.
Proof. split; [done|]. intros i o Ho. right. split; [done|]. by intros x _ ?%not_elem_of_nil. Qed.
Lemma replaced_insert base eq k ks nl nl' i x s r : NoDup (keys base) →
  base !! i = Some x → rkey x = k → by_key k src = Some s → R s r → i < length nl →
  replaced base eq ks (<[i := r]> nl) nl' → replaced base eq (k :: ks) nl nl'.
Proof.
  intros Hnd Hx Hk Hs Hr Hi [Hlen Hrep]. rewrite length_insert in Hlen. split; [done|].
  intros j o Ho. destruct (Hrep j o Ho) as [(y & t & Hy & Hin & Ht & HRt)|[Hj Heq]].
  { left. exists y, t. split_and!; try done. by right. }
  destruct (decide (i = j)) as [<-|Hne].
  - rewrite list_lookup_insert_eq in Hj by done. injection Hj as <-. left. exists x, s.
    rewrite Hk. split_and!; try done. left.
  - rewrite list_lookup_insert_ne in Hj by done. right. split; [done|].
    intros y Hy [Hyk|Hin]%elem_of_cons; [|by apply Heq]. destruct Hne.
    apply (NoDup_lookup _ i j k Hnd); unfold keys; rewrite list_lookup_fmap.
    + by rewrite Hx, <- Hk.
    + by rewrite Hy, <- Hyk.
Qed.
Lemma replaced_skip base (eq : rev → Prop) k ks nl nl' : (∀ x, x ∈ base → rkey x = k → eq x) →
  replaced base eq ks nl nl' → replaced base eq (k :: ks) nl nl'.
Proof.
  intros Heq [Hlen Hrep]. split; [done|]. intros i o [(x & s & Hx & Hin & Hs)|[Hi Hks]]%Hrep.
  { left. exists x, s. split_and!; try done; [by right|by apply Hs..]. }
  right. split; [done|]. intros x Hx [Hk|Hin]%elem_of_cons; [|by apply Hks].
  apply Heq; [by eapply list_elem_of_lookup_2|done].
Qed.

Definition same_as_src (x : rev) : Prop := unchanged (by_key (rkey x) src) (Some x).

Lemma both_changed_ok ks : (∀ k, k ∈ ks → k ∈ changed_keys SRC) → ∀ nl st, I st → length dst ≤ length nl →
  loop_result ks (both_changed merge_child src dst SRC DST ks (Some <$> nl)) st (changed_ok dst same_as_src ks nl).
Proof.
  induction ks as [|k ks IH]; intros Hks nl st Hi Hlen.
  { right. split; [by intros k ?%not_elem_of_nil|]. exists (Some <$> nl), st. split_and!; [done|done|].
    exists nl. split; [done|]. apply replaced_nil. }
  assert (∀ x, x ∈ ks → x ∈ changed_keys SRC) as Hks' by (intros x Hx; apply Hks; by right).
  assert (∃ r s, by_key k fork = Some r ∧ by_key k src = Some s ∧ r_hash r ≠ r_hash s) as (f & s & Hf & Hs & Hfs).
  { apply elem_changed; [done..|]. apply Hks. left. }
  destruct (by_key_src k s Hs) as [Hin Hk]. destruct (by_key k dst) as [d|] eqn:Hd.
  2: { apply loop_here; [by_cases Hf Hs Hd Hd|]. cbn [both_changed].
       by rewrite decide_True by (apply elem_removed; [done..|]; by rewrite Hf). }
  assert (k ∉ removed_keys DST) as Hnr by (rewrite elem_removed by done; rewrite Hd; by intros []).
  destruct (dst_index k d Hd) as (i & Hi_k & Hi_d).
  assert (rkey d = k) as Hdk by (by eapply by_key_dst).
  assert (i < length nl) as Hlt by (apply lookup_lt_Some in Hi_d; lia).
  destruct (Hmc s st) as (r' & st' & Hrun & Hi' & Hr); [done..|].
  assert (clash k = false → (r_hash f = r_hash d ∨ r_hash d ≠ r_hash s) →
    loop_result (k :: ks) (both_changed merge_child src dst SRC DST (k :: ks) (Some <$> nl)) st
      (changed_ok dst same_as_src (k :: ks) nl)) as Hins.
  { intros Hc Hh. eapply (loop_next k ks _ _ _ st'); [done| |apply (IH Hks' (<[i := r']> nl)); [done|by rewrite length_insert]|].
    - cbn [both_changed]. rewrite decide_False by done. case_decide as Hcd; run_at.
      + apply elem_changed in Hcd as (? & ? & [= <-]%(eq_trans (eq_sym Hf)) & [= <-]%(eq_trans (eq_sym Hd)) & Hne); [|done..].
        destruct Hh as [Hh|Hh]; [done|]. rewrite bool_decide_false by done.
        rewrite bool_decide_false.
        2: { intros Hcc. revert Hc. unfold clash, conflict, unchanged. rewrite Hf, Hs, Hd.
             rewrite !bool_decide_false, bool_decide_true by congruence. done. }
        run Hrun. run_at. erewrite M_bind_eq by (cbn [keymap2 AnalyzeChanges]; rewrite Hi_k; reflexivity).
        by rewrite list_fmap_insert.
      + run Hrun. erewrite M_bind_eq by (cbn [keymap2 AnalyzeChanges]; rewrite Hi_k; reflexivity).
        by rewrite list_fmap_insert.
    - intros l (nl' & Hl & Hrep). exists nl'. split; [done|]. by eapply (replaced_insert dst). }
  destruct (decide (r_hash f = r_hash d)) as [Hfd|Hfd]; [apply Hins; [by_cases Hf Hs Hd Hd|by left]|].
  assert (k ∈ changed_keys DST) as Hcd by (apply elem_changed; [done..|]; by exists f, d).
  destruct (decide (r_hash d = r_hash s)) as [Hds|Hds].
  { eapply (loop_next k ks _ _ _ st'); [by_cases Hf Hs Hd Hd| |by apply (IH Hks' nl)|].
    - cbn [both_changed]. rewrite decide_False, decide_True by done. run_at. rewrite bool_decide_true by done. by run Hrun.
    - intros l (nl' & Hl & Hrep). exists nl'. split; [done|]. apply replaced_skip; [|done].
      intros x Hx Hxk. unfold same_as_src. rewrite Hxk, Hs. apply bool_decide_pack.
      assert (by_key k dst = Some x) as Hdx by (by apply by_key_elem). congruence. }
  destruct (decide (c_hash (r_config d) = c_hash (r_config s))) as [Hcc|Hcc].
  - apply Hins; [|by right]. by_cases Hf Hs Hd Hd.
  - apply loop_here; [by_cases Hf Hs Hd Hd|]. cbn [both_changed]. rewrite decide_False, decide_True by done.
    run_at. by rewrite bool_decide_false, bool_decide_true.
Qed.

(** The removed children are popped from the highest index to the lowest. *)
Lemma delete_filter i nl r : NoDup (keys nl) → nl !! i = Some r →
  delete i nl = filter (λ x, rkey x ≠ rkey r) nl.
Proof.
  intros Hnd Hr. revert i Hr. induction nl as [|x nl IH]; intros i Hr; [done|].
  apply NoDup_cons in Hnd as [Hni Hnd]. destruct i as [|i]; cbn in Hr.
  - injection Hr as ->. change (delete 0 (r :: nl)) with nl. rewrite filter_cons_False by naive_solver. symmetry. apply filter_all.
    apply Forall_forall. intros y Hy Hk. apply Hni. rewrite <- Hk. by apply (list_elem_of_fmap_2 rkey).
  - change (delete (S i) (x :: nl)) with (x :: delete i nl). rewrite filter_cons_True.
    + f_equal. by apply IH.
    + intros Hk. apply Hni. rewrite Hk. apply (list_elem_of_fmap_2 rkey). by eapply list_elem_of_lookup_2.
Qed.
Lemma keys_filter (P : rev → Prop) `{∀ r, Decision (P r)} l : NoDup (keys l) → NoDup (keys (filter P l)).
Proof.
  induction l as [|x l IH]; [done|]. intros [Hni Hnd]%NoDup_cons. rewrite filter_cons. case_decide; [|by apply IH].
  constructor; [|by apply IH]. intros (y & Hy & [_ Hin]%list_elem_of_filter)%list_elem_of_fmap. apply Hni.
  unfold keys. rewrite Hy. by apply (list_elem_of_fmap_2 rkey).
Qed.

(** At the index of a key of [ks] in [dst], [nl] has a child with that key, and
    it has no others of them. *)
Definition aligned (ks : list attr) (nl : list rev) : Prop :=
  (∀ d i, dst !! i = Some d → rkey d ∈ ks → ∃ r, nl !! i = Some r ∧ rkey r = rkey d) ∧
  (∀ k, k ∈ ks → k ∈ keys nl → k ∈ keys dst).

Definition removed_ok (ks : list attr) (nl : list rev) (p : list (option rev) * list announcement) : Prop :=
  p.1 = Some <$> filter (λ r, rkey r ∉ ks) nl.
Lemma both_removed_ok ks : (∀ k, k ∈ ks → k ∈ removed_keys SRC) →
  StronglySorted (flip (before (keys dst))) ks → ∀ nl out st, I st → NoDup (keys nl) → aligned ks nl →
  loop_result ks (both_removed DST ks (Some <$> nl) out) st (removed_ok ks nl).
Proof.
  intros Hks Hss. induction Hss as [|k ks Hss IH Hb]; intros nl out st Hi Hnd [Hal Hno].
  { right. split; [by intros k ?%not_elem_of_nil|]. exists (Some <$> nl, out), st. split_and!; [done|done|].
    unfold removed_ok. cbn. f_equal. symmetry. apply filter_all. apply Forall_forall. intros. apply not_elem_of_nil. }
  assert (∀ x, x ∈ ks → x ∈ removed_keys SRC) as Hks' by (intros x Hx; apply Hks; by right).
  assert (is_Some (by_key k fork) ∧ by_key k src = None) as ([f Hf] & Hs).
  { apply elem_removed; [done..|]. apply Hks. left. }
  destruct (by_key k dst) as [d|] eqn:Hd.
  - destruct (dst_index k d Hd) as (i & Hi_k & Hi_d). assert (rkey d = k) as Hdk by (by eapply by_key_dst).
    assert (k ∉ removed_keys DST) as Hnr by (rewrite elem_removed by done; rewrite Hd; by intros []).
    destruct (decide (r_hash f = r_hash d)) as [Hfd|Hfd].
    2: { apply loop_here; [by_cases Hf Hs Hd Hd|]. cbn [both_removed]. rewrite decide_True; [done|].
         apply elem_changed; [done..|]. by exists f, d. }
    destruct (Hal d i Hi_d) as (r & Hr & Hrk); [rewrite Hdk; left|]. rewrite Hdk in Hrk.
    eapply (loop_next k ks _ _ _ st); [by_cases Hf Hs Hd Hd| |apply (IH Hks' (delete i nl)); [done| |split]|].
    + cbn [both_removed]. rewrite decide_False, decide_False by
        (done || (rewrite elem_changed by done; intros (? & ? & E1 & E2 & ?); congruence)).
      erewrite M_bind_eq by (cbn [keymap2 AnalyzeChanges]; rewrite Hi_k; reflexivity).
      erewrite M_bind_eq by (rewrite list_lookup_fmap, Hr; reflexivity).
      erewrite M_bind_eq by reflexivity. rewrite <- list_fmap_delete. reflexivity.
    + rewrite (delete_filter i nl r) by done. by apply keys_filter.
    + intros x j Hj Hin. rewrite Forall_forall in Hb. specialize (Hb _ Hin).
      assert (j < i) as Hlt.
      { apply Hb; unfold keys; rewrite list_lookup_fmap; [by rewrite Hj|by rewrite Hi_d, <- Hdk]. }
      rewrite list_lookup_delete_lt by done. apply Hal; [done|by right].
    + intros x Hx Hin. apply Hno; [by right|]. rewrite (delete_filter i nl r) in Hin by done.
      apply list_elem_of_fmap in Hin as (y & -> & [_ Hy]%list_elem_of_filter). by apply (list_elem_of_fmap_2 rkey).
    + intros p Hp. unfold removed_ok in *. rewrite Hp, (delete_filter i nl r), list_filter_filter by done. f_equal.
      apply list_filter_iff. intros x. rewrite not_elem_of_cons, Hrk. naive_solver.
  - eapply (loop_next k ks _ _ _ st); [by_cases Hf Hs Hd Hd| |apply (IH Hks' nl); [done|done|split]|].
    + cbn [both_removed]. rewrite decide_False, decide_True; [reflexivity|apply elem_removed; [done..|]; by rewrite Hf|].
      rewrite elem_changed by done. intros (? & ? & E1 & E2 & ?). congruence.
    + intros x j Hj Hin. apply (Hal x j Hj). by right.
    + intros x Hx Hin. apply Hno; [by right|done].
    + intros p Hp. unfold removed_ok in *. rewrite Hp. f_equal. apply filter_ext_in. intros x Hx. rewrite not_elem_of_cons.
      split; [|by intros []]. intros Hni. split; [|done]. intros Hk. apply by_key_None in Hd. destruct Hd. apply Hno; [left|].
      rewrite <- Hk. by apply (list_elem_of_fmap_2 rkey).
Qed.

(** ** The merged list *)

(** The list after adding and changing has the keys of the destination and then
    those of the added children. *)
Lemma replaced_keys base (eq : rev → Prop) ks nl nl' : replaced base eq ks nl nl' →
  (∀ i x r, base !! i = Some x → nl !! i = Some r → rkey r = rkey x) → keys nl' = keys nl.
Proof.
  intros [Hlen Hrep] Hb. apply list_eq. intros i. unfold keys. rewrite !list_lookup_fmap.
  destruct (nl' !! i) as [o|] eqn:Ho.
  - assert (∃ r, nl !! i = Some r) as [r Hr] by (apply lookup_lt_is_Some_2; rewrite <- Hlen; by eapply lookup_lt_Some).
    rewrite Hr. cbn. f_equal. destruct (Hrep i o Ho) as [(x & s & Hx & _ & Hs & HRo)|[Ho' _]]; [|congruence].
    rewrite (HR s o HRo), (Hb i x r Hx Hr). by eapply by_key_src.
  - apply lookup_ge_None in Ho. rewrite Hlen in Ho. by apply lookup_ge_None in Ho as ->.
Qed.
Lemma new_keys ks new : Forall2 (λ k r, ∃ s, by_key k src = Some s ∧ R s r) ks new → keys new = ks.
Proof.
  induction 1 as [|k r ks new (s & Hs & Hr) _ IH]; [done|]. cbn. rewrite (HR s r Hr). f_equal; [|done].
  by eapply by_key_src.
Qed.
Lemma by_key_filter (P : attr → Prop) `{∀ k, Decision (P k)} k l :
  by_key k (filter (λ r, P (rkey r)) l) = if decide (P k) then by_key k l else None.
Proof.
  induction l as [|x l IH]; [by case_decide|]. rewrite filter_cons.
  destruct (decide (P (rkey x))) as [Hx|Hx]; cbn [by_key]; rewrite IH.
  - destruct (decide (rkey x = k)) as [<-|Hk]; [by rewrite decide_True|done].
  - destruct (decide (P k)) as [Hp|Hp]; [|done]. rewrite decide_False; [done|]. by intros <-.
Qed.

Definition merges (res : list rev) : Prop :=
  NoDup (keys res) ∧ ∀ k, outcome R (by_key k fork) (by_key k src) (by_key k dst) (by_key k res).

Lemma unchanged_refl o : unchanged o o.
Proof. destruct o; [by apply bool_decide_pack|done]. Qed.

(** A child of the destination keeps its place: it is replaced or it stays. *)
Lemma both_kept new nl' k d :
  clash k = false →
  Forall2 (λ k r, ∃ s, by_key k src = Some s ∧ R s r) (filter (λ k, by_key k dst = None) (added_keys SRC)) new →
  replaced dst same_as_src (changed_keys SRC) (dst ++ new) nl' → keys nl' = keys (dst ++ new) → NoDup (keys nl') →
  ¬ (is_Some (by_key k fork) ∧ by_key k src = None) →
  by_key k dst = Some d → outcome R (by_key k fork) (by_key k src) (Some d) (by_key k nl').
Proof.
  intros Hclear Hnew [Hlen Hrep] Hkeys Hnd Hk Hd.
  destruct (dst_index k d Hd) as (i & _ & Hi). destruct (by_key_dst k d Hd) as [_ Hdk].
  assert ((dst ++ new) !! i = Some d) as Hid by (apply lookup_app_l_Some; done).
  assert (∃ o, nl' !! i = Some o) as [o Ho].
  { apply lookup_lt_is_Some_2. rewrite Hlen. by eapply lookup_lt_Some. }
  assert (by_key k nl' = Some o) as ->.
  { apply by_key_elem; [done|]. split; [by eapply list_elem_of_lookup_2|].
    assert (keys nl' !! i = keys (dst ++ new) !! i) as He by (by rewrite Hkeys).
    unfold keys in He. rewrite !list_lookup_fmap, Ho, Hid in He. cbn in He. congruence. }
  unfold outcome. destruct (Hrep i o Ho) as [(x & s & Hx & Hin & Hs & Hr)|[Ho' Heq]].
  + assert (x = d) as -> by congruence. rewrite Hdk in *. rewrite Hs.
    apply elem_changed in Hin as (f & s' & Hf & Hs' & Hne); [|done..]. rewrite Hf. cbn.
    rewrite bool_decide_false by congruence. left. by exists o.
  + assert (o = d) as -> by congruence. destruct (unchanged (by_key k fork) (by_key k src)) eqn:Hu; [apply (unchanged_refl (Some d))|].
    destruct (by_key k src) as [s|] eqn:Hs; [|destruct (by_key k fork); [destruct Hk; by split|done]].
    right. split; [|done]. destruct (by_key k fork) as [f|] eqn:Hf.
    * assert (k ∈ changed_keys SRC) as Hin.
      { apply elem_changed; [done..|]. exists f, s. split_and!; try done. cbn in Hu. by apply bool_decide_eq_false in Hu. }
      rewrite <- Hdk in Hin. specialize (Heq d Hi Hin). unfold same_as_src in Heq. by rewrite Hdk, Hs in Heq.
    * revert Hclear. unfold clash. rewrite Hf, Hs, Hd. unfold conflict. cbn.
      by destruct (bool_decide _).
Qed.
(** A child the destination lacks is there after the merge when it was added. *)
Lemma both_added new nl' k :
  clash k = false →
  Forall2 (λ k r, ∃ s, by_key k src = Some s ∧ R s r) (filter (λ k, by_key k dst = None) (added_keys SRC)) new →
  replaced dst same_as_src (changed_keys SRC) (dst ++ new) nl' → keys nl' = keys (dst ++ new) → NoDup (keys nl') →
  ¬ (is_Some (by_key k fork) ∧ by_key k src = None) →
  by_key k dst = None → outcome R (by_key k fork) (by_key k src) None (by_key k nl').
Proof.
  intros Hclear Hnew [Hlen Hrep] Hkeys Hnd Hk Hd.
  destruct (by_key k nl') as [o|] eqn:Ho.
  + apply by_key_elem in Ho as [Hin Hok]; [|done]. apply list_elem_of_lookup in Hin as [i Hi].
    assert (keys nl' !! i = keys (dst ++ new) !! i) as He by (by rewrite Hkeys).
    assert ((dst ++ new) !! i = Some o) as Hin.
    { destruct (Hrep i o Hi) as [(x & s & Hx & _)|[? _]]; [|done]. exfalso.
      unfold keys in He. rewrite !list_lookup_fmap, Hi in He. rewrite (lookup_app_l_Some _ _ _ _ Hx) in He. cbn in He.
      injection He as He. apply by_key_None in Hd. apply Hd. rewrite <- Hok, He. apply (list_elem_of_fmap_2 rkey).
      by eapply list_elem_of_lookup_2. }
    apply list_elem_of_lookup_2, elem_of_app in Hin as [Hin|Hin].
    { exfalso. apply by_key_None in Hd. apply Hd. rewrite <- Hok. by apply (list_elem_of_fmap_2 rkey). }
    apply list_elem_of_lookup in Hin as [j Hj].
    destruct (Forall2_lookup_r _ _ _ _ _ Hnew Hj) as (k' & Hk' & s & Hs & Hr).
    assert (k' = k) as ->. { rewrite <- Hok, (HR s o Hr). symmetry. by eapply by_key_src. }
    apply list_elem_of_lookup_2, list_elem_of_filter in Hk' as [_ [Hf _]%elem_added]; [|done..].
    rewrite Hf, Hs. left. by exists o.
  + unfold outcome. destruct (by_key k fork) as [f|] eqn:Hf, (by_key k src) as [s|] eqn:Hs; cbn; try done.
    * case_bool_decide as Hh; [done|]. revert Hclear. unfold clash. rewrite Hf, Hs, Hd. unfold conflict. cbn.
      by rewrite bool_decide_false.
    * exfalso. apply by_key_None in Ho. apply Ho. rewrite Hkeys. unfold keys. rewrite map_app. apply elem_of_app. right.
      fold (keys new). rewrite (new_keys _ _ Hnew). apply list_elem_of_filter. split; [done|].
      apply elem_added; [done..|]. by rewrite Hs.
Qed.
Lemma both_outcome new nl' :
  (∀ k, clash k = false) →
  Forall2 (λ k r, ∃ s, by_key k src = Some s ∧ R s r) (filter (λ k, by_key k dst = None) (added_keys SRC)) new →
  replaced dst same_as_src (changed_keys SRC) (dst ++ new) nl' → keys nl' = keys (dst ++ new) → NoDup (keys nl') →
  merges (filter (λ r, rkey r ∉ reverse (removed_keys SRC)) nl').
Proof.
  intros Hclear Hnew Hrep Hkeys Hnd. split; [by apply keys_filter|]. intros k.
  pose proof (by_key_filter (λ k, k ∉ reverse (removed_keys SRC)) k nl') as E. cbn beta in E. rewrite E. clear E. specialize (Hclear k).
  assert (k ∉ reverse (removed_keys SRC) ↔ ¬ (is_Some (by_key k fork) ∧ by_key k src = None)) as Hrem
    by (by rewrite elem_of_reverse, elem_removed).
  destruct (decide (k ∉ reverse (removed_keys SRC))) as [Hk|Hk]; rewrite Hrem in Hk; clear Hrem.
  2: { apply dec_stable in Hk as ([f Hf] & Hs). rewrite Hf, Hs. done. }
  destruct (by_key k dst) as [d|] eqn:Hd.
  - by apply (both_kept new).
  - by apply (both_added new).
Qed.

(** The outcome of a merge: an exception exactly on a collision, else the list. *)
Definition field_result {A} (m : M store A) (st : store) (Q : A → list rev → Prop) : Prop :=
  ((∃ k, clash k = true) ∧ ∃ st', m st = (Raise MergeConflictException, st')) ∨
  ((∀ k, clash k = false) ∧ ∃ a st' res, m st = (Ok a, st') ∧ I st' ∧ Q a res ∧ merges res).

Lemma clash_where k : clash k = true →
  k ∈ added_keys SRC ∨ k ∈ changed_keys SRC ∨ k ∈ reverse (removed_keys SRC).
Proof.
  rewrite elem_of_reverse, elem_added, elem_changed, elem_removed by done. unfold clash, conflict.
  destruct (by_key k fork) as [f|], (by_key k src) as [s|]; cbn; try done; [|by auto..].
  case_bool_decide as Hh; [done|]. intros _. right. left. by exists f, s.
Qed.

Lemma keyed_both_ok out st : same_order (keys fork) (keys dst) → I st →
  field_result (merge_keyed_both merge_child fork src dst keyname out) st (λ a res, a.1 = Some <$> res).
Proof.
  intros Hord Hi. unfold merge_keyed_both.
  destruct (both_added_ok (added_keys SRC) (λ _, id) dst out st Hi)
    as [[(k & _ & Hk) (st' & Hr)]|[Hc1 ([l1 out1] & st1 & Hr1 & Hi1 & new & Hl1 & Hnew)]].
  { left. split; [by exists k|]. exists st'. by erewrite M_bind_Raise_eq by exact Hr. }
  cbn in Hl1. subst l1. pose proof (new_keys _ _ Hnew) as Hnk.
  destruct (both_changed_ok (changed_keys SRC) (λ _, id) (dst ++ new) st1 Hi1)
    as [[(k & _ & Hk) (st' & Hr)]|[Hc2 (l2 & st2 & Hr2 & Hi2 & nl' & -> & Hrep)]].
  { rewrite length_app. lia. }
  { left. split; [by exists k|]. exists st'. run Hr1. by erewrite M_bind_Raise_eq by exact Hr. }
  assert (keys nl' = keys (dst ++ new)) as Hkeys.
  { eapply replaced_keys; [done|]. intros i x r Hx Hr. rewrite (lookup_app_l_Some _ _ _ _ Hx) in Hr. congruence. }
  assert (NoDup (keys nl')) as Hnd.
  { rewrite Hkeys. unfold keys. rewrite map_app. fold (keys dst) (keys new). rewrite Hnk. apply NoDup_app. split_and!; [done| |].
    - intros k Hin [Hd%by_key_None _]%list_elem_of_filter. done.
    - apply NoDup_filter. by apply added_NoDup. }
  destruct (both_removed_ok (reverse (removed_keys SRC))) with (nl := nl') (out := out1) (st := st2)
    as [[(k & _ & Hk) (st' & Hr)]|[Hc3 ([l3 out3] & st3 & Hr3 & Hi3 & Hl3)]]; try done.
  { intros k. by rewrite elem_of_reverse. }
  { apply ss_reverse, ss_filter. rewrite keymap_keys by done. by apply same_order_before. }
  { split.
    - intros d i Hd _. assert (keys nl' !! i = Some (rkey d)) as Hk.
      { rewrite Hkeys. unfold keys. by rewrite list_lookup_fmap, (lookup_app_l_Some _ _ _ _ Hd). }
      unfold keys in Hk. rewrite list_lookup_fmap in Hk. destruct (nl' !! i) as [r|]; [|done].
      exists r. split; [done|]. by injection Hk.
    - intros k Hk. rewrite elem_of_reverse in Hk. rewrite Hkeys. unfold keys. rewrite map_app. fold (keys dst) (keys new).
      intros [?|Hin]%elem_of_app; [done|]. exfalso. rewrite Hnk in Hin.
      apply list_elem_of_filter in Hin as [_ [Hn _]%elem_added]; [|done..].
      apply elem_removed in Hk as [[? ?] _]; [congruence|done..]. }
  { left. split; [by exists k|]. exists st'. run Hr1. by run Hr2. }
  assert (∀ k, clash k = false) as Hclear.
  { intros k. destruct (clash k) eqn:Hk; [|done].
    destruct (clash_where k Hk) as [Hin|[Hin|Hin]]; [rewrite Hc1 in Hk|rewrite Hc2 in Hk|rewrite Hc3 in Hk]; done. }
  right. split; [done|]. exists (l3, out3), st3, (filter (λ r, rkey r ∉ reverse (removed_keys SRC)) nl').
  split_and!; [by run Hr1; run Hr2|done|done|]. by apply (both_outcome new).
Qed.

(** ** The destination did not change *)

Lemma fast_index k s : by_key k src = Some s → ∃ i, od_get k (keymap keyname src) = Some i ∧ src !! i = Some s.
Proof.
  intros [Hs Hk]%by_key_elem; [|done]. apply list_elem_of_lookup in Hs as [i Hi].
  exists i. split; [|done]. apply keymap_get; [done|]. by exists s.
Qed.
Lemma fast_added_ok ks : (∀ k, k ∈ ks → is_Some (by_key k src)) → ∀ nl out st, I st → length nl = length src →
  ∃ nl' out' st', fast_added merge_child src SRC ks (Some <$> nl) out st = (Ok (Some <$> nl', out'), st') ∧ I st' ∧
    replaced src (λ _, False) ks nl nl'.
Proof.
  induction ks as [|k ks IH]; intros Hks nl out st Hi Hlen.
  { exists nl, out, st. split_and!; [done|done|apply replaced_nil]. }
  destruct (Hks k) as [s Hs]; [left|]. destruct (fast_index k s Hs) as (i & Hik & His).
  destruct (Hmc s st) as (r' & st' & Hrun & Hi' & Hr); [by eapply by_key_src|done|].
  destruct (IH) with (nl := <[i := r']> nl) (out := out ++ [(POST_ADD, ChMsg (r_data r'))]) (st := st')
    as (nl' & out' & st2 & Hrun' & Hi2 & Hrep); [intros x Hx; apply Hks; by right|done|by rewrite length_insert|].
  exists nl', out', st2. split_and!; [|done|].
  - cbn [fast_added]. erewrite M_bind_eq by (cbn [keymap2 AnalyzeChanges]; rewrite Hik; reflexivity).
    erewrite M_bind_eq by (rewrite His; reflexivity). run Hrun. erewrite M_bind_eq by reflexivity.
    by rewrite <- list_fmap_insert.
  - eapply (replaced_insert src); [done|done| |done|done| |done].
    + by eapply by_key_src.
    + apply lookup_lt_Some in His. lia.
Qed.
Lemma fast_changed_ok ks : (∀ k, k ∈ ks → is_Some (by_key k src)) → ∀ nl st, I st → length nl = length src →
  ∃ nl' st', fast_changed merge_child src SRC ks (Some <$> nl) st = (Ok (Some <$> nl'), st') ∧ I st' ∧
    replaced src (λ _, False) ks nl nl'.
Proof.
  induction ks as [|k ks IH]; intros Hks nl st Hi Hlen.
  { exists nl, st. split_and!; [done|done|apply replaced_nil]. }
  destruct (Hks k) as [s Hs]; [left|]. destruct (fast_index k s Hs) as (i & Hik & His).
  destruct (Hmc s st) as (r' & st' & Hrun & Hi' & Hr); [by eapply by_key_src|done|].
  destruct (IH) with (nl := <[i := r']> nl) (st := st')
    as (nl' & st2 & Hrun' & Hi2 & Hrep); [intros x Hx; apply Hks; by right|done|by rewrite length_insert|].
  exists nl', st2. split_and!; [|done|].
  - cbn [fast_changed]. erewrite M_bind_eq by (cbn [keymap2 AnalyzeChanges]; rewrite Hik; reflexivity).
    erewrite M_bind_eq by (rewrite His; reflexivity). run Hrun. by rewrite <- list_fmap_insert.
  - eapply (replaced_insert src); [done|done| |done|done| |done].
    + by eapply by_key_src.
    + apply lookup_lt_Some in His. lia.
Qed.
Lemma fast_removed_ok ks : (∀ k, k ∈ ks → is_Some (by_key k fork)) → ∀ out st,
  ∃ out', fast_removed fork SRC ks out st = (Ok out', st).
Proof.
  induction ks as [|k ks IH]; intros Hks out st; [by exists out|].
  destruct (Hks k) as [f Hf]; [left|]. cbn [fast_removed].
  erewrite M_bind_eq by (cbn [keymap1 AnalyzeChanges]; rewrite rev_at_eq, Hf by done; reflexivity).
  apply IH. intros x Hx. apply Hks. by right.
Qed.

Lemma src_at nl' i s : replaced src (λ _, False) (added_keys SRC ++ changed_keys SRC) src nl' → src !! i = Some s →
  ∃ o, nl' !! i = Some o ∧ ((¬ unchanged (by_key (rkey s) fork) (Some s) ∧ R s o) ∨
                            (unchanged (by_key (rkey s) fork) (Some s) ∧ o = s)).
Proof.
  intros [Hlen Hrep] Hs. assert (∃ o, nl' !! i = Some o) as [o Ho].
  { apply lookup_lt_is_Some_2. rewrite Hlen. by eapply lookup_lt_Some. }
  assert (by_key (rkey s) src = Some s) as Hk by (apply by_key_elem; [done|]; split; [by eapply list_elem_of_lookup_2|done]).
  assert (rkey s ∈ added_keys SRC ++ changed_keys SRC ↔ ¬ unchanged (by_key (rkey s) fork) (Some s)) as Hin.
  { rewrite elem_of_app, elem_added, elem_changed by done. rewrite Hk.
    destruct (by_key (rkey s) fork) as [f|]; cbn; [|naive_solver]. rewrite bool_decide_spec. split.
    - intros [[? ?]|(? & ? & [= <-] & [= <-] & ?)]; done.
    - intros Hh. right. by exists f, s. }
  exists o. split; [done|]. destruct (Hrep i o Ho) as [(x & t & Hx & Hix & Ht & Hr)|[Ho' Heq]].
  - assert (x = s) as -> by congruence. left. split; [by apply Hin|]. congruence.
  - right. split; [|congruence]. destruct (unchanged (by_key (rkey s) fork) (Some s)); [done|].
    exfalso. apply (Heq s Hs). apply Hin. by intros [].
Qed.

Lemma replaced_app base (eq : rev → Prop) ks1 ks2 nl nl1 nl2 :
  replaced base eq ks1 nl nl1 → replaced base eq ks2 nl1 nl2 → replaced base eq (ks1 ++ ks2) nl nl2.
Proof.
  intros [L1 H1] [L2 H2]. split; [congruence|]. intros i o Ho.
  destruct (H2 i o Ho) as [(x & s & Hx & Hin & Hs)|[Ho1 He2]].
  { left. exists x, s. split_and!; [done|apply elem_of_app; by right|by apply Hs..]. }
  destruct (H1 i o Ho1) as [(x & s & Hx & Hin & Hs)|[Ho2 He1]].
  { left. exists x, s. split_and!; [done|apply elem_of_app; by left|by apply Hs..]. }
  right. split; [done|]. intros x Hx [?|?]%elem_of_app; auto.
Qed.

Lemma fast_outcome nl' : dst = fork → replaced src (λ _, False) (added_keys SRC ++ changed_keys SRC) src nl' → merges nl'.
Proof.
  intros Hdf Hrep. assert (keys nl' = keys src) as Hkeys.
  { eapply replaced_keys; [done|]. intros i x r ? ?. congruence. }
  split; [by rewrite Hkeys|]. intros k. unfold outcome. rewrite Hdf. destruct (by_key k src) as [s|] eqn:Hs.
  - destruct (by_key_src k s Hs) as [_ Hk]. destruct (fast_index k s Hs) as (i & _ & Hi).
    destruct (src_at nl' i s Hrep Hi) as (o & Ho & Hcase).
    assert (by_key k nl' = Some o) as ->.
    { apply by_key_elem; [by rewrite Hkeys|]. split; [by eapply list_elem_of_lookup_2|].
      assert (keys nl' !! i = keys src !! i) as He by (by rewrite Hkeys).
      unfold keys in He. rewrite !list_lookup_fmap, Ho, Hi in He. cbn in He. congruence. }
    rewrite Hk in Hcase. destruct Hcase as [[Hu Hr]|[Hu ->]].
    + destruct (unchanged _ (Some s)); [by destruct Hu|]. left. by exists o.
    + destruct (unchanged (by_key k fork) (Some s)); done.
  - assert (by_key k nl' = None) as -> by (apply by_key_None; rewrite Hkeys; by apply by_key_None).
    by destruct (by_key k fork).
Qed.

Lemma keyed_fast_ok out st : dst = fork → I st →
  field_result (merge_keyed_fast merge_child fork src keyname out) st (λ a res, a.1 = Some <$> res).
Proof.
  intros Hdf Hi. right. split.
  { intros k. unfold clash, conflict. rewrite Hdf. rewrite (Is_true_true_1 _ (unchanged_refl (by_key k fork))).
    cbn. by rewrite andb_false_r. }
  destruct (fast_added_ok (added_keys SRC)) with (nl := src) (out := out) (st := st)
    as (nl1 & out1 & st1 & Hr1 & Hi1 & Hrep1); [by intros k [_ ?]%elem_added|done|done|].
  destruct (fast_removed_ok (removed_keys SRC)) with (out := out1) (st := st1) as (out2 & Hr2); [by intros k [? _]%elem_removed|].
  destruct (fast_changed_ok (changed_keys SRC)) with (nl := nl1) (st := st1)
    as (nl2 & st2 & Hr3 & Hi3 & Hrep2); [|done|by apply Hrep1|].
  { intros k (? & s & _ & Hs & _)%elem_changed; [by rewrite Hs|done..]. }
  exists (Some <$> nl2, out2), st2, nl2. split_and!; [|done|done|].
  - unfold merge_keyed_fast. run Hr1. run Hr2. by run Hr3.
  - apply fast_outcome; [done|]. by eapply replaced_app.
Qed.

(** ** The destination has what the source has *)

Lemma merge_all_ok l st : (∀ r, r ∈ l → r ∈ src ++ dst) → I st →
  ∃ k st', merge_all merge_child l st = (Ok k, st') ∧ I st'.
Proof.
  intros Hl. revert st. induction l as [|r l IH]; intros st Hi; [by exists [], st|].
  destruct (Hmc r st) as (r' & st1 & Hr & Hi1 & _); [apply Hl; left|done|].
  destruct (IH (λ x Hx, Hl x (list_elem_of_further _ _ _ Hx)) st1 Hi1) as (k & st2 & Hr2 & Hi2).
  exists (Some r' :: k), st2. split; [|done]. cbn [merge_all]. run Hr. by run Hr2.
Qed.
Lemma equal_lists_ok : dst = src → (∀ k, clash k = false) ∧ merges dst.
Proof.
  intros Hds. split; [|split; [done|]]; intros k.
  - unfold clash, conflict. rewrite <- Hds. rewrite (Is_true_true_1 _ (unchanged_refl (by_key k dst))).
    cbn. by rewrite andb_false_r.
  - unfold outcome. rewrite <- Hds. destruct (unchanged _ _); [apply unchanged_refl|].
    destruct (by_key k dst) as [d|]; [|done]. right. split; [apply (unchanged_refl (Some d))|done].
Qed.
End loops.
End key.

(** ** The merge of a keyed field *)

(** Revisions are objects: their identities tell them apart. *)
Lemma same_revs_eq (l k : list rev) : (∀ x y, x ∈ l → y ∈ k → r_id x = r_id y → x = y) → same_revs l k = true → l = k.
Proof.
  unfold same_revs. rewrite bool_decide_eq_true. revert k.
  induction l as [|x l IH]; intros [|y k] Hid Heq; try done. cbn in Heq. injection Heq as Hxy Heq. f_equal.
  - apply Hid; [left|left|done].
  - apply IH; [|done]. intros a b Ha Hb. apply Hid; by right.
Qed.

Record mergeable (keyname : string) (fork src dst : list rev) : Prop := mk_mergeable {
  mg_fork : NoDup (keys keyname fork);
  mg_src : NoDup (keys keyname src);
  mg_dst : NoDup (keys keyname dst);
  mg_order : same_order (keys keyname fork) (keys keyname dst);
  mg_id x y : x ∈ dst → y ∈ fork ++ src → r_id x = r_id y → x = y;
}.

(** Merging a child of [l] succeeds, keeps its key, and relates it by [R]. *)
Record merging (keyname : string) (l : list rev) (I : store → Prop) (R : rev → rev → Prop)
    (merge_child : rev → M store (option rev)) : Prop := mk_merging {
  mc_runs r st : r ∈ l → I st → ∃ r' st', merge_child r st = (Ok (Some r'), st') ∧ I st' ∧ R r r';
  mc_key r r' : R r r' → rkey keyname r' = rkey keyname r;
}.

(** C15: the merge of a keyed list of children (the loops of merge_3way, in a run
    that is not the dry run) is decided key by key, under two conditions: the
    merge of each child below succeeds and keeps its key, and the keys that the
    fork and the committed list share stand in the same order in both.  Then it
    raises MergeConflictException exactly when some key collides, that is, when
    the transaction and the committed tree changed its child differently since
    the fork and not only below it.  Otherwise it ends with a list with distinct
    keys that has, for a key the transaction did not touch, the committed child;
    nothing for a key it removed; and for a key it added or changed the merged
    child of the transaction, or the equal committed one.  Without the condition on
    the order a removal can take out another child
    ([readded_child_breaks_removal]). *)
Theorem merge_keyed_exact keyname fork src dst I R merge_child name field out st :
  ct_key field = Some keyname → mergeable keyname fork src dst →
  merging keyname (src ++ dst) I R merge_child → I st →
  let run := merge_field merge_child name field fork src dst out st in
  let at_key k l := by_key keyname k l in
  ((∃ k, conflict (at_key k fork) (at_key k src) (at_key k dst) = true) ∧
   ∃ st', run = (Raise MergeConflictException, st')) ∨
  ((∀ k, conflict (at_key k fork) (at_key k src) (at_key k dst) = false) ∧
   ∃ l out' st' res, run = (Ok (l, out'), st') ∧ I st' ∧ default (Some <$> dst) l = Some <$> res ∧
     NoDup (keys keyname res) ∧
     ∀ k, outcome R (at_key k fork) (at_key k src) (at_key k dst) (at_key k res)).
Proof.
  intros Hkey [Hfork Hsrc Hdst Hord Hid] [Hmc HR] Hi. cbv zeta. unfold merge_field. rewrite Hkey.
  destruct (same_revs dst src) eqn:Hds.
  { apply same_revs_eq in Hds; [|intros x y Hx Hy; apply Hid; [done|]; apply elem_of_app; by right].
    right. destruct (equal_lists_ok keyname fork src dst Hdst R Hds) as [Hc [Hnd Hm]]. split; [done|].
    destruct (merge_all_ok src dst I R merge_child Hmc src st) as (k & st' & Hr & Hi');
      [intros r Hr; apply elem_of_app; by left|done|].
    exists None, out, st', dst. split_and!; try done. by erewrite M_bind_eq by exact Hr. }
  assert (field_result keyname fork src dst I R
    (if same_revs dst fork then merge_keyed_fast merge_child fork src keyname out
     else merge_keyed_both merge_child fork src dst keyname out) st (λ a res, a.1 = Some <$> res)) as Hres.
  { destruct (same_revs dst fork) eqn:Hdf.
    - apply same_revs_eq in Hdf; [|intros x y Hx Hy; apply Hid; [done|]; apply elem_of_app; by left].
      by apply keyed_fast_ok.
    - by apply keyed_both_ok. }
  destruct Hres as [[Hc (st' & Hr)]|[Hc ([l out'] & st' & res & Hr & Hi' & Hl & Hnd & Hm)]].
  - left. split; [done|]. exists st'. by erewrite M_bind_Raise_eq by exact Hr.
  - right. split; [done|]. exists (Some l), out', st', res. split_and!; try done. by erewrite M_bind_eq by exact Hr.
Qed.
End spec.

(** ** Concrete merges *)

Definition dev3 : device := mk_device "3" 30 [] (Some (mk_flows [])).

(** A revision of a device outside of the transaction, and the field of the devices *)
Definition dev_rev (i : nat) (d : device) : @rev demo_env :=
  let c := ConfigDataRevision (MDevice (bare d) : @msg demo_env) in Rev i (mk_branch_ref i None) c [] (hash_content c []).
Definition devices_field : child_type := mk_child_type "voltha_pb2" "Device" true (Some "id") (λ s, Ok (AStr s)).
Definition fork_list : list (@rev demo_env) := [dev_rev 1 dev1; dev_rev 2 dev2].
Definition src_list : list (@rev demo_env) := [dev_rev 3 (with_vlan 5 dev1); dev_rev 2 dev2].
Definition dst_list : list (@rev demo_env) := [dev_rev 1 dev1; dev_rev 2 dev2; dev_rev 4 dev3].

(** One side changes a device while the other adds one: the result has both. *)
Lemma merge_keyed_exact_witness : ∃ l out' st' res,
  merge_field (λ r, mret (Some r)) "devices" devices_field fork_list src_list dst_list [] demo_st = (Ok (l, out'), st') ∧
  default (Some <$> dst_list) l = Some <$> res ∧
  ∀ k, outcome eq (by_key "id" k fork_list) (by_key "id" k src_list) (by_key "id" k dst_list) (by_key "id" k res).
Proof.
  assert (mergeable "id" fork_list src_list dst_list) as Hm.
  { split; [apply (bool_decide_unpack _); vm_compute; exact Logic.I..| |].
    { vm_compute; reflexivity. }
    intros x y Hx Hy. cbn in Hy. repeat (apply elem_of_cons in Hx as [Hx|Hx]; [|try by apply not_elem_of_nil in Hx]);
      repeat (apply elem_of_cons in Hy as [Hy|Hy]; [|try by apply not_elem_of_nil in Hy]); subst;
      first [done|intros Hid; discriminate Hid]. }
  destruct (merge_keyed_exact "id" fork_list src_list dst_list (λ _, True) eq (λ r, mret (Some r))
    "devices" devices_field [] demo_st eq_refl Hm) as [[[k Hk] (st' & Hrun)]|[_ (l & out' & st' & res & Hrun & _ & Hl & _ & Ho)]].
  { split; [|by intros r r' ->]. intros r st _ _. by exists r, st. }
  { done. }
  { assert (match (merge_field (λ r, mret (Some r)) "devices" devices_field fork_list src_list dst_list [] demo_st).1
            with Ok _ => true | Raise _ => false end = true) as Hok by (vm_compute; reflexivity).
    rewrite Hrun in Hok. discriminate Hok. }
  exists l, out', st', res. split; [exact Hrun|]. split; [exact Hl|exact Ho].
Defined.

(** A transaction over two devices runs [inside], and meanwhile the committed
    tree changes by [outside]; then the transaction is committed. *)
Definition commit_after (inside : transaction → M store unit) (outside : M store unit) : M store transaction :=
  tx ← open_transaction 0 "/";
  _ ← inside tx;
  _ ← outside;
  tx_commit tx.
Definition committed (inside : transaction → M store unit) (outside : M store unit) : result unit :=
  _ ← (commit_after inside outside demo_st).1; Ok tt.
Definition add_dev3 (tx : transaction) : M store unit :=
  _ ← tx_add tx "/devices" (MDevice dev3); mret tt.
Definition update_dev3 (tx : transaction) : M store unit :=
  _ ← tx_update tx "/devices/3" (MDevice (with_vlan 5 (bare dev3))) false; mret tt.

(** A child that a transaction adds and then updates cannot be committed: the
    dry run reads the data of [None]. *)
Example add_then_update_not_committed :
  committed add_dev3 (mret tt) = Ok tt ∧
  committed (λ tx, _ ← add_dev3 tx; update_dev3 tx) (mret tt) = Raise AttributeError.
Proof. split; vm_compute; reflexivity. Qed.

(** A device is removed and added again while a transaction removes both: the
    order of the fork is no longer that of the destination, and the index is out
    of range, or that of another device. *)
Definition remove_both (tx : transaction) : M store unit :=
  _ ← tx_remove tx "/devices/1"; _ ← tx_remove tx "/devices/2"; mret tt.
Definition readd_dev1 : M store unit :=
  _ ← root_remove "/devices/1" None;
  _ ← root_add "/devices" (MDevice dev1) None; mret tt.
Definition committed_ids (inside : transaction → M store unit) (outside : M store unit) : list attr :=
  match (latest root_id (commit_after inside outside demo_st).2).1 with
  | Ok r => keys "id" (default [] (od_get "devices" (r_children r)))
  | Raise _ => []
  end.
Example readded_child_breaks_removal :
  committed remove_both (mret tt) = Ok tt ∧
  committed remove_both readd_dev1 = Raise IndexError ∧
  committed_ids remove_both (_ ← root_add "/devices" (MDevice dev3) None; mret tt) = [AStr "3"] ∧
  committed_ids remove_both (_ ← readd_dev1; _ ← root_add "/devices" (MDevice dev3) None; mret tt) = [AStr "1"].
Proof. split_and!; vm_compute; reflexivity. Qed.
