(* ===== verification/Handlers.v ===== *)
(** * The gRPC services of the core (voltha/core/local_handler.py,
    global_handler.py, dispatcher.py)

    The local service answers requests from the configuration tree and hands
    table changes to the agents of the logical devices; the global service
    dispatches to the local one by instance and method name.  A handler is a
    function of the core's state, which includes the context of the call
    (metadata of the request, status code and details of the reply). *)

From Stdlib Require Import Ascii.
From stdpp Require Import prelude strings gmap list.
From S2P Require Import Prelude ConfigRev ConfigStore ConfigNode ConfigRoot ConfigTree ConfigUpdate ConfigAdd ConfigSpec.

Inductive StatusCode : Type := OK | INVALID_ARGUMENT | NOT_FOUND.

Record context : Type := mk_context {
  invocation_metadata : list (string * string);
  ctx_details : string;
  ctx_code : StatusCode;
}.

(** ['/' in s] *)
Fixpoint has_slash (s : string) : bool :=
  match s with
  | EmptyString => false
  | String a s => bool_decide (a = "/"%char) || has_slash s
  end.

(** The messages of voltha.proto that handlers make themselves *)
Class Messages `{Env} : Type := {
  setattr : string → attr → msg → msg;            (** [m.f = v] *)
  new_message : string → msg;                     (** [C()] *)
  items_message : string → list msg → msg;        (** [C(items=l)] *)
}.
(** Assigning a scalar field changes that field only. *)
Class MessageLaws `{Messages} : Prop := {
  setattr_type f v m : msg_type (setattr f v m) = msg_type m;
  setattr_eq f v m : getattr (setattr f v m) f = v;
  setattr_ne f g v m : f ≠ g → getattr (setattr f v m) g = getattr m g;
}.

(** The agents of logical devices, and random identifiers *)
Class CoreServices : Type := {
  agent : Type;
  flow_mod : Type;
  group_mod : Type;
  update_flow_table : flow_mod → M agent unit;
  update_group_table : group_mod → M agent unit;
  uuid4_hex : nat → string;                       (** [uuid4().hex], call by call *)
  my_instance_id : string;
}.

(** Values of AdminState and OperStatus (common.proto) *)
Definition UNKNOWN : attr := AInt 0.
Definition PREPROVISIONED : attr := AInt 1.
Definition ENABLED : attr := AInt 3.

Section handlers.
Context `{Env, !Callbacks, !PostCallbacks, !Messages, !CoreServices}.

Record core : Type := mk_core {
  k_root : store;                                 (** local_handler.root *)
  k_global : store;                               (** global_handler.root *)
  k_uuids : nat;
  k_agents : list (string * agent);               (** core.logical_device_agents *)
  k_context : context;
}.

Definition set_root st (k : core) : core := mk_core st (k_global k) (k_uuids k) (k_agents k) (k_context k).
Definition set_agents a (k : core) : core := mk_core (k_root k) (k_global k) (k_uuids k) a (k_context k).
Definition set_context c (k : core) : core := mk_core (k_root k) (k_global k) (k_uuids k) (k_agents k) c.

Inductive request : Type :=
  | Empty
  | ID (id : string)
  | NewDevice (m : msg)
  | FlowTableUpdate (id : string) (fm : flow_mod)
  | FlowGroupTableUpdate (id : string) (gm : group_mod).

(** [request.id] *)
Definition request_id (r : request) : result string :=
  match r with
  | ID id | FlowTableUpdate id _ | FlowGroupTableUpdate id _ => Ok id
  | NewDevice m => match getattr m "id" with AStr s => Ok s | _ => Raise TypeError end
  | Empty => Raise AttributeError
  end.

(** A message, or a Python list where the code returns one *)
Definition reply : Type := response.

(** ** Steps of the handlers *)

(** [context.set_details(..); context.set_code(..)] *)
Definition refuse (code : StatusCode) (details : string) : M core unit :=
  modify (λ k, set_context (mk_context (invocation_metadata (k_context k)) details code) k).
Definition malformed (what id : string) : M core unit :=
  refuse INVALID_ARGUMENT ("Malformed " ++ what ++ " id '" ++ id ++ "'").
Definition not_found (what id : string) : M core unit :=
  refuse NOT_FOUND (what ++ " '" ++ id ++ "' not found").

(** [try: m except KeyError: h] *)
Definition except_KeyError {A} (m h : M core A) : M core A := λ k,
  match m k with
  | (Raise KeyError, k') => h k'
  | rk => rk
  end.

(** [int(dict(context.invocation_metadata()).get('get-depth', 0))] *)
Definition get_depth : M core Z := λ k,
  (match od_get "get-depth" (od_of_list (invocation_metadata (k_context k))) with
   | Some s => int_of_string s
   | None => Ok 0%Z
   end, k).

(** [self.root.get(path, depth=depth)] *)
Definition root_get (path : string) (depth : Z) : M core response := λ k,
  (get (k_root k) root_id path None depth None, k).
(** An operation of [self.root] *)
Definition on_root {A} (m : M store A) : M core A := λ k,
  let '(r, st) := m (k_root k) in (r, set_root st k).
(** [C(items=items)] *)
Definition items_reply (cls : string) (r : response) : M core reply :=
  match r with
  | Many l => mret (One (items_message cls l))
  | One _ => raise TypeError
  end.
(** [agent = self.core.get_logical_device_agent(id)], and a method of it *)
Definition on_agent (id : string) (op : M agent unit) : M core unit := λ k,
  match od_get id (k_agents k) with
  | None => (Raise KeyError, k)
  | Some a => let '(r, a') := op a in (r, set_agents (od_set id a' (k_agents k)) k)
  end.

(** ** The local service (local_handler.py) *)

Definition GetVolthaInstance (r : request) : M core reply :=
  depth ← get_depth; root_get "/" depth.
Definition GetHealth (r : request) : M core reply := root_get "/health" 0.
Definition ListAdapters (r : request) : M core reply :=
  items ← root_get "/adapters" 0; items_reply "Adapters" items.
Definition ListLogicalDevices (r : request) : M core reply :=
  items ← root_get "/logical_devices" 0; items_reply "LogicalDevices" items.

Definition GetLogicalDevice (r : request) : M core reply :=
  depth ← get_depth;
  id ← lift (request_id r);
  if has_slash id then _ ← malformed "logical device" id; mret (One (new_message "LogicalDevice"))
  else except_KeyError (root_get ("/logical_devices/" ++ id) depth)
         (_ ← not_found "Logical device" id; mret (One (new_message "LogicalDevice"))).

Definition ListLogicalDevicePorts (r : request) : M core reply :=
  id ← lift (request_id r);
  if has_slash id then _ ← malformed "logical device" id; mret (One (new_message "LogicalPorts"))
  else except_KeyError
         (items ← root_get ("/logical_devices/" ++ id ++ "/ports") 0; items_reply "LogicalPorts" items)
         (_ ← not_found "Logical device" id; mret (One (new_message "LogicalPorts"))).

Definition ListLogicalDeviceFlows (r : request) : M core reply :=
  id ← lift (request_id r);
  if has_slash id then _ ← malformed "logical device" id; mret (One (new_message "Flows"))
  else except_KeyError (root_get ("/logical_devices/" ++ id ++ "/flows") 0)
         (_ ← not_found "Logical device" id; mret (One (new_message "Flows"))).

Definition UpdateLogicalDeviceFlowTable (r : request) : M core reply :=
  id ← lift (request_id r);
  if has_slash id then _ ← malformed "logical device" id; mret (One (new_message "Empty"))
  else except_KeyError
         (fm ← lift (match r with FlowTableUpdate _ fm => Ok fm | _ => Raise AttributeError end);
          _ ← on_agent id (update_flow_table fm); mret (One (new_message "Empty")))
         (_ ← not_found "Logical device" id; mret (One (new_message "Empty"))).

Definition ListLogicalDeviceFlowGroups (r : request) : M core reply :=
  id ← lift (request_id r);
  if has_slash id then _ ← malformed "logical device" id; mret (One (new_message "FlowGroups"))
  else except_KeyError (root_get ("/logical_devices/" ++ id ++ "/flow_groups") 0)
         (_ ← not_found "Logical device" id; mret (One (new_message "FlowGroups"))).

Definition UpdateLogicalDeviceFlowGroupTable (r : request) : M core reply :=
  id ← lift (request_id r);
  if has_slash id then _ ← malformed "logical device" id; mret (One (new_message "Empty"))
  else except_KeyError
         (gm ← lift (match r with FlowGroupTableUpdate _ gm => Ok gm | _ => Raise AttributeError end);
          _ ← on_agent id (update_group_table gm); mret (One (new_message "Empty")))
         (_ ← not_found "Logical device" id; mret (One (new_message "Empty"))).

Definition ListDevices (r : request) : M core reply :=
  items ← root_get "/devices" 0; items_reply "Devices" items.

Definition GetDevice (r : request) : M core reply :=
  depth ← get_depth;
  id ← lift (request_id r);
  if has_slash id then _ ← malformed "device" id; mret (One (new_message "Device"))
  else except_KeyError (root_get ("/devices/" ++ id) depth)
         (_ ← not_found "Device" id; mret (One (new_message "Device"))).

(** [dict((dt.id, dt) for dt in self.root.get('/device_types'))] *)
Definition known_device_types (st : store) : result (list (attr * msg)) :=
  r ← get st root_id "/device_types" None 0 None;
  match r with
  | Many l => Ok (od_of_list ((λ dt, (getattr dt "id", dt)) <$> l))
  | One _ => Raise TypeError
  end.

(** The assertions on a device to be created *)
Definition creatable (types : list (attr * msg)) (device : msg) : bool :=
  bool_decide (msg_type device = "Device") && bool_decide (getattr device "id" = AStr "") &&
  bool_decide (getattr device "type" ∈ od_keys types) &&
  bool_decide (getattr device "admin_state" = UNKNOWN ∨ getattr device "admin_state" = PREPROVISIONED).

(** What CreateDevice fills in *)
Definition fill (id : string) (adapter : attr) (device : msg) : msg :=
  let device := setattr "adapter" adapter (setattr "id" (AStr id) device) in
  if bool_decide (getattr device "admin_state" ≠ PREPROVISIONED)
  then setattr "oper_status" UNKNOWN (setattr "admin_state" PREPROVISIONED device)
  else device.

(** [uuid4().hex[:12]] *)
Definition new_device_id (n : nat) : string := String.substring 0 12 (uuid4_hex n).
Definition next_uuid : M core string := λ k,
  (Ok (new_device_id (k_uuids k)),
   mk_core (k_root k) (k_global k) (S (k_uuids k)) (k_agents k) (k_context k)).

(** The handler of the failed assertions reads [e.msg], which an AssertionError
    does not have.  Adding a device to the tree clears the child fields of the
    very message that is returned. *)
Definition CreateDevice (r : request) : M core reply :=
  k ← get_state;
  types ← lift (known_device_types (k_root k));
  device ← lift (match r with NewDevice m => Ok m | _ => Raise AttributeError end);
  if creatable types device then
    id ← next_uuid;
    device_type ← lift (of_option KeyError (od_get (getattr device "type") types));
    let device := fill id (getattr device_type "adapter") device in
    _ ← on_root (root_add "/devices" device None);
    fields ← lift (children_fields "Device");
    mret (One (clear_all device (od_keys fields)))
  else raise AttributeError.

Definition ActivateDevice (r : request) : M core reply :=
  id ← lift (request_id r);
  if has_slash id then _ ← malformed "device" id; mret (One (new_message "Device"))
  else
    let path := ("/devices/" ++ id)%string in
    _ ← except_KeyError
          (r ← root_get path 0;
           device ← lift (match r with One m => Ok m | Many _ => Raise AttributeError end);
           _ ← on_root (root_update path (setattr "admin_state" ENABLED device) true None);
           mret tt)
          (not_found "Device" id);
    mret (One (new_message "Empty")).

Definition ListDevicePorts (r : request) : M core reply :=
  id ← lift (request_id r);
  if has_slash id then _ ← malformed "device" id; mret (One (new_message "Ports"))
  else except_KeyError
         (items ← root_get ("/devices/" ++ id ++ "/ports") 0; items_reply "Ports" items)
         (_ ← not_found "Device" id; mret (One (new_message "Ports"))).

Definition ListDeviceFlows (r : request) : M core reply :=
  id ← lift (request_id r);
  if has_slash id then _ ← malformed "device" id; mret (One (new_message "Flows"))
  else except_KeyError (root_get ("/devices/" ++ id ++ "/flows") 0)
         (_ ← not_found "Device" id; mret (One (new_message "Flows"))).

Definition ListDeviceFlowGroups (r : request) : M core reply :=
  id ← lift (request_id r);
  if has_slash id then _ ← malformed "device" id; mret (One (new_message "FlowGroups"))
  else except_KeyError (root_get ("/devices/" ++ id ++ "/flow_groups") 0)
         (_ ← not_found "Device" id; mret (One (new_message "FlowGroups"))).

Definition ListDeviceTypes (r : request) : M core reply :=
  items ← root_get "/device_types" 0; items_reply "DeviceTypes" items.

Definition GetDeviceType (r : request) : M core reply :=
  depth ← get_depth;
  id ← lift (request_id r);
  if has_slash id then _ ← malformed "device type" id; mret (One (new_message "DeviceType"))
  else except_KeyError (root_get ("/device_types/" ++ id) depth)
         (_ ← not_found "Device type" id; mret (One (new_message "DeviceType"))).

Definition ListDeviceGroups (r : request) : M core reply :=
  items ← root_get "/device_groups" 0; items_reply "DeviceGroups" items.

Definition GetDeviceGroup (r : request) : M core reply :=
  depth ← get_depth;
  id ← lift (request_id r);
  if has_slash id then _ ← malformed "device group" id; mret (One (new_message "DeviceGroup"))
  else except_KeyError (root_get ("/device_groups/" ++ id) depth)
         (_ ← not_found "Device group" id; mret (One (new_message "DeviceGroup"))).

(** ** Dispatching (dispatcher.py) *)

(** [getattr(self.local_handler, method_name)] *)
Definition local_methods : list (string * (request → M core reply)) :=
  [("GetVolthaInstance", GetVolthaInstance); ("GetHealth", GetHealth); ("ListAdapters", ListAdapters);
   ("ListLogicalDevices", ListLogicalDevices); ("GetLogicalDevice", GetLogicalDevice);
   ("ListLogicalDevicePorts", ListLogicalDevicePorts); ("ListLogicalDeviceFlows", ListLogicalDeviceFlows);
   ("UpdateLogicalDeviceFlowTable", UpdateLogicalDeviceFlowTable);
   ("ListLogicalDeviceFlowGroups", ListLogicalDeviceFlowGroups);
   ("UpdateLogicalDeviceFlowGroupTable", UpdateLogicalDeviceFlowGroupTable);
   ("ListDevices", ListDevices); ("GetDevice", GetDevice); ("CreateDevice", CreateDevice);
   ("ActivateDevice", ActivateDevice); ("ListDevicePorts", ListDevicePorts);
   ("ListDeviceFlows", ListDeviceFlows); ("ListDeviceFlowGroups", ListDeviceFlowGroups);
   ("ListDeviceTypes", ListDeviceTypes); ("GetDeviceType", GetDeviceType);
   ("ListDeviceGroups", ListDeviceGroups); ("GetDeviceGroup", GetDeviceGroup)].

Definition dispatch (instance_id method_name : string) (input : request) : M core reply :=
  if bool_decide (instance_id = my_instance_id) then
    method ← lift (of_option AttributeError (od_get method_name local_methods));
    method input
  else raise KeyError.
Definition instance_id_by_logical_device_id (logical_device_id : string) : result string := Ok my_instance_id.
Definition instance_id_by_device_id (device_id : string) : result string := Ok my_instance_id.

(** ** The global service (global_handler.py) *)

Definition Global_GetVoltha (r : request) : M core reply := λ k, (get (k_global k) root_id "/" None 1 None, k).

Definition Global_GetVolthaInstance (r : request) : M core reply :=
  instance_id ← lift (request_id r);
  except_KeyError (dispatch instance_id "GetVolthaInstance" Empty)
    (_ ← not_found "Voltha instance" instance_id; mret (One (new_message "VolthaInstance"))).

(** The methods that look for the instance of a logical device or a device *)
Definition routed (find : string → result string) (what cls method_name : string) (r : request) : M core reply :=
  id ← lift (request_id r);
  match find id with
  | Ok instance_id => dispatch instance_id method_name r
  | Raise KeyError => _ ← not_found what id; mret (One (new_message cls))
  | Raise e => raise e
  end.

Definition Global_ListLogicalDevices (r : request) : M core reply := dispatch my_instance_id "ListLogicalDevices" Empty.
Definition Global_GetLogicalDevice : request → M core reply :=
  routed instance_id_by_logical_device_id "Logical device" "LogicalDevice" "GetLogicalDevice".
Definition Global_ListLogicalDevicePorts : request → M core reply :=
  routed instance_id_by_logical_device_id "Logical device" "Ports" "ListLogicalDevicePorts".
Definition Global_ListLogicalDeviceFlows : request → M core reply :=
  routed instance_id_by_logical_device_id "Logical device" "Flows" "ListLogicalDeviceFlows".
Definition Global_UpdateLogicalDeviceFlowTable : request → M core reply :=
  routed instance_id_by_logical_device_id "Logical device" "Empty" "UpdateLogicalDeviceFlowTable".
Definition Global_ListLogicalDeviceFlowGroups : request → M core reply :=
  routed instance_id_by_logical_device_id "Logical device" "FlowGroups" "ListLogicalDeviceFlowGroups".
Definition Global_UpdateLogicalDeviceFlowGroupTable : request → M core reply :=
  routed instance_id_by_logical_device_id "Logical device" "Empty" "UpdateLogicalDeviceFlowGroupTable".
Definition Global_ListDevices (r : request) : M core reply := dispatch my_instance_id "ListDevices" r.
Definition Global_GetDevice : request → M core reply :=
  routed instance_id_by_device_id "Device" "Device" "GetDevice".
Definition Global_CreateDevice (r : request) : M core reply := dispatch my_instance_id "CreateDevice" r.
Definition Global_ActivateDevice (r : request) : M core reply := dispatch my_instance_id "ActivateDevice" r.
Definition Global_ListDevicePorts : request → M core reply :=
  routed instance_id_by_device_id "Device" "Ports" "ListDevicePorts".
Definition Global_ListDeviceFlows : request → M core reply :=
  routed instance_id_by_device_id "Device" "Flows" "ListDeviceFlows".
Definition Global_ListDeviceFlowGroups : request → M core reply :=
  routed instance_id_by_device_id "Device" "FlowGroups" "ListDeviceFlowGroups".
Definition Global_ListDeviceTypes (r : request) : M core reply := dispatch my_instance_id "ListDeviceTypes" r.
Definition Global_GetDeviceType (r : request) : M core reply := dispatch my_instance_id "GetDeviceType" r.
Definition Global_ListDeviceGroups (r : request) : M core reply := dispatch my_instance_id "ListDeviceGroups" Empty.
Definition Global_GetDeviceGroup (r : request) : M core reply := dispatch my_instance_id "GetDeviceGroup" r.

Definition global_methods : list (string * (request → M core reply)) :=
  [("ListLogicalDevices", Global_ListLogicalDevices); ("GetLogicalDevice", Global_GetLogicalDevice);
   ("ListLogicalDevicePorts", Global_ListLogicalDevicePorts);
   ("ListLogicalDeviceFlows", Global_ListLogicalDeviceFlows);
   ("UpdateLogicalDeviceFlowTable", Global_UpdateLogicalDeviceFlowTable);
   ("ListLogicalDeviceFlowGroups", Global_ListLogicalDeviceFlowGroups);
   ("UpdateLogicalDeviceFlowGroupTable", Global_UpdateLogicalDeviceFlowGroupTable);
   ("ListDevices", Global_ListDevices); ("GetDevice", Global_GetDevice); ("CreateDevice", Global_CreateDevice);
   ("ActivateDevice", Global_ActivateDevice); ("ListDevicePorts", Global_ListDevicePorts);
   ("ListDeviceFlows", Global_ListDeviceFlows); ("ListDeviceFlowGroups", Global_ListDeviceFlowGroups);
   ("ListDeviceTypes", Global_ListDeviceTypes); ("GetDeviceType", Global_GetDeviceType);
   ("ListDeviceGroups", Global_ListDeviceGroups); ("GetDeviceGroup", Global_GetDeviceGroup)].
End handlers.
