(* ===== verification/HandlersSpec.v ===== *)
(** * The gRPC services against the configuration tree

    What the handlers answer is stated on the abstract tree of the
    configuration: looking up a resource by its id, creating a device and
    reading it back. *)

From Stdlib Require Import Ascii.
From stdpp Require Import prelude strings gmap list.
From S2P Require Import Prelude ConfigRev ConfigStore ConfigNode ConfigRoot ConfigTree ConfigUpdate ConfigAdd ConfigSpec Handlers.

(** ** Paths *)

Lemma partition_cons a s :
  a ≠ "/"%char → partition (String a s) = let '(h, t) := partition s in (String a h, t).
Proof. intros Ha. destruct a as [[] [] [] [] [] [] [] []]; done. Qed.

Lemma partition_at name rest :
  has_slash name = false → partition (name ++ String "/" rest) = (name, rest).
Proof.
  induction name as [|a name IH]; cbn [has_slash]; [done|].
  intros [Ha%bool_decide_eq_false Hn]%orb_false_iff.
  change (String a name ++ String "/" rest)%string with (String a (name ++ String "/" rest)).
  by rewrite partition_cons, IH.
Qed.

Lemma partition_last name : has_slash name = false → partition name = (name, "").
Proof.
  induction name as [|a name IH]; cbn [has_slash]; [done|].
  intros [Ha%bool_decide_eq_false Hn]%orb_false_iff. by rewrite partition_cons, IH.
Qed.

(** ** Resources of an instance *)

Definition RESOURCES : list string := ["adapters"; "logical_devices"; "devices"; "device_types"; "device_groups"].

(** The children of VolthaInstance in voltha.proto that are keyed by their id *)
Class VolthaSchema `{Env} : Prop := {
  keyed_field name : name ∈ RESOURCES → ∃ m ty,
    field_of "VolthaInstance" name = Ok (mk_child_type m ty true (Some "id") (λ s, Ok (AStr s)));
  device_scalars fields f :
    children_fields "Device" = Ok fields → f ∈ ["id"; "adapter"; "admin_state"] → f ∉ od_keys fields;
  admin_state_writable : ("admin_state", READ_ONLY) ∉ access_rights "Device";
}.

Section spec.
Context `{Env, !Callbacks, !PostCallbacks, !NoCollisions, !Proto, !Passive}.
Context `{!Messages, !MessageLaws, !CoreServices, !VolthaSchema}.

(** A local instance and its tree *)
Record instance_inv (k : core) (t : tree) : Prop := mk_instance_inv {
  in_config : config_inv (k_root k) t;
  in_type : msg_type (t_data t) = "VolthaInstance";
}.

Definition t_lookup (t : tree) (name id : string) : option tree :=
  l ← od_get name (t_children t); find (t_has_key "id" (AStr id)) l.

Lemma find_first_find {A B} p (f : A → result B) l :
  find_first p f l = match find p l with Some x => f x | None => Raise KeyError end.
Proof. induction l as [|x l IH]; [done|]. cbn. by destruct (p x). Qed.

Lemma t_get_here ns depth x : t_get ns depth x "" = One <$> t_read ns depth x.
Proof. by destruct x. Qed.

Lemma get_keyed st t name id depth :
  config_inv st t → msg_type (t_data t) = "VolthaInstance" → name ∈ RESOURCES → has_slash id = false → id ≠ "" →
  get st root_id ("/" ++ name ++ "/" ++ id) None depth None =
  match t_lookup t name id with Some x => One <$> t_read (st_nodes st) depth x | None => Raise KeyError end.
Proof.
  intros Hinv Hty Hname Hid Hne. destruct (keyed_field name Hname) as (m & ty & Hf).
  rewrite <- (ci_root _ _ Hinv), (config_get st t) by apply (pre_coh _ _ (ci_pre _ _ Hinv)).
  assert (strip_slashes ("/" ++ name ++ "/" ++ id) = (name ++ "/" ++ id)%string ∧ has_slash name = false ∧
          (name ++ "/" ++ id)%string ≠ "") as (Hs & Hns & Hne').
  { unfold RESOURCES in Hname. rewrite !elem_of_cons, elem_of_nil in Hname.
    destruct Hname as [->|[->|[->|[->|[->|[]]]]]]; done. }
  rewrite Hs. destruct t as [nid d ch]. cbn [t_get t_data] in *. rewrite bool_decide_eq_false_2 by done.
  change ("/" ++ id)%string with (String "/" id). rewrite partition_at, Hty, Hf by done.
  cbn [mbind result_bind is_container ct_key]. rewrite bool_decide_eq_false_2 by done.
  rewrite on_field_eq. unfold t_lookup. cbn [t_children].
  destruct (od_get name ch) as [l|]; [|done]. cbn [of_option mbind result_bind option_bind].
  rewrite partition_last by done. cbn [key_from_str mbind result_bind].
  rewrite find_first_find. destruct (find _ l); [|done]. apply t_get_here.
Qed.

(** The nodes of a tree are in the store. *)
Lemma lookup_node st t name id x :
  config_inv st t → t_lookup t name id = Some x → is_Some (st_nodes st !! t_node x).
Proof.
  intros Hinv Hx. unfold t_lookup in Hx. destruct (od_get name (t_children t)) as [l|] eqn:Hl; [|done].
  cbn in Hx. apply find_some in Hx as [Hin%list_elem_of_In _].
  destruct (coh_holds (st_nodes st) x) as (n & b & Hh).
  - eapply coh_child; [apply (pre_coh _ _ (ci_pre _ _ Hinv))|by apply od_get_Some_elem|done].
  - rewrite (h_node _ _ _ _ Hh). eauto.
Qed.

Lemma get_resource st t name id :
  config_inv st t → msg_type (t_data t) = "VolthaInstance" → no_get_callbacks st →
  name ∈ RESOURCES → has_slash id = false → id ≠ "" →
  get st root_id ("/" ++ name ++ "/" ++ id) None 0 None =
  match t_lookup t name id with Some x => Ok (One (t_data x)) | None => Raise KeyError end.
Proof.
  intros Hinv Hty Hno Hname Hid Hne. rewrite (get_keyed st t) by done.
  destruct (t_lookup t name id) as [x|] eqn:Hx; [|done].
  rewrite (t_read_plain st x (t_data x)); [done|done|by eapply lookup_node|by destruct x].
Qed.

(** ** Looking resources up *)

(** The handlers that answer one resource: the resource, its name in the details
    of the two errors, the class of the answer *)
Definition getters : list (string * string * string * string * (request → M core reply)) :=
  [("devices", "device", "Device", "Device", GetDevice);
   ("logical_devices", "logical device", "Logical device", "LogicalDevice", GetLogicalDevice);
   ("device_types", "device type", "Device type", "DeviceType", GetDeviceType);
   ("device_groups", "device group", "Device group", "DeviceGroup", GetDeviceGroup)].

Definition no_depth (k : core) : Prop :=
  od_get "get-depth" (od_of_list (invocation_metadata (k_context k))) = None.

Lemma get_depth_0 k : no_depth k → get_depth k = (Ok 0%Z, k).
Proof. unfold get_depth, no_depth. by intros ->. Qed.

Lemma lookup_run name small big cls id k t :
  instance_inv k t → no_get_callbacks (k_root k) → name ∈ RESOURCES → id ≠ "" →
  (if has_slash id then _ ← malformed small id; mret (One (new_message cls))
   else except_KeyError (root_get ("/" ++ name ++ "/" ++ id) 0)
          (_ ← not_found big id; mret (One (new_message cls)))) k =
  if has_slash id then (Ok (One (new_message cls)), (malformed small id k).2)
  else match t_lookup t name id with
       | Some x => (Ok (One (t_data x)), k)
       | None => (Ok (One (new_message cls)), (not_found big id k).2)
       end.
Proof.
  intros [Hinv Hty] Hno Hname Hne. destruct (has_slash id) eqn:Hs; [done|].
  unfold except_KeyError, root_get. rewrite (get_resource _ t) by done. by destruct (t_lookup t name id).
Qed.

(** A request for one device, logical device, device type or device group is
    answered from the configuration tree: an id with a slash is refused as
    malformed, an id that is not in the tree is not found, and otherwise the
    answer is the stored message; nothing but the status of the call changes. *)
Theorem lookups_answer name small big cls handler id k t :
  (name, small, big, cls, handler) ∈ getters →
  instance_inv k t → no_get_callbacks (k_root k) → no_depth k → id ≠ "" →
  handler (ID id) k =
  if has_slash id then (Ok (One (new_message cls)), (malformed small id k).2)
  else match t_lookup t name id with
       | Some x => (Ok (One (t_data x)), k)
       | None => (Ok (One (new_message cls)), (not_found big id k).2)
       end.
Proof.
  intros Hg Hinv Hno Hd Hne. unfold getters in Hg. rewrite !elem_of_cons, elem_of_nil in Hg.
  destruct Hg as [[= -> -> -> -> ->]|[[= -> -> -> -> ->]|[[= -> -> -> -> ->]|[[= -> -> -> -> ->]|[]]]]].
  - unfold GetDevice. rewrite (M_bind_eq _ _ _ _ _ (get_depth_0 k Hd)).
    rewrite <- (lookup_run "devices") by (done || (unfold RESOURCES; set_solver)). reflexivity.
  - unfold GetLogicalDevice. rewrite (M_bind_eq _ _ _ _ _ (get_depth_0 k Hd)).
    rewrite <- (lookup_run "logical_devices") by (done || (unfold RESOURCES; set_solver)). reflexivity.
  - unfold GetDeviceType. rewrite (M_bind_eq _ _ _ _ _ (get_depth_0 k Hd)).
    rewrite <- (lookup_run "device_types") by (done || (unfold RESOURCES; set_solver)). reflexivity.
  - unfold GetDeviceGroup. rewrite (M_bind_eq _ _ _ _ _ (get_depth_0 k Hd)).
    rewrite <- (lookup_run "device_groups") by (done || (unfold RESOURCES; set_solver)). reflexivity.
Qed.

(** ** Creating a device *)








(** A device that fails a check is not refused properly: the handler of the
    failed assertion raises AttributeError, so the call ends with an internal
    error instead of INVALID_ARGUMENT; nothing is stored. *)
Theorem create_device_fails k types device :
  known_device_types (k_root k) = Ok types → creatable types device = false →
  CreateDevice (NewDevice device) k = (Raise AttributeError, k).
Proof.
  intros Htypes Hok. unfold CreateDevice. rewrite (M_bind_eq _ _ k k k) by done.
  rewrite (M_bind_eq _ _ k types k) by (unfold lift; by rewrite Htypes).
  rewrite (M_bind_eq _ _ k device k) by done. by rewrite Hok.
Qed.
(** ** Activating a device *)

Lemma alter_first_find {A} p (f : A → result A) l x y :
  find p l = Some x → f x = Ok y → p y = true →
  ∃ l', alter_first p f l = Ok l' ∧ find p l' = Some y ∧
    ∀ q, q x = false → q y = false → find q l' = find q l.
Proof.
  induction l as [|z l IH]; [done|]. cbn [find alter_first]. destruct (p z) eqn:Hz.
  - intros [= ->] Hf Hy. exists (y :: l). rewrite Hf. cbn. rewrite Hy. split_and!; [done..|].
    intros q Hqx Hqy. by rewrite Hqx, Hqy.
  - intros Hx Hf Hy. destruct (IH Hx Hf Hy) as (l' & Hl' & Hfind & Hq). exists (z :: l').
    cbn in *. rewrite Hl'. cbn. rewrite Hz. split_and!; [done..|]. intros q Hqx Hqy. by rewrite Hq.
Qed.

(** Writing the message of a resource, when the checks of [update] pass *)
Lemma update_keyed st t name id x data :
  config_inv st t → msg_type (t_data t) = "VolthaInstance" → name ∈ RESOURCES → has_slash id = false → id ≠ "" →
  t_lookup t name id = Some x → msg_type data = msg_type (t_data x) → getattr data "id" = AStr id →
  test_no_children (msg_type (t_data x)) data = Ok tt → hook (st_nodes st) PRE_UPDATE (t_node x) data = Ok tt →
  check_access_violation data (t_data x) = Ok tt →
  ∃ r st' t' x', root_update ("/" ++ name ++ "/" ++ id) data true None st = (Ok r, st') ∧ config_inv st' t' ∧
    t_data t' = t_data t ∧ t_lookup t' name id = Some x' ∧ t_data x' = data ∧
    ∀ name' id', (name', id') ≠ (name, id) → t_lookup t' name' id' = t_lookup t name' id'.
Proof.
  intros Hinv Hty Hname Hid Hne Hx Hdty Hdid Hno Hhook Hacc. destruct (keyed_field name Hname) as (m & ty & Hf).
  assert (strip_slashes ("/" ++ name ++ "/" ++ id) = (name ++ "/" ++ id)%string ∧ has_slash name = false ∧
          (name ++ "/" ++ id)%string ≠ "") as (Hs & Hns & Hne').
  { unfold RESOURCES in Hname. rewrite !elem_of_cons, elem_of_nil in Hname.
    destruct Hname as [->|[->|[->|[->|[->|[]]]]]]; done. }
  assert (∃ y, t_write (st_nodes st) data true x = Ok y ∧ t_data y = data) as (y & Hy & Hyd).
  { destruct x as [nx dx cx]. cbn [t_write t_data t_node] in *. rewrite bool_decide_eq_true_2, Hno, Hhook by done.
    cbn [mbind result_bind]. case_bool_decide as Heq; [by subst; eauto|]. rewrite Hacc. cbn. eauto. }
  unfold t_lookup in Hx. destruct (od_get name (t_children t)) as [l|] eqn:Hl; [|done]. cbn in Hx.
  destruct (alter_first_find (t_has_key "id" (AStr id))
    (λ x, y ← t_update (st_nodes st) data true x ""; same_key "id" (AStr id) y) l x y) as (l' & Hl' & Hfind & Hq).
  { done. }
  { assert (t_update (st_nodes st) data true x "" = Ok y) as -> by (rewrite <- Hy; by destruct x). cbn. unfold same_key.
    rewrite bool_decide_eq_false_2; [done|]. intros Hc. apply Hc. by rewrite Hyd, Hdid. }
  { unfold t_has_key. rewrite Hyd, Hdid. by apply bool_decide_eq_true. }
  pose proof (cmd_step st t (CUpdate ("/" ++ name ++ "/" ++ id) data true) Hinv I) as Hstep. cbn [t_cmd run_cmd] in Hstep.
  assert (t_update (st_nodes st) data true t ("/" ++ name ++ "/" ++ id) =
          Ok (T (t_node t) (t_data t) (od_set name l' (t_children t)))) as Hup.
  { destruct t as [nid d ch]. cbn [t_update t_data t_node t_children] in *. rewrite Hs, bool_decide_eq_false_2 by done.
    change ("/" ++ id)%string with (String "/" id). rewrite partition_at, Hty, Hf by done.
    cbn [mbind result_bind is_container ct_key]. rewrite bool_decide_eq_false_2 by done.
    rewrite partition_last by done. cbn [key_from_str mbind result_bind].
    by rewrite alter_field_eq, Hl, Hl'. }
  rewrite Hup in Hstep. destruct Hstep as (r & st' & Hrun & _ & Hinv'). exists r, st'. eexists _, y.
  split_and!; [done|done|done| |done|].
  - unfold t_lookup. cbn [t_children]. by rewrite od_get_set.
  - intros name' id' Hne2. unfold t_lookup. cbn [t_children]. destruct (decide (name' = name)) as [->|Hn].
    + rewrite od_get_set, Hl. cbn. apply find_some in Hx as [_ Hxk%bool_decide_eq_true].
      apply Hq; unfold t_has_key; apply bool_decide_eq_false; rewrite ?Hxk, ?Hyd, ?Hdid; congruence.
    + by rewrite od_get_set_ne by congruence.
Qed.

Lemma activation_allowed m :
  msg_type m = "Device" → check_access_violation (setattr "admin_state" ENABLED m) m = Ok tt.
Proof.
  intros Hm. unfold check_access_violation. rewrite setattr_type, Hm.
  assert (forallb (λ fa, negb (bool_decide (fa.2 = READ_ONLY)) ||
    bool_decide (getattr (setattr "admin_state" ENABLED m) fa.1 = getattr m fa.1)) (access_rights "Device") = true) as ->;
    [|done].
  apply forallb_forall. intros [f a] Hin%list_elem_of_In. cbn [fst snd]. case_bool_decide as Ha; [|done]. cbn.
  apply bool_decide_eq_true, setattr_ne. intros <-. subst a. by apply admin_state_writable.
Qed.

(** Activating a device writes the admin state ENABLED to it, and nothing else:
    the strict check of read-only fields lets the change pass, the device is
    found under its id with that state and all its other fields, every other
    resource is as before, and the call succeeds. *)
Theorem activate_device_enables k t id x :
  let d := setattr "admin_state" ENABLED (t_data x) in
  instance_inv k t → no_get_callbacks (k_root k) → has_slash id = false → id ≠ "" →
  t_lookup t "devices" id = Some x → msg_type (t_data x) = "Device" →
  test_no_children "Device" d = Ok tt → hook (st_nodes (k_root k)) PRE_UPDATE (t_node x) d = Ok tt →
  ∃ k' t' x', ActivateDevice (ID id) k = (Ok (One (new_message "Empty")), k') ∧ instance_inv k' t' ∧
    k_context k' = k_context k ∧ t_lookup t' "devices" id = Some x' ∧ t_data x' = d ∧
    ∀ name id', (name, id') ≠ ("devices", id) → t_lookup t' name id' = t_lookup t name id'.
Proof.
  intros d [Hinv Hty] Hno Hslash Hne Hx Hxt Hkids Hhook.
  assert ("devices" ∈ RESOURCES) as Hname by (unfold RESOURCES; set_solver).
  assert (getattr (t_data x) "id" = AStr id) as Hxid.
  { unfold t_lookup in Hx. destruct (od_get _ _); [|done]. cbn in Hx.
    by apply find_some in Hx as [_ ?%bool_decide_eq_true]. }
  destruct (update_keyed _ t "devices" id x d Hinv Hty Hname Hslash Hne Hx) as (r & st' & t' & x' & Hup & Hinv' & Htd & Hx' & Hd & Hframe).
  { unfold d. apply setattr_type. }
  { unfold d. by rewrite setattr_ne. }
  { by rewrite Hxt. }
  { done. }
  { by apply activation_allowed. }
  exists (set_root st' k), t', x'. split_and!; [|split; [done|by rewrite Htd]|done..].
  unfold ActivateDevice. rewrite (M_bind_eq _ _ k id k) by done. rewrite Hslash. cbv zeta.
  rewrite (M_bind_eq _ _ k tt (set_root st' k)); [done|]. unfold except_KeyError.
  change ("/devices/" ++ id)%string with ("/" ++ "devices" ++ "/" ++ id)%string.
  rewrite (M_bind_eq _ _ k (One (t_data x)) k) by (unfold root_get; by rewrite (get_resource _ t), Hx by done).
  rewrite (M_bind_eq _ _ k (t_data x) k) by done.
  fold d. by rewrite (M_bind_eq _ _ k r (set_root st' k)) by (unfold on_root; by rewrite Hup).
Qed.
End spec.
