(* ===== verification/HandlersDemo.v ===== *)
(** * The gRPC services: a small schema, and witnesses *)

From Stdlib Require Import Ascii.
From stdpp Require Import prelude strings gmap list countable.
From S2P Require Import Prelude ConfigRev ConfigStore ConfigNode ConfigRoot ConfigTree ConfigUpdate ConfigAdd ConfigSpec Handlers HandlersSpec.

(** ** Messages: an instance with keyed resources, devices with ports *)

Record leaf := mk_leaf { l_cls : string; l_attrs : list (string * attr) }.
Record mid := mk_mid { d_cls : string; d_attrs : list (string * attr); d_ports : list leaf }.
Record top := mk_top { v_attrs : list (string * attr); v_fields : list (string * list mid) }.
Inductive hmsg : Type := L (m : leaf) | D (m : mid) | V (m : top).

#[export] Instance leaf_eq_dec : EqDecision leaf. Proof. solve_decision. Defined.
#[export] Instance mid_eq_dec : EqDecision mid. Proof. solve_decision. Defined.
#[export] Instance top_eq_dec : EqDecision top. Proof. solve_decision. Defined.
#[export] Instance hmsg_eq_dec : EqDecision hmsg. Proof. solve_decision. Defined.

#[export] Program Instance attr_countable : Countable attr :=
  inj_countable' (λ a, match a with AStr s => inl s | AInt z => inr (inl z) | AOther p => inr (inr p) end)
    (λ x, match x with inl s => AStr s | inr (inl z) => AInt z | inr (inr p) => AOther p end) _.
Next Obligation. by intros []. Qed.
#[export] Program Instance leaf_countable : Countable leaf :=
  inj_countable' (λ m, (l_cls m, l_attrs m)) (λ x, mk_leaf x.1 x.2) _.
Next Obligation. by intros []. Qed.
#[export] Program Instance mid_countable : Countable mid :=
  inj_countable' (λ m, (d_cls m, d_attrs m, d_ports m)) (λ x, mk_mid x.1.1 x.1.2 x.2) _.
Next Obligation. by intros []. Qed.
#[export] Program Instance top_countable : Countable top :=
  inj_countable' (λ m, (v_attrs m, v_fields m)) (λ x, mk_top x.1 x.2) _.
Next Obligation. by intros []. Qed.
#[export] Program Instance hmsg_countable : Countable hmsg :=
  inj_countable' (λ m, match m with L m => inl m | D m => inr (inl m) | V m => inr (inr m) end)
    (λ x, match x with inl m => L m | inr (inl m) => D m | inr (inr m) => V m end) _.
Next Obligation. by intros []. Qed.

Definition keyed (name cls : string) : field_desc :=
  mk_field_desc name 3 true (Some "id") None TYPE_STRING "voltha_pb2" cls.
Definition h_descriptor (cls : string) : list field_desc :=
  if bool_decide (cls = "VolthaInstance") then
    [keyed "adapters" "Adapter"; keyed "logical_devices" "LogicalDevice"; keyed "devices" "Device";
     keyed "device_types" "DeviceType"; keyed "device_groups" "DeviceGroup"]
  else if bool_decide (cls = "Device") then
    [mk_field_desc "id" 1 true None (Some READ_ONLY) TYPE_OTHER "device_pb2" "string";
     mk_field_desc "type" 1 true None (Some READ_ONLY) TYPE_OTHER "device_pb2" "string";
     mk_field_desc "adapter" 1 true None (Some READ_ONLY) TYPE_OTHER "device_pb2" "string";
     mk_field_desc "admin_state" 1 false None None TYPE_OTHER "device_pb2" "AdminState";
     mk_field_desc "ports" 3 true (Some "port_no") None TYPE_INTEGRAL "device_pb2" "Port"]
  else [].

Definition h_attrs (m : hmsg) : list (string * attr) :=
  match m with L m => l_attrs m | D m => d_attrs m | V m => v_attrs m end.
Definition h_type (m : hmsg) : string :=
  match m with L m => l_cls m | D m => d_cls m | V _ => "VolthaInstance" end.
Definition h_getattr (m : hmsg) (f : string) : attr := default (AStr "") (od_get f (h_attrs m)).
Definition h_repeated (m : hmsg) (f : string) : list hmsg :=
  match m with
  | L _ => []
  | D m => if bool_decide (f = "ports") then L <$> d_ports m else []
  | V m => D <$> default [] (od_get f (v_fields m))
  end.
Definition h_clear (m : hmsg) (f : string) : hmsg :=
  match m with
  | L m => L m
  | D m => if bool_decide (f = "ports") then D (mk_mid (d_cls m) (d_attrs m) []) else D m
  | V m => V (mk_top (v_attrs m) (od_set f [] (v_fields m)))
  end.
Definition h_add (m : hmsg) (f : string) (c : hmsg) : hmsg :=
  match m, c with
  | D m, L c => if bool_decide (f = "ports") then D (mk_mid (d_cls m) (d_attrs m) (d_ports m ++ [c])) else D m
  | V m, D c => V (mk_top (v_attrs m) (od_set f (default [] (od_get f (v_fields m)) ++ [c]) (v_fields m)))
  | m, _ => m
  end.
Definition h_set (f : string) (v : attr) (m : hmsg) : hmsg :=
  match m with
  | L m => L (mk_leaf (l_cls m) (od_set f v (l_attrs m)))
  | D m => D (mk_mid (d_cls m) (od_set f v (d_attrs m)) (d_ports m))
  | V m => V (mk_top (od_set f v (v_attrs m)) (v_fields m))
  end.
Definition h_depth (m : hmsg) : nat := match m with L _ => 0 | D _ => 1 | V _ => 2 end.

#[export] Instance h_env : Env := {|
  msg := hmsg;
  hash := positive;
  DESCRIPTOR := h_descriptor;
  msg_type := h_type;
  getattr := h_getattr;
  get_repeated := h_repeated;
  get_message := λ _ _, L (mk_leaf "" []);
  HasField := λ _ _, false;
  ClearField := h_clear;
  add_MergeFrom := h_add;
  MergeFrom := λ m _ _, m;
  msg_depth := h_depth;
  md5_data := λ m, encode (inl m : hmsg + positive * list positive);
  md5_content := λ h l, encode (inr (h, l) : hmsg + positive * list positive);
|}.
#[export] Instance h_callbacks : Callbacks := {| call_sync := λ _ m, Ok m |}.
(** The deferred callback makes a proxy of a device, as the core does. *)
#[export] Instance h_post : PostCallbacks :=
  {| call_post := λ _ d, _ ← get_proxy root_id "/devices/olt1" false; mret d; cb_fuel := 10 |}.
#[export] Instance h_messages : Messages := {|
  setattr := h_set;
  new_message := λ cls, L (mk_leaf cls []);
  items_message := λ cls l, L (mk_leaf cls [("items", AInt (Z.of_nat (length l)))]);
|}.
#[export] Instance h_services : CoreServices := {|
  agent := unit; flow_mod := unit; group_mod := unit;
  update_flow_table := λ _ a, (Ok tt, a); update_group_table := λ _ a, (Ok tt, a);
  uuid4_hex := λ _, "4f2a9c0b71de83aa5c01";
  my_instance_id := "compose_voltha_1";
|}.

(** ** The laws *)

#[export] Instance h_no_collisions : NoCollisions (H := h_env).
Proof.
  split.
  - intros m m' Heq. apply (inj encode) in Heq. by injection Heq.
  - intros h l h' l' Heq. apply (inj encode) in Heq. by injection Heq.
Qed.
#[export] Instance h_passive : Passive (H := h_env).
Proof.
  split; [|simpl; lia]. intros c d.
  assert (rel_post proxies_only (_ ← get_proxy (H := h_env) root_id "/devices/olt1" false; mret d)) as Hp;
    [|exact Hp].
  apply rel_post_bind; [apply _|apply po_get_proxy|]. intros _ st. reflexivity.
Qed.
#[export] Instance h_message_laws : MessageLaws (H := h_env).
Proof.
  split.
  - by intros f v [].
  - intros f v m. cbn. unfold h_getattr. destruct m; cbn; by rewrite od_get_set.
  - intros f g v m Hne. cbn. unfold h_getattr. destruct m; cbn; by rewrite od_get_set_ne.
Qed.

Definition resource_fields : list (string * child_type) :=
  (λ nc, (nc.1, mk_child_type "voltha_pb2" nc.2 true (Some "id") (λ s, Ok (AStr s)))) <$>
  [("adapters", "Adapter"); ("logical_devices", "LogicalDevice"); ("devices", "Device");
   ("device_types", "DeviceType"); ("device_groups", "DeviceGroup")].
Definition port_fields : list (string * child_type) :=
  [("ports", mk_child_type "device_pb2" "Port" true (Some "port_no") (λ s, z ← int_of_string s; Ok (AInt z)))].

Lemma h_fields cls fields : children_fields (H := h_env) cls = Ok fields →
  cls = "VolthaInstance" ∧ fields = resource_fields ∨ cls = "Device" ∧ fields = port_fields ∨ fields = [].
Proof.
  unfold children_fields. cbn [DESCRIPTOR h_env]. unfold h_descriptor.
  case_bool_decide as Hi; [intros [= <-]; auto|].
  case_bool_decide as Hd; [intros [= <-]; auto|]. intros [= <-]. auto.
Qed.
Lemma h_field cls name field : field_of (H := h_env) cls name = Ok field →
  is_container field = true ∧ (ct_key field = Some "id" ∨ ct_key field = Some "port_no").
Proof.
  unfold field_of. intros (fields & Hfs & Hf%of_option_Ok)%result_bind_Ok.
  destruct (h_fields _ _ Hfs) as [[_ ->]|[[_ ->]| ->]]; cbn in Hf; repeat (case_decide; simplify_eq/=); auto; done.
Qed.

#[export] Instance h_proto : Proto (H := h_env).
Proof.
  split.
  - intros m f. destruct m; cbn; by repeat case_bool_decide.
  - intros m f k Hne. destruct m; cbn; by repeat case_bool_decide.
  - intros m f g Hne. destruct m as [m|m|m]; cbn; [done| |by rewrite od_get_set_ne].
    repeat (case_bool_decide; cbn); congruence.
  - done.
  - intros m f field c _ _ Hc. destruct m as [m|m|m]; cbn in *.
    + by apply not_elem_of_nil in Hc.
    + case_bool_decide; [|by apply not_elem_of_nil in Hc]. apply list_elem_of_fmap in Hc as (? & -> & _). cbn. lia.
    + apply list_elem_of_fmap in Hc as (? & -> & _). cbn. lia.
  - intros m f field [Hc _]%h_field. congruence.
  - intros cls f field k cls' fields [_ Hk]%h_field _ Hk' Hfs. destruct Hk as [Hk|Hk]; rewrite Hk in Hk';
      injection Hk' as <-; destruct (h_fields _ _ Hfs) as [[_ ->]|[[_ ->]| ->]]; by apply (bool_decide_unpack _).
Qed.

#[export] Instance h_schema : VolthaSchema (H := h_env).
Proof.
  split.
  - intros name Hn. unfold RESOURCES in Hn. rewrite !elem_of_cons, elem_of_nil in Hn.
    destruct Hn as [->|[->|[->|[->|[->|[]]]]]]; eexists _, _; reflexivity.
  - intros fields f [[Hd _]|[[_ ->]| ->]]%h_fields; [done| |by intros _ ?%not_elem_of_nil].
    rewrite !elem_of_cons, elem_of_nil. intros [->|[->|[->|[]]]]; by apply (bool_decide_unpack _).
  - by apply (bool_decide_unpack _).
Qed.

(** ** An instance with one device and one device type *)

Definition olt : mid :=
  mk_mid "Device" [("id", AStr "olt1"); ("type", AStr "simulated_olt"); ("adapter", AStr "simulated_olt");
                   ("admin_state", PREPROVISIONED)] [mk_leaf "Port" [("port_no", AInt 1)]].
Definition olt_type : mid := mk_mid "DeviceType" [("id", AStr "simulated_olt"); ("adapter", AStr "sim_adapter")] [].
Definition h_inst : hmsg := V (mk_top [] [("devices", [olt]); ("device_types", [olt_type])]).
Definition h_st : store := (new_root h_inst (empty_store None)).2.
Definition h_tree : tree :=
  match (latest root_id h_st).1 with Ok r => abs r | Raise _ => T 0 (h_inst : @msg h_env) [] end.
Definition h_core : core := mk_core h_st h_st 0 [] (mk_context [] "" OK).

Lemma h_leaf_ok (m : hmsg) : children_fields (H := h_env) (h_type m) = Ok [] → data_ok (H := h_env) m.
Proof. intros Hf. by eapply data_ok_intro. Qed.

(** Devices whose ports are leaves with distinct numbers *)
Lemma h_device_ok (d : mid) :
  d_cls d = "Device" → Forall (λ p, l_cls p = "Port") (d_ports d) →
  NoDup (map (λ p, h_getattr (L p) "port_no") (d_ports d)) → data_ok (H := h_env) (D d).
Proof.
  intros Hc Hp Hnd. eapply (data_ok_intro (D d : @msg h_env) port_fields).
  - cbn [msg_type h_env h_type]. by rewrite Hc.
  - intros name field k Hg _ Hk. cbn in Hg. case_decide; [|done]. simplify_eq/=. by rewrite map_map.
  - intros name field c Hg Hin. cbn in Hg. case_decide; [|done]. simplify_eq/=. unfold kids in Hin. cbn in Hin.
    apply list_elem_of_fmap in Hin as (p & -> & Hin). apply h_leaf_ok. cbn.
    apply list_elem_of_In in Hin. rewrite List.Forall_forall in Hp. by rewrite (Hp p Hin).
Qed.

Lemma h_data_ok : data_ok (H := h_env) h_inst.
Proof.
  eapply (data_ok_intro (h_inst : @msg h_env) resource_fields); [done|..]; intros name field.
  - intros k Hg _ Hk. cbn in Hg. repeat (case_decide; simplify_eq/=); by apply (bool_decide_unpack _).
  - intros c Hg Hin. unfold kids in Hin. cbn in Hg. repeat (case_decide; simplify_eq/=);
      rewrite ?elem_of_cons, ?elem_of_nil in Hin; destruct_or?; try done; subst.
    + apply h_device_ok; [done|by repeat constructor|by apply (bool_decide_unpack _)].
    + by apply h_leaf_ok.
Qed.

Lemma h_config : config_inv h_st h_tree.
Proof.
  destruct (new_root_inv (H := h_env) h_inst None h_data_ok) as (st & t & Hnew & Hinv & _).
  assert (h_st = st) as Hst by (unfold h_st; by rewrite Hnew).
  destruct (coh_holds _ _ (pre_coh _ _ (ci_pre _ _ Hinv))) as (n & b & Hh).
  assert (latest root_id st = (Ok (b_latest b), st)) as Hlat.
  { pose proof (h_node _ _ _ _ Hh) as Hn. rewrite (ci_root _ _ Hinv) in Hn. unfold latest.
    rewrite (M_bind_eq _ _ _ n st) by (unfold get_node; by rewrite Hn).
    by rewrite (M_bind_eq _ _ _ b st) by (unfold lift; by rewrite (h_branch _ _ _ _ Hh)). }
  unfold h_tree. rewrite Hst, Hlat. cbn [fst]. by rewrite (latest_holds _ _ _ _ _ Hh (ci_root _ _ Hinv) Hlat).
Qed.

Lemma h_instance : instance_inv h_core h_tree.
Proof. split; [exact h_config|vm_compute; reflexivity]. Qed.
(** No node has a proxy, so no callback rewrites what is read or refuses a write. *)
Lemma h_no_proxies : map_Forall (λ _ n, n_proxy n = None) (st_nodes h_st).
Proof. apply (bool_decide_unpack _). vm_compute. exact I. Qed.
Lemma h_no_get : no_get_callbacks (k_root h_core).
Proof. intros nid n px Hn Hpx. apply (h_no_proxies nid n) in Hn. congruence. Qed.
Lemma h_hook ty nid data : is_Some (st_nodes h_st !! nid) → hook (st_nodes h_st) ty nid data = Ok tt.
Proof. intros [n Hn]. unfold hook, pre_hook. by rewrite Hn, (h_no_proxies nid n Hn). Qed.

Definition stored_olt : hmsg := D (mk_mid "Device" (d_attrs olt) []).

Lemma h_olt : ∃ x, t_lookup h_tree "devices" "olt1" = Some x ∧ t_data x = (stored_olt : @msg h_env).
Proof.
  assert (t_data <$> t_lookup h_tree "devices" "olt1" = Some (stored_olt : @msg h_env)) as Hx
    by (vm_compute; reflexivity).
  destruct (t_lookup h_tree "devices" "olt1") as [x|]; [|done]. exists x. split; [done|]. by injection Hx.
Qed.

Lemma lookups_answer_witness :
  GetDevice (ID "olt1") h_core = (Ok (One (stored_olt : @msg h_env)), h_core).
Proof.
  rewrite (lookups_answer "devices" "device" "Device" "Device" GetDevice "olt1" h_core h_tree
    ltac:(left) h_instance h_no_get ltac:(reflexivity) ltac:(discriminate)).
  change (has_slash "olt1") with false. destruct h_olt as (x & -> & ->). reflexivity.
Defined.

Definition h_types : list (attr * hmsg) := [(AStr "simulated_olt", D olt_type)].




Lemma create_device_fails_witness :
  CreateDevice (NewDevice (stored_olt : @msg h_env)) h_core = (Raise AttributeError, h_core).
Proof. apply (create_device_fails h_core h_types); [vm_compute; reflexivity|reflexivity]. Defined.

Lemma activate_device_enables_witness :
  ∃ k' t', ActivateDevice (ID "olt1") h_core = (Ok (One (new_message "Empty")), k') ∧ instance_inv k' t'.
Proof.
  destruct h_olt as (x & Hx & Hd).
  destruct (activate_device_enables h_core h_tree "olt1" x) as (k' & t' & x' & Hrun & Hin & _);
    [exact h_instance|exact h_no_get|reflexivity|discriminate|exact Hx|by rewrite Hd|by rewrite Hd| |].
  - apply h_hook. exact (lookup_node _ _ _ _ _ h_config Hx).
  - exists k', t'. exact (conj Hrun Hin).
Defined.

(** An empty id makes the path of the whole list: the answer is a Python list
    instead of a message, which gRPC cannot serialize. *)
Example empty_id_lists : (GetDevice (ID "") h_core).1 = Ok (Many [stored_olt : @msg h_env]).
Proof. vm_compute. reflexivity. Qed.
