(* ===== verification/OFP.v ===== *)
(** * OpenFlow messages and their constructors (voltha/core/flow_decomposer.py)

    The OpenFlow 1.3 messages of voltha/protos/openflow_13.proto that flow
    handling reads and writes, with the constructors, extractors and
    conversions at the top of flow_decomposer.py.  Protobuf messages are
    values; reading a member of a oneof that is not set yields its default.
    The flow hash is MD5 over the formatted key fields: a parameter. *)

From stdpp Require Import prelude strings list.
From S2P Require Import Prelude.

(** ** Constants of openflow_13.proto *)

Definition OFPP_CONTROLLER : Z := 0x7ffffffd.
Definition OFPP_ANY : Z := 0x7fffffff.
Definition OFPG_ALL : Z := 0x7ffffffc.
Definition OFPG_ANY : Z := 0x7fffffff.
Definition OFPTT_ALL : Z := 0xff.
Definition OFPVID_PRESENT : Z := 0x1000.
Definition OFPCML_MAX : Z := 0xffe5.
Definition OFPMT_OXM : Z := 1.
Definition OFPXMC_OPENFLOW_BASIC : Z := 0x8000.
Definition OFPIT_GOTO_TABLE : Z := 1.
Definition OFPIT_APPLY_ACTIONS : Z := 4.
Definition OFPFC_ADD : Z := 0.
Definition OFPFC_MODIFY : Z := 1.
Definition OFPFC_MODIFY_STRICT : Z := 2.
Definition OFPFC_DELETE : Z := 3.
Definition OFPFC_DELETE_STRICT : Z := 4.
Definition OFPFF_SEND_FLOW_REM : Z := 1.
Definition OFPFF_CHECK_OVERLAP : Z := 2.
Definition OFPFF_RESET_COUNTS : Z := 4.
Definition OFPGC_ADD : Z := 0.
Definition OFPGC_MODIFY : Z := 1.
Definition OFPGC_DELETE : Z := 2.
Definition OFPGT_ALL : Z := 0.

(** OFPAT_* shortcuts *)
Definition OUTPUT : Z := 0.
Definition SET_MPLS_TTL : Z := 15.
Definition PUSH_VLAN : Z := 17.
Definition POP_VLAN : Z := 18.
Definition POP_MPLS : Z := 20.
Definition GROUP : Z := 22.
Definition NW_TTL : Z := 24.
Definition SET_FIELD : Z := 25.
Definition EXPERIMENTER : Z := 0xffff.

(** OFPXMT_OFB_* shortcuts *)
Definition IN_PORT : Z := 0.
Definition ETH_TYPE : Z := 5.
Definition VLAN_VID : Z := 6.
Definition VLAN_PCP : Z := 7.
Definition IP_DSCP : Z := 8.
Definition IP_ECN : Z := 9.
Definition IP_PROTO : Z := 10.
Definition IPV4_SRC : Z := 11.
Definition IPV4_DST : Z := 12.
Definition TCP_SRC : Z := 13.
Definition TCP_DST : Z := 14.
Definition UDP_SRC : Z := 15.
Definition UDP_DST : Z := 16.
Definition SCTP_SRC : Z := 17.
Definition SCTP_DST : Z := 18.
Definition ICMPV4_TYPE : Z := 19.
Definition ICMPV4_CODE : Z := 20.
Definition ARP_OP : Z := 21.
Definition ARP_SPA : Z := 22.
Definition ARP_TPA : Z := 23.
Definition ARP_SHA : Z := 24.
Definition ARP_THA : Z := 25.

(** ** Messages *)

(** The oneof of a match field: the member's name and value. *)
Inductive ofb_value : Type :=
  | NoValue
  | IntValue (member : string) (v : Z)
  | BytesValue (member : string) (v : string).

Record ofb_field : Type := mk_ofb_field {
  f_type : Z;
  f_has_mask : bool;
  f_value : ofb_value;
  f_mask : ofb_value;
}.

(** [field.<member>] for an integer member *)
Definition f_int (member : string) (f : ofb_field) : Z :=
  match f_value f with
  | IntValue m v => if bool_decide (m = member) then v else 0
  | _ => 0
  end.

(** ofp_oxm_field: the class and the oneof of a basic or experimenter field *)
Record oxm_field : Type := mk_oxm_field {
  oxm_class : Z;
  oxm_body : ofb_field + string;
}.
Definition default_ofb : ofb_field := mk_ofb_field 0 false NoValue NoValue.
Definition oxm_ofb_field (f : oxm_field) : ofb_field :=
  match oxm_body f with inl f => f | inr _ => default_ofb end.

Record ofp_match : Type := mk_match { m_type : Z; m_oxm_fields : list oxm_field }.

Inductive action_body : Type :=
  | NoBody
  | ActOutput (port max_len : Z)
  | ActMplsTtl (ttl : Z)
  | ActPush (ethertype : Z)
  | ActPopMpls (ethertype : Z)
  | ActGroup (group_id : Z)
  | ActNwTtl (ttl : Z)
  | ActSetField (field : oxm_field)
  | ActExperimenter (experimenter : Z) (data : string).

Record action : Type := mk_action { a_type : Z; a_body : action_body }.

(** [action.output.port], [action.group.group_id], [action.push.ethertype] and
    [action.set_field.field] *)
Definition a_output_port (a : action) : Z :=
  match a_body a with ActOutput p _ => p | _ => 0 end.
Definition a_group_id (a : action) : Z :=
  match a_body a with ActGroup g => g | _ => 0 end.
Definition a_push_ethertype (a : action) : Z :=
  match a_body a with ActPush e => e | _ => 0 end.
Definition a_set_field (a : action) : oxm_field :=
  match a_body a with ActSetField f => f | _ => mk_oxm_field 0 (inr "") end.

Inductive instruction_body : Type :=
  | NoInstruction
  | InsGotoTable (table_id : Z)
  | InsActions (actions : list action)
  | InsOther (code : positive).

Record instruction : Type := mk_instruction { i_type : Z; i_body : instruction_body }.

Definition i_actions (i : instruction) : list action :=
  match i_body i with InsActions l => l | _ => [] end.
Definition i_table_id (i : instruction) : Z :=
  match i_body i with InsGotoTable t => t | _ => 0 end.

Record flow_stats : Type := mk_flow_stats {
  fs_id : Z;
  fs_table_id : Z;
  fs_priority : Z;
  fs_idle_timeout : Z;
  fs_hard_timeout : Z;
  fs_flags : Z;
  fs_cookie : Z;
  fs_packet_count : Z;
  fs_byte_count : Z;
  fs_match : ofp_match;
  fs_instructions : list instruction;
}.

Record flow_mod : Type := mk_flow_mod {
  fm_cookie : Z;
  fm_cookie_mask : Z;
  fm_table_id : Z;
  fm_command : Z;
  fm_idle_timeout : Z;
  fm_hard_timeout : Z;
  fm_priority : Z;
  fm_buffer_id : Z;
  fm_out_port : Z;
  fm_out_group : Z;
  fm_flags : Z;
  fm_match : ofp_match;
  fm_instructions : list instruction;
}.

Record bucket : Type := mk_bucket {
  bk_weight : Z;
  bk_watch_port : Z;
  bk_watch_group : Z;
  bk_actions : list action;
}.
Record group_mod : Type := mk_group_mod {
  gm_command : Z;
  gm_type : Z;
  gm_group_id : Z;
  gm_buckets : list bucket;
}.
Record group_stats : Type := mk_group_stats {
  gs_group_id : Z;
  gs_ref_count : Z;
  gs_packet_count : Z;
  gs_byte_count : Z;
  gs_duration_sec : Z;
  gs_duration_nsec : Z;
  gs_bucket_stats : list (Z * Z);    (** packet and byte count of ofp_bucket_counter *)
}.
(** ofp_group_entry: its [desc] and its [stats] *)
Record group_entry : Type := mk_group_entry {
  ge_type : Z;
  ge_group_id : Z;
  ge_buckets : list bucket;
  ge_stats : group_stats;
}.

#[export] Instance ofb_value_eq_dec : EqDecision ofb_value. Proof. solve_decision. Defined.
#[export] Instance ofb_field_eq_dec : EqDecision ofb_field. Proof. solve_decision. Defined.
#[export] Instance oxm_field_eq_dec : EqDecision oxm_field. Proof. solve_decision. Defined.
#[export] Instance ofp_match_eq_dec : EqDecision ofp_match. Proof. solve_decision. Defined.
#[export] Instance action_body_eq_dec : EqDecision action_body. Proof. solve_decision. Defined.
#[export] Instance action_eq_dec : EqDecision action. Proof. solve_decision. Defined.
#[export] Instance instruction_body_eq_dec : EqDecision instruction_body. Proof. solve_decision. Defined.
#[export] Instance instruction_eq_dec : EqDecision instruction. Proof. solve_decision. Defined.
#[export] Instance flow_stats_eq_dec : EqDecision flow_stats. Proof. solve_decision. Defined.
#[export] Instance bucket_eq_dec : EqDecision bucket. Proof. solve_decision. Defined.
#[export] Instance group_stats_eq_dec : EqDecision group_stats. Proof. solve_decision. Defined.
#[export] Instance group_entry_eq_dec : EqDecision group_entry. Proof. solve_decision. Defined.

(** ** Action constructors *)

Definition output_len (port max_len : Z) : action := mk_action OUTPUT (ActOutput port max_len).
Definition output (port : Z) : action := output_len port OFPCML_MAX.
Definition mpls_ttl (ttl : Z) : action := mk_action SET_MPLS_TTL (ActMplsTtl ttl).
Definition push_vlan (eth_type : Z) : action := mk_action PUSH_VLAN (ActPush eth_type).
Definition pop_vlan : action := mk_action POP_VLAN NoBody.
Definition pop_mpls (eth_type : Z) : action := mk_action POP_MPLS (ActPopMpls eth_type).
Definition group (group_id : Z) : action := mk_action GROUP (ActGroup group_id).
Definition nw_ttl (ttl : Z) : action := mk_action NW_TTL (ActNwTtl ttl).
Definition set_field (field : ofb_field) : action :=
  mk_action SET_FIELD (ActSetField (mk_oxm_field OFPXMC_OPENFLOW_BASIC (inl field))).
Definition experimenter (exp : Z) (data : string) : action :=
  mk_action EXPERIMENTER (ActExperimenter exp data).

(** ** Match field constructors *)

Definition int_field (ty : Z) (member : string) (v : Z) : ofb_field :=
  mk_ofb_field ty false (IntValue member v) NoValue.
Definition bytes_field (ty : Z) (member : string) (v : string) : ofb_field :=
  mk_ofb_field ty false (BytesValue member v) NoValue.

Definition in_port (v : Z) : ofb_field := int_field IN_PORT "port" v.
Definition eth_type (v : Z) : ofb_field := int_field ETH_TYPE "eth_type" v.
Definition vlan_vid (v : Z) : ofb_field := int_field VLAN_VID "vlan_vid" v.
Definition vlan_pcp (v : Z) : ofb_field := int_field VLAN_PCP "vlan_pcp" v.
Definition ip_dscp (v : Z) : ofb_field := int_field IP_DSCP "ip_dscp" v.
Definition ip_ecn (v : Z) : ofb_field := int_field IP_ECN "ip_ecn" v.
Definition ip_proto (v : Z) : ofb_field := int_field IP_PROTO "ip_proto" v.
Definition ipv4_src (v : Z) : ofb_field := int_field IPV4_SRC "ipv4_src" v.
Definition ipv4_dst (v : Z) : ofb_field := int_field IPV4_DST "ipv4_dst" v.
Definition tcp_src (v : Z) : ofb_field := int_field TCP_SRC "tcp_src" v.
Definition tcp_dst (v : Z) : ofb_field := int_field TCP_DST "tcp_dst" v.
Definition udp_src (v : Z) : ofb_field := int_field UDP_SRC "udp_src" v.
Definition udp_dst (v : Z) : ofb_field := int_field UDP_DST "udp_dst" v.
Definition sctp_src (v : Z) : ofb_field := int_field SCTP_SRC "sctp_src" v.
Definition sctp_dst (v : Z) : ofb_field := int_field SCTP_DST "sctp_dst" v.
Definition icmpv4_type (v : Z) : ofb_field := int_field ICMPV4_TYPE "icmpv4_type" v.
Definition icmpv4_code (v : Z) : ofb_field := int_field ICMPV4_CODE "icmpv4_code" v.
Definition arp_op (v : Z) : ofb_field := int_field ARP_OP "arp_op" v.
Definition arp_spa (v : Z) : ofb_field := int_field ARP_SPA "arp_spa" v.
Definition arp_tpa (v : Z) : ofb_field := int_field ARP_TPA "arp_tpa" v.
Definition arp_sha (v : string) : ofb_field := bytes_field ARP_SHA "arp_sha" v.
Definition arp_tha (v : string) : ofb_field := bytes_field ARP_THA "arp_tha" v.

(** ** Extractors *)

(** [get_actions]: [None] when no instruction applies actions; iterating over
    it is a TypeError. *)
Definition get_actions (flow : flow_stats) : option (list action) :=
  i_actions <$> find (λ i, bool_decide (i_type i = OFPIT_APPLY_ACTIONS)) (fs_instructions flow).
Definition iter_actions (flow : flow_stats) : result (list action) :=
  of_option TypeError (get_actions flow).

Definition get_ofb_fields (flow : flow_stats) : result (list ofb_field) :=
  _ ← assert_ (bool_decide (m_type (fs_match flow) = OFPMT_OXM));
  mapM (λ f, _ ← assert_ (bool_decide (oxm_class f = OFPXMC_OPENFLOW_BASIC)); Ok (oxm_ofb_field f))
    (m_oxm_fields (fs_match flow)).

Definition get_out_port (flow : flow_stats) : result (option Z) :=
  actions ← iter_actions flow;
  Ok (a_output_port <$> find (λ a, bool_decide (a_type a = OUTPUT)) actions).

Definition get_in_port (flow : flow_stats) : result (option Z) :=
  fields ← get_ofb_fields flow;
  Ok (f_int "port" <$> find (λ f, bool_decide (f_type f = IN_PORT)) fields).

Definition get_goto_table_id (flow : flow_stats) : option Z :=
  i_table_id <$> find (λ i, bool_decide (i_type i = OFPIT_GOTO_TABLE)) (fs_instructions flow).

Definition has_next_table (flow : flow_stats) : bool :=
  match get_goto_table_id flow with Some _ => true | None => false end.

Definition get_group (flow : flow_stats) : result (option Z) :=
  actions ← iter_actions flow;
  Ok (a_group_id <$> find (λ a, bool_decide (a_type a = GROUP)) actions).
Definition has_group (flow : flow_stats) : result bool :=
  g ← get_group flow; Ok (match g with Some _ => true | None => false end).

(** ** Building flow and group entries *)

(** [mk_simple_flow_mod] with the keyword arguments its callers pass *)
Definition mk_simple_flow_mod (match_fields : list ofb_field) (actions : list action)
    (command : Z) (next_table_id : option Z) (priority cookie : Z) : flow_mod :=
  let instructions :=
    mk_instruction OFPIT_APPLY_ACTIONS (InsActions actions)
    :: match next_table_id with
       | Some t => [mk_instruction OFPIT_GOTO_TABLE (InsGotoTable t)]
       | None => []
       end in
  mk_flow_mod cookie 0 0 command 0 0 priority 0 0 0 0
    (mk_match OFPMT_OXM ((λ f, mk_oxm_field OFPXMC_OPENFLOW_BASIC (inl f)) <$> match_fields))
    instructions.

Definition mk_multicast_group_mod (group_id : Z) (buckets : list bucket) (command : Z) : group_mod :=
  mk_group_mod command OFPGT_ALL group_id buckets.

Definition group_entry_from_group_mod (mod_ : group_mod) : group_entry :=
  mk_group_entry (gm_type mod_) (gm_group_id mod_) (gm_buckets mod_)
    (mk_group_stats (gm_group_id mod_) 0 0 0 0 0 []).

Definition mk_group_stat (group_id : Z) (buckets : list bucket) : group_entry :=
  group_entry_from_group_mod (mk_multicast_group_mod group_id buckets OFPGC_ADD).

(** MD5 over 'table_id,priority,flags,cookie,match', its first 64 bits. *)
Class FlowHash : Type := { md5_flow : Z → Z → Z → Z → ofp_match → Z }.

Section flow_hash.
Context `{!FlowHash}.

Definition hash_flow_stats (flow : flow_stats) : Z :=
  md5_flow (fs_table_id flow) (fs_priority flow) (fs_flags flow) (fs_cookie flow) (fs_match flow).

Definition set_fs_id (id : Z) (f : flow_stats) : flow_stats :=
  mk_flow_stats id (fs_table_id f) (fs_priority f) (fs_idle_timeout f) (fs_hard_timeout f)
    (fs_flags f) (fs_cookie f) (fs_packet_count f) (fs_byte_count f) (fs_match f)
    (fs_instructions f).
Definition set_fs_counts (packets bytes : Z) (f : flow_stats) : flow_stats :=
  mk_flow_stats (fs_id f) (fs_table_id f) (fs_priority f) (fs_idle_timeout f) (fs_hard_timeout f)
    (fs_flags f) (fs_cookie f) packets bytes (fs_match f) (fs_instructions f).

Definition flow_stats_entry_from_flow_mod_message (mod_ : flow_mod) : flow_stats :=
  let flow := mk_flow_stats 0 (fm_table_id mod_) (fm_priority mod_) (fm_idle_timeout mod_)
                (fm_hard_timeout mod_) (fm_flags mod_) (fm_cookie mod_) 0 0 (fm_match mod_)
                (fm_instructions mod_) in
  set_fs_id (hash_flow_stats flow) flow.

Definition mk_flow_stat (priority cookie : Z) (match_fields : list ofb_field)
    (actions : list action) : flow_stats :=
  flow_stats_entry_from_flow_mod_message
    (mk_simple_flow_mod match_fields actions OFPFC_ADD None priority cookie).

(** ** What a built entry contains *)

Lemma mapM_basic (fields : list ofb_field) :
  mapM (λ f, _ ← assert_ (bool_decide (oxm_class f = OFPXMC_OPENFLOW_BASIC)); Ok (oxm_ofb_field f))
    ((λ f, mk_oxm_field OFPXMC_OPENFLOW_BASIC (inl f)) <$> fields) = Ok fields.
Proof.
  apply mapM_Ok. induction fields as [|f fields IH]; [constructor|]. by constructor.
Qed.

Lemma get_ofb_fields_mk priority cookie fields actions :
  get_ofb_fields (mk_flow_stat priority cookie fields actions) = Ok fields.
Proof. unfold get_ofb_fields. cbn [mk_flow_stat]. simpl. apply mapM_basic. Qed.

Lemma get_actions_mk priority cookie fields actions :
  get_actions (mk_flow_stat priority cookie fields actions) = Some actions.
Proof. done. Qed.

Lemma mk_flow_stat_key priority cookie fields actions :
  let f := mk_flow_stat priority cookie fields actions in
  fs_priority f = priority ∧ fs_cookie f = cookie ∧ fs_table_id f = 0%Z ∧ has_next_table f = false ∧
  fs_id f = hash_flow_stats f.
Proof. done. Qed.

End flow_hash.
