(* ===== verification/FlowDecomposer.v ===== *)
(** * Decomposition of logical flows (voltha/core/flow_decomposer.py)

    [FlowDecomposer] turns the flows of a logical device into flows of the
    devices behind it.  It is a mix-in: the derived class provides the routes
    and the default rules, which is the interface [Router] here; the agent of
    a logical device is an instance of it (LogicalDevice.v). *)

From stdpp Require Import prelude strings list.
From S2P Require Import Prelude OFP.

(** ** Devices and ports (device.proto), with the fields flow handling reads;
    the others are compared as a code *)

Inductive PortType : Type := UNKNOWN | ETHERNET_NNI | ETHERNET_UNI | PON_OLT | PON_ONU.

Record peer_port : Type := mk_peer { peer_device_id : string; peer_port_no : Z }.
Record Port : Type := mk_Port {
  p_no : Z;
  p_type : PortType;
  p_peers : list peer_port;
  p_rest : positive;
}.
Record Device : Type := mk_Device {
  d_id : string;
  d_root : bool;
  d_vlan : Z;
  d_rest : positive;
}.

#[export] Instance PortType_eq_dec : EqDecision PortType. Proof. solve_decision. Defined.
#[export] Instance peer_port_eq_dec : EqDecision peer_port. Proof. solve_decision. Defined.
#[export] Instance Port_eq_dec : EqDecision Port. Proof. solve_decision. Defined.
#[export] Instance Device_eq_dec : EqDecision Device. Proof. solve_decision. Defined.

(** ** Routes *)

Record RouteHop : Type := mk_hop {
  hop_device : Device;
  hop_ingress_port : Port;
  hop_egress_port : Port;
}.
#[export] Instance RouteHop_eq_dec : EqDecision RouteHop. Proof. solve_decision. Defined.

(** A route is a list of hops, a half-route has [None] in one place; reading
    an attribute of [None] is an AttributeError. *)
Definition route : Type := list (option RouteHop).
Definition the_hop (h : option RouteHop) : result RouteHop := of_option AttributeError h.

(** Per-device rules: while one flow is decomposed a list of flows and groups,
    in the end dictionaries by flow and group id. *)
Definition flow_rules : Type := list (string * (list flow_stats * list group_entry)).
Definition rules_map : Type := list (string * (list (Z * flow_stats) * list (Z * group_entry))).

(** ** The methods expected of the derived class *)
Class Router : Type := {
  get_all_default_rules : result rules_map;
  get_route : option Z → option Z → result route;
}.

Section flow_decomposer.
Context `{!FlowHash, !Router}.

(** [fl_lst, _ = device_rules.setdefault(device_id, ([], []));
     fl_lst.append(flow)] *)
Definition append_rule (device_id : string) (f : flow_stats) (rules : flow_rules) : flow_rules :=
  let '(fl, gr) := default ([], []) (od_get device_id rules) in
  od_set device_id (fl ++ [f], gr) rules.

(** [mk_flow_stat] with the priority and cookie of the logical flow, the
    in-port of a hop and the match fields of the flow but those of the types
    in [dropped]. *)
Definition hop_rule (flow : flow_stats) (port : Port) (dropped : list Z) (actions : list action)
    : result flow_stats :=
  fields ← get_ofb_fields flow;
  Ok (mk_flow_stat (fs_priority flow) (fs_cookie flow)
        (in_port (p_no port) :: filter (λ f, f_type f ∉ dropped) fields) actions).

Definition drop_actions (dropped : list Z) (l : list action) : list action :=
  filter (λ a, a_type a ∉ dropped) l.

(** One pass over the actions of a bucket: the last output port seen (or the
    one before the loop) and the actions that are neither output nor pop. *)
Definition scan_bucket (actions : list action) (out_port_no : option Z)
    : option Z * list action :=
  foldl (λ acc a,
           if bool_decide (a_type a = POP_VLAN) then acc
           else if bool_decide (a_type a = OUTPUT) then (Some (a_output_port a), acc.2)
           else (acc.1, acc.2 ++ [a]))
        (out_port_no, []) actions.

(** The loop over the buckets of a multicast group; [out_port_no] is the
    variable of the enclosing function. *)
Fixpoint multicast_buckets (flow : flow_stats) (in_port_no : option Z) (ingress_hop : RouteHop)
    (buckets : list bucket) (out_port_no : option Z) (rules : flow_rules) : result flow_rules :=
  match buckets with
  | [] => Ok rules
  | bk :: buckets =>
      let '(out_port_no, other_actions) := scan_bucket (bk_actions bk) out_port_no in
      route2 ← get_route in_port_no out_port_no;
      match route2 with
      | [ingress_hop2; egress_hop] =>
          ingress_hop2 ← the_hop ingress_hop2;
          _ ← assert_ (bool_decide (ingress_hop = ingress_hop2));
          egress_hop ← the_hop egress_hop;
          f ← hop_rule flow (hop_ingress_port egress_hop) [IN_PORT; VLAN_VID; VLAN_PCP]
                (other_actions ++ [output (p_no (hop_egress_port egress_hop))]);
          multicast_buckets flow in_port_no ingress_hop buckets out_port_no
            (append_rule (d_id (hop_device egress_hop)) f rules)
      | _ => Raise AssertionError
      end
  end.

Definition is_controller (port : option Z) : bool :=
  match port with
  | Some p => bool_decide (Z.land p 0x7fffffff = OFPP_CONTROLLER)
  | None => false
  end.

(** The rule of a flow with a next table, on the ingress device. *)
Definition next_table_rule (flow : flow_stats) (out_port_no : option Z) (ingress_hop : RouteHop)
    : result flow_rules :=
  _ ← assert_ (bool_decide (out_port_no = None));
  actions ← iter_actions flow;
  f ← hop_rule flow (hop_ingress_port ingress_hop) [IN_PORT]
        (actions ++ [output (p_no (hop_egress_port ingress_hop))]);
  Ok (append_rule (d_id (hop_device ingress_hop)) f []).

(** The rule of a flow to one port, on the egress device. *)
Definition unicast_rule (flow : flow_stats) (egress_hop : option RouteHop) : result flow_rules :=
  egress_hop ← the_hop egress_hop;
  actions ← iter_actions flow;
  f ← hop_rule flow (hop_ingress_port egress_hop) [IN_PORT]
        (drop_actions [OUTPUT] actions ++ [output (p_no (hop_egress_port egress_hop))]);
  Ok (append_rule (d_id (hop_device egress_hop)) f []).

Definition controller_rule (flow : flow_stats) (egress_hop : option RouteHop) : result flow_rules :=
  egress_hop ← the_hop egress_hop;
  f ← hop_rule flow (hop_ingress_port egress_hop) [IN_PORT; VLAN_VID]
        [push_vlan 0x8100; set_field (vlan_vid (Z.lor OFPVID_PRESENT 4000));
         output (p_no (hop_egress_port egress_hop))];
  Ok (append_rule (d_id (hop_device egress_hop)) f []).

Definition multicast_rules (flow : flow_stats) (group_map : list (Z * group_entry))
    (in_port_no : option Z) (ingress_hop : RouteHop) : result flow_rules :=
  grp_id ← get_group flow;
  grp_id ← of_option AssertionError grp_id;
  actions ← iter_actions flow;
  f ← hop_rule flow (hop_ingress_port ingress_hop) [IN_PORT; ETH_TYPE; IPV4_DST]
        (drop_actions [GROUP] actions ++ [pop_vlan; output (p_no (hop_egress_port ingress_hop))]);
  let buckets := match od_get grp_id group_map with Some g => ge_buckets g | None => [] end in
  multicast_buckets flow in_port_no ingress_hop buckets None
    (append_rule (d_id (hop_device ingress_hop)) f []).

(** [FlowDecomposer.decompose_flow] *)
Definition decompose_flow (flow : flow_stats) (group_map : list (Z * group_entry))
    : result flow_rules :=
  in_port_no ← get_in_port flow;
  out_port_no ← get_out_port flow;
  r ← get_route in_port_no out_port_no;
  match r with
  | [ingress_hop; egress_hop] =>
      if is_controller out_port_no then controller_rule flow egress_hop
      else
        ingress_hop ← the_hop ingress_hop;
        if has_next_table flow then next_table_rule flow out_port_no ingress_hop
        else if negb (d_root (hop_device ingress_hop)) then
          _ ← of_option AssertionError out_port_no;
          unicast_rule flow egress_hop
        else match out_port_no with
             | Some _ => unicast_rule flow egress_hop
             | None => multicast_rules flow group_map in_port_no ingress_hop
             end
  | _ => Raise AssertionError
  end.

(** [if _flow.id not in fl_lst: fl_lst[_flow.id] = _flow] *)
Definition add_new {V} (id : Z) (v : V) (d : list (Z * V)) : list (Z * V) :=
  match od_get id d with Some _ => d | None => od_set id v d end.

(** Groups have no attribute [group_id] of their own; none is ever produced. *)
Definition merge_device (rules : rules_map) (dr : string * (list flow_stats * list group_entry))
    : result rules_map :=
  let '(device_id, (flows, groups)) := dr in
  let '(fl_lst, gr_lst) := default ([], []) (od_get device_id rules) in
  _ ← match groups with [] => Ok tt | _ => Raise AttributeError end;
  Ok (od_set device_id (foldl (λ d f, add_new (fs_id f) f d) fl_lst flows, gr_lst) rules).

Fixpoint fold_result {A B} (f : B → A → result B) (b : B) (l : list A) : result B :=
  match l with [] => Ok b | a :: l => b' ← f b a; fold_result f b' l end.

(** [FlowDecomposer.decompose_rules] *)
Definition decompose_rules (flows : list flow_stats) (groups : list group_entry)
    : result rules_map :=
  rules ← get_all_default_rules;
  let group_map := od_of_list ((λ g, (ge_group_id g, g)) <$> groups) in
  fold_result (λ rules flow,
                 dr ← decompose_flow flow group_map;
                 fold_result merge_device rules dr)
    rules flows.

(** ** The shape of the produced rules *)

(** [f] carries [flow] over [hop]: it takes what enters by the ingress port of
    the hop, under conditions of the flow, to the egress port of the hop. *)
Definition carries (flow : flow_stats) (hop : RouteHop) (f : flow_stats) : Prop :=
  ∃ fields (dropped : list Z) acts, get_ofb_fields flow = Ok fields ∧ IN_PORT ∈ dropped ∧
    Forall (λ a, a_type a ≠ OUTPUT) acts ∧
    f = mk_flow_stat (fs_priority flow) (fs_cookie flow)
          (in_port (p_no (hop_ingress_port hop)) :: filter (λ f, f_type f ∉ dropped) fields)
          (acts ++ [output (p_no (hop_egress_port hop))]).

(** [hop] is on a route the router gives for the in-port of [flow]. *)
Definition on_route (flow : flow_stats) (hop : RouteHop) : Prop :=
  ∃ in_no out_no r, get_in_port flow = Ok in_no ∧ get_route in_no out_no = Ok r ∧ Some hop ∈ r.

Definition good_rules (flow : flow_stats) (rules : flow_rules) : Prop :=
  Forall (λ kv : string * (list flow_stats * list group_entry),
    kv.2.2 = [] ∧ kv.2.1 ≠ [] ∧
    Forall (λ f, ∃ hop, d_id (hop_device hop) = kv.1 ∧ on_route flow hop ∧ carries flow hop f)
      kv.2.1) rules.

Lemma append_rule_good flow rules hop f :
  good_rules flow rules → on_route flow hop → carries flow hop f →
  good_rules flow (append_rule (d_id (hop_device hop)) f rules).
Proof.
  intros Hg Hr Hc. unfold append_rule.
  destruct (od_get (d_id (hop_device hop)) rules) as [[fl gr]|] eqn:Hget; cbn [default].
  - apply Forall_od_set; [done|]. unfold good_rules in Hg. rewrite Forall_forall in Hg.
    destruct (Hg _ (od_get_Some_elem _ _ _ Hget)) as (Hgr & Hne & Hall).
    cbn in Hgr, Hne, Hall. subst gr. split_and!; [done| |].
    + cbn. by destruct fl.
    + cbn. apply Forall_app. split; [done|]. constructor; [eauto|constructor].
  - apply Forall_od_set; [done|]. split_and!; [done|done|]. cbn. constructor; [eauto|constructor].
Qed.
Lemma good_nil flow : good_rules flow [].
Proof. constructor. Qed.

Lemma hop_rule_carries flow hop dropped acts f :
  hop_rule flow (hop_ingress_port hop) dropped (acts ++ [output (p_no (hop_egress_port hop))]) = Ok f →
  IN_PORT ∈ dropped → Forall (λ a, a_type a ≠ OUTPUT) acts → carries flow hop f.
Proof.
  unfold hop_rule. intros (fields & Hf & [= <-])%result_bind_Ok Hin Hacts.
  by exists fields, dropped, acts.
Qed.

Lemma no_output flow actions :
  get_out_port flow = Ok None → iter_actions flow = Ok actions →
  Forall (λ a, a_type a ≠ OUTPUT) actions.
Proof.
  unfold get_out_port. intros (l & -> & Hf)%result_bind_Ok [= <-].
  apply Forall_forall. intros a Ha Heq. injection Hf as Hf.
  destruct (find _ l) eqn:Hfind; [done|]. apply list_elem_of_In in Ha.
  pose proof (find_none _ _ Hfind _ Ha) as Hno. cbn in Hno. by case_bool_decide.
Qed.

Lemma drop_actions_no_output dropped actions :
  OUTPUT ∈ dropped → Forall (λ a, a_type a ≠ OUTPUT) (drop_actions dropped actions).
Proof.
  intros Hd. apply Forall_forall. intros a [Ha _]%list_elem_of_filter Heq. apply Ha. by rewrite Heq.
Qed.
Lemma drop_actions_Forall P dropped actions :
  Forall P actions → Forall P (drop_actions dropped actions).
Proof.
  rewrite !Forall_forall. intros HP a [_ Ha]%list_elem_of_filter. by apply HP.
Qed.

Lemma scan_bucket_no_output actions out :
  Forall (λ a, a_type a ≠ OUTPUT) (scan_bucket actions out).2.
Proof.
  unfold scan_bucket. assert (Forall (λ a, a_type a ≠ OUTPUT) (out, @nil action).2) as Hnil by constructor.
  revert Hnil. generalize (out, @nil action). induction actions as [|a actions IH]; intros acc Hacc; [done|].
  simpl. apply IH. case_bool_decide; [done|]. case_bool_decide; [done|]. cbn.
  apply Forall_app. split; [done|]. by constructor; [|constructor].
Qed.

Lemma multicast_buckets_good flow in_no hop bks : ∀ out rules rules',
  get_in_port flow = Ok in_no → good_rules flow rules →
  multicast_buckets flow in_no hop bks out rules = Ok rules' → good_rules flow rules'.
Proof.
  induction bks as [|bk bks IH]; intros out rules rules' Hin Hg; [by intros [= <-]|].
  cbn [multicast_buckets]. pose proof (scan_bucket_no_output (bk_actions bk) out) as Hno.
  destruct (scan_bucket _ _) as [out' others]. cbn in Hno.
  intros (r & Hr & Hm)%result_bind_Ok.
  destruct r as [|h1 [|h2 [|? ?]]]; try done.
  apply result_bind_Ok in Hm as (hop2 & _ & Hm).
  apply result_bind_Ok in Hm as (_ & _ & Hm).
  apply result_bind_Ok in Hm as (ehop & Heh & Hm).
  apply result_bind_Ok in Hm as (f & Hf & Hm).
  unfold the_hop in Heh. apply of_option_Ok in Heh as ->.
  eapply IH; [done| |exact Hm]. apply append_rule_good; [done| |].
  - exists in_no, out', [h1; Some ehop]. split_and!; [done|done|]. right. left.
  - eapply hop_rule_carries; [exact Hf|left|done].
Qed.

Lemma decompose_flow_good flow gm rules :
  decompose_flow flow gm = Ok rules → good_rules flow rules.
Proof.
  unfold decompose_flow. intros (in_no & Hin & Hd)%result_bind_Ok.
  apply result_bind_Ok in Hd as (out_no & Hout & Hd). apply result_bind_Ok in Hd as (r & Hr & Hd).
  destruct r as [|h1 [|h2 [|? ?]]]; try done.
  assert (∀ hop, the_hop h1 = Ok hop → on_route flow hop) as Hon1.
  { unfold the_hop. intros hop ->%of_option_Ok. exists in_no, out_no, [Some hop; h2].
    split_and!; [done|done|left]. }
  assert (∀ hop, the_hop h2 = Ok hop → on_route flow hop) as Hon2.
  { unfold the_hop. intros hop ->%of_option_Ok. exists in_no, out_no, [h1; Some hop].
    split_and!; [done|done|right; left]. }
  assert (unicast_rule flow h2 = Ok rules → good_rules flow rules) as Huni.
  { intros (hop & Hhop & Hu)%result_bind_Ok. apply result_bind_Ok in Hu as (acts & Ha & Hu).
    apply result_bind_Ok in Hu as (f & Hf & [= <-]).
    apply append_rule_good; [apply good_nil|by apply Hon2|].
    eapply hop_rule_carries; [exact Hf|left|]. apply drop_actions_no_output. left. }
  destruct (is_controller out_no).
  { apply result_bind_Ok in Hd as (hop & Hhop & Hd). apply result_bind_Ok in Hd as (f & Hf & [= <-]).
    apply append_rule_good; [apply good_nil|by apply Hon2|].
    eapply (hop_rule_carries _ _ _ [_; _]); [exact Hf|left|]. by repeat constructor. }
  apply result_bind_Ok in Hd as (hop & Hhop & Hd).
  destruct (has_next_table flow).
  { apply result_bind_Ok in Hd as ([] & ->%assert_Ok%bool_decide_eq_true & Hd).
    apply result_bind_Ok in Hd as (acts & Ha & Hd). apply result_bind_Ok in Hd as (f & Hf & [= <-]).
    apply append_rule_good; [apply good_nil|by apply Hon1|].
    eapply hop_rule_carries; [exact Hf|left|]. by eapply no_output. }
  destruct (negb _). { apply result_bind_Ok in Hd as (_ & _ & Hd). by apply Huni. }
  destruct out_no as [out|]; [by apply Huni|].
  apply result_bind_Ok in Hd as (g & Hg & Hd). apply result_bind_Ok in Hd as (gid & _ & Hd).
  apply result_bind_Ok in Hd as (acts & Ha & Hd). apply result_bind_Ok in Hd as (f & Hf & Hd).
  eapply multicast_buckets_good; [done| |exact Hd].
  apply append_rule_good; [apply good_nil|by apply Hon1|].
  eapply (hop_rule_carries _ _ _ (drop_actions [GROUP] acts ++ [pop_vlan])).
  - by rewrite <- app_assoc.
  - left.
  - apply Forall_app. split; [|by repeat constructor].
    apply drop_actions_Forall. by eapply no_output.
Qed.

(** What [carries] means for the fields of the rule. *)
Lemma carries_in_port flow hop f :
  carries flow hop f → get_in_port f = Ok (Some (p_no (hop_ingress_port hop))).
Proof.
  intros (fields & dropped & acts & _ & _ & _ & ->). unfold get_in_port.
  by rewrite get_ofb_fields_mk.
Qed.
Lemma carries_out_port flow hop f :
  carries flow hop f → get_out_port f = Ok (Some (p_no (hop_egress_port hop))).
Proof.
  intros (fields & dropped & acts & _ & _ & Hacts & ->). unfold get_out_port, iter_actions.
  rewrite get_actions_mk. cbn [of_option mbind result_bind].
  induction Hacts as [|a acts Ha Hacts IH]; [done|]. cbn [app find].
  by rewrite bool_decide_false.
Qed.

(** ** Collecting the rules per device *)

(** Every device keeps its rules, in order, and may get more behind them. *)
Definition extends (rules rules' : rules_map) : Prop :=
  ∀ dev fl gr, od_get dev rules = Some (fl, gr) → ∃ k, od_get dev rules' = Some (fl ++ k, gr).

#[local] Instance extends_preorder : PreOrder extends.
Proof.
  split.
  - intros rules dev fl gr Hg. exists []. by rewrite app_nil_r.
  - intros r1 r2 r3 H12 H23 dev fl gr Hg. destruct (H12 _ _ _ Hg) as [k Hk].
    destruct (H23 _ _ _ Hk) as [k' Hk']. exists (k ++ k'). by rewrite app_assoc.
Qed.

Lemma add_new_extends {V} id (v : V) d : ∃ k, add_new id v d = d ++ k.
Proof.
  unfold add_new. destruct (od_get id d) eqn:Hg; [exists []; by rewrite app_nil_r|].
  exists [(id, v)]. apply od_set_notin. by apply od_get_None.
Qed.
Lemma fold_add_new_extends fls (d : list (Z * flow_stats)) :
  ∃ k, foldl (λ d f, add_new (fs_id f) f d) d fls = d ++ k.
Proof.
  revert d. induction fls as [|f fls IH]; intros d; [exists []; by rewrite app_nil_r|]. simpl.
  destruct (add_new_extends (fs_id f) f d) as [k ->]. destruct (IH (d ++ k)) as [k' ->].
  exists (k ++ k'). by rewrite app_assoc.
Qed.

Lemma merge_device_extends rules dr rules' : merge_device rules dr = Ok rules' → extends rules rules'.
Proof.
  destruct dr as [dev [fls grs]]. unfold merge_device.
  destruct (default ([], []) (od_get dev rules)) as [fl gr] eqn:Hd.
  intros (_ & _ & [= <-])%result_bind_Ok dev' fl' gr' Hg.
  destruct (decide (dev = dev')) as [<-|Hne].
  - rewrite Hg in Hd. cbn in Hd. injection Hd as -> ->. rewrite od_get_set.
    destruct (fold_add_new_extends fls fl) as [k ->]. eauto.
  - rewrite od_get_set_ne by done. exists []. by rewrite app_nil_r.
Qed.

Lemma fold_result_rel {A B} (R : B → B → Prop) `{!PreOrder R} (f : B → A → result B) l b b' :
  (∀ a b b', f b a = Ok b' → R b b') → fold_result f b l = Ok b' → R b b'.
Proof.
  intros Hf. revert b. induction l as [|a l IH]; intros b; cbn; [by intros [= <-]|].
  intros (b1 & H1 & H2)%result_bind_Ok. etrans; [by eapply Hf|by apply IH].
Qed.
Lemma fold_result_inv {A B} (P : B → Prop) (f : B → A → result B) l b b' :
  (∀ a b b', a ∈ l → P b → f b a = Ok b' → P b') → P b → fold_result f b l = Ok b' → P b'.
Proof.
  revert b. induction l as [|a l IH]; intros b Hf Hb; cbn; [by intros [= <-]|].
  intros (b1 & H1 & H2)%result_bind_Ok. eapply IH; [|eapply Hf; [left|exact Hb|exact H1]|exact H2].
  intros a' c c' Ha. apply Hf. by right.
Qed.
Lemma fold_add_new_elem fls (d : list (Z * flow_stats)) id f :
  (id, f) ∈ foldl (λ d f, add_new (fs_id f) f d) d fls → (id, f) ∈ d ∨ f ∈ fls ∧ id = fs_id f.
Proof.
  revert d. induction fls as [|g fls IH]; intros d; simpl; [by left|].
  intros [Hin|[Hin ->]]%IH; [|right; by split; [right|]].
  unfold add_new in Hin. destruct (od_get (fs_id g) d) eqn:Hg; [by left|].
  rewrite od_set_notin in Hin by (by apply od_get_None).
  apply elem_of_app in Hin as [Hin|[= -> ->]%list_elem_of_singleton]; [by left|right].
  by split; [left|].
Qed.

(** [f] is a rule of [dev] for one of the flows. *)
Definition rule_for (flows : list flow_stats) (dev : string) (f : flow_stats) : Prop :=
  ∃ flow hop, flow ∈ flows ∧ d_id (hop_device hop) = dev ∧ on_route flow hop ∧ carries flow hop f.

Definition rules_from (flows : list flow_stats) (defaults rules : rules_map) : Prop :=
  ∀ dev fl gr id f, od_get dev rules = Some (fl, gr) → (id, f) ∈ fl →
    (∃ fl0 gr0, od_get dev defaults = Some (fl0, gr0) ∧ (id, f) ∈ fl0) ∨
    id = fs_id f ∧ rule_for flows dev f.

Lemma merge_device_sound flows defaults rules flow dr rules' :
  flow ∈ flows → good_rules flow [dr] → merge_device rules dr = Ok rules' →
  rules_from flows defaults rules → rules_from flows defaults rules'.
Proof.
  intros Hflow Hgood Hm Hinv. destruct dr as [d [fls grs]]. unfold merge_device in Hm.
  destruct (default ([], []) (od_get d rules)) as [fl0 gr0] eqn:Hd.
  apply result_bind_Ok in Hm as (_ & _ & [= <-]). intros dev fl gr id f Hg Hin.
  destruct (decide (d = dev)) as [<-|Hne].
  - rewrite od_get_set in Hg. injection Hg as <- <-.
    apply fold_add_new_elem in Hin as [Hin|[Hin ->]].
    + destruct (od_get d rules) as [[fl1 gr1]|] eqn:Hd'; cbn in Hd; [|by injection Hd as <- <-;
        apply not_elem_of_nil in Hin].
      injection Hd as -> ->. by eapply Hinv.
    + right. split; [done|]. inversion_clear Hgood as [|? ? (_ & _ & Hall) _]. cbn in Hall.
      rewrite Forall_forall in Hall. destruct (Hall _ Hin) as (hop & Hdev & Hr & Hc).
      by exists flow, hop.
  - rewrite od_get_set_ne in Hg by done. by eapply Hinv.
Qed.

Lemma decompose_rules_from flows groups defaults rules :
  get_all_default_rules = Ok defaults → decompose_rules flows groups = Ok rules →
  rules_from flows defaults rules.
Proof.
  intros Hdef Hdec. unfold decompose_rules in Hdec. rewrite Hdef in Hdec. cbn [mbind result_bind] in Hdec.
  set (gm := od_of_list _) in Hdec. pose (P := rules_from flows defaults).
  eapply (fold_result_inv P); [|unfold P, rules_from; naive_solver|exact Hdec].
  intros flow b b' Hflow Hb (dr & Hdr & Hmerge)%result_bind_Ok.
  apply decompose_flow_good in Hdr. unfold good_rules in Hdr. rewrite Forall_forall in Hdr.
  eapply (fold_result_inv P); [|exact Hb|exact Hmerge]. intros kv c c' Hkv Hc Hm.
  eapply merge_device_sound; [exact Hflow| |exact Hm|exact Hc].
  constructor; [by apply Hdr|constructor].
Qed.

(** C8: whatever rule decompose_rules installs on a device is one of its default
    rules, or carries one of the logical flows over a hop of a route the router
    gives for that flow, through that device: same priority and cookie, in at
    the hop's ingress port and out at its egress port, with match conditions of
    the flow only. *)
Theorem decompose_rules_sound flows groups defaults rules dev fl gr id f :
  get_all_default_rules = Ok defaults → decompose_rules flows groups = Ok rules →
  od_get dev rules = Some (fl, gr) → (id, f) ∈ fl →
  (∃ fl0 gr0, od_get dev defaults = Some (fl0, gr0) ∧ (id, f) ∈ fl0) ∨
  ∃ flow hop fields fields', flow ∈ flows ∧ d_id (hop_device hop) = dev ∧ on_route flow hop ∧
    fs_priority f = fs_priority flow ∧ fs_cookie f = fs_cookie flow ∧ id = hash_flow_stats f ∧
    get_in_port f = Ok (Some (p_no (hop_ingress_port hop))) ∧
    get_out_port f = Ok (Some (p_no (hop_egress_port hop))) ∧
    get_ofb_fields flow = Ok fields ∧
    get_ofb_fields f = Ok (in_port (p_no (hop_ingress_port hop)) :: fields') ∧
    (∀ g, g ∈ fields' → g ∈ fields ∧ f_type g ≠ IN_PORT).
Proof.
  intros Hdef Hdec Hg Hin. pose proof (decompose_rules_from _ _ _ _ Hdef Hdec) as HP.
  destruct (HP _ _ _ _ _ Hg Hin) as [?|[-> (flow & hop & Hflow & Hdev & Hr & Hc)]]; [by left|right].
  pose proof (carries_in_port _ _ _ Hc). pose proof (carries_out_port _ _ _ Hc).
  destruct Hc as (fields & dropped & acts & Hf & Hd & _ & Heq).
  exists flow, hop, fields, (filter (λ f, f_type f ∉ dropped) fields).
  split_and!; try done; try by subst f.
  - subst f. apply get_ofb_fields_mk.
  - intros g [Hg' Hgin]%list_elem_of_filter. split; [done|]. intros Hty. apply Hg'. by rewrite Hty.
Qed.

(** The rule a device has under an id, and the rules some decomposed flows give a
    device, in their order *)
Definition rule_at (rules : rules_map) (dev : string) (id : Z) : option flow_stats :=
  dr ← od_get dev rules; od_get id dr.1.
Definition rules_for (dev : string) (l : flow_rules) : list flow_stats :=
  concat (map (λ kv, if decide (kv.1 = dev) then kv.2.1 else []) l).
Definition first_of (id : Z) (l : list flow_stats) : option flow_stats :=
  find (λ f, bool_decide (fs_id f = id)) l.

Definition or_else {A} (x y : option A) : option A := match x with Some _ => x | None => y end.

Lemma first_of_app id l k : first_of id (l ++ k) = or_else (first_of id l) (first_of id k).
Proof. unfold first_of. induction l as [|f l IH]; [done|]. cbn. by case_bool_decide. Qed.

Lemma fold_add_new_get id fls (d : list (Z * flow_stats)) :
  od_get id (foldl (λ d f, add_new (fs_id f) f d) d fls) = or_else (od_get id d) (first_of id fls).
Proof.
  revert d. induction fls as [|f fls IH]; intros d; cbn; [by destruct (od_get id d)|].
  rewrite IH. unfold add_new. case_bool_decide as Hid.
  - subst id. destruct (od_get (fs_id f) d) eqn:Hg; [by rewrite Hg|by rewrite od_get_set].
  - destruct (od_get (fs_id f) d); [done|]. by rewrite od_get_set_ne.
Qed.

Lemma fold_merge_get l rules rules' dev id : fold_result merge_device rules l = Ok rules' →
  rule_at rules' dev id = or_else (rule_at rules dev id) (first_of id (rules_for dev l)).
Proof.
  revert rules. induction l as [|[d [fls grs]] l IH]; intros rules; cbn [fold_result].
  { intros [= <-]. cbn. by destruct (rule_at _ _ _). }
  intros (rules1 & Hm & Hrest)%result_bind_Ok. rewrite (IH _ Hrest). clear IH Hrest.
  unfold rules_for at 2. cbn [map concat fst snd]. rewrite first_of_app. fold (rules_for dev l).
  assert (rule_at rules1 dev id =
          or_else (rule_at rules dev id) (first_of id (if decide (d = dev) then fls else []))) as ->.
  { unfold merge_device in Hm. destruct (default ([], []) (od_get d rules)) as [fl0 gr0] eqn:Hd.
    apply result_bind_Ok in Hm as (_ & _ & [= <-]). unfold rule_at. case_decide as Hdev.
    - subst d. rewrite od_get_set. cbn. rewrite fold_add_new_get.
      destruct (od_get dev rules) as [dr|]; cbn in Hd; by simplify_eq/=.
    - rewrite od_get_set_ne by done. cbn. by destruct (od_get dev rules ≫= _). }
  unfold or_else. by repeat case_match.
Qed.

Lemma fold_flows_split gm flows rules rules' :
  fold_result (λ rules flow, dr ← decompose_flow flow gm; fold_result merge_device rules dr)
    rules flows = Ok rules' →
  ∃ drs, Forall2 (λ flow dr, decompose_flow flow gm = Ok dr) flows drs ∧
    fold_result merge_device rules (concat drs) = Ok rules'.
Proof.
  revert rules. induction flows as [|flow flows IH]; intros rules; cbn [fold_result].
  { intros [= <-]. by exists []. }
  intros (rules1 & (dr & Hdr & Hm)%result_bind_Ok & Hrest)%result_bind_Ok.
  destruct (IH _ Hrest) as (drs & Hall & Hfold). exists (dr :: drs). split; [by constructor|]. cbn.
  clear - Hm Hfold. revert rules Hm. induction dr as [|x dr IH]; intros rules; cbn; [by intros [= ->]|].
  intros (rules2 & Hx & Hm)%result_bind_Ok. rewrite Hx. by apply IH.
Qed.

(** C9: decompose_rules puts exactly the decomposed rules on the devices.  Every
    default rule of every device is kept, in its place; every logical flow
    decomposes without an exception; and what a device has under an id is its
    default rule with that id, or else the first rule with that id among those
    the logical flows decompose to for the device, in the order of the flows.  So
    each of these rules is on its device, unless an earlier one has its id. *)
Theorem decompose_rules_complete flows groups defaults rules :
  let group_map := od_of_list ((λ g, (ge_group_id g, g)) <$> groups) in
  get_all_default_rules = Ok defaults → decompose_rules flows groups = Ok rules →
  (∀ dev fl gr, od_get dev defaults = Some (fl, gr) → ∃ k, od_get dev rules = Some (fl ++ k, gr)) ∧
  ∃ drs, Forall2 (λ flow dr, decompose_flow flow group_map = Ok dr) flows drs ∧
    ∀ dev id, rule_at rules dev id =
      match rule_at defaults dev id with
      | Some f => Some f
      | None => first_of id (rules_for dev (concat drs))
      end.
Proof.
  intros gm Hdef Hdec. unfold decompose_rules in Hdec. rewrite Hdef in Hdec. cbn [mbind result_bind] in Hdec.
  fold gm in Hdec. apply fold_flows_split in Hdec as (drs & Hall & Hfold). split.
  - change (extends defaults rules). apply (fold_result_rel extends merge_device (concat drs)); [|done].
    intros a c c'. apply merge_device_extends.
  - exists drs. split; [done|]. intros dev id. rewrite (fold_merge_get _ _ _ _ _ Hfold).
    by destruct (rule_at defaults dev id).
Qed.
End flow_decomposer.
