(* ===== verification/DeviceGraph.v ===== *)
(** * The device graph and its routes (voltha/core/device_graph.py)

    The devices behind a logical device and their ports are the nodes of an
    undirected graph; a route between two logical ports is read off a shortest
    path.  The graph library is third-party code: [shortest_path] is a
    parameter, with the law that what it returns is a path of the graph.  The
    configuration is read through the operations of [DeviceView]. *)

From stdpp Require Import prelude strings list.
From S2P Require Import Prelude OFP FlowDecomposer.

(** ** Nodes and graphs *)

Inductive gnode : Type := NDev (id : string) | NPort (id : string) (no : Z).
#[export] Instance gnode_eq_dec : EqDecision gnode. Proof. solve_decision. Defined.

(** The attribute dictionary of a node: [device=...] or [port=..., boundary=...]. *)
Inductive gattr : Type := NoAttr | DevAttr (d : Device) | PortAttr (p : Port) (boundary : bool).

Record graph : Type := mk_graph {
  g_nodes : list (gnode * gattr);
  g_edges : list (gnode * gnode);
}.

(** [graph.add_node(n, **attrs)] and [graph.add_edge(u, v)], which creates
    missing end points without attributes. *)
Definition add_node (n : gnode) (a : gattr) (g : graph) : graph :=
  mk_graph (od_set n a (g_nodes g)) (g_edges g).
Definition touch (n : gnode) (nodes : list (gnode * gattr)) : list (gnode * gattr) :=
  match od_get n nodes with Some _ => nodes | None => od_set n NoAttr nodes end.
Definition add_edge (u v : gnode) (g : graph) : graph :=
  mk_graph (touch v (touch u (g_nodes g))) ((u, v) :: g_edges g).

Definition adjacent (g : graph) (u v : gnode) : Prop := (u, v) ∈ g_edges g ∨ (v, u) ∈ g_edges g.

(** [graph.node[n]['device']] and [graph.node[n]['port']] *)
Definition device_attr (g : graph) (n : gnode) : result Device :=
  match od_get n (g_nodes g) with Some (DevAttr d) => Ok d | _ => Raise KeyError end.
Definition port_attr (g : graph) (n : gnode) : result Port :=
  match od_get n (g_nodes g) with Some (PortAttr p _) => Ok p | _ => Raise KeyError end.

(** Consecutive nodes of a path are adjacent. *)
Fixpoint is_path (g : graph) (p : list gnode) : Prop :=
  match p with
  | u :: (v :: _) as rest => adjacent g u v ∧ is_path g rest
  | _ => True
  end.

(** ** What is read of the rest of the system *)

(** [root_proxy.get('/devices/<id>')] and [root_proxy.get('/devices/<id>/ports')] *)
Class DeviceView : Type := {
  get_device : string → result Device;
  get_ports : string → result (list Port);
}.

(** [networkx.shortest_path] *)
Class NetworkX : Type := { shortest_path : graph → gnode → gnode → result (list gnode) }.
Class NetworkXLaws `{NetworkX} : Prop := {
  shortest_path_ends g s t p : shortest_path g s t = Ok p → head p = Some s ∧ last p = Some t;
  shortest_path_path g s t p : shortest_path g s t = Ok p → is_path g p;
}.

(** LogicalPort of logical_device.proto *)
Record LogicalPort : Type := mk_LogicalPort {
  lp_id : string;
  lp_device_id : string;
  lp_device_port_no : Z;
  lp_port_no : Z;                (** [ofp_port.port_no] *)
  lp_root_port : bool;
}.

Section device_graph.
Context `{!DeviceView, !NetworkX}.

Definition port_id : Type := string * Z.
Definition port_node (p : port_id) : gnode := NPort p.1 p.2.

(** Tuples compare by their first difference. *)
Definition port_id_lt (a b : port_id) : bool :=
  match String.compare a.1 b.1 with
  | Lt => true
  | Gt => false
  | Eq => (a.2 <? b.2)%Z
  end.

(** The state of the walk: the graph, [devices_added] and [peer_links]. *)
Record walk : Type := mk_walk {
  w_graph : graph;
  w_devices : list string;
  w_links : list (port_id * port_id);
}.

Section build.
Context (boundary_ports : list (port_id * Z)).

Definition is_boundary (p : port_id) : bool :=
  match od_get p boundary_ports with Some _ => true | None => false end.

(** The inner loop over the peers of a port, [add] being the recursive call. *)
Fixpoint add_peers (add : Device → walk → result walk) (pid : port_id) (peers : list peer_port)
    (w : walk) : result walk :=
  match peers with
  | [] => Ok w
  | peer :: peers =>
      w ← (if bool_decide (peer_device_id peer ∈ w_devices w) then
             let peer_pid := (peer_device_id peer, peer_port_no peer) in
             let link := if port_id_lt pid peer_pid then (pid, peer_pid) else (peer_pid, pid) in
             Ok (if bool_decide (link ∈ w_links w) then w
                 else mk_walk (add_edge (port_node link.1) (port_node link.2) (w_graph w))
                        (w_devices w) (link :: w_links w))
           else
             d ← get_device (peer_device_id peer);
             add d w);
      add_peers add pid peers w
  end.

(** The loop over the ports of a device. *)
Fixpoint add_ports (add : Device → walk → result walk) (device : Device) (ports : list Port)
    (w : walk) : result walk :=
  match ports with
  | [] => Ok w
  | port :: ports =>
      let pid := (d_id device, p_no port) in
      let g := add_edge (NDev (d_id device)) (port_node pid)
                 (add_node (port_node pid) (PortAttr port (is_boundary pid)) (w_graph w)) in
      w ← add_peers add pid (p_peers port) (mk_walk g (w_devices w) (w_links w));
      add_ports add device ports w
  end.

(** [add_device]: each call that recurses adds a device, so the number of
    devices bounds the depth. *)
Fixpoint add_device (fuel : nat) (device : Device) (w : walk) : result walk :=
  match fuel with
  | 0 => Raise OutOfFuel
  | S fuel =>
      if bool_decide (d_id device ∈ w_devices w) then Ok w
      else
        let w := mk_walk (add_node (NDev (d_id device)) (DevAttr device) (w_graph w))
                   (d_id device :: w_devices w) (w_links w) in
        ports ← get_ports (d_id device);
        add_ports (add_device fuel) device ports w
  end.

Fixpoint add_all (fuel : nat) (logical_ports : list LogicalPort) (w : walk) : result walk :=
  match logical_ports with
  | [] => Ok w
  | lp :: lps =>
      d ← get_device (lp_device_id lp);
      w ← add_device fuel d w;
      add_all fuel lps w
  end.
End build.

(** [DeviceGraph._build_graph] *)
Definition mk_boundary_ports (logical_ports : list LogicalPort) : list (port_id * Z) :=
  od_of_list ((λ lp, ((lp_device_id lp, lp_device_port_no lp), lp_port_no lp)) <$> logical_ports).
Definition build_graph (fuel : nat) (logical_ports : list LogicalPort)
    : result (list (port_id * Z) * graph) :=
  let boundary_ports := mk_boundary_ports logical_ports in
  w ← add_all boundary_ports fuel logical_ports (mk_walk (mk_graph [] []) [] []);
  Ok (boundary_ports, w_graph w).

(** The hops read off a path of six nodes. *)
Definition hops_of_path (g : graph) (path : list gnode) : result route :=
  match path with
  | [ingress_input_port; ingress_device; ingress_output_port;
     egress_input_port; egress_device; egress_output_port] =>
      d1 ← device_attr g ingress_device;
      i1 ← port_attr g ingress_input_port;
      e1 ← port_attr g ingress_output_port;
      d2 ← device_attr g egress_device;
      i2 ← port_attr g egress_input_port;
      e2 ← port_attr g egress_output_port;
      Ok [Some (mk_hop d1 i1 e1); Some (mk_hop d2 i2 e2)]
  | _ => Raise AssertionError
  end.

Definition routes : Type := list (Z * Z * route).

(** One pair of boundary ports. *)
Definition add_route (g : graph) (rs : routes) (st : (port_id * Z) * (port_id * Z)) : result routes :=
  let '((source, source_port_no), (target, target_port_no)) := st in
  if bool_decide (source = target) then Ok rs
  else
    path ← shortest_path g (port_node source) (port_node target);
    if bool_decide (length path mod 3 ≠ 0) then Ok rs
    else
      r ← hops_of_path g path;
      Ok (od_set (source_port_no, target_port_no) r rs).

(** [DeviceGraph._build_routes] *)
Definition build_routes (boundary_ports : list (port_id * Z)) (g : graph) : result routes :=
  fold_result (add_route g) [] (s ← boundary_ports; t ← boundary_ports; [(s, t)]).

(** [DeviceGraph.compute_routes] *)
Definition compute_routes (fuel : nat) (logical_ports : list LogicalPort)
    : result (graph * routes) :=
  '(boundary_ports, g) ← build_graph fuel logical_ports;
  rs ← build_routes boundary_ports g;
  Ok (g, rs).

(** ** Invariant of the graph *)

(** A device is found under its own id (the key of the device list). *)
Class DeviceViewLaws : Prop := {
  get_device_id id d : get_device id = Ok d → d_id d = id;
}.
Context `{!DeviceViewLaws}.

Definition has_port (dev : string) (p : Port) : Prop :=
  ∃ ports, get_ports dev = Ok ports ∧ p ∈ ports.
(** One of the two ports names the other as its peer. *)
Definition names_peer (a b : port_id) : Prop :=
  ∃ p, has_port a.1 p ∧ p_no p = a.2 ∧ mk_peer b.1 b.2 ∈ p_peers p.
Definition linked (a b : port_id) : Prop := names_peer a b ∨ names_peer b a.

Definition node_ok (n : gnode) (a : gattr) : Prop :=
  match n, a with
  | NDev id, DevAttr d => get_device id = Ok d
  | NPort id no, PortAttr p _ => has_port id p ∧ p_no p = no
  | _, NoAttr => True
  | _, _ => False
  end.
Definition edge_ok (u v : gnode) : Prop :=
  match u, v with
  | NDev id, NPort id' _ => id' = id
  | NPort a i, NPort b j => linked (a, i) (b, j)
  | _, _ => False
  end.
Record graph_ok (g : graph) : Prop := mk_graph_ok {
  go_nodes n a : od_get n (g_nodes g) = Some a → node_ok n a;
  go_edges u v : (u, v) ∈ g_edges g → edge_ok u v;
}.

Lemma graph_ok_empty : graph_ok (mk_graph [] []).
Proof. split; [done|]. by intros u v ?%not_elem_of_nil. Qed.

Lemma add_node_ok n a g : graph_ok g → node_ok n a → graph_ok (add_node n a g).
Proof.
  intros [Hn He] Ha. split; [|done]. intros m b. cbn. destruct (decide (n = m)) as [<-|Hne].
  - rewrite od_get_set. by intros [= <-].
  - rewrite od_get_set_ne by done. apply Hn.
Qed.

Lemma touch_ok n nodes : (∀ m a, od_get m nodes = Some a → node_ok m a) →
  ∀ m a, od_get m (touch n nodes) = Some a → node_ok m a.
Proof.
  intros Hn m a. unfold touch. destruct (od_get n nodes) eqn:Hg; [apply Hn|].
  destruct (decide (n = m)) as [<-|Hne].
  - rewrite od_get_set. intros [= <-]. by destruct n.
  - rewrite od_get_set_ne by done. apply Hn.
Qed.
Lemma add_edge_ok u v g : graph_ok g → edge_ok u v → graph_ok (add_edge u v g).
Proof.
  intros [Hn He] Huv. split; cbn.
  - by do 2 apply touch_ok.
  - intros a b [[= -> ->]|Hab]%elem_of_cons; [done|by apply He].
Qed.

Lemma add_peers_ok add pid peers w w' p :
  (∀ d w w', get_device (d_id d) = Ok d → graph_ok (w_graph w) → add d w = Ok w' → graph_ok (w_graph w')) →
  has_port pid.1 p → p_no p = pid.2 → (∀ q, q ∈ peers → q ∈ p_peers p) →
  graph_ok (w_graph w) → add_peers add pid peers w = Ok w' → graph_ok (w_graph w').
Proof.
  intros Hadd Hp Hno. revert w. induction peers as [|q peers IH]; intros w Hin Hg; [by intros [= <-]|].
  cbn [add_peers]. intros (w1 & Hw1 & Hrest)%result_bind_Ok. eapply IH; [|..|exact Hrest].
  { intros q' Hq'. apply Hin. by right. }
  case_bool_decide.
  - injection Hw1 as <-. case_bool_decide; [done|]. cbn. apply add_edge_ok; [done|].
    assert (names_peer pid (peer_device_id q, peer_port_no q)) as Hpeer.
    { exists p. split_and!; [done|done|]. destruct q. apply Hin. left. }
    destruct pid as [dv no]. case_match; cbn; [by left|by right].
  - apply result_bind_Ok in Hw1 as (d & Hd & Hw1). eapply Hadd; [|done|exact Hw1].
    by rewrite (get_device_id _ _ Hd).
Qed.

Lemma add_ports_ok bp add device ports w w' :
  (∀ d w w', get_device (d_id d) = Ok d → graph_ok (w_graph w) → add d w = Ok w' → graph_ok (w_graph w')) →
  (∀ p, p ∈ ports → has_port (d_id device) p) →
  graph_ok (w_graph w) → add_ports bp add device ports w = Ok w' → graph_ok (w_graph w').
Proof.
  intros Hadd. revert w. induction ports as [|p ports IH]; intros w Hin Hg; [by intros [= <-]|].
  cbn [add_ports]. intros (w1 & Hw1 & Hrest)%result_bind_Ok. eapply IH; [|..|exact Hrest].
  { intros q Hq. apply Hin. by right. }
  eapply (add_peers_ok add (d_id device, p_no p) (p_peers p) _ w1 p); [done| |done|done| |exact Hw1].
  - apply Hin. left.
  - cbn. apply add_edge_ok; [|done]. apply add_node_ok; [done|]. split; [|done]. apply Hin. left.
Qed.

Lemma add_device_ok bp fuel : ∀ d w w', get_device (d_id d) = Ok d → graph_ok (w_graph w) →
  add_device bp fuel d w = Ok w' → graph_ok (w_graph w').
Proof.
  induction fuel as [|fuel IH]; intros d w w' Hd Hg; [done|]. cbn [add_device].
  case_bool_decide; [by intros [= <-]|]. intros (ports & Hp & Ha)%result_bind_Ok.
  eapply add_ports_ok; [exact IH| | |exact Ha].
  - intros p Hin. by exists ports.
  - by apply add_node_ok.
Qed.

Lemma build_graph_ok fuel lps bp g : build_graph fuel lps = Ok (bp, g) → graph_ok g.
Proof.
  unfold build_graph. intros (w & Hw & [= <- <-])%result_bind_Ok. revert Hw.
  assert (graph_ok (w_graph (mk_walk (mk_graph [] []) [] []))) as Hg by apply graph_ok_empty.
  revert Hg. generalize (mk_walk (mk_graph [] []) [] []). generalize (mk_boundary_ports lps) as bp.
  intros bp. induction lps as [|lp lps IH]; intros w0 Hg; cbn [add_all]; [by intros [= <-]|].
  intros (d & Hd & Hw)%result_bind_Ok. apply result_bind_Ok in Hw as (w1 & Hw1 & Hw).
  eapply IH; [|exact Hw]. eapply add_device_ok; [|exact Hg|exact Hw1].
  by rewrite (get_device_id _ _ Hd).
Qed.

(** ** Routes *)
Context `{!NetworkXLaws}.

(** A route from the boundary port [s] to the boundary port [t]. *)
Definition route_ok (s t : port_id) (r : route) : Prop :=
  ∃ h1 h2, r = [Some h1; Some h2] ∧
    get_device s.1 = Ok (hop_device h1) ∧ get_device t.1 = Ok (hop_device h2) ∧
    has_port s.1 (hop_ingress_port h1) ∧ p_no (hop_ingress_port h1) = s.2 ∧
    has_port s.1 (hop_egress_port h1) ∧
    has_port t.1 (hop_ingress_port h2) ∧
    has_port t.1 (hop_egress_port h2) ∧ p_no (hop_egress_port h2) = t.2 ∧
    linked (s.1, p_no (hop_egress_port h1)) (t.1, p_no (hop_ingress_port h2)).

Lemma device_attr_Ok g n d : graph_ok g → device_attr g n = Ok d →
  ∃ id, n = NDev id ∧ get_device id = Ok d.
Proof.
  intros [Hn _]. unfold device_attr. destruct (od_get n (g_nodes g)) as [[|d'|]|] eqn:Hg; try done.
  intros [= <-]. apply Hn in Hg. destruct n; [by eexists|done].
Qed.
Lemma port_attr_Ok g n p : graph_ok g → port_attr g n = Ok p →
  ∃ id, n = NPort id (p_no p) ∧ has_port id p.
Proof.
  intros [Hn _]. unfold port_attr. destruct (od_get n (g_nodes g)) as [[| |p' b]|] eqn:Hg; try done.
  intros [= <-]. apply Hn in Hg. destruct n as [|id no]; [done|].
  destruct Hg as [Hp <-]. by exists id.
Qed.
Lemma adjacent_dev_port g id id' no : graph_ok g → adjacent g (NDev id) (NPort id' no) → id' = id.
Proof. by intros [_ He] [?%He|?%He]. Qed.
Lemma adjacent_port_dev g id id' no : graph_ok g → adjacent g (NPort id' no) (NDev id) → id' = id.
Proof. by intros [_ He] [?%He|?%He]. Qed.
Lemma adjacent_ports g a i b j : graph_ok g → adjacent g (NPort a i) (NPort b j) → linked (a, i) (b, j).
Proof. intros [_ He] [?%He|Hl%He]; [done|]. destruct Hl; [by right|by left]. Qed.

Lemma hops_of_path_ok g s t path r : graph_ok g →
  shortest_path g (port_node s) (port_node t) = Ok path → hops_of_path g path = Ok r → route_ok s t r.
Proof.
  intros Hg Hsp. destruct (shortest_path_ends _ _ _ _ Hsp) as [Hs Ht].
  pose proof (shortest_path_path _ _ _ _ Hsp) as Hpath.
  destruct path as [|n1 [|n2 [|n3 [|n4 [|n5 [|n6 [|? ?]]]]]]]; try done.
  cbn in Hs, Ht, Hpath. injection Hs as ->. injection Ht as ->.
  destruct Hpath as (H12 & H23 & H34 & H45 & H56 & _). cbn [hops_of_path].
  intros (d1 & Hd1 & Hr)%result_bind_Ok. apply result_bind_Ok in Hr as (i1 & Hi1 & Hr).
  apply result_bind_Ok in Hr as (e1 & He1 & Hr). apply result_bind_Ok in Hr as (d2 & Hd2 & Hr).
  apply result_bind_Ok in Hr as (i2 & Hi2 & Hr). apply result_bind_Ok in Hr as (e2 & He2 & [= <-]).
  destruct (device_attr_Ok _ _ _ Hg Hd1) as (id1 & -> & Hg1).
  destruct (device_attr_Ok _ _ _ Hg Hd2) as (id2 & -> & Hg2).
  destruct (port_attr_Ok _ _ _ Hg Hi1) as (x1 & Hx1 & Hp1). injection Hx1 as <- Hno1.
  destruct (port_attr_Ok _ _ _ Hg He1) as (x2 & -> & Hp2).
  destruct (port_attr_Ok _ _ _ Hg Hi2) as (x3 & -> & Hp3).
  destruct (port_attr_Ok _ _ _ Hg He2) as (x4 & Hx4 & Hp4). injection Hx4 as <- Hno4.
  apply adjacent_port_dev in H12 as <-; [|done]. apply adjacent_dev_port in H23 as ->; [|done].
  apply adjacent_ports in H34; [|done]. apply adjacent_port_dev in H45 as ->; [|done].
  apply adjacent_dev_port in H56 as <-; [|done].
  by exists (mk_hop d1 i1 e1), (mk_hop d2 i2 e2).
Qed.

Lemma compute_routes_ok fuel lps g rs sp tp r :
  compute_routes fuel lps = Ok (g, rs) → od_get (sp, tp) rs = Some r →
  ∃ s t, (s, sp) ∈ mk_boundary_ports lps ∧ (t, tp) ∈ mk_boundary_ports lps ∧ s ≠ t ∧ route_ok s t r.
Proof.
  intros ([bp g'] & Hb & Hr)%result_bind_Ok. apply result_bind_Ok in Hr as (rs' & Hr & [= -> ->]).
  pose proof (build_graph_ok _ _ _ _ Hb) as Hg.
  assert (bp = mk_boundary_ports lps) as ->.
  { unfold build_graph in Hb. by apply result_bind_Ok in Hb as (w & _ & [= <- _]). }
  revert sp tp r. unfold build_routes in Hr.
  pose (P := λ rs : routes, ∀ sp tp r, od_get (sp, tp) rs = Some r → ∃ s t,
    (s, sp) ∈ mk_boundary_ports lps ∧ (t, tp) ∈ mk_boundary_ports lps ∧ s ≠ t ∧ route_ok s t r).
  refine (fold_result_inv P _ _ _ _ _ _ Hr); [|by intros ? ? ? [=]].
  intros [[s sno] [t tno]] b b' Hin IH Hadd sp tp r Hget. unfold add_route in Hadd.
  case_bool_decide as Hst; [injection Hadd as <-; by apply IH|].
  apply result_bind_Ok in Hadd as (path & Hp & Hadd). case_bool_decide; [injection Hadd as <-; by apply IH|].
  apply result_bind_Ok in Hadd as (r' & Hr' & [= <-]).
  destruct (decide ((sno, tno) = (sp, tp))) as [[= -> ->]|Hne].
  - rewrite od_get_set in Hget. injection Hget as <-. exists s, t.
    apply list_elem_of_bind in Hin as (x & Hx & Hs). apply list_elem_of_bind in Hx as (y & Hy & Ht).
    apply list_elem_of_singleton in Hy as [= <- <-].
    split_and!; [done|done|done|by eapply hops_of_path_ok].
  - rewrite od_get_set_ne in Hget by done. by apply IH.
Qed.

(** Every route the agent computes is a real one: it leads from the logical
    port it is filed under to the other through two devices, each hop uses
    ports of its own device, and the ports between the hops are peers. *)
Theorem compute_routes_sound fuel lps g rs sp tp r :
  compute_routes fuel lps = Ok (g, rs) → od_get (sp, tp) rs = Some r →
  ∃ s t, (s, sp) ∈ mk_boundary_ports lps ∧ (t, tp) ∈ mk_boundary_ports lps ∧ s ≠ t ∧ route_ok s t r.
Proof. apply compute_routes_ok. Qed.

(** ** The walk ends *)

Section termination.
Context (known : list string).
Hypothesis known_device : ∀ id d, get_device id = Ok d → id ∈ known.
Hypothesis device_no_fuel : ∀ id, get_device id ≠ Raise OutOfFuel.
Hypothesis ports_no_fuel : ∀ id, get_ports id ≠ Raise OutOfFuel.

(** The devices not yet added. *)
Definition missing (w : walk) : nat := length (filter (λ id, id ∉ w_devices w) known).

(** A step that ends, and only adds devices. *)
Definition steps (w : walk) (res : result walk) : Prop :=
  res ≠ Raise OutOfFuel ∧ ∀ w', res = Ok w' → w_devices w ⊆ w_devices w'.

Lemma steps_bind w res (f : walk → result walk) :
  steps w res → (∀ w', w_devices w ⊆ w_devices w' → steps w' (f w')) → steps w (res ≫= f).
Proof.
  intros [Hno Hmono] Hf. destruct res as [w1|e].
  - specialize (Hmono w1 eq_refl). destruct (Hf w1 Hmono) as [Hno' Hmono']. split; [done|].
    intros w' Hw'. etrans; [exact Hmono|]. by apply Hmono'.
  - split; [exact Hno|done].
Qed.
Lemma steps_ret w w' : w_devices w ⊆ w_devices w' → steps w (Ok w').
Proof. intros Hs. split; [done|]. by intros ? [= <-]. Qed.

Lemma filter_length_le (l d d' : list string) :
  d ⊆ d' → length (filter (λ id, id ∉ d') l) ≤ length (filter (λ id, id ∉ d) l).
Proof.
  intros Hs. induction l as [|x l IH]; [done|]. rewrite !filter_cons.
  repeat case_decide; simpl; try lia. set_solver.
Qed.
Lemma filter_length_lt (l d : list string) x :
  x ∈ l → x ∉ d → length (filter (λ id, id ∉ x :: d) l) < length (filter (λ id, id ∉ d) l).
Proof.
  intros Hx Hd. induction l as [|y l IH]; [by apply not_elem_of_nil in Hx|].
  pose proof (filter_length_le l d (x :: d) ltac:(set_solver)). rewrite !filter_cons.
  apply elem_of_cons in Hx as [<-|Hx].
  - rewrite decide_False by set_solver. rewrite decide_True by done. simpl. lia.
  - specialize (IH Hx). repeat case_decide; simpl; try lia; set_solver.
Qed.
Lemma missing_mono w w' : w_devices w ⊆ w_devices w' → missing w' ≤ missing w.
Proof. apply filter_length_le. Qed.

Lemma add_peers_ends add pid peers n : (∀ d w, get_device (d_id d) = Ok d → missing w < n → steps w (add d w)) →
  ∀ w, missing w < n → steps w (add_peers add pid peers w).
Proof.
  intros Hadd. induction peers as [|q peers IH]; intros w Hw; cbn [add_peers]; [by apply steps_ret|].
  apply steps_bind.
  - case_bool_decide; [apply steps_ret; by case_bool_decide|].
    destruct (get_device (peer_device_id q)) as [d|e] eqn:Hd; cbn [mbind result_bind].
    + apply Hadd; [|done]. by rewrite (get_device_id _ _ Hd).
    + split; [|done]. intros [= ->]. by apply (device_no_fuel (peer_device_id q)).
  - intros w' Hm. apply IH. pose proof (missing_mono _ _ Hm). lia.
Qed.
Lemma add_ports_ends bp add device ports n :
  (∀ d w, get_device (d_id d) = Ok d → missing w < n → steps w (add d w)) →
  ∀ w, missing w < n → steps w (add_ports bp add device ports w).
Proof.
  intros Hadd. induction ports as [|p ports IH]; intros w Hw; cbn [add_ports]; [by apply steps_ret|].
  apply steps_bind; [exact (add_peers_ends _ _ _ n Hadd (mk_walk _ (w_devices w) _) Hw)|].
  intros w' Hm. apply IH. pose proof (missing_mono _ _ Hm). lia.
Qed.
Lemma add_device_ends bp fuel : ∀ d w, get_device (d_id d) = Ok d → missing w < fuel →
  steps w (add_device bp fuel d w).
Proof.
  induction fuel as [|fuel IH]; intros d w Hd Hm; [lia|]. cbn [add_device].
  case_bool_decide as Hin; [by apply steps_ret|].
  set (w1 := mk_walk _ (d_id d :: w_devices w) _).
  assert (missing w1 < fuel) as Hm1.
  { pose proof (filter_length_lt known (w_devices w) (d_id d) (known_device _ _ Hd) Hin).
    unfold missing in *. cbn in *. lia. }
  destruct (get_ports (d_id d)) as [ports|e] eqn:Hp; cbn [mbind result_bind].
  - destruct (add_ports_ends bp (add_device bp fuel) d ports fuel IH w1 Hm1) as [Hno Hmono].
    split; [done|]. intros w' Hw'. apply Hmono in Hw'. cbn in Hw'. set_solver.
  - split; [|done]. intros [= ->]. by apply (ports_no_fuel (d_id d)).
Qed.

(** Building the device graph ends, whatever cycles the peers form: the
    recursion is never deeper than the number of devices. *)
Theorem build_graph_ends lps : build_graph (S (length known)) lps ≠ Raise OutOfFuel.
Proof.
  unfold build_graph. generalize (mk_boundary_ports lps) as bp. intros bp.
  assert (∀ w, steps w (add_all bp (S (length known)) lps w)) as Hall.
  { induction lps as [|lp lps IH]; intros w; cbn [add_all]; [by apply steps_ret|].
    destruct (get_device (lp_device_id lp)) as [d|e] eqn:Hd; cbn [mbind result_bind].
    - apply steps_bind; [|auto]. apply add_device_ends; [by rewrite (get_device_id _ _ Hd)|].
      unfold missing. pose proof (length_filter (λ id, id ∉ w_devices w) known). lia.
    - split; [|done]. intros [= ->]. by apply (device_no_fuel (lp_device_id lp)). }
  destruct (Hall (mk_walk (mk_graph [] []) [] [])) as [Hno _].
  destruct (add_all _ _ _ _) as [w|e]; [done|]. cbn. congruence.
Qed.
End termination.
End device_graph.
