(* ===== verification/LogicalDevice.v ===== *)
(** * The agent of a logical device (voltha/core/logical_device_agent.py)

    The agent keeps the flow and group tables of a logical device in the
    configuration, caches the routes and default rules of the devices behind
    it, and pushes the decomposed rules to the devices whenever a table
    changes.  The tables it reads and writes through its proxies are fields of
    the state; a write that changes a table runs the agent's callback, whose
    exceptions the configuration logs and drops.  The agent implements the
    interface [Router] of the flow decomposer. *)

From stdpp Require Import prelude strings list.
From S2P Require Import Prelude OFP FlowDecomposer DeviceGraph.

(** An attribute that [__init__] does not set and invalidation sets to [None]. *)
Inductive pyattr (A : Type) : Type := Missing | IsNone | Val (a : A).
Arguments Missing {A}.
Arguments IsNone {A}.
Arguments Val {A} a.

Record ld_state : Type := mk_ld {
  ld_root_device_id : string;
  ld_devices : list (string * (Device * list Port));    (** /devices *)
  ld_ports : list LogicalPort;                          (** /ports of the logical device *)
  ld_flows : list flow_stats;                           (** its /flows *)
  ld_groups : list group_entry;                         (** its /flow_groups *)
  ld_device_rules : list (string * (list flow_stats * list group_entry));
      (** /devices/<id>/flows and /devices/<id>/flow_groups *)
  ld_routes : option routes;
  ld_default_rules : pyattr rules_map;
  ld_nni : pyattr Z;
}.

Definition set_flows (l : list flow_stats) (s : ld_state) : ld_state :=
  mk_ld (ld_root_device_id s) (ld_devices s) (ld_ports s) l (ld_groups s) (ld_device_rules s)
    (ld_routes s) (ld_default_rules s) (ld_nni s).
Definition set_groups (l : list group_entry) (s : ld_state) : ld_state :=
  mk_ld (ld_root_device_id s) (ld_devices s) (ld_ports s) (ld_flows s) l (ld_device_rules s)
    (ld_routes s) (ld_default_rules s) (ld_nni s).
Definition set_ports (l : list LogicalPort) (s : ld_state) : ld_state :=
  mk_ld (ld_root_device_id s) (ld_devices s) l (ld_flows s) (ld_groups s) (ld_device_rules s)
    (ld_routes s) (ld_default_rules s) (ld_nni s).
Definition set_device_rules (l : list (string * (list flow_stats * list group_entry)))
    (s : ld_state) : ld_state :=
  mk_ld (ld_root_device_id s) (ld_devices s) (ld_ports s) (ld_flows s) (ld_groups s) l
    (ld_routes s) (ld_default_rules s) (ld_nni s).
Definition set_tables (r : option routes) (d : pyattr rules_map) (n : pyattr Z) (s : ld_state)
    : ld_state :=
  mk_ld (ld_root_device_id s) (ld_devices s) (ld_ports s) (ld_flows s) (ld_groups s)
    (ld_device_rules s) r d n.

(** What the device graph reads of the configuration. *)
Definition view (s : ld_state) : DeviceView := {|
  get_device id := of_option KeyError (fst <$> od_get id (ld_devices s));
  get_ports id := of_option KeyError (snd <$> od_get id (ld_devices s));
|}.

Section logical_device.
Context `{!FlowHash, !NetworkX}.

(** ** Cached tables *)

Definition rule_dict (l : list flow_stats) : list (Z * flow_stats) :=
  od_of_list ((λ f, (fs_id f, f)) <$> l).
Definition the_port (ty : PortType) (ports : list Port) : result Port :=
  match filter (λ p, p_type p = ty) ports with
  | [p] => Ok p
  | _ => Raise AssertionError
  end.

(** [root_device_default_rules] and [leaf_device_default_rules] *)
Definition root_device_default_rules (ports : list Port)
    : result (list (Z * flow_stats) * list (Z * group_entry)) :=
  up ← the_port ETHERNET_NNI ports;
  down ← the_port PON_OLT ports;
  Ok (rule_dict
        [mk_flow_stat 2000 0
           [in_port (p_no up); vlan_vid (Z.lor OFPVID_PRESENT 4000); vlan_pcp 0]
           [pop_vlan; output (p_no down)]], []).
Definition leaf_device_default_rules (device : Device) (ports : list Port)
    : result (list (Z * flow_stats) * list (Z * group_entry)) :=
  up ← the_port PON_ONU ports;
  down ← the_port ETHERNET_UNI ports;
  let vid := Z.lor OFPVID_PRESENT (d_vlan device) in
  Ok (rule_dict
        [mk_flow_stat 500 0
           [in_port (p_no down); vlan_vid (Z.lor OFPVID_PRESENT 0)]
           [set_field (vlan_vid vid); output (p_no up)];
         mk_flow_stat 500 0
           [in_port (p_no down); vlan_vid 0]
           [push_vlan 0x8100; set_field (vlan_vid vid); output (p_no up)];
         mk_flow_stat 500 0
           [in_port (p_no up); vlan_vid vid]
           [set_field (vlan_vid (Z.lor OFPVID_PRESENT 0)); output (p_no down)]], []).

(** [_generate_default_rules] *)
Definition default_rules_of (s : ld_state) (rules : rules_map) (node : gnode * gattr)
    : result rules_map :=
  match node.2 with
  | DevAttr device =>
      ports ← @get_ports (view s) (d_id device);
      r ← (if bool_decide (d_id device = ld_root_device_id s)
           then root_device_default_rules ports
           else leaf_device_default_rules device ports);
      Ok (od_set (d_id device) r rules)
  | _ => Ok rules
  end.
Definition generate_default_rules (s : ld_state) (g : graph) : result rules_map :=
  fold_result (default_rules_of s) [] (g_nodes g).

(** [_assure_cached_tables_up_to_date]: the routes are stored before the default
    rules are generated. *)
Definition assure_cached_tables : M ld_state unit := λ s,
  match ld_routes s with
  | Some _ => (Ok tt, s)
  | None =>
      match @compute_routes (view s) _ (S (length (ld_devices s))) (ld_ports s) with
      | Raise e => (Raise e, s)
      | Ok (g, rs) =>
          let s1 := set_tables (Some rs) (ld_default_rules s) (ld_nni s) s in
          match generate_default_rules s g with
          | Raise e => (Raise e, s1)
          | Ok rules =>
              let s2 := set_tables (Some rs) (Val rules) (ld_nni s) s in
              match filter (λ p, lp_root_port p = true) (ld_ports s) with
              | [p] => (Ok tt, set_tables (Some rs) (Val rules) (Val (lp_port_no p)) s)
              | _ => (Raise AssertionError, s2)
              end
          end
      end
  end.

(** [_invalidate_cached_tables] *)
Definition invalidate_cached_tables (s : ld_state) : ld_state := set_tables None IsNone IsNone s.

(** ** Routes *)

Definition read_nni (nni : pyattr Z) : result (option Z) :=
  match nni with Missing => Raise AttributeError | IsNone => Ok None | Val z => Ok (Some z) end.
Definition hop_at (i : nat) (r : route) : result (option RouteHop) := of_option IndexError (r !! i).

(** [get_route], once the tables are there *)
Definition lookup_route (rs : routes) (nni : pyattr Z) (ingress_port_no egress_port_no : option Z)
    : result route :=
  egress_port_no ← (if is_controller egress_port_no then read_nni nni else Ok egress_port_no);
  wild ← (if bool_decide (ingress_port_no = None)
          then n ← read_nni nni; Ok (bool_decide (egress_port_no = n)) else Ok false);
  if wild : bool then
    n ← read_nni nni;
    match find (λ kr : Z * Z * route, bool_decide (Some kr.1.2 = n)) rs with
    | Some kr => h ← hop_at 1 kr.2; Ok [None; h]
    | None => Raise GenericException
    end
  else match egress_port_no with
  | None =>
      match find (λ kr : Z * Z * route, bool_decide (Some kr.1.1 = ingress_port_no)) rs with
      | Some kr => h ← hop_at 0 kr.2; Ok [h; None]
      | None => Raise GenericException
      end
  | Some e =>
      match ingress_port_no with
      | Some i => of_option KeyError (od_get (i, e) rs)
      | None => Raise KeyError
      end
  end.

(** The agent as the router of the decomposer.  A missing or [None] table of
    default rules is an AttributeError at the latest when it is iterated. *)
#[local] Instance agent_router (s : ld_state) : Router := {|
  get_all_default_rules := match ld_default_rules s with Val r => Ok r | _ => Raise AttributeError end;
  get_route i e := lookup_route (default [] (ld_routes s)) (ld_nni s) i e;
|}.

(** ** Pushing the rules to the devices *)

Fixpoint push_rules (rules : rules_map) : M ld_state unit :=
  match rules with
  | [] => mret tt
  | (dev, (fl, gr)) :: rules =>
      s ← get_state;
      _ ← lift (of_option KeyError (od_get dev (ld_devices s)));
      _ ← modify (λ s, set_device_rules
                    (od_set dev (od_values fl, od_values gr) (ld_device_rules s)) s);
      push_rules rules
  end.
(** [_flow_table_updated] and [_group_table_updated]: both decompose the flow
    table with the group table. *)
Definition tables_updated (flows : list flow_stats) (groups : list group_entry) : M ld_state unit :=
  _ ← assure_cached_tables;
  s ← get_state;
  rules ← lift (decompose_rules (H0 := agent_router s) flows groups);
  push_rules rules.

(** A post-update callback: exceptions are logged by the configuration. *)
Definition callback (m : M ld_state unit) : M ld_state unit := λ s, (Ok tt, (m s).2).

(** [self.flows_proxy.update('/', Flows(items=flows))] and the same for groups:
    an equal table is not a change. *)
Definition write_flows (flows : list flow_stats) : M ld_state unit :=
  s ← get_state;
  if bool_decide (ld_flows s = flows) then mret tt
  else
    _ ← modify (set_flows flows);
    callback (s ← get_state; tables_updated flows (ld_groups s)).
Definition write_groups (groups : list group_entry) : M ld_state unit :=
  s ← get_state;
  if bool_decide (ld_groups s = groups) then mret tt
  else
    _ ← modify (set_groups groups);
    callback (s ← get_state; tables_updated (ld_flows s) groups).

(** ** Flow table *)

Definition flow_match (f1 f2 : flow_stats) : bool :=
  bool_decide (fs_table_id f1 = fs_table_id f2) && bool_decide (fs_priority f1 = fs_priority f2) &&
  bool_decide (fs_flags f1 = fs_flags f2) && bool_decide (fs_cookie f1 = fs_cookie f2) &&
  bool_decide (fs_match f1 = fs_match f2).
Definition find_flow (flows : list flow_stats) (flow : flow_stats) : option nat :=
  fst <$> find_index (λ f, flow_match f flow) flows.

(** [find_overlapping_flows] is not implemented in the source. *)
Definition find_overlapping_flows (flows : list flow_stats) (fmod : flow_mod) : list flow_stats := [].

Definition flag_set (flags flag : Z) : bool := negb (bool_decide (Z.land flags flag = 0%Z)).

Definition flow_add (fmod : flow_mod) : M ld_state unit :=
  _ ← lift (assert_ (bool_decide (fm_cookie_mask fmod = 0%Z)));
  s ← get_state;
  let flows := ld_flows s in
  let flow := flow_stats_entry_from_flow_mod_message fmod in
  if flag_set (fm_flags fmod) OFPFF_CHECK_OVERLAP then
    match find_overlapping_flows flows fmod with
    | [] => write_flows (flows ++ [flow])
    | _ => mret tt
    end
  else match find_index (λ f, flow_match f flow) flows with
  | Some (idx, old_flow) =>
      let flow := if flag_set (fm_flags fmod) OFPFF_RESET_COUNTS then flow
                  else set_fs_counts (fs_packet_count old_flow) (fs_byte_count old_flow) flow in
      write_flows (<[idx := flow]> flows)
  | None => write_flows (flows ++ [flow])
  end.

Definition applied_actions (flow : flow_stats) : list action :=
  i ← fs_instructions flow;
  if bool_decide (i_type i = OFPIT_APPLY_ACTIONS) then i_actions i else [].
Definition flow_has_out_port (flow : flow_stats) (port : Z) : bool :=
  existsb (λ a, bool_decide (a_type a = OUTPUT) && bool_decide (a_output_port a = port))
    (applied_actions flow).
Definition flow_has_out_group (flow : flow_stats) (group_id : Z) : bool :=
  existsb (λ a, bool_decide (a_type a = GROUP) && bool_decide (a_group_id a = group_id))
    (applied_actions flow).

Definition flow_matches_spec (flow : flow_stats) (fmod : flow_mod) : result bool :=
  if bool_decide (Z.land (fs_cookie flow) (fm_cookie_mask fmod) ≠
                  Z.land (fm_cookie fmod) (fm_cookie_mask fmod)) then Ok false
  else if bool_decide (fm_table_id fmod ≠ OFPTT_ALL) && bool_decide (fs_table_id flow ≠ fm_table_id fmod)
  then Ok false
  else if bool_decide (fm_out_port fmod ≠ OFPP_ANY) && negb (flow_has_out_port flow (fm_out_port fmod))
  then Ok false
  else if bool_decide (fm_out_group fmod ≠ OFPG_ANY) && negb (flow_has_out_group flow (fm_out_group fmod))
  then Ok false
  else match m_oxm_fields (fm_match fmod) with
       | [] => Ok true
       | _ => Raise NotImplementedError
       end.

(** Split a table into what to keep and what to delete. *)
Fixpoint split_flows (p : flow_stats → result bool) (flows : list flow_stats)
    : result (list flow_stats * list flow_stats) :=
  match flows with
  | [] => Ok ([], [])
  | f :: flows =>
      b ← p f;
      kd ← split_flows p flows;
      Ok (if b : bool then (kd.1, f :: kd.2) else (f :: kd.1, kd.2))
  end.

(** [announce_flows_deleted] *)
Definition announce_flows_deleted (flows : list flow_stats) : result unit :=
  if existsb (λ f, flag_set (fs_flags f) OFPFF_SEND_FLOW_REM) flows
  then Raise NotImplementedError else Ok tt.

Definition flow_delete (fmod : flow_mod) : M ld_state unit :=
  s ← get_state;
  '(to_keep, to_delete) ← lift (split_flows (λ f, flow_matches_spec f fmod) (ld_flows s));
  _ ← (match to_delete with [] => mret tt | _ => write_flows to_keep end);
  lift (announce_flows_deleted to_delete).

Definition flow_delete_strict (fmod : flow_mod) : M ld_state unit :=
  s ← get_state;
  match find_flow (ld_flows s) (flow_stats_entry_from_flow_mod_message fmod) with
  | Some idx => write_flows (delete idx (ld_flows s))
  | None => mret tt
  end.

Definition update_flow_table (fmod : flow_mod) : M ld_state unit :=
  let command := fm_command fmod in
  if bool_decide (command = OFPFC_ADD) then flow_add fmod
  else if bool_decide (command = OFPFC_DELETE) then flow_delete fmod
  else if bool_decide (command = OFPFC_DELETE_STRICT) then flow_delete_strict fmod
  else if bool_decide (command = OFPFC_MODIFY) then raise NotImplementedError
  else if bool_decide (command = OFPFC_MODIFY_STRICT) then raise NotImplementedError
  else mret tt.

(** ** Group table *)

Definition group_dict (groups : list group_entry) : list (Z * group_entry) :=
  od_of_list ((λ g, (ge_group_id g, g)) <$> groups).

Definition group_add (gmod : group_mod) : M ld_state unit :=
  s ← get_state;
  let groups := group_dict (ld_groups s) in
  match od_get (gm_group_id gmod) groups with
  | Some _ => mret tt
  | None => write_groups (od_values (od_set (gm_group_id gmod) (group_entry_from_group_mod gmod) groups))
  end.

Definition flows_delete_by_group_id (flows : list flow_stats) (group_id : Z)
    : result (bool * list flow_stats) :=
  let to_delete := filter (λ f, flow_has_out_group f group_id = true) flows in
  let to_keep := filter (λ f, flow_has_out_group f group_id ≠ true) flows in
  _ ← announce_flows_deleted to_delete;
  Ok (negb (bool_decide (to_delete = [])), to_keep).

Definition group_delete (gmod : group_mod) : M ld_state unit :=
  s ← get_state;
  let groups := group_dict (ld_groups s) in
  let group_id := gm_group_id gmod in
  if bool_decide (group_id = OFPG_ALL) then write_groups []
  else match od_get group_id groups with
  | None => mret tt
  | Some _ =>
      '(flows_changed, flows) ← lift (flows_delete_by_group_id (ld_flows s) group_id);
      _ ← write_groups (od_values (od_del group_id groups));
      if flows_changed : bool then write_flows flows else mret tt
  end.

Definition group_modify (gmod : group_mod) : M ld_state unit :=
  s ← get_state;
  let groups := group_dict (ld_groups s) in
  match od_get (gm_group_id gmod) groups with
  | None => mret tt
  | Some _ => write_groups (od_values (od_set (gm_group_id gmod) (group_entry_from_group_mod gmod) groups))
  end.

Definition update_group_table (gmod : group_mod) : M ld_state unit :=
  let command := gm_command gmod in
  if bool_decide (command = OFPGC_DELETE) then group_delete gmod
  else if bool_decide (command = OFPGC_ADD) then group_add gmod
  else if bool_decide (command = OFPGC_MODIFY) then group_modify gmod
  else mret tt.

(** ** Ports: a port added to or removed from the logical device invalidates
    the tables ([_port_added], [_port_removed]) *)
Definition port_list_updated (ports : list LogicalPort) : M ld_state unit :=
  modify (λ s, invalidate_cached_tables (set_ports ports s)).

End logical_device.
