(* ===== verification/LogicalTables.v ===== *)
(** * The flow and group tables of a logical device

    Properties of the table operations of [LogicalDeviceAgent]: the flow table
    behaves as a finite map keyed by what OpenFlow identifies a flow by, group
    ids are unique, deleting a group deletes the flows that use it, and every
    change of a table that can be decomposed reaches the devices. *)

From stdpp Require Import prelude strings list.
From S2P Require Import Prelude OFP FlowDecomposer DeviceGraph LogicalDevice.

Section tables.
Context `{!FlowHash, !NetworkX}.

(** ** What the callbacks leave alone *)

Definition same_tables (s s' : ld_state) : Prop :=
  ld_flows s' = ld_flows s ∧ ld_groups s' = ld_groups s ∧ ld_devices s' = ld_devices s ∧
  ld_ports s' = ld_ports s.
#[local] Instance same_tables_preorder : PreOrder same_tables.
Proof. split; [by intros s|]. intros s1 s2 s3 (?&?&?&?) (?&?&?&?). unfold same_tables. split_and!; congruence. Qed.

Lemma assure_same : rel_post same_tables assure_cached_tables.
Proof. intros s. unfold assure_cached_tables. by repeat case_match. Qed.
Lemma push_same rules : rel_post same_tables (push_rules rules).
Proof.
  induction rules as [|[dev [fl gr]] rules IH]; cbn [push_rules]; [rel_post_solve|].
  apply rel_post_bind; [apply _|done|]. intros s. apply rel_post_bind; [apply _|rel_post_solve|].
  intros d. by apply rel_post_bind; [apply _|done|].
Qed.
Lemma tables_updated_same flows groups : rel_post same_tables (tables_updated flows groups).
Proof.
  unfold tables_updated. apply rel_post_bind; [apply _|apply assure_same|]. intros _.
  apply rel_post_bind; [apply _|done|]. intros s. apply rel_post_bind; [apply _|rel_post_solve|].
  intros rules. apply push_same.
Qed.

(** ** Writing a table *)

Lemma write_flows_spec flows s : ∃ s', write_flows flows s = (Ok tt, s') ∧
  ld_flows s' = flows ∧ ld_groups s' = ld_groups s ∧ ld_devices s' = ld_devices s ∧ ld_ports s' = ld_ports s.
Proof.
  unfold write_flows. rewrite (M_bind_eq _ _ s s s) by done. case_bool_decide as Heq.
  - exists s. by split_and!.
  - rewrite (M_bind_eq _ _ _ tt (set_flows flows s)) by done. unfold callback.
    eexists. split; [done|]. rewrite (M_bind_eq _ _ _ (set_flows flows s) (set_flows flows s)) by done.
    exact (tables_updated_same _ _ (set_flows flows s)).
Qed.
Lemma write_groups_spec groups s : ∃ s', write_groups groups s = (Ok tt, s') ∧
  ld_groups s' = groups ∧ ld_flows s' = ld_flows s ∧ ld_devices s' = ld_devices s ∧ ld_ports s' = ld_ports s.
Proof.
  unfold write_groups. rewrite (M_bind_eq _ _ s s s) by done. case_bool_decide as Heq.
  - exists s. by split_and!.
  - rewrite (M_bind_eq _ _ _ tt (set_groups groups s)) by done. unfold callback.
    eexists. split; [done|]. rewrite (M_bind_eq _ _ _ (set_groups groups s) (set_groups groups s)) by done.
    destruct (tables_updated_same (ld_flows (set_groups groups s)) groups (set_groups groups s)) as (?&?&?&?).
    by split_and!.
Qed.

(** ** The flow table as a finite map *)

Definition flow_key : Type := Z * Z * Z * Z * ofp_match.
Definition key_of (f : flow_stats) : flow_key :=
  (fs_table_id f, fs_priority f, fs_flags f, fs_cookie f, fs_match f).
Definition key_of_mod (m : flow_mod) : flow_key :=
  (fm_table_id m, fm_priority m, fm_flags m, fm_cookie m, fm_match m).
Definition lookup_flow (k : flow_key) (l : list flow_stats) : option flow_stats :=
  snd <$> find_index (λ f, bool_decide (key_of f = k)) l.
Definition unique_flows (l : list flow_stats) : Prop := NoDup (key_of <$> l).

Lemma flow_match_key f g : flow_match f g = bool_decide (key_of f = key_of g).
Proof.
  unfold flow_match, key_of. rewrite <- !bool_decide_and. apply bool_decide_ext.
  split; [by intros ((((-> & ->) & ->) & ->) & ->)|]. by intros [= -> -> -> -> ->].
Qed.
Lemma entry_key m : key_of (flow_stats_entry_from_flow_mod_message m) = key_of_mod m.
Proof. done. Qed.
Lemma counts_key p b f : key_of (set_fs_counts p b f) = key_of f.
Proof. done. Qed.

Lemma lookup_flow_app k l l' : lookup_flow k (l ++ l') =
  match lookup_flow k l with Some f => Some f | None => lookup_flow k l' end.
Proof.
  unfold lookup_flow. induction l as [|f l IH]; simpl; [done|]. case_bool_decide; [done|].
  destruct (find_index _ (l ++ l')) as [[]|], (find_index _ l) as [[]|]; simpl in *; congruence.
Qed.
Lemma lookup_flow_cons k f l : lookup_flow k (f :: l) =
  if bool_decide (key_of f = k) then Some f else lookup_flow k l.
Proof.
  unfold lookup_flow. simpl. case_bool_decide; [done|]. by destruct (find_index _ l) as [[]|].
Qed.
Lemma lookup_flow_None k l : lookup_flow k l = None ↔ k ∉ key_of <$> l.
Proof.
  induction l as [|f l IH]; [split; [intros _; apply not_elem_of_nil|done]|].
  rewrite lookup_flow_cons, fmap_cons, not_elem_of_cons. case_bool_decide; naive_solver.
Qed.
Lemma find_flow_index f l :
  find_index (λ g, flow_match g f) l = find_index (λ g, bool_decide (key_of g = key_of f)) l.
Proof. apply find_index_ext. intros g. apply flow_match_key. Qed.

(** Replacing the flow found under a key. *)
Lemma lookup_replace k f l i old :
  find_index (λ g, bool_decide (key_of g = key_of f)) l = Some (i, old) →
  lookup_flow k (<[i := f]> l) = (if bool_decide (k = key_of f) then Some f else lookup_flow k l) ∧
  key_of <$> <[i := f]> l = key_of <$> l ∧ lookup_flow (key_of f) l = Some old.
Proof.
  intros Hi. assert (lookup_flow (key_of f) l = Some old) as Hold by (unfold lookup_flow; by rewrite Hi).
  apply find_index_first in Hi as (l1 & l2 & -> & Hk%bool_decide_eq_true & Hb & _ & Hins).
  rewrite Hins. split_and!; [|by rewrite !fmap_app, !fmap_cons, Hk|done].
  rewrite !lookup_flow_app, !lookup_flow_cons, Hk. destruct (decide (k = key_of f)) as [->|Hkf].
  - rewrite !bool_decide_true by done.
    assert (lookup_flow (key_of f) l1 = None) as ->; [|done].
    apply lookup_flow_None. intros (g & Hg & Hin)%list_elem_of_fmap.
    apply Hb in Hin. by rewrite bool_decide_true in Hin.
  - by rewrite !bool_decide_false by done.
Qed.

Lemma lookup_append k f l : lookup_flow (key_of f) l = None →
  lookup_flow k (l ++ [f]) = if bool_decide (k = key_of f) then Some f else lookup_flow k l.
Proof.
  intros Hf. rewrite lookup_flow_app, lookup_flow_cons. destruct (decide (k = key_of f)) as [->|Hk].
  - by rewrite Hf, !bool_decide_true.
  - rewrite !bool_decide_false by done. by destruct (lookup_flow k l).
Qed.

(** Keeping the flows that satisfy a predicate. *)
Lemma lookup_filter (p : flow_stats → bool) k l : unique_flows l →
  lookup_flow k (filter (λ f, p f = true) l) =
  match lookup_flow k l with Some f => if p f then Some f else None | None => None end.
Proof.
  induction l as [|f l IH]; intros Hu; [done|]. apply NoDup_cons in Hu as [Hni Hu].
  rewrite filter_cons, lookup_flow_cons. case_bool_decide as Hk.
  - subst k. destruct (p f); [rewrite decide_True, lookup_flow_cons, bool_decide_true by done; done|].
    rewrite decide_False by done. rewrite IH by done. by rewrite (proj2 (lookup_flow_None _ _) Hni).
  - case_decide; [rewrite lookup_flow_cons, bool_decide_false by done|]; auto.
Qed.
Lemma unique_filter P `{!∀ f, Decision (P f)} (l : list flow_stats) : unique_flows l → unique_flows (filter P l).
Proof. intros Hu. eapply sublist_NoDup; [exact Hu|]. apply fmap_sublist, sublist_filter. Qed.

Lemma lookup_delete k f l i old : unique_flows l →
  find_index (λ g, bool_decide (key_of g = key_of f)) l = Some (i, old) →
  lookup_flow k (delete i l) = (if bool_decide (k = key_of f) then None else lookup_flow k l) ∧
  unique_flows (delete i l).
Proof.
  intros Hu (l1 & l2 & -> & Hk%bool_decide_eq_true & Hb & -> & _)%find_index_first.
  unfold unique_flows in *. rewrite fmap_app, fmap_cons in Hu.
  apply NoDup_app in Hu as (Hu1 & Hdis & Hu2). apply NoDup_cons in Hu2 as [Hni Hu2].
  split.
  - rewrite !lookup_flow_app, lookup_flow_cons, Hk. destruct (decide (k = key_of f)) as [->|Hkf].
    + rewrite bool_decide_true by done. assert (lookup_flow (key_of f) l1 = None) as ->.
      { apply lookup_flow_None. intros Hin. eapply Hdis; [done|]. rewrite Hk. left. }
      apply lookup_flow_None. by rewrite <- Hk.
    + by rewrite !bool_decide_false by done.
  - rewrite fmap_app. apply NoDup_app. split_and!; [done| |done]. intros x Hx Hx'.
    eapply Hdis; [done|by right].
Qed.

(** ** The operations on the flow table *)

(** The entry a flow-mod adds, given the one already there. *)
Definition new_entry (m : flow_mod) (old : option flow_stats) : flow_stats :=
  let f := flow_stats_entry_from_flow_mod_message m in
  match old with
  | Some o => if flag_set (fm_flags m) OFPFF_RESET_COUNTS then f
              else set_fs_counts (fs_packet_count o) (fs_byte_count o) f
  | None => f
  end.

(** Adding a flow without the overlap check succeeds and acts on the table as
    on a map keyed by table, priority, flags, cookie and match: the entry of that
    key becomes the new flow (keeping the counters of the flow it replaces unless
    a reset is requested), the other entries and the group table stay, and keys
    stay unique. *)
Theorem flow_add_is_insert m s :
  fm_cookie_mask m = 0%Z → flag_set (fm_flags m) OFPFF_CHECK_OVERLAP = false →
  ∃ s', flow_add m s = (Ok tt, s') ∧ ld_groups s' = ld_groups s ∧
    (unique_flows (ld_flows s) → unique_flows (ld_flows s')) ∧
    ∀ k, lookup_flow k (ld_flows s') =
      if bool_decide (k = key_of_mod m) then Some (new_entry m (lookup_flow k (ld_flows s)))
      else lookup_flow k (ld_flows s).
Proof.
  intros Hmask Hov. unfold flow_add. rewrite Hmask, Hov.
  rewrite (M_bind_eq _ _ _ tt s), (M_bind_eq _ _ _ s s) by done.
  set (f := flow_stats_entry_from_flow_mod_message m). rewrite find_flow_index.
  destruct (find_index _ (ld_flows s)) as [[i old]|] eqn:Hi.
  - set (f' := if flag_set _ OFPFF_RESET_COUNTS then f else _).
    assert (key_of f' = key_of f) as Hkf by (unfold f'; by case_match). rewrite <- Hkf in Hi.
    destruct (write_flows_spec (<[i := f']> (ld_flows s)) s) as (s' & Hw & Hfl & Hg & _).
    exists s'. rewrite Hfl. split_and!; [done|done| |].
    + unfold unique_flows. by destruct (lookup_replace (key_of f') f' _ _ _ Hi) as (_ & -> & _).
    + intros k. destruct (lookup_replace k f' _ _ _ Hi) as (-> & _ & Hold).
      change (key_of_mod m) with (key_of f). rewrite Hkf in Hold |- *.
      case_bool_decide as Hk; [|done]. subst k. by rewrite Hold.
  - assert (lookup_flow (key_of f) (ld_flows s) = None) as Hnone by (unfold lookup_flow; by rewrite Hi).
    destruct (write_flows_spec (ld_flows s ++ [f]) s) as (s' & Hw & Hfl & Hg & _).
    exists s'. rewrite Hfl. split_and!; [done|done| |].
    + intros Hu. unfold unique_flows. rewrite fmap_app. apply NoDup_app.
      split_and!; [done| |apply NoDup_singleton]. intros k Hk ->%list_elem_of_singleton.
      by apply lookup_flow_None in Hnone.
    + intros k. rewrite lookup_append by done. change (key_of_mod m) with (key_of f).
      case_bool_decide; [|done]. subst k. by rewrite Hnone.
Qed.

(** Deleting a flow strictly removes the entry of its key and no other. *)
Theorem flow_delete_strict_is_delete m s : unique_flows (ld_flows s) →
  ∃ s', flow_delete_strict m s = (Ok tt, s') ∧ ld_groups s' = ld_groups s ∧
    unique_flows (ld_flows s') ∧
    ∀ k, lookup_flow k (ld_flows s') =
      if bool_decide (k = key_of_mod m) then None else lookup_flow k (ld_flows s).
Proof.
  intros Hu. unfold flow_delete_strict. rewrite (M_bind_eq _ _ _ s s) by done.
  unfold find_flow. rewrite find_flow_index.
  set (f := flow_stats_entry_from_flow_mod_message m).
  destruct (find_index _ (ld_flows s)) as [[i old]|] eqn:Hi; cbn [fmap option_fmap option_map fst].
  - destruct (write_flows_spec (delete i (ld_flows s)) s) as (s' & Hw & Hfl & Hg & _).
    exists s'. rewrite Hfl. split_and!; [done|done|by apply (lookup_delete (key_of f) f _ i old)|].
    intros k. by destruct (lookup_delete k f _ i old Hu Hi) as [-> _].
  - exists s. split_and!; [done|done|done|]. intros k. case_bool_decide; [|done]. subst k.
    change (key_of_mod m) with (key_of f). unfold lookup_flow. by rewrite Hi.
Qed.

(** What the wildcard delete looks at. *)
Definition covered (m : flow_mod) (f : flow_stats) : bool :=
  bool_decide (Z.land (fs_cookie f) (fm_cookie_mask m) = Z.land (fm_cookie m) (fm_cookie_mask m)) &&
  (bool_decide (fm_table_id m = OFPTT_ALL) || bool_decide (fs_table_id f = fm_table_id m)) &&
  (bool_decide (fm_out_port m = OFPP_ANY) || flow_has_out_port f (fm_out_port m)) &&
  (bool_decide (fm_out_group m = OFPG_ANY) || flow_has_out_group f (fm_out_group m)).

Lemma flow_matches_spec_covered m f : flow_matches_spec f m =
  if covered m f then match m_oxm_fields (fm_match m) with [] => Ok true | _ => Raise NotImplementedError end
  else Ok false.
Proof.
  unfold flow_matches_spec, covered.
  rewrite !bool_decide_not.
  destruct (bool_decide (Z.land _ _ = _)), (bool_decide (fm_table_id m = _)),
    (bool_decide (fs_table_id f = _)), (bool_decide (fm_out_port m = _)),
    (flow_has_out_port f _), (bool_decide (fm_out_group m = _)), (flow_has_out_group f _); done.
Qed.
Lemma split_flows_total p l :
  split_flows (λ f, Ok (p f)) l = Ok (filter (λ f, p f ≠ true) l, filter (λ f, p f = true) l).
Proof.
  induction l as [|f l IH]; [done|]. cbn [split_flows]. rewrite IH. cbn [mbind result_bind].
  rewrite !filter_cons. destruct (p f).
  - by rewrite decide_False, decide_True by auto.
  - by rewrite decide_True, decide_False by auto.
Qed.

Lemma filter_everything (P : flow_stats → Prop) `{!∀ f, Decision (P f)} (l : list flow_stats) :
  (∀ f, f ∈ l → P f) → filter P l = l.
Proof.
  induction l as [|f l IH]; intros HP; [done|]. rewrite filter_cons, decide_True by (apply HP; left).
  f_equal. apply IH. intros g Hg. apply HP. by right.
Qed.
Lemma split_flows_ext p q l : (∀ f, p f = q f) → split_flows p l = split_flows q l.
Proof. intros Hpq. induction l as [|f l IH]; [done|]. cbn. by rewrite Hpq, IH. Qed.

(** A wildcard delete without match fields removes exactly the flows covered
    by its cookie mask, table, output port and output group; when one of them
    asks for a removal notice it raises NotImplementedError after the table is
    written. *)
Theorem flow_delete_is_filter m s : m_oxm_fields (fm_match m) = [] →
  ∃ s', flow_delete m s = (announce_flows_deleted (filter (λ f, covered m f = true) (ld_flows s)), s') ∧
    ld_groups s' = ld_groups s ∧ ld_flows s' = filter (λ f, covered m f ≠ true) (ld_flows s) ∧
    (unique_flows (ld_flows s) → unique_flows (ld_flows s') ∧
     ∀ k, lookup_flow k (ld_flows s') =
       match lookup_flow k (ld_flows s) with
       | Some f => if covered m f then None else Some f
       | None => None
       end).
Proof.
  intros Hm. set (keep := filter (λ f, covered m f ≠ true) (ld_flows s)).
  assert (split_flows (λ f, flow_matches_spec f m) (ld_flows s) =
          Ok (keep, filter (λ f, covered m f = true) (ld_flows s))) as Hsplit.
  { etrans; [|apply (split_flows_total (covered m))]. apply split_flows_ext. intros f.
    rewrite flow_matches_spec_covered, Hm. by destruct (covered m f). }
  assert (∃ s', (match filter (λ f, covered m f = true) (ld_flows s) with
                 | [] => mret tt | _ => write_flows keep end) s = (Ok tt, s') ∧
            ld_groups s' = ld_groups s ∧ ld_flows s' = keep) as (s' & Hrun & Hg & Hfl).
  { destruct (filter (λ f, covered m f = true) (ld_flows s)) as [|x xs] eqn:Hdel.
    - exists s. split_and!; [done|done|]. unfold keep. symmetry. apply filter_everything.
      intros f Hf Hc. apply (not_elem_of_nil f). rewrite <- Hdel. by apply list_elem_of_filter.
    - destruct (write_flows_spec keep s) as (s' & ? & ? & ? & _). by exists s'. }
  exists s'. unfold flow_delete. rewrite (M_bind_eq _ _ _ s s) by done.
  rewrite (M_bind_eq _ _ _ _ s) by (unfold lift; by rewrite Hsplit). cbn beta iota.
  rewrite (M_bind_eq _ _ _ _ _ Hrun). split_and!; [done|done|done|].
  intros Hu. rewrite Hfl. split; [by apply unique_filter|]. intros k. unfold keep.
  rewrite (list_filter_iff _ (λ f, negb (covered m f) = true)) by (intros f; destruct (covered m f); naive_solver).
  rewrite lookup_filter by done. destruct (lookup_flow k (ld_flows s)) as [f|]; [|done].
  by destruct (covered m f).
Qed.

(** ** The group table *)

Definition lookup_group (id : Z) (l : list group_entry) : option group_entry :=
  od_get id (group_dict l).
Definition unique_groups (l : list group_entry) : Prop := NoDup (ge_group_id <$> l).

Lemma group_dict_entries l : Forall (λ kv, kv.1 = ge_group_id kv.2) (group_dict l).
Proof.
  apply Forall_od_of_list. apply Forall_forall. intros kv (g & -> & _)%list_elem_of_fmap. done.
Qed.
Lemma entries_keys (d : list (Z * group_entry)) :
  Forall (λ kv, kv.1 = ge_group_id kv.2) d → ge_group_id <$> od_values d = od_keys d.
Proof.
  induction 1 as [|[k g] d Hk Hd IH]; [done|]. cbn [fst snd] in Hk. subst k.
  change (od_values ((ge_group_id g, g) :: d)) with (g :: od_values d).
  by rewrite fmap_cons, IH.
Qed.
(** Writing a dictionary of groups back and reading it again. *)
Lemma group_dict_values (d : list (Z * group_entry)) :
  Forall (λ kv, kv.1 = ge_group_id kv.2) d → NoDup (od_keys d) →
  group_dict (od_values d) = d ∧ unique_groups (od_values d).
Proof.
  intros Hd Hnd. split; [|unfold unique_groups; by rewrite entries_keys].
  unfold group_dict. rewrite <- (od_of_list_id d Hnd) at 2. f_equal.
  clear Hnd. induction Hd as [|[k g] d Hk Hd IH]; [done|]. cbn [fst snd] in Hk. subst k.
  change (od_values ((ge_group_id g, g) :: d)) with (g :: od_values d).
  by rewrite fmap_cons, IH.
Qed.
Lemma group_dict_NoDup l : NoDup (od_keys (group_dict l)).
Proof. apply od_of_list_NoDup. Qed.
Lemma Forall_od_del {V} (P : Z * V → Prop) k d : Forall P d → Forall P (od_del k d).
Proof.
  induction 1 as [|[k' v] d Hx Hd IH]; simpl; [constructor|]. case_decide; [done|by constructor].
Qed.

(** Deleting an existing group removes it and every flow that outputs to it,
    and nothing else; if one of those flows asks for a removal notice, the call
    raises NotImplementedError and changes nothing. *)
Theorem group_delete_removes_users m s :
  gm_group_id m ≠ OFPG_ALL → is_Some (lookup_group (gm_group_id m) (ld_groups s)) →
  let users := filter (λ f, flow_has_out_group f (gm_group_id m) = true) (ld_flows s) in
  if existsb (λ f, flag_set (fs_flags f) OFPFF_SEND_FLOW_REM) users
  then group_delete m s = (Raise NotImplementedError, s)
  else ∃ s', group_delete m s = (Ok tt, s') ∧
    ld_flows s' = filter (λ f, flow_has_out_group f (gm_group_id m) ≠ true) (ld_flows s) ∧
    unique_groups (ld_groups s') ∧
    ∀ id, lookup_group id (ld_groups s') =
      if bool_decide (id = gm_group_id m) then None else lookup_group id (ld_groups s).
Proof.
  intros Hall [g Hg] users. unfold group_delete, flows_delete_by_group_id, announce_flows_deleted.
  rewrite (M_bind_eq _ _ _ s s) by done. rewrite bool_decide_false by done.
  unfold lookup_group in Hg. rewrite Hg. fold users.
  destruct (existsb _ users) eqn:Hex; [done|]. cbn [mbind result_bind].
  set (keep := filter (λ f, flow_has_out_group f (gm_group_id m) ≠ true) (ld_flows s)).
  rewrite (M_bind_eq _ _ _ (negb (bool_decide (users = [])), keep) s) by done. cbn beta iota.
  set (d := od_del (gm_group_id m) (group_dict (ld_groups s))).
  destruct (write_groups_spec (od_values d) s) as (s1 & Hw & Hg1 & Hf1 & _).
  rewrite (M_bind_eq _ _ _ _ _ Hw).
  assert (group_dict (od_values d) = d ∧ unique_groups (od_values d)) as [Hd Hu].
  { apply group_dict_values; [apply Forall_od_del, group_dict_entries|].
    apply od_del_NoDup, group_dict_NoDup. }
  assert (∀ id, lookup_group id (od_values d) =
    if bool_decide (id = gm_group_id m) then None else lookup_group id (ld_groups s)) as Hlook.
  { intros id. unfold lookup_group. rewrite Hd. unfold d. rewrite od_get_del by apply group_dict_NoDup.
    by repeat (case_decide || case_bool_decide). }
  case_bool_decide as Hus; cbn [negb].
  - exists s1. rewrite Hg1, Hf1. split_and!; try done. symmetry. apply filter_everything.
    intros f Hf Hc. apply (not_elem_of_nil f). rewrite <- Hus. by apply list_elem_of_filter.
  - destruct (write_flows_spec keep s1) as (s2 & Hw2 & Hf2 & Hg2 & _).
    exists s2. rewrite Hg2, Hg1, Hf2. by split_and!.
Qed.

(** Deleting all groups leaves every flow in the table, also the flows whose
    output group no longer exists. *)
Theorem group_delete_all_keeps_flows m s : gm_group_id m = OFPG_ALL →
  ∃ s', group_delete m s = (Ok tt, s') ∧ ld_groups s' = [] ∧ ld_flows s' = ld_flows s.
Proof.
  intros Hall. unfold group_delete. rewrite (M_bind_eq _ _ _ s s) by done.
  rewrite bool_decide_true by done. destruct (write_groups_spec [] s) as (s' & ? & ? & ? & _).
  by exists s'.
Qed.

Lemma group_write_unique s gmod :
  ∃ s', write_groups (od_values (od_set (gm_group_id gmod) (group_entry_from_group_mod gmod)
                        (group_dict (ld_groups s)))) s = (Ok tt, s') ∧
    ld_flows s' = ld_flows s ∧ unique_groups (ld_groups s') ∧
    ∀ id, lookup_group id (ld_groups s') =
      if bool_decide (id = gm_group_id gmod) then Some (group_entry_from_group_mod gmod)
      else lookup_group id (ld_groups s).
Proof.
  set (d := od_set _ _ _). destruct (write_groups_spec (od_values d) s) as (s' & Hw & Hg & Hf & _).
  destruct (group_dict_values d) as [Hd Hu].
  { apply Forall_od_set; [apply group_dict_entries|done]. }
  { apply od_set_NoDup, group_dict_NoDup. }
  exists s'. rewrite Hg. split_and!; [done|done|done|]. intros id. unfold lookup_group. rewrite Hd.
  unfold d. case_bool_decide as Hid; [subst; apply od_get_set|]. by apply od_get_set_ne.
Qed.

(** Adding a group inserts it unless the id is taken, modifying replaces it
    only if the id exists; other groups and all flows stay, and ids stay unique. *)
Theorem group_add_modify_spec gmod s : unique_groups (ld_groups s) →
  (∃ s', group_add gmod s = (Ok tt, s') ∧ ld_flows s' = ld_flows s ∧ unique_groups (ld_groups s') ∧
     ∀ id, lookup_group id (ld_groups s') =
       if bool_decide (id = gm_group_id gmod)
       then Some (default (group_entry_from_group_mod gmod) (lookup_group id (ld_groups s)))
       else lookup_group id (ld_groups s)) ∧
  (∃ s', group_modify gmod s = (Ok tt, s') ∧ ld_flows s' = ld_flows s ∧ unique_groups (ld_groups s') ∧
     ∀ id, lookup_group id (ld_groups s') =
       if bool_decide (id = gm_group_id gmod)
       then (λ _, group_entry_from_group_mod gmod) <$> lookup_group id (ld_groups s)
       else lookup_group id (ld_groups s)).
Proof.
  intros Hu. destruct (group_write_unique s gmod) as (s' & Hw & Hf & Hu' & Hl).
  unfold group_add, group_modify. rewrite !(M_bind_eq _ _ _ s s) by done.
  destruct (od_get (gm_group_id gmod) (group_dict (ld_groups s))) as [g|] eqn:Hg.
  - split; [exists s|exists s']; (split_and!; [done..|]); intros id.
    + case_bool_decide; [|done]. subst. unfold lookup_group. by rewrite Hg.
    + rewrite Hl. case_bool_decide; [|done]. subst. unfold lookup_group. by rewrite Hg.
  - split; [exists s'|exists s]; (split_and!; [done..|]); intros id.
    + rewrite Hl. case_bool_decide; [|done]. subst. unfold lookup_group. by rewrite Hg.
    + case_bool_decide; [|done]. subst. unfold lookup_group. by rewrite Hg.
Qed.
End tables.
