(* ===== verification/LogicalSync.v ===== *)
(** * From the logical tables to the devices

    How changes of a logical device reach the devices behind it: a table that
    can be decomposed is pushed as decomposed, every pushed rule stays within
    the ports of its device, and a failed computation of the cached tables
    blocks the pushes until the ports change. *)

From stdpp Require Import prelude strings list.
From S2P Require Import Prelude OFP FlowDecomposer DeviceGraph LogicalDevice LogicalTables.

Section sync.
Context `{!FlowHash, !NetworkX}.
#[local] Existing Instance agent_router.

(** ** Pushing *)

Lemma push_rules_spec rules s :
  NoDup (od_keys rules) → (∀ dev, dev ∈ od_keys rules → is_Some (od_get dev (ld_devices s))) →
  ∃ s', push_rules rules s = (Ok tt, s') ∧
    (∀ dev, od_get dev (ld_device_rules s') =
      match od_get dev rules with
      | Some (fl, gr) => Some (od_values fl, od_values gr)
      | None => od_get dev (ld_device_rules s)
      end).
Proof.
  revert s. induction rules as [|[d [fl gr]] rules IH]; intros s Hnd Hex; [by exists s|].
  apply NoDup_cons in Hnd as [Hni Hnd]. cbn [push_rules].
  rewrite (M_bind_eq _ _ _ s s) by done.
  destruct (Hex d ltac:(left)) as [x Hx].
  rewrite (M_bind_eq _ _ _ x s) by (unfold lift; by rewrite Hx).
  set (s1 := set_device_rules (od_set d (od_values fl, od_values gr) (ld_device_rules s)) s). rewrite (M_bind_eq _ _ _ tt s1) by done.
  destruct (IH s1 Hnd) as (s' & Hrun & Hl). { intros dev Hd. apply Hex. by right. }
  exists s'. split; [done|]. intros dev. rewrite Hl. cbn [od_get s1 set_device_rules ld_device_rules].
  case_decide as Hd.
  - subst dev. rewrite (proj2 (od_get_None d rules) Hni). apply od_get_set.
  - destruct (od_get dev rules) as [[]|]; [done|]. by apply od_get_set_ne.
Qed.

(** Device ids are the keys of the rules. *)
Lemma merge_device_NoDup rules dr rules' :
  NoDup (od_keys rules) → merge_device rules dr = Ok rules' → NoDup (od_keys rules').
Proof.
  destruct dr as [dev [fls grs]]. unfold merge_device.
  destruct (default ([], []) (od_get dev rules)) as [fl gr]. intros Hnd (_ & _ & [= <-])%result_bind_Ok.
  by apply od_set_NoDup.
Qed.
Lemma decompose_rules_NoDup `{!Router} flows groups defaults rules :
  get_all_default_rules = Ok defaults → NoDup (od_keys defaults) →
  decompose_rules flows groups = Ok rules → NoDup (od_keys rules).
Proof.
  unfold decompose_rules. intros -> Hnd. cbn [mbind result_bind]. intros Hdec.
  refine (fold_result_inv (λ r : rules_map, NoDup (od_keys r)) _ _ _ _ _ Hnd Hdec).
  intros flow b b' _ Hb (dr & _ & Hm)%result_bind_Ok.
  refine (fold_result_inv (λ r : rules_map, NoDup (od_keys r)) _ _ _ _ _ Hb Hm).
  intros a c c' _. apply merge_device_NoDup.
Qed.

Definition defaults_ok (s : ld_state) : Prop :=
  ∀ r, ld_default_rules s = Val r → NoDup (od_keys r).

Lemma generate_default_NoDup s g rules :
  generate_default_rules s g = Ok rules → NoDup (od_keys rules).
Proof.
  intros Hg. refine (fold_result_inv (λ r : rules_map, NoDup (od_keys r)) _ _ _ _ _ _ Hg);
    [|constructor].
  intros [n a] b b' _ Hb. unfold default_rules_of. cbn [snd]. destruct a; try by intros [= <-].
  intros (ports & _ & Hr)%result_bind_Ok. apply result_bind_Ok in Hr as (r & _ & [= <-]).
  by apply od_set_NoDup.
Qed.
Lemma assure_defaults_ok s : defaults_ok s → defaults_ok (assure_cached_tables s).2.
Proof.
  intros Hd. unfold assure_cached_tables. destruct (ld_routes s); [done|].
  destruct (compute_routes _ _) as [[g rs]|e]; [|done].
  destruct (generate_default_rules s g) as [rules|e] eqn:Hg; [|done].
  destruct (filter _ _) as [|p [|? ?]]; intros r [= <-]; by eapply generate_default_NoDup.
Qed.

(** C5: when the flow table changes, the cached tables can be had, and the new
    table decomposes onto existing devices, then every device gets exactly the
    rules the decomposition assigns to it and the other devices keep theirs. *)
Theorem table_change_reaches_devices s flows s1 rules :
  ld_flows s ≠ flows → defaults_ok s →
  assure_cached_tables (set_flows flows s) = (Ok tt, s1) →
  decompose_rules (H0 := agent_router s1) flows (ld_groups s) = Ok rules →
  (∀ dev, dev ∈ od_keys rules → is_Some (od_get dev (ld_devices s))) →
  ∃ s', write_flows flows s = (Ok tt, s') ∧ ld_flows s' = flows ∧
    ∀ dev, od_get dev (ld_device_rules s') =
      match od_get dev rules with
      | Some (fl, gr) => Some (od_values fl, od_values gr)
      | None => od_get dev (ld_device_rules s)
      end.
Proof.
  intros Hne Hdef Has Hdec Hex.
  destruct (write_flows_spec flows s) as (s' & Hw & Hfl & _). exists s'. split_and!; [done|done|].
  unfold write_flows in Hw. rewrite (M_bind_eq _ _ _ s s) in Hw by done.
  rewrite bool_decide_false in Hw by done. rewrite (M_bind_eq _ _ _ tt (set_flows flows s)) in Hw by done.
  unfold callback in Hw. injection Hw as Hw.
  rewrite (M_bind_eq _ _ _ (set_flows flows s) (set_flows flows s)) in Hw by done.
  unfold tables_updated in Hw. rewrite (M_bind_eq _ _ _ _ _ Has) in Hw.
  rewrite (M_bind_eq _ _ _ s1 s1) in Hw by done.
  change (ld_groups (set_flows flows s)) with (ld_groups s) in Hw.
  rewrite (M_bind_eq _ _ _ rules s1) in Hw by (unfold lift; by rewrite Hdec).
  assert (defaults_ok s1) as Hdef1.
  { pose proof (assure_defaults_ok (set_flows flows s) Hdef) as Hd. by rewrite Has in Hd. }
  pose proof (assure_same (set_flows flows s)) as Hsame. rewrite Has in Hsame. cbn [snd] in Hsame.
  destruct Hsame as (_ & _ & Hdev & _). cbn in Hdev.
  assert (NoDup (od_keys rules)) as Hnd.
  { destruct (ld_default_rules s1) as [| |r] eqn:Hr.
    1,2: unfold decompose_rules in Hdec; cbn in Hdec; by rewrite Hr in Hdec.
    eapply (decompose_rules_NoDup (H1 := agent_router s1)); [|by apply Hdef1|exact Hdec].
    cbn. by rewrite Hr. }
  destruct (push_rules_spec rules s1 Hnd) as (s2 & Hp & Hl). { by rewrite Hdev. }
  rewrite Hp in Hw. cbn [snd] in Hw. subst s'. intros dev. rewrite Hl.
  assert (ld_device_rules s1 = ld_device_rules s) as ->; [|done].
  clear -Has. unfold assure_cached_tables in Has. by repeat case_match; simplify_eq/=.
Qed.

(** ** A failed computation of the tables *)

(** Routes without default rules: what a failure after the routes were stored
    leaves behind. *)
Definition stuck (s : ld_state) : Prop :=
  is_Some (ld_routes s) ∧ ∀ r, ld_default_rules s ≠ Val r.

Lemma assure_failed_stuck s g rs e :
  ld_routes s = None → (∀ r, ld_default_rules s ≠ Val r) →
  compute_routes (H := view s) (S (length (ld_devices s))) (ld_ports s) = Ok (g, rs) →
  generate_default_rules s g = Raise e → stuck (assure_cached_tables s).2.
Proof.
  intros Hr Hd Hc Hg. unfold assure_cached_tables. rewrite Hr, Hc, Hg. cbn. split; [by eexists|done].
Qed.

Lemma stuck_update flows groups s : stuck s → (tables_updated flows groups s).2 = s.
Proof.
  intros [[rs Hr] Hd]. unfold tables_updated, assure_cached_tables.
  rewrite (M_bind_eq _ _ _ tt s) by (by rewrite Hr). rewrite (M_bind_eq _ _ _ s s) by done.
  assert (decompose_rules (H0 := agent_router s) flows groups = Raise AttributeError) as Hdec.
  { unfold decompose_rules. cbn. by destruct (ld_default_rules s) as [| |r]; [..|by destruct (Hd r)]. }
  by rewrite (M_bind_Raise_eq _ _ _ AttributeError s) by (unfold lift; by rewrite Hdec).
Qed.

(** Nothing is pushed any more, and the state stays so. *)
Definition blocked (s s' : ld_state) : Prop :=
  stuck s → stuck s' ∧ ld_device_rules s' = ld_device_rules s.
#[local] Instance blocked_preorder : PreOrder blocked.
Proof.
  split; [by intros s Hs|]. intros s1 s2 s3 H12 H23 Hs. destruct (H12 Hs) as [Hs2 He].
  destruct (H23 Hs2) as [Hs3 He']. split; [done|congruence].
Qed.
Lemma blocked_write_flows flows : rel_post blocked (write_flows flows).
Proof.
  intros s Hs. unfold write_flows. rewrite (M_bind_eq _ _ _ s s) by done. case_bool_decide; [done|].
  rewrite (M_bind_eq _ _ _ tt (set_flows flows s)) by done. unfold callback. cbn [snd].
  rewrite (M_bind_eq _ _ _ (set_flows flows s) (set_flows flows s)) by done. by rewrite stuck_update.
Qed.
Lemma blocked_write_groups groups : rel_post blocked (write_groups groups).
Proof.
  intros s Hs. unfold write_groups. rewrite (M_bind_eq _ _ _ s s) by done. case_bool_decide; [done|].
  rewrite (M_bind_eq _ _ _ tt (set_groups groups s)) by done. unfold callback. cbn [snd].
  rewrite (M_bind_eq _ _ _ (set_groups groups s) (set_groups groups s)) by done. by rewrite stuck_update.
Qed.
Lemma blocked_get_state : rel_post blocked get_state.
Proof. by intros s Hs. Qed.
#[local] Hint Resolve blocked_write_flows blocked_write_groups blocked_get_state : rel_post.

Lemma blocked_flow_mod fm : rel_post blocked (update_flow_table fm).
Proof.
  unfold update_flow_table, flow_add, flow_delete, flow_delete_strict. cbv zeta. rel_post_solve.
Qed.
Lemma blocked_group_mod gm : rel_post blocked (update_group_table gm).
Proof.
  unfold update_group_table, group_add, group_delete, group_modify. cbv zeta. rel_post_solve.
Qed.

(** Once the default rules could not be generated for routes that were
    computed, no flow-mod and no group-mod reaches a device any more, whatever
    is done to the devices meanwhile: only a change of the logical ports clears
    the half-filled tables. *)
Theorem failed_tables_block_pushes s g rs e (fm : flow_mod) (gm : group_mod)
    (devices : list (string * (Device * list Port))) :
  ld_routes s = None → (∀ r, ld_default_rules s ≠ Val r) →
  compute_routes (H := view s) (S (length (ld_devices s))) (ld_ports s) = Ok (g, rs) →
  generate_default_rules s g = Raise e →
  let s1 := (assure_cached_tables s).2 in
  let s2 := mk_ld (ld_root_device_id s1) devices (ld_ports s1) (ld_flows s1) (ld_groups s1)
              (ld_device_rules s1) (ld_routes s1) (ld_default_rules s1) (ld_nni s1) in
  ld_device_rules (update_flow_table fm s2).2 = ld_device_rules s ∧ stuck (update_flow_table fm s2).2 ∧
  ld_device_rules (update_group_table gm s2).2 = ld_device_rules s ∧ stuck (update_group_table gm s2).2.
Proof.
  intros Hr Hd Hc Hg s1 s2. pose proof (assure_failed_stuck _ _ _ _ Hr Hd Hc Hg) as Hs.
  assert (ld_device_rules s2 = ld_device_rules s) as <-.
  { unfold s2, s1, assure_cached_tables. rewrite Hr, Hc, Hg. done. }
  destruct (blocked_flow_mod fm s2 Hs) as [? ?]. destruct (blocked_group_mod gm s2 Hs) as [? ?].
  done.
Qed.

(** ** Rules stay within their device *)

(** The in-port and out-port of [f] are ports of [dev]. *)
Definition local_rule (s : ld_state) (dev : string) (f : flow_stats) : Prop :=
  ∃ d ports pin pout, od_get dev (ld_devices s) = Some (d, ports) ∧ pin ∈ ports ∧ pout ∈ ports ∧
    get_in_port f = Ok (Some (p_no pin)) ∧ get_out_port f = Ok (Some (p_no pout)).

(** Devices are filed under their ids. *)
Definition devices_ok (s : ld_state) : Prop :=
  ∀ id d ports, od_get id (ld_devices s) = Some (d, ports) → d_id d = id.

#[local] Instance view_laws s (Hd : devices_ok s) : DeviceViewLaws (H := view s).
Proof.
  split. intros id d. cbn. destruct (od_get id (ld_devices s)) as [[d' ports]|] eqn:Hg; [|done].
  intros [= <-]. by eapply Hd.
Qed.

Lemma has_port_view s dev p : has_port (H := view s) dev p →
  ∃ d ports, od_get dev (ld_devices s) = Some (d, ports) ∧ p ∈ ports.
Proof.
  intros (ports & Hp & Hin). cbn in Hp. destruct (od_get dev (ld_devices s)) as [[d ps]|]; [|done].
  injection Hp as <-. by exists d, ps.
Qed.

(** A hop of an answered route is a hop of a cached route. *)
Lemma lookup_route_hop rs nni i e r hop :
  lookup_route rs nni i e = Ok r → Some hop ∈ r → ∃ k r0, (k, r0) ∈ rs ∧ Some hop ∈ r0.
Proof.
  unfold lookup_route. intros (e' & _ & Hr)%result_bind_Ok. apply result_bind_Ok in Hr as (w & _ & Hr).
  assert (∀ p j r', match find p rs with
                    | Some kr => h ← hop_at j kr.2; Ok (r' h)
                    | None => Raise GenericException end = Ok r →
            (∀ h x : option RouteHop, x ∈ r' h → x = None ∨ x = h) → Some hop ∈ r →
            ∃ k r0, (k, r0) ∈ rs ∧ Some hop ∈ r0) as Hfind.
  { intros p j r' Hm Hr' Hin. destruct (find p rs) as [[k r0]|] eqn:Hf; [|done].
    apply result_bind_Ok in Hm as (h & Hh & [= <-]). cbn in Hh. unfold hop_at in Hh.
    apply of_option_Ok in Hh. exists k, r0. split.
    - apply list_elem_of_In. by apply find_some in Hf as [? _].
    - destruct (Hr' _ _ Hin) as [|<-]; [done|]. by eapply list_elem_of_lookup_2. }
  destruct w.
  - apply result_bind_Ok in Hr as (n & _ & Hr). eapply (Hfind _ _ (λ h, [None; h])); [exact Hr|].
    intros h x. rewrite !elem_of_cons, elem_of_nil. naive_solver.
  - destruct e' as [e'|].
    + destruct i as [i|]; [|done]. apply of_option_Ok in Hr. intros Hin.
      exists (i, e'), r. split; [by apply od_get_Some_elem|done].
    + eapply (Hfind _ _ (λ h, [h; None])); [exact Hr|].
      intros h x. rewrite !elem_of_cons, elem_of_nil. naive_solver.
Qed.

Lemma the_port_in ty ports p : the_port ty ports = Ok p → p ∈ ports.
Proof.
  unfold the_port. destruct (filter _ ports) as [|q [|? ?]] eqn:Hf; try done. intros [= <-].
  assert (q ∈ filter (λ p, p_type p = ty) ports) as [_ ?]%list_elem_of_filter; [|done].
  rewrite Hf. left.
Qed.
Lemma rule_dict_elem l id f : (id, f) ∈ rule_dict l → f ∈ l.
Proof.
  intros Hin. assert (Forall (λ kv : Z * flow_stats, kv.2 ∈ l) (rule_dict l)) as Hall.
  { apply Forall_od_of_list, Forall_forall. by intros kv (g & -> & Hg)%list_elem_of_fmap. }
  rewrite Forall_forall in Hall. by apply (Hall (id, f)).
Qed.

Lemma default_rules_local device ports r id f :
  (root_device_default_rules ports = Ok r ∨ leaf_device_default_rules device ports = Ok r) →
  (id, f) ∈ r.1 → ∃ pin pout, pin ∈ ports ∧ pout ∈ ports ∧
    get_in_port f = Ok (Some (p_no pin)) ∧ get_out_port f = Ok (Some (p_no pout)).
Proof.
  intros [Hr|Hr] Hin; apply result_bind_Ok in Hr as (up & Hup%the_port_in & Hr);
    apply result_bind_Ok in Hr as (down & Hdown%the_port_in & [= <-]);
    apply rule_dict_elem in Hin; rewrite ?elem_of_cons, elem_of_nil in Hin.
  - destruct Hin as [->|[]]. by exists up, down.
  - destruct Hin as [->|[->|[->|[]]]]; [by exists down, up|by exists down, up|by exists up, down].
Qed.

Lemma generate_default_local s g rules dev fl gr id f :
  graph_ok (H := view s) g → devices_ok s →
  generate_default_rules s g = Ok rules → od_get dev rules = Some (fl, gr) → (id, f) ∈ fl →
  local_rule s dev f.
Proof.
  intros Hg Hd Hgen. revert dev fl gr id f.
  pose (P := λ rules : rules_map, ∀ dev fl gr id f, od_get dev rules = Some (fl, gr) → (id, f) ∈ fl →
    local_rule s dev f).
  refine (fold_result_inv P _ _ _ _ _ _ Hgen); [|by intros ? ? ? ? ? [=]].
  intros [n a] b b' _ Hb. unfold default_rules_of. cbn [snd]. destruct a as [|d|]; try by intros [= <-].
  intros (ports & Hp & Hr)%result_bind_Ok. apply result_bind_Ok in Hr as (r & Hr & [= <-]).
  intros dev fl gr id f Hget Hin. destruct (decide (d_id d = dev)) as [<-|Hne].
  - rewrite od_get_set in Hget. injection Hget as ->. cbn in Hp.
    destruct (od_get (d_id d) (ld_devices s)) as [[d' ps]|] eqn:Hdev; [|done]. injection Hp as ->.
    destruct (default_rules_local d ports (fl, gr) id f) as (pin & pout & ? & ? & ? & ?); [|done|].
    + case_bool_decide; [by left|by right].
    + by exists d', ports, pin, pout.
  - rewrite od_get_set_ne in Hget by done. by eapply Hb.
Qed.

Lemma assure_fresh s s1 : ld_routes s = None → assure_cached_tables s = (Ok tt, s1) →
  ∃ g rs rules nni, compute_routes (H := view s) (S (length (ld_devices s))) (ld_ports s) = Ok (g, rs) ∧
    generate_default_rules s g = Ok rules ∧ s1 = set_tables (Some rs) (Val rules) (Val nni) s.
Proof.
  intros Hr. unfold assure_cached_tables. rewrite Hr.
  destruct (compute_routes _ _) as [[g rs]|e]; [|done].
  destruct (generate_default_rules s g) as [rules|e] eqn:Hg; [|done].
  destruct (filter _ _) as [|p [|? ?]]; try done. intros [= <-].
  by exists g, rs, rules, (lp_port_no p).
Qed.

Context `{!NetworkXLaws}.

Lemma route_hop_local s rs g k r hop : devices_ok s →
  compute_routes (H := view s) (S (length (ld_devices s))) (ld_ports s) = Ok (g, rs) →
  NoDup (od_keys rs) → (k, r) ∈ rs → Some hop ∈ r →
  ∃ d ports, od_get (d_id (hop_device hop)) (ld_devices s) = Some (d, ports) ∧
    hop_ingress_port hop ∈ ports ∧ hop_egress_port hop ∈ ports.
Proof.
  intros Hd Hc Hnd Hin Hhop. destruct k as [sp tp]. apply od_get_elem in Hin; [|done].
  destruct (compute_routes_ok (H1 := view_laws s Hd) _ _ _ _ _ _ _ Hc Hin)
    as (a & t & _ & _ & _ & h1 & h2 & -> & Hd1 & Hd2 & Hp1 & _ & Hp2 & Hp3 & Hp4 & _ & _).
  pose proof (get_device_id (H := view s) (DeviceViewLaws := view_laws s Hd) _ _ Hd1) as Hid1.
  pose proof (get_device_id (H := view s) (DeviceViewLaws := view_laws s Hd) _ _ Hd2) as Hid2.
  assert (∀ dev p q, has_port (H := view s) dev p → has_port (H := view s) dev q →
    ∃ d ports, od_get dev (ld_devices s) = Some (d, ports) ∧ p ∈ ports ∧ q ∈ ports) as Hboth.
  { intros dev p q (d & ps & Hg & Hp)%has_port_view (d' & ps' & Hg' & Hq)%has_port_view.
    rewrite Hg in Hg'. injection Hg' as <- <-. by exists d, ps. }
  rewrite !elem_of_cons, elem_of_nil in Hhop.
  destruct Hhop as [[= ->]|[[= ->]|[]]]; [rewrite Hid1|rewrite Hid2]; auto.
Qed.

Lemma routes_NoDup s g rs :
  compute_routes (H := view s) (S (length (ld_devices s))) (ld_ports s) = Ok (g, rs) → NoDup (od_keys rs).
Proof.
  intros ([bp g'] & _ & Hr)%result_bind_Ok. apply result_bind_Ok in Hr as (rs' & Hr & [= _ ->]).
  refine (fold_result_inv (λ rs : routes, NoDup (od_keys rs)) _ _ _ _ _ _ Hr); [|constructor].
  intros [[a ano] [b bno]] c c' _ Hc. unfold add_route. case_bool_decide; [by intros [= <-]|].
  intros (path & _ & Hp)%result_bind_Ok. case_bool_decide; [by injection Hp as <-|].
  apply result_bind_Ok in Hp as (r & _ & [= <-]). by apply od_set_NoDup.
Qed.

(** C4: with freshly computed tables, no device is ever given a rule that
    mentions a port it does not have: the in-port and the out-port of every
    rule the agent decomposes for a device are ports of that device. *)
Theorem pushed_rules_local s s1 flows groups rules dev fl gr id f :
  devices_ok s → ld_routes s = None → assure_cached_tables s = (Ok tt, s1) →
  decompose_rules (H0 := agent_router s1) flows groups = Ok rules →
  od_get dev rules = Some (fl, gr) → (id, f) ∈ fl → local_rule s dev f.
Proof.
  intros Hd Hr Has Hdec Hget Hin.
  destruct (assure_fresh s s1 Hr Has) as (g & rs & defaults & nni & Hc & Hgen & ->).
  assert (graph_ok (H := view s) g) as Hg.
  { pose proof Hc as ([bp g'] & Hb & Hx)%result_bind_Ok. apply result_bind_Ok in Hx as (rs' & _ & [= -> _]).
    by eapply (build_graph_ok (H1 := view_laws s Hd)). }
  set (s1 := set_tables (Some rs) (Val defaults) (Val nni) s) in *.
  destruct (decompose_rules_from (H0 := agent_router s1) _ _ defaults _ eq_refl Hdec _ _ _ _ _ Hget Hin)
    as [(fl0 & gr0 & Hdef & Hin0)|[_ (flow & hop & _ & <- & Hroute & Hcar)]].
  - by eapply generate_default_local.
  - destruct Hroute as (in_no & out_no & r & _ & Hgr & Hhop). cbn in Hgr.
    destruct (lookup_route_hop _ _ _ _ _ _ Hgr Hhop) as (k & r0 & Hk & Hhop0).
    destruct (route_hop_local s rs g k r0 hop Hd Hc (routes_NoDup _ _ _ Hc) Hk Hhop0)
      as (d & ports & Hdev & Hi & He).
    exists d, ports, (hop_ingress_port hop), (hop_egress_port hop).
    split_and!; [done|done|done|by eapply carries_in_port|by eapply carries_out_port].
Qed.
End sync.
