(* ===== verification/FlowDemo.v ===== *)
(** * An OLT with two ONUs

    The topology of the PON simulator: an OLT with an NNI and a PON port and
    two ONUs, as the state of a logical device agent, with a breadth-first
    path search in the place of the graph library.  The witnesses of the
    theorems about flow handling are computed on it. *)

From stdpp Require Import prelude strings list.
From S2P Require Import Prelude OFP FlowDecomposer DeviceGraph LogicalDevice LogicalTables LogicalSync.

(** ** A path search that satisfies the laws of [NetworkX] *)

Definition neighbours (g : graph) (n : gnode) : list gnode :=
  e ← g_edges g;
  if bool_decide (e.1 = n) then [e.2] else if bool_decide (e.2 = n) then [e.1] else [].
Fixpoint bfs (fuel : nat) (g : graph) (t : gnode) (paths : list (list gnode)) : option (list gnode) :=
  match find (λ p, bool_decide (head p = Some t)) paths with
  | Some p => Some (reverse p)
  | None =>
      match fuel with
      | 0 => None
      | S fuel =>
          bfs fuel g t (p ← paths;
            match p with
            | [] => []
            | n :: _ => (λ m, m :: p) <$> filter (λ m, m ∉ p) (neighbours g n)
            end)
      end
  end.

#[export] Instance adjacent_dec g u v : Decision (adjacent g u v).
Proof. unfold adjacent. apply _. Defined.
#[export] Instance is_path_dec g p : Decision (is_path g p).
Proof.
  induction p as [|u [|v p] IH]; cbn [is_path]; [left; done|left; done|].
  destruct (decide (adjacent g u v)), IH; [left; done|right; tauto..].
Defined.

#[export] Instance demo_networkx : NetworkX := {|
  shortest_path g s t :=
    match bfs (length (g_nodes g)) g t [[s]] with
    | Some p => if decide (head p = Some s ∧ last p = Some t ∧ is_path g p) then Ok p else Raise KeyError
    | None => Raise KeyError
    end;
|}.
#[export] Instance demo_networkx_laws : NetworkXLaws.
Proof.
  split; intros g s t p; cbn; destruct (bfs _ _ _ _) as [q|]; try done;
    destruct (decide _) as [(? & ? & ?)|]; try done; by intros [= <-].
Qed.

(** A stand-in for the flow hash. *)
#[export] Instance demo_flow_hash : FlowHash := {|
  md5_flow table priority flags cookie m :=
    foldl (λ acc f, acc * 65599 + f_type (oxm_ofb_field f) * 8191 +
                    match f_value (oxm_ofb_field f) with IntValue _ v => v | _ => 0 end)%Z
      (table * 7 + priority * 31 + flags * 127 + cookie * 8191)%Z (m_oxm_fields m);
|}.

(** ** The devices *)

Definition olt : Device := mk_Device "olt" true 0 1.
Definition onu1 : Device := mk_Device "onu1" false 101 1.
Definition onu2 : Device := mk_Device "onu2" false 102 1.
Definition olt_pon : Port := mk_Port 1 PON_OLT [mk_peer "onu1" 1; mk_peer "onu2" 1] 1.
Definition olt_nni : Port := mk_Port 2 ETHERNET_NNI [] 1.
Definition onu_pon : Port := mk_Port 1 PON_ONU [mk_peer "olt" 1] 1.
Definition onu_uni : Port := mk_Port 2 ETHERNET_UNI [] 1.

Definition demo_devices : list (string * (Device * list Port)) :=
  [("olt", (olt, [olt_pon; olt_nni])); ("onu1", (onu1, [onu_pon; onu_uni]));
   ("onu2", (onu2, [onu_pon; onu_uni]))].
Definition demo_ports : list LogicalPort :=
  [mk_LogicalPort "nni" "olt" 2 0 true; mk_LogicalPort "uni-128" "onu1" 2 128 false;
   mk_LogicalPort "uni-129" "onu2" 2 129 false].
Definition demo_ld : ld_state :=
  mk_ld "olt" demo_devices demo_ports [] [] [] None Missing Missing.

(** An upstream flow of the first UNI: push an outer tag, to the NNI. *)
Definition up_mod : flow_mod :=
  mk_simple_flow_mod [in_port 128; vlan_vid (Z.lor OFPVID_PRESENT 101)]
    [push_vlan 0x8100; set_field (vlan_vid (Z.lor OFPVID_PRESENT 1000)); output 0]
    OFPFC_ADD None 500 7.
Definition up_flow : flow_stats := flow_stats_entry_from_flow_mod_message up_mod.

Definition demo_s1 : ld_state := (assure_cached_tables (set_flows [up_flow] demo_ld)).2.
Definition demo_rules : rules_map :=
  match decompose_rules (H0 := agent_router demo_s1) [up_flow] [] with Ok r => r | Raise _ => [] end.

Lemma demo_assure : assure_cached_tables (set_flows [up_flow] demo_ld) = (Ok tt, demo_s1).
Proof. vm_compute. reflexivity. Qed.
Lemma demo_decompose : decompose_rules (H0 := agent_router demo_s1) [up_flow] [] = Ok demo_rules.
Proof. vm_compute. reflexivity. Qed.
Lemma demo_devices_ok s : ld_devices s = demo_devices → devices_ok s.
Proof.
  intros Hs id d ports. rewrite Hs. cbn.
  repeat (case_decide; [subst id; by intros [= <- <-]|]). done.
Qed.

(** The OLT has its default rule and the decomposed one, the ONUs their three
    default rules. *)
Example demo_rule_counts :
  (λ kv : string * (list (Z * flow_stats) * list (Z * group_entry)), (kv.1, length kv.2.1)) <$> demo_rules
  = [("olt", 2); ("onu1", 3); ("onu2", 3)].
Proof. vm_compute. reflexivity. Qed.

(** ** Witnesses *)

Definition nth_rule (dev : string) (i : nat) : Z * flow_stats :=
  default (0%Z, up_flow) ((default ([], []) (od_get dev demo_rules)).1 !! i).

Lemma demo_rule_lookup dev i fl gr :
  od_get dev demo_rules = Some (fl, gr) → i < length fl → nth_rule dev i ∈ fl.
Proof.
  intros Hg Hi. unfold nth_rule. rewrite Hg. cbn.
  destruct (lookup_lt_is_Some_2 fl i Hi) as [x Hx]. rewrite Hx. by eapply list_elem_of_lookup_2.
Qed.

Definition demo_defaults : rules_map :=
  match ld_default_rules demo_s1 with Val r => r | _ => [] end.

Lemma decompose_rules_sound_witness : ∃ fl gr,
  od_get "olt" demo_rules = Some (fl, gr) ∧
  ((∃ fl0 gr0, od_get "olt" demo_defaults = Some (fl0, gr0) ∧ nth_rule "olt" 1 ∈ fl0) ∨
   ∃ flow hop, flow ∈ [up_flow] ∧ d_id (hop_device hop) = "olt" ∧
     fs_priority (nth_rule "olt" 1).2 = fs_priority flow).
Proof.
  destruct (od_get "olt" demo_rules) as [[fl gr]|] eqn:Hg; [|vm_compute in Hg; discriminate].
  exists fl, gr. split; [reflexivity|].
  destruct (decompose_rules_sound (H0 := agent_router demo_s1) [up_flow] [] demo_defaults demo_rules "olt" fl gr
    (nth_rule "olt" 1).1 (nth_rule "olt" 1).2) as [Hd|(flow & hop & fields & fields' & H1 & H2 & _ & H3 & _)].
  - vm_compute. reflexivity.
  - exact demo_decompose.
  - exact Hg.
  - rewrite <- surjective_pairing. eapply demo_rule_lookup; [exact Hg|].
    vm_compute in Hg. injection Hg as <- _. vm_compute. lia.
  - left. rewrite <- surjective_pairing in Hd. exact Hd.
  - right. exists flow, hop. auto.
Defined.

Lemma decompose_rules_complete_witness :
  (∃ k, od_get "onu1" demo_rules = Some ((default ([], []) (od_get "onu1" demo_defaults)).1 ++ k,
                                         (default ([], []) (od_get "onu1" demo_defaults)).2)) ∧
  ∃ dr, decompose_flow (H0 := agent_router demo_s1) up_flow [] = Ok dr ∧
    ∀ dev id, rule_at demo_rules dev id =
      match rule_at demo_defaults dev id with
      | Some f => Some f
      | None => first_of id (rules_for dev (concat [dr]))
      end.
Proof.
  destruct (decompose_rules_complete (H0 := agent_router demo_s1) [up_flow] [] demo_defaults demo_rules)
    as [Hdef (drs & Hall & Hat)]; [vm_compute; reflexivity|exact demo_decompose|].
  split.
  - destruct (od_get "onu1" demo_defaults) as [[fl gr]|] eqn:Hg; [|vm_compute in Hg; discriminate].
    exact (Hdef "onu1" fl gr Hg).
  - inversion Hall as [|flow dr flows drs' Hdr Hnil]; subst. inversion Hnil; subst.
    exists dr. exact (conj Hdr Hat).
Defined.

Definition demo_routes : graph * routes :=
  match compute_routes (H := view demo_ld) 4 demo_ports with Ok gr => gr | Raise _ => (mk_graph [] [], []) end.

Lemma compute_routes_sound_witness : ∃ s t r, od_get (128%Z, 0%Z) demo_routes.2 = Some r ∧
  (s, 128%Z) ∈ mk_boundary_ports demo_ports ∧ (t, 0%Z) ∈ mk_boundary_ports demo_ports ∧ s ≠ t ∧
  route_ok (H := view demo_ld) s t r.
Proof.
  destruct (od_get (128%Z, 0%Z) demo_routes.2) as [r|] eqn:Hg; [|vm_compute in Hg; discriminate].
  destruct (compute_routes_sound (H := view demo_ld)
    (H1 := view_laws demo_ld (demo_devices_ok demo_ld eq_refl)) 4 demo_ports demo_routes.1 demo_routes.2
    128 0 r) as (s & t & Hs); [vm_compute; reflexivity|exact Hg|].
  exists s, t, r. split; [reflexivity|exact Hs].
Defined.

Lemma build_graph_ends_witness :
  build_graph (H := view demo_ld) (S (length ["olt"; "onu1"; "onu2"])) demo_ports ≠ Raise OutOfFuel.
Proof.
  apply (build_graph_ends (H := view demo_ld)
    (H1 := view_laws demo_ld (demo_devices_ok demo_ld eq_refl)) ["olt"; "onu1"; "onu2"]).
  - intros id d. cbn. repeat (case_decide; [subst id; intros _; set_solver|]). done.
  - intros id. cbn. by repeat case_decide.
  - intros id. cbn. by repeat case_decide.
Defined.

Lemma flow_add_is_insert_witness : ∃ s', flow_add up_mod demo_ld = (Ok tt, s') ∧
  lookup_flow (key_of up_flow) (ld_flows s') = Some up_flow.
Proof.
  destruct (flow_add_is_insert up_mod demo_ld) as (s' & Hrun & _ & _ & Hl); [reflexivity|reflexivity|].
  exists s'. split; [exact Hrun|]. rewrite Hl. vm_compute. reflexivity.
Defined.

Lemma flow_delete_strict_is_delete_witness : ∃ s',
  flow_delete_strict up_mod (set_flows [up_flow] demo_ld) = (Ok tt, s') ∧
  lookup_flow (key_of up_flow) (ld_flows s') = None.
Proof.
  destruct (flow_delete_strict_is_delete up_mod (set_flows [up_flow] demo_ld)) as (s' & Hrun & _ & _ & Hl).
  { apply NoDup_singleton. }
  exists s'. split; [exact Hrun|]. rewrite Hl. vm_compute. reflexivity.
Defined.

Definition wipe_mod : flow_mod :=
  mk_flow_mod 0 0 OFPTT_ALL OFPFC_DELETE 0 0 0 0 OFPP_ANY OFPG_ANY 0 (mk_match OFPMT_OXM []) [].
Lemma flow_delete_is_filter_witness : ∃ s',
  flow_delete wipe_mod (set_flows [up_flow] demo_ld) = (Ok tt, s') ∧ ld_flows s' = [].
Proof.
  destruct (flow_delete_is_filter wipe_mod (set_flows [up_flow] demo_ld)) as (s' & Hrun & _ & Hl & _);
    [reflexivity|].
  exists s'. split; [rewrite Hrun; vm_compute; reflexivity|rewrite Hl; vm_compute; reflexivity].
Defined.

(** A multicast flow and its group. *)
Definition mc_flow : flow_stats :=
  mk_flow_stat 1000 3 [in_port 0; eth_type 0x800; ipv4_dst 0xe4010101] [group 1].
Definition mc_group : group_mod :=
  mk_multicast_group_mod 1 [mk_bucket 0 0 0 [pop_vlan; output 128]; mk_bucket 0 0 0 [pop_vlan; output 129]] OFPGC_ADD.
Definition mc_state : ld_state :=
  set_groups [group_entry_from_group_mod mc_group] (set_flows [up_flow; mc_flow] demo_ld).

Lemma group_delete_removes_users_witness : ∃ s',
  group_delete mc_group mc_state = (Ok tt, s') ∧ ld_flows s' = [up_flow] ∧ lookup_group 1 (ld_groups s') = None.
Proof.
  assert (is_Some (lookup_group 1 (ld_groups mc_state))) as Hg by (eexists; reflexivity).
  destruct (group_delete_removes_users mc_group mc_state ltac:(discriminate) Hg)
    as (s' & Hrun & Hf & _ & Hl).
  exists s'. split; [exact Hrun|]. split; [rewrite Hf; vm_compute; reflexivity|].
  rewrite Hl. vm_compute. reflexivity.
Defined.

Lemma group_delete_all_keeps_flows_witness : ∃ s',
  group_delete (mk_group_mod OFPGC_DELETE OFPGT_ALL OFPG_ALL []) mc_state = (Ok tt, s') ∧
  ld_groups s' = [] ∧ ld_flows s' = [up_flow; mc_flow].
Proof.
  apply (group_delete_all_keeps_flows (mk_group_mod OFPGC_DELETE OFPGT_ALL OFPG_ALL []) mc_state).
  reflexivity.
Defined.

Lemma group_add_modify_spec_witness : ∃ s', group_add mc_group demo_ld = (Ok tt, s') ∧
  lookup_group 1 (ld_groups s') = Some (group_entry_from_group_mod mc_group).
Proof.
  destruct (group_add_modify_spec mc_group demo_ld) as [(s' & Hrun & _ & _ & Hl) _]; [apply NoDup_nil_2|].
  exists s'. split; [exact Hrun|]. rewrite Hl. vm_compute. reflexivity.
Defined.

Lemma table_change_reaches_devices_witness : ∃ s',
  write_flows [up_flow] demo_ld = (Ok tt, s') ∧
  od_get "onu1" (ld_device_rules s') =
    (λ r, (od_values r.1, od_values r.2)) <$> od_get "onu1" demo_rules.
Proof.
  destruct (table_change_reaches_devices demo_ld [up_flow] demo_s1 demo_rules) as (s' & Hrun & _ & Hl).
  - discriminate.
  - intros r. discriminate.
  - exact demo_assure.
  - exact demo_decompose.
  - intros dev Hin. vm_compute in Hin. set_unfold in Hin. destruct Hin as [->|[->|[->|[]]]]; by eexists.
  - exists s'. split; [exact Hrun|]. rewrite Hl. vm_compute. reflexivity.
Defined.

Lemma pushed_rules_local_witness : ∃ fl gr, od_get "olt" demo_rules = Some (fl, gr) ∧
  local_rule demo_ld "olt" (nth_rule "olt" 1).2.
Proof.
  destruct (od_get "olt" demo_rules) as [[fl gr]|] eqn:Hg; [|vm_compute in Hg; discriminate].
  exists fl, gr. split; [reflexivity|].
  apply (pushed_rules_local (set_flows [up_flow] demo_ld) demo_s1 [up_flow] [] demo_rules "olt" fl gr
    (nth_rule "olt" 1).1).
  - apply demo_devices_ok. reflexivity.
  - reflexivity.
  - exact demo_assure.
  - exact demo_decompose.
  - exact Hg.
  - rewrite <- surjective_pairing. eapply demo_rule_lookup; [exact Hg|].
    vm_compute in Hg. injection Hg as <- _. vm_compute. lia.
Defined.

(** The second ONU has no UNI port yet when the first flow arrives. *)
Definition early_ld : ld_state :=
  mk_ld "olt" [("olt", (olt, [olt_pon; olt_nni])); ("onu1", (onu1, [onu_pon; onu_uni]));
               ("onu2", (onu2, [onu_pon]))]
    [mk_LogicalPort "nni" "olt" 2 0 true; mk_LogicalPort "uni-128" "onu1" 2 128 false]
    [] [] [] None Missing Missing.
Definition early_graph : graph * routes :=
  match compute_routes (H := view early_ld) 4 (ld_ports early_ld) with
  | Ok gr => gr | Raise _ => (mk_graph [] [], []) end.

Lemma failed_tables_block_pushes_witness :
  let s1 := (assure_cached_tables early_ld).2 in
  let s2 := mk_ld "olt" demo_devices (ld_ports s1) (ld_flows s1) (ld_groups s1) (ld_device_rules s1)
              (ld_routes s1) (ld_default_rules s1) (ld_nni s1) in
  ld_device_rules (update_flow_table up_mod s2).2 = [].
Proof.
  destruct (failed_tables_block_pushes early_ld early_graph.1 early_graph.2 AssertionError up_mod mc_group
    demo_devices) as (H1 & _); [reflexivity|discriminate|vm_compute; reflexivity|vm_compute; reflexivity|].
  exact H1.
Defined.
