(* ===== verification/PonSim.v ===== *)
(** * The PON simulator (ponsim/ponsim.py)

    Simulated devices match frames against the installed flows and apply the
    actions of the first match.  Frames are scapy objects: what the simulator
    uses of them is the class [Scapy], with the documented behaviour of its
    layers as laws.  Frames are mutable and shared (setting a VLAN field
    writes to the object that was passed in), so the simulator keeps them in a
    heap and passes references. *)

From stdpp Require Import prelude strings list sorting.
From S2P Require Import Prelude OFP.

(** ** Frames *)

Class Scapy : Type := {
  frame : Type;
  has_dot1q : frame → bool;                    (* f.haslayer(Dot1Q) *)
  ether_type : frame → Z;                      (* f.type *)
  shim_type : frame → Z;                       (* f.getlayer(Dot1Q).type *)
  shim_vlan : frame → Z;
  shim_prio : frame → Z;
  ip_proto_of : frame → option Z;              (* f.getlayer(IP).proto *)
  ip_dst_of : frame → option string;
  udp_dport_of : frame → option Z;
  pop_shim : frame → frame;                    (* Ether(src, dst, type=shim.type) / shim.payload *)
  push_shim : Z → frame → frame;               (* Ether(src, dst, type=e) / Dot1Q(type=f.type) / f.payload *)
  set_shim_vlan : Z → frame → frame;
  set_shim_prio : Z → frame → frame;
}.
Class ScapyLaws `{Scapy} : Prop := {
  push_has e f : has_dot1q (push_shim e f) = true;
  set_vlan_has v f : has_dot1q (set_shim_vlan v f) = has_dot1q f;
  set_vlan_get v f : has_dot1q f = true → shim_vlan (set_shim_vlan v f) = v;
  set_vlan_prio v f : shim_prio (set_shim_vlan v f) = shim_prio f;
  set_vlan_set v w f : set_shim_vlan v (set_shim_vlan w f) = set_shim_vlan v f;
  set_vlan_same f : set_shim_vlan (shim_vlan f) f = f;
  pop_push e v f : pop_shim (set_shim_vlan v (push_shim e f)) = f;
}.

(** ** Strings of IPv4 addresses *)

Definition pos_digit (n : N) : string :=
  String (Ascii.ascii_of_N (48 + n)) EmptyString.
(** Decimal of a number below 1000. *)
Definition dec_byte (z : Z) : string :=
  let n := Z.to_N z in
  if (n <? 10)%N then pos_digit n
  else if (n <? 100)%N then pos_digit (n / 10) +:+ pos_digit (n mod 10)
  else pos_digit (n / 100) +:+ pos_digit ((n / 10) mod 10) +:+ pos_digit (n mod 10).
Definition ipv4int2str (z : Z) : string :=
  dec_byte (Z.land (Z.shiftr z 24) 0xff) +:+ "." +:+
  dec_byte (Z.land (Z.shiftr z 16) 0xff) +:+ "." +:+
  dec_byte (Z.land (Z.shiftr z 8) 0xff) +:+ "." +:+
  dec_byte (Z.land z 0xff).

Section ponsim.
Context `{!Scapy}.

(** ** Matching *)

Definition get_non_shim_ether_type (f : frame) : Z :=
  if has_dot1q f then shim_type f else ether_type f.
Definition get_vlan_pcp (f : frame) : option Z :=
  if has_dot1q f then Some (shim_prio f) else None.

(** One field of [is_match]: [Ok false] ends the loop with [False]. *)
Definition field_match (field : ofb_field) (ingress_port : Z) (f : frame) : result bool :=
  if bool_decide (f_type field = IN_PORT) then Ok (bool_decide (f_int "port" field = ingress_port))
  else if bool_decide (f_type field = ETH_TYPE) then
    Ok (bool_decide (f_int "eth_type" field = get_non_shim_ether_type f))
  else if bool_decide (f_type field = IP_PROTO) then
    Ok (bool_decide (Some (f_int "ip_proto" field) = ip_proto_of f))
  else if bool_decide (f_type field = VLAN_VID) then
    let expected_vlan := f_int "vlan_vid" field in
    let tagged := has_dot1q f in
    Ok (bool_decide ((negb (bool_decide (Z.land expected_vlan 4096 = 0%Z))) = tagged) &&
        (negb tagged || bool_decide (shim_vlan f = Z.land expected_vlan 4095)))
  else if bool_decide (f_type field = VLAN_PCP) then
    Ok (bool_decide (Some (f_int "vlan_pcp" field) = get_vlan_pcp f))
  else if bool_decide (f_type field = IPV4_DST) then
    Ok (bool_decide (Some (ipv4int2str (f_int "ipv4_dst" field)) = ip_dst_of f))
  else if bool_decide (f_type field = UDP_DST) then Raise AttributeError   (* field.udsp_dst *)
  else Raise NotImplementedError.

Fixpoint fields_match (fields : list ofb_field) (ingress_port : Z) (f : frame) : result bool :=
  match fields with
  | [] => Ok true
  | field :: fields =>
      b ← field_match field ingress_port f;
      if b : bool then fields_match fields ingress_port f else Ok false
  end.

Definition is_match (flow : flow_stats) (ingress_port : Z) (f : frame) : result bool :=
  fields ← get_ofb_fields flow;
  fields_match fields ingress_port f.

(** ** Actions *)

(** Frame objects: a reference is an index. *)
Definition heap : Type := list frame.

Definition read_frame (fid : nat) : M heap frame := λ h, (of_option KeyError (h !! fid), h).
Definition write_frame (fid : nat) (f : frame) : M heap unit := λ h, (Ok tt, <[fid := f]> h).
Definition new_frame (f : frame) : M heap nat := λ h, (Ok (length h), h ++ [f]).

(** [shim = frame.getlayer(Dot1Q); shim.x = v]: [None] has no attributes. *)
Definition write_shim (fid : nat) (upd : frame → frame) : M heap unit :=
  f ← read_frame fid;
  if has_dot1q f then write_frame fid (upd f) else raise AttributeError.

(** One action, on the current frame and egress port. *)
Definition do_action (a : action) (st : option Z * nat) : M heap (option Z * nat) :=
  let '(port, fid) := st in
  if bool_decide (a_type a = OUTPUT) then mret (Some (a_output_port a), fid)
  else if bool_decide (a_type a = POP_VLAN) then
    f ← read_frame fid;
    if has_dot1q f then fid' ← new_frame (pop_shim f); mret (port, fid') else mret (port, fid)
  else if bool_decide (a_type a = PUSH_VLAN) then
    f ← read_frame fid;
    fid' ← new_frame (push_shim (a_push_ethertype a) f); mret (port, fid')
  else if bool_decide (a_type a = SET_FIELD) then
    _ ← lift (assert_ (bool_decide (oxm_class (a_set_field a) = OFPXMC_OPENFLOW_BASIC)));
    let field := oxm_ofb_field (a_set_field a) in
    if bool_decide (f_type field = VLAN_VID) then
      _ ← write_shim fid (set_shim_vlan (Z.land (f_int "vlan_vid" field) 4095)); mret (port, fid)
    else if bool_decide (f_type field = VLAN_PCP) then
      _ ← write_shim fid (set_shim_prio (f_int "vlan_pcp" field)); mret (port, fid)
    else raise NotImplementedError
  else raise NotImplementedError.

Fixpoint do_actions (actions : list action) (st : option Z * nat) : M heap (option Z * nat) :=
  match actions with
  | [] => mret st
  | a :: actions => st ← do_action a st; do_actions actions st
  end.

Definition process_actions (flow : flow_stats) (fid : nat) : M heap (option Z * nat) :=
  actions ← lift (iter_actions flow);
  do_actions actions (None, fid).

(** ** Devices *)

(** [sorted(flows, key=priority, reverse=True)]: stable, highest first. *)
Fixpoint insert_flow (f : flow_stats) (l : list flow_stats) : list flow_stats :=
  match l with
  | [] => [f]
  | g :: l => if (fs_priority g <=? fs_priority f)%Z then f :: g :: l else g :: insert_flow f l
  end.
Definition install_flows (flows : list flow_stats) : list flow_stats := foldr insert_flow [] flows.

(** [process_frame]: [None] when no flow matches. *)
Fixpoint process_frame (flows : list flow_stats) (ingress_port : Z) (fid : nat)
    : M heap (option (option Z * nat)) :=
  match flows with
  | [] => mret None
  | flow :: flows =>
      f ← read_frame fid;
      b ← lift (is_match flow ingress_port f);
      if b : bool then r ← process_actions flow fid; mret (Some r)
      else process_frame flows ingress_port fid
  end.

(** What a link leads to: the outside at a port, or a device's ingress. *)
Inductive link : Type := ToEgress (port_no : Z) | ToDevice (device : Z) (port : Z).

Record sim_device : Type := mk_sim_device {
  sd_links : list (Z * list link);
  sd_flows : list flow_stats;
}.
Record sim : Type := mk_sim {
  sim_devices : list (Z * sim_device);
  sim_heap : heap;
  sim_egressed : list (Z * frame);       (** calls of [egress_fun], in order *)
}.

Definition on_heap {A} (m : M heap A) : M sim A := λ s,
  let '(r, h) := m (sim_heap s) in (r, mk_sim (sim_devices s) h (sim_egressed s)).

(** The loop of [SimDevice.ingress] over the links of the egress port; [go] is
    the ingress of another device. *)
Fixpoint forward (go : Z → Z → M sim unit) (fid : nat) (links : list link) : M sim unit :=
  match links with
  | [] => mret tt
  | ToEgress port_no :: links =>
      f ← on_heap (read_frame fid);
      _ ← modify (λ s, mk_sim (sim_devices s) (sim_heap s) (sim_egressed s ++ [(port_no, f)]));
      forward go fid links
  | ToDevice dev p :: links =>
      _ ← go dev p;
      forward go fid links
  end.

(** [SimDevice.ingress]; [fuel] bounds the number of devices a frame passes. *)
Fixpoint ingress (fuel : nat) (device port : Z) (fid : nat) : M sim unit :=
  match fuel with
  | 0 => raise OutOfFuel
  | S fuel =>
      s ← get_state;
      d ← lift (of_option KeyError (od_get device (sim_devices s)));
      outcome ← on_heap (process_frame (sd_flows d) port fid);
      match outcome with
      | None => mret tt
      | Some (egress_port, fid') =>
          forward (λ dev p, ingress fuel dev p fid') fid'
            (match egress_port with
             | Some e => default [] (od_get e (sd_links d))
             | None => []
             end)
      end
  end.

(** [SimDevice.__init__] and [SimDevice.link] *)
Definition mk_sd : sim_device := mk_sim_device [] [].
Definition sd_link (port : Z) (egress_fun : link) (d : sim_device) : sim_device :=
  mk_sim_device (od_set port (default [] (od_get port (sd_links d)) ++ [egress_fun]) (sd_links d))
    (sd_flows d).

(** [PonSim.__init__]: the OLT is device 0, the ONUs are 128, 129, ...  The
    loop adds a link to the OLT and a device for each ONU. *)
Definition onu_port (i : nat) : Z := 128 + Z.of_nat i.
Definition add_onu (devices : list (Z * sim_device)) (i : nat) : list (Z * sim_device) :=
  let port_no := onu_port i in
  let onu := sd_link 2 (ToEgress port_no) (sd_link 1 (ToDevice 0 1) mk_sd) in
  let olt := sd_link 1 (ToDevice port_no 1) (default mk_sd (od_get 0%Z devices)) in
  od_set port_no onu (od_set 0%Z olt devices).
Definition mk_ponsim (onus : nat) : sim :=
  mk_sim (foldl add_onu [(0%Z, sd_link 2 (ToEgress 0) mk_sd)] (seq 0 onus)) [] [].

(** [get_ports]: the keys of the devices; the loop inserts them in order. *)
Definition get_ports (s : sim) : list Z := merge_sort Z.le (od_keys (sim_devices s)).

(** [olt_install_flows] and [onu_install_flows] *)
Definition install (device : Z) (flows : list flow_stats) : M sim unit :=
  s ← get_state;
  d ← lift (of_option KeyError (od_get device (sim_devices s)));
  modify (λ s, mk_sim (od_set device (mk_sim_device (sd_links d) (install_flows flows)) (sim_devices s))
                 (sim_heap s) (sim_egressed s)).

(** [PonSim.ingress] with a frame that is a packet already *)
Definition ponsim_ingress (fuel : nat) (port : Z) (f : frame) : M sim unit :=
  fid ← on_heap (new_frame f);
  ingress fuel port 2 fid.

End ponsim.
