(* ===== verification/PonSimSpec.v ===== *)
(** * What the PON simulator does with the rules VOLTHA installs

    Flow selection by priority, the VLAN edge rules of an ONU on every kind of
    frame, and the path of a frame through the OLT and the ONUs in the two
    directions. *)

From stdpp Require Import prelude strings list sorting.
From S2P Require Import Prelude OFP FlowDecomposer DeviceGraph LogicalDevice PonSim FlowDemo.

(** ** Flow selection *)

Definition higher (f g : flow_stats) : Prop := (fs_priority g ≤ fs_priority f)%Z.

Lemma insert_flow_perm f l : insert_flow f l ≡ₚ f :: l.
Proof.
  induction l as [|g l IH]; simpl; [done|]. case_match; [done|].
  rewrite IH. apply Permutation_swap.
Qed.
Lemma install_flows_perm flows : install_flows flows ≡ₚ flows.
Proof.
  induction flows as [|f flows IH]; [done|]. unfold install_flows in *. cbn [foldr].
  by rewrite insert_flow_perm, IH.
Qed.
Lemma insert_flow_sorted f l : StronglySorted higher l → StronglySorted higher (insert_flow f l).
Proof.
  induction 1 as [|g l Hl IH Hg]; simpl; [by repeat constructor|].
  destruct (Z.leb_spec (fs_priority g) (fs_priority f)) as [Hle|Hgt].
  - repeat (constructor; try done). eapply Forall_impl; [done|]. unfold higher. intros; lia.
  - constructor; [done|]. rewrite insert_flow_perm. constructor; [unfold higher; lia|done].
Qed.
Lemma install_flows_sorted flows : StronglySorted higher (install_flows flows).
Proof. induction flows as [|f flows IH]; simpl; [constructor|]. by apply insert_flow_sorted. Qed.
Lemma insert_flow_filter p f l :
  filter (λ g, fs_priority g = p) (insert_flow f l) = filter (λ g, fs_priority g = p) (f :: l).
Proof.
  induction l as [|g l IH]; [done|]. cbn [insert_flow].
  destruct (Z.leb_spec (fs_priority g) (fs_priority f)) as [Hle|Hgt]; [done|].
  rewrite filter_cons, IH, !filter_cons.
  destruct (decide (fs_priority f = p)), (decide (fs_priority g = p)); try done. lia.
Qed.

(** SimDevice.install_flows stores exactly the flows it is given, the highest
    priority first, and flows of one priority stay in the order they were given
    in. *)
Theorem install_flows_spec flows :
  install_flows flows ≡ₚ flows ∧
  StronglySorted (λ f g, (fs_priority g ≤ fs_priority f)%Z) (install_flows flows) ∧
  ∀ p, filter (λ g, fs_priority g = p) (install_flows flows) = filter (λ g, fs_priority g = p) flows.
Proof.
  split_and!; [apply install_flows_perm|apply install_flows_sorted|].
  intros p. induction flows as [|f flows IH]; [done|].
  cbn [install_flows foldr]. fold (install_flows flows).
  by rewrite insert_flow_filter, !filter_cons, IH.
Qed.

Section dataplane.
Context `{!Scapy, !ScapyLaws, !FlowHash}.

Lemma process_frame_skip flows1 flows2 port fid h f :
  h !! fid = Some f → (∀ g, g ∈ flows1 → is_match g port f = Ok false) →
  process_frame (flows1 ++ flows2) port fid h = process_frame flows2 port fid h.
Proof.
  intros Hf. induction flows1 as [|g flows1 IH]; intros Hno; [done|]. cbn [app process_frame].
  rewrite (M_bind_eq _ _ h f h) by (unfold read_frame; by rewrite Hf).
  rewrite (M_bind_eq _ _ h false h) by (unfold lift; by rewrite Hno by left).
  apply IH. intros; apply Hno. by right.
Qed.
Lemma process_frame_hit flow flows port fid h f :
  h !! fid = Some f → is_match flow port f = Ok true →
  process_frame (flow :: flows) port fid h =
  (r ← process_actions flow fid; mret (Some r)) h.
Proof.
  intros Hf Hm. cbn [process_frame].
  rewrite (M_bind_eq _ _ h f h) by (unfold read_frame; by rewrite Hf).
  by rewrite (M_bind_eq _ _ h true h) by (unfold lift; by rewrite Hm).
Qed.

(** Whether some flow of a list matches, when matching raises for none. *)
Lemma first_match flows port f :
  (∀ g, g ∈ flows → ∃ b, is_match g port f = Ok b) →
  (∀ g, g ∈ flows → is_match g port f = Ok false) ∨
  ∃ l1 flow l2, flows = l1 ++ flow :: l2 ∧ is_match flow port f = Ok true ∧
    ∀ g, g ∈ l1 → is_match g port f = Ok false.
Proof.
  induction flows as [|g flows IH]; intros Hok; [left; by intros ? ?%not_elem_of_nil|].
  destruct (Hok g) as [[] Hg]; [left| |].
  { right. exists [], g, flows. split_and!; [done..|]. by intros ? ?%not_elem_of_nil. }
  destruct IH as [Hno|(l1 & flow & l2 & -> & Hm & Hl1)].
  { intros; apply Hok. by right. }
  { left. intros g' [->|?]%elem_of_cons; auto. }
  right. exists (g :: l1), flow, l2. split_and!; [done..|].
  intros g' [->|?]%elem_of_cons; auto.
Qed.

(** A frame is handled by a matching flow of the highest priority: when no
    installed flow matches, the frame is dropped and nothing changes; otherwise
    the actions of one matching flow are applied and no matching flow has a
    higher priority.  (Matching must be defined on every installed flow, that is
    raise no exception.) *)
Theorem process_frame_highest flows port fid h f :
  h !! fid = Some f → (∀ g, g ∈ flows → ∃ b, is_match g port f = Ok b) →
  ((∀ g, g ∈ flows → is_match g port f = Ok false) ∧
   process_frame (install_flows flows) port fid h = (Ok None, h)) ∨
  (∃ flow, flow ∈ flows ∧ is_match flow port f = Ok true ∧
     (∀ g, g ∈ flows → is_match g port f = Ok true → (fs_priority g ≤ fs_priority flow)%Z) ∧
     process_frame (install_flows flows) port fid h =
     (r ← process_actions flow fid; mret (Some r)) h).
Proof.
  intros Hf Hok. pose proof (install_flows_perm flows) as Hp.
  destruct (first_match (install_flows flows) port f) as [Hno|(l1 & flow & l2 & Heq & Hm & Hl1)].
  { intros g Hg. apply Hok. by rewrite <- Hp. }
  - left. split; [intros g Hg; apply Hno; by rewrite Hp|].
    rewrite <- (app_nil_r (install_flows flows)). by erewrite process_frame_skip.
  - right. exists flow.
    split_and!; [rewrite <- Hp, Heq, elem_of_app; right; left|done| |].
    + intros g Hg Hgm. rewrite <- Hp, Heq in Hg.
      apply elem_of_app in Hg as [Hg|[->|Hg]%elem_of_cons]; [by rewrite (Hl1 g Hg) in Hgm|done|].
      pose proof (install_flows_sorted flows) as Hs. rewrite Heq in Hs.
      apply StronglySorted_app in Hs as (_ & _ & Hs).
      inversion Hs as [|? ? ? Hall]. by eapply Forall_forall in Hall.
    + rewrite Heq. erewrite process_frame_skip by done. by erewrite process_frame_hit.
Qed.

(** ** Executing the rules [mk_flow_stat] builds *)

Lemma is_match_mk priority cookie fields actions port f :
  is_match (mk_flow_stat priority cookie fields actions) port f = fields_match fields port f.
Proof. unfold is_match. by rewrite get_ofb_fields_mk. Qed.
Lemma process_actions_mk priority cookie fields actions fid h :
  process_actions (mk_flow_stat priority cookie fields actions) fid h =
  do_actions actions (None, fid) h.
Proof. done. Qed.

Lemma present_vid v : (0 ≤ v < 4096)%Z →
  Z.land (Z.lor OFPVID_PRESENT v) 4096 = 4096%Z ∧ Z.land (Z.lor OFPVID_PRESENT v) 4095 = v.
Proof.
  intros Hv. assert (Z.land v 4095 = v) as Hlow.
  { change 4095%Z with (Z.ones 12). rewrite Z.land_ones by lia. by apply Z.mod_small. }
  assert (Z.land v 4096 = 0%Z) as Hhigh.
  { rewrite <- Hlow, <- Z.land_assoc. change (Z.land 4095 4096) with 0%Z. apply Z.land_0_r. }
  rewrite !Z.land_lor_distr_l, Hlow, Hhigh.
  change (Z.land OFPVID_PRESENT 4096) with 4096%Z. change (Z.land OFPVID_PRESENT 4095) with 0%Z.
  split; [apply Z.lor_0_r|apply Z.lor_0_l].
Qed.

(** Decides the tests on the type of a concrete field or action. *)
Ltac eval_types :=
  repeat match goal with
  | |- context [bool_decide (f_type ?x = ?y)] =>
      first [change (bool_decide (f_type x = y)) with true
            |change (bool_decide (f_type x = y)) with false]
  | |- context [bool_decide (a_type ?x = ?y)] =>
      first [change (bool_decide (a_type x = y)) with true
            |change (bool_decide (a_type x = y)) with false]
  end; cbv beta iota.

Lemma match_in_port p port f fields :
  fields_match (in_port p :: fields) port f =
  if bool_decide (p = port) then fields_match fields port f else Ok false.
Proof.
  cbn [fields_match]. unfold field_match. eval_types.
  change (f_int "port" (in_port p)) with p. cbn [mbind result_bind]. done.
Qed.
(** [vlan_vid] with the PRESENT bit asks for a tag with that id, 0 for none. *)
Lemma match_present v port f fields :
  (0 ≤ v < 4096)%Z →
  fields_match (vlan_vid (Z.lor OFPVID_PRESENT v) :: fields) port f =
  if has_dot1q f && bool_decide (shim_vlan f = v) then fields_match fields port f else Ok false.
Proof.
  intros [Hh Hl]%present_vid. cbn [fields_match]. unfold field_match. eval_types.
  change (f_int "vlan_vid" (vlan_vid (Z.lor OFPVID_PRESENT v))) with (Z.lor OFPVID_PRESENT v).
  rewrite Hh, Hl. change (bool_decide (4096%Z = 0%Z)) with false. cbn [negb].
  destruct (has_dot1q f); simpl; [|done]. by case_bool_decide.
Qed.
Lemma match_untagged port f fields :
  fields_match (vlan_vid 0 :: fields) port f =
  if has_dot1q f then Ok false else fields_match fields port f.
Proof.
  cbn [fields_match]. unfold field_match. eval_types.
  by destruct (has_dot1q f).
Qed.
Lemma match_pcp v port f fields :
  fields_match (vlan_pcp v :: fields) port f =
  if has_dot1q f && bool_decide (shim_prio f = v) then fields_match fields port f else Ok false.
Proof.
  cbn [fields_match]. unfold field_match. eval_types.
  change (f_int "vlan_pcp" (vlan_pcp v)) with v. unfold get_vlan_pcp.
  destruct (has_dot1q f); simpl; repeat case_bool_decide; try done; congruence.
Qed.

Lemma do_set_vlan v actions port fid h f :
  (0 ≤ v < 4096)%Z → h !! fid = Some f → has_dot1q f = true →
  do_actions (set_field (vlan_vid (Z.lor OFPVID_PRESENT v)) :: actions) (port, fid) h =
  do_actions actions (port, fid) (<[fid := set_shim_vlan v f]> h).
Proof.
  intros [_ Hl]%present_vid Hf Htag. cbn [do_actions]. apply M_bind_eq.
  unfold do_action. eval_types.
  erewrite M_bind_eq by done. cbn [a_set_field a_body set_field oxm_ofb_field oxm_body].
  erewrite M_bind_eq; [done|].
  unfold write_shim. erewrite M_bind_eq by (unfold read_frame; by rewrite Hf).
  rewrite Htag. unfold write_frame.
  change (f_int "vlan_vid" (vlan_vid (Z.lor OFPVID_PRESENT v))) with (Z.lor OFPVID_PRESENT v).
  by rewrite Hl.
Qed.
Lemma do_push e actions port fid h f :
  h !! fid = Some f →
  do_actions (push_vlan e :: actions) (port, fid) h =
  do_actions actions (port, length h) (h ++ [push_shim e f]).
Proof.
  intros Hf. cbn [do_actions]. apply M_bind_eq. unfold do_action. eval_types.
  by erewrite M_bind_eq by (unfold read_frame; by rewrite Hf).
Qed.
Lemma do_pop actions port fid h f :
  h !! fid = Some f → has_dot1q f = true →
  do_actions (pop_vlan :: actions) (port, fid) h =
  do_actions actions (port, length h) (h ++ [pop_shim f]).
Proof.
  intros Hf Htag. cbn [do_actions]. apply M_bind_eq. unfold do_action. eval_types.
  erewrite M_bind_eq by (unfold read_frame; by rewrite Hf). by rewrite Htag.
Qed.
Lemma do_output p port fid h : do_actions [output p] (port, fid) h = (Ok (Some p, fid), h).
Proof. done. Qed.

Lemma do_push_set_vlan e v actions port fid h f :
  (0 ≤ v < 4096)%Z → h !! fid = Some f →
  do_actions (push_vlan e :: set_field (vlan_vid (Z.lor OFPVID_PRESENT v)) :: actions) (port, fid) h =
  do_actions actions (port, length h) (h ++ [set_shim_vlan v (push_shim e f)]).
Proof.
  intros Hv Hf. erewrite do_push by done. unfold heap in *.
  erewrite do_set_vlan; [|lia|by apply list_lookup_middle|apply push_has].
  f_equal. etrans; [by apply insert_app_r_alt|]. by rewrite Nat.sub_diag.
Qed.

(** ** The VLAN edge of an ONU *)

(** What the default rules of an ONU do to a frame: [None] drops it; otherwise
    the egress port and the new frame, and whether it is a new object. *)
Definition onu_edge (up down vlan port : Z) (f : frame) : option (Z * frame * bool) :=
  if bool_decide (port = down) then
    if has_dot1q f then
      if bool_decide (shim_vlan f = 0%Z) then Some (up, set_shim_vlan vlan f, false) else None
    else Some (up, set_shim_vlan vlan (push_shim 0x8100 f), true)
  else if bool_decide (port = up) && has_dot1q f && bool_decide (shim_vlan f = vlan)
  then Some (down, set_shim_vlan 0 f, false) else None.
(** The same on the heap. *)
Definition edge_result (fid : nat) (h : list frame) (r : option (Z * frame * bool))
    : result (option (option Z * nat)) * list frame :=
  match r with
  | None => (Ok None, h)
  | Some (p, f, true) => (Ok (Some (Some p, length h)), h ++ [f])
  | Some (p, f, false) => (Ok (Some (Some p, fid)), <[fid := f]> h)
  end.

(** The three default rules, with the ports and the VLAN of the device. *)
Definition onu_rules (up down vlan : Z) : list flow_stats :=
  let vid := Z.lor OFPVID_PRESENT vlan in
  [mk_flow_stat 500 0 [in_port down; vlan_vid (Z.lor OFPVID_PRESENT 0)]
     [set_field (vlan_vid vid); output up];
   mk_flow_stat 500 0 [in_port down; vlan_vid 0]
     [push_vlan 0x8100; set_field (vlan_vid vid); output up];
   mk_flow_stat 500 0 [in_port up; vlan_vid vid]
     [set_field (vlan_vid (Z.lor OFPVID_PRESENT 0)); output down]].
Lemma leaf_rules device ports rules groups up down :
  leaf_device_default_rules device ports = Ok (rules, groups) →
  the_port PON_ONU ports = Ok up → the_port ETHERNET_UNI ports = Ok down →
  NoDup (fs_id <$> onu_rules (p_no up) (p_no down) (d_vlan device)) →
  od_values rules = onu_rules (p_no up) (p_no down) (d_vlan device).
Proof.
  intros Hr Hup Hdown Hnd. unfold leaf_device_default_rules in Hr. rewrite Hup, Hdown in Hr.
  cbn [mbind result_bind] in Hr. injection Hr as <- _. unfold rule_dict. rewrite od_of_list_id by exact Hnd. done.
Qed.
Lemma install_onu_rules up down vlan : install_flows (onu_rules up down vlan) = onu_rules up down vlan.
Proof. done. Qed.

Lemma process_frame_cons flow flows port fid h f b :
  h !! fid = Some f → is_match flow port f = Ok b →
  process_frame (flow :: flows) port fid h =
  if b : bool then (r ← process_actions flow fid; mret (Some r)) h
  else process_frame flows port fid h.
Proof.
  intros Hf Hb. destruct b; [by eapply process_frame_hit|].
  eapply (process_frame_skip [flow]); [done|]. by intros g ->%list_elem_of_singleton.
Qed.

Lemma onu_rules_edge up down vlan port fid h f :
  up ≠ down → (0 < vlan < 4096)%Z → h !! fid = Some f →
  process_frame (onu_rules up down vlan) port fid h = edge_result fid h (onu_edge up down vlan port f).
Proof.
  intros Hud Hv Hf. unfold onu_edge, onu_rules. cbv zeta.
  rewrite (process_frame_cons _ _ _ _ _ f
    (bool_decide (port = down) && (has_dot1q f && bool_decide (shim_vlan f = 0%Z)))); [|done|].
  2:{ rewrite is_match_mk, match_in_port, match_present by lia.
      repeat case_bool_decide; subst; try done; by destruct (has_dot1q f). }
  rewrite (process_frame_cons _ _ _ _ _ f (bool_decide (port = down) && negb (has_dot1q f))); [|done|].
  2:{ rewrite is_match_mk, match_in_port, match_untagged.
      repeat case_bool_decide; subst; try done; by destruct (has_dot1q f). }
  rewrite (process_frame_cons _ _ _ _ _ f
    (bool_decide (port = up) && (has_dot1q f && bool_decide (shim_vlan f = vlan)))); [|done|].
  2:{ rewrite is_match_mk, match_in_port, match_present by lia.
      repeat case_bool_decide; subst; try done; by destruct (has_dot1q f). }
  destruct (has_dot1q f) eqn:Htag; repeat case_bool_decide; subst; try done; simpl;
    (erewrite M_bind_eq; [done|]); rewrite process_actions_mk.
  all: by first [erewrite do_set_vlan by (done || lia)|erewrite do_push_set_vlan by (done || lia)].
Qed.

(** The default rules VOLTHA generates for an ONU, installed on a simulated
    device, are exactly a VLAN edge: a frame from the UNI leaves on the PON with
    the VLAN id of the device, a tag being pushed on untagged frames and the id
    being written into the tag of priority-tagged ones, and a frame from the PON
    with that id leaves on the UNI with id 0; every other frame is dropped. *)
Theorem onu_default_rules_edge device ports rules groups up down port fid h f :
  leaf_device_default_rules device ports = Ok (rules, groups) →
  the_port PON_ONU ports = Ok up → the_port ETHERNET_UNI ports = Ok down →
  NoDup (fs_id <$> onu_rules (p_no up) (p_no down) (d_vlan device)) →
  p_no up ≠ p_no down → (0 < d_vlan device < 4096)%Z → h !! fid = Some f →
  process_frame (install_flows (od_values rules)) port fid h =
  edge_result fid h (onu_edge (p_no up) (p_no down) (d_vlan device) port f).
Proof.
  intros Hr Hup Hdown Hnd Hne Hv Hf.
  rewrite (leaf_rules _ _ _ _ _ _ Hr Hup Hdown Hnd), install_onu_rules. by apply onu_rules_edge.
Qed.

(** What an ONU sends upstream comes back through [onu_edge] as it was. *)
Lemma onu_edge_back up down vlan f p g fresh :
  up ≠ down → (0 < vlan < 4096)%Z →
  onu_edge up down vlan down f = Some (p, g, fresh) →
  p = up ∧ ∃ g', onu_edge up down vlan up g = Some (down, g', false) ∧
    if has_dot1q f then g' = f
    else has_dot1q g' = true ∧ shim_vlan g' = 0%Z ∧ pop_shim g' = f.
Proof.
  intros Hud Hv. unfold onu_edge at 1. rewrite bool_decide_eq_true_2 by done.
  destruct (has_dot1q f) eqn:Htag; [case_bool_decide as Hz; [|done]|]; intros [= <- <- <-];
    (split; [done|]); eexists; unfold onu_edge;
    rewrite (bool_decide_eq_false_2 (up = down)), (bool_decide_eq_true_2 (up = up)) by done.
  - rewrite set_vlan_has, Htag, set_vlan_get, bool_decide_eq_true_2 by done. split; [done|].
    rewrite set_vlan_set. rewrite <- Hz. apply set_vlan_same.
  - rewrite set_vlan_has, push_has, set_vlan_get, bool_decide_eq_true_2 by (done || apply push_has).
    split; [done|]. rewrite set_vlan_set.
    split_and!; [by rewrite set_vlan_has, push_has|by rewrite set_vlan_get by apply push_has|apply pop_push].
Qed.

(** A priority-tagged frame that an ONU with its default rules has sent
    upstream and receives back leaves as the frame it was; an untagged one leaves
    with a tag of id 0, and without that tag it is the frame it was. *)
Theorem onu_edge_roundtrip device ports rules groups up down fid h f p fid1 h1 :
  leaf_device_default_rules device ports = Ok (rules, groups) →
  the_port PON_ONU ports = Ok up → the_port ETHERNET_UNI ports = Ok down →
  NoDup (fs_id <$> onu_rules (p_no up) (p_no down) (d_vlan device)) →
  p_no up ≠ p_no down → (0 < d_vlan device < 4096)%Z → h !! fid = Some f →
  process_frame (install_flows (od_values rules)) (p_no down) fid h = (Ok (Some (p, fid1)), h1) →
  p = Some (p_no up) ∧ ∃ h2 g,
    process_frame (install_flows (od_values rules)) (p_no up) fid1 h1 = (Ok (Some (Some (p_no down), fid1)), h2) ∧
    h2 !! fid1 = Some g ∧
    if has_dot1q f then g = f else has_dot1q g = true ∧ shim_vlan g = 0%Z ∧ pop_shim g = f.
Proof.
  intros Hr Hup Hdown Hnd Hne Hv Hf.
  rewrite (leaf_rules _ _ _ _ _ _ Hr Hup Hdown Hnd), install_onu_rules.
  rewrite (onu_rules_edge _ _ _ _ _ _ f) by done.
  destruct (onu_edge _ _ _ _ f) as [[[q g] fresh]|] eqn:He; [|done]. cbn [edge_result]. intros Hrun.
  destruct (onu_edge_back _ _ _ _ _ _ _ Hne Hv He) as (-> & g' & Hback & Hg').
  assert (p = Some (p_no up) ∧ h1 !! fid1 = Some g) as [-> Hf1].
  { destruct fresh; injection Hrun as <- <- <-; (split; [done|]).
    - by apply list_lookup_middle.
    - apply list_lookup_insert_eq. by eapply lookup_lt_Some. }
  split; [done|]. rewrite (onu_rules_edge _ _ _ _ _ _ g), Hback by done. cbn [edge_result].
  eexists _, g'. split_and!; [done| |done]. apply list_lookup_insert_eq. by eapply lookup_lt_Some.
Qed.

(** ** The wiring of the simulator *)

Definition wired (n : nat) (devices : list (Z * sim_device)) : Prop :=
  (∃ d, od_get 0%Z devices = Some d ∧ od_get 2%Z (sd_links d) = Some [ToEgress 0] ∧
     default [] (od_get 1%Z (sd_links d)) = (λ i, ToDevice (onu_port i) 1) <$> seq 0 n) ∧
  ∀ i, i < n → ∃ d, od_get (onu_port i) devices = Some d ∧
     od_get 1%Z (sd_links d) = Some [ToDevice 0 1] ∧
     od_get 2%Z (sd_links d) = Some [ToEgress (onu_port i)].

Lemma onu_port_ne i : onu_port i ≠ 0%Z.
Proof. unfold onu_port. lia. Qed.
Lemma onu_port_inj i j : onu_port i = onu_port j → i = j.
Proof. unfold onu_port. lia. Qed.

Lemma add_onu_wired n devices : wired n devices → wired (S n) (add_onu devices n).
Proof.
  intros [(olt & Holt & Hnni & Hpon) Honus]. unfold add_onu. rewrite Holt. cbn [default id]. split.
  - eexists. rewrite od_get_set_ne, od_get_set by apply onu_port_ne.
    split; [done|]. cbn [sd_links sd_link].
    rewrite od_get_set_ne, od_get_set by done. cbn [default id].
    split; [done|]. by rewrite Hpon, seq_S, fmap_app.
  - intros i Hi. destruct (decide (i = n)) as [->|Hne].
    + eexists. rewrite od_get_set. done.
    + destruct (Honus i) as (d & Hd & ?); [lia|]. exists d.
      rewrite !od_get_set_ne; [done|by apply not_eq_sym, onu_port_ne|].
      intros ?%onu_port_inj. done.
Qed.
Lemma mk_ponsim_wired n : wired n (sim_devices (mk_ponsim n)).
Proof.
  unfold mk_ponsim. cbn [sim_devices]. induction n as [|n IH].
  - split; [by eexists|]. intros; lia.
  - rewrite seq_S, foldl_app. by apply add_onu_wired.
Qed.

(** ** Installing the rules of a PON *)

(** The rules of the OLT: its default rule, and for each ONU the rule of the flow
    that tags its upstream traffic with the service VLAN [svid]. *)
Definition olt_down_rule : flow_stats :=
  mk_flow_stat 2000 0 [in_port 2; vlan_vid (Z.lor OFPVID_PRESENT 4000); vlan_pcp 0]
    [pop_vlan; output 1].
Definition olt_up_rule (svid vlan : Z) : flow_stats :=
  mk_flow_stat 500 0 [in_port 1; vlan_vid (Z.lor OFPVID_PRESENT vlan)]
    [push_vlan 0x8100; set_field (vlan_vid (Z.lor OFPVID_PRESENT svid)); output 2].
Definition olt_rules (svid : Z) (vlans : list Z) : list flow_stats :=
  olt_down_rule :: (olt_up_rule svid <$> vlans).

Fixpoint install_onus (i : nat) (vlans : list Z) : M sim unit :=
  match vlans with
  | [] => mret tt
  | v :: vlans => _ ← install (onu_port i) (onu_rules 1 2 v); install_onus (S i) vlans
  end.
Definition install_pon (svid : Z) (vlans : list Z) : M sim unit :=
  _ ← install 0 (olt_rules svid vlans);
  install_onus 0 vlans.

(** The state of the devices of a provisioned PON. *)
Record provisioned (svid : Z) (vlans : list Z) (devices : list (Z * sim_device)) : Prop := {
  prov_olt : ∃ d, od_get 0%Z devices = Some d ∧ od_get 2%Z (sd_links d) = Some [ToEgress 0] ∧
    default [] (od_get 1%Z (sd_links d)) = (λ i, ToDevice (onu_port i) 1) <$> seq 0 (length vlans) ∧
    sd_flows d = install_flows (olt_rules svid vlans);
  prov_onu i v : vlans !! i = Some v → ∃ d, od_get (onu_port i) devices = Some d ∧
    od_get 1%Z (sd_links d) = Some [ToDevice 0 1] ∧
    od_get 2%Z (sd_links d) = Some [ToEgress (onu_port i)] ∧ sd_flows d = onu_rules 1 2 v;
}.

Lemma install_run device flows s d :
  od_get device (sim_devices s) = Some d →
  install device flows s =
  (Ok tt, mk_sim (od_set device (mk_sim_device (sd_links d) (install_flows flows)) (sim_devices s))
            (sim_heap s) (sim_egressed s)).
Proof.
  intros Hd. unfold install. erewrite M_bind_eq by done.
  by erewrite M_bind_eq by (unfold lift; by rewrite Hd).
Qed.
Lemma install_wired n device flows s :
  wired n (sim_devices s) → is_Some (od_get device (sim_devices s)) →
  wired n (sim_devices (install device flows s).2).
Proof.
  intros [(olt & Holt & Hlinks) Honus] [d Hd]. erewrite install_run by done. cbn [snd sim_devices].
  split; [|intros i Hi; destruct (Honus i Hi) as (d' & Hd' & Hl)].
  - destruct (decide (device = 0%Z)) as [->|Hne].
    + eexists. rewrite od_get_set. by simplify_eq.
    + exists olt. by rewrite od_get_set_ne.
  - destruct (decide (device = onu_port i)) as [->|Hne].
    + eexists. rewrite od_get_set. by simplify_eq.
    + exists d'. by rewrite od_get_set_ne.
Qed.

Lemma install_onus_run n vlans i s :
  wired n (sim_devices s) → i + length vlans ≤ n →
  ∃ s', install_onus i vlans s = (Ok tt, s') ∧ wired n (sim_devices s') ∧
    sim_heap s' = sim_heap s ∧ sim_egressed s' = sim_egressed s ∧
    (∀ dev, (∀ j, i ≤ j < i + length vlans → dev ≠ onu_port j) →
       od_get dev (sim_devices s') = od_get dev (sim_devices s)) ∧
    ∀ k v, vlans !! k = Some v →
      ∃ d, od_get (onu_port (i + k)) (sim_devices s') = Some d ∧ sd_flows d = onu_rules 1 2 v.
Proof.
  revert i s. induction vlans as [|v vlans IH]; intros i s Hw Hlen; cbn [install_onus length] in *.
  { exists s. split_and!; [done..|]. intros k w Hk. by rewrite lookup_nil in Hk. }
  destruct (proj2 Hw i) as (d & Hd & _); [lia|].
  pose proof (install_wired n (onu_port i) (onu_rules 1 2 v) s Hw (mk_is_Some _ _ Hd)) as Hw1.
  erewrite install_run in Hw1 by done. cbn [snd] in Hw1.
  erewrite M_bind_eq by (by apply install_run).
  destruct (IH (S i) _ Hw1) as (s' & Hs' & Hw' & Hh & He & Hother & Hk); [lia|].
  exists s'. rewrite Hs'. split_and!; [done..| |].
  - intros dev Hdev. rewrite Hother by (intros; apply Hdev; lia).
    cbn [sim_devices]. apply od_get_set_ne. apply not_eq_sym, Hdev. lia.
  - intros [|k] w Hkw; cbn in Hkw.
    + simplify_eq. rewrite Nat.add_0_r, Hother.
      * cbn [sim_devices]. rewrite od_get_set. by eexists.
      * intros j Hj ?%onu_port_inj. lia.
    + rewrite Nat.add_succ_r. by apply (Hk k w).
Qed.

Lemma install_pon_run svid vlans :
  ∃ s, install_pon svid vlans (mk_ponsim (length vlans)) = (Ok tt, s) ∧
    provisioned svid vlans (sim_devices s) ∧ sim_heap s = [] ∧ sim_egressed s = [].
Proof.
  pose proof (mk_ponsim_wired (length vlans)) as Hw. destruct (proj1 Hw) as (d & Hd & Hnni & Hpon).
  unfold install_pon. erewrite M_bind_eq by (by apply install_run).
  pose proof (install_wired _ 0%Z (olt_rules svid vlans) _ Hw (mk_is_Some _ _ Hd)) as Hw1.
  erewrite install_run in Hw1 by done. cbn [snd] in Hw1.
  destruct (install_onus_run (length vlans) vlans 0 _ Hw1) as (s & Hs & Hw' & Hh & He & Hother & Hk); [lia|].
  exists s. split_and!; [done| |by rewrite Hh|by rewrite He]. split.
  - eexists. rewrite Hother by (intros; apply not_eq_sym, onu_port_ne). cbn [sim_devices].
    rewrite od_get_set. split_and!; done.
  - intros i v Hi. destruct (Hk i v Hi) as (d' & Hd' & Hfl). cbn [plus] in Hd'.
    destruct (proj2 Hw' i) as (d2 & Hd2 & H1' & H2'); [by eapply lookup_lt_Some|].
    simplify_eq. by exists d'.
Qed.

(** ** Frames through a provisioned PON *)

Definition with_heap (h : list frame) (s : sim) : sim := mk_sim (sim_devices s) h (sim_egressed s).
Definition with_egress (p : Z) (f : frame) (s : sim) : sim :=
  mk_sim (sim_devices s) (sim_heap s) (sim_egressed s ++ [(p, f)]).

(** One device: its flows decide, its links forward. *)
Lemma ingress_run fuel device port fid s d r h :
  od_get device (sim_devices s) = Some d →
  process_frame (sd_flows d) port fid (sim_heap s) = (Ok r, h) →
  ingress (S fuel) device port fid s =
  match r with
  | None => (Ok tt, with_heap h s)
  | Some (e, fid') =>
      forward (λ dev p, ingress fuel dev p fid') fid'
        (match e with Some e => default [] (od_get e (sd_links d)) | None => [] end) (with_heap h s)
  end.
Proof.
  intros Hd Hp. cbn [ingress]. erewrite M_bind_eq by done.
  erewrite M_bind_eq by (unfold lift; by rewrite Hd).
  erewrite M_bind_eq by (unfold on_heap; by rewrite Hp). by destruct r as [[]|].
Qed.
Lemma forward_egress go fid p links s f :
  sim_heap s !! fid = Some f →
  forward go fid (ToEgress p :: links) s = forward go fid links (with_egress p f s).
Proof.
  intros Hf. cbn [forward].
  erewrite M_bind_eq by (unfold on_heap, read_frame; by rewrite Hf). by destruct s.
Qed.
Lemma forward_device go fid dev p links s s' :
  go dev p s = (Ok tt, s') → forward go fid (ToDevice dev p :: links) s = forward go fid links s'.
Proof. intros Hgo. cbn [forward]. by erewrite M_bind_eq. Qed.

(** An ONU, from its UNI and from the PON. *)
Lemma onu_from_uni fuel svid vlans i v fid s f :
  provisioned svid vlans (sim_devices s) → vlans !! i = Some v → (0 < v < 4096)%Z →
  sim_heap s !! fid = Some f → has_dot1q f = false →
  ingress (S fuel) (onu_port i) 2 fid s =
  ingress fuel 0 1 (length (sim_heap s))
    (with_heap (sim_heap s ++ [set_shim_vlan v (push_shim 0x8100 f)]) s).
Proof.
  intros Hprov Hi Hv Hf Htag. destruct (prov_onu _ _ _ Hprov i v Hi) as (d & Hd & Hl1 & _ & Hfl).
  erewrite ingress_run; [|done|].
  2:{ rewrite Hfl, (onu_rules_edge 1 2 v 2 fid _ f) by (done || lia).
      unfold onu_edge. rewrite bool_decide_eq_true_2, Htag by done. done. }
  cbv beta iota. rewrite Hl1. cbn [default id forward]. unfold mbind, M_bind.
  by destruct (ingress fuel 0 1 _ _) as [[[]|] ?].
Qed.
Lemma onu_from_pon fuel svid vlans i v fid s f :
  provisioned svid vlans (sim_devices s) → vlans !! i = Some v → (0 < v < 4096)%Z →
  sim_heap s !! fid = Some f → has_dot1q f = true →
  ingress (S fuel) (onu_port i) 1 fid s =
  (Ok tt, if bool_decide (shim_vlan f = v)
          then with_egress (onu_port i) (set_shim_vlan 0 f)
                 (with_heap (<[fid := set_shim_vlan 0 f]> (sim_heap s)) s)
          else s).
Proof.
  intros Hprov Hi Hv Hf Htag. destruct (prov_onu _ _ _ Hprov i v Hi) as (d & Hd & _ & Hl2 & Hfl).
  pose proof (onu_rules_edge 1 2 v 1 fid (sim_heap s) f ltac:(done) Hv Hf) as Hp.
  unfold onu_edge in Hp. rewrite bool_decide_eq_false_2, bool_decide_eq_true_2, Htag in Hp by done.
  rewrite <- Hfl in Hp. cbn [andb] in Hp. case_bool_decide; cbn [edge_result] in Hp.
  - erewrite ingress_run by done. cbv beta iota. rewrite Hl2. cbn [default id].
    rewrite (forward_egress _ _ _ _ _ (set_shim_vlan 0 f)); [done|].
    apply list_lookup_insert_eq. by eapply lookup_lt_Some.
  - erewrite ingress_run by done. by destruct s.
Qed.

(** The ONUs whose VLAN the frame does not carry leave it and everything alone. *)
Lemma pon_skips fuel svid vlans fid s f l links :
  provisioned svid vlans (sim_devices s) → Forall (λ v, (0 < v < 4096)%Z) vlans →
  sim_heap s !! fid = Some f → has_dot1q f = true →
  (∀ j, j ∈ l → ∃ v, vlans !! j = Some v ∧ v ≠ shim_vlan f) →
  forward (λ dev p, ingress (S fuel) dev p fid) fid
    (((λ j, ToDevice (onu_port j) 1) <$> l) ++ links) s =
  forward (λ dev p, ingress (S fuel) dev p fid) fid links s.
Proof.
  intros Hprov Hvs Hf Htag. induction l as [|j l IH]; intros Hl; [done|]. cbn [fmap list_fmap app].
  destruct (Hl j) as (v & Hj & Hne); [by left|].
  erewrite forward_device; [apply IH; intros; apply Hl; by right|]. cbv beta.
  erewrite onu_from_pon; [|done|done|exact (Forall_lookup_1 _ _ _ _ Hvs Hj)|done|done].
  by rewrite bool_decide_eq_false_2 by congruence.
Qed.

(** The OLT, from the PON and from the NNI. *)
Lemma olt_up_match svid vlan port f :
  (0 ≤ vlan < 4096)%Z →
  is_match (olt_up_rule svid vlan) port f =
  Ok (bool_decide (port = 1%Z) && (has_dot1q f && bool_decide (shim_vlan f = vlan))).
Proof.
  intros Hv. unfold olt_up_rule. rewrite is_match_mk, match_in_port, match_present by done.
  repeat case_bool_decide; subst; try done; by destruct (has_dot1q f).
Qed.
Lemma olt_down_match port f :
  is_match olt_down_rule port f =
  Ok (bool_decide (port = 2%Z) &&
      (has_dot1q f && bool_decide (shim_vlan f = 4000%Z) && bool_decide (shim_prio f = 0%Z))).
Proof.
  unfold olt_down_rule. rewrite is_match_mk, match_in_port, match_present, match_pcp by lia.
  repeat case_bool_decide; subst; try done; by destruct (has_dot1q f).
Qed.
(** When the only flow that matches is [flow], it handles the frame. *)
Lemma process_frame_unique flows flow port fid h f :
  h !! fid = Some f → flow ∈ flows → is_match flow port f = Ok true →
  (∀ g, g ∈ flows → g = flow ∨ is_match g port f = Ok false) →
  process_frame (install_flows flows) port fid h = (r ← process_actions flow fid; mret (Some r)) h.
Proof.
  intros Hf Hin Hm Hall. pose proof (install_flows_perm flows) as Hp.
  destruct (first_match (install_flows flows) port f) as [Hno|(l1 & g & l2 & Heq & Hg & Hl1)].
  - intros g Hg. rewrite Hp in Hg. destruct (Hall g Hg) as [->|Hg']; eauto.
  - rewrite Hno in Hm by (by rewrite Hp). done.
  - assert (g = flow) as ->.
    { destruct (Hall g) as [?|Hg']; [|done|congruence].
      rewrite <- Hp, Heq, elem_of_app. right. left. }
    rewrite Heq. erewrite process_frame_skip by done. by apply (process_frame_hit _ _ _ _ _ f).
Qed.

Lemma olt_from_pon fuel svid vlans v fid s f :
  provisioned svid vlans (sim_devices s) → Forall (λ v, (0 < v < 4096)%Z) vlans →
  v ∈ vlans → (0 ≤ svid < 4096)%Z → sim_heap s !! fid = Some f → has_dot1q f = true → shim_vlan f = v →
  let g := set_shim_vlan svid (push_shim 0x8100 f) in
  ingress (S fuel) 0 1 fid s = (Ok tt, with_egress 0 g (with_heap (sim_heap s ++ [g]) s)).
Proof.
  intros Hprov Hvs Hv Hs Hf Htag Hvlan g. destruct (prov_olt _ _ _ Hprov) as (d & Hd & Hnni & _ & Hfl).
  pose proof (proj1 (Forall_forall _ _) Hvs) as Hrange.
  erewrite ingress_run; [|done|].
  2:{ rewrite Hfl, (process_frame_unique _ (olt_up_rule svid v) _ _ _ f); [|done| | |].
      - erewrite M_bind_eq; [done|]. unfold olt_up_rule. rewrite process_actions_mk.
        erewrite do_push_set_vlan by done. apply do_output.
      - right. apply list_elem_of_fmap. by exists v.
      - rewrite olt_up_match, Htag, !bool_decide_eq_true_2 by (done || (specialize (Hrange v Hv); simpl in *; lia)).
        done.
      - intros r [->|(w & -> & Hw)%list_elem_of_fmap]%elem_of_cons; [right; by rewrite olt_down_match|].
        destruct (decide (w = v)) as [->|Hne]; [by left|right].
        specialize (Hrange w Hw). simpl in Hrange.
        by rewrite olt_up_match, (bool_decide_eq_false_2 (shim_vlan f = w)), andb_false_r, andb_false_r by (lia || congruence). }
  cbv beta iota. rewrite Hnni. cbn [default id].
  rewrite (forward_egress _ _ _ _ _ g); [done|]. cbn [with_heap sim_heap]. by apply list_lookup_middle.
Qed.

Lemma olt_from_nni fuel svid vlans fid s f :
  provisioned svid vlans (sim_devices s) → Forall (λ v, (0 < v < 4096)%Z) vlans →
  sim_heap s !! fid = Some f → has_dot1q f = true → shim_vlan f = 4000%Z → shim_prio f = 0%Z →
  ingress (S fuel) 0 2 fid s =
  forward (λ dev p, ingress fuel dev p (length (sim_heap s))) (length (sim_heap s))
    ((λ i, ToDevice (onu_port i) 1) <$> seq 0 (length vlans))
    (with_heap (sim_heap s ++ [pop_shim f]) s).
Proof.
  intros Hprov Hvs Hf Htag Hvlan Hprio. destruct (prov_olt _ _ _ Hprov) as (d & Hd & _ & Hpon & Hfl).
  pose proof (proj1 (Forall_forall _ _) Hvs) as Hrange.
  erewrite ingress_run; [|done|].
  2:{ rewrite Hfl, (process_frame_unique _ olt_down_rule _ _ _ f); [|done| | |].
      - erewrite M_bind_eq; [done|]. unfold olt_down_rule. rewrite process_actions_mk.
        erewrite do_pop by done. apply do_output.
      - left.
      - by rewrite olt_down_match, Htag, !bool_decide_eq_true_2.
      - intros r [->|(w & -> & Hw)%list_elem_of_fmap]%elem_of_cons; [by left|right].
        specialize (Hrange w Hw). simpl in Hrange. by rewrite olt_up_match by lia. }
  cbv beta iota. by rewrite Hpon.
Qed.

(** C6: upstream through a provisioned PON: after PonSim is created for as many
    ONUs as there are VLAN ids and the rules are installed on the OLT and the
    ONUs, an untagged frame that enters at the UNI of an ONU leaves the OLT
    exactly once, at the NNI, with the VLAN id of that ONU in the inner tag and
    the service VLAN in the outer one. *)
Theorem ponsim_upstream fuel svid vlans i v f :
  Forall (λ v, (0 < v < 4096)%Z) vlans → (0 ≤ svid < 4096)%Z → vlans !! i = Some v →
  has_dot1q f = false → 2 ≤ fuel →
  ∃ s', (_ ← install_pon svid vlans; ponsim_ingress fuel (onu_port i) f) (mk_ponsim (length vlans))
        = (Ok tt, s') ∧
    sim_egressed s' = [(0%Z, set_shim_vlan svid (push_shim 0x8100 (set_shim_vlan v (push_shim 0x8100 f))))].
Proof.
  intros Hvs Hs Hi Htag Hfuel. destruct (install_pon_run svid vlans) as (s & Hrun & Hprov & Hh & He).
  destruct fuel as [|[|fuel]]; [lia|lia|]. pose proof (Forall_lookup_1 _ _ _ _ Hvs Hi) as Hv. simpl in Hv.
  eexists. erewrite M_bind_eq by done. unfold ponsim_ingress. erewrite M_bind_eq by done.
  rewrite (onu_from_uni _ svid vlans i v _ _ f) by (done || by rewrite Hh).
  rewrite (olt_from_pon _ svid vlans v _ _ (set_shim_vlan v (push_shim 0x8100 f))); [split; [done|]| |done| |done| | |].
  - cbn [with_egress with_heap sim_egressed]. by rewrite He.
  - done.
  - by eapply list_elem_of_lookup_2.
  - cbn [with_heap sim_heap]. by apply list_lookup_middle.
  - by rewrite set_vlan_has, push_has.
  - by rewrite set_vlan_get by apply push_has.
Qed.

(** C7: downstream through a provisioned PON: a frame that enters at the NNI with
    the OLT's outer tag (id 4000, priority 0) and the VLAN id of some ONU in its
    inner tag is delivered exactly once, at the UNI of the first ONU with that
    id, without the outer tag and with inner id 0.  The OLT offers the same frame
    object to every ONU, so a later ONU with the same id sees the id already
    rewritten and drops the frame. *)
Theorem ponsim_downstream fuel svid vlans i f :
  Forall (λ v, (0 < v < 4096)%Z) vlans →
  has_dot1q f = true → shim_vlan f = 4000%Z → shim_prio f = 0%Z → has_dot1q (pop_shim f) = true →
  vlans !! i = Some (shim_vlan (pop_shim f)) →
  (∀ j, j < i → vlans !! j ≠ Some (shim_vlan (pop_shim f))) → 2 ≤ fuel →
  ∃ s', (_ ← install_pon svid vlans; ponsim_ingress fuel 0 f) (mk_ponsim (length vlans)) = (Ok tt, s') ∧
    sim_egressed s' = [(onu_port i, set_shim_vlan 0 (pop_shim f))].
Proof.
  intros Hvs Htag Hvlan Hprio Hin Hi Hfirst Hfuel. pose proof (lookup_lt_Some _ _ _ Hi) as Hlt.
  destruct (install_pon_run svid vlans) as (s & Hrun & Hprov & Hh & He).
  destruct fuel as [|[|fuel]]; [lia|lia|]. pose proof (Forall_lookup_1 _ _ _ _ Hvs Hi) as Hv. simpl in Hv.
  eexists. erewrite M_bind_eq by done. unfold ponsim_ingress. erewrite M_bind_eq by done.
  rewrite (olt_from_nni _ svid vlans _ _ f) by (done || by rewrite Hh).
  set (s1 := with_heap _ _). set (fid := length _).
  assert (sim_heap s1 !! fid = Some (pop_shim f)) as Hf1 by by apply list_lookup_middle.
  replace (length vlans) with (i + S (length vlans - S i)) by lia. rewrite seq_app, fmap_app.
  erewrite pon_skips; [|done|done|done|done|].
  2:{ intros j [? Hj]%elem_of_seq. destruct (lookup_lt_is_Some_2 vlans j) as [v Hjv]; [lia|].
      exists v. split; [done|]. intros ->. by apply (Hfirst j). }
  cbn [plus seq fmap list_fmap]. erewrite forward_device.
  2:{ erewrite onu_from_pon by done. by rewrite bool_decide_eq_true_2. }
  set (s2 := with_egress _ _ _). rewrite <- (app_nil_r (_ <$> _)).
  assert (sim_heap s2 !! fid = Some (set_shim_vlan 0 (pop_shim f))) as Hf2.
  { apply list_lookup_insert_eq. by eapply lookup_lt_Some. }
  erewrite pon_skips; [|done|done|done|by rewrite set_vlan_has|].
  2:{ intros j [? Hj]%elem_of_seq. destruct (lookup_lt_is_Some_2 vlans j) as [v Hjv]; [lia|].
      exists v. split; [done|]. rewrite set_vlan_get by done.
      pose proof (Forall_lookup_1 _ _ _ _ Hvs Hjv). simpl in *. lia. }
  split; [done|]. cbn. by rewrite He.
Qed.

(** Matching a UDP destination port never works: is_match reads
    field.udsp_dst, which is not a field of the message, so it raises
    AttributeError for every frame that reaches that match field. *)
Theorem udp_dst_match_raises priority cookie fields v rest actions port f :
  fields_match fields port f = Ok true →
  is_match (mk_flow_stat priority cookie (fields ++ udp_dst v :: rest) actions) port f =
  Raise AttributeError.
Proof.
  rewrite is_match_mk. induction fields as [|x fields IH]; intros Hm; [done|].
  cbn [app fields_match] in *. destruct (field_match x port f) as [[]|]; try done. by apply IH.
Qed.
End dataplane.

(** ** Frames as records

    An instance of the frame interface of the PON simulator (an Ethernet header,
    a stack of VLAN tags, optional IP and UDP fields) and the witnesses of the
    theorems of PonSimSpec. *)

Record shim : Type := mk_shim { sh_type : Z; sh_vlan : Z; sh_prio : Z }.
Record packet : Type := mk_packet {
  pk_type : Z;
  pk_shims : list shim;
  pk_ip : option (Z * string);
  pk_udp : option Z;
}.

Definition on_shim (upd : shim → shim) (p : packet) : packet :=
  match pk_shims p with
  | [] => p
  | t :: ts => mk_packet (pk_type p) (upd t :: ts) (pk_ip p) (pk_udp p)
  end.

#[export] Instance demo_scapy : Scapy := {|
  frame := packet;
  has_dot1q p := match pk_shims p with [] => false | _ => true end;
  ether_type := pk_type;
  shim_type p := match pk_shims p with t :: _ => sh_type t | [] => 0%Z end;
  shim_vlan p := match pk_shims p with t :: _ => sh_vlan t | [] => 0%Z end;
  shim_prio p := match pk_shims p with t :: _ => sh_prio t | [] => 0%Z end;
  ip_proto_of p := fst <$> pk_ip p;
  ip_dst_of p := snd <$> pk_ip p;
  udp_dport_of := pk_udp;
  pop_shim p :=
    match pk_shims p with
    | t :: ts => mk_packet (sh_type t) ts (pk_ip p) (pk_udp p)
    | [] => p
    end;
  push_shim e p := mk_packet e (mk_shim (pk_type p) 1 0 :: pk_shims p) (pk_ip p) (pk_udp p);
  set_shim_vlan v := on_shim (λ t, mk_shim (sh_type t) v (sh_prio t));
  set_shim_prio v := on_shim (λ t, mk_shim (sh_type t) (sh_vlan t) v);
|}.

#[export] Instance demo_scapy_laws : ScapyLaws.
Proof.
  split; cbn; unfold on_shim; [done|..];
    by repeat first [intros ? [ty [|[] ts] ip udp]|intros [ty [|[] ts] ip udp]|intros ?].
Qed.

Definition untagged : frame := mk_packet 0x800 [] (Some (17%Z, "10.0.0.1")) (Some 67%Z).
Definition zero_tagged : frame :=
  mk_packet 0x8100 [mk_shim 0x800 0 0] (Some (17%Z, "10.0.0.1")) (Some 67%Z).
Definition double_tagged : frame :=
  mk_packet 0x8100 [mk_shim 0x8100 4000 0; mk_shim 0x800 102 0] None None.

Definition onu1_rules : list (Z * flow_stats) * list (Z * group_entry) :=
  match leaf_device_default_rules onu1 [onu_pon; onu_uni] with Ok r => r | Raise _ => ([], []) end.

Definition untagged_heap : heap := [untagged].

(** ** Witnesses *)

Lemma process_frame_highest_witness :
  process_frame (install_flows (onu_rules 1 2 101)) 2 0 untagged_heap ≠ (Ok None, untagged_heap) ∧
  ∃ flow, flow ∈ onu_rules 1 2 101 ∧ is_match flow 2 untagged = Ok true.
Proof.
  split; [intros Heq; vm_compute in Heq; discriminate|].
  destruct (process_frame_highest (onu_rules 1 2 101) 2 0 untagged_heap untagged)
    as [[Hno _]|(flow & Hin & Hm & _)].
  - reflexivity.
  - intros g Hg. unfold onu_rules in Hg.
    repeat (apply elem_of_cons in Hg as [->|Hg]; [eexists; vm_compute; reflexivity|]).
    by apply not_elem_of_nil in Hg.
  - exfalso. assert (is_match (mk_flow_stat 500 0 [in_port 2; vlan_vid 0]
      [push_vlan 0x8100; set_field (vlan_vid (Z.lor OFPVID_PRESENT 101)); output 1]) 2 untagged = Ok false)
      as Hf by (apply Hno; right; left). vm_compute in Hf. discriminate.
  - exists flow. auto.
Defined.

Lemma onu_default_rules_edge_witness :
  process_frame (install_flows (od_values onu1_rules.1)) 2 0 untagged_heap =
  (Ok (Some (Some 1%Z, 1)),
   [untagged; mk_packet 0x8100 [mk_shim 0x800 101 0] (Some (17%Z, "10.0.0.1")) (Some 67%Z)]).
Proof.
  refine (onu_default_rules_edge onu1 [onu_pon; onu_uni] onu1_rules.1 onu1_rules.2 onu_pon onu_uni
    2 0 untagged_heap untagged _ _ _ _ _ _ _).
  - vm_compute. reflexivity.
  - reflexivity.
  - reflexivity.
  - apply (bool_decide_unpack _). vm_compute. exact I.
  - cbn. lia.
  - cbn. lia.
  - reflexivity.
Defined.

Definition zero_tagged_heap : heap := [zero_tagged].
Lemma onu_edge_roundtrip_witness : ∃ h2,
  process_frame (install_flows (od_values onu1_rules.1)) 1 0
    (process_frame (install_flows (od_values onu1_rules.1)) 2 0 zero_tagged_heap).2
  = (Ok (Some (Some 2%Z, 0)), h2) ∧ h2 !! 0 = Some zero_tagged.
Proof.
  destruct (onu_edge_roundtrip onu1 [onu_pon; onu_uni] onu1_rules.1 onu1_rules.2 onu_pon onu_uni
    0 zero_tagged_heap zero_tagged (Some 1%Z) 0
    (process_frame (install_flows (od_values onu1_rules.1)) 2 0 zero_tagged_heap).2)
    as (_ & h2 & g & Hrun & Hg & Heq).
  - vm_compute. reflexivity.
  - reflexivity.
  - reflexivity.
  - apply (bool_decide_unpack _). vm_compute. exact I.
  - cbn. lia.
  - cbn. lia.
  - reflexivity.
  - vm_compute. reflexivity.
  - exists h2. split; [exact Hrun|]. rewrite Hg. f_equal. exact Heq.
Defined.

Lemma ponsim_upstream_witness : ∃ s',
  (_ ← install_pon 1000 [101%Z; 102%Z]; ponsim_ingress 2 (onu_port 1) untagged) (mk_ponsim 2) = (Ok tt, s') ∧
  sim_egressed s' = [(0%Z, mk_packet 0x8100 [mk_shim 0x8100 1000 0; mk_shim 0x800 102 0]
                             (Some (17%Z, "10.0.0.1")) (Some 67%Z))].
Proof.
  apply (ponsim_upstream 2 1000 [101%Z; 102%Z] 1 102 untagged).
  - repeat constructor; lia.
  - lia.
  - reflexivity.
  - reflexivity.
  - lia.
Defined.

Lemma ponsim_downstream_witness : ∃ s',
  (_ ← install_pon 1000 [101%Z; 102%Z; 102%Z]; ponsim_ingress 2 0 double_tagged) (mk_ponsim 3) = (Ok tt, s') ∧
  sim_egressed s' = [(129%Z, mk_packet 0x8100 [mk_shim 0x800 0 0] None None)].
Proof.
  apply (ponsim_downstream 2 1000 [101%Z; 102%Z; 102%Z] 1 double_tagged).
  - repeat constructor; lia.
  - reflexivity.
  - reflexivity.
  - reflexivity.
  - reflexivity.
  - reflexivity.
  - intros [|j] Hj; [done|lia].
  - lia.
Defined.

Lemma udp_dst_match_raises_witness :
  is_match (mk_flow_stat 10 0 [in_port 2; ip_proto 17; udp_dst 67] [output 1]) 2 untagged =
  Raise AttributeError.
Proof.
  apply (udp_dst_match_raises 10 0 [in_port 2; ip_proto 17] 67 [] [output 1] 2 untagged).
  vm_compute. reflexivity.
Defined.

(** The rules that the agent of the demo topology pushes carry an untagged frame
    of the first UNI to the NNI with both tags. *)
Definition pushed (dev : string) : list flow_stats :=
  od_values (default ([], []) (od_get dev demo_rules)).1.
Example demo_end_to_end :
  let run := (_ ← install 0 (pushed "olt"); _ ← install 128 (pushed "onu1");
              _ ← install 129 (pushed "onu2"); ponsim_ingress 2 128 untagged) in
  sim_egressed (run (mk_ponsim 2)).2 =
  [(0%Z, mk_packet 0x8100 [mk_shim 0x8100 1000 0; mk_shim 0x800 101 0]
           (Some (17%Z, "10.0.0.1")) (Some 67%Z))].
Proof. vm_compute. reflexivity. Qed.
