(* ===== verification/DeviceAgent.v ===== *)
(** * The device agent (voltha/core/device_agent.py)

    The agent of a device registers callbacks on the device's configuration
    node, runs the admin-state machine on each update and hands the device and
    its flow tables to the adapter.  Device messages are objects that the
    configuration, the agent and the adapter share, so the model keeps them in a
    heap and stores references: the latest revision of the device node holds a
    reference, next to the content its hash was computed from, and so does the
    revision of the device that the parent node knows: the two differ after an
    update that the parent refused because it changes the key.  A method
    decorated with [inlineCallbacks] returns a Deferred that carries its outcome
    ([inline]); an exception in it never reaches a caller that does not look
    inside. *)

From stdpp Require Import prelude strings list.
From S2P Require Import Prelude OFP.

Module DeviceAgent.

(** ** Data *)

Inductive AdminState : Type := UNKNOWN | PREPROVISIONED | DISABLED | ENABLED.
Inductive OperStatus : Type := OPER_UNKNOWN | DISCOVERED | ACTIVATING | TESTING | ACTIVE | FAILED.
#[export] Instance AdminState_eq_dec : EqDecision AdminState.
Proof. solve_decision. Defined.
#[export] Instance OperStatus_eq_dec : EqDecision OperStatus.
Proof. solve_decision. Defined.

(** The fields of a Device message the agent looks at, the other read-only ones
    and the other ones; [dv_children] when ports, flows or groups are set, which
    are child nodes of the configuration. *)
Record Device : Type := mk_Device {
  dv_id : string;
  dv_type : string;
  dv_adapter : string;
  dv_admin_state : AdminState;
  dv_oper_status : OperStatus;
  dv_read_only : Z;
  dv_other : Z;
  dv_children : bool;
}.
#[export] Instance Device_eq_dec : EqDecision Device.
Proof. solve_decision. Defined.
Record DeviceType : Type := mk_DeviceType {
  dt_id : string;
  dt_adapter : string;
  dt_accepts_bulk_flow_update : bool;
  dt_accepts_add_remove_flow_updates : bool;
}.

Definition set_oper_status (o : OperStatus) (d : Device) : Device :=
  mk_Device (dv_id d) (dv_type d) (dv_adapter d) (dv_admin_state d) o (dv_read_only d)
    (dv_other d) (dv_children d).
Definition clear_children (d : Device) : Device :=
  mk_Device (dv_id d) (dv_type d) (dv_adapter d) (dv_admin_state d) (dv_oper_status d)
    (dv_read_only d) (dv_other d) false.

(** [check_access_violation] on the fields that device.proto marks READ_ONLY *)
Definition read_only_fields (d : Device) : string * string * string * OperStatus * Z :=
  (dv_id d, dv_type d, dv_adapter d, dv_oper_status d, dv_read_only d).
Definition check_access_violation (new_msg old_msg : Device) : result unit :=
  if bool_decide (read_only_fields new_msg = read_only_fields old_msg) then Ok tt
  else Raise ValueError.

(** The callbacks the agent registers, and where. *)
Inductive callback : Type :=
  | ValidateUpdate | ProcessUpdate | FlowTableUpdated | GroupTableUpdated.
#[export] Instance callback_eq_dec : EqDecision callback.
Proof. solve_decision. Defined.

Record da_state : Type := mk_da {
  da_objs : list Device;                 (** message objects, by reference *)
  da_latest : nat;                       (** data object of the node's latest revision *)
  da_hashed : Device;                    (** what the hash of that revision was computed from *)
  da_flows : list flow_stats;            (** /devices/<id>/flows *)
  da_groups : list group_entry;          (** /devices/<id>/flow_groups *)
  da_pre_update : list callback;         (** PRE_UPDATE callbacks of the device's proxy *)
  da_post_update : list callback;        (** POST_UPDATE callbacks of the device's proxy *)
  da_flows_cbs : list callback;          (** POST_UPDATE callbacks of the flows proxy *)
  da_groups_cbs : list callback;         (** POST_UPDATE callbacks of the groups proxy *)
  da_last_data : option nat;             (** self.last_data *)
  da_device_type : DeviceType;           (** self.device_type *)
  da_adapter_name : option string;       (** the name behind self.adapter_agent *)
  da_adopted : list Device;              (** calls of the adapter's adopt_device *)
  da_bulk : list (Device * list flow_stats * list group_entry);  (** ... of update_flows_bulk *)
  da_key : string;                       (** the id in the path of the device's proxy *)
  da_parent : nat * Device * list flow_stats * list group_entry;
      (** the revision of the device in its parent: data object, hashed content, children *)
}.

Definition set_objs (l : list Device) (s : da_state) : da_state :=
  mk_da l (da_latest s) (da_hashed s) (da_flows s) (da_groups s) (da_pre_update s)
    (da_post_update s) (da_flows_cbs s) (da_groups_cbs s) (da_last_data s) (da_device_type s)
    (da_adapter_name s) (da_adopted s) (da_bulk s) (da_key s) (da_parent s).
Definition set_latest (ref : nat) (hashed : Device) (s : da_state) : da_state :=
  mk_da (da_objs s) ref hashed (da_flows s) (da_groups s) (da_pre_update s)
    (da_post_update s) (da_flows_cbs s) (da_groups_cbs s) (da_last_data s) (da_device_type s)
    (da_adapter_name s) (da_adopted s) (da_bulk s) (da_key s) (da_parent s).
Definition set_tables (fl : list flow_stats) (gr : list group_entry) (s : da_state) : da_state :=
  mk_da (da_objs s) (da_latest s) (da_hashed s) fl gr (da_pre_update s)
    (da_post_update s) (da_flows_cbs s) (da_groups_cbs s) (da_last_data s) (da_device_type s)
    (da_adapter_name s) (da_adopted s) (da_bulk s) (da_key s) (da_parent s).
Definition set_callbacks (pre post fl gr : list callback) (s : da_state) : da_state :=
  mk_da (da_objs s) (da_latest s) (da_hashed s) (da_flows s) (da_groups s) pre post fl gr
    (da_last_data s) (da_device_type s) (da_adapter_name s) (da_adopted s) (da_bulk s) (da_key s) (da_parent s).
Definition set_last_data (r : option nat) (s : da_state) : da_state :=
  mk_da (da_objs s) (da_latest s) (da_hashed s) (da_flows s) (da_groups s) (da_pre_update s)
    (da_post_update s) (da_flows_cbs s) (da_groups_cbs s) r (da_device_type s)
    (da_adapter_name s) (da_adopted s) (da_bulk s) (da_key s) (da_parent s).
Definition set_agent (ty : DeviceType) (a : option string) (s : da_state) : da_state :=
  mk_da (da_objs s) (da_latest s) (da_hashed s) (da_flows s) (da_groups s) (da_pre_update s)
    (da_post_update s) (da_flows_cbs s) (da_groups_cbs s) (da_last_data s) ty a
    (da_adopted s) (da_bulk s) (da_key s) (da_parent s).
Definition log_calls (adopted : list Device)
    (bulk : list (Device * list flow_stats * list group_entry)) (s : da_state) : da_state :=
  mk_da (da_objs s) (da_latest s) (da_hashed s) (da_flows s) (da_groups s) (da_pre_update s)
    (da_post_update s) (da_flows_cbs s) (da_groups_cbs s) (da_last_data s) (da_device_type s)
    (da_adapter_name s) (da_adopted s ++ adopted) (da_bulk s ++ bulk) (da_key s) (da_parent s).
Definition set_parent (p : nat * Device * list flow_stats * list group_entry) (s : da_state) : da_state :=
  mk_da (da_objs s) (da_latest s) (da_hashed s) (da_flows s) (da_groups s) (da_pre_update s)
    (da_post_update s) (da_flows_cbs s) (da_groups_cbs s) (da_last_data s) (da_device_type s)
    (da_adapter_name s) (da_adopted s) (da_bulk s) (da_key s) p.

Definition obj (r : nat) : M da_state Device := λ s, (of_option KeyError (da_objs s !! r), s).

(** [@inlineCallbacks]: the call itself succeeds with a Deferred of the outcome;
    [yield] on a Deferred re-raises its failure. *)
Definition inline {A} (m : M da_state A) : M da_state (result A) := λ s,
  let '(r, s') := m s in (Ok r, s').
Definition yield_ {A} (d : result A) : M da_state A := lift d.

(** ** The admin-state machine *)

Inductive handler : Type := Activate | Propagate | Disable | Reenable | Abandon.

(** [admin_state_fsm]: [None] is [False]; a missing entry is a no-op. *)
Definition admin_state_fsm : list ((AdminState * AdminState) * option handler) :=
  [((UNKNOWN, ENABLED), Some Activate);
   ((PREPROVISIONED, UNKNOWN), None);
   ((PREPROVISIONED, ENABLED), Some Activate);
   ((ENABLED, UNKNOWN), None);
   ((ENABLED, ENABLED), Some Propagate);
   ((ENABLED, DISABLED), Some Disable);
   ((ENABLED, PREPROVISIONED), Some Abandon);
   ((DISABLED, UNKNOWN), None);
   ((DISABLED, PREPROVISIONED), Some Abandon);
   ((DISABLED, ENABLED), Some Reenable)].

(** The adapter's [adopt_device]: what the call raises, if anything. *)
Class Adapter : Type := { adopt_device : Device → result unit }.

Section agent.
Context `{!Adapter}.

(** [upd] is [self.proxy.update('/', device)] of the configuration. *)
Section handlers.
Context (upd : nat → M da_state unit).

Definition update_device (device : nat) : M da_state unit :=
  _ ← modify (set_last_data (Some device));
  upd device.

Definition activate_device (device : nat) (dry_run : bool) : M da_state unit :=
  if dry_run then mret tt
  else
    d ← obj device;
    _ ← modify (λ s, set_objs (<[device := set_oper_status ACTIVATING d]> (da_objs s)) s);
    _ ← update_device device;
    d' ← obj device;
    s ← get_state;
    _ ← lift (of_option AttributeError (da_adapter_name s));
    _ ← modify (log_calls [d'] []);
    lift (adopt_device d').

Definition propagate_change (device : nat) (dry_run : bool) : M da_state unit :=
  d ← obj device;
  s ← get_state;
  last ← (match da_last_data s with Some r => x ← obj r; mret (Some x) | None => mret None end);
  if bool_decide (Some d = last) then mret tt else raise NotImplementedError.

Definition run_handler (h : handler) (device : nat) (dry_run : bool) : M da_state unit :=
  match h with
  | Activate => d ← inline (activate_device device dry_run); yield_ d
  | Propagate => propagate_change device dry_run
  | Disable | Reenable | Abandon => raise NotImplementedError
  end.

(** [getattr(self.last_data, 'admin_state', AdminState.UNKNOWN)] *)
Definition old_admin_state (s : da_state) : AdminState :=
  match da_last_data s ≫= (λ r, da_objs s !! r) with
  | Some d => dv_admin_state d
  | None => UNKNOWN
  end.

Definition process_state_transitions (device : nat) (dry_run : bool) : M da_state unit :=
  s ← get_state;
  d ← obj device;
  match od_get (old_admin_state s, dv_admin_state d) admin_state_fsm with
  | None => mret tt
  | Some None => raise InvalidStateTransition
  | Some (Some h) => run_handler h device dry_run
  end.

Definition validate_update (device : nat) : M da_state nat :=
  d ← inline (process_state_transitions device true);
  _ ← yield_ d;
  mret device.

Definition process_update (device : nat) : M da_state unit :=
  d ← inline (process_state_transitions device false);
  _ ← yield_ d;
  modify (set_last_data (Some device)).

End handlers.

(** The step of the parent node after the child's one: nothing when the hash is
    that of the revision it has; the new revision must have the key of the path;
    then it becomes the parent's. *)
Definition revision (s : da_state) : nat * Device * list flow_stats * list group_entry :=
  (da_latest s, da_hashed s, da_flows s, da_groups s).
Definition content_of (p : nat * Device * list flow_stats * list group_entry) :
    Device * list flow_stats * list group_entry := (p.1.1.2, p.1.2, p.2).
Definition parent_step : M da_state (result unit) :=
  s ← get_state;
  new ← obj (da_latest s);
  if bool_decide (content_of (revision s) = content_of (da_parent s)) then mret (Ok tt)
  else if bool_decide (dv_id new ≠ da_key s) then mret (Raise ValueError)
  else _ ← modify (set_parent (revision s)); mret (Ok tt).

(** A new revision: its data is the object cached under the same hash when there
    is one.  The cache holds weak references, so only the revisions of the node
    and of its parent are in it. *)
Definition new_revision (device : nat) (d : Device) (s : da_state) : da_state :=
  if bool_decide (d = da_hashed s) then s
  else if bool_decide (d = (da_parent s).1.1.2) then set_latest (da_parent s).1.1.1 d s
  else set_latest device d s.

(** [self.proxy.update('/', device)] of a Device: no child field may be set; the
    PRE_UPDATE callbacks run (what they return is dropped); when the data differ
    from the latest ones, a strict update must not change a read-only field, and
    there is a new revision; the parent takes it or refuses it; in either case
    the POST_UPDATE callbacks run (the agent is registered at most once in either
    list).  [fuel] bounds the nesting of updates made by the callbacks. *)
Fixpoint proxy_update (fuel : nat) (strict : bool) (device : nat) : M da_state unit :=
  match fuel with
  | 0 => raise OutOfFuel
  | S fuel =>
      d ← obj device;
      _ ← lift (if dv_children d then Raise NotImplementedError else Ok tt);
      s ← get_state;
      _ ← (if bool_decide (ValidateUpdate ∈ da_pre_update s)
           then _ ← inline (validate_update (proxy_update fuel false) device); mret tt else mret tt);
      d ← obj device;
      s ← get_state;
      l ← obj (da_latest s);
      if bool_decide (l = d) then outcome ← parent_step; lift outcome
      else
        _ ← lift (if strict then check_access_violation d l else Ok tt);
        _ ← modify (new_revision device d);
        outcome ← parent_step;
        s ← get_state;
        _ ← (if bool_decide (ProcessUpdate ∈ da_post_update s)
             then _ ← inline (process_update (proxy_update fuel false) (da_latest s)); mret tt
             else mret tt);
        lift outcome
  end.

(** An update with a message of the caller's own, as the northbound interface
    makes it: a new object, which must be a Device. *)
Inductive message : Type := DeviceMessage (d : Device) | OtherMessage.
Definition alloc (d : Device) (s : da_state) : da_state := set_objs (da_objs s ++ [d]) s.
Definition client_update (fuel : nat) (strict : bool) (m : message) : M da_state unit :=
  match m with
  | OtherMessage => raise ValueError
  | DeviceMessage d => λ s, proxy_update fuel strict (length (da_objs s)) (alloc d s)
  end.

(** ** Creation, start and stop *)

(** The configuration the agent reads when it is created: the device types, the
    adapters that are loaded. *)
Record core : Type := mk_core {
  core_device_types : list (string * DeviceType);
  core_adapters : list string;
}.

(** [DeviceAgent.__init__] on the message that was added: the four callbacks are
    registered before the device type is read. *)
Definition init (c : core) (device : nat) : M da_state unit :=
  _ ← modify (λ s, set_callbacks (da_pre_update s ++ [ValidateUpdate]) (da_post_update s ++ [ProcessUpdate])
                     (da_flows_cbs s ++ [FlowTableUpdated]) (da_groups_cbs s ++ [GroupTableUpdated])
                     (set_last_data None s));
  d ← obj device;
  ty ← lift (of_option KeyError (od_get (dv_type d) (core_device_types c)));
  modify (set_agent ty None).

Definition set_adapter_agent (c : core) (initial_data : nat) : M da_state unit :=
  d ← obj initial_data;
  adapter_name ←
    (if bool_decide (dv_adapter d = "")
     then ty ← lift (of_option KeyError (od_get (dv_type d) (core_device_types c))); mret (dt_adapter ty)
     else mret (dv_adapter d));
  _ ← lift (assert_ (negb (bool_decide (adapter_name = ""))));
  _ ← lift (of_option KeyError (if bool_decide (adapter_name ∈ core_adapters c) then Some tt else None));
  modify (λ s, set_agent (da_device_type s) (Some adapter_name) s).

Definition start (fuel : nat) (c : core) (initial_data : nat) : M da_state unit :=
  _ ← set_adapter_agent c initial_data;
  d ← inline (process_update (proxy_update fuel false) initial_data);
  yield_ d.

Fixpoint remove_callback (c : callback) (l : list callback) : result (list callback) :=
  match l with
  | [] => Raise ValueError
  | d :: l => if decide (c = d) then Ok l else k ← remove_callback c l; Ok (d :: k)
  end.
Definition stop : M da_state unit :=
  s ← get_state;
  pre ← lift (remove_callback ValidateUpdate (da_pre_update s));
  _ ← modify (λ s, set_callbacks pre (da_post_update s) (da_flows_cbs s) (da_groups_cbs s) s);
  post ← lift (remove_callback ProcessUpdate (da_post_update s));
  modify (λ s, set_callbacks (da_pre_update s) post (da_flows_cbs s) (da_groups_cbs s) s).

Definition remove_device (device_id : string) : M da_state unit := raise NotImplementedError.

(** ** Flow and group tables *)

(** [self.last_data.id] is read for the log entry first; the attribute
    [accepts_add_remove_flow_updates] is looked up on the agent, which has none. *)
Definition push_tables (flows : list flow_stats) (groups : list group_entry) : M da_state unit :=
  s ← get_state;
  r ← lift (of_option AttributeError (da_last_data s));
  d ← obj r;
  if dt_accepts_bulk_flow_update (da_device_type s) then
    _ ← lift (of_option AttributeError (da_adapter_name s));
    modify (log_calls [] [(d, flows, groups)])
  else raise AttributeError.
Definition flow_table_updated (flows : list flow_stats) : M da_state unit :=
  s ← get_state; push_tables flows (da_groups s).
Definition group_table_updated (groups : list group_entry) : M da_state unit :=
  s ← get_state; push_tables (da_flows s) groups.

(** An update of a table in the configuration: the table is written, the parent
    of the device takes the new revision or refuses it, and the POST_UPDATE
    callback runs when the table changed. *)
Definition write_flows (flows : list flow_stats) : M da_state unit :=
  s ← get_state;
  _ ← modify (λ s, set_tables flows (da_groups s) s);
  outcome ← parent_step;
  _ ← (if negb (bool_decide (flows = da_flows s)) && bool_decide (FlowTableUpdated ∈ da_flows_cbs s)
       then _ ← inline (flow_table_updated flows); mret tt else mret tt);
  lift outcome.
Definition write_groups (groups : list group_entry) : M da_state unit :=
  s ← get_state;
  _ ← modify (λ s, set_tables (da_flows s) groups s);
  outcome ← parent_step;
  _ ← (if negb (bool_decide (groups = da_groups s)) && bool_decide (GroupTableUpdated ∈ da_groups_cbs s)
       then _ ← inline (group_table_updated groups); mret tt else mret tt);
  lift outcome.

(** ** What the operations do *)

Definition stored (s : da_state) : option Device := da_objs s !! da_latest s.
Definition key_check (d : Device) (s : da_state) : result unit :=
  if bool_decide (dv_id d = da_key s) then Ok tt else Raise ValueError.
Definition marked (r : nat) (d : Device) (s : da_state) : da_state :=
  set_last_data (Some r) (set_objs (<[r := set_oper_status ACTIVATING d]> (da_objs s)) s).
Definition activated (r : nat) (d : Device) (s : da_state) : da_state :=
  log_calls [set_oper_status ACTIVATING d] [] (marked r d s).

(** The outcome of a state transition of the device with content [d] at [r]: a
    device whose key was refused is marked as activating but not adopted, as the
    nested update raises. *)
Definition transition (r : nat) (d : Device) (s : da_state) : result unit * da_state :=
  match od_get (old_admin_state s, dv_admin_state d) admin_state_fsm with
  | None => (Ok tt, set_last_data (Some r) s)
  | Some None => (Raise InvalidStateTransition, s)
  | Some (Some Activate) =>
      if bool_decide (dv_id d = da_key s)
      then (adopt_device (set_oper_status ACTIVATING d), activated r d s)
      else (Raise ValueError, marked r d s)
  | Some (Some Propagate) =>
      if bool_decide (Some d = (da_last_data s ≫= λ r, da_objs s !! r))
      then (Ok tt, set_last_data (Some r) s) else (Raise NotImplementedError, s)
  | Some (Some _) => (Raise NotImplementedError, s)
  end.

(** The node and its parent hold devices without child fields; an object keeps
    the id it was hashed with; the parent's device has the key of the path, and is
    the node's latest one unless that has another id. *)
Record wf (s : da_state) : Prop := {
  wf_latest : ∃ d, stored s = Some d ∧ dv_children d = false ∧ dv_id d = dv_id (da_hashed s);
  wf_last : ∀ r, da_last_data s = Some r → is_Some (da_objs s !! r);
  wf_adapter : is_Some (da_adapter_name s);
  wf_parent : ∃ p, da_objs s !! (da_parent s).1.1.1 = Some p ∧ dv_children p = false ∧
    dv_id p = da_key s ∧ dv_id (da_parent s).1.1.2 = da_key s;
  wf_agree : da_parent s = revision s ∨ dv_id (da_hashed s) ≠ da_key s;
}.

Lemma obj_run r s d : da_objs s !! r = Some d → obj r s = (Ok d, s).
Proof. unfold obj. by intros ->. Qed.

Lemma inline_yield {A B} (m : M da_state A) (f : M da_state B) s :
  (d ← inline m; _ ← yield_ d; f) s =
  match m s with (Ok _, s') => f s' | (Raise e, s') => (Raise e, s') end.
Proof. unfold mbind, M_bind, inline. by destruct (m s) as [[]]. Qed.

Lemma propagate_run device dry_run s d :
  (∀ r, da_last_data s = Some r → is_Some (da_objs s !! r)) → da_objs s !! device = Some d →
  propagate_change device dry_run s =
  (if bool_decide (Some d = (da_last_data s ≫= λ r, da_objs s !! r)) then Ok tt
   else Raise NotImplementedError, s).
Proof.
  intros Hwf Hd. unfold propagate_change. erewrite M_bind_eq by (by apply obj_run).
  erewrite M_bind_eq by done. destruct (da_last_data s) as [r|] eqn:Hr; cbn [mbind option_bind].
  - destruct (Hwf r eq_refl) as [x Hx].
    rewrite M_bind_assoc. erewrite M_bind_eq by (by apply obj_run). erewrite M_bind_eq by done.
    rewrite Hx. by case_bool_decide.
  - erewrite M_bind_eq by done. by case_bool_decide.
Qed.

(** Validation looks and reports, but changes nothing. *)
Lemma validate_run upd device s d :
  (∀ r, da_last_data s = Some r → is_Some (da_objs s !! r)) → da_objs s !! device = Some d →
  ∃ r, validate_update upd device s = (r, s) ∧
    (od_get (old_admin_state s, dv_admin_state d) admin_state_fsm = Some None →
     r = Raise InvalidStateTransition).
Proof.
  intros Hwf Hd.
  assert (∃ r, process_state_transitions upd device true s = (r, s) ∧
    (od_get (old_admin_state s, dv_admin_state d) admin_state_fsm = Some None →
     r = Raise InvalidStateTransition)) as (r & Hr & Hinv).
  { unfold process_state_transitions. erewrite M_bind_eq by done.
    erewrite M_bind_eq by (by apply obj_run).
    destruct (od_get _ _) as [[[]|]|]; cbn [run_handler]; try (eexists; split; [done|done]).
    erewrite propagate_run by done. eexists. split; [done|done]. }
  unfold validate_update. erewrite M_bind_eq by (unfold inline; by rewrite Hr).
  destruct r as [[]|e]; eexists; (split; [done|]); intros Hf; specialize (Hinv Hf); simplify_eq. done.
Qed.

(** What is left of an update after its checks and hooks: [d] is the object at
    [device], [l] the latest one. *)
Definition update_tail (fuel : nat) (strict : bool) (device : nat) (l d : Device) : M da_state unit :=
  if bool_decide (l = d) then outcome ← parent_step; lift outcome
  else
    _ ← lift (if strict then check_access_violation d l else Ok tt);
    _ ← modify (new_revision device d);
    outcome ← parent_step;
    s ← get_state;
    _ ← (if bool_decide (ProcessUpdate ∈ da_post_update s)
         then _ ← inline (process_update (proxy_update fuel false) (da_latest s)); mret tt
         else mret tt);
    lift outcome.

Lemma proxy_update_run fuel strict device s l d :
  (∀ r, da_last_data s = Some r → is_Some (da_objs s !! r)) →
  da_objs s !! device = Some d → stored s = Some l →
  proxy_update (S fuel) strict device s =
  if dv_children d then (Raise NotImplementedError, s) else update_tail fuel strict device l d s.
Proof.
  intros Hwf Hd Hl. cbn [proxy_update]. erewrite M_bind_eq by (by apply obj_run).
  destruct (dv_children d); [done|]. erewrite M_bind_eq by done. erewrite M_bind_eq by done.
  erewrite (M_bind_eq _ _ s tt s).
  2:{ case_bool_decide; [|done].
      destruct (validate_run (proxy_update fuel false) device s d Hwf Hd) as (r & Hr & _).
      by erewrite M_bind_eq by (unfold inline; by rewrite Hr). }
  erewrite M_bind_eq by (by apply obj_run). erewrite M_bind_eq by done.
  by erewrite M_bind_eq by (by apply obj_run).
Qed.

Lemma device_content_eq s : da_parent s = revision s → content_of (revision s) = content_of (da_parent s).
Proof. by intros ->. Qed.

Lemma parent_step_wf s : wf s → parent_step s = (Ok (key_check (da_hashed s) s), s).
Proof.
  intros [(d & Hd & _ & Hid) _ _ (p & Hp & _ & Hpk & Hpi) Hag]. unfold parent_step, key_check.
  erewrite M_bind_eq by done. erewrite M_bind_eq by (by apply obj_run).
  case_bool_decide as Hc.
  - injection Hc as Hh _ _. rewrite bool_decide_eq_true_2; [done|]. by rewrite Hh.
  - destruct Hag as [Hag|Hne]; [by apply device_content_eq in Hag|].
    rewrite bool_decide_eq_true_2 by (by rewrite Hid). by rewrite bool_decide_eq_false_2.
Qed.

(** An update with the latest data, of a device whose object is in place. *)
Lemma proxy_update_same fuel strict device s d :
  wf s → da_objs s !! device = Some d → stored s = Some d →
  proxy_update (S fuel) strict device s = (key_check d s, s).
Proof.
  intros Hwf Hd Hs. rewrite (proxy_update_run _ _ _ _ d d (wf_last _ Hwf) Hd Hs).
  destruct (wf_latest _ Hwf) as (d' & Hd' & Hch & Hid). rewrite Hs in Hd'. injection Hd' as <-.
  rewrite Hch. unfold update_tail. rewrite bool_decide_eq_true_2 by done.
  rewrite (M_bind_eq _ _ _ _ _ (parent_step_wf s Hwf)). unfold lift, key_check. by rewrite Hid.
Qed.

Lemma insert_lookup_id (l : list Device) r d r' x :
  l !! r = Some d → l !! r' = Some x →
  ∃ y, <[r := set_oper_status ACTIVATING d]> l !! r' = Some y ∧ dv_id y = dv_id x ∧
    dv_children y = dv_children x.
Proof.
  intros Hd Hx. destruct (decide (r = r')) as [<-|Hne].
  - rewrite list_lookup_insert_eq by (by eapply lookup_lt_Some). simplify_eq. by eexists.
  - rewrite list_lookup_insert_ne by done. by exists x.
Qed.
Lemma wf_marked r d s : wf s → da_objs s !! r = Some d → wf (marked r d s).
Proof.
  intros [(x & Hx & Hxc & Hxi) Hlast Ha (p & Hp & Hpc & Hpk & Hpi) Hag] Hd.
  destruct (insert_lookup_id _ _ _ _ _ Hd Hx) as (x' & Hx' & Hi & Hc).
  destruct (insert_lookup_id _ _ _ _ _ Hd Hp) as (p' & Hp' & Hpi' & Hpc').
  split; cbn.
  - exists x'. by rewrite Hi, Hc.
  - intros ? [= <-]. rewrite list_lookup_insert_eq; [done|by eapply lookup_lt_Some].
  - done.
  - exists p'. by rewrite Hpi', Hpc'.
  - exact Hag.
Qed.
Lemma wf_activated r d s : wf s → da_objs s !! r = Some d → wf (activated r d s).
Proof. intros Hwf Hd. by destruct (wf_marked r d s Hwf Hd). Qed.

Lemma marked_lookup r d s : da_objs s !! r = Some d →
  da_objs (marked r d s) !! r = Some (set_oper_status ACTIVATING d).
Proof. intros Hd. apply list_lookup_insert_eq. by eapply lookup_lt_Some. Qed.

(** The transition of the stored device: the nested update finds its own object
    and changes nothing. *)
Lemma process_update_run fuel s d :
  wf s → stored s = Some d →
  process_update (proxy_update (S fuel) false) (da_latest s) s = transition (da_latest s) d s.
Proof.
  intros Hwf Hd. unfold process_update, transition. set (upd := proxy_update (S fuel) false).
  assert (activate_device upd (da_latest s) false s =
    if bool_decide (dv_id d = da_key s)
    then (adopt_device (set_oper_status ACTIVATING d), activated (da_latest s) d s)
    else (Raise ValueError, marked (da_latest s) d s)) as Hact.
  { unfold activate_device. erewrite M_bind_eq by (by apply obj_run).
    erewrite M_bind_eq by done. pose proof (wf_marked _ _ _ Hwf Hd) as Hwf1.
    pose proof (marked_lookup _ _ _ Hd) as Hd'.
    assert (update_device upd (da_latest s) (set_objs (<[da_latest s := set_oper_status ACTIVATING d]> (da_objs s)) s)
      = (key_check d s, marked (da_latest s) d s)) as Hupd.
    { unfold update_device. erewrite M_bind_eq by done.
      etrans; [by apply (proxy_update_same fuel false _ _ _ Hwf1 Hd')|done]. }
    unfold key_check in Hupd. case_bool_decide; [|by erewrite M_bind_Raise_eq by exact Hupd].
    erewrite M_bind_eq by exact Hupd.
    erewrite M_bind_eq by (by apply obj_run). erewrite M_bind_eq by done.
    destruct (wf_adapter _ Hwf) as [a Ha'].
    erewrite M_bind_eq by (unfold lift; cbn [da_adapter_name marked set_last_data set_objs]; by rewrite Ha').
    done. }
  assert (process_state_transitions upd (da_latest s) false s =
    match od_get (old_admin_state s, dv_admin_state d) admin_state_fsm with
    | None => (Ok tt, s)
    | Some None => (Raise InvalidStateTransition, s)
    | Some (Some Activate) => activate_device upd (da_latest s) false s
    | Some (Some Propagate) =>
        if bool_decide (Some d = (da_last_data s ≫= λ r, da_objs s !! r))
        then (Ok tt, s) else (Raise NotImplementedError, s)
    | Some (Some _) => (Raise NotImplementedError, s)
    end) as Hst.
  { unfold process_state_transitions. erewrite M_bind_eq by done.
    erewrite M_bind_eq by (by apply obj_run).
    destruct (od_get _ _) as [[[]|]|]; cbn [run_handler]; try done.
    - unfold mbind, M_bind, inline. by destruct (activate_device _ _ _ _) as [[]].
    - clear Hact. erewrite propagate_run by (done || apply Hwf). by case_bool_decide. }
  rewrite inline_yield, Hst, Hact. clear Hst Hact.
  destruct (od_get _ _) as [[[]|]|]; try done; [|by case_bool_decide].
  case_bool_decide; [|done]. by destruct (adopt_device _) as [[]|].
Qed.

(** An update of the device node with a new object, as the parent sees it. *)
Definition commit (d : Device) (s : da_state) : da_state :=
  let s1 := new_revision (length (da_objs s)) d (alloc d s) in
  if bool_decide (dv_id d = da_key s) then set_parent (revision s1) s1 else s1.

Lemma alloc_lookup d s : da_objs (alloc d s) !! length (da_objs s) = Some d.
Proof. by apply list_lookup_middle. Qed.
Lemma wf_alloc d s : wf s → wf (alloc d s).
Proof.
  intros [(x & Hx & Hxc & Hxi) Hlast Ha (p & Hp & Hpc & Hpk & Hpi) Hag]. split.
  - exists x. split; [by apply lookup_app_l_Some|done].
  - intros r Hr. destruct (Hlast r Hr) as [y Hy]. exists y. by apply lookup_app_l_Some.
  - done.
  - exists p. split; [by apply lookup_app_l_Some|done].
  - exact Hag.
Qed.
Lemma stored_alloc d s : wf s → stored (alloc d s) = stored s.
Proof. intros [(x & Hx & _) _ _ _ _]. rewrite Hx. by apply lookup_app_l_Some. Qed.

(** The data of the new revision *)
Lemma new_revision_data d s : wf s → dv_children d = false →
  let s1 := new_revision (length (da_objs s)) d (alloc d s) in
  ∃ x, stored s1 = Some x ∧ dv_children x = false ∧ dv_id x = dv_id d ∧ da_hashed s1 = d ∧
    da_objs s1 = da_objs s ++ [d] ∧ (d ≠ da_hashed s → d ≠ (da_parent s).1.1.2 → x = d) ∧
    (d = da_hashed s → stored s1 = stored s).
Proof.
  intros Hwf Hch. pose proof (wf_alloc d s Hwf) as [(x & Hx & Hxc & Hxi) _ _ (p & Hp & Hpc & Hpk & Hpi) _].
  cbv zeta. unfold new_revision. change (da_hashed (alloc d s)) with (da_hashed s) in *.
  change (da_parent (alloc d s)) with (da_parent s) in *. case_bool_decide as Hh.
  - exists x. split_and!; [done|done|congruence|done|done|done|]. intros _. by rewrite stored_alloc.
  - case_bool_decide as Hph.
    + exists p. split_and!; try done. change (da_key (alloc d s)) with (da_key s) in *. congruence.
    + exists d. split_and!; try done. apply alloc_lookup.
Qed.

Lemma set_parent_same s : set_parent (da_parent s) s = s.
Proof. by destruct s. Qed.

Lemma parent_step_commit d s : wf s → dv_children d = false →
  parent_step (new_revision (length (da_objs s)) d (alloc d s)) = (Ok (key_check d s), commit d s).
Proof.
  intros Hwf Hch. destruct (new_revision_data d s Hwf Hch) as (x & Hx & _ & Hxi & Hh & _).
  pose proof Hwf as [_ _ _ (p & _ & _ & _ & Hpi) Hag]. unfold commit, key_check.
  set (s1 := new_revision _ _ _) in *.
  assert (da_key s1 = da_key s ∧ da_parent s1 = da_parent s) as [Hk Hp].
  { unfold s1, new_revision. by repeat case_bool_decide. }
  unfold parent_step. erewrite M_bind_eq by done. erewrite M_bind_eq by (by apply obj_run).
  rewrite Hk, Hp, Hxi. case_bool_decide as Hc.
  - pose proof (f_equal (λ x, x.1.1) Hc) as Hc1. cbn in Hc1.
    assert (dv_id d = da_key s) as Hid by congruence.
    rewrite bool_decide_eq_true_2 by done. f_equal.
    assert (revision s1 = da_parent s1) as ->; [|by rewrite set_parent_same].
    rewrite Hp. unfold s1, new_revision in Hc |- *. change (da_hashed (alloc d s)) with (da_hashed s) in *.
    change (da_parent (alloc d s)) with (da_parent s) in *. case_bool_decide as Hdh.
    + destruct Hag as [->|Hne]; [done|]. by rewrite <- Hdh in Hne.
    + rewrite bool_decide_eq_true_2 in Hc |- * by congruence.
      revert Hc. unfold revision, content_of. cbn. destruct (da_parent s) as [[[pr ph] pf] pg].
      cbn. by intros [= -> -> ->].
  - case_bool_decide as Hid; [by rewrite bool_decide_eq_false_2|].
    rewrite bool_decide_eq_true_2 by (by destruct (decide (dv_id d = da_key s))). done.
Qed.

Lemma commit_frame d s :
  da_objs (commit d s) = da_objs s ++ [d] ∧ da_last_data (commit d s) = da_last_data s ∧
  da_post_update (commit d s) = da_post_update s ∧ da_adopted (commit d s) = da_adopted s ∧
  da_key (commit d s) = da_key s ∧ da_adapter_name (commit d s) = da_adapter_name s ∧
  da_hashed (commit d s) = d.
Proof.
  unfold commit, new_revision. change (da_hashed (alloc d s)) with (da_hashed s).
  change (da_parent (alloc d s)) with (da_parent s). repeat case_bool_decide; cbn; by split_and!.
Qed.
Lemma stored_commit d s : wf s → dv_children d = false →
  stored (commit d s) = stored (new_revision (length (da_objs s)) d (alloc d s)).
Proof. intros _ _. unfold commit. by case_bool_decide. Qed.
Lemma stored_commit_new d s : wf s → dv_children d = false →
  d ≠ da_hashed s → d ≠ (da_parent s).1.1.2 → stored (commit d s) = Some d.
Proof.
  intros Hwf Hch Hh Hp. rewrite stored_commit by done.
  destruct (new_revision_data d s Hwf Hch) as (x & -> & _ & _ & _ & _ & Hx & _). by rewrite Hx.
Qed.
Lemma wf_commit d s : wf s → dv_children d = false → wf (commit d s).
Proof.
  intros Hwf Hch. destruct (new_revision_data d s Hwf Hch) as (x & Hx & Hxc & Hxi & Hh & Ho & _).
  destruct (commit_frame d s) as (Hobj & Hl & _ & _ & Hk & Ha & Hhc).
  pose proof (wf_alloc d s Hwf) as [_ Hlast Had (p & Hp & Hpc & Hpk & Hpi) _]. split.
  - exists x. by rewrite stored_commit, Hhc by done.
  - intros r Hr. rewrite Hobj. apply Hlast. by rewrite Hl in Hr.
  - by rewrite Ha.
  - unfold commit. case_bool_decide as Hid.
    + exists x. cbn. change (stored (new_revision (length (da_objs s)) d (alloc d s)) = Some x ∧ dv_children x = false ∧
        dv_id x = da_key (new_revision (length (da_objs s)) d (alloc d s)) ∧
        dv_id (da_hashed (new_revision (length (da_objs s)) d (alloc d s))) = da_key (new_revision (length (da_objs s)) d (alloc d s))).
      rewrite Hx, Hh, Hxi. assert (da_key (new_revision (length (da_objs s)) d (alloc d s)) = da_key s) as ->;
        [unfold new_revision; by repeat case_bool_decide|done].
    + exists p. unfold new_revision. by repeat case_bool_decide.
  - unfold commit. case_bool_decide as Hid; [by left|right].
    rewrite Hh. unfold new_revision. by repeat case_bool_decide.
Qed.

(** What the POST_UPDATE callback makes of a committed update. *)
Definition after_commit (s : da_state) : da_state :=
  if bool_decide (ProcessUpdate ∈ da_post_update s) then
    match stored s with Some d => (transition (da_latest s) d s).2 | None => s end
  else s.

(** The exception of an update that is refused before it writes anything. *)
Definition refused (strict : bool) (d : Device) (s : da_state) : result unit :=
  if dv_children d then Raise NotImplementedError
  else if strict && negb (bool_decide (Some (read_only_fields d) = read_only_fields <$> stored s))
       then Raise ValueError else Ok tt.

Lemma client_update_run fuel strict d s :
  wf s →
  client_update (S (S fuel)) strict (DeviceMessage d) s =
  match refused strict d s with
  | Raise e => (Raise e, alloc d s)
  | Ok _ => (key_check d s, if bool_decide (stored s = Some d) then alloc d s
                            else after_commit (commit d s))
  end.
Proof.
  intros Hwf. unfold client_update. pose proof (wf_alloc d s Hwf) as Hwf1.
  pose proof (alloc_lookup d s) as Hr. destruct (wf_latest _ Hwf) as (l & Hl & _ & Hli).
  pose proof (stored_alloc d s Hwf) as Hst. rewrite Hl in Hst.
  rewrite (proxy_update_run _ _ _ _ l d (wf_last _ Hwf1) Hr Hst). unfold refused.
  destruct (dv_children d) eqn:Hch; [done|]. rewrite Hl. cbn [fmap option_fmap option_map].
  unfold update_tail. case_bool_decide as Heq.
  { subst l. rewrite (bool_decide_eq_true_2 (Some (read_only_fields d) = _)), andb_false_r by done.
    rewrite bool_decide_eq_true_2 by done.
    rewrite (M_bind_eq _ _ _ _ _ (parent_step_wf _ Hwf1)). unfold lift, key_check. cbn. by rewrite Hli. }
  rewrite (bool_decide_eq_false_2 (Some l = Some d)) by congruence.
  assert ((if strict then check_access_violation d l else Ok tt) =
    if strict && negb (bool_decide (Some (read_only_fields d) = Some (read_only_fields l)))
    then Raise ValueError else Ok tt) as ->.
  { destruct strict; [|done]. unfold check_access_violation. cbn [andb].
    repeat case_bool_decide; (done || congruence). }
  destruct (_ && _); [done|]. erewrite M_bind_eq by done. erewrite M_bind_eq by done.
  rewrite (M_bind_eq _ _ _ _ _ (parent_step_commit d s Hwf Hch)). erewrite M_bind_eq by done.
  rewrite (M_bind_eq _ _ _ tt (after_commit (commit d s))); [done|].
  unfold after_commit. case_bool_decide as Hcb; [|done].
  pose proof (wf_commit d s Hwf Hch) as Hwfc. destruct (wf_latest _ Hwfc) as (x & Hx & _). rewrite Hx.
  set (t := transition _ _ _). rewrite (M_bind_eq _ _ _ t.1 t.2); [done|].
  unfold inline. rewrite (process_update_run fuel _ x) by done.
  fold t. by destruct t.
Qed.

Lemma old_admin_alloc d s : wf s → old_admin_state (alloc d s) = old_admin_state s.
Proof.
  intros [_ Hlast _ _ _]. unfold old_admin_state. cbn. destruct (da_last_data s) as [r|]; [|done].
  destruct (Hlast r eq_refl) as [x Hx]. cbn. by rewrite Hx, (lookup_app_l_Some _ _ _ _ Hx).
Qed.
Lemma old_admin_commit d s : wf s → old_admin_state (commit d s) = old_admin_state s.
Proof.
  intros Hwf. rewrite <- (old_admin_alloc d s Hwf). unfold old_admin_state.
  destruct (commit_frame d s) as (-> & -> & _). done.
Qed.

(** ** Theorems *)

(** Looks concrete states up in the state machine. *)
Ltac eval_fsm :=
  match goal with
  | |- context [od_get ?k admin_state_fsm] =>
      let v := eval vm_compute in (od_get k admin_state_fsm) in
      change (od_get k admin_state_fsm) with v
  end; cbv beta iota.

(** An update with new data that passes the checks of the configuration *)
Record acceptable (strict : bool) (d : Device) (s : da_state) : Prop := mk_acceptable {
  ac_refused : refused strict d s = Ok tt;
  ac_key : dv_id d = da_key s;
  ac_stored : stored s ≠ Some d;
  ac_hashed : d ≠ da_hashed s;
  ac_parent : d ≠ (da_parent s).1.1.2;
}.
Lemma refused_children strict d s : refused strict d s = Ok tt → dv_children d = false.
Proof. unfold refused. by destruct (dv_children d). Qed.
Lemma acceptable_run fuel strict d s : wf s → acceptable strict d s →
  client_update (S (S fuel)) strict (DeviceMessage d) s = (Ok tt, after_commit (commit d s)) ∧
  stored (commit d s) = Some d ∧ wf (commit d s).
Proof.
  intros Hwf [Hr Hk Hs Hh Hp]. pose proof (refused_children _ _ _ Hr) as Hch.
  split_and!; [|by apply stored_commit_new|by apply wf_commit].
  rewrite client_update_run, Hr, bool_decide_eq_false_2 by done. unfold key_check.
  by rewrite bool_decide_eq_true_2.
Qed.

(** An update that the state machine rules out is stored all the same.  The
    docstring of _validate_update says that it blocks an update by raising; it
    does raise InvalidStateTransition, but inside a Deferred that the
    configuration drops, so an update that passes the checks of the configuration
    succeeds, the node holds the new data, and only the agent's own record of the
    device stays behind. *)
Theorem invalid_update_stored fuel strict d s :
  wf s → acceptable strict d s →
  od_get (old_admin_state s, dv_admin_state d) admin_state_fsm = Some None →
  (∀ upd, (validate_update upd (length (da_objs s)) (alloc d s)).1 = Raise InvalidStateTransition) ∧
  ∃ s', client_update (S (S fuel)) strict (DeviceMessage d) s = (Ok tt, s') ∧ stored s' = Some d ∧
    da_last_data s' = da_last_data s.
Proof.
  intros Hwf Hac Hfsm. split.
  - intros upd. destruct (validate_run upd (length (da_objs s)) (alloc d s) d)
      as (r & Hr & Hinv); [apply wf_last; by apply wf_alloc|by apply alloc_lookup|].
    rewrite Hr. apply Hinv. by rewrite old_admin_alloc.
  - destruct (acceptable_run fuel _ _ _ Hwf Hac) as (Hrun & Hsc & _). rewrite Hrun.
    eexists. split; [done|]. destruct (commit_frame d s) as (_ & Hlast & _).
    unfold after_commit. rewrite Hsc. unfold transition. rewrite old_admin_commit, Hfsm by done.
    by case_bool_decide.
Qed.

(** Activation as one step, used by the theorems below. *)
Lemma activation_run fuel strict d s :
  wf s → acceptable strict d s → ProcessUpdate ∈ da_post_update s →
  old_admin_state s = UNKNOWN ∨ old_admin_state s = PREPROVISIONED → dv_admin_state d = ENABLED →
  client_update (S (S fuel)) strict (DeviceMessage d) s =
  (Ok tt, activated (da_latest (commit d s)) d (commit d s)).
Proof.
  intros Hwf Hac Hpost Hold Hnew. destruct (acceptable_run fuel _ _ _ Hwf Hac) as (-> & Hsc & _).
  destruct (commit_frame d s) as (_ & _ & Hpc & _ & Hk & _). unfold after_commit, transition.
  rewrite Hpc, Hsc, old_admin_commit, Hnew, bool_decide_eq_true_2 by done.
  rewrite Hk, bool_decide_eq_true_2 by apply Hac. by destruct Hold as [-> | ->].
Qed.
Lemma stored_marked d s :
  stored s = Some d → stored (marked (da_latest s) d s) = Some (set_oper_status ACTIVATING d).
Proof. intros Hd. apply list_lookup_insert_eq. by eapply lookup_lt_Some. Qed.
Lemma stored_activated d s :
  stored s = Some d → stored (activated (da_latest s) d s) = Some (set_oper_status ACTIVATING d).
Proof. apply stored_marked. Qed.

(** Enabling a device that is unknown or preprovisioned activates it: the
    update succeeds, the stored device is the new one with oper_status
    ACTIVATING, and the adapter is asked exactly once to adopt that device. *)
Theorem enable_activates fuel strict d s :
  wf s → acceptable strict d s → ProcessUpdate ∈ da_post_update s →
  old_admin_state s = UNKNOWN ∨ old_admin_state s = PREPROVISIONED → dv_admin_state d = ENABLED →
  ∃ s', client_update (S (S fuel)) strict (DeviceMessage d) s = (Ok tt, s') ∧
    stored s' = Some (set_oper_status ACTIVATING d) ∧ da_last_data s' = Some (da_latest s') ∧
    da_adopted s' = da_adopted s ++ [set_oper_status ACTIVATING d].
Proof.
  intros Hwf Hac Hpost Hold Hnew. rewrite activation_run by done. eexists. split; [done|].
  destruct (acceptable_run fuel _ _ _ Hwf Hac) as (_ & Hsc & _).
  destruct (commit_frame d s) as (_ & _ & _ & Had & _).
  split_and!; [by apply stored_activated|done|]. cbn. by rewrite Had.
Qed.

(** Activation writes to the data object of a committed revision, so that the
    hash of the revision no longer belongs to its content, and a later update
    with the data that was hashed is answered from the cache and lost: the
    configuration keeps the other oper_status.  (The configuration documents its
    data as immutable.) *)
Theorem activation_loses_update fuel d s :
  wf s → acceptable false d s → ProcessUpdate ∈ da_post_update s →
  old_admin_state s = UNKNOWN ∨ old_admin_state s = PREPROVISIONED → dv_admin_state d = ENABLED →
  dv_oper_status d ≠ ACTIVATING →
  ∃ s1 s2, client_update (S (S fuel)) false (DeviceMessage d) s = (Ok tt, s1) ∧
    da_hashed s1 = d ∧ stored s1 ≠ Some d ∧
    client_update (S (S fuel)) false (DeviceMessage d) s1 = (Ok tt, s2) ∧
    stored s2 = Some (set_oper_status ACTIVATING d).
Proof.
  intros Hwf Hac Hpost Hold Hnew Hoper. rewrite activation_run by done.
  destruct (acceptable_run fuel _ _ _ Hwf Hac) as (_ & Hsc & Hwfc).
  destruct (commit_frame d s) as (_ & _ & _ & _ & Hkc & _ & Hhc).
  set (s1 := activated _ _ _).
  assert (wf s1) as Hwf1 by (by apply wf_activated).
  assert (stored s1 = Some (set_oper_status ACTIVATING d)) as Hs1 by by apply stored_activated.
  assert (d ≠ set_oper_status ACTIVATING d) as Hd.
  { intros Heq. apply (f_equal dv_oper_status) in Heq. done. }
  assert (dv_children d = false) as Hch by (eapply refused_children, Hac).
  assert (key_check d s1 = Ok tt) as Hkey.
  { unfold key_check. change (da_key s1) with (da_key (commit d s)). rewrite Hkc.
    rewrite bool_decide_eq_true_2 by apply Hac. done. }
  exists s1. eexists. split_and!; [done|exact Hhc|by rewrite Hs1; injection 1| |].
  { rewrite client_update_run by done. unfold refused. by rewrite Hch, Hkey. }
  rewrite bool_decide_eq_false_2 by (rewrite Hs1; congruence).
  assert (stored (commit d s1) = Some (set_oper_status ACTIVATING d)) as Hs2.
  { rewrite stored_commit by done.
    destruct (new_revision_data d s1 Hwf1 Hch) as (x & _ & _ & _ & _ & _ & _ & Hsame).
    by rewrite Hsame. }
  unfold after_commit, transition. rewrite Hs2.
  case_bool_decide; [|done]. rewrite old_admin_commit by done.
  assert (old_admin_state s1 = ENABLED) as Ho1.
  { unfold old_admin_state. change (da_last_data s1) with (Some (da_latest s1)). cbn [mbind option_bind].
    change (da_objs s1 !! da_latest s1) with (stored s1). by rewrite Hs1. }
  rewrite Ho1. cbn [dv_admin_state set_oper_status]. rewrite Hnew. eval_fsm.
  case_bool_decide; exact Hs2.
Qed.

(** ** Any sequence of updates *)

(** Updates of independent clients, each with its outcome *)
Fixpoint client_updates (fuel : nat) (ms : list (bool * message)) : M da_state (list (result unit)) :=
  match ms with
  | [] => mret []
  | m :: ms => o ← inline (client_update fuel m.1 m.2); os ← client_updates fuel ms; mret (o :: os)
  end.

(** The outcome of an update of the device with key [key]: a message of another
    type, child fields and another id are refused, and a strict update may be
    refused for a read-only field. *)
Definition answer_ok (key : string) (m : bool * message) (o : result unit) : Prop :=
  match m.2 with
  | OtherMessage => o = Raise ValueError
  | DeviceMessage d =>
      if dv_children d then o = Raise NotImplementedError
      else if bool_decide (dv_id d = key) then o = Ok tt ∨ m.1 = true ∧ o = Raise ValueError
      else o = Raise ValueError
  end.

(** Adopted at most once, and not before the agent knows the device as enabled. *)
Record inv (s : da_state) : Prop := {
  inv_wf : wf s;
  inv_once : length (da_adopted s) ≤ 1;
  inv_first : old_admin_state s ≠ ENABLED → da_adopted s = [];
}.

Lemma wf_last_data r s : wf s → is_Some (da_objs s !! r) → wf (set_last_data (Some r) s).
Proof. intros [Hl Hlast Ha Hp Hag] Hr. split; [done|by intros ? [= <-]|done..]. Qed.
Lemma old_admin_last r d s :
  da_objs s !! r = Some d → old_admin_state (set_last_data (Some r) s) = dv_admin_state d.
Proof. unfold old_admin_state. cbn. by intros ->. Qed.

(** A transition keeps the invariant: only the first two entries of the state
    machine adopt, and nothing leads out of ENABLED. *)
Lemma transition_inv s d : inv s → stored s = Some d → inv (transition (da_latest s) d s).2.
Proof.
  intros [Hwf Honce Hfirst] Hd. pose proof (wf_activated _ _ _ Hwf Hd) as Hact.
  pose proof (wf_marked _ _ _ Hwf Hd) as Hmark.
  assert (wf (set_last_data (Some (da_latest s)) s)) as Hwl by (by apply wf_last_data).
  pose proof (old_admin_last _ _ _ Hd) as Hol.
  assert (old_admin_state (marked (da_latest s) d s) = dv_admin_state d) as Hom.
  { unfold old_admin_state. change (da_last_data (marked _ _ _)) with (Some (da_latest s)).
    cbn [mbind option_bind]. change (da_objs ?x !! da_latest s) with (stored x).
    by rewrite stored_marked. }
  assert (old_admin_state (activated (da_latest s) d s) = dv_admin_state d) as Hoa by exact Hom.
  unfold transition.
  destruct (old_admin_state s) eqn:Ho, (dv_admin_state d) eqn:Hn; eval_fsm; try case_bool_decide;
    (split; [done|cbn [snd da_adopted activated marked log_calls set_last_data set_objs]|
             cbn [snd]; rewrite ?Hol, ?Hoa, ?Hom, ?Ho; try done; intros _; by apply Hfirst]);
    first [done|by rewrite Hfirst].
Qed.
Lemma transition_key s d : da_key (transition (da_latest s) d s).2 = da_key s.
Proof. unfold transition. repeat case_match; done. Qed.

Lemma after_commit_inv s : inv s → inv (after_commit s) ∧ da_key (after_commit s) = da_key s.
Proof.
  intros Hinv. unfold after_commit. case_bool_decide; [|done].
  destruct (stored s) as [x|] eqn:Hx; [|done]. split; [by apply transition_inv|apply transition_key].
Qed.
Lemma client_update_inv fuel strict m s :
  inv s → ∃ o s', client_update (S (S fuel)) strict m s = (o, s') ∧ inv s' ∧ da_key s' = da_key s ∧
    answer_ok (da_key s) (strict, m) o.
Proof.
  intros [Hwf Honce Hfirst]. destruct m as [d|]; [|by exists (Raise ValueError), s].
  rewrite client_update_run by done. unfold answer_ok. cbn [fst snd].
  assert (inv (alloc d s)) as Hal.
  { split; [by apply wf_alloc|done|]. by rewrite old_admin_alloc. }
  destruct (refused strict d s) as [[]|e] eqn:Hr.
  - pose proof (refused_children _ _ _ Hr) as Hch. rewrite Hch. eexists _, _. split; [done|].
    unfold key_check. case_bool_decide as Heq; [split_and!; [done|done|]; case_bool_decide; by auto|].
    assert (inv (commit d s)) as Hc.
    { destruct (commit_frame d s) as (_ & _ & _ & Had & _).
      split; [by apply wf_commit|by rewrite Had|rewrite Had, old_admin_commit; done]. }
    destruct (after_commit_inv _ Hc) as [Hi Hk]. destruct (commit_frame d s) as (_ & _ & _ & _ & Hkc & _).
    split_and!; [done|congruence|]. case_bool_decide; by auto.
  - eexists _, _. split; [done|]. split_and!; [done|done|]. revert Hr. unfold refused.
    destruct (dv_children d); [by intros [= <-]|]. destruct strict; [|done]. cbn [andb].
    case_bool_decide; [done|]. intros [= <-]. case_bool_decide; by auto.
Qed.


(** ** Creation and start *)

(** A device that was just added: the message that was added, of which the node
    has a copy without child fields; no callbacks. *)
Definition added (d : Device) : da_state :=
  let n := clear_children d in
  mk_da [d; n] 1 n [] [] [] [] [] [] None (mk_DeviceType "" "" false false) None [] []
    (dv_id d) (1, n, [], []).

Lemma clear_children_id d : dv_children d = false → clear_children d = d.
Proof. destruct d. cbn. by intros ->. Qed.

(** The agent of an enabled device that is starting: the added message gets the
    oper_status and becomes the data of the node, and the adapter is called. *)
Definition starting (d : Device) (ty : DeviceType) (name : option string) : da_state :=
  mk_da [d; d] 1 d [] [] [ValidateUpdate] [ProcessUpdate] [FlowTableUpdated] [GroupTableUpdated]
    None ty name [] [] (dv_id d) (1, d, [], []).
Definition started (d : Device) (ty : DeviceType) (name : option string) : da_state :=
  let d' := set_oper_status ACTIVATING d in
  let latest := if bool_decide (d' = d) then 1 else 0 in
  mk_da [d'; d] latest d' [] [] [ValidateUpdate] [ProcessUpdate] [FlowTableUpdated] [GroupTableUpdated]
    (Some 0) ty name [] [] (dv_id d) (latest, d', [], []).

Lemma start_update fuel d ty name :
  dv_children d = false → dv_admin_state d = ENABLED →
  let d' := set_oper_status ACTIVATING d in
  proxy_update (S fuel) false 0 (marked 0 d (starting d ty name)) = (Ok tt, started d ty name).
Proof.
  intros Hch Hen d'. set (s1 := marked _ _ _).
  rewrite (proxy_update_run _ _ _ s1 d d') by (done || by intros ? [= <-]).
  cbn [dv_children d' set_oper_status]. rewrite Hch. unfold update_tail, started. fold d'.
  case_bool_decide as Heq.
  { rewrite (bool_decide_eq_true_2 (d' = d)) by done.
    assert (parent_step s1 = (Ok (Ok tt), s1)) as Hp.
    { unfold parent_step. erewrite M_bind_eq by done. erewrite M_bind_eq by done.
      by rewrite bool_decide_eq_true_2. }
    rewrite (M_bind_eq _ _ _ _ _ Hp). unfold s1, marked, starting, set_last_data, set_objs, lift.
    cbn [da_objs da_latest da_hashed da_flows da_groups da_pre_update da_post_update da_flows_cbs
         da_groups_cbs da_last_data da_device_type da_adapter_name da_adopted da_bulk da_key da_parent].
    fold d'. by rewrite <- Heq. }
  rewrite (bool_decide_eq_false_2 (d' = d)) by congruence.
  erewrite M_bind_eq by done.
  set (s2 := set_latest 0 d' s1). rewrite (M_bind_eq _ _ _ tt s2).
  2:{ unfold modify, new_revision, s1. cbn. by rewrite !bool_decide_eq_false_2 by congruence. }
  rewrite (M_bind_eq _ _ s2 (Ok tt) (set_parent (revision s2) s2)).
  2:{ unfold parent_step. erewrite M_bind_eq by done. erewrite M_bind_eq by done.
      rewrite bool_decide_eq_false_2 by (intros [=]; congruence).
      rewrite bool_decide_eq_false_2; [done|]. intros Hne. by apply Hne. }
  erewrite M_bind_eq by done. rewrite bool_decide_eq_true_2 by (cbn; left).
  set (s3 := set_parent _ _). rewrite (M_bind_eq _ _ s3 tt s3); [done|].
  rewrite (M_bind_eq _ _ s3 (Ok tt) s3); [done|]. unfold inline, process_update.
  rewrite inline_yield. unfold process_state_transitions. erewrite M_bind_eq by done.
  rewrite (M_bind_eq _ _ s3 d' s3) by done.
  assert (old_admin_state s3 = ENABLED) as -> by exact Hen. cbn [dv_admin_state d' set_oper_status].
  rewrite Hen. eval_fsm. cbn [run_handler].
  rewrite (propagate_run _ _ s3 d') by (done || by intros ? [= <-]).
  by rewrite bool_decide_eq_true_2.
Qed.

(** Creating and starting the agent of a device that was just added, without
    child fields: when the device type is known and its adapter is loaded, the
    adapter is chosen by the device or by its type, the state machine runs from
    UNKNOWN, so that an enabled device is adopted at once and no other one is, and
    the invariant of the theorem about sequences of updates holds. *)
Theorem start_establishes fuel c d ty :
  od_get (dv_type d) (core_device_types c) = Some ty → dv_children d = false →
  (if decide (dv_adapter d = "") then dt_adapter ty else dv_adapter d) ≠ "" →
  (if decide (dv_adapter d = "") then dt_adapter ty else dv_adapter d) ∈ core_adapters c →
  let enabled := bool_decide (dv_admin_state d = ENABLED) in
  let d' := set_oper_status ACTIVATING d in
  ∃ s', (_ ← init c 0; start (S fuel) c 0) (added d)
        = (if enabled then adopt_device d' else Ok tt, s') ∧
    inv s' ∧ da_adopted s' = (if enabled then [d'] else []) ∧
    stored s' = Some (if enabled then d' else d) ∧
    da_adapter_name s' = Some (if decide (dv_adapter d = "") then dt_adapter ty else dv_adapter d).
Proof.
  intros Hty Hch Hne Hin. cbv zeta. unfold added. rewrite clear_children_id by done.
  set (name := if decide _ then _ else _) in *.
  set (s0 := mk_da _ _ _ _ _ _ _ _ _ _ _ _ _ _ _ _).
  set (s1 := starting d ty None). set (s2 := starting d ty (Some name)).
  assert (init c 0 s0 = (Ok tt, s1)) as Hinit.
  { unfold init. erewrite M_bind_eq by done. erewrite M_bind_eq by done.
    by erewrite M_bind_eq by (unfold lift; by rewrite Hty). }
  assert (set_adapter_agent c 0 s1 = (Ok tt, s2)) as Hset.
  { unfold set_adapter_agent. erewrite M_bind_eq by done.
    rewrite (M_bind_eq _ _ s1 name s1).
    2:{ unfold name. case_bool_decide as Hd; [rewrite decide_True by done|by rewrite decide_False].
        by erewrite M_bind_eq by (unfold lift; by rewrite Hty). }
    rewrite (bool_decide_eq_false_2 (name = "")) by done. erewrite M_bind_eq by done.
    rewrite bool_decide_eq_true_2 by done. done. }
  erewrite M_bind_eq by done. unfold start. erewrite M_bind_eq by done.
  clear Hinit Hset s0 s1.
  assert (wf s2) as Hwf2.
  { split; [by exists d|done|by eexists|by exists d|by left]. }
  assert (process_update (proxy_update (S fuel) false) 0 s2 =
    if bool_decide (dv_admin_state d = ENABLED)
    then (adopt_device (set_oper_status ACTIVATING d),
          log_calls [set_oper_status ACTIVATING d] [] (started d ty (Some name)))
    else (Ok tt, set_last_data (Some 0) s2)) as Hrun.
  { unfold process_update. rewrite inline_yield. unfold process_state_transitions.
    erewrite M_bind_eq by done. rewrite (M_bind_eq _ _ s2 d s2) by done.
    change (old_admin_state s2) with UNKNOWN. destruct (dv_admin_state d) eqn:Ha; eval_fsm; try done.
    cbn [run_handler]. pose proof (start_update fuel d ty (Some name) Hch Ha) as Hup.
    assert (activate_device (proxy_update (S fuel) false) 0 false s2 =
      (adopt_device (set_oper_status ACTIVATING d),
       log_calls [set_oper_status ACTIVATING d] [] (started d ty (Some name)))) as Hact.
    { unfold activate_device. rewrite (M_bind_eq _ _ s2 d s2) by done. erewrite M_bind_eq by done.
      erewrite M_bind_eq by (unfold update_device; erewrite M_bind_eq by done; exact Hup).
      erewrite M_bind_eq by (by apply obj_run). erewrite M_bind_eq by done.
      by erewrite M_bind_eq by done. }
    erewrite M_bind_eq by (unfold inline; by rewrite Hact). unfold yield_, lift.
    destruct (adopt_device _) as [[]|]; [|done]. done. }
  rewrite (M_bind_eq _ _ s2 (if bool_decide (dv_admin_state d = ENABLED)
    then adopt_device (set_oper_status ACTIVATING d) else Ok tt)
    (if bool_decide (dv_admin_state d = ENABLED)
     then log_calls [set_oper_status ACTIVATING d] [] (started d ty (Some name))
     else set_last_data (Some 0) s2)).
  2:{ unfold inline. rewrite Hrun. by case_bool_decide. }
  clear Hrun. unfold yield_, lift. case_bool_decide as Hen; eexists; (split; [done|]).
  - split_and!; [|done| |done].
    + split; [|done|intros Ho; exfalso; apply Ho; exact Hen].
      assert (∃ x, stored (started d ty (Some name)) = Some x ∧ dv_children x = false ∧ dv_id x = dv_id d)
        as (x & Hx & Hxc & Hxi).
      { unfold started, stored. cbn. by case_bool_decide; eexists. }
      split; [by exists x|by intros ? [= <-]|by eexists|by exists x|by left].
    + unfold started, stored. cbn. case_bool_decide as He; cbn; congruence.
  - split_and!; [|done..]. split; [|simpl; lia|done].
    by apply wf_last_data; [|by eexists].
Qed.

(** ** Flow and group tables *)

Lemma parent_step_frame s : is_Some (stored s) → ∃ o p, parent_step s = (Ok o, set_parent p s).
Proof.
  intros [d Hd]. unfold parent_step. erewrite M_bind_eq by done.
  erewrite M_bind_eq by (by apply obj_run).
  repeat case_bool_decide; eexists _, _; try (rewrite <- set_parent_same at 1; done); done.
Qed.

(** A change of the flow table of a device whose type accepts bulk updates is
    handed to its adapter as the whole new table with the current groups, and
    likewise a change of the group table; this goes on after the agent was
    stopped, because stop unregisters two of the four callbacks only. *)
Theorem table_changes_reach_adapter flows groups s s1 r d :
  stop s = (Ok tt, s1) →
  FlowTableUpdated ∈ da_flows_cbs s → GroupTableUpdated ∈ da_groups_cbs s → is_Some (stored s) →
  da_last_data s = Some r → da_objs s !! r = Some d → is_Some (da_adapter_name s) →
  dt_accepts_bulk_flow_update (da_device_type s) = true →
  flows ≠ da_flows s → groups ≠ da_groups s →
  ∀ s0, s0 = s ∨ s0 = s1 →
    da_bulk (write_flows flows s0).2 = da_bulk s ++ [(d, flows, da_groups s)] ∧
    da_bulk (write_groups groups s0).2 = da_bulk s ++ [(d, da_flows s, groups)].
Proof.
  intros Hstop Hf Hg Hlat Hr Hd [a Ha] Hbulk Hfl Hgr s0 Hs0.
  assert (da_flows_cbs s0 = da_flows_cbs s ∧ da_groups_cbs s0 = da_groups_cbs s ∧
    da_last_data s0 = da_last_data s ∧ da_objs s0 = da_objs s ∧ da_adapter_name s0 = da_adapter_name s ∧
    da_device_type s0 = da_device_type s ∧ da_flows s0 = da_flows s ∧ da_groups s0 = da_groups s ∧
    da_bulk s0 = da_bulk s ∧ da_latest s0 = da_latest s) as (E1 & E2 & E3 & E4 & E5 & E6 & E7 & E8 & E9 & E10).
  { destruct Hs0 as [-> | ->]; [done|]. unfold stop in Hstop.
    erewrite M_bind_eq in Hstop by done.
    apply M_bind_Ok in Hstop as (pre & s2 & H1 & Hstop). injection H1 as H1 <-.
    erewrite M_bind_eq in Hstop by done.
    apply M_bind_Ok in Hstop as (post & s2 & H2 & Hstop). injection H2 as H2 <-.
    injection Hstop as <-. done. }
  assert (∀ fl gr s', da_last_data s' = Some r → da_objs s' !! r = Some d → da_adapter_name s' = Some a →
    dt_accepts_bulk_flow_update (da_device_type s') = true →
    push_tables fl gr s' = (Ok tt, log_calls [] [(d, fl, gr)] s')) as Hpush.
  { intros fl gr s' Hr' Hd' Ha' Hb'. unfold push_tables. erewrite M_bind_eq by done.
    erewrite M_bind_eq by (unfold lift; by rewrite Hr'). erewrite M_bind_eq by (by apply obj_run).
    rewrite Hb'. by erewrite M_bind_eq by (unfold lift; by rewrite Ha'). }
  rewrite <- E7 in Hfl. rewrite <- E8 in Hgr. rewrite <- E1 in Hf. rewrite <- E2 in Hg.
  assert (is_Some (stored s0)) as Hlat0 by (unfold stored; by rewrite E4, E10).
  split.
  - unfold write_flows. erewrite M_bind_eq by done. erewrite M_bind_eq by done.
    destruct (parent_step_frame (set_tables flows (da_groups s0) s0) Hlat0) as (o & p & Hp).
    erewrite M_bind_eq by exact Hp. rewrite bool_decide_eq_false_2, bool_decide_eq_true_2 by done. cbn [negb andb].
    unfold flow_table_updated. erewrite M_bind_eq.
    2:{ erewrite M_bind_eq; [done|]. unfold inline. erewrite M_bind_eq by done.
        by rewrite Hpush by (cbn; congruence). }
    cbn. by rewrite E8, E9.
  - unfold write_groups. erewrite M_bind_eq by done. erewrite M_bind_eq by done.
    destruct (parent_step_frame (set_tables (da_flows s0) groups s0) Hlat0) as (o & p & Hp).
    erewrite M_bind_eq by exact Hp. rewrite bool_decide_eq_false_2, bool_decide_eq_true_2 by done. cbn [negb andb].
    unfold group_table_updated. erewrite M_bind_eq.
    2:{ erewrite M_bind_eq; [done|]. unfold inline. erewrite M_bind_eq by done.
        by rewrite Hpush by (cbn; congruence). }
    cbn. by rewrite E7, E9.
Qed.

(** A device type that does not take bulk updates makes a table update fail
    with AttributeError, also when it accepts incremental updates: the agent
    looks the capability up on itself instead of on the device type. *)
Theorem incremental_updates_fail flows s r d :
  da_last_data s = Some r → da_objs s !! r = Some d →
  dt_accepts_bulk_flow_update (da_device_type s) = false →
  flow_table_updated flows s = (Raise AttributeError, s).
Proof.
  intros Hr Hd Hb. unfold flow_table_updated, push_tables. erewrite M_bind_eq by done.
  erewrite M_bind_eq by done. erewrite M_bind_eq by (unfold lift; by rewrite Hr).
  erewrite M_bind_eq by (by apply obj_run). by rewrite Hb.
Qed.
End agent.

(** ** Witnesses: an OLT of a type with bulk updates *)

#[export] Instance demo_adapter : Adapter := {| adopt_device _ := Ok tt |}.

Definition olt_type : DeviceType := mk_DeviceType "ponsim_olt" "ponsim_olt" true false.
Definition slow_type : DeviceType := mk_DeviceType "slow" "ponsim_olt" false true.
Definition demo_core : core := mk_core [("ponsim_olt", olt_type); ("slow", slow_type)] ["ponsim_olt"].
Definition dev (a : AdminState) : Device := mk_Device "olt" "ponsim_olt" "" a OPER_UNKNOWN 0 0 false.

(** A preprovisioned device with its agent, and the same device enabled. *)
Definition demo_pre : da_state := ((_ ← init demo_core 0; start 1 demo_core 0) (added (dev PREPROVISIONED))).2.
Definition demo_on : da_state := (client_update 2 false (DeviceMessage (dev ENABLED)) demo_pre).2.

Lemma demo_pre_inv : inv demo_pre.
Proof.
  split; [|simpl; lia|done].
  split; [by exists (dev PREPROVISIONED)|by intros ? [= <-]|by eexists|by exists (dev PREPROVISIONED)|by left].
Qed.
Lemma demo_on_wf : wf demo_on.
Proof.
  destruct (client_update_inv 0 false (DeviceMessage (dev ENABLED)) demo_pre demo_pre_inv)
    as (o & s' & Hs & Hinv & _). unfold demo_on. rewrite Hs. apply Hinv.
Qed.
Lemma demo_acceptable a s : stored s ≠ Some (dev a) → dev a ≠ da_hashed s → dev a ≠ (da_parent s).1.1.2 →
  da_key s = "olt" → acceptable false (dev a) s.
Proof. intros. by split. Qed.

Lemma invalid_update_stored_witness :
  ∃ s', client_update 2 false (DeviceMessage (dev UNKNOWN)) demo_on = (Ok tt, s') ∧
    stored s' = Some (dev UNKNOWN).
Proof.
  destruct (invalid_update_stored 0 false (dev UNKNOWN) demo_on) as (_ & s' & Hs & Hst & _).
  - exact demo_on_wf.
  - apply demo_acceptable; vm_compute; done.
  - vm_compute. reflexivity.
  - exists s'. auto.
Defined.

Lemma enable_activates_witness :
  ∃ s', client_update 2 false (DeviceMessage (dev ENABLED)) demo_pre = (Ok tt, s') ∧
    stored s' = Some (set_oper_status ACTIVATING (dev ENABLED)) ∧
    da_adopted s' = [set_oper_status ACTIVATING (dev ENABLED)].
Proof.
  destruct (enable_activates 0 false (dev ENABLED) demo_pre) as (s' & Hs & Hst & _ & Had).
  - exact (inv_wf _ demo_pre_inv).
  - apply demo_acceptable; vm_compute; done.
  - left.
  - right. reflexivity.
  - reflexivity.
  - exists s'. auto.
Defined.

Lemma activation_loses_update_witness :
  ∃ s1 s2, client_update 2 false (DeviceMessage (dev ENABLED)) demo_pre = (Ok tt, s1) ∧
    client_update 2 false (DeviceMessage (dev ENABLED)) s1 = (Ok tt, s2) ∧
    stored s2 ≠ Some (dev ENABLED).
Proof.
  destruct (activation_loses_update 0 (dev ENABLED) demo_pre) as (s1 & s2 & H1 & _ & _ & H2 & H3).
  - exact (inv_wf _ demo_pre_inv).
  - apply demo_acceptable; vm_compute; done.
  - left.
  - right. reflexivity.
  - reflexivity.
  - discriminate.
  - exists s1, s2. split; [exact H1|split; [exact H2|]]. rewrite H3. discriminate.
Defined.

Definition renamed : Device := mk_Device "other" "ponsim_olt" "" ENABLED OPER_UNKNOWN 0 0 false.

(** An update that changes the id is refused, but the device is marked as
    activating: the agent takes it for enabled and never adopts it. *)
Example renamed_never_adopted :
  let '(os, s') := client_updates 2 [(false, DeviceMessage renamed); (false, DeviceMessage (dev ENABLED))] demo_pre in
  os = Ok [Raise ValueError; Ok tt] ∧ stored s' = Some (dev ENABLED) ∧ da_adopted s' = [].
Proof. vm_compute. by split_and!. Qed.

Lemma start_establishes_witness :
  ∃ s', (_ ← init demo_core 0; start 1 demo_core 0) (added (dev ENABLED)) = (Ok tt, s') ∧
    da_adopted s' = [set_oper_status ACTIVATING (dev ENABLED)].
Proof.
  destruct (start_establishes 0 demo_core (dev ENABLED) olt_type) as (s' & Hs & _ & Had & _).
  - reflexivity.
  - reflexivity.
  - vm_compute. discriminate.
  - left.
  - exists s'. split; [exact Hs|exact Had].
Defined.

Definition a_flow : flow_stats := mk_flow_stats 1 0 10 0 0 0 0 0 0 (mk_match OFPMT_OXM []) [].
Lemma table_changes_reach_adapter_witness :
  ∃ s1, stop demo_on = (Ok tt, s1) ∧
    da_bulk (write_flows [a_flow] s1).2 = [(set_oper_status ACTIVATING (dev ENABLED), [a_flow], [])].
Proof.
  destruct (stop demo_on) as [r s1] eqn:Hstop.
  assert (r = Ok tt) as -> by (vm_compute in Hstop; by injection Hstop as <- _).
  exists s1. split; [reflexivity|].
  apply (table_changes_reach_adapter [a_flow] [mk_group_stat 1 []] demo_on s1 2
           (set_oper_status ACTIVATING (dev ENABLED))).
  - exact Hstop.
  - left.
  - left.
  - eexists. vm_compute. reflexivity.
  - reflexivity.
  - reflexivity.
  - eexists. reflexivity.
  - reflexivity.
  - discriminate.
  - discriminate.
  - right. reflexivity.
Defined.

Definition demo_slow : da_state :=
  ((_ ← init demo_core 0; start 1 demo_core 0)
     (added (mk_Device "olt" "slow" "" ENABLED OPER_UNKNOWN 0 0 false))).2.
Lemma incremental_updates_fail_witness :
  flow_table_updated [a_flow] demo_slow = (Raise AttributeError, demo_slow).
Proof.
  apply (incremental_updates_fail [a_flow] demo_slow 0
           (mk_Device "olt" "slow" "" ENABLED ACTIVATING 0 0 false)); reflexivity.
Defined.
End DeviceAgent.
