(* ===== verification/AdapterAgent.v ===== *)
(** * The adapter agent (voltha/core/adapter_agent.py)

    The gateway between the core and one adapter.  Its adapter-facing operations
    write devices, ports and logical devices to the configuration; the containers
    they touch are dictionaries here, which is what the configuration tree is to
    its clients (ConfigSpec). *)

From stdpp Require Import prelude strings list pretty.
From S2P Require Import Prelude OFP FlowDecomposer DeviceGraph DeviceAgent.

Module AdapterAgent.

(** Device.ProxyAddress and Device of device.proto, as far as the adapters use
    them; [UNREACHABLE] and [REACHABLE] are the values of ConnectStatus. *)
Record proxy_address : Type := mk_proxy_address { pa_device_id : string; pa_channel_id : Z }.
#[export] Instance proxy_address_eq_dec : EqDecision proxy_address. Proof. solve_decision. Defined.
Inductive ConnectStatus : Type := CONNECT_UNKNOWN | UNREACHABLE | REACHABLE.
Record adevice : Type := mk_adevice {
  ad_id : string;
  ad_type : string;
  ad_root : bool;
  ad_parent_id : string;
  ad_parent_port_no : Z;
  ad_vlan : Z;
  ad_admin_state : DeviceAgent.AdminState;
  ad_oper_status : DeviceAgent.OperStatus;
  ad_connect_status : ConnectStatus;
  ad_host_and_port : string;
  ad_proxy_address : proxy_address;
  ad_info : list (string * string);       (** vendor, model, serial_number, reason, ... *)
}.

(** A stored port with its device id (which [add_port] sets). *)
Record aport : Type := mk_aport { ap_device_id : string; ap_port : Port }.
Record LogicalDev : Type := mk_LogicalDev {
  l_id : string;
  l_datapath_id : N;
  l_root_device_id : string;
}.

(** What the agents subscribe to on the event bus.  The topic of a proxy address
    is its serialized form. *)
Inductive topic : Type :=
  | PacketOut (logical_device_id : string)
  | TxProxy (pa : proxy_address)
  | RxProxy (pa : proxy_address).
#[export] Instance topic_eq_dec : EqDecision topic. Proof. solve_decision. Defined.

Record aa_state : Type := mk_aa {
  aa_adapters : list (string * Z);                        (** /adapters *)
  aa_device_types : list (string * Z);                    (** /device_types *)
  aa_devices : list (string * (adevice * list (Z * aport)));   (** /devices and their ports *)
  aa_device_groups : list (string * unit);                (** /device_groups *)
  aa_logical : list (string * (LogicalDev * list (string * LogicalPort))); (** /logical_devices, their ports *)
  aa_topics : list (string * topic);                      (** subscriptions of the agents, by adapter, in order *)
  aa_running : list string;                               (** agents whose [adapter] is not None *)
}.
Definition set_adapters (x : list (string * Z)) (s : aa_state) : aa_state :=
  mk_aa x (aa_device_types s) (aa_devices s) (aa_device_groups s) (aa_logical s) (aa_topics s) (aa_running s).
Definition set_device_types (x : list (string * Z)) (s : aa_state) : aa_state :=
  mk_aa (aa_adapters s) x (aa_devices s) (aa_device_groups s) (aa_logical s) (aa_topics s) (aa_running s).
Definition set_devices (x : list (string * (adevice * list (Z * aport)))) (s : aa_state) : aa_state :=
  mk_aa (aa_adapters s) (aa_device_types s) x (aa_device_groups s) (aa_logical s) (aa_topics s) (aa_running s).
Definition set_device_groups (x : list (string * unit)) (s : aa_state) : aa_state :=
  mk_aa (aa_adapters s) (aa_device_types s) (aa_devices s) x (aa_logical s) (aa_topics s) (aa_running s).
Definition set_logical (x : list (string * (LogicalDev * list (string * LogicalPort)))) (s : aa_state) : aa_state :=
  mk_aa (aa_adapters s) (aa_device_types s) (aa_devices s) (aa_device_groups s) x (aa_topics s) (aa_running s).
Definition add_topic (t : string * topic) (s : aa_state) : aa_state :=
  mk_aa (aa_adapters s) (aa_device_types s) (aa_devices s) (aa_device_groups s) (aa_logical s)
    (aa_topics s ++ [t]) (aa_running s).
Definition set_running (x : list string) (s : aa_state) : aa_state :=
  mk_aa (aa_adapters s) (aa_device_types s) (aa_devices s) (aa_device_groups s) (aa_logical s) (aa_topics s) x.

(** ** [_make_up_to_date]: update the entry when there is one, add it otherwise.
    An update of an entry with children of its own keeps them. *)
Definition make_up_to_date {D} (key : string) (data : D) (c : list (string * D)) : list (string * D) :=
  match od_get key c with
  | Some _ => od_set key data c
  | None => c ++ [(key, data)]
  end.
Definition make_up_to_date_node {D K V} (key : string) (data : D) (c : list (string * (D * list (K * V))))
    : list (string * (D * list (K * V))) :=
  match od_get key c with
  | Some (_, children) => od_set key (data, children) c
  | None => c ++ [(key, (data, []))]
  end.

(** ** Registration *)

Definition update_adapter_node (adapter_name : string) (desc_id : string) (desc : Z) : M aa_state string :=
  _ ← lift (assert_ (bool_decide (desc_id = adapter_name)));
  _ ← modify (λ s, set_adapters (make_up_to_date adapter_name desc (aa_adapters s)) s);
  mret ("/adapters/" +:+ adapter_name).
Definition update_device_types (items : list (string * Z)) : M aa_state unit :=
  modify (λ s, set_device_types
    (foldl (λ c kv, make_up_to_date kv.1 kv.2 c) (aa_device_types s) items) s).

(** What the agent uses of an adapter class: making an instance, starting and
    stopping it, its descriptor and its device types *)
Record adapter_cls : Type := mk_adapter_cls {
  ac_init : option Z → result unit;
  ac_start : result unit;
  ac_stop : result unit;
  ac_descriptor : string * Z;
  ac_device_types : list (string * Z);
}.

(** [start], which logs every exception, and [stop] *)
Definition get_adapter_config (adapter_name : string) (s : aa_state) : option Z := od_get adapter_name (aa_adapters s).
Definition start (adapter_name : string) (cls : adapter_cls) : M aa_state unit := λ s,
  let body : M aa_state unit :=
    _ ← lift (ac_init cls (get_adapter_config adapter_name s));
    _ ← lift (ac_start cls);
    _ ← modify (λ s, set_running (aa_running s ++ [adapter_name]) s);
    _ ← update_adapter_node adapter_name (ac_descriptor cls).1 (ac_descriptor cls).2;
    update_device_types (ac_device_types cls) in
  (Ok tt, (body s).2).
Definition stop (adapter_name : string) (cls : adapter_cls) : M aa_state unit :=
  s ← get_state;
  if bool_decide (adapter_name ∈ aa_running s) then
    _ ← lift (ac_stop cls);
    modify (λ s, set_running (filter (λ n, n ≠ adapter_name) (aa_running s)) s)
  else mret tt.

(** ** Devices and ports *)

Definition get_device (device_id : string) : M aa_state adevice := λ s,
  (of_option KeyError (fst <$> od_get device_id (aa_devices s)), s).
Definition add_device (device : adevice) : M aa_state unit :=
  _ ← modify (λ s, set_devices (make_up_to_date_node (ad_id device) device (aa_devices s)) s);
  modify (λ s, set_device_groups (make_up_to_date "1" tt (aa_device_groups s)) s).
(** Through the device agent, which a device has as long as it is stored *)
Definition update_device (device : adevice) : M aa_state unit :=
  s ← get_state;
  e ← lift (of_option KeyError (od_get (ad_id device) (aa_devices s)));
  modify (λ s, set_devices (od_set (ad_id device) (device, e.2) (aa_devices s)) s).
(** The device agent's [remove_device] *)
Definition remove_device (device_id : string) : M aa_state unit :=
  s ← get_state;
  _ ← lift (of_option KeyError (od_get device_id (aa_devices s)));
  raise NotImplementedError.

Definition find_port (device_id : string) (no : Z) (s : aa_state) : option aport :=
  od_get device_id (aa_devices s) ≫= λ e, od_get no e.2.
(** Writing to '/devices/<id>/ports/<no>': the device has to exist. *)
Definition put_port (device_id : string) (no : Z) (p : aport) : M aa_state unit :=
  s ← get_state;
  e ← lift (of_option KeyError (od_get device_id (aa_devices s)));
  modify (λ s, set_devices (od_set device_id (e.1, od_set no p e.2) (aa_devices s)) s).

(** One peer of a port that is being added. *)
Definition add_peer (me : peer_port) (p : aport) : aport :=
  if bool_decide (me ∈ p_peers (ap_port p)) then p
  else mk_aport (ap_device_id p)
         (mk_Port (p_no (ap_port p)) (p_type (ap_port p)) (p_peers (ap_port p) ++ [me]) (p_rest (ap_port p))).
Fixpoint link_peers (me : peer_port) (peers : list peer_port) : M aa_state unit :=
  match peers with
  | [] => mret tt
  | peer :: peers =>
      s ← get_state;
      p ← lift (of_option KeyError (find_port (peer_device_id peer) (peer_port_no peer) s));
      _ ← put_port (peer_device_id peer) (peer_port_no peer) (add_peer me p);
      link_peers me peers
  end.
Definition add_port (device_id : string) (port : Port) : M aa_state unit :=
  _ ← link_peers (mk_peer device_id (p_no port)) (p_peers port);
  put_port device_id (p_no port) (mk_aport device_id port).

(** ** Logical devices *)

(** The loop of [_find_first_available_id] *)
Fixpoint first_available (fuel : nat) (ids : list string) (datapath_ids : list N) (i : N) : result N :=
  match fuel with
  | 0 => Raise OutOfFuel
  | S fuel =>
      if bool_decide (i ∉ datapath_ids) && bool_decide (pretty i ∉ ids) then Ok i
      else first_available fuel ids datapath_ids (i + 1)
  end.
Definition find_first_available_id (fuel : nat) (s : aa_state) : result N :=
  first_available fuel (l_id ∘ fst ∘ snd <$> aa_logical s) (l_datapath_id ∘ fst ∘ snd <$> aa_logical s) 1.

Definition get_logical_device (logical_device_id : string) : M aa_state LogicalDev := λ s,
  (of_option KeyError (fst <$> od_get logical_device_id (aa_logical s)), s).

(** The operations of the agent of an adapter that subscribe to a topic *)
Section agent.
Context (adapter_name : string).

Definition create_logical_device (fuel : nat) (ld : LogicalDev) : M aa_state LogicalDev :=
  ld ← (if bool_decide (l_id ld = "")
        then s ← get_state;
             i ← lift (find_first_available_id fuel s);
             mret (mk_LogicalDev (pretty i) i (l_root_device_id ld))
        else mret ld);
  _ ← modify (λ s, set_logical (make_up_to_date_node (l_id ld) ld (aa_logical s)) s);
  _ ← modify (add_topic (adapter_name, PacketOut (l_id ld)));
  mret ld.

(** [uuid] is the result of [uuid4().hex[:12]]. *)
Definition child_device (uuid parent_device_id : string) (parent_port_no : Z) (child_device_type : string)
    (pa : proxy_address) (vlan : Z) : adevice :=
  mk_adevice uuid child_device_type false parent_device_id parent_port_no vlan DeviceAgent.ENABLED
    DeviceAgent.OPER_UNKNOWN CONNECT_UNKNOWN "" pa [].
Definition child_device_detected (uuid parent_device_id : string) (parent_port_no : Z) (child_device_type : string)
    (pa : proxy_address) (vlan : Z) : M aa_state unit :=
  let device := child_device uuid parent_device_id parent_port_no child_device_type pa vlan in
  _ ← modify (λ s, set_devices (make_up_to_date_node uuid device (aa_devices s)) s);
  modify (add_topic (adapter_name, TxProxy pa)).
Definition register_for_proxied_messages (pa : proxy_address) : M aa_state unit :=
  modify (add_topic (adapter_name, RxProxy pa)).
End agent.

(** The agents that a publication on a topic reaches, in the order in which they
    subscribed (EventBus) *)
Definition listeners (t : topic) (s : aa_state) : list string :=
  (filter (λ p : string * topic, p.2 = t) (aa_topics s)).*1.

Definition add_logical_port (logical_device_id : string) (port : LogicalPort) : M aa_state unit :=
  s ← get_state;
  e ← lift (of_option KeyError (od_get logical_device_id (aa_logical s)));
  modify (λ s, set_logical
    (od_set logical_device_id (e.1, make_up_to_date (lp_id port) port e.2) (aa_logical s)) s).

(** [get_port_out] of [receive_packet_out] *)
Fixpoint get_port_out (actions : list action) : option Z :=
  match actions with
  | [] => None
  | a :: actions => if bool_decide (a_type a = OUTPUT) then Some (a_output_port a) else get_port_out actions
  end.

(** [update_flows_incrementally] calls itself. *)
Fixpoint update_flows_incrementally (fuel : nat) (device : string) (flow_changes group_changes : Z)
    : M aa_state unit :=
  match fuel with
  | 0 => raise OutOfFuel
  | S fuel => update_flows_incrementally fuel device flow_changes group_changes
  end.

(** ** Ports and their peers *)

Lemma put_port_run device_id no p s :
  is_Some (od_get device_id (aa_devices s)) →
  ∃ s', put_port device_id no p s = (Ok tt, s') ∧
    (∀ d, is_Some (od_get d (aa_devices s')) ↔ is_Some (od_get d (aa_devices s))) ∧
    ∀ d n, find_port d n s' =
      if bool_decide (d = device_id ∧ n = no) then Some p else find_port d n s.
Proof.
  intros [e He]. eexists. split.
  { unfold put_port. erewrite M_bind_eq by done. by erewrite M_bind_eq by (unfold lift; by rewrite He). }
  split; [|intros d n]; cbn [aa_devices set_devices].
  - intros d. destruct (decide (device_id = d)) as [<-|Hne].
    + rewrite od_get_set, He. split; intros _; by eexists.
    + by rewrite od_get_set_ne.
  - unfold find_port. cbn [aa_devices set_devices].
    destruct (decide (device_id = d)) as [<-|Hne].
    + rewrite od_get_set, He. cbn [mbind option_bind snd].
      destruct (decide (n = no)) as [->|Hno].
      * by rewrite od_get_set, bool_decide_eq_true_2.
      * rewrite od_get_set_ne, bool_decide_eq_false_2 by naive_solver. done.
    + rewrite od_get_set_ne, bool_decide_eq_false_2 by naive_solver. done.
Qed.

Lemma add_peer_idemp me p : add_peer me (add_peer me p) = add_peer me p.
Proof.
  unfold add_peer. destruct (bool_decide_reflect (me ∈ p_peers (ap_port p))) as [Hin|Hni].
  - by rewrite bool_decide_eq_true_2.
  - rewrite bool_decide_eq_true_2; [done|]. cbn. apply elem_of_app. right. by left.
Qed.
Lemma add_peer_peers me p q :
  q ∈ p_peers (ap_port (add_peer me p)) ↔ q ∈ p_peers (ap_port p) ∨ q = me.
Proof.
  unfold add_peer. case_bool_decide; [naive_solver|]. cbn.
  by rewrite elem_of_app, list_elem_of_singleton.
Qed.

Lemma find_port_device d n s p : find_port d n s = Some p → is_Some (od_get d (aa_devices s)).
Proof. unfold find_port. destruct (od_get d (aa_devices s)); [by eexists|done]. Qed.

Lemma link_peers_run me peers s :
  Forall (λ q, is_Some (find_port (peer_device_id q) (peer_port_no q) s)) peers →
  ∃ s', link_peers me peers s = (Ok tt, s') ∧
    (∀ d, is_Some (od_get d (aa_devices s')) ↔ is_Some (od_get d (aa_devices s))) ∧
    ∀ d n, find_port d n s' =
      if bool_decide (mk_peer d n ∈ peers) then add_peer me <$> find_port d n s else find_port d n s.
Proof.
  revert s. induction peers as [|q peers IH]; intros s Hall.
  { exists s. split_and!; [done|done|]. intros d n. by rewrite bool_decide_eq_false_2 by apply not_elem_of_nil. }
  inversion_clear Hall as [|? ? [p Hp] Hrest]. cbn [link_peers]. erewrite M_bind_eq by done.
  erewrite M_bind_eq by (unfold lift; by rewrite Hp).
  destruct (put_port_run (peer_device_id q) (peer_port_no q) (add_peer me p) s) as (s1 & Hs1 & Hdev1 & Hfind1);
    [by eapply find_port_device|].
  erewrite M_bind_eq by done. destruct (IH s1) as (s' & Hs' & Hdev' & Hfind').
  { eapply Forall_impl; [done|]. intros r Hr. cbn. rewrite Hfind1. by case_bool_decide. }
  exists s'. split_and!; [done|intros d; by rewrite Hdev', Hdev1|].
  intros d n. rewrite Hfind', Hfind1.
  destruct (decide (mk_peer d n = q)) as [<-|Hne].
  - cbn [peer_device_id peer_port_no] in *.
    rewrite (bool_decide_eq_true_2 (d = d ∧ n = n)), (bool_decide_eq_true_2 (mk_peer d n ∈ mk_peer d n :: peers)), Hp
      by (done || left).
    cbn [fmap option_fmap option_map]. case_bool_decide; [by rewrite add_peer_idemp|done].
  - rewrite (bool_decide_eq_false_2 (d = _ ∧ _)) by (destruct q; naive_solver).
    rewrite (bool_decide_ext (mk_peer d n ∈ peers) (mk_peer d n ∈ q :: peers)); [done|].
    rewrite elem_of_cons. naive_solver.
Qed.

Lemma add_port_run device_id port s :
  is_Some (od_get device_id (aa_devices s)) →
  Forall (λ q, is_Some (find_port (peer_device_id q) (peer_port_no q) s)) (p_peers port) →
  ∃ s', add_port device_id port s = (Ok tt, s') ∧
    ∀ d n, find_port d n s' =
      if bool_decide (d = device_id ∧ n = p_no port) then Some (mk_aport device_id port)
      else if bool_decide (mk_peer d n ∈ p_peers port)
      then add_peer (mk_peer device_id (p_no port)) <$> find_port d n s
      else find_port d n s.
Proof.
  intros Hdev Hpeers.
  destruct (link_peers_run (mk_peer device_id (p_no port)) (p_peers port) s Hpeers) as (s1 & Hs1 & Hdev1 & Hf1).
  destruct (put_port_run device_id (p_no port) (mk_aport device_id port) s1) as (s' & Hs' & _ & Hf');
    [by rewrite Hdev1|].
  exists s'. split; [unfold add_port; by erewrite M_bind_eq|].
  intros d n. rewrite Hf', Hf1. done.
Qed.

(** Every peer of a stored port is stored and has that port as a peer. *)
Definition symmetric (s : aa_state) : Prop := ∀ d n p q,
  find_port d n s = Some p → q ∈ p_peers (ap_port p) →
  ∃ p', find_port (peer_device_id q) (peer_port_no q) s = Some p' ∧ mk_peer d n ∈ p_peers (ap_port p').

(** Add_port stores the port under its device, makes it a peer of each of its
    peers (once), and changes no other port. *)
Theorem add_port_spec device_id port s :
  is_Some (od_get device_id (aa_devices s)) →
  Forall (λ q, is_Some (find_port (peer_device_id q) (peer_port_no q) s)) (p_peers port) →
  ∃ s', add_port device_id port s = (Ok tt, s') ∧
    ∀ d n, find_port d n s' =
      if bool_decide (d = device_id ∧ n = p_no port) then Some (mk_aport device_id port)
      else if bool_decide (mk_peer d n ∈ p_peers port)
      then add_peer (mk_peer device_id (p_no port)) <$> find_port d n s
      else find_port d n s.
Proof. apply add_port_run. Qed.

(** Add_port keeps the peer relation of all ports symmetric, provided a port
    that is added again keeps the peers it had. *)
Theorem add_port_symmetric device_id port s s' :
  symmetric s → is_Some (od_get device_id (aa_devices s)) →
  Forall (λ q, is_Some (find_port (peer_device_id q) (peer_port_no q) s)) (p_peers port) →
  (∀ p q, find_port device_id (p_no port) s = Some p → q ∈ p_peers (ap_port p) → q ∈ p_peers port) →
  add_port device_id port s = (Ok tt, s') → symmetric s'.
Proof.
  intros Hsym Hdev Hpeers Hkeep Hrun.
  destruct (add_port_run device_id port s Hdev Hpeers) as (s1 & Hs1 & Hf). rewrite Hrun in Hs1.
  injection Hs1 as <-. set (me := mk_peer device_id (p_no port)) in *.
  (* the peers of a stored port afterwards: those before, and the new port *)
  assert (∀ d n p, find_port d n s' = Some p → ∀ q, q ∈ p_peers (ap_port p) →
    mk_peer d n = me ∧ q ∈ p_peers port ∨
    mk_peer d n ∈ p_peers port ∧ q = me ∨
    (∃ p0, find_port d n s = Some p0 ∧ q ∈ p_peers (ap_port p0))) as Hback.
  { intros d n p. rewrite Hf. repeat case_bool_decide; intros Hp q Hq.
    - injection Hp as <-. left. destruct_and!. by subst.
    - apply fmap_Some in Hp as (p0 & Hp0 & ->). apply add_peer_peers in Hq as [Hq | ->]; eauto.
    - eauto. }
  (* whatever was a peer stays one *)
  assert (∀ d n p0 q, find_port d n s = Some p0 → q ∈ p_peers (ap_port p0) →
    ∃ p, find_port d n s' = Some p ∧ q ∈ p_peers (ap_port p)) as Hfwd.
  { intros d n p0 q Hp0 Hq. rewrite Hf. repeat case_bool_decide.
    - destruct_and!. subst. eexists. split; [done|]. by eapply Hkeep.
    - rewrite Hp0. eexists. split; [done|]. apply add_peer_peers. by left.
    - eauto. }
  intros d n p q Hp Hq. destruct (Hback d n p Hp q Hq) as [[Hme Hq']|[[Hin ->]|(p0 & Hp0 & Hq0)]].
  - rewrite Hme. rewrite Hf. case_bool_decide as Hself.
    + destruct q as [qd qn]. cbn in *. destruct_and!. subst. eexists. split; [done|]. done.
    + rewrite bool_decide_eq_true_2 by (by destruct q).
      destruct (proj1 (Forall_forall _ _) Hpeers q Hq') as [pq Hpq]. rewrite Hpq.
      eexists. split; [done|]. apply add_peer_peers. by right.
  - exists (mk_aport device_id port). cbn [peer_device_id peer_port_no me].
    rewrite Hf, bool_decide_eq_true_2 by done. done.
  - destruct (Hsym d n p0 q Hp0 Hq0) as (p' & Hp' & Hq'). by eapply Hfwd.
Qed.

(** ** Identifiers of logical devices *)

Definition used (ids : list string) (dps : list N) (i : N) : Prop := i ∈ dps ∨ pretty i ∈ ids.

Lemma first_available_run fuel ids dps i :
  (∃ n, first_available fuel ids dps i = Ok n ∧ (i ≤ n)%N ∧ ¬ used ids dps n ∧
     ∀ j, (i ≤ j < n)%N → used ids dps j) ∨
  (first_available fuel ids dps i = Raise OutOfFuel ∧
   ∀ j, (i ≤ j < i + N.of_nat fuel)%N → used ids dps j).
Proof.
  revert i. induction fuel as [|fuel IH]; intros i; [right; split; [done|lia]|].
  cbn [first_available]. destruct (bool_decide_reflect (i ∉ dps)) as [H1|H1], (bool_decide_reflect (pretty i ∉ ids)) as [H2|H2]; cbn [andb].
  1: { left. exists i. split_and!; [done|lia| |lia]. by intros [?|?]. }
  all: assert (used ids dps i) as Hi by
         (first [apply dec_stable in H1; by left|apply dec_stable in H2; by right]).
  all: destruct (IH (i + 1)%N) as [(n & Hn & Hle & Hnu & Hlt)|[Hn Hall]]; rewrite Hn;
    [left; exists n; split_and!; [done|lia|done|]; intros j Hj;
       (destruct (decide (j = i)) as [->|]; [done|apply Hlt; lia])
    |right; split; [done|]; intros j Hj; (destruct (decide (j = i)) as [->|]; [done|apply Hall; lia])].
Qed.

Lemma filter_split_length {A} `{!EqDecision A} (k l : list A) :
  length l = length (filter (λ x, x ∈ k) l) + length (filter (λ x, x ∉ k) l).
Proof.
  induction l as [|x l IH]; [done|]. rewrite !filter_cons.
  destruct (decide (x ∈ k)), (decide (x ∉ k)); try tauto; simpl; lia.
Qed.
(** Fewer than [n] identifiers cannot use up [n] consecutive numbers. *)
Lemma used_bound ids dps i n :
  (∀ j, (i ≤ j < i + N.of_nat n)%N → used ids dps j) → n ≤ length dps + length ids.
Proof.
  intros Hall. set (l := (λ k, i + N.of_nat k)%N <$> seq 0 n).
  assert (NoDup l) as Hnd.
  { apply NoDup_fmap_2_strong; [intros; lia|apply NoDup_seq]. }
  assert (∀ x, x ∈ l → used ids dps x) as Hused.
  { intros x (k & -> & Hk)%list_elem_of_fmap. apply elem_of_seq in Hk. apply Hall. lia. }
  assert (length l = n) as Hlen by (unfold l; by rewrite length_fmap, length_seq).
  set (A := filter (λ x, x ∈ dps) l). set (B := filter (λ x, x ∉ dps) l).
  assert (length A ≤ length dps) as HA.
  { apply submseteq_length, NoDup_submseteq; [by apply NoDup_filter|].
    intros x [? _]%list_elem_of_filter. done. }
  assert (length (pretty <$> B) ≤ length ids) as HB.
  { apply submseteq_length, NoDup_submseteq.
    - apply NoDup_fmap_2; [apply _|by apply NoDup_filter].
    - intros x (y & -> & Hy)%list_elem_of_fmap. apply list_elem_of_filter in Hy as [Hny Hy].
      by destruct (Hused y Hy). }
  assert (length l = length A + length B) as Hsplit.
  { apply filter_split_length. }
  rewrite length_fmap in HB. lia.
Qed.

Lemma first_available_total fuel ids dps :
  length dps + length ids < fuel →
  ∃ n, first_available fuel ids dps 1 = Ok n ∧ (1 ≤ n)%N ∧ ¬ used ids dps n ∧
    ∀ j, (1 ≤ j < n)%N → used ids dps j.
Proof.
  intros Hfuel. destruct (first_available_run fuel ids dps 1) as [?|[_ Hall]]; [done|].
  apply used_bound in Hall. lia.
Qed.

(** _find_first_available_id terminates (after at most one more round than
    there are identifiers in use) and returns the least positive number that is
    neither the datapath id nor, in decimal, the id of a logical device. *)
Theorem find_first_available_id_least fuel s :
  2 * length (aa_logical s) < fuel →
  ∃ n, find_first_available_id fuel s = Ok n ∧ (1 ≤ n)%N ∧
    (∀ k ld ports, (k, (ld, ports)) ∈ aa_logical s → l_datapath_id ld ≠ n ∧ l_id ld ≠ pretty n) ∧
    ∀ j, (1 ≤ j < n)%N → ∃ k ld ports, (k, (ld, ports)) ∈ aa_logical s ∧
      (l_datapath_id ld = j ∨ l_id ld = pretty j).
Proof.
  intros Hfuel. unfold find_first_available_id.
  destruct (first_available_total fuel (l_id ∘ fst ∘ snd <$> aa_logical s)
    (l_datapath_id ∘ fst ∘ snd <$> aa_logical s)) as (n & Hn & Hpos & Hnu & Hlt).
  { rewrite !length_fmap. lia. }
  exists n. split_and!; [done|done| |].
  - intros k ld ports Hin. split; intros Heq; apply Hnu; [left|right];
      apply list_elem_of_fmap; exists (k, (ld, ports)); by rewrite <- Heq.
  - intros j Hj. destruct (Hlt j Hj) as [Hu|Hu];
      apply list_elem_of_fmap in Hu as ([k [ld ports]] & Heq & Hin); exists k, ld, ports; cbn in Heq; auto.
Qed.

Lemma create_logical_device_run adapter_name fuel s ld :
  2 * length (aa_logical s) < fuel → l_id ld = "" →
  (∀ k e, (k, e) ∈ aa_logical s → k = l_id e.1) →
  let ld' n := mk_LogicalDev (pretty n) n (l_root_device_id ld) in
  ∃ n, create_logical_device adapter_name fuel ld s =
      (Ok (ld' n), add_topic (adapter_name, PacketOut (pretty n))
                     (set_logical (aa_logical s ++ [(pretty n, (ld' n, []))]) s)) ∧
    ∀ k e, (k, e) ∈ aa_logical s → k ≠ pretty n ∧ l_datapath_id e.1 ≠ n.
Proof.
  intros Hfuel Hid Hkeys. cbv zeta.
  destruct (first_available_total fuel (l_id ∘ fst ∘ snd <$> aa_logical s)
    (l_datapath_id ∘ fst ∘ snd <$> aa_logical s)) as (n & Hn & _ & Hnu & _).
  { rewrite !length_fmap. lia. }
  assert (∀ k e, (k, e) ∈ aa_logical s → k ≠ pretty n ∧ l_datapath_id e.1 ≠ n) as Hfresh.
  { intros k e Hin. split.
    - intros ->. apply Hnu. right. apply list_elem_of_fmap. exists (pretty n, e).
      split; [exact (Hkeys _ _ Hin)|done].
    - intros Heq. apply Hnu. left. apply list_elem_of_fmap. exists (k, e).
      split; [symmetry; exact Heq|done]. }
  exists n. split; [|done]. unfold create_logical_device. rewrite bool_decide_eq_true_2 by done.
  rewrite M_bind_assoc. erewrite M_bind_eq by done. rewrite M_bind_assoc.
  erewrite M_bind_eq by (unfold lift, find_first_available_id; by rewrite Hn).
  erewrite M_bind_eq by done. erewrite M_bind_eq by done. erewrite M_bind_eq by reflexivity.
  cbn [l_id]. unfold make_up_to_date_node. destruct (od_get (pretty n) (aa_logical s)) as [e|] eqn:He; [|done].
  apply od_get_Some_elem in He. by destruct (Hfresh _ _ He).
Qed.

(** A logical device that is created without an id gets one that no other
    logical device has, and likewise a datapath id; it is added to the logical
    devices that were there, and the agent listens to its packet-out topic. *)
Theorem create_logical_device_fresh adapter_name fuel s ld :
  2 * length (aa_logical s) < fuel → l_id ld = "" →
  (∀ k e, (k, e) ∈ aa_logical s → k = l_id e.1) →
  let ld' n := mk_LogicalDev (pretty n) n (l_root_device_id ld) in
  ∃ n s', create_logical_device adapter_name fuel ld s = (Ok (ld' n), s') ∧
    aa_logical s' = aa_logical s ++ [(pretty n, (ld' n, []))] ∧
    (∀ k e, (k, e) ∈ aa_logical s → k ≠ pretty n ∧ l_datapath_id e.1 ≠ n) ∧
    aa_topics s' = aa_topics s ++ [(adapter_name, PacketOut (pretty n))].
Proof.
  intros Hfuel Hid Hkeys. destruct (create_logical_device_run adapter_name fuel s ld) as (n & Hrun & Hfresh); [done..|].
  eexists n, _. split; [exact Hrun|done].
Qed.

(** Update_flows_incrementally never returns and never reaches the adapter:
    it calls itself with the same arguments. *)
Theorem update_flows_incrementally_diverges fuel device fc gc s :
  update_flows_incrementally fuel device fc gc s = (Raise OutOfFuel, s).
Proof. induction fuel as [|fuel IH]; [done|]. exact IH. Qed.

(** ** Witnesses: an OLT whose PON port is known, and a new ONU *)

Definition demo_olt_port : Port := mk_Port 1 PON_OLT [] 1.
Definition demo_onu_port : Port := mk_Port 1 PON_ONU [mk_peer "olt" 1] 1.
Definition demo_device (id : string) : adevice :=
  mk_adevice id "" false "" 0 0 DeviceAgent.ENABLED DeviceAgent.ACTIVE REACHABLE "" (mk_proxy_address "" 0) [].
Definition demo : aa_state :=
  mk_aa [] [] [("olt", (demo_device "olt", [(1%Z, mk_aport "olt" demo_olt_port)]));
               ("onu", (demo_device "onu", []))] [] [] [] [].
Definition demo_linked : aa_state := (add_port "onu" demo_onu_port demo).2.

Lemma demo_peers_exist :
  Forall (λ q, is_Some (find_port (peer_device_id q) (peer_port_no q) demo)) (p_peers demo_onu_port).
Proof. repeat constructor. by eexists. Qed.
Lemma demo_symmetric : symmetric demo.
Proof.
  intros d n p q. unfold find_port, demo. cbn [aa_devices od_get].
  destruct (decide (d = "olt")); [|destruct (decide (d = "onu")); done].
  cbn [mbind option_bind snd od_get]. destruct (decide (n = 1%Z)); [|done].
  intros [= <-] Hq. by apply not_elem_of_nil in Hq.
Qed.

Lemma add_port_spec_witness :
  ∃ s', add_port "onu" demo_onu_port demo = (Ok tt, s') ∧
    find_port "olt" 1 s' = Some (mk_aport "olt" (mk_Port 1 PON_OLT [mk_peer "onu" 1] 1)).
Proof.
  destruct (add_port_spec "onu" demo_onu_port demo) as (s' & Hs & Hf).
  - eexists. reflexivity.
  - exact demo_peers_exist.
  - exists s'. split; [exact Hs|]. rewrite Hf. vm_compute. reflexivity.
Defined.

Lemma add_port_symmetric_witness : symmetric demo_linked.
Proof.
  apply (add_port_symmetric "onu" demo_onu_port demo).
  - exact demo_symmetric.
  - eexists. reflexivity.
  - exact demo_peers_exist.
  - intros p q Hp. vm_compute in Hp. discriminate.
  - vm_compute. reflexivity.
Defined.

Definition demo_logical : aa_state :=
  mk_aa [] [] [] [] [("1", (mk_LogicalDev "1" 7 "olt", [])); ("b", (mk_LogicalDev "b" 2 "olt", []))] [] [].
Lemma find_first_available_id_least_witness :
  find_first_available_id 5 demo_logical = Ok 3%N ∧
  ∃ n, find_first_available_id 5 demo_logical = Ok n ∧ (1 ≤ n)%N.
Proof.
  split; [vm_compute; reflexivity|].
  destruct (find_first_available_id_least 5 demo_logical) as (n & Hn & Hpos & _); [simpl; lia|].
  exists n. auto.
Defined.

Lemma create_logical_device_fresh_witness :
  ∃ n s', create_logical_device "a" 5 (mk_LogicalDev "" 0 "olt") demo_logical = (Ok (mk_LogicalDev (pretty n) n "olt"), s') ∧
    length (aa_logical s') = 3.
Proof.
  destruct (create_logical_device_fresh "a" 5 demo_logical (mk_LogicalDev "" 0 "olt")) as (n & s' & Hs & Hl & _).
  - simpl. lia.
  - reflexivity.
  - intros k e Hin. unfold demo_logical in Hin. cbn [aa_logical] in Hin.
    repeat (apply elem_of_cons in Hin as [[= -> ->]|Hin]; [reflexivity|]). by apply not_elem_of_nil in Hin.
  - exists n, s'. split; [exact Hs|]. rewrite Hl. reflexivity.
Defined.
End AdapterAgent.

(** ** The adapter loader (adapters/loader.py) *)

Module AdapterLoader.
Import AdapterAgent.

(** What a directory of adapters holds: an attribute of its module is an adapter
    class, one that [verifyClass] refuses, or something else. *)
Inductive attribute : Type := OtherAttribute | AdapterClass (cls : adapter_cls) | RefusedClass.
Inductive subdir : Type := NoModule | ImportFails | AccessFails | LoadedModule (attributes : list attribute).

(** [_find_adapters]: an import error skips the directory, any other exception
    is logged and ends the search; the flag says whether it goes on. *)
Fixpoint module_classes (adapter_name : string) (attributes : list attribute) : list (string * adapter_cls) * bool :=
  match attributes with
  | [] => ([], true)
  | OtherAttribute :: attributes => module_classes adapter_name attributes
  | RefusedClass :: _ => ([], false)
  | AdapterClass cls :: attributes =>
      let r := module_classes adapter_name attributes in ((adapter_name, cls) :: r.1, r.2)
  end.
Fixpoint find_adapters (subdirs : list (string * subdir)) : list (string * adapter_cls) :=
  match subdirs with
  | [] => []
  | (_, NoModule) :: subdirs | (_, ImportFails) :: subdirs => find_adapters subdirs
  | (_, AccessFails) :: _ => []
  | (adapter_name, LoadedModule attributes) :: subdirs =>
      let r := module_classes adapter_name attributes in
      r.1 ++ (if r.2 then find_adapters subdirs else [])
  end.

Record loader : Type := mk_loader { lo_aa : aa_state; lo_agents : list (string * adapter_cls) }.
Definition on_aa {A} (m : M aa_state A) : M loader A := λ s,
  let '(r, aa) := m (lo_aa s) in (r, mk_loader aa (lo_agents s)).

Fixpoint start_agents (found : list (string * adapter_cls)) : M loader unit :=
  match found with
  | [] => mret tt
  | (adapter_name, cls) :: found =>
      _ ← on_aa (AdapterAgent.start adapter_name cls);
      _ ← modify (λ s, mk_loader (lo_aa s) (od_set adapter_name cls (lo_agents s)));
      start_agents found
  end.
Definition start (subdirs : list (string * subdir)) : M loader unit := start_agents (find_adapters subdirs).

Fixpoint stop_agents (agents : list (string * adapter_cls)) : M loader unit :=
  match agents with
  | [] => mret tt
  | (adapter_name, cls) :: agents => _ ← on_aa (AdapterAgent.stop adapter_name cls); stop_agents agents
  end.
Definition stop : M loader unit :=
  s ← get_state;
  _ ← stop_agents (lo_agents s);
  modify (λ s, mk_loader (lo_aa s) []).
Definition get_agent (adapter_name : string) : M loader adapter_cls := λ s,
  (of_option KeyError (od_get adapter_name (lo_agents s)), s).

(** Every adapter that is found and can be started runs after the start. *)
Lemma start_runs name cls s : ac_init cls (get_adapter_config name s) = Ok tt → ac_start cls = Ok tt →
  name ∈ aa_running (AdapterAgent.start name cls s).2.
Proof.
  intros Hi Hs. unfold AdapterAgent.start. cbn [snd]. erewrite M_bind_eq by (unfold lift; by rewrite Hi).
  erewrite M_bind_eq by (unfold lift; by rewrite Hs). erewrite M_bind_eq by reflexivity.
  unfold update_adapter_node, update_device_types. destruct (decide ((ac_descriptor cls).1 = name)) as [Hn|Hn].
  - erewrite M_bind_eq; [|by erewrite M_bind_eq by (unfold lift; by rewrite bool_decide_true)].
    cbn. apply elem_of_app. right. left.
  - erewrite M_bind_Raise_eq; [|by erewrite M_bind_Raise_eq by (unfold lift; by rewrite bool_decide_false)].
    cbn. apply elem_of_app. right. left.
Qed.
End AdapterLoader.

(** ** The component registry (registry.py) *)

Module Registry.
Section registry.
Context {component : Type} (providedBy : component → bool).    (** [IComponent.providedBy] *)

Definition registry : Type := list (string * component).
Definition register (name : string) (c : component) : M registry component :=
  _ ← lift (assert_ (providedBy c));
  s ← get_state;
  _ ← lift (assert_ (bool_decide (name ∉ od_keys s)));
  _ ← modify (od_set name c);
  mret c.
Definition unregister (name : string) : M registry unit := modify (od_del name).
Definition call (name : string) : M registry component := λ s, (of_option KeyError (od_get name s), s).
Definition iterate (s : registry) : list component := od_values s.
End registry.
End Registry.
