(* ===== verification/PonAdapters.v ===== *)
(** * The adapters of the simulated PON (adapters/ponsim_olt, adapters/ponsim_onu)

    The adapter of the OLT and the adapter of the ONUs build the PON in the
    configuration through their agents, push flow tables to the simulator, the
    ONU's by way of the OLT, and carry packets of the controller in band.
    [callLater] and the event bus connect them; the simulator answers over gRPC
    (ponsim/grpc_server.py).  A device is a value here: an adapter changes the object
    it was given and stores it at once.  Packets on the wire are scapy's. *)

From stdpp Require Import prelude strings list pretty countable.
From S2P Require Import Prelude OFP FlowDecomposer DeviceGraph PonSim DeviceAgent AdapterAgent.
Import AdapterAgent.

Module PonAdapters.

(** ** Packets *)

Definition ETH_P_8021Q : Z := 0x8100.
Definition PACKET_IN_VLAN : Z := 4000.

(** Layers of scapy: an Ethernet header, VLAN tags, and what is above *)
Inductive payload (raw : Type) : Type :=
  | P_dot1q (prio vlan type : Z) (p : payload raw)
  | P_raw (r : raw).
Arguments P_dot1q {raw}.
Arguments P_raw {raw}.
Record ether (raw : Type) : Type := mk_ether {
  e_dst : string;
  e_src : string;
  e_type : Z;
  e_payload : payload raw;
}.
Arguments mk_ether {raw}.
Arguments e_dst {raw}.
Arguments e_src {raw}.
Arguments e_type {raw}.
Arguments e_payload {raw}.

(** Ethernet II: the type field is not a length; the one in front of a payload says
    whether it is a tag; tags fit their fields. *)
Fixpoint tags_ok {raw} (type : Z) (p : payload raw) : Prop :=
  match p with
  | P_dot1q prio vlan ty p =>
      type = ETH_P_8021Q ∧ (0 ≤ prio < 8)%Z ∧ (0 ≤ vlan < 4096)%Z ∧ tags_ok ty p
  | P_raw _ => type ≠ ETH_P_8021Q
  end.
Definition canonical {raw} (e : ether raw) : Prop :=
  (1536 ≤ e_type e)%Z ∧ tags_ok (e_type e) (e_payload e).

(** Dissecting and building, and the filter '(ether[14:2] & 0xfff) = 0xfa0'.  Of
    strings that scapy does not dissect as Ethernet II (shorter than a header, or
    with a length in place of the type) nothing is assumed: they give packets that
    are not canonical. *)
Class Packets : Type := {
  raw : Type;
  Ether : string → ether raw;
  packet_str : ether raw → string;
  is_inband_frame : string → bool;
}.
Class PacketLaws `{Packets} : Prop := {
  Ether_str e : canonical e → Ether (packet_str e) = e;
  str_Ether m : canonical (Ether m) → packet_str (Ether m) = m;
  inband_vlan dst src prio vlan ty p : canonical (mk_ether dst src ETH_P_8021Q (P_dot1q prio vlan ty p)) →
    is_inband_frame (packet_str (mk_ether dst src ETH_P_8021Q (P_dot1q prio vlan ty p))) =
    bool_decide (vlan = PACKET_IN_VLAN);
}.

(** The results of [uuid4().hex[:12]], in order *)
Class Uuid : Type := { uuid4_hex12 : nat → string }.

(** ** State *)

(** What the adapters send each other: a FlowTable, and the simulator's answer *)
Inductive proxied : Type := FlowTable (port : Z) (flows : list flow_stats) | EmptyMsg.

Record olt_handler : Type := mk_olt_handler {
  oh_channel : option string;
  oh_io_port : option string;                (** the interface it is open on *)
  oh_logical_device_id : option string;
}.
(** The queue of an ONU handler is a DeferredQueue: pending messages, and the
    calls that wait for one. *)
Record onu_handler : Type := mk_onu_handler {
  nh_proxy_address : option proxy_address;
  nh_pending : list proxied;
  nh_waiting : list nat;
}.
Inductive adapter : Type := Olt | Onu.

Section adapters.
Context `{!Scapy, !Packets, !Uuid}.

Record pon : Type := mk_pon {
  pn_aa : aa_state;                              (** the configuration and the subscriptions *)
  pn_olts : list (string * olt_handler);         (** devices_handlers of the OLT adapter *)
  pn_ldi : list (string * string);               (** logical_device_id_to_root_device_id *)
  pn_onus : list (string * onu_handler);         (** devices_handlers of the ONU adapter *)
  pn_sims : list (string * sim);                 (** simulators, by host and port *)
  pn_ifaces : list (string * string);            (** frameio: interface to OLT device *)
  pn_sent : list (string * string);              (** frames sent, with their interface *)
  pn_packet_ins : list (string * Z * string);    (** what [send_packet_in] published *)
  pn_later : list (adapter * adevice);           (** [reactor.callLater(0, activate, device)] *)
  pn_uuids : nat;                                (** calls of [uuid4] so far *)
  pn_calls : nat;                                (** flow table pushes of ONUs so far *)
  pn_done : list nat;                            (** those that have returned *)
}.

Definition on_aa {A} (m : M aa_state A) : M pon A := λ w,
  let '(r, s) := m (pn_aa w) in
  (r, mk_pon s (pn_olts w) (pn_ldi w) (pn_onus w) (pn_sims w) (pn_ifaces w) (pn_sent w) (pn_packet_ins w)
        (pn_later w) (pn_uuids w) (pn_calls w) (pn_done w)).
Definition set_olts x (w : pon) : pon :=
  mk_pon (pn_aa w) x (pn_ldi w) (pn_onus w) (pn_sims w) (pn_ifaces w) (pn_sent w) (pn_packet_ins w)
    (pn_later w) (pn_uuids w) (pn_calls w) (pn_done w).
Definition set_ldi x (w : pon) : pon :=
  mk_pon (pn_aa w) (pn_olts w) x (pn_onus w) (pn_sims w) (pn_ifaces w) (pn_sent w) (pn_packet_ins w)
    (pn_later w) (pn_uuids w) (pn_calls w) (pn_done w).
Definition set_onus x (w : pon) : pon :=
  mk_pon (pn_aa w) (pn_olts w) (pn_ldi w) x (pn_sims w) (pn_ifaces w) (pn_sent w) (pn_packet_ins w)
    (pn_later w) (pn_uuids w) (pn_calls w) (pn_done w).
Definition set_sims x (w : pon) : pon :=
  mk_pon (pn_aa w) (pn_olts w) (pn_ldi w) (pn_onus w) x (pn_ifaces w) (pn_sent w) (pn_packet_ins w)
    (pn_later w) (pn_uuids w) (pn_calls w) (pn_done w).
Definition set_ifaces x (w : pon) : pon :=
  mk_pon (pn_aa w) (pn_olts w) (pn_ldi w) (pn_onus w) (pn_sims w) x (pn_sent w) (pn_packet_ins w)
    (pn_later w) (pn_uuids w) (pn_calls w) (pn_done w).
Definition set_sent x (w : pon) : pon :=
  mk_pon (pn_aa w) (pn_olts w) (pn_ldi w) (pn_onus w) (pn_sims w) (pn_ifaces w) x (pn_packet_ins w)
    (pn_later w) (pn_uuids w) (pn_calls w) (pn_done w).
Definition set_packet_ins x (w : pon) : pon :=
  mk_pon (pn_aa w) (pn_olts w) (pn_ldi w) (pn_onus w) (pn_sims w) (pn_ifaces w) (pn_sent w) x
    (pn_later w) (pn_uuids w) (pn_calls w) (pn_done w).
Definition set_later x (w : pon) : pon :=
  mk_pon (pn_aa w) (pn_olts w) (pn_ldi w) (pn_onus w) (pn_sims w) (pn_ifaces w) (pn_sent w) (pn_packet_ins w)
    x (pn_uuids w) (pn_calls w) (pn_done w).
Definition set_uuids x (w : pon) : pon :=
  mk_pon (pn_aa w) (pn_olts w) (pn_ldi w) (pn_onus w) (pn_sims w) (pn_ifaces w) (pn_sent w) (pn_packet_ins w)
    (pn_later w) x (pn_calls w) (pn_done w).
Definition set_calls c d (w : pon) : pon :=
  mk_pon (pn_aa w) (pn_olts w) (pn_ldi w) (pn_onus w) (pn_sims w) (pn_ifaces w) (pn_sent w) (pn_packet_ins w)
    (pn_later w) (pn_uuids w) c d.

(** ** The simulator's gRPC service *)

(** A call fails when there is no simulator, or when its handler does. *)
Definition rpc {A} (channel : string) (m : M sim A) : M pon A := λ w,
  match od_get channel (pn_sims w) with
  | None => (Raise GenericException, w)
  | Some s =>
      match m s with
      | (Ok a, s') => (Ok a, set_sims (od_set channel s' (pn_sims w)) w)
      | (Raise _, s') => (Raise GenericException, set_sims (od_set channel s' (pn_sims w)) w)
      end
  end.
(** [FlowUpdateHandler.GetDeviceInfo]: the NNI port and the UNI ports *)
Definition GetDeviceInfo : M sim (Z * list Z) :=
  s ← get_state;
  match get_ports s with
  | nni :: unis => mret (nni, unis)
  | [] => raise IndexError
  end.
(** [FlowUpdateHandler.UpdateFlowTable]: port 0 is the OLT *)
Definition UpdateFlowTable (port : Z) (flows : list flow_stats) : M sim unit :=
  if bool_decide (port = 0%Z) then install 0 flows else install port flows.

(** ** Messages *)

Definition port_rest (label : string) : positive := encode (label, "ENABLED", "ACTIVE").
Definition nni_port : Port := mk_Port 2 ETHERNET_NNI [] (port_rest "NNI facing Ethernet port").
Definition olt_pon_port : Port := mk_Port 1 PON_OLT [] (port_rest "PON port").
Definition uni_port : Port := mk_Port 2 ETHERNET_UNI [] (port_rest "UNI facing Ethernet port").
Definition onu_pon_port (device : adevice) : Port :=
  mk_Port 1 PON_ONU [mk_peer (ad_parent_id device) (ad_parent_port_no device)] (port_rest "PON port").
(** [LogicalDevice(..., root_device_id=device.id)], without an id *)
Definition new_ld (device : adevice) : LogicalDev := mk_LogicalDev "" 0 (ad_id device).
Definition nni_logical_port (device : adevice) (nni : Z) : LogicalPort :=
  mk_LogicalPort "nni" (ad_id device) (p_no nni_port) nni true.
Definition uni_logical_port (device : adevice) : LogicalPort :=
  let port_no := pa_channel_id (ad_proxy_address device) in
  mk_LogicalPort ("uni-" +:+ pretty port_no) (ad_id device) (p_no uni_port) port_no false.

(** Assignments to fields of a device *)
Definition failed (reason : string) (d : adevice) : adevice :=
  mk_adevice (ad_id d) (ad_type d) (ad_root d) (ad_parent_id d) (ad_parent_port_no d) (ad_vlan d)
    (ad_admin_state d) DeviceAgent.FAILED (ad_connect_status d) (ad_host_and_port d) (ad_proxy_address d)
    (od_set "reason" reason (ad_info d)).
Definition populate (info : list (string * string)) (d : adevice) : adevice :=
  mk_adevice (ad_id d) (ad_type d) true (ad_parent_id d) (ad_parent_port_no d) (ad_vlan d)
    (ad_admin_state d) (ad_oper_status d) REACHABLE (ad_host_and_port d) (ad_proxy_address d)
    (foldl (λ m kv, od_set kv.1 kv.2 m) (ad_info d) info).
Definition set_parent (parent_id : string) (d : adevice) : adevice :=
  mk_adevice (ad_id d) (ad_type d) (ad_root d) parent_id (ad_parent_port_no d) (ad_vlan d)
    (ad_admin_state d) (ad_oper_status d) (ad_connect_status d) (ad_host_and_port d) (ad_proxy_address d) (ad_info d).
Definition set_oper (o : DeviceAgent.OperStatus) (d : adevice) : adevice :=
  mk_adevice (ad_id d) (ad_type d) (ad_root d) (ad_parent_id d) (ad_parent_port_no d) (ad_vlan d)
    (ad_admin_state d) o (ad_connect_status d) (ad_host_and_port d) (ad_proxy_address d) (ad_info d).

(** ** The ONU adapter *)

Definition get_onu (device_id : string) : M pon onu_handler := λ w,
  (of_option KeyError (od_get device_id (pn_onus w)), w).
Definition put_onu (device_id : string) (h : onu_handler) : M pon unit :=
  modify (λ w, set_onus (od_set device_id h (pn_onus w)) w).

Definition onu_adopt_device (device : adevice) : M pon unit :=
  _ ← put_onu (ad_id device) (mk_onu_handler None [] []);
  modify (λ w, set_later (pn_later w ++ [(Onu, device)]) w).

(** [PonSimOnuHandler.activate] *)
Definition onu_activate (device : adevice) : M pon unit :=
  let id := ad_id device in
  let pa := ad_proxy_address device in
  _ ← lift (assert_ (bool_decide (ad_parent_id device ≠ "")));
  _ ← lift (assert_ (bool_decide (pa_device_id pa ≠ "")));
  _ ← lift (assert_ (bool_decide (pa_channel_id pa ≠ 0%Z)));
  h ← get_onu id;
  _ ← put_onu id (mk_onu_handler (Some pa) (nh_pending h) (nh_waiting h));
  _ ← on_aa (register_for_proxied_messages "ponsim_onu" pa);
  let device := populate [("vendor", "ponsim"); ("model", "n/a")] device in
  _ ← on_aa (update_device device);
  _ ← on_aa (add_port id uni_port);
  _ ← on_aa (add_port id (onu_pon_port device));
  parent_device ← on_aa (get_device (ad_parent_id device));
  let logical_device_id := ad_parent_id parent_device in
  _ ← lift (assert_ (bool_decide (logical_device_id ≠ "")));
  _ ← on_aa (add_logical_port logical_device_id (uni_logical_port device));
  device ← on_aa (get_device id);
  on_aa (update_device (set_oper DeviceAgent.ACTIVE device)).

(** [DeferredQueue.put]: the first call that waits goes on and returns. *)
Definition receive_message (device_id : string) (msg : proxied) : M pon unit :=
  h ← get_onu device_id;
  match nh_waiting h with
  | call :: waiting =>
      _ ← put_onu device_id (mk_onu_handler (nh_proxy_address h) (nh_pending h) waiting);
      modify (λ w, set_calls (pn_calls w) (pn_done w ++ [call]) w)
  | [] => put_onu device_id (mk_onu_handler (nh_proxy_address h) (nh_pending h ++ [msg]) [])
  end.
(** [PonSimOnuAdapter.receive_proxied_message] *)
Definition onu_receive_proxied_message (pa : proxy_address) (msg : proxied) : M pon unit :=
  _ ← get_onu (pa_device_id pa);
  receive_message (pa_device_id pa) msg.

(** ** The event bus between the adapters *)

(** A callback's exception is logged by the bus (EventBus). *)
Definition logged (m : M pon unit) : M pon unit := λ w, (Ok tt, (m w).2).
Fixpoint run_each (f : string → M pon unit) (agents : list string) : M pon unit :=
  match agents with
  | [] => mret tt
  | a :: agents => _ ← logged (f a); run_each f agents
  end.
Definition publish_topic (t : topic) (callback : string → M pon unit) : M pon unit :=
  w ← get_state;
  run_each callback (listeners t (pn_aa w)).

(** [AdapterAgent.receive_proxied_message]: to the adapters that registered;
    the OLT adapter's [receive_proxied_message] is not implemented. *)
Definition receive_proxied_message (pa : proxy_address) (msg : proxied) : M pon unit :=
  publish_topic (RxProxy pa) (λ agent,
    if bool_decide (agent = "ponsim_onu") then onu_receive_proxied_message pa msg
    else raise NotImplementedError).

(** ** The OLT adapter *)

Definition get_olt (device_id : string) : M pon olt_handler := λ w,
  (of_option KeyError (od_get device_id (pn_olts w)), w).
Definition put_olt (device_id : string) (h : olt_handler) : M pon unit :=
  modify (λ w, set_olts (od_set device_id h (pn_olts w)) w).

Definition olt_adopt_device (device : adevice) : M pon unit :=
  _ ← put_olt (ad_id device) (mk_olt_handler None None None);
  modify (λ w, set_later (pn_later w ++ [(Olt, device)]) w).

Definition get_channel (device_id : string) : M pon string :=
  h ← get_olt device_id;
  match oh_channel h with
  | Some c => mret c
  | None =>
      device ← on_aa (get_device device_id);
      _ ← put_olt device_id (mk_olt_handler (Some (ad_host_and_port device)) (oh_io_port h) (oh_logical_device_id h));
      mret (ad_host_and_port device)
  end.

(** A device that is added is enabled, so its agent activates it: the ONU
    adapter adopts it (core.py, device_agent.py). *)
Definition core_add_device (device : adevice) : M pon unit :=
  let device := set_oper DeviceAgent.ACTIVATING device in
  _ ← on_aa (update_device device);
  onu_adopt_device device.

Definition next_uuid : M pon string := λ w, (Ok (uuid4_hex12 (pn_uuids w)), set_uuids (S (pn_uuids w)) w).

(** The loop over [info.uni_ports] *)
Fixpoint detect_onus (device_id : string) (ports : list Z) : M pon unit :=
  match ports with
  | [] => mret tt
  | port_no :: ports =>
      let pa := mk_proxy_address device_id port_no in
      uuid ← next_uuid;
      _ ← on_aa (child_device_detected "ponsim_olt" uuid device_id 1 "ponsim_onu" pa port_no);
      _ ← core_add_device (child_device uuid device_id 1 "ponsim_onu" pa port_no);
      detect_onus device_id ports
  end.

(** [FrameIOManager.add_interface] *)
Definition add_interface (iface : string) (device_id : string) : M pon unit :=
  w ← get_state;
  _ ← lift (assert_ (bool_decide (od_get iface (pn_ifaces w) = None)));
  modify (λ w, set_ifaces (pn_ifaces w ++ [(iface, device_id)]) w).

(** [PonSimOltHandler.activate]; [iface] is the interface of the arguments. *)
Definition olt_activate (fuel : nat) (iface : string) (device : adevice) : M pon unit :=
  let id := ad_id device in
  if bool_decide (ad_host_and_port device = "") then
    on_aa (update_device (failed "No host_and_port field provided" device))
  else
    channel ← get_channel id;
    info ← rpc channel GetDeviceInfo;
    let device := populate [("vendor", "ponsim"); ("model", "n/a"); ("serial_number", ad_host_and_port device)] device in
    _ ← on_aa (update_device device);
    _ ← on_aa (add_port id nni_port);
    _ ← on_aa (add_port id olt_pon_port);
    ld_initialized ← on_aa (create_logical_device "ponsim_olt" fuel (new_ld device));
    _ ← on_aa (add_logical_port (l_id ld_initialized) (nni_logical_port device info.1));
    device ← on_aa (get_device id);
    _ ← on_aa (update_device (set_oper DeviceAgent.ACTIVE (set_parent (l_id ld_initialized) device)));
    h ← get_olt id;
    _ ← put_olt id (mk_olt_handler (oh_channel h) (oh_io_port h) (Some (l_id ld_initialized)));
    _ ← detect_onus id info.2;
    _ ← add_interface iface id;
    h ← get_olt id;
    put_olt id (mk_olt_handler (oh_channel h) (Some iface) (oh_logical_device_id h)).

(** ** Flow tables *)

(** [update_flows_bulk] of the OLT *)
Definition olt_update_flow_table (device_id : string) (flows : list flow_stats) : M pon unit :=
  channel ← get_channel device_id;
  rpc channel (UpdateFlowTable 0 flows).
Definition olt_update_flows_bulk (device_id : string) (flows : list flow_stats) (groups : list group_entry) : M pon unit :=
  _ ← lift (assert_ (bool_decide (length groups = 0)));
  _ ← get_olt device_id;
  olt_update_flow_table device_id flows.

(** [PonSimOltAdapter.send_proxied_message]: the simulator's answer goes back to
    the proxy address. *)
Definition olt_send_proxied_message (pa : proxy_address) (msg : proxied) : M pon unit :=
  _ ← get_olt (pa_device_id pa);
  match msg with
  | FlowTable port flows =>
      channel ← get_channel (pa_device_id pa);
      _ ← rpc channel (UpdateFlowTable port flows);
      receive_proxied_message pa EmptyMsg
  | EmptyMsg => mret tt
  end.
(** [AdapterAgent.send_proxied_message]; the ONU adapter's only logs. *)
Definition send_proxied_message (pa : proxy_address) (msg : proxied) : M pon unit :=
  publish_topic (TxProxy pa) (λ agent,
    if bool_decide (agent = "ponsim_olt") then olt_send_proxied_message pa msg else mret tt).

(** [PonSimOnuHandler.update_flow_table], up to its last yield: the call returns
    at once or waits for a message.  Its number is the result. *)
Definition onu_update_flow_table (device_id : string) (flows : list flow_stats) : M pon nat :=
  w ← get_state;
  let call := pn_calls w in
  _ ← modify (set_calls (S call) (pn_done w));
  h ← get_onu device_id;
  _ ← put_onu device_id (mk_onu_handler (nh_proxy_address h) [] (nh_waiting h));
  pa ← lift (of_option AttributeError (nh_proxy_address h));
  _ ← send_proxied_message pa (FlowTable (pa_channel_id pa) flows);
  h ← get_onu device_id;
  match nh_pending h with
  | _ :: pending =>
      _ ← put_onu device_id (mk_onu_handler (nh_proxy_address h) pending (nh_waiting h));
      _ ← modify (λ w, set_calls (pn_calls w) (pn_done w ++ [call]) w);
      mret call
  | [] =>
      _ ← put_onu device_id (mk_onu_handler (nh_proxy_address h) [] (nh_waiting h ++ [call]));
      mret call
  end.
Definition onu_update_flows_bulk (device_id : string) (flows : list flow_stats) (groups : list group_entry) : M pon nat :=
  _ ← lift (assert_ (bool_decide (length groups = 0)));
  _ ← get_onu device_id;
  onu_update_flow_table device_id flows.

(** ** Packets of the controller *)

(** [PonSimOltHandler.packet_out] *)
Definition inband (egress_port : Z) (pkt : ether raw) : ether raw :=
  mk_ether (e_dst pkt) (e_src pkt) ETH_P_8021Q
    (P_dot1q 0 4000 ETH_P_8021Q (P_dot1q 0 egress_port (e_type pkt) (e_payload pkt))).
Definition packet_out (device_id : string) (egress_port : Z) (msg : string) : M pon unit :=
  h ← get_olt device_id;
  iface ← lift (of_option AttributeError (oh_io_port h));
  modify (λ w, set_sent (pn_sent w ++ [(iface, packet_str (inband egress_port (Ether msg)))]) w).

(** [PonSimOltAdapter.receive_packet_out], with [ldi_to_di] *)
Definition ldi_to_di (ldi : string) : M pon string :=
  w ← get_state;
  match od_get ldi (pn_ldi w) with
  | Some di => mret di
  | None =>
      logical_device ← on_aa (get_logical_device ldi);
      _ ← modify (λ w, set_ldi (od_set ldi (l_root_device_id logical_device) (pn_ldi w)) w);
      mret (l_root_device_id logical_device)
  end.
Definition receive_packet_out (logical_device_id : string) (egress_port_no : Z) (msg : string) : M pon unit :=
  device_id ← ldi_to_di logical_device_id;
  packet_out device_id egress_port_no msg.

(** [PonSimOltHandler.rcv_io] *)
Definition send_packet_in (logical_device_id : option string) (logical_port_no : Z) (packet : string) : M pon unit :=
  ldi ← lift (of_option TypeError logical_device_id);
  modify (λ w, set_packet_ins (pn_packet_ins w ++ [(ldi, logical_port_no, packet)]) w).
Definition rcv_io (device_id : string) (frame : string) : M pon unit :=
  let pkt := Ether frame in
  match e_payload pkt with
  | P_dot1q _ _ _ (P_dot1q _ cvid type p) =>
      h ← get_olt device_id;
      send_packet_in (oh_logical_device_id h) cvid (packet_str (mk_ether (e_dst pkt) (e_src pkt) type p))
  | _ => mret tt
  end.
(** [FrameIOPort.recv] with the filter of the OLT; [_dispatch] logs exceptions. *)
Definition io_recv (iface : string) (frame : string) : M pon unit :=
  w ← get_state;
  match od_get iface (pn_ifaces w) with
  | Some device_id => if is_inband_frame frame then logged (rcv_io device_id frame) else mret tt
  | None => mret tt
  end.

(** ** The reactor *)

(** A call that is due runs; an exception of it is logged. *)
Definition run_later (fuel : nat) (iface : string) (call : adapter * adevice) : M pon unit :=
  match call.1 with
  | Olt => olt_activate fuel iface call.2
  | Onu => onu_activate call.2
  end.
Inductive step (fuel : nat) (iface : string) (w : pon) : pon → Prop :=
  | step_later l1 call l2 :
      pn_later w = l1 ++ call :: l2 →
      step fuel iface w (run_later fuel iface call (set_later (l1 ++ l2) w)).2.
End adapters.
End PonAdapters.
