(* ===== verification/PonAdaptersSpec.v ===== *)
(** * The adapters of the simulated PON: what they build

    From a new OLT, the pending activations build the PON in the configuration,
    whatever their order; then flow tables reach the simulator, and packets in
    band carry the port of the controller. *)

From Stdlib Require Import Ascii.
From stdpp Require Import prelude strings pretty countable list.
From S2P Require Import Prelude OFP FlowDecomposer DeviceGraph LogicalDevice PonSim FlowDemo PonSimSpec DeviceAgent AdapterAgent PonAdapters.
Import AdapterAgent PonAdapters.

(** ** The operations of the agent, on devices and ports that exist *)

Lemma update_device_eq d s e : od_get (ad_id d) (aa_devices s) = Some e →
  update_device d s = (Ok tt, set_devices (od_set (ad_id d) (d, e.2) (aa_devices s)) s).
Proof.
  intros He. unfold update_device. erewrite (M_bind_eq get_state _ s s s) by reflexivity.
  by erewrite M_bind_eq by (unfold lift; rewrite He; reflexivity).
Qed.
Lemma get_device_eq id s e : od_get id (aa_devices s) = Some e → get_device id s = (Ok e.1, s).
Proof. intros He. unfold get_device. by rewrite He. Qed.
Lemma put_port_eq id no p s e : od_get id (aa_devices s) = Some e →
  put_port id no p s = (Ok tt, set_devices (od_set id (e.1, od_set no p e.2) (aa_devices s)) s).
Proof.
  intros He. unfold put_port. erewrite (M_bind_eq get_state _ s s s) by reflexivity.
  by erewrite M_bind_eq by (unfold lift; rewrite He; reflexivity).
Qed.
Lemma add_port_alone id port s e : od_get id (aa_devices s) = Some e → p_peers port = [] →
  add_port id port s =
  (Ok tt, set_devices (od_set id (e.1, od_set (p_no port) (mk_aport id port) e.2) (aa_devices s)) s).
Proof. intros He Hp. unfold add_port. rewrite Hp. erewrite M_bind_eq by reflexivity. by apply put_port_eq. Qed.
Lemma add_port_peer id port q s e qe p :
  p_peers port = [q] → peer_device_id q ≠ id → od_get id (aa_devices s) = Some e →
  od_get (peer_device_id q) (aa_devices s) = Some qe → od_get (peer_port_no q) qe.2 = Some p →
  add_port id port s =
  (Ok tt, set_devices (od_set id (e.1, od_set (p_no port) (mk_aport id port) e.2)
     (od_set (peer_device_id q) (qe.1, od_set (peer_port_no q) (add_peer (mk_peer id (p_no port)) p) qe.2)
        (aa_devices s))) s).
Proof.
  intros Hp Hne He Hq Hqp. unfold add_port. rewrite Hp. cbn [link_peers].
  set (s1 := set_devices (od_set (peer_device_id q)
    (qe.1, od_set (peer_port_no q) (add_peer (mk_peer id (p_no port)) p) qe.2) (aa_devices s)) s).
  erewrite (M_bind_eq _ _ s tt s1).
  - erewrite put_port_eq; [reflexivity|]. cbn. by rewrite od_get_set_ne by done.
  - erewrite (M_bind_eq get_state _ s s s) by reflexivity.
    erewrite (M_bind_eq _ _ s p s) by (unfold lift, find_port; rewrite Hq; cbn; by rewrite Hqp).
    by erewrite M_bind_eq by (by apply put_port_eq).
Qed.
Lemma add_logical_port_eq ldi port s e : od_get ldi (aa_logical s) = Some e →
  add_logical_port ldi port s =
  (Ok tt, set_logical (od_set ldi (e.1, make_up_to_date (lp_id port) port e.2) (aa_logical s)) s).
Proof.
  intros He. unfold add_logical_port. erewrite (M_bind_eq get_state _ s s s) by reflexivity.
  by erewrite M_bind_eq by (unfold lift; rewrite He; reflexivity).
Qed.
Lemma listeners_add t a t' s :
  listeners t (add_topic (a, t') s) = listeners t s ++ (if decide (t' = t) then [a] else []).
Proof. unfold listeners. cbn. rewrite filter_app, fmap_app. f_equal. rewrite filter_cons. cbn. by case_decide. Qed.
Lemma make_up_to_date_new {D} key (data : D) c : od_get key c = None → make_up_to_date key data c = c ++ [(key, data)].
Proof. unfold make_up_to_date. by intros ->. Qed.
Lemma make_up_to_date_node_new {D K V} key (data : D) (c : list (string * (D * list (K * V)))) :
  od_get key c = None → make_up_to_date_node key data c = od_set key (data, []) c.
Proof. intros Hk. unfold make_up_to_date_node. rewrite Hk. symmetry. apply od_set_notin. by apply od_get_None. Qed.
Lemma pretty_port_inj (x y : Z) : pretty x = pretty y → x = y.
Proof. apply (inj pretty). Qed.

Section spec.
Context `{!Scapy, !Packets, !Uuid}.

(** ** The PON of an OLT *)

Definition set_aa (s : aa_state) (w : pon) : pon :=
  mk_pon s (pn_olts w) (pn_ldi w) (pn_onus w) (pn_sims w) (pn_ifaces w) (pn_sent w) (pn_packet_ins w)
    (pn_later w) (pn_uuids w) (pn_calls w) (pn_done w).
Lemma on_aa_eq {A} (m : M aa_state A) w a s : m (pn_aa w) = (Ok a, s) → on_aa m w = (Ok a, set_aa s w).
Proof. unfold on_aa. by intros ->. Qed.

(** A child: the id of its device and its port at the simulator *)
Notation child := (string * Z)%type (only parsing).

Section olt.
Context (id host : string).

Definition child_pa (c : child) : proxy_address := mk_proxy_address id c.2.
Definition adopted (c : child) : adevice :=
  set_oper DeviceAgent.ACTIVATING (child_device c.1 id 1 "ponsim_onu" (child_pa c) c.2).
Definition onu_final (c : child) : adevice :=
  set_oper DeviceAgent.ACTIVE (populate [("vendor", "ponsim"); ("model", "n/a")] (adopted c)).
Definition onu_ports (c : child) : list (Z * aport) :=
  [(2%Z, mk_aport c.1 uni_port); (1%Z, mk_aport c.1 (mk_Port 1 PON_ONU [mk_peer id 1] (port_rest "PON port")))].
Definition olt_final (ldi : string) (d : adevice) : adevice :=
  set_oper DeviceAgent.ACTIVE (set_parent ldi
    (populate [("vendor", "ponsim"); ("model", "n/a"); ("serial_number", ad_host_and_port d)] d)).
Definition olt_ports (done : list child) : list (Z * aport) :=
  [(2%Z, mk_aport id nni_port);
   (1%Z, mk_aport id (mk_Port 1 PON_OLT (map (λ c, mk_peer c.1 1%Z) done) (port_rest "PON port")))].
Definition logical_ports (nni : Z) (done : list child) : list (string * LogicalPort) :=
  ("nni", mk_LogicalPort "nni" id 2 nni true) ::
  map (λ c, let n := "uni-" +:+ pretty c.2 in (n, mk_LogicalPort n c.1 2 c.2 false)) done.

(** The configuration when the ONUs [done] are active and [todo] are adopted *)
Record built (d : adevice) (ld : LogicalDev) (nni : Z) (done todo : list child) (s : aa_state) : Prop := mk_built {
  b_olt : od_get id (aa_devices s) = Some (olt_final (l_id ld) d, olt_ports done);
  b_done c : c ∈ done → od_get c.1 (aa_devices s) = Some (onu_final c, onu_ports c);
  b_todo c : c ∈ todo → od_get c.1 (aa_devices s) = Some (adopted c, []);
  b_logical : od_get (l_id ld) (aa_logical s) = Some (ld, logical_ports nni done);
  b_tx c : c ∈ done ++ todo → listeners (TxProxy (child_pa c)) s = ["ponsim_olt"];
  b_rx c : c ∈ done → listeners (RxProxy (child_pa c)) s = ["ponsim_onu"];
  b_rx_todo c : c ∈ todo → listeners (RxProxy (child_pa c)) s = [];
}.

(** Children have ids and ports of their own. *)
Record children_ok (cs : list child) : Prop := mk_children_ok {
  ch_ids : NoDup cs.*1;
  ch_ports : NoDup cs.*2;
  ch_olt : id ∉ cs.*1;
  ch_nonzero : 0%Z ∉ cs.*2;
}.

(** Membership in lists made by [++] *)
Ltac mem H := rewrite ?elem_of_app, ?list_elem_of_singleton, ?elem_of_cons in H;
  rewrite ?elem_of_app, ?list_elem_of_singleton, ?elem_of_cons; tauto.

Lemma child_ids cs c c' : children_ok cs → c ∈ cs → c' ∈ cs → c.1 = c'.1 → c = c'.
Proof.
  intros [Hnd _ _ _] Hc Hc' Heq. apply list_elem_of_lookup in Hc as [i Hi], Hc' as [j Hj].
  assert (i = j) as ->; [|congruence]. apply (NoDup_lookup _ i j c.1 Hnd).
  - by rewrite list_lookup_fmap, Hi.
  - by rewrite list_lookup_fmap, Hj, Heq.
Qed.
Lemma child_ports cs c c' : children_ok cs → c ∈ cs → c' ∈ cs → c.2 = c'.2 → c = c'.
Proof.
  intros [_ Hnd _ _] Hc Hc' Heq. apply list_elem_of_lookup in Hc as [i Hi], Hc' as [j Hj].
  assert (i = j) as ->; [|congruence]. apply (NoDup_lookup _ i j c.2 Hnd).
  - by rewrite list_lookup_fmap, Hi.
  - by rewrite list_lookup_fmap, Hj, Heq.
Qed.

Lemma children_ok_app cs cs' : children_ok (cs ++ cs') → children_ok cs.
Proof.
  intros [Ni Np No Nz]. rewrite fmap_app in Ni. rewrite fmap_app in Np. rewrite fmap_app in No. rewrite fmap_app in Nz.
  apply NoDup_app in Ni as [Ni _], Np as [Np _].
  split; [done|done| |]; intros ?; [apply No|apply Nz]; rewrite elem_of_app; auto.
Qed.

(** ** Activating an ONU *)

Lemma assert_run {S} (P : Prop) `{Decision P} (st : S) : P → lift (assert_ (bool_decide P)) st = (Ok tt, st).
Proof. intros HP. unfold lift. by rewrite bool_decide_true. Qed.

Lemma fresh_id done t1 c t2 : children_ok (done ++ t1 ++ c :: t2) → c.1 ∉ done.*1.
Proof.
  intros [Hnd _ _ _] Hin. rewrite fmap_app in Hnd. apply NoDup_app in Hnd as (_ & Hd & _). apply (Hd c.1 Hin).
  rewrite fmap_app, elem_of_app. right. left.
Qed.
Lemma fresh_port done t1 c t2 : children_ok (done ++ t1 ++ c :: t2) → c.2 ∉ done.*2.
Proof.
  intros [_ Hnd _ _] Hin. rewrite fmap_app in Hnd. apply NoDup_app in Hnd as (_ & Hd & _). apply (Hd c.2 Hin).
  rewrite fmap_app, elem_of_app. right. left.
Qed.

Lemma others_differ done t1 c t2 : children_ok (done ++ t1 ++ c :: t2) → ∀ c', c' ∈ done ++ t1 ++ t2 →
  c' ∈ done ++ t1 ++ c :: t2 ∧ c'.1 ≠ id ∧ c'.1 ≠ c.1 ∧ c'.2 ≠ c.2.
Proof.
  intros [Hi Hq Ho _] c' Hc'. assert (done ++ t1 ++ c :: t2 ≡ₚ c :: done ++ t1 ++ t2) as Hp by solve_Permutation.
  rewrite Hp in Hi, Hq, Ho |- *. cbn in Hi, Hq, Ho. apply NoDup_cons in Hi as [Hi _], Hq as [Hq _].
  apply not_elem_of_cons in Ho as [_ Ho]. split_and!.
  - by right.
  - intros Heq. apply Ho. rewrite <- Heq. by apply list_elem_of_fmap_2.
  - intros Heq. apply Hi. rewrite <- Heq. by apply list_elem_of_fmap_2.
  - intros Heq. apply Hq. rewrite <- Heq. by apply list_elem_of_fmap_2.
Qed.

Lemma olt_ports_add done c : c.1 ∉ done.*1 →
  od_set 1%Z (add_peer (mk_peer c.1 1) (mk_aport id (mk_Port 1 PON_OLT (map (λ c, mk_peer c.1 1%Z) done) (port_rest "PON port"))))
    (olt_ports done) = olt_ports (done ++ [c]).
Proof.
  intros Hni. unfold olt_ports. cbn. unfold add_peer. cbn. rewrite bool_decide_false.
  - by rewrite map_app.
  - intros (c' & [= Heq] & Hin)%list_elem_of_fmap. apply Hni. rewrite Heq. by apply list_elem_of_fmap_2.
Qed.
Lemma logical_ports_add nni done c : c.2 ∉ done.*2 →
  make_up_to_date ("uni-" +:+ pretty c.2) (mk_LogicalPort ("uni-" +:+ pretty c.2) c.1 2 c.2 false) (logical_ports nni done) =
  logical_ports nni (done ++ [c]).
Proof.
  intros Hni. rewrite make_up_to_date_new.
  - unfold logical_ports. by rewrite map_app.
  - apply od_get_None. unfold od_keys, logical_ports. cbn. apply not_elem_of_cons. split; [done|].
    intros (kv & Hk & (c' & -> & Hc')%list_elem_of_fmap)%list_elem_of_fmap. cbn in Hk.
    apply (inj (String.append "uni-")) in Hk. apply pretty_port_inj in Hk. apply Hni. rewrite Hk. by apply list_elem_of_fmap_2.
Qed.

Lemma onu_activate_run d ld nni done t1 c t2 w :
  id ≠ "" → l_id ld ≠ "" → children_ok (done ++ t1 ++ c :: t2) →
  built d ld nni done (t1 ++ c :: t2) (pn_aa w) →
  od_get c.1 (pn_onus w) = Some (mk_onu_handler None [] []) →
  ∃ s', onu_activate (adopted c) w =
    (Ok tt, set_aa s' (set_onus (od_set c.1 (mk_onu_handler (Some (child_pa c)) [] []) (pn_onus w)) w)) ∧
    built d ld nni (done ++ [c]) (t1 ++ t2) s'.
Proof.
  intros Hid Hld Hok [Bolt Bdone Btodo Blog Btx Brx Brx'] Hh.
  assert (c ∈ done ++ t1 ++ c :: t2) as Hc by (rewrite !elem_of_app, elem_of_cons; auto).
  assert (c.1 ≠ id) as Hne. { intros Heq. apply (ch_olt _ Hok). rewrite <- Heq. by apply list_elem_of_fmap_2. }
  assert (c.2 ≠ 0%Z) as Hnz. { intros Hz. apply (ch_nonzero _ Hok). rewrite <- Hz. by apply list_elem_of_fmap_2. }
  unfold onu_activate. cbn [adopted set_oper child_device ad_id ad_proxy_address ad_parent_id child_pa pa_device_id pa_channel_id].
  erewrite M_bind_eq by (by apply assert_run). erewrite M_bind_eq by (by apply assert_run).
  erewrite M_bind_eq by (by apply assert_run).
  erewrite (M_bind_eq _ _ w _ w) by (unfold get_onu; rewrite Hh; reflexivity).
  erewrite M_bind_eq by reflexivity.
  set (d1 := populate _ _). set (w1 := set_onus _ w). set (D := aa_devices (pn_aa w)) in *.
  set (pon := mk_aport c.1 (mk_Port 1 PON_ONU [mk_peer id 1%Z] (port_rest "PON port"))).
  set (D3 := od_set c.1 (d1, [(2%Z, mk_aport c.1 uni_port); (1%Z, pon)])
               (od_set id (olt_final (l_id ld) d, olt_ports (done ++ [c]))
                  (od_set c.1 (d1, [(2%Z, mk_aport c.1 uni_port)]) (od_set c.1 (d1, []) D)))).
  set (L := od_set (l_id ld) (ld, logical_ports nni (done ++ [c])) (aa_logical (pn_aa w))).
  set (s1 := add_topic ("ponsim_onu", RxProxy (child_pa c)) (pn_aa w)).
  exists (set_devices (od_set c.1 (onu_final c, onu_ports c) D3) (set_logical L (set_devices D3 s1))). split.
  - assert (od_get c.1 D = Some (adopted c, [])) as Hc0 by (apply Btodo; rewrite elem_of_app, elem_of_cons; auto).
    erewrite (M_bind_eq _ _ w1 tt (set_aa s1 w1)) by (by apply on_aa_eq).
    erewrite (M_bind_eq _ _ _ tt (set_aa (set_devices (od_set c.1 (d1, []) D) s1) w1)).
    2: { apply (on_aa_eq _ (set_aa s1 w1)). by apply (update_device_eq d1 s1 (adopted c, [])). }
    set (D2 := od_set c.1 (d1, [(2%Z, mk_aport c.1 uni_port)]) (od_set c.1 (d1, []) D)) in *.
    erewrite (M_bind_eq _ _ _ tt (set_aa (set_devices D2 s1) w1)).
    2: { apply (on_aa_eq _ (set_aa (set_devices (od_set c.1 (d1, []) D) s1) w1)).
         apply (add_port_alone c.1 uni_port (set_devices (od_set c.1 (d1, []) D) s1) (d1, [])); [apply od_get_set|done]. }
    erewrite (M_bind_eq _ _ _ tt (set_aa (set_devices D3 s1) w1)).
    2: { apply (on_aa_eq _ (set_aa (set_devices D2 s1) w1)).
         erewrite (add_port_peer c.1 (onu_pon_port d1) (mk_peer id 1) _ (d1, [(2%Z, mk_aport c.1 uni_port)])
           (olt_final (l_id ld) d, olt_ports done)); [|done|by apply not_eq_sym|apply od_get_set| |reflexivity].
         - cbn [fst snd p_no onu_pon_port peer_device_id peer_port_no aa_devices set_devices].
           by rewrite olt_ports_add by (by eapply fresh_id).
         - cbn. unfold D2. by rewrite !od_get_set_ne. }
    erewrite (M_bind_eq _ _ _ (olt_final (l_id ld) d) (set_aa (set_devices D3 s1) w1)).
    2: { apply (on_aa_eq _ (set_aa (set_devices D3 s1) w1)).
         apply (get_device_eq id (set_devices D3 s1) (olt_final (l_id ld) d, olt_ports (done ++ [c]))).
         cbn. unfold D3. rewrite od_get_set_ne by done. apply od_get_set. }
    erewrite M_bind_eq by (by apply assert_run).
    erewrite (M_bind_eq _ _ _ tt (set_aa (set_logical L (set_devices D3 s1)) w1)).
    2: { apply (on_aa_eq _ (set_aa (set_devices D3 s1) w1)).
         pose proof (add_logical_port_eq (l_id ld) (uni_logical_port d1) (set_devices D3 s1) (ld, logical_ports nni done) Blog) as E.
         unfold L. rewrite <- (logical_ports_add nni done c) by (by eapply fresh_port). exact E. }
    erewrite (M_bind_eq _ _ _ d1 (set_aa (set_logical L (set_devices D3 s1)) w1)).
    2: { apply (on_aa_eq _ (set_aa (set_logical L (set_devices D3 s1)) w1)).
         apply (get_device_eq c.1 (set_logical L (set_devices D3 s1)) (d1, onu_ports c)). apply od_get_set. }
    apply (on_aa_eq _ (set_aa (set_logical L (set_devices D3 s1)) w1)).
    apply (update_device_eq (onu_final c) (set_logical L (set_devices D3 s1)) (d1, onu_ports c)). apply od_get_set.
  - assert (∀ k, k ≠ id → k ≠ c.1 → od_get k (od_set c.1 (onu_final c, onu_ports c) D3) = od_get k D) as Hother.
    { intros k Hk Hk'. unfold D3. by rewrite !od_get_set_ne by (by apply not_eq_sym). }
    assert (∀ c', c' ∈ done ++ t1 ++ t2 → c' ∈ done ++ t1 ++ c :: t2 ∧ c'.1 ≠ id ∧ c'.1 ≠ c.1 ∧ c'.2 ≠ c.2) as Hdiff by (by apply others_differ).
    split; cbn [aa_devices aa_logical set_devices set_logical s1 add_topic].
    + rewrite od_get_set_ne by done. unfold D3. rewrite od_get_set_ne by done. apply od_get_set.
    + intros c' [Hc'|Hc'%list_elem_of_singleton]%elem_of_app; [|subst c'; apply od_get_set].
      rewrite Hother; [by apply Bdone|apply (Hdiff c')..]; rewrite elem_of_app; auto.
    + intros c' Hc'. rewrite Hother; [apply Btodo|apply (Hdiff c')..]; mem Hc'.
    + apply od_get_set.
    + intros c' Hc'. unfold s1. change (listeners (TxProxy (child_pa c')) (add_topic ("ponsim_onu", RxProxy (child_pa c)) (pn_aa w)) = ["ponsim_olt"]).
      rewrite listeners_add, decide_False by done. rewrite app_nil_r. apply Btx.
      mem Hc'.
    + intros c' Hc'. change (listeners (RxProxy (child_pa c')) (add_topic ("ponsim_onu", RxProxy (child_pa c)) (pn_aa w)) = ["ponsim_onu"]).
      rewrite listeners_add. apply elem_of_app in Hc' as [Hc'|Hc'%list_elem_of_singleton]; [|subst c'].
      * rewrite decide_False; [rewrite app_nil_r; by apply Brx|]. intros [= Heq].
        destruct (Hdiff c') as (_ & _ & _ & Hp); [rewrite elem_of_app; auto|]. done.
      * rewrite decide_True by done. rewrite Brx'; [done|]. rewrite elem_of_app, elem_of_cons. auto.
    + intros c' Hc'. change (listeners (RxProxy (child_pa c')) (add_topic ("ponsim_onu", RxProxy (child_pa c)) (pn_aa w)) = []).
      rewrite listeners_add, decide_False.
      * rewrite app_nil_r. apply Brx'. mem Hc'.
      * intros [= Heq]. destruct (Hdiff c') as (_ & _ & _ & Hp); [rewrite elem_of_app; auto|]. done.
Qed.

(** ** Detecting the ONUs *)

(** The configuration after a child is detected and adopted *)
Definition with_child (c : child) (s : aa_state) : aa_state :=
  set_devices (od_set c.1 (adopted c, [])
    (od_set c.1 (child_device c.1 id 1 "ponsim_onu" (child_pa c) c.2, []) (aa_devices s)))
    (add_topic ("ponsim_olt", TxProxy (child_pa c)) s).

(** Nothing is known of a child yet. *)
Definition unknown (s : aa_state) (c : child) : Prop :=
  od_get c.1 (aa_devices s) = None ∧ listeners (TxProxy (child_pa c)) s = [] ∧ listeners (RxProxy (child_pa c)) s = [].

Lemma with_child_other c s k : k ≠ c.1 → od_get k (aa_devices (with_child c s)) = od_get k (aa_devices s).
Proof. intros Hk. cbn. by rewrite !od_get_set_ne by (by apply not_eq_sym). Qed.
Lemma with_child_tx c s c' : c'.2 ≠ c.2 → listeners (TxProxy (child_pa c')) (with_child c s) = listeners (TxProxy (child_pa c')) s.
Proof.
  intros Hp. change (listeners (TxProxy (child_pa c')) (add_topic ("ponsim_olt", TxProxy (child_pa c)) s) = listeners (TxProxy (child_pa c')) s).
  rewrite listeners_add, decide_False by (unfold child_pa; naive_solver). apply app_nil_r.
Qed.
Lemma with_child_tx_self c s : listeners (TxProxy (child_pa c)) (with_child c s) = listeners (TxProxy (child_pa c)) s ++ ["ponsim_olt"].
Proof.
  change (listeners (TxProxy (child_pa c)) (add_topic ("ponsim_olt", TxProxy (child_pa c)) s) = listeners (TxProxy (child_pa c)) s ++ ["ponsim_olt"]).
  by rewrite listeners_add, decide_True.
Qed.
Lemma with_child_rx c s c' : listeners (RxProxy (child_pa c')) (with_child c s) = listeners (RxProxy (child_pa c')) s.
Proof.
  change (listeners (RxProxy (child_pa c')) (add_topic ("ponsim_olt", TxProxy (child_pa c)) s) = listeners (RxProxy (child_pa c')) s).
  rewrite listeners_add, decide_False by done. apply app_nil_r.
Qed.

Lemma with_child_built d ld nni todo c s : children_ok (todo ++ [c]) → unknown s c →
  built d ld nni [] todo s → built d ld nni [] (todo ++ [c]) (with_child c s).
Proof.
  intros Hok (Hnew & Htx & Hrx) [Bolt Bdone Btodo Blog Btx Brx Brx'].
  pose proof (others_differ [] todo c [] Hok) as Hdiff. rewrite app_nil_r in Hdiff. cbn [app] in *.
  assert (c.1 ≠ id) as Hne.
  { intros Heq. apply (ch_olt _ Hok). rewrite <- Heq. apply list_elem_of_fmap_2, elem_of_app. right. left. }
  split; cbn [app].
  - by rewrite with_child_other by (by apply not_eq_sym).
  - by intros c' ?%not_elem_of_nil.
  - intros c' [Hc'|Hc'%list_elem_of_singleton]%elem_of_app; [|subst; apply od_get_set].
    rewrite with_child_other; [by apply Btodo|by apply Hdiff].
  - done.
  - intros c' [Hc'|Hc'%list_elem_of_singleton]%elem_of_app.
    + rewrite with_child_tx; [by apply Btx|by apply Hdiff].
    + subst. by rewrite with_child_tx_self, Htx.
  - by intros c' ?%not_elem_of_nil.
  - intros c' [Hc'|Hc'%list_elem_of_singleton]%elem_of_app; rewrite with_child_rx; [by apply Brx'|by subst].
Qed.

Lemma child_detected_run c w : od_get c.1 (aa_devices (pn_aa w)) = None →
  (_ ← on_aa (child_device_detected "ponsim_olt" c.1 id 1 "ponsim_onu" (child_pa c) c.2);
   core_add_device (child_device c.1 id 1 "ponsim_onu" (child_pa c) c.2)) w =
  (Ok tt, mk_pon (with_child c (pn_aa w)) (pn_olts w) (pn_ldi w)
    (od_set c.1 (mk_onu_handler None [] []) (pn_onus w)) (pn_sims w) (pn_ifaces w) (pn_sent w)
    (pn_packet_ins w) (pn_later w ++ [(Onu, adopted c)]) (pn_uuids w) (pn_calls w) (pn_done w)).
Proof.
  intros Hnew. set (dev := child_device c.1 id 1 "ponsim_onu" (child_pa c) c.2).
  set (s1 := add_topic ("ponsim_olt", TxProxy (child_pa c)) (set_devices (od_set c.1 (dev, []) (aa_devices (pn_aa w))) (pn_aa w))).
  erewrite (M_bind_eq _ _ w tt (set_aa s1 w)).
  2: { apply on_aa_eq. unfold child_device_detected. erewrite M_bind_eq by reflexivity.
       fold dev. rewrite make_up_to_date_node_new by done. reflexivity. }
  unfold core_add_device. fold (adopted c).
  erewrite (M_bind_eq _ _ _ tt (set_aa (with_child c (pn_aa w)) w)); [reflexivity|].
  apply (on_aa_eq _ (set_aa s1 w)). apply (update_device_eq (adopted c) s1 (dev, [])). apply od_get_set.
Qed.

(** What detection leaves alone *)
Record same_rest (w w' : pon) : Prop := mk_same_rest {
  sr_olts : pn_olts w' = pn_olts w;
  sr_sims : pn_sims w' = pn_sims w;
  sr_ifaces : pn_ifaces w' = pn_ifaces w;
  sr_ldi : pn_ldi w' = pn_ldi w;
}.

Definition new_children (start : nat) (ports : list Z) : list child :=
  zip (uuid4_hex12 <$> seq start (length ports)) ports.

Lemma detect_onus_run d ld nni ports : ∀ todo w,
  let new := new_children (pn_uuids w) ports in
  children_ok (todo ++ new) → built d ld nni [] todo (pn_aa w) → (∀ c, c ∈ new → unknown (pn_aa w) c) →
  (∀ c, c ∈ todo → od_get c.1 (pn_onus w) = Some (mk_onu_handler None [] [])) →
  ∃ w', detect_onus id ports w = (Ok tt, w') ∧ built d ld nni [] (todo ++ new) (pn_aa w') ∧ same_rest w w' ∧
    pn_later w' = pn_later w ++ map (λ c, (Onu, adopted c)) new ∧
    (∀ c, c ∈ todo ++ new → od_get c.1 (pn_onus w') = Some (mk_onu_handler None [] [])).
Proof.
  induction ports as [|port ports IH]; intros todo w new Hok Hb Hunk Honus.
  { exists w. unfold new, new_children. cbn. rewrite !app_nil_r. split_and!; try done. }
  set (c := (uuid4_hex12 (pn_uuids w), port)). set (rest := new_children (S (pn_uuids w)) ports).
  assert (new = c :: rest) as Hnew by done. rewrite Hnew in *. clear Hnew new.
  assert (children_ok (todo ++ [c])) as Hok1.
  { rewrite cons_middle, (assoc_L (++)) in Hok. by eapply children_ok_app. }
  assert (unknown (pn_aa w) c) as Hc by (apply Hunk; left).
  set (w1 := mk_pon (with_child c (pn_aa w)) (pn_olts w) (pn_ldi w)
    (od_set c.1 (mk_onu_handler None [] []) (pn_onus w)) (pn_sims w) (pn_ifaces w) (pn_sent w)
    (pn_packet_ins w) (pn_later w ++ [(Onu, adopted c)]) (S (pn_uuids w)) (pn_calls w) (pn_done w)).
  assert (∀ c', c' ∈ todo ++ rest → c'.1 ≠ c.1 ∧ c'.2 ≠ c.2) as Hdiff.
  { intros c' Hc'. pose proof (others_differ [] todo c rest Hok c' Hc'). tauto. }
  destruct (IH (todo ++ [c]) w1) as (w' & Hrun & Hb' & [S1 S2 S3 S4] & Hl & Ho).
  - fold rest. by rewrite <- (assoc_L (++)).
  - by apply with_child_built.
  - fold rest. intros c' Hc'. destruct (Hunk c') as (U1 & U2 & U3); [by right|].
    destruct (Hdiff c') as [Hd1 Hd2]; [rewrite elem_of_app; auto|].
    change (unknown (with_child c (pn_aa w)) c'). split_and!.
    + by rewrite with_child_other.
    + by rewrite with_child_tx.
    + by rewrite with_child_rx.
  - intros c' [Hc'|Hc'%list_elem_of_singleton]%elem_of_app; cbn; [|subst; apply od_get_set].
    rewrite od_get_set_ne; [by apply Honus|]. apply not_eq_sym. apply Hdiff. rewrite elem_of_app; auto.
  - fold rest in Hb', Ho, Hl. rewrite <- (assoc_L (++)) in Hb', Ho. exists w'. split_and!; try done.
    + cbn [detect_onus]. erewrite M_bind_eq by reflexivity. rewrite <- M_bind_assoc.
      by erewrite M_bind_eq by (apply (child_detected_run c (set_uuids (S (pn_uuids w)) w)); apply Hc).
    + rewrite Hl. cbn. by rewrite <- (assoc_L (++)).
Qed.

(** ** Activating the OLT *)

(** An OLT that has been adopted: it is stored without ports, its simulator can
    be reached, and the identifiers it is going to draw are new. *)
Record new_olt (fuel : nat) (iface : string) (d d0 : adevice) (sm : sim) (nni : Z) (unis : list Z) (w : pon) : Prop := mk_new_olt {
  no_id : ad_id d = id;
  no_ids : id ≠ "";
  no_host : ad_host_and_port d = host ∧ host ≠ "";
  no_stored : od_get id (aa_devices (pn_aa w)) = Some (d0, []) ∧ ad_host_and_port d0 = host;
  no_handler : od_get id (pn_olts w) = Some (mk_olt_handler None None None);
  no_sim : od_get host (pn_sims w) = Some sm ∧ get_ports sm = nni :: unis;
  no_iface : od_get iface (pn_ifaces w) = None;
  no_fuel : 2 * length (aa_logical (pn_aa w)) < fuel;
  no_logical k e : (k, e) ∈ aa_logical (pn_aa w) → k = l_id e.1;
  no_children : children_ok (new_children (pn_uuids w) unis);
  no_unknown c : c ∈ new_children (pn_uuids w) unis → unknown (pn_aa w) c;
}.

Lemma od_get_app_new {V} k (v : V) (l : list (string * V)) : (∀ k' v', (k', v') ∈ l → k' ≠ k) → od_get k (l ++ [(k, v)]) = Some v.
Proof.
  induction l as [|[k' v'] l IH]; intros Hl; cbn.
  - by rewrite decide_True.
  - rewrite decide_False by (apply not_eq_sym; apply (Hl k' v'); left). apply IH. intros k2 v2 Hin. apply (Hl k2 v2). by right.
Qed.

Lemma olt_activate_run fuel iface d d0 sm nni unis w : new_olt fuel iface d d0 sm nni unis w →
  let new := new_children (pn_uuids w) unis in
  ∃ n w', olt_activate fuel iface d w = (Ok tt, w') ∧ built d (mk_LogicalDev (pretty n) n id) nni [] new (pn_aa w') ∧
    pn_later w' = pn_later w ++ map (λ c, (Onu, adopted c)) new ∧
    (∀ c, c ∈ new → od_get c.1 (pn_onus w') = Some (mk_onu_handler None [] [])) ∧
    od_get id (pn_olts w') = Some (mk_olt_handler (Some host) (Some iface) (Some (pretty n))) ∧
    od_get host (pn_sims w') = Some sm ∧ od_get iface (pn_ifaces w') = Some id.
Proof.
  intros [Hdid Hid [Hh Hhne] [Hst Hh0] Hhandler [Hsm Hports] Hif Hfuel Hlog Hok Hunk] new.
  set (d1 := populate [("vendor", "ponsim"); ("model", "n/a"); ("serial_number", ad_host_and_port d)] d).
  set (D := aa_devices (pn_aa w)) in *. set (s := pn_aa w) in *.
  set (D3 := od_set id (d1, olt_ports []) (od_set id (d1, [(2%Z, mk_aport id nni_port)]) (od_set id (d1, []) D))).
  destruct (create_logical_device_run "ponsim_olt" fuel (set_devices D3 s) (new_ld d1)) as (n & Hcreate & Hfresh); [done|done|done|].
  cbv zeta in Hcreate. cbn [new_ld l_root_device_id] in Hcreate.
  assert (ad_id d1 = id) as Hid1 by done. rewrite Hid1 in Hcreate.
  set (ld := mk_LogicalDev (pretty n) n id) in *.
  set (s4 := add_topic _ _) in Hcreate.
  set (s5 := set_logical (od_set (pretty n) (ld, logical_ports nni []) (aa_logical s4)) s4).
  set (s6 := set_devices (od_set id (olt_final (pretty n) d, olt_ports []) D3) s5).
  assert (built d ld nni [] [] s6) as Hb.
  { split; try (by intros c ?%not_elem_of_nil); apply od_get_set. }
  set (w2 := set_sims (od_set host sm (pn_sims w))
               (set_olts (od_set id (mk_olt_handler (Some host) None None) (pn_olts w)) w)).
  set (w7 := set_olts (od_set id (mk_olt_handler (Some host) None (Some (pretty n))) (pn_olts w2)) (set_aa s6 w2)).
  destruct (detect_onus_run d ld nni unis [] w7) as (w8 & Hrun8 & Hb8 & [S1 S2 S3 S4] & Hl8 & Ho8); [done|done| |by intros c ?%not_elem_of_nil|].
  { intros c Hc. destruct (Hunk c Hc) as (U1 & U2 & U3).
    assert (c.1 ≠ id) as Hne. { intros Heq. apply (ch_olt _ Hok). rewrite <- Heq. by apply list_elem_of_fmap_2. }
    change (unknown s6 c). split_and!.
    - cbn. unfold D3. by rewrite !od_get_set_ne by (by apply not_eq_sym).
    - change (listeners (TxProxy (child_pa c)) (add_topic ("ponsim_olt", PacketOut (pretty n)) s) = []).
      by rewrite listeners_add, decide_False, app_nil_r.
    - change (listeners (RxProxy (child_pa c)) (add_topic ("ponsim_olt", PacketOut (pretty n)) s) = []).
      by rewrite listeners_add, decide_False, app_nil_r. }
  set (w9 := set_ifaces (pn_ifaces w8 ++ [(iface, id)]) w8).
  exists n, (set_olts (od_set id (mk_olt_handler (Some host) (Some iface) (Some (pretty n))) (pn_olts w9)) w9).
  split; [|split_and!; try done; [apply od_get_set|cbn; rewrite S2; apply od_get_set|]].
  2: { cbn. rewrite S3. apply od_get_app_new. intros k v Hin ->. apply od_get_None in Hif. apply Hif.
       by apply (list_elem_of_fmap_2 fst _ (iface, v)). }
  unfold olt_activate. rewrite Hdid, Hh. rewrite bool_decide_false by done.
  erewrite (M_bind_eq _ _ w host (set_olts (od_set id (mk_olt_handler (Some host) None None) (pn_olts w)) w)).
  2: { unfold get_channel. erewrite (M_bind_eq _ _ w _ w) by (unfold get_olt; rewrite Hhandler; reflexivity). cbn [oh_channel].
       erewrite (M_bind_eq _ _ w d0 (set_aa s w)) by (apply (on_aa_eq _ w); apply (get_device_eq id s (d0, [])); exact Hst).
       rewrite Hh0. reflexivity. }
  erewrite (M_bind_eq _ _ _ (nni, unis) w2).
  2: { unfold rpc. cbn [pn_sims set_olts]. rewrite Hsm. unfold GetDeviceInfo.
       erewrite (M_bind_eq get_state _ sm sm sm) by reflexivity. rewrite Hports. reflexivity. }
  rewrite <- Hh. fold d1.
  erewrite (M_bind_eq _ _ w2 tt (set_aa (set_devices (od_set id (d1, []) D) s) w2)).
  2: { apply (on_aa_eq _ w2). rewrite <- Hid1. apply (update_device_eq d1 s (d0, [])). by rewrite Hid1. }
  erewrite (M_bind_eq _ _ _ tt (set_aa (set_devices (od_set id (d1, [(2%Z, mk_aport id nni_port)]) (od_set id (d1, []) D)) s) w2)).
  2: { apply (on_aa_eq _ (set_aa (set_devices (od_set id (d1, []) D) s) w2)).
       apply (add_port_alone id nni_port (set_devices (od_set id (d1, []) D) s) (d1, [])); [apply od_get_set|done]. }
  set (D2 := od_set id (d1, [(2%Z, mk_aport id nni_port)]) (od_set id (d1, []) D)) in *.
  erewrite (M_bind_eq _ _ _ tt (set_aa (set_devices D3 s) w2)).
  2: { apply (on_aa_eq _ (set_aa (set_devices D2 s) w2)).
       apply (add_port_alone id olt_pon_port (set_devices D2 s) (d1, [(2%Z, mk_aport id nni_port)])); [apply od_get_set|done]. }
  erewrite (M_bind_eq _ _ _ ld (set_aa s4 w2)) by (apply (on_aa_eq _ (set_aa (set_devices D3 s) w2)); exact Hcreate).
  cbn [l_id ld fst snd].
  erewrite (M_bind_eq _ _ _ tt (set_aa s5 w2)).
  2: { apply (on_aa_eq _ (set_aa s4 w2)).
       assert (od_get (pretty n) (aa_logical s4) = Some (ld, [])) as Hgl.
       { apply od_get_app_new. intros k v Hin. by apply (Hfresh k v). }
       pose proof (add_logical_port_eq (pretty n) (nni_logical_port d1 nni) s4 (ld, []) Hgl) as E.
       unfold nni_logical_port in E. rewrite Hid1 in E. unfold nni_logical_port. rewrite Hid1. exact E. }
  erewrite (M_bind_eq _ _ _ d1 (set_aa s5 w2)).
  2: { apply (on_aa_eq _ (set_aa s5 w2)). apply (get_device_eq id s5 (d1, olt_ports [])). apply od_get_set. }
  erewrite (M_bind_eq _ _ _ tt (set_aa s6 w2)).
  2: { apply (on_aa_eq _ (set_aa s5 w2)).
       pose proof (update_device_eq (olt_final (pretty n) d) s5 (d1, olt_ports [])) as E.
       assert (ad_id (olt_final (pretty n) d) = id) as Hf by done. rewrite Hf in E. apply E. apply od_get_set. }
  erewrite (M_bind_eq _ _ _ (mk_olt_handler (Some host) None None) (set_aa s6 w2)).
  2: { unfold get_olt. cbn [pn_olts set_aa w2 set_sims set_olts]. by rewrite od_get_set. }
  erewrite (M_bind_eq _ _ _ tt w7) by reflexivity. rewrite Hh. erewrite M_bind_eq by exact Hrun8.
  erewrite (M_bind_eq _ _ w8 tt w9).
  2: { unfold add_interface. erewrite (M_bind_eq get_state _ w8 w8 w8) by reflexivity.
       erewrite M_bind_eq; [reflexivity|]. apply assert_run. rewrite S3. exact Hif. }
  erewrite (M_bind_eq _ _ _ (mk_olt_handler (Some host) None (Some (pretty n))) w9); [reflexivity|].
  unfold get_olt. cbn [pn_olts w9 set_ifaces]. rewrite S1. cbn [pn_olts w7 set_olts]. by rewrite od_get_set.
Qed.

(** ** All activations *)

Lemma pretty_N_go_nonempty x s : s ≠ "" → pretty_N_go x s ≠ "".
Proof.
  revert s. induction (N.lt_wf_0 x) as [x _ IH]; intros s Hs. destruct (decide (x = 0)%N) as [->|Hx]; [done|].
  rewrite pretty_N_go_step by lia. apply IH; [apply N.div_lt; lia|done].
Qed.
Lemma pretty_nonempty (n : N) : pretty n ≠ "".
Proof.
  unfold pretty, pretty_N. case_decide; [done|]. rewrite pretty_N_go_step by lia. by apply pretty_N_go_nonempty.
Qed.

(** The OLT and the ONUs [done] are active, the ONUs [todo] wait for activation. *)
Record progress (iface : string) (d : adevice) (sm : sim) (nni : Z) (n : N) (done todo : list child) (w : pon) : Prop := mk_progress {
  pr_built : built d (mk_LogicalDev (pretty n) n id) nni done todo (pn_aa w);
  pr_later : pn_later w = map (λ c, (Onu, adopted c)) todo;
  pr_done c : c ∈ done → od_get c.1 (pn_onus w) = Some (mk_onu_handler (Some (child_pa c)) [] []);
  pr_todo c : c ∈ todo → od_get c.1 (pn_onus w) = Some (mk_onu_handler None [] []);
  pr_olt : od_get id (pn_olts w) = Some (mk_olt_handler (Some host) (Some iface) (Some (pretty n)));
  pr_sim : od_get host (pn_sims w) = Some sm;
  pr_iface : od_get iface (pn_ifaces w) = Some id;
}.

Lemma progress_step fuel iface d sm nni n done todo w w' : id ≠ "" → children_ok (done ++ todo) →
  progress iface d sm nni n done todo w → step fuel iface w w' →
  ∃ t1 c t2, todo = t1 ++ c :: t2 ∧ progress iface d sm nni n (done ++ [c]) (t1 ++ t2) w'.
Proof.
  intros Hid Hok [Pb Pl Pd Pt Po Ps Pi] Hstep. destruct Hstep as [l1 call l2 Hl]. rewrite Pl in Hl.
  apply map_eq_app in Hl as (t1 & t' & -> & <- & Hl). destruct t' as [|c t2]; [done|].
  cbn in Hl. injection Hl as <- <-. exists t1, c, t2. split; [done|]. rewrite <- map_app.
  set (w1 := set_later _ w).
  destruct (onu_activate_run d (mk_LogicalDev (pretty n) n id) nni done t1 c t2 w1) as (s' & Hrun & Hb');
    [done|apply pretty_nonempty|done|done|apply Pt, elem_of_app; right; left|].
  unfold run_later. cbn [fst snd]. rewrite Hrun. cbn [snd].
  pose proof (others_differ done t1 c t2 Hok) as Hdiff.
  assert (∀ c', c' ∈ done ++ t1 ++ t2 → od_get c'.1 (od_set c.1 (mk_onu_handler (Some (child_pa c)) [] []) (pn_onus w)) = od_get c'.1 (pn_onus w)) as Hother.
  { intros c' Hc'. apply od_get_set_ne, not_eq_sym. by apply Hdiff. }
  split; try done; cbn [pn_onus set_aa set_onus w1 set_later].
  - intros c' [Hc'|Hc'%list_elem_of_singleton]%elem_of_app; [|subst; apply od_get_set].
    rewrite Hother; [by apply Pd|]. mem Hc'.
  - intros c' Hc'. rewrite Hother; [apply Pt|]; mem Hc'.
Qed.

Lemma activations_run fuel iface d d0 sm nni unis w0 k w :
  new_olt fuel iface d d0 sm nni unis w0 → pn_later w0 = [(Olt, d)] → nsteps (step fuel iface) k w0 w →
  k = 0 ∧ w = w0 ∨
  ∃ n done todo, k = S (length done) ∧ done ++ todo ≡ₚ new_children (pn_uuids w0) unis ∧
    progress iface d sm nni n done todo w.
Proof.
  intros Hnew Hl0. pose proof Hnew as [_ Hid _ _ _ _ _ _ _ Hok _].
  revert w. induction k as [|k IH]; intros w Hsteps; [left; by inversion Hsteps|right].
  apply nsteps_inv_r in Hsteps as (w1 & Hk & Hstep). destruct (IH w1 Hk) as [[-> ->]|(n & done & todo & -> & Hp & Hpr)].
  - destruct Hstep as [l1 call l2 Hl]. rewrite Hl0 in Hl. destruct l1 as [|? [|]]; [|done|done]. injection Hl as <- <-.
    set (w1 := set_later _ w0).
    assert (new_olt fuel iface d d0 sm nni unis w1) as Hnew1 by (destruct Hnew; by split).
    destruct (olt_activate_run fuel iface d d0 sm nni unis w1 Hnew1) as (n & w' & Hrun & Hb & Hl & Ho & Holt & Hsim & Hif).
    exists n, [], (new_children (pn_uuids w0) unis). split_and!; [done|done|].
    unfold run_later. cbn [fst snd]. rewrite Hrun. cbn [snd].
    split; try done. by intros c ?%not_elem_of_nil.
  - destruct (progress_step fuel iface d sm nni n done todo w1 w) as (t1 & c & t2 & -> & Hpr'); [done| |done|done|].
    { destruct Hok as [N1 N2 N3 N4]. by split; rewrite Hp. }
    exists n, (done ++ [c]), (t1 ++ t2). split_and!; [rewrite length_app; cbn; lia| |done].
    rewrite <- Hp. solve_Permutation.
Qed.
Lemma new_children_length start ports : length (new_children start ports) = length ports.
Proof. unfold new_children. rewrite length_zip, length_fmap, length_seq. lia. Qed.

(** C12: Activating an OLT of the PON simulator builds the PON.  Starting from an
    adopted OLT whose simulator reports the ports [unis], the pending activations
    of the two adapters run in any order and none fails: after one step for the
    OLT and one for each ONU, and not before, none is pending.  Then the
    configuration holds the OLT with its NNI port and a PON port whose peers are
    exactly the ONUs; for each port of the simulator an active ONU with its VLAN,
    a UNI port and a PON port whose peer is the OLT; and a new logical device
    with a root port on the OLT and a port on each ONU. *)
Theorem pon_is_built fuel iface d d0 sm nni unis w0 k w :
  new_olt fuel iface d d0 sm nni unis w0 → pn_later w0 = [(Olt, d)] → nsteps (step fuel iface) k w0 w →
  k ≤ S (length unis) ∧ (pn_later w = [] ↔ k = S (length unis)) ∧
  (pn_later w = [] → ∃ n done, done ≡ₚ new_children (pn_uuids w0) unis ∧ progress iface d sm nni n done [] w).
Proof.
  intros Hnew Hl0 Hsteps.
  destruct (activations_run fuel iface d d0 sm nni unis w0 k w Hnew Hl0 Hsteps) as [[-> ->]|(n & done & todo & -> & Hp & Hpr)].
  { rewrite Hl0. split_and!; [lia|done|done]. }
  pose proof (Permutation_length Hp) as Hl. rewrite length_app, new_children_length in Hl.
  pose proof (pr_later _ _ _ _ _ _ _ _ Hpr) as Hlater.
  assert (pn_later w = [] ↔ todo = []) as Hiff.
  { rewrite Hlater. split; [|by intros ->]. intros Hm. by apply map_eq_nil in Hm. }
  rewrite Hiff. split_and!; [lia| |].
  - destruct todo as [|c todo]; cbn in Hl; split; try done; lia.
  - intros ->. rewrite app_nil_r in Hp. by exists n, done.
Qed.

(** ** Flow tables *)

Definition table (sm : sim) (port : Z) : option (list flow_stats) := sd_flows <$> od_get port (sim_devices sm).

(** Pushes to the OLT and to ONUs *)
Inductive push : Type := PushOlt (flows : list flow_stats) | PushOnu (c : child) (flows : list flow_stats).
Definition run_push (p : push) : M pon unit :=
  match p with
  | PushOlt flows => olt_update_flows_bulk id flows []
  | PushOnu c flows => _ ← onu_update_flows_bulk c.1 flows []; mret tt
  end.
Fixpoint run_pushes (l : list push) : M pon unit :=
  match l with
  | [] => mret tt
  | p :: l => _ ← run_push p; run_pushes l
  end.
Definition push_port (p : push) : Z := match p with PushOlt _ => 0 | PushOnu c _ => c.2 end.
Definition push_flows (p : push) : list flow_stats := match p with PushOlt f => f | PushOnu _ f => f end.
Definition onu_pushes (l : list push) : nat := length (filter (λ p, push_port p ≠ 0%Z) l).
(** The table of a port after some pushes *)
Definition pushed (l : list push) (port : Z) (before : option (list flow_stats)) : option (list flow_stats) :=
  foldl (λ t p, if decide (push_port p = port) then Some (install_flows (push_flows p)) else t) before l.

(** What a push needs *)
Record ready (sm : sim) (cs : list child) (w : pon) : Prop := mk_ready {
  rd_olt : ∃ h, od_get id (pn_olts w) = Some h ∧ oh_channel h = Some host;
  rd_tx c : c ∈ cs → listeners (TxProxy (child_pa c)) (pn_aa w) = ["ponsim_olt"];
  rd_rx c : c ∈ cs → listeners (RxProxy (child_pa c)) (pn_aa w) = ["ponsim_onu"];
  rd_onu c : c ∈ cs → ∃ wt, od_get c.1 (pn_onus w) = Some (mk_onu_handler (Some (child_pa c)) [] wt);
  rd_none : od_get id (pn_onus w) = None;
  rd_sim : od_get host (pn_sims w) = Some sm;
  rd_ports : ∀ port, port ∈ 0%Z :: cs.*2 → is_Some (table sm port);
  rd_ok : children_ok cs;
}.

Lemma installs_run port flows sm : is_Some (table sm port) →
  ∃ sm', install port flows sm = (Ok tt, sm') ∧
    ∀ p, table sm' p = if decide (port = p) then Some (install_flows flows) else table sm p.
Proof.
  intros [t Ht]. unfold table in Ht. destruct (od_get port (sim_devices sm)) as [sd|] eqn:Hsd; [|done].
  eexists. split.
  - unfold install. erewrite (M_bind_eq get_state _ sm sm sm) by reflexivity.
    by erewrite M_bind_eq by (unfold lift; rewrite Hsd; reflexivity).
  - intros p. unfold table. cbn. destruct (decide (port = p)) as [<-|Hne]; [by rewrite od_get_set|by rewrite od_get_set_ne].
Qed.
Lemma update_flow_table_eq port flows : UpdateFlowTable port flows = install port flows.
Proof. unfold UpdateFlowTable. case_bool_decide; by subst. Qed.

Lemma rpc_install port flows sm w : od_get host (pn_sims w) = Some sm → is_Some (table sm port) →
  ∃ sm', rpc host (UpdateFlowTable port flows) w = (Ok tt, set_sims (od_set host sm' (pn_sims w)) w) ∧
    ∀ p, table sm' p = if decide (port = p) then Some (install_flows flows) else table sm p.
Proof.
  intros Hsm Ht. destruct (installs_run port flows sm Ht) as (sm' & Hrun & Htab). exists sm'. split; [|done].
  unfold rpc. rewrite Hsm, update_flow_table_eq, Hrun. done.
Qed.
Lemma get_channel_run w h : od_get id (pn_olts w) = Some h → oh_channel h = Some host → get_channel id w = (Ok host, w).
Proof.
  intros Hh Hc. unfold get_channel. erewrite (M_bind_eq _ _ w h w) by (unfold get_olt; by rewrite Hh). by rewrite Hc.
Qed.

(** The message reaches the simulator, but its answer finds no handler: the proxy
    address names the OLT's device. *)
Lemma send_table_run sm cs c flows w : ready sm cs w → c ∈ cs →
  ∃ sm', send_proxied_message (child_pa c) (FlowTable c.2 flows) w = (Ok tt, set_sims (od_set host sm' (pn_sims w)) w) ∧
    ∀ p, table sm' p = if decide (c.2 = p) then Some (install_flows flows) else table sm p.
Proof.
  intros [(h & Hh & Hch) Htx Hrx _ Hnone Hsm Hports _] Hc.
  destruct (rpc_install c.2 flows sm w Hsm) as (sm' & Hrpc & Htab).
  { apply Hports. right. by apply list_elem_of_fmap_2. }
  exists sm'. split; [|done]. set (w1 := set_sims _ w) in *.
  unfold send_proxied_message, publish_topic. erewrite (M_bind_eq get_state _ w w w) by reflexivity.
  rewrite (Htx c Hc). cbn [run_each]. erewrite (M_bind_eq _ _ w tt w1); [done|].
  unfold logged. rewrite bool_decide_true by done. unfold olt_send_proxied_message.
  erewrite (M_bind_eq _ _ w h w) by (unfold get_olt; cbn; by rewrite Hh).
  erewrite (M_bind_eq _ _ w host w) by (by eapply get_channel_run). erewrite M_bind_eq by exact Hrpc.
  unfold receive_proxied_message, publish_topic. erewrite (M_bind_eq get_state _ w1 w1 w1) by reflexivity.
  change (pn_aa w1) with (pn_aa w). rewrite (Hrx c Hc). cbn [run_each].
  erewrite (M_bind_eq _ _ w1 tt w1); [done|]. unfold logged. rewrite bool_decide_true by done.
  unfold onu_receive_proxied_message. erewrite M_bind_Raise_eq; [done|]. unfold get_onu. cbn. by rewrite Hnone.
Qed.

Lemma push_run sm cs p w : ready sm cs w → (∀ c f, p = PushOnu c f → c ∈ cs) →
  ∃ sm' w', run_push p w = (Ok tt, w') ∧ ready sm' cs w' ∧
    (∀ port, table sm' port = if decide (push_port p = port) then Some (install_flows (push_flows p)) else table sm port) ∧
    pn_done w' = pn_done w ∧ pn_calls w' = onu_pushes [p] + pn_calls w.
Proof.
  intros Hr Hp. pose proof Hr as [(h & Hh & Hch) Htx Hrx Honu Hnone Hsm Hports Hok]. destruct p as [flows|c flows].
  - destruct (rpc_install 0 flows sm w Hsm) as (sm' & Hrpc & Htab); [apply Hports; left|].
    exists sm', (set_sims (od_set host sm' (pn_sims w)) w). split_and!; try done.
    + cbn [run_push]. unfold olt_update_flows_bulk. erewrite M_bind_eq by (by apply assert_run).
      erewrite (M_bind_eq _ _ w h w) by (unfold get_olt; by rewrite Hh).
      unfold olt_update_flow_table. by erewrite (M_bind_eq _ _ w host w) by (by eapply get_channel_run).
    + split; try done; [by exists h|apply od_get_set|]. intros port Hport. rewrite Htab. case_decide; [done|by apply Hports].
  - assert (c ∈ cs) as Hc by (by eapply Hp). destruct (Honu c Hc) as (wt & Hhc).
    assert (c.2 ≠ 0%Z) as Hnz. { intros Hz. apply (ch_nonzero _ Hok). rewrite <- Hz. by apply list_elem_of_fmap_2. }
    assert (c.1 ≠ id) as Hne. { intros Heq. apply (ch_olt _ Hok). rewrite <- Heq. by apply list_elem_of_fmap_2. }
    set (w1 := set_onus (od_set c.1 (mk_onu_handler (Some (child_pa c)) [] wt) (pn_onus w)) (set_calls (S (pn_calls w)) (pn_done w) w)).
    assert (∀ x wt', ∀ c', c' ∈ cs → ∃ wt2, od_get c'.1 (od_set c.1 (mk_onu_handler (Some (child_pa c)) [] wt') x) = Some (mk_onu_handler (Some (child_pa c')) [] wt2) ∨ od_get c'.1 (od_set c.1 (mk_onu_handler (Some (child_pa c)) [] wt') x) = od_get c'.1 x) as Hset.
    { intros x wt' c' Hc'. destruct (decide (c.1 = c'.1)) as [Heq|Hn].
      - assert (c = c') as <- by (by eapply child_ids). exists wt'. left. apply od_get_set.
      - exists wt'. right. by apply od_get_set_ne. }
    assert (ready sm cs w1) as Hr1.
    { split; try done; [by exists h| |cbn; by rewrite od_get_set_ne].
      intros c' Hc'. destruct (Hset (pn_onus w) wt c' Hc') as [wt2 [He|He]]; [by exists wt2|]. cbn. rewrite He. by apply Honu. }
    destruct (send_table_run sm cs c flows w1 Hr1 Hc) as (sm' & Hsend & Htab). set (w2 := set_sims _ w1) in Hsend.
    set (w3 := set_onus (od_set c.1 (mk_onu_handler (Some (child_pa c)) [] (wt ++ [pn_calls w])) (pn_onus w2)) w2).
    exists sm', w3. split_and!; try done.
    + cbn [run_push]. erewrite (M_bind_eq _ _ w (pn_calls w) w3); [done|].
      unfold onu_update_flows_bulk. erewrite M_bind_eq by (by apply assert_run).
      erewrite (M_bind_eq _ _ w _ w) by (unfold get_onu; rewrite Hhc; reflexivity).
      unfold onu_update_flow_table. erewrite (M_bind_eq get_state _ w w w) by reflexivity.
      erewrite M_bind_eq by reflexivity. cbv zeta.
      erewrite M_bind_eq by (unfold get_onu; cbn; rewrite Hhc; reflexivity).
      erewrite (M_bind_eq _ _ _ tt w1) by reflexivity.
      erewrite (M_bind_eq _ _ w1 (child_pa c) w1) by reflexivity. erewrite M_bind_eq by exact Hsend.
      erewrite (M_bind_eq _ _ w2 _ w2) by (unfold get_onu; cbn; rewrite od_get_set; reflexivity). reflexivity.
    + split; try done; [by exists h| | |apply od_get_set|].
      * intros c' Hc'. destruct (Hset (pn_onus w2) (wt ++ [pn_calls w]) c' Hc') as [wt2 [He|He]]; [by exists wt2|]. cbn [pn_onus w3 set_onus].
        rewrite He. by apply (rd_onu _ _ _ Hr1).
      * cbn. rewrite !od_get_set_ne by done. done.
      * intros port Hport. rewrite Htab. case_decide; [done|by apply Hports].
    + cbn. unfold onu_pushes. cbn. by rewrite decide_True.
Qed.

Lemma pushes_run l : ∀ sm cs w, ready sm cs w → (∀ c f, PushOnu c f ∈ l → c ∈ cs) →
  ∃ sm' w', run_pushes l w = (Ok tt, w') ∧ ready sm' cs w' ∧
    (∀ port, table sm' port = pushed l port (table sm port)) ∧
    pn_done w' = pn_done w ∧ pn_calls w' = onu_pushes l + pn_calls w.
Proof.
  induction l as [|p l IH]; intros sm cs w Hr Hl; [by exists sm, w|].
  destruct (push_run sm cs p w Hr) as (sm1 & w1 & Hrun & Hr1 & Ht1 & Hd1 & Hc1).
  { intros c f ->. apply (Hl c f). left. }
  destruct (IH sm1 cs w1 Hr1) as (sm2 & w2 & Hrun2 & Hr2 & Ht2 & Hd2 & Hc2).
  { intros c f Hin. apply (Hl c f). by right. }
  exists sm2, w2. split_and!; [|done| | |].
  - cbn [run_pushes]. by erewrite M_bind_eq by exact Hrun.
  - intros port. rewrite Ht2. cbn [pushed foldl]. unfold pushed. by rewrite Ht1.
  - congruence.
  - rewrite Hc2, Hc1. unfold onu_pushes. rewrite !filter_cons. case_decide; cbn; lia.
Qed.

Lemma progress_ready iface d sm nni n done todo w :
  progress iface d sm nni n done todo w → children_ok done → od_get id (pn_onus w) = None →
  (∀ port, port ∈ 0%Z :: done.*2 → is_Some (table sm port)) → ready sm done w.
Proof.
  intros [[_ _ _ _ Btx Brx _] _ Pd _ Po Ps _] Hok Hnone Hports. split; try done.
  - by eexists.
  - intros c Hc. apply Btx, elem_of_app. by left.
  - intros c Hc. exists []. by apply Pd.
Qed.

(** C13: Flow tables reach the simulator, and no push to an ONU returns.  Once a
    PON is built, any sequence of bulk updates of the OLT and of its ONUs leaves
    in every device of the simulator the table that was pushed to it last,
    ordered by priority; but the answer to a push to an ONU is delivered to the
    handler of the device that the proxy address names, which is the OLT, so it
    is lost: of all the calls of update_flow_table for ONUs none returns. *)
Theorem flow_pushes_installed iface d sm nni n done w l :
  progress iface d sm nni n done [] w → children_ok done → od_get id (pn_onus w) = None →
  (∀ port, port ∈ 0%Z :: done.*2 → is_Some (table sm port)) → (∀ c f, PushOnu c f ∈ l → c ∈ done) →
  ∃ sm' w', run_pushes l w = (Ok tt, w') ∧ od_get host (pn_sims w') = Some sm' ∧
    (∀ port, table sm' port = pushed l port (table sm port)) ∧
    pn_calls w' = onu_pushes l + pn_calls w ∧ pn_done w' = pn_done w.
Proof.
  intros Hp Hok Hnone Hports Hl.
  destruct (pushes_run l sm done w) as (sm' & w' & Hrun & Hr & Ht & Hd & Hc);
    [by eapply progress_ready|done|].
  exists sm', w'. split_and!; try done. apply Hr.
Qed.

(** ** Packets in band *)

(** C14: Packets of the controller survive the in-band channel.  A packet-out of an
    Ethernet II frame for a port of the logical device is sent on the interface of the OLT with the VLAN
    of the channel and the port as tags; a frame with these tags passes the filter
    of the interface, and is published as a packet-in of the same logical device,
    with the same port and the bytes that were sent. *)
Theorem inband_roundtrip `{!PacketLaws} iface d sm nni n done todo w port m :
  progress iface d sm nni n done todo w → (∀ di, od_get (pretty n) (pn_ldi w) = Some di → di = id) →
  (0 ≤ port < 4096)%Z → canonical (Ether m) →
  ∃ f w' w'', receive_packet_out (pretty n) port m w = (Ok tt, w') ∧ pn_sent w' = pn_sent w ++ [(iface, f)] ∧
    io_recv iface f w' = (Ok tt, w'') ∧ pn_packet_ins w'' = pn_packet_ins w ++ [(pretty n, port, m)].
Proof.
  intros [[_ _ _ Blog _ _ _] _ _ _ Po _ Pi] Hldi Hport Hm. cbn [l_id] in Blog.
  set (e := inband port (Ether m)). assert (canonical e) as He.
  { destruct Hm as [_ Hm]. unfold canonical, e, inband. cbn [e_type e_payload tags_ok].
    split_and!; try done; lia. }
  set (w1 := if od_get (pretty n) (pn_ldi w) then w else set_ldi (od_set (pretty n) id (pn_ldi w)) w).
  assert (ldi_to_di (pretty n) w = (Ok id, w1)) as Hdi.
  { unfold ldi_to_di, w1. erewrite (M_bind_eq get_state _ w w w) by reflexivity.
    destruct (od_get (pretty n) (pn_ldi w)) as [di|] eqn:Hdi; [by rewrite (Hldi di)|].
    erewrite (M_bind_eq _ _ w _ (set_aa (pn_aa w) w)).
    2: { apply on_aa_eq. unfold get_logical_device. rewrite Blog. reflexivity. }
    reflexivity. }
  assert (pn_olts w1 = pn_olts w ∧ pn_sent w1 = pn_sent w ∧ pn_ifaces w1 = pn_ifaces w ∧ pn_packet_ins w1 = pn_packet_ins w)
    as (Ho & Hs & Hif & Hpi) by (unfold w1; destruct (od_get (pretty n) (pn_ldi w)); split_and!; reflexivity).
  set (f := packet_str e). set (w2 := set_sent (pn_sent w1 ++ [(iface, f)]) w1).
  exists f, w2, (set_packet_ins (pn_packet_ins w2 ++ [(pretty n, port, m)]) w2). split_and!.
  - unfold receive_packet_out. erewrite M_bind_eq by exact Hdi. unfold packet_out.
    erewrite (M_bind_eq _ _ w1 _ w1) by (unfold get_olt; rewrite Ho, Po; reflexivity).
    by erewrite M_bind_eq by reflexivity.
  - cbn. by rewrite Hs.
  - unfold io_recv. erewrite (M_bind_eq get_state _ w2 w2 w2) by reflexivity. cbn [pn_ifaces w2 set_sent].
    rewrite Hif, Pi. unfold f at 1, e at 1, inband. rewrite inband_vlan by exact He.
    rewrite bool_decide_true by done. unfold logged, rcv_io, f. rewrite (Ether_str e He).
    cbn [e_payload e inband]. erewrite (M_bind_eq _ _ w2 _ w2) by (unfold get_olt; cbn; rewrite Ho, Po; reflexivity).
    unfold send_packet_in. erewrite M_bind_eq by reflexivity. 
    assert (packet_str (mk_ether (e_dst e) (e_src e) (e_type (Ether m)) (e_payload (Ether m))) = m) as Hstr.
    { transitivity (packet_str (Ether m)); [|by apply str_Ether]. f_equal. unfold e, inband. cbn [e_dst e_src]. by destruct (Ether m). }
    rewrite Hstr. reflexivity.
  - cbn. by rewrite Hpi.
Qed.
End olt.
End spec.

(** ** A PON of two ONUs is built

    A wire format for packets, identifiers, and the witnesses of the theorems of
    PonAdaptersSpec; the routes of the logical device that is built. *)

(** ** A wire format *)

(** A packet is written as the bits of its code; other strings are kept as they
    are, in a packet that is not canonical. *)
Fixpoint tags_of (p : payload string) : list (Z * Z * Z) * string :=
  match p with
  | P_dot1q prio vlan ty p => let r := tags_of p in ((prio, vlan, ty) :: r.1, r.2)
  | P_raw r => ([], r)
  end.
Definition of_tags (x : list (Z * Z * Z) * string) : payload string :=
  foldr (λ t p, P_dot1q t.1.1 t.1.2 t.2 p) (P_raw x.2) x.1.
Lemma of_tags_of p : of_tags (tags_of p) = p.
Proof. induction p as [prio vlan ty p IH|r]; [|done]. cbn. f_equal. exact IH. Qed.

Definition ether_tuple (e : ether string) : string * string * Z * (list (Z * Z * Z) * string) :=
  (e_dst e, e_src e, e_type e, tags_of (e_payload e)).
Definition tuple_ether (x : string * string * Z * (list (Z * Z * Z) * string)) : ether string :=
  mk_ether x.1.1.1 x.1.1.2 x.1.2 (of_tags x.2).
Lemma tuple_ether_tuple e : tuple_ether (ether_tuple e) = e.
Proof. destruct e. unfold tuple_ether, ether_tuple. cbn. by rewrite of_tags_of. Qed.

Fixpoint pos_bits (p : positive) : string :=
  match p with
  | xH => ""
  | xO p => String "0"%char (pos_bits p)
  | xI p => String "1"%char (pos_bits p)
  end.
Fixpoint bits_pos (s : string) : option positive :=
  match s with
  | EmptyString => Some xH
  | String "0"%char s => xO <$> bits_pos s
  | String "1"%char s => xI <$> bits_pos s
  | _ => None
  end.
Lemma bits_pos_bits p : bits_pos (pos_bits p) = Some p.
Proof. induction p as [p IH|p IH|]; cbn; [by rewrite IH|by rewrite IH|done]. Qed.

Definition wire (e : ether string) : string := pos_bits (encode (ether_tuple e)).
Definition unwire (m : string) : option (ether string) :=
  p ← bits_pos m; x ← decode (A := string * string * Z * (list (Z * Z * Z) * string)) p; Some (tuple_ether x).
Lemma unwire_wire e : unwire (wire e) = Some e.
Proof. unfold unwire, wire. rewrite bits_pos_bits. cbn. rewrite decode_encode. cbn. by rewrite tuple_ether_tuple. Qed.

Fixpoint tags_okb (type : Z) (p : payload string) : bool :=
  match p with
  | P_dot1q prio vlan ty p =>
      bool_decide (type = ETH_P_8021Q) && bool_decide (0 ≤ prio < 8)%Z && bool_decide (0 ≤ vlan < 4096)%Z && tags_okb ty p
  | P_raw _ => bool_decide (type ≠ ETH_P_8021Q)
  end.
Lemma tags_okb_ok type p : tags_okb type p = true ↔ tags_ok type p.
Proof.
  revert type. induction p as [prio vlan ty p IH|r]; intros type; cbn.
  - rewrite !andb_true_iff, !bool_decide_eq_true, IH. tauto.
  - apply bool_decide_eq_true.
Qed.
Definition canonicalb (e : ether string) : bool :=
  bool_decide (1536 ≤ e_type e)%Z && tags_okb (e_type e) (e_payload e).
Lemma canonicalb_ok e : canonicalb e = true ↔ canonical e.
Proof. unfold canonicalb, canonical. by rewrite andb_true_iff, bool_decide_eq_true, tags_okb_ok. Qed.
Definition other (m : string) : ether string := mk_ether "" "" ETH_P_8021Q (P_raw m).

#[export] Instance demo_packets : Packets := {|
  raw := string;
  Ether m :=
    match unwire m with
    | Some e => if canonicalb e && bool_decide (wire e = m) then e else other m
    | None => other m
    end;
  packet_str e :=
    match e_payload e with
    | P_raw m => if bool_decide (e_type e = ETH_P_8021Q) then m else wire e
    | _ => wire e
    end;
  is_inband_frame m :=
    match unwire m with
    | Some (mk_ether _ _ _ (P_dot1q _ vlan _ _)) => bool_decide (vlan = PACKET_IN_VLAN)
    | _ => false
    end;
|}.
Lemma demo_str (e : ether string) : canonical e → packet_str (Packets := demo_packets) e = wire e.
Proof.
  intros [_ He]. revert He. destruct e as [dst src ty [prio vlan t p|m]]; cbn; [done|]. intros Hty. by rewrite bool_decide_false.
Qed.
#[export] Instance demo_packet_laws : PacketLaws.
Proof.
  split.
  - change (∀ e : ether string, canonical e → Ether (packet_str e) = e). intros e He. rewrite demo_str by done. cbn.
    rewrite unwire_wire, bool_decide_true, andb_true_r by done. apply canonicalb_ok in He. by rewrite He.
  - intros m _. cbn. destruct (unwire m) as [e|]; [|done].
    destruct (canonicalb e) eqn:Hok; [|done]. case_bool_decide as Hw; [|done]. cbn.
    apply canonicalb_ok in Hok. transitivity (wire e); [by apply (demo_str e)|done].
  - intros dst src prio vlan ty p He. rewrite demo_str by done. cbn. by rewrite unwire_wire.
Qed.

(** ** A new OLT *)

#[export] Instance demo_uuid : Uuid := {| uuid4_hex12 n := "onu-" +:+ pretty n |}.

Definition demo_olt : adevice :=
  mk_adevice "olt-1" "ponsim_olt" false "" 0 0 DeviceAgent.ENABLED DeviceAgent.ACTIVATING CONNECT_UNKNOWN
    "172.17.0.1:50060" (mk_proxy_address "" 0) [].
Definition demo_pon : pon :=
  mk_pon (mk_aa [] [] [("olt-1", (demo_olt, []))] [] [] [] ["ponsim_olt"; "ponsim_onu"])
    [("olt-1", mk_olt_handler None None None)] [] [] [("172.17.0.1:50060", mk_ponsim 2)] [] [] [] [(Olt, demo_olt)] 0 0 [].
Definition demo_unis : list Z := [128; 129]%Z.

Lemma demo_new_olt : new_olt "olt-1" "172.17.0.1:50060" 5 "ponmgmt" demo_olt demo_olt (mk_ponsim 2) 0 demo_unis demo_pon.
Proof.
  split; [reflexivity|done|done|done|reflexivity| |reflexivity|cbn; lia| | |].
  - split; [reflexivity|vm_compute; reflexivity].
  - intros k e Hin. by apply not_elem_of_nil in Hin.
  - split; apply (bool_decide_unpack _); vm_compute; exact I.
  - intros c Hc. change (c ∈ [("onu-0", 128%Z); ("onu-1", 129%Z)]) in Hc.
    repeat (apply elem_of_cons in Hc as [->|Hc]; [done|]). by apply not_elem_of_nil in Hc.
Qed.

(** The OLT, the second ONU, the first ONU *)
Definition run_nth (i : nat) (w : pon) : pon :=
  match pn_later w !! i with
  | Some call => (run_later 5 "ponmgmt" call (set_later (delete i (pn_later w)) w)).2
  | None => w
  end.
Definition demo_pon1 : pon := run_nth 0 demo_pon.
Definition demo_pon2 : pon := run_nth 1 demo_pon1.
Definition demo_pon3 : pon := run_nth 0 demo_pon2.

Lemma run_nth_step i w call : pn_later w !! i = Some call → step 5 "ponmgmt" w (run_nth i w).
Proof.
  intros Hc. unfold run_nth. rewrite Hc, delete_take_drop. apply step_later.
  symmetry. by apply take_drop_middle.
Qed.
Lemma demo_steps : nsteps (step 5 "ponmgmt") 3 demo_pon demo_pon3.
Proof.
  eapply nsteps_l; [|eapply nsteps_l; [|eapply nsteps_l; [|apply nsteps_O]]].
  - by eapply (run_nth_step 0).
  - eapply (run_nth_step 1). vm_compute. reflexivity.
  - eapply (run_nth_step 0). vm_compute. reflexivity.
Qed.

(** ** Witnesses *)

Lemma pon_is_built_witness : pn_later demo_pon3 = [] ∧
  ∃ n done, done ≡ₚ [("onu-0", 128%Z); ("onu-1", 129%Z)] ∧
    progress "olt-1" "172.17.0.1:50060" "ponmgmt" demo_olt (mk_ponsim 2) 0 n done [] demo_pon3.
Proof.
  destruct (pon_is_built "olt-1" "172.17.0.1:50060" 5 "ponmgmt" demo_olt demo_olt (mk_ponsim 2) 0 demo_unis
    demo_pon 3 demo_pon3 demo_new_olt eq_refl demo_steps) as (_ & [_ Hend] & Hbuilt).
  split; [apply Hend; reflexivity|]. apply Hbuilt. apply Hend. reflexivity.
Defined.

(** The PON, from the lemma behind the theorem *)
Lemma demo_progress : ∃ n done, done ≡ₚ [("onu-0", 128%Z); ("onu-1", 129%Z)] ∧
  progress "olt-1" "172.17.0.1:50060" "ponmgmt" demo_olt (mk_ponsim 2) 0 n done [] demo_pon3.
Proof.
  destruct (activations_run "olt-1" "172.17.0.1:50060" 5 "ponmgmt" demo_olt demo_olt (mk_ponsim 2) 0 demo_unis
    demo_pon 3 demo_pon3 demo_new_olt eq_refl demo_steps) as [[Heq _]|(n & ds & todo & Hk & Hp & Hpr)]; [done|].
  assert (todo = []) as ->.
  { apply Permutation_length in Hp. rewrite length_app, new_children_length in Hp. cbn in Hp. destruct todo; [done|]. cbn in Hp. lia. }
  rewrite app_nil_r in Hp. by exists n, ds.
Qed.

Definition demo_flow : flow_stats := mk_flow_stat 500 0 [in_port 2] [output 1].
Definition demo_pushes : list (push) :=
  [PushOlt [demo_flow]; PushOnu ("onu-1", 129%Z) [demo_flow]; PushOnu ("onu-0", 128%Z) []].

Lemma flow_pushes_installed_witness : ∃ sm' w',
  run_pushes "olt-1" demo_pushes demo_pon3 = (Ok tt, w') ∧ od_get "172.17.0.1:50060" (pn_sims w') = Some sm' ∧
  table sm' 129 = Some [demo_flow] ∧ pn_calls w' = 2 ∧ pn_done w' = [].
Proof.
  destruct demo_progress as (n & done & Hp & Hpr).
  destruct (flow_pushes_installed "olt-1" "172.17.0.1:50060" "ponmgmt" demo_olt (mk_ponsim 2) 0 n done demo_pon3 demo_pushes Hpr)
    as (sm' & w' & Hrun & Hsm & Htab & Hcalls & Hdone).
  - split; rewrite Hp; apply (bool_decide_unpack _); vm_compute; exact I.
  - vm_compute. reflexivity.
  - intros port Hport. rewrite Hp in Hport. cbn in Hport.
    repeat (apply elem_of_cons in Hport as [->|Hport]; [eexists; vm_compute; reflexivity|]). by apply not_elem_of_nil in Hport.
  - intros c f Hin. rewrite Hp. unfold demo_pushes in Hin.
    repeat (apply elem_of_cons in Hin as [Heq|Hin];
      [first [discriminate Heq|injection Heq as -> _; apply (bool_decide_unpack _); vm_compute; exact I]|]).
    by apply not_elem_of_nil in Hin.
  - exists sm', w'. split; [exact Hrun|]. split; [exact Hsm|]. split; [rewrite Htab; vm_compute; reflexivity|].
    split; [rewrite Hcalls; vm_compute; reflexivity|rewrite Hdone; vm_compute; reflexivity].
Defined.

Definition demo_packet : ether string := mk_ether "66:55:44:33:22:11" "11:22:33:44:55:66" 0x800 (P_raw "payload").
Lemma inband_roundtrip_witness : ∃ n f w' w'',
  receive_packet_out (pretty (n : N)) 129 (wire demo_packet) demo_pon3 = (Ok tt, w') ∧
  io_recv "ponmgmt" f w' = (Ok tt, w'') ∧ pn_packet_ins w'' = [(pretty n, 129%Z, wire demo_packet)].
Proof.
  destruct demo_progress as (n & done & Hp & Hpr).
  destruct (inband_roundtrip "olt-1" "172.17.0.1:50060" "ponmgmt" demo_olt (mk_ponsim 2) 0 n done [] demo_pon3 129 (wire demo_packet) Hpr)
    as (f & w' & w'' & Hout & _ & Hin & Hpi).
  - assert (pn_ldi demo_pon3 = []) as -> by (vm_compute; reflexivity). intros di Hdi. discriminate Hdi.
  - lia.
  - assert (canonical demo_packet) as Hc by (split; [vm_compute; discriminate|intros Heq; discriminate Heq]).
    rewrite <- (demo_str demo_packet) by exact Hc. rewrite Ether_str by exact Hc. exact Hc.
  - exists n, f, w', w''. split; [exact Hout|]. split; [exact Hin|]. rewrite Hpi. vm_compute. reflexivity.
Defined.

(** ** The routes of the PON that was built *)

#[export] Instance demo_view : DeviceView := {|
  DeviceGraph.get_device id :=
    match od_get id (aa_devices (pn_aa demo_pon3)) with
    | Some e => Ok (mk_Device (ad_id e.1) (ad_root e.1) (ad_vlan e.1) 1)
    | None => Raise KeyError
    end;
  DeviceGraph.get_ports id :=
    match od_get id (aa_devices (pn_aa demo_pon3)) with
    | Some e => Ok (ap_port ∘ snd <$> e.2)
    | None => Raise KeyError
    end;
|}.
Definition built_ports : list LogicalPort := e ← aa_logical (pn_aa demo_pon3); snd <$> e.2.2.

(** The device graph has a route between the root port and each other port, in
    both directions. *)
Example built_routes :
  match compute_routes 4 built_ports with
  | Ok (_, rs) => od_keys rs
  | Raise _ => []
  end = [(0, 129); (0, 128); (129, 0); (128, 0)]%Z.
Proof. vm_compute. reflexivity. Qed.

(** A second OLT is activated up to the interface, which all handlers share. *)
Definition second_olt : adevice :=
  mk_adevice "olt-2" "ponsim_olt" false "" 0 0 DeviceAgent.ENABLED DeviceAgent.ACTIVATING CONNECT_UNKNOWN
    "172.17.0.1:50060" (mk_proxy_address "" 0) [].
Example second_olt_fails :
  let activation : M pon unit :=
    _ ← on_aa (add_device second_olt); _ ← olt_adopt_device second_olt; olt_activate 9 "ponmgmt" second_olt in
  (activation demo_pon3).1 = Raise AssertionError.
Proof. vm_compute. reflexivity. Qed.
