(* ===== verification/Simulated.v ===== *)
(** * The adapters of the simulated OLT and ONU (adapters/simulated_olt, simulated_onu)

    Activation without a device: the coroutines of both adapters with the points at
    which they sleep, the messages the ONUs exchange with the OLT adapter, which
    sends every message back, and the one queue in which all ONUs of the adapter
    wait for an answer.  What the reactor runs next is not fixed: a step runs any
    call that is scheduled.  Also the analysis of flow tables. *)

From stdpp Require Import prelude strings pretty countable list.
From S2P Require Import Prelude OFP FlowDecomposer DeviceGraph PonSim DeviceAgent AdapterAgent PonAdapters.
Import AdapterAgent PonAdapters.

Module Simulated.

(** ** State *)

(** Calls that are scheduled: [reactor.callLater], or the rest of a coroutine after
    [asleep] *)
Inductive task : Type :=
  | OltStart (device : adevice)
  | OltPorts (device : adevice)
  | OltLogical (device : adevice)
  | OnuStart (device : adevice)
  | OnuPorts (device : adevice)
  | OnuLogical (device : adevice)
  | Detect (device_id : string) (i : nat)
  | Echo (pa : proxy_address) (msg : string).

Record sims : Type := mk_sims {
  s_aa : aa_state;
  s_uuids : nat;
  s_tasks : list task;
  s_pending : list (proxy_address * string);  (** incoming_messages of the ONU adapter *)
  s_waiting : list adevice;                   (** the activations that wait for one *)
}.
Definition set_tasks x (s : sims) : sims := mk_sims (s_aa s) (s_uuids s) x (s_pending s) (s_waiting s).
Definition set_queue p w (s : sims) : sims := mk_sims (s_aa s) (s_uuids s) (s_tasks s) p w.
Definition schedule (t : task) : M sims unit := modify (λ s, set_tasks (s_tasks s ++ [t]) s).
Definition agent {A} (m : M aa_state A) : M sims A := λ s,
  let '(r, aa) := m (s_aa s) in (r, mk_sims aa (s_uuids s) (s_tasks s) (s_pending s) (s_waiting s)).

Section simulated.
Context `{!Uuid}.
Definition next_uuid : M sims string := λ s,
  (Ok (uuid4_hex12 (s_uuids s)), mk_sims (s_aa s) (S (s_uuids s)) (s_tasks s) (s_pending s) (s_waiting s)).

(** Assignments to fields of a device; an ONU's [root] stays. *)
Definition info (vendor serial : string) : list (string * string) :=
  [("vendor", vendor); ("model", "n/a"); ("hardware_version", "n/a"); ("firmware_version", "n/a");
   ("software_version", "1.0"); ("serial_number", serial)].
Definition contact_onu (serial : string) (d : adevice) : adevice :=
  mk_adevice (ad_id d) (ad_type d) (ad_root d) (ad_parent_id d) (ad_parent_port_no d) (ad_vlan d)
    (ad_admin_state d) (ad_oper_status d) REACHABLE (ad_host_and_port d) (ad_proxy_address d)
    (foldl (λ m kv, od_set kv.1 kv.2 m) (ad_info d) (info "simulated onu adapter" serial)).

(** ** The bus between the adapters: exceptions of callbacks are logged. *)
Fixpoint each_listener (f : string → M sims unit) (names : list string) : M sims unit := λ s,
  match names with
  | [] => (Ok tt, s)
  | a :: names => each_listener f names (f a s).2
  end.
Definition publish (t : topic) (callback : string → M sims unit) : M sims unit :=
  s ← get_state; each_listener callback (listeners t (s_aa s)).

(** ** The ONU adapter *)

Definition onu_adopt_device (device : adevice) : M sims unit := schedule (OnuStart device).

(** [_simulate_device_activation], up to its first sleep, its second, and to the
    message exchange *)
Definition onu_start (device : adevice) : M sims unit :=
  _ ← lift (assert_ (bool_decide (ad_parent_id device ≠ "")));
  _ ← lift (assert_ (bool_decide (pa_device_id (ad_proxy_address device) ≠ "")));
  _ ← lift (assert_ (bool_decide (pa_channel_id (ad_proxy_address device) ≠ 0%Z)));
  serial ← next_uuid;
  let device := contact_onu serial device in
  _ ← agent (update_device device);
  schedule (OnuPorts device).
Definition onu_ports (device : adevice) : M sims unit :=
  _ ← agent (add_port (ad_id device) uni_port);
  _ ← agent (add_port (ad_id device) (onu_pon_port device));
  schedule (OnuLogical device).
(** [str(port_no)] is the logical port's id. *)
Definition virtual_port (device : adevice) : LogicalPort :=
  let port_no := pa_channel_id (ad_proxy_address device) in
  mk_LogicalPort (pretty port_no) (ad_id device) (p_no uni_port) port_no false.
(** After the reply *)
Definition onu_active (device : adevice) : M sims unit :=
  device ← agent (get_device (ad_id device));
  agent (update_device (set_oper DeviceAgent.ACTIVE device)).

(** [incoming_messages.get()], and then the rest of the activation *)
Definition queue_get (device : adevice) : M sims unit :=
  s ← get_state;
  match s_pending s with
  | _ :: pending => _ ← modify (set_queue pending (s_waiting s)); onu_active device
  | [] => modify (set_queue [] (s_waiting s ++ [device]))
  end.
(** [receive_proxied_message]: [incoming_messages.put], which resumes the first
    activation that waits *)
Definition queue_put (pa : proxy_address) (msg : string) : M sims unit :=
  s ← get_state;
  match s_waiting s with
  | device :: waiting => _ ← modify (set_queue (s_pending s) waiting); onu_active device
  | [] => modify (set_queue (s_pending s ++ [(pa, msg)]) [])
  end.
(** The OLT adapter's [send_proxied_message] answers in a short time. *)
Definition send_proxied_message (pa : proxy_address) (msg : string) : M sims unit :=
  publish (TxProxy pa) (λ name,
    if bool_decide (name = "simulated_olt") then schedule (Echo pa msg) else raise NotImplementedError).
Definition receive_proxied_message (pa : proxy_address) (msg : string) : M sims unit :=
  publish (RxProxy pa) (λ name,
    if bool_decide (name = "simulated_onu") then queue_put pa msg else raise NotImplementedError).

(** [_simulate_message_exchange]: pending messages are taken from the queue first. *)
Definition message_exchange (device : adevice) : M sims unit :=
  let pa := ad_proxy_address device in
  _ ← agent (register_for_proxied_messages "simulated_onu" pa);
  _ ← modify (λ s, set_queue [] (s_waiting s) s);
  _ ← send_proxied_message pa "test message";
  queue_get device.
Definition onu_logical (device : adevice) : M sims unit :=
  parent_device ← agent (get_device (ad_parent_id device));
  let logical_device_id := ad_parent_id parent_device in
  _ ← lift (assert_ (bool_decide (logical_device_id ≠ "")));
  _ ← agent (add_logical_port logical_device_id (virtual_port device));
  message_exchange device.

(** ** The OLT adapter *)

Definition olt_adopt_device (device : adevice) : M sims unit := schedule (OltStart device).
Definition olt_start (device : adevice) : M sims unit :=
  serial ← next_uuid;
  let device := populate (info "simulated" serial) device in
  _ ← agent (update_device device);
  schedule (OltPorts device).
Definition olt_ports (device : adevice) : M sims unit :=
  _ ← agent (add_port (ad_id device) nni_port);
  _ ← agent (add_port (ad_id device) olt_pon_port);
  schedule (OltLogical device).
(** Two more ids are drawn, for the id that is not used and the serial number. *)
Definition olt_logical (fuel : nat) (device : adevice) : M sims unit :=
  _ ← next_uuid;
  _ ← next_uuid;
  ld ← agent (create_logical_device "simulated_olt" fuel (new_ld device));
  _ ← agent (add_logical_port (l_id ld) (nni_logical_port device 129));
  device ← agent (get_device (ad_id device));
  agent (update_device (set_oper DeviceAgent.ACTIVE (set_parent (l_id ld) device))).

(** [_simulate_detection_of_onus]: the loop is at [i], after its sleep. A device that
    is detected is enabled, and its agent lets the ONU adapter adopt it. *)
Definition olt_side_onu_activation (seq : nat) : Z := Z.of_nat seq + 100.
Definition detect (device_id : string) (i : nat) : M sims unit :=
  let vlan_id := olt_side_onu_activation i in
  let pa := mk_proxy_address device_id vlan_id in
  uuid ← next_uuid;
  _ ← agent (child_device_detected "simulated_olt" uuid device_id 1 "simulated_onu" pa vlan_id);
  let device := set_oper DeviceAgent.ACTIVATING (child_device uuid device_id 1 "simulated_onu" pa vlan_id) in
  _ ← agent (update_device device);
  _ ← onu_adopt_device device;
  if bool_decide (i < 4) then schedule (Detect device_id (S i)) else mret tt.
(** [GET /devices/<device_id>/detect_onus] *)
Definition detect_onus (device_id : string) : M sims unit := schedule (Detect device_id 1).

(** ** Runs *)

Definition run_task (fuel : nat) (t : task) : M sims unit :=
  match t with
  | OltStart d => olt_start d
  | OltPorts d => olt_ports d
  | OltLogical d => olt_logical fuel d
  | OnuStart d => onu_start d
  | OnuPorts d => onu_ports d
  | OnuLogical d => onu_logical d
  | Detect id i => detect id i
  | Echo pa msg => receive_proxied_message pa msg
  end.
(** The reactor runs a call that is scheduled; an exception ends the coroutine. *)
Inductive step (fuel : nat) : sims → sims → Prop :=
  | step_task s i t : s_tasks s !! i = Some t → step fuel s (run_task fuel t (set_tasks (delete i (s_tasks s)) s)).2.
(** What the core and the tester do: OLTs are adopted, and ONUs are to be detected. *)
Inductive outside : sims → sims → Prop :=
  | outside_adopt s d : outside s (olt_adopt_device d s).2
  | outside_detect s id : outside s (detect_onus id s).2.
Inductive reachable (fuel : nat) (aa : aa_state) : sims → Prop :=
  | reachable_start n : reachable fuel aa (mk_sims aa n [] [] [])
  | reachable_step s s' : reachable fuel aa s → step fuel s s' → reachable fuel aa s'
  | reachable_outside s s' : reachable fuel aa s → outside s s' → reachable fuel aa s'.
End simulated.

(** ** Flow tables ([update_flows_bulk])

    A table is analyzed, and nothing is done with it. *)
Definition DOWNSTREAM : list Z := [ETH_TYPE; IP_PROTO; IN_PORT; VLAN_VID; VLAN_PCP].
Definition OLT_UPSTREAM : list Z := DOWNSTREAM ++ [UDP_DST].
Definition ONU_UPSTREAM : list Z := DOWNSTREAM ++ [IPV4_DST; UDP_DST].

Definition check_field (supported : list Z) (f : ofb_field) : result unit :=
  if bool_decide (f_type f ∈ supported) then Ok tt else Raise NotImplementedError.
(** Actions that are not supported are logged. *)
Definition check_action (a : action) : result unit :=
  if bool_decide (a_type a = OUTPUT) || bool_decide (a_type a = PUSH_VLAN) || bool_decide (a_type a = POP_VLAN) then Ok tt
  else if bool_decide (a_type a = SET_FIELD) then assert_ (bool_decide (oxm_class (a_set_field a) = OFPXMC_OPENFLOW_BASIC))
  else Ok tt.
Fixpoint check_all {A} (f : A → result unit) (l : list A) : result unit :=
  match l with
  | [] => Ok tt
  | a :: l => _ ← f a; check_all f l
  end.
Definition check_flow (upstream : list Z) (flow : flow_stats) : result unit :=
  in_port ← get_in_port flow;
  in_port ← of_option AssertionError in_port;
  if bool_decide (in_port = 2%Z) || bool_decide (in_port = 1%Z) then
    fields ← get_ofb_fields flow;
    _ ← check_all (check_field (if bool_decide (in_port = 2%Z) then DOWNSTREAM else upstream)) fields;
    actions ← iter_actions flow;
    check_all check_action actions
  else Raise GenericException.
Definition update_flows_bulk (upstream : list Z) (flows : list flow_stats) (groups : list group_entry) : result unit :=
  _ ← assert_ (bool_decide (groups = []));
  check_all (check_flow upstream) flows.

(** ** No ONU is left waiting *)

(** Subscriptions stay. *)
Definition grows (a a' : aa_state) : Prop := aa_topics a ⊆ aa_topics a'.
#[local] Instance grows_preorder : PreOrder grows.
Proof. split; [by intros a x Hx|]. intros a b c Hab Hbc x Hx. by apply Hbc, Hab. Qed.

Create HintDb grows.
Ltac grows := repeat first
  [ progress intros
  | apply rel_post_ret; apply _ | apply rel_post_raise; apply _ | apply rel_post_lift; apply _
  | solve [eauto with grows]
  | apply rel_post_bind; [apply _| |]
  | match goal with
    | |- rel_post _ (if ?b then _ else _) => destruct b
    | |- rel_post _ get_state => intros ?; reflexivity
    | |- rel_post _ (modify _) => intros ? ? Hin; cbn; first [exact Hin|apply elem_of_app; by left]
    end ].
Lemma get_device_grows id : rel_post grows (get_device id).
Proof. intros s x Hx. exact Hx. Qed.
Lemma update_device_grows d : rel_post grows (update_device d).
Proof. unfold update_device. grows. Qed.
Lemma put_port_grows id no p : rel_post grows (put_port id no p).
Proof. unfold put_port. grows. Qed.
#[local] Hint Resolve get_device_grows update_device_grows put_port_grows : grows.
Lemma link_peers_grows me peers : rel_post grows (link_peers me peers).
Proof. induction peers as [|q peers IH]; cbn [link_peers]; grows. Qed.
#[local] Hint Resolve link_peers_grows : grows.
Lemma add_port_grows id p : rel_post grows (add_port id p).
Proof. unfold add_port. grows. Qed.
Lemma create_logical_device_grows name fuel ld : rel_post grows (create_logical_device name fuel ld).
Proof. unfold create_logical_device. grows. Qed.
Lemma child_device_detected_grows name u p n ty pa v : rel_post grows (child_device_detected name u p n ty pa v).
Proof. unfold child_device_detected. grows. Qed.
Lemma register_grows name pa : rel_post grows (register_for_proxied_messages name pa).
Proof. unfold register_for_proxied_messages. grows. Qed.
Lemma add_logical_port_grows id p : rel_post grows (add_logical_port id p).
Proof. unfold add_logical_port. grows. Qed.
#[local] Hint Resolve add_port_grows create_logical_device_grows child_device_detected_grows register_grows
  add_logical_port_grows : grows.

(** A task that will not fail to reach its listeners: the OLT adapter listens for the
    messages of an ONU that was adopted, and the ONU adapter for the answers. *)
Definition task_ok (aa : aa_state) (t : task) : Prop :=
  match t with
  | OnuStart d | OnuPorts d | OnuLogical d => ("simulated_olt", TxProxy (ad_proxy_address d)) ∈ aa_topics aa
  | Echo pa _ => ("simulated_onu", RxProxy pa) ∈ aa_topics aa
  | _ => True
  end.
Lemma task_ok_grows aa aa' t : grows aa aa' → task_ok aa t → task_ok aa' t.
Proof. intros Hg. destruct t; cbn; auto. Qed.
Definition is_echo (t : task) : bool := match t with Echo _ _ => true | _ => false end.
Definition echoes (l : list task) : nat := length (filter is_echo l).
(** The steps that are left before a call is done, other than echoes *)
Definition work (t : task) : nat :=
  match t with
  | OltStart _ | OnuStart _ => 3
  | OltPorts _ | OnuPorts _ => 2
  | OltLogical _ | OnuLogical _ => 1
  | Detect _ i => 4 * (5 - i) + 4
  | Echo _ _ => 0
  end.
Definition works (l : list task) : nat := sum_list_with work l.
Lemma echoes_app l l' : echoes (l ++ l') = echoes l + echoes l'.
Proof. unfold echoes. by rewrite filter_app, length_app. Qed.
Lemma works_app l l' : works (l ++ l') = works l + works l'.
Proof. apply sum_list_with_app. Qed.

(** What running a method comes to, when [t] is the task: as many waiters may be added
    as echoes are, and the new tasks have work [n]. *)
Definition effect (n : nat) (s s' : sims) : Prop :=
  grows (s_aa s) (s_aa s') ∧
  length (s_waiting s') + echoes (s_tasks s) ≤ length (s_waiting s) + echoes (s_tasks s') ∧
  ∃ new, s_tasks s' = s_tasks s ++ new ∧ works new ≤ n ∧ Forall (task_ok (s_aa s')) new.
Lemma effect_refl n s : effect n s s.
Proof. split_and!; [done|lia|]. exists []. rewrite app_nil_r. split_and!; [done|cbn; lia|done]. Qed.
Lemma effect_trans n k s1 s2 s3 : effect n s1 s2 → effect k s2 s3 → effect (n + k) s1 s3.
Proof.
  intros (Hg & Hb & new & Ht & Hw & Hok) (Hg' & Hb' & new' & Ht' & Hw' & Hok'). split_and!; [by etransitivity|lia|].
  exists (new ++ new'). rewrite Ht', Ht, app_assoc, works_app. split_and!; [done|lia|]. apply Forall_app. split; [|done].
  eapply Forall_impl; [exact Hok|]. intros t. by apply task_ok_grows.
Qed.
Lemma effect_le n k s s' : effect n s s' → n ≤ k → effect k s s'.
Proof. intros (? & ? & new & ? & ? & ?) Hle. split_and!; [done|done|]. exists new. split_and!; [done|lia|done]. Qed.

Definition spec {A} (P : aa_state → Prop) (n : nat) (m : M sims A) : Prop := ∀ s, P (s_aa s) → effect n s (m s).2.
Definition monotone (P : aa_state → Prop) : Prop := ∀ aa aa', grows aa aa' → P aa → P aa'.
Section spec.
Context (P : aa_state → Prop) (HP : monotone P).
Lemma spec_bind {A B} n k (m : M sims A) (f : A → M sims B) :
  spec P n m → (∀ a, spec P k (f a)) → spec P (n + k) (m ≫= f).
Proof.
  intros Hm Hf s Hs. unfold mbind, M_bind. specialize (Hm s Hs). destruct (m s) as [[a|e] s']; cbn [snd] in *.
  - eapply effect_trans; [done|]. apply Hf. eapply HP; [apply Hm|done].
  - eapply effect_le; [done|lia].
Qed.
Lemma spec_agent {A} (m : M aa_state A) : rel_post grows m → spec P 0 (agent m).
Proof.
  intros Hm s _. unfold agent. specialize (Hm (s_aa s)). destruct (m (s_aa s)) as [r aa]. split_and!; [done|done|].
  exists []. rewrite app_nil_r. split_and!; [done|cbn; lia|done].
Qed.
Lemma spec_same {A} (m : M sims A) : (∀ s, (m s).2 = s) → spec P 0 m.
Proof. intros Hm s _. rewrite Hm. apply effect_refl. Qed.
Lemma spec_schedule t : (∀ aa, P aa → task_ok aa t) → is_echo t = false → spec P (work t) (schedule t).
Proof.
  intros Ht He s Hs. split_and!; [done| |].
  - cbn [schedule modify snd set_tasks s_waiting s_tasks]. rewrite echoes_app. lia.
  - exists [t]. split_and!; [done|cbn; lia|]. constructor; [by apply Ht|done].
Qed.
Lemma spec_le {A} n k (m : M sims A) : spec P n m → n ≤ k → spec P k m.
Proof. intros Hm Hle s Hs. by eapply effect_le; [apply Hm|]. Qed.
End spec.
Lemma task_ok_monotone t : monotone (λ aa, task_ok aa t).
Proof. intros aa aa' Hg. by apply task_ok_grows. Qed.
Lemma true_monotone : monotone (λ _, True).
Proof. by intros aa aa'. Qed.
#[local] Hint Resolve task_ok_monotone true_monotone : core.

Section tasks.
Context `{!Uuid}.

Lemma spec_uuid P : spec P 0 next_uuid.
Proof.
  intros s _. split_and!; [done|done|]. exists []. cbn [next_uuid snd s_tasks]. rewrite app_nil_r. split_and!; [done|cbn; lia|done].
Qed.
(** Splits a coroutine into its statements. *)
Ltac statement n := refine (spec_bind _ _ n _ _ _ _ _); [solve [auto]|..].
Ltac simple_statement := statement 0; [solve [apply spec_uuid | apply spec_agent; grows | by apply spec_same]|intros ?].
Ltac task_spec := repeat simple_statement.

Lemma olt_start_spec d : spec (λ aa, task_ok aa (OltStart d)) 2 (olt_start d).
Proof. unfold olt_start. task_spec. cbv zeta. task_spec. by apply (spec_schedule _ (OltPorts _)). Qed.
Lemma olt_ports_spec d : spec (λ aa, task_ok aa (OltPorts d)) 1 (olt_ports d).
Proof. unfold olt_ports. task_spec. by apply (spec_schedule _ (OltLogical _)). Qed.
Lemma olt_logical_spec fuel d : spec (λ aa, task_ok aa (OltLogical d)) 0 (olt_logical fuel d).
Proof. unfold olt_logical. task_spec. apply spec_agent. grows. Qed.
Lemma onu_start_spec d : spec (λ aa, task_ok aa (OnuStart d)) 2 (onu_start d).
Proof. unfold onu_start. task_spec. cbv zeta. task_spec. by apply (spec_schedule _ (OnuPorts _)). Qed.
Lemma onu_ports_spec d : spec (λ aa, task_ok aa (OnuPorts d)) 1 (onu_ports d).
Proof. unfold onu_ports. task_spec. by apply (spec_schedule _ (OnuLogical _)). Qed.

(** Detection subscribes the OLT adapter to the messages of the ONU. *)
Lemma detect_spec id i : spec (λ aa, True) (4 * (5 - i) + 3) (detect id i).
Proof.
  unfold detect. cbv zeta. statement 0; [apply spec_uuid|]. intros uuid s _.
  set (pa := mk_proxy_address id (olt_side_onu_activation i)).
  set (d := set_oper _ (child_device uuid id 1 "simulated_onu" pa _)). unfold mbind at 1, M_bind at 1.
  set (m := agent _ s). assert (∃ s1, m = (Ok tt, s1) ∧ task_ok (s_aa s1) (OnuStart d)) as (s1 & Hm & Hok).
  { eexists. split; [reflexivity|]. cbn. apply elem_of_app. right. by apply list_elem_of_singleton. }
  assert (effect 0 s s1) as He1.
  { change s1 with (Ok tt, s1).2. rewrite <- Hm. by apply (spec_agent (λ _, True)); [grows|]. }
  rewrite Hm. apply (effect_trans 0 (4 * (5 - i) + 3) _ _ _ He1).
  apply (spec_le (λ aa, task_ok aa (OnuStart d)) (3 + if bool_decide (i < 4) then 4 * (5 - S i) + 4 else 0)); [|case_bool_decide; lia|done].
  statement 0; [apply spec_agent; grows|]. intros _.
  statement 3; [by apply (spec_schedule _ (OnuStart _))|]. intros _.
  case_bool_decide; [by apply (spec_schedule _ (Detect _ _))|by apply spec_same].
Qed.

(** A message ends one wait, if there is one. *)
Lemma onu_active_run d s :
  grows (s_aa s) (s_aa (onu_active d s).2) ∧ s_tasks (onu_active d s).2 = s_tasks s ∧ s_waiting (onu_active d s).2 = s_waiting s.
Proof.
  unfold onu_active. unfold mbind, M_bind. cbn [agent get_device].
  destruct (of_option KeyError _) as [d'|e]; cbn [snd s_aa s_tasks s_waiting]; [|done].
  unfold agent. pose proof (update_device_grows (set_oper DeviceAgent.ACTIVE d') (s_aa s)) as Hg.
  cbn [s_aa]. by destruct (update_device _ (s_aa s)) as [r aa].
Qed.
Lemma queue_put_run pa msg s :
  let s' := (queue_put pa msg s).2 in
  grows (s_aa s) (s_aa s') ∧ s_tasks s' = s_tasks s ∧ length (s_waiting s') = length (s_waiting s) - 1.
Proof.
  unfold queue_put. rewrite (M_bind_eq get_state _ s s s) by reflexivity. destruct (s_waiting s) as [|d w] eqn:Hw; [done|].
  erewrite M_bind_eq by reflexivity. destruct (onu_active_run d (set_queue (s_pending s) w s)) as (Hg & Ht & Hl). cbv zeta.
  rewrite Ht, Hl. split_and!; [exact Hg|done|cbn; lia].
Qed.
Lemma received_run names pa msg s :
  let s' := (each_listener (λ name, if bool_decide (name = "simulated_onu") then queue_put pa msg
    else raise NotImplementedError) names s).2 in
  grows (s_aa s) (s_aa s') ∧ s_tasks s' = s_tasks s ∧
  length (s_waiting s') ≤ length (s_waiting s) - (if bool_decide ("simulated_onu" ∈ names) then 1 else 0).
Proof.
  revert s. induction names as [|a names IH]; intros s; cbn [each_listener].
  { cbn [snd]. split_and!; [done|done|]. rewrite bool_decide_eq_false_2 by (apply not_elem_of_nil). lia. }
  destruct (decide (a = "simulated_onu")) as [->|Ha].
  - rewrite (bool_decide_eq_true_2 (_ = _)) by done. destruct (queue_put_run pa msg s) as (Hg & Ht & Hl). destruct (IH (queue_put pa msg s).2) as (Hg' & Ht' & Hl').
    cbv zeta in *. rewrite Ht', Ht. split_and!; [by etransitivity|done|].
    rewrite (bool_decide_eq_true_2 (_ ∈ _ :: _)) by (by left). lia.
  - rewrite (bool_decide_eq_false_2 (_ = _)) by done. destruct (IH s) as (Hg' & Ht' & Hl'). cbn [raise snd]. split_and!; [exact Hg'|exact Ht'|].
    etransitivity; [exact Hl'|]. rewrite (bool_decide_ext ("simulated_onu" ∈ a :: names) ("simulated_onu" ∈ names)); [done|].
    rewrite elem_of_cons. naive_solver.
Qed.
Lemma listens name t aa : (name, t) ∈ aa_topics aa → name ∈ listeners t aa.
Proof. intros Hin. unfold listeners. apply list_elem_of_fmap. exists (name, t). split; [done|]. by apply list_elem_of_filter. Qed.
Lemma echo_run pa msg s : task_ok (s_aa s) (Echo pa msg) →
  let s' := (receive_proxied_message pa msg s).2 in
  grows (s_aa s) (s_aa s') ∧ s_tasks s' = s_tasks s ∧ length (s_waiting s') ≤ length (s_waiting s) - 1.
Proof.
  intros Hok. unfold receive_proxied_message, publish. rewrite (M_bind_eq get_state _ s s s) by reflexivity.
  pose proof (received_run (listeners (RxProxy pa) (s_aa s)) pa msg s) as Hr. cbv zeta in *.
  by rewrite bool_decide_eq_true_2 in Hr by (by apply listens).
Qed.

(** The message of an ONU is echoed, at least once. *)
Lemma sent_run names pa msg s :
  let s' := (each_listener (λ name, if bool_decide (name = "simulated_olt") then schedule (Echo pa msg)
    else raise NotImplementedError) names s).2 in
  s' = set_tasks (s_tasks s ++ replicate (length (filter (.= "simulated_olt") names)) (Echo pa msg)) s.
Proof.
  revert s. induction names as [|a names IH]; intros s; cbn [each_listener].
  { cbn. rewrite app_nil_r. by destruct s. }
  rewrite filter_cons. case_bool_decide as Ha; [rewrite decide_True by done|rewrite decide_False by done].
  - rewrite IH. cbn. by rewrite <- app_assoc.
  - cbn [raise snd]. apply IH.
Qed.
Lemma echoes_replicate k pa msg : echoes (replicate k (Echo pa msg)) = k ∧ works (replicate k (Echo pa msg)) = 0.
Proof. unfold echoes, works. induction k as [|k [IH1 IH2]]; [done|]. cbn [replicate sum_list_with work].
  rewrite filter_cons, decide_True by done. cbn. auto. Qed.

Lemma exchange_spec d : spec (λ aa, task_ok aa (OnuLogical d)) 0 (message_exchange d).
Proof.
  intros s Hok. unfold message_exchange. cbv zeta. erewrite M_bind_eq by reflexivity. erewrite M_bind_eq by reflexivity.
  set (s1 := set_queue [] _ _). unfold send_proxied_message, publish.
  set (names := listeners (TxProxy (ad_proxy_address d)) (s_aa s1)).
  assert ("simulated_olt" ∈ names) as Hin by (apply listens; cbn; apply elem_of_app; by left).
  pose proof (sent_run names (ad_proxy_address d) "test message" s1) as Hsent. cbv zeta in Hsent.
  set (k := length (filter (.= "simulated_olt") names)) in *.
  assert (1 ≤ k) as Hk.
  { assert ("simulated_olt" ∈ filter (.= "simulated_olt") names) as Hf by (by apply list_elem_of_filter).
    unfold k. destruct (filter _ names); [by apply not_elem_of_nil in Hf|cbn; lia]. }
  unfold mbind at 1, M_bind at 1. rewrite (M_bind_eq get_state _ s1 s1 s1) by reflexivity. fold names.
  assert (∀ f l s0, (each_listener f l s0).1 = Ok tt) as Hres by (intros f l; induction l; intros s0; [done|apply IHl]).
  destruct (each_listener _ names s1) as [r s2] eqn:Hrun. cbn [snd] in Hsent. subst s2.
  assert (r = Ok tt) as -> by (change r with (r, set_tasks (s_tasks s1 ++ replicate k (Echo (ad_proxy_address d) "test message")) s1).1;
    rewrite <- Hrun; apply Hres).
  set (new := replicate k (Echo (ad_proxy_address d) "test message")) in *.
  change (effect 0 s (mk_sims (s_aa s1) (s_uuids s) (s_tasks s ++ new) [] (s_waiting s ++ [d]))).
  destruct (echoes_replicate k (ad_proxy_address d) "test message") as [He Hw]. split_and!.
  - intros x Hx. cbn. apply elem_of_app. by left.
  - cbn [s_waiting s_tasks]. rewrite length_app, echoes_app. unfold new. rewrite He. cbn [length]. lia.
  - exists new. unfold new. split_and!; [done|by rewrite Hw|].
    apply Forall_replicate. cbn. apply elem_of_app. right. by apply list_elem_of_singleton.
Qed.
Lemma onu_logical_spec d : spec (λ aa, task_ok aa (OnuLogical d)) 0 (onu_logical d).
Proof. unfold onu_logical. do 3 simple_statement. apply exchange_spec. Qed.

(** ** Every run ends, with every wait ended *)

Definition inv (s : sims) : Prop := length (s_waiting s) ≤ echoes (s_tasks s) ∧ Forall (task_ok (s_aa s)) (s_tasks s).
(** A call that is not an echo leaves less work. *)
Lemma run_task_spec fuel t : is_echo t = false → ∃ n, n < work t ∧ spec (λ aa, task_ok aa t) n (run_task fuel t).
Proof.
  destruct t as [d|d|d|d|d|d|id i|pa msg]; intros Hn; cbn [run_task work].
  - exists 2. split; [lia|apply olt_start_spec].
  - exists 1. split; [lia|apply olt_ports_spec].
  - exists 0. split; [lia|apply olt_logical_spec].
  - exists 2. split; [lia|apply onu_start_spec].
  - exists 1. split; [lia|apply onu_ports_spec].
  - exists 0. split; [lia|apply onu_logical_spec].
  - exists (4 * (5 - i) + 3). split; [lia|apply detect_spec].
  - done.
Qed.
Lemma delete_counts l i t : l !! i = Some t → echoes l = (if is_echo t then 1 else 0) + echoes (delete i l) ∧
  works l = work t + works (delete i l).
Proof.
  intros Hi. apply delete_Permutation in Hi. unfold echoes, works. split.
  - rewrite Hi at 1. rewrite filter_cons. destruct (is_echo t); [by rewrite decide_True by done|].
    by rewrite decide_False by (by intros []).
  - by rewrite Hi at 1.
Qed.
Lemma step_effect fuel s s' : inv s → step fuel s s' →
  inv s' ∧ (works (s_tasks s') < works (s_tasks s) ∨
            works (s_tasks s') = works (s_tasks s) ∧ echoes (s_tasks s') < echoes (s_tasks s)).
Proof.
  intros [Hw Hok] Hst. destruct Hst as [s i t Hi]. destruct (delete_counts _ _ _ Hi) as [He Hwk].
  set (s0 := set_tasks (delete i (s_tasks s)) s). assert (task_ok (s_aa s) t) as Ht by (by eapply Forall_lookup_1).
  assert (Forall (task_ok (s_aa s)) (delete i (s_tasks s))) as Hdel by (by apply Forall_delete).
  destruct (is_echo t) eqn:Hecho.
  - destruct t; try done. destruct (echo_run pa msg s0 Ht) as (Hg & Htk & Hl). cbn [run_task] in *. cbv zeta in *.
    unfold inv. rewrite Htk. change (s_tasks s0) with (delete i (s_tasks s)). change (s_waiting s0) with (s_waiting s) in Hl.
    split; [split; [lia|]|right; cbn [work] in Hwk; lia].
    eapply Forall_impl; [exact Hdel|]. intros x. by apply task_ok_grows.
  - destruct (run_task_spec fuel t Hecho) as (n & Hn & Hspec). destruct (Hspec s0 Ht) as (Hg & Hb & new & Htk & Hwn & Hnew).
    change (s_tasks s0) with (delete i (s_tasks s)) in *. change (s_waiting s0) with (s_waiting s) in *. split.
    + split; [lia|]. rewrite Htk. apply Forall_app. split; [|done]. eapply Forall_impl; [exact Hdel|].
      intros x. by apply task_ok_grows.
    + left. rewrite Htk, works_app. lia.
Qed.
Lemma inv_sn fuel s : inv s → sn (step fuel) s.
Proof.
  remember (works (s_tasks s)) as w eqn:Hw. remember (echoes (s_tasks s)) as e eqn:He. revert e s He Hw.
  induction (lt_wf w) as [w _ IHw]. intros e. induction (lt_wf e) as [e _ IHe]. intros s He Hw Hinv.
  constructor. intros s' Hst. destruct (step_effect _ _ _ Hinv Hst) as [Hinv' [Hlt|[Heq Hlt]]].
  - by eapply (IHw (works (s_tasks s'))); [lia|..].
  - by eapply (IHe (echoes (s_tasks s'))); [lia|done|lia|].
Qed.
Lemma steps_effect fuel s s' : inv s → rtc (step fuel) s s' → inv s'.
Proof. intros Hinv Hst. induction Hst as [s|s1 s2 s3 Hst Hr IH]; [done|]. apply IH. by eapply step_effect. Qed.
Lemma reachable_waits fuel aa s : reachable fuel aa s → inv s.
Proof.
  induction 1 as [n|s s' Hr IH Hst|s s' Hr [Hw Hok] Hout].
  - split; [done|constructor].
  - by eapply step_effect.
  - destruct Hout; split; cbn [olt_adopt_device detect_onus schedule modify snd set_tasks s_waiting s_tasks s_aa];
      rewrite ?echoes_app; try lia; apply Forall_app; (split; [done|]); by repeat constructor.
Qed.

(** C38: The simulated activations end. Whatever OLTs are adopted and whenever ONUs are
    detected, in whatever order the reactor then runs what was scheduled: it runs out
    of calls, and when it has none left, no ONU waits for the answer to its message,
    although all ONUs take their answers from one queue, which each of them empties
    before it sends. *)
Theorem activations_end fuel aa s : reachable fuel aa s →
  sn (step fuel) s ∧ ∀ s', rtc (step fuel) s s' → s_tasks s' = [] → s_waiting s' = [].
Proof.
  intros Hr. apply reachable_waits in Hr. split; [by apply inv_sn|]. intros s' Hst Ht.
  destruct (steps_effect _ _ _ Hr Hst) as [Hl _]. rewrite Ht in Hl. by apply length_zero_iff_nil, Nat.le_0_r.
Qed.

(** Running calls by their places in the schedule *)
Definition exec (fuel : nat) (s : sims) (places : list nat) : sims :=
  foldl (λ s i, match s_tasks s !! i with
    | Some t => (run_task fuel t (set_tasks (delete i (s_tasks s)) s)).2
    | None => s
    end) s places.
Lemma exec_reachable fuel aa s places : reachable fuel aa s → reachable fuel aa (exec fuel s places).
Proof.
  revert s. induction places as [|i places IH]; intros s Hs; [done|]. apply IH. destruct (s_tasks s !! i) as [t|] eqn:Ht; [|done].
  eapply reachable_step; [done|by constructor].
Qed.
Definition start (aa : aa_state) (d : adevice) : sims := (olt_adopt_device d (mk_sims aa 0 [] [] [])).2.
Lemma start_reachable fuel aa d : reachable fuel aa (start aa d).
Proof. eapply reachable_outside; [apply (reachable_start fuel aa 0)|constructor]. Qed.
Lemma detecting_reachable fuel aa s id : reachable fuel aa s → reachable fuel aa (detect_onus id s).2.
Proof. intros Hs. eapply reachable_outside; [done|constructor]. Qed.
End tasks.

(** ** What tables are accepted *)

Lemma check_all_Ok {A} (f : A → result unit) l : check_all f l = Ok tt ↔ Forall (λ a, f a = Ok tt) l.
Proof.
  induction l as [|a l IH]; cbn; [done|]. rewrite Forall_cons, <- IH. destruct (f a) as [[]|e]; cbn; naive_solver.
Qed.
Lemma check_action_Ok a : check_action a = Ok tt ↔
  (a_type a = SET_FIELD → oxm_class (a_set_field a) = OFPXMC_OPENFLOW_BASIC).
Proof.
  unfold check_action. destruct (bool_decide (a_type a = OUTPUT) || _ || _) eqn:E.
  - split; [intros _ Hs|done]. rewrite Hs in E. done.
  - clear E. case_bool_decide as Hs; [|by split; [intros _ ?|]]. unfold assert_. case_bool_decide; naive_solver.
Qed.
(** A table is accepted exactly when there are no groups, and every rule is for port 1
    or 2 with the supported matches only; the adapters' own tables differ in what an
    upstream rule may match. *)
Theorem bulk_accepts upstream flows groups : update_flows_bulk upstream flows groups = Ok tt ↔
  groups = [] ∧ Forall (λ flow, ∃ fields p actions,
    get_ofb_fields flow = Ok fields ∧ get_in_port flow = Ok (Some p) ∧ get_actions flow = Some actions ∧
    (p = 2%Z ∧ Forall (λ f, f_type f ∈ DOWNSTREAM) fields ∨ p = 1%Z ∧ Forall (λ f, f_type f ∈ upstream) fields) ∧
    Forall (λ a, a_type a = SET_FIELD → oxm_class (a_set_field a) = OFPXMC_OPENFLOW_BASIC) actions) flows.
Proof.
  assert (∀ sup fields, check_all (check_field sup) fields = Ok tt ↔ Forall (λ f, f_type f ∈ sup) fields) as Hf.
  { intros sup fields. rewrite check_all_Ok. apply Forall_proper; [|done]. intros f. unfold check_field.
    case_bool_decide; naive_solver. }
  assert (∀ actions, check_all check_action actions = Ok tt ↔
    Forall (λ a, a_type a = SET_FIELD → oxm_class (a_set_field a) = OFPXMC_OPENFLOW_BASIC) actions) as Ha.
  { intros actions. rewrite check_all_Ok. apply Forall_proper; [|done]. intros a. apply check_action_Ok. }
  unfold update_flows_bulk, assert_. case_bool_decide as Hg; [|split; [done|by intros []]]. cbn [mbind result_bind].
  rewrite check_all_Ok. split; [intros H; split; [done|]|intros [_ H]]; (eapply Forall_impl; [exact H|]); clear H;
    intros flow; unfold check_flow, iter_actions.
  - destruct (get_in_port flow) as [[p|]|] eqn:Hp; try done. cbn [mbind result_bind of_option].
    assert (∀ up, (fields ← get_ofb_fields flow; _ ← check_all (check_field up) fields;
      actions ← of_option TypeError (get_actions flow); check_all check_action actions) = Ok tt →
      ∃ fields actions, get_ofb_fields flow = Ok fields ∧ get_actions flow = Some actions ∧
        Forall (λ f, f_type f ∈ up) fields ∧ check_all check_action actions = Ok tt) as Hrun.
    { intros up. destruct (get_ofb_fields flow) as [fields|]; [|done]. cbn [mbind result_bind].
      destruct (check_all (check_field up) fields) as [[]|] eqn:Hc; [|done]. apply Hf in Hc. cbn [mbind result_bind].
      destruct (get_actions flow) as [actions|]; [|done]. cbn [mbind result_bind of_option]. naive_solver. }
    destruct (decide (p = 2%Z)) as [->|H2]; [|destruct (decide (p = 1%Z)) as [->|H1]].
    + intros (fields & actions & ? & ? & ? & Hact)%Hrun. exists fields, 2%Z, actions. rewrite <- Ha. naive_solver.
    + intros (fields & actions & ? & ? & ? & Hact)%Hrun. exists fields, 1%Z, actions. rewrite <- Ha. naive_solver.
    + by rewrite !bool_decide_eq_false_2.
  - intros (fields & p & actions & Hfl & Hp & Hac & Hmatch & Hact). rewrite Hp, Hfl, Hac. cbn [mbind result_bind of_option].
    apply Ha in Hact. destruct Hmatch as [[-> Hm]|[-> Hm]]; apply Hf in Hm.
    + change (bool_decide (2%Z = 2%Z)) with true. cbn [orb]. rewrite Hm. exact Hact.
    + change (bool_decide (1%Z = 2%Z)) with false. change (bool_decide (1%Z = 1%Z)) with true. cbn [orb]. rewrite Hm. exact Hact.
Qed.

(** ** Witnesses: an OLT and its four ONUs *)

Definition demo_ids : Uuid := {| uuid4_hex12 := λ n, "id-" +:+ pretty n |}.
#[local] Existing Instance demo_ids.
Definition demo_olt : adevice :=
  mk_adevice "olt" "simulated_olt" true "" 0 0 DeviceAgent.ENABLED DeviceAgent.ACTIVATING CONNECT_UNKNOWN ""
    (mk_proxy_address "" 0) [].
Definition demo_aa : aa_state := mk_aa [] [] [("olt", (demo_olt, []))] [] [] [] [].
(** The OLT is activated; then ONUs are detected. *)
Definition demo_detecting : sims := (detect_onus "olt" (exec 5 (start demo_aa demo_olt) [0; 0; 0])).2.
Definition demo_up : sims := exec 5 demo_detecting (replicate 20 0).
Lemma demo_runs_reachable places : reachable 5 demo_aa (exec 5 demo_detecting places).
Proof. apply exec_reachable, detecting_reachable, exec_reachable, start_reachable. Qed.
Definition oper_status (id : string) (s : sims) : option DeviceAgent.OperStatus :=
  ad_oper_status ∘ fst <$> od_get id (aa_devices (s_aa s)).

(** All five devices are active in the end. *)
Example demo_all_active : s_tasks demo_up = [] ∧
  (λ e, ad_oper_status e.2.1) <$> aa_devices (s_aa demo_up) = replicate 5 DeviceAgent.ACTIVE.
Proof. vm_compute. by split. Qed.

Lemma activations_end_witness : s_tasks demo_up = [] ∧ s_waiting demo_up = [].
Proof.
  split; [vm_compute; reflexivity|].
  destruct (activations_end 5 demo_aa demo_up (demo_runs_reachable (replicate 20 0))) as [_ Hend].
  apply Hend; [reflexivity|]. vm_compute. reflexivity.
Defined.

(** An ONU can become active by the answer to another's message: two ONUs wait, the
    answer to the second comes, and the first is active while the answer to its own
    message is still on its way. *)
Definition demo_two_waiting : sims := exec 5 demo_detecting [0; 1; 0; 0; 1; 1; 1; 1].
Example answer_of_another :
  ad_proxy_address <$> s_waiting demo_two_waiting = [mk_proxy_address "olt" 101; mk_proxy_address "olt" 102] ∧
  s_tasks demo_two_waiting !! 2 = Some (Echo (mk_proxy_address "olt" 102) "test message") ∧
  oper_status "id-3" demo_two_waiting = Some DeviceAgent.ACTIVATING ∧
  oper_status "id-3" (exec 5 demo_two_waiting [2]) = Some DeviceAgent.ACTIVE ∧
  Echo (mk_proxy_address "olt" 101) "test message" ∈ s_tasks (exec 5 demo_two_waiting [2]).
Proof.
  split_and!; try (vm_compute; reflexivity).
  apply (list_elem_of_lookup_2 _ 1). vm_compute. reflexivity.
Qed.
End Simulated.
