(* ===== verification/Microsemi.v ===== *)
(** * The adapter of the Microsemi OLT (adapters/microsemi)

    An OLT is brought up by an automaton (OltStateMachine) that sends it requests
    and waits for the answers of its four channels; another one (ActivationWatcher)
    waits for ONUs and starts an automaton for each (ActivationManager).  The
    transitions below are the methods of these classes; the decorators of scapy's
    ATMT say in which state a method runs: a condition on entering the state, a
    receive condition for a packet, a timeout when nothing came.  A method ends by
    raising the next state, or returns, and then the state stays.  Where a class
    defines a method twice, the second definition is the one there is. *)

From Stdlib Require Import Ascii.
From stdpp Require Import prelude strings list pretty countable.
From S2P Require Import Prelude OFP FlowDecomposer DeviceGraph PonSim DeviceAgent AdapterAgent PonAdapters.
Import AdapterAgent PonAdapters.

Module Microsemi.
Local Open Scope Z_scope.

(** ** Messages (PAS5211.py, PAS5211_utils.py) *)

Definition CHANNELS : list Z := [0; 1; 2; 3].
Definition PON_DISABLE : Z := 0.
Definition PON_ENABLE : Z := 1.
Definition PON_TX_ENABLE_DEFAULT : Z := 1001.
Definition PON_ALARM_LOS : Z := 1.
Definition PON_DBA_MODE_LOADED_NOT_RUNNING : Z := 1.
Definition PON_DBA_MODE_RUNNING : Z := 2.
Definition PON_ACTIVATION_AUTH_AUTO : Z := 0.

(** What is sent, with the fields that differ: the polarities of an optics control are
    always the defaults of [io_ctrl_optics], the parameters of an alarm None *)
Inductive msg : Type :=
  | PAS5211MsgGetProtocolVersion
  | PAS5211MsgGetOltVersion
  | PAS5211MsgSetOltOptics (params : list (string * Z))
  | PAS5211MsgSetOpticsIoControl (i2c_clk i2c_data tx_enable tx_fault : Z)
  | PAS5211MsgGetGeneralParam (parameter : Z)
  | PAS5211MsgAddOltChannel
  | PAS5211MsgSetAlarmConfig (type activate : Z)
  | PAS5211MsgGetDbaMode
  | PAS5211MsgStartDbaAlgorithm
  | PAS5211MsgSetOltChannelActivationPeriod (activation_period : Z)
  | PAS5211MsgGetActivationAuthMode
  | PAS5211MsgSetOnuOmciPortId (port_id activate : Z)
  | PAS5211MsgSendFrame (port_id : Z) (entity_class entity_id attributes_mask : Z).

Definition opcode (m : msg) : Z :=
  match m with
  | PAS5211MsgGetProtocolVersion => 2
  | PAS5211MsgGetOltVersion => 3
  | PAS5211MsgSetOltOptics _ => 106
  | PAS5211MsgSetOpticsIoControl _ _ _ _ => 108
  | PAS5211MsgGetGeneralParam _ => 165
  | PAS5211MsgAddOltChannel => 4
  | PAS5211MsgSetAlarmConfig _ _ => 48
  | PAS5211MsgGetDbaMode => 57
  | PAS5211MsgStartDbaAlgorithm => 55
  | PAS5211MsgSetOltChannelActivationPeriod _ => 11
  | PAS5211MsgGetActivationAuthMode => 145
  | PAS5211MsgSetOnuOmciPortId _ _ => 41
  | PAS5211MsgSendFrame _ _ _ _ => 42
  end.

(** The opcodes of the response classes *)
Definition SetOltOpticsResponse_opcode : Z := 10346.
Definition SetOpticsIoControlResponse_opcode : Z := 10348.
Definition AddOltChannelResponse_opcode : Z := 10244.
Definition SetAlarmConfigResponse_opcode : Z := 10288.
Definition StartDbaAlgorithmResponse_opcode : Z := 10295.
Definition SetOltChannelActivationPeriodResponse_opcode : Z := 10251.
Definition SetOnuOmciPortIdResponse_opcode : Z := 10281.
Definition SendFrameResponse_opcode : Z := 10282.

(** get_alarm_code_for_type: the alarms LOS to TIA; PON_ALARM_CODE_LAST_ALARM is 15. *)
Definition get_alarm_code_for_type (type : Z) : Z :=
  if bool_decide (1 ≤ type ≤ 15) then type - 1 else 15.
Definition alarm_config (type activate : Z) : msg := PAS5211MsgSetAlarmConfig (get_alarm_code_for_type type) activate.

(** A packet from the OLT as scapy dissects it: the header, unless it is no message
    of the OLT at all, and the layer in it that is looked for *)
Inductive layer : Type :=
  | GetProtocolVersionResponse
  | GetOltVersionResponse (major_hw minor_hw major_fw minor_fw build_fw : Z)
  | GetGeneralParamResponse (value : Z)
  | GetDbaModeResponse (dba_mode : Z)
  | GetActivationAuthModeResponse (mode : Z)
  | EventOnuActivation (serial_number : string)
  | OmciGetResponse (vendor_id : string)
  | other_layer.
Record header : Type := mk_header { h_opcode : Z; h_channel_id : Z; h_onu_id : Z; h_onu_session_id : Z }.
Record packet : Type := mk_packet { pk_header : option header; pk_layer : layer }.

(** What is sent: constructPAS5211Frames *)
Record frame : Type := mk_frame {
  f_sequence_number : Z;
  f_opcode : Z;
  f_channel_id : Z;
  f_onu_id : Z;
  f_onu_session_id : Z;
  f_msg : msg;
}.

(** ** State *)

(** An automaton of an OLT, with what it works on: the configuration, the class
    attribute [send_state] that all automata share until they have one of their
    own, and the OLT's device manager and communication *)
Record olt : Type := mk_olt {
  o_aa : aa_state;
  o_class_send_state : list bool;         (** OltStateMachine.send_state *)
  o_uuids : nat;                          (** calls of [uuid4] so far *)
  o_device : adevice;                     (** DeviceManager.device *)
  o_logical_device : option LogicalDev;   (** DeviceManager.logical_device *)
  o_seq : Z;                              (** of the comm object *)
  o_sent : list frame;
  o_retry : Z;
  o_send_state : option (list bool);      (** the instance's own attribute *)
  o_dba_needs_start : bool;
}.
Definition set_aa x (o : olt) : olt :=
  mk_olt x (o_class_send_state o) (o_uuids o) (o_device o) (o_logical_device o) (o_seq o) (o_sent o) (o_retry o)
    (o_send_state o) (o_dba_needs_start o).
Definition set_class_send_state x (o : olt) : olt :=
  mk_olt (o_aa o) x (o_uuids o) (o_device o) (o_logical_device o) (o_seq o) (o_sent o) (o_retry o)
    (o_send_state o) (o_dba_needs_start o).
Definition set_uuids x (o : olt) : olt :=
  mk_olt (o_aa o) (o_class_send_state o) x (o_device o) (o_logical_device o) (o_seq o) (o_sent o) (o_retry o)
    (o_send_state o) (o_dba_needs_start o).
Definition set_device x (o : olt) : olt :=
  mk_olt (o_aa o) (o_class_send_state o) (o_uuids o) x (o_logical_device o) (o_seq o) (o_sent o) (o_retry o)
    (o_send_state o) (o_dba_needs_start o).
Definition set_logical_device x (o : olt) : olt :=
  mk_olt (o_aa o) (o_class_send_state o) (o_uuids o) (o_device o) x (o_seq o) (o_sent o) (o_retry o)
    (o_send_state o) (o_dba_needs_start o).
Definition set_sent x (o : olt) : olt :=
  mk_olt (o_aa o) (o_class_send_state o) (o_uuids o) (o_device o) (o_logical_device o) (o_seq o + 1) x (o_retry o)
    (o_send_state o) (o_dba_needs_start o).
Definition set_retry x (o : olt) : olt :=
  mk_olt (o_aa o) (o_class_send_state o) (o_uuids o) (o_device o) (o_logical_device o) (o_seq o) (o_sent o) x
    (o_send_state o) (o_dba_needs_start o).
Definition set_own_send_state x (o : olt) : olt :=
  mk_olt (o_aa o) (o_class_send_state o) (o_uuids o) (o_device o) (o_logical_device o) (o_seq o) (o_sent o) (o_retry o)
    x (o_dba_needs_start o).
Definition set_dba_needs_start x (o : olt) : olt :=
  mk_olt (o_aa o) (o_class_send_state o) (o_uuids o) (o_device o) (o_logical_device o) (o_seq o) (o_sent o) (o_retry o)
    (o_send_state o) x.

Definition on_agent {A} (m : M aa_state A) : M olt A := λ o,
  let '(r, s) := m (o_aa o) in (r, set_aa s o).

(** [self.send(self.p(msg, ...))]: comm.frame draws a sequence number. *)
Definition send (m : msg) (channel_id onu_id onu_session_id : Z) : M olt unit := modify (λ o,
  set_sent (o_sent o ++ [mk_frame (o_seq o) (Z.lor 0x3000 (opcode m)) channel_id onu_id onu_session_id m]) o).

(** [self.send_state]: the own attribute, or else that of the class *)
Definition send_state (o : olt) : list bool := default (o_class_send_state o) (o_send_state o).
(** A change of the list in place *)
Definition put_send_state (l : list bool) (o : olt) : olt :=
  match o_send_state o with
  | Some _ => set_own_send_state (Some l) o
  | None => set_class_send_state l o
  end.
Definition send_state_append : M olt unit := modify (λ o, put_send_state (send_state o ++ [false]) o).
(** [self.send_state[i] = True]; a negative index counts from the end. *)
Definition py_index (len : nat) (i : Z) : option nat :=
  if bool_decide (0 ≤ i < Z.of_nat len) then Some (Z.to_nat i)
  else if bool_decide (- Z.of_nat len ≤ i < 0) then Some (Z.to_nat (i + Z.of_nat len)) else None.
Definition send_state_set (i : Z) : M olt unit :=
  o ← get_state;
  j ← lift (of_option IndexError (py_index (length (send_state o)) i));
  modify (put_send_state (<[j := true]> (send_state o))).

(** [check_channel_state] *)
Fixpoint all_channels (l : list bool) (channels : list Z) : result bool :=
  match channels with
  | [] => Ok true
  | i :: channels =>
      b ← of_option IndexError (j ← py_index (length l) i; l !! j);
      if b : bool then all_channels l channels else Ok false
  end.
Definition check_channel_state : M olt bool :=
  o ← get_state;
  b ← lift (all_channels (send_state o) CHANNELS);
  _ ← (if b : bool then modify (set_own_send_state (Some [])) else mret tt);
  mret b.

(** ** The device manager (DeviceManager.py) *)

Section manager.
Context `{!Uuid}.

Definition update_device (major_hw minor_hw major_fw minor_fw build_fw : Z) : M olt unit :=
  o ← get_state;
  let d := o_device o in
  let d := populate
    [("vendor", "Celestica Inc."); ("model", "Ruby");
     ("hardware_version", py_hex major_hw +:+ "." +:+ py_dec minor_hw);
     ("firmware_version", py_dec major_fw +:+ "." +:+ py_dec minor_fw +:+ "." +:+ py_dec build_fw);
     ("software_version", "0.0.1");
     ("serial_number", default "" (od_get "mac_address" (ad_info d)))] d in
  _ ← modify (set_device d);
  on_agent (AdapterAgent.update_device d).

(** [int('0x' + id[:8], 16)] *)
Definition hex_digit (c : ascii) : option N :=
  let n := N_of_ascii c in
  if bool_decide (48 ≤ n ∧ n < 58)%N then Some (n - 48)%N
  else if bool_decide (97 ≤ n ∧ n < 103)%N then Some (n - 87)%N else None.
Fixpoint int16 (s : string) (acc : N) : result N :=
  match s with
  | EmptyString => Ok acc
  | String c s => d ← of_option ValueError (hex_digit c); int16 s (acc * 16 + d)%N
  end.
Definition create_logical_device (fuel : nat) : M olt unit :=
  o ← get_state;
  let logical_device_id := uuid4_hex12 (o_uuids o) in
  _ ← modify (set_uuids (S (S (o_uuids o))));  (** another one is the serial number *)
  datapath_id ← lift (int16 (String.substring 0 8 logical_device_id) 0);
  let ld := mk_LogicalDev logical_device_id datapath_id (ad_id (o_device o)) in
  _ ← on_agent (AdapterAgent.create_logical_device "microsemi" fuel ld);
  modify (set_logical_device (Some ld)).

(** [int(d, 16)], with blanks around, a sign and the prefix 0x allowed *)
Definition is_blank (c : ascii) : bool :=
  let n := N_of_ascii c in bool_decide (n = 32%N ∨ (9 ≤ n ∧ n < 14)%N).
Fixpoint lstrip (s : string) : string :=
  match s with String c s' => if is_blank c then lstrip s' else s | EmptyString => s end.
Definition lower (c : ascii) : ascii :=
  let n := N_of_ascii c in if bool_decide (65 ≤ n ∧ n < 91)%N then ascii_of_N (n + 32) else c.
Fixpoint lower_string (s : string) : string :=
  match s with String c s' => String (lower c) (lower_string s') | EmptyString => s end.
Definition digits_value (s : string) : result N :=
  let s := match s with String "0" (String "x" s') => s' | _ => s end in
  if bool_decide (s = "") then Raise ValueError else int16 s 0.
Definition py_int16 (s : string) : result Z :=
  let s := lower_string (String.rev (lstrip (String.rev (lstrip s)))) in
  match s with
  | String "-" s => n ← digits_value s; Ok (- Z.of_N n)
  | String "+" s => n ← digits_value s; Ok (Z.of_N n)
  | s => n ← digits_value s; Ok (Z.of_N n)
  end.
(** [mac.split(':')] *)
Fixpoint split_colons (acc s : string) : list string :=
  match s with
  | EmptyString => [acc]
  | String ":" s => acc :: split_colons "" s
  | String c s => split_colons (acc +:+ String c "") s
  end.
Fixpoint mac_tuple (ds : list string) : result (list Z) :=
  match ds with
  | [] => Ok []
  | d :: ds => z ← py_int16 d; zs ← mac_tuple ds; Ok (z :: zs)
  end.
Definition mac_str_to_tuple (mac : string) : result (list Z) := mac_tuple (split_colons "" mac).
(** [hw_addr=...]: a repeated uint32 *)
Definition hw_addr (mac : string) : result (list Z) :=
  zs ← mac_str_to_tuple mac;
  if forallb (λ z, bool_decide (0 ≤ z < 2 ^ 32)) zs then Ok zs else Raise ValueError.

(** [add_port]: every logical port has the id 'uni'. *)
Definition uni_port_of (port_no : Z) : LogicalPort := mk_LogicalPort "uni" "" 0 port_no false.
Definition add_port (port : Port) : M olt unit :=
  o ← get_state;
  _ ← on_agent (AdapterAgent.add_port (ad_id (o_device o)) port);
  o ← get_state;
  _ ← lift (hw_addr (default "" (od_get "mac_address" (ad_info (o_device o)))));
  ld ← lift (of_option AttributeError (o_logical_device o));
  on_agent (add_logical_port (l_id ld) (uni_port_of (p_no port))).

(** ** Bringing up an OLT (OltStateMachine.py) *)

Inductive state : Type :=
  | disconnected | wait_for_proto_version | got_proto_version | wait_for_olt_version | got_olt_version
  | wait_olt_optics | got_olt_optics | wait_olt_io_optics | got_olt_io_optics | wait_query_response
  | got_query_response | wait_olt_add | got_olt_add | wait_alarm_set | got_alarm_set | wait_dba_mode
  | got_dba_mode | wait_dba_start | got_dba_start | wait_activation | initialized | wait_keepalive | ERROR.
#[export] Instance state_eq_dec : EqDecision state. Proof. solve_decision. Defined.

(** A transition ends in the state it raises, or returns. *)
Definition transition : Type := M olt (option state).

Definition send_proto_request : transition :=
  _ ← send PAS5211MsgGetProtocolVersion (-1) (-1) (-1); mret (Some wait_for_proto_version).
(** timeout_proto and timeout_olt *)
Definition retry_or_error : transition :=
  _ ← modify (λ o, set_retry (o_retry o - 1) o);
  o ← get_state;
  mret (Some (if bool_decide (o_retry o < 0) then ERROR else disconnected)).
Definition receive_proto_version (pkt : packet) : transition :=
  match pk_layer pkt with
  | GetProtocolVersionResponse => mret (Some got_proto_version)
  | _ => mret (Some ERROR)
  end.
Definition send_olt_version : transition :=
  _ ← send PAS5211MsgGetOltVersion (-1) (-1) (-1); mret (Some wait_for_olt_version).
Definition receive_olt_version (pkt : packet) : transition :=
  match pk_layer pkt with
  | GetOltVersionResponse a b c d e => _ ← update_device a b c d e; mret (Some got_olt_version)
  | _ => mret (Some ERROR)
  end.

(** A request to every channel *)
Fixpoint send_each (requests : list (Z * msg)) : M olt unit :=
  match requests with
  | [] => mret tt
  | (channel, m) :: requests =>
      _ ← send_state_append;
      _ ← send m channel (-1) (-1);
      send_each requests
  end.
Definition to_channels (m : msg) : list (Z * msg) := (λ c, (c, m)) <$> CHANNELS.

Definition OPTICS : list (string * Z) :=
  [("snr.timer_delay", 8); ("snr.preamble_delay", 32); ("snr.delimiter_delay", 128); ("snr.burst_delay", 128);
   ("rng.timer_delay", 8); ("rng.preamble_delay", 32); ("rng.delimiter_delay", 128);
   ("burst_delay_single", 1); ("burst_delay_double", 1);
   ("laser_reset_polarity", 1); ("laser_sd_polarity", 1); ("sd_source", 0); ("sd_hold_snr_ranging", 0);
   ("sd_hold_normal", 0); ("reset_type_snr_ranging", 0); ("reset_type_normal", 0); ("laser_reset_enable", 1);
   ("reset_data_burst.bcdr_reset_d2", 1); ("reset_data_burst.bcdr_reset_d1", 11);
   ("reset_data_burst.laser_reset_d2", 2); ("reset_data_burst.laser_reset_d1", 5);
   ("reset_snr_burst.bcdr_reset_d2", 2); ("reset_snr_burst.bcdr_reset_d1", 9);
   ("reset_snr_burst.laser_reset_d2", 2); ("reset_snr_burst.laser_reset_d1", 1);
   ("reset_rng_burst.bcdr_reset_d2", 2); ("reset_rng_burst.bcdr_reset_d1", 9);
   ("reset_rng_burst.laser_reset_d2", 2); ("reset_rng_burst.laser_reset_d1", 1);
   ("single_reset.bcdr_reset_d2", 1); ("single_reset.bcdr_reset_d1", 1);
   ("single_reset.laser_reset_d2", 1); ("single_reset.laser_reset_d1", 1);
   ("double_reset.bcdr_reset_d2", 1); ("double_reset.bcdr_reset_d1", 1);
   ("double_reset.laser_reset_d2", 1); ("double_reset.laser_reset_d1", 1);
   ("correlation_preamble_length", 8); ("preamble_length_snr_rng", 119); ("guard_time_data_mode", 32);
   ("type1_size_data", 0); ("type2_size_data", 0); ("type3_size_data", 5); ("type3_pattern", 170);
   ("delimiter_size", 20); ("delimiter_byte1", 171); ("delimiter_byte2", 89); ("delimiter_byte3", 131);
   ("voltage_if_mode", 2)].

Definition send_olt_optics : transition :=
  _ ← send_each (to_channels (PAS5211MsgSetOltOptics OPTICS)); mret (Some wait_olt_optics).
Definition send_olt_io_optics : transition :=
  _ ← send_each [(0, PAS5211MsgSetOpticsIoControl 1 0 6 14); (1, PAS5211MsgSetOpticsIoControl 3 2 7 15);
                 (2, PAS5211MsgSetOpticsIoControl 11 10 8 16); (3, PAS5211MsgSetOpticsIoControl 13 12 9 17)];
  mret (Some wait_olt_io_optics).
Definition check_downstream_pon_tx : transition :=
  _ ← send_each (to_channels (PAS5211MsgGetGeneralParam PON_TX_ENABLE_DEFAULT)); mret (Some wait_query_response).
Definition send_add_olt : transition :=
  _ ← send_each (to_channels PAS5211MsgAddOltChannel); mret (Some wait_olt_add).
Definition send_alarm_config : transition :=
  _ ← send_each (to_channels (alarm_config PON_ALARM_LOS PON_ENABLE)); mret (Some wait_alarm_set).
Definition send_dba_mode : transition :=
  _ ← send_each (to_channels PAS5211MsgGetDbaMode); mret (Some wait_dba_mode).
Definition send_start_dba : transition :=
  _ ← send_each (to_channels PAS5211MsgStartDbaAlgorithm); mret (Some wait_dba_start).
Definition send_activation_period : transition :=
  _ ← send_each (to_channels (PAS5211MsgSetOltChannelActivationPeriod 1000)); mret (Some wait_activation).
Definition send_keepalive : transition :=
  _ ← send PAS5211MsgGetOltVersion (-1) (-1) (-1); mret (Some wait_keepalive).

(** [pkt.opcode == opcode], then the channel is marked, and the next state is
    entered when all of them are: the receive conditions of the four settings.
    A packet with another opcode leaves the state. *)
Definition get_header (pkt : packet) : M olt header := lift (of_option AttributeError (pk_header pkt)).
Definition acknowledged (opcode : Z) (next again : state) (pkt : packet) : transition :=
  h ← get_header pkt;
  if bool_decide (h_opcode h = opcode) then
    _ ← send_state_set (h_channel_id h);
    b ← check_channel_state;
    mret (Some (if b : bool then next else again))
  else mret None.
Definition receive_set_optics_response := acknowledged SetOltOpticsResponse_opcode got_olt_optics wait_olt_optics.
Definition receive_io_optics_response :=
  acknowledged SetOpticsIoControlResponse_opcode got_olt_io_optics wait_olt_io_optics.
Definition wait_for_olt_add := acknowledged AddOltChannelResponse_opcode got_olt_add wait_olt_add.
Definition wait_for_alarm_set := acknowledged SetAlarmConfigResponse_opcode got_alarm_set wait_alarm_set.

Definition check_pon_tx_state (pkt : packet) : transition :=
  match pk_layer pkt with
  | GetGeneralParamResponse value =>
      h ← get_header pkt;
      _ ← send_state_set (h_channel_id h);
      if bool_decide (value = PON_ENABLE) then
        b ← check_channel_state;
        mret (Some (if b : bool then got_query_response else wait_query_response))
      else mret (Some ERROR)
  | _ => mret None
  end.
Definition wait_for_dba_mode (pkt : packet) : transition :=
  match pk_layer pkt with
  | GetDbaModeResponse dba_mode =>
      h ← get_header pkt;
      _ ← (if bool_decide (dba_mode = PON_DBA_MODE_LOADED_NOT_RUNNING) then
             _ ← send_state_set (h_channel_id h);
             modify (set_dba_needs_start true)
           else if bool_decide (dba_mode = PON_DBA_MODE_RUNNING) then send_state_set (h_channel_id h)
           else mret tt);
      b ← check_channel_state;
      o ← get_state;
      mret (Some (if b : bool then if o_dba_needs_start o then got_dba_mode else got_dba_start else wait_dba_mode))
  | _ => mret (Some wait_dba_mode)
  end.
Definition wait_for_dba_start (pkt : packet) : transition :=
  h ← get_header pkt;
  if bool_decide (h_opcode h = StartDbaAlgorithmResponse_opcode) then
    _ ← send_state_set (h_channel_id h);
    b ← check_channel_state;
    mret (Some (if b : bool then got_dba_start else wait_dba_start))
  else mret (Some wait_dba_start).
Definition wait_for_activation (fuel : nat) (pkt : packet) : transition :=
  h ← get_header pkt;
  if bool_decide (h_opcode h = SetOltChannelActivationPeriodResponse_opcode) then
    _ ← send_state_set (h_channel_id h);
    b ← check_channel_state;
    if b : bool then
      _ ← create_logical_device fuel;
      mret (Some initialized)
    else mret (Some wait_activation)
  else mret (Some wait_activation).
Definition wait_for_keepalive (pkt : packet) : transition :=
  match pk_layer pkt with
  | GetOltVersionResponse _ _ _ _ _ => mret (Some initialized)
  | _ => mret None
  end.

(** *** The decorators *)

(** [send_add_olt] is a condition of wait_query_response, and the second method
    with the name dba_timeout replaces that of wait_dba_mode. *)
Definition condition (s : state) : option transition :=
  match s with
  | disconnected => Some send_proto_request
  | got_proto_version => Some send_olt_version
  | got_olt_version => Some send_olt_optics
  | got_olt_optics => Some send_olt_io_optics
  | got_olt_io_optics => Some check_downstream_pon_tx
  | wait_query_response => Some send_add_olt
  | got_olt_add => Some send_alarm_config
  | got_alarm_set => Some send_dba_mode
  | got_dba_mode => Some send_start_dba
  | got_dba_start => Some send_activation_period
  | _ => None
  end.
Definition receive_condition (fuel : nat) (s : state) : option (packet → transition) :=
  match s with
  | wait_for_proto_version => Some receive_proto_version
  | wait_for_olt_version => Some receive_olt_version
  | wait_olt_optics => Some receive_set_optics_response
  | wait_olt_io_optics => Some receive_io_optics_response
  | wait_query_response => Some check_pon_tx_state
  | wait_olt_add => Some wait_for_olt_add
  | wait_alarm_set => Some wait_for_alarm_set
  | wait_dba_mode => Some wait_for_dba_mode
  | wait_dba_start => Some wait_for_dba_start
  | wait_activation => Some (wait_for_activation fuel)
  | wait_keepalive => Some wait_for_keepalive
  | _ => None
  end.
Definition to_error : transition := mret (Some ERROR).
Definition timeout (s : state) : option transition :=
  match s with
  | wait_for_proto_version | wait_for_olt_version => Some retry_or_error
  | wait_olt_optics | wait_olt_io_optics | wait_query_response | wait_olt_add | wait_alarm_set
  | wait_dba_start | wait_activation | wait_keepalive => Some to_error
  | initialized => Some send_keepalive
  | _ => None
  end.

(** ** Activating ONUs (ActivationWatcher.py) *)

(** The arguments of an ActivationManager; its port_id is the onu_id. *)
Record onu : Type := mk_onu { n_onu_id : Z; n_serial_number : string; n_onu_session_id : Z; n_channel_id : Z }.

Inductive astate : Type :=
  | got_activation_event | wait_get_auth_mode | got_auth_mode | wait_omci_port_id | got_omci_port_id
  | wait_send_frame | wait_omci_get | end_.
#[export] Instance astate_eq_dec : EqDecision astate. Proof. solve_decision. Defined.
Definition atransition : Type := M olt (option astate).

Definition create_port (n : onu) (vendor : string) : M olt unit :=
  add_port (mk_Port (n_onu_id n) ETHERNET_UNI [] (port_rest (vendor +:+ " ONU"))).
(** [self.send(self.px(msg))] *)
Definition send_px (n : onu) (m : msg) : M olt unit := send m (n_channel_id n) (n_onu_id n) (n_onu_session_id n).
(** [self.error(msg)]: the method replaces the state, and calls itself without a
    message. *)
Definition a_error : atransition := raise TypeError.

Definition send_get_activation_auth_mode : atransition :=
  _ ← send PAS5211MsgGetActivationAuthMode (-1) (-1) (-1); mret (Some wait_get_auth_mode).
Definition wait_for_get_auth_mode (pkt : packet) : atransition :=
  match pk_layer pkt with
  | GetActivationAuthModeResponse mode =>
      mret (Some (if bool_decide (mode = PON_ACTIVATION_AUTH_AUTO) then got_auth_mode else end_))
  | _ => mret None
  end.
Definition send_omci_port_id (n : onu) : atransition :=
  _ ← send_px n (PAS5211MsgSetOnuOmciPortId (n_onu_id n) PON_ENABLE); mret (Some wait_omci_port_id).
Definition wait_for_omci_port_id (n : onu) (pkt : packet) : atransition :=
  h ← get_header pkt;
  mret (if bool_decide (h_opcode h = SetOnuOmciPortIdResponse_opcode) && bool_decide (h_onu_id h = n_onu_id n) &&
           bool_decide (h_onu_session_id h = n_onu_session_id n) && bool_decide (h_channel_id h = n_channel_id n)
        then Some got_omci_port_id else None).
(** An OMCI get of attribute vendor_id (mask 2048) of circuit pack (class 6) 257 *)
Definition send_omci_identity_frame (n : onu) : atransition :=
  _ ← send_px n (PAS5211MsgSendFrame (n_onu_id n) 6 257 2048); mret (Some wait_send_frame).
Definition wait_for_send_frame (pkt : packet) : atransition :=
  h ← get_header pkt;
  mret (if bool_decide (h_opcode h = SendFrameResponse_opcode) then Some wait_omci_get else None).
Definition wait_for_omci_get (n : onu) (pkt : packet) : atransition :=
  match pk_layer pkt with
  | OmciGetResponse vendor => _ ← create_port n vendor; mret (Some end_)
  | _ => mret None
  end.

Definition a_condition (n : onu) (s : astate) : option atransition :=
  match s with
  | got_activation_event => Some send_get_activation_auth_mode
  | got_auth_mode => Some (send_omci_port_id n)
  | got_omci_port_id => Some (send_omci_identity_frame n)
  | _ => None
  end.
Definition a_receive_condition (n : onu) (s : astate) : option (packet → atransition) :=
  match s with
  | wait_get_auth_mode => Some wait_for_get_auth_mode
  | wait_omci_port_id => Some (wait_for_omci_port_id n)
  | wait_send_frame => Some wait_for_send_frame
  | wait_omci_get => Some (wait_for_omci_get n)
  | _ => None
  end.
(** The second method with the name timeout_send_frame replaces that of
    wait_send_frame. *)
Definition a_timeout (s : astate) : option atransition :=
  match s with
  | wait_get_auth_mode | wait_omci_port_id | wait_omci_get => Some a_error
  | _ => None
  end.

(** ** Running automata

    The automata are run by scapy, a parameter. [settle] says what its documentation
    promises of conditions: those of a state run when it is entered, and a state
    that one raises is entered in turn. Chains of conditions have at most three
    states here. *)
Fixpoint settle {S : Type} (cond : S → option (M olt (option S))) (fuel : nat) (s : S) : M olt S :=
  match fuel with
  | O => raise OutOfFuel
  | Datatypes.S fuel =>
      match cond s with
      | None => mret s
      | Some m =>
          r ← m;
          match r with
          | Some s' => settle cond fuel s'
          | None => mret s
          end
      end
  end.
Class Automata : Type := {
  enter : ∀ {S : Type}, (S → option (M olt (option S))) → S → M olt S;
  enter_settle : ∀ S (cond : S → option (M olt (option S))) s o,
    (settle cond 4 s o).1 ≠ Raise OutOfFuel → enter cond s o = settle cond 4 s o;
}.
Definition scapy_automata : Automata.
Proof. refine {| enter := λ S cond, settle cond 4 |}. done. Defined.

Section automata.
Context `{!Automata}.

(** A method that is run in state [s] *)
Definition fire {S : Type} (cond : S → option (M olt (option S))) (s : S) (m : option (M olt (option S))) : M olt S :=
  match m with
  | None => mret s
  | Some m =>
      r ← m;
      match r with
      | Some s' => enter cond s'
      | None => mret s
      end
  end.

(** The automata of an OLT.  The watcher has one state, in which it stays; an
    exception, or a state of error, ends an automaton. *)
Record ruby : Type := mk_ruby {
  b_olt : olt;
  b_state : option state;
  b_managers : list (onu * option astate);
}.
Inductive event : Type :=
  | OltPacket (p : packet)
  | OltTimeout
  | WatcherPacket (p : packet)
  | ManagerPacket (i : nat) (p : packet)
  | ManagerTimeout (i : nat).

Definition run_olt (b : ruby) (m : state → option transition) : ruby :=
  match b_state b with
  | None => b
  | Some s =>
      match fire condition s (m s) (b_olt b) with
      | (Ok s', o) => mk_ruby o (if bool_decide (s' = ERROR) then None else Some s') (b_managers b)
      | (Raise _, o) => mk_ruby o None (b_managers b)
      end
  end.
Definition run_manager (b : ruby) (i : nat) (m : onu → astate → option atransition) : ruby :=
  match b_managers b !! i with
  | Some (n, Some s) =>
      match fire (a_condition n) s (m n s) (b_olt b) with
      | (Ok s', o) => mk_ruby o (b_state b) (<[i := (n, Some s')]> (b_managers b))
      | (Raise _, o) => mk_ruby o (b_state b) (<[i := (n, None)]> (b_managers b))
      end
  | _ => b
  end.
(** [wait_for_onu_activation_event]: a new automaton, [runbg] *)
Definition watch (b : ruby) (p : packet) : ruby :=
  match pk_layer p, pk_header p with
  | EventOnuActivation serial_number, Some h =>
      let n := mk_onu (h_onu_id h) serial_number (h_onu_session_id h) (h_channel_id h) in
      match enter (a_condition n) got_activation_event (b_olt b) with
      | (Ok s, o) => mk_ruby o (b_state b) (b_managers b ++ [(n, Some s)])
      | (Raise _, o) => mk_ruby o (b_state b) (b_managers b ++ [(n, None)])
      end
  | _, _ => b
  end.
Definition handle (fuel : nat) (b : ruby) (e : event) : ruby :=
  match e with
  | OltPacket p => run_olt b (λ s, (λ f, f p) <$> receive_condition fuel s)
  | OltTimeout => run_olt b timeout
  | WatcherPacket p => watch b p
  | ManagerPacket i p => run_manager b i (λ n s, (λ f, f p) <$> a_receive_condition n s)
  | ManagerTimeout i => run_manager b i (λ _ s, a_timeout s)
  end.

(** [adopt_device] and [__init_olt]: the automata of a new OLT, when the class has
    the list [l] *)
Definition new_olt (aa : aa_state) (l : list bool) (uuids : nat) (device : adevice) : olt :=
  mk_olt aa l uuids device None 0 [] 3 None false.
Definition adopt_device (aa : aa_state) (l : list bool) (uuids : nat) (device : adevice) : ruby :=
  match enter condition disconnected (new_olt aa l uuids device) with
  | (Ok s, o) => mk_ruby o (Some s) []
  | (Raise _, o) => mk_ruby o None []
  end.
End automata.
End manager.
End Microsemi.
