(* ===== verification/MicrosemiSpec.v ===== *)
(** * The adapter of the Microsemi OLT: what the automata do

    An OLT that answers is brought up; whatever the packets and timeouts, a logical
    device is made only after every channel acknowledged every setting; and where
    the code falls short: the check of the transmitters is skipped, automata share
    a list, and ONUs share a logical port. *)

From Stdlib Require Import Ascii.
From stdpp Require Import prelude strings pretty countable list.
From S2P Require Import Prelude OFP FlowDecomposer DeviceGraph PonSim DeviceAgent AdapterAgent PonAdapters Microsemi.
Import AdapterAgent PonAdapters Microsemi.

Local Open Scope Z_scope.

(** ** The fields that methods leave alone *)

Lemma get_state_bind {S A} (R : S → S → Prop) (f : S → M S A) :
  (∀ s, R s (f s s).2) → rel_post R (s ← get_state; f s).
Proof. intros Hf s. apply Hf. Qed.

(** Splits a method into its statements; the database [olt_rel] has the facts about
    them. *)
Create HintDb olt_rel.
Ltac olt_rel := repeat first
  [ progress intros
  | apply rel_post_ret; apply _ | apply rel_post_raise; apply _ | apply rel_post_lift; apply _
  | solve [eauto with olt_rel]
  | apply rel_post_bind; [apply _| |]
  | match goal with
    | |- rel_post _ (if ?b then _ else _) => destruct b
    | |- rel_post _ (match ?x with _ => _ end) => destruct x
    | |- rel_post _ get_state => intros ?; reflexivity
    end ].

(** ** The list of acknowledged channels *)

Section lists.
Context `{!Uuid, !Automata}.

Lemma send_state_put l o : send_state (put_send_state l o) = l.
Proof. unfold put_send_state, send_state. by destruct (o_send_state o) eqn:E; cbn; [|rewrite E]. Qed.
Lemma logical_put l o : o_logical_device (put_send_state l o) = o_logical_device o.
Proof. unfold put_send_state. by destruct (o_send_state o). Qed.

Lemma set_index c o :
  send_state_set c o =
  match py_index (length (send_state o)) c with
  | Some j => (Ok tt, put_send_state (<[j := true]> (send_state o)) o)
  | None => (Raise IndexError, o)
  end.
Proof. unfold send_state_set. erewrite M_bind_eq by reflexivity. by destruct (py_index _ _). Qed.
Lemma py_index_spec len c j :
  py_index len c = Some j → c = Z.of_nat j ∨ c = Z.of_nat j - Z.of_nat len.
Proof. unfold py_index. repeat case_bool_decide; intros [= <-]; lia. Qed.
Lemma set_run c o : 0 ≤ c →
  send_state_set c o =
  if bool_decide (c < Z.of_nat (length (send_state o)))
  then (Ok tt, put_send_state (<[Z.to_nat c := true]> (send_state o)) o) else (Raise IndexError, o).
Proof.
  intros Hc. unfold send_state_set. erewrite M_bind_eq by reflexivity. unfold py_index. case_bool_decide as Hlt.
  - by rewrite bool_decide_eq_true_2 by lia.
  - by rewrite !bool_decide_eq_false_2 by lia.
Qed.

Definition all_true (l : list bool) : bool := forallb (λ i, bool_decide (l !! i = Some true)) [0%nat; 1%nat; 2%nat; 3%nat].
Lemma all_true_spec l : all_true l = true ↔ ∀ i, (i < 4)%nat → l !! i = Some true.
Proof.
  unfold all_true. rewrite forallb_forall. split.
  - intros Hall i Hi. specialize (Hall i). rewrite bool_decide_eq_true in Hall. apply Hall.
    destruct i as [|[|[|[|i]]]]; cbn; [tauto..|lia].
  - intros Hall i Hi. apply bool_decide_eq_true, Hall. cbn in Hi. lia.
Qed.
Lemma all_channels_run l : (4 ≤ length l)%nat → all_channels l CHANNELS = Ok (all_true l).
Proof.
  destruct l as [|a [|b [|c [|d l]]]]; cbn [length]; intros Hl; try lia.
  assert (∀ i, 0 ≤ i < 4 → py_index (length (a :: b :: c :: d :: l)) i = Some (Z.to_nat i)) as Hi.
  { intros i Hi. unfold py_index. rewrite bool_decide_eq_true_2; [done|]. cbn [length]. lia. }
  unfold CHANNELS. cbn [all_channels]. rewrite !Hi by lia. cbn. by destruct a, b, c, d.
Qed.
Lemma check_run o : (4 ≤ length (send_state o))%nat →
  check_channel_state o =
  (Ok (all_true (send_state o)), if all_true (send_state o) then set_own_send_state (Some []) o else o).
Proof.
  intros Hl. unfold check_channel_state. erewrite M_bind_eq by reflexivity. rewrite all_channels_run by done.
  erewrite M_bind_eq by reflexivity. by destruct (all_true (send_state o)).
Qed.

Lemma send_each_run l o : ∃ o', send_each l o = (Ok tt, o') ∧
  send_state o' = send_state o ++ replicate (length l) false ∧ o_logical_device o' = o_logical_device o.
Proof.
  revert o. induction l as [|[c m] l IH]; intros o.
  { exists o. split_and!; [done| |done]. cbn. by rewrite app_nil_r. }
  cbn [send_each]. unfold send_state_append. erewrite M_bind_eq by reflexivity.
  unfold send. erewrite M_bind_eq by reflexivity.
  match goal with |- context [send_each l ?x] => destruct (IH x) as (o' & Hrun & Hs & Hl) end.
  exists o'. split_and!; [done|..].
  - rewrite Hs. change (replicate (length ((c, m) :: l)) false) with (false :: replicate (length l) false).
    assert (∀ fs o, send_state (set_sent fs o) = send_state o) as Hset by done. by rewrite Hset, send_state_put, <- app_assoc.
  - rewrite Hl. cbn [o_logical_device set_sent]. apply logical_put.
Qed.

(** Where entering a state leads, and how many requests are sent to channels *)
Definition target (s : state) : state * nat :=
  match s with
  | disconnected => (wait_for_proto_version, 0%nat)
  | got_proto_version => (wait_for_olt_version, 0%nat)
  | got_olt_version => (wait_olt_optics, 4%nat)
  | got_olt_optics => (wait_olt_io_optics, 4%nat)
  | got_olt_io_optics => (wait_olt_add, 8%nat)
  | wait_query_response => (wait_olt_add, 4%nat)
  | got_olt_add => (wait_alarm_set, 4%nat)
  | got_alarm_set => (wait_dba_mode, 4%nat)
  | got_dba_mode => (wait_dba_start, 4%nat)
  | got_dba_start => (wait_activation, 4%nat)
  | s => (s, 0%nat)
  end.
Lemma settle_each s l s' o :
  condition s = Some (_ ← send_each l; mret (Some s')) → condition s' = None → ∀ fuel, ∃ o',
  settle condition (S (S fuel)) s o = (Ok s', o') ∧
  send_state o' = send_state o ++ replicate (length l) false ∧ o_logical_device o' = o_logical_device o.
Proof.
  intros Hc Hc' fuel. destruct (send_each_run l o) as (o' & Hrun & Hs). exists o'. split; [|done].
  cbn [settle]. rewrite Hc. erewrite M_bind_eq by (erewrite M_bind_eq by exact Hrun; reflexivity). cbn [settle]. by rewrite Hc'.
Qed.
Lemma settle_run s o : ∃ o', settle condition 4 s o = (Ok (target s).1, o') ∧
  send_state o' = send_state o ++ replicate (target s).2 false ∧ o_logical_device o' = o_logical_device o.
Proof.
  destruct s; cbn [target fst snd];
    try (by eexists; split_and!; [reflexivity|symmetry; apply app_nil_r|]);
    try match goal with |- context [settle condition 4 ?s o] => exact (settle_each s _ _ o eq_refl eq_refl 2) end.
  destruct (send_each_run (to_channels (PAS5211MsgGetGeneralParam PON_TX_ENABLE_DEFAULT)) o) as (o1 & Hrun & Hs & Hl).
  destruct (settle_each wait_query_response (to_channels PAS5211MsgAddOltChannel) wait_olt_add o1 eq_refl eq_refl 1)
    as (o2 & Hrun2 & Hs2 & Hl2).
  exists o2. split_and!; [|rewrite Hs2, Hs, <- app_assoc; reflexivity|congruence].
  change (settle condition 4 got_olt_io_optics o) with
    ((r ← check_downstream_pon_tx; match r with Some s' => settle condition 3 s' | None => mret got_olt_io_optics end) o).
  erewrite M_bind_eq by (unfold check_downstream_pon_tx; erewrite M_bind_eq by exact Hrun; reflexivity). exact Hrun2.
Qed.
(** The automata have short chains of conditions. *)
Lemma enter_condition s o : enter condition s o = settle condition 4 s o.
Proof. apply enter_settle. by destruct (settle_run s o) as (o' & -> & _). Qed.
Lemma enter_a_condition n s o : enter (a_condition n) s o = settle (a_condition n) 4 s o.
Proof. apply enter_settle. by destruct s. Qed.
End lists.

(** ** Relations that methods respect

    A relation that sending and the calls of the agent respect is respected by the
    automata of ONUs. *)

Section managers.
Context `{!Uuid, !Automata} (R : olt → olt → Prop) `{!PreOrder R}.
Context (Hsend : ∀ m c n i, rel_post R (send m c n i)).
Context (Hagent : ∀ A (m : M aa_state A), rel_post R (on_agent m)).
#[local] Hint Resolve Hsend Hagent : olt_rel.

Lemma settle_rel {S} (cond : S → option (M olt (option S))) fuel s :
  (∀ s m, cond s = Some m → rel_post R m) → rel_post R (settle cond fuel s).
Proof.
  intros Hc. revert s. induction fuel as [|fuel IH]; intros s; cbn [settle]; [olt_rel|].
  destruct (cond s) as [m|] eqn:Hm; [|olt_rel]. apply rel_post_bind; [apply _|eauto|]. intros [s'|]; [apply IH|olt_rel].
Qed.
Lemma fire_rel {S} (cond : S → option (M olt (option S))) s mo :
  (∀ s o, enter cond s o = settle cond 4 s o) → (∀ s m, cond s = Some m → rel_post R m) → (∀ m, mo = Some m → rel_post R m) → rel_post R (fire cond s mo).
Proof.
  intros He Hc Hm. unfold fire. destruct mo as [m|]; [|olt_rel]. apply rel_post_bind; [apply _|eauto|].
  intros [s'|]; [|olt_rel]. intros o. rewrite He. by apply settle_rel.
Qed.

Lemma add_port_rel p : rel_post R (add_port p).
Proof. unfold add_port. olt_rel. Qed.
#[local] Hint Resolve add_port_rel : olt_rel.
Lemma a_condition_rel n s m : a_condition n s = Some m → rel_post R m.
Proof. destruct s; intros [= <-]; unfold send_get_activation_auth_mode, send_omci_port_id, send_omci_identity_frame, send_px; olt_rel. Qed.
Lemma a_receive_rel n s f p : a_receive_condition n s = Some f → rel_post R (f p).
Proof.
  destruct s; intros [= <-]; unfold wait_for_get_auth_mode, wait_for_omci_port_id, wait_for_send_frame, wait_for_omci_get,
    create_port, get_header; olt_rel.
Qed.
Lemma a_timeout_rel s m : a_timeout s = Some m → rel_post R m.
Proof. destruct s; intros [= <-]; unfold a_error; olt_rel. Qed.

Lemma run_manager_rel b i m :
  (∀ n s t, m n s = Some t → rel_post R t) → R (b_olt b) (b_olt (run_manager b i m)).
Proof.
  intros Hm. unfold run_manager. destruct (b_managers b !! i) as [[n [s|]]|]; try reflexivity.
  pose proof (fire_rel (a_condition n) s (m n s) (enter_a_condition n) (a_condition_rel n) (Hm n s) (b_olt b)) as Hf.
  destruct (fire _ s (m n s) (b_olt b)) as [[s'|e] o]; exact Hf.
Qed.
Lemma watch_rel b p : R (b_olt b) (b_olt (watch b p)).
Proof.
  unfold watch. destruct (pk_layer p), (pk_header p) as [h|]; try reflexivity. cbv zeta.
  match goal with |- context [enter (a_condition ?n) ?s0] =>
    rewrite (enter_a_condition n s0);
    pose proof (settle_rel (a_condition n) 4 s0 (a_condition_rel n) (b_olt b)) as Hf;
    destruct (settle (a_condition n) 4 s0 (b_olt b)) as [[s'|e] o]; exact Hf end.
Qed.
End managers.

(** A relation that the changes of every field respect is respected by all automata. *)
Section methods.
Context `{!Uuid, !Automata} (R : olt → olt → Prop) `{!PreOrder R}.
Context (Hsend : ∀ m c n i, rel_post R (send m c n i)) (Hput : ∀ f, rel_post R (modify (λ o, put_send_state (f o) o))).
#[local] Hint Resolve Hsend Hput : olt_rel.

Lemma send_each_rel l : rel_post R (send_each l).
Proof. induction l as [|[c m] l IH]; cbn [send_each]; unfold send_state_append; olt_rel. Qed.
#[local] Hint Resolve send_each_rel : olt_rel.
Lemma condition_rel s m : condition s = Some m → rel_post R m.
Proof.
  destruct s; intros [= <-]; unfold send_proto_request, send_olt_version, send_olt_optics, send_olt_io_optics,
    check_downstream_pon_tx, send_add_olt, send_alarm_config, send_dba_mode, send_start_dba, send_activation_period; olt_rel.
Qed.

Context (Hagent : ∀ A (m : M aa_state A), rel_post R (on_agent m)) (Hcheck : rel_post R check_channel_state).
Context (Hretry : ∀ x o, R o (set_retry x o)) (Hdba : ∀ x o, R o (set_dba_needs_start x o)).
Context (Hdevice : ∀ x o, R o (set_device x o)) (Huuids : ∀ x o, R o (set_uuids x o)).
Context (Hlogical : ∀ x o, R o (set_logical_device x o)).
#[local] Hint Resolve Hagent Hcheck Hretry Hdba Hdevice Huuids Hlogical : olt_rel.
#[local] Hint Extern 2 (rel_post R (modify _)) => (intros ?; cbn [snd modify]; solve [auto with olt_rel]) : olt_rel.

Lemma send_state_set_rel i : rel_post R (send_state_set i).
Proof.
  unfold send_state_set. apply get_state_bind. intros o. unfold mbind, M_bind, lift.
  destruct (of_option _ _) as [j|e]; [|reflexivity]. exact (Hput (λ _, <[j := true]> (send_state o)) o).
Qed.
#[local] Hint Resolve send_state_set_rel : olt_rel.
Lemma receive_rel fuel s f p : receive_condition fuel s = Some f → rel_post R (f p).
Proof.
  destruct s; intros [= <-]; unfold receive_proto_version, receive_olt_version, receive_set_optics_response,
      receive_io_optics_response, wait_for_olt_add, wait_for_alarm_set, acknowledged, check_pon_tx_state, wait_for_dba_mode,
      wait_for_dba_start, wait_for_activation, wait_for_keepalive, update_device, create_logical_device, get_header; olt_rel.
Qed.
Lemma timeout_rel s m : timeout s = Some m → rel_post R m.
Proof. destruct s; intros [= <-]; unfold retry_or_error, to_error, send_keepalive; olt_rel. Qed.

Lemma run_olt_rel b m : (∀ s t, m s = Some t → rel_post R t) → R (b_olt b) (b_olt (run_olt b m)).
Proof.
  intros Hm. unfold run_olt. destruct (b_state b) as [s|]; [|reflexivity].
  pose proof (fire_rel R condition s (m s) enter_condition condition_rel (Hm s) (b_olt b)) as Hf.
  destruct (fire condition s (m s) (b_olt b)) as [[s'|e] o]; exact Hf.
Qed.
Lemma handle_rel fuel b e : R (b_olt b) (b_olt (handle fuel b e)).
Proof.
  destruct e as [p| |p|i p|i]; cbn [handle].
  - apply run_olt_rel. intros s t. destruct (receive_condition fuel s) eqn:E; intros [= <-]. by eapply receive_rel.
  - apply run_olt_rel, timeout_rel.
  - by apply watch_rel.
  - apply run_manager_rel; [done..|]. intros n s t. destruct (a_receive_condition n s) eqn:E; intros [= <-].
    by eapply (a_receive_rel R).
  - apply run_manager_rel; [done..|]. intros n s t. by apply a_timeout_rel.
Qed.
End methods.

(** ** Sequence numbers *)

Section numbers.
Context `{!Uuid, !Automata}.

Definition numbered (o : olt) : Prop :=
  f_sequence_number <$> o_sent o = seqZ 0 (Z.of_nat (length (o_sent o))) ∧ o_seq o = Z.of_nat (length (o_sent o)).
Definition keeps_numbers (o o' : olt) : Prop := numbered o → numbered o'.
#[local] Instance keeps_numbers_preorder : PreOrder keeps_numbers.
Proof. split; [intros o Hn; exact Hn|]. intros o1 o2 o3 H1 H2 Hn. exact (H2 (H1 Hn)). Qed.

Lemma send_numbers m c n i : rel_post keeps_numbers (send m c n i).
Proof.
  intros o [Hs Hq]. unfold send, modify, set_sent, numbered. cbn [snd o_sent o_seq]. rewrite fmap_app, length_app. cbn.
  split; [|lia]. rewrite Hs, Hq, Nat2Z.inj_add, seqZ_app by lia. f_equal.
Qed.
Lemma agent_numbers A (m : M aa_state A) : rel_post keeps_numbers (on_agent m).
Proof. intros o Hn. unfold on_agent. by destruct (m (o_aa o)). Qed.
Lemma put_numbers (f : olt → list bool) : rel_post keeps_numbers (modify (λ o, put_send_state (f o) o)).
Proof. intros o Hn. unfold modify, put_send_state. cbn. by destruct (o_send_state o). Qed.
Lemma check_numbers : rel_post keeps_numbers check_channel_state.
Proof.
  unfold check_channel_state. olt_rel. intros o Hn. exact Hn.
Qed.
Lemma handle_numbers fuel b e : keeps_numbers (b_olt b) (b_olt (handle fuel b e)).
Proof.
  apply handle_rel; [apply _|exact send_numbers|exact put_numbers|exact agent_numbers|exact check_numbers|..]; intros x o Hn; exact Hn.
Qed.
End numbers.

(** ** What was acknowledged *)

Section invariant.
Context `{!Uuid, !Automata}.

(** The length of the list while a setting is acknowledged: the four requests about
    the transmitters, which nobody waits for, come before those for the channels. *)
Definition slots (op : Z) : Z := if bool_decide (op = AddOltChannelResponse_opcode) then 8 else 4.
(** The OLT acknowledged a setting for a channel: the answer has the number of the
    channel or, as the field is signed and Python counts negative indices from the
    end of the list, that number less the length of the list. *)
Definition acked (evs : list event) (op c : Z) : Prop :=
  ∃ p h, OltPacket p ∈ evs ∧ pk_header p = Some h ∧ h_opcode h = op ∧
    (h_channel_id h = c ∨ h_channel_id h = c - slots op).
Definition all_acked (evs : list event) (op : Z) : Prop := ∀ c, c ∈ CHANNELS → acked evs op c.
(** The settings that are acknowledged: optics, input and output of the optics,
    channels, alarms, activation period *)
Definition SETTINGS : list Z :=
  [SetOltOpticsResponse_opcode; SetOpticsIoControlResponse_opcode; AddOltChannelResponse_opcode;
   SetAlarmConfigResponse_opcode; SetOltChannelActivationPeriodResponse_opcode].

(** The number of settings that are done in a state, the setting it waits for, and
    whether it waits for channels at all *)
Definition passed (s : state) : nat :=
  match s with
  | wait_olt_io_optics => 1
  | wait_olt_add => 2
  | wait_alarm_set => 3
  | wait_dba_mode | wait_dba_start | wait_activation => 4
  | initialized | wait_keepalive => 5
  | _ => 0
  end.
Definition awaited (s : state) : option Z :=
  match s with
  | wait_olt_optics | wait_olt_io_optics | wait_olt_add | wait_alarm_set | wait_activation => SETTINGS !! passed s
  | _ => None
  end.
Definition for_channels (s : state) : bool :=
  match s with wait_dba_mode | wait_dba_start => true | _ => bool_decide (is_Some (awaited s)) end.
Definition at_rest (s : state) : Prop :=
  condition s = None ∧ (target s).1 = s ∧ s ≠ got_query_response ∧ s ≠ ERROR.

Definition entries (s : state) : nat := match s with wait_olt_add => 8 | _ => 4 end.
Lemma awaited_slots s op : awaited s = Some op → slots op = Z.of_nat (entries s).
Proof. by destruct s; intros [= <-]. Qed.
Lemma entries_enough s : (4 ≤ entries s)%nat.
Proof. destruct s; cbn; lia. Qed.
Definition list_ok (evs : list event) (s : state) (l : list bool) : Prop :=
  if for_channels s
  then length l = entries s ∧ ∀ i op, (i < 4)%nat → l !! i = Some true → awaited s = Some op → acked evs op (Z.of_nat i)
  else l = [].
Definition state_ok (evs : list event) (s : state) (o : olt) : Prop :=
  at_rest s ∧ (∀ op, op ∈ take (passed s) SETTINGS → all_acked evs op) ∧ list_ok evs s (send_state o) ∧
  (o_logical_device o = None ∨ s = initialized ∨ s = wait_keepalive).
Definition ruby_ok (evs : list event) (b : ruby) : Prop :=
  (o_logical_device (b_olt b) ≠ None → ∀ op, op ∈ SETTINGS → all_acked evs op) ∧
  (∀ s, b_state b = Some s → state_ok evs s (b_olt b)).

Lemma acked_mono evs e op c : acked evs op c → acked (evs ++ [e]) op c.
Proof. intros (p & h & Hin & ?). exists p, h. split; [apply elem_of_app; by left|done]. Qed.
Lemma all_acked_mono evs e op : all_acked evs op → all_acked (evs ++ [e]) op.
Proof. intros Ha c Hc. by apply acked_mono, Ha. Qed.
Lemma list_ok_mono evs e s l : list_ok evs s l → list_ok (evs ++ [e]) s l.
Proof.
  unfold list_ok. destruct (for_channels s); [|done]. intros [Hl Ha]. split; [done|]. intros. apply acked_mono. eauto.
Qed.
Lemma state_ok_mono evs e s o : state_ok evs s o → state_ok (evs ++ [e]) s o.
Proof.
  intros (Hr & Hp & Hl & Hd). split_and!; [done| |by apply list_ok_mono|done]. intros op Hop. by apply all_acked_mono, Hp.
Qed.

(** A packet that acknowledges a channel: the state goes on when all channels have. *)
Lemma mark_ok evs p h s o :
  for_channels s = true → list_ok evs s (send_state o) → pk_header p = Some h →
  (∀ op, awaited s = Some op → h_opcode h = op) →
  ∃ r o', (_ ← send_state_set (h_channel_id h); check_channel_state) o = (r, o') ∧
    o_logical_device o' = o_logical_device o ∧
    match r with
    | Ok true => send_state o' = [] ∧ ∀ op, awaited s = Some op → all_acked (evs ++ [OltPacket p]) op
    | Ok false => list_ok (evs ++ [OltPacket p]) s (send_state o')
    | Raise _ => True
    end.
Proof.
  intros Hf Hl Hh Hop. unfold list_ok in *. rewrite Hf in *. destruct Hl as [Hlen Hl].
  unfold mbind at 1, M_bind at 1. rewrite set_index.
  destruct (py_index _ _) as [j|] eqn:Hj; [|by eexists _, _]. apply py_index_spec in Hj. rewrite Hlen in Hj.
  set (l' := <[_ := true]> (send_state o)). set (o1 := put_send_state l' o).
  assert (send_state o1 = l') as Hs1 by apply send_state_put.
  assert (∀ i op, (i < 4)%nat → l' !! i = Some true → awaited s = Some op →
            acked (evs ++ [OltPacket p]) op (Z.of_nat i)) as Hack.
  { intros i op Hi Hli Ha. destruct (decide (i = j)) as [->|Hne].
    - exists p, h. rewrite (awaited_slots s op Ha). split_and!; [apply elem_of_app; right; by left|done|auto|done].
    - apply acked_mono. apply (Hl i op); [done| |done]. subst l'. by rewrite list_lookup_insert_ne in Hli. }
  pose proof (entries_enough s) as Hen.
  rewrite check_run by (rewrite Hs1; subst l'; rewrite length_insert; lia). rewrite Hs1.
  destruct (all_true l') eqn:Hall; eexists _, _; (split; [reflexivity|]).
  - split; [cbn; apply logical_put|]. split; [done|]. intros op Ha c Hcc. rewrite all_true_spec in Hall.
    assert (0 ≤ c < 4) by (unfold CHANNELS in Hcc; set_solver by lia).
    rewrite <- (Z2Nat.id c) by lia. apply Hack; [lia| |done]. apply Hall. lia.
  - split; [apply logical_put|]. rewrite Hs1. split; [subst l'; by rewrite length_insert|]. auto.
Qed.
(** What a method has to leave behind: a state that can be entered, or its own *)
Definition device_ok (evs : list event) (o : olt) : Prop :=
  o_logical_device o ≠ None → ∀ op, op ∈ SETTINGS → all_acked evs op.
Definition enters (evs : list event) (s : state) (o : olt) : Prop :=
  s = ERROR ∨ (at_rest (target s).1 ∧ (∀ op, op ∈ take (passed (target s).1) SETTINGS → all_acked evs op) ∧
    list_ok evs (target s).1 (send_state o ++ replicate (target s).2 false) ∧
    (o_logical_device o = None ∨ (target s).1 = initialized ∨ (target s).1 = wait_keepalive)).
Definition post (evs : list event) (s : state) (m : transition) (o : olt) : Prop :=
  match m o with
  | (Ok (Some s'), o') => enters evs s' o' ∧ device_ok evs o'
  | (Ok None, o') => state_ok evs s o' ∧ device_ok evs o'
  | (Raise _, o') => device_ok evs o'
  end.

Lemma post_run evs s m b (mo : state → option transition) :
  b_state b = Some s → mo s = Some m → post evs s m (b_olt b) → ruby_ok evs (run_olt b mo).
Proof.
  intros Hs Hm Hp. unfold run_olt. rewrite Hs, Hm. cbn [fire]. unfold mbind, M_bind, post in *.
  destruct (m (b_olt b)) as [[[s'|]|e] o1].
  - rewrite enter_condition. destruct (settle_run s' o1) as (o2 & -> & Hl & Hd). destruct Hp as [He Ho].
    split; [cbn; unfold device_ok in Ho; by rewrite Hd|]. cbn [b_state b_olt]. intros s2 Hs2.
    case_bool_decide as Herr; [done|]. injection Hs2 as <-. destruct He as [->|(Hr & Hpa & Hli & Hlo)]; [done|].
    split_and!; [done|done|by rewrite Hl|by rewrite Hd].
  - destruct Hp as [Hst Hd]. split; [exact Hd|]. cbn. intros s2. case_bool_decide; [done|]. by intros [= <-].
  - split; [exact Hp|done].
Qed.

Lemma device_none evs o : o_logical_device o = None → device_ok evs o.
Proof. intros Hn Hd. by rewrite Hn in Hd. Qed.
Lemma list_ok_new evs s l n : for_channels s = true → l = [] → n = entries s → list_ok evs s (l ++ replicate n false).
Proof.
  intros Hf -> Hn. unfold list_ok. rewrite Hf. cbn. rewrite length_replicate. split; [done|]. intros i op _ Hi.
  by apply lookup_replicate in Hi as [? _].
Qed.
Lemma enters_again evs s o : at_rest s → (∀ op, op ∈ take (passed s) SETTINGS → all_acked evs op) →
  list_ok evs s (send_state o) → o_logical_device o = None → (target s).2 = 0%nat → enters evs s o.
Proof.
  intros Hr Hp Hl Hd Hz. right. pose proof Hr as (_ & Ht & _). rewrite Ht, Hz, app_nil_r. split_and!; [done..|by left].
Qed.
Lemma passed_more evs s op n : awaited s = Some op → (n ≤ S (passed s))%nat → SETTINGS !! passed s = Some op →
  (∀ op, op ∈ take (passed s) SETTINGS → all_acked evs op) → all_acked evs op →
  ∀ op', op' ∈ take n SETTINGS → all_acked evs op'.
Proof.
  intros Ha Hn Hs Hp Hop op' Hin. apply elem_of_take in Hin as (i & Hi & Hlt).
  destruct (decide (i = passed s)) as [->|Hne]; [by assert (op' = op) as -> by congruence|].
  apply Hp, elem_of_take. exists i. split; [done|lia].
Qed.

(** The methods that wait for the channels *)
Section marking.
Context (evs : list event) (p : packet) (h : header) (s : state) (o : olt).
Context (Hst : state_ok evs s o) (Hf : for_channels s = true) (Hd : o_logical_device o = None).
Context (Hh : pk_header p = Some h).
Let evs' := evs ++ [OltPacket p].

(** The channel is marked, then the method goes on with [k]. *)
Lemma marking_post (k : bool → transition) :
  (∀ op, awaited s = Some op → h_opcode h = op) →
  (∀ o', o_logical_device o' = None → list_ok evs' s (send_state o') → post evs' s (k false) o') →
  (∀ o', o_logical_device o' = None → send_state o' = [] →
         (∀ op, awaited s = Some op → all_acked evs' op) → post evs' s (k true) o') →
  post evs' s (_ ← send_state_set (h_channel_id h); b ← check_channel_state; k b) o.
Proof.
  intros Hop Hno Hyes. destruct Hst as (_ & _ & Hl & _).
  destruct (mark_ok evs p h s o Hf Hl Hh Hop) as (r & o' & Hrun & Hd' & Hr). rewrite Hd in Hd'.
  unfold post. rewrite <- M_bind_assoc. unfold mbind at 1, M_bind at 1. rewrite Hrun.
  destruct r as [[]|e]; [apply (Hyes o' Hd'); apply Hr|exact (Hno o' Hd' Hr)|by apply device_none].
Qed.
Lemma again_post o' : o_logical_device o' = None → list_ok evs' s (send_state o') → (target s).2 = 0%nat →
  post evs' s (mret (Some s)) o'.
Proof.
  intros Hd' Hl Hz. destruct Hst as (Hr & Hp & _). split; [|by apply device_none].
  apply enters_again; [done| |done..]. intros op Hin. by apply all_acked_mono, Hp.
Qed.
Lemma next_post next o' : o_logical_device o' = None → send_state o' = [] →
  (∀ op, op ∈ take (passed (target next).1) SETTINGS → all_acked evs' op) →
  at_rest (target next).1 → for_channels (target next).1 = true →
  (target next).2 = entries (target next).1 → post evs' s (mret (Some next)) o'.
Proof.
  intros Hd' Hl Ha Hr Hfc Hn. split; [|by apply device_none]. right. split_and!; [done|done|by apply list_ok_new|by left].
Qed.
Lemma passed_mono n : (n ≤ passed s)%nat → ∀ op, op ∈ take n SETTINGS → all_acked evs' op.
Proof.
  intros Hn op Hin. destruct Hst as (_ & Hp & _). apply all_acked_mono, Hp.
  apply elem_of_take in Hin as (i & Hi & Hlt). apply elem_of_take. exists i. split; [done|lia].
Qed.
End marking.

(** Methods that leave the list and the logical device alone *)
Definition untouched (o o' : olt) : Prop := send_state o' = send_state o ∧ o_logical_device o' = o_logical_device o.
#[local] Instance untouched_preorder : PreOrder untouched.
Proof. split; [by intros o|]. intros o1 o2 o3 [H1 H2] [H3 H4]. split; congruence. Qed.
Lemma send_untouched m c n i : rel_post untouched (send m c n i).
Proof. by intros o. Qed.
Lemma agent_untouched A (m : M aa_state A) : rel_post untouched (on_agent m).
Proof. intros o. unfold on_agent. by destruct (m (o_aa o)). Qed.
#[local] Hint Resolve send_untouched agent_untouched : olt_rel.
#[local] Hint Extern 2 (rel_post untouched (modify _)) => (by intros ?) : olt_rel.
Lemma update_untouched a b c d e : rel_post untouched (update_device a b c d e).
Proof. unfold update_device. olt_rel. Qed.
Lemma send_state_own o : send_state (set_own_send_state (Some []) o) = [].
Proof. done. Qed.

(** The states in which nothing is marked *)
Lemma early_list evs s o : state_ok evs s o → for_channels s = false → send_state o = [].
Proof. intros (_ & _ & Hl & _) Hf. unfold list_ok in Hl. by rewrite Hf in Hl. Qed.
Lemma waiting_device evs s o : state_ok evs s o → s ≠ initialized → s ≠ wait_keepalive → o_logical_device o = None.
Proof. intros (_ & _ & _ & [?|[?|?]]); done. Qed.

Ltac rest := split_and!; [reflexivity|reflexivity|discriminate|discriminate].

Lemma acknowledged_post evs p s next op o :
  state_ok evs s o →
  s ≠ initialized → s ≠ wait_keepalive → for_channels s = true → (target s).2 = 0%nat →
  awaited s = Some op → SETTINGS !! passed s = Some op →
  passed (target next).1 = S (passed s) → at_rest (target next).1 → for_channels (target next).1 = true →
  (target next).2 = entries (target next).1 →
  post (evs ++ [OltPacket p]) s (acknowledged op next s p) o.
Proof.
  intros Hst Hi Hk Hf Hz Ha Hs Hn Hr Hfn Hln. pose proof (waiting_device _ _ _ Hst Hi Hk) as Hd.
  unfold acknowledged, get_header. destruct (pk_header p) as [h|] eqn:Hh; [|by apply device_none].
  unfold post. erewrite M_bind_eq by reflexivity. case_bool_decide as Hop.
  - apply (marking_post evs p h s o Hst Hf Hd Hh); [congruence|..].
    + intros o' Hd' Hl. by eapply again_post.
    + intros o' Hd' Hl Hall. eapply next_post; [done|done| |done..]. rewrite Hn.
      eapply passed_more; [done|done|done| |by apply Hall]. intros op' Hin. destruct Hst as (_ & Hp & _).
      by apply all_acked_mono, Hp.
  - split; [by apply state_ok_mono|by apply device_none].
Qed.

(** The answers about the DBA *)
Lemma dba_checked evs p o o' : state_ok evs wait_dba_mode o → o_logical_device o' = None →
  length (send_state o') = 4%nat →
  post (evs ++ [OltPacket p]) wait_dba_mode
    (b ← check_channel_state; o ← get_state;
     mret (Some (if b : bool then if o_dba_needs_start o then got_dba_mode else got_dba_start else wait_dba_mode))) o'.
Proof.
  intros Hst Hd' Hl. unfold post. erewrite M_bind_eq by (apply check_run; lia). erewrite M_bind_eq by reflexivity.
  destruct (all_true (send_state o')) eqn:Hall.
  - destruct (o_dba_needs_start _).
    + apply next_post; try done. apply (passed_mono evs p _ o Hst). cbn; lia.
    + apply next_post; try done. apply (passed_mono evs p _ o Hst). cbn; lia.
  - eapply (again_post evs p wait_dba_mode o); [done|done| |done]. split; [done|]. by intros i op.
Qed.
Lemma dba_mode_post evs p o :
  state_ok evs wait_dba_mode o → post (evs ++ [OltPacket p]) wait_dba_mode (wait_for_dba_mode p) o.
Proof.
  intros Hst. pose proof (waiting_device _ _ _ Hst ltac:(done) ltac:(done)) as Hd.
  pose proof Hst as (_ & _ & [Hlen _] & _).
  unfold wait_for_dba_mode, get_header. destruct (pk_layer p) eqn:Hlay;
    try (eapply (again_post evs p wait_dba_mode o); [done|done| |done]; split; [done|]; by intros i op).
  destruct (pk_header p) as [h|] eqn:Hh; [|by apply device_none].
  unfold post. erewrite M_bind_eq by reflexivity.
  assert (∀ j, o_logical_device (put_send_state (<[j := true]> (send_state o)) o) = None ∧
    length (send_state (put_send_state (<[j := true]> (send_state o)) o)) = 4%nat) as Hput
    by (intros j; by rewrite logical_put, send_state_put, length_insert).
  assert (∀ (m : M olt unit) r o', m o = (r, o') → o_logical_device o' = None ∧ length (send_state o') = 4%nat →
    post (evs ++ [OltPacket p]) wait_dba_mode (_ ← m; b ← check_channel_state; o ← get_state;
     mret (Some (if b : bool then if o_dba_needs_start o then got_dba_mode else got_dba_start else wait_dba_mode))) o) as Hgo.
  { intros m r o' Hm [Hd' Hl']. unfold post, mbind at 1, M_bind at 1. rewrite Hm.
    destruct r as [[]|e]; [by apply (dba_checked evs p o o')|by apply device_none]. }
  pose proof (set_index (h_channel_id h) o) as Hset.
  case_bool_decide as H1; [|case_bool_decide as H2; [|by eapply Hgo]].
  - destruct (py_index _ _) as [j|].
    + eapply Hgo; [erewrite M_bind_eq by exact Hset; reflexivity|exact (Hput j)].
    + eapply Hgo; [erewrite M_bind_Raise_eq by exact Hset; reflexivity|done].
  - destruct (py_index _ _) as [j|]; by eapply Hgo.
Qed.

Lemma dba_start_post evs p o :
  state_ok evs wait_dba_start o →
  post (evs ++ [OltPacket p]) wait_dba_start (wait_for_dba_start p) o.
Proof.
  intros Hst. pose proof (waiting_device _ _ _ Hst ltac:(done) ltac:(done)) as Hd.
  unfold wait_for_dba_start, get_header. destruct (pk_header p) as [h|] eqn:Hh; [|by apply device_none].
  unfold post. erewrite M_bind_eq by reflexivity. case_bool_decide as Hop.
  - apply (marking_post evs p h wait_dba_start o Hst eq_refl Hd Hh); [done|..].
    + intros o' Hd' Hl. by eapply again_post.
    + intros o' Hd' Hl _. apply next_post; try done. apply (passed_mono evs p _ o Hst). cbn. lia.
  - eapply again_post; [done..| |done]. destruct Hst as (_ & _ & Hl & _). by apply list_ok_mono.
Qed.

Lemma create_logical_run fuel o : ∃ r o', create_logical_device fuel o = (r, o') ∧ send_state o' = send_state o ∧
  (o_logical_device o = None → match r with Ok _ => True | Raise _ => o_logical_device o' = None end).
Proof.
  unfold create_logical_device. erewrite M_bind_eq by reflexivity. cbv zeta. erewrite M_bind_eq by reflexivity.
  set (o1 := set_uuids _ o). unfold mbind at 1, M_bind at 1, lift.
  destruct (int16 _ _) as [dp|e]; [|eexists _, _; done].
  unfold mbind at 1, M_bind at 1, on_agent. destruct (AdapterAgent.create_logical_device _ _ _ _) as [[ld|e] aa];
    eexists _, _; done.
Qed.
Lemma activation_post fuel evs p o :
  state_ok evs wait_activation o →
  post (evs ++ [OltPacket p]) wait_activation (wait_for_activation fuel p) o.
Proof.
  intros Hst. pose proof (waiting_device _ _ _ Hst ltac:(done) ltac:(done)) as Hd.
  unfold wait_for_activation, get_header. destruct (pk_header p) as [h|] eqn:Hh; [|by apply device_none].
  unfold post. erewrite M_bind_eq by reflexivity. case_bool_decide as Hop.
  - apply (marking_post evs p h wait_activation o Hst eq_refl Hd Hh).
    + intros op [= <-]. exact Hop.
    + intros o' Hd' Hl. by eapply again_post.
    + intros o' Hd' Hl Hall. destruct (create_logical_run fuel o') as (r & o2 & Hrun & Hs & Hr). unfold post, mbind at 1, M_bind at 1.
      rewrite Hrun. assert (∀ op, op ∈ SETTINGS → all_acked (evs ++ [OltPacket p]) op) as Hdone.
      { apply (passed_more _ wait_activation SetOltChannelActivationPeriodResponse_opcode 5); try done; [|by apply Hall].
        intros op Hin. destruct Hst as (_ & Hp & _). by apply all_acked_mono, Hp. }
      destruct r as [[]|e]; [|by intros _]. split; [|by intros _]. right. cbn [target fst snd].
      split_and!; [rest|done| |by right; left]. unfold list_ok. cbn. by rewrite Hs, Hl.
  - eapply again_post; [done..| |done]. destruct Hst as (_ & _ & Hl & _). by apply list_ok_mono.
Qed.

Lemma enters_quiet evs s o s' : state_ok evs s o → for_channels s = false → for_channels (target s').1 = false →
  at_rest (target s').1 → (target s').2 = 0%nat → (passed (target s').1 ≤ passed s)%nat →
  (o_logical_device o = None ∨ (target s').1 = initialized ∨ (target s').1 = wait_keepalive) → enters evs s' o.
Proof.
  intros Hst Hf Hf' Hr Hz Hp Hd. pose proof (early_list _ _ _ Hst Hf) as Hl. destruct Hst as (_ & Ha & _). right.
  split_and!; [done| | |done].
  - intros op Hin. apply Ha. apply elem_of_take in Hin as (i & Hi & Hlt). apply elem_of_take. exists i. split; [done|lia].
  - unfold list_ok. by rewrite Hf', Hl, Hz.
Qed.

Lemma receive_post fuel evs p s f o :
  state_ok evs s o → device_ok (evs ++ [OltPacket p]) o →
  receive_condition fuel s = Some f → post (evs ++ [OltPacket p]) s (f p) o.
Proof.
  intros Hst Hdo. pose proof (state_ok_mono _ (OltPacket p) _ _ Hst) as Hst'.
  destruct s; intros [= <-];
    try (by apply (acknowledged_post evs p _ _ _ o Hst); try done; try (cbn; lia); rest).
  - unfold receive_proto_version, post. destruct (pk_layer p); (split; [|exact Hdo]); try (by left).
    eapply enters_quiet; try done. left. by eapply waiting_device.
  - unfold receive_olt_version. pose proof (waiting_device _ _ _ Hst ltac:(done) ltac:(done)) as Hd.
    destruct (pk_layer p) as [|a b c d e| | | | | |]; try (split; [by left|by apply device_none]).
    pose proof (update_untouched a b c d e o) as [Hs Hl]. unfold post, mbind, M_bind.
    destruct (update_device a b c d e o) as [[[]|e'] o']; cbn [snd] in *; [|apply device_none; congruence].
    split; [|apply device_none; congruence]. right. split_and!; [rest|by intros op ?%not_elem_of_nil| |left; congruence].
    apply list_ok_new; [done| |done]. rewrite Hs. by eapply early_list.
  - destruct Hst as ((Hc & _) & _). done.
  - by apply dba_mode_post.
  - by apply dba_start_post.
  - by apply activation_post.
  - unfold wait_for_keepalive, post. destruct (pk_layer p); (split; [|exact Hdo]); try exact Hst'.
    eapply enters_quiet; try done. by right; left.
Qed.
Lemma timeout_post evs s m o : state_ok evs s o → device_ok evs o → timeout s = Some m → post evs s m o.
Proof.
  intros Hst Hdo. destruct s; intros [= <-]; try (split; [by left|exact Hdo]).
  1,2: pose proof (waiting_device _ _ _ Hst ltac:(done) ltac:(done)) as Hd; unfold retry_or_error, post;
    erewrite M_bind_eq by reflexivity; erewrite M_bind_eq by reflexivity; (split; [|exact Hdo]);
    case_bool_decide; [by left|eapply enters_quiet; [exact Hst|try done..]; by left].
  unfold send_keepalive, post. erewrite M_bind_eq by reflexivity. split; [|exact Hdo].
  eapply enters_quiet; [exact Hst|try done..]. by right; right.
Qed.

Lemma untouched_ok evs e b b' : ruby_ok evs b → b_state b' = b_state b → untouched (b_olt b) (b_olt b') →
  ruby_ok (evs ++ [e]) b'.
Proof.
  intros [Hd Hs] Hst [Hl Hlo]. split.
  - rewrite Hlo. intros Hn op Hop. by apply all_acked_mono, Hd.
  - rewrite Hst. intros s Hbs. apply state_ok_mono. destruct (Hs s Hbs) as (? & ? & ? & ?).
    split_and!; [done|done|by rewrite Hl|by rewrite Hlo].
Qed.
Lemma run_manager_state b i m : b_state (run_manager b i m) = b_state b.
Proof.
  unfold run_manager. destruct (b_managers b !! i) as [[n [s|]]|]; try done. by destruct (fire _ _ _ _) as [[]].
Qed.
Lemma watch_state b p : b_state (watch b p) = b_state b.
Proof. unfold watch. destruct (pk_layer p), (pk_header p); try done; destruct (enter _ _ _) as [[]]; done. Qed.

Lemma handle_ok fuel evs e b : ruby_ok evs b → ruby_ok (evs ++ [e]) (handle fuel b e).
Proof.
  intros Hb. assert (ruby_ok (evs ++ [e]) b) as Hb' by (by eapply untouched_ok).
  pose proof Hb' as [Hd' Hs']. destruct Hb as [Hd Hs].
  destruct e as [p| |p|i p|i]; cbn [handle].
  - destruct (b_state b) as [s|] eqn:Hbs; [|unfold run_olt; by rewrite Hbs].
    destruct (receive_condition fuel s) as [f|] eqn:Hf.
    + eapply (post_run _ s (f p)); [done|by rewrite Hf|]. eapply receive_post; eauto.
    + unfold run_olt. rewrite Hbs, Hf. cbn. split; [exact Hd'|]. cbn. intros s2. case_bool_decide; [done|].
      intros [= <-]. auto.
  - destruct (b_state b) as [s|] eqn:Hbs; [|unfold run_olt; by rewrite Hbs].
    destruct (timeout s) as [m|] eqn:Hf.
    + eapply (post_run _ s m); [done..|]. apply timeout_post; [by auto|exact Hd'|done].
    + unfold run_olt. rewrite Hbs, Hf. cbn. split; [exact Hd'|]. cbn. intros s2. case_bool_decide; [done|].
      intros [= <-]. auto.
  - eapply untouched_ok; [split; [exact Hd|exact Hs]|apply watch_state|]. apply watch_rel; [apply _|exact send_untouched].
  - eapply untouched_ok; [split; [exact Hd|exact Hs]|apply run_manager_state|].
    apply run_manager_rel; [apply _|exact send_untouched|]. intros n s t.
    destruct (a_receive_condition n s) eqn:E; intros [= <-]. by eapply (a_receive_rel untouched agent_untouched).
  - eapply untouched_ok; [split; [exact Hd|exact Hs]|apply run_manager_state|].
    apply run_manager_rel; [apply _|exact send_untouched|]. intros n s t. apply a_timeout_rel, _.
Qed.

Definition run (fuel : nat) (b : ruby) (evs : list event) : ruby := foldl (handle fuel) b evs.
Lemma adopted_ok aa uuids device : ruby_ok [] (adopt_device aa [] uuids device).
Proof.
  unfold adopt_device. rewrite enter_condition.
  split; [by intros []|]. intros s [= <-]. split_and!; [rest|by intros op ?%not_elem_of_nil|done|by left].
Qed.
Lemma run_ok fuel aa uuids device evs :
  ruby_ok evs (run fuel (adopt_device aa [] uuids device) evs).
Proof.
  induction evs as [|e evs IH] using rev_ind; [apply adopted_ok|].
  unfold run. rewrite foldl_app. cbn [foldl]. by apply handle_ok.
Qed.


(** The transmitters are never checked. The automaton asks every channel whether
    its transmitter is enabled, and is to go on when all are and to stop when one is
    not; but the method that goes on is a condition of the state that waits, so it
    runs at once: no run ever waits for the answers, and no run passes the check. *)
Theorem transmitters_never_checked fuel aa uuids device evs :
  let b := run fuel (adopt_device aa [] uuids device) evs in
  b_state b ≠ Some wait_query_response ∧ b_state b ≠ Some got_query_response.
Proof.
  intros b. destruct (run_ok fuel aa uuids device evs) as [_ Hs]. fold b in Hs.
  split; intros Hb; destruct (Hs _ Hb) as ((Hc & _ & Hq & _) & _); done.
Qed.

(** Every frame to the OLT has its own sequence number, consecutive from 0, though
    the automata of the OLT and of its ONUs send concurrently. *)
Theorem frames_numbered fuel aa l uuids device evs :
  let b := run fuel (adopt_device aa l uuids device) evs in
  f_sequence_number <$> o_sent (b_olt b) = seqZ 0 (Z.of_nat (length (o_sent (b_olt b)))).
Proof.
  assert (numbered (b_olt (run fuel (adopt_device aa l uuids device) evs))) as [Hn _]; [|exact Hn].
  unfold run. induction evs as [|e evs IH] using rev_ind.
  - cbn [foldl]. unfold adopt_device. by rewrite enter_condition.
  - rewrite foldl_app. by apply handle_numbers.
Qed.
End invariant.
