(* ===== verification/MicrosemiLive.v ===== *)
(** * The adapter of the Microsemi OLT: bringing up OLTs and ONUs

    An OLT that answers every request, its channels in any order and whatever other
    packets come in between, ends initialized with its logical device stored.  Then
    what goes wrong with more than one OLT, whose automata share a list, and with
    more than one ONU, which share a logical port. *)

From Stdlib Require Import Ascii.
From stdpp Require Import prelude strings pretty countable list.
From S2P Require Import Prelude OFP FlowDecomposer DeviceGraph PonSim DeviceAgent AdapterAgent PonAdapters PonAdaptersSpec Microsemi MicrosemiSpec.
Import AdapterAgent PonAdapters Microsemi.

Local Open Scope Z_scope.

Section live.
Context `{!Uuid, !Automata}.

(** What the automaton of the OLT works on, apart from its list and its frames *)
Definition core (o : olt) : aa_state * adevice * nat * option LogicalDev * bool :=
  (o_aa o, o_device o, o_uuids o, o_logical_device o, o_dba_needs_start o).
Notation core_t := (aa_state * adevice * nat * option LogicalDev * bool)%type.
Definition same_core (o o' : olt) : Prop := core o' = core o.
#[local] Instance same_core_preorder : PreOrder same_core.
Proof. split; [done|]. intros o1 o2 o3 H1 H2. unfold same_core in *. congruence. Qed.

Lemma send_core m c n i : rel_post same_core (send m c n i).
Proof. by intros o. Qed.
Lemma put_core (f : olt → list bool) : rel_post same_core (modify (λ o, put_send_state (f o) o)).
Proof. intros o. unfold modify, put_send_state. cbn. by destruct (o_send_state o). Qed.
(** The automaton waits in [s] with the list [l]. *)
Definition waits (b : ruby) (s : state) (l : list bool) (k : core_t) : Prop :=
  b_state b = Some s ∧ send_state (b_olt b) = l ∧ core (b_olt b) = k.
Definition reaches (b : ruby) (s : state) (k : core_t) : Prop :=
  waits b (target s).1 (replicate (target s).2 false) k.

Lemma enter_core s o o' r : enter condition s o = (r, o') → core o' = core o.
Proof.
  rewrite enter_condition. intros Hr. pose proof (settle_rel same_core condition 4 s (condition_rel same_core send_core put_core) o) as Hs.
  by rewrite Hr in Hs.
Qed.
Lemma run_olt_waits b (mo : state → option transition) s m s' o' :
  b_state b = Some s → mo s = Some m → m (b_olt b) = (Ok (Some s'), o') → (target s').1 ≠ ERROR →
  waits (run_olt b mo) (target s').1 (send_state o' ++ replicate (target s').2 false) (core o').
Proof.
  intros Hs Hm Hr He. unfold run_olt. rewrite Hs, Hm. cbn [fire]. rewrite (M_bind_eq _ _ _ _ _ Hr).
  destruct (settle_run s' o') as (o2 & Hrun & Hl & _). rewrite <- enter_condition in Hrun.
  pose proof (enter_core _ _ _ _ Hrun) as Hc. rewrite Hrun. split_and!; [|done..]. cbn. by rewrite bool_decide_eq_false_2.
Qed.

Lemma packet_waits fuel b p s m s' o' :
  b_state b = Some s → receive_condition fuel s = Some m → m p (b_olt b) = (Ok (Some s'), o') → (target s').1 ≠ ERROR →
  waits (handle fuel b (OltPacket p)) (target s').1 (send_state o' ++ replicate (target s').2 false) (core o').
Proof. intros Hs Hm. cbn [handle]. eapply run_olt_waits; [done|]. by rewrite Hm. Qed.

(** A channel is marked. *)
Lemma mark_run {A} (f : bool → M olt A) c o :
  (4 ≤ length (send_state o))%nat → c ∈ CHANNELS →
  let l := <[Z.to_nat c := true]> (send_state o) in
  ∃ o', (_ ← send_state_set c; b ← check_channel_state; f b) o = f (all_true l) o' ∧
    send_state o' = (if all_true l then [] else l) ∧ core o' = core o.
Proof.
  intros Hl Hc l. assert (0 ≤ c < 4) as Hr by (unfold CHANNELS in Hc; set_solver by lia).
  set (o1 := put_send_state l o). assert (send_state o1 = l) as Hs1 by apply send_state_put.
  assert (core o1 = core o) as Hc1 by apply (put_core (λ o, <[Z.to_nat c := true]> (send_state o)) o).
  assert (4 ≤ length (send_state o1))%nat as Hl1 by (rewrite Hs1; unfold l; by rewrite length_insert).
  exists (if all_true l then set_own_send_state (Some []) o1 else o1). split_and!.
  - erewrite M_bind_eq; [|rewrite set_run by lia; by rewrite bool_decide_eq_true_2 by lia]. fold l o1.
    erewrite M_bind_eq; [|rewrite check_run by done; rewrite Hs1; reflexivity]. done.
  - by destruct (all_true l).
  - by destruct (all_true l).
Qed.

(** A state that waits for the channels: [ev c] is the answer of channel [c], [g] what
    it changes, and [fin] what happens after the last one. *)
Section stage.
Context (fuel : nat) (s : state) (ev : Z → event) (P : core_t → Prop).
Context (g : Z → core_t → core_t) (fin : core_t → state * core_t).
Context (Hstep : ∀ b l k c, waits b s l k → P k → (4 ≤ length l)%nat → c ∈ CHANNELS →
  let l' := <[Z.to_nat c := true]> l in
  if all_true l' then reaches (handle fuel b (ev c)) (fin (g c k)).1 (fin (g c k)).2
  else waits (handle fuel b (ev c)) s l' (g c k)).
Context (Hg : ∀ c k, P k → P (g c k)).


End stage.

(** The four settings, the DBA and the activation *)
Definition response (op c : Z) : packet := mk_packet (Some (mk_header op c (-1) (-1))) other_layer.
Definition answer (op c : Z) : event := OltPacket (response op c).

Lemma method_step fuel b s l k c p m :
  waits b s l k → (4 ≤ length l)%nat → c ∈ CHANNELS → receive_condition fuel s = Some m →
  ∀ o k' (f : bool → transition) next k2,
  m p (b_olt b) = (_ ← send_state_set c; b ← check_channel_state; f b) o → send_state o = l → core o = k' →
  (∀ o, core o = k' → ∃ o2, f true o = (Ok (Some next), o2) ∧ send_state o2 = send_state o ∧ core o2 = k2) →
  (∀ o, core o = k' → f false o = (Ok (Some s), o)) → at_rest s → (target s).2 = 0%nat → (target next).1 ≠ ERROR →
  let l' := <[Z.to_nat c := true]> l in
  if all_true l' then reaches (handle fuel b (OltPacket p)) next k2 else waits (handle fuel b (OltPacket p)) s l' k'.
Proof.
  intros (Hb & _ & _) Hlen Hc Hm o k' f next k2 Hrun Hl Hk Ht Hf (_ & Hts & _ & Hse) Hz Hne l'.
  destruct (mark_run f c o ltac:(by rewrite Hl) Hc) as (o' & Hrun' & Hs & Hk'). rewrite Hl in Hrun', Hs. fold l' in Hrun', Hs.
  rewrite Hrun' in Hrun. rewrite Hk in Hk'. clear Hrun'. destruct (all_true l') eqn:Hall.
  - destruct (Ht o' Hk') as (o2 & Hr2 & Hs2 & Hk2). rewrite Hr2 in Hrun.
    pose proof (packet_waits fuel b p s m next o2 Hb Hm Hrun Hne) as Hw. by rewrite Hs2, Hs, Hk2 in Hw.
  - rewrite (Hf o' Hk') in Hrun.
    pose proof (packet_waits fuel b p s m s o' Hb Hm Hrun) as Hw. rewrite Hts, Hz, app_nil_r, Hs, Hk' in Hw. by apply Hw.
Qed.


Definition dba_answer (mode : Z → Z) (c : Z) : event :=
  OltPacket (mk_packet (Some (mk_header 10297 c (-1) (-1))) (GetDbaModeResponse (mode c))).





(** ** An OLT that answers *)

Definition proto_answer : event := OltPacket (mk_packet (Some (mk_header 10242 (-1) (-1) (-1))) GetProtocolVersionResponse).
Definition version_packet (major_hw minor_hw major_fw minor_fw build_fw : Z) : packet :=
  mk_packet (Some (mk_header 14339 (-1) (-1) (-1))) (GetOltVersionResponse major_hw minor_hw major_fw minor_fw build_fw).
(** The device with what the OLT told of itself *)
Definition ruby_device (major_hw minor_hw major_fw minor_fw build_fw : Z) (d : adevice) : adevice :=
  populate
    [("vendor", "Celestica Inc."); ("model", "Ruby");
     ("hardware_version", py_hex major_hw +:+ "." +:+ py_dec minor_hw);
     ("firmware_version", py_dec major_fw +:+ "." +:+ py_dec minor_fw +:+ "." +:+ py_dec build_fw);
     ("software_version", "0.0.1");
     ("serial_number", default "" (od_get "mac_address" (ad_info d)))] d.
(** All answers: the order of the channels is [order i] for request [i], and [mode c]
    the DBA's mode of channel [c]. *)
Definition needs_start (mode : Z → Z) : bool :=
  existsb (λ c, bool_decide (mode c = PON_DBA_MODE_LOADED_NOT_RUNNING)) CHANNELS.
Definition answers (order : nat → list Z) (mode : Z → Z) : list event :=
  (answer SetOltOpticsResponse_opcode <$> order 0%nat) ++ (answer SetOpticsIoControlResponse_opcode <$> order 1%nat) ++
  (answer AddOltChannelResponse_opcode <$> order 2%nat) ++ (answer SetAlarmConfigResponse_opcode <$> order 3%nat) ++
  (dba_answer mode <$> order 4%nat) ++
  (if needs_start mode then answer StartDbaAlgorithmResponse_opcode <$> order 5%nat else []) ++
  (answer SetOltChannelActivationPeriodResponse_opcode <$> order 6%nat).

Lemma run_app fuel b l l' : run fuel b (l ++ l') = run fuel (run fuel b l) l'.
Proof. apply foldl_app. Qed.


(** Also for an OLT whose class has a list already *)
Lemma greeted fuel aa l uuids device a b c d e :
  is_Some (od_get (ad_id device) (aa_devices aa)) →
  let d' := ruby_device a b c d e device in
  ∃ aa', AdapterAgent.update_device d' aa = (Ok tt, aa') ∧
  waits (run fuel (adopt_device aa l uuids device) [proto_answer; OltPacket (version_packet a b c d e)]) wait_olt_optics
    (l ++ replicate 4 false) (aa', d', uuids, None, false).
Proof.
  intros [e0 He] d'. unfold AdapterAgent.update_device at 1. erewrite M_bind_eq by reflexivity.
  change (ad_id d') with (ad_id device). rewrite He. eexists. split; [reflexivity|].
  set (b0 := adopt_device aa l uuids device).
  assert (waits b0 wait_for_proto_version l (aa, device, uuids, None, false)) as Hb0.
  { unfold b0, adopt_device. by rewrite enter_condition. }
  change (run fuel b0 [proto_answer; OltPacket (version_packet a b c d e)])
    with (handle fuel (handle fuel b0 proto_answer) (OltPacket (version_packet a b c d e))).
  assert (waits (handle fuel b0 proto_answer) wait_for_olt_version l (aa, device, uuids, None, false)) as Hb1.
  { destruct Hb0 as (Hb & Hl & Hk). rewrite <- Hl, <- Hk, <- (app_nil_r (send_state _)).
    by apply (packet_waits fuel b0 _ wait_for_proto_version _ got_proto_version (b_olt b0) Hb eq_refl). }
  set (b1 := handle fuel b0 proto_answer) in *. clearbody b1. destruct Hb1 as (Hb & Hl & Hk).
  eassert (Hw : waits _ _ _ _).
  { eapply (packet_waits fuel b1 (version_packet a b c d e) wait_for_olt_version _ got_olt_version _ Hb eq_refl); [|done].
    unfold receive_olt_version, version_packet. cbn [pk_layer]. injection Hk as Ha Hd Hu Hlo Hx.
    erewrite M_bind_eq; [reflexivity|]. unfold update_device. erewrite M_bind_eq by reflexivity. rewrite Hd.
    erewrite M_bind_eq by reflexivity. unfold on_agent. cbn [o_aa set_device]. rewrite Ha.
    unfold AdapterAgent.update_device. erewrite M_bind_eq by reflexivity.
    change (ad_id _) with (ad_id device). rewrite He. reflexivity. }
  injection Hk as Ha Hd Hu Hlo Hx. destruct Hw as (Hs & Hl2 & Hc). split_and!; [exact Hs|..].
  - rewrite Hl2. cbn [target fst snd]. change (send_state (set_aa _ _)) with (send_state (b_olt b1)). by rewrite Hl.
  - rewrite Hc. unfold core. cbn. by rewrite Hu, Hlo, Hx.
Qed.


(** ** Packets that no request asks for

    A packet of the OLT that answers none of the requests the automaton waits for;
    the answers to the four queries about the transmitters are such packets. *)
Definition stray (e : event) : bool :=
  match e with
  | OltPacket (mk_packet (Some h) layer) =>
      negb (bool_decide (h_opcode h ∈ StartDbaAlgorithmResponse_opcode :: SETTINGS)) &&
      match layer with GetDbaModeResponse _ => false | _ => true end
  | _ => false
  end.
Definition tx_answer (value c : Z) : event :=
  OltPacket (mk_packet (Some (mk_header 10405 c (-1) (-1))) (GetGeneralParamResponse value)).
Lemma tx_answer_stray value c : stray (tx_answer value c) = true.
Proof. by vm_compute. Qed.







(** ** More than one OLT

    An automaton has a list of its own only after all channels answered once; then
    the list of the class has four marks, and keeps them. *)
Definition marks_left (o : olt) : Prop :=
  is_Some (o_send_state o) → all_true (o_class_send_state o) = true.
Definition keeps_marks (o o' : olt) : Prop := marks_left o → marks_left o'.
#[local] Instance keeps_marks_preorder : PreOrder keeps_marks.
Proof. split; [intros o Hn; exact Hn|]. intros o1 o2 o3 Hm1 Hm2 Hn. exact (Hm2 (Hm1 Hn)). Qed.

Lemma send_marks m c n i : rel_post keeps_marks (send m c n i).
Proof. intros o Hm. exact Hm. Qed.
Lemma agent_marks A (m : M aa_state A) : rel_post keeps_marks (on_agent m).
Proof. intros o Hm. unfold on_agent. by destruct (m (o_aa o)). Qed.
Lemma put_marks (f : olt → list bool) : rel_post keeps_marks (modify (λ o, put_send_state (f o) o)).
Proof.
  intros o Hm. unfold modify, put_send_state, marks_left in *. cbn. destruct (o_send_state o) eqn:E; [by intros _; apply Hm|].
  cbn. rewrite E. by intros [].
Qed.
Lemma all_channels_marks l : all_channels l CHANNELS = Ok true → all_true l = true.
Proof.
  destruct (decide (4 ≤ length l)%nat); [rewrite all_channels_run by done; by intros [= ->]|].
  destruct l as [|[] [|[] [|[] [|[] l]]]]; cbn in *; try lia; try done.
Qed.
Lemma check_marks : rel_post keeps_marks check_channel_state.
Proof.
  intros o Hm. unfold check_channel_state. rewrite (M_bind_eq get_state _ o o o) by reflexivity.
  unfold mbind, M_bind, lift. destruct (all_channels (send_state o) CHANNELS) as [[]|e] eqn:E; [|done..].
  apply all_channels_marks in E. intros _. cbn. unfold send_state in E. destruct (o_send_state o) eqn:Eo; [|done].
  apply Hm. by rewrite Eo.
Qed.
Lemma handle_marks fuel b e : keeps_marks (b_olt b) (b_olt (handle fuel b e)).
Proof.
  apply handle_rel; [apply _|exact send_marks|exact put_marks|exact agent_marks|exact check_marks|..]; intros x o Hn; exact Hn.
Qed.
Lemma run_marks fuel aa l uuids device evs : marks_left (b_olt (run fuel (adopt_device aa l uuids device) evs)).
Proof.
  unfold run. induction evs as [|e evs IH] using rev_ind.
  - cbn [foldl]. unfold adopt_device. rewrite enter_condition. by intros [].
  - rewrite foldl_app. by apply handle_marks.
Qed.

(** C37: Automata of different OLTs share the list of acknowledged channels, and the
    second OLT is not checked: when the channels of a first OLT have answered a
    request, an OLT that is adopted then is taken to have its optics set in all four
    channels after the answer of any one of them. *)
Theorem second_olt_unchecked fuel aa uuids device evs aa2 uuids2 device2 a b c d e ch :
  let first := b_olt (run fuel (adopt_device aa [] uuids device) evs) in
  is_Some (o_send_state first) → is_Some (od_get (ad_id device2) (aa_devices aa2)) → ch ∈ CHANNELS →
  b_state (run fuel (adopt_device aa2 (o_class_send_state first) uuids2 device2)
    [proto_answer; OltPacket (version_packet a b c d e); answer SetOltOpticsResponse_opcode ch])
  = Some wait_olt_io_optics.
Proof.
  intros first Hf Hd Hc. pose proof (run_marks fuel aa [] uuids device evs Hf) as Hm. fold first in Hm.
  set (l := o_class_send_state first) in *. pose proof (proj1 (all_true_spec l) Hm) as Hl.
  destruct (greeted fuel aa2 l uuids2 device2 a b c d e Hd) as (aa' & _ & Hb).
  change [proto_answer; OltPacket (version_packet a b c d e); answer SetOltOpticsResponse_opcode ch]
    with ([proto_answer; OltPacket (version_packet a b c d e)] ++ [answer SetOltOpticsResponse_opcode ch]).
  rewrite run_app. revert Hb. generalize (run fuel (adopt_device aa2 l uuids2 device2)
    [proto_answer; OltPacket (version_packet a b c d e)]). intros b0 Hb. pose proof Hb as (_ & Hlb & Hkb).
  epose proof (method_step fuel b0 wait_olt_optics _ _ ch (response SetOltOpticsResponse_opcode ch) _ Hb _ Hc eq_refl
    (b_olt b0) _ (λ b : bool, mret (Some (if b then got_olt_optics else wait_olt_optics))) got_olt_optics _ eq_refl Hlb Hkb
    _ _ _ _ _) as Hstep. cbv zeta in Hstep.
  rewrite (proj2 (all_true_spec _)) in Hstep; [apply Hstep|]. intros i Hi.
  assert ((l ++ replicate 4 false) !! i = Some true) as Hli by (by apply lookup_app_l_Some, Hl).
  destruct (decide (i = Z.to_nat ch)) as [->|Hne]; [|by rewrite list_lookup_insert_ne].
  apply list_lookup_insert_eq. by apply lookup_lt_Some in Hli.
Unshelve.
  all: try done.
  - rewrite length_app, length_replicate. lia.
  - exact (core (b_olt b0)).
  - intros o Ho. exists o. by rewrite Hkb.
Qed.

(** ** More than one ONU *)

Fixpoint create_ports (ns : list (onu * string)) : M olt unit :=
  match ns with
  | [] => mret tt
  | (n, vendor) :: ns => _ ← create_port n vendor; create_ports ns
  end.
Lemma create_port_run n vendor o ld e le zs :
  o_logical_device o = Some ld → od_get (ad_id (o_device o)) (aa_devices (o_aa o)) = Some e →
  od_get (l_id ld) (aa_logical (o_aa o)) = Some le →
  hw_addr (default "" (od_get "mac_address" (ad_info (o_device o)))) = Ok zs →
  ∃ o' p, create_port n vendor o = (Ok tt, o') ∧ o_logical_device o' = Some ld ∧ o_device o' = o_device o ∧
    od_get (ad_id (o_device o)) (aa_devices (o_aa o')) = Some (e.1, od_set (n_onu_id n) p e.2) ∧
    od_get (l_id ld) (aa_logical (o_aa o')) = Some (le.1, make_up_to_date "uni" (uni_port_of (n_onu_id n)) le.2).
Proof.
  intros Hld He Hle Hmac. unfold create_port, add_port.
  eexists _, _. split.
  - erewrite M_bind_eq by reflexivity. erewrite M_bind_eq.
    2:{ unfold on_agent. erewrite add_port_alone by done. reflexivity. }
    erewrite M_bind_eq by reflexivity. cbn [o_device Microsemi.set_aa]. rewrite Hmac. erewrite M_bind_eq by reflexivity.
    cbn [o_logical_device Microsemi.set_aa]. rewrite Hld. erewrite M_bind_eq by reflexivity.
    unfold on_agent. erewrite add_logical_port_eq by exact Hle. reflexivity.
  - cbn. rewrite !od_get_set. done.
Qed.

(** The ports of ONUs are added one after the other. *)
Lemma create_ports_run ns o ld e l ps zs :
  o_logical_device o = Some ld → od_get (ad_id (o_device o)) (aa_devices (o_aa o)) = Some e →
  od_get (l_id ld) (aa_logical (o_aa o)) = Some (l, ps) →
  hw_addr (default "" (od_get "mac_address" (ad_info (o_device o)))) = Ok zs →
  ∃ o' e', create_ports ns o = (Ok tt, o') ∧
    od_get (l_id ld) (aa_logical (o_aa o')) =
      Some (l, foldl (λ ps m, make_up_to_date "uni" (uni_port_of (n_onu_id m.1)) ps) ps ns) ∧
    od_get (ad_id (o_device o)) (aa_devices (o_aa o')) = Some e' ∧
    ∀ i, is_Some (od_get i e.2) ∨ i ∈ ((λ m : onu * string, n_onu_id m.1) <$> ns) → is_Some (od_get i e'.2).
Proof.
  revert o e ps. induction ns as [|[n vendor] ns IH]; intros o e ps Hld He Hle Hmac.
  - exists o, e. split_and!; [done..|]. intros i [?|?%not_elem_of_nil]; done.
  - destruct (create_port_run n vendor o ld e _ zs Hld He Hle Hmac) as (o1 & p & Hrun & Hld1 & Hd1 & He1 & Hle1).
    rewrite <- Hd1 in He1, Hmac. destruct (IH o1 _ _ Hld1 He1 Hle1 Hmac) as (o' & e' & Hrun' & Hle' & He' & Hp).
    exists o', e'. cbn [create_ports]. rewrite (M_bind_eq _ _ _ _ _ Hrun). rewrite Hd1 in He'. split_and!; [done..|].
    intros i Hi. apply Hp. cbn [fst snd]. destruct (decide (i = n_onu_id n)) as [->|Hne]; [left; by rewrite od_get_set|].
    destruct Hi as [Hi|Hi]; [left; by rewrite od_get_set_ne|]. right. cbn in Hi. set_solver.
Qed.
Lemma uni_ports_one ns (ps : list (string * LogicalPort)) : ps = [] ∨ (∃ p, ps = [("uni", p)]) →
  ∀ n, foldl (λ ps m, make_up_to_date "uni" (uni_port_of (n_onu_id m.1)) ps) ps (ns ++ [n]) =
    [("uni", uni_port_of (n_onu_id (n : onu * string).1))].
Proof.
  intros Hps n. rewrite foldl_app. cbn [foldl].
  assert (∀ ps, ps = [] ∨ (∃ p, ps = [("uni", p)]) → ∀ p : LogicalPort, make_up_to_date "uni" p ps = [("uni", p)]) as Hone.
  { intros ps' [->|[q ->]] p; done. }
  apply Hone. revert ps Hps. induction ns as [|m ns IH]; intros ps Hps; [done|]. apply IH. right. rewrite Hone by done. eauto.
Qed.

(** ONUs share one logical port. However many ONUs are activated, the logical device
    has one port for all of them, that of the last: their logical ports all have the
    id 'uni', and each replaces the one before, while the device has the port of
    every ONU. *)
Theorem onus_share_logical_port ns n vendor o ld e l zs :
  o_logical_device o = Some ld → od_get (ad_id (o_device o)) (aa_devices (o_aa o)) = Some e →
  od_get (l_id ld) (aa_logical (o_aa o)) = Some (l, []) →
  hw_addr (default "" (od_get "mac_address" (ad_info (o_device o)))) = Ok zs →
  ∃ o' e', create_ports (ns ++ [(n, vendor)]) o = (Ok tt, o') ∧
    od_get (l_id ld) (aa_logical (o_aa o')) = Some (l, [("uni", uni_port_of (n_onu_id n))]) ∧
    od_get (ad_id (o_device o)) (aa_devices (o_aa o')) = Some e' ∧
    ∀ m, m ∈ (n, vendor) :: ns → is_Some (od_get (n_onu_id m.1) e'.2).
Proof.
  intros Hld He Hle Hmac. destruct (create_ports_run (ns ++ [(n, vendor)]) o ld e l [] zs Hld He Hle Hmac)
    as (o' & e' & Hrun & Hle' & He' & Hp).
  rewrite (uni_ports_one ns [] ltac:(by left) (n, vendor)) in Hle'. exists o', e'. split_and!; [done..|].
  intros m Hm. apply Hp. right. apply list_elem_of_fmap. exists m. split; [done|].
  apply elem_of_app. rewrite list_elem_of_singleton. apply elem_of_cons in Hm. tauto.
Qed.
End live.

(** ** Witnesses *)

Definition demo_ids : Uuid := {| uuid4_hex12 := λ _, "0a1b2c3d4e5f" |}.
Definition ruby_olt : adevice :=
  mk_adevice "olt" "microsemi_olt" true "" 0 0 DeviceAgent.ENABLED DeviceAgent.OPER_UNKNOWN CONNECT_UNKNOWN ""
    (mk_proxy_address "" 0) [("mac_address", "00:0c:d5:00:01:02")].
Definition ruby_agent : aa_state := mk_aa [] [] [("olt", (ruby_olt, []))] [] [] [] [].
Definition ruby_order (i : nat) : list Z := if Nat.even i then [2; 0; 3; 1] else [3; 2; 1; 0].
Definition ruby_mode (c : Z) : Z := if bool_decide (c = 1) then PON_DBA_MODE_LOADED_NOT_RUNNING else PON_DBA_MODE_RUNNING.
(** Two channels say that their transmitters are off. *)
Definition ruby_answers : list event :=
  let l := answers ruby_order ruby_mode in
  take 9 l ++ [tx_answer 1 0; tx_answer 0 1] ++ take 8 (drop 9 l) ++ [tx_answer 1 2; tx_answer 0 3] ++ drop 17 l.
Definition ruby_events : list event :=
  [proto_answer; OltPacket (version_packet 18 1 2 3 4)] ++ ruby_answers.
#[local] Existing Instances demo_ids scapy_automata.
Definition ruby_up : ruby := run 0 (adopt_device ruby_agent [] 0 ruby_olt) ruby_events.

Example ruby_up_initialized : b_state ruby_up = Some initialized.
Proof. vm_compute. reflexivity. Qed.

Lemma transmitters_never_checked_witness : b_state ruby_up ≠ Some wait_query_response.
Proof. apply (transmitters_never_checked 0 ruby_agent 0 ruby_olt ruby_events). Defined.
Lemma second_olt_unchecked_witness :
  b_state (run 0 (adopt_device ruby_agent (o_class_send_state (b_olt ruby_up)) 1 ruby_olt)
    [proto_answer; OltPacket (version_packet 18 1 2 3 4); answer SetOltOpticsResponse_opcode 2])
  = Some wait_olt_io_optics.
Proof.
  apply (second_olt_unchecked 0 ruby_agent 0 ruby_olt ruby_events ruby_agent 1 ruby_olt 18 1 2 3 4 2).
  - vm_compute. by eexists.
  - by eexists.
  - by apply (bool_decide_unpack (_ ∈ _)).
Defined.
(** Two ONUs of the OLT that is up *)
Lemma onus_share_logical_port_witness :
  ∃ o', create_ports [(mk_onu 1 "a" 1 0, "ABCD"); (mk_onu 2 "b" 2 1, "ABCD")] (b_olt ruby_up) = (Ok tt, o') ∧
    od_get "0a1b2c3d4e5f" (aa_logical (o_aa o')) =
      Some (mk_LogicalDev "0a1b2c3d4e5f" 169552957 "olt", [("uni", uni_port_of 2)]).
Proof.
  destruct (onus_share_logical_port [(mk_onu 1 "a" 1 0, "ABCD")] (mk_onu 2 "b" 2 1) "ABCD" (b_olt ruby_up)
    (mk_LogicalDev "0a1b2c3d4e5f" 169552957 "olt") (ruby_device 18 1 2 3 4 ruby_olt, [])
    (mk_LogicalDev "0a1b2c3d4e5f" 169552957 "olt") [0; 12; 213; 0; 1; 2]) as (o' & e' & Hr & Hl & _).
  - vm_compute. reflexivity.
  - vm_compute. reflexivity.
  - vm_compute. reflexivity.
  - vm_compute. reflexivity.
  - exists o'. split; [exact Hr|exact Hl].
Defined.
