(* ===== verification/Igmp.v ===== *)
(** * IGMP packets (voltha/extensions/IGMP.py)

    The code that IGMPv3 adds to scapy's packets: the coding of times in a byte, what
    is done to the bytes of a packet that was built, and to the IP header around
    it.  Theorems: the code of a time is the greatest that does not stand for more,
    with an error of less than a sixteenth; building a packet that was received
    changes the time it carries. *)

From stdpp Require Import prelude strings list.
From S2P Require Import Prelude.

Module Igmp.
Local Open Scope Z_scope.

Definition MEMBERSHIP_QUERY : Z := 0x11.
Definition V3_MEMBERSHIP_REPORT : Z := 0x22.
Definition V1_MEMBERSHIP_REPORT : Z := 0x12.
Definition V2_MEMBERSHIP_REPORT : Z := 0x16.
Definition V2_LEAVE_GROUP : Z := 0x17.

(** ** Times *)

(** The loop of [encode_float]; the value is at most 31743 >> 3. *)
Fixpoint normalize (fuel : nat) (exp value : Z) : Z * Z :=
  match fuel with
  | O => (exp, value)
  | S fuel => if bool_decide (31 < value) then normalize fuel (exp + 1) (Z.shiftr value 1) else (exp, value)
  end.
Definition encode_float (value : Z) : Z :=
  if bool_decide (value < 128) then value
  else if bool_decide (31743 < value) then 255
  else
    let '(exp, value) := normalize 7 0 (Z.shiftr value 3) in
    Z.lor (Z.lor 0x80 (Z.shiftl exp 4)) (Z.land value 0xf).
Definition decode_float (code : Z) : Z :=
  if bool_decide (code < 128) then code
  else
    let mant := Z.land code 0xf in
    let exp := Z.land (Z.shiftr code 4) 0x7 in
    Z.shiftl (Z.lor mant 0x10) (exp + 3).

(** ** Building a packet

    The checksum is scapy's. The fields are what [post_build] reads of the packet;
    its bytes have been built, with [max_resp_code] in a byte. *)
Record igmp : Type := mk_igmp { type : Z; max_resp_code : Z; checksum : option Z; gaddr : string }.

Section build.
Context (scapy_checksum : list Z → Z).

Definition chr (z : Z) : result Z := if bool_decide (0 ≤ z < 256) then Ok z else Raise ValueError.
(** [pkt[:i] + b + pkt[i + len(b):]] *)
Definition splice (i : nat) (b pkt : list Z) : list Z := take i pkt ++ b ++ drop (i + length b) pkt.
Definition post_build (p : igmp) (pkt payload : list Z) : result (list Z) :=
  let pkt := pkt ++ payload in
  let mrc := if bool_decide (type p = V3_MEMBERSHIP_REPORT) then 0 else encode_float (max_resp_code p) in
  c ← chr mrc;
  let pkt := splice 1 [c] pkt in
  match checksum p with
  | None =>
      let chksum := scapy_checksum pkt in
      hi ← chr (Z.shiftr chksum 8);
      lo ← chr (Z.land chksum 0xff);
      Ok (splice 2 [hi; lo] pkt)
  | Some _ => Ok pkt
  end.
End build.

(** ** The IP header *)

Record ip_header : Type := mk_ip { ip_dst : string; ip_ttl : Z; ip_proto : Z; ip_tos : Z; ip_router_alert : bool }.

Section fixup.
Context (atol : string → Z).  (** scapy's *)

Definition is_valid_mcaddr (ip : string) : bool :=
  let byte1 := Z.land (Z.shiftr (atol ip) 24) 0xff in
  bool_decide (Z.land byte1 0xf0 = 0xe0).
(** The state is the IP layer, if the packet has one; [p] is the IGMP layer. *)
Definition set_dst (dst : string) (ip : ip_header) : ip_header :=
  mk_ip dst (ip_ttl ip) (ip_proto ip) (ip_tos ip) (ip_router_alert ip).
Definition fixup (p : option igmp) : M (option ip_header) unit :=
  igmp ← lift (of_option AssertionError p);
  ip ← get_state;
  match ip with
  | None => mret tt
  | Some ip =>
      _ ← modify (fmap (λ ip, mk_ip (ip_dst ip) 1 2 0xc0 true));
      if bool_decide (type igmp = MEMBERSHIP_QUERY) then
        if bool_decide (gaddr igmp = "0.0.0.0") then modify (fmap (set_dst "224.0.0.1"))
        else
          _ ← lift (assert_ (is_valid_mcaddr (gaddr igmp)));
          modify (fmap (set_dst (gaddr igmp)))
      else if bool_decide (type igmp = V2_LEAVE_GROUP) && is_valid_mcaddr (gaddr igmp) then
        modify (fmap (set_dst "224.0.0.2"))
      else if (bool_decide (type igmp = V1_MEMBERSHIP_REPORT) || bool_decide (type igmp = V2_MEMBERSHIP_REPORT)) &&
              is_valid_mcaddr (gaddr igmp) then
        modify (fmap (set_dst (gaddr igmp)))
      else mret tt
  end.
End fixup.

(** ** Times: the code of a time *)

(** The loop divides until the value has five bits. *)
Lemma normalize_spec fuel exp v : 16 ≤ v < 2 ^ (Z.of_nat fuel + 5) → 0 ≤ exp →
  ∃ k w, 0 ≤ k ≤ Z.of_nat fuel ∧ normalize fuel exp v = (exp + k, w) ∧ 16 ≤ w ≤ 31 ∧ w * 2 ^ k ≤ v < (w + 1) * 2 ^ k.
Proof.
  revert exp v. induction fuel as [|fuel IH]; intros exp v Hv He; cbn [normalize].
  { exists 0, v. rewrite Z.add_0_r. change (2 ^ (Z.of_nat 0 + 5)) with 32 in Hv. split_and!; [lia|lia|done|lia|lia|lia|lia]. }
  case_bool_decide as H31; [|exists 0, v; rewrite Z.add_0_r; split_and!; [lia|lia|done|lia..]].
  rewrite Z.shiftr_div_pow2, Z.pow_1_r by lia.
  replace (Z.of_nat (S fuel) + 5) with (Z.succ (Z.of_nat fuel + 5)) in Hv by lia. rewrite Z.pow_succ_r in Hv by lia.
  destruct (IH (exp + 1) (v / 2)) as (k & w & Hk & Hn & Hw & Hlo & Hhi); [split; [|apply Z.div_lt_upper_bound; lia]|lia|].
  { apply Z.div_le_lower_bound; lia. }
  exists (k + 1), w. rewrite Z.pow_add_r, Z.pow_1_r by lia. rewrite Hn.
  pose proof (Z.div_mod v 2 ltac:(lia)). pose proof (Z.mod_pos_bound v 2 ltac:(lia)).
  split_and!; [lia|lia|f_equal; lia|lia|lia|lia|lia].
Qed.

(** A code from 128 on is an exponent of three bits and a mantissa of four. *)
Lemma code_parts e m : 0 ≤ e ≤ 7 → 0 ≤ m ≤ 15 →
  Z.lor (Z.lor 0x80 (Z.shiftl e 4)) (Z.land (16 + m) 0xf) = 128 + 16 * e + m ∧
  decode_float (128 + 16 * e + m) = (16 + m) * 2 ^ (e + 3).
Proof.
  intros He Hm.
  assert (e ∈ seqZ 0 8) as Hes by (apply elem_of_seqZ; lia). assert (m ∈ seqZ 0 16) as Hms by (apply elem_of_seqZ; lia).
  revert m Hms Hm. revert e Hes He.
  assert (Forall (λ e, Forall (λ m, Z.lor (Z.lor 0x80 (Z.shiftl e 4)) (Z.land (16 + m) 0xf) = 128 + 16 * e + m ∧
    decode_float (128 + 16 * e + m) = (16 + m) * 2 ^ (e + 3)) (seqZ 0 16)) (seqZ 0 8)) as Hall
    by (apply (bool_decide_unpack (Forall _ _)); vm_compute; exact I).
  intros e Hes _ m Hms _. rewrite Forall_forall in Hall. specialize (Hall e Hes). rewrite Forall_forall in Hall. auto.
Qed.
Lemma decode_parts c : 128 ≤ c ≤ 255 → ∃ e m, 0 ≤ e ≤ 7 ∧ 0 ≤ m ≤ 15 ∧ c = 128 + 16 * e + m ∧
  decode_float c = (16 + m) * 2 ^ (e + 3).
Proof.
  intros Hc. exists ((c - 128) / 16), ((c - 128) mod 16).
  pose proof (Z.div_mod (c - 128) 16 ltac:(lia)). pose proof (Z.mod_pos_bound (c - 128) 16 ltac:(lia)).
  assert (0 ≤ (c - 128) / 16 ≤ 7) by lia.
  split_and!; [lia|lia|lia|lia|lia|]. rewrite <- (proj2 (code_parts ((c - 128) / 16) ((c - 128) mod 16) ltac:(lia) ltac:(lia))).
  f_equal. lia.
Qed.

Lemma encode_parts v : 128 ≤ v ≤ 31743 → ∃ e m, 0 ≤ e ≤ 7 ∧ 0 ≤ m ≤ 15 ∧ encode_float v = 128 + 16 * e + m ∧
  (16 + m) * 2 ^ (e + 3) ≤ v < (17 + m) * 2 ^ (e + 3).
Proof.
  intros Hv. unfold encode_float. rewrite !bool_decide_eq_false_2 by lia.
  rewrite Z.shiftr_div_pow2 by lia. change (2 ^ 3) with 8.
  pose proof (Z.div_mod v 8 ltac:(lia)). pose proof (Z.mod_pos_bound v 8 ltac:(lia)).
  destruct (normalize_spec 7 0 (v / 8)) as (k & w & Hk & -> & Hw & Hlo & Hhi); [change (2 ^ _) with 4096; lia|lia|].
  exists k, (w - 16). rewrite Z.add_0_l. assert (Z.lor (Z.lor 128 (Z.shiftl k 4)) (Z.land w 15) = 128 + 16 * k + (w - 16)) as ->.
  { rewrite <- (proj1 (code_parts k (w - 16) ltac:(lia) ltac:(lia))). by replace (16 + (w - 16)) with w by lia. }
  rewrite Z.pow_add_r by lia. change (2 ^ 3) with 8. split_and!; try lia.
Qed.

Lemma encode_range v : 0 ≤ v → 0 ≤ encode_float v ≤ 255.
Proof.
  intros Hv. destruct (decide (128 ≤ v ≤ 31743)) as [Hm|].
  - destruct (encode_parts v Hm) as (e & m & He & Hm' & -> & _). lia.
  - unfold encode_float. repeat case_bool_decide; lia.
Qed.
Lemma pow_step e e' : 0 ≤ e < e' → 2 * 2 ^ (e + 3) ≤ 2 ^ (e' + 3).
Proof.
  intros He. replace (2 * 2 ^ (e + 3)) with (2 ^ (e + 4)); [apply Z.pow_le_mono_r; lia|].
  by rewrite <- Z.pow_succ_r by lia; f_equal; lia.
Qed.
(** Codes are in the order of the times they stand for. *)
Lemma parts_le e m e' m' v : 0 ≤ e ≤ 7 → 0 ≤ m ≤ 15 → 0 ≤ e' ≤ 7 → 0 ≤ m' ≤ 15 →
  (16 + m) * 2 ^ (e + 3) ≤ v < (17 + m) * 2 ^ (e + 3) →
  16 * e' + m' ≤ 16 * e + m ↔ (16 + m') * 2 ^ (e' + 3) ≤ v.
Proof.
  intros He Hm He' Hm' Hv. pose proof (Z.pow_pos_nonneg 2 (e + 3) ltac:(lia) ltac:(lia)).
  pose proof (Z.pow_pos_nonneg 2 (e' + 3) ltac:(lia) ltac:(lia)).
  destruct (Z.lt_trichotomy e e') as [Hlt|[->|Hlt]].
  - pose proof (pow_step e e' ltac:(lia)). split; [lia|]. intros Hle. exfalso. nia.
  - split; intros; nia.
  - pose proof (pow_step e' e ltac:(lia)). split; [intros _; nia|lia].
Qed.

(** C39: The code of a time (RFC 3376) is exact: of all codes of a byte it is the
    greatest whose time is not longer than the given one. So coding is monotone,
    coding the time of a code gives the code back, and a receiver never waits longer
    than the sender said; up to 32767, where codes end, it waits less than a
    sixteenth shorter, which is the error that the module's own test allows. *)
Theorem time_code_exact v : 0 ≤ v →
  0 ≤ encode_float v ≤ 255 ∧
  (∀ c, 0 ≤ c ≤ 255 → c ≤ encode_float v ↔ decode_float c ≤ v) ∧
  (v < 32768 → 16 * (v - decode_float (encode_float v)) ≤ v).
Proof.
  intros Hv. destruct (decide (v < 128)) as [Hlt|Hge].
  { unfold encode_float. rewrite bool_decide_eq_true_2 by done. split; [lia|]. split.
    - intros c Hc. destruct (decide (c < 128)); [by unfold decode_float; rewrite bool_decide_eq_true_2|].
      destruct (decode_parts c ltac:(lia)) as (e & m & He & Hm & _ & ->).
      pose proof (Z.pow_le_mono_r 2 3 (e + 3) ltac:(lia) ltac:(lia)). change (2 ^ 3) with 8 in *. split; [lia|nia].
    - unfold decode_float. rewrite bool_decide_eq_true_2 by done. lia. }
  destruct (decide (31743 < v)) as [Hbig|Hsmall].
  { unfold encode_float. rewrite bool_decide_eq_false_2, bool_decide_eq_true_2 by done. change (decode_float 255) with 31744.
    split_and!; [lia|lia| |lia]. intros c Hc. split; [intros _|lia].
    destruct (decide (c < 128)); [unfold decode_float; rewrite bool_decide_eq_true_2 by done; lia|].
    destruct (decode_parts c ltac:(lia)) as (e & m & He & Hm & _ & ->).
    pose proof (Z.pow_le_mono_r 2 (e + 3) 10 ltac:(lia) ltac:(lia)). change (2 ^ 10) with 1024 in *. nia. }
  destruct (encode_parts v ltac:(lia)) as (e & m & He & Hm & Henc & Hb). rewrite Henc. split_and!; [lia|lia| |].
  - intros c Hc. destruct (decide (c < 128)).
    + unfold decode_float. rewrite bool_decide_eq_true_2 by done. lia.
    + destruct (decode_parts c ltac:(lia)) as (e' & m' & He' & Hm' & -> & ->). rewrite <- (parts_le e m) by done. lia.
  - intros _. rewrite (proj2 (code_parts e m He Hm)). nia.
Qed.
Lemma time_code_exact_witness : 64 * 5 ≤ 333 ∧ (149 ≤ encode_float 333 ↔ decode_float 149 ≤ 333).
Proof. split; [lia|]. apply (time_code_exact 333); lia. Defined.

(** ** Building packets *)

Section built.
Context (scapy_checksum : list Z → Z) (Hsum : ∀ l, 0 ≤ scapy_checksum l < 65536).

(** A packet is built: its length stays, the second byte is the code of its time, and
    the next two are the checksum of the packet with zeros there. *)
Theorem post_build_bytes p a b c d rest payload :
  type p ≠ V3_MEMBERSHIP_REPORT → 0 ≤ max_resp_code p → checksum p = None →
  ∃ hi lo, post_build scapy_checksum p (a :: b :: c :: d :: rest) payload =
      Ok (a :: encode_float (max_resp_code p) :: hi :: lo :: rest ++ payload) ∧
    hi * 256 + lo = scapy_checksum (a :: encode_float (max_resp_code p) :: c :: d :: rest ++ payload).
Proof.
  intros Ht Hm Hc. pose proof (encode_range _ Hm). unfold post_build, chr. rewrite (bool_decide_eq_false_2 (type p = _)) by done.
  rewrite bool_decide_eq_true_2 by lia. cbn [mbind result_bind app]. rewrite Hc.
  change (splice 1 [encode_float (max_resp_code p)] (a :: b :: c :: d :: rest ++ payload))
    with (a :: encode_float (max_resp_code p) :: c :: d :: rest ++ payload).
  set (l := a :: encode_float (max_resp_code p) :: c :: d :: rest ++ payload). pose proof (Hsum l).
  change 255 with (Z.ones 8). rewrite Z.land_ones, Z.shiftr_div_pow2 by lia. change (2 ^ 8) with 256.
  pose proof (Z.div_mod (scapy_checksum l) 256 ltac:(lia)). pose proof (Z.mod_pos_bound (scapy_checksum l) 256 ltac:(lia)).
  exists (scapy_checksum l / 256), (scapy_checksum l mod 256).
  rewrite !bool_decide_eq_true_2 by lia. split; [done|lia].
Qed.
End built.

(** Building a packet that was received changes its time, for all codes after 128: the
    attribute is the code that was received, and is coded again. *)
Theorem rebuilt_time_changes scapy_checksum p pkt : type p = MEMBERSHIP_QUERY → 128 < max_resp_code p ≤ 255 →
  checksum p = Some 0 → pkt !! 1%nat = Some (max_resp_code p) →
  ∃ pkt' c, post_build scapy_checksum p pkt [] = Ok pkt' ∧ pkt' !! 1%nat = Some c ∧ c < max_resp_code p.
Proof.
  intros Ht Hm Hc Hp. pose proof (encode_range (max_resp_code p) ltac:(lia)) as Hr.
  unfold post_build, chr. rewrite Ht, Hc, app_nil_r. cbn [bool_decide]. rewrite (bool_decide_eq_false_2 (MEMBERSHIP_QUERY = _)) by done.
  rewrite bool_decide_eq_true_2 by lia. cbn [mbind result_bind]. eexists _, (encode_float (max_resp_code p)). split_and!; [reflexivity| |].
  - destruct pkt as [|x [|y pkt]]; [done..|]. reflexivity.
  - destruct (encode_parts (max_resp_code p) ltac:(lia)) as (e & m & He & Hm' & -> & Hlo & Hhi).
    pose proof (Z.pow_pos_nonneg 2 (e + 3) ltac:(lia) ltac:(lia)).
    assert (e = 0 ∨ 1 ≤ e) as [->|He1] by lia; [change (2 ^ (0 + 3)) with 8 in *; lia|].
    assert (2 ^ (1 + 3) ≤ 2 ^ (e + 3)) by (apply Z.pow_le_mono_r; lia). change (2 ^ (1 + 3)) with 16 in *. nia.
Qed.

(** Queries go to multicast addresses with a time to live of 1, or are not sent: the
    fixup of the IP header raises for a group that is not multicast. *)
Theorem query_to_multicast atol p ip : atol "224.0.0.1" = 0xE0000001 → type p = MEMBERSHIP_QUERY →
  match fixup atol (Some p) (Some ip) with
  | (Ok _, Some ip') => is_valid_mcaddr atol (ip_dst ip') = true ∧ ip_ttl ip' = 1 ∧ ip_proto ip' = 2
  | (Raise e, _) => e = AssertionError ∧ is_valid_mcaddr atol (gaddr p) = false
  | _ => False
  end.
Proof.
  intros Ha Ht. unfold fixup. erewrite !M_bind_eq by reflexivity. rewrite bool_decide_eq_true_2 by done.
  case_bool_decide.
  - split; [|done]. cbn. unfold is_valid_mcaddr. by rewrite Ha.
  - unfold mbind, M_bind, lift, assert_. by destruct (is_valid_mcaddr atol (gaddr p)) eqn:E.
Qed.
End Igmp.
