(* ===== verification/MessageQueue.v ===== *)
(** * The message queue (common/utils/message_queue.py)

    A queue with selective dequeuing: [get] takes a predicate and returns a
    Deferred, [put] serves the first waiter whose predicate accepts the message.
    Deferreds are numbered; what fired them is logged in order. *)

From stdpp Require Import prelude list.
From S2P Require Import Prelude.

Module MessageQueue.
Section message_queue.
Context {Msg : Type}.

(** What a Deferred fires with: a message, the error of [reset], or the
    CancelledError that [Deferred.cancel] gives when the canceller did not fire it. *)
Inductive firing : Type := Callback (m : Msg) | ResetError | Cancelled.

Record mq : Type := mk_mq {
  mq_waiting : list (nat * option (Msg → bool));
  mq_queue : list Msg;
  mq_fired : list (nat * firing);
  mq_next : nat;
}.
Definition init : mq := mk_mq [] [] [] 0.

Definition wants (predicate : option (Msg → bool)) (m : Msg) : bool :=
  match predicate with None => true | Some p => p m end.

Definition reset : M mq unit :=
  modify (λ q, mk_mq [] [] (mq_fired q ++ ((λ w, (w.1, ResetError)) <$> mq_waiting q)) (mq_next q)).

Definition put (obj : Msg) : M mq unit := λ q,
  match find_index (λ w : nat * option (Msg → bool), wants w.2 obj) (mq_waiting q) with
  | Some (i, (d, _)) =>
      (Ok tt, mk_mq (delete i (mq_waiting q)) (mq_queue q) (mq_fired q ++ [(d, Callback obj)]) (mq_next q))
  | None => (Ok tt, mk_mq (mq_waiting q) (mq_queue q ++ [obj]) (mq_fired q) (mq_next q))
  end.

Definition get (predicate : option (Msg → bool)) : M mq nat := λ q,
  match find_index (wants predicate) (mq_queue q) with
  | Some (i, m) =>
      (Ok (mq_next q), mk_mq (mq_waiting q) (delete i (mq_queue q))
                         (mq_fired q ++ [(mq_next q, Callback m)]) (S (mq_next q)))
  | None =>
      (Ok (mq_next q), mk_mq (mq_waiting q ++ [(mq_next q, predicate)]) (mq_queue q)
                         (mq_fired q) (S (mq_next q)))
  end.

(** The loop of [_cancelGet] over [range(len(self.waiting))]; it goes on after
    the [pop], with the indices of the longer list. *)
Fixpoint cancel_loop (d : nat) (i : nat) (rounds : nat) : M mq unit :=
  match rounds with
  | 0 => mret tt
  | S rounds =>
      q ← get_state;
      w ← lift (of_option IndexError (mq_waiting q !! i));
      _ ← (if bool_decide (w.1 = d)
           then modify (λ q, mk_mq (delete i (mq_waiting q)) (mq_queue q) (mq_fired q) (mq_next q))
           else mret tt);
      cancel_loop d (S i) rounds
  end.
Definition cancelGet (d : nat) : M mq unit := λ q, cancel_loop d 0 (length (mq_waiting q)) q.
(** [d.cancel()] of a Deferred that has not fired *)
Definition cancel (d : nat) : M mq unit :=
  _ ← cancelGet d;
  modify (λ q, mk_mq (mq_waiting q) (mq_queue q) (mq_fired q ++ [(d, Cancelled)]) (mq_next q)).

(** ** The invariant *)

(** No message is queued that a waiter wants; waiters are numbered in the order
    they came and have not fired; nothing fired twice. *)
Record ok (q : mq) : Prop := {
  ok_idle : ∀ m w, m ∈ mq_queue q → w ∈ mq_waiting q → wants w.2 m = false;
  ok_ids : NoDup ((mq_waiting q).*1 ++ (mq_fired q).*1);
  ok_next : ∀ d, d ∈ (mq_waiting q).*1 ++ (mq_fired q).*1 → d < mq_next q;
}.

Inductive op : Type := Put (m : Msg) | Get (p : option (Msg → bool)) | Reset.
Definition run_op (o : op) : M mq unit :=
  match o with
  | Put m => put m
  | Get p => _ ← get p; mret tt
  | Reset => reset
  end.
Fixpoint run_ops (l : list op) : M mq unit :=
  match l with [] => mret tt | o :: l => _ ← run_op o; run_ops l end.

Definition delivered (q : mq) : list Msg :=
  omap (λ e : nat * firing, match e.2 with Callback m => Some m | _ => None end) (mq_fired q).

Lemma ok_init : ok init.
Proof. split; cbn; [|constructor|]; intros *; by intros ?%not_elem_of_nil. Qed.

Lemma serve_perm {A} (l1 l2 : list A) (w : A) (f : list A) :
  (l1 ++ w :: l2) ++ f ≡ₚ (l1 ++ l2) ++ f ++ [w].
Proof.
  rewrite <- Permutation_middle, (assoc_L (++) (l1 ++ l2)). apply Permutation_cons_append.
Qed.

Lemma put_ok m q : ok q → ∃ q', put m q = (Ok tt, q') ∧ ok q'.
Proof.
  intros [Hidle Hids Hnext]. unfold put. destruct (find_index _ _) as [[i [d p]]|] eqn:Hf.
  - apply find_index_split in Hf as (l1 & l2 & Hw & Hp & Hdel & _). eexists. split; [done|].
    assert ((mq_waiting q).*1 ++ (mq_fired q).*1 ≡ₚ
            (delete i (mq_waiting q)).*1 ++ (mq_fired q ++ [(d, Callback m)]).*1) as Hperm.
    { rewrite Hdel, Hw, !fmap_app. apply serve_perm. }
    split; cbn [mq_waiting mq_queue mq_fired mq_next].
    + intros m' w Hm Hin. apply Hidle; [done|]. rewrite Hdel in Hin. rewrite Hw.
      apply elem_of_app in Hin as [?|?]; apply elem_of_app; [by left|right; by right].
    + by rewrite <- Hperm.
    + intros d'. rewrite <- Hperm. apply Hnext.
  - eexists. split; [done|]. split; [|done|done]. cbn [mq_waiting mq_queue].
    intros m' w [Hm| ->%list_elem_of_singleton]%elem_of_app Hw; [by apply Hidle|].
    by apply (proj1 (find_index_None _ _) Hf).
Qed.

Lemma get_ok p q : ok q → ∃ q', get p q = (Ok (mq_next q), q') ∧ ok q'.
Proof.
  intros [Hidle Hids Hnext].
  assert (mq_next q ∉ (mq_waiting q).*1 ++ (mq_fired q).*1) as Hfresh by (intros ?%Hnext; lia).
  unfold get. destruct (find_index _ _) as [[i m]|] eqn:Hf.
  - apply find_index_split in Hf as (l1 & l2 & Hq & Hp & Hdel & _). eexists. split; [done|].
    split; cbn [mq_waiting mq_queue mq_fired mq_next]; rewrite ?fmap_app, ?(assoc_L (++)).
    + intros m' w Hm. apply Hidle. rewrite Hdel in Hm. rewrite Hq.
      apply elem_of_app in Hm as [?|?]; apply elem_of_app; [by left|right; by right].
    + cbn [fmap list_fmap fst]. rewrite <- Permutation_cons_append. by constructor.
    + intros d [Hd%Hnext| ->%list_elem_of_singleton]%elem_of_app; cbn; lia.
  - eexists. split; [done|].
    assert ((mq_waiting q ++ [(mq_next q, p)]).*1 ++ (mq_fired q).*1 ≡ₚ
            mq_next q :: (mq_waiting q).*1 ++ (mq_fired q).*1) as Hperm.
    { rewrite fmap_app. cbn. by rewrite <- Permutation_cons_append. }
    split; cbn [mq_waiting mq_queue mq_fired mq_next].
    + intros m w Hm [Hw| ->%list_elem_of_singleton]%elem_of_app; [by apply Hidle|].
      by apply (proj1 (find_index_None _ _) Hf).
    + rewrite Hperm. by constructor.
    + intros d. rewrite Hperm. intros [-> |Hd%Hnext]%elem_of_cons; lia.
Qed.

Lemma reset_ok q : ok q → ok (reset q).2.
Proof.
  intros [Hidle Hids Hnext].
  assert ((mq_fired q ++ ((λ w, (w.1, ResetError)) <$> mq_waiting q)).*1 ≡ₚ
          (mq_waiting q).*1 ++ (mq_fired q).*1) as Hperm.
  { rewrite fmap_app, <- list_fmap_compose. cbn. rewrite Permutation_app_comm. done. }
  split; cbn; [intros ? ?; by intros ?%not_elem_of_nil|by rewrite Hperm|].
  intros d. rewrite Hperm. apply Hnext.
Qed.

Lemma run_op_ok o q : ok q → ∃ q', run_op o q = (Ok tt, q') ∧ ok q'.
Proof.
  intros Hok. destruct o as [m|p|]; cbn [run_op]; [by apply put_ok| |by eexists; split; [|apply reset_ok]].
  destruct (get_ok p q Hok) as (q' & Hq & Hok'). exists q'. by erewrite M_bind_eq.
Qed.
Lemma run_ops_ok l q : ok q → ∃ q', run_ops l q = (Ok tt, q') ∧ ok q'.
Proof.
  revert q. induction l as [|o l IH]; intros q Hok; [by exists q|].
  destruct (run_op_ok o q Hok) as (q1 & Hq1 & Hok1). destruct (IH q1 Hok1) as (q' & Hq' & Hok').
  exists q'. split; [|done]. cbn [run_ops]. by erewrite M_bind_eq.
Qed.

(** Whatever puts, gets and resets are made on a new queue, no message is
    kept that a pending getter would accept, and no Deferred fires twice. *)
Theorem queue_never_starves l :
  ∃ q, run_ops l init = (Ok tt, q) ∧
    (∀ m w, m ∈ mq_queue q → w ∈ mq_waiting q → wants w.2 m = false) ∧
    NoDup ((mq_waiting q).*1 ++ (mq_fired q).*1).
Proof.
  destruct (run_ops_ok l init ok_init) as (q & Hq & [H1 H2 _]). by exists q.
Qed.

(** ** No message is lost or made up *)

Definition puts (l : list op) : list Msg :=
  omap (λ o, match o with Put m => Some m | _ => None end) l.
Definition resets (l : list op) : bool := existsb (λ o, match o with Reset => true | _ => false end) l.

Lemma run_op_conserves o q q' :
  run_op o q = (Ok tt, q') → resets [o] = false →
  delivered q' ++ mq_queue q' ≡ₚ delivered q ++ mq_queue q ++ puts [o].
Proof.
  destruct o as [m|p|]; cbn [run_op]; [| |done]; intros Hrun _.
  - unfold put in Hrun. destruct (find_index _ _) as [[i [d p]]|] eqn:Hf; injection Hrun as <-;
      unfold delivered; cbn [mq_fired mq_queue].
    + rewrite omap_app. cbn. rewrite <- (assoc_L (++)), (Permutation_app_comm [m]). done.
    + done.
  - apply M_bind_Ok in Hrun as (n & q1 & Hrun & [= <-]). unfold get in Hrun.
    destruct (find_index _ _) as [[i m]|] eqn:Hf; injection Hrun as _ <-.
    + apply find_index_split in Hf as (l1 & l2 & Hq & _ & Hdel & _).
      unfold delivered. cbn [mq_fired mq_queue]. rewrite omap_app, Hdel, Hq. cbn.
      rewrite (right_id_L [] (++)), <- (assoc_L (++)). cbn.
      apply Permutation_app; [done|]. by rewrite <- Permutation_middle.
    + cbn.
      by rewrite (right_id_L [] (++)).
Qed.

(** As long as the queue is not reset, the messages put are, as a multiset,
    the messages handed to getters and the messages still queued. *)
Theorem queue_conserves l q q' :
  run_ops l q = (Ok tt, q') → resets l = false →
  delivered q' ++ mq_queue q' ≡ₚ delivered q ++ mq_queue q ++ puts l.
Proof.
  revert q. induction l as [|o l IH]; intros q Hrun Hres; cbn [run_ops] in Hrun.
  { injection Hrun as <-. cbn. by rewrite (right_id_L [] (++)). }
  apply M_bind_Ok in Hrun as ([] & q1 & Hq1 & Hrun). cbn in Hres.
  apply orb_false_iff in Hres as [Hr1 Hr2].
  rewrite (IH q1 Hrun Hr2), (assoc_L (++)), (run_op_conserves o q q1 Hq1) by (cbn; by rewrite Hr1).
  rewrite <- !(assoc_L (++)). destruct o; cbn; [done|done|done].
Qed.

(** Get hands out the earliest queued message its predicate accepts, and put
    serves the earliest waiter that accepts the message; everything else keeps
    its place. *)
Theorem queue_order p m q :
  (∀ i x, find_index (wants p) (mq_queue q) = Some (i, x) →
     ∃ l1 l2, mq_queue q = l1 ++ x :: l2 ∧ wants p x = true ∧ (∀ y, y ∈ l1 → wants p y = false) ∧
       get p q = (Ok (mq_next q), mk_mq (mq_waiting q) (l1 ++ l2)
                   (mq_fired q ++ [(mq_next q, Callback x)]) (S (mq_next q)))) ∧
  (∀ i d r, find_index (λ w, wants w.2 m) (mq_waiting q) = Some (i, (d, r)) →
     ∃ l1 l2, mq_waiting q = l1 ++ (d, r) :: l2 ∧ (∀ w, w ∈ l1 → wants w.2 m = false) ∧
       put m q = (Ok tt, mk_mq (l1 ++ l2) (mq_queue q) (mq_fired q ++ [(d, Callback m)]) (mq_next q))).
Proof.
  split.
  - intros i x Hf. destruct (find_index_first _ _ _ _ Hf) as (l1 & l2 & ? & ? & ? & Hd & _).
    exists l1, l2. split_and!; [done..|]. unfold get. by rewrite Hf, Hd.
  - intros i d r Hf. destruct (find_index_first _ _ _ _ Hf) as (l1 & l2 & ? & ? & ? & Hd & _).
    exists l1, l2. split_and!; [done..|]. unfold put. by rewrite Hf, Hd.
Qed.

(** ** Cancelling *)

Lemma cancel_loop_skip d i rounds q l1 l2 :
  mq_waiting q = l1 ++ l2 → i + rounds ≤ length l1 → (∀ w, w ∈ l1 → w.1 ≠ d) →
  ∀ more, cancel_loop d i (rounds + more) q = cancel_loop d (i + rounds) more q.
Proof.
  intros Hw. revert i. induction rounds as [|rounds IH]; intros i Hlen Hne more.
  { by rewrite Nat.add_0_r. }
  cbn [plus cancel_loop]. erewrite M_bind_eq by done.
  destruct (lookup_lt_is_Some_2 l1 i) as [w Hi]; [lia|].
  assert (mq_waiting q !! i = Some w) as Hqi by (rewrite Hw; by apply lookup_app_l_Some).
  erewrite M_bind_eq by (unfold lift; by rewrite Hqi).
  rewrite bool_decide_eq_false_2 by (by apply Hne; eapply list_elem_of_lookup_2).
  erewrite M_bind_eq by done. rewrite IH by (done || lia). f_equal. lia.
Qed.

(** Cancelling a pending get removes its waiter, but the loop of _cancelGet
    goes on with the indices of the longer list: unless the waiter was the last
    one it ends in an IndexError, and the Deferred is left without a result. *)
Theorem cancel_raises l1 d p l2 q :
  mq_waiting q = l1 ++ (d, p) :: l2 → d ∉ (l1 ++ l2).*1 →
  let q' := mk_mq (l1 ++ l2) (mq_queue q) (mq_fired q) (mq_next q) in
  cancel d q =
  match l2 with
  | [] => (Ok tt, mk_mq l1 (mq_queue q) (mq_fired q ++ [(d, Cancelled)]) (mq_next q))
  | _ => (Raise IndexError, q')
  end.
Proof.
  intros Hw Hd q'.
  assert (∀ w, w ∈ l1 → w.1 ≠ d) as H1.
  { intros w Hin <-. apply Hd. rewrite fmap_app, elem_of_app. left. by apply list_elem_of_fmap_2. }
  assert (∀ w, w ∈ l1 ++ l2 → w.1 ≠ d) as H2.
  { intros w Hin <-. apply Hd. by apply list_elem_of_fmap_2. }
  assert (mq_waiting q !! length l1 = Some (d, p)) as Hl by (rewrite Hw; by apply list_lookup_middle).
  assert (delete (length l1) (mq_waiting q) = l1 ++ l2) as Hdel by (rewrite Hw; apply delete_middle).
  assert (cancelGet d q = cancel_loop d (S (length l1)) (length l2) q') as Hloop.
  { unfold cancelGet. rewrite Hw, length_app. cbn [length].
    rewrite (cancel_loop_skip d 0 (length l1) q l1 ((d, p) :: l2)) by (done || lia). cbn [plus cancel_loop].
    erewrite M_bind_eq by done. erewrite M_bind_eq by (unfold lift; by rewrite Hl).
    rewrite bool_decide_eq_true_2 by done. erewrite M_bind_eq by done. unfold q'. by rewrite Hdel. }
  unfold cancel. destruct l2 as [|w l2].
  - erewrite M_bind_eq by (rewrite Hloop; done). unfold q'. by rewrite app_nil_r.
  - apply M_bind_Raise_eq. rewrite Hloop. cbn [length].
    replace (S (length l2)) with (length l2 + 1) by lia.
    rewrite (cancel_loop_skip d _ (length l2) q' (l1 ++ w :: l2) []); [| |rewrite length_app; simpl; lia|done].
    2:{ by rewrite app_nil_r. }
    cbn [cancel_loop]. erewrite M_bind_eq by done. apply M_bind_Raise_eq. unfold lift.
    rewrite lookup_ge_None_2; [done|]. unfold q'. cbn. rewrite length_app. simpl. lia.
Qed.
End message_queue.

(** ** Witnesses *)

Definition even_only : option (nat → bool) := Some Nat.even.
Definition two_waiters : mq (Msg := nat) :=
  (run_ops [Put 3; Get even_only; Get even_only] init).2.

Lemma queue_conserves_witness :
  ∃ q', run_ops [Put 3; Put 4; Get even_only; Get None] init = (Ok tt, q') ∧
    delivered q' ++ mq_queue q' ≡ₚ [3; 4].
Proof.
  eexists. split; [vm_compute; reflexivity|].
  apply (queue_conserves [Put 3; Put 4; Get even_only; Get None] init); reflexivity.
Defined.

Lemma cancel_raises_witness : (cancel 0 two_waiters).1 = Raise IndexError.
Proof.
  rewrite (cancel_raises [] 0 even_only [(1, even_only)] two_waiters).
  - reflexivity.
  - reflexivity.
  - apply (bool_decide_unpack _). vm_compute. exact I.
Defined.
End MessageQueue.
