(* ===== verification/OfConnection.v ===== *)
(** * The OpenFlow connection (ofagent/of_connection.py)

    The lower half of the OpenFlow agent: it cuts the byte stream of the TCP
    connection into messages and queues them for the protocol handler, and it
    numbers and writes the messages that are sent.  The header and the checks of
    [parse_message] are those of the OpenFlow bindings; the bodies of the
    messages, generated code, are a parameter. *)

From Stdlib Require Import Strings.Byte.
From stdpp Require Import prelude list.
From S2P Require Import Prelude MessageQueue.

(** ** Headers (loxi/of14/message.py, loxi/__init__.py) *)

Definition byte_val (b : byte) : nat := N.to_nat (Byte.to_N b).
Definition be (l : list byte) : nat := foldl (λ n b, n * 256 + byte_val b) 0 l.

(** [struct.unpack_from("!BBHL", buf)]: version, type, length, xid *)
Definition parse_header (buf : list byte) : result (nat * nat * nat * nat) :=
  match buf with
  | v :: t :: l1 :: l0 :: x3 :: x2 :: x1 :: x0 :: _ =>
      Ok (byte_val v, byte_val t, be [l1; l0], be [x3; x2; x1; x0])
  | _ => Raise ProtocolError
  end.

(** [loxi.protocol(ver)]: the module of a wire version *)
Definition protocol (ver : nat) : result nat :=
  if bool_decide (1 ≤ ver ≤ 5) then Ok ver else Raise ValueError.

Definition OFPT_HELLO : nat := 0.

(** The generated classes: unpacking the body of a message of some version, its
    xid, and packing. *)
Class Loxi : Type := {
  msg : Type;
  unpack : nat → list byte → result msg;
  pack : msg → result (list byte);
  msg_xid : msg → option Z;
  set_xid : Z → msg → msg;
}.

Section of_connection.
Context `{!Loxi}.

Definition parse_message (ofp_version : nat) (buf : list byte) : result msg :=
  '(msg_ver, msg_type, msg_len, msg_xid) ← parse_header buf;
  if bool_decide (msg_ver ≠ ofp_version ∧ msg_type ≠ OFPT_HELLO) then Raise ProtocolError
  else if bool_decide (length buf ≠ msg_len) then Raise ProtocolError
  else unpack ofp_version buf.

(** ** The connection *)

Record conn : Type := mk_conn {
  c_next_xid : Z;
  c_read_buffer : option (list byte);
  c_rx : MessageQueue.mq (Msg := msg);
  c_connected : bool;
  c_written : list (list byte);         (** what was written to the transport *)
}.
Definition new_conn : conn := mk_conn 1 None MessageQueue.init false [].

Definition set_rx q (c : conn) : conn :=
  mk_conn (c_next_xid c) (c_read_buffer c) q (c_connected c) (c_written c).
Definition set_read_buffer b (c : conn) : conn :=
  mk_conn (c_next_xid c) b (c_rx c) (c_connected c) (c_written c).

Definition rx_put (m : msg) : M conn unit := λ c,
  let '(r, q) := MessageQueue.put m (c_rx c) in (r, set_rx q c).

(** The loop of [dataReceived]; it returns the offset at which it stopped. *)
Fixpoint receive_loop (fuel : nat) (buf : list byte) (offset : nat) : M conn nat :=
  if bool_decide (offset < length buf) then
    if bool_decide (length buf < offset + 8) then mret offset
    else match fuel with
    | 0 => raise OutOfFuel
    | S fuel =>
        '(_version, _type, _len, _xid) ← lift (parse_header (drop offset buf));
        ofp ← lift (protocol _version);
        if bool_decide (length buf < offset + _len) then mret offset
        else
          let rawmsg := take _len (drop offset buf) in
          m ← lift (parse_message ofp rawmsg);
          _ ← rx_put m;
          receive_loop fuel buf (offset + _len)
    end
  else mret offset.

Definition dataReceived (data : list byte) : M conn unit :=
  _ ← lift (assert_ (bool_decide (length data ≠ 0)));
  c ← get_state;
  let buf := match c_read_buffer c with
             | Some ((_ :: _) as b) => b ++ data
             | _ => data
             end in
  offset ← receive_loop (length buf) buf 0;
  modify (set_read_buffer (if bool_decide (offset = length buf) then None
                           else Some (drop offset buf))).

Definition gen_xid : M conn Z := λ c,
  (Ok (c_next_xid c), mk_conn (c_next_xid c + 1) (c_read_buffer c) (c_rx c) (c_connected c) (c_written c)).

Definition write (buf : list byte) : M conn unit :=
  modify (λ c, mk_conn (c_next_xid c) (c_read_buffer c) (c_rx c) (c_connected c) (c_written c ++ [buf])).

Definition assert_connected : M conn unit :=
  c ← get_state; lift (assert_ (c_connected c)).

Definition send_raw (buf : list byte) : M conn unit :=
  _ ← assert_connected; write buf.

Definition send (m : msg) : M conn unit :=
  _ ← assert_connected;
  m ← match msg_xid m with
      | None => xid ← gen_xid; mret (set_xid xid m)
      | Some _ => mret m
      end;
  buf ← lift (pack m);
  write buf.

Definition rx_get (predicate : option (msg → bool)) : M conn nat := λ c,
  let '(r, q) := MessageQueue.get predicate (c_rx c) in (r, set_rx q c).
Definition recv (predicate : msg → bool) : M conn nat :=
  _ ← assert_connected; rx_get (Some predicate).
Definition recv_any : M conn nat := recv (λ _, true).
Definition recv_xid (xid : Z) : M conn nat := recv (λ m, bool_decide (msg_xid m = Some xid)).

(** TCP hands the stream over in chunks; after an exception the connection is
    dropped and nothing more is delivered. *)
Fixpoint feed (chunks : list (list byte)) : M conn unit :=
  match chunks with
  | [] => mret tt
  | data :: chunks => _ ← dataReceived data; feed chunks
  end.

(** ** Reference definition: consuming messages from the front of a buffer *)

Fixpoint consume (fuel : nat) (buf : list byte) : M conn (list byte) :=
  if bool_decide (length buf < 8) then mret buf
  else match fuel with
  | 0 => raise OutOfFuel
  | S fuel =>
      '(_version, _type, _len, _xid) ← lift (parse_header buf);
      ofp ← lift (protocol _version);
      if bool_decide (length buf < _len) then mret buf
      else
        m ← lift (parse_message ofp (take _len buf));
        _ ← rx_put m;
        consume fuel (drop _len buf)
  end.

(** The offset loop consumes what [consume] consumes. *)
Lemma receive_loop_consume fuel buf offset c :
  offset ≤ length buf →
  match consume fuel (drop offset buf) c with
  | (Ok rest, c') => ∃ o, receive_loop fuel buf offset c = (Ok o, c') ∧ o ≤ length buf ∧ rest = drop o buf
  | (Raise e, c') => receive_loop fuel buf offset c = (Raise e, c')
  end.
Proof.
  revert offset c. induction fuel as [|fuel IH]; intros o c Ho; cbn [consume receive_loop];
    rewrite length_drop.
  - repeat case_bool_decide; try lia; try done; by exists o.
  - destruct (decide (length buf < o + 8)) as [H8|H8].
    { rewrite (bool_decide_eq_true_2 (length buf - o < 8)), (bool_decide_eq_true_2 (_ < o + 8)) by lia.
      exists o. by case_bool_decide. }
    rewrite (bool_decide_eq_false_2 (_ - o < 8)), (bool_decide_eq_true_2 (o < _)),
      (bool_decide_eq_false_2 (_ < o + 8)) by lia.
    unfold mbind, M_bind, lift. destruct (parse_header _) as [[[[v t] len] x]|e]; [|done].
    destruct (protocol v) as [ofp|e]; [|done].
    rewrite (bool_decide_ext (length buf - o < len) (length buf < o + len)) by lia.
    case_bool_decide; [by exists o|].
    destruct (parse_message _ _) as [m|e]; [|done].
    destruct (rx_put m c) as [[[]|e] c']; [|done]. rewrite drop_drop. apply IH. lia.
Qed.

(** A message that parses has at least the bytes of a header. *)
Lemma parse_message_length ver buf m : parse_message ver buf = Ok m → 8 ≤ length buf.
Proof.
  unfold parse_message, parse_header.
  do 8 (destruct buf as [|? buf]; [done|]). simpl. lia.
Qed.

Lemma consume_fuel f1 f2 buf c : length buf ≤ f1 → length buf ≤ f2 → consume f1 buf c = consume f2 buf c.
Proof.
  revert f2 buf c. induction f1 as [|f1 IH]; intros [|f2] buf c H1 H2; cbn [consume]; [done|..].
  1,2: rewrite bool_decide_eq_true_2 by lia; done.
  case_bool_decide as H8; [done|]. unfold mbind, M_bind, lift.
  destruct (parse_header buf) as [[[[v t] len] x]|e]; [|done].
  destruct (protocol v) as [ofp|e]; [|done]. case_bool_decide as Hlen; [done|].
  destruct (parse_message _ _) as [m|e] eqn:Hm; [|done].
  apply parse_message_length in Hm. rewrite length_take in Hm.
  destruct (rx_put m c) as [[[]|e] c']; [|done]. apply IH; rewrite length_drop; lia.
Qed.

Lemma parse_header_app buf data : 8 ≤ length buf → parse_header (buf ++ data) = parse_header buf.
Proof. intros H8. do 8 (destruct buf as [|? buf]; [simpl in H8; lia|]). done. Qed.

(** What is left is a suffix, and only the queue of the connection changes. *)
Lemma consume_rest fuel buf c rest c' :
  consume fuel buf c = (Ok rest, c') →
  length rest ≤ length buf ∧ ∃ q, c' = set_rx q c.
Proof.
  revert buf c. induction fuel as [|fuel IH]; intros buf c; cbn [consume].
  - case_bool_decide; [|done]. intros [= -> ->]. split; [done|]. exists (c_rx c'). by destruct c'.
  - assert (∃ q, c = set_rx q c) as Hself by (exists (c_rx c); by destruct c).
    case_bool_decide; [by intros [= -> ->]|]. unfold mbind, M_bind, lift.
    destruct (parse_header buf) as [[[[v t] len] x]|e]; [|done].
    destruct (protocol v) as [ofp|e]; [|done]. case_bool_decide; [by intros [= -> ->]|].
    destruct (parse_message _ _) as [m|e]; [|done]. unfold rx_put.
    destruct (MessageQueue.put m (c_rx c)) as [[[]|e] q]; [|done].
    intros (Hlen & q' & ->)%IH. rewrite length_drop in Hlen. split; [lia|]. by exists q'.
Qed.

(** Bytes that come later do not change what is made of the earlier ones. *)
Lemma consume_app fuel buf data c :
  length (buf ++ data) ≤ fuel →
  consume fuel (buf ++ data) c =
  match consume fuel buf c with
  | (Ok rest, c') => consume fuel (rest ++ data) c'
  | (Raise e, c') => (Raise e, c')
  end.
Proof.
  revert buf c. induction fuel as [|fuel IH]; intros buf c Hf.
  { destruct buf; [|simpl in Hf; lia]. done. }
  destruct (decide (length buf < 8)) as [H8|H8].
  { cbn [consume]. rewrite (bool_decide_eq_true_2 (length buf < 8)) by done. done. }
  rewrite length_app in Hf. cbn [consume].
  rewrite !bool_decide_eq_false_2 by (rewrite ?length_app; lia).
  rewrite parse_header_app by lia. unfold mbind, M_bind, lift.
  destruct (parse_header buf) as [[[[v t] len] x]|e] eqn:Hh; [|done].
  destruct (protocol v) as [ofp|e] eqn:Hp; [|done].
  destruct (decide (length buf < len)) as [Hlen|Hlen].
  { rewrite (bool_decide_eq_true_2 (length buf < len)) by done. unfold mret, M_ret. cbn [consume].
    rewrite (bool_decide_eq_false_2 (length (buf ++ data) < 8)) by (rewrite length_app; lia).
    rewrite parse_header_app by lia. unfold mbind, M_bind, lift. by rewrite Hh, Hp. }
  rewrite !bool_decide_eq_false_2 by (rewrite ?length_app; lia).
  rewrite take_app_le by lia. destruct (parse_message _ _) as [m|e] eqn:Hm; [|done].
  apply parse_message_length in Hm. rewrite length_take in Hm.
  destruct (rx_put m c) as [[[]|e] c']; [|done].
  rewrite drop_app_le by lia.
  rewrite IH by (rewrite length_app, length_drop; lia).
  destruct (consume fuel (drop len buf) c') as [[rest|e] c''] eqn:Hc; [|done].
  apply consume_rest in Hc as [Hrest _]. rewrite length_drop in Hrest.
  apply (consume_fuel fuel (S fuel)); rewrite length_app; lia.
Qed.

(** [dataReceived] in terms of [consume] *)
Definition pending (c : conn) : list byte := default [] (c_read_buffer c).
Definition settle (rest : list byte) (c : conn) : conn :=
  set_read_buffer (match rest with [] => None | _ => Some rest end) c.

Lemma dataReceived_consume data c fuel :
  data ≠ [] → length (pending c ++ data) ≤ fuel →
  dataReceived data c =
  match consume fuel (pending c ++ data) c with
  | (Ok rest, c') => (Ok tt, settle rest c')
  | (Raise e, c') => (Raise e, c')
  end.
Proof.
  intros Hne Hf. unfold dataReceived.
  rewrite bool_decide_eq_true_2 by (by destruct data).
  erewrite M_bind_eq by done. erewrite M_bind_eq by done. cbv zeta.
  replace (match c_read_buffer c with Some ((_ :: _) as b) => b ++ data | _ => data end)
    with (pending c ++ data) by (unfold pending; by destruct (c_read_buffer c) as [[]|]).
  set (buf := pending c ++ data) in *.
  pose proof (receive_loop_consume (length buf) buf 0 c ltac:(lia)) as Hloop.
  rewrite drop_0 in Hloop. rewrite (consume_fuel fuel (length buf)) by lia.
  destruct (consume (length buf) buf c) as [[rest|e] c'].
  - destruct Hloop as (o & Hloop & Ho & ->). erewrite M_bind_eq by done.
    unfold modify, settle. do 2 f_equal. case_bool_decide as Hlen.
    + by rewrite drop_ge by lia.
    + destruct (drop o buf) eqn:Hd; [|done]. apply (f_equal length) in Hd.
      rewrite length_drop in Hd. simpl in Hd. lia.
  - by apply M_bind_Raise_eq.
Qed.

(** Two connections that differ in the unread buffer only *)
Lemma consume_settle fuel buf rest c :
  consume fuel buf (settle rest c) =
  let '(r, c') := consume fuel buf c in (r, set_read_buffer (c_read_buffer (settle rest c)) c').
Proof.
  revert buf c. induction fuel as [|fuel IH]; intros buf c; cbn [consume].
  { by case_bool_decide. }
  case_bool_decide; [done|]. unfold mbind, M_bind, lift.
  destruct (parse_header buf) as [[[[v t] len] x]|e]; [|done].
  destruct (protocol v) as [ofp|e]; [|done]. case_bool_decide; [done|].
  destruct (parse_message _ _) as [m|e]; [|done].
  unfold rx_put. cbn [settle set_read_buffer c_rx].
  destruct (MessageQueue.put m (c_rx c)) as [[[]|e] q]; [|done].
  apply (IH _ (set_rx q c)).
Qed.

Lemma pending_settle rest c : pending (settle rest c) = rest.
Proof. by destruct rest. Qed.

(** One more chunk after some that were accepted is as one longer chunk. *)
Lemma dataReceived_app data1 data2 c :
  data1 ≠ [] → data2 ≠ [] →
  let '(r, c1) := (_ ← dataReceived data1; dataReceived data2) c in
  let '(r', c2) := dataReceived (data1 ++ data2) c in
  r = r' ∧ c_rx c1 = c_rx c2 ∧ (r = Ok tt → c1 = c2).
Proof.
  intros H1 H2. set (fuel := length (pending c ++ data1 ++ data2)).
  rewrite (dataReceived_consume (data1 ++ data2) c fuel) by (by destruct data1).
  rewrite (assoc_L (++)), consume_app by (by rewrite <- (assoc_L (++))).
  unfold mbind, M_bind.
  rewrite (dataReceived_consume data1 c fuel) by (done || (unfold fuel; rewrite !length_app; lia)).
  destruct (consume fuel (pending c ++ data1) c) as [[rest|e] c1] eqn:Hc; [|by split_and!].
  apply consume_rest in Hc as [Hrest _].
  rewrite (dataReceived_consume data2 _ fuel), pending_settle, consume_settle; [|done|].
  2:{ rewrite pending_settle. unfold fuel. rewrite !length_app in *. lia. }
  destruct (consume fuel (rest ++ data2) c1) as [[rest'|e] c']; by split_and!.
Qed.

Lemma feed_concat chunks c :
  chunks ≠ [] → Forall (.≠ []) chunks →
  let '(r1, c1) := feed chunks c in
  let '(r2, c2) := dataReceived (concat chunks) c in
  r1 = r2 ∧ c_rx c1 = c_rx c2 ∧ (r1 = Ok tt → c1 = c2).
Proof.
  revert c. induction chunks as [|d chunks IH]; intros c Hne Hall; [done|].
  inversion_clear Hall as [|? ? Hd Hall']. destruct (decide (chunks = [])) as [->|Hne'].
  { cbn [feed concat]. rewrite app_nil_r. unfold mbind, M_bind, mret, M_ret.
    destruct (dataReceived d c) as [[[]|e] c']; by split_and!. }
  cbn [feed concat].
  assert (concat chunks ≠ []) as Hc.
  { destruct chunks as [|d' chunks]; [done|]. inversion_clear Hall' as [|? ? Hd' _]. by destruct d'. }
  pose proof (dataReceived_app d (concat chunks) c Hd Hc) as Happ.
  unfold mbind, M_bind in *. destruct (dataReceived d c) as [[[]|e] c1]; [|done].
  specialize (IH c1 Hne' Hall'). destruct (feed chunks c1) as [r1 c1'].
  destruct (dataReceived (concat chunks) c1) as [r2 c2].
  destruct (dataReceived (d ++ concat chunks) c) as [r3 c3].
  destruct IH as (-> & -> & H1), Happ as (-> & -> & H2). split_and!; [done..|].
  intros ->. by rewrite H1, H2.
Qed.

(** C17: it does not matter how TCP cuts the stream.  Any non-empty sequence of
    chunks, well-formed or not, has the same outcome as the whole stream in one
    piece: the same exception or none, the same messages queued in the same
    order, and, when there is no exception, the same connection state. *)
Theorem chunking_irrelevant chunks c :
  chunks ≠ [] → Forall (.≠ []) chunks →
  let '(r1, c1) := feed chunks c in
  let '(r2, c2) := dataReceived (concat chunks) c in
  r1 = r2 ∧ c_rx c1 = c_rx c2 ∧ (r1 = Ok tt → c1 = c2).
Proof. apply feed_concat. Qed.

Lemma parse_header_in_fuel buf : parse_header buf ≠ Raise OutOfFuel.
Proof. do 8 (destruct buf as [|? buf]; [done|]). done. Qed.

Lemma parse_message_in_fuel ver buf :
  (∀ v b, unpack v b ≠ Raise OutOfFuel) → parse_message ver buf ≠ Raise OutOfFuel.
Proof.
  intros Hunpack. unfold parse_message. pose proof (parse_header_in_fuel buf) as Hh.
  destruct (parse_header buf) as [[[[v t] len] x]|e]; [|by destruct e]. cbn.
  by repeat case_bool_decide.
Qed.

(** The receive loop needs no more rounds than the buffer has bytes, however the
    lengths in the headers are chosen: a message that is accepted has at least
    eight bytes. *)
Lemma dataReceived_in_fuel data c :
  (∀ v b, unpack v b ≠ Raise OutOfFuel) → (dataReceived data c).1 ≠ Raise OutOfFuel.
Proof.
  intros Hunpack. destruct (decide (data = [])) as [->|Hne]; [done|].
  rewrite (dataReceived_consume data c (length (pending c ++ data))) by done.
  assert (∀ fuel buf c, length buf ≤ fuel → (consume fuel buf c).1 ≠ Raise OutOfFuel) as Hc.
  { clear data c Hne. intros fuel. induction fuel as [|fuel IH]; intros buf c Hf; cbn [consume].
    { rewrite bool_decide_eq_true_2 by lia. done. }
    case_bool_decide; [done|]. unfold mbind, M_bind, lift.
    pose proof (parse_header_in_fuel buf) as Hh.
    destruct (parse_header buf) as [[[[v t] len] x]|e]; [|naive_solver].
    destruct (protocol v) as [ofp|e] eqn:Hp; [|unfold protocol in Hp; destruct (bool_decide _); naive_solver].
    case_bool_decide; [done|]. destruct (parse_message _ _) as [m|e] eqn:Hm.
    - apply parse_message_length in Hm. rewrite length_take in Hm.
      destruct (rx_put m c) as [[[]|e] c'] eqn:Hput.
      + apply IH. rewrite length_drop. lia.
      + unfold rx_put, MessageQueue.put in Hput. by repeat case_match; simplify_eq.
    - intros [= ->]. by apply (parse_message_in_fuel ofp (take len buf)). }
  specialize (Hc _ (pending c ++ data) c (le_n _)).
  destruct (consume _ _ c) as [[rest|e] c']; [done|by destruct e].
Qed.

(** ** What is sent is received *)

(** What the bindings of one version promise: a packed message starts with a
    header that holds the version and the length, and unpacking reverses it. *)
Class WireFormat (wire : nat) : Type := {
  good : msg → Prop;
  wire_known : 1 ≤ wire ≤ 5;
  pack_header m b : good m → pack m = Ok b → ∃ t x, parse_header b = Ok (wire, t, length b, x);
  unpack_pack m b : good m → pack m = Ok b → unpack wire b = Ok m;
}.

Definition queue_all (ms : list msg) (c : conn) : conn :=
  set_rx (foldl (λ q m, (MessageQueue.put m q).2) (c_rx c) ms) c.

Section wire.
Context {wire : nat} `{!WireFormat wire}.

(** The beginning of a message that has not arrived completely *)
Definition partial (tail : list byte) : Prop :=
  tail = [] ∨ ∃ m b, good m ∧ pack m = Ok b ∧ tail `prefix_of` b ∧ tail ≠ b.

Lemma pack_length m b : good m → pack m = Ok b → 8 ≤ length b.
Proof.
  intros Hg (t & x & Hh)%pack_header; [|done]. unfold parse_header in Hh.
  do 8 (destruct b as [|? b]; [done|]). simpl. lia.
Qed.

Lemma consume_partial fuel tail c : length tail ≤ fuel → partial tail → consume fuel tail c = (Ok tail, c).
Proof.
  intros Hf Hp. destruct fuel as [|fuel]; cbn [consume].
  { by rewrite bool_decide_eq_true_2 by lia. }
  destruct Hp as [->|(m & b & Hg & Hb & [k ->] & Hne)]; [done|].
  case_bool_decide as H8; [done|]. destruct (pack_header m _ Hg Hb) as (t & x & Hh).
  rewrite parse_header_app in Hh by lia. unfold mbind, M_bind, lift. rewrite Hh. unfold protocol.
  rewrite bool_decide_eq_true_2 by apply wire_known.
  rewrite bool_decide_eq_true_2; [done|]. rewrite length_app.
  destruct k; [by rewrite app_nil_r in Hne|simpl; lia].
Qed.

Lemma consume_messages fuel ms raws tail c :
  Forall2 (λ m b, pack m = Ok b) ms raws → Forall good ms → length (concat raws ++ tail) ≤ fuel → partial tail →
  consume fuel (concat raws ++ tail) c = (Ok tail, queue_all ms c).
Proof.
  intros Hms. revert fuel c. induction Hms as [|m b ms raws Hb Hms IH]; intros fuel c Hgs Hf Hp.
  { cbn [concat app] in *. rewrite consume_partial by done. unfold queue_all. by destruct c. }
  apply Forall_cons in Hgs as [Hg Hgs]. pose proof (pack_length m b Hg Hb) as H8. destruct (pack_header m b Hg Hb) as (t & x & Hh).
  cbn [concat] in *. rewrite <- (assoc_L (++)) in *. rewrite length_app in Hf.
  destruct fuel as [|fuel]; [lia|]. cbn [consume].
  rewrite bool_decide_eq_false_2 by (rewrite length_app; lia).
  rewrite parse_header_app by lia. unfold mbind, M_bind, lift. rewrite Hh. unfold protocol.
  rewrite bool_decide_eq_true_2 by apply wire_known.
  rewrite bool_decide_eq_false_2 by (rewrite length_app; lia).
  rewrite take_app_length. unfold parse_message. rewrite Hh. cbn [mbind result_bind].
  rewrite bool_decide_eq_false_2 by naive_solver. rewrite bool_decide_eq_false_2 by naive_solver.
  rewrite (unpack_pack m b Hg Hb), drop_app_length. unfold rx_put.
  destruct (MessageQueue.put m (c_rx c)) as [[[]|e] q] eqn:Hput.
  - rewrite IH by (done || lia). unfold queue_all. cbn. by rewrite Hput.
  - unfold MessageQueue.put in Hput. by repeat case_match; simplify_eq.
Qed.

(** Sending several messages *)
Fixpoint send_all (ms : list msg) : M conn unit :=
  match ms with
  | [] => mret tt
  | m :: ms => _ ← send m; send_all ms
  end.

(** A message as it is written: with an xid of the connection when it had none *)
Definition numbered (m m' : msg) : Prop :=
  match msg_xid m with None => ∃ xid, m' = set_xid xid m | Some _ => m' = m end.

Lemma send_writes m c c' :
  send m c = (Ok tt, c') →
  ∃ m' b, numbered m m' ∧ pack m' = Ok b ∧ c_written c' = c_written c ++ [b].
Proof.
  unfold send, numbered. intros ([] & c1 & H1 & Hs)%M_bind_Ok.
  assert (c1 = c) as ->.
  { unfold assert_connected in H1. apply M_bind_Ok in H1 as (? & ? & [= <- <-] & [= _ <-]). done. }
  apply M_bind_Ok in Hs as (m' & c2 & Hm & Hs). apply M_bind_Ok in Hs as (b & c3 & [= Hb <-] & [= <-]).
  exists m', b. destruct (msg_xid m).
  - by injection Hm as <- <-.
  - apply M_bind_Ok in Hm as (xid & c4 & [= <- <-] & [= <- <-]). split_and!; eauto.
Qed.

Lemma send_all_writes ms c c' :
  send_all ms c = (Ok tt, c') →
  ∃ ms' raws, Forall2 numbered ms ms' ∧ Forall2 (λ m b, pack m = Ok b) ms' raws ∧
    c_written c' = c_written c ++ raws.
Proof.
  revert c. induction ms as [|m ms IH]; intros c Hs; cbn [send_all] in Hs.
  { injection Hs as <-. exists [], []. by rewrite app_nil_r. }
  apply M_bind_Ok in Hs as ([] & c1 & (m' & b & Hm & Hb & Hw)%send_writes & Hs).
  destruct (IH c1 Hs) as (ms' & raws & Hms & Hraws & Hw'). exists (m' :: ms'), (b :: raws).
  split_and!; [by constructor..|]. by rewrite Hw', Hw, <- (assoc_L (++)).
Qed.

(** What one side sends the other receives, however TCP cuts the bytes. *)
Lemma stream_back ms peer peer' chunks tail c :
  send_all ms peer = (Ok tt, peer') → c_written peer = [] → Forall (λ m, ∀ m', numbered m m' → good m') ms →
  partial tail → concat chunks = concat (c_written peer') ++ tail →
  chunks ≠ [] → Forall (.≠ []) chunks → c_read_buffer c = None →
  ∃ ms', Forall2 numbered ms ms' ∧ feed chunks c = (Ok tt, settle tail (queue_all ms' c)).
Proof.
  intros Hsend Hw Hgood Hp Hcat Hne Hall Hbuf.
  destruct (send_all_writes _ _ _ Hsend) as (ms' & raws & Hms & Hraws & Hw').
  rewrite Hw in Hw'. cbn in Hw'. rewrite Hw' in Hcat. exists ms'. split; [done|].
  assert (Forall good ms') as Hgs.
  { clear -Hms Hgood. induction Hms; [done|]. apply Forall_cons in Hgood as [? ?]. constructor; auto. }
  pose proof (feed_concat chunks c Hne Hall) as Hch.
  assert (concat chunks ≠ []) as Hc.
  { destruct chunks as [|d chunks]; [done|]. inversion_clear Hall as [|? ? Hd' _]. by destruct d. }
  rewrite (dataReceived_consume _ c (length (concat chunks))) in Hch; [|done|].
  2:{ unfold pending. by rewrite Hbuf. }
  unfold pending in Hch. rewrite Hbuf in Hch. cbn [default app] in Hch.
  rewrite Hcat in Hch. erewrite consume_messages in Hch; [|done..].
  destruct (feed chunks c) as [r c1]. destruct Hch as (-> & _ & Heq). by rewrite Heq.
Qed.
End wire.
End of_connection.

(** ** Witnesses: echo requests of version 1.3 with short bodies *)

Definition byte_of (n : nat) : byte := default "000"%byte (Byte.of_N (N.of_nat n)).

#[local] Instance echo_loxi : Loxi := {
  msg := option byte * list byte;
  unpack v b := match b with
                | _ :: _ :: _ :: _ :: _ :: _ :: _ :: x :: body => Ok (Some x, body)
                | _ => Raise ProtocolError
                end;
  pack m := match m with
            | (Some x, body) =>
                if bool_decide (length body < 200)
                then Ok ("004" :: "002" :: "000" :: byte_of (8 + length body)
                         :: "000" :: "000" :: "000" :: x :: body)%byte
                else Raise ValueError
            | (None, _) => Raise TypeError
            end;
  msg_xid m := Z.of_nat ∘ byte_val <$> m.1;
  set_xid z m := (Some (byte_of (Z.to_nat z)), m.2);
}.

Definition ping : msg := (None, ["a"; "b"]%byte).
Definition pong : msg := (Some "009"%byte, []).
Definition peer : conn := mk_conn 1 None MessageQueue.init true [].
Definition peer' : conn := (send_all [ping; pong] peer).2.
Definition wire_bytes : list byte := concat (c_written peer') ++ ["004"; "002"; "000"]%byte.
Definition three_chunks : list (list byte) :=
  [take 3 wire_bytes; take 9 (drop 3 wire_bytes); drop 12 wire_bytes].

Lemma three_chunks_nonempty : Forall (.≠ []) three_chunks.
Proof. vm_compute. repeat constructor; done. Qed.

Lemma chunking_irrelevant_witness :
  (feed three_chunks new_conn).1 = (dataReceived (concat three_chunks) new_conn).1.
Proof.
  pose proof (chunking_irrelevant three_chunks new_conn ltac:(done) three_chunks_nonempty) as Hc.
  destruct (feed three_chunks new_conn), (dataReceived (concat three_chunks) new_conn).
  apply Hc.
Defined.
