(* ===== verification/OfAgents.v ===== *)
(** * OpenFlow agents and their manager (ofagent/agent.py, ofagent/connection_mgr.py)

    The manager polls VOLTHA for the logical devices and keeps one agent per
    datapath; an agent keeps a connection to the controller for its datapath.
    Agents are objects of a heap, so that one that was stopped and forgotten
    still reacts to the events of its connection.  The reactor and the TCP
    connector are the environment: their callbacks are the constructors of
    [event], and an event is enabled in the states in which twisted delivers
    it. *)

From Stdlib Require Import Ascii.
From stdpp Require Import prelude strings gmap list.
From S2P Require Import Prelude.

Module OfAgents.

(** ** [endpoint.split(':', 2)] and [int(port)] *)

Fixpoint split_colon (n : nat) (s : string) : list string :=
  match n, s with
  | 0, _ | _, "" => [s]
  | S n', String c s' =>
      if bool_decide (c = ":"%char) then "" :: split_colon n' s'
      else match split_colon n s' with
           | w :: ws => String c w :: ws
           | [] => [String c ""]
           end
  end.

Definition is_space (c : ascii) : bool :=
  let n := nat_of_ascii c in bool_decide (n = 32) || bool_decide (9 ≤ n ≤ 13).
Fixpoint lstrip (s : string) : string :=
  match s with String c s' => if is_space c then lstrip s' else s | "" => "" end.
Definition strip (s : string) : string := String.rev (lstrip (String.rev (lstrip s))).

Fixpoint digits (s : string) (acc : Z) : result Z :=
  match s with
  | "" => Ok acc
  | String c s' =>
      let n := nat_of_ascii c in
      if bool_decide (48 ≤ n ≤ 57) then digits s' (acc * 10 + Z.of_nat (n - 48)) else Raise ValueError
  end.
Definition int_ (s : string) : result Z :=
  match strip s with
  | "" | String "-"%char "" | String "+"%char "" => Raise ValueError
  | String "-"%char s' => Z.opp <$> digits s' 0
  | String "+"%char s' => digits s' 0
  | s' => digits s' 0
  end.

Definition resolve_endpoint (endpoint : string) : result (string * Z) :=
  match split_colon 2 endpoint with
  | [host; port] => p ← int_ port; Ok (host, p)
  | _ => Raise ValueError
  end.

(** ** The agent *)

(** A twisted connector, and where the generator [keep_connected] is. *)
Inductive connector : Type := Connecting | Up | Down.
Inductive pc : Type :=
  | NotStarted
  | Scheduled             (** [callLater(0, self.keep_connected)] is pending *)
  | AwaitDisconnect       (** at [yield self.d_disconnected] *)
  | Asleep                (** at [yield asleep(self.retry_interval)] *)
  | Ended.

Record agent : Type := mk_agent {
  a_endpoint : string;
  a_datapath_id : Z;
  a_device_id : string;
  a_running : bool;
  a_connector : option connector;
  a_d_disconnected : option bool;    (** [Some called] *)
  a_connected : bool;
  a_exiting : bool;
  a_proto_handler : bool;            (** is there one? *)
  a_pc : pc;
  a_attempts : nat;                  (** calls of [connectTCP] *)
  a_losses : nat;                    (** failed and lost connections *)
}.

Definition init (endpoint : string) (datapath_id : Z) (device_id : string) : agent :=
  mk_agent endpoint datapath_id device_id false None None false false false NotStarted 0 0.

Definition set_running b (a : agent) : agent :=
  mk_agent (a_endpoint a) (a_datapath_id a) (a_device_id a) b (a_connector a) (a_d_disconnected a)
    (a_connected a) (a_exiting a) (a_proto_handler a) (a_pc a) (a_attempts a) (a_losses a).
Definition set_connector c (a : agent) : agent :=
  mk_agent (a_endpoint a) (a_datapath_id a) (a_device_id a) (a_running a) c (a_d_disconnected a)
    (a_connected a) (a_exiting a) (a_proto_handler a) (a_pc a) (a_attempts a) (a_losses a).
Definition set_disconnected d (a : agent) : agent :=
  mk_agent (a_endpoint a) (a_datapath_id a) (a_device_id a) (a_running a) (a_connector a) d
    (a_connected a) (a_exiting a) (a_proto_handler a) (a_pc a) (a_attempts a) (a_losses a).
Definition set_connected b (a : agent) : agent :=
  mk_agent (a_endpoint a) (a_datapath_id a) (a_device_id a) (a_running a) (a_connector a)
    (a_d_disconnected a) b (a_exiting a) (a_proto_handler a) (a_pc a) (a_attempts a) (a_losses a).
Definition set_exiting b (a : agent) : agent :=
  mk_agent (a_endpoint a) (a_datapath_id a) (a_device_id a) (a_running a) (a_connector a)
    (a_d_disconnected a) (a_connected a) b (a_proto_handler a) (a_pc a) (a_attempts a) (a_losses a).
Definition set_proto_handler b (a : agent) : agent :=
  mk_agent (a_endpoint a) (a_datapath_id a) (a_device_id a) (a_running a) (a_connector a)
    (a_d_disconnected a) (a_connected a) (a_exiting a) b (a_pc a) (a_attempts a) (a_losses a).
Definition set_pc p (a : agent) : agent :=
  mk_agent (a_endpoint a) (a_datapath_id a) (a_device_id a) (a_running a) (a_connector a)
    (a_d_disconnected a) (a_connected a) (a_exiting a) (a_proto_handler a) p (a_attempts a) (a_losses a).
Definition count_attempt (a : agent) : agent :=
  mk_agent (a_endpoint a) (a_datapath_id a) (a_device_id a) (a_running a) (a_connector a)
    (a_d_disconnected a) (a_connected a) (a_exiting a) (a_proto_handler a) (a_pc a) (S (a_attempts a)) (a_losses a).
Definition count_loss (a : agent) : agent :=
  mk_agent (a_endpoint a) (a_datapath_id a) (a_device_id a) (a_running a) (a_connector a)
    (a_d_disconnected a) (a_connected a) (a_exiting a) (a_proto_handler a) (a_pc a) (a_attempts a) (S (a_losses a)).

Definition start : M agent unit := λ a,
  if a_running a then (Ok tt, a) else (Ok tt, set_pc Scheduled (set_running true a)).

(** The head of the loop of [keep_connected], up to the next yield.  An
    exception ends the generator: it stays in the Deferred nobody looks at. *)
Definition keep_connected : M agent unit := λ a,
  if a_exiting a then (Ok tt, set_pc Ended a)
  else match resolve_endpoint (a_endpoint a) with
  | Raise _ => (Ok tt, set_pc Ended a)
  | Ok _ =>
      (Ok tt, set_pc AwaitDisconnect (set_disconnected (Some false)
                (set_connector (Some Connecting) (count_attempt a))))
  end.

(** [self.d_disconnected.callback(None)] resumes [keep_connected], which goes on
    to sleep. *)
Definition fire_disconnected : M agent unit := λ a,
  match a_d_disconnected a with
  | None => (Raise AttributeError, a)
  | Some true => (Raise AlreadyCalledError, a)
  | Some false => (Ok tt, set_pc Asleep (set_disconnected (Some true) a))
  end.

Definition enter_disconnected : M agent unit :=
  _ ← modify (set_connected false);
  a ← get_state;
  if a_exiting a then mret tt else fire_disconnected.

Definition enter_connected : M agent unit := modify (set_connected true).

(** [protocol]: a connection and its protocol handler *)
Definition build_protocol : M agent unit := modify (set_proto_handler true).

(** [connector.disconnect()]: a connector that is connecting reports the failure
    at once, one that is connected will report the loss. *)
Definition disconnect (c : connector) : M agent unit :=
  match c with
  | Connecting =>
      _ ← modify (λ a, count_loss (set_connector (Some Down) a)); enter_disconnected
  | Up | Down => mret tt
  end.

Definition stop : M agent unit :=
  _ ← modify (set_connected false);
  _ ← modify (set_exiting true);
  a ← get_state;
  c ← lift (of_option AttributeError (a_connector a));
  disconnect c.

(** ** Events of the reactor and the connector *)

Inductive event : Type :=
  | TimerFires           (** the delayed call or the sleep of [keep_connected] is over *)
  | ConnectionFailed     (** [clientConnectionFailed] *)
  | ConnectionMade       (** [protocol], then [connectionMade] of the connection *)
  | ConnectionLost.      (** [connectionLost], then [clientConnectionLost], which logs *)

Definition enabled (a : agent) (e : event) : Prop :=
  match e with
  | TimerFires => a_pc a = Scheduled ∨ a_pc a = Asleep
  | ConnectionFailed | ConnectionMade => a_connector a = Some Connecting
  | ConnectionLost => a_connector a = Some Up
  end.
#[export] Instance enabled_dec a e : Decision (enabled a e).
Proof.
  destruct e; cbn; unfold Decision;
    destruct a as [? ? ? ? [[]|] ? ? ? ? [] ? ?]; cbn; (left; naive_solver) || (right; naive_solver).
Defined.

Definition handle (e : event) : M agent unit :=
  match e with
  | TimerFires => keep_connected
  | ConnectionFailed =>
      _ ← modify (λ a, count_loss (set_connector (Some Down) a)); enter_disconnected
  | ConnectionMade =>
      _ ← modify (set_connector (Some Up)); _ ← build_protocol; enter_connected
  | ConnectionLost =>
      _ ← modify (λ a, count_loss (set_connector (Some Down) a)); enter_disconnected
  end.

(** What can happen to an agent, from its creation and start on *)
Inductive step (a : agent) : agent → Prop :=
  | step_event e r a' : enabled a e → handle e a = (r, a') → step a a'
  | step_stop r a' : stop a = (r, a') → step a a'.
Inductive reach (ep : string) (dp : Z) (dev : string) : agent → Prop :=
  | reach_start : reach ep dp dev (start (init ep dp dev)).2
  | reach_step a a' : reach ep dp dev a → step a a' → reach ep dp dev a'.

(** ** The agent keeps trying *)

Definition alive (a : agent) : Prop :=
  (a_connected a = true ↔ a_connector a = Some Up) ∧
  match a_pc a with
  | Scheduled => a_connector a = None ∧ a_attempts a = a_losses a
  | AwaitDisconnect =>
      (a_connector a = Some Connecting ∨ a_connector a = Some Up) ∧
      a_d_disconnected a = Some false ∧ a_attempts a = S (a_losses a)
  | Asleep => a_connector a = Some Down ∧ a_attempts a = a_losses a
  | _ => False
  end.

Definition inv (ep : string) (dp : Z) (dev : string) (a : agent) : Prop :=
  a_endpoint a = ep ∧ a_datapath_id a = dp ∧ a_device_id a = dev ∧ a_running a = true ∧
  (a_exiting a = false → is_Some (match resolve_endpoint ep with Ok x => Some x | _ => None end) → alive a).

(** Computes the outcome of an operation on an agent given by its fields. *)
Ltac run_agent :=
  cbn [handle keep_connected enter_disconnected enter_connected build_protocol fire_disconnected
       stop disconnect mbind M_bind modify get_state lift mret M_ret of_option start init
       a_endpoint a_datapath_id a_device_id a_running a_connector a_d_disconnected a_connected
       a_exiting a_proto_handler a_pc a_attempts a_losses set_connected set_connector set_pc
       set_disconnected set_exiting set_proto_handler set_running count_attempt count_loss
       enabled fst snd] in *.

Lemma inv_step ep dp dev a a' : inv ep dp dev a → step a a' → inv ep dp dev a'.
Proof.
  intros (He & Hdp & Hdev & Hrun & Halive) Hstep. destruct a as [ep' dp' dev' r c d conn ex ph p na nl].
  unfold inv, alive in *. run_agent. subst. destruct Hstep as [e r a' Hen Hh|r a' Hs].
  - destruct ex; destruct e; cbn in Hen; run_agent;
      unfold keep_connected, fire_disconnected, mbind, M_bind, modify, get_state in Hh; run_agent; cbn in Hh.
    + by injection Hh as _ <-.
    + by injection Hh as _ <-.
    + by injection Hh as _ <-.
    + by injection Hh as _ <-.
    + destruct (resolve_endpoint ep) as [hp|err] eqn:Hr; injection Hh as _ <-; run_agent;
        [|split_and!; try done; by intros _ []].
      split_and!; try done. intros _ _. specialize (Halive eq_refl ltac:(by eexists)).
      destruct Halive as [Hc Hp]. destruct Hen as [-> | ->]; naive_solver.
    + subst c. destruct d as [[]|]; injection Hh as _ <-; run_agent; split_and!; try done;
        intros _ Hr; specialize (Halive eq_refl Hr) as [Hc Hp]; destruct p; naive_solver.
    + subst c. injection Hh as _ <-. run_agent. split_and!; try done.
      intros _ Hr; specialize (Halive eq_refl Hr) as [Hc Hp]; destruct p; naive_solver.
    + subst c. destruct d as [[]|]; injection Hh as _ <-; run_agent; split_and!; try done;
        intros _ Hr; specialize (Halive eq_refl Hr) as [Hc Hp]; destruct p; naive_solver.
  - unfold stop, mbind, M_bind, modify, get_state, lift in Hs. run_agent. cbn in Hs.
    destruct c as [[]|]; cbn in Hs; injection Hs as _ <-; run_agent; by split_and!.
Qed.

Lemma reach_inv ep dp dev a : reach ep dp dev a → inv ep dp dev a.
Proof.
  induction 1 as [|a a' _ IH Hs]; [|by eapply inv_step].
  unfold inv. cbn. split_and!; try done.
Qed.

(** C21: an agent that was started and not stopped never gives up the controller,
    as long as its endpoint can be resolved: either a connection is being made or
    is up, and there was one attempt more than there were failures; or a timer is
    pending, and when it fires a new attempt is made.  Whatever the connector
    reports in between is handled without an exception, so that no Deferred is
    fired twice, and [connected] is true exactly while a connection is up. *)
Theorem agent_keeps_connecting ep dp dev hp a :
  resolve_endpoint ep = Ok hp → reach ep dp dev a → a_exiting a = false →
  (a_connected a = true ↔ a_connector a = Some Up) ∧
  (∀ e, enabled a e → ∃ a', handle e a = (Ok tt, a')) ∧
  ((a_connector a = Some Connecting ∨ a_connector a = Some Up) ∧ a_attempts a = S (a_losses a)
   ∨ enabled a TimerFires ∧ a_attempts a = a_losses a ∧
     ∃ a', handle TimerFires a = (Ok tt, a') ∧ a_connector a' = Some Connecting ∧
       a_attempts a' = S (a_attempts a)).
Proof.
  intros Hr (He & Hdp & Hdev & Hrun & Halive)%reach_inv Hex.
  destruct (Halive Hex ltac:(rewrite Hr; by eexists)) as [Hc Hp]. split; [done|].
  destruct a as [ep' dp' dev' r c d conn ex ph p na nl]. run_agent. subst.
  assert (resolve_endpoint ep = Ok hp) as Hr' by done.
  split.
  - intros e Hen. destruct e; cbn in *; unfold keep_connected, fire_disconnected, mbind, M_bind;
      run_agent; try rewrite Hr'; eauto; subst c; destruct p; naive_solver.
  - destruct p; try done.
    + right. split_and!; [by left|naive_solver|]. unfold keep_connected. cbn. rewrite Hr'. eauto.
    + left. naive_solver.
    + right. split_and!; [by right|naive_solver|]. unfold keep_connected. cbn. rewrite Hr'. eauto.
Qed.

(** Stopping an agent is final: whatever the reactor and the connector still
    report to it, it makes no further attempt to connect. *)
Theorem stop_is_final a r a1 a2 :
  stop a = (r, a1) → rtc step a1 a2 → a_exiting a2 = true ∧ a_attempts a2 = a_attempts a.
Proof.
  intros Hs Hsteps.
  assert (a_exiting a1 = true ∧ a_attempts a1 = a_attempts a) as [Hex Hat].
  { unfold stop, mbind, M_bind, modify, get_state, lift in Hs. destruct a as [? ? ? ? [[]|]];
      cbn in Hs; by injection Hs as _ <-. }
  rewrite <- Hat. clear Hs Hat r a. induction Hsteps as [a|a a' a2 Hstep _ IH]; [done|].
  assert (a_exiting a' = true ∧ a_attempts a' = a_attempts a) as [Hex' <-]; [|by apply IH].
  destruct a as [ep' dp' dev' r c d conn ex ph p na nl]. run_agent. subst.
  destruct Hstep as [[] r' a' Hen Hh|r' a' Hs'].
  1-4: by injection Hh as _ <-.
  unfold stop, mbind, M_bind, modify, get_state, lift in Hs'. run_agent.
  destruct c as [[]|]; cbn in Hs'; by injection Hs' as _ <-.
Qed.

(** ** The connection manager *)

(** What the manager reads of a logical device *)
Record device : Type := mk_device { d_id : string; d_datapath_id : Z }.

Record manager : Type := mk_manager {
  cm_controller_endpoint : string;
  cm_agents : list agent;                  (** the heap: every agent ever made *)
  cm_agent_map : gmap Z nat;               (** datapath id to agent *)
  cm_device_map : gmap string Z;           (** device id to datapath id *)
}.
Definition new_manager (controller_endpoint : string) : manager :=
  mk_manager controller_endpoint [] ∅ ∅.

Definition set_agents l (m : manager) : manager :=
  mk_manager (cm_controller_endpoint m) l (cm_agent_map m) (cm_device_map m).
Definition set_agent_map mp (m : manager) : manager :=
  mk_manager (cm_controller_endpoint m) (cm_agents m) mp (cm_device_map m).
Definition set_device_map mp (m : manager) : manager :=
  mk_manager (cm_controller_endpoint m) (cm_agents m) (cm_agent_map m) mp.

(** A method of the agent with the given address *)
Definition on_agent {A} (i : nat) (op : M agent A) : M manager A := λ m,
  match cm_agents m !! i with
  | None => (Raise AttributeError, m)
  | Some a => let '(r, a') := op a in (r, set_agents (<[i := a']> (cm_agents m)) m)
  end.

Definition create_agent (d : device) : M manager unit :=
  m ← get_state;
  let i := length (cm_agents m) in
  _ ← modify (set_agents (cm_agents m ++ [init (cm_controller_endpoint m) (d_datapath_id d) (d_id d)]));
  _ ← on_agent i start;
  _ ← modify (λ m, set_agent_map (<[d_datapath_id d := i]> (cm_agent_map m)) m);
  modify (λ m, set_device_map (<[d_id d := d_datapath_id d]> (cm_device_map m)) m).

Definition delete_agent (datapath_id : Z) : M manager unit :=
  m ← get_state;
  i ← lift (of_option KeyError (cm_agent_map m !! datapath_id));
  a ← lift (of_option AttributeError (cm_agents m !! i));
  let device_id := a_device_id a in
  _ ← on_agent i stop;
  _ ← modify (λ m, set_agent_map (delete datapath_id (cm_agent_map m)) m);
  m ← get_state;
  _ ← lift (of_option KeyError (cm_device_map m !! device_id));
  modify (λ m, set_device_map (delete device_id (cm_device_map m)) m).

Fixpoint delete_agents (datapath_ids : list Z) : M manager unit :=
  match datapath_ids with
  | [] => mret tt
  | dp :: dps => _ ← delete_agent dp; delete_agents dps
  end.
Fixpoint create_agents (devices : list device) (to_add : gset Z) : M manager unit :=
  match devices with
  | [] => mret tt
  | d :: devices =>
      _ ← (if bool_decide (d_datapath_id d ∈ to_add) then create_agent d else mret tt);
      create_agents devices to_add
  end.

Definition refresh_agent_connections (devices : list device) : M manager unit :=
  m ← get_state;
  let desired : gset Z := list_to_set (d_datapath_id <$> devices) in
  let current : gset Z := dom (cm_agent_map m) in
  if bool_decide (desired = current) then mret tt
  else
    _ ← delete_agents (elements (current ∖ desired));
    create_agents devices (desired ∖ current).

(** [forward_packet_in]: the agent a packet from a device is handed to; a
    datapath id of zero counts as absent. *)
Definition forward_packet_in (device_id : string) (m : manager) : result (option nat) :=
  match cm_device_map m !! device_id with
  | None => Ok None
  | Some dp =>
      if bool_decide (dp = 0%Z) then Ok None
      else i ← of_option KeyError (cm_agent_map m !! dp); Ok (Some i)
  end.

(** ** The manager's agents are those of the device list *)

(** [tracks m devices]: the running agents are one per device, filed under its
    datapath, and the device map is that of the list. *)
Record tracks (m : manager) (devices : list device) : Prop := {
  tracks_dom dp : is_Some (cm_agent_map m !! dp) ↔ dp ∈ d_datapath_id <$> devices;
  tracks_devices id dp : cm_device_map m !! id = Some dp ↔ mk_device id dp ∈ devices;
  tracks_agent d : d ∈ devices → ∃ i a,
    cm_agent_map m !! d_datapath_id d = Some i ∧ cm_agents m !! i = Some a ∧
    a_datapath_id a = d_datapath_id d ∧ a_device_id a = d_id d ∧
    a_running a = true ∧ a_exiting a = false;
  tracks_no_leak i a : cm_agents m !! i = Some a → a_exiting a = false →
    cm_agent_map m !! a_datapath_id a = Some i;
}.

Lemma tracks_ext m l1 l2 : (∀ d, d ∈ l1 ↔ d ∈ l2) → tracks m l1 → tracks m l2.
Proof.
  intros Heq [H1 H2 H3 H4]. split; [|intros; by rewrite <- Heq, H2|intros d ?; apply H3; by rewrite Heq|done].
  intros dp. rewrite H1, !list_elem_of_fmap. by setoid_rewrite Heq.
Qed.

(** A datapath belongs to one device. *)
Lemma tracks_unique m ds d d' :
  tracks m ds → d ∈ ds → d' ∈ ds → d_datapath_id d = d_datapath_id d' → d = d'.
Proof.
  intros Ht Hd Hd' Hdp.
  destruct (tracks_agent _ _ Ht d Hd) as (i & a & Hi & Ha & _ & Hid & _).
  destruct (tracks_agent _ _ Ht d' Hd') as (i' & a' & Hi' & Ha' & _ & Hid' & _).
  rewrite <- Hdp, Hi in Hi'. injection Hi' as <-. rewrite Ha in Ha'. injection Ha' as <-.
  destruct d, d'. cbn in *. congruence.
Qed.

Lemma stop_connected a c :
  a_connector a = Some c →
  ∃ a', stop a = (Ok tt, a') ∧ a_exiting a' = true.
Proof.
  destruct a as [? ? ? ? [[]|]]; intros [= <-]; unfold stop, mbind, M_bind; cbn; eauto.
Qed.

Lemma delete_agent_tracks m ds d i a c :
  tracks m ds → d ∈ ds → cm_agent_map m !! d_datapath_id d = Some i →
  cm_agents m !! i = Some a → a_connector a = Some c →
  ∃ a' m', delete_agent (d_datapath_id d) m = (Ok tt, m') ∧
    cm_agents m' = <[i := a']> (cm_agents m) ∧ a_exiting a' = true ∧
    cm_agent_map m' = delete (d_datapath_id d) (cm_agent_map m) ∧
    tracks m' (filter (λ x, d_datapath_id x ≠ d_datapath_id d) ds).
Proof.
  intros Ht Hd Hi Ha Hc. destruct (stop_connected a c Hc) as (a' & Hstop & Hex).
  assert (a_device_id a = d_id d) as Hid.
  { destruct (tracks_agent _ _ Ht d Hd) as (i' & a1 & Hi' & Ha' & _ & Hid & _). congruence. }
  exists a'. eexists. split.
  { unfold delete_agent. erewrite M_bind_eq by done. rewrite Hi. erewrite M_bind_eq by done.
    rewrite Ha. erewrite M_bind_eq by done. cbv zeta. rewrite Hid.
    erewrite M_bind_eq by (unfold on_agent; rewrite Ha, Hstop; done).
    do 2 erewrite M_bind_eq by done. cbn [cm_device_map set_agents set_agent_map].
    assert (cm_device_map m !! d_id d = Some (d_datapath_id d)) as ->
      by (apply (tracks_devices _ _ Ht); by destruct d).
    by erewrite M_bind_eq. }
  cbn. split_and!; [done..|]. split; cbn.
  - intros dp. rewrite list_elem_of_fmap. setoid_rewrite list_elem_of_filter.
    destruct (decide (dp = d_datapath_id d)) as [->|Hne].
    + rewrite lookup_delete_eq. split; [by intros []|intros (x & Hx & Hne & _); congruence].
    + rewrite lookup_delete_ne by done. rewrite (tracks_dom _ _ Ht), list_elem_of_fmap.
      split; intros (x & -> & ?); exists x; naive_solver.
  - intros id dp. rewrite list_elem_of_filter. cbn.
    rewrite lookup_delete_Some, (tracks_devices _ _ Ht). split.
    + intros [Hne Hin]. split; [|done]. intros ->. apply Hne.
      by apply (f_equal d_id (tracks_unique _ _ d _ Ht Hd Hin eq_refl)).
    + intros [Hne Hin]. split; [|done]. intros <-. apply Hne.
      assert (cm_device_map m !! d_id d = Some dp) as H1 by by apply (tracks_devices _ _ Ht).
      assert (cm_device_map m !! d_id d = Some (d_datapath_id d)) as H2
        by (apply (tracks_devices _ _ Ht); by destruct d).
      congruence.
  - intros x [Hne Hx]%list_elem_of_filter.
    destruct (tracks_agent _ _ Ht x Hx) as (j & b & Hj & Hb & Hrest). exists j, b.
    rewrite lookup_delete_ne by done. split; [done|]. split; [|done].
    rewrite list_lookup_insert_ne; [done|]. intros ->. apply Hne.
    destruct (tracks_agent _ _ Ht d Hd) as (i' & a1 & Hi' & Ha' & Hdp & _). naive_solver congruence.
  - intros j b Hj Hexb. destruct (decide (j = i)) as [->|Hne].
    + rewrite list_lookup_insert_eq in Hj by (by eapply lookup_lt_Some). congruence.
    + rewrite list_lookup_insert_ne in Hj by done.
      pose proof (tracks_no_leak _ _ Ht j b Hj Hexb) as Hm. rewrite lookup_delete_ne; [done|].
      intros Heq. rewrite <- Heq, Hi in Hm. congruence.
Qed.

Lemma create_agent_tracks m ds d :
  tracks m ds → d_datapath_id d ∉ d_datapath_id <$> ds → d_id d ∉ d_id <$> ds →
  ∃ m', create_agent d m = (Ok tt, m') ∧ tracks m' (ds ++ [d]) ∧
    ∀ i a, cm_agents m !! i = Some a → cm_agents m' !! i = Some a.
Proof.
  intros Ht Hdp Hid. eexists. split.
  { unfold create_agent. erewrite M_bind_eq by done. cbv zeta. erewrite M_bind_eq by done.
    erewrite M_bind_eq.
    2:{ unfold on_agent. cbn [cm_agents set_agents]. by rewrite list_lookup_middle. }
    erewrite M_bind_eq by done. unfold modify. done. }
  cbn. rewrite insert_app_r_alt by lia. rewrite Nat.sub_diag. cbn [list_insert insert].
  split; [|intros i a Hi; by apply lookup_app_l_Some].
  assert (cm_agent_map m !! d_datapath_id d = None) as Hnew.
  { apply eq_None_not_Some. by rewrite (tracks_dom _ _ Ht). }
  split; cbn.
  - intros dp. rewrite fmap_app, elem_of_app. cbn [fmap list_fmap].
    rewrite list_elem_of_singleton, lookup_insert_is_Some', (tracks_dom _ _ Ht). naive_solver.
  - intros id dp. rewrite elem_of_app, list_elem_of_singleton, lookup_insert_Some, (tracks_devices _ _ Ht).
    split.
    + intros [[<- <-]|[Hne ?]]; [right; by destruct d|by left].
    + intros [Hin|<-]; [right|by left; cbn]. split; [|done].
      intros <-. apply Hid, list_elem_of_fmap. by exists (mk_device (d_id d) dp).
  - intros x [Hx| ->%list_elem_of_singleton]%elem_of_app.
    + destruct (tracks_agent _ _ Ht x Hx) as (j & b & Hj & Hb & Hrest). exists j, b.
      rewrite lookup_insert_ne by congruence. split_and!; [done|by apply lookup_app_l_Some|apply Hrest..].
    + eexists _, _. rewrite lookup_insert_eq. split; [done|].
      rewrite list_lookup_middle by done. by split_and!.
  - intros i a Hi Hex. apply lookup_app_Some in Hi as [Hi|[Hge Hi]].
    + rewrite lookup_insert_ne; [by apply (tracks_no_leak _ _ Ht)|].
      intros Heq. rewrite Heq, (tracks_no_leak _ _ Ht i a Hi Hex) in Hnew. done.
    + apply list_lookup_singleton_Some in Hi as [Hi <-]. cbn. rewrite lookup_insert_eq. f_equal. lia.
Qed.

(** Every agent of the manager for one of these datapaths has tried to connect. *)
Definition attempted (m : manager) (dps : list Z) : Prop :=
  ∀ dp i a, dp ∈ dps → cm_agent_map m !! dp = Some i → cm_agents m !! i = Some a → is_Some (a_connector a).

Lemma delete_agents_tracks dps m ds :
  tracks m ds → NoDup dps → (∀ dp, dp ∈ dps → dp ∈ d_datapath_id <$> ds) → attempted m dps →
  ∃ m', delete_agents dps m = (Ok tt, m') ∧ tracks m' (filter (λ d, d_datapath_id d ∉ dps) ds) ∧
    ∀ dp i a, dp ∉ dps → cm_agent_map m !! dp = Some i → cm_agents m !! i = Some a →
      cm_agents m' !! i = Some a.
Proof.
  revert m ds. induction dps as [|dp dps IH]; intros m ds Ht Hnd Hsub Hatt.
  { exists m. split_and!; [done| |done]. eapply tracks_ext; [|done]. intros d.
    rewrite list_elem_of_filter, elem_of_nil. naive_solver. }
  apply NoDup_cons in Hnd as [Hni Hnd].
  assert (dp ∈ d_datapath_id <$> ds) as (d & -> & Hd)%list_elem_of_fmap by (apply Hsub; left).
  destruct (tracks_agent _ _ Ht d Hd) as (i & a & Hi & Ha & Hadp & _).
  destruct (Hatt (d_datapath_id d) i a ltac:(left) Hi Ha) as [c Hc].
  destruct (delete_agent_tracks m ds d i a c Ht Hd Hi Ha Hc) as (a' & m1 & Hdel & Hag & Hex & Hmap & Ht1).
  assert (∀ dp j, dp ≠ d_datapath_id d → cm_agent_map m !! dp = Some j → j ≠ i) as Hother.
  { intros dp j Hne Hj ->. apply Hne. rewrite <- Hadp.
    assert (dp ∈ d_datapath_id <$> ds) as (x & -> & Hx)%list_elem_of_fmap
      by (apply (tracks_dom _ _ Ht); by eexists).
    destruct (tracks_agent _ _ Ht x Hx) as (j' & b & Hj' & Hb & Hbdp & _). congruence. }
  destruct (IH m1 _ Ht1 Hnd) as (m2 & Hdels & Ht2 & Hkeep).
  { intros dp Hin. specialize (Hsub dp ltac:(by right)). apply list_elem_of_fmap in Hsub as (x & -> & Hx).
    apply list_elem_of_fmap. exists x. split; [done|]. apply list_elem_of_filter. split; [|done]. congruence. }
  { intros dp j b Hin Hj Hb. assert (dp ≠ d_datapath_id d) as Hne by congruence.
    rewrite Hmap, lookup_delete_ne in Hj by done.
    rewrite Hag, list_lookup_insert_ne in Hb by (symmetry; by eapply Hother).
    eapply (Hatt dp); [by right|done..]. }
  exists m2. split_and!.
  - cbn [delete_agents]. by erewrite M_bind_eq.
  - eapply tracks_ext; [|exact Ht2]. intros x. rewrite !list_elem_of_filter, not_elem_of_cons. naive_solver.
  - intros dp j b [Hne Hnin]%not_elem_of_cons Hj Hb.
    eapply (Hkeep dp); [done| |].
    + by rewrite Hmap, lookup_delete_ne.
    + rewrite Hag, list_lookup_insert_ne; [done|]. symmetry. by eapply Hother.
Qed.

Lemma create_agents_tracks new to_add m ds :
  tracks m ds → NoDup (d_datapath_id <$> new) → NoDup (d_id <$> new) →
  (∀ d x, d ∈ new → d_datapath_id d ∈ to_add → x ∈ ds → d_datapath_id d ≠ d_datapath_id x ∧ d_id d ≠ d_id x) →
  ∃ m', create_agents new to_add m = (Ok tt, m') ∧
    tracks m' (ds ++ filter (λ d, d_datapath_id d ∈ to_add) new) ∧
    ∀ i a, cm_agents m !! i = Some a → cm_agents m' !! i = Some a.
Proof.
  revert m ds. induction new as [|d new IH]; intros m ds Ht Hdp Hid Hfresh.
  { exists m. by rewrite app_nil_r. }
  cbn [create_agents]. cbn [fmap list_fmap] in Hdp, Hid.
  apply NoDup_cons in Hdp as [Hdpn Hdp], Hid as [Hidn Hid].
  destruct (decide (d_datapath_id d ∈ to_add)) as [Hin|Hni].
  - rewrite bool_decide_eq_true_2 by done. rewrite filter_cons_True by done.
    destruct (create_agent_tracks m ds d Ht) as (m1 & Hc & Ht1 & Hkeep).
    { intros (x & Hx & Hxin)%list_elem_of_fmap. by destruct (Hfresh d x ltac:(left) Hin Hxin). }
    { intros (x & Hx & Hxin)%list_elem_of_fmap. by destruct (Hfresh d x ltac:(left) Hin Hxin). }
    destruct (IH m1 (ds ++ [d]) Ht1 Hdp Hid) as (m2 & Hc2 & Ht2 & Hkeep2).
    { intros y x Hy Hyadd [Hx| ->%list_elem_of_singleton]%elem_of_app; [by apply Hfresh; [right|..]|].
      split; intros Heq; [apply Hdpn|apply Hidn]; rewrite <- Heq; by apply list_elem_of_fmap_2. }
    exists m2. split_and!; [by erewrite M_bind_eq|by rewrite <- (assoc_L (++)) in Ht2|eauto].
  - rewrite bool_decide_eq_false_2 by done. rewrite filter_cons_False by done.
    erewrite M_bind_eq by done. apply IH; try done. intros y x Hy. apply Hfresh. by right.
Qed.

(** Devices of two lists that share a datapath are the same *)
Lemma stays (old new : list device) d :
  (∀ d d', d ∈ old → d' ∈ new → d_datapath_id d = d_datapath_id d' → d = d') →
  d ∈ old → d_datapath_id d ∈ d_datapath_id <$> new → d ∈ new.
Proof. intros Hstable Hd (x & Hx & Hxin)%list_elem_of_fmap. by rewrite (Hstable d x Hd Hxin Hx). Qed.

(** Deleting what is obsolete and adding what is new gives the new list. *)
Lemma refreshed_elem (old new : list device) (desired current : gset Z) d :
  (∀ d d', d ∈ old → d' ∈ new → d_datapath_id d = d_datapath_id d' → d = d') →
  (∀ dp, dp ∈ desired ↔ dp ∈ d_datapath_id <$> new) → (∀ dp, dp ∈ current ↔ dp ∈ d_datapath_id <$> old) →
  d ∈ filter (λ d, d_datapath_id d ∉ elements (current ∖ desired)) old ++
      filter (λ d, d_datapath_id d ∈ desired ∖ current) new ↔ d ∈ new.
Proof.
  intros Hstable Hdes Hcur. rewrite elem_of_app, !list_elem_of_filter.
  rewrite elem_of_elements, !elem_of_difference, Hcur, Hdes. split.
  - intros [[Hn Hd]|[_ Hd]]; [|done]. apply (stays old new); [done..|].
    pose proof (list_elem_of_fmap_2 d_datapath_id old d Hd). apply dec_stable. naive_solver.
  - intros Hd. pose proof (list_elem_of_fmap_2 d_datapath_id new d Hd) as Hn.
    destruct (decide (d_datapath_id d ∈ d_datapath_id <$> old)) as [Ho|Ho]; [left|right; naive_solver].
    split; [naive_solver|]. apply (stays new old); [|done..]. intros x y Hx Hy Hxy. symmetry. by apply Hstable.
Qed.

(** C22: after a refresh the agents are those of the new device list: one running
    agent per device, under its datapath, all others stopped; the agents of
    devices that stay are not touched.  This needs the datapath ids and the device
    ids of the new list to be unique, every datapath id that both lists have to be
    that of the same device in both, and every agent that is dropped to have made a
    connection attempt.  (A new device with the datapath id of an old one is not
    noticed: [reused_datapath_keeps_agent].) *)
Theorem refresh_exact m old new :
  tracks m old → NoDup (d_datapath_id <$> new) → NoDup (d_id <$> new) →
  (∀ d d', d ∈ old → d' ∈ new → d_datapath_id d = d_datapath_id d' → d = d') →
  attempted m (filter (λ dp, dp ∉ d_datapath_id <$> new) (d_datapath_id <$> old)) →
  ∃ m', refresh_agent_connections new m = (Ok tt, m') ∧ tracks m' new ∧
    ∀ d i a, d ∈ new → cm_agent_map m !! d_datapath_id d = Some i → cm_agents m !! i = Some a →
      cm_agents m' !! i = Some a.
Proof.
  intros Ht Hdp Hid Hstable Hatt. unfold refresh_agent_connections. erewrite M_bind_eq by done. cbv zeta.
  set (desired := list_to_set (d_datapath_id <$> new) : gset Z).
  set (current := dom (cm_agent_map m)).
  assert (∀ dp, dp ∈ desired ↔ dp ∈ d_datapath_id <$> new) as Hdes
    by (intros dp; unfold desired; apply elem_of_list_to_set).
  assert (∀ dp, dp ∈ current ↔ dp ∈ d_datapath_id <$> old) as Hcur
    by (intros dp; unfold current; rewrite elem_of_dom; apply (tracks_dom _ _ Ht)).
  case_bool_decide as Heq.
  { exists m. split_and!; [done| |done]. eapply tracks_ext; [|exact Ht]. intros d. split; intros Hd.
    - apply (stays old new); [done..|]. rewrite <- Hdes, Heq, Hcur. by apply list_elem_of_fmap_2.
    - apply (stays new old); [intros x y Hx Hy Hxy; symmetry; by apply Hstable|done|]. rewrite <- Hcur, <- Heq, Hdes. by apply list_elem_of_fmap_2. }
  destruct (delete_agents_tracks (elements (current ∖ desired)) m old Ht) as (m1 & Hdel & Ht1 & Hkeep1).
  { apply NoDup_elements. }
  { intros dp. rewrite elem_of_elements, elem_of_difference, Hcur. by intros []. }
  { intros dp i a. rewrite elem_of_elements, elem_of_difference, Hcur, Hdes. intros [? ?].
    apply Hatt. by apply list_elem_of_filter. }
  destruct (create_agents_tracks new (desired ∖ current) m1 _ Ht1 Hdp Hid) as (m2 & Hcr & Ht2 & Hkeep2).
  { intros d x Hd Hadd [Hxk Hx]%list_elem_of_filter. rewrite elem_of_difference, Hcur in Hadd.
    rewrite elem_of_elements, elem_of_difference, Hcur, Hdes in Hxk.
    pose proof (list_elem_of_fmap_2 d_datapath_id old x Hx) as Hxo.
    split; intros Heq'; [destruct Hadd as [_ []]; by rewrite Heq'|].
    assert (x ∈ new) as Hxn by (apply (stays old new); [done..|]; apply dec_stable; naive_solver).
    destruct Hadd as [_ []]. by rewrite (NoDup_fmap_inj d_id new d x). }
  exists m2. split_and!.
  - by erewrite M_bind_eq.
  - eapply tracks_ext; [|exact Ht2]. intros d. by apply refreshed_elem.
  - intros d i a Hd Hi Ha. apply Hkeep2. eapply (Hkeep1 (d_datapath_id d)); [|done..].
    rewrite elem_of_elements, elem_of_difference, Hdes. intros [_ []]. by apply list_elem_of_fmap_2.
Qed.

Lemma forward_tracks m ds id :
  tracks m ds → (∀ d, d ∈ ds → d_datapath_id d ≠ 0%Z) →
  (id ∉ d_id <$> ds → forward_packet_in id m = Ok None) ∧
  (∀ d, d ∈ ds → d_id d = id → ∃ i a,
     forward_packet_in id m = Ok (Some i) ∧ cm_agents m !! i = Some a ∧ a_device_id a = id ∧
     a_running a = true ∧ a_exiting a = false ∧
     ∀ j b, cm_agents m !! j = Some b → a_exiting b = false → a_device_id b = id → j = i).
Proof.
  intros Ht Hnz. unfold forward_packet_in. split.
  - intros Hni. destruct (cm_device_map m !! id) as [dp|] eqn:Hdp; [|done]. destruct Hni.
    apply (tracks_devices _ _ Ht) in Hdp. by apply (list_elem_of_fmap_2 d_id) in Hdp.
  - intros d Hd <-. destruct (tracks_agent _ _ Ht d Hd) as (i & a & Hi & Ha & Hadp & Haid & Hrun & Hex).
    assert (cm_device_map m !! d_id d = Some (d_datapath_id d)) as Hdm
      by (apply (tracks_devices _ _ Ht); by destruct d).
    exists i, a. rewrite Hdm, bool_decide_eq_false_2, Hi by by apply Hnz. split_and!; try done.
    intros j b Hb Hexb Hbid. pose proof (tracks_no_leak _ _ Ht j b Hb Hexb) as Hj.
    assert (a_datapath_id b ∈ d_datapath_id <$> ds) as (x & Hx & Hxin)%list_elem_of_fmap
      by (apply (tracks_dom _ _ Ht); by eexists).
    destruct (tracks_agent _ _ Ht x Hxin) as (j' & b' & Hj' & Hb' & _ & Hb'id & _).
    assert (cm_device_map m !! d_id d = Some (d_datapath_id x)) as Hdm'.
    { apply (tracks_devices _ _ Ht). destruct x as [xid xdp]. cbn in *. congruence. }
    congruence.
Qed.

(** A packet from a device of the list is handed to the running agent of its
    datapath and to no other; a packet from an unknown device is dropped.  A
    datapath id of zero would count as absent. *)
Theorem packet_reaches_agent m ds id :
  tracks m ds → (∀ d, d ∈ ds → d_datapath_id d ≠ 0%Z) →
  (id ∉ d_id <$> ds → forward_packet_in id m = Ok None) ∧
  (∀ d, d ∈ ds → d_id d = id → ∃ i a,
     forward_packet_in id m = Ok (Some i) ∧ cm_agents m !! i = Some a ∧ a_device_id a = id ∧
     a_running a = true ∧ a_exiting a = false ∧
     ∀ j b, cm_agents m !! j = Some b → a_exiting b = false → a_device_id b = id → j = i).
Proof. apply forward_tracks. Qed.

(** ** Witnesses *)

Definition dev1 : device := mk_device "dev1" 1.
Definition dev2 : device := mk_device "dev2" 2.
Definition endpoint : string := "onos:6653".
Definition m0 : manager := new_manager endpoint.
Definition m1 : manager := (refresh_agent_connections [dev1] m0).2.
(** the agent of [dev1] has run [keep_connected] *)
Definition m2 : manager := Eval vm_compute in (on_agent 0 keep_connected m1).2.

Lemma tracks_new ep : tracks (new_manager ep) [].
Proof.
  split; cbn.
  - intros dp. rewrite lookup_empty. split; [by intros []|by intros ?%not_elem_of_nil].
  - intros id dp. rewrite lookup_empty. split; [done|by intros ?%not_elem_of_nil].
  - by intros d ?%not_elem_of_nil.
  - intros i a. by rewrite lookup_nil.
Qed.

Lemma agent_keeps_connecting_witness :
  ∃ a', handle TimerFires (start (init endpoint 1 "dev1")).2 = (Ok tt, a') ∧ a_connector a' = Some Connecting.
Proof.
  assert (resolve_endpoint endpoint = Ok ("onos", 6653%Z)) as Hr by (vm_compute; reflexivity).
  destruct (agent_keeps_connecting endpoint 1 "dev1" ("onos", 6653%Z) (start (init endpoint 1 "dev1")).2
    Hr (reach_start endpoint 1 "dev1") eq_refl) as (_ & _ & [[Hc _]|(_ & _ & a' & Ha & Hc & _)]).
  { by destruct Hc. }
  by exists a'.
Defined.

Definition trying : agent := Eval vm_compute in (keep_connected (start (init endpoint 1 "dev1")).2).2.

Lemma stop_is_final_witness : a_attempts (stop trying).2 = 1.
Proof.
  destruct (stop_is_final trying (Ok tt) (stop trying).2 (stop trying).2) as [_ ->];
    [reflexivity|apply rtc_refl|]. reflexivity.
Defined.

Lemma tracks_m2 : tracks m2 [dev1].
Proof.
  split.
  - intros dp. change (cm_agent_map m2) with ({[1%Z := 0]} : gmap Z nat).
    rewrite lookup_singleton_is_Some. cbn. rewrite list_elem_of_singleton. done.
  - intros id dp. change (cm_device_map m2) with ({["dev1" := 1%Z]} : gmap string Z).
    rewrite lookup_singleton_Some, list_elem_of_singleton. unfold dev1. naive_solver.
  - intros d ->%list_elem_of_singleton. eexists 0, _. by split_and!.
  - intros [|i] a; [|done]. intros [= <-] _. done.
Qed.

Lemma refresh_exact_witness :
  ∃ m', refresh_agent_connections [dev2] m2 = (Ok tt, m') ∧ tracks m' [dev2].
Proof.
  destruct (refresh_exact m2 [dev1] [dev2]) as (m' & Hm & Ht & _).
  - apply tracks_m2.
  - apply (bool_decide_unpack _). vm_compute. exact I.
  - apply (bool_decide_unpack _). vm_compute. exact I.
  - intros d d' ->%list_elem_of_singleton ->%list_elem_of_singleton. done.
  - intros dp i a. cbn. intros ->%list_elem_of_singleton [= <-] [= <-]. by eexists.
  - by exists m'.
Defined.

(** A new device with the datapath id of a device that is gone: nothing is done,
    the agent still has the old device, and packets of the new one are dropped. *)
Example reused_datapath_keeps_agent :
  refresh_agent_connections [mk_device "dev3" 1] m2 = (Ok tt, m2) ∧
  forward_packet_in "dev3" m2 = Ok None ∧ a_device_id <$> cm_agents m2 !! 0 = Some "dev1".
Proof. vm_compute. by split_and!. Qed.

Lemma packet_reaches_agent_witness : ∃ i, forward_packet_in "dev1" m2 = Ok (Some i).
Proof.
  destruct (packet_reaches_agent m2 [dev1] "dev1") as [_ H].
  - apply tracks_m2.
  - by intros d ->%list_elem_of_singleton.
  - destruct (H dev1) as (i & a & Hi & _); [by apply list_elem_of_singleton|done|]. by exists i.
Defined.
End OfAgents.
