(* ===== verification/OfConverter.v ===== *)
(** * Conversion between OpenFlow bindings and messages (ofagent/converter.py)

    [to_grpc] turns the objects of the OpenFlow bindings (loxi) into VOLTHA's
    messages, [to_loxi] goes back.  Both look the converter up by class, so that a
    class without converter is a KeyError.  [to_loxi] reads flows through a
    dictionary that holds the fields which are set: that dictionary is made by
    protobuf_to_dict, a parameter with its documented behaviour. *)

From stdpp Require Import prelude strings list.
From S2P Require Import Prelude OFP.

(** ** Objects of the bindings (loxi.of13)

    The classes that have converters, and any other one by its name. *)
Inductive loxi_oxm : Type :=
  | oxm_eth_type (value : Z)
  | oxm_in_port (value : Z)
  | oxm_ip_proto (value : Z)
  | oxm_vlan_vid (value : Z)
  | oxm_vlan_pcp (value : Z)
  | oxm_ipv4_dst (value : Z)
  | oxm_other (cls : string).

Inductive loxi_action : Type :=
  | action_output (port max_len : Z)
  | action_group (group_id : Z)
  | action_set_field (field : loxi_oxm)
  | action_pop_vlan
  | action_push_vlan (ethertype : Z)
  | action_other (cls : string).

Inductive loxi_instruction : Type :=
  | instruction_apply_actions (actions : list loxi_action)
  | instruction_goto_table (table_id : Z)
  | instruction_other (cls : string).

Record loxi_bucket : Type := mk_loxi_bucket {
  lb_weight : Z;
  lb_watch_port : Z;
  lb_watch_group : Z;
  lb_actions : list loxi_action;
}.

(** The classes flow_add, flow_modify, ... fix the attribute [_command], and
    group_add, ... the attribute [command]; group_mod itself has no converter. *)
Inductive flow_mod_class : Type := flow_add_cls | flow_modify_cls | flow_modify_strict_cls
  | flow_delete_cls | flow_delete_strict_cls.
Definition _command (c : flow_mod_class) : Z :=
  match c with
  | flow_add_cls => OFPFC_ADD
  | flow_modify_cls => OFPFC_MODIFY
  | flow_modify_strict_cls => OFPFC_MODIFY_STRICT
  | flow_delete_cls => OFPFC_DELETE
  | flow_delete_strict_cls => OFPFC_DELETE_STRICT
  end.
Inductive group_mod_class : Type := group_add_cls | group_delete_cls | group_modify_cls.
Definition command (c : group_mod_class) : Z :=
  match c with
  | group_add_cls => OFPGC_ADD
  | group_delete_cls => OFPGC_DELETE
  | group_modify_cls => OFPGC_MODIFY
  end.

Record loxi_flow_mod : Type := mk_loxi_flow_mod {
  lf_class : flow_mod_class;
  lf_cookie : Z;
  lf_cookie_mask : Z;
  lf_table_id : Z;
  lf_idle_timeout : Z;
  lf_hard_timeout : Z;
  lf_priority : Z;
  lf_buffer_id : Z;
  lf_out_port : Z;
  lf_out_group : Z;
  lf_flags : Z;
  lf_match : list loxi_oxm;                  (** [match_v3.oxm_list] *)
  lf_instructions : list loxi_instruction;
}.
Record loxi_group_mod : Type := mk_loxi_group_mod {
  lg_class : group_mod_class;
  lg_group_type : Z;
  lg_group_id : Z;
  lg_buckets : list loxi_bucket;
}.
Record loxi_packet_out : Type := mk_loxi_packet_out {
  lp_buffer_id : Z;
  lp_in_port : Z;
  lp_actions : list loxi_action;
  lp_data : string;
}.

(** ofp_packet_out *)
Record packet_out : Type := mk_packet_out {
  po_buffer_id : Z;
  po_in_port : Z;
  po_actions : list action;
  po_data : string;
}.

(** ofp_packet_in *)
Record packet_in : Type := mk_packet_in {
  pi_buffer_id : Z;
  pi_reason : Z;
  pi_table_id : Z;
  pi_cookie : Z;
  pi_match : ofp_match;
  pi_data : string;
}.

#[export] Instance loxi_oxm_eq_dec : EqDecision loxi_oxm. Proof. solve_decision. Defined.
#[export] Instance loxi_action_eq_dec : EqDecision loxi_action. Proof. solve_decision. Defined.
#[export] Instance loxi_instruction_eq_dec : EqDecision loxi_instruction. Proof. solve_decision. Defined.

(** ** [to_grpc] *)

Definition basic (f : ofb_field) : oxm_field := mk_oxm_field OFPXMC_OPENFLOW_BASIC (inl f).

Definition loxi_oxm_to_ofp_oxm (lo : loxi_oxm) : result oxm_field :=
  match lo with
  | oxm_eth_type v => Ok (basic (eth_type v))
  | oxm_in_port v => Ok (basic (in_port v))
  | oxm_ip_proto v => Ok (basic (ip_proto v))
  | oxm_vlan_vid v => Ok (basic (vlan_vid v))
  | oxm_vlan_pcp v => Ok (basic (vlan_pcp v))
  | oxm_ipv4_dst v => Ok (basic (ipv4_dst v))
  | oxm_other _ => Raise KeyError
  end.

Definition loxi_action_to_ofp_action (lo : loxi_action) : result action :=
  match lo with
  | action_output port max_len => Ok (mk_action OUTPUT (ActOutput port max_len))
  | action_group group_id => Ok (mk_action GROUP (ActGroup group_id))
  | action_set_field field => f ← loxi_oxm_to_ofp_oxm field; Ok (mk_action SET_FIELD (ActSetField f))
  | action_pop_vlan => Ok (mk_action POP_VLAN NoBody)
  | action_push_vlan ethertype => Ok (mk_action PUSH_VLAN (ActPush ethertype))
  | action_other _ => Raise KeyError
  end.

Definition loxi_instruction_to_ofp_instruction (lo : loxi_instruction) : result instruction :=
  match lo with
  | instruction_apply_actions actions =>
      l ← mapM loxi_action_to_ofp_action actions;
      Ok (mk_instruction OFPIT_APPLY_ACTIONS (InsActions l))
  | instruction_goto_table table_id => Ok (mk_instruction OFPIT_GOTO_TABLE (InsGotoTable table_id))
  | instruction_other _ => Raise KeyError
  end.

Definition loxi_match_v3_to_ofp_match (oxm_list : list loxi_oxm) : result ofp_match :=
  l ← mapM loxi_oxm_to_ofp_oxm oxm_list; Ok (mk_match OFPMT_OXM l).

Definition loxi_bucket_to_ofp_bucket (lo : loxi_bucket) : result bucket :=
  l ← mapM loxi_action_to_ofp_action (lb_actions lo);
  Ok (mk_bucket (lb_weight lo) (lb_watch_port lo) (lb_watch_group lo) l).

Definition loxi_flow_mod_to_ofp_flow_mod (lo : loxi_flow_mod) : result flow_mod :=
  m ← loxi_match_v3_to_ofp_match (lf_match lo);
  l ← mapM loxi_instruction_to_ofp_instruction (lf_instructions lo);
  Ok (mk_flow_mod (lf_cookie lo) (lf_cookie_mask lo) (lf_table_id lo) (_command (lf_class lo))
        (lf_idle_timeout lo) (lf_hard_timeout lo) (lf_priority lo) (lf_buffer_id lo) (lf_out_port lo)
        (lf_out_group lo) (lf_flags lo) m l).

Definition loxi_group_mod_to_ofp_group_mod (lo : loxi_group_mod) : result group_mod :=
  l ← mapM loxi_bucket_to_ofp_bucket (lg_buckets lo);
  Ok (mk_group_mod (command (lg_class lo)) (lg_group_type lo) (lg_group_id lo) l).

Definition loxi_packet_out_to_ofp_packet_out (lo : loxi_packet_out) : result packet_out :=
  l ← mapM loxi_action_to_ofp_action (lp_actions lo);
  Ok (mk_packet_out (lp_buffer_id lo) (lp_in_port lo) l (lp_data lo)).

(** ** Dictionaries of messages *)

Inductive pyval : Type :=
  | PInt (z : Z)
  | PStr (s : string)
  | PList (l : list pyval)
  | PDict (d : list (string * pyval)).

(** What [pb2dict] holds: a scalar of proto3 is there when it is not zero, a
    repeated field when it is not empty, a message or a member of a oneof when it
    was set. *)
Definition scalar (z : Z) : option pyval := if bool_decide (z = 0%Z) then None else Some (PInt z).
Definition repeated {A} (f : A → pyval) (l : list A) : option pyval :=
  match l with [] => None | _ => Some (PList (f <$> l)) end.

Class Pb2Dict : Type := {
  dict_of_oxm : oxm_field → list (string * pyval);
  dict_of_ofb : ofb_field → list (string * pyval);
  dict_of_match : ofp_match → list (string * pyval);
  dict_of_action : action → list (string * pyval);
  dict_of_instruction : instruction → list (string * pyval);
  dict_of_flow : flow_stats → list (string * pyval);

  oxm_class_entry f : od_get "oxm_class" (dict_of_oxm f) = scalar (oxm_class f);
  ofb_field_entry f : od_get "ofb_field" (dict_of_oxm f) =
    match oxm_body f with inl b => Some (PDict (dict_of_ofb b)) | inr _ => None end;
  ofb_type_entry b : od_get "type" (dict_of_ofb b) = scalar (f_type b);
  ofb_value_entry b name : name ∈ ["port"; "eth_type"] → od_get name (dict_of_ofb b) =
    match f_value b with
    | IntValue m v => if bool_decide (m = name) then Some (PInt v) else None
    | BytesValue m v => if bool_decide (m = name) then Some (PStr v) else None
    | NoValue => None
    end;
  match_type_entry m : od_get "type" (dict_of_match m) = scalar (m_type m);
  oxm_fields_entry m : od_get "oxm_fields" (dict_of_match m) =
    repeated (λ f, PDict (dict_of_oxm f)) (m_oxm_fields m);
  action_type_entry a : od_get "type" (dict_of_action a) = scalar (a_type a);
  action_output_entry a : od_get "output" (dict_of_action a) =
    match a_body a with
    | ActOutput p l =>
        Some (PDict (omap (λ nv : string * Z, pair nv.1 <$> scalar nv.2) [("port", p); ("max_len", l)]))
    | _ => None
    end;
  instruction_type_entry i : od_get "type" (dict_of_instruction i) = scalar (i_type i);
  instruction_actions_entry i : od_get "actions" (dict_of_instruction i) =
    match i_body i with
    | InsActions l =>
        Some (PDict match repeated (λ a, PDict (dict_of_action a)) l with
                    | Some v => [("actions", v)] | None => [] end)
    | _ => None
    end;
  flow_scalar_entry f name v :
    (name, v) ∈ [("id", fs_id f); ("table_id", fs_table_id f); ("priority", fs_priority f);
                 ("idle_timeout", fs_idle_timeout f); ("hard_timeout", fs_hard_timeout f);
                 ("flags", fs_flags f); ("cookie", fs_cookie f);
                 ("packet_count", fs_packet_count f); ("byte_count", fs_byte_count f)] →
    od_get name (dict_of_flow f) = scalar v;
  flow_match_entry f : od_get "match" (dict_of_flow f) = Some (PDict (dict_of_match (fs_match f)));
  flow_instructions_entry f : od_get "instructions" (dict_of_flow f) =
    repeated (λ i, PDict (dict_of_instruction i)) (fs_instructions f);
}.

(** ** [to_loxi] *)

Record loxi_flow_stats : Type := mk_loxi_flow_stats {
  ls_table_id : Z;
  ls_priority : Z;
  ls_idle_timeout : Z;
  ls_hard_timeout : Z;
  ls_flags : Z;
  ls_cookie : Z;
  ls_packet_count : Z;
  ls_byte_count : Z;
  ls_match : list loxi_oxm;
  ls_instructions : list loxi_instruction;
}.
Record loxi_group_stats : Type := mk_loxi_group_stats {
  lgs_group_id : Z;
  lgs_ref_count : Z;
  lgs_packet_count : Z;
  lgs_byte_count : Z;
  lgs_duration_sec : Z;
  lgs_duration_nsec : Z;
  lgs_bucket_stats : list (Z * Z);
}.

Record loxi_packet_in : Type := mk_loxi_packet_in {
  lpi_buffer_id : Z;
  lpi_reason : Z;
  lpi_table_id : Z;
  lpi_cookie : Z;
  lpi_match : list loxi_oxm;
  lpi_data : string;
}.

Definition pbdict : Type := list (string * pyval).
Definition py_int (v : pyval) : result Z := match v with PInt z => Ok z | _ => Raise TypeError end.
Definition py_dict (v : pyval) : result pbdict := match v with PDict d => Ok d | _ => Raise TypeError end.
Definition py_list (v : pyval) : result (list pyval) := match v with PList l => Ok l | _ => Raise TypeError end.
(** [d[key]], and [d.get(key, default)] for an integer *)
Definition getitem (key : string) (d : pbdict) : result pyval := of_option KeyError (od_get key d).
Definition get_int (key : string) (default : Z) (d : pbdict) : result Z :=
  match od_get key d with Some v => py_int v | None => Ok default end.

Definition OFPMT_STANDARD : Z := 0.

Definition make_loxi_field (oxm_field : pbdict) : result loxi_oxm :=
  cls ← (v ← getitem "oxm_class" oxm_field; py_int v);
  _ ← assert_ (bool_decide (cls = OFPXMC_OPENFLOW_BASIC));
  ofb_field ← (v ← getitem "ofb_field" oxm_field; py_dict v);
  field_type ← get_int "type" 0 ofb_field;
  if bool_decide (field_type = ETH_TYPE) then
    v ← (v ← getitem "eth_type" ofb_field; py_int v); Ok (oxm_eth_type v)
  else if bool_decide (field_type = IN_PORT) then
    v ← (v ← getitem "port" ofb_field; py_int v); Ok (oxm_in_port v)
  else Raise NotImplementedError.

Definition make_loxi_match (m : pbdict) : result (list loxi_oxm) :=
  ty ← get_int "type" OFPMT_STANDARD m;
  _ ← assert_ (bool_decide (ty = OFPMT_OXM));
  fields ← match od_get "oxm_fields" m with Some v => py_list v | None => Ok [] end;
  mapM (λ v, d ← py_dict v; make_loxi_field d) fields.

Definition make_loxi_action (a : pbdict) : result loxi_action :=
  ty ← get_int "type" 0 a;
  if bool_decide (ty = OUTPUT) then
    output ← (v ← getitem "output" a; py_dict v);
    port ← get_int "port" 0 output;
    max_len ← get_int "max_len" 0 output;
    Ok (action_output port max_len)
  else Raise NotImplementedError.

Definition make_loxi_instruction (inst : pbdict) : result loxi_instruction :=
  ty ← (v ← getitem "type" inst; py_int v);
  if bool_decide (ty = OFPIT_APPLY_ACTIONS) then
    d ← (v ← getitem "actions" inst; py_dict v);
    actions ← (v ← getitem "actions" d; py_list v);
    l ← mapM (λ v, a ← py_dict v; make_loxi_action a) actions;
    Ok (instruction_apply_actions l)
  else Raise NotImplementedError.

Section to_loxi.
Context `{!Pb2Dict}.

(** [ofp_flow_stats_to_loxi_flow_stats]; the durations, which VOLTHA never sets,
    are left out.  [del kw['id']] needs the id to be there. *)
Definition ofp_flow_stats_to_loxi_flow_stats (pb : flow_stats) : result loxi_flow_stats :=
  let kw := dict_of_flow pb in
  mtch ← (v ← getitem "match" kw; d ← py_dict v; make_loxi_match d);
  instructions ← (v ← getitem "instructions" kw; l ← py_list v;
                  mapM (λ v, d ← py_dict v; make_loxi_instruction d) l);
  _ ← getitem "id" kw;
  table_id ← get_int "table_id" 0 kw;
  priority ← get_int "priority" 0 kw;
  idle_timeout ← get_int "idle_timeout" 0 kw;
  hard_timeout ← get_int "hard_timeout" 0 kw;
  flags ← get_int "flags" 0 kw;
  cookie ← get_int "cookie" 0 kw;
  packet_count ← get_int "packet_count" 0 kw;
  byte_count ← get_int "byte_count" 0 kw;
  Ok (mk_loxi_flow_stats table_id priority idle_timeout hard_timeout flags cookie packet_count
        byte_count mtch instructions).

Definition ofp_packet_in_to_loxi_packet_in (pb : packet_in) : result loxi_packet_in :=
  mtch ← make_loxi_match (dict_of_match (pi_match pb));
  Ok (mk_loxi_packet_in (pi_buffer_id pb) (pi_reason pb) (pi_table_id pb) (pi_cookie pb) mtch (pi_data pb)).

Definition ofp_group_entry_to_loxi_group_entry (pb : group_entry) : loxi_group_stats :=
  let s := ge_stats pb in
  mk_loxi_group_stats (gs_group_id s) (gs_ref_count s) (gs_packet_count s) (gs_byte_count s)
    (gs_duration_sec s) (gs_duration_nsec s) (gs_bucket_stats s).

(** ** Flows as the controller sees them again *)

(** What [to_loxi] can show of a flow: matches on the ingress port and the
    ethernet type, and instructions that apply at least one output action. *)
Definition showable_oxm (lo : loxi_oxm) : bool :=
  match lo with oxm_eth_type _ | oxm_in_port _ => true | _ => false end.
Definition showable_action (lo : loxi_action) : bool :=
  match lo with action_output _ _ => true | _ => false end.
Definition showable_instruction (lo : loxi_instruction) : bool :=
  match lo with instruction_apply_actions ((_ :: _) as l) => forallb showable_action l | _ => false end.
Definition showable (lo : loxi_flow_mod) (id : Z) : bool :=
  forallb showable_oxm (lf_match lo) && negb (bool_decide (lf_instructions lo = [])) &&
  forallb showable_instruction (lf_instructions lo) && negb (bool_decide (id = 0%Z)).

Definition unshowable (e : exn) : Prop := e = NotImplementedError ∨ e = KeyError.

(** [f] takes back what was converted, or raises. *)
Definition takes_back {A B} (R : A → B → Prop) (p : A → bool) (f : B → result A) : Prop :=
  ∀ x y, R x y → if p x then f y = Ok x else ∃ e, f y = Raise e ∧ unshowable e.

Lemma takes_back_mapM {A B} (R : A → B → Prop) p f l k :
  takes_back R p f → Forall2 R l k →
  if forallb p l then mapM f k = Ok l else ∃ e, mapM f k = Raise e ∧ unshowable e.
Proof.
  intros Hf Hl. induction Hl as [|x y l k Hxy Hl IH]; [done|]. cbn.
  specialize (Hf x y Hxy). destruct (p x); cbn.
  - rewrite Hf. cbn. destruct (forallb p l); [by rewrite IH|].
    destruct IH as (e & -> & He). by exists e.
  - destruct Hf as (e & -> & He). by exists e.
Qed.

Lemma mapM_dicts {A B} (f : pbdict → result B) (g : A → pbdict) (l : list A) :
  mapM (λ v, d ← py_dict v; f d) ((λ a, PDict (g a)) <$> l) = mapM (λ a, f (g a)) l.
Proof. induction l as [|a l IH]; [done|]. cbn. by rewrite IH. Qed.

Lemma get_int_scalar key z d : od_get key d = scalar z → get_int key 0 d = Ok z.
Proof. unfold get_int, scalar. intros ->. case_bool_decide; by subst. Qed.
Lemma getitem_scalar key z d : z ≠ 0%Z → od_get key d = scalar z → getitem key d = Ok (PInt z).
Proof. unfold getitem, scalar. intros Hz ->. by rewrite bool_decide_eq_false_2. Qed.

Lemma make_loxi_field_back :
  takes_back (λ lo f, loxi_oxm_to_ofp_oxm lo = Ok f) showable_oxm (λ f, make_loxi_field (dict_of_oxm f)).
Proof.
  intros lo f Hf. unfold make_loxi_field.
  assert (∃ b, f = basic b) as [b ->] by (destruct lo; cbn in Hf; simplify_eq; by eexists).
  rewrite (getitem_scalar "oxm_class" OFPXMC_OPENFLOW_BASIC) by (done || apply oxm_class_entry).
  cbn [mbind result_bind py_int]. rewrite bool_decide_eq_true_2 by done. cbn [assert_ mbind result_bind].
  unfold getitem. rewrite ofb_field_entry. cbn [basic oxm_body of_option mbind result_bind py_dict].
  rewrite (get_int_scalar "type" (f_type b)) by apply ofb_type_entry. cbn [mbind result_bind].
  destruct lo; cbn in Hf; simplify_eq; cbn [showable_oxm eth_type in_port ip_proto vlan_vid
    vlan_pcp ipv4_dst int_field f_type];
    repeat (rewrite bool_decide_eq_false_2 by done); repeat (rewrite bool_decide_eq_true_2 by done);
    try (eexists; split; [done|by left]).
  - by rewrite ofb_value_entry by set_solver.
  - by rewrite ofb_value_entry by set_solver.
Qed.

Lemma make_loxi_action_back :
  takes_back (λ lo a, loxi_action_to_ofp_action lo = Ok a) showable_action
    (λ a, make_loxi_action (dict_of_action a)).
Proof.
  intros lo a Ha. unfold make_loxi_action.
  rewrite (get_int_scalar "type" (a_type a)) by apply action_type_entry. cbn [mbind result_bind].
  destruct lo; cbn in Ha; inv_ok; cbn [showable_action a_type];
    repeat (rewrite bool_decide_eq_false_2 by done); try (eexists; split; [done|by left]); [].
  rewrite bool_decide_eq_true_2 by done. unfold getitem. rewrite action_output_entry.
  cbn [a_body of_option mbind result_bind py_dict]. unfold get_int, scalar.
  cbn [omap list_omap fst snd]. repeat case_bool_decide; subst; reflexivity.
Qed.

Lemma make_loxi_instruction_back :
  takes_back (λ lo i, loxi_instruction_to_ofp_instruction lo = Ok i) showable_instruction
    (λ i, make_loxi_instruction (dict_of_instruction i)).
Proof.
  intros lo i Hi. unfold make_loxi_instruction. destruct lo as [actions|t|cls]; cbn in Hi; inv_ok.
  - rewrite (getitem_scalar "type" OFPIT_APPLY_ACTIONS) by (done || apply instruction_type_entry).
    cbn [mbind result_bind py_int]. rewrite bool_decide_eq_true_2 by done.
    unfold getitem. rewrite instruction_actions_entry. cbn [i_body of_option mbind result_bind py_dict].
    match goal with Hm : mapM _ _ = Ok _ |- _ => apply mapM_Ok in Hm; rename Hm into Hl end.
    inversion Hl as [|a b actions' k Hab Hl']; subst.
    { eexists. split; [done|by right]. }
    cbn [repeated od_get of_option mbind result_bind py_list]. rewrite decide_True by done.
    cbn [of_option mbind result_bind py_list]. rewrite mapM_dicts.
    pose proof (takes_back_mapM _ _ _ _ _ make_loxi_action_back Hl) as Hm. cbn [showable_instruction].
    destruct (forallb showable_action (a :: actions')).
    + by rewrite Hm.
    + destruct Hm as (e & -> & He). by exists e.
  - rewrite (getitem_scalar "type" OFPIT_GOTO_TABLE) by (done || apply instruction_type_entry).
    cbn [mbind result_bind py_int showable_instruction]. rewrite bool_decide_eq_false_2 by done.
    eexists. split; [done|by left].
Qed.

Lemma make_loxi_match_back oxms m :
  loxi_match_v3_to_ofp_match oxms = Ok m →
  if forallb showable_oxm oxms then make_loxi_match (dict_of_match m) = Ok oxms
  else ∃ e, make_loxi_match (dict_of_match m) = Raise e ∧ unshowable e.
Proof.
  unfold loxi_match_v3_to_ofp_match. intros Hm. inv_ok.
  match goal with Hx : mapM _ _ = Ok _ |- _ => apply mapM_Ok in Hx; rename Hx into Hl end.
  unfold make_loxi_match, OFPMT_STANDARD.
  rewrite (get_int_scalar "type" OFPMT_OXM) by apply match_type_entry. cbn [mbind result_bind].
  rewrite bool_decide_eq_true_2 by done. cbn [assert_ mbind result_bind]. rewrite oxm_fields_entry.
  pose proof (takes_back_mapM _ _ _ _ _ make_loxi_field_back Hl) as Hb. cbn [m_oxm_fields].
  inversion Hl as [|o f os fs Hof Hl']; subst; [done|].
  cbn [repeated mbind result_bind py_list]. by rewrite mapM_dicts.
Qed.

(** A flow whose match and instructions were converted, converted back *)
Lemma flow_back f oxms instrs :
  loxi_match_v3_to_ofp_match oxms = Ok (fs_match f) →
  Forall2 (λ lo i, loxi_instruction_to_ofp_instruction lo = Ok i) instrs (fs_instructions f) →
  if forallb showable_oxm oxms && negb (bool_decide (instrs = [])) &&
     forallb showable_instruction instrs && negb (bool_decide (fs_id f = 0%Z)) then
    ofp_flow_stats_to_loxi_flow_stats f =
    Ok (mk_loxi_flow_stats (fs_table_id f) (fs_priority f) (fs_idle_timeout f) (fs_hard_timeout f)
          (fs_flags f) (fs_cookie f) (fs_packet_count f) (fs_byte_count f) oxms instrs)
  else ∃ e, ofp_flow_stats_to_loxi_flow_stats f = Raise e ∧ unshowable e.
Proof.
  intros Hm%make_loxi_match_back Hi. unfold ofp_flow_stats_to_loxi_flow_stats. cbv zeta.
  assert (getitem "match" (dict_of_flow f) = Ok (PDict (dict_of_match (fs_match f)))) as ->
    by (unfold getitem; by rewrite flow_match_entry).
  cbn [mbind result_bind py_dict].
  destruct (forallb showable_oxm oxms); cbn [andb]; [|destruct Hm as (e & -> & He); by exists e].
  rewrite Hm. cbn [mbind result_bind].
  assert (getitem "instructions" (dict_of_flow f) =
          of_option KeyError (repeated (λ i, PDict (dict_of_instruction i)) (fs_instructions f))) as ->
    by (unfold getitem; by rewrite flow_instructions_entry).
  pose proof (takes_back_mapM _ _ _ _ _ make_loxi_instruction_back Hi) as Hib.
  destruct Hi as [|lo i instrs k Hloi Hi].
  { rewrite bool_decide_eq_true_2 by done. eexists. split; [done|by right]. }
  rewrite bool_decide_eq_false_2 by done. cbn [repeated negb andb of_option mbind result_bind py_list].
  rewrite mapM_dicts.
  destruct (forallb showable_instruction (lo :: instrs)); cbn [andb];
    [|destruct Hib as (e & -> & He); by exists e].
  rewrite Hib. cbn [mbind result_bind].
  assert (getitem "id" (dict_of_flow f) = of_option KeyError (scalar (fs_id f))) as ->
    by (unfold getitem; rewrite (flow_scalar_entry f "id" (fs_id f)); [done|set_solver]).
  case_bool_decide as Hid; cbn [negb].
  { rewrite Hid. eexists. split; [done|by right]. }
  unfold scalar. rewrite bool_decide_eq_false_2 by done. cbn [of_option mbind result_bind].
  rewrite (get_int_scalar "table_id" (fs_table_id f)) by (apply flow_scalar_entry; set_solver).
  rewrite (get_int_scalar "priority" (fs_priority f)) by (apply flow_scalar_entry; set_solver).
  rewrite (get_int_scalar "idle_timeout" (fs_idle_timeout f)) by (apply flow_scalar_entry; set_solver).
  rewrite (get_int_scalar "hard_timeout" (fs_hard_timeout f)) by (apply flow_scalar_entry; set_solver).
  rewrite (get_int_scalar "flags" (fs_flags f)) by (apply flow_scalar_entry; set_solver).
  rewrite (get_int_scalar "cookie" (fs_cookie f)) by (apply flow_scalar_entry; set_solver).
  rewrite (get_int_scalar "packet_count" (fs_packet_count f)) by (apply flow_scalar_entry; set_solver).
  rewrite (get_int_scalar "byte_count" (fs_byte_count f)) by (apply flow_scalar_entry; set_solver).
  done.
Qed.

Context `{!FlowHash}.

(** C23: a flow the controller sends is reported back as it was sent, or not at
    all.  When a flow-mod is converted and entered into the flow table, the entry
    converts back to the same match and instructions if [to_loxi] can show them
    (the match is on ingress port and ethernet type only, every instruction
    applies at least one action and only outputs, there is an instruction, and the
    id computed for the flow is not zero); otherwise the conversion raises NotImplementedError or KeyError. *)
Theorem flow_stats_roundtrip lo fm :
  loxi_flow_mod_to_ofp_flow_mod lo = Ok fm →
  let entry := flow_stats_entry_from_flow_mod_message fm in
  if showable lo (fs_id entry) then
    ofp_flow_stats_to_loxi_flow_stats entry =
    Ok (mk_loxi_flow_stats (lf_table_id lo) (lf_priority lo) (lf_idle_timeout lo) (lf_hard_timeout lo)
          (lf_flags lo) (lf_cookie lo) 0 0 (lf_match lo) (lf_instructions lo))
  else ∃ e, ofp_flow_stats_to_loxi_flow_stats entry = Raise e ∧ (e = NotImplementedError ∨ e = KeyError).
Proof.
  unfold loxi_flow_mod_to_ofp_flow_mod. intros Hfm. inv_ok.
  match goal with Hl : mapM _ _ = Ok _ |- _ => apply mapM_Ok in Hl; rename Hl into Hi end.
  match goal with Hl : loxi_match_v3_to_ofp_match _ = Ok _ |- _ => rename Hl into Hm end.
  cbv zeta. unfold showable. by apply flow_back.
Qed.
End to_loxi.

(** ** A dictionary as documented, and witnesses *)

Definition entries (l : list (string * option pyval)) : pbdict :=
  omap (λ nv : string * option pyval, pair nv.1 <$> nv.2) l.

(** The two members the converter asks for *)
Definition member (name : string) (v : ofb_value) : option pyval :=
  match v with
  | IntValue m v => if bool_decide (m = name) then Some (PInt v) else None
  | BytesValue m v => if bool_decide (m = name) then Some (PStr v) else None
  | NoValue => None
  end.
Definition doc_ofb (b : ofb_field) : pbdict :=
  entries [("type", scalar (f_type b)); ("port", member "port" (f_value b));
           ("eth_type", member "eth_type" (f_value b))].
Definition doc_oxm (f : oxm_field) : pbdict :=
  entries [("oxm_class", scalar (oxm_class f));
           ("ofb_field", match oxm_body f with inl b => Some (PDict (doc_ofb b)) | inr _ => None end)].
Definition doc_match (m : ofp_match) : pbdict :=
  entries [("type", scalar (m_type m));
           ("oxm_fields", repeated (λ f, PDict (doc_oxm f)) (m_oxm_fields m))].
Definition doc_action (a : action) : pbdict :=
  entries [("type", scalar (a_type a));
           ("output", match a_body a with
                      | ActOutput p l => Some (PDict (entries [("port", scalar p); ("max_len", scalar l)]))
                      | _ => None end)].
Definition doc_instruction (i : instruction) : pbdict :=
  entries [("type", scalar (i_type i));
           ("actions", match i_body i with
                       | InsActions l =>
                           Some (PDict match repeated (λ a, PDict (doc_action a)) l with
                                       | Some v => [("actions", v)] | None => [] end)
                       | _ => None end)].
Definition doc_flow (f : flow_stats) : pbdict :=
  entries [("id", scalar (fs_id f)); ("table_id", scalar (fs_table_id f));
           ("priority", scalar (fs_priority f)); ("idle_timeout", scalar (fs_idle_timeout f));
           ("hard_timeout", scalar (fs_hard_timeout f)); ("flags", scalar (fs_flags f));
           ("cookie", scalar (fs_cookie f)); ("packet_count", scalar (fs_packet_count f));
           ("byte_count", scalar (fs_byte_count f));
           ("match", Some (PDict (doc_match (fs_match f))));
           ("instructions", repeated (λ i, PDict (doc_instruction i)) (fs_instructions f))].

Lemma od_get_entries key l : NoDup l.*1 → od_get key (entries l) = mjoin (od_get key l).
Proof.
  unfold entries. induction l as [|[k o] l IH]; [done|]. csimpl. rewrite NoDup_cons. intros [Hni Hnd].
  specialize (IH Hnd). destruct (decide (key = k)) as [->|Hne].
  - destruct o as [v|]; cbn; [by rewrite decide_True|]. rewrite IH.
    by rewrite (proj2 (od_get_None k l)).
  - destruct o as [v|]; cbn; [by rewrite decide_False|done].
Qed.

#[export] Instance doc_pb2dict : Pb2Dict.
Proof.
  refine {| dict_of_oxm := doc_oxm; dict_of_ofb := doc_ofb; dict_of_match := doc_match;
            dict_of_action := doc_action; dict_of_instruction := doc_instruction; dict_of_flow := doc_flow |};
    intros.
  all: try (unfold doc_oxm, doc_ofb, doc_match, doc_action, doc_instruction, doc_flow;
            rewrite od_get_entries by (apply (bool_decide_unpack _); vm_compute; exact I); done).
  - unfold doc_ofb. rewrite od_get_entries by (apply (bool_decide_unpack _); vm_compute; exact I).
    repeat match goal with
    | Hin : _ ∈ _ :: _ |- _ => apply elem_of_cons in Hin as [->|Hin]; [done|]
    | Hin : _ ∈ [] |- _ => by apply not_elem_of_nil in Hin
    end.
  - unfold doc_flow. rewrite od_get_entries by (apply (bool_decide_unpack _); vm_compute; exact I).
    repeat match goal with
    | Hin : _ ∈ _ :: _ |- _ => apply elem_of_cons in Hin as [[= -> ->]|Hin]; [done|]
    | Hin : _ ∈ [] |- _ => by apply not_elem_of_nil in Hin
    end.
Defined.

#[local] Instance demo_flow_hash : FlowHash := {| md5_flow _ p _ _ _ := (p + 1)%Z |}.

Definition to_controller : loxi_flow_mod :=
  mk_loxi_flow_mod flow_add_cls 7 0 0 0 0 1000 0xffffffff 0 0 0 [oxm_in_port 0; oxm_eth_type 0x888e]
    [instruction_apply_actions [action_output OFPP_CONTROLLER 0xffff]].
Definition drop_flow : loxi_flow_mod :=
  mk_loxi_flow_mod flow_add_cls 7 0 0 0 0 1000 0xffffffff 0 0 0 [oxm_in_port 0] [].

Lemma flow_stats_roundtrip_witness :
  ∃ fm ls, loxi_flow_mod_to_ofp_flow_mod to_controller = Ok fm ∧
    ofp_flow_stats_to_loxi_flow_stats (flow_stats_entry_from_flow_mod_message fm) = Ok ls ∧
    ls_match ls = lf_match to_controller ∧ ls_instructions ls = lf_instructions to_controller.
Proof.
  eexists _, _. split; [reflexivity|]. split.
  - exact (flow_stats_roundtrip to_controller _ eq_refl).
  - split; reflexivity.
Defined.

(** A flow without instructions, which drops what it matches, cannot be shown. *)
Example drop_flow_not_shown :
  ∃ fm, loxi_flow_mod_to_ofp_flow_mod drop_flow = Ok fm ∧
    ofp_flow_stats_to_loxi_flow_stats (flow_stats_entry_from_flow_mod_message fm) = Raise KeyError.
Proof. eexists. split; reflexivity. Qed.
