(* ===== verification/OfProtocol.v ===== *)
(** * The OpenFlow protocol handler (ofagent/of_protocol_handler.py)

    The upper half of the OpenFlow agent: it answers the requests of the
    controller, most of them with the help of calls to VOLTHA
    (ofagent/grpc_client.py), which run in threads and come back in any order.  A
    handler decorated with inlineCallbacks keeps an exception in its Deferred; an
    exception of any other handler ends the loop of [start]. *)

From stdpp Require Import prelude strings list.
From S2P Require Import Prelude OFP OfConverter.

Module OfProtocol.

(** ** Constants of loxi.of13 *)

Definition OFPT_HELLO : Z := 0.
Definition OFPT_ECHO_REQUEST : Z := 2.
Definition OFPT_EXPERIMENTER : Z := 4.
Definition OFPT_FEATURES_REQUEST : Z := 5.
Definition OFPT_GET_CONFIG_REQUEST : Z := 7.
Definition OFPT_SET_CONFIG : Z := 9.
Definition OFPT_PACKET_OUT : Z := 13.
Definition OFPT_FLOW_MOD : Z := 14.
Definition OFPT_GROUP_MOD : Z := 15.
Definition OFPT_PORT_MOD : Z := 16.
Definition OFPT_TABLE_MOD : Z := 17.
Definition OFPT_STATS_REQUEST : Z := 18.
Definition OFPT_BARRIER_REQUEST : Z := 20.
Definition OFPT_QUEUE_GET_CONFIG_REQUEST : Z := 22.
Definition OFPT_ROLE_REQUEST : Z := 24.
Definition OFPT_GET_ASYNC_REQUEST : Z := 26.
Definition OFPT_SET_ASYNC : Z := 28.
Definition OFPT_METER_MOD : Z := 29.
Definition OFPST_DESC : Z := 0.
Definition OFPST_FLOW : Z := 1.
Definition OFPST_AGGREGATE : Z := 2.
Definition OFPST_TABLE : Z := 3.
Definition OFPST_PORT : Z := 4.
Definition OFPST_QUEUE : Z := 5.
Definition OFPST_GROUP : Z := 6.
Definition OFPST_GROUP_DESC : Z := 7.
Definition OFPST_GROUP_FEATURES : Z := 8.
Definition OFPST_METER : Z := 9.
Definition OFPST_METER_CONFIG : Z := 10.
Definition OFPST_METER_FEATURES : Z := 11.
Definition OFPST_TABLE_FEATURES : Z := 12.
Definition OFPST_PORT_DESC : Z := 13.
Definition OFPST_EXPERIMENTER : Z := 65535.
Definition OFPCR_ROLE_MASTER : Z := 2.
Definition OFPCML_NO_BUFFER : Z := 65535.

(** ** Messages from and to the controller *)

Inductive body : Type :=
  | NoRequestBody
  | FlowModBody (lo : loxi_flow_mod)
  | GroupModBody (lo : loxi_group_mod)
  | PacketOutBody (lo : loxi_packet_out)
  | RoleBody (role generation_id : Z)
  | StatsBody (stats_type : Z).
Record request : Type := mk_request { rq_type : Z; rq_xid : Z; rq_body : body }.

Record switch_features : Type := mk_switch_features {
  sf_datapath_id : Z;
  sf_n_buffers : Z;
  sf_n_tables : Z;
  sf_auxiliary_id : Z;
  sf_capabilities : Z;
}.

Inductive reply_body : Type :=
  | hello
  | echo_reply
  | features_reply (datapath_id : Z) (features : switch_features)
  | barrier_reply
  | get_config_reply (miss_send_len : Z)
  | role_reply (role generation_id : Z)
  | desc_stats_reply (desc : string)
  | flow_stats_reply (entries : list loxi_flow_stats)
  | group_stats_reply (entries : list loxi_group_stats)
  | group_desc_stats_reply
  | meter_stats_reply
  | bad_request_error_msg
  | port_stats_reply
  | port_desc_stats_reply (entries : list Z)
  | table_stats_reply
  | packet_in_message (p : loxi_packet_in).
(** the xid is filled in by the connection when it is [None] *)
Record reply : Type := mk_reply { rp_xid : option Z; rp_body : reply_body }.

(** ** Calls to VOLTHA (grpc_client.py) *)

Inductive call : Type :=
  | get_device_info
  | update_flow_table (flow_mod : flow_mod)
  | update_group_table (group_mod : group_mod)
  | list_flows
  | list_groups
  | get_port_list
  | send_packet_out (packet_out : packet_out).

(** A generator that waits for its call, and what calls return; of a port only
    its number is kept. *)
Inductive task : Type :=
  | FeaturesTask (xid : Z)
  | FlowModTask (xid : Z)
  | GroupModTask (xid : Z)
  | DescTask (xid : Z)
  | FlowStatsTask (xid : Z)
  | GroupStatsTask (xid : Z)
  | PortDescTask (xid : Z).
Inductive rpc_result : Type :=
  | DeviceInfo (features : switch_features) (desc : string)
  | FlowList (flows : list flow_stats)
  | GroupList (groups : list group_entry)
  | PortList (ports : list Z)
  | EmptyResult
  | RpcError (e : exn).

(** ** The handler *)

Inductive phase : Type := WaitHello | Running | Dead.
Record handler : Type := mk_handler {
  h_datapath_id : Z;
  h_connected : bool;               (** of the connection: [Protocol.connected] *)
  h_phase : phase;                  (** where [start] is *)
  h_rx : list request;              (** received and not yet taken *)
  h_pending : list task;
  h_calls : list call;
  h_sent : list reply;              (** handed to the transport *)
}.

Definition set_phase p (h : handler) : handler :=
  mk_handler (h_datapath_id h) (h_connected h) p (h_rx h) (h_pending h) (h_calls h) (h_sent h).
Definition set_rx l (h : handler) : handler :=
  mk_handler (h_datapath_id h) (h_connected h) (h_phase h) l (h_pending h) (h_calls h) (h_sent h).
Definition set_pending l (h : handler) : handler :=
  mk_handler (h_datapath_id h) (h_connected h) (h_phase h) (h_rx h) l (h_calls h) (h_sent h).
Definition add_call c (h : handler) : handler :=
  mk_handler (h_datapath_id h) (h_connected h) (h_phase h) (h_rx h) (h_pending h) (h_calls h ++ [c]) (h_sent h).
Definition add_sent r (h : handler) : handler :=
  mk_handler (h_datapath_id h) (h_connected h) (h_phase h) (h_rx h) (h_pending h) (h_calls h) (h_sent h ++ [r]).

(** [self.cxn.send].  Twisted sets [connected] when the connection is made and
    does not reset it when it is lost: from then on the transport silently drops
    what is written to it. *)
Definition send (xid : option Z) (b : reply_body) : M handler unit :=
  h ← get_state;
  _ ← lift (assert_ (h_connected h));
  modify (add_sent (mk_reply xid b)).

(** A call in a thread, and the rest of the generator as a pending task *)
Definition defer (c : call) (t : task) : M handler unit :=
  _ ← modify (add_call c); modify (λ h, set_pending (h_pending h ++ [t]) h).

(** An exception of an inlineCallbacks method stays in its Deferred. *)
Definition inline {A} (m : M handler A) : M handler unit := λ h, (Ok tt, (m h).2).

Definition not_implemented (req : request) : M handler unit := raise NotImplementedError.

Definition handle_echo_request (req : request) : M handler unit := send (Some (rq_xid req)) echo_reply.
Definition handle_feature_request (req : request) : M handler unit :=
  inline (defer get_device_info (FeaturesTask (rq_xid req))).
Definition handle_barrier_request (req : request) : M handler unit :=
  send (Some (rq_xid req)) barrier_reply.
Definition handle_experimenter_request := not_implemented.

(** [to_grpc(req)]: a class without converter is a KeyError. *)
Definition handle_flow_mod_request (req : request) : M handler unit :=
  inline (fm ← lift (match rq_body req with
                     | FlowModBody lo => loxi_flow_mod_to_ofp_flow_mod lo
                     | _ => Raise KeyError end);
          defer (update_flow_table fm) (FlowModTask (rq_xid req))).
Definition handle_get_async_request := not_implemented.
Definition handle_get_config_request (req : request) : M handler unit :=
  send (Some (rq_xid req)) (get_config_reply OFPCML_NO_BUFFER).
Definition handle_group_mod_request (req : request) : M handler unit :=
  inline (gm ← lift (match rq_body req with
                     | GroupModBody lo => loxi_group_mod_to_ofp_group_mod lo
                     | _ => Raise KeyError end);
          defer (update_group_table gm) (GroupModTask (rq_xid req))).
Definition handle_meter_mod_request := not_implemented.
Definition handle_role_request (req : request) : M handler unit :=
  '(role, generation_id) ← lift (match rq_body req with
                                 | RoleBody r g => Ok (r, g)
                                 | _ => Raise AttributeError end);
  if bool_decide (role ≠ OFPCR_ROLE_MASTER) then raise NotImplementedError
  else send (Some (rq_xid req)) (role_reply role generation_id).
Definition handle_packet_out_request (req : request) : M handler unit :=
  po ← lift (match rq_body req with
             | PacketOutBody lo => loxi_packet_out_to_ofp_packet_out lo
             | _ => Raise KeyError end);
  modify (add_call (send_packet_out po)).
Definition handle_set_config_request (req : request) : M handler unit := mret tt.
Definition handle_port_mod_request := not_implemented.
Definition handle_table_mod_request := not_implemented.
Definition handle_queue_get_config_request := not_implemented.
Definition handle_set_async_request := not_implemented.
Definition handle_aggregate_request := not_implemented.
Definition handle_device_description_request (req : request) : M handler unit :=
  inline (defer get_device_info (DescTask (rq_xid req))).
Definition handle_experimenter_stats_request := not_implemented.
Definition handle_flow_stats_request (req : request) : M handler unit :=
  inline (defer list_flows (FlowStatsTask (rq_xid req))).
Definition handle_group_stats_request (req : request) : M handler unit :=
  inline (defer list_groups (GroupStatsTask (rq_xid req))).
Definition handle_group_descriptor_request (req : request) : M handler unit :=
  send (Some (rq_xid req)) group_desc_stats_reply.
Definition handle_group_features_request := not_implemented.
Definition handle_meter_stats_request (req : request) : M handler unit :=
  send (Some (rq_xid req)) meter_stats_reply.
Definition handle_meter_config_request := not_implemented.
Definition handle_meter_features_request (req : request) : M handler unit :=
  send None bad_request_error_msg.
Definition handle_port_stats_request (req : request) : M handler unit :=
  send (Some (rq_xid req)) port_stats_reply.
Definition handle_port_desc_request (req : request) : M handler unit :=
  inline (defer get_port_list (PortDescTask (rq_xid req))).
Definition handle_queue_stats_request := not_implemented.
Definition handle_table_stats_request (req : request) : M handler unit :=
  send (Some (rq_xid req)) table_stats_reply.
Definition handle_table_features_request := not_implemented.

Definition stats_handlers : list (Z * (request → M handler unit)) :=
  [(OFPST_AGGREGATE, handle_aggregate_request);
   (OFPST_DESC, handle_device_description_request);
   (OFPST_EXPERIMENTER, handle_experimenter_stats_request);
   (OFPST_FLOW, handle_flow_stats_request);
   (OFPST_GROUP, handle_group_stats_request);
   (OFPST_GROUP_DESC, handle_group_descriptor_request);
   (OFPST_GROUP_FEATURES, handle_group_features_request);
   (OFPST_METER, handle_meter_stats_request);
   (OFPST_METER_CONFIG, handle_meter_config_request);
   (OFPST_METER_FEATURES, handle_meter_features_request);
   (OFPST_PORT, handle_port_stats_request);
   (OFPST_PORT_DESC, handle_port_desc_request);
   (OFPST_QUEUE, handle_queue_stats_request);
   (OFPST_TABLE, handle_table_stats_request);
   (OFPST_TABLE_FEATURES, handle_table_features_request)].

Definition handle_stats_request (req : request) : M handler unit :=
  stats_type ← lift (match rq_body req with StatsBody t => Ok t | _ => Raise AttributeError end);
  match od_get stats_type stats_handlers with
  | Some h => h req
  | None => raise OpenFlowProtocolError
  end.

Definition main_handlers : list (Z * (request → M handler unit)) :=
  [(OFPT_BARRIER_REQUEST, handle_barrier_request);
   (OFPT_ECHO_REQUEST, handle_echo_request);
   (OFPT_FEATURES_REQUEST, handle_feature_request);
   (OFPT_EXPERIMENTER, handle_experimenter_request);
   (OFPT_FLOW_MOD, handle_flow_mod_request);
   (OFPT_GET_ASYNC_REQUEST, handle_get_async_request);
   (OFPT_GET_CONFIG_REQUEST, handle_get_config_request);
   (OFPT_GROUP_MOD, handle_group_mod_request);
   (OFPT_METER_MOD, handle_meter_mod_request);
   (OFPT_PACKET_OUT, handle_packet_out_request);
   (OFPT_PORT_MOD, handle_port_mod_request);
   (OFPT_QUEUE_GET_CONFIG_REQUEST, handle_queue_get_config_request);
   (OFPT_ROLE_REQUEST, handle_role_request);
   (OFPT_SET_ASYNC, handle_set_async_request);
   (OFPT_SET_CONFIG, handle_set_config_request);
   (OFPT_STATS_REQUEST, handle_stats_request);
   (OFPT_TABLE_MOD, handle_table_mod_request)].

(** One round of the loop of [start]; a type without handler is logged. *)
Definition dispatch (req : request) : M handler unit :=
  match od_get (rq_type req) main_handlers with
  | Some h => h req
  | None => mret tt
  end.

(** The loop takes the queued requests [reqs] one by one; an exception ends it. *)
Fixpoint serve (reqs : list request) : handler → handler := λ h,
  match reqs with
  | [] => h
  | req :: reqs =>
      match dispatch req (set_rx reqs h) with
      | (Ok _, h') => serve reqs h'
      | (Raise _, h') => set_phase Dead h'
      end
  end.

(** [recv_class(hello)] takes the first hello, wherever it is. *)
Definition is_hello (req : request) : bool := bool_decide (rq_type req = OFPT_HELLO).
Definition resume (h : handler) : handler :=
  match h_phase h with
  | Dead => h
  | Running => serve (h_rx h) h
  | WaitHello =>
      match find_index is_hello (h_rx h) with
      | None => h
      | Some (i, _) => let rest := delete i (h_rx h) in serve rest (set_phase Running (set_rx rest h))
      end
  end.

(** [start] up to the first yield *)
Definition start : handler → handler := λ h,
  match send None hello h with
  | (Ok _, h') => resume (set_phase WaitHello h')
  | (Raise _, h') => set_phase Dead h'
  end.

Section tasks.
Context `{!Pb2Dict}.

(** The rest of a generator, when its call has returned.  Of the switch features
    the datapath id is passed as a keyword by the handler itself, so that it must
    not be set in the message. *)
Definition finish (t : task) (out : rpc_result) : M handler unit :=
  match t, out with
  | _, RpcError e => raise e
  | FeaturesTask xid, DeviceInfo features _ =>
      if bool_decide (sf_datapath_id features ≠ 0%Z) then raise TypeError
      else h ← get_state; send (Some xid) (features_reply (h_datapath_id h) features)
  | FlowModTask _, _ | GroupModTask _, _ => mret tt
  | DescTask xid, DeviceInfo _ desc => send (Some xid) (desc_stats_reply desc)
  | FlowStatsTask xid, FlowList flows =>
      l ← lift (mapM ofp_flow_stats_to_loxi_flow_stats flows);
      send (Some xid) (flow_stats_reply l)
  | GroupStatsTask xid, GroupList groups =>
      send (Some xid) (group_stats_reply (ofp_group_entry_to_loxi_group_entry <$> groups))
  | PortDescTask xid, PortList ports => send (Some xid) (port_desc_stats_reply ports)
  | _, _ => raise AttributeError
  end.

(** [forward_packet_in], called by the agent *)
Definition forward_packet_in (p : packet_in) : M handler unit :=
  lo ← lift (ofp_packet_in_to_loxi_packet_in p); send None (packet_in_message lo).

(** ** Interleavings *)

Inductive event : Type :=
  | Receive (req : request)               (** the connection queues a message *)
  | Complete (i : nat) (out : rpc_result). (** a pending call returns *)

Definition complete (i : nat) (out : rpc_result) (h : handler) : handler :=
  match h_pending h !! i with
  | None => h
  | Some t => (inline (finish t out) (set_pending (delete i (h_pending h)) h)).2
  end.

Definition step (e : event) (h : handler) : handler :=
  match e with
  | Receive req => resume (set_rx (h_rx h ++ [req]) h)
  | Complete i out => complete i out h
  end.
Definition run (evs : list event) (h : handler) : handler := foldl (λ h e, step e h) h evs.

Definition received (evs : list event) : list request :=
  omap (λ e, match e with Receive req => Some req | _ => None end) evs.

(** ** What a request asks for *)

Definition supported_stats : list Z :=
  [OFPST_DESC; OFPST_FLOW; OFPST_GROUP; OFPST_GROUP_DESC; OFPST_METER; OFPST_METER_FEATURES;
   OFPST_PORT; OFPST_PORT_DESC; OFPST_TABLE].
Definition unsupported_types : list Z :=
  [OFPT_EXPERIMENTER; OFPT_GET_ASYNC_REQUEST; OFPT_METER_MOD; OFPT_PORT_MOD;
   OFPT_QUEUE_GET_CONFIG_REQUEST; OFPT_SET_ASYNC; OFPT_TABLE_MOD].

(** The requests whose handler does not raise *)
Definition supported (req : request) : bool :=
  if bool_decide (rq_type req ∈ unsupported_types) then false
  else if bool_decide (rq_type req = OFPT_ROLE_REQUEST) then
    match rq_body req with RoleBody r _ => bool_decide (r = OFPCR_ROLE_MASTER) | _ => false end
  else if bool_decide (rq_type req = OFPT_PACKET_OUT) then
    match rq_body req with
    | PacketOutBody lo => match loxi_packet_out_to_ofp_packet_out lo with Ok _ => true | _ => false end
    | _ => false
    end
  else if bool_decide (rq_type req = OFPT_STATS_REQUEST) then
    match rq_body req with StatsBody t => bool_decide (t ∈ supported_stats) | _ => false end
  else true.

(** The xids of the replies that are owed for a request and for a pending task *)
Definition owed (req : request) : list (option Z) :=
  if bool_decide (rq_type req ∈ [OFPT_ECHO_REQUEST; OFPT_BARRIER_REQUEST; OFPT_GET_CONFIG_REQUEST;
                                 OFPT_ROLE_REQUEST; OFPT_FEATURES_REQUEST])
  then [Some (rq_xid req)]
  else if bool_decide (rq_type req = OFPT_STATS_REQUEST) then
    match rq_body req with
    | StatsBody t => if bool_decide (t = OFPST_METER_FEATURES) then [None] else [Some (rq_xid req)]
    | _ => []
    end
  else [].
Definition task_owed (t : task) : list (option Z) :=
  match t with
  | FlowModTask _ | GroupModTask _ => []
  | FeaturesTask xid | DescTask xid | FlowStatsTask xid | GroupStatsTask xid | PortDescTask xid =>
      [Some xid]
  end.

(** Replies sent and owed *)
Definition account (h : handler) : list (option Z) :=
  (rp_xid <$> h_sent h) ++ (h_pending h ≫= task_owed).

(** Same loop state and connection *)
Definition same_loop (h h' : handler) : Prop :=
  h_phase h' = h_phase h ∧ h_connected h' = h_connected h ∧ h_rx h' = h_rx h.

Lemma account_sent xid b h : account (add_sent (mk_reply xid b) h) ≡ₚ account h ++ [xid].
Proof.
  unfold account. cbn [h_sent h_pending add_sent]. rewrite fmap_app, <- !(assoc_L (++)). cbn.
  apply Permutation_app_head, Permutation_cons_append.
Qed.
Lemma account_task t c h :
  account (set_pending (h_pending h ++ [t]) (add_call c h)) = account h ++ task_owed t.
Proof.
  unfold account. cbn [h_sent h_pending set_pending add_call]. rewrite bind_app. cbn.
  by rewrite app_nil_r, (assoc_L (++)).
Qed.
Lemma account_call c h : account (add_call c h) = account h.
Proof. done. Qed.

Lemma send_connected xid b h :
  h_connected h = true → send xid b h = (Ok tt, add_sent (mk_reply xid b) h).
Proof. intros Hc. unfold send, mbind, M_bind. cbn. by rewrite Hc. Qed.

Lemma defer_eq c t h : inline (defer c t) h = (Ok tt, set_pending (h_pending h ++ [t]) (add_call c h)).
Proof. done. Qed.

(** Decides membership of a known type in a list of types. *)
Ltac eval_types :=
  repeat match goal with
  | |- context [bool_decide ?P] =>
      first [rewrite (bool_decide_eq_true_2 P) by (apply (bool_decide_unpack _); vm_compute; exact I)
            |rewrite (bool_decide_eq_false_2 P) by (apply (bool_decide_unpack _); vm_compute; exact I)]
  end.

Lemma stats_effect req t h :
  h_connected h = true → rq_body req = StatsBody t →
  if bool_decide (t ∈ supported_stats) then
    ∃ h', handle_stats_request req h = (Ok tt, h') ∧ same_loop h h' ∧
      account h' ≡ₚ account h ++ (if bool_decide (t = OFPST_METER_FEATURES) then [None] else [Some (rq_xid req)])
  else ∃ e, handle_stats_request req h = (Raise e, h).
Proof.
  intros Hc Hb. unfold handle_stats_request. rewrite Hb. erewrite M_bind_eq by done.
  unfold stats_handlers. cbn [od_get].
  repeat (case_decide; [subst t; eval_types;
    first [by eexists
          |eexists; (split; [first [by apply send_connected|apply defer_eq]|]);
           (split; [done|]); first [apply account_sent|by rewrite account_task]]|]).
  rewrite bool_decide_eq_false_2; [by eexists|]. unfold supported_stats. intros Hin.
  repeat (apply elem_of_cons in Hin as [->|Hin]; [congruence|]). by apply not_elem_of_nil in Hin.
Qed.

Lemma dispatch_effect req h :
  h_connected h = true →
  if supported req then
    ∃ h', dispatch req h = (Ok tt, h') ∧ same_loop h h' ∧ account h' ≡ₚ account h ++ owed req
  else ∃ e, dispatch req h = (Raise e, h).
Proof.
  intros Hc. unfold dispatch, supported, owed. destruct req as [ty xid b]. cbn [rq_type rq_body rq_xid].
  unfold main_handlers. cbn [od_get].
  repeat (case_decide; [subst ty; eval_types|]).
  - eexists. split; [by apply send_connected|]. split; [done|apply account_sent].
  - eexists. split; [by apply send_connected|]. split; [done|apply account_sent].
  - eexists. split; [apply defer_eq|]. split; [done|by rewrite account_task].
  - by eexists.
  - unfold handle_flow_mod_request, inline. cbn [rq_body].
    destruct (match b with FlowModBody lo => _ | _ => _ end) as [fm|e]; eexists; (split; [done|]);
      (split; [done|]); [|by rewrite app_nil_r].
    pose proof (account_task (FlowModTask xid) (update_flow_table fm) h) as Heq. cbn [task_owed] in Heq. by rewrite <- Heq.
  - by eexists.
  - eexists. split; [by apply send_connected|]. split; [done|apply account_sent].
  - unfold handle_group_mod_request, inline. cbn [rq_body].
    destruct (match b with GroupModBody lo => _ | _ => _ end) as [fm|e]; eexists; (split; [done|]);
      (split; [done|]); [|by rewrite app_nil_r].
    pose proof (account_task (GroupModTask xid) (update_group_table fm) h) as Heq. cbn [task_owed] in Heq. by rewrite <- Heq.
  - by eexists.
  - unfold handle_packet_out_request. cbn [rq_body]. destruct b as [| | |lo| |]; try by eexists.
    destruct (loxi_packet_out_to_ofp_packet_out lo) as [po|e]; [|by eexists].
    eexists. split; [done|]. split; [done|]. by rewrite app_nil_r, account_call.
  - by eexists.
  - by eexists.
  - unfold handle_role_request. cbn [rq_body]. destruct b as [| | | |r g|]; try by eexists.
    erewrite M_bind_eq by done. destruct (decide (r = OFPCR_ROLE_MASTER)) as [->|Hne]; eval_types.
    + eexists. split; [by apply send_connected|]. split; [done|apply account_sent].
    + rewrite (bool_decide_eq_false_2 (r = _)), bool_decide_eq_true_2 by done. by eexists.
  - by eexists.
  - eexists. split; [done|]. split; [done|]. by rewrite app_nil_r.
  - destruct b as [| | | | |t]; try by eexists.
    by apply (stats_effect (mk_request OFPT_STATS_REQUEST xid (StatsBody t)) t h Hc).
  - by eexists.
  - assert (∀ l, l ⊆ od_keys main_handlers → ty ∉ l) as Hni.
    { intros l Hl Hin%Hl. cbn in Hin.
      repeat (apply elem_of_cons in Hin as [->|Hin]; [congruence|]). by apply not_elem_of_nil in Hin. }
    rewrite (bool_decide_eq_false_2 (ty ∈ unsupported_types)).
    2:{ apply Hni. apply (bool_decide_unpack _). vm_compute. exact I. }
    rewrite !(bool_decide_eq_false_2 (ty = _)) by congruence.
    rewrite (bool_decide_eq_false_2 (ty ∈ _)).
    2:{ apply Hni. apply (bool_decide_unpack _). vm_compute. exact I. }
    eexists. split; [done|]. split; [done|]. by rewrite app_nil_r.
Qed.

(** What the completion of a task sends *)
Lemma finish_effect t out h :
  match finish t out h with
  | (Ok _, h') => same_loop h h' ∧ h_pending h' = h_pending h ∧ h_calls h' = h_calls h ∧
      rp_xid <$> h_sent h' = (rp_xid <$> h_sent h) ++ task_owed t
  | (Raise _, h') => h' = h
  end.
Proof.
  assert (∀ xid b, match send xid b h with
    | (Ok _, h') => same_loop h h' ∧ h_pending h' = h_pending h ∧ h_calls h' = h_calls h ∧
        rp_xid <$> h_sent h' = (rp_xid <$> h_sent h) ++ [xid]
    | (Raise _, h') => h' = h end) as Hsend.
  { intros xid b. unfold send, mbind, M_bind. cbn. destruct (h_connected h); cbn; [|done].
    split_and!; [done..|]. by rewrite fmap_app. }
  destruct t, out; cbn [finish task_owed]; try done; try apply Hsend;
    try (split_and!; [done..|]; by rewrite app_nil_r).
  - case_bool_decide; [done|]. apply (Hsend (Some xid)).
  - unfold mbind at 1, M_bind at 1, lift. destruct (mapM _ flows); [apply Hsend|done].
Qed.

Definition completion (i : nat) (out : rpc_result) (h : handler) : list (option Z) :=
  match h_pending h !! i with
  | None => []
  | Some t => match finish t out (set_pending (delete i (h_pending h)) h) with
              | (Ok _, _) => []
              | (Raise _, _) => task_owed t
              end
  end.

(** The xids of the requests whose call or conversion failed along a run *)
Fixpoint failed (evs : list event) (h : handler) : list (option Z) :=
  match evs with
  | [] => []
  | e :: evs =>
      match e with Complete i out => completion i out h | _ => [] end ++ failed evs (step e h)
  end.

Lemma complete_effect i out h :
  same_loop h (complete i out h) ∧ h_calls (complete i out h) = h_calls h ∧
  account (complete i out h) ++ completion i out h ≡ₚ account h ∧
  ∃ extra, rp_xid <$> h_sent (complete i out h) = (rp_xid <$> h_sent h) ++ extra ∧
    extra ++ (h_pending (complete i out h) ≫= task_owed) ⊆+ (h_pending h ≫= task_owed).
Proof.
  unfold complete, completion. destruct (h_pending h !! i) as [t|] eqn:Ht.
  2:{ split_and!; [done|done|by rewrite app_nil_r|]. exists []. by rewrite app_nil_r. }
  unfold inline. cbn [snd]. set (h1 := set_pending (delete i (h_pending h)) h).
  assert ((h_pending h1 ≫= task_owed) ++ task_owed t ≡ₚ (h_pending h ≫= task_owed)) as Hperm.
  { unfold h1. cbn [h_pending set_pending].
    rewrite <- (take_drop_middle _ _ _ Ht) at 2. rewrite delete_take_drop, !bind_app. cbn.
    rewrite <- (assoc_L (++)). apply Permutation_app_head, Permutation_app_comm. }
  pose proof (finish_effect t out h1) as Hf. destruct (finish t out h1) as [[[]|e] h2].
  - destruct Hf as (Hsame & Hpend & Hcalls & Hsent).
    split_and!; [done|done| |].
    + rewrite app_nil_r. unfold account. cbn [snd]. rewrite Hpend, Hsent. change (h_sent h1) with (h_sent h).
      rewrite <- Hperm, <- (assoc_L (++)). apply Permutation_app_head, Permutation_app_comm.
    + exists (task_owed t). split; [done|]. cbn [snd]. rewrite Hpend, <- Hperm. by rewrite Permutation_app_comm.
  - subst h2. split_and!; [done|done| |].
    + unfold account. cbn [snd]. rewrite <- (assoc_L (++)), Hperm. done.
    + exists []. rewrite app_nil_r. split; [done|]. cbn [snd app]. rewrite <- Hperm. by apply submseteq_inserts_r.
Qed.

(** C24: every request is answered once.  As long as the requests are ones the
    agent supports, however requests and the returns of the calls interleave: the
    replies handed to the transport, those still owed for pending calls and those
    of calls that failed are, by their xids and as a multiset, the replies owed
    for the requests received; and the loop is still running. *)
Theorem requests_answered_once evs h :
  h_phase h = Running → h_connected h = true → h_rx h = [] →
  (∀ req, Receive req ∈ evs → supported req = true) →
  account (run evs h) ++ failed evs h ≡ₚ account h ++ (received evs ≫= owed) ∧
  h_phase (run evs h) = Running.
Proof.
  revert h. induction evs as [|e evs IH]; intros h Hp Hc Hrx Hsup.
  { cbn. by rewrite !app_nil_r. }
  assert (∀ req, Receive req ∈ evs → supported req = true) as Hsup' by (intros req ?; apply Hsup; by right).
  destruct e as [req|i out]; cbn [run foldl failed].
  - pose proof (dispatch_effect req h Hc) as Hd. rewrite (Hsup req) in Hd by left.
    destruct Hd as (h' & Hd & (Hp' & Hc' & Hrx') & Hacc).
    assert (step (Receive req) h = h') as ->.
    { destruct h as [dp c p rx pend calls sent]. cbn in *. subst. unfold step, resume, set_rx.
      cbn [h_phase h_rx h_datapath_id h_connected h_pending h_calls h_sent app serve]. unfold set_rx. cbn.
    by rewrite Hd. }
    destruct (IH h') as [IH1 IH2]; [congruence..|done|]. split; [|done]. cbn [app].
    change (foldl (λ h e, step e h) h' evs) with (run evs h'). rewrite IH1, Hacc. cbn.
    by rewrite <- (assoc_L (++)).
  - destruct (complete_effect i out h) as ((Hp' & Hc' & Hrx') & _ & Hacc & _). cbn [step].
    destruct (IH (complete i out h)) as [IH1 IH2]; [congruence..|done|]. split; [|done].
    change (foldl (λ h e, step e h) ?x evs) with (run evs x).
    change (received (Complete i out :: evs)) with (received evs). rewrite <- Hacc.
    rewrite (Permutation_app_comm (completion i out h)), (assoc_L (++)), IH1.
    rewrite <- !(assoc_L (++)). apply Permutation_app_head, Permutation_app_comm.
Qed.

Lemma serve_connected reqs h : h_connected h = true → h_connected (serve reqs h) = true.
Proof.
  revert h. induction reqs as [|req reqs IH]; intros h Hc; [done|]. cbn [serve].
  pose proof (dispatch_effect req (set_rx reqs h) Hc) as Hd. destruct (supported req).
  - destruct Hd as (h' & -> & (_ & Hc' & _) & _). apply IH. by rewrite Hc'.
  - by destruct Hd as [e ->].
Qed.

Lemma resume_connected h : h_connected h = true → h_connected (resume h) = true.
Proof.
  intros Hc. unfold resume. destruct (h_phase h); [|by apply serve_connected|done].
  destruct (find_index is_hello (h_rx h)) as [[i ?]|]; [|done]. by apply serve_connected.
Qed.

(** The connection of a handler stays the one it was made with. *)
Lemma start_connected h : h_connected h = true → h_connected (start h) = true.
Proof. intros Hc. unfold start. rewrite send_connected by done. by apply resume_connected. Qed.

Lemma step_connected e h : h_connected h = true → h_connected (step e h) = true.
Proof.
  intros Hc. destruct e as [req|i out]; [by apply resume_connected|].
  destruct (complete_effect i out h) as ((_ & Hc' & _) & _). by rewrite <- Hc.
Qed.


End tasks.

(** ** Witnesses: after the exchange of hellos *)

Definition fresh : handler := mk_handler 1 true WaitHello [] [] [] [].
Definition running : handler := step (Receive (mk_request OFPT_HELLO 1 NoRequestBody)) (start fresh).
Definition echo (xid : Z) : event := Receive (mk_request OFPT_ECHO_REQUEST xid NoRequestBody).
Definition flow_stats_request (xid : Z) : event :=
  Receive (mk_request OFPT_STATS_REQUEST xid (StatsBody OFPST_FLOW)).

Lemma requests_answered_once_witness :
  account (run [flow_stats_request 5; echo 6; Complete 0 (FlowList [])] running) ≡ₚ
  [None; Some 5%Z; Some 6%Z].
Proof.
  destruct (requests_answered_once [flow_stats_request 5; echo 6; Complete 0 (FlowList [])] running)
    as [Hp _]; try reflexivity.
  - intros req Hin. apply elem_of_cons in Hin as [[= ->]|Hin]; [reflexivity|].
    apply elem_of_cons in Hin as [[= ->]|Hin]; [reflexivity|].
    apply elem_of_cons in Hin as [Hin|Hin]; [done|]. by apply not_elem_of_nil in Hin.
  - cbn in Hp. exact Hp.
Defined.

End OfProtocol.
