(* ===== verification/PacketPath.v ===== *)
(** * Packets and proxied messages across components

    The paths that cross the event bus: packet-in from an adapter through the
    agent of the logical device into the queue of the local handler and through the
    OpenFlow agent to the transport, packet-out the other way, and the messages the adapter of an
    ONU exchanges with the adapter of its OLT (voltha/core/adapter_agent.py,
    logical_device_agent.py, local_handler.py).  Subscriptions are numbered by the
    bus; [w_owner] says whose callback a number is. *)

From stdpp Require Import prelude strings gmap list.
From S2P Require Import Prelude EventBus OFP OfConverter OfAgents OfProtocol.

Module PacketPath.

(** What is published: the pair (logical_port_no, packet), a packet-out message,
    or a message between adapters *)
Inductive payload : Type :=
  | PortPacket (logical_port_no : Z) (packet : string)
  | PacketOutMsg (po : packet_out)
  | ProxiedMsg (m : string).

(** The callbacks that are subscribed *)
Inductive subscriber : Type :=
  | LogicalAgent (logical_device_id : string)      (** [handle_packet_in_event] *)
  | PacketOutOf (logical_device_id : string)       (** the lambda of [create_logical_device] *)
  | TxProxy (proxy_address : string)               (** the lambda of [child_device_detected] *)
  | RxProxy (proxy_address : string).              (** of [register_for_proxied_messages] *)
#[export] Instance subscriber_eq_dec : EqDecision subscriber. Proof. solve_decision. Defined.

Definition topic_of (s : subscriber) : string :=
  match s with
  | LogicalAgent id => "packet-in:" +:+ id
  | PacketOutOf id => "packet-out:" +:+ id
  | TxProxy addr => "tx:" +:+ addr
  | RxProxy addr => "rx:" +:+ addr
  end.

(** Calls of the adapter *)
Inductive adapter_call : Type :=
  | receive_packet_out_call (logical_device_id : string) (out_port : option Z) (frame : string)
  | send_proxied_message_call (proxy_address msg : string)
  | receive_proxied_message_call (proxy_address msg : string).

Record world : Type := mk_world {
  w_bus : bus payload;
  w_owner : list subscriber;
  w_packet_in_queue : list (string * packet_in);
  w_adapter_calls : list adapter_call;
}.
Definition new_world : world := mk_world empty_bus [] [] [].

Definition set_bus b (w : world) : world :=
  mk_world b (w_owner w) (w_packet_in_queue w) (w_adapter_calls w).

(** [event_bus.subscribe(topic, callback)] *)
Definition subscribe_as (s : subscriber) : M world unit := λ w,
  match subscribe (TopicStr (topic_of s)) (λ _ _, Ok tt) None (w_bus w) with
  | (Ok _, b) => (Ok tt, mk_world b (w_owner w ++ [s]) (w_packet_in_queue w) (w_adapter_calls w))
  | (Raise e, b) => (Raise e, set_bus b w)
  end.

(** ** The callbacks *)

Definition OFPR_ACTION : Z := 1.

(** [LogicalDeviceAgent.handle_packet_in_event], [packet_in] and
    [LocalHandler.send_packet_in] *)
Definition packet_in_of (logical_port_no : Z) (packet : string) : packet_in :=
  mk_packet_in 0 OFPR_ACTION 0 0 (mk_match OFPMT_OXM [basic (in_port logical_port_no)]) packet.
Definition handle_packet_in_event (id : string) (msg : payload) : M world unit :=
  match msg with
  | PortPacket logical_port_no packet =>
      modify (λ w, mk_world (w_bus w) (w_owner w)
                     (w_packet_in_queue w ++ [(id, packet_in_of logical_port_no packet)]) (w_adapter_calls w))
  | _ => raise TypeError
  end.

Definition call_adapter (c : adapter_call) : M world unit :=
  modify (λ w, mk_world (w_bus w) (w_owner w) (w_packet_in_queue w) (w_adapter_calls w ++ [c])).

(** [AdapterAgent.receive_packet_out] *)
Definition get_port_out (opo : packet_out) : option Z :=
  a_output_port <$> find (λ a, bool_decide (a_type a = OUTPUT)) (po_actions opo).
Definition receive_packet_out (id : string) (msg : payload) : M world unit :=
  match msg with
  | PacketOutMsg po => call_adapter (receive_packet_out_call id (get_port_out po) (po_data po))
  | _ => raise AttributeError
  end.

Definition run_callback (s : subscriber) (msg : payload) : M world unit :=
  match s, msg with
  | LogicalAgent id, _ => handle_packet_in_event id msg
  | PacketOutOf id, _ => receive_packet_out id msg
  | TxProxy addr, ProxiedMsg m => call_adapter (send_proxied_message_call addr m)
  | RxProxy addr, ProxiedMsg m => call_adapter (receive_proxied_message_call addr m)
  | _, _ => raise TypeError
  end.

(** [EventBus.publish] runs the callbacks in order and logs their exceptions. *)
Fixpoint run_callbacks (ids : list nat) (msg : payload) : M world unit := λ w,
  match ids with
  | [] => (Ok tt, w)
  | i :: ids =>
      match w_owner w !! i with
      | Some s => run_callbacks ids msg (run_callback s msg w).2
      | None => run_callbacks ids msg w
      end
  end.
Definition publish_to (topic : string) (msg : payload) : M world unit := λ w,
  match publish topic msg (w_bus w) with
  | (Ok ids, b) => run_callbacks ids msg (set_bus b w)
  | (Raise e, b) => (Raise e, set_bus b w)
  end.

(** ** The operations *)

Definition new_logical_device_agent (id : string) : M world unit := subscribe_as (LogicalAgent id).
(** the subscription of [create_logical_device] *)
Definition subscribe_packet_out (id : string) : M world unit := subscribe_as (PacketOutOf id).
(** the subscription of [child_device_detected] *)
Definition subscribe_tx (proxy_address : string) : M world unit := subscribe_as (TxProxy proxy_address).
Definition register_for_proxied_messages (proxy_address : string) : M world unit :=
  subscribe_as (RxProxy proxy_address).
(** [AdapterAgent.send_packet_in] and [LogicalDeviceAgent.packet_out] *)
Definition send_packet_in (id : string) (logical_port_no : Z) (packet : string) : M world unit :=
  publish_to ("packet-in:" +:+ id) (PortPacket logical_port_no packet).
Definition packet_out_to (id : string) (po : packet_out) : M world unit :=
  publish_to ("packet-out:" +:+ id) (PacketOutMsg po).
Definition send_proxied_message (proxy_address msg : string) : M world unit :=
  publish_to ("tx:" +:+ proxy_address) (ProxiedMsg msg).
Definition receive_proxied_message (proxy_address msg : string) : M world unit :=
  publish_to ("rx:" +:+ proxy_address) (ProxiedMsg msg).

Inductive step (w : world) : world → Prop :=
  | step_subscribe s w' : subscribe_as s w = (Ok tt, w') → step w w'
  | step_publish t m w' : publish_to t m w = (Ok tt, w') → step w w'.
Definition reachable : world → Prop := rtc step new_world.

(** ** The bus serves exactly the subscriptions of a topic *)

Definition ids_of (t : string) (l : list subscriber) : list nat :=
  (filter (λ p : nat * subscriber, topic_of p.2 = t) (imap pair l)).*1.

Record wf (w : world) : Prop := {
  wf_next : next_id (w_bus w) = length (w_owner w);
  wf_none : subscriptions (w_bus w) !! None = None;
  wf_ids t : s_id <$> subs_at (w_bus w) (Some t) = ids_of t (w_owner w);
  wf_plain t : Forall (λ s, s_predicate s = None) (subs_at (w_bus w) (Some t));
}.

Lemma ids_of_app t l s :
  ids_of t (l ++ [s]) = ids_of t l ++ (if decide (topic_of s = t) then [length l] else []).
Proof.
  unfold ids_of. rewrite imap_app, filter_app, fmap_app. f_equal.
  cbn. rewrite ?Nat.add_0_r. by case_decide.
Qed.

Lemma wf_new : wf new_world.
Proof. split; [done|done|done|]. intros t. constructor. Qed.

Lemma subscribe_wf s w w' :
  wf w → subscribe_as s w = (Ok tt, w') → wf w' ∧ w_owner w' = w_owner w ++ [s] ∧
    w_packet_in_queue w' = w_packet_in_queue w ∧ w_adapter_calls w' = w_adapter_calls w.
Proof.
  intros [Hn HN Hids Hpl] [= <-]. split; [|done]. split; cbn [w_bus w_owner next_id subscriptions].
  - rewrite Hn, length_app. cbn. lia.
  - by rewrite lookup_insert_ne.
  - intros t. rewrite ids_of_app, <- Hids. unfold subs_at at 1. cbn.
    destruct (decide (topic_of s = t)) as [<-|Hne].
    + rewrite lookup_insert_eq. cbn. rewrite fmap_app. by rewrite Hn.
    + rewrite lookup_insert_ne by congruence. by rewrite app_nil_r.
  - intros t. unfold subs_at. cbn. destruct (decide (topic_of s = t)) as [<-|Hne].
    + rewrite lookup_insert_eq. cbn. apply Forall_app. split; [apply Hpl|by constructor].
    + rewrite lookup_insert_ne by congruence. apply Hpl.
Qed.

Lemma run_callback_frame s msg w :
  w_owner (run_callback s msg w).2 = w_owner w ∧ w_bus (run_callback s msg w).2 = w_bus w.
Proof. by destruct s, msg. Qed.

Lemma run_callbacks_owners t msg w pre l :
  w_owner w = pre ++ l →
  run_callbacks ((filter (λ p : nat * subscriber, topic_of p.2 = t)
                    (imap (λ i s, (length pre + i, s)) l)).*1) msg w =
  (Ok tt, foldl (λ w s, (run_callback s msg w).2) w (filter (λ s, topic_of s = t) l)).
Proof.
  revert pre w. induction l as [|s l IH]; intros pre w Hw; [done|].
  rewrite imap_cons. cbn [Nat.add]. rewrite Nat.add_0_r.
  assert (imap ((λ i x, (length pre + i, x)) ∘ S) l = imap (λ i x, (length (pre ++ [s]) + i, x)) l) as Himap.
  { apply imap_ext. intros i x _. cbn. rewrite length_app. cbn. f_equal. lia. }
  rewrite !filter_cons. cbn [snd]. case_decide as Ht.
  - cbn [fmap list_fmap fst run_callbacks foldl]. rewrite Hw, list_lookup_middle by done.
    rewrite Himap. apply (IH (pre ++ [s])). rewrite (proj1 (run_callback_frame s msg w)), Hw. by rewrite <- (assoc_L (++)).
  - rewrite Himap. apply (IH (pre ++ [s])). by rewrite Hw, <- (assoc_L (++)).
Qed.

(** Publishing runs the callbacks of the topic's subscribers, each once, in the
    order in which they subscribed. *)
Lemma publish_to_owners t msg w :
  wf w → publish_to t msg w =
  (Ok tt, foldl (λ w s, (run_callback s msg w).2) w (filter (λ s, topic_of s = t) (w_owner w))).
Proof.
  intros [Hn HN Hids Hpl]. unfold publish_to, publish.
  assert (subs_at (w_bus w) None = []) as -> by (unfold subs_at; by rewrite HN).
  rewrite filter_nil, app_nil_r.
  assert (filter (λ s, accepts msg s) (subs_at (w_bus w) (Some t)) = subs_at (w_bus w) (Some t)) as ->.
  { apply filter_all. eapply Forall_impl; [apply (Hpl t)|]. cbn. intros s Hs. unfold accepts. by rewrite Hs. }
  rewrite Hids.
  assert (match subscriptions (w_bus w) !! Some t with
          | Some _ => mk_bus (<[Some t:=subs_at (w_bus w) (Some t)]> (subscriptions (w_bus w)))
                        (subs_topic_map (w_bus w)) (next_id (w_bus w))
          | None => w_bus w end = w_bus w) as ->.
  { destruct (subscriptions (w_bus w) !! Some t) as [l|] eqn:Hl; [|done].
    unfold subs_at. rewrite Hl. cbn. rewrite insert_id by done. by destruct (w_bus w). }
  replace (set_bus (w_bus w) w) with w by (by destruct w).
  apply (run_callbacks_owners t msg w [] (w_owner w)). done.
Qed.

Lemma callbacks_frame msg l w :
  w_owner (foldl (λ w s, (run_callback s msg w).2) w l) = w_owner w ∧
  w_bus (foldl (λ w s, (run_callback s msg w).2) w l) = w_bus w.
Proof.
  revert w. induction l as [|s l IH]; intros w; [done|]. cbn [foldl].
  destruct (IH (run_callback s msg w).2) as [-> ->]. apply run_callback_frame.
Qed.

Lemma wf_ext w w' : w_owner w' = w_owner w → w_bus w' = w_bus w → wf w → wf w'.
Proof. intros Ho Hb [H1 H2 H3 H4]. split; rewrite ?Ho, ?Hb; [done|done|..]; intros t; by rewrite ?Ho, ?Hb. Qed.

Lemma step_wf w w' : step w w' → wf w → wf w'.
Proof.
  intros [s w1 Hs|t m w1 Hp] Hw.
  - by eapply subscribe_wf.
  - rewrite publish_to_owners in Hp by done. injection Hp as <-.
    destruct (callbacks_frame m (filter (λ s, topic_of s = t) (w_owner w)) w) as [Ho Hb].
    by eapply wf_ext.
Qed.

Lemma reachable_wf w : reachable w → wf w.
Proof.
  unfold reachable. generalize wf_new. generalize new_world as w0. intros w0 Hw0 Hr.
  induction Hr as [|w0 w1 w2 Hs _ IH]; [done|]. by eapply IH, step_wf.
Qed.

Lemma topic_of_inj s1 s2 : topic_of s1 = topic_of s2 → s1 = s2.
Proof. destruct s1, s2; cbn; intros; by simplify_eq. Qed.

(** How often a subscriber subscribed *)
Definition times (s : subscriber) (w : world) : nat := length (filter (.= s) (w_owner w)).

Lemma filter_topic s w :
  filter (λ x, topic_of x = topic_of s) (w_owner w) = replicate (times s w) s.
Proof.
  unfold times. induction (w_owner w) as [|x l IH]; [done|]. rewrite !filter_cons.
  destruct (decide (x = s)) as [->|Hne].
  - rewrite decide_True by done. cbn. by rewrite IH.
  - rewrite decide_False; [done|]. by intros ?%topic_of_inj.
Qed.

(** ** The OpenFlow agent

    The connection manager with its agents, and for every agent, by its address,
    the protocol handler of its latest connection (ofagent/grpc_client.py,
    connection_mgr.py, agent.py). *)

Record ofagent : Type := mk_ofagent {
  oa_manager : OfAgents.manager;
  oa_handlers : gmap nat OfProtocol.handler;
}.
Definition new_ofagent (controller_endpoint : string) : ofagent :=
  mk_ofagent (OfAgents.new_manager controller_endpoint) ∅.
Definition set_handler (i : nat) (h : OfProtocol.handler) (o : ofagent) : ofagent :=
  mk_ofagent (oa_manager o) (<[i := h]> (oa_handlers o)).

(** The handler made by [Agent.protocol], when its connection is made *)
Definition new_handler (datapath_id : Z) : OfProtocol.handler :=
  OfProtocol.mk_handler datapath_id true OfProtocol.WaitHello [] [] [] [].

Section paths.
Context `{HPb : !Pb2Dict}.

(** [Agent.forward_packet_in] *)
Definition agent_forward_packet_in (i : nat) (p : packet_in) : M ofagent unit := λ o,
  match oa_handlers o !! i with
  | None => (Ok tt, o)
  | Some h => let '(r, h') := OfProtocol.forward_packet_in p h in (r, set_handler i h' o)
  end.

(** [ConnectionManager.forward_packet_in] *)
Definition manager_forward_packet_in (device_id : string) (p : packet_in) : M ofagent unit :=
  o ← get_state;
  agent ← lift (OfAgents.forward_packet_in device_id (oa_manager o));
  match agent with
  | Some i => agent_forward_packet_in i p
  | None => mret tt
  end.

(** [GrpcClient.packet_in_forwarder_loop] on the entries that were queued; an
    exception ends it. *)
Fixpoint packet_in_forwarder_loop (queue : list (string * packet_in)) : M ofagent unit :=
  match queue with
  | [] => mret tt
  | (device_id, p) :: queue =>
      _ ← manager_forward_packet_in device_id p; packet_in_forwarder_loop queue
  end.

(** What happens in the OpenFlow agent: the device list is polled; an agent, its
    connector or its timer has an event, and a connection that is made comes with
    a new protocol handler; a protocol handler is started or has an event; packets
    are forwarded. *)
Inductive oa_step (o : ofagent) : ofagent → Prop :=
  | oa_refresh devices r m' :
      OfAgents.refresh_agent_connections devices (oa_manager o) = (r, m') →
      oa_step o (mk_ofagent m' (oa_handlers o))
  | oa_agent i a e r a' :
      OfAgents.cm_agents (oa_manager o) !! i = Some a → OfAgents.enabled a e →
      OfAgents.handle e a = (r, a') →
      oa_step o (mk_ofagent
        (OfAgents.set_agents (<[i := a']> (OfAgents.cm_agents (oa_manager o))) (oa_manager o))
        (match e with
         | OfAgents.ConnectionMade => <[i := new_handler (OfAgents.a_datapath_id a)]> (oa_handlers o)
         | _ => oa_handlers o
         end))
  | oa_start i h :
      oa_handlers o !! i = Some h → oa_step o (set_handler i (OfProtocol.start h) o)
  | oa_handler i h e :
      oa_handlers o !! i = Some h → oa_step o (set_handler i (OfProtocol.step e h) o)
  | oa_forward queue r o' : packet_in_forwarder_loop queue o = (r, o') → oa_step o o'.
Definition oa_reachable (controller_endpoint : string) : ofagent → Prop :=
  rtc oa_step (new_ofagent controller_endpoint).

(** The handlers are those of the agents that were connected at some time, and
    all have a connection. *)
Record linked (o : ofagent) : Prop := {
  linked_agent i a : OfAgents.cm_agents (oa_manager o) !! i = Some a →
    (OfAgents.a_proto_handler a = true ↔ is_Some (oa_handlers o !! i)) ∧
    (OfAgents.a_connector a = Some OfAgents.Up → OfAgents.a_proto_handler a = true);
  linked_handler i h : oa_handlers o !! i = Some h →
    OfProtocol.h_connected h = true ∧ i < length (OfAgents.cm_agents (oa_manager o));
}.

(** What the operations of the manager keep of the agents' connections *)
Definition keeps (l l' : list OfAgents.agent) : Prop :=
  length l ≤ length l' ∧
  ∀ i a', l' !! i = Some a' →
    (∃ a, l !! i = Some a ∧ OfAgents.a_proto_handler a' = OfAgents.a_proto_handler a ∧
       (OfAgents.a_connector a' = Some OfAgents.Up → OfAgents.a_connector a = Some OfAgents.Up)) ∨
    (length l ≤ i ∧ OfAgents.a_proto_handler a' = false ∧ OfAgents.a_connector a' ≠ Some OfAgents.Up).

#[export] Instance keeps_preorder : PreOrder keeps.
Proof.
  split.
  - intros l. split; [done|]. intros i a Ha. left. by exists a.
  - intros l1 l2 l3 [Hl12 H12] [Hl23 H23]. split; [lia|]. intros i a3 Ha3.
    destruct (H23 i a3 Ha3) as [(a2 & Ha2 & Hp & Hc)|(Hi & Hp & Hc)]; [|right; split_and!; [lia|done|done]].
    destruct (H12 i a2 Ha2) as [(a1 & Ha1 & Hp1 & Hc1)|(Hi & Hp1 & Hc1)].
    + left. exists a1. split_and!; [done|congruence|auto].
    + right. split_and!; [done|congruence|naive_solver].
Qed.

Lemma keeps_insert l i a a' :
  l !! i = Some a → OfAgents.a_proto_handler a' = OfAgents.a_proto_handler a →
  (OfAgents.a_connector a' = Some OfAgents.Up → OfAgents.a_connector a = Some OfAgents.Up) →
  keeps l (<[i := a']> l).
Proof.
  intros Ha Hp Hc. split; [by rewrite length_insert|]. intros j b Hb. left.
  destruct (decide (j = i)) as [->|Hne].
  - rewrite list_lookup_insert_eq in Hb by (by eapply lookup_lt_Some). injection Hb as <-. by exists a.
  - rewrite list_lookup_insert_ne in Hb by done. by exists b.
Qed.

Lemma stop_keeps a r a' :
  OfAgents.stop a = (r, a') → OfAgents.a_proto_handler a' = OfAgents.a_proto_handler a ∧
  (OfAgents.a_connector a' = Some OfAgents.Up → OfAgents.a_connector a = Some OfAgents.Up).
Proof.
  unfold OfAgents.stop, mbind, M_bind, modify, get_state, lift. cbn.
  destruct a as [? ? ? ? [[]|]]; cbn; intros [= _ <-]; by cbn.
Qed.

Lemma delete_agent_keeps dp m r m' :
  OfAgents.delete_agent dp m = (r, m') → keeps (OfAgents.cm_agents m) (OfAgents.cm_agents m').
Proof.
  unfold OfAgents.delete_agent, OfAgents.on_agent. intros H.
  unfold mbind, M_bind, get_state, lift, modify in H.
  destruct (OfAgents.cm_agent_map m !! dp) as [i|]; cbn in H; [|by injection H as _ <-].
  destruct (OfAgents.cm_agents m !! i) as [a|] eqn:Ha; cbn in H; [|by injection H as _ <-].
  destruct (OfAgents.stop a) as [r' a'] eqn:Hs. cbn in H.
  destruct (stop_keeps _ _ _ Hs) as [Hp Hc].
  destruct r'; cbn in H; [destruct (OfAgents.cm_device_map m !! _); cbn in H|];
    injection H as _ <-; by eapply keeps_insert.
Qed.

Lemma create_agent_keeps d m r m' :
  OfAgents.create_agent d m = (r, m') → keeps (OfAgents.cm_agents m) (OfAgents.cm_agents m').
Proof.
  unfold OfAgents.create_agent, OfAgents.on_agent. intros H.
  unfold mbind, M_bind, get_state, lift, modify in H. cbn in H.
  rewrite list_lookup_middle in H by done. cbn in H. injection H as _ <-. cbn.
  rewrite insert_app_r_alt, Nat.sub_diag by lia. cbn. split; [rewrite length_app; lia|].
  intros i a [Hi|[Hi Ha]]%lookup_app_Some; [left; by exists a|right].
  apply list_lookup_singleton_Some in Ha as [Hi' <-]. by split_and!.
Qed.

Lemma refresh_keeps devices m r m' :
  OfAgents.refresh_agent_connections devices m = (r, m') →
  keeps (OfAgents.cm_agents m) (OfAgents.cm_agents m').
Proof.
  assert (∀ dps m r m', OfAgents.delete_agents dps m = (r, m') →
    keeps (OfAgents.cm_agents m) (OfAgents.cm_agents m')) as Hdel.
  { induction dps as [|dp dps IH]; intros m1 r1 m2 H; [by injection H as _ <-|]. cbn in H.
    unfold mbind, M_bind in H. destruct (OfAgents.delete_agent dp m1) as [[[]|e] m3] eqn:Hd;
      [|injection H as _ <-; by eapply delete_agent_keeps].
    etrans; [by eapply delete_agent_keeps|by eapply IH]. }
  assert (∀ ds to_add m r m', OfAgents.create_agents ds to_add m = (r, m') →
    keeps (OfAgents.cm_agents m) (OfAgents.cm_agents m')) as Hcre.
  { induction ds as [|d ds IH]; intros to_add m1 r1 m2 H; [by injection H as _ <-|]. cbn in H.
    unfold mbind, M_bind in H. destruct (bool_decide _); [|cbn in H; by eapply IH].
    destruct (OfAgents.create_agent d m1) as [[[]|e] m3] eqn:Hd;
      [|injection H as _ <-; by eapply create_agent_keeps].
    etrans; [by eapply create_agent_keeps|by eapply IH]. }
  unfold OfAgents.refresh_agent_connections. unfold mbind at 1, M_bind at 1, get_state.
  destruct (bool_decide _); intros H; [by injection H as _ <-|].
  unfold mbind, M_bind in H. destruct (OfAgents.delete_agents _ m) as [[[]|e] m3] eqn:Hd;
    [|injection H as _ <-; by eapply Hdel].
  etrans; [by eapply Hdel|by eapply Hcre].
Qed.

(** The handler after handing over more messages *)
Definition sent_more (l : list OfProtocol.reply) (h : OfProtocol.handler) : OfProtocol.handler :=
  OfProtocol.mk_handler (OfProtocol.h_datapath_id h) (OfProtocol.h_connected h) (OfProtocol.h_phase h)
    (OfProtocol.h_rx h) (OfProtocol.h_pending h) (OfProtocol.h_calls h) (OfProtocol.h_sent h ++ l).

Lemma forward_connected p h r h' :
  OfProtocol.forward_packet_in p h = (r, h') → OfProtocol.h_connected h' = OfProtocol.h_connected h.
Proof.
  unfold OfProtocol.forward_packet_in, OfProtocol.send, mbind, M_bind, lift, get_state, modify.
  destruct (ofp_packet_in_to_loxi_packet_in p); [|by intros [= _ <-]].
  destruct (OfProtocol.h_connected h) eqn:Hc; cbn; intros [= _ <-]; by cbn.
Qed.

Lemma set_handler_linked i h h' o :
  linked o → oa_handlers o !! i = Some h → OfProtocol.h_connected h' = true → linked (set_handler i h' o).
Proof.
  intros [H1 H2] Hi Hc. destruct (H2 i h Hi) as [_ Hlt]. split; cbn.
  - intros j a Ha. destruct (H1 j a Ha) as [Hp Hup]. split; [|done]. rewrite Hp.
    destruct (decide (j = i)) as [->|Hne]; [|by rewrite lookup_insert_ne].
    rewrite lookup_insert_eq, Hi. done.
  - intros j x [[<- <-]|[Hne Hx]]%lookup_insert_Some; [done|by apply H2].
Qed.

Lemma forwarder_linked queue o r o' : packet_in_forwarder_loop queue o = (r, o') → linked o → linked o'.
Proof.
  revert o. induction queue as [|[id p] queue IH]; intros o H Hl; [by injection H as _ <-|].
  cbn in H. unfold manager_forward_packet_in, mbind, M_bind, get_state, lift in H.
  destruct (OfAgents.forward_packet_in id (oa_manager o)) as [[i|]|e]; [|cbn in H; by eapply IH|by injection H as _ <-].
  unfold agent_forward_packet_in in H. destruct (oa_handlers o !! i) as [h|] eqn:Hi; [|by eapply IH].
  destruct (OfProtocol.forward_packet_in p h) as [r1 h1] eqn:Hf.
  assert (linked (set_handler i h1 o)) as Hl'.
  { eapply set_handler_linked; [done..|]. rewrite (forward_connected _ _ _ _ Hf). by eapply linked_handler. }
  destruct r1; [by eapply IH|by injection H as _ <-].
Qed.

Lemma handle_keeps e a r a' :
  OfAgents.enabled a e → OfAgents.handle e a = (r, a') → e ≠ OfAgents.ConnectionMade →
  OfAgents.a_proto_handler a' = OfAgents.a_proto_handler a ∧ OfAgents.a_connector a' ≠ Some OfAgents.Up ∨
  a' = OfAgents.set_pc OfAgents.Ended a.
Proof.
  intros Hen. destruct e; intros Hh Hne; [|clear Hne|done|clear Hne]; revert Hh; cbn in *.
  - unfold OfAgents.keep_connected. destruct (OfAgents.a_exiting a); [intros [= _ <-]; by right|].
    destruct (OfAgents.resolve_endpoint _); intros [= _ <-]; [by left|by right].
  - unfold OfAgents.enter_disconnected, OfAgents.fire_disconnected, mbind, M_bind, mret, M_ret, modify, get_state. cbn.
    destruct a as [? ? ? ? ? [[]|] ? [] ? ? ? ?]; cbn; intros [= _ <-]; by left.
  - unfold OfAgents.enter_disconnected, OfAgents.fire_disconnected, mbind, M_bind, mret, M_ret, modify, get_state. cbn.
    destruct a as [? ? ? ? ? [[]|] ? [] ? ? ? ?]; cbn; intros [= _ <-]; by left.
Qed.

Lemma linked_keeps o m' :
  linked o → keeps (OfAgents.cm_agents (oa_manager o)) (OfAgents.cm_agents m') →
  linked (mk_ofagent m' (oa_handlers o)).
Proof.
  intros [H1 H2] [Hlen Hk]. split; cbn.
  - intros i a' Ha'. destruct (Hk i a' Ha') as [(a & Ha & -> & Hc)|(Hi & Hp & Hc)].
    + destruct (H1 i a Ha) as [Hp Hup]. split; [done|auto].
    + rewrite Hp. split; [|done]. split; [done|]. intros [h Hh]. destruct (H2 i h Hh). lia.
  - intros i h Hh. destruct (H2 i h Hh). split; [done|lia].
Qed.

Lemma oa_step_linked o o' : oa_step o o' → linked o → linked o'.
Proof.
  intros [ds r m' Hr|i a e r a' Ha Hen Hh|i h Hi|i h e Hi|q r o1 Hq] Hl.
  - apply linked_keeps; [done|]. by eapply refresh_keeps.
  - assert (e = OfAgents.ConnectionMade ∨ e ≠ OfAgents.ConnectionMade) as [-> |Hne]
      by (destruct e; naive_solver).
    + destruct Hl as [H1 H2]. injection Hh as _ <-. pose proof (lookup_lt_Some _ _ _ Ha) as Hlt.
      split; cbn.
      * intros j b Hb. destruct (decide (j = i)) as [->|Hne].
        -- rewrite list_lookup_insert_eq in Hb by done. injection Hb as <-. cbn.
           rewrite lookup_insert_eq. split; [|done]. split; [by eexists|done].
        -- rewrite list_lookup_insert_ne in Hb by done. rewrite lookup_insert_ne by done. by apply H1.
      * intros j h. rewrite length_insert. intros [[<- <-]|[_ Hx]]%lookup_insert_Some; [done|by apply H2].
    + replace (match e with OfAgents.ConnectionMade => _ | _ => _ end) with (oa_handlers o) by by destruct e.
      apply linked_keeps; [done|]. cbn.
      destruct (handle_keeps e a r a' Hen Hh Hne) as [[Hp Hc]| ->]; by eapply keeps_insert.
  - eapply set_handler_linked; [done..|]. apply OfProtocol.start_connected. by eapply linked_handler.
  - eapply set_handler_linked; [done..|]. apply OfProtocol.step_connected. by eapply linked_handler.
  - by eapply forwarder_linked.
Qed.

Lemma oa_reachable_linked ep o : oa_reachable ep o → linked o.
Proof.
  assert (linked (new_ofagent ep)) as H0 by (split; [by intros i a|by intros i h; cbn; rewrite lookup_empty]).
  intros Hr. revert H0. induction Hr as [|o1 o2 o3 Hs _ IH]; [done|]. intros H0. by eapply IH, oa_step_linked.
Qed.

(** The message the controller is sent for a packet *)
Definition packet_in_reply (port : Z) (packet : string) : OfProtocol.reply :=
  OfProtocol.mk_reply None (OfProtocol.packet_in_message
    (mk_loxi_packet_in 0 OFPR_ACTION 0 0 [oxm_in_port port] packet)).

Lemma forward_effect port packet h :
  OfProtocol.h_connected h = true →
  OfProtocol.forward_packet_in (packet_in_of port packet) h =
    (Ok tt, sent_more [packet_in_reply port packet] h).
Proof.
  intros Hc. unfold OfProtocol.forward_packet_in, ofp_packet_in_to_loxi_packet_in.
  rewrite (make_loxi_match_back [oxm_in_port port] (pi_match (packet_in_of port packet)) eq_refl).
  erewrite M_bind_eq by reflexivity. by rewrite OfProtocol.send_connected.
Qed.

Lemma forwarder_effect n id port packet i o :
  linked o → OfAgents.forward_packet_in id (oa_manager o) = Ok (Some i) →
  packet_in_forwarder_loop (replicate n (id, packet_in_of port packet)) o =
    (Ok tt, match oa_handlers o !! i with
            | Some h => set_handler i (sent_more (replicate n (packet_in_reply port packet)) h) o
            | None => o
            end).
Proof.
  revert o. induction n as [|n IH]; intros o Hl Hf.
  { cbn. destruct (oa_handlers o !! i) as [h|] eqn:Hi; [|done]. unfold set_handler, sent_more.
    rewrite app_nil_r, insert_id; [by destruct o|]. rewrite Hi. by destruct h. }
  cbn [replicate packet_in_forwarder_loop]. unfold manager_forward_packet_in.
  unfold mbind, M_bind, get_state, lift. rewrite Hf. unfold agent_forward_packet_in.
  destruct (oa_handlers o !! i) as [h|] eqn:Hi.
  - destruct (linked_handler _ Hl i h Hi) as [Hc _]. rewrite forward_effect by done.
    rewrite IH; [|by eapply set_handler_linked|done]. cbn. rewrite lookup_insert_eq.
    unfold set_handler, sent_more. cbn. rewrite insert_insert_eq, <- (assoc_L (++)). done.
  - rewrite IH by done. by rewrite Hi.
Qed.

(** C25: a packet an adapter sends up is sent to the controller.  The core queues
    it as often as an agent of that logical device subscribed, once when there is
    one, in entries that name the logical device.  A reachable OpenFlow agent whose
    manager tracks a device list with that device (with datapath ids other than
    zero) has exactly one agent of the device that is not stopped; when the
    forwarder takes the entries, the protocol handler of that agent's latest
    connection hands to its transport, for each of them, one packet-in message that
    matches exactly the ingress port and carries the packet, and nothing else
    changes.  While the agent is connected there is such a handler; an agent that
    never was connected drops the packets. *)
Theorem packet_in_path w ep o id port packet ds dp :
  reachable w → oa_reachable ep o → OfAgents.tracks (oa_manager o) ds →
  OfAgents.mk_device id dp ∈ ds → (∀ d, d ∈ ds → OfAgents.d_datapath_id d ≠ 0%Z) →
  let entries := replicate (times (LogicalAgent id) w) (id, packet_in_of port packet) in
  let messages := replicate (times (LogicalAgent id) w) (packet_in_reply port packet) in
  ∃ w', send_packet_in id port packet w = (Ok tt, w') ∧
    w_packet_in_queue w' = w_packet_in_queue w ++ entries ∧
    w_adapter_calls w' = w_adapter_calls w ∧
    ∃ i a, OfAgents.cm_agents (oa_manager o) !! i = Some a ∧
      OfAgents.a_device_id a = id ∧ OfAgents.a_running a = true ∧ OfAgents.a_exiting a = false ∧
      (∀ j b, OfAgents.cm_agents (oa_manager o) !! j = Some b → OfAgents.a_exiting b = false →
         OfAgents.a_device_id b = id → j = i) ∧
      (OfAgents.a_connector a = Some OfAgents.Up → is_Some (oa_handlers o !! i)) ∧
      packet_in_forwarder_loop entries o =
        (Ok tt, match oa_handlers o !! i with
                | Some h => set_handler i (sent_more messages h) o
                | None => o
                end).
Proof.
  intros Hw%reachable_wf Hl%oa_reachable_linked Ht Hd Hnz entries messages. eexists.
  unfold send_packet_in. rewrite publish_to_owners by done. split; [done|].
  rewrite (filter_topic (LogicalAgent id)). unfold entries, messages.
  generalize (times (LogicalAgent id) w) as n. intros n. clear entries messages.
  assert (∀ n w, let w' := foldl (λ w s, (run_callback s (PortPacket port packet) w).2) w
                             (replicate n (LogicalAgent id)) in
    w_packet_in_queue w' = w_packet_in_queue w ++ replicate n (id, packet_in_of port packet) ∧
    w_adapter_calls w' = w_adapter_calls w) as Hn.
  { clear. induction n as [|n IH]; intros w; cbn [replicate foldl]; [by rewrite app_nil_r|].
    destruct (IH (run_callback (LogicalAgent id) (PortPacket port packet) w).2) as [-> ->].
    cbn. by rewrite <- (assoc_L (++)). }
  destruct (Hn n w) as [H1 H2]. split_and!; [done|done|].
  destruct (OfAgents.forward_tracks _ ds id Ht Hnz) as [_ Hf].
  destruct (Hf (OfAgents.mk_device id dp) Hd eq_refl) as (i & a & Hi & Ha & ? & ? & ? & Huniq).
  exists i, a. destruct (linked_agent _ Hl i a Ha) as [Hp Hup].
  split_and!; [done..|naive_solver|by apply forwarder_effect].
Qed.

(** A packet-out and a message between adapters reach the adapter as often as
    there are subscriptions for them, once when there is one: a packet-out with
    the port of its first output action; a message sent towards a proxy address
    the adapter that detected the device behind it, a message received from it
    the adapter that registered for it. *)
Theorem adapter_paths w :
  reachable w →
  (∀ id po, ∃ w', packet_out_to id po w = (Ok tt, w') ∧
     w_packet_in_queue w' = w_packet_in_queue w ∧
     w_adapter_calls w' = w_adapter_calls w ++
       replicate (times (PacketOutOf id) w) (receive_packet_out_call id (get_port_out po) (po_data po))) ∧
  (∀ addr msg, ∃ w', send_proxied_message addr msg w = (Ok tt, w') ∧
     w_adapter_calls w' = w_adapter_calls w ++
       replicate (times (TxProxy addr) w) (send_proxied_message_call addr msg)) ∧
  (∀ addr msg, ∃ w', receive_proxied_message addr msg w = (Ok tt, w') ∧
     w_adapter_calls w' = w_adapter_calls w ++
       replicate (times (RxProxy addr) w) (receive_proxied_message_call addr msg)).
Proof.
  intros Hw%reachable_wf.
  assert (∀ s msg c n w, (∀ w, (run_callback s msg w).2 = (call_adapter c w).2) →
    let w' := foldl (λ w s, (run_callback s msg w).2) w (replicate n s) in
    w_packet_in_queue w' = w_packet_in_queue w ∧
    w_adapter_calls w' = w_adapter_calls w ++ replicate n c) as Hn.
  { clear. intros s msg c n w Hc. revert w. induction n as [|n IH]; intros w; cbn [replicate foldl];
      [by rewrite app_nil_r|].
    destruct (IH (run_callback s msg w).2) as [-> ->]. rewrite Hc. cbn. by rewrite <- (assoc_L (++)). }
  split_and!.
  - intros id po. eexists. unfold packet_out_to. rewrite publish_to_owners by done. split; [done|].
    rewrite (filter_topic (PacketOutOf id)). by apply Hn.
  - intros addr msg. eexists. unfold send_proxied_message. rewrite publish_to_owners by done. split; [done|].
    rewrite (filter_topic (TxProxy addr)). by apply Hn.
  - intros addr msg. eexists. unfold receive_proxied_message. rewrite publish_to_owners by done. split; [done|].
    rewrite (filter_topic (RxProxy addr)). by apply Hn.
Qed.
End paths.

(** ** Witnesses *)

Definition w1 : world := (new_logical_device_agent "dev1" new_world).2.
Definition w2 : world := (subscribe_packet_out "dev1" w1).2.

Lemma reachable_w2 : reachable w2.
Proof.
  eapply rtc_l; [by eapply (step_subscribe _ (LogicalAgent "dev1"))|].
  apply rtc_once. by eapply (step_subscribe _ (PacketOutOf "dev1")).
Qed.

(** An OpenFlow agent that polled the device and was connected *)
Definition o1 : ofagent :=
  mk_ofagent (OfAgents.refresh_agent_connections [OfAgents.dev1]
                (OfAgents.new_manager OfAgents.endpoint)).2 ∅.
Definition a1 : OfAgents.agent := (OfAgents.start (OfAgents.init OfAgents.endpoint 1 "dev1")).2.
Definition a2 : OfAgents.agent := (OfAgents.handle OfAgents.TimerFires a1).2.
Definition a3 : OfAgents.agent := (OfAgents.handle OfAgents.ConnectionMade a2).2.
Definition o2 : ofagent :=
  mk_ofagent (OfAgents.set_agents (<[0 := a2]> (OfAgents.cm_agents (oa_manager o1))) (oa_manager o1))
    (oa_handlers o1).
Definition o3 : ofagent :=
  mk_ofagent (OfAgents.set_agents (<[0 := a3]> (OfAgents.cm_agents (oa_manager o2))) (oa_manager o2))
    (<[0 := new_handler (OfAgents.a_datapath_id a2)]> (oa_handlers o2)).
Definition m3 : OfAgents.manager := Eval vm_compute in oa_manager o3.

Lemma reachable_o3 : oa_reachable OfAgents.endpoint o3.
Proof.
  apply (rtc_l _ _ o1), (rtc_l _ _ o2), rtc_once.
  - by apply (oa_refresh (new_ofagent OfAgents.endpoint) [OfAgents.dev1] (Ok tt)).
  - apply (oa_agent o1 0 a1 OfAgents.TimerFires (Ok tt) a2);
      [vm_compute; reflexivity|by left|vm_compute; reflexivity].
  - apply (oa_agent o2 0 a2 OfAgents.ConnectionMade (Ok tt) a3); vm_compute; reflexivity.
Qed.

Lemma tracks_o3 : OfAgents.tracks (oa_manager o3) [OfAgents.dev1].
Proof.
  assert (oa_manager o3 = m3) as -> by (vm_compute; reflexivity). split.
  - intros dp. change (OfAgents.cm_agent_map m3) with ({[1%Z := 0]} : gmap Z nat).
    rewrite lookup_singleton_is_Some. cbn. rewrite list_elem_of_singleton. done.
  - intros id dp. change (OfAgents.cm_device_map m3) with ({["dev1" := 1%Z]} : gmap string Z).
    rewrite lookup_singleton_Some, list_elem_of_singleton. unfold OfAgents.dev1. naive_solver.
  - intros d ->%list_elem_of_singleton. eexists 0, _. by split_and!.
  - intros [|i] a; [|done]. intros [= <-] _. done.
Qed.

Lemma packet_in_path_witness :
  ∃ w', send_packet_in "dev1" 3 "frame" w2 = (Ok tt, w') ∧
    w_packet_in_queue w' = [("dev1", packet_in_of 3 "frame")] ∧
    packet_in_forwarder_loop [("dev1", packet_in_of 3 "frame")] o3 =
      (Ok tt, set_handler 0 (sent_more [packet_in_reply 3 "frame"] (new_handler 1)) o3).
Proof.
  destruct (packet_in_path w2 OfAgents.endpoint o3 "dev1" 3 "frame" [OfAgents.dev1] 1)
    as (w' & Hw & Hq & _ & i & a & Ha & _ & _ & _ & _ & _ & Hf).
  - apply reachable_w2.
  - apply reachable_o3.
  - apply tracks_o3.
  - left.
  - by intros d ->%list_elem_of_singleton.
  - exists w'. split; [done|]. split; [rewrite Hq; reflexivity|].
    destruct i as [|i]; [|done]. exact Hf.
Defined.

Definition out_po : packet_out := mk_packet_out 0 0 [pop_vlan; output 2; output 5] "frame".

Lemma adapter_paths_witness :
  ∃ w', packet_out_to "dev1" out_po w2 = (Ok tt, w') ∧
    w_adapter_calls w' = [receive_packet_out_call "dev1" (Some 2%Z) "frame"].
Proof.
  destruct (adapter_paths w2 reachable_w2) as [Hpo _].
  destruct (Hpo "dev1" out_po) as (w' & Hw & _ & Hc). exists w'. split; [done|]. rewrite Hc. reflexivity.
Defined.
End PacketPath.
