(* ===== verification/Cluster.v ===== *)
(** * Leader and workers of the cluster (voltha/leader.py, voltha/worker.py)

    The instances of VOLTHA share a key-value store (Consul).  The leader spreads
    the work over the members by writing one key per assignment; a worker reads
    the keys under its own name.  Consistent hashing is a parameter.  Calls of
    the store are retried until they succeed (coordinator.py), so they do not
    raise here. *)

From Stdlib Require Import Ascii.
From stdpp Require Import prelude strings gmap list.
From S2P Require Import Prelude.

Module Cluster.

(** [HashRing(members).get_node(work)] *)
Class HashRing : Type := {
  get_node : list string → string → option string;
  get_node_empty w : get_node [] w = None;
  get_node_member members w : members ≠ [] → ∃ m, get_node members w = Some m ∧ m ∈ members;
}.

(** ** Keys *)

Notation kv := (gmap string string).

Fixpoint strip_prefix (p s : string) : option string :=
  match p, s with
  | "", _ => Some s
  | String a p, String b s => if bool_decide (a = b) then strip_prefix p s else None
  | String _ _, "" => None
  end.

(** The part before the first slash, and the rest when there is a slash *)
Fixpoint until_slash (s : string) : string * option string :=
  match s with
  | "" => ("", None)
  | String c s =>
      if bool_decide (c = "/"%char) then ("", Some s)
      else let '(a, r) := until_slash s in (String c a, r)
  end.
Definition no_slash (s : string) : bool := bool_decide ((until_slash s).2 = None).

(** An identifier matches [^/]+ *)
Definition is_id (s : string) : bool := no_slash s && bool_decide (s ≠ "").

(** ID_EXTRACTOR and ASSIGNMENT_EXTRACTOR *)
Definition id_match (prefix key : string) : option string :=
  s ← strip_prefix prefix key; if is_id s then Some s else None.
Definition assignment_match (prefix key : string) : option (string * string) :=
  s ← strip_prefix prefix key;
  match until_slash s with
  | (m, Some w) => if is_id m && is_id w then Some (m, w) else None
  | (_, None) => None
  end.

(** [kv.get(prefix, recurse=True)]: the keys that start with the prefix *)
Definition recurse (prefix : string) (k : kv) : list string :=
  filter (λ key, is_Some (strip_prefix prefix key)) (map_to_list k).*1.

(** [d.setdefault(k, set()).add(w)] *)
Definition add_to {K} `{EqDecision K} (k : K) (w : string) (d : list (K * gset string))
    : list (K * gset string) :=
  od_set k ({[w]} ∪ default ∅ (od_get k d)) d.

(** ** Facts about keys *)

Lemma strip_prefix_Some p s r : strip_prefix p s = Some r ↔ s = p +:+ r.
Proof.
  revert s. induction p as [|a p IH]; intros s; cbn.
  { split; [by intros [= ->]|by intros ->]. }
  destruct s as [|b s]; [done|]. case_bool_decide as Hab.
  - subst. rewrite IH. split; [by intros ->|by intros [= ->]].
  - split; [done|]. by intros [= ->].
Qed.


(** [s.startswith(p)] *)
Definition starts_with (p s : string) : Prop := is_Some (strip_prefix p s).

Lemma starts_with_id p m w :
  no_slash p = true → starts_with p (m +:+ String "/" w) ↔ starts_with p m.
Proof.
  unfold starts_with, no_slash. intros Hp%bool_decide_eq_true. revert m.
  induction p as [|a p IH]; intros m; [cbn; split; intros _; by eexists|].
  cbn [until_slash] in Hp. case_bool_decide as Ha; [done|].
  assert ((until_slash p).2 = None) as Hp' by (by destruct (until_slash p)).
  destruct m as [|b m].
  - change ("" +:+ String "/" w) with (String "/" w). cbn [strip_prefix].
    rewrite bool_decide_eq_false_2 by done. split; by intros [].
  - change (String b m +:+ String "/" w) with (String b (m +:+ String "/" w)). cbn [strip_prefix].
    case_bool_decide; [by apply IH|]. split; by intros [].
Qed.

Lemma until_slash_app m w : no_slash m = true → until_slash (m +:+ String "/" w) = (m, Some w).
Proof.
  unfold no_slash. intros Hm%bool_decide_eq_true. induction m as [|c m IH]; [done|].
  change (String c m +:+ String "/" w) with (String c (m +:+ String "/" w)). cbn [until_slash] in *.
  case_bool_decide; [done|]. rewrite IH; [done|]. by destruct (until_slash m).
Qed.

Lemma until_slash_Some s m w : until_slash s = (m, Some w) → s = m +:+ String "/" w.
Proof.
  revert m. induction s as [|c s IH]; intros m; cbn; [done|]. case_bool_decide as Hc.
  - intros [= <- <-]. by subst.
  - destruct (until_slash s) as [a r]. intros [= <- ->]. change (String c a +:+ ?x) with (String c (a +:+ x)). f_equal. by apply IH.
Qed.

Lemma is_id_no_slash s : is_id s = true → no_slash s = true.
Proof. unfold is_id. by intros [? _]%andb_true_iff. Qed.

Lemma add_to_elem {K} `{EqDecision K} (l : list (K * string)) d k w :
  w ∈ default ∅ (od_get k (foldl (λ d kw, add_to kw.1 kw.2 d) d l)) ↔
  (k, w) ∈ l ∨ w ∈ default ∅ (od_get k d).
Proof.
  revert d. induction l as [|[k' w'] l IH]; intros d; cbn [foldl].
  { rewrite elem_of_nil. naive_solver. }
  rewrite IH, elem_of_cons. cbn [fst snd]. unfold add_to. destruct (decide (k = k')) as [->|Hne].
  - rewrite od_get_set. cbn. rewrite elem_of_union, elem_of_singleton. naive_solver.
  - rewrite od_get_set_ne by congruence. naive_solver.
Qed.

Lemma add_to_keys {K} `{EqDecision K} (l : list (K * string)) d :
  NoDup (od_keys d) → NoDup (od_keys (foldl (λ d kw, add_to kw.1 kw.2 d) d l)).
Proof.
  revert d. induction l as [|kw l IH]; intros d Hd; [done|]. cbn [foldl]. apply IH. by apply od_set_NoDup.
Qed.

Lemma add_to_in_keys {K} `{EqDecision K} (l : list (K * string)) d k :
  k ∈ od_keys (foldl (λ d kw, add_to kw.1 kw.2 d) d l) ↔ k ∈ l.*1 ∨ k ∈ od_keys d.
Proof.
  revert d. induction l as [|[k' w'] l IH]; intros d; cbn [foldl].
  { cbn. rewrite elem_of_nil. naive_solver. }
  rewrite IH. unfold add_to. rewrite od_keys_set_elem. csimpl. rewrite elem_of_cons. naive_solver.
Qed.

Section cluster.
Context `{!HashRing} (assignment_prefix : string).

Definition assignment_key (member_id work_id : string) : string :=
  assignment_prefix +:+ (member_id +:+ (String "/" work_id)).

(** ** The leader *)

Inductive timer : Type := NoTimer | TimerPending | TimerCalled | TimerCancelled.
Record leader : Type := mk_leader {
  l_halted : bool;
  l_workload : list string;
  l_members : list string;
  l_timer : timer;
}.
Definition new_leader : leader := mk_leader false [] [] NoTimer.

(** [_restart_reassignment_soak_timer] *)
Definition restart_timer (l : leader) : leader :=
  mk_leader (l_halted l) (l_workload l) (l_members l) TimerPending.

(** A round of [_track_workload] and of [_track_members], with what the store
    returned *)
Definition track_workload (prefix : string) (keys : list string) (l : leader) : leader :=
  let workload := omap (id_match prefix) keys in
  if bool_decide (workload ≠ l_workload l)
  then restart_timer (mk_leader (l_halted l) workload (l_members l) (l_timer l)) else l.
Definition track_members (prefix : string) (keys : list string) (l : leader) : leader :=
  let members := omap (id_match prefix) keys in
  if bool_decide (members ≠ l_members l)
  then restart_timer (mk_leader (l_halted l) (l_workload l) members (l_timer l)) else l.
(** [stop] *)
Definition stop (l : leader) : leader :=
  mk_leader true (l_workload l) (l_members l)
    match l_timer l with TimerPending => TimerCancelled | t => t end.

(** Step 1 and 2 of [_reassign_work]: wanted and current assignments *)
Definition wanted_assignments (workload members : list string) : list (option string * gset string) :=
  foldl (λ d work, add_to (get_node members work) work d) [] workload.
Definition current_assignments (k : kv) : list (string * gset string) :=
  foldl (λ d mw, add_to mw.1 mw.2 d) []
    (omap (assignment_match assignment_prefix) (recurse assignment_prefix k)).

Definition kv_delete (key : string) : M kv unit := modify (delete key).
Definition kv_put (key value : string) : M kv unit := modify <[key := value]>.

Fixpoint revoke (member_id : string) (work_to_revoke : list string) : M kv unit :=
  match work_to_revoke with
  | [] => mret tt
  | w :: ws => _ ← kv_delete (assignment_key member_id w); revoke member_id ws
  end.
Fixpoint revoke_all (current : list (string * gset string)) (wanted : list (option string * gset string))
    : M kv unit :=
  match current with
  | [] => mret tt
  | (member_id, current_work) :: current =>
      let wanted_work := default ∅ (od_get (Some member_id) wanted) in
      _ ← revoke member_id (elements (current_work ∖ wanted_work));
      revoke_all current wanted
  end.
(** A member that is [None] cannot be part of a key. *)
Fixpoint assign (member_id : option string) (work_to_assign : list string) : M kv unit :=
  match work_to_assign with
  | [] => mret tt
  | w :: ws =>
      m ← lift (of_option TypeError member_id);
      _ ← kv_put (assignment_key m w) "";
      assign member_id ws
  end.
Fixpoint assign_all (wanted : list (option string * gset string)) (current : list (string * gset string))
    : M kv unit :=
  match wanted with
  | [] => mret tt
  | (member_id, wanted_work) :: wanted =>
      let current_work := match member_id with Some m => default ∅ (od_get m current) | None => ∅ end in
      _ ← assign member_id (elements (wanted_work ∖ current_work));
      assign_all wanted current
  end.

(** The body of the try statement, and the method, which restarts the timer when
    it raises *)
Definition reassign (l : leader) : M kv unit :=
  let wanted := wanted_assignments (l_workload l) (l_members l) in
  k ← get_state;
  let current := current_assignments k in
  _ ← revoke_all current wanted;
  assign_all wanted current.
Definition reassign_work (l : leader) (k : kv) : leader * kv :=
  let l := mk_leader (l_halted l) (l_workload l) (l_members l) TimerCalled in
  match reassign l k with
  | (Ok _, k') => (l, k')
  | (Raise _, k') => (restart_timer l, k')
  end.

(** ** The worker *)

Record worker : Type := mk_worker {
  wk_my_workload : gset string;
  wk_timer : timer;
  wk_my_candidate_workload : option (gset string);
}.
Definition new_worker : worker := mk_worker ∅ NoTimer (Some ∅).

(** What [_track_my_assignments] reads from the store *)
Definition my_assignments (instance_id : string) (k : kv) : gset string :=
  list_to_set ((λ mw, mw.2) <$>
    omap (assignment_match assignment_prefix) (recurse (assignment_prefix +:+ instance_id) k)).

Definition stash_and_restart_soak_timer (candidate : gset string) (w : worker) : worker :=
  mk_worker (wk_my_workload w) TimerPending (Some candidate).
Definition track_my_assignments (my_workload : gset string) (w : worker) : worker :=
  if bool_decide (my_workload ≠ wk_my_workload w) then stash_and_restart_soak_timer my_workload w else w.
(** [_update_assignments], when the timer fires *)
Definition update_assignments (w : worker) : result worker :=
  match wk_my_candidate_workload w with
  | Some c => Ok (mk_worker c TimerCalled None)
  | None => Raise TypeError
  end.

(** ** What the leader writes *)

Lemma assignment_match_key m w :
  is_id m = true → is_id w = true → assignment_match assignment_prefix (assignment_key m w) = Some (m, w).
Proof.
  intros Hm Hw. unfold assignment_match, assignment_key.
  assert (strip_prefix assignment_prefix (assignment_prefix +:+ (m +:+ String "/" w)) =
          Some (m +:+ String "/" w)) as -> by by apply strip_prefix_Some.
  cbn [mbind option_bind]. rewrite until_slash_app by by apply is_id_no_slash. by rewrite Hm, Hw.
Qed.

Lemma assignment_match_Some key m w :
  assignment_match assignment_prefix key = Some (m, w) →
  key = assignment_key m w ∧ is_id m = true ∧ is_id w = true.
Proof.
  unfold assignment_match, assignment_key. intros (s & Hs & Hmw)%bind_Some.
  apply strip_prefix_Some in Hs as ->. destruct (until_slash s) as [m' [w'|]] eqn:Hu; [|done].
  destruct (is_id m' && is_id w') eqn:Hid; [|done]. injection Hmw as -> ->.
  apply andb_true_iff in Hid as [? ?]. by rewrite (until_slash_Some _ _ _ Hu).
Qed.

Lemma assignment_key_inj m w m' w' :
  is_id m = true → is_id w = true → is_id m' = true → is_id w' = true →
  assignment_key m w = assignment_key m' w' → m = m' ∧ w = w'.
Proof.
  intros Hm Hw Hm' Hw' Heq. pose proof (assignment_match_key m w Hm Hw) as H1.
  rewrite Heq, (assignment_match_key m' w' Hm' Hw') in H1. naive_solver.
Qed.

Lemma recurse_elem prefix k key :
  key ∈ recurse prefix k ↔ is_Some (k !! key) ∧ is_Some (strip_prefix prefix key).
Proof.
  unfold recurse. rewrite list_elem_of_filter, list_elem_of_fmap. split.
  - intros (Hp & [k' v] & -> & Hkv%elem_of_map_to_list). naive_solver.
  - intros [[v Hv] Hp]. split; [done|]. exists (key, v). split; [done|]. by apply elem_of_map_to_list.
Qed.

Lemma current_elem k m w :
  w ∈ default ∅ (od_get m (current_assignments k)) ↔
  is_id m = true ∧ is_id w = true ∧ is_Some (k !! assignment_key m w).
Proof.
  unfold current_assignments. rewrite add_to_elem. cbn [od_get default].
  rewrite list_elem_of_omap. setoid_rewrite recurse_elem. split.
  - intros [(key & [Hk _] & (-> & Hm & Hw)%assignment_match_Some)|?%not_elem_of_empty]; [|done].
    by split_and!.
  - intros (Hm & Hw & Hk). left. exists (assignment_key m w). split; [|by apply assignment_match_key].
    split; [done|]. unfold assignment_key. eexists. by apply strip_prefix_Some.
Qed.

Lemma wanted_pairs workload members :
  wanted_assignments workload members =
  foldl (λ d kw, add_to kw.1 kw.2 d) [] ((λ w, (get_node members w, w)) <$> workload).
Proof.
  unfold wanted_assignments. generalize (@nil (option string * gset string)).
  induction workload as [|x l IH]; intros d; [done|]. cbn. by rewrite IH.
Qed.

Lemma wanted_elem workload members om w :
  w ∈ default ∅ (od_get om (wanted_assignments workload members)) ↔
  w ∈ workload ∧ get_node members w = om.
Proof.
  rewrite wanted_pairs, add_to_elem. cbn [od_get default]. rewrite list_elem_of_fmap. split.
  - intros [(x & [= -> ->] & Hx)|?%not_elem_of_empty]; done.
  - intros [Hw <-]. left. by exists w.
Qed.

Lemma wanted_keys workload members : NoDup (od_keys (wanted_assignments workload members)).
Proof. rewrite wanted_pairs. apply add_to_keys. constructor. Qed.
Lemma current_keys k : NoDup (od_keys (current_assignments k)).
Proof. apply add_to_keys. constructor. Qed.

(** A dictionary of sets, as the set of its pairs *)
Lemma od_pairs {K} `{EqDecision K} (d : list (K * gset string)) k S w :
  NoDup (od_keys d) → (k, S) ∈ d → w ∈ S ↔ w ∈ default ∅ (od_get k d).
Proof. intros Hnd Hin. by rewrite (od_get_elem _ _ _ Hnd Hin). Qed.
Lemma od_pairs_inv {K} `{EqDecision K} (d : list (K * gset string)) k w :
  w ∈ default ∅ (od_get k d) → ∃ S, (k, S) ∈ d ∧ w ∈ S.
Proof.
  destruct (od_get k d) as [S|] eqn:Hk; cbn; [|by intros ?%not_elem_of_empty].
  intros Hw. exists S. split; [by apply od_get_Some_elem|done].
Qed.

Lemma revoke_spec m ws k :
  ∃ k', revoke m ws k = (Ok tt, k') ∧
    ∀ key, k' !! key = if decide (key ∈ assignment_key m <$> ws) then None else k !! key.
Proof.
  revert k. induction ws as [|w ws IH]; intros k.
  { exists k. split; [done|]. intros key. by rewrite decide_False by apply not_elem_of_nil. }
  destruct (IH (delete (assignment_key m w) k)) as (k' & Hk & Hkey). exists k'. split; [done|].
  intros key. rewrite Hkey. csimpl. destruct (decide (key ∈ assignment_key m <$> ws)) as [Hin|Hni].
  - rewrite decide_True; [done|by right].
  - destruct (decide (key = assignment_key m w)) as [->|Hne].
    + by rewrite decide_True, lookup_delete_eq by left.
    + rewrite decide_False, lookup_delete_ne by (rewrite ?not_elem_of_cons; done). done.
Qed.

Lemma revoke_all_spec current wanted k :
  ∃ k', revoke_all current wanted k = (Ok tt, k') ∧
    ∀ key, (k' !! key = k !! key ∧ ∀ m S w, (m, S) ∈ current → w ∈ S →
              w ∉ default ∅ (od_get (Some m) wanted) → key ≠ assignment_key m w) ∨
           (k' !! key = None ∧ ∃ m S w, (m, S) ∈ current ∧ w ∈ S ∧
              w ∉ default ∅ (od_get (Some m) wanted) ∧ key = assignment_key m w).
Proof.
  revert k. induction current as [|[m S] current IH]; intros k.
  { exists k. split; [done|]. intros key. left. split; [done|]. by intros ??? ?%not_elem_of_nil. }
  cbn [revoke_all]. cbv zeta. set (dw := default ∅ (od_get (Some m) wanted)) in *.
  destruct (revoke_spec m (elements (S ∖ dw)) k) as (k1 & Hr & Hk1).
  destruct (IH k1) as (k' & Hk & Hkey). exists k'. split; [by erewrite M_bind_eq|].
  intros key. destruct (Hkey key) as [[Heq Hno]|(Hnone & m' & S' & w & Hin & Hw & Hnw & ->)].
  2:{ right. split; [done|]. exists m', S', w. split_and!; [by right|done..]. }
  rewrite Heq, Hk1. case_decide as Hd.
  - right. split; [done|]. apply list_elem_of_fmap in Hd as (w & -> & Hw).
    rewrite elem_of_elements, elem_of_difference in Hw. destruct Hw.
    exists m, S, w. split_and!; [by left|done..].
  - left. split; [done|]. intros m' S' w [[= -> ->]|Hin]%elem_of_cons Hw Hnw Hkw.
    + apply Hd. apply list_elem_of_fmap. exists w. split; [done|].
      by rewrite elem_of_elements, elem_of_difference.
    + by eapply Hno.
Qed.

Lemma assign_spec m ws k :
  ∃ k', assign (Some m) ws k = (Ok tt, k') ∧
    ∀ key, k' !! key = if decide (key ∈ assignment_key m <$> ws) then Some "" else k !! key.
Proof.
  revert k. induction ws as [|w ws IH]; intros k.
  { exists k. split; [done|]. intros key. by rewrite decide_False by apply not_elem_of_nil. }
  destruct (IH (<[assignment_key m w := ""]> k)) as (k' & Hk & Hkey). exists k'. split; [done|].
  intros key. rewrite Hkey. csimpl. destruct (decide (key ∈ assignment_key m <$> ws)) as [Hin|Hni].
  - rewrite decide_True; [done|by right].
  - destruct (decide (key = assignment_key m w)) as [->|Hne].
    + by rewrite decide_True, lookup_insert_eq by left.
    + rewrite decide_False, lookup_insert_ne by (rewrite ?not_elem_of_cons; done). done.
Qed.

Lemma assign_all_spec wanted current k :
  (∀ S, (None, S) ∉ wanted) →
  ∃ k', assign_all wanted current k = (Ok tt, k') ∧
    ∀ key, (k' !! key = k !! key ∧ ∀ m S w, (Some m, S) ∈ wanted → w ∈ S →
              w ∉ default ∅ (od_get m current) → key ≠ assignment_key m w) ∨
           (k' !! key = Some "" ∧ ∃ m S w, (Some m, S) ∈ wanted ∧ w ∈ S ∧
              w ∉ default ∅ (od_get m current) ∧ key = assignment_key m w).
Proof.
  revert k. induction wanted as [|[[m|] S] wanted IH]; intros k Hsome.
  { exists k. split; [done|]. intros key. left. split; [done|]. by intros ??? ?%not_elem_of_nil. }
  2:{ destruct (Hsome S). left. }
  cbn [assign_all]. cbv zeta. set (dw := default ∅ (od_get m current)) in *.
  destruct (assign_spec m (elements (S ∖ dw)) k) as (k1 & Hr & Hk1).
  destruct (IH k1) as (k' & Hk & Hkey).
  { intros S' Hin. apply (Hsome S'). by right. }
  exists k'. split; [by erewrite M_bind_eq|].
  intros key. destruct (Hkey key) as [[Heq Hno]|(Hnone & m' & S' & w & Hin & Hw & Hnw & ->)].
  2:{ right. split; [done|]. exists m', S', w. split_and!; [by right|done..]. }
  rewrite Heq, Hk1. case_decide as Hd.
  - right. split; [done|]. apply list_elem_of_fmap in Hd as (w & -> & Hw).
    rewrite elem_of_elements, elem_of_difference in Hw. destruct Hw.
    exists m, S, w. split_and!; [by left|done..].
  - left. split; [done|]. intros m' S' w [[= -> ->]|Hin]%elem_of_cons Hw Hnw Hkw.
    + apply Hd. apply list_elem_of_fmap. exists w. split; [done|].
      by rewrite elem_of_elements, elem_of_difference.
    + by eapply Hno.
Qed.

Lemma wanted_no_None workload members S : members ≠ [] → (None, S) ∉ wanted_assignments workload members.
Proof.
  intros Hne Hin. apply (list_elem_of_fmap_2 fst) in Hin. cbn in Hin.
  change (None ∈ od_keys (wanted_assignments workload members)) in Hin.
  rewrite wanted_pairs, add_to_in_keys in Hin. destruct Hin as [Hin|?%not_elem_of_nil]; [|done].
  rewrite <- list_fmap_compose in Hin. apply list_elem_of_fmap in Hin as (w & Hw & _). cbn in Hw.
  destruct (get_node_member members w Hne) as (m & Hm & _). congruence.
Qed.

Lemma current_pair k m S w :
  (m, S) ∈ current_assignments k → w ∈ S → is_id m = true ∧ is_id w = true.
Proof.
  intros Hin Hw. apply (od_pairs _ m S w (current_keys k) Hin), current_elem in Hw. naive_solver.
Qed.
Lemma wanted_pair workload members m S w :
  (Some m, S) ∈ wanted_assignments workload members → w ∈ S →
  w ∈ workload ∧ get_node members w = Some m.
Proof.
  intros Hin Hw. by apply (od_pairs _ _ S w (wanted_keys _ _) Hin), wanted_elem in Hw.
Qed.

(** The members hash to identifiers. *)
Lemma node_is_id members w m :
  members ≠ [] → Forall (λ m, is_id m = true) members → get_node members w = Some m →
  m ∈ members ∧ is_id m = true.
Proof.
  intros Hne Hms Hm. destruct (get_node_member members w Hne) as (m' & Hm' & Hin).
  rewrite Forall_forall in Hms. assert (m' = m) as -> by congruence. auto.
Qed.

Lemma reassign_store l k :
  l_members l ≠ [] → Forall (λ m, is_id m = true) (l_members l) →
  Forall (λ w, is_id w = true) (l_workload l) →
  ∃ k', reassign l k = (Ok tt, k') ∧
    (∀ m w, is_id m = true → is_id w = true →
       is_Some (k' !! assignment_key m w) ↔ w ∈ l_workload l ∧ get_node (l_members l) w = Some m) ∧
    (∀ key, assignment_match assignment_prefix key = None → k' !! key = k !! key).
Proof.
  intros Hne Hms Hws. unfold reassign.
  set (wanted := wanted_assignments (l_workload l) (l_members l)).
  set (current := current_assignments k).
  destruct (revoke_all_spec current wanted k) as (k1 & Hr & Hk1).
  destruct (assign_all_spec wanted current k1) as (k2 & Ha & Hk2); [intros S; by apply wanted_no_None|].
  assert (∀ m S w, (Some m, S) ∈ wanted → w ∈ S → is_id m = true ∧ is_id w = true) as Hids.
  { intros m S w Hin [Hw Hm]%(wanted_pair _ _ _ _ _ Hin).
    apply node_is_id in Hm as [_ ?]; [|done..]. rewrite Forall_forall in Hws. auto. }
  exists k2. split; [erewrite M_bind_eq by done; cbv zeta; fold current; by erewrite M_bind_eq|]. split.
  - intros m w Hm Hw. rewrite <- (wanted_elem _ _ (Some m)). fold wanted.
    destruct (Hk2 (assignment_key m w)) as [[-> Hno2]|(-> & m' & S & w' & Hin & HS & _ & Hkey)].
    + destruct (Hk1 (assignment_key m w)) as [[-> Hno1]|(-> & m' & S & w' & Hin & HS & Hnw & Hkey)].
      * split; [intros Hk|intros (S & HSin & HwS)%od_pairs_inv]; apply dec_stable; intros Hn.
        -- destruct (od_pairs_inv current m w) as (S & HSin & HwS); [by apply current_elem|].
           by apply (Hno1 m S w).
        -- apply (Hno2 m S w HSin HwS); [|done]. intros Hc%current_elem. naive_solver.
      * destruct (current_pair k m' S w' Hin HS).
        destruct (assignment_key_inj m w m' w') as [-> ->]; [done..|].
        split; [by intros []|done].
    + destruct (Hids m' S w' Hin HS).
      destruct (assignment_key_inj m w m' w') as [-> ->]; [done..|]. split; [|done]. intros _.
      by apply (od_pairs wanted (Some m') S w' (wanted_keys _ _) Hin).
  - intros key Hkey. destruct (Hk2 key) as [[-> _]|(_ & m' & S & w' & Hin & HS & _ & ->)].
    + destruct (Hk1 key) as [[-> _]|(_ & m' & S & w' & Hin & HS & _ & ->)]; [done|].
      destruct (current_pair k m' S w' Hin HS). by rewrite assignment_match_key in Hkey.
    + destruct (Hids m' S w' Hin HS). by rewrite assignment_match_key in Hkey.
Qed.

(** C26: after a reassignment the store holds exactly the wanted assignments: when
    there is a member, the key of a member and a piece of work exists if and only
    if the work is in the workload and hashes to the member; so every piece of
    work is assigned to exactly one member, and to one of the current members; no
    other key of the store is touched. *)
Theorem reassign_exact l k :
  l_members l ≠ [] → Forall (λ m, is_id m = true) (l_members l) →
  Forall (λ w, is_id w = true) (l_workload l) →
  let '(l', k') := reassign_work l k in
  l_timer l' = TimerCalled ∧
  (∀ m w, is_id m = true → is_id w = true →
     is_Some (k' !! assignment_key m w) ↔ w ∈ l_workload l ∧ get_node (l_members l) w = Some m) ∧
  (∀ w, w ∈ l_workload l → ∃ m, m ∈ l_members l ∧
     ∀ m', is_id m' = true → is_Some (k' !! assignment_key m' w) ↔ m' = m) ∧
  (∀ key, assignment_match assignment_prefix key = None → k' !! key = k !! key).
Proof.
  intros Hne Hms Hws. unfold reassign_work.
  set (l0 := mk_leader (l_halted l) (l_workload l) (l_members l) TimerCalled).
  destruct (reassign_store l0 k Hne Hms Hws) as (k' & -> & Hexact & Hframe).
  split_and!; [done|done| |done]. rewrite Forall_forall in Hws.
  intros w Hw. destruct (get_node_member (l_members l) w Hne) as (m & Hm & Hin). exists m.
  split; [done|]. intros m' Hm'. rewrite Hexact by auto. cbn. naive_solver.
Qed.

(** Without members the leader revokes everything and tries again: when there
    is work but no member, every assignment is deleted, then the attempt to
    assign to nobody raises and the timer for another round is started. *)
Theorem reassign_without_members l k :
  l_members l = [] → l_workload l ≠ [] →
  let '(l', k') := reassign_work l k in
  l_timer l' = TimerPending ∧
  (∀ m w, is_id m = true → is_id w = true → k' !! assignment_key m w = None) ∧
  (∀ key, assignment_match assignment_prefix key = None → k' !! key = k !! key).
Proof.
  intros Hms Hws. unfold reassign_work, reassign. cbn [l_workload l_members]. rewrite Hms.
  set (wanted := wanted_assignments (l_workload l) []). set (current := current_assignments k).
  destruct (revoke_all_spec current wanted k) as (k1 & Hr & Hk1).
  assert (∀ om, om ≠ None → od_get om wanted = None) as Hnone.
  { intros om Hne. apply od_get_None. unfold wanted. rewrite wanted_pairs, add_to_in_keys.
    rewrite <- list_fmap_compose, list_elem_of_fmap. intros [(w & -> & _)|?%not_elem_of_nil]; [|done].
    cbn in Hne. by rewrite get_node_empty in Hne. }
  assert (assign_all wanted current k1 = (Raise TypeError, k1)) as Ha.
  { destruct (l_workload l) as [|w0 ws] eqn:Hl; [done|].
    assert (w0 ∈ default ∅ (od_get None wanted)) as Hw0.
    { unfold wanted. rewrite wanted_elem, get_node_empty. split; [left|done]. }
    clearbody wanted. destruct wanted as [|[[m|] S'] wanted].
    - by apply not_elem_of_empty in Hw0.
    - specialize (Hnone (Some m) ltac:(done)). cbn in Hnone. by rewrite decide_True in Hnone.
    - cbn [od_get] in Hw0. rewrite decide_True in Hw0 by done. cbn [default] in Hw0.
      cbn [assign_all]. cbv zeta. apply M_bind_Raise_eq.
      assert (w0 ∈ elements (S' ∖ ∅)) as Hin by (rewrite elem_of_elements; set_solver).
      destruct (elements (S' ∖ ∅)) as [|x xs]; [by apply not_elem_of_nil in Hin|done]. }
  erewrite M_bind_eq by done. cbv zeta. fold current. erewrite M_bind_eq by done. rewrite Ha.
  split_and!; [done| |].
  - intros m w Hm Hw. destruct (Hk1 (assignment_key m w)) as [[-> Hno]|[-> _]]; [|done].
    apply eq_None_not_Some. intros Hk.
    destruct (od_pairs_inv current m w) as (S & HSin & HwS); [by apply current_elem|].
    apply (Hno m S w HSin HwS); [|done]. rewrite Hnone by done. cbn. apply not_elem_of_empty.
  - intros key Hkey. destruct (Hk1 key) as [[-> _]|(_ & m' & S & w' & Hin & HS & _ & ->)]; [done|].
    destruct (current_pair k m' S w' Hin HS). by rewrite assignment_match_key in Hkey.
Qed.

(** ** What the workers read *)

Lemma my_assignments_elem inst k w :
  w ∈ my_assignments inst k ↔
  ∃ m, is_id m = true ∧ is_id w = true ∧ is_Some (strip_prefix inst (m +:+ String "/" w)) ∧
    is_Some (k !! assignment_key m w).
Proof.
  unfold my_assignments. rewrite elem_of_list_to_set, list_elem_of_fmap.
  setoid_rewrite list_elem_of_omap. setoid_rewrite recurse_elem.
  assert (∀ m w', is_Some (strip_prefix (assignment_prefix +:+ inst) (assignment_key m w')) ↔
                  is_Some (strip_prefix inst (m +:+ String "/" w'))) as Hstrip.
  { intros m w'. unfold assignment_key. split; intros [r Hr%strip_prefix_Some]; exists r; apply strip_prefix_Some.
    - rewrite append_assoc in Hr. by apply (inj (String.append assignment_prefix)) in Hr.
    - by rewrite Hr, append_assoc. }
  split.
  - intros ([m w'] & -> & key & [Hk Hp] & (-> & Hm & Hw)%assignment_match_Some).
    exists m. split_and!; [done..| |done]. by apply Hstrip.
  - intros (m & Hm & Hw & Hp & Hk). exists (m, w). split; [done|]. exists (assignment_key m w).
    split; [|by apply assignment_match_key]. split; [done|]. by apply Hstrip.
Qed.

(** After a reassignment, worker and leader agree as far as names allow: a
    worker takes the work of every member whose name starts with its own.  So when
    no member's name is the beginning of another's, each worker takes exactly the
    work that hashes to it, and the work is spread over the workers without
    overlap; otherwise the worker with the shorter name also takes the other's
    work. *)
Theorem workers_take l k :
  l_members l ≠ [] → Forall (λ m, is_id m = true) (l_members l) →
  Forall (λ w, is_id w = true) (l_workload l) →
  let k' := (reassign_work l k).2 in
  (∀ m w, m ∈ l_members l →
     w ∈ my_assignments m k' ↔
     w ∈ l_workload l ∧ ∃ m', get_node (l_members l) w = Some m' ∧ starts_with m m') ∧
  ((∀ m m', m ∈ l_members l → m' ∈ l_members l → starts_with m m' → m = m') →
   ∀ m w, m ∈ l_members l →
     w ∈ my_assignments m k' ↔ w ∈ l_workload l ∧ get_node (l_members l) w = Some m).
Proof.
  intros Hne Hms Hws. unfold reassign_work.
  set (l0 := mk_leader (l_halted l) (l_workload l) (l_members l) TimerCalled).
  destruct (reassign_store l0 k Hne Hms Hws) as (k' & -> & Hexact & _). cbn [snd].
  assert (∀ m w, m ∈ l_members l → w ∈ my_assignments m k' ↔
    w ∈ l_workload l ∧ ∃ m', get_node (l_members l) w = Some m' ∧ starts_with m m') as Htake.
  { intros m w Hm. pose proof Hms as Hms'. rewrite Forall_forall in Hms', Hws.
    assert (no_slash m = true) as Hns by by apply is_id_no_slash, Hms'.
    rewrite my_assignments_elem. split.
    - intros (m' & Hm' & Hw & Hp & Hk). apply Hexact in Hk as [Hwl Hgn]; [|done..].
      split; [done|]. exists m'. split; [done|]. by apply (starts_with_id m m' w).
    - intros (Hwl & m' & Hgn & Hp). destruct (node_is_id _ _ _ Hne Hms Hgn) as [_ Hm'].
      exists m'. split_and!; [done|by apply Hws| |].
      + by apply (starts_with_id m m' w).
      + apply Hexact; [done|by apply Hws|done]. }
  split; [done|]. intros Hfree m w Hm. rewrite Htake by done. split.
  - intros (Hwl & m' & Hgn & Hp). destruct (node_is_id _ _ _ Hne Hms Hgn) as [Hin _].
    by rewrite (Hfree m m' Hm Hin Hp).
  - intros [Hwl Hgn]. split; [done|]. exists m. split; [done|]. exists "". apply strip_prefix_Some.
    clear. induction m as [|c m IH]; [done|]. change (String c m +:+ "") with (String c (m +:+ "")). by rewrite <- IH.
Qed.

(** Observations of the store before the soak timer fires *)
Definition observe (obs : list (gset string)) (w : worker) : worker :=
  foldl (λ w o, track_my_assignments o w) w obs.

Lemma observe_spec obs w :
  wk_my_workload (observe obs w) = wk_my_workload w ∧
  (wk_my_candidate_workload (observe obs w), wk_timer (observe obs w)) =
  match last (filter (.≠ wk_my_workload w) obs) with
  | Some o => (Some o, TimerPending)
  | None => (wk_my_candidate_workload w, wk_timer w)
  end.
Proof.
  induction obs as [|o obs [Hw Hc]] using rev_ind; [done|].
  assert (observe (obs ++ [o]) w = track_my_assignments o (observe obs w)) as -> by (unfold observe; by rewrite foldl_snoc).
  unfold track_my_assignments. rewrite Hw, filter_app. destruct (decide (o = wk_my_workload w)) as [->|Hne].
  - rewrite bool_decide_eq_false_2 by naive_solver. rewrite filter_cons_False, filter_nil, app_nil_r by naive_solver.
    by rewrite Hw.
  - rewrite bool_decide_eq_true_2 by done. rewrite filter_cons_True, filter_nil, last_snoc by done. by rewrite <- Hw.
Qed.

(** When the soak timer of a worker fires, its workload becomes the last
    observation that differed from the workload it had.  That is the current
    assignment if the last observation differed; but if the assignment changed and
    then changed back while the timer was running, the worker ends up with the
    intermediate one, and no timer is left to correct it. *)
Theorem worker_settles obs o w :
  (o ≠ wk_my_workload w →
     ∃ w', update_assignments (observe (obs ++ [o]) w) = Ok w' ∧ wk_my_workload w' = o) ∧
  (o = wk_my_workload w → ∀ x, last (filter (.≠ wk_my_workload w) obs) = Some x →
     ∃ w', update_assignments (observe (obs ++ [o]) w) = Ok w' ∧
           wk_my_workload w' = x ∧ x ≠ o ∧ wk_timer w' ≠ TimerPending).
Proof.
  destruct (observe_spec (obs ++ [o]) w) as [Hw Hc]. rewrite filter_app in Hc. split.
  - intros Hne. rewrite filter_cons_True, filter_nil, last_snoc in Hc by done.
    injection Hc as Hc _. unfold update_assignments. rewrite Hc. eauto.
  - intros -> x Hx. rewrite filter_cons_False, filter_nil, app_nil_r, Hx in Hc by naive_solver.
    injection Hc as Hc _. unfold update_assignments. rewrite Hc. eexists. split_and!; [done..| |done].
    apply last_Some in Hx as [l Hl]. assert (x ∈ filter (.≠ wk_my_workload w) obs) as Hin.
    { rewrite Hl. apply elem_of_app. right. left. }
    by apply list_elem_of_filter in Hin as [? _].
Qed.
End cluster.

(** ** A concrete cluster *)

(** A ring that spreads the work by the length of its name *)
Definition nth_member (members : list string) (w : string) : option string :=
  members !! (String.length w mod length members)%nat.
#[refine] Instance demo_ring : HashRing := {| get_node := nth_member |}.
Proof.
  - done.
  - intros members w Hne. unfold nth_member.
    destruct (lookup_lt_is_Some_2 members (String.length w mod length members)) as [m Hm].
    { apply Nat.mod_upper_bound. by destruct members. }
    exists m. split; [done|]. by eapply list_elem_of_lookup_2.
Defined.

Definition demo_leader : leader := mk_leader false ["olt"; "onu1"] ["voltha_1"; "voltha_10"] TimerPending.
Definition demo_kv : kv :=
  {["service/voltha/assignments/voltha_2/olt" := ""; "service/voltha/leader" := "voltha_1"]}.

Lemma demo_members : Forall (λ m, is_id m = true) (l_members demo_leader).
Proof. by repeat constructor. Qed.
Lemma demo_workload : Forall (λ w, is_id w = true) (l_workload demo_leader).
Proof. by repeat constructor. Qed.

Lemma reassign_exact_witness :
  (reassign_work "service/voltha/assignments/" demo_leader demo_kv).2 !! "service/voltha/leader" = Some "voltha_1".
Proof.
  pose proof (reassign_exact "service/voltha/assignments/" demo_leader demo_kv ltac:(done) demo_members demo_workload) as H.
  destruct (reassign_work "service/voltha/assignments/" demo_leader demo_kv) as [l' k'].
  destruct H as (_ & _ & _ & Hf). cbn [snd]. rewrite Hf by (vm_compute; reflexivity). vm_compute. reflexivity.
Defined.

Lemma reassign_without_members_witness :
  l_timer (reassign_work "service/voltha/assignments/" (mk_leader false ["olt"] [] TimerPending) demo_kv).1 = TimerPending.
Proof.
  pose proof (reassign_without_members "service/voltha/assignments/" (mk_leader false ["olt"] [] TimerPending) demo_kv
    ltac:(done) ltac:(done)) as H.
  destruct (reassign_work _ _ _) as [l' k']. exact (proj1 H).
Defined.

(** The work of voltha_10 is also taken by voltha_1. *)
Lemma workers_take_witness :
  "olt" ∈ my_assignments "service/voltha/assignments/" "voltha_1"
            (reassign_work "service/voltha/assignments/" demo_leader demo_kv).2 ∧
  get_node (l_members demo_leader) "olt" = Some "voltha_10".
Proof.
  split; [|reflexivity].
  apply (proj1 (workers_take "service/voltha/assignments/" demo_leader demo_kv ltac:(done) demo_members demo_workload)).
  - left.
  - split; [left|]. exists "voltha_10". split; [reflexivity|]. by eexists.
Defined.

(** The assignment changed and changed back: the worker keeps the change. *)
Lemma worker_settles_witness :
  ∃ w', update_assignments (observe ([{["olt"]}] ++ [∅]) new_worker) = Ok w' ∧ wk_my_workload w' = {["olt"]}.
Proof.
  destruct (proj2 (worker_settles [{["olt"]}] ∅ new_worker) eq_refl {["olt"]}) as (w' & Hw & Hmy & _).
  - vm_compute. reflexivity.
  - by exists w'.
Defined.
End Cluster.
