(* ===== verification/Coordinator.v ===== *)
(** * The coordinator: leader election over Consul (voltha/coordinator.py)

    Every instance of VOLTHA runs a coordinator.  It creates a session in Consul,
    keeps a membership record, and takes part in the election of a leader: it tries
    to acquire a lock on the leader key, reads the key back and then watches it.
    Consul is an interface with the documented behaviour of sessions and locks;
    the instances of a cluster interleave at each call of it. *)

From stdpp Require Import prelude strings gmap list.
From S2P Require Import Prelude Cluster.

Module Coordinator.

Notation session := string.

(** An entry of the store as kv.get returns it *)
Record record : Type := mk_record {
  rc_value : string;
  rc_session : option session;
  rc_modify_index : nat;
}.
#[export] Instance record_eq_dec : EqDecision record.
Proof. solve_decision. Defined.

(** Consul: entries, locks that belong to a session, and sessions whose end
    deletes the entries they have locked (behavior='delete') *)
Class Consul (store : Type) : Type := {
  kv_get : store → string → option record;
  kv_acquire : string → string → session → store → bool * store;
  session_destroy : session → store → store;
  kv_remove : string → store → store;

  kv_acquire_true k v s c c' : kv_acquire k v s c = (true, c') →
    ∃ r, kv_get c' k = Some r ∧ rc_value r = v ∧ rc_session r = Some s;
  kv_acquire_false k v s c c' : kv_acquire k v s c = (false, c') → kv_get c' k = kv_get c k;
  kv_acquire_own k v s r c : kv_get c k = Some r → rc_session r = Some s → (kv_acquire k v s c).1 = true;
  kv_acquire_held k v s s' r c : kv_get c k = Some r → rc_session r = Some s' → s ≠ s' →
    (kv_acquire k v s c).1 = false;
  kv_acquire_other k k' v s c : k ≠ k' → kv_get (kv_acquire k v s c).2 k' = kv_get c k';
  session_destroy_held k s r c : kv_get c k = Some r → rc_session r = Some s →
    kv_get (session_destroy s c) k = None;
  session_destroy_other k s c : from_option rc_session None (kv_get c k) ≠ Some s →
    kv_get (session_destroy s c) k = kv_get c k;
  kv_remove_get k c : kv_get (kv_remove k c) k = None;
  kv_remove_other k k' c : k ≠ k' → kv_get (kv_remove k c) k' = kv_get c k';
}.

(** ** Configuration *)

(** [config.get(config[name], default)]: the value of the entry is looked up again *)
Definition config_lookup (config : gmap string string) (name dflt : string) : result string :=
  v ← of_option KeyError (config !! name); Ok (default dflt (config !! v)).

Record prefixes : Type := mk_prefixes {
  leader_prefix : string;
  membership_prefix : string;
  p_assignment_prefix : string;
  workload_prefix : string;
}.
Definition config_prefixes (config : gmap string string) : result prefixes :=
  let prefix := default "service/voltha" (config !! "voltha_kv_prefix") in
  let join x := prefix +:+ "/" +:+ x in
  l ← config_lookup config "leader_key" "leader";
  m ← config_lookup config "membership_key" "members";
  a ← config_lookup config "assignment_key" "assignments";
  w ← config_lookup config "workload_key" "work";
  Ok (mk_prefixes (join l) (join (m +:+ "/")) (join (a +:+ "/")) (join (w +:+ "/"))).

(** ** State of a coordinator *)

(** Deferreds are numbered; [c_called] lists the callbacks made.  The leader objects
    that were stopped and dropped are kept in [c_former_leaders]. *)
Record coordinator : Type := mk_coordinator {
  c_instance_id : string;
  c_session_id : session;
  c_retries : nat;
  c_i_am_leader : bool;
  c_leader_id : option string;
  c_shutting_down : bool;
  c_leader : option Cluster.leader;
  c_former_leaders : list Cluster.leader;
  c_wait_for_leader_deferreds : list nat;
  c_called : list (nat * string);
  c_deferreds : nat;
}.
Definition new_coordinator (instance_id : string) (session_id : session) : coordinator :=
  mk_coordinator instance_id session_id 0 false None false None [] [] [] 0.

Definition set_retries n c := mk_coordinator (c_instance_id c) (c_session_id c) n (c_i_am_leader c)
  (c_leader_id c) (c_shutting_down c) (c_leader c) (c_former_leaders c) (c_wait_for_leader_deferreds c) (c_called c) (c_deferreds c).
Definition set_role b c := mk_coordinator (c_instance_id c) (c_session_id c) (c_retries c) b
  (c_leader_id c) (c_shutting_down c) (c_leader c) (c_former_leaders c) (c_wait_for_leader_deferreds c) (c_called c) (c_deferreds c).
Definition set_shutting_down c := mk_coordinator (c_instance_id c) (c_session_id c) (c_retries c) (c_i_am_leader c)
  (c_leader_id c) true (c_leader c) (c_former_leaders c) (c_wait_for_leader_deferreds c) (c_called c) (c_deferreds c).
Definition retire_leader l c := mk_coordinator (c_instance_id c) (c_session_id c) (c_retries c) (c_i_am_leader c)
  (c_leader_id c) (c_shutting_down c) None (Cluster.stop l :: c_former_leaders c)
  (c_wait_for_leader_deferreds c) (c_called c) (c_deferreds c).
Definition set_leader l c := mk_coordinator (c_instance_id c) (c_session_id c) (c_retries c) (c_i_am_leader c)
  (c_leader_id c) (c_shutting_down c) l (c_former_leaders c) (c_wait_for_leader_deferreds c) (c_called c) (c_deferreds c).

(** ** Retry with back-off *)

(** RETRY_BACKOFF, in milliseconds *)
Definition RETRY_BACKOFF : list Z := [50; 100; 200; 500; 1000; 2000; 5000]%Z.

Definition backoff : M coordinator Z :=
  c ← get_state;
  wait_time ← lift (of_option IndexError (RETRY_BACKOFF !! Nat.min (c_retries c) (length RETRY_BACKOFF - 1)));
  _ ← modify (set_retries (S (c_retries c)));
  mret wait_time.

Definition clear_backoff : M coordinator unit :=
  c ← get_state; if bool_decide (c_retries c = 0) then mret tt else modify (set_retries 0).

(** [_retry], over the outcomes of the calls in their order; the delays are those
    between the calls.  No result means that the loop is still running. *)
Fixpoint retry {A} (outcomes : list (result A)) : M coordinator (option A * list Z) :=
  match outcomes with
  | [] => mret (None, [])
  | Ok a :: _ => _ ← clear_backoff; mret (Some a, [])
  | Raise _ :: outcomes =>
      d ← backoff; rd ← retry outcomes; mret (rd.1, d :: rd.2)
  end.

(** ** The role of this instance *)

Definition wait_for_a_leader : M coordinator nat := λ c,
  let d := c_deferreds c in
  match c_leader_id c with
  | Some l => (Ok d, mk_coordinator (c_instance_id c) (c_session_id c) (c_retries c) (c_i_am_leader c)
      (c_leader_id c) (c_shutting_down c) (c_leader c) (c_former_leaders c) (c_wait_for_leader_deferreds c)
      (c_called c ++ [(d, l)]) (S d))
  | None => (Ok d, mk_coordinator (c_instance_id c) (c_session_id c) (c_retries c) (c_i_am_leader c)
      (c_leader_id c) (c_shutting_down c) (c_leader c) (c_former_leaders c) (c_wait_for_leader_deferreds c ++ [d])
      (c_called c) (S d))
  end.

Definition set_leader_id (leader_id : string) : M coordinator unit :=
  modify (λ c, mk_coordinator (c_instance_id c) (c_session_id c) (c_retries c) (c_i_am_leader c)
    (Some leader_id) (c_shutting_down c) (c_leader c) (c_former_leaders c) []
    (c_called c ++ ((λ d, (d, leader_id)) <$> c_wait_for_leader_deferreds c)) (c_deferreds c)).

(** [leader.start] only writes the workload and starts the tracking: see
    [PGaining]. *)
Definition just_gained_leadership : M coordinator unit := modify (set_leader (Some Cluster.new_leader)).

(** [self.leader.stop()] *)
Definition halt_leader : M coordinator unit :=
  c ← get_state;
  l ← lift (of_option AttributeError (c_leader c));
  modify (retire_leader l).
Definition just_lost_leadership : M coordinator unit := halt_leader.

(** The value is true when the caller has to wait for [leader.start]. *)
Definition assert_leadership : M coordinator bool :=
  c ← get_state;
  if c_i_am_leader c then mret false else
  _ ← modify (set_role true);
  _ ← set_leader_id (c_instance_id c);
  _ ← just_gained_leadership;
  mret true.

Definition assert_nonleadership (leader_id : string) : M coordinator unit :=
  _ ← set_leader_id leader_id;
  c ← get_state;
  if c_i_am_leader c then
    _ ← modify (set_role false);
    just_lost_leadership
  else mret tt.

(** [stop]: up to the end of the session, and after it *)
Definition stop_begin (c : coordinator) : coordinator := set_shutting_down c.
Definition stop_end (c : coordinator) : coordinator :=
  match c_leader c with Some l => retire_leader l c | None => c end.

(** ** The leadership tracking loop *)

(** Where [_leadership_tracking_loop] waits: for its turn, for the answer to put,
    for the answer to get, for [leader.start], or for the watched key.  The local
    variables [result] and [last] are part of the point. *)
Inductive phase : Type :=
  | PScheduled
  | PAcquiring
  | PReadingBack (result : bool)
  | PGaining (last : record)
  | PWatching (result : bool) (last : record)
  | PEnded.

(** The finally clause *)
Definition finally (c : coordinator) : phase := if c_shutting_down c then PEnded else PScheduled.

(** The answer to the first get *)
Definition read_back (result : bool) (rec : option record) (c : coordinator) : phase * coordinator :=
  match rec with
  | None => (finally c, c)
  | Some r =>
      if result then
        if bool_decide (rc_session r = Some (c_session_id c)) then
          match assert_leadership c with
          | (Ok true, c') => (PGaining r, c')
          | (Ok false, c') => (PWatching result r, c')
          | (Raise _, c') => (finally c', c')
          end
        else (PWatching result r, c)
      else
        match assert_nonleadership (rc_value r) c with
        | (Ok _, c') => (PWatching result r, c')
        | (Raise _, c') => (finally c', c')
        end
  end.

(** An answer while the key is watched *)
Definition watched (result : bool) (last : record) (updated : option record) (c : coordinator)
    : phase :=
  match updated with
  | None => finally c
  | Some u => if bool_decide (u ≠ last) then finally c else PWatching result u
  end.

(** ** The membership record *)

Definition membership_record_key (p : prefixes) (c : coordinator) : string :=
  membership_prefix p +:+ c_instance_id c.

(** [_do_create_membership_record] *)
Definition do_create_membership_record `{Consul store} (p : prefixes) (c : coordinator) : M store unit :=
  λ st,
  match kv_acquire (membership_record_key p c) "alive" (c_session_id c) st with
  | (true, st') => (Ok tt, st')
  | (false, st') => (Raise StaleMembershipEntryException, st')
  end.

(** One round of the loop of [_maintain_membership_record]: the record is made
    again when it is gone or belongs to another session. *)
Definition maintain_membership_record `{Consul store} (p : prefixes) (c : coordinator) : M store unit :=
  st ← get_state;
  match kv_get st (membership_record_key p c) with
  | Some r =>
      if bool_decide (rc_session r ≠ Some (c_session_id c)) then do_create_membership_record p c else mret tt
  | None => do_create_membership_record p c
  end.

(** [s[n:]] *)
Fixpoint string_from (n : nat) (s : string) : string :=
  match n, s with
  | S n, String _ s => string_from n s
  | _, _ => s
  end.

(** [get_members]: the keys under the membership prefix, without the prefix; no
    key at all gives None, which cannot be iterated over *)
Definition get_members (p : prefixes) (keys : option (list string)) : result (list string) :=
  match keys with
  | Some ks => Ok (map (string_from (String.length (membership_prefix p))) ks)
  | None => Raise TypeError
  end.

(** ** Back-off *)

Definition delay (n : nat) : Z := default 0%Z (RETRY_BACKOFF !! Nat.min n (length RETRY_BACKOFF - 1)).

Lemma backoff_eq c : backoff c = (Ok (delay (c_retries c)), set_retries (S (c_retries c)) c).
Proof.
  unfold backoff, delay.
  destruct (lookup_lt_is_Some_2 RETRY_BACKOFF (Nat.min (c_retries c) (length RETRY_BACKOFF - 1))) as [d Hd];
    [cbn; lia|].
  erewrite M_bind_eq by done. rewrite Hd. done.
Qed.

Lemma clear_backoff_eq c : clear_backoff c = (Ok tt, set_retries 0 c).
Proof.
  unfold clear_backoff. erewrite M_bind_eq by done. case_bool_decide as Hr; [|done].
  destruct c. cbn in Hr. by subst.
Qed.

Lemma retry_failing {A} (es : list exn) (outcomes : list (result A)) c :
  retry ((Raise <$> es) ++ outcomes) c =
  (rd ← retry outcomes; mret (rd.1, (delay <$> seq (c_retries c) (length es)) ++ rd.2))
    (set_retries (c_retries c + length es) c).
Proof.
  revert c. induction es as [|e es IH]; intros c.
  { cbn [fmap list_fmap app length seq]. rewrite Nat.add_0_r. destruct c. cbn -[retry].
    unfold mbind, M_bind. by destruct (retry _ _) as [[[]|] ?]. }
  change ((Raise <$> e :: es) ++ outcomes) with (@Raise A e :: ((Raise <$> es) ++ outcomes)). cbn [retry].
  erewrite M_bind_eq by apply backoff_eq. unfold mbind, M_bind. rewrite IH. cbn -[retry delay].
  rewrite Nat.add_succ_r. unfold mbind, M_bind, set_retries. cbn -[retry delay].
  by destruct (retry _ _) as [[[]|] ?].
Qed.

Lemma delay_range n : (50 ≤ delay n ≤ 5000)%Z.
Proof.
  unfold delay. cbn [length Nat.sub RETRY_BACKOFF]. generalize (Nat.le_min_r n 6).
  generalize (Nat.min n 6) as x. intros x Hx. do 7 (destruct x as [|x]; [cbn; lia|]). lia.
Qed.
Lemma delay_mono n m : n ≤ m → (delay n ≤ delay m)%Z.
Proof.
  unfold delay. cbn [length Nat.sub RETRY_BACKOFF]. intros Hnm.
  assert (Nat.min n 6 ≤ Nat.min m 6) as Hxy by lia. generalize (Nat.le_min_r m 6). revert Hxy.
  generalize (Nat.min n 6) (Nat.min m 6). intros x y Hxy Hy.
  do 7 (destruct y as [|y]; [do 7 (destruct x as [|x]; [cbn; lia|]); lia|]). lia.
Qed.

(** Retrying never fails and its delays are bounded: a call that fails any
    number of times and then succeeds returns that result and clears the count of
    retries; the delays before the retries follow the back-off table from the
    current count on, never reading past its end, so they are at least 50 ms, at
    most 5 s and never decrease; while the call keeps failing the loop goes on,
    with the count of failures added. *)
Theorem retry_bounds {A} (es : list exn) (a : A) rest c :
  let delays := delay <$> seq (c_retries c) (length es) in
  retry ((Raise <$> es) ++ Ok a :: rest) c = (Ok (Some a, delays), set_retries 0 c) ∧
  retry ((Raise (A:=A)) <$> es) c = (Ok (None, delays), set_retries (c_retries c + length es) c) ∧
  Forall (λ d, 50 ≤ d ≤ 5000)%Z delays ∧
  (∀ i j d d', i ≤ j → delays !! i = Some d → delays !! j = Some d' → (d ≤ d')%Z).
Proof.
  cbv zeta. split_and!.
  - rewrite retry_failing. cbn [retry]. unfold mbind, M_bind. rewrite clear_backoff_eq. cbn.
    by rewrite app_nil_r.
  - rewrite <- (app_nil_r (Raise <$> es)), retry_failing. cbn [retry]. erewrite M_bind_eq by done.
    cbn [fst snd]. by rewrite app_nil_r.
  - apply Forall_fmap, Forall_forall. intros n _. apply delay_range.
  - intros i j d d' Hij. rewrite !list_lookup_fmap.
    intros (n & [-> _]%lookup_seq & ->)%fmap_Some (m & [-> _]%lookup_seq & ->)%fmap_Some.
    apply delay_mono. lia.
Qed.

(** ** Invariant of a coordinator *)

(** The leader object exists exactly while this instance leads (until it is being
    stopped), former leader objects are halted, and every deferred was either
    called once or still waits for a leader. *)
Record wf (c : coordinator) : Prop := {
  wf_leader : is_Some (c_leader c) → c_i_am_leader c = true;
  wf_role : c_i_am_leader c = true → c_shutting_down c = false → is_Some (c_leader c);
  wf_leader_id : c_i_am_leader c = true → c_leader_id c = Some (c_instance_id c);
  wf_running l : c_leader c = Some l → Cluster.l_halted l = false;
  wf_former : Forall (λ l, Cluster.l_halted l = true ∧ Cluster.l_timer l ≠ Cluster.TimerPending) (c_former_leaders c);
  wf_waiting : is_Some (c_leader_id c) → c_wait_for_leader_deferreds c = [];
  wf_deferreds : (c_called c).*1 ++ c_wait_for_leader_deferreds c ≡ₚ seq 0 (c_deferreds c);
}.

(** What no operation changes *)
Definition same_ids (c c' : coordinator) : Prop :=
  c_instance_id c' = c_instance_id c ∧ c_session_id c' = c_session_id c.

Lemma new_coordinator_wf i s : wf (new_coordinator i s).
Proof. split; cbn; try done; by intros []. Qed.

Lemma set_retries_wf n c : wf c → wf (set_retries n c).
Proof. by intros []; split. Qed.
Lemma stop_begin_wf c : wf c → wf (stop_begin c).
Proof. intros []. by split. Qed.

Lemma former_stop l ls :
  Forall (λ l, Cluster.l_halted l = true ∧ Cluster.l_timer l ≠ Cluster.TimerPending) ls →
  Forall (λ l, Cluster.l_halted l = true ∧ Cluster.l_timer l ≠ Cluster.TimerPending) (Cluster.stop l :: ls).
Proof. intros ?. constructor; [|done]. split; [done|]. by destruct l as [? ? ? []]. Qed.

Lemma stop_end_wf c : wf c → c_shutting_down c = true → wf (stop_end c).
Proof.
  intros [] Hs. unfold stop_end. destruct (c_leader c) as [l|] eqn:Hl; [|by split; rewrite ?Hl].
  split; cbn; try done.
  - congruence.
  - by apply former_stop.
Qed.

Lemma set_leader_wf l l' c :
  wf c → c_leader c = Some l → Cluster.l_halted l' = Cluster.l_halted l → wf (set_leader (Some l') c).
Proof.
  intros [] Hl Hh. split; cbn; try done.
  - intros _. apply wf_leader0. by eexists.
  - intros ? [= <-]. rewrite Hh. eauto.
Qed.

Lemma wait_for_a_leader_wf c d c' : wf c → wait_for_a_leader c = (Ok d, c') → wf c' ∧ same_ids c c'.
Proof.
  unfold wait_for_a_leader. intros []. destruct (c_leader_id c) as [l|] eqn:Hid; intros [= <- <-].
  all: split; [|done]; split; cbn -[seq]; rewrite ?Hid; try done.
  - rewrite fmap_app, wf_waiting0, !app_nil_r in * by done. cbn -[seq]. by rewrite seq_S, <- wf_deferreds0.
  - by rewrite app_assoc, wf_deferreds0, seq_S.
Qed.

Lemma set_leader_id_eq l c :
  wf c →
  ∃ c', set_leader_id l c = (Ok tt, c') ∧ same_ids c c' ∧ c_i_am_leader c' = c_i_am_leader c ∧
    c_leader c' = c_leader c ∧ c_shutting_down c' = c_shutting_down c ∧ c_leader_id c' = Some l ∧
    c_former_leaders c' = c_former_leaders c ∧ c_wait_for_leader_deferreds c' = [] ∧
    (c_called c').*1 ≡ₚ seq 0 (c_deferreds c').
Proof.
  intros []. eexists. split; [done|]. split_and!; try done. cbn.
  rewrite fmap_app, <- list_fmap_compose. unfold compose. cbn. by rewrite list_fmap_id.
Qed.

Lemma assert_leadership_spec c :
  wf c → ∃ b c', assert_leadership c = (Ok b, c') ∧ wf c' ∧ same_ids c c' ∧ c_i_am_leader c' = true.
Proof.
  intros Hwf. unfold assert_leadership. erewrite M_bind_eq by done.
  destruct (c_i_am_leader c) eqn:Hr; [by exists false, c|]. exists true. destruct Hwf.
  eexists. split; [done|]. split; [|done]. split; cbn; try done.
  - by intros ? [= <-].
  - rewrite fmap_app, <- list_fmap_compose. unfold compose. cbn. by rewrite list_fmap_id, app_nil_r.
Qed.

Lemma assert_nonleadership_spec l c :
  wf c → ∃ r c', assert_nonleadership l c = (r, c') ∧ wf c' ∧ same_ids c c' ∧
    c_i_am_leader c' = false ∧ c_leader_id c' = Some l ∧ (∀ e, r = Raise e → c_shutting_down c = true).
Proof.
  intros Hwf. destruct (set_leader_id_eq l c Hwf) as (c1 & Hset & Hids & Hr & Hl & Hsd & Hid & Hf & Hw & Hd).
  unfold assert_nonleadership. erewrite M_bind_eq by done. erewrite M_bind_eq by done. rewrite Hr.
  destruct Hwf. destruct (c_i_am_leader c) eqn:Hrole; cycle 1.
  { exists (Ok tt), c1. split_and!; try done. split; rewrite ?Hr, ?Hl, ?Hf, ?Hw, ?app_nil_r; try done. }
  erewrite M_bind_eq by done. unfold just_lost_leadership, halt_leader. erewrite M_bind_eq by done.
  cbn [c_leader set_role]. rewrite Hl. destruct (c_leader c) as [ld|] eqn:Hld.
  - eexists (Ok tt), _. split; [done|]. split; [|done]. split; cbn; try done.
    + rewrite Hf. by apply former_stop.
    + by rewrite Hw, app_nil_r.
  - eexists (Raise AttributeError), _. split; [done|]. split_and!; try done.
    + split; cbn; rewrite ?Hl, ?Hf, ?Hw, ?app_nil_r; try done.
    + intros _ _. destruct (c_shutting_down c) eqn:Hs; [done|]. by destruct wf_role0.
Qed.

(** ** A cluster of coordinators *)

Section cluster.
Context `{Consul store} (p : prefixes).

Record node : Type := mk_node { n_coord : coordinator; n_phase : phase }.
Record cluster : Type := mk_cluster { s_store : store; s_nodes : gmap nat node }.

Definition set_node (i : nat) (n : node) (s : cluster) : cluster :=
  mk_cluster (s_store s) (<[i := n]> (s_nodes s)).
Definition set_store (st : store) (s : cluster) : cluster := mk_cluster st (s_nodes s).

(** What can happen, one call of Consul at a time; the leader object works on its
    own ([step_leader]), and failed calls only count retries ([step_retries]) *)
Inductive step : cluster → cluster → Prop :=
  | step_turn s i c :
      s_nodes s !! i = Some (mk_node c PScheduled) →
      step s (set_node i (mk_node c PAcquiring) s)
  | step_put s i c b st :
      s_nodes s !! i = Some (mk_node c PAcquiring) →
      kv_acquire (leader_prefix p) (c_instance_id c) (c_session_id c) (s_store s) = (b, st) →
      step s (set_store st (set_node i (mk_node c (PReadingBack b)) s))
  | step_get s i c b ph c' :
      s_nodes s !! i = Some (mk_node c (PReadingBack b)) →
      read_back b (kv_get (s_store s) (leader_prefix p)) c = (ph, c') →
      step s (set_node i (mk_node c' ph) s)
  | step_started s i c r :
      s_nodes s !! i = Some (mk_node c (PGaining r)) →
      step s (set_node i (mk_node c (PWatching true r)) s)
  | step_watch s i c b r :
      s_nodes s !! i = Some (mk_node c (PWatching b r)) →
      step s (set_node i (mk_node c (watched b r (kv_get (s_store s) (leader_prefix p)) c)) s)
  | step_retries s i c ph n :
      s_nodes s !! i = Some (mk_node c ph) →
      step s (set_node i (mk_node (set_retries n c) ph) s)
  | step_wait s i c ph d c' :
      s_nodes s !! i = Some (mk_node c ph) → wait_for_a_leader c = (Ok d, c') →
      step s (set_node i (mk_node c' ph) s)
  | step_leader s i c ph l l' :
      s_nodes s !! i = Some (mk_node c ph) → c_leader c = Some l →
      Cluster.l_halted l' = Cluster.l_halted l →
      step s (set_node i (mk_node (set_leader (Some l') c) ph) s)
  | step_session_ends s x : step s (set_store (session_destroy x (s_store s)) s)
  | step_removed s k : step s (set_store (kv_remove k (s_store s)) s)
  | step_stop_begin s i c ph :
      s_nodes s !! i = Some (mk_node c ph) →
      step s (set_node i (mk_node (stop_begin c) ph) s)
  | step_stop_end s i c ph :
      s_nodes s !! i = Some (mk_node c ph) → c_shutting_down c = true →
      step s (set_store (session_destroy (c_session_id c) (s_store s))
        (set_node i (mk_node (stop_end c) ph) s)).

(** A cluster starts with fresh coordinators that have sessions of their own, and
    a leader key that no session holds *)
Definition initial (s : cluster) : Prop :=
  from_option rc_session None (kv_get (s_store s) (leader_prefix p)) = None ∧
  (∀ i n, s_nodes s !! i = Some n →
     n_phase n = PScheduled ∧
     n_coord n = new_coordinator (c_instance_id (n_coord n)) (c_session_id (n_coord n))) ∧
  (∀ i j n n', s_nodes s !! i = Some n → s_nodes s !! j = Some n' →
     c_session_id (n_coord n) = c_session_id (n_coord n') → i = j).

Inductive reach : cluster → Prop :=
  | reach_init s : initial s → reach s
  | reach_step s s' : reach s → step s s' → reach s'.

(** ** Election *)

(** With the session that holds the leader key *)
Definition node_ok (holder : option session) (n : node) : Prop :=
  let c := n_coord n in
  wf c ∧
  match n_phase n with
  | PReadingBack false => holder ≠ Some (c_session_id c)
  | PGaining r => rc_session r = Some (c_session_id c) ∧ c_i_am_leader c = true
  | PWatching true r => rc_session r = Some (c_session_id c) → c_i_am_leader c = true
  | PWatching false r => c_i_am_leader c = false ∧ c_leader_id c = Some (rc_value r) ∧
      rc_session r ≠ Some (c_session_id c)
  | _ => True
  end.

Definition leader_record (s : cluster) : option record := kv_get (s_store s) (leader_prefix p).
Definition holder (st : store) : option session := from_option rc_session None (kv_get st (leader_prefix p)).

Record inv (s : cluster) : Prop := {
  inv_nodes i n : s_nodes s !! i = Some n → node_ok (holder (s_store s)) n;
  inv_sessions i j n n' : s_nodes s !! i = Some n → s_nodes s !! j = Some n' →
    c_session_id (n_coord n) = c_session_id (n_coord n') → i = j;
  inv_record i n r : s_nodes s !! i = Some n → leader_record s = Some r →
    rc_session r = Some (c_session_id (n_coord n)) → rc_value r = c_instance_id (n_coord n);
}.

Lemma set_node_inv s i n n' :
  inv s → s_nodes s !! i = Some n → same_ids (n_coord n) (n_coord n') →
  node_ok (holder (s_store s)) n' → inv (set_node i n' s).
Proof.
  intros [Hn Hs Hr] Hi [Hid Hses] Hok.
  assert (∀ j m, s_nodes (set_node i n' s) !! j = Some m → ∃ m0, s_nodes s !! j = Some m0 ∧
    same_ids (n_coord m0) (n_coord m)) as Hold.
  { intros j m. cbn. rewrite lookup_insert_Some. intros [[<- <-]|[_ ?]]; [by exists n|by exists m]. }
  split.
  - intros j m. cbn. rewrite lookup_insert_Some. naive_solver.
  - intros j k m m' (m0 & ? & _ & ->)%Hold (m1 & ? & _ & ->)%Hold. by apply Hs.
  - intros j m r (m0 & ? & -> & ->)%Hold. by eapply Hr.
Qed.

Lemma set_store_inv s st :
  inv s →
  (kv_get st (leader_prefix p) = leader_record s ∨ kv_get st (leader_prefix p) = None ∨
   ∃ i n r, s_nodes s !! i = Some n ∧ n_phase n ≠ PReadingBack false ∧
     kv_get st (leader_prefix p) = Some r ∧
     rc_value r = c_instance_id (n_coord n) ∧ rc_session r = Some (c_session_id (n_coord n))) →
  inv (set_store st s).
Proof.
  intros [Hn Hs Hr] Hst. split; [|done|].
  - intros j m Hj. destruct (Hn j m Hj) as [Hwf Hm]. split; [done|]. destruct (n_phase m) as [| |[]| | |] eqn:Hph; try done.
    cbn. unfold holder in *. destruct Hst as [-> | [-> |(i & n & r' & Hi & Hnr & -> & _ & Hses)]]; [done..|].
    cbn. rewrite Hses. intros [= Heq]. pose proof (Hs i j n m Hi Hj Heq) as <-. cbn in Hj. congruence.
  - intros j m r Hj. unfold leader_record. cbn.
    destruct Hst as [-> | [-> |(i & n & r' & Hi & _ & -> & Hv & Hses)]]; [by eapply Hr|done|].
    intros [= <-]. rewrite Hses. intros [= Heq].
    pose proof (Hs i j n m Hi Hj Heq) as <-. cbn in Hj. congruence.
Qed.

Lemma finally_ok h c : wf c → node_ok h (mk_node c (finally c)).
Proof. intros Hwf. split; [done|]. unfold finally. cbn. by destruct (c_shutting_down c). Qed.

Lemma read_back_ok b rec c ph c' :
  let h := from_option rc_session None rec in
  node_ok h (mk_node c (PReadingBack b)) → read_back b rec c = (ph, c') →
  node_ok h (mk_node c' ph) ∧ same_ids c c'.
Proof.
  cbv zeta. intros [Hwf Hb]. cbn in Hwf, Hb. unfold read_back. destruct rec as [r|]; [|intros [= <- <-]; split; [by apply finally_ok|done]].
  destruct b.
  - case_bool_decide as Hses; [|intros [= <- <-]; split; [split; [done|]; cbn; intros; done|done]].
    destruct (assert_leadership_spec c Hwf) as (b & c1 & -> & Hwf1 & Hids & Hr).
    assert (rc_session r = Some (c_session_id c1)) by (destruct Hids; congruence).
    destruct b; intros [= <- <-]; (split; [|done]); (split; [done|]); cbn; done.
  - destruct (assert_nonleadership_spec (rc_value r) c Hwf) as (res & c1 & -> & Hwf1 & Hids & Hr & Hl & _).
    destruct res; intros [= <- <-]; (split; [|done]); [|by apply finally_ok].
    split; [done|]. cbn. destruct Hids as [_ ->]. done.
Qed.

Lemma watched_ok h b r u c :
  node_ok h (mk_node c (PWatching b r)) → node_ok h (mk_node c (watched b r u c)).
Proof.
  intros Hok. unfold watched. destruct Hok as [Hwf Hok]. destruct u as [u|]; [|by apply finally_ok].
  case_bool_decide as Hu; [by apply finally_ok|]. subst. by split.
Qed.

Lemma destroy_record x st :
  kv_get (session_destroy x st) (leader_prefix p) = kv_get st (leader_prefix p) ∨
  kv_get (session_destroy x st) (leader_prefix p) = None.
Proof.
  destruct (decide (from_option rc_session None (kv_get st (leader_prefix p)) = Some x)) as [Hx|Hx].
  - destruct (kv_get st (leader_prefix p)) as [r|] eqn:Hr; [|done]. right. by eapply session_destroy_held.
  - left. by apply session_destroy_other.
Qed.

(** A step of a node that keeps its role and the record it watches *)
Lemma node_ok_keep h c c' ph :
  node_ok h (mk_node c ph) → wf c' → same_ids c c' → c_i_am_leader c' = c_i_am_leader c →
  c_leader_id c' = c_leader_id c → node_ok h (mk_node c' ph).
Proof. intros [_ Hok] Hwf' [_ Hs] Hr Hl. split; [done|]. cbn in *. by rewrite Hr, Hl, Hs. Qed.

Lemma step_put_inv s i c b st :
  inv s → s_nodes s !! i = Some (mk_node c PAcquiring) →
  kv_acquire (leader_prefix p) (c_instance_id c) (c_session_id c) (s_store s) = (b, st) →
  inv (set_store st (set_node i (mk_node c (PReadingBack b)) s)).
Proof.
  intros Hinv Hi Hput. pose proof (inv_nodes s Hinv _ _ Hi) as [Hwf _]. apply set_store_inv.
  - eapply set_node_inv; [done..|]. split; [done|]. cbn. destruct b; [done|]. unfold holder.
    destruct (kv_get (s_store s) (leader_prefix p)) as [r|] eqn:Hr; [|done]. cbn. intros Hs.
    pose proof (kv_acquire_own _ (c_instance_id c) _ _ _ Hr Hs) as Ht. by rewrite Hput in Ht.
  - cbn. destruct b.
    + right; right. destruct (kv_acquire_true _ _ _ _ _ Hput) as (r & Hr & Hv & Hs).
      exists i. eexists _, _. rewrite lookup_insert_eq. by split_and!.
    + left. by eapply kv_acquire_false.
Qed.

Lemma step_inv s s' : inv s → step s s' → inv s'.
Proof.
  intros Hinv. pose proof (inv_nodes s Hinv) as Hn.
  destruct 1 as [s i c Hi|s i c b st Hi Hput|s i c b ph c' Hi Hrb|s i c r Hi|s i c b r Hi|s i c ph n Hi
                |s i c ph d c' Hi Hw|s i c ph l l' Hi Hl Hh|s x|s k|s i c ph Hi|s i c ph Hi Hsd].
  - eapply set_node_inv; [done..|]. by destruct (Hn _ _ Hi).
  - eapply step_put_inv; eauto.
  - destruct (read_back_ok _ _ _ _ _ (Hn _ _ Hi) Hrb). by eapply set_node_inv.
  - eapply set_node_inv; [done..|]. destruct (Hn _ _ Hi) as [? [? ?]]. split; cbn; done.
  - eapply set_node_inv; [done..|]. apply watched_ok, (Hn _ _ Hi).
  - eapply set_node_inv; [done..|]. eapply node_ok_keep; [by apply (Hn _ _ Hi)| |done..].
    apply set_retries_wf, (Hn _ _ Hi).
  - destruct (wait_for_a_leader_wf _ _ _ (proj1 (Hn _ _ Hi)) Hw) as [Hwf Hids].
    eapply set_node_inv; [done..|]. eapply node_ok_keep; [by apply (Hn _ _ Hi)|done..| |].
    all: revert Hw; unfold wait_for_a_leader; destruct (c_leader_id c) eqn:Hl; by intros [= <- <-].
  - eapply set_node_inv; [done..|]. eapply node_ok_keep; [by apply (Hn _ _ Hi)| |done..].
    eapply set_leader_wf; [apply (Hn _ _ Hi)|done..].
  - apply set_store_inv; [done|]. destruct (destroy_record x (s_store s)) as [->| ->]; auto.
  - apply set_store_inv; [done|]. destruct (decide (k = leader_prefix p)) as [-> |Hk].
    + right; left. apply kv_remove_get.
    + left. by apply kv_remove_other.
  - eapply set_node_inv; [done..|]. eapply node_ok_keep; [by apply (Hn _ _ Hi)| |done..].
    apply stop_begin_wf, (Hn _ _ Hi).
  - apply set_store_inv.
    + eapply set_node_inv; [done|done| |].
      * cbn. unfold stop_end. by destruct (c_leader c).
      * eapply node_ok_keep; [by apply (Hn _ _ Hi)|apply stop_end_wf; [apply (Hn _ _ Hi)|done]|..].
        all: unfold stop_end; by destruct (c_leader c).
    + destruct (destroy_record (c_session_id c) (s_store s)) as [->| ->]; auto.
Qed.

Lemma cluster_inv s : reach s → inv s.
Proof.
  induction 1 as [s (Hfree & Hnodes & Hses)|s s' _ IH Hstep]; [|by eapply step_inv].
  split; [|done|].
  - intros i n Hi. destruct (Hnodes i n Hi) as [Hph Hc]. split; [|by rewrite Hph].
    rewrite Hc. apply new_coordinator_wf.
  - intros i n r Hi Hr Hs. unfold leader_record in Hr. rewrite Hr in Hfree. cbn in Hfree. congruence.
Qed.

(** C27: in every interleaving of a cluster, each coordinator has a leader object
    exactly while it has the leader's role (until it is being stopped), then knows
    itself as the leader, and has halted every leader object it gave up, with no
    timer left; every deferred of wait_for_a_leader was either called once or
    still waits, and none waits once a leader is known. *)
Theorem coordinator_invariant s i n :
  reach s → s_nodes s !! i = Some n → wf (n_coord n).
Proof. intros Hs Hi. by apply (inv_nodes s (cluster_inv s Hs) i n Hi). Qed.

(** A coordinator is settled when it watches the current entry of the leader key,
    so that no notification is due; it is confused when its put succeeded but the
    entry it read back was another session's. *)
Definition settled (s : cluster) (n : node) (b : bool) (r : record) : Prop :=
  n_phase n = PWatching b r ∧ leader_record s = Some r.
Definition confused (n : node) (b : bool) (r : record) : Prop :=
  b = true ∧ rc_session r ≠ Some (c_session_id (n_coord n)).

Lemma settled_role s i n b r :
  inv s → s_nodes s !! i = Some n → n_phase n = PWatching b r → leader_record s = Some r → ¬ confused n b r →
  c_leader_id (n_coord n) = Some (rc_value r) ∧
  (c_i_am_leader (n_coord n) = true ↔ rc_session r = Some (c_session_id (n_coord n))).
Proof.
  intros Hinv Hi Hph Hr Hc. destruct (inv_nodes s Hinv i n Hi) as [Hwf Hok]. rewrite Hph in Hok. destruct b.
  - assert (rc_session r = Some (c_session_id (n_coord n))) as Hs.
    { apply dec_stable. intros Hs. by apply Hc. }
    rewrite (inv_record s Hinv i n r Hi Hr Hs). split; [|naive_solver]. apply wf_leader_id; [done|]. by apply Hok.
  - destruct Hok as (Hrole & Hl & Hs). split; [done|]. rewrite Hrole. naive_solver.
Qed.

(** C28: settled coordinators agree on the leader: in every reachable state, if two
    coordinators are settled and not confused, both know the same leader, the value
    of the leader key; each has the leader's role exactly if its session holds the
    lock; so at most one of them leads. *)
Theorem leader_agreement s i j n n' b b' r r' :
  reach s →
  s_nodes s !! i = Some n → settled s n b r → ¬ confused n b r →
  s_nodes s !! j = Some n' → settled s n' b' r' → ¬ confused n' b' r' →
  c_leader_id (n_coord n) = Some (rc_value r) ∧
  c_leader_id (n_coord n') = Some (rc_value r) ∧
  (c_i_am_leader (n_coord n) = true ↔ rc_session r = Some (c_session_id (n_coord n))) ∧
  (c_i_am_leader (n_coord n) = true → c_i_am_leader (n_coord n') = true → i = j).
Proof.
  intros Hreach Hi [Hph Hr] Hc Hj [Hph' Hr'] Hc'. pose proof (cluster_inv s Hreach) as Hinv.
  assert (r' = r) as -> by congruence.
  destruct (settled_role s i n b r Hinv Hi Hph Hr Hc) as [Hl Hrole].
  destruct (settled_role s j n' b' r Hinv Hj Hph' Hr Hc') as [Hl' Hrole'].
  split_and!; [done..|]. rewrite Hrole, Hrole'. intros Hs Hs'. eapply (inv_sessions s Hinv); [done..|]. congruence.
Qed.

(** ** Running the cluster *)

Inductive action : Type :=
  | ATurn (i : nat) | APut (i : nat) | AGet (i : nat) | AStarted (i : nat) | AWatch (i : nat)
  | ARemoved (k : string).

Definition exec (a : action) (s : cluster) : option cluster :=
  match a with
  | ATurn i =>
      n ← s_nodes s !! i;
      match n_phase n with
      | PScheduled => Some (set_node i (mk_node (n_coord n) PAcquiring) s)
      | _ => None
      end
  | APut i =>
      n ← s_nodes s !! i;
      match n_phase n with
      | PAcquiring =>
          let '(b, st) := kv_acquire (leader_prefix p) (c_instance_id (n_coord n)) (c_session_id (n_coord n)) (s_store s) in
          Some (set_store st (set_node i (mk_node (n_coord n) (PReadingBack b)) s))
      | _ => None
      end
  | AGet i =>
      n ← s_nodes s !! i;
      match n_phase n with
      | PReadingBack b =>
          let '(ph, c') := read_back b (kv_get (s_store s) (leader_prefix p)) (n_coord n) in
          Some (set_node i (mk_node c' ph) s)
      | _ => None
      end
  | AStarted i =>
      n ← s_nodes s !! i;
      match n_phase n with
      | PGaining r => Some (set_node i (mk_node (n_coord n) (PWatching true r)) s)
      | _ => None
      end
  | AWatch i =>
      n ← s_nodes s !! i;
      match n_phase n with
      | PWatching b r =>
          Some (set_node i (mk_node (n_coord n)
            (watched b r (kv_get (s_store s) (leader_prefix p)) (n_coord n))) s)
      | _ => None
      end
  | ARemoved k => Some (set_store (kv_remove k (s_store s)) s)
  end.

Lemma exec_step a s s' : exec a s = Some s' → step s s'.
Proof.
  destruct a as [i|i|i|i|i|k]; cbn; [intros ([c ph] & Hi & He)%bind_Some..|].
  all: try (destruct ph; try done; cbn in He).
  - injection He as <-. by constructor.
  - destruct (kv_acquire _ _ _ _) as [b st] eqn:Hput. injection He as <-. by eapply step_put.
  - destruct (read_back _ _ _) as [ph c'] eqn:Hrb. injection He as <-. by eapply step_get.
  - injection He as <-. by apply step_started.
  - injection He as <-. by apply step_watch.
  - intros [= <-]. constructor.
Qed.

Fixpoint run (acts : list action) (s : cluster) : option cluster :=
  match acts with
  | [] => Some s
  | a :: acts => s' ← exec a s; run acts s'
  end.

Lemma run_reach acts s s' : reach s → run acts s = Some s' → reach s'.
Proof.
  revert s. induction acts as [|a acts IH]; intros s Hs; cbn; [by intros [= <-]|].
  intros (s1 & Ha & Hr)%bind_Some. eapply IH; [|done]. eapply reach_step; [done|]. by eapply exec_step.
Qed.
End cluster.

(** ** A store and a cluster of two *)

Record mem_store : Type := mk_mem_store { ms_entries : gmap string record; ms_index : nat }.

Definition mem_acquire (k v : string) (s : session) (st : mem_store) : bool * mem_store :=
  let locked := match ms_entries st !! k with
                | Some r => match rc_session r with Some s' => bool_decide (s ≠ s') | None => false end
                | None => false
                end in
  if locked then (false, st)
  else (true, mk_mem_store (<[k := mk_record v (Some s) (ms_index st)]> (ms_entries st)) (S (ms_index st))).
Definition mem_destroy (s : session) (st : mem_store) : mem_store :=
  mk_mem_store (filter (λ kr, rc_session kr.2 ≠ Some s) (ms_entries st)) (S (ms_index st)).
Definition mem_remove (k : string) (st : mem_store) : mem_store :=
  mk_mem_store (delete k (ms_entries st)) (S (ms_index st)).

#[refine] Instance mem_consul : Consul mem_store := {|
  kv_get st k := ms_entries st !! k;
  kv_acquire := mem_acquire;
  session_destroy := mem_destroy;
  kv_remove := mem_remove;
|}.
Proof.
  - intros k v s c c'. unfold mem_acquire. case_match; intros [= <-]. cbn. rewrite lookup_insert_eq. eauto.
  - intros k v s c c'. unfold mem_acquire. case_match; by intros [= <-].
  - intros k v s r c Hr Hs. unfold mem_acquire. rewrite Hr, Hs, bool_decide_eq_false_2; [done|]. naive_solver.
  - intros k v s s' r c Hr Hs Hne. unfold mem_acquire. by rewrite Hr, Hs, bool_decide_eq_true_2.
  - intros k k' v s c Hk. unfold mem_acquire. case_match; [done|]. cbn. by rewrite lookup_insert_ne.
  - intros k s r c Hr Hs. cbn. apply map_lookup_filter_None. right. intros r' Hr' Hne. cbn in Hne. congruence.
  - intros k s c Hs. cbn. destruct (ms_entries c !! k) as [r|] eqn:Hr.
    + by apply map_lookup_filter_Some.
    + apply map_lookup_filter_None. by left.
  - intros k c. cbn. apply lookup_delete_eq.
  - intros k k' c Hk. cbn. by apply lookup_delete_ne.
Defined.

Definition demo_config : gmap string string :=
  {["leader_key" := "leader"; "membership_key" := "members"; "assignment_key" := "assignments";
    "workload_key" := "work"]}.
Definition demo_prefixes : prefixes :=
  mk_prefixes "service/voltha/leader" "service/voltha/members/" "service/voltha/assignments/" "service/voltha/work/".
Example demo_config_prefixes : config_prefixes demo_config = Ok demo_prefixes.
Proof. vm_compute. reflexivity. Qed.

Definition demo_cluster : cluster :=
  mk_cluster (mk_mem_store ∅ 1)
    {[0 := mk_node (new_coordinator "voltha_1" "s1") PScheduled;
      1 := mk_node (new_coordinator "voltha_2" "s2") PScheduled]}.

Lemma demo_reach : reach demo_prefixes demo_cluster.
Proof.
  apply reach_init. split_and!; [done|..].
  - intros i n. unfold demo_cluster. cbn [s_nodes]. rewrite lookup_insert_Some, lookup_singleton_Some. naive_solver.
  - intros i j n n'. unfold demo_cluster. cbn [s_nodes]. rewrite !lookup_insert_Some, !lookup_singleton_Some. naive_solver.
Qed.

(** voltha_1 wins the election, voltha_2 learns of it. *)
Definition demo_elected : cluster :=
  Eval vm_compute in default demo_cluster
    (run demo_prefixes [ATurn 0; ATurn 1; APut 0; APut 1; AGet 0; AStarted 0; AGet 1] demo_cluster).
Definition demo_record : record := mk_record "voltha_1" (Some "s1") 1.

Lemma demo_elected_reach : reach demo_prefixes demo_elected.
Proof.
  apply (run_reach demo_prefixes [ATurn 0; ATurn 1; APut 0; APut 1; AGet 0; AStarted 0; AGet 1] demo_cluster);
    [apply demo_reach|vm_compute; reflexivity].
Qed.

Lemma coordinator_invariant_witness :
  ∃ n, s_nodes demo_elected !! 0 = Some n ∧ wf (n_coord n) ∧ c_i_am_leader (n_coord n) = true.
Proof.
  eexists. split; [vm_compute; reflexivity|]. split; [|reflexivity].
  apply (coordinator_invariant demo_prefixes demo_elected 0); [apply demo_elected_reach|vm_compute; reflexivity].
Defined.

Lemma leader_agreement_witness :
  ∃ n n', s_nodes demo_elected !! 0 = Some n ∧ s_nodes demo_elected !! 1 = Some n' ∧
    c_leader_id (n_coord n) = Some "voltha_1" ∧ c_leader_id (n_coord n') = Some "voltha_1".
Proof.
  do 2 eexists. split; [vm_compute; reflexivity|]. split; [vm_compute; reflexivity|].
  destruct (leader_agreement demo_prefixes demo_elected 0 1
    (mk_node (mk_coordinator "voltha_1" "s1" 0 true (Some "voltha_1") false (Some Cluster.new_leader) [] [] [] 0)
       (PWatching true demo_record))
    (mk_node (mk_coordinator "voltha_2" "s2" 0 false (Some "voltha_1") false None [] [] [] 0)
       (PWatching false demo_record)) true false demo_record demo_record demo_elected_reach) as (H1 & H2 & _).
  1, 4: vm_compute; reflexivity.
  1, 3: split; vm_compute; reflexivity.
  1, 2: unfold confused; naive_solver.
  split; [exact H1|exact H2].
Defined.

(** Two settled leaders: voltha_1 leads and has put again after the key was
    removed; before it reads the key back, the key is removed once more and taken
    by voltha_2.  voltha_1 is confused: it keeps its role and watches the entry of
    voltha_2. *)
Definition demo_split : cluster :=
  Eval vm_compute in default demo_cluster (run demo_prefixes
    [ARemoved "service/voltha/leader"; AWatch 0; AWatch 1; ATurn 0; ATurn 1; APut 0;
     ARemoved "service/voltha/leader"; APut 1; AGet 1; AStarted 1; AGet 0] demo_elected).

Example split_leadership :
  reach demo_prefixes demo_split ∧
  ∃ n n' r, s_nodes demo_split !! 0 = Some n ∧ settled demo_prefixes demo_split n true r ∧
    s_nodes demo_split !! 1 = Some n' ∧ settled demo_prefixes demo_split n' true r ∧
    c_i_am_leader (n_coord n) = true ∧ c_i_am_leader (n_coord n') = true ∧
    c_leader_id (n_coord n) = Some "voltha_1" ∧ c_leader_id (n_coord n') = Some "voltha_2".
Proof.
  split.
  - apply (run_reach demo_prefixes [ARemoved "service/voltha/leader"; AWatch 0; AWatch 1; ATurn 0; ATurn 1; APut 0;
      ARemoved "service/voltha/leader"; APut 1; AGet 1; AStarted 1; AGet 0] demo_elected);
      [apply demo_elected_reach|vm_compute; reflexivity].
  - do 3 eexists. split; [vm_compute; reflexivity|]. split; [split; vm_compute; reflexivity|].
    split; [vm_compute; reflexivity|]. split_and!; try (vm_compute; reflexivity). split; vm_compute; reflexivity.
Qed.

(** ** The membership record *)

(** When the record is gone or belongs to nobody, a round of the maintenance leaves
    it in the hands of this session, or fails, to be retried, and leaves it alone
    (Consul refuses locks for a while after a session was invalidated); a record
    that another session holds makes the round fail. *)
Lemma membership_maintained `{Consul store} pr c st :
  let key := membership_record_key pr c in
  match from_option rc_session None (kv_get st key) with
  | Some x => x ≠ c_session_id c →
      ∃ st', maintain_membership_record pr c st = (Raise StaleMembershipEntryException, st') ∧ kv_get st' key = kv_get st key
  | None =>
      ∃ st', (maintain_membership_record pr c st = (Raise StaleMembershipEntryException, st') ∧
                kv_get st' key = kv_get st key) ∨
             (maintain_membership_record pr c st = (Ok tt, st') ∧
                ∃ r, kv_get st' key = Some r ∧ rc_session r = Some (c_session_id c))
  end.
Proof.
  cbv zeta. unfold maintain_membership_record. set (key := membership_record_key pr c).
  destruct (from_option rc_session None (kv_get st key)) as [x|] eqn:Hx.
  - intros Hne. erewrite M_bind_eq by done. destruct (kv_get st key) as [r|] eqn:Hr; [|done]. cbn in Hx.
    rewrite bool_decide_eq_true_2 by congruence. unfold do_create_membership_record. fold key.
    pose proof (kv_acquire_held key "alive" (c_session_id c) x r st Hr Hx ltac:(congruence)) as Hf.
    destruct (kv_acquire _ _ _ _) as [b st'] eqn:Hput. cbn in Hf. subst. exists st'. split; [done|].
    rewrite <- Hr. by eapply kv_acquire_false.
  - assert (maintain_membership_record pr c st = do_create_membership_record pr c st) as Hm.
    { unfold maintain_membership_record. erewrite M_bind_eq by done. fold key. destruct (kv_get st key) as [r|]; [|done].
      cbn in Hx. by rewrite Hx, bool_decide_eq_true_2. }
    unfold maintain_membership_record in Hm. fold key in Hm. rewrite Hm. unfold do_create_membership_record. fold key.
    destruct (kv_acquire _ _ _ _) as [[] st'] eqn:Hput; exists st'; [right|left].
    + destruct (kv_acquire_true _ _ _ _ _ Hput) as (r & Hr & _ & Hs). eauto.
    + split; [done|]. by eapply kv_acquire_false.
Qed.
End Coordinator.
