(* ===== verification/NetconfReply.v ===== *)
(** * NETCONF replies (netconf/nc_rpc/rpc_response.py, netconf/nc_common/error.py)

    XML trees as lxml shows them, the rewriting of a tree that was made from a
    dictionary into the shape YANG wants, and the error replies.  The reference
    definition of the rewriting works on the dictionary itself. *)

From Stdlib Require Import Ascii.
From stdpp Require Import prelude strings list.
From S2P Require Import Prelude.

(** An element: the tag of a comment or a processing instruction is not a string
    ([None]); the namespaces it declares, by their prefixes (an empty one for the
    default namespace).  Tails are left to the serializer. *)
Inductive elem : Type :=
  Elem (tag : option string) (nsmap attrib : list (string * string)) (text : option string)
       (children : list elem).

Definition e_tag (e : elem) : option string := let 'Elem t _ _ _ _ := e in t.
Definition e_nsmap (e : elem) : list (string * string) := let 'Elem _ n _ _ _ := e in n.
Definition e_attrib (e : elem) : list (string * string) := let 'Elem _ _ a _ _ := e in a.
Definition e_text (e : elem) : option string := let 'Elem _ _ _ s _ := e in s.
Definition e_children (e : elem) : list elem := let 'Elem _ _ _ _ l := e in l.

(** [elem.get(name)] *)
Definition e_get (name : string) (e : elem) : option string := od_get name (e_attrib e).
(** [etree.Element(tag)] *)
Definition element (tag : string) : elem := Elem (Some tag) [] [] None [].
Definition append (parent e : elem) : elem :=
  let 'Elem t n a s l := parent in Elem t n a s (l ++ [e]).
(** [elm.tag = tag]; a comment has no tag to set *)
Definition set_tag (tag : string) (e : elem) : result elem :=
  let 'Elem t n a s l := e in
  match t with Some _ => Ok (Elem (Some tag) n a s l) | None => Raise AttributeError end.

(** ** The rewriting *)
Module RpcResponse.

(** [add_node(self, new_node, tree)]: of a node tagged [ignore], only the
    sub-elements. *)
Definition add_node (new_node tree : elem) : elem :=
  if bool_decide (e_tag new_node = Some "ignore")
  then foldl append tree (e_children new_node)
  else append tree new_node.

Definition copy_basic_element (elm : elem) : result elem :=
  tag ← of_option TypeError (e_tag elm);
  Ok (Elem (Some tag) [] [] (e_text elm) []).

(** The scan of [process_inline_option]: whether there is a field option, and the
    name that comes last. *)
Definition inline_scan (l : list elem) : bool * option string :=
  foldl (λ acc elm,
    (acc.1 || bool_decide (e_tag elm = Some "yang_field_option"),
     if bool_decide (e_tag elm = Some "name") then e_text elm else acc.2)) (false, None) l.
(** [elm.tag == inline_node_name] *)
Definition tagged (name : option string) (elm : elem) : bool :=
  match name, e_tag elm with Some n, Some t => bool_decide (t = n) | _, _ => false end.
(** The new element and the element whose children it is to take; when the named
    node is missing the method ends without a value, and unpacking it fails. *)
Definition process_inline_option (elem_ : elem) : result (elem * elem) :=
  let '(inline_option, inline_node_name) := inline_scan (e_children elem_) in
  if negb inline_option then
    tag ← of_option TypeError (e_tag elem_); Ok (element tag, elem_)
  else
    match find_index (tagged inline_node_name) (e_children elem_) with
    | Some (_, elm) => Ok (element "ignore", elm)
    | None => Raise TypeError
    end.

Definition nested (elm : elem) : bool :=
  bool_decide (e_get "type" elm = Some "list") || bool_decide (e_get "type" elm = Some "dict").

(** One round of the loops of [process_element], which handles a nested element
    by the argument [process]. *)
Definition take_child (process : elem → result elem) (new_elem elm : elem) : result elem :=
  if nested elm then node ← process elm; Ok (add_node node new_elem)
  else node ← copy_basic_element elm; Ok (append new_elem node).

(** [process_element]; the children of a list take its tag first.  The fuel
    bounds the depth of the tree. *)
Fixpoint process_element (fuel : nat) (elem_ : elem) : result elem :=
  match fuel with
  | 0 => Raise OutOfFuel
  | S fuel =>
      let take_child := take_child (process_element fuel) in
      match e_get "type" elem_ with
      | Some "list" =>
          tag ← of_option TypeError (e_tag elem_);
          foldl (λ acc elm, new_elem ← acc; elm ← set_tag tag elm; take_child new_elem elm)
                (Ok (element "ignore")) (e_children elem_)
      | Some "dict" =>
          '(new_elem, elem_) ← process_inline_option elem_;
          foldl (λ acc elm, new_elem ← acc; take_child new_elem elm)
                (Ok new_elem) (e_children elem_)
      | _ => copy_basic_element elem_
      end
  end.

Fixpoint depth (e : elem) : nat :=
  let 'Elem _ _ _ _ l := e in S (foldr (λ c n, depth c `max` n) 0 l).

Definition to_yang_xml (from_xml : elem) : result elem :=
  let top := element "yang" in
  let elms := e_children from_xml in
  let fuel := depth from_xml in
  let normally :=
    foldl (λ acc elm, top ← acc; node ← process_element fuel elm; Ok (add_node node top)) (Ok top) elms in
  match elms with
  | [item] =>
      if bool_decide (e_get "type" item = Some "list") then
        item ← set_tag "ignore" item;
        node ← process_element fuel item;
        Ok (add_node node top)
      else normally
  | _ => normally
  end.


(** ** Dictionaries

    What [json_format] leaves of a message: a dictionary in the order in which it
    is iterated.  A leaf has the name dicttoxml gives its type, and its text (an
    empty one reads back as none). *)
Inductive leaf_type : Type := Str | Int | Float | Bool | Null.
Definition type_name (t : leaf_type) : string :=
  match t with Str => "str" | Int => "int" | Float => "float" | Bool => "bool" | Null => "null" end.

Inductive json : Type :=
  | JLeaf (type : leaf_type) (text : option string)
  | JList (items : list json)
  | JDict (fields : list (string * json)).

Fixpoint json_ind' (P : json → Prop)
    (HL : ∀ t s, P (JLeaf t s))
    (Hl : ∀ l, Forall P l → P (JList l))
    (Hd : ∀ d, Forall (λ kv, P kv.2) d → P (JDict d)) (j : json) : P j :=
  let rec := json_ind' P HL Hl Hd in
  match j with
  | JLeaf t s => HL t s
  | JList l => Hl l ((fix go l := match l return Forall P l with
                      | [] => Forall_nil_2 P
                      | x :: l => Forall_cons_2 P _ _ (rec x) (go l) end) l)
  | JDict d => Hd d ((fix go d := match d return Forall (λ kv, P kv.2) d with
                      | [] => Forall_nil_2 _
                      | kv :: d => Forall_cons_2 (λ kv, P kv.2) _ _ (rec kv.2) (go d) end) d)
  end.

(** The names dicttoxml takes as tags as they are; it changes others. *)
Definition name_start (c : ascii) : bool :=
  let n := nat_of_ascii c in
  bool_decide (65 ≤ n ≤ 90) || bool_decide (97 ≤ n ≤ 122) || bool_decide (n = 95).
Definition name_char (c : ascii) : bool :=
  let n := nat_of_ascii c in
  name_start c || bool_decide (48 ≤ n ≤ 57) || bool_decide (n = 45) || bool_decide (n = 46).
Definition xml_name (k : string) : bool :=
  match k with
  | "" => false
  | String c s => name_start c && forallb name_char (String.list_ascii_of_string s)
  end.

(** The library dicttoxml with [attr_type=True], its output parsed again: an
    element per field, an element [item] per list entry, the type as an
    attribute; for keys that are names of XML. *)
Class DictToXml : Type := {
  dx : string → json → elem;
  dicttoxml : option json → elem;
}.
Class DictToXmlLaws `{!DictToXml} : Prop := {
  dx_leaf k t s : xml_name k = true →
    dx k (JLeaf t s) = Elem (Some k) [] [("type", type_name t)] s [];
  dx_list k l : xml_name k = true →
    dx k (JList l) = Elem (Some k) [] [("type", "list")] None (dx "item" <$> l);
  dx_dict k d : xml_name k = true →
    dx k (JDict d) = Elem (Some k) [] [("type", "dict")] None ((λ kv, dx kv.1 kv.2) <$> d);
  dicttoxml_dict d : dicttoxml (Some (JDict d)) =
    Elem (Some "root") [] [] None ((λ kv, dx kv.1 kv.2) <$> d);
  dicttoxml_none : dicttoxml None = Elem (Some "root") [] [] None [dx "item" (JLeaf Null None)];
}.

(** The field option of a dictionary, and the name of the field it is about. *)
Definition leaf_text (j : json) : option string :=
  match j with JLeaf _ s => s | _ => None end.
Definition inline_name (d : list (string * json)) : option string :=
  foldl (λ acc kv, if bool_decide (kv.1 = "name") then leaf_text kv.2 else acc) None d.
Definition has_option (d : list (string * json)) : bool :=
  existsb (λ kv, bool_decide (kv.1 = "yang_field_option")) d.

(** The reference: what a field contributes to the element around it.  A list
    contributes its entries under its own name; a dictionary an element, or only
    the fields of the named entry when it carries the option. *)
Fixpoint yang_nodes (k : string) (j : json) : list elem :=
  match j with
  | JLeaf _ s => [Elem (Some k) [] [] s []]
  | JList l => flat_map (yang_nodes k) l
  | JDict d =>
      if has_option d then
        match inline_name d with
        | None => []
        | Some name =>
            (fix named d := match d with
             | [] => []
             | (k', j') :: d =>
                 if bool_decide (k' = name) then
                   match j' with
                   | JLeaf _ _ => []
                   | JList l => flat_map (yang_nodes "item") l
                   | JDict d' => flat_map (λ kv, yang_nodes kv.1 kv.2) d'
                   end
                 else named d
             end) d
        end
      else
        [Elem (Some k) [] [] None (flat_map (λ kv, yang_nodes kv.1 kv.2) d)]
  end.

(** What an entry of a list contributes when the list is all there is: a
    dictionary its fields, without an element of its own, and a leaf an element
    that is called [ignore]. *)
Fixpoint merged_nodes (j : json) : list elem :=
  match j with
  | JLeaf _ s => [Elem (Some "ignore") [] [] s []]
  | JList l => flat_map merged_nodes l
  | JDict d =>
      if has_option d then yang_nodes "ignore" (JDict d)
      else flat_map (λ kv, yang_nodes kv.1 kv.2) d
  end.

Definition yang_of (d : list (string * json)) : elem :=
  Elem (Some "yang") [] [] None
    match d with
    | [(_, JList l)] => flat_map merged_nodes l
    | _ => flat_map (λ kv, yang_nodes kv.1 kv.2) d
    end.

(** A dictionary as messages give it: fields have names of XML and none is called
    [ignore], and a field option comes with the name of a field of the same
    dictionary. *)
Definition option_ok (d : list (string * json)) : bool :=
  negb (has_option d) ||
  match inline_name d with Some n => existsb (λ kv, bool_decide (kv.1 = n)) d | None => false end.
Fixpoint json_ok (j : json) : bool :=
  match j with
  | JLeaf _ _ => true
  | JList l => forallb json_ok l
  | JDict d =>
      option_ok d &&
      forallb (λ kv, negb (bool_decide (kv.1 = "ignore")) && xml_name kv.1 && json_ok kv.2) d
  end.
Definition field_ok (kv : string * json) : bool :=
  negb (bool_decide (kv.1 = "ignore")) && xml_name kv.1 && json_ok kv.2.

(** ** The rewriting follows the reference *)

Definition contribution (node : elem) : list elem :=
  if bool_decide (e_tag node = Some "ignore") then e_children node else [node].

Lemma append_all t n a s l l' : foldl append (Elem t n a s l) l' = Elem t n a s (l ++ l').
Proof.
  revert l. induction l' as [|e l' IH]; intros l; cbn [foldl append]; [by rewrite app_nil_r|].
  by rewrite IH, <- app_assoc.
Qed.
Lemma append_all_element t l : foldl append (element t) l = Elem (Some t) [] [] None l.
Proof. apply append_all. Qed.
Lemma add_node_contribution node tree : add_node node tree = foldl append tree (contribution node).
Proof. unfold add_node, contribution. by case_bool_decide. Qed.

Section rewriting.
Context `{!DictToXml, !DictToXmlLaws}.

Definition dxs (d : list (string * json)) : list elem := (λ kv, dx kv.1 kv.2) <$> d.

(** What a field contributes, also under the tag [ignore] *)
Definition nodes (k : string) (j : json) : list elem :=
  if bool_decide (k = "ignore") then merged_nodes j else yang_nodes k j.
Lemma nodes_named k j : k ≠ "ignore" → nodes k j = yang_nodes k j.
Proof. intros. unfold nodes. by rewrite bool_decide_false. Qed.
Lemma nodes_leaf k t s : nodes k (JLeaf t s) = [Elem (Some k) [] [] s []].
Proof. unfold nodes. case_bool_decide; [by subst|done]. Qed.
Lemma nodes_list k l : nodes k (JList l) = flat_map (nodes k) l.
Proof. unfold nodes. by case_bool_decide. Qed.

Lemma field_ok_spec k j :
  field_ok (k, j) = true → k ≠ "ignore" ∧ xml_name k = true ∧ json_ok j = true.
Proof. intros [[Hk Hx]%andb_prop Hj]%andb_prop. split_and!; [|done|done]. intros ->. done. Qed.

Definition follows (j : json) : Prop := ∀ k fuel,
  xml_name k = true → json_ok j = true → depth (dx k j) ≤ fuel →
  match j with
  | JLeaf _ s => process_element fuel (dx k j) = Ok (Elem (Some k) [] [] s [])
  | _ => ∃ node, process_element fuel (dx k j) = Ok node ∧ contribution node = nodes k j
  end.

Lemma dx_tag k j : xml_name k = true → e_tag (dx k j) = Some k.
Proof. intros Hk. destruct j; by rewrite ?dx_leaf, ?dx_list, ?dx_dict. Qed.
Lemma dx_set_tag k k' j :
  xml_name k = true → xml_name k' = true → set_tag k (dx k' j) = Ok (dx k j).
Proof. intros Hk Hk'. destruct j; by rewrite ?dx_leaf, ?dx_list, ?dx_dict. Qed.
Lemma dx_text k j : xml_name k = true → e_text (dx k j) = leaf_text j.
Proof. intros Hk. destruct j; by rewrite ?dx_leaf, ?dx_list, ?dx_dict. Qed.
Lemma dx_list_type k j : xml_name k = true →
  bool_decide (e_get "type" (dx k j) = Some "list") = match j with JList _ => true | _ => false end.
Proof.
  intros Hk. destruct j as [t s| |]; rewrite ?dx_leaf, ?dx_list, ?dx_dict by done; [by destruct t|done|done].
Qed.
Lemma dx_nested k j : xml_name k = true →
  nested (dx k j) = match j with JLeaf _ _ => false | _ => true end.
Proof.
  intros Hk. destruct j as [t s| |]; rewrite ?dx_leaf, ?dx_list, ?dx_dict by done; [by destruct t|done|done].
Qed.

Lemma depth_children (l : list elem) (n : nat) :
  foldr (λ c n, depth c `max` n) 0 l ≤ n → Forall (λ c, depth c ≤ n) l.
Proof. induction l as [|e l IH]; cbn; [constructor|]. intros Hn. constructor; [lia|apply IH; lia]. Qed.
Lemma depth_le (e : elem) (n : nat) : depth e ≤ S n → Forall (λ c, depth c ≤ n) (e_children e).
Proof. destruct e as [t n' a s l]. cbn [depth e_children]. intros. apply depth_children. lia. Qed.

Lemma take_child_follows j k fuel new :
  follows j → xml_name k = true → json_ok j = true → depth (dx k j) ≤ fuel →
  take_child (process_element fuel) new (dx k j) = Ok (foldl append new (nodes k j)).
Proof.
  intros Hj Hk Hok Hd. specialize (Hj k fuel Hk Hok Hd). unfold take_child. rewrite dx_nested by done.
  destruct j as [t s| |].
  - rewrite dx_leaf, nodes_leaf by done. done.
  - destruct Hj as (node & -> & <-). cbn. by rewrite add_node_contribution.
  - destruct Hj as (node & -> & <-). cbn. by rewrite add_node_contribution.
Qed.

Lemma take_fields_follow d fuel new : Forall (λ kv, follows kv.2) d →
  forallb field_ok d = true → Forall (λ c, depth c ≤ fuel) (dxs d) →
  foldl (λ acc elm, new_elem ← acc; take_child (process_element fuel) new_elem elm) (Ok new) (dxs d)
  = Ok (foldl append new (flat_map (λ kv, yang_nodes kv.1 kv.2) d)).
Proof.
  intros Hf. revert new. induction Hf as [|[k j] d Hj Hd IH]; intros new; [done|].
  cbn [forallb dxs fmap list_fmap fst snd]. intros [(Hne & Hx & Hok)%field_ok_spec Hoks]%andb_prop Hdep.
  inversion Hdep as [|? ? Hk Hdep']; subst. cbn [foldl mbind result_bind flat_map fst snd].
  rewrite take_child_follows, nodes_named by done. rewrite foldl_app. by apply IH.
Qed.

Lemma take_items_follow l k fuel new : Forall follows l → xml_name k = true → forallb json_ok l = true →
  Forall (λ c, depth c ≤ fuel) (dx k <$> l) →
  foldl (λ acc elm, new_elem ← acc; elm ← set_tag k elm; take_child (process_element fuel) new_elem elm)
        (Ok new) (dx "item" <$> l)
  = Ok (foldl append new (flat_map (nodes k) l)).
Proof.
  intros Hf Hx. revert new. induction Hf as [|j l Hj Hl IH]; intros new; [done|].
  cbn [forallb fmap list_fmap]. intros [Hok Hoks]%andb_prop Hdep.
  inversion Hdep as [|? ? Hk Hdep']; subst. cbn [foldl mbind result_bind flat_map].
  rewrite dx_set_tag by done. cbn [mbind result_bind].
  rewrite take_child_follows by done. rewrite foldl_app. by apply IH.
Qed.

(** The depth of an element does not depend on its tag. *)
Lemma dx_depth k k' j : xml_name k = true → xml_name k' = true → depth (dx k j) = depth (dx k' j).
Proof. intros Hk Hk'. destruct j; by rewrite ?dx_leaf, ?dx_list, ?dx_dict. Qed.
Lemma items_depth l k k' fuel : xml_name k = true → xml_name k' = true →
  Forall (λ c, depth c ≤ fuel) (dx k <$> l) → Forall (λ c, depth c ≤ fuel) (dx k' <$> l).
Proof.
  rewrite !Forall_fmap. intros Hk Hk' Hl. eapply Forall_impl; [exact Hl|].
  intros j. unfold compose. by rewrite (dx_depth k' k).
Qed.

Lemma inline_scan_dxs d : forallb field_ok d = true → inline_scan (dxs d) = (has_option d, inline_name d).
Proof.
  unfold inline_scan, has_option, inline_name. intros Hok.
  assert (∀ b o, foldl (λ acc elm,
    (acc.1 || bool_decide (e_tag elm = Some "yang_field_option"),
     if bool_decide (e_tag elm = Some "name") then e_text elm else acc.2)) (b, o) (dxs d) =
    (b || existsb (λ kv, bool_decide (kv.1 = "yang_field_option")) d,
     foldl (λ acc kv, if bool_decide (kv.1 = "name") then leaf_text kv.2 else acc) o d)) as Hd;
    [|apply (Hd false None)].
  induction d as [|[k j] d IH]; intros b o; [cbn; by rewrite orb_false_r|].
  cbn [forallb] in Hok. apply andb_prop in Hok as [(_ & Hx & _)%field_ok_spec Hok].
  cbn [dxs fmap list_fmap foldl existsb fst snd]. fold (dxs d).
  rewrite dx_tag, dx_text, IH, orb_assoc by done. do 2 f_equal.
  - f_equal. apply bool_decide_ext. naive_solver.
  - f_equal. erewrite bool_decide_ext; [done|]. naive_solver.
Qed.

(** The nodes of the entry a field option names *)
Definition entry_nodes (j : json) : list elem :=
  match j with
  | JLeaf _ _ => []
  | JList l => flat_map (yang_nodes "item") l
  | JDict d => flat_map (λ kv, yang_nodes kv.1 kv.2) d
  end.
Lemma nodes_dict k d : nodes k (JDict d) =
  if has_option d then
    match inline_name d with
    | None => []
    | Some name => match od_get name d with Some j => entry_nodes j | None => [] end
    end
  else
    let inner := flat_map (λ kv, yang_nodes kv.1 kv.2) d in
    if bool_decide (k = "ignore") then inner else [Elem (Some k) [] [] None inner].
Proof.
  assert (nodes k (JDict d) = if has_option d then yang_nodes "ignore" (JDict d) else
    if bool_decide (k = "ignore") then flat_map (λ kv, yang_nodes kv.1 kv.2) d else yang_nodes k (JDict d)) as ->.
  { unfold nodes. cbn [merged_nodes yang_nodes]. by destruct (bool_decide _), (has_option d). }
  cbn [yang_nodes]. destruct (has_option d); [|done]. destruct (inline_name d) as [n|]; [|done].
  induction d as [|[k' j] d IH]; [done|]. cbn [od_get].
  case_bool_decide; [rewrite decide_True by done; by destruct j|].
  rewrite decide_False by done. apply IH.
Qed.

Lemma find_named n d : forallb field_ok d = true → existsb (λ kv, bool_decide (kv.1 = n)) d = true →
  ∃ i j, find_index (tagged (Some n)) (dxs d) = Some (i, dx n j) ∧ od_get n d = Some j ∧ (n, j) ∈ d.
Proof.
  induction d as [|[k j] d IH]; [done|]. cbn [existsb forallb fst].
  intros [(_ & Hx & _)%field_ok_spec Hok]%andb_prop Hex. specialize (IH Hok).
  cbn [dxs fmap list_fmap find_index fst snd od_get]. unfold tagged at 1. rewrite dx_tag by done.
  destruct (decide (k = n)) as [->|Hne].
  - rewrite !bool_decide_true, decide_True by done. exists 0, j. repeat split. by left.
  - rewrite bool_decide_false, decide_False by done. rewrite bool_decide_false in Hex by done.
    destruct (IH Hex) as (i & j' & Hf & Hg & Hin). fold (dxs d). rewrite Hf.
    exists (S i), j'. repeat split; [done|]. by right.
Qed.

Definition fields_of (j : json) : list (string * json) :=
  match j with JLeaf _ _ => [] | JList l => (λ j, ("item", j)) <$> l | JDict d => d end.
Lemma dx_children k j : xml_name k = true → e_children (dx k j) = dxs (fields_of j).
Proof.
  intros Hk. destruct j as [| l|]; rewrite ?dx_leaf, ?dx_list, ?dx_dict by done; cbn; [done| |done].
  unfold dxs. by rewrite <- list_fmap_compose.
Qed.
Lemma entry_nodes_fields j : entry_nodes j = flat_map (λ kv, yang_nodes kv.1 kv.2) (fields_of j).
Proof.
  destruct j as [| l|]; [done| |done]. cbn. induction l as [|j l IH]; [done|]. cbn. by rewrite IH.
Qed.
Lemma json_ok_fields j : json_ok j = true → forallb field_ok (fields_of j) = true.
Proof.
  destruct j as [| l|d]; [done| |]; cbn [json_ok fields_of]; [|by intros [_ Hd]%andb_prop].
  rewrite !forallb_forall. intros Hl kv (j & <- & Hj)%in_map_iff. unfold field_ok. cbn. by apply Hl.
Qed.
Lemma json_ok_field k j d : json_ok (JDict d) = true → (k, j) ∈ d → field_ok (k, j) = true.
Proof.
  intros Hok%json_ok_fields Hin. cbn [fields_of] in Hok. rewrite forallb_forall in Hok.
  apply (Hok (k, j)), list_elem_of_In, Hin.
Qed.

Lemma process_list_follows k l fuel : Forall follows l → xml_name k = true → json_ok (JList l) = true →
  depth (dx k (JList l)) ≤ fuel →
  process_element fuel (dx k (JList l)) = Ok (Elem (Some "ignore") [] [] None (flat_map (nodes k) l)).
Proof.
  intros Hl Hk Hok Hd. destruct fuel as [|fuel]; [rewrite dx_list in Hd by done; cbn in Hd; lia|].
  apply depth_le in Hd. rewrite dx_list in Hd |- * by done. cbn -[take_child] in Hd |- *.
  rewrite take_items_follow; [|done|done|done|by apply (items_depth _ "item" k)]. by rewrite append_all_element.
Qed.

Lemma process_dict_follows k d fuel : Forall (λ kv, follows kv.2) d →
  Forall (λ kv, Forall (λ kv, follows kv.2) (fields_of kv.2)) d →
  xml_name k = true → json_ok (JDict d) = true → depth (dx k (JDict d)) ≤ fuel →
  ∃ node, process_element fuel (dx k (JDict d)) = Ok node ∧ contribution node = nodes k (JDict d).
Proof.
  intros Hd Hdd Hk Hok Hdep. pose proof (json_ok_fields _ Hok) as Hfields. cbn [fields_of] in Hfields.
  destruct fuel as [|fuel]; [rewrite dx_dict in Hdep by done; cbn in Hdep; lia|].
  apply depth_le in Hdep. rewrite dx_dict in Hdep |- * by done. cbn [e_children] in Hdep.
  cbn [process_element e_get e_attrib od_get]. rewrite decide_True by done.
  unfold process_inline_option. cbn [e_children e_tag]. fold (dxs d) in *.
  rewrite inline_scan_dxs, nodes_dict by done.
  destruct (has_option d) eqn:Hopt; cbn [negb].
  - pose proof Hok as [Hname _]%andb_prop. unfold option_ok in Hname. rewrite Hopt in Hname. cbn in Hname.
    destruct (inline_name d) as [n|]; [|done].
    destruct (find_named n d Hfields Hname) as (i & j & -> & -> & Hin). cbn [mbind result_bind].
    pose proof (field_ok_spec _ _ (json_ok_field _ _ _ Hok Hin)) as (_ & Hn & Hj).
    rewrite dx_children, take_fields_follow, append_all_element; try done.
    + eexists. split; [done|]. cbn. by rewrite entry_nodes_fields.
    + rewrite Forall_forall in Hdd. apply (Hdd (n, j)), Hin.
    + by apply json_ok_fields.
    + rewrite <- (dx_children n) by done. rewrite Forall_forall in Hdep.
      assert (depth (dx n j) ≤ fuel) as Hle.
      { apply Hdep, list_elem_of_fmap. by exists (n, j). }
      apply depth_le. lia.
  - cbn [of_option mbind result_bind e_children]. rewrite take_fields_follow by done.
    rewrite append_all_element. eexists. split; [done|]. unfold contribution. cbn [e_tag e_children].
    erewrite bool_decide_ext; [done|]. naive_solver.
Qed.

Lemma all_follow j : follows j ∧ Forall (λ kv, follows kv.2) (fields_of j).
Proof.
  induction j as [t s|l IH|d IH] using json_ind'.
  - split; [|constructor]. intros k fuel Hk _ Hd. rewrite dx_leaf in * by done.
    destruct fuel; [cbn in Hd; lia|]. by destruct t.
  - apply Forall_and in IH as [IH _]. split.
    + intros k fuel Hk Hok Hd. eexists. split; [by apply process_list_follows|]. by rewrite nodes_list.
    + cbn. apply Forall_fmap. exact IH.
  - apply Forall_and in IH as [IH IH']. split; [|done].
    intros k fuel Hk Hok Hd. by apply process_dict_follows.
Qed.

Lemma add_fields_follow d fuel top : json_ok (JDict d) = true →
  Forall (λ c, depth c ≤ fuel) (dxs d) →
  foldl (λ acc elm, top ← acc; node ← process_element fuel elm; Ok (add_node node top)) (Ok top) (dxs d)
  = Ok (foldl append top (flat_map (λ kv, yang_nodes kv.1 kv.2) d)).
Proof.
  intros Hok%json_ok_fields. cbn [fields_of] in Hok. revert top. induction d as [|[k j] d IH]; intros top Hdep; [done|].
  cbn [forallb] in Hok. apply andb_prop in Hok as [(Hk & Hx & Hj)%field_ok_spec Hok].
  inversion Hdep as [|? ? Hd Hdep']; subst. cbn [fst snd] in Hd.
  cbn [dxs fmap list_fmap foldl mbind result_bind fst snd flat_map]. fold (dxs d).
  destruct (all_follow j) as [Hf _]. specialize (Hf k fuel Hx Hj Hd).
  assert (∃ node, process_element fuel (dx k j) = Ok node ∧ contribution node = yang_nodes k j)
    as (node & -> & Hn).
  { rewrite <- nodes_named by done. destruct j as [t s| |]; [|done|done]. rewrite nodes_leaf. eexists. split; [exact Hf|]. unfold contribution. cbn [e_tag].
    rewrite bool_decide_false; [done|]. intros [= ->]. done. }
  cbn [mbind result_bind]. rewrite add_node_contribution, Hn, foldl_app. by apply IH.
Qed.

(** C32: what a request is answered with has the content of the dictionary.  For
    every dictionary whose fields have names of XML other than [ignore] and whose
    field options name one of their fields, the rewriting of its XML form succeeds
    and gives the reference tree.  In general, lists give their entries under
    their own name, one after the other and however deeply nested, dictionaries an
    element with their fields, a dictionary with the option the fields of the entry
    it names.  A dictionary with a single field that is a list is the exception:
    the entries of that list do not get its name; those that are dictionaries
    give their fields, without an element around them, so that the borders
    between entries are lost, and those that are leaves an element called
    [ignore]. *)
Theorem yang_reply_exact (d : list (string * json)) : json_ok (JDict d) = true →
  to_yang_xml (dicttoxml (Some (JDict d))) = Ok (yang_of d).
Proof.
  intros Hok. rewrite dicttoxml_dict. unfold to_yang_xml. cbn [e_children]. fold (dxs d).
  pose proof (depth_le (Elem (Some "root") [] [] None (dxs d)) (Nat.pred (depth (Elem (Some "root") [] [] None (dxs d)))) ltac:(cbn; lia)) as Hdep.
  set (fuel := depth _) in *. cbn [e_children] in Hdep.
  assert (Forall (λ c, depth c ≤ fuel) (dxs d)) as Hfuel.
  { eapply Forall_impl; [exact Hdep|]. cbn. intros c Hc. lia. }
  pose proof (add_fields_follow d fuel (element "yang") Hok Hfuel) as Hall.
  rewrite append_all_element in Hall.
  destruct d as [|[k j] [|kv d]]; [exact Hall| |].
  2: { unfold yang_of. destruct j; exact Hall. }
  cbn [dxs fmap list_fmap] in Hfuel |- *. cbn [fst snd] in Hfuel |- *.
  pose proof (json_ok_field k j _ Hok ltac:(left)) as (_ & Hx & Hj)%field_ok_spec.
  rewrite dx_list_type by done. destruct j as [t s|l|d]; unfold yang_of; [exact Hall| |exact Hall].
  - rewrite dx_set_tag by done. cbn [mbind result_bind].
    assert (Forall follows l) as Hl by (apply Forall_forall; intros; apply all_follow). inversion Hfuel as [|? ? Hd _]; subst.
    rewrite process_list_follows; [|exact Hl|done|exact Hj|by rewrite (dx_depth _ k)].
    cbn [mbind result_bind]. by rewrite add_node_contribution, append_all_element.
Qed.

End rewriting.

(** ** Error replies (netconf/nc_common/error.py) *)

(** What an error is made from: only an element has [attrib] and [nsmap]. *)
Inductive origin : Type := OElement (e : elem) | OText | ODict.

Definition TRANSPORT : nat := 0.
Definition RPC : nat := 1.
Definition PROTOCOL : nat := 2.
Definition APPLICATION : nat := 3.
Definition ERROR_TYPE_ENUM : list (nat * string) :=
  [(TRANSPORT, "transport"); (RPC, "rpc"); (PROTOCOL, "protocol"); (APPLICATION, "application")].

(** [key.replace('_', '-')] *)
Fixpoint hyphenate (s : string) : string :=
  match s with
  | "" => ""
  | String a s => String (if bool_decide (a = "_"%char) then "-"%char else a) (hyphenate s)
  end.

(** [RPCError.__init__]: the reply with the attributes of the request *)
Definition RPCError (origmsg : origin) (error_type : nat) (error_tag : string)
    (kwargs : list (string * string)) : result elem :=
  match origmsg with
  | OElement e =>
      let sub tag text := Elem (Some tag) [] [] (Some text) [] in
      let error_type := default "rpc" (od_get error_type ERROR_TYPE_ENUM) in
      Ok (Elem (Some "rpc-reply") (e_nsmap e) (e_attrib e) None
            [Elem (Some "rpc-error") [] [] None
               ([sub "error-type" error_type; sub "error-tag" error_tag] ++
                (if bool_decide (od_get "severity" kwargs = None) then [sub "error-severity" "error"] else []) ++
                ((λ kv, sub ("error-" +:+ hyphenate kv.1) kv.2) <$> kwargs))])
  | _ => Raise AttributeError
  end.
Definition BadMsg (origmsg : origin) : result elem := RPCError origmsg RPC "malformed-message" [].
Definition NotImpl (origmsg : origin) : result elem :=
  RPCError origmsg PROTOCOL "operation-not-supported" [].
Definition ServerException (origmsg : origin) (e : string) : result elem :=
  RPCError origmsg PROTOCOL "operation-failed" [("info", e)].

(** ** A conversion that has the documented form, and a concrete reply *)

Fixpoint demo_dx (k : string) (j : json) : elem :=
  match j with
  | JLeaf t s => Elem (Some k) [] [("type", type_name t)] s []
  | JList l => Elem (Some k) [] [("type", "list")] None (map (demo_dx "item") l)
  | JDict d => Elem (Some k) [] [("type", "dict")] None (map (λ kv, demo_dx kv.1 kv.2) d)
  end.
#[export] Instance demo_dicttoxml : DictToXml := {|
  dx := demo_dx;
  dicttoxml j := Elem (Some "root") [] [] None
    match j with
    | Some (JDict d) => map (λ kv, demo_dx kv.1 kv.2) d
    | Some j => [demo_dx "item" j]
    | None => [demo_dx "item" (JLeaf Null None)]
    end;
|}.
#[export] Instance demo_dicttoxml_laws : DictToXmlLaws.
Proof. split; done. Qed.

Definition demo_device (id : string) : json :=
  JDict [("id", JLeaf Str (Some id)); ("vlan", JLeaf Int (Some "101"));
         ("peers", JList [JLeaf Str (Some "p"); JLeaf Str (Some "q")])].
Definition demo_instance : list (string * json) :=
  [("version", JLeaf Str (Some "0.9"));
   ("health", JDict [("yang_field_option", JLeaf Bool (Some "True")); ("name", JLeaf Str (Some "health"));
                     ("health", JDict [("state", JLeaf Str (Some "HEALTHY"))])]);
   ("devices", JList [demo_device "a"; demo_device "b"])].

Lemma yang_reply_exact_witness :
  to_yang_xml (dicttoxml (Some (JDict demo_instance))) = Ok (yang_of demo_instance) ∧
  e_children (yang_of demo_instance) !! 1 = Some (Elem (Some "state") [] [] (Some "HEALTHY") []).
Proof. split; [apply yang_reply_exact; reflexivity | reflexivity]. Defined.

(** The answer to a request for a list is a dictionary with one field: its
    entries lose their borders, and the fields of two devices follow each other. *)
Example single_list_merges_entries :
  e_tag <$> e_children (yang_of [("items", JList [demo_device "a"; demo_device "b"])]) =
  [Some "id"; Some "vlan"; Some "peers"; Some "peers"; Some "id"; Some "vlan"; Some "peers"; Some "peers"].
Proof. reflexivity. Qed.
End RpcResponse.
