(* ===== verification/NetconfConnection.v ===== *)
(** * The NETCONF connection (netconf/session/nc_connection.py)

    Framing of messages on the SSH channel: the end-of-message marker of NETCONF
    1.0 and the chunks of 1.1, the pieces in which a message is written, and the
    queue of what was received. *)

From Stdlib Require Import Ascii.
From stdpp Require Import prelude strings list pretty.
From S2P Require Import Prelude MessageQueue.

Notation text := (list ascii).
Definition lit (s : string) : text := String.list_ascii_of_string s.
Definition newline : ascii := "010"%char.

(** ** Python's strings *)

(** [msg.split('\n')] *)
Fixpoint split_lines (msg : text) : list text :=
  match msg with
  | [] => [[]]
  | a :: msg =>
      if bool_decide (a = newline) then [] :: split_lines msg
      else match split_lines msg with
           | [] => [[a]]
           | line :: lines => (a :: line) :: lines
           end
  end.

Fixpoint starts_with (pat msg : text) : bool :=
  match pat, msg with
  | [], _ => true
  | p :: pat, a :: msg => bool_decide (p = a) && starts_with pat msg
  | _ :: _, [] => false
  end.
(** [msg.find(pat, 0)] *)
Fixpoint find_text (pat msg : text) : option nat :=
  if starts_with pat msg then Some 0
  else match msg with [] => None | _ :: msg => S <$> find_text pat msg end.
(** [str(n)] *)
Definition show (n : nat) : text := lit (pretty (N.of_nat n)).

Module NetconfConnection.

Definition DELIMITER : text := lit "]]>]]>".
Definition MAXSSHBUF : Z := 16 * 1024.

Record nc_conn : Type := mk_conn {
  c_rx : MessageQueue.mq (Msg := text);
  c_max_chunk : Z;
  c_connected : bool;
  c_exiting : bool;
  c_written : list text;            (** what was written to the transport *)
  c_lost : bool;                    (** the transport was told to close *)
}.
Definition new_conn : nc_conn := mk_conn MessageQueue.init MAXSSHBUF true false [] false.

Definition set_rx q (c : nc_conn) : nc_conn :=
  mk_conn q (c_max_chunk c) (c_connected c) (c_exiting c) (c_written c) (c_lost c).
Definition set_connected b (c : nc_conn) : nc_conn :=
  mk_conn (c_rx c) (c_max_chunk c) b (c_exiting c) (c_written c) (c_lost c).
Definition write (t : text) (c : nc_conn) : nc_conn :=
  mk_conn (c_rx c) (c_max_chunk c) (c_connected c) (c_exiting c) (c_written c ++ [t]) (c_lost c).

Definition assert_connected : M nc_conn unit :=
  c ← get_state; lift (assert_ (c_connected c)).

Definition on_rx {A} (op : M (MessageQueue.mq (Msg := text)) A) : M nc_conn A := λ c,
  let '(r, q) := op (c_rx c) in (r, set_rx q c).

Definition dataReceived (data : text) : M nc_conn unit :=
  _ ← lift (assert_ (negb (bool_decide (data = []))));
  on_rx (MessageQueue.put data).

(** [chunkit]: [range(0, sz // maxsend)] full pieces, then the rest *)
Fixpoint chunks (n : nat) (left maxsend : nat) (msg : text) : list text :=
  match n with
  | 0 => [drop left msg]
  | S n => take maxsend (drop left msg) :: chunks n (left + maxsend) maxsend msg
  end.
Definition chunkit (msg : text) (maxsend : Z) : result (list text) :=
  if bool_decide (maxsend = 0%Z) then Raise ZeroDivisionError
  else Ok (chunks (Z.to_nat (Z.of_nat (length msg) / maxsend)) 0 (Z.to_nat maxsend) msg).

(** The framed message *)
Definition frame (new_framing : bool) (msg : text) : text :=
  if new_framing
  then lit "#" ++ show (length msg) ++ [newline] ++ msg ++ [newline] ++ lit "##" ++ [newline]
  else msg ++ DELIMITER.

Fixpoint write_chunks (l : list text) : M nc_conn unit :=
  match l with
  | [] => mret tt
  | chunk :: l => _ ← modify (write (chunk ++ [newline])); write_chunks l
  end.
Definition send_msg (msg : text) (new_framing : bool) : M nc_conn unit :=
  _ ← assert_connected;
  c ← get_state;
  l ← lift (chunkit (frame new_framing msg) (c_max_chunk c - 64));
  write_chunks l.

Definition receive_10 (msg : text) : text :=
  match find_text DELIMITER msg with
  | Some eomidx => take eomidx msg
  | None => msg
  end.
(** [msg[2:(len(msg)-2)]] of the lines, joined *)
Definition receive_11 (msg : text) : option text :=
  let lines := split_lines msg in
  if bool_decide (msg = []) then None
  else if bool_decide (2 < length lines) then Some (concat (take (length lines - 2 - 2) (drop 2 lines)))
  else None.

(** [receive_msg_any], once the Deferred of [recv] has fired with [msg] *)
Definition received (new_framing : bool) (msg : text) : option text :=
  if new_framing then receive_11 msg else Some (receive_10 msg).
(** [recv(lambda _: True)]: the number of the Deferred *)
Definition recv : M nc_conn nat :=
  _ ← assert_connected;
  on_rx (MessageQueue.get (Some (λ _, true))).

Definition close_connection : M nc_conn unit :=
  modify (λ c, mk_conn (c_rx c) (c_max_chunk c) (c_connected c) true (c_written c) true).

(** ** The pieces of a message *)

Lemma chunks_concat n left k msg : concat (chunks n left k msg) = drop left msg.
Proof.
  revert left. induction n as [|n IH]; intros left; cbn [chunks concat]; [by rewrite app_nil_r|].
  rewrite IH, <- drop_drop. apply take_drop.
Qed.
Lemma chunks_length n left k msg : length (chunks n left k msg) = S n.
Proof. revert left. induction n as [|n IH]; intros left; cbn; [done|]. by rewrite IH. Qed.
Lemma chunks_size n left k msg : length (drop left msg) < (S n) * k →
  Forall (λ p, length p ≤ k) (chunks n left k msg).
Proof.
  revert left. induction n as [|n IH]; intros left Hlen; cbn [chunks].
  - constructor; [lia|constructor].
  - constructor; [rewrite length_take; lia|]. apply IH. rewrite length_drop in *. lia.
Qed.

Lemma write_chunks_eq l c : write_chunks l c =
  (Ok tt, mk_conn (c_rx c) (c_max_chunk c) (c_connected c) (c_exiting c)
            (c_written c ++ ((λ p, p ++ [newline]) <$> l)) (c_lost c)).
Proof.
  revert c. induction l as [|p l IH]; intros c.
  - cbn. rewrite app_nil_r. by destruct c.
  - cbn [write_chunks]. erewrite M_bind_eq by reflexivity. rewrite IH. cbn. by rewrite <- app_assoc.
Qed.

Lemma send_msg_eq msg b c : send_msg msg b c =
  if c_connected c then
    match chunkit (frame b msg) (c_max_chunk c - 64) with
    | Ok l => write_chunks l c
    | Raise e => (Raise e, c)
    end
  else (Raise AssertionError, c).
Proof.
  unfold send_msg, assert_connected. cbv [mbind M_bind get_state lift mret].
  destruct (c_connected c); cbn [assert_]; [|done]. by destruct (chunkit _ _).
Qed.
Lemma recv_eq c : recv c =
  if c_connected c then on_rx (MessageQueue.get (Some (λ _, true))) c else (Raise AssertionError, c).
Proof.
  unfold recv, assert_connected. cbv [mbind M_bind get_state lift]. by destruct (c_connected c).
Qed.

(** ** Lines and searching *)

Lemma split_lines_nl a b : split_lines (a ++ newline :: b) = split_lines a ++ split_lines b.
Proof.
  induction a as [|x a IH]; cbn; [done|]. case_bool_decide; [by rewrite IH|].
  rewrite IH. destruct (split_lines a) eqn:Ha; [|done].
  destruct a; cbn in Ha; repeat case_match; discriminate.
Qed.
Lemma split_lines_plain a : newline ∉ a → split_lines a = [a].
Proof.
  induction a as [|x a IH]; cbn; [done|]. rewrite not_elem_of_cons. intros [Hx Ha].
  rewrite bool_decide_false by congruence. by rewrite IH.
Qed.
Lemma split_lines_concat a : concat (split_lines a) = filter (λ x, x ≠ newline) a.
Proof.
  induction a as [|x a IH]; [done|]. cbn [split_lines]. case_bool_decide as Hx.
  - rewrite filter_cons_False by (intros []; done). done.
  - rewrite filter_cons_True by done. rewrite <- IH. by destruct (split_lines a).
Qed.

Lemma starts_with_app pat msg rest : length pat ≤ length msg →
  starts_with pat (msg ++ rest) = starts_with pat msg.
Proof.
  revert msg. induction pat as [|p pat IH]; intros [|a msg]; cbn; try done; [lia|].
  intros. by rewrite IH by lia.
Qed.
Lemma starts_with_self pat rest : starts_with pat (pat ++ rest) = true.
Proof. induction pat; cbn; [done|]. by rewrite bool_decide_true. Qed.
(** Searching for a marker behind a message: when the marker does not begin
    before the end of the message, the message ends where it is found. *)
Lemma find_text_end pat msg rest : find_text pat (msg ++ take (length pat - 1) pat) = None →
  pat ≠ [] → find_text pat (msg ++ pat ++ rest) = Some (length msg).
Proof.
  intros Hnone Hpat. revert Hnone. induction msg as [|a msg IH]; intros Hnone.
  - cbn [app]. destruct pat as [|p pat]; [done|]. cbn [app find_text].
    by rewrite app_comm_cons, starts_with_self.
  - cbn [app find_text] in Hnone |- *.
    destruct (starts_with pat (a :: msg ++ take (length pat - 1) pat)) eqn:Hs; [done|].
    assert (starts_with pat (a :: msg ++ pat ++ rest) = false) as ->.
    { rewrite <- Hs. rewrite <- (take_drop (length pat - 1) pat) at 2.
      rewrite <- (app_assoc (take _ pat)), (app_assoc msg).
      apply (starts_with_app pat (a :: msg ++ take (length pat - 1) pat)).
      cbn. rewrite length_app, length_take. lia. }
    rewrite IH; [done|]. by destruct (find_text _ _).
Qed.

Lemma digit_not_newline x : pretty_N_char x ≠ newline.
Proof. unfold pretty_N_char. repeat case_match; discriminate. Qed.
Lemma pretty_N_go_plain x s : newline ∉ lit s → newline ∉ lit (pretty_N_go x s).
Proof.
  revert s. induction (N.lt_wf_0 x) as [x _ IH]; intros s Hs.
  destruct (decide (0 < x)%N) as [Hx|Hx].
  - rewrite pretty_N_go_step by done. apply IH; [by apply N.div_lt|].
    cbn. rewrite not_elem_of_cons. split; [|done]. intros Heq. by eapply digit_not_newline.
  - replace x with 0%N by lia. by rewrite pretty_N_go_0.
Qed.
Lemma show_plain n : newline ∉ show n.
Proof.
  unfold show, pretty, pretty_N. case_decide; [cbn; by intros ?%list_elem_of_singleton|].
  apply pretty_N_go_plain. cbn. by intros ?%not_elem_of_nil.
Qed.

Lemma receive_10_frame msg rest : find_text DELIMITER (msg ++ lit "]]>]]") = None →
  receive_10 (frame false msg ++ rest) = msg.
Proof.
  intros Hnone. unfold receive_10, frame. rewrite <- app_assoc, find_text_end by done.
  by rewrite take_app_length.
Qed.

Lemma receive_11_frame msg : receive_11 (newline :: frame true msg) = Some (filter (λ x, x ≠ newline) msg).
Proof.
  unfold receive_11. rewrite bool_decide_false by done.
  set (head := lit "#" ++ show (length msg)).
  assert (newline ∉ head) as Hhead.
  { unfold head. intros [Hn|Hn]%elem_of_app; [|by eapply show_plain].
    cbn in Hn. by apply list_elem_of_singleton in Hn. }
  assert (split_lines (newline :: frame true msg) = [[]; head] ++ split_lines msg ++ [lit "##"; []]) as ->.
  { unfold frame. cbn [app]. rewrite (app_assoc (lit "#")). fold head.
    change (newline :: ?m) with ([] ++ newline :: m). rewrite !split_lines_nl.
    by rewrite (split_lines_plain head) by done. }
  rewrite !length_app. cbn [length]. rewrite bool_decide_true; [|destruct (split_lines msg); cbn; lia].
  cbn [app drop]. replace (2 + (length (split_lines msg) + 2) - 2 - 2) with (length (split_lines msg)) by lia.
  by rewrite drop_0, take_app_length, split_lines_concat.
Qed.

(** C33: sending and receiving messages.  On an open connection a message of any
    length is written in [n / k + 1] pieces of at most [k = max_chunk - 64]
    characters, each followed by a newline, which together are the framed
    message.  Read with the framing of NETCONF 1.0, the framed message gives the
    message back, whatever follows it, provided that the end marker does not
    begin inside the message; read with the framing of 1.1, after the newline
    that opens a chunk, it gives the message without its newlines. *)
Theorem framing_roundtrip (msg : text) (new_framing : bool) (c : nc_conn) :
  c_connected c = true → (64 < c_max_chunk c)%Z →
  let k := Z.to_nat (c_max_chunk c - 64) in
  (∃ pieces,
    send_msg msg new_framing c =
      (Ok tt, mk_conn (c_rx c) (c_max_chunk c) true (c_exiting c)
                (c_written c ++ ((λ p, p ++ [newline]) <$> pieces)) (c_lost c)) ∧
    concat pieces = frame new_framing msg ∧
    length pieces = length (frame new_framing msg) / k + 1 ∧
    Forall (λ p, length p ≤ k) pieces) ∧
  (find_text DELIMITER (msg ++ lit "]]>]]") = None →
   ∀ rest, received false (frame false msg ++ rest) = Some msg) ∧
  received true (newline :: frame true msg) = Some (filter (λ x, x ≠ newline) msg).
Proof.
  intros Hc Hmax k. split; [|split].
  - rewrite send_msg_eq, Hc. set (f := frame new_framing msg).
    exists (chunks (length f / k) 0 k f).
    split; [|split; [apply chunks_concat|split; [rewrite chunks_length; lia|]]].
    + unfold chunkit. rewrite bool_decide_false by lia. rewrite write_chunks_eq, Hc.
      subst k. rewrite Z2Nat.inj_div, Nat2Z.id by lia. done.
    + apply chunks_size. rewrite drop_0. pose proof (Nat.mul_succ_div_gt (length f) k ltac:(lia)). lia.
  - intros Hnone rest. unfold received. by rewrite receive_10_frame.
  - apply receive_11_frame.
Qed.

Lemma framing_roundtrip_witness :
  let msg := lit "<rpc>]]</rpc>" in
  (∃ pieces, send_msg msg false new_conn =
     (Ok tt, mk_conn MessageQueue.init MAXSSHBUF true false
               ([] ++ ((λ p, p ++ [newline]) <$> pieces)) false) ∧ concat pieces = frame false msg) ∧
  received false (frame false msg ++ [newline]) = Some msg.
Proof.
  cbv zeta. pose proof (framing_roundtrip (lit "<rpc>]]</rpc>") false new_conn eq_refl eq_refl)
    as ((pieces & Hsend & Hcat & _) & Hrecv & _).
  split; [exists pieces; split; [exact Hsend | exact Hcat] | by apply Hrecv].
Defined.

(** A message that ends like the beginning of the marker is cut short; and a long
    message carries newlines that its sender did not write. *)
Example marker_across_end : received false (frame false (lit "x]]>")) = Some (lit "x").
Proof. reflexivity. Qed.
Example long_message_broken : let c := mk_conn MessageQueue.init 70 true false [] false in
  concat (c_written (send_msg (lit "<a>hello</a>") true c).2) =
  lit "#12" ++ [newline] ++ lit "<a" ++ [newline] ++ lit ">hello" ++ [newline] ++ lit "</a>" ++
  [newline] ++ lit "#" ++ [newline] ++ lit "#" ++ [newline; newline].
Proof. reflexivity. Qed.

End NetconfConnection.
