(* ===== verification/NetconfRpc.v ===== *)
(** * NETCONF requests (netconf/nc_rpc)

    The parser of a request, the choice of a handler class, the constructors and
    the [execute] methods of the handlers, and the reply of [get].  A request is
    the dictionary the parser fills. *)

From Stdlib Require Import Ascii.
From stdpp Require Import prelude strings list.
From S2P Require Import Prelude NetconfReply NetconfConnection.
Import RpcResponse.

(** ** Python's strings, and lxml *)

Definition contains (pat s : string) : bool :=
  match find_text (lit pat) (lit s) with Some _ => true | None => false end.
(** [s.replace(pat, "")] *)
Fixpoint remove_all (fuel : nat) (pat s : text) : text :=
  match fuel with
  | 0 => s
  | S fuel =>
      match find_text pat s with
      | Some i => take i s ++ remove_all fuel pat (drop (i + length pat) s)
      | None => s
      end
  end.
Definition replace (pat s : string) : string :=
  String.string_of_list_ascii (remove_all (String.length s) (lit pat) (lit s)).

(** [node.iter()]: the element and its descendants in document order *)
Fixpoint iter (e : elem) : list elem :=
  e :: (let 'Elem _ _ _ _ l := e in flat_map iter l).

(** Parsing and printing of XML *)
Class Lxml : Type := {
  etree_parse : text → result elem;      (** the root of [etree.parse(...)] *)
  etree_tostring : elem → text;
  etree_tounicode : elem → text;
}.

Module NetconfRpc.

(** ** The request *)

Definition base : string := "{urn:ietf:params:xml:ns:netconf:base:1.0}".
Definition voltha : string := "{urn:opencord:params:xml:ns:voltha:ietf-voltha}".

Definition request : Type := list (string * option string).
Definition has_key (k : string) (r : request) : bool := bool_decide (is_Some (od_get k r)).

(** One round of [parse_xml_request]; the tag of a comment has no method [find]. *)
Definition parse_elem (r : request) (e : elem) : result request :=
  tag ← of_option AttributeError (e_tag e);
  Ok (if contains base tag then
        let elem_name := replace base tag in
        if bool_decide (elem_name = "rpc") then
          od_set "message_id" (e_get "message-id" e) (od_set "type" (Some "rpc") r)
        else if bool_decide (elem_name = "filter") then od_set "filter" (e_get "type" e) r
        else od_set "command" (Some elem_name) r
      else if contains voltha tag then
        if has_key "class" r then od_set "subclass" (Some (replace voltha tag)) r
        else od_set "class" (Some (replace voltha tag)) r
      else r).
Definition parse_xml_request (node : elem) : result request :=
  match e_children node with
  | [] => Ok []
  | _ => foldl (λ acc e, r ← acc; parse_elem r e) (Ok []) (iter node)
  end.

(** ** Handlers *)

Inductive rpc_class : Type :=
  | GetVoltha | GetConfig | Get | EditConfig | CopyConfig | DeleteConfig | Commit
  | Lock | UnLock | CloseSession | KillSession.
Definition rpc_class_handlers : list (string * rpc_class) :=
  [("getvoltha", GetVoltha); ("get-config", GetConfig); ("get", Get); ("edit-config", EditConfig);
   ("copy-config", CopyConfig); ("delete-config", DeleteConfig); ("commit", Commit); ("lock", Lock);
   ("unlock", UnLock); ("close-session", CloseSession); ("kill-session", KillSession)].

(** The registry of the factory: the first registration of a key counts. *)
Definition get_key (namespace service name : string) : string := namespace +:+ service +:+ name.
Definition register_rpc (namespace service name : string) (klass : rpc_class)
    (rpc_map : list (string * rpc_class)) : list (string * rpc_class) :=
  let key := get_key namespace service name in
  if bool_decide (key ∈ od_keys rpc_map) then rpc_map else od_set key klass rpc_map.
Definition get_handler (namespace service name : string) (rpc_map : list (string * rpc_class)) :
    option rpc_class := od_get (get_key namespace service name) rpc_map.
Definition init_rpc_map : list (string * rpc_class) :=
  register_rpc voltha "any" "any" GetVoltha
    (register_rpc voltha "VolthaGlobalService" "GetVoltha" GetVoltha []).

(** A handler: its class and its request.  [rpc_response.is_error] is never set on
    a handler that exists, because making the error object fails first. *)
Record rpc_handler : Type := mk_handler { rh_class : rpc_class; rh_request : request }.

(** [Get._validate_parameters]: an error is made from a text, and then, in the
    handler of the exception that this raises, from the request. *)
Definition get_validate (r : request) : result unit :=
  if bool_decide (r = []) then Ok tt
  else
    let checks : result unit :=
      command ← of_option KeyError (od_get "command" r);
      _ ← (if bool_decide (command ≠ Some "get") then _ ← BadMsg OText; Ok tt else Ok tt);
      if has_key "filter" r && negb (has_key "class" r) then _ ← BadMsg OText; Ok tt else Ok tt in
    match checks with
    | Ok _ => Ok tt
    | Raise _ => _ ← BadMsg ODict; Ok tt
    end.
(** The constructors.  Three of them read [self.rpc_method], which nothing sets;
    that of [UnLock] has one parameter more than it is given. *)
Definition construct (klass : rpc_class) (r : request) : result rpc_handler :=
  match klass with
  | Get => _ ← get_validate r; Ok (mk_handler Get r)
  | GetVoltha | GetConfig | CloseSession => Raise AttributeError
  | UnLock => Raise TypeError
  | _ => Ok (mk_handler klass r)
  end.

(** Every exception on the way becomes [ncerror.BadMsg]. *)
Definition get_rpc_handler (rpc_node : elem) : result (option rpc_handler) :=
  let attempt : result (option rpc_handler) :=
    r ← parse_xml_request rpc_node;
    if bool_decide (r = []) then _ ← BadMsg (OElement rpc_node); Raise NcBadMsg
    else if negb (has_key "message_id" r) || negb (has_key "command" r)
    then _ ← BadMsg (OElement rpc_node); Raise NcBadMsg
    else
      command ← of_option KeyError (od_get "command" r);
      match command ≫= λ c, od_get c rpc_class_handlers with
      | Some class_handler => h ← construct class_handler r; Ok (Some h)
      | None => Ok None
      end in
  match attempt with
  | Ok h => Ok h
  | Raise _ => _ ← BadMsg (OElement rpc_node); Raise NcBadMsg
  end.

(** ** [Get] *)

Definition rpc_request_mapping : list (string * list (option string * string)) :=
  [("Voltha", [(None, "VolthaGlobalService-GetVoltha")]);
   ("VolthaInstance",
     [(None, "VolthaLocalService-GetVolthaInstance");
      (Some "health", "VolthaLocalService-GetHealth");
      (Some "adapters", "VolthaLocalService-ListAdapters");
      (Some "logical_devices", "VolthaLocalService-ListLogicalDevices");
      (Some "devices", "VolthaLocalService-ListDevices");
      (Some "device_types", "VolthaLocalService-ListDeviceTypes");
      (Some "device_groups", "VolthaLocalService-ListDeviceGroups")]);
   ("VolthaInstances", [(None, "VolthaGlobalService-ListVolthaInstances")])].

Definition get_voltha_rpc (r : request) : option string :=
  klass ← od_get "class" r;
  rpcs ← klass ≫= λ c, od_get c rpc_request_mapping;
  match od_get "subclass" r with
  | Some subclass =>
      match find_index (λ rpc : option string * string,
              bool_decide (is_Some rpc.1) && bool_decide (subclass = rpc.1)) rpcs with
      | Some (_, rpc) => Some rpc.2
      | None => snd ∘ snd <$> find_index (λ rpc : option string * string, bool_decide (rpc.1 = None)) rpcs
      end
  | None => snd ∘ snd <$> find_index (λ rpc : option string * string, bool_decide (rpc.1 = None)) rpcs
  end.

(** What [execute] does: it returns something (or nothing), or it waits for the
    answer of a gRPC call. *)
Record response : Type := mk_response { r_node : elem; r_close_session : bool }.
Inductive outcome : Type := Returned (r : option response) | Calls (rpc : string).
Definition execute (h : rpc_handler) : result outcome :=
  match rh_class h with
  | Get =>
      match get_voltha_rpc (rh_request h) with
      | Some rpc => Ok (Calls rpc)
      | None => _ ← BadMsg ODict; Ok (Returned None)
      end
  | CloseSession => Ok (Returned (Some (mk_response (element "ok") false)))
  | KillSession => Raise AttributeError
  | GetVoltha => Raise AttributeError
  | _ => Ok (Returned None)
  end.

(** ** The reply of [get] *)
Section reply.
Context `{!Lxml, !DictToXml}.

Definition strip_yang (s : text) : text :=
  if starts_with (lit "<yang>") s then
    let s := drop 6 s in
    if starts_with (lit ">gnay/<") (reverse s) then take (length s - 7) s else s
  else s.
Definition item (k : string) (r : request) : result text :=
  v ← of_option KeyError (od_get k r); lit <$> of_option TypeError v.
Definition build_xml_response (r : request) (voltha_response : elem) : result elem :=
  let content := strip_yang (etree_tostring voltha_response) in
  klass ← item "class" r;
  content ← (if has_key "subclass" r then
               sub ← item "subclass" r;
               Ok (lit "<" ++ sub ++ lit ">" ++ content ++ lit "</" ++ sub ++ lit ">")
             else Ok content);
  etree_parse (lit "<data><" ++ klass ++ lit " xmlns=" ++ ["034"%char] ++
               lit "urn:opencord:params:xml:ns:voltha:ietf-voltha" ++ ["034"%char] ++ lit ">" ++
               content ++ lit "</" ++ klass ++ lit "></data>").
(** The handler of the exceptions refers to an attribute that does not exist. *)
Definition build_yang_response (root : elem) (r : request) : result elem :=
  match yang ← to_yang_xml root; build_xml_response r yang with
  | Ok node => Ok node
  | Raise OutOfFuel => Raise OutOfFuel
  | Raise _ => Raise AttributeError
  end.
(** [Get.execute] once [invoke_voltha_api] has answered; a failed call answers
    with nothing. *)
Definition get_response (res_dict : option json) (r : request) : result response :=
  node ← build_yang_response (dicttoxml res_dict) r; Ok (mk_response node false).
End reply.

(** *** Running out of fuel is not an outcome *)

(** A parser raises exceptions of the program only. *)
Class LxmlLaws `{!Lxml} : Prop := { etree_parse_ends m : etree_parse m ≠ Raise OutOfFuel }.

Lemma set_tag_depth t e e' : set_tag t e = Ok e' → depth e' = depth e.
Proof. destruct e as [[]]; [|done]. by intros [= <-]. Qed.

Lemma process_element_ends fuel e : depth e ≤ fuel → process_element fuel e ≠ Raise OutOfFuel.
Proof.
  revert e. induction fuel as [|fuel IH]; intros e Hd; [destruct e; cbn in Hd; lia|].
  apply depth_le in Hd. cbn [process_element].
  assert (∀ new c, depth c ≤ fuel → take_child (process_element fuel) new c ≠ Raise OutOfFuel) as Htake.
  { intros new c Hc. specialize (IH c Hc). unfold take_child, copy_basic_element.
    destruct (nested c); [by destruct (process_element fuel c)|by destruct (e_tag c)]. }
  assert (∀ l acc, acc ≠ Raise OutOfFuel → Forall (λ c, depth c ≤ fuel) l →
    foldl (λ acc elm, new ← acc; take_child (process_element fuel) new elm) acc l ≠ Raise OutOfFuel) as Hfields.
  { intros l. induction l as [|c l IHl]; intros acc Hacc Hl; [done|]. inversion Hl; subst. cbn [foldl].
    apply IHl; [|done]. destruct acc; [|done]. by apply Htake. }
  assert (∀ t l acc, acc ≠ Raise OutOfFuel → Forall (λ c, depth c ≤ fuel) l →
    foldl (λ acc elm, new ← acc; elm ← set_tag t elm; take_child (process_element fuel) new elm) acc l
      ≠ Raise OutOfFuel) as Hitems.
  { intros t l. induction l as [|c l IHl]; intros acc Hacc Hl; [done|]. inversion Hl; subst. cbn [foldl].
    apply IHl; [|done]. destruct acc; [|done]. cbn [mbind result_bind].
    destruct (set_tag t c) as [c'|e'] eqn:Hc; [|by destruct c as [[]]; simplify_eq/=].
    apply Htake. by rewrite (set_tag_depth _ _ _ Hc). }
  assert (copy_basic_element e ≠ Raise OutOfFuel) as Hcopy
    by (unfold copy_basic_element; by destruct (e_tag e)).
  assert (∀ r, process_inline_option e = r →
    match r with Ok p => Forall (λ c, depth c ≤ fuel) (e_children p.2) | Raise e' => e' ≠ OutOfFuel end) as Hin.
  { intros r <-. unfold process_inline_option. destruct (inline_scan _) as [[] n]; cbn [negb].
    - destruct (find_index _ _) as [[i c]|] eqn:Hf; [|done].
      apply find_index_Some in Hf as (Hc & _ & _). rewrite Forall_forall in Hd.
      cbn [snd]. apply depth_le. apply list_elem_of_lookup_2, Hd in Hc. lia.
    - by destruct (e_tag e). }
  destruct (e_get "type" e) as [ty|]; [|done].
  destruct (decide (ty = "list")) as [->|Hl].
  - destruct (e_tag e) as [t|]; [|done]. by apply Hitems.
  - destruct (decide (ty = "dict")) as [->|Hdict].
    + destruct (process_inline_option e) as [[new e']|e'] eqn:Hp; specialize (Hin _ eq_refl).
      * by apply Hfields.
      * cbn. congruence.
    + repeat case_match; done.
Qed.


Lemma to_yang_xml_ends e : to_yang_xml e ≠ Raise OutOfFuel.
Proof.
  unfold to_yang_xml. set (fuel := depth e).
  assert (Forall (λ c, depth c ≤ fuel) (e_children e)) as Hd.
  { destruct e as [t a s l]. unfold fuel. cbn [depth e_children]. apply depth_children. lia. }
  assert (∀ l acc, acc ≠ Raise OutOfFuel → Forall (λ c, depth c ≤ fuel) l →
    foldl (λ acc elm, top ← acc; node ← process_element fuel elm; Ok (add_node node top)) acc l
      ≠ Raise OutOfFuel) as Hall.
  { intros l. induction l as [|c l IHl]; intros acc Hacc Hl; [done|]. inversion Hl; subst. cbn [foldl].
    apply IHl; [|done]. destruct acc; [|done]. cbn [mbind result_bind].
    pose proof (process_element_ends fuel c ltac:(done)). by destruct (process_element fuel c). }
  destruct (e_children e) as [|c [|c' l]]; [done| |by apply Hall].
  case_bool_decide; [|by apply Hall]. inversion Hd; subst.
  destruct (set_tag "ignore" c) as [c'|e'] eqn:Hc; [|by destruct c as [[]]; simplify_eq/=].
  cbn [mbind result_bind]. pose proof (process_element_ends fuel c') as Hp.
  rewrite (set_tag_depth _ _ _ Hc) in Hp. specialize (Hp ltac:(done)).
  by destruct (process_element fuel c').
Qed.

Section ends.
Context `{!Lxml, !LxmlLaws, !DictToXml}.
Lemma get_response_ends a r : get_response a r ≠ Raise OutOfFuel.
Proof.
  unfold get_response, build_yang_response. pose proof (to_yang_xml_ends (dicttoxml a)) as Ht.
  destruct (to_yang_xml (dicttoxml a)) as [yang|e]; cbn [mbind result_bind]; [|by destruct e].
  assert (build_xml_response r yang ≠ Raise OutOfFuel) as Hb.
  { unfold build_xml_response, item. destruct (od_get "class" r) as [[c|]|]; cbn; [|done|done].
    destruct (has_key "subclass" r); [|apply etree_parse_ends].
    destruct (od_get "subclass" r) as [[sub|]|]; cbn; [apply etree_parse_ends|done|done]. }
  by destruct (build_xml_response r yang) as [n|[]].
Qed.
Lemma get_rpc_handler_ends rpc : get_rpc_handler rpc ≠ Raise OutOfFuel.
Proof. unfold get_rpc_handler. by case_match. Qed.
Lemma execute_ends h : execute h ≠ Raise OutOfFuel.
Proof. unfold execute. by repeat case_match. Qed.
End ends.

End NetconfRpc.
