(* ===== verification/NetconfServer.v ===== *)
(** * The NETCONF server (netconf/nc_server.py, netconf/session)

    Sessions and their manager, and the protocol handler of a connection.  The
    generator [start] is cut at its [yield]s: [h_pc] says for what it waits, and
    an event resumes it.  The events of all connections interleave over one
    session manager. *)

From Stdlib Require Import Ascii.
From stdpp Require Import prelude strings list gmap.
From S2P Require Import Prelude MessageQueue NetconfReply NetconfConnection NetconfRpc.
Import RpcResponse NetconfConnection NetconfRpc.

Module NetconfServer.

(** ** Sessions (session.py, session_mgr.py) *)

Record session : Type := mk_session { s_id : nat; s_user : string; s_opened : bool }.
(** The dictionary of the sessions by id, and what [remove_session] logged: an id
    it removed, or one it did not find. *)
Record session_mgr : Type := mk_mgr {
  m_next : nat;
  m_sessions : list (nat * string);
  m_removed : list nat;
  m_invalid : list nat;
}.
Definition new_mgr : session_mgr := mk_mgr 1 [] [] [].
Definition create_session (user : string) : M session_mgr session := λ m,
  (Ok (mk_session (m_next m) user false),
   mk_mgr (S (m_next m)) (od_set (m_next m) user (m_sessions m)) (m_removed m) (m_invalid m)).
Definition remove_session (s : session) : M session_mgr unit := λ m,
  (Ok tt,
   if bool_decide (s_id s ∈ od_keys (m_sessions m))
   then mk_mgr (m_next m) (od_del (s_id s) (m_sessions m)) (m_removed m ++ [s_id s]) (m_invalid m)
   else mk_mgr (m_next m) (m_sessions m) (m_removed m) (m_invalid m ++ [s_id s])).

(** ** The protocol handler (nc_protocol_handler.py) *)

Definition NETCONF_BASE_10 : string := "urn:ietf:params:netconf:base:1.0".
Definition NETCONF_BASE_11 : string := "urn:ietf:params:netconf:base:1.1".
Definition server_caps : list string :=
  [NETCONF_BASE_10; NETCONF_BASE_11;
   "urn:ietf:params:netconf:capability:writable-running:1.0";
   "urn:opencord:params:xml:ns:voltha:ietf-voltha";
   "urn:opencord:params:xml:ns:voltha:ietf-openflow_13";
   "urn:opencord:params:xml:ns:voltha:ietf-meta";
   "urn:opencord:params:xml:ns:voltha:ietf-logical_device";
   "urn:opencord:params:xml:ns:voltha:ietf-health";
   "urn:opencord:params:xml:ns:voltha:ietf-device";
   "urn:opencord:params:xml:ns:voltha:ietf-empty";
   "urn:opencord:params:xml:ns:voltha:ietf-common";
   "urn:opencord:params:xml:ns:voltha:ietf-any";
   "urn:opencord:params:xml:ns:voltha:ietf-adapter"].

(** For what the generator [start] waits: to be called, for the Deferred of a
    received message, for the answer of a gRPC call in the middle of a list of
    requests; or it has returned. *)
Inductive pc : Type :=
  | NotStarted | AwaitHello (d : nat) | AwaitRequest (d : nat)
  | AwaitApi (rpc : elem) (rest : list elem) (r : request) (key : string)
  | Finished.

Record handler : Type := mk_h {
  h_new_framing : bool;
  h_client_caps : gset (option string);
  h_session : session;
  h_exiting : bool;
  h_fired : bool;                   (** the Deferred [self.connected] *)
  h_pc : pc;
}.
(** One connection, its handler, and the session manager it shares *)
Record client : Type := mk_client { k_conn : nc_conn; k_h : handler; k_mgr : session_mgr }.

Definition set_h (f : handler → handler) : M client unit :=
  modify (λ s, mk_client (k_conn s) (f (k_h s)) (k_mgr s)).
Definition set_framing b := set_h (λ h, mk_h b (h_client_caps h) (h_session h) (h_exiting h) (h_fired h) (h_pc h)).
Definition add_client_capability c := set_h (λ h,
  mk_h (h_new_framing h) ({[c]} ∪ h_client_caps h) (h_session h) (h_exiting h) (h_fired h) (h_pc h)).
Definition set_opened b := set_h (λ h,
  mk_h (h_new_framing h) (h_client_caps h) (mk_session (s_id (h_session h)) (s_user (h_session h)) b)
       (h_exiting h) (h_fired h) (h_pc h)).
Definition set_exiting := set_h (λ h,
  mk_h (h_new_framing h) (h_client_caps h) (h_session h) true (h_fired h) (h_pc h)).
Definition set_fired := set_h (λ h,
  mk_h (h_new_framing h) (h_client_caps h) (h_session h) (h_exiting h) true (h_pc h)).
Definition set_pc p := set_h (λ h,
  mk_h (h_new_framing h) (h_client_caps h) (h_session h) (h_exiting h) (h_fired h) p).
Definition opened (s : client) : bool := s_opened (h_session (k_h s)).

Definition on_conn {A} (op : M nc_conn A) : M client A := λ s,
  let '(r, c) := op (k_conn s) in (r, mk_client c (k_h s) (k_mgr s)).
Definition on_mgr {A} (op : M session_mgr A) : M client A := λ s,
  let '(r, m) := op (k_mgr s) in (r, mk_client (k_conn s) (k_h s) m).

(** [try: m  except Exception as e: h e]; running out of fuel is not an
    exception of the program. *)
Definition try_except {A} (m : M client A) (h : exn → M client A) : M client A := λ s,
  match m s with
  | (Ok a, s') => (Ok a, s')
  | (Raise OutOfFuel, s') => (Raise OutOfFuel, s')
  | (Raise e, s') => h e s'
  end.

(** [close] and [stop]: the same steps.  Firing [self.connected] calls
    [client_disconnected], which calls [close]: the fuel is for that call. *)
Fixpoint close_ (fuel : nat) : M client unit :=
  s ← get_state;
  if h_exiting (k_h s) then mret tt
  else
    _ ← set_exiting;
    _ ← (if opened s then on_conn close_connection else mret tt);
    _ ← on_mgr (remove_session (h_session (k_h s)));
    _ ← set_opened false;
    s ← get_state;
    if h_fired (k_h s) then raise AlreadyCalledError
    else
      _ ← set_fired;
      match fuel with 0 => raise OutOfFuel | S fuel => close_ fuel end.
Definition close : M client unit := close_ 1.
Definition stop : M client unit := close_ 1.

Section protocol.
Context `{!Lxml, !DictToXml}.

Definition XML_HEADER : text :=
  let q := ["034"%char] in
  lit "<?xml version=" ++ q ++ lit "1.0" ++ q ++ lit " encoding=" ++ q ++ lit "utf-8" ++ q ++ lit "?>".
Definition send_message (msg : text) : M client unit :=
  s ← get_state; on_conn (send_msg (XML_HEADER ++ msg) (h_new_framing (k_h s))).

Definition hello (s : session) : elem :=
  Elem (Some "hello") [] [("xmlns", "urn:ietf:params:xml:ns:netconf:base:1.0")] None
    [Elem (Some "capabilities") [] [] None ((λ c, Elem (Some "capability") [] [] (Some c) []) <$> server_caps);
     Elem (Some "session-id") [] [] (Some (String.string_of_list_ascii (show (s_id s)))) []].
Definition send_hello : M client unit :=
  s ← get_state; send_message (etree_tostring (hello (h_session (k_h s)))).

(** [send_rpc_reply]: the reply carries the attributes and the namespaces of the
    request *)
Definition rpc_reply (node rpc : elem) : elem :=
  Elem (Some (base +:+ "rpc-reply")) (e_nsmap rpc) (e_attrib rpc) None [node].
Definition send_rpc_reply (node rpc : elem) : M client unit :=
  send_message (etree_tounicode (rpc_reply node rpc)).

Definition set_framing_version : M client unit :=
  s ← get_state;
  if bool_decide (Some NETCONF_BASE_11 ∈ h_client_caps (k_h s)) then set_framing true
  else if bool_decide (Some NETCONF_BASE_10 ∈ h_client_caps (k_h s)) then mret tt
  else raise NameError.

(** ** Requests *)

(** [err.get_reply_msg()]: the errors have a method [get_xml_reply] only *)
Definition get_reply_msg : M client unit := raise AttributeError.

(** The [except] clauses around a request *)
Definition on_rpc_error (rpc : elem) (e : exn) : M client unit :=
  match e with
  | NcBadMsg => s ← get_state; if h_new_framing (k_h s) then get_reply_msg else close
  | NcNotImpl => get_reply_msg
  | _ => _ ← lift (ServerException (OElement rpc) "exception"); get_reply_msg
  end.

Definition reply (r : response) (rpc : elem) : M client unit :=
  _ ← send_rpc_reply (r_node r) rpc;
  if r_close_session r then close else mret tt.

(** The loop over the requests of a message; [false] when it waits for a call *)
Fixpoint handle_rpcs (rpcs : list elem) : M client bool :=
  match rpcs with
  | [] => mret true
  | rpc :: rest =>
      done ← try_except
        (h ← lift (get_rpc_handler rpc);
         match h with
         | None => _ ← lift (NotImpl OText); raise NcNotImpl
         | Some h =>
             o ← lift (execute h);
             match o with
             | Calls key => _ ← set_pc (AwaitApi rpc rest (rh_request h) key); mret false
             | Returned None => raise AttributeError
             | Returned (Some r) => _ ← reply r rpc; mret true
             end
         end)
        (λ e, _ ← on_rpc_error rpc e; mret true);
      if done : bool then handle_rpcs rest else mret false
  end.

(** [tree.xpath("/nc:rpc")]: the root, when it is such an element *)
Definition rpcs_of (root : elem) : list elem :=
  if bool_decide (e_tag root = Some (base +:+ "rpc")) then [root] else [].

Definition malformed : M client bool :=
  _ ← try_except (_ ← lift (BadMsg OText); get_reply_msg)
        (λ e, if bool_decide (e = AttributeError) then close else raise e);
  mret true.

Definition handle_request (msg : option text) : M client bool :=
  s ← get_state;
  if negb (opened s) then mret true
  else
    msg ← lift (of_option AttributeError msg);
    match etree_parse msg with
    | Raise XMLSyntaxError => malformed
    | Raise e => raise e
    | Ok root =>
        match rpcs_of root with
        | [] => raise NcSessionError
        | rpcs => handle_rpcs rpcs
        end
    end.

(** ** The generator *)

(** The message a Deferred of the queue fired with *)
Definition fired_with (d : nat) (s : client) : option text :=
  match od_get d (MessageQueue.mq_fired (c_rx (k_conn s))) with
  | Some (MessageQueue.Callback m) => Some m
  | _ => None
  end.

(** The loop of [start]; messages that are queued already are taken at once *)
Fixpoint loop (fuel : nat) : M client unit :=
  s ← get_state;
  if negb (opened s) then set_pc Finished
  else
    d ← on_conn recv;
    s ← get_state;
    match fired_with d s with
    | None => set_pc (AwaitRequest d)
    | Some m =>
        match fuel with
        | 0 => raise OutOfFuel
        | S fuel =>
            done ← handle_request (received (h_new_framing (k_h s)) m);
            if done : bool then loop fuel else mret tt
        end
    end.
Definition run_loop : M client unit := λ s,
  loop (length (MessageQueue.mq_queue (c_rx (k_conn s)))) s.

(** The [try] of [start] *)
Definition guarded (m : M client unit) : M client unit :=
  try_except m (λ e, _ ← stop; set_pc Finished).
(** The [try] of [open_session] *)
Definition opening (m : M client unit) : M client unit :=
  try_except m (λ e, _ ← stop; raise e).

(** [root.xpath("//nc:hello/nc:capabilities/nc:capability")] *)
Definition tag_is (name : string) (e : elem) : bool := bool_decide (e_tag e = Some (base +:+ name)).
Definition capabilities_of (root : elem) : list elem :=
  h ← List.filter (tag_is "hello") (iter root);
  c ← List.filter (tag_is "capabilities") (e_children h);
  List.filter (tag_is "capability") (e_children c).
Fixpoint add_capabilities (l : list elem) : M client unit :=
  match l with
  | [] => mret tt
  | cap :: l => _ ← add_client_capability (e_text cap); add_capabilities l
  end.

Definition hello_received (reply : option text) : M client unit :=
  reply ← lift (of_option AttributeError reply);
  root ← lift (etree_parse reply);
  _ ← add_capabilities (capabilities_of root);
  _ ← set_framing_version;
  set_opened true.

Definition resume_hello (m : text) : M client unit :=
  guarded (s ← get_state;
           _ ← opening (hello_received (received (h_new_framing (k_h s)) m)); run_loop).
(** The first part, up to the reply of the client *)
Definition start : M client unit :=
  guarded
    (w ← try_except
           (_ ← send_hello;
            d ← on_conn recv;
            s ← get_state;
            match fired_with d s with
            | None => _ ← set_pc (AwaitHello d); mret false
            | Some m => _ ← hello_received (received (h_new_framing (k_h s)) m); mret true
            end)
           (λ e, _ ← stop; raise e);
     if w : bool then run_loop else mret tt).

Definition resume_request (m : text) : M client unit :=
  guarded (s ← get_state;
           done ← handle_request (received (h_new_framing (k_h s)) m);
           if done : bool then run_loop else mret tt).

Definition resume_api (res_dict : option json) (rpc : elem) (rest : list elem) (r : request) : M client unit :=
  guarded (_ ← try_except (resp ← lift (get_response res_dict r); reply resp rpc) (on_rpc_error rpc);
           done ← handle_rpcs rest;
           if done : bool then run_loop else mret tt).

(** ** Events of a connection *)

Definition connectionLost : M client unit :=
  _ ← on_conn (modify (set_connected false));
  s ← get_state;
  if c_exiting (k_conn s) then mret tt else stop.

(** Data arrive; a Deferred that fires resumes the generator at once. *)
Definition data_arrives (data : text) : M client unit :=
  _ ← on_conn (dataReceived data);
  s ← get_state;
  match h_pc (k_h s) with
  | AwaitHello d => match fired_with d s with Some m => resume_hello m | None => mret tt end
  | AwaitRequest d => match fired_with d s with Some m => resume_request m | None => mret tt end
  | _ => mret tt
  end.

Inductive event : Type :=
  | Start                              (** [reactor.callLater(0, handler.start)] *)
  | Data (data : text)
  | Answer (res_dict : option json)    (** [invoke_voltha_api] answers *)
  | Lost
  | Ended.                             (** [processEnded] *)
(** What can happen to a connection *)
Definition enabled (e : event) (s : client) : bool :=
  match e with
  | Start => match h_pc (k_h s) with NotStarted => true | _ => false end
  | Data data => negb (bool_decide (data = [])) && c_connected (k_conn s)
  | Answer _ => match h_pc (k_h s) with AwaitApi _ _ _ _ => true | _ => false end
  | Lost | Ended => c_connected (k_conn s)
  end.
Definition run_event (e : event) : M client unit :=
  s ← get_state;
  match e with
  | Start => start
  | Data data => data_arrives data
  | Answer a =>
      match h_pc (k_h s) with AwaitApi rpc rest r _ => resume_api a rpc rest r | _ => mret tt end
  | Lost => connectionLost
  | Ended => on_conn (modify (set_connected false))
  end.

(** ** The server (nc_server.py) *)

Record server : Type := mk_server {
  sv_mgr : session_mgr;
  sv_clients : list (nc_conn * handler);
}.
Definition new_server : server := mk_server new_mgr [].

Definition new_handler (s : session) : handler := mk_h false ∅ s false false NotStarted.
Definition client_connected (user : string) : M server unit := λ v,
  match create_session user (sv_mgr v) with
  | (Ok s, m) => (Ok tt, mk_server m (sv_clients v ++ [(new_conn, new_handler s)]))
  | (Raise e, m) => (Raise e, mk_server m (sv_clients v))
  end.
Definition on_client (i : nat) (op : M client unit) : M server unit := λ v,
  match sv_clients v !! i with
  | None => (Raise IndexError, v)
  | Some (c, h) =>
      let '(r, s) := op (mk_client c h (sv_mgr v)) in
      (r, mk_server (k_mgr s) (<[i := (k_conn s, k_h s)]> (sv_clients v)))
  end.

Inductive step : server → result unit → server → Prop :=
  | step_connect user v r v' : client_connected user v = (r, v') → step v r v'
  | step_event i e v c h r v' :
      sv_clients v !! i = Some (c, h) →
      enabled e (mk_client c h (sv_mgr v)) = true →
      on_client i (run_event e) v = (r, v') →
      step v r v'.
Inductive reachable : server → Prop :=
  | reachable_new : reachable new_server
  | reachable_step v r v' : reachable v → step v r v' → reachable v'.

End protocol.
End NetconfServer.
