(* ===== verification/NetconfSpec.v ===== *)
(** * What the NETCONF server guarantees

    An invariant of the sessions over all interleavings of the events of all
    connections, and the outcome of every request. *)

From Stdlib Require Import Ascii.
From stdpp Require Import prelude strings list gmap.
From S2P Require Import Prelude MessageQueue NetconfReply NetconfConnection NetconfRpc NetconfServer.
Import RpcResponse NetconfConnection NetconfRpc NetconfServer.

Module NetconfSpec.

(** ** One connection *)

Definition exiting (s : client) : bool := h_exiting (k_h s).
Definition sid (s : client) : nat := s_id (h_session (k_h s)).
Definition queue_length (s : client) : nat := length (MessageQueue.mq_queue (c_rx (k_conn s))).

(** The queue of received messages is in order, the Deferred of the handler fired
    when it stopped, a stopped session is not open, and one that was not stopped
    is in the dictionary. *)
Record client_ok (s : client) : Prop := {
  co_rx : MessageQueue.ok (c_rx (k_conn s));
  co_fired : h_fired (k_h s) = exiting s;
  co_closed : exiting s = true → opened s = false;
  co_known : exiting s = false → sid s ∈ od_keys (m_sessions (k_mgr s));
}.

(** What an operation may do to the manager: nothing, or remove the session of a
    handler that stops. *)
Definition kept (s s' : client) : Prop := exiting s' = exiting s ∧ k_mgr s' = k_mgr s.
Definition stopped (s s' : client) : Prop :=
  exiting s = false ∧ exiting s' = true ∧
  k_mgr s' = mk_mgr (m_next (k_mgr s)) (od_del (sid s) (m_sessions (k_mgr s)))
                    (m_removed (k_mgr s) ++ [sid s]) (m_invalid (k_mgr s)).
Definition evolves (s s' : client) : Prop :=
  sid s' = sid s ∧ queue_length s' ≤ queue_length s ∧ (kept s s' ∨ stopped s s').

#[local] Instance evolves_preorder : PreOrder evolves.
Proof.
  split.
  - intros s. split; [done|]. split; [done|]. by left.
  - intros s1 s2 s3 (Hid1 & Hq1 & H1) (Hid2 & Hq2 & H2). split; [congruence|]. split; [lia|].
    unfold kept, stopped in *. destruct H1 as [[He1 Hm1]|(He1 & He1' & Hm1)], H2 as [[He2 Hm2]|(He2 & He2' & Hm2)].
    + left. split; congruence.
    + right. rewrite <- Hid1, <- Hm1. split_and!; [congruence|done|done].
    + right. split_and!; [done|congruence|congruence].
    + congruence.
Qed.

(** [safe P m]: from a state in order that satisfies [P], [m] ends (normally or
    with an exception of the program) in a state in order. *)
Definition safe {A} (P : client → Prop) (m : M client A) : Prop := ∀ s,
  client_ok s → P s → (m s).1 ≠ Raise OutOfFuel ∧ client_ok (m s).2 ∧ evolves s (m s).2.
Notation always := (λ _ : client, True).

Create HintDb netconf.

Lemma safe_ret {A} P (a : A) : safe P (mret a).
Proof. intros s Hs _. split_and!; [done|done|]. cbn. reflexivity. Qed.
Lemma safe_lift {A} P (r : result A) : r ≠ Raise OutOfFuel → safe P (lift r).
Proof. intros Hr s Hs _. split_and!; [done|done|]. cbn. reflexivity. Qed.
Lemma safe_raise {A} P e : e ≠ OutOfFuel → safe P (raise (A := A) e).
Proof. intros He s Hs _. split_and!; [cbn; congruence|done|]. cbn. reflexivity. Qed.
Lemma safe_get_state {A} P (f : client → M client A) :
  (∀ s0, safe (λ s, s = s0 ∧ P s) (f s0)) → safe P (get_state ≫= f).
Proof. intros Hf s Hs HP. by apply (Hf s s). Qed.
Lemma safe_bind {A B} P (m : M client A) (f : A → M client B) :
  safe P m → (∀ a, safe always (f a)) → safe P (m ≫= f).
Proof.
  intros Hm Hf s Hs HP. unfold mbind, M_bind. specialize (Hm s Hs HP).
  destruct (m s) as [[a|e] s']; cbn [fst snd] in Hm; destruct Hm as (Hr & Hs' & He).
  - destruct (Hf a s' Hs' I) as (Hr' & Hs'' & He'). split_and!; [done|done|]. by etransitivity.
  - split_and!; [cbn; congruence|done|done].
Qed.
Lemma safe_weaken {A} (P Q : client → Prop) (m : M client A) :
  (∀ s, P s → Q s) → safe Q m → safe P m.
Proof. intros HPQ Hm s Hs HP. by apply Hm, HPQ. Qed.
Lemma safe_always {A} P (m : M client A) : safe always m → safe P m.
Proof. by apply safe_weaken. Qed.
Lemma safe_try {A} P (m : M client A) h :
  safe P m → (∀ e, e ≠ OutOfFuel → safe always (h e)) → safe P (try_except m h).
Proof.
  intros Hm Hh s Hs HP. unfold try_except. specialize (Hm s Hs HP).
  destruct (m s) as [[a|e] s']; cbn [fst snd] in Hm; destruct Hm as (Hr & Hs' & He).
  - by split_and!.
  - destruct (Hh e ltac:(congruence) s' Hs' I) as (Hr' & Hs'' & He').
    destruct e; try done; (split_and!; [done|done|]; by etransitivity).
Qed.
#[local] Hint Resolve safe_ret safe_lift safe_raise safe_try : netconf.

(** Changes of the handler that keep its session's id and the two flags *)
Lemma safe_set_h P f : (∀ h, s_id (h_session (f h)) = s_id (h_session h)) →
  (∀ h, h_exiting (f h) = h_exiting h) → (∀ h, h_fired (f h) = h_fired h) →
  (∀ s, P s → client_ok s → exiting s = true → s_opened (h_session (f (k_h s))) = false) →
  safe P (set_h f).
Proof.
  intros Hid Hex Hfi Hop s Hs HP. pose proof Hs as [Hrx Hfired Hclosed Hknown].
  unfold set_h, modify. cbn [fst snd]. split_and!; [done| |].
  - split; cbn; unfold exiting, sid in *; cbn; rewrite ?Hid, ?Hex, ?Hfi; try done.
    intros He. by apply Hop.
  - split; [apply Hid|]. split; [done|]. left. split; [apply Hex|done].
Qed.

Lemma safe_conn {A} P (op : M nc_conn A) :
  (∀ c, MessageQueue.ok (c_rx c) → (op c).1 ≠ Raise OutOfFuel ∧ MessageQueue.ok (c_rx (op c).2) ∧
     length (MessageQueue.mq_queue (c_rx (op c).2)) ≤ length (MessageQueue.mq_queue (c_rx c))) →
  safe P (on_conn op).
Proof.
  intros Hop s [Hrx Hfired Hclosed Hknown] _. unfold on_conn. specialize (Hop _ Hrx).
  destruct (op (k_conn s)) as [r c]. cbn in Hop |- *. split_and!; [by destruct Hop| |].
  - by split; [apply Hop| | |].
  - split; [done|]. split; [apply Hop|]. by left.
Qed.

(** ** Stopping *)

Definition closed_conn (s : client) : nc_conn :=
  if opened s then (close_connection (k_conn s)).2 else k_conn s.
Definition closed (s : client) : client :=
  mk_client (closed_conn s)
    (mk_h (h_new_framing (k_h s)) (h_client_caps (k_h s))
          (mk_session (sid s) (s_user (h_session (k_h s))) false) true true (h_pc (k_h s)))
    (mk_mgr (m_next (k_mgr s)) (od_del (sid s) (m_sessions (k_mgr s)))
            (m_removed (k_mgr s) ++ [sid s]) (m_invalid (k_mgr s))).

Lemma close_exiting fuel s : h_exiting (k_h s) = true → close_ fuel s = (Ok tt, s).
Proof.
  intros He. destruct fuel; cbn [close_]; erewrite M_bind_eq by reflexivity; by rewrite He.
Qed.
Lemma close_eq s : client_ok s → close s = (Ok tt, if exiting s then s else closed s).
Proof.
  intros [_ Hfired _ Hknown]. unfold close. destruct (exiting s) eqn:He; [by apply close_exiting|].
  specialize (Hknown eq_refl). destruct s as [c [nf cp [i u o] ex fi p] m].
  unfold exiting in He. cbn in He, Hfired. subst.
  unfold close_ at 1. fold close_. erewrite M_bind_eq by reflexivity. cbn [h_exiting k_h].
  destruct o; do 2 erewrite M_bind_eq by reflexivity;
    (erewrite M_bind_eq by (unfold on_mgr, remove_session; cbn; by rewrite bool_decide_true by done));
    do 2 erewrite M_bind_eq by reflexivity; cbn [k_h h_fired];
    reflexivity.
Qed.
Lemma closed_ok s : client_ok s → client_ok (closed s).
Proof.
  intros [Hrx _ _ _]. split; [|done|done|done]. cbn. unfold closed_conn. by destruct (opened s).
Qed.
Lemma safe_close P : safe P close.
Proof.
  intros s Hs _. rewrite close_eq by done. cbn [fst snd]. split; [done|].
  destruct (exiting s) eqn:He; [by split|]. split; [by apply closed_ok|].
  split; [done|]. split; [unfold queue_length; cbn; unfold closed_conn; by destruct (opened s)|].
  right. by split_and!.
Qed.
Lemma stop_close : stop = close.
Proof. done. Qed.
#[local] Hint Resolve safe_close : netconf.

(** ** The operations *)

Lemma send_msg_rx m b c : (send_msg m b c).1 ≠ Raise OutOfFuel ∧ c_rx (send_msg m b c).2 = c_rx c ∧
  c_connected (send_msg m b c).2 = c_connected c.
Proof.
  rewrite send_msg_eq. destruct (c_connected c) eqn:Hc; [|by cbn].
  unfold chunkit. case_bool_decide; [by cbn|]. rewrite write_chunks_eq. by cbn.
Qed.
Lemma safe_send P m : safe P (send_message m).
Proof.
  apply safe_get_state. intros s0. apply safe_conn. intros c Hc.
  destruct (send_msg_rx (XML_HEADER ++ m) (h_new_framing (k_h s0)) c) as (Hr & Hq & _). by rewrite Hq.
Qed.
(** Taking any message from the queue *)
Lemma get_any (q : MessageQueue.mq (Msg := text)) :
  MessageQueue.get (Some (λ _, true)) q =
  (Ok (MessageQueue.mq_next q),
   match MessageQueue.mq_queue q with
   | m :: l => MessageQueue.mk_mq (MessageQueue.mq_waiting q) l
                 (MessageQueue.mq_fired q ++ [(MessageQueue.mq_next q, MessageQueue.Callback m)])
                 (S (MessageQueue.mq_next q))
   | [] => MessageQueue.mk_mq (MessageQueue.mq_waiting q ++ [(MessageQueue.mq_next q, Some (λ _, true))]) []
             (MessageQueue.mq_fired q) (S (MessageQueue.mq_next q))
   end).
Proof. unfold MessageQueue.get. by destruct (MessageQueue.mq_queue q) as [|m l]. Qed.
Lemma recv_cases c : MessageQueue.ok (c_rx c) →
  (c_connected c = false ∧ recv c = (Raise AssertionError, c)) ∨
  ∃ q, recv c = (Ok (MessageQueue.mq_next (c_rx c)), set_rx q c) ∧ c_connected c = true ∧
       MessageQueue.ok q ∧ MessageQueue.get (Some (λ _, true)) (c_rx c) = (Ok (MessageQueue.mq_next (c_rx c)), q).
Proof.
  intros Hok. rewrite recv_eq. destruct (c_connected c) eqn:Hc; [|by left]. right. unfold on_rx.
  destruct (MessageQueue.get_ok (Some (λ _, true)) (c_rx c) Hok) as (q & Hq & Hok').
  rewrite Hq. eauto 10.
Qed.
Lemma safe_recv P : safe P (on_conn recv).
Proof.
  apply safe_conn. intros c Hc. destruct (recv_cases c Hc) as [[_ ->]|(q & -> & _ & Hq & Hget)]; [by cbn|].
  cbn. split; [done|]. split; [done|]. rewrite get_any in Hget. destruct (MessageQueue.mq_queue (c_rx c));
    injection Hget as <-; cbn; lia.
Qed.
#[local] Hint Resolve safe_send safe_recv : netconf.

Lemma safe_set_pc P p : safe P (set_pc p).
Proof. apply safe_set_h; [done|done|done|]. intros s _ Hs. apply Hs. Qed.
Lemma safe_set_framing P b : safe P (set_framing b).
Proof. apply safe_set_h; [done|done|done|]. intros s _ Hs. apply Hs. Qed.
Lemma safe_add_cap P c : safe P (add_client_capability c).
Proof. apply safe_set_h; [done|done|done|]. intros s _ Hs. apply Hs. Qed.
Lemma safe_set_opened : safe (λ s, exiting s = false) (set_opened true).
Proof. apply safe_set_h; [done|done|done|]. intros s Hp _ He. congruence. Qed.
#[local] Hint Resolve safe_set_pc safe_set_framing safe_add_cap : netconf.

Ltac safe := repeat (cbn beta iota; match goal with
  | |- safe _ (get_state ≫= _) => apply safe_get_state; intros ?
  | |- safe _ (_ ≫= _) => apply safe_bind; [|intros ?]
  | |- safe _ (try_except _ _) => apply safe_try; [|intros ? ?]
  | |- safe _ (match ?x with _ => _ end) => destruct x eqn:?
  | |- safe _ _ => solve [auto with netconf]
  end).

Section requests.
Context `{!Lxml, !LxmlLaws, !DictToXml}.

Lemma safe_on_rpc_error P rpc e : safe P (on_rpc_error rpc e).
Proof. unfold on_rpc_error, get_reply_msg. safe; by apply safe_raise. Qed.
Lemma safe_reply P r rpc : safe P (reply r rpc).
Proof. unfold reply, send_rpc_reply. safe. Qed.
#[local] Hint Resolve safe_on_rpc_error safe_reply : netconf.
Lemma safe_handle_rpcs P rpcs : safe P (handle_rpcs rpcs).
Proof.
  revert P. induction rpcs as [|rpc rest IH]; intros P; cbn [handle_rpcs]; [safe|].
  apply safe_bind; [|intros []; [apply IH|safe]].
  apply safe_try; [|intros; safe]. apply safe_bind; [apply safe_lift, get_rpc_handler_ends|intros [h|]].
  - apply safe_bind; [apply safe_lift, execute_ends|intros o]. safe; by apply safe_raise.
  - safe.
Qed.
Lemma safe_malformed P : safe P malformed.
Proof. unfold malformed, get_reply_msg. safe; by apply safe_raise. Qed.
Lemma safe_handle_request P m : safe P (handle_request m).
Proof.
  unfold handle_request. apply safe_get_state. intros s0. destruct (negb _); [safe|].
  apply safe_bind; [apply safe_lift; by destruct m|intros t].
  pose proof (etree_parse_ends t) as Hp. destruct (etree_parse t) as [root|e].
  - destruct (rpcs_of root) as [|rpc rest]; [by apply safe_raise|]. apply safe_handle_rpcs.
  - assert (e ≠ OutOfFuel) by congruence.
    destruct e; try done; first [apply safe_malformed | by apply safe_raise].
Qed.

(** *** Opening a session *)

Lemma safe_bind_to {A B} P Q (m : M client A) (f : A → M client B) :
  safe P m → (∀ s a s', client_ok s → P s → m s = (Ok a, s') → Q s') → (∀ a, safe Q (f a)) →
  safe P (m ≫= f).
Proof.
  intros Hm Hkeep Hf s Hs HP. unfold mbind, M_bind. pose proof (Hm s Hs HP) as Hpost.
  destruct (m s) as [[a|e] s'] eqn:Hms; cbn [fst snd] in Hpost; destruct Hpost as (Hr & Hs' & He).
  - destruct (Hf a s' Hs' (Hkeep _ _ _ Hs HP Hms)) as (Hr' & Hs'' & He'). split_and!; [done|done|]. by etransitivity.
  - split_and!; [cbn; congruence|done|done].
Qed.
Lemma safe_add_capabilities P l : safe P (add_capabilities l).
Proof. revert P. induction l; intros P; cbn [add_capabilities]; safe. Qed.
Lemma add_capabilities_exiting l s : exiting (add_capabilities l s).2 = exiting s.
Proof.
  revert s. induction l as [|e l IH]; intros s; [done|]. cbn [add_capabilities].
  erewrite M_bind_eq by reflexivity. by rewrite IH.
Qed.
Lemma safe_set_framing_version P : safe P set_framing_version.
Proof. unfold set_framing_version. safe; by apply safe_raise. Qed.
Lemma set_framing_version_exiting s : exiting (set_framing_version s).2 = exiting s.
Proof.
  unfold set_framing_version. erewrite M_bind_eq by reflexivity. by repeat case_bool_decide.
Qed.
Lemma safe_hello_received m : safe (λ s, exiting s = false) (hello_received m).
Proof.
  unfold hello_received. apply (safe_bind_to _ (λ s, exiting s = false)); [apply safe_lift; by destruct m| |intros t].
  { intros s a s' _ He. intros [= _ <-]. exact He. }
  apply (safe_bind_to _ (λ s, exiting s = false)); [apply safe_lift, etree_parse_ends| |intros root].
  { intros s a s' _ He. intros [= _ <-]. exact He. }
  apply (safe_bind_to _ (λ s, exiting s = false)); [apply safe_add_capabilities| |intros _].
  { intros s a s' _ He Heq. rewrite <- He, <- (add_capabilities_exiting (capabilities_of root) s).
    by rewrite Heq. }
  apply (safe_bind_to _ (λ s, exiting s = false)); [apply safe_set_framing_version| |intros _; apply safe_set_opened].
  intros s a s' _ He Heq. rewrite <- He, <- (set_framing_version_exiting s). by rewrite Heq.
Qed.

(** *** Segments of the generator *)

(** Between events: a handler that stopped has returned, and a pending call is
    that of the last request of its message. *)
Definition rest_ok (p : pc) : Prop := match p with AwaitApi _ rest _ _ => rest = [] | _ => True end.
Definition settled (s : client) : Prop :=
  (exiting s = true → h_pc (k_h s) = Finished) ∧ rest_ok (h_pc (k_h s)).
Definition fine (m : M client unit) (s : client) : Prop :=
  (m s).1 ≠ Raise OutOfFuel ∧ client_ok (m s).2 ∧ evolves s (m s).2 ∧
  ((m s).1 = Ok tt → settled (m s).2).

Lemma fine_bind {A} P (m : M client A) f s : safe P m → client_ok s → P s →
  (∀ a s', m s = (Ok a, s') → client_ok s' → evolves s s' → fine (f a) s') → fine (m ≫= f) s.
Proof.
  intros Hm Hs HP Hf. unfold fine, mbind, M_bind. specialize (Hm s Hs HP).
  destruct (m s) as [[a|e] s'] eqn:Hms; cbn [fst snd] in Hm |- *; destruct Hm as (Hr & Hs' & He).
  - destruct (Hf a s' eq_refl Hs' He) as (Hr' & Hs'' & He' & Hset). split_and!; try done. by etransitivity.
  - split_and!; try done. congruence.
Qed.
Lemma guarded_fine m s : fine m s →
  (guarded m s).1 = Ok tt ∧ client_ok (guarded m s).2 ∧ evolves s (guarded m s).2 ∧ settled (guarded m s).2.
Proof.
  intros (Hr & Hs' & He & Hset). unfold guarded, try_except.
  destruct (m s) as [[[]|e] s']; cbn [fst snd] in *; [by split_and!; try apply Hset|].
  assert ((λ e, _ ← stop; set_pc Finished) e s' =
          (Ok tt, (set_pc Finished (if exiting s' then s' else closed s')).2)) as Hstop.
  { cbn beta. erewrite M_bind_eq by (rewrite stop_close; by apply close_eq). done. }
  destruct (safe_close always s' Hs' I) as (_ & Hs2 & He2). rewrite close_eq in Hs2, He2 by done.
  destruct (safe_set_pc always Finished _ Hs2 I) as (_ & Hs3 & He3).
  destruct e; try done; rewrite Hstop; cbn [fst snd]; (split_and!; [done|done| |by split]);
    (etransitivity; [done|]; by etransitivity).
Qed.

Lemma then_true (m : M client unit) s s' : (m ≫= λ _, mret true) s ≠ (Ok false, s').
Proof. unfold mbind, M_bind. by destruct (m s) as [[]]. Qed.
Lemma try_false m h s s' : (∀ e s, h e s ≠ (Ok false, s')) →
  try_except m h s = (Ok false, s') → m s = (Ok false, s').
Proof.
  intros Hh. unfold try_except. destruct (m s) as [[b|e] s1]; [done|].
  destruct e; try done; intros Heq; by apply Hh in Heq.
Qed.
Lemma handle_rpcs_suspends rpc s s' : handle_rpcs [rpc] s = (Ok false, s') →
  ∃ h key, get_rpc_handler rpc = Ok (Some h) ∧ execute h = Ok (Calls key) ∧
    s' = (set_pc (AwaitApi rpc [] (rh_request h) key) s).2.
Proof.
  cbn [handle_rpcs]. intros (done & s1 & Htry & Hend)%M_bind_Ok.
  destruct done; [by injection Hend|]. injection Hend as <-.
  apply try_false in Htry; [|intros; apply then_true].
  apply M_bind_Ok in Htry as (h & s2 & Hh & Htry). injection Hh as Hh <-.
  destruct h as [h|]; [|done].
  apply M_bind_Ok in Htry as (o & s2 & Ho & Htry). injection Ho as Ho <-.
  destruct o as [[r|]|key]; [by apply then_true in Htry|done|].
  injection Htry as <-. by exists h, key.
Qed.
Lemma handle_request_suspends m s s' : handle_request m s = (Ok false, s') →
  exiting s' = exiting s ∧ ∃ rpc r key, h_pc (k_h s') = AwaitApi rpc [] r key.
Proof.
  unfold handle_request. intros (s1 & s2 & Hget & Hx)%M_bind_Ok. injection Hget as <- <-.
  destruct (negb (opened s)); [done|].
  apply M_bind_Ok in Hx as (t & s2 & Ht & Hx). injection Ht as Ht <-.
  destruct (etree_parse t) as [root|e].
  - unfold rpcs_of in Hx. case_bool_decide; [|done].
    apply handle_rpcs_suspends in Hx as (h & key & _ & _ & ->). split; [done|]. by eexists _, _, _.
  - destruct e; try done. unfold malformed in Hx. by apply then_true in Hx.
Qed.

(** *** The loop *)

Lemma recv_fired s d s' : client_ok s → on_conn recv s = (Ok d, s') →
  k_h s' = k_h s ∧ k_mgr s' = k_mgr s ∧
  fired_with d s' = head (MessageQueue.mq_queue (c_rx (k_conn s))) ∧
  MessageQueue.mq_queue (c_rx (k_conn s')) = tail (MessageQueue.mq_queue (c_rx (k_conn s))).
Proof.
  intros [Hrx _ _ _]. unfold on_conn. destruct (recv_cases _ Hrx) as [[_ ->]|(q & -> & _ & _ & Hget)]; [done|].
  intros [= <- <-]. split_and!; [done|done| |].
  - unfold fired_with. cbn [k_conn set_rx c_rx]. rewrite get_any in Hget. injection Hget as <-.
    assert (MessageQueue.mq_next (c_rx (k_conn s)) ∉ od_keys (MessageQueue.mq_fired (c_rx (k_conn s)))) as Hfresh.
    { intros Hin. pose proof (MessageQueue.ok_next _ Hrx (MessageQueue.mq_next (c_rx (k_conn s)))) as Hlt.
      rewrite elem_of_app in Hlt. specialize (Hlt (or_intror Hin)). lia. }
    destruct (MessageQueue.mq_queue (c_rx (k_conn s))) as [|m l]; cbn [MessageQueue.mq_fired head].
    + by rewrite (proj2 (od_get_None _ _) Hfresh).
    + rewrite <- od_set_notin by done. by rewrite od_get_set.
  - cbn [k_conn set_rx c_rx]. rewrite get_any in Hget. injection Hget as <-.
    by destruct (MessageQueue.mq_queue (c_rx (k_conn s))).
Qed.

Lemma fine_get_state (f : client → M client unit) s : fine (f s) s → fine (get_state ≫= f) s.
Proof. done. Qed.
Lemma fine_set_pc p s : client_ok s → (exiting s = true → p = Finished) → rest_ok p → fine (set_pc p) s.
Proof.
  intros Hs Hp Hrest. destruct (safe_set_pc always p s Hs I) as (Hr & Hs' & He). by split_and!.
Qed.
Lemma fine_ret s : client_ok s → settled s → fine (mret tt) s.
Proof. intros Hs Hset. split_and!; [done|done| |done]. cbn. reflexivity. Qed.
(** A request that waits for a call leaves a handler that is not stopped settled. *)
Lemma suspended_fine m s s' : client_ok s' → exiting s = false →
  handle_request m s = (Ok false, s') → fine (mret tt) s'.
Proof.
  intros Hs' He (He' & rpc & r & key & Hpc)%handle_request_suspends. apply fine_ret; [done|].
  split; [congruence|]. by rewrite Hpc.
Qed.

Lemma loop_fine fuel s : client_ok s → queue_length s ≤ fuel → fine (loop fuel) s.
Proof.
  revert s. induction fuel as [|fuel IH]; intros s Hs Hq; cbn [loop]; apply fine_get_state;
    (destruct (opened s) eqn:Hop; cbn [negb]; [|by apply fine_set_pc]);
    (assert (exiting s = false) as He by (destruct (exiting s) eqn:Hx; [|done];
       pose proof (co_closed _ Hs Hx); congruence));
    (eapply (fine_bind always); [apply safe_recv|done|done|]); intros d s1 Hrecv Hs1 Hev;
    apply fine_get_state; destruct (recv_fired _ _ _ Hs Hrecv) as (Hh & _ & Hf & Hq1); rewrite Hf;
    unfold queue_length in Hq;
    assert (exiting s1 = false) as He1 by (unfold exiting in *; by rewrite Hh);
    destruct (MessageQueue.mq_queue (c_rx (k_conn s))) as [|m l] eqn:Hml; cbn [head];
    try (apply fine_set_pc; [done|congruence|done]).
  - cbn in Hq. lia.
  - eapply (fine_bind always); [apply safe_handle_request|done|done|].
    intros [] s2 Hreq Hs2 Hev2; [|by eapply suspended_fine].
    apply IH; [done|]. destruct Hev2 as (_ & Hlen & _). unfold queue_length in *. cbn in *. rewrite Hq1 in Hlen. cbn in Hlen. lia.
Qed.
Lemma run_loop_fine s : client_ok s → fine run_loop s.
Proof. intros Hs. exact (loop_fine (queue_length s) s Hs (le_n _)). Qed.

Lemma resume_request_fine m s : client_ok s → exiting s = false →
  fine (s ← get_state; done ← handle_request (received (h_new_framing (k_h s)) m);
        if done : bool then run_loop else mret tt) s.
Proof.
  intros Hs He. apply fine_get_state. eapply (fine_bind always); [apply safe_handle_request|done|done|].
  intros [] s' Hreq Hs' Hev; [by apply run_loop_fine|by eapply suspended_fine].
Qed.
Lemma resume_hello_fine m s : client_ok s → exiting s = false →
  fine (s ← get_state; _ ← opening (hello_received (received (h_new_framing (k_h s)) m)); run_loop) s.
Proof.
  intros Hs He. apply fine_get_state.
  eapply (fine_bind (λ s, exiting s = false)); [|done|done|intros [] s' _ Hs' _; by apply run_loop_fine].
  apply safe_try; [apply safe_hello_received|]. intros e Hne. rewrite stop_close. safe.
Qed.
Lemma resume_api_fine a rpc r s : client_ok s →
  fine (_ ← try_except (resp ← lift (get_response a r); reply resp rpc) (on_rpc_error rpc);
        done ← handle_rpcs []; if done : bool then run_loop else mret tt) s.
Proof.
  intros Hs. eapply (fine_bind always); [|done|done|].
  - apply safe_try; [|intros; apply safe_on_rpc_error].
    apply safe_bind; [apply safe_lift, get_response_ends|intros; apply safe_reply].
  - intros [] s' _ Hs' _. cbn [handle_rpcs]. by apply run_loop_fine.
Qed.

(** ** Events *)

Record between (s : client) : Prop := {
  bt_ok : client_ok s;
  bt_stopped : exiting s = true → c_connected (k_conn s) = false ∨ h_pc (k_h s) = Finished;
  bt_rest : rest_ok (h_pc (k_h s));
}.
Definition advances (s s' : client) : Prop := sid s' = sid s ∧ (kept s s' ∨ stopped s s').

Lemma on_conn_h {A} (op : M nc_conn A) s : k_h (on_conn op s).2 = k_h s ∧ k_mgr (on_conn op s).2 = k_mgr s.
Proof. unfold on_conn. by destruct (op (k_conn s)). Qed.
Lemma send_message_h m s :
  k_h (send_message m s).2 = k_h s ∧ c_connected (k_conn (send_message m s).2) = c_connected (k_conn s).
Proof.
  unfold send_message. erewrite M_bind_eq by reflexivity. split; [apply on_conn_h|].
  unfold on_conn. pose proof (send_msg_rx (XML_HEADER ++ m) (h_new_framing (k_h s)) (k_conn s)) as (_ & _ & Hc).
  by destruct (send_msg _ _ _).
Qed.
Lemma recv_connected s d s' : client_ok s → on_conn recv s = (Ok d, s') → c_connected (k_conn s) = true.
Proof.
  intros [Hrx _ _ _]. unfold on_conn. by destruct (recv_cases _ Hrx) as [[_ ->]|(q & -> & Hc & _)].
Qed.

(** A handler that was stopped before it started finds the connection closed. *)
Definition startable (s : client) : Prop := exiting s = true → c_connected (k_conn s) = false.
Lemma startable_send s a s' : startable s → send_hello s = (Ok a, s') → startable s'.
Proof.
  unfold startable, exiting, send_hello. erewrite M_bind_eq by reflexivity. intros Hs Heq.
  pose proof (send_message_h (etree_tostring (hello (h_session (k_h s)))) s) as [Hh Hc].
  rewrite Heq in Hh, Hc. cbn in Hh, Hc. by rewrite Hh, Hc.
Qed.
Lemma startable_recv s d s' : client_ok s → startable s → on_conn recv s = (Ok d, s') → exiting s' = false.
Proof.
  intros Hs Hst Hrecv. pose proof (recv_connected _ _ _ Hs Hrecv) as Hc.
  destruct (recv_fired _ _ _ Hs Hrecv) as (Hh & _). unfold startable, exiting in *. rewrite Hh.
  destruct (h_exiting (k_h s)); [|done]. by rewrite Hst in Hc.
Qed.
Definition start_begin : M client bool :=
  _ ← send_hello;
  d ← on_conn recv;
  s ← get_state;
  match fired_with d s with
  | None => _ ← set_pc (AwaitHello d); mret false
  | Some m => _ ← hello_received (received (h_new_framing (k_h s)) m); mret true
  end.
Lemma safe_start_begin : safe startable start_begin.
Proof.
  unfold start_begin. eapply (safe_bind_to _ startable).
  { unfold send_hello. safe. }
  { intros s a s' _. apply startable_send. }
  intros _. eapply (safe_bind_to _ (λ s, exiting s = false)); [apply safe_recv|apply startable_recv|].
  intros d. apply safe_get_state. intros s0. destruct (fired_with d s0) as [m|]; [|safe].
  apply (safe_bind _ _ (λ _, mret true)); [|intros; apply safe_ret].
  eapply safe_weaken; [|apply safe_hello_received]. by intros s [_ ?].
Qed.
Lemma start_begin_waits s s' : client_ok s → startable s → start_begin s = (Ok false, s') → settled s'.
Proof.
  intros Hs Hst. unfold start_begin. intros (u & s1 & Hhello & Hx)%M_bind_Ok.
  destruct (safe_send always (etree_tostring (hello (h_session (k_h s)))) s Hs I) as (_ & Hs1 & _).
  unfold send_hello in Hhello. erewrite M_bind_eq in Hhello by reflexivity.
  pose proof (startable_send s u s1 Hst Hhello) as Hst1. rewrite Hhello in Hs1. cbn in Hs1.
  apply M_bind_Ok in Hx as (d & s2 & Hrecv & Hx). pose proof (startable_recv _ _ _ Hs1 Hst1 Hrecv) as He.
  apply M_bind_Ok in Hx as (s3 & s4 & Hget & Hx). injection Hget as <- <-.
  destruct (fired_with d s2); [by apply then_true in Hx|]. injection Hx as <-.
  split; [|done]. unfold exiting in *. cbn. congruence.
Qed.
Lemma start_fine s : client_ok s → startable s →
  fine (w ← try_except start_begin (λ e, _ ← stop; raise e); if w : bool then run_loop else mret tt) s.
Proof.
  intros Hs Hst. eapply (fine_bind startable); [|done|done|].
  - apply safe_try; [apply safe_start_begin|]. intros e Hne. rewrite stop_close. safe.
  - intros [] s' Htry Hs' _; [by apply run_loop_fine|]. apply fine_ret; [done|].
    apply try_false in Htry; [exact (start_begin_waits _ _ Hs Hst Htry)|].
    intros e s1. unfold mbind, M_bind. by destruct (stop s1) as [[u|e'] s2].
Qed.

Lemma settled_between s : client_ok s → settled s → between s.
Proof. intros Hs [Hp Hr]. split; [done| |done]. intros He. right. by apply Hp. Qed.
Lemma evolves_advances s s' : evolves s s' → advances s s'.
Proof. intros (Hid & _ & Hm). by split. Qed.
Lemma guarded_event m s : fine m s →
  ∃ s', guarded m s = (Ok tt, s') ∧ between s' ∧ advances s s'.
Proof.
  intros (Hr & Hs' & He & Hset)%guarded_fine. destruct (guarded m s) as [r s']. cbn in *. subst.
  exists s'. split_and!; [done|by apply settled_between|by apply evolves_advances].
Qed.
Lemma advances_after s s1 s' : k_h s1 = k_h s → k_mgr s1 = k_mgr s → advances s1 s' → advances s s'.
Proof.
  unfold advances, kept, stopped, sid, exiting. intros -> ->. done.
Qed.
Lemma advances_refl s s' : k_h s' = k_h s → k_mgr s' = k_mgr s → advances s s'.
Proof. unfold advances, kept, stopped, sid, exiting. intros -> ->. split; [done|by left]. Qed.

(** Everything that can happen to a connection ends without an exception. *)
Lemma event_ok e s : between s → enabled e s = true →
  ∃ s', run_event e s = (Ok tt, s') ∧ between s' ∧ advances s s'.
Proof.
  intros [Hs Hstop Hrest] Hen. unfold run_event. erewrite M_bind_eq by reflexivity.
  destruct e as [|data|a| |]; cbn [enabled] in Hen.
  - apply guarded_event, start_fine; [done|]. intros He. destruct (Hstop He) as [?|Hpc]; [done|].
    by rewrite Hpc in Hen.
  - apply andb_prop in Hen as [Hne Hc]. unfold data_arrives.
    destruct (MessageQueue.put_ok data (c_rx (k_conn s)) (co_rx _ Hs)) as (q & Hq & Hok).
    set (s1 := mk_client (set_rx q (k_conn s)) (k_h s) (k_mgr s)).
    assert (on_conn (dataReceived data) s = (Ok tt, s1)) as Hdata.
    { unfold on_conn, dataReceived, on_rx. cbv [mbind M_bind lift]. rewrite Hne. cbn [assert_]. by rewrite Hq. }
    erewrite M_bind_eq by exact Hdata. erewrite M_bind_eq by reflexivity.
    assert (client_ok s1) as Hs1 by (by split; [|apply Hs..]).
    assert (∃ s', (mret tt : M client unit) s1 = (Ok tt, s') ∧ between s' ∧ advances s s') as Hidle.
    { exists s1. split_and!; [done|by split|by apply advances_refl]. }
    assert (∀ d, h_pc (k_h s) = AwaitHello d ∨ h_pc (k_h s) = AwaitRequest d → exiting s1 = false) as Hopen.
    { intros d Hpc. change (exiting s = false). destruct (exiting s) eqn:He; [|done].
      destruct (Hstop eq_refl) as [?|Hfin]; [congruence|]. rewrite Hfin in Hpc. naive_solver. }
    assert (∀ m, fine m s1 → ∃ s', guarded m s1 = (Ok tt, s') ∧ between s' ∧ advances s s') as Hrun.
    { intros m (s' & Hg & Hb & Ha)%guarded_event. exists s'. split_and!; [done|done|by eapply advances_after]. }
    change (h_pc (k_h s1)) with (h_pc (k_h s)).
    destruct (h_pc (k_h s)) as [|d|d| |] eqn:Hpc; try done;
      (destruct (fired_with d s1) as [m|]; [|done]); apply Hrun.
    + apply resume_hello_fine; [done|]. apply (Hopen d). by left.
    + apply resume_request_fine; [done|]. apply (Hopen d). by right.
  - destruct (h_pc (k_h s)) as [| | |rpc rest r key|] eqn:Hpc; try done. cbn in Hrest. subst rest.
    apply guarded_event, resume_api_fine. done.
  - unfold connectionLost. erewrite M_bind_eq by reflexivity. erewrite M_bind_eq by reflexivity.
    set (s1 := mk_client _ _ _). assert (client_ok s1) as Hs1 by (by split; [apply Hs..]).
    assert (∃ s', (mret tt : M client unit) s1 = (Ok tt, s') ∧ between s' ∧ advances s s') as Hidle.
    { exists s1. split_and!; [done| |by apply advances_refl]. split; [done|by left|done]. }
    destruct (c_exiting (k_conn s1)); [done|].
    rewrite stop_close, close_eq by done. destruct (exiting s1) eqn:He; [done|].
    exists (closed s1). split_and!; [done| |].
    + split; [by apply closed_ok| |done]. intros _. left. cbn. unfold closed_conn. by destruct (opened s1).
    + eapply (advances_after s s1); [done|done|]. split; [done|]. right. by split_and!.
  - set (s1 := mk_client (set_connected false (k_conn s)) (k_h s) (k_mgr s)).
    exists s1. split_and!; [done| |by apply advances_refl]. split; [by split; [apply Hs..]|by left|done].
Qed.

(** ** The server *)

Definition has_client (v : server) (id : nat) (b : bool) : Prop :=
  ∃ i c h, sv_clients v !! i = Some (c, h) ∧ id = S i ∧ h_exiting h = b.

(** Session ids are given in order and once; the dictionary holds the sessions of
    the handlers that have not stopped, the log of removals the others, each
    once; nothing was removed in vain; an open session is in the dictionary. *)
Record server_ok (v : server) : Prop := {
  so_ids : ∀ i c h, sv_clients v !! i = Some (c, h) → s_id (h_session h) = S i;
  so_next : m_next (sv_mgr v) = S (length (sv_clients v));
  so_nodup : NoDup (od_keys (m_sessions (sv_mgr v)));
  so_sessions : ∀ id, id ∈ od_keys (m_sessions (sv_mgr v)) ↔ has_client v id false;
  so_once : NoDup (m_removed (sv_mgr v));
  so_removed : ∀ id, id ∈ m_removed (sv_mgr v) ↔ has_client v id true;
  so_invalid : m_invalid (sv_mgr v) = [];
  so_open : ∀ i c h, sv_clients v !! i = Some (c, h) → s_opened (h_session h) = true →
    S i ∈ od_keys (m_sessions (sv_mgr v));
}.
Definition all_between (v : server) : Prop :=
  ∀ i c h, sv_clients v !! i = Some (c, h) → between (mk_client c h (sv_mgr v)).

Lemma keys_del {V} k (d : list (nat * V)) k' : NoDup (od_keys d) →
  k' ∈ od_keys (od_del k d) ↔ k' ≠ k ∧ k' ∈ od_keys d.
Proof.
  intros Hnd. pose proof (od_get_del k k' d Hnd) as Hg.
  pose proof (od_get_None k' (od_del k d)) as K1. pose proof (od_get_None k' d) as K2.
  destruct (decide (k' = k)) as [->|Hne].
  - split; [|naive_solver]. intros Hin. by apply K1 in Hg.
  - rewrite Hg in K1. destruct (decide (k' ∈ od_keys d)), (decide (k' ∈ od_keys (od_del k d))); naive_solver.
Qed.

(** The other connections do not notice a change of the manager that keeps their
    session. *)
Lemma between_mgr c h m m' : between (mk_client c h m) →
  (s_id (h_session h) ∈ od_keys (m_sessions m) → s_id (h_session h) ∈ od_keys (m_sessions m')) →
  between (mk_client c h m').
Proof.
  intros [[Hrx Hf Hc Hk] Hs Hr] Hin. split; [split|done|done]; try done. intros He. apply Hin, Hk, He.
Qed.
Lemma between_open c h m : between (mk_client c h m) → s_opened (h_session h) = true →
  s_id (h_session h) ∈ od_keys (m_sessions m).
Proof.
  intros [[_ _ Hc Hk] _ _] Ho. apply Hk. destruct (exiting _) eqn:He; [|done].
  specialize (Hc eq_refl). unfold opened in Hc. cbn in Hc. congruence.
Qed.

Lemma connect_ok user v : server_ok v → all_between v →
  ∃ v', client_connected user v = (Ok tt, v') ∧ server_ok v' ∧ all_between v'.
Proof.
  intros Hok Hall. eexists. split; [reflexivity|].
  set (m := mk_mgr _ _ _ _). set (l := sv_clients v ++ _).
  assert (m_next (sv_mgr v) ∉ od_keys (m_sessions (sv_mgr v))) as Hfresh.
  { rewrite (so_sessions _ Hok). intros (i & c & h & Hi & Hid & _). apply lookup_lt_Some in Hi.
    rewrite (so_next _ Hok) in Hid. lia. }
  assert (∀ i c h, l !! i = Some (c, h) ↔ sv_clients v !! i = Some (c, h) ∨
    i = length (sv_clients v) ∧ c = new_conn ∧ h = new_handler (mk_session (m_next (sv_mgr v)) user false)) as Hl.
  { intros i c h. unfold l. rewrite lookup_app. destruct (sv_clients v !! i) as [x|] eqn:Hi.
    - apply lookup_lt_Some in Hi. split; [by left|intros [?|[-> _]]; [done|lia]].
    - apply lookup_ge_None in Hi. destruct (decide (i = length (sv_clients v))) as [->|Hne].
      + rewrite Nat.sub_diag. cbn. naive_solver.
      + destruct (i - length (sv_clients v)) eqn:Hd; [lia|]. cbn. naive_solver. }
  assert (all_between (mk_server m l)) as Hall'.
  { intros i c h [Hi|(-> & -> & ->)]%Hl.
    - apply (between_mgr _ _ (sv_mgr v)); [by eapply Hall|]. intros Hin. cbn.
      rewrite od_set_notin by done. unfold od_keys. rewrite fmap_app. apply elem_of_app. by left.
    - split; [split; [apply MessageQueue.ok_init|done|done|]|done|done]. intros _. cbn.
      rewrite od_set_notin by done. unfold od_keys. rewrite fmap_app. apply elem_of_app. right. left. }
  split; [split|done]; cbn [sv_mgr sv_clients m m_next m_sessions m_removed m_invalid].
  - intros i c h [Hi|(-> & -> & ->)]%Hl; [by eapply so_ids|]. cbn. by rewrite (so_next _ Hok).
  - rewrite (so_next _ Hok). unfold l. rewrite length_app. cbn. lia.
  - apply od_set_NoDup, Hok.
  - intros id. rewrite od_keys_set_elem, (so_sessions _ Hok). unfold has_client. cbn [sv_clients].
    setoid_rewrite Hl. rewrite (so_next _ Hok). naive_solver.
  - apply Hok.
  - intros id. rewrite (so_removed _ Hok). unfold has_client. cbn [sv_clients]. setoid_rewrite Hl. naive_solver.
  - apply Hok.
  - intros i c h Hi Ho. pose proof (between_open _ _ _ (Hall' i c h Hi) Ho) as Hin. cbn in Hin.
    apply Hl in Hi as [Hi|(-> & -> & ->)]; [|done]. by rewrite (so_ids _ Hok _ _ _ Hi) in Hin.
Qed.

Lemma lookup_replaced {A} (l : list A) i x y j z : l !! i = Some x →
  <[i := y]> l !! j = Some z ↔ (j = i ∧ z = y) ∨ (j ≠ i ∧ l !! j = Some z).
Proof.
  intros Hi. apply lookup_lt_Some in Hi. destruct (decide (j = i)) as [->|Hne].
  - rewrite list_lookup_insert_eq by done. naive_solver.
  - rewrite list_lookup_insert_ne by done. naive_solver.
Qed.
Lemma has_client_replaced v i c h m c' h' id b : sv_clients v !! i = Some (c, h) →
  has_client (mk_server m (<[i := (c', h')]> (sv_clients v))) id b ↔
  (id = S i ∧ h_exiting h' = b) ∨ (id ≠ S i ∧ has_client v id b).
Proof.
  intros Hi. unfold has_client. cbn [sv_clients].
  setoid_rewrite (lookup_replaced _ _ _ (c', h') _ _ Hi). naive_solver.
Qed.
Lemma has_client_at v i c h id b : sv_clients v !! i = Some (c, h) → id = S i →
  has_client v id b ↔ h_exiting h = b.
Proof. intros Hi ->. unfold has_client. naive_solver. Qed.

Lemma event_step_ok v i c h e : server_ok v → all_between v → sv_clients v !! i = Some (c, h) →
  enabled e (mk_client c h (sv_mgr v)) = true →
  ∃ v', on_client i (run_event e) v = (Ok tt, v') ∧ server_ok v' ∧ all_between v'.
Proof.
  intros Hok Hall Hi Hen. pose proof (so_ids _ Hok _ _ _ Hi) as Hid.
  destruct (event_ok e _ (Hall _ _ _ Hi) Hen) as (s' & Hrun & Hb & Hsid & Hm).
  unfold on_client. rewrite Hi, Hrun. eexists. split; [reflexivity|].
  change (sid s' = s_id (h_session h)) in Hsid. unfold kept, stopped, exiting in Hm. cbn [k_h k_mgr] in Hm.
  change (sid _) with (s_id (h_session h)) in Hm. rewrite Hid in *.
  pose proof (λ m id b, has_client_replaced v i c h m (k_conn s') (k_h s') id b Hi) as Hhas.
  assert (∀ id, id ∈ od_keys (m_sessions (k_mgr s')) ↔
    has_client (mk_server (k_mgr s') (<[i := (k_conn s', k_h s')]> (sv_clients v))) id false) as Hsess.
  { intros id. rewrite Hhas. destruct Hm as [[He ->]|(He & He' & ->)]; cbn [m_sessions].
    - rewrite (so_sessions _ Hok). destruct (decide (id = S i)) as [->|]; [|naive_solver].
      rewrite (has_client_at _ _ _ _ _ _ Hi eq_refl), He. naive_solver.
    - rewrite keys_del by apply Hok. rewrite (so_sessions _ Hok). rewrite He'. naive_solver. }
  assert (all_between (mk_server (k_mgr s') (<[i := (k_conn s', k_h s')]> (sv_clients v)))) as Hall'.
  { intros j c' h' Hj. cbn [sv_clients sv_mgr] in *. apply (lookup_replaced _ _ _ _ _ _ Hi) in Hj as [[-> [= -> ->]]|[Hne Hj]].
    - by destruct s'.
    - apply (between_mgr _ _ (sv_mgr v)); [by eapply Hall|]. rewrite (so_ids _ Hok _ _ _ Hj).
      rewrite Hsess, Hhas, (so_sessions _ Hok). intros Hc. right. split; [congruence|done]. }
  split; [split|done]; cbn [sv_mgr sv_clients]; try exact Hsess.
  - intros j c' h' [[-> [= -> ->]]|[_ Hj]]%(lookup_replaced _ _ _ _ _ _ Hi); [done|by eapply so_ids].
  - rewrite length_insert, <- (so_next _ Hok). by destruct Hm as [[_ ->]|(_ & _ & ->)].
  - destruct Hm as [[_ ->]|(_ & _ & ->)]; [apply Hok|apply od_del_NoDup, Hok].
  - destruct Hm as [[_ ->]|(He & _ & ->)]; [apply Hok|]. cbn. apply NoDup_app. split_and!; [apply Hok| |].
    + intros id Hin ->%list_elem_of_singleton. apply (so_removed _ Hok) in Hin.
      rewrite (has_client_at _ _ _ _ _ _ Hi eq_refl) in Hin. congruence.
    + apply NoDup_singleton.
  - intros id. rewrite Hhas. destruct Hm as [[He ->]|(He & He' & ->)]; cbn [m_removed].
    + rewrite (so_removed _ Hok). destruct (decide (id = S i)) as [->|]; [|naive_solver].
      rewrite (has_client_at _ _ _ _ _ _ Hi eq_refl), He. naive_solver.
    + rewrite elem_of_app, list_elem_of_singleton, (so_removed _ Hok), He'.
      destruct (decide (id = S i)) as [->|]; naive_solver.
  - destruct Hm as [[_ ->]|(_ & _ & ->)]; apply Hok.
  - intros j c' h' Hj Ho. pose proof (between_open _ _ _ (Hall' j c' h' Hj) Ho) as Hin. cbn in Hin.
    apply (lookup_replaced _ _ _ _ _ _ Hi) in Hj as [[-> [= -> ->]]|[_ Hj]]; [|by rewrite (so_ids _ Hok _ _ _ Hj) in Hin].
    by rewrite <- Hsid.
Qed.

Lemma server_step_ok v r v' : server_ok v → all_between v → step v r v' →
  r = Ok tt ∧ server_ok v' ∧ all_between v'.
Proof.
  intros Hok Hall Hstep. destruct Hstep as [user v r v' Heq|i e v c h r v' Hi Hen Heq].
  - destruct (connect_ok user v Hok Hall) as (v1 & Heq1 & Hrest). rewrite Heq in Heq1. by injection Heq1 as -> ->.
  - destruct (event_step_ok v i c h e Hok Hall Hi Hen) as (v1 & Heq1 & Hrest).
    rewrite Heq in Heq1. by injection Heq1 as -> ->.
Qed.
Lemma server_reachable_ok v : reachable v → server_ok v ∧ all_between v.
Proof.
  induction 1 as [|v r v' _ [Hok Hall] Hstep].
  - split; [|by intros i c h]. split; try done; try constructor.
    all: try (intros ?%not_elem_of_nil; done). all: by intros (i & c & h & ? & _).
  - by destruct (server_step_ok v r v' Hok Hall Hstep) as (_ & ? & ?).
Qed.

(** C31: the sessions of the server are consistent, whatever the clients do.  In
    every state that connections, their data, answers of the core and lost
    connections can lead to, in any order and interleaved: session ids were given
    in order and are never given again; the manager holds exactly the sessions
    whose handler has not stopped, and has removed every other one exactly once;
    an open session is held; and whatever comes next ends without an exception,
    in a state of which the same is true. *)
Theorem sessions_consistent (v : server) : reachable v →
  server_ok v ∧ ∀ r v', step v r v' → r = Ok tt ∧ server_ok v'.
Proof.
  intros [Hok Hall]%server_reachable_ok. split; [done|].
  intros r v' Hstep. by destruct (server_step_ok v r v' Hok Hall Hstep) as (? & ? & ?).
Qed.

End requests.
End NetconfSpec.
