(* ===== verification/NetconfRequests.v ===== *)
(** * What becomes of a request to the NETCONF server

    A request is answered, or it ends the session: there are no error replies. *)

From Stdlib Require Import Ascii.
From stdpp Require Import prelude strings list gmap.
From S2P Require Import Prelude MessageQueue NetconfReply NetconfConnection NetconfRpc NetconfServer NetconfSpec.
Import RpcResponse NetconfConnection NetconfRpc NetconfServer NetconfSpec.

Module NetconfRequests.

(** ** Requests the server answers *)

(** The requests that are answered: the command [get], and a class with a call
    for the subclass or for the whole of it.  Nothing is asked of the message id:
    the parser sets the key [message_id] for every [rpc] element, to [None] when
    the attribute is missing. *)
Definition answerable (rpc : elem) : option (request * string) :=
  match parse_xml_request rpc with
  | Ok r =>
      if bool_decide (od_get "command" r = Some (Some "get"))
      then (λ key, (r, key)) <$> get_voltha_rpc r
      else None
  | Raise _ => None
  end.
Definition is_rpc (e : elem) : Prop := e_tag e = Some (base +:+ "rpc").

(** What the factory and the handler make of any other request *)
Definition refused (rpc : elem) : Prop :=
  get_rpc_handler rpc = Raise NcBadMsg ∨ get_rpc_handler rpc = Ok None ∨
  ∃ h, get_rpc_handler rpc = Ok (Some h) ∧
    (execute h = Ok (Returned None) ∨ execute h = Raise AttributeError).

Lemma has_key_get k r : has_key k r = match od_get k r with Some _ => true | None => false end.
Proof. unfold has_key. destruct (od_get k r); [by apply bool_decide_true|]. apply bool_decide_false. by intros [? ?]. Qed.
Lemma get_voltha_rpc_class r key : get_voltha_rpc r = Some key → has_key "class" r = true.
Proof.
  rewrite has_key_get. unfold get_voltha_rpc. by intros (k & -> & _)%bind_Some.
Qed.
Lemma get_validate_get r : od_get "command" r = Some (Some "get") →
  get_validate r = if has_key "filter" r && negb (has_key "class" r) then Raise AttributeError else Ok tt.
Proof.
  intros Hc. unfold get_validate. rewrite bool_decide_false by (intros ->; done). rewrite Hc.
  cbn [of_option mbind result_bind]. rewrite bool_decide_false by (intros []; done). cbn.
  by destruct (has_key "filter" r && negb (has_key "class" r)).
Qed.

Lemma construct_refused klass r : klass ≠ Get → ∀ h, construct klass r = Ok h →
  execute h = Ok (Returned None) ∨ execute h = Raise AttributeError.
Proof. intros Hk h. destruct klass; try done; intros [= <-]; cbn; auto. Qed.

Lemma has_key_set k k' v r : has_key k r = true → has_key k (od_set k' v r) = true.
Proof.
  rewrite !has_key_get. destruct (decide (k' = k)) as [->|Hne]; [by rewrite od_get_set|].
  by rewrite od_get_set_ne.
Qed.
Lemma parse_elem_keeps k r e r' : parse_elem r e = Ok r' → has_key k r = true → has_key k r' = true.
Proof.
  unfold parse_elem. destruct (e_tag e) as [tag|]; [|done]. intros [= <-] Hk.
  repeat case_match; auto using has_key_set.
Qed.

(** The parser sets [message_id], whether or not there is such an attribute. *)
Lemma parse_message_id rpc r :
  is_rpc rpc → parse_xml_request rpc = Ok r → r ≠ [] → has_key "message_id" r = true.
Proof.
  unfold is_rpc, parse_xml_request. intros Ht Hr Hne.
  destruct rpc as [t n a x [|c l]]; cbn [e_tag e_children] in *; [congruence|]. subst t.
  cbn [iter foldl mbind result_bind] in Hr. set (r0 := parse_elem [] _) in Hr.
  assert (∃ r1, r0 = Ok r1 ∧ has_key "message_id" r1 = true) as (r1 & Hr1 & Hk).
  { eexists. split; reflexivity. }
  rewrite Hr1 in Hr. clear r0 Hr1 Hne. revert r1 Hk Hr. generalize (flat_map iter (c :: l)) as es.
  induction es as [|e es IH]; intros r1 Hk Hr; [by injection Hr as <-|].
  cbn [foldl mbind result_bind] in Hr. destruct (parse_elem r1 e) as [r2|ex] eqn:He.
  - eapply IH; [|exact Hr]. by eapply parse_elem_keeps.
  - exfalso. clear -Hr. induction es as [|e' es IH]; [done|]. by apply IH.
Qed.

Lemma answerable_spec rpc : is_rpc rpc →
  match answerable rpc with
  | Some (r, key) => get_rpc_handler rpc = Ok (Some (mk_handler Get r)) ∧
                     execute (mk_handler Get r) = Ok (Calls key)
  | None => refused rpc
  end.
Proof.
  intros Hrpc. unfold answerable, refused, get_rpc_handler.
  destruct (parse_xml_request rpc) as [r|e] eqn:Hparse; [|by left]. cbn [mbind result_bind].
  destruct (decide (r = [])) as [->|Hne0]; [by left|].
  rewrite (parse_message_id rpc r), (bool_decide_false (r = [])) by done. cbn [negb orb].
  rewrite (has_key_get "command" r). destruct (od_get "command" r) as [[c|]|] eqn:Hc; cbn [negb].
  2: { rewrite bool_decide_false by done. right. by left. }
  2: { rewrite bool_decide_false by done. by left. }
  cbn [of_option mbind result_bind option_bind].
  destruct (decide (c = "get")) as [->|Hne].
  - rewrite bool_decide_true by done. cbn [od_get rpc_class_handlers]. repeat (rewrite decide_False by done).
    rewrite decide_True by done. unfold construct. rewrite get_validate_get by done.
    destruct (get_voltha_rpc r) as [key|] eqn:Hv; cbn [fmap option_fmap option_map].
    + rewrite (get_voltha_rpc_class _ _ Hv), andb_false_r. split; [done|]. unfold execute. cbn [rh_class rh_request]. by rewrite Hv.
    + destruct (has_key "filter" r && negb (has_key "class" r)); [by left|]. right. right.
      exists (mk_handler Get r). split; [done|]. unfold execute. cbn [rh_class rh_request]. rewrite Hv. by right.
  - rewrite bool_decide_false by congruence.
    destruct (od_get c rpc_class_handlers) as [klass|] eqn:Hk; [|right; by left].
    assert (klass ≠ Get) as Hget.
    { intros ->. cbn [rpc_class_handlers od_get] in Hk. by repeat case_decide. }
    destruct (construct klass r) as [h|e] eqn:Hcon; cbn; [|by left].
    right. right. exists h. split; [done|]. by eapply construct_refused.
Qed.

(** ** One request *)
Section requests.
Context `{!Lxml, !LxmlLaws, !DictToXml}.

(** The request in a received message, when it is one that is answered *)
Definition request_in (m : option text) : option (elem * request * string) :=
  match m with
  | None => None
  | Some t =>
      match etree_parse t with
      | Raise _ => None
      | Ok root =>
          if bool_decide (e_tag root = Some (base +:+ "rpc"))
          then (λ rk, (root, rk.1, rk.2)) <$> answerable root else None
      end
  end.

Definition waiting_for (rpc : elem) (r : request) (key : string) (s : client) : client :=
  (set_pc (AwaitApi rpc [] r key) s).2.

Lemma on_rpc_error_refused rpc e s : client_ok s → exiting s = false → e ≠ OutOfFuel →
  on_rpc_error rpc e s = (Raise AttributeError, s) ∨ on_rpc_error rpc e s = (Ok tt, closed s).
Proof.
  intros Hs He Hne. unfold on_rpc_error. destruct e; try by left.
  erewrite M_bind_eq by reflexivity. destruct (h_new_framing (k_h s)); [by left|right].
  by rewrite close_eq, He by done.
Qed.

Lemma handle_rpc_refused rpc s : client_ok s → exiting s = false → refused rpc →
  handle_rpcs [rpc] s = (Raise AttributeError, s) ∨ handle_rpcs [rpc] s = (Ok true, closed s).
Proof.
  intros Hs He Href. cbn [handle_rpcs]. set (body := try_except _ _).
  enough (∃ e, e ≠ OutOfFuel ∧ body s = (_ ← on_rpc_error rpc e; mret true) s) as (e & Hne & Hbody).
  { destruct (on_rpc_error_refused rpc e s Hs He Hne) as [Herr|Herr]; [left|right].
    - erewrite M_bind_Raise_eq; [done|]. rewrite Hbody. by erewrite M_bind_Raise_eq.
    - erewrite (M_bind_eq _ _ _ true (closed s)); [done|]. rewrite Hbody. by erewrite M_bind_eq by exact Herr. }
  unfold body, try_except. destruct Href as [Hh|[Hh|(h & Hh & Hx)]]; rewrite Hh.
  - by exists NcBadMsg.
  - by exists AttributeError.
  - exists AttributeError. split; [done|]. cbv [mbind M_bind lift]. by destruct Hx as [-> | ->].
Qed.

Lemma handle_request_outcome m s : client_ok s → opened s = true →
  match request_in m with
  | Some (rpc, r, key) => handle_request m s = (Ok false, waiting_for rpc r key s)
  | None => (∃ e, e ≠ OutOfFuel ∧ handle_request m s = (Raise e, s)) ∨ handle_request m s = (Ok true, closed s)
  end.
Proof.
  intros Hs Hop.
  assert (exiting s = false) as He.
  { destruct (exiting s) eqn:He; [|done]. pose proof (co_closed _ Hs He). congruence. }
  unfold handle_request, request_in. rewrite (M_bind_eq get_state _ s s s eq_refl), Hop. cbn [negb].
  destruct m as [t|]; [|left; by exists AttributeError].
  rewrite (M_bind_eq (lift (of_option AttributeError (Some t))) _ s t s eq_refl).
  pose proof (etree_parse_ends t) as Hends. destruct (etree_parse t) as [root|e].
  - unfold rpcs_of. case_bool_decide; [|left; by exists NcSessionError].
    pose proof (answerable_spec root ltac:(done)) as Hspec. destruct (answerable root) as [[r key]|]; cbn [fmap option_fmap option_map fst snd].
    + destruct Hspec as [Hh Hx]. cbn [handle_rpcs]. unfold try_except. cbv [mbind M_bind lift].
      rewrite Hh, Hx. done.
    + destruct (handle_rpc_refused root s Hs He Hspec) as [-> | ->]; [left; by exists AttributeError|by right].
  - destruct (decide (e = XMLSyntaxError)) as [->|Hne].
    + right. unfold malformed. erewrite M_bind_eq; [reflexivity|]. unfold try_except. cbn [lift BadMsg RPCError].
      erewrite M_bind_Raise_eq by reflexivity. rewrite bool_decide_true by done. by rewrite close_eq, He by done.
    + left. exists e. split; [congruence|]. by destruct e.
Qed.

(** The handler has returned from its loop: session removed, connection closed. *)
Definition ended (s : client) : client := (set_pc Finished (closed s)).2.

Lemma guarded_ok m s s' : m s = (Ok tt, s') → guarded m s = (Ok tt, s').
Proof. unfold guarded, try_except. by intros ->. Qed.
Lemma guarded_raise m s s' e : m s = (Raise e, s') → e ≠ OutOfFuel → client_ok s' → exiting s' = false →
  guarded m s = (Ok tt, ended s').
Proof.
  intros Hm Hne Hs He. unfold guarded, try_except. rewrite Hm.
  assert ((_ ← stop; set_pc Finished) s' = (Ok tt, ended s')) as Hstop.
  { erewrite M_bind_eq; [|rewrite stop_close, close_eq, He by done; reflexivity]. done. }
  by destruct e.
Qed.
Lemma run_loop_closed s : opened s = false → run_loop s = (Ok tt, (set_pc Finished s).2).
Proof.
  intros Ho. unfold run_loop. destruct (length _); cbn [loop];
    rewrite (M_bind_eq get_state _ s s s eq_refl), Ho; done.
Qed.

Lemma resume_request_outcome t s : client_ok s → opened s = true → exiting s = false →
  resume_request t s =
  (Ok tt, match request_in (received (h_new_framing (k_h s)) t) with
          | Some (rpc, r, key) => waiting_for rpc r key s
          | None => ended s
          end).
Proof.
  intros Hs Hop He. unfold resume_request. set (m := received _ t).
  pose proof (handle_request_outcome m s Hs Hop) as Hout. fold m in Hout.
  destruct (request_in m) as [[[rpc r] key]|].
  - apply guarded_ok. rewrite (M_bind_eq get_state _ s s s eq_refl). fold m.
    by erewrite M_bind_eq by exact Hout.
  - destruct Hout as [(e & Hne & Hreq)|Hreq].
    + eapply guarded_raise; [|exact Hne|done|done]. rewrite (M_bind_eq get_state _ s s s eq_refl). fold m.
      by erewrite M_bind_Raise_eq by exact Hreq.
    + apply guarded_ok. rewrite (M_bind_eq get_state _ s s s eq_refl). fold m.
      erewrite M_bind_eq by exact Hreq. by rewrite run_loop_closed.
Qed.

(** ** A connection that waits for requests *)

Definition any : option (text → bool) := Some (λ _, true).
Record waits (d : nat) (s : client) : Prop := {
  wt_ok : client_ok s;
  wt_pc : h_pc (k_h s) = AwaitRequest d;
  wt_rx : MessageQueue.mq_waiting (c_rx (k_conn s)) = [(d, any)];
  wt_open : opened s = true;
  wt_connected : c_connected (k_conn s) = true;
}.

Lemma waits_exiting d s : waits d s → exiting s = false.
Proof.
  intros [Hs _ _ Ho _]. destruct (exiting s) eqn:He; [|done]. pose proof (co_closed _ Hs He). congruence.
Qed.
Lemma waits_queue d s : waits d s → MessageQueue.mq_queue (c_rx (k_conn s)) = [].
Proof.
  intros [Hs _ Hw _ _]. destruct (MessageQueue.mq_queue _) as [|m l] eqn:Hq; [done|].
  pose proof (MessageQueue.ok_idle _ (co_rx _ Hs) m (d, any)) as Hidle. rewrite Hq, Hw in Hidle.
  specialize (Hidle ltac:(left) ltac:(left)). done.
Qed.

(** The connection after its Deferred has taken [data] *)
Definition taken (d : nat) (data : text) (s : client) : client :=
  mk_client (set_rx (MessageQueue.mk_mq [] []
    (MessageQueue.mq_fired (c_rx (k_conn s)) ++ [(d, MessageQueue.Callback data)])
    (MessageQueue.mq_next (c_rx (k_conn s)))) (k_conn s)) (k_h s) (k_mgr s).

Lemma data_arrives_waiting d data s : waits d s → data ≠ [] →
  data_arrives data s = resume_request data (taken d data s) ∧ client_ok (taken d data s).
Proof.
  intros Hw Hne. pose proof (waits_queue _ _ Hw) as Hq. destruct Hw as [Hs Hpc Hrx Ho Hc].
  assert (MessageQueue.put data (c_rx (k_conn s)) = (Ok tt, c_rx (k_conn (taken d data s)))) as Hput.
  { unfold MessageQueue.put. rewrite Hrx. cbn. by rewrite Hq. }
  assert (client_ok (taken d data s)) as Hs1.
  { destruct (MessageQueue.put_ok data _ (co_rx _ Hs)) as (q & Hq' & Hok). rewrite Hput in Hq'.
    injection Hq' as <-. split; [exact Hok|apply Hs|apply Hs|apply Hs]. }
  split; [|done]. unfold data_arrives.
  erewrite (M_bind_eq _ _ _ tt (taken d data s)).
  2: { unfold on_conn, dataReceived, on_rx. cbv [mbind M_bind lift]. rewrite bool_decide_false by done.
       cbn [negb assert_]. by rewrite Hput. }
  rewrite (M_bind_eq get_state _ (taken d data s) _ _ eq_refl).
  change (h_pc (k_h (taken d data s))) with (h_pc (k_h s)). rewrite Hpc.
  assert (fired_with d (taken d data s) = Some data) as ->; [|done].
  unfold fired_with. cbn. rewrite <- od_set_notin, od_get_set; [done|].
  pose proof (MessageQueue.ok_ids _ (co_rx _ Hs)) as Hnd. rewrite Hrx in Hnd.
  apply NoDup_app in Hnd as (_ & Hdis & _). apply Hdis. left.
Qed.

(** ** The answer *)

Lemma get_response_error a r e : get_response a r = Raise e → e = AttributeError.
Proof.
  unfold get_response, build_yang_response. intros Hr. pose proof (get_response_ends a r) as Hends.
  unfold get_response, build_yang_response in Hends. destruct (to_yang_xml _ ≫= _) as [n|e']; [done|].
  destruct e'; cbn in Hr, Hends; congruence.
Qed.
Lemma get_response_close a r resp : get_response a r = Ok resp → r_close_session resp = false.
Proof. unfold get_response. destruct (build_yang_response _ _); by intros [= <-]. Qed.

(** The connection after the reply [msg] was written *)
Definition sent (msg : text) (s : client) (pieces : list text) : client :=
  mk_client (mk_conn (c_rx (k_conn s)) (c_max_chunk (k_conn s)) (c_connected (k_conn s)) (c_exiting (k_conn s))
               (c_written (k_conn s) ++ ((λ p, p ++ [newline]) <$> pieces)) (c_lost (k_conn s))) (k_h s) (k_mgr s).
Lemma send_message_sent msg s : c_connected (k_conn s) = true → (64 < c_max_chunk (k_conn s))%Z →
  ∃ pieces, concat pieces = frame (h_new_framing (k_h s)) (XML_HEADER ++ msg) ∧
    send_message msg s = (Ok tt, sent msg s pieces).
Proof.
  intros Hc Hmax. unfold send_message. rewrite (M_bind_eq get_state _ s s s eq_refl). unfold on_conn.
  rewrite send_msg_eq, Hc. unfold chunkit. rewrite bool_decide_false by lia.
  set (f := frame _ _). exists (chunks (Z.to_nat (Z.of_nat (length f) / (c_max_chunk (k_conn s) - 64))) 0
    (Z.to_nat (c_max_chunk (k_conn s) - 64)) f).
  split; [apply chunks_concat|]. rewrite write_chunks_eq. reflexivity.
Qed.

Lemma run_loop_waits s : client_ok s → opened s = true → c_connected (k_conn s) = true →
  MessageQueue.mq_queue (c_rx (k_conn s)) = [] → MessageQueue.mq_waiting (c_rx (k_conn s)) = [] →
  ∃ s', run_loop s = (Ok tt, s') ∧ waits (MessageQueue.mq_next (c_rx (k_conn s))) s' ∧
    c_written (k_conn s') = c_written (k_conn s) ∧ kept s s'.
Proof.
  intros Hs Ho Hc Hq Hw. unfold run_loop. rewrite Hq. cbn [length loop].
  rewrite (M_bind_eq get_state _ s s s eq_refl), Ho. cbn [negb].
  pose proof (safe_recv always s Hs I) as (_ & Hs1 & _).
  destruct (on_conn recv s) as [r s1] eqn:Hrecv. cbn in Hs1.
  unfold on_conn in Hrecv. rewrite recv_eq, Hc in Hrecv. unfold on_rx in Hrecv. rewrite get_any, Hq, Hw in Hrecv.
  injection Hrecv as <- <-.
  rewrite (M_bind_eq (on_conn recv) _ s (MessageQueue.mq_next (c_rx (k_conn s))) _
    ltac:(unfold on_conn; rewrite recv_eq, Hc; unfold on_rx; by rewrite get_any, Hq, Hw)).
  set (s1 := mk_client _ _ _) in *. rewrite (M_bind_eq get_state _ s1 s1 s1 eq_refl).
  assert (fired_with (MessageQueue.mq_next (c_rx (k_conn s))) s1 = None) as ->.
  { unfold fired_with. cbn. rewrite (proj2 (od_get_None _ _)); [done|]. intros Hin.
    pose proof (MessageQueue.ok_next _ (co_rx _ Hs) (MessageQueue.mq_next (c_rx (k_conn s)))) as Hlt.
    rewrite elem_of_app in Hlt. specialize (Hlt (or_intror Hin)). lia. }
  eexists. split; [reflexivity|]. destruct (safe_set_pc always (AwaitRequest (MessageQueue.mq_next (c_rx (k_conn s)))) s1 Hs1 I) as (_ & Hs2 & _).
  split; [by split|]. done.
Qed.

Lemma resume_api_outcome a rpc r s :
  client_ok s → opened s = true → c_connected (k_conn s) = true → (64 < c_max_chunk (k_conn s))%Z →
  MessageQueue.mq_queue (c_rx (k_conn s)) = [] → MessageQueue.mq_waiting (c_rx (k_conn s)) = [] →
  match get_response a r with
  | Ok resp => ∃ s' d pieces, resume_api a rpc [] r s = (Ok tt, s') ∧ waits d s' ∧ kept s s' ∧
      c_written (k_conn s') = c_written (k_conn s) ++ ((λ p, p ++ [newline]) <$> pieces) ∧
      concat pieces = frame (h_new_framing (k_h s)) (XML_HEADER ++ etree_tounicode (rpc_reply (r_node resp) rpc))
  | Raise _ => resume_api a rpc [] r s = (Ok tt, ended s)
  end.
Proof.
  intros Hs Ho Hc Hmax Hq Hw.
  assert (exiting s = false) as He.
  { destruct (exiting s) eqn:He; [|done]. pose proof (co_closed _ Hs He). congruence. }
  unfold resume_api. destruct (get_response a r) as [resp|e] eqn:Hr.
  - destruct (send_message_sent (etree_tounicode (rpc_reply (r_node resp) rpc)) s Hc Hmax) as (pieces & Hcat & Hsend).
    set (s1 := sent _ s pieces) in *.
    assert (client_ok s1) as Hs1 by (split; apply Hs).
    destruct (run_loop_waits s1 Hs1 Ho Hc Hq Hw) as (s' & Hrun & Hwait & Hwr & Hk).
    exists s'. eexists. exists pieces. split_and!; [|exact Hwait|exact Hk|exact Hwr|exact Hcat].
    apply guarded_ok. erewrite (M_bind_eq _ _ s tt s1); [exact Hrun|].
    unfold try_except. erewrite M_bind_eq by reflexivity.
    unfold reply, send_rpc_reply. erewrite M_bind_eq by exact Hsend. by rewrite (get_response_close _ _ _ Hr).
  - apply get_response_error in Hr as ->. eapply (guarded_raise _ _ _ AttributeError); [|done|done|done].
    by erewrite M_bind_Raise_eq.
Qed.

(** C30: a request is answered, or it ends the session.  A connection that waits
    for requests receives a message.  If it is an [rpc] with the command [get] for
    a class that has a call, one call is made, nothing is written before its answer
    comes, and then either exactly one reply is written, with the attributes and
    namespaces of the request, and the connection waits for the next request, or no
    reply can be built from the answer.  In this case, and for every other message
    (malformed, not an [rpc], an unknown or unsupported command, a class without a
    call), nothing at all is written: the session is removed, the connection closed
    and the handler has returned.  A missing message id makes no difference. *)
Theorem request_outcome (d : nat) (data : text) (s : client) :
  waits d s → data ≠ [] → (64 < c_max_chunk (k_conn s))%Z →
  let gone (s0 s1 : client) := stopped s0 s1 ∧ c_lost (k_conn s1) = true ∧ h_pc (k_h s1) = Finished ∧
                               c_written (k_conn s1) = c_written (k_conn s0) in
  ∃ s1, run_event (Data data) s = (Ok tt, s1) ∧
  match request_in (received (h_new_framing (k_h s)) data) with
  | None => gone s s1
  | Some (rpc, r, key) =>
      h_pc (k_h s1) = AwaitApi rpc [] r key ∧ kept s s1 ∧ c_written (k_conn s1) = c_written (k_conn s) ∧
      ∀ a, ∃ s2, run_event (Answer a) s1 = (Ok tt, s2) ∧
      match get_response a r with
      | Raise _ => gone s1 s2
      | Ok resp => ∃ d' pieces, waits d' s2 ∧ kept s1 s2 ∧
          c_written (k_conn s2) = c_written (k_conn s) ++ ((λ p, p ++ [newline]) <$> pieces) ∧
          concat pieces =
            frame (h_new_framing (k_h s)) (XML_HEADER ++ etree_tounicode (rpc_reply (r_node resp) rpc))
      end
  end.
Proof.
  intros Hw Hne Hmax gone. pose proof (waits_exiting _ _ Hw) as He.
  destruct (data_arrives_waiting d data s Hw Hne) as [Hdata Hs1].
  assert (∀ s0, exiting s0 = false → opened s0 = true → gone s0 (ended s0)) as Hgone.
  { intros s0 He0 Ho0. split_and!; [by split_and!| |done|]; cbn; unfold closed_conn; by rewrite Ho0. }
  pose proof (wt_open _ _ Hw) as Ho. pose proof (wt_connected _ _ Hw) as Hc.
  eexists. split.
  { unfold run_event. rewrite (M_bind_eq get_state _ s s s eq_refl), Hdata.
    by apply resume_request_outcome. }
  change (h_new_framing (k_h (taken d data s))) with (h_new_framing (k_h s)).
  destruct (request_in _) as [[[rpc r] key]|]; [|by apply (Hgone (taken d data s))].
  split_and!; [done|done|done|]. intros a. set (s1 := waiting_for rpc r key (taken d data s)).
  assert (client_ok s1) as Hs2 by (by apply (safe_set_pc always (AwaitApi rpc [] r key) _ Hs1)).
  pose proof (resume_api_outcome a rpc r s1 Hs2 Ho Hc Hmax eq_refl eq_refl) as Hout.
  unfold run_event. setoid_rewrite (M_bind_eq get_state _ s1 s1 s1 eq_refl).
  change (h_pc (k_h s1)) with (AwaitApi rpc [] r key). cbn iota beta.
  destruct (get_response a r) as [resp|e].
  - destruct Hout as (s2 & d' & pieces & Hrun & Hwait & Hk & Hwr & Hcat). exists s2. split; [done|]. eauto 10.
  - exists (ended s1). split; [done|]. by apply Hgone.
Qed.

End requests.
End NetconfRequests.

(** ** A NETCONF session

    A serializer, a parser that knows the documents of the example, a session
    that opens and asks for the core's state, and the witnesses. *)
Import NetconfRequests.

Module NetconfDemo.

Definition quote : text := ["034"%char].
Fixpoint print (e : elem) : text :=
  let 'Elem tag nsmap attrib content children := e in
  let name := lit (default "!--" tag) in
  lit "<" ++ name ++
  flat_map (λ kv, lit " xmlns:" ++ lit kv.1 ++ lit "=" ++ quote ++ lit kv.2 ++ quote) nsmap ++
  flat_map (λ kv, lit " " ++ lit kv.1 ++ lit "=" ++ quote ++ lit kv.2 ++ quote) attrib ++
  lit ">" ++ lit (default "" content) ++ flat_map print children ++ lit "</" ++ name ++ lit ">".

(** The documents the client sends: a hello with both versions, a [get] for the
    whole, and requests the server does not support. *)
Definition nc (name : string) : option string := Some (base +:+ name).
Definition hello_tree : elem :=
  Elem (nc "hello") [] [] None
    [Elem (nc "capabilities") [] [] None
       [Elem (nc "capability") [] [] (Some NETCONF_BASE_10) []; Elem (nc "capability") [] [] (Some NETCONF_BASE_11) []]].
Definition base_ns : list (string * string) := [("", "urn:ietf:params:xml:ns:netconf:base:1.0")].
Definition rpc_tree (id : string) (body : elem) : elem :=
  Elem (nc "rpc") base_ns [("message-id", id)] None [body].
Definition get_tree : elem :=
  rpc_tree "7" (Elem (nc "get") [] [] None
    [Elem (nc "filter") [] [("type", "subtree")] None [Elem (Some (voltha +:+ "Voltha")) [] [] None []]]).
Definition close_tree : elem := rpc_tree "8" (Elem (nc "close-session") [] [] None []).
Definition documents : list (text * elem) :=
  (λ e, (print e, e)) <$> [hello_tree; get_tree; close_tree].

#[export] Instance demo_lxml : Lxml := {|
  etree_parse t :=
    match od_get t documents with
    | Some e => Ok e
    | None => if starts_with (lit "<data>") t
              then Ok (Elem (Some "data") [] [] (Some (String.string_of_list_ascii t)) [])
              else Raise XMLSyntaxError
    end;
  etree_tostring := print;
  etree_tounicode := print;
|}.
#[export] Instance demo_lxml_laws : LxmlLaws.
Proof.
  split. intros m. unfold etree_parse, demo_lxml. destruct (od_get m documents); [done|].
  by destruct (starts_with (lit "<data>") m).
Qed.

(** Two clients connect; the first one says hello and asks. *)
Definition message (t : text) : text := t ++ DELIMITER.
Definition chunked (t : text) : text := newline :: frame true t.
Definition after (i : nat) (e : event) (v : server) : server := (on_client i (run_event e) v).2.
Definition v0 : server := (client_connected "bob" (client_connected "alice" new_server).2).2.
Definition v1 : server := after 0 Start v0.
Definition v2 : server := after 0 (Data (message (print hello_tree))) v1.
Definition v3 : server := after 0 (Data (chunked (print get_tree))) v2.
Definition v4 : server := after 0 (Answer (Some (JDict [("version", JLeaf Str (Some "0.9"))]))) v3.
Definition v5 : server := after 0 (Data (chunked (print close_tree))) v4.

Lemma reachable_after i e v c h : reachable v → sv_clients v !! i = Some (c, h) →
  enabled e (mk_client c h (sv_mgr v)) = true → (on_client i (run_event e) v).1 = Ok tt →
  reachable (after i e v).
Proof.
  intros Hv Hi Hen Hr. eapply reachable_step; [exact Hv|]. eapply (step_event i e); [exact Hi|exact Hen|].
  unfold after. destruct (on_client i (run_event e) v) as [r v']. cbn in *. by subst.
Qed.
Definition client_of (v : server) (i : nat) : nc_conn * handler :=
  default (new_conn, new_handler (mk_session 0 "" false)) (sv_clients v !! i).
Lemma reachable_client i e v : reachable v → i < length (sv_clients v) →
  enabled e (mk_client (client_of v i).1 (client_of v i).2 (sv_mgr v)) = true → reachable (after i e v).
Proof.
  intros Hv Hi Hen. apply lookup_lt_is_Some in Hi as [[c h] Hi]. unfold client_of in Hen. rewrite Hi in Hen.
  eapply reachable_after; [done|done|done|].
  destruct (server_reachable_ok v Hv) as [Hok Hall].
  destruct (event_step_ok v i c h e Hok Hall Hi Hen) as (v' & -> & _). done.
Qed.

Lemma reachable_v0 : reachable v0.
Proof.
  eapply reachable_step; [eapply reachable_step; [constructor|]|]; by eapply (step_connect _).
Qed.
Lemma reachable_v1 : reachable v1.
Proof. apply (reachable_client 0 Start); [apply reachable_v0|vm_compute; lia|by vm_compute]. Qed.
Lemma reachable_v2 : reachable v2.
Proof. apply reachable_client; [apply reachable_v1|vm_compute; lia|by vm_compute]. Qed.
Lemma reachable_v3 : reachable v3.
Proof. apply reachable_client; [apply reachable_v2|vm_compute; lia|by vm_compute]. Qed.
Lemma reachable_v4 : reachable v4.
Proof. apply reachable_client; [apply reachable_v3|vm_compute; lia|by vm_compute]. Qed.
Lemma reachable_v5 : reachable v5.
Proof. apply reachable_client; [apply reachable_v4|vm_compute; lia|by vm_compute]. Qed.

(** The request to close the session has ended it, by an error; the other session
    is still held. *)
Lemma sessions_consistent_witness :
  server_ok v5 ∧ (m_sessions (sv_mgr v5), m_removed (sv_mgr v5)) = ([(2, "bob")], [1]).
Proof.
  split; [apply (proj1 (sessions_consistent v5 reachable_v5)) | vm_compute; reflexivity].
Defined.

Definition waiting_client : client :=
  mk_client (client_of v2 0).1 (client_of v2 0).2 (sv_mgr v2).
Lemma demo_waits : waits 1 waiting_client.
Proof.
  destruct (server_reachable_ok v2 reachable_v2) as [_ Hall].
  assert (sv_clients v2 !! 0 = Some (client_of v2 0)) as Hi by (vm_compute; reflexivity).
  destruct (client_of v2 0) as [c h] eqn:Hc. split.
  - unfold waiting_client. rewrite Hc. apply (bt_ok _ (Hall 0 c h Hi)).
  - vm_compute. reflexivity.
  - vm_compute. reflexivity.
  - vm_compute. reflexivity.
  - vm_compute. reflexivity.
Qed.

Lemma request_outcome_witness :
  request_in (received true (chunked (print get_tree))) =
    Some (get_tree, [("type", Some "rpc"); ("message_id", Some "7"); ("command", Some "get");
                     ("filter", Some "subtree"); ("class", Some "Voltha")], "VolthaGlobalService-GetVoltha") ∧
  ∃ s1, run_event (Data (chunked (print get_tree))) waiting_client = (Ok tt, s1) ∧
        kept waiting_client s1.
Proof.
  split; [vm_compute; reflexivity|].
  destruct (request_outcome 1 (chunked (print get_tree)) waiting_client demo_waits) as (s1 & Hrun & Hout);
    [discriminate | vm_compute; reflexivity |].
  exists s1. split; [exact Hrun|].
  assert (request_in (received (h_new_framing (k_h waiting_client)) (chunked (print get_tree))) =
    Some (get_tree, [("type", Some "rpc"); ("message_id", Some "7"); ("command", Some "get");
                     ("filter", Some "subtree"); ("class", Some "Voltha")], "VolthaGlobalService-GetVoltha"))
    as Heq by (vm_compute; reflexivity).
  rewrite Heq in Hout. destruct Hout as (_ & Hk & _). exact Hk.
Defined.

(** A [get] without a message id passes the check behind request-no-message-id
    and is answered like any other. *)
Example missing_message_id_answered :
  let rpc := Elem (nc "rpc") base_ns [] None (e_children get_tree) in
  answerable rpc =
    Some ([("type", Some "rpc"); ("message_id", None); ("command", Some "get");
           ("filter", Some "subtree"); ("class", Some "Voltha")], "VolthaGlobalService-GetVoltha") ∧
  e_attrib (rpc_reply (element "data") rpc) = [].
Proof. vm_compute. by split. Qed.

End NetconfDemo.
