(* ===== verification/LoxiWire.v ===== *)
(** * The generated OpenFlow bindings: reading and writing (ofagent/loxi)

    Every class of the bindings has a method [pack], which appends the encodings
    of its attributes and patches a length in, and a static method [unpack], which
    may hand over to a subclass registered for the value it peeks at, and then
    reads the attributes from a reader.  These methods are straight-line code over a
    few statements, and so is [pretty_print]; a class is the record [cls] of the
    statements of its methods.  [pack] and [unpack] here run them, LoxiPrint prints.  The readers are those of
    generic_util.py; a reader is represented by the bytes of its window
    (buf[start:start+length]) and its offset. *)

From Stdlib Require Import Strings.Byte.
From stdpp Require Import prelude strings list.
From S2P Require Import Prelude.

(** ** Bytes and integers (the struct module) *)

#[export] Instance byte_eq_decision : EqDecision byte := Byte.byte_eq_dec.

Definition Z_of_byte (b : byte) : Z := Z.of_N (Byte.to_N b).
Definition byte_of_Z (z : Z) : byte := default x00 (Byte.of_N (Z.to_N (z mod 256))).

(** An unsigned integer of [n] bytes, most significant byte first *)
Fixpoint be_pack (n : nat) (z : Z) : list byte :=
  match n with
  | 0 => []
  | S n => byte_of_Z (z / 256 ^ Z.of_nat n) :: be_pack n z
  end.
Definition be_unpack (l : list byte) : Z := foldl (λ a b, (a * 256 + Z_of_byte b)%Z) 0%Z l.

Definition in_range (n : nat) (z : Z) : bool := bool_decide (0 ≤ z < 256 ^ Z.of_nat n)%Z.

(** ** Python values *)

Inductive val : Type :=
  | VNone
  | VInt (z : Z)
  | VStr (s : list byte)
  | VInts (l : list Z)                 (** a list of integers, not empty *)
  | VSet (l : list Z)                  (** a set of integers, in ascending order *)
  | VList (l : list val)               (** a list of objects *)
  | VObj (cls : string) (attrs : list (string * val)).

(** ** Statements of the methods *)

(** What a method [pack] appends; [p_list_len] also writes the length of the list
    just packed over the placeholder at an index. *)
Inductive pstmt : Type :=
  | p_int (n : nat) (attr : string)
  | p_placeholder
  | p_zeros (n : nat)
  | p_raw (attr : string)
  | p_str (n : nat) (attr : string)
  | p_bytes (n : nat) (attr : string)
  | p_obj (attr : string)
  | p_list (attr : string)
  | p_list_len (attr : string) (i : nat)
  | p_checksum_128 (attr : string)
  | p_bitmap_128 (attr : string)
  | p_bitmap_512 (attr : string).

(** How [pack] ends: nothing; the length of everything is written at an index;
    the same followed by padding that does not count; or padding that counts. *)
Inductive ptail : Type :=
  | t_none
  | t_len (i : nat)
  | t_len_pad (i n : nat)
  | t_pad_len (i n : nat).

(** What [unpack] reads; [u_slice] is the length followed by the slice of that
    length, [u_sublen] a length that a later [u_sublist] uses. *)
Inductive ustmt : Type :=
  | u_check (n : nat) (z : Z)
  | u_int (n : nat) (attr : string)
  | u_slice (rewind : nat)
  | u_sublen
  | u_skip (n : nat)
  | u_rest (attr : string)
  | u_str (n : nat) (strip : bool) (attr : string)
  | u_bytes (n : nat) (attr : string)
  | u_obj (attr cls : string)
  | u_list (attr cls : string)
  | u_sublist (attr cls : string)
  | u_checksum_128 (attr : string)
  | u_bitmap_128 (attr : string)
  | u_bitmap_512 (attr : string).

(** What [pretty_print] prints of an attribute: in hexadecimal, also when it is
    unset, by the printer's method pp, or by a function of util.py. *)
Inductive qstmt : Type :=
  | q_hex (attr : string)
  | q_hex_or_none (attr : string)
  | q_pp (attr : string)
  | q_port (attr : string)
  | q_mac (attr : string)
  | q_ipv4 (attr : string)
  | q_wildcards (attr : string).

Record cls : Type := mk_cls {
  c_name : string;
  c_consts : list (string * Z);        (** class attributes *)
  c_init : list (string * val);        (** what __init__ sets without arguments *)
  c_pack : list pstmt;
  c_tail : ptail;
  c_dispatch : option (nat * nat);     (** size and offset of the peeked integer *)
  c_subtypes : list (Z * string);
  c_unpack : list ustmt;
  c_align : bool;                      (** ends with orig_reader.skip_align() *)
  c_eq : list string;                  (** the attributes that __eq__ compares *)
  c_print : list qstmt;                (** the attributes that pretty_print prints *)
}.

(** [C()] *)
Definition new_object (c : cls) : val := VObj (c_name c) (c_init c).

Module LoxiNotations.
Notation "a ↦ z" := (a, z%Z) (at level 50, only parsing).
Notation "z ⇒ a" := (z%Z, a) (at level 50, only parsing).
End LoxiNotations.

(** ** Packing *)

Definition pack_int (n : nat) (v : val) : result (list byte) :=
  match v with
  | VInt z => if in_range n z then Ok (be_pack n z) else Raise StructError
  | _ => Raise StructError
  end.
(** struct.pack("!16s", v) *)
Definition pack_str (n : nat) (v : val) : result (list byte) :=
  match v with
  | VStr s => Ok (take n s ++ replicate (n - length s) x00)
  | _ => Raise StructError
  end.
(** struct.pack("!6B", *v) *)
Definition pack_bytes (n : nat) (v : val) : result (list byte) :=
  match v with
  | VInts l =>
      if bool_decide (length l = n) && forallb (in_range 1) l then Ok (byte_of_Z <$> l) else Raise StructError
  | _ => Raise TypeError
  end.

Definition MASK64 : Z := Z.ones 64.
Definition pack_QQ (hi lo : Z) : list byte := be_pack 8 hi ++ be_pack 8 lo.
Definition pack_checksum_128 (v : val) : result (list byte) :=
  match v with
  | VInt z => Ok (pack_QQ (Z.land (Z.shiftr z 64) MASK64) (Z.land z MASK64))
  | _ => Raise TypeError
  end.
Definition pack_bitmap_128 (v : val) : result (list byte) :=
  match v with
  | VSet l =>
      if forallb (λ y, bool_decide (0 ≤ y)%Z) l then
        let x := foldl (λ x y, Z.lor x (Z.shiftl 1 y)) 0%Z l in
        Ok (pack_QQ (Z.land (Z.shiftr x 64) MASK64) (Z.land x MASK64))
      else Raise ValueError
  | _ => Raise TypeError
  end.
Definition pack_bitmap_512 (v : val) : result (list byte) :=
  match v with
  | VSet l =>
      if negb (forallb (λ y, bool_decide (y < 512)%Z) l) then Raise AssertionError
      else if negb (forallb (λ y, bool_decide (0 ≤ y)%Z) l) then Raise IndexError
      else
        let words := foldl (λ words y,
          alter (λ w, Z.lor w (Z.shiftl 1 (y mod 64))) (7 - Z.to_nat (y / 64))%nat words)%Z (replicate 8 0%Z) l in
        Ok (concat (be_pack 8 <$> words))
  | _ => Raise TypeError
  end.

(** pad_to(alignment, length) *)
Definition pad_to (alignment len : nat) : list byte :=
  replicate ((len + alignment - 1) / alignment * alignment - len) x00.

Definition set_at {A} (i : nat) (x : A) (l : list A) : result (list A) :=
  if bool_decide (i < length l) then Ok (<[i := x]> l) else Raise IndexError.

Section pack.
Context (classes : string → option cls).

(** [self.a]: an attribute of the object, or else of its class *)
Definition get_attr (c : cls) (attrs : list (string * val)) (a : string) : result val :=
  match od_get a attrs with
  | Some v => Ok v
  | None => z ← of_option AttributeError (od_get a (c_consts c)); Ok (VInt z)
  end.

Section item.
Context (pack : val → result (list byte)) (c : cls) (attrs : list (string * val)).

Definition pack_list (v : val) : result (list byte) :=
  match v with
  | VList l => bs ← mapM pack l; Ok (concat bs)
  | _ => Raise TypeError
  end.

(** The bytes a statement appends *)
Definition item_bytes (it : pstmt) : result (list byte) :=
  match it with
  | p_int n a => v ← get_attr c attrs a; pack_int n v
  | p_placeholder => Ok (be_pack 2 0)
  | p_zeros n => Ok (replicate n x00)
  | p_raw a => v ← get_attr c attrs a; match v with VStr s => Ok s | _ => Raise TypeError end
  | p_str n a => v ← get_attr c attrs a; pack_str n v
  | p_bytes n a => v ← get_attr c attrs a; pack_bytes n v
  | p_obj a => v ← get_attr c attrs a; pack v
  | p_list a | p_list_len a _ => v ← get_attr c attrs a; pack_list v
  | p_checksum_128 a => v ← get_attr c attrs a; pack_checksum_128 v
  | p_bitmap_128 a => v ← get_attr c attrs a; pack_bitmap_128 v
  | p_bitmap_512 a => v ← get_attr c attrs a; pack_bitmap_512 v
  end.

Fixpoint pack_items (its : list pstmt) (packed : list (list byte)) : result (list (list byte)) :=
  match its with
  | [] => Ok packed
  | it :: its =>
      b ← item_bytes it;
      packed ← match it with
               | p_list_len _ i => l ← pack_int 2 (VInt (Z.of_nat (length b))); set_at i l (packed ++ [b])
               | _ => Ok (packed ++ [b])
               end;
      pack_items its packed
  end.

Definition pack_tail (t : ptail) (packed : list (list byte)) : result (list (list byte)) :=
  let len := length (concat packed) in
  match t with
  | t_none => Ok packed
  | t_len i => l ← pack_int 2 (VInt (Z.of_nat len)); set_at i l packed
  | t_len_pad i n =>
      l ← pack_int 2 (VInt (Z.of_nat len)); packed ← set_at i l packed; Ok (packed ++ [pad_to n len])
  | t_pad_len i n =>
      let pad := pad_to n len in
      l ← pack_int 2 (VInt (Z.of_nat (len + length pad))); set_at i l (packed ++ [pad])
  end.

Definition pack_object : result (list byte) :=
  packed ← pack_items (c_pack c) [];
  packed ← pack_tail (c_tail c) packed;
  Ok (concat packed).
End item.

(** [v.pack()]; the fuel bounds the nesting of objects. *)
Fixpoint pack (fuel : nat) (v : val) : result (list byte) :=
  match fuel with
  | 0 => Raise OutOfFuel
  | S fuel =>
      match v with
      | VObj name attrs => c ← of_option AttributeError (classes name); pack_object (pack fuel) c attrs
      | _ => Raise AttributeError
      end
  end.
End pack.

(** ** Readers (generic_util.py) *)

Record reader : Type := mk_reader { r_buf : list byte; r_offset : nat }.

Definition r_read (n : nat) (r : reader) : result (list byte * reader) :=
  if bool_decide (length (r_buf r) < r_offset r + n) then Raise ProtocolError
  else Ok (take n (drop (r_offset r) (r_buf r)), mk_reader (r_buf r) (r_offset r + n)).
Definition r_read_all (r : reader) : list byte * reader :=
  (drop (r_offset r) (r_buf r), mk_reader (r_buf r) (length (r_buf r))).
Definition r_peek (n offset : nat) (r : reader) : result Z :=
  if bool_decide (length (r_buf r) < r_offset r + offset + n) then Raise ProtocolError
  else Ok (be_unpack (take n (drop (r_offset r + offset) (r_buf r)))).
Definition r_skip (n : nat) (r : reader) : result reader :=
  if bool_decide (length (r_buf r) < r_offset r + n) then Raise ProtocolError
  else Ok (mk_reader (r_buf r) (r_offset r + n)).
Definition r_skip_align (r : reader) : result reader :=
  let new_offset := (r_offset r + 7) / 8 * 8 in
  if bool_decide (length (r_buf r) < new_offset) then Raise ProtocolError
  else Ok (mk_reader (r_buf r) new_offset).
Definition r_is_empty (r : reader) : bool := bool_decide (r_offset r = length (r_buf r)).
(** The slice, and the reader after it *)
Definition r_slice (len rewind : nat) (r : reader) : result (reader * reader) :=
  if bool_decide (length (r_buf r) + rewind < r_offset r + len) then Raise ProtocolError
  else
    sub ← r_skip rewind (mk_reader (take len (drop (r_offset r - rewind) (r_buf r))) 0);
    Ok (sub, mk_reader (r_buf r) (r_offset r + len - rewind)).

(** ** Unpacking *)

Fixpoint unpack_bits (fuel : nat) (i x : Z) : list Z :=
  match fuel with
  | 0 => []
  | S fuel =>
      if bool_decide (x = 0)%Z then []
      else (if bool_decide (Z.land x 1 = 1)%Z then [i] else []) ++ unpack_bits fuel (i + 1) (Z.shiftr x 1)
  end.

(** s.rstrip("\x00") *)
Fixpoint rstrip (s : list byte) : list byte :=
  match s with
  | [] => []
  | b :: s =>
      match rstrip s with
      | [] => if bool_decide (b = x00) then [] else [b]
      | s' => b :: s'
      end
  end.

Record ustate : Type := mk_ustate {
  u_reader : reader;
  u_orig : option reader;              (** orig_reader *)
  u_len : nat;                         (** the local variable of [u_sublen] *)
  u_obj_attrs : list (string * val);
}.
Definition set_reader r (st : ustate) : ustate := mk_ustate r (u_orig st) (u_len st) (u_obj_attrs st).
Definition assign (a : string) (v : val) (r : reader) (st : ustate) : ustate :=
  mk_ustate r (u_orig st) (u_len st) (od_set a v (u_obj_attrs st)).

Section unpack.
Context (classes : string → option cls).

Section stmt.
Context (unpack : string → reader → result (val * reader)).

(** [unpack_list]; the fuel bounds the number of entries. *)
Fixpoint unpack_list (fuel : nat) (name : string) (r : reader) : result (list val * reader) :=
  if r_is_empty r then Ok ([], r)
  else match fuel with
  | 0 => Raise OutOfFuel
  | S fuel =>
      '(v, r) ← unpack name r;
      '(vs, r) ← unpack_list fuel name r;
      Ok (v :: vs, r)
  end.
Definition unpack_all (name : string) (r : reader) : result (list val * reader) :=
  unpack_list (length (r_buf r)) name r.

Definition unpack_stmt (s : ustmt) (st : ustate) : result ustate :=
  let r := u_reader st in
  match s with
  | u_check n z =>
      '(b, r) ← r_read n r;
      _ ← assert_ (bool_decide (be_unpack b = z));
      Ok (set_reader r st)
  | u_int n a => '(b, r) ← r_read n r; Ok (assign a (VInt (be_unpack b)) r st)
  | u_slice rewind =>
      '(b, r) ← r_read 2 r;
      '(sub, r) ← r_slice (Z.to_nat (be_unpack b)) rewind r;
      Ok (mk_ustate sub (Some r) (u_len st) (u_obj_attrs st))
  | u_sublen =>
      '(b, r) ← r_read 2 r;
      Ok (mk_ustate r (u_orig st) (Z.to_nat (be_unpack b)) (u_obj_attrs st))
  | u_skip n => r ← r_skip n r; Ok (set_reader r st)
  | u_rest a => let '(b, r) := r_read_all r in Ok (assign a (VStr b) r st)
  | u_str n strip a => '(b, r) ← r_read n r; Ok (assign a (VStr (if strip then rstrip b else b)) r st)
  | u_bytes n a => '(b, r) ← r_read n r; Ok (assign a (VInts (Z_of_byte <$> b)) r st)
  | u_obj a name => '(v, r) ← unpack name r; Ok (assign a v r st)
  | u_list a name => '(vs, r) ← unpack_all name r; Ok (assign a (VList vs) r st)
  | u_sublist a name =>
      '(sub, r) ← r_slice (u_len st) 0 r;
      '(vs, _) ← unpack_all name sub;
      Ok (assign a (VList vs) r st)
  | u_checksum_128 a =>
      '(b, r) ← r_read 16 r;
      Ok (assign a (VInt (Z.lor (Z.shiftl (be_unpack (take 8 b)) 64) (be_unpack (drop 8 b)))) r st)
  | u_bitmap_128 a =>
      '(b, r) ← r_read 16 r;
      Ok (assign a (VSet (unpack_bits 128 0 (Z.lor (Z.shiftl (be_unpack (take 8 b)) 64) (be_unpack (drop 8 b))))) r st)
  | u_bitmap_512 a =>
      '(b, r) ← r_read 64 r;
      let words := (λ i, be_unpack (take 8 (drop (8 * i) b))) <$> seq 0 8 in
      Ok (assign a (VSet (unpack_bits 512 0 (foldl (λ x w, Z.lor (Z.shiftl x 64) w) 0%Z words))) r st)
  end.

Fixpoint unpack_stmts (us : list ustmt) (st : ustate) : result ustate :=
  match us with
  | [] => Ok st
  | s :: us => st ← unpack_stmt s st; unpack_stmts us st
  end.

(** The body of [unpack], without the hand-over to a subclass *)
Definition unpack_object (c : cls) (r : reader) : result (val * reader) :=
  st ← unpack_stmts (c_unpack c) (mk_ustate r None 0 (c_init c));
  let r := default (u_reader st) (u_orig st) in
  r ← (if c_align c then r_skip_align r else Ok r);
  Ok (VObj (c_name c) (u_obj_attrs st), r).
End stmt.

(** The class that [C.unpack] hands over to; the fuel bounds the height of the
    class hierarchy. *)
Fixpoint hand_over (fuel : nat) (name : string) (r : reader) : result cls :=
  match fuel with
  | 0 => Raise OutOfFuel
  | S fuel =>
      c ← of_option AttributeError (classes name);
      match c_dispatch c with
      | None => Ok c
      | Some (n, offset) =>
          subtype ← r_peek n offset r;
          match od_get subtype (c_subtypes c) with
          | Some sub => hand_over fuel sub r
          | None => Ok c
          end
      end
  end.

Definition HIERARCHY : nat := 8.

(** [C.unpack(reader)]; the fuel bounds the nesting of objects. *)
Fixpoint unpack (fuel : nat) (name : string) (r : reader) : result (val * reader) :=
  match fuel with
  | 0 => Raise OutOfFuel
  | S fuel => c ← hand_over HIERARCHY name r; unpack_object (unpack fuel) c r
  end.

(** [C.unpack(OFReader(buf))]: every object has a byte of its own, so that the
    length of the buffer bounds the nesting. *)
Definition unpack_buffer (name : string) (buf : list byte) : result val :=
  '(v, _) ← unpack (S (length buf)) name (mk_reader buf 0); Ok v.
End unpack.

(** ** Comparing (the methods __eq__, and __ne__ of OFObject) *)

Section equal.
Context (classes : string → option cls).

Section step.
Context (equal : val → val → result bool).

Fixpoint list_equal (l k : list val) : result bool :=
  match l, k with
  | [], [] => Ok true
  | v :: l, w :: k => b ← equal v w; if b : bool then list_equal l k else Ok false
  | _, _ => Ok false
  end.

(** [if self.a != other.a: return False], for one attribute after the other *)
Fixpoint attrs_equal (c : cls) (compared : list string) (attrs attrs' : list (string * val)) : result bool :=
  match compared with
  | [] => Ok true
  | a :: compared =>
      v ← get_attr c attrs a;
      w ← get_attr c attrs' a;
      b ← equal v w;
      if b : bool then attrs_equal c compared attrs attrs' else Ok false
  end.
End step.

(** [v == w]; lists of different lengths are not equal, without a comparison of
    their entries.  The fuel bounds the nesting. *)
Fixpoint equal (fuel : nat) (v w : val) : result bool :=
  match fuel with
  | 0 => Raise OutOfFuel
  | S fuel =>
      match v, w with
      | VNone, VNone => Ok true
      | VInt z, VInt z' => Ok (bool_decide (z = z'))
      | VStr s, VStr s' => Ok (bool_decide (s = s'))
      | VInts l, VInts l' | VSet l, VSet l' => Ok (bool_decide (l = l'))
      | VList l, VList l' =>
          if bool_decide (length l = length l') then list_equal (equal fuel) l l' else Ok false
      | VObj d attrs, VObj d' attrs' =>
          if bool_decide (d ≠ d') then Ok false
          else c ← of_option AttributeError (classes d); attrs_equal (equal fuel) c (c_eq c) attrs attrs'
      | _, _ => Ok false
      end
  end.
End equal.
