(* ===== verification/LoxiSpec.v ===== *)
(** * The OpenFlow bindings: what is packed is unpacked again

    [class_ok] compares the statements of the two methods of a class.  For classes
    that pass, unpacking the bytes of an object gives the object back; this is
    proved once, for every table of classes. *)

From Stdlib Require Import Strings.Byte.
From stdpp Require Import prelude strings list.
From S2P Require Import Prelude LoxiWire.

(** ** Integers *)

Lemma Z_of_byte_range b : (0 ≤ Z_of_byte b < 256)%Z.
Proof. unfold Z_of_byte. pose proof (Byte.to_N_bounded b). lia. Qed.

Lemma Z_of_byte_of_Z z : Z_of_byte (byte_of_Z z) = (z mod 256)%Z.
Proof.
  unfold Z_of_byte, byte_of_Z. pose proof (Z.mod_pos_bound z 256 ltac:(lia)) as Hz.
  destruct (Byte.of_N (Z.to_N (z mod 256))) as [b|] eqn:Hb.
  - cbn. apply Byte.to_of_N in Hb. rewrite Hb. lia.
  - apply Byte.of_N_None_iff in Hb. lia.
Qed.

Lemma byte_of_Z_of_byte b : byte_of_Z (Z_of_byte b) = b.
Proof.
  unfold byte_of_Z. pose proof (Z_of_byte_range b). rewrite Z.mod_small by lia.
  unfold Z_of_byte. by rewrite N2Z.id, Byte.of_to_N.
Qed.

Lemma length_be_pack n z : length (be_pack n z) = n.
Proof. induction n as [|n IH]; [done|]. cbn. by rewrite IH. Qed.

Lemma be_unpack_from a l :
  foldl (λ a b, (a * 256 + Z_of_byte b)%Z) a l = (a * 256 ^ Z.of_nat (length l) + be_unpack l)%Z.
Proof.
  unfold be_unpack. revert a. induction l as [|b l IH]; intros a; cbn [foldl length].
  - rewrite Z.pow_0_r. lia.
  - rewrite IH, (IH (0 * 256 + _)%Z). rewrite Nat2Z.inj_succ, Z.pow_succ_r by lia. ring.
Qed.

Lemma be_unpack_app l k : be_unpack (l ++ k) = (be_unpack l * 256 ^ Z.of_nat (length k) + be_unpack k)%Z.
Proof. unfold be_unpack at 1. rewrite foldl_app. by rewrite be_unpack_from. Qed.

Lemma be_unpack_range l : (0 ≤ be_unpack l < 256 ^ Z.of_nat (length l))%Z.
Proof.
  induction l as [|b l IH] using rev_ind; [done|].
  rewrite be_unpack_app, length_app. cbn [length]. change (256 ^ Z.of_nat 1)%Z with 256%Z.
  rewrite Nat.add_1_r, Nat2Z.inj_succ, Z.pow_succ_r by lia.
  change (be_unpack [b]) with (0 * 256 + Z_of_byte b)%Z. pose proof (Z_of_byte_range b). lia.
Qed.

Lemma be_unpack_mod n z : be_unpack (be_pack n z) = (z mod 256 ^ Z.of_nat n)%Z.
Proof.
  induction n as [|n IH].
  - cbn. by rewrite Z.mod_1_r.
  - cbn [be_pack]. change (?x :: ?y) with ([x] ++ y). rewrite be_unpack_app, IH, length_be_pack.
    change (be_unpack [?b]) with (0 * 256 + Z_of_byte b)%Z. rewrite Z_of_byte_of_Z.
    rewrite Nat2Z.inj_succ, Z.pow_succ_r by lia.
    pose proof (Z.pow_pos_nonneg 256 (Z.of_nat n) ltac:(lia) ltac:(lia)).
    rewrite (Z.mul_comm 256), Z.rem_mul_r by lia. ring.
Qed.

Lemma be_unpack_pack n z : in_range n z = true → be_unpack (be_pack n z) = z.
Proof. intros Hr%bool_decide_eq_true. rewrite be_unpack_mod. by apply Z.mod_small. Qed.

Lemma pack_int_Ok n v b : pack_int n v = Ok b → ∃ z, v = VInt z ∧ in_range n z = true ∧ b = be_pack n z.
Proof. destruct v; try done. cbn. destruct (in_range n z) eqn:Hr; [|done]. intros [= <-]. eauto. Qed.

(** ** Padding *)

Lemma pad_to_length n len : n ≠ 0 → (len + length (pad_to n len)) mod n = 0.
Proof.
  intros Hn. unfold pad_to. rewrite length_replicate.
  pose proof (Nat.div_mod (len + n - 1) n Hn) as Hd. pose proof (Nat.mod_upper_bound (len + n - 1) n Hn).
  replace (len + ((len + n - 1) / n * n - len)) with ((len + n - 1) / n * n) by lia. by apply Nat.Div0.mod_mul.
Qed.

Lemma align_pad o len :
  o mod 8 = 0 → (o + len + 7) / 8 * 8 = o + len + length (pad_to 8 len).
Proof.
  intros Ho. unfold pad_to. rewrite length_replicate.
  pose proof (Nat.div_mod (len + 8 - 1) 8 ltac:(lia)). pose proof (Nat.mod_upper_bound (len + 8 - 1) 8 ltac:(lia)).
  apply Nat.Div0.mod_divides in Ho as [q ->].
  replace (8 * q + len + 7) with (len + 7 + q * 8) by lia. rewrite Nat.div_add by lia.
  replace (len + 8 - 1) with (len + 7) in * by lia. lia.
Qed.

(** ** Strings *)

Lemma rstrip_zeros s n : rstrip (s ++ replicate n x00) = rstrip s.
Proof.
  induction s as [|b s IH]; cbn [app rstrip].
  - induction n as [|n IH]; [done|]. cbn [replicate rstrip]. by rewrite IH.
  - by rewrite IH.
Qed.

(** ** Checksums *)

Lemma checksum_back z :
  in_range 16 z = true →
  Z.lor (Z.shiftl (be_unpack (be_pack 8 (Z.land (Z.shiftr z 64) MASK64))) 64)
        (be_unpack (be_pack 8 (Z.land z MASK64))) = z.
Proof.
  intros Hr%bool_decide_eq_true. change (256 ^ Z.of_nat 16)%Z with (2 ^ 128)%Z in Hr.
  unfold MASK64. rewrite !be_unpack_mod. change (256 ^ Z.of_nat 8)%Z with (2 ^ 64)%Z.
  rewrite !Z.land_ones, !Zmod_mod by lia. rewrite Z.shiftr_div_pow2 by lia.
  rewrite (Z.mod_small (z / 2 ^ 64)).
  2: { split; [apply Z.div_pos; lia|]. apply Z.div_lt_upper_bound; lia. }
  apply Z.bits_inj'. intros i Hi. rewrite Z.lor_spec, Z.shiftl_spec by lia.
  destruct (decide (i < 64)%Z).
  - rewrite Z.testbit_neg_r by lia. cbn. by rewrite Z.mod_pow2_bits_low by lia.
  - rewrite Z.mod_pow2_bits_high by lia. rewrite orb_false_r, Z.div_pow2_bits by lia. f_equal. lia.
Qed.

(** ** Sets of integers as bits *)

Lemma unpack_bits_filter n i x :
  (0 ≤ x < 2 ^ Z.of_nat n)%Z →
  unpack_bits n i x = filter (λ k, Z.testbit x (k - i) = true) (seqZ i (Z.of_nat n)).
Proof.
  revert i x. induction n as [|n IH]; intros i x Hx; [done|].
  rewrite Nat2Z.inj_succ in *. rewrite Z.pow_succ_r in Hx by lia.
  rewrite seqZ_cons, Z.pred_succ, filter_cons by lia. rewrite Z.sub_diag. cbn [unpack_bits].
  assert (filter (λ k, Z.testbit x (k - i) = true) (seqZ (Z.succ i) (Z.of_nat n)) =
          filter (λ k, Z.testbit (Z.shiftr x 1) (k - (i + 1)) = true) (seqZ (i + 1) (Z.of_nat n))) as ->.
  { change (Z.succ i) with (i + 1)%Z.
    generalize (λ k (Hk : k ∈ seqZ (i + 1) (Z.of_nat n)), proj1 (elem_of_seqZ _ _ _) Hk).
    induction (seqZ (i + 1) (Z.of_nat n)) as [|k l IHl]; intros Hl; [done|].
    assert (Z.testbit (Z.shiftr x 1) (k - (i + 1)) = Z.testbit x (k - i)) as Hk.
    { rewrite Z.shiftr_spec by (specialize (Hl k ltac:(left)); lia). f_equal. lia. }
    rewrite !filter_cons, Hk, IHl; [done|]. intros k' Hk'. apply Hl. by right. }
  assert (0 ≤ Z.shiftr x 1 < 2 ^ Z.of_nat n)%Z as Hs.
  { rewrite Z.shiftr_div_pow2 by lia. change (2 ^ 1)%Z with 2%Z. split; [apply Z.div_pos; lia|].
    apply Z.div_lt_upper_bound; lia. }
  rewrite <- (IH (i + 1)%Z (Z.shiftr x 1) Hs).
  assert (Z.land x 1 = if Z.testbit x 0 then 1 else 0)%Z as Hl.
  { change 1%Z with (Z.ones 1) at 1. rewrite Z.land_ones by lia. change (2 ^ 1)%Z with 2%Z.
    rewrite Z.bit0_odd, Zmod_odd. done. }
  rewrite Hl. case_bool_decide as H0.
  - subst x. cbn [Z.testbit]. rewrite decide_False by done. by destruct n.
  - destruct (Z.testbit x 0).
    + by rewrite bool_decide_eq_true_2, decide_True.
    + by rewrite bool_decide_eq_false_2, decide_False.
Qed.

Lemma bounded_bits x n :
  (0 ≤ x)%Z → (0 ≤ n)%Z → (∀ i, (n ≤ i)%Z → Z.testbit x i = false) → (0 ≤ x < 2 ^ n)%Z.
Proof.
  intros Hx Hn Hb. assert (x = x mod 2 ^ n)%Z as ->; [|apply Z.mod_pos_bound, Z.pow_pos_nonneg; lia].
  apply Z.bits_inj'. intros i Hi. destruct (decide (i < n)%Z).
  - by rewrite Z.mod_pow2_bits_low by lia.
  - rewrite Z.mod_pow2_bits_high by lia. apply Hb. lia.
Qed.

(** The integers of [l] as the bits of [x], read back *)
Lemma bits_back n l x :
  (0 ≤ x)%Z → filter (.∈ l) (seqZ 0 (Z.of_nat n)) = l →
  (∀ i, (0 ≤ i)%Z → Z.testbit x i = bool_decide (i ∈ l)) →
  (0 ≤ x < 2 ^ Z.of_nat n)%Z ∧ unpack_bits n 0 x = l.
Proof.
  intros Hx Hl Hb. assert (∀ i, i ∈ l → (0 ≤ i < Z.of_nat n)%Z) as Hin.
  { intros i Hi. rewrite <- Hl in Hi. apply list_elem_of_filter in Hi as [_ Hi%elem_of_seqZ]. lia. }
  assert (0 ≤ x < 2 ^ Z.of_nat n)%Z as Hr.
  { apply bounded_bits; [done|lia|]. intros i Hi. rewrite Hb by lia. apply bool_decide_eq_false. intros H%Hin. lia. }
  split; [done|]. rewrite unpack_bits_filter by done. rewrite <- Hl at 1.
  assert (∀ k, k ∈ seqZ 0 (Z.of_nat n) → (Z.testbit x (k - 0) = true ↔ k ∈ l)) as Hk.
  { intros k Hk%elem_of_seqZ. rewrite Z.sub_0_r, Hb by lia. apply bool_decide_eq_true. }
  revert Hk. generalize (seqZ 0 (Z.of_nat n)). intros ks. clear. induction ks as [|k ks IH]; intros Hk; [done|].
  rewrite !filter_cons, IH by (intros k' ?; apply Hk; by right). pose proof (Hk k ltac:(left)).
  do 2 case_decide; tauto.
Qed.

Lemma mask_bits l x i :
  Forall (λ y, 0 ≤ y)%Z l → (0 ≤ i)%Z →
  Z.testbit (foldl (λ x y, Z.lor x (Z.shiftl 1 y)) x l) i = Z.testbit x i || bool_decide (i ∈ l).
Proof.
  intros Hl Hi. revert x. induction Hl as [|y l Hy Hl IH]; intros x; cbn [foldl].
  { by rewrite bool_decide_eq_false_2, orb_false_r by apply not_elem_of_nil. }
  rewrite IH, Z.lor_spec, Z.shiftl_1_l, Z.pow2_bits_eqb by done.
  rewrite <- orb_assoc. f_equal. apply eq_bool_prop_intro. rewrite orb_True, !bool_decide_spec, elem_of_cons.
  rewrite Is_true_true, Z.eqb_eq. naive_solver.
Qed.

Lemma forallb_nonneg l : forallb (λ y, bool_decide (0 ≤ y)%Z) l = true → Forall (λ y, 0 ≤ y)%Z l.
Proof. intros Hl. rewrite forallb_forall in Hl. apply Forall_forall. intros y Hy%list_elem_of_In%Hl. by apply bool_decide_eq_true in Hy. Qed.

Lemma mask_nonneg l x : (0 ≤ x)%Z → Forall (λ y, 0 ≤ y)%Z l → (0 ≤ foldl (λ x y, Z.lor x (Z.shiftl 1 y)) x l)%Z.
Proof.
  intros Hx Hl. revert x Hx. induction Hl as [|y l Hy Hl IH]; intros x Hx; [done|]. cbn. apply IH.
  apply Z.lor_nonneg. split; [done|]. by apply Z.shiftl_nonneg.
Qed.

Lemma pack_QQ_halves hi lo : take 8 (pack_QQ hi lo) = be_pack 8 hi ∧ drop 8 (pack_QQ hi lo) = be_pack 8 lo.
Proof.
  unfold pack_QQ. pose proof (length_be_pack 8 hi) as Hl. split.
  - by apply take_app_length'.
  - by apply drop_app_length'.
Qed.

Lemma bitmap_128_back l b :
  pack_bitmap_128 (VSet l) = Ok b → filter (.∈ l) (seqZ 0 128) = l →
  length b = 16 ∧
  unpack_bits 128 0 (Z.lor (Z.shiftl (be_unpack (take 8 b)) 64) (be_unpack (drop 8 b))) = l.
Proof.
  unfold pack_bitmap_128. destruct (forallb _ l) eqn:Hl; [|done]. apply forallb_nonneg in Hl. intros [= <-] Hasc.
  split; [unfold pack_QQ; by rewrite length_app, !length_be_pack|].
  set (x := foldl _ 0%Z l). destruct (pack_QQ_halves (Z.land (Z.shiftr x 64) MASK64) (Z.land x MASK64)) as [-> ->].
  destruct (bits_back 128 l x) as [Hr Hu].
  - by apply mask_nonneg.
  - done.
  - intros i Hi. unfold x. rewrite mask_bits by done. by rewrite Z.bits_0.
  - rewrite checksum_back; [done|]. unfold in_range. apply bool_decide_eq_true. exact Hr.
Qed.

(** The words of a bitmap, most significant first *)
Definition join_words (ws : list Z) : Z := foldl (λ x w, Z.lor (Z.shiftl x 64) w) 0%Z ws.
Definition word (w : Z) : Prop := (0 ≤ w < 2 ^ 64)%Z.

Lemma join_words_nonneg ws : Forall word ws → (0 ≤ join_words ws)%Z.
Proof.
  unfold join_words. induction ws as [|w ws IH] using rev_ind; [done|]. intros [Hws Hw]%Forall_app.
  rewrite foldl_app. cbn. apply Z.lor_nonneg. apply Forall_singleton in Hw as [Hw _].
  split; [|done]. apply Z.shiftl_nonneg. by apply IH.
Qed.

Lemma word_high w i : word w → (64 ≤ i)%Z → Z.testbit w i = false.
Proof. intros Hw Hi. rewrite <- (Z.mod_small w (2 ^ 64)) by apply Hw. by apply Z.mod_pow2_bits_high. Qed.

Lemma join_words_high ws i :
  Forall word ws → (64 * Z.of_nat (length ws) ≤ i)%Z → Z.testbit (join_words ws) i = false.
Proof.
  revert i. unfold join_words. induction ws as [|w ws IH] using rev_ind; intros i Hws Hi; [apply Z.bits_0|].
  apply Forall_app in Hws as [Hws [Hw _]%Forall_cons]. rewrite foldl_app. cbn [foldl].
  rewrite length_app in Hi. cbn [length] in Hi. rewrite Z.lor_spec, Z.shiftl_spec by lia.
  rewrite IH by (done || lia). by rewrite word_high by (done || lia).
Qed.

Lemma join_words_bits ws i :
  Forall word ws → (0 ≤ i < 64 * Z.of_nat (length ws))%Z →
  Z.testbit (join_words ws) i =
  Z.testbit (default 0%Z (ws !! (length ws - 1 - Z.to_nat (i / 64)))) (i mod 64).
Proof.
  revert i. unfold join_words. induction ws as [|w ws IH] using rev_ind; intros i Hws Hi; [cbn in Hi; lia|].
  apply Forall_app in Hws as [Hws [Hw _]%Forall_cons]. rewrite foldl_app. cbn [foldl].
  rewrite length_app in *. cbn [length] in *. rewrite Z.lor_spec, Z.shiftl_spec by lia.
  destruct (decide (i < 64)%Z) as [Hlt|Hge].
  - rewrite Z.testbit_neg_r by lia. rewrite Z.div_small, Z.mod_small by lia.
    replace (length ws + 1 - 1 - Z.to_nat 0) with (length ws) by lia. by rewrite list_lookup_middle.
  - rewrite IH, (word_high w), orb_false_r by (done || lia).
    replace (i / 64)%Z with ((i - 64) / 64 + 1)%Z by (rewrite <- Z.div_add by lia; f_equal; lia).
    replace (i mod 64)%Z with ((i - 64) mod 64)%Z by (rewrite <- (Z.mod_add (i - 64) 1) by lia; f_equal; lia).
    assert (0 ≤ (i - 64) / 64)%Z by (apply Z.div_pos; lia).
    assert ((i - 64) / 64 < Z.of_nat (length ws))%Z by (apply Z.div_lt_upper_bound; lia).
    rewrite lookup_app_l by lia. do 3 f_equal. lia.
Qed.

(** What [pack_bitmap_512] collects *)
Definition add_word (words : list Z) (y : Z) : list Z :=
  alter (λ w, Z.lor w (Z.shiftl 1 (y mod 64))) (7 - Z.to_nat (y / 64)) words.

Lemma word_set w r : word w → (0 ≤ r < 64)%Z → word (Z.lor w (Z.shiftl 1 r)).
Proof.
  intros [Hw Hw'] Hr. apply bounded_bits; [|lia|].
  - apply Z.lor_nonneg. split; [done|]. by apply Z.shiftl_nonneg.
  - intros i Hi. rewrite Z.lor_spec, Z.shiftl_1_l, Z.pow2_bits_eqb by lia.
    rewrite (proj2 (Z.eqb_neq r i)), orb_false_r by lia. by apply word_high.
Qed.

Lemma add_words_bits l ws :
  Forall (λ y, 0 ≤ y < 512)%Z l → length ws = 8 → Forall word ws →
  let ws' := foldl add_word ws l in
  length ws' = 8 ∧ Forall word ws' ∧
  ∀ i, (0 ≤ i < 512)%Z →
    Z.testbit (default 0%Z (ws' !! (7 - Z.to_nat (i / 64)))) (i mod 64) =
    Z.testbit (default 0%Z (ws !! (7 - Z.to_nat (i / 64)))) (i mod 64) || bool_decide (i ∈ l).
Proof.
  intros Hl. revert ws. induction Hl as [|y l Hy Hl IH]; intros ws Hlen Hws; cbn [foldl].
  { split_and!; [done..|]. intros i _. by rewrite bool_decide_eq_false_2, orb_false_r by apply not_elem_of_nil. }
  destruct (IH (add_word ws y)) as (Hlen' & Hws' & Hbits).
  - unfold add_word. by rewrite length_alter.
  - unfold add_word. apply Forall_alter; [done|]. intros w _ Hw. apply word_set; [done|]. apply Z.mod_pos_bound. lia.
  - split_and!; [done..|]. intros i Hi. rewrite Hbits by done. clear Hbits.
    rewrite (bool_decide_ext (i ∈ y :: l) (i = y ∨ i ∈ l)), bool_decide_or by apply elem_of_cons.
    rewrite (orb_assoc _ (bool_decide (i = y))). f_equal. unfold add_word.
    pose proof (Z.mod_pos_bound i 64 ltac:(lia)). pose proof (Z.mod_pos_bound y 64 ltac:(lia)).
    assert (0 ≤ i / 64 < 8)%Z by (split; [apply Z.div_pos; lia|apply Z.div_lt_upper_bound; lia]).
    assert (0 ≤ y / 64 < 8)%Z by (split; [apply Z.div_pos; lia|apply Z.div_lt_upper_bound; lia]).
    pose proof (Z.div_mod i 64 ltac:(lia)). pose proof (Z.div_mod y 64 ltac:(lia)).
    destruct (decide (i / 64 = y / 64)%Z) as [Hq|Hq].
    + rewrite Hq, list_lookup_alter_eq. destruct (lookup_lt_is_Some_2 ws (7 - Z.to_nat (y / 64))) as [w ->]; [lia|].
      cbn. rewrite Z.lor_spec, Z.shiftl_1_l, Z.pow2_bits_eqb by lia. f_equal.
      apply eq_bool_prop_intro. rewrite bool_decide_spec, Is_true_true, Z.eqb_eq. lia.
    + rewrite list_lookup_alter_ne by lia. rewrite bool_decide_eq_false_2, orb_false_r; [done|]. by intros ->.
Qed.

Lemma words_back ws :
  Forall word ws →
  (λ i, be_unpack (take 8 (drop (8 * i) (concat (be_pack 8 <$> ws))))) <$> seq 0 (length ws) = ws.
Proof.
  induction ws as [|w ws IH]; intros Hws; [done|]. apply Forall_cons in Hws as [Hw Hws].
  cbn [length seq]. rewrite <- fmap_S_seq. rewrite fmap_cons, <- list_fmap_compose.
  rewrite fmap_cons. cbn [concat]. f_equal.
  - rewrite Nat.mul_0_r, drop_0, take_app_length' by (by rewrite length_be_pack). rewrite be_unpack_pack; [done|].
    unfold in_range. apply bool_decide_eq_true. exact Hw.
  - rewrite <- IH at 2 by done. apply list_fmap_ext. intros _ i _. unfold compose. do 2 f_equal.
    replace (8 * S i) with (length (be_pack 8 w) + 8 * i) by (rewrite length_be_pack; lia).
    by rewrite drop_app_add.
Qed.

Lemma bitmap_512_back l b :
  pack_bitmap_512 (VSet l) = Ok b → filter (.∈ l) (seqZ 0 512) = l →
  length b = 64 ∧
  unpack_bits 512 0 (join_words ((λ i, be_unpack (take 8 (drop (8 * i) b))) <$> seq 0 8)) = l.
Proof.
  unfold pack_bitmap_512. intros Hb Hasc.
  assert (Forall (λ y, 0 ≤ y < 512)%Z l) as Hl.
  { apply Forall_forall. intros y Hy. rewrite <- Hasc in Hy. apply list_elem_of_filter in Hy as [_ Hy%elem_of_seqZ]. lia. }
  assert (∃ ws, b = concat (be_pack 8 <$> ws) ∧ ws = foldl add_word (replicate 8 0%Z) l) as (ws & -> & Hws).
  { repeat (destruct (negb _); [done|]). injection Hb as <-. eauto. }
  destruct (add_words_bits l (replicate 8 0%Z) Hl) as (Hlen & Hwords & Hbits); [done| |].
  { repeat constructor; done. }
  rewrite <- Hws in *. split.
  { do 8 (destruct ws as [|? ws]; [done|]). destruct ws; [|done]. cbn [fmap list_fmap concat].
    rewrite !length_app, !length_be_pack. done. }
  replace (seq 0 8) with (seq 0 (length ws)) by (by rewrite Hlen).
  rewrite words_back by done.
  apply (bits_back 512 l (join_words ws)); [by apply join_words_nonneg|done|].
  intros i Hi. destruct (decide (i < 512)%Z).
  - rewrite join_words_bits by (rewrite ?Hlen; done || lia). rewrite Hlen. cbn [Nat.sub].
    rewrite Hbits by lia. destruct (lookup_lt_is_Some_2 (replicate 8 0%Z) (7 - Z.to_nat (i / 64))) as [w Hw]; [cbn; lia|].
    rewrite Hw. apply lookup_replicate in Hw as [-> _]. cbn. by rewrite Z.bits_0.
  - rewrite bool_decide_eq_false_2; [|intros H; rewrite Forall_forall in Hl; specialize (Hl i H); lia].
    apply join_words_high; [done|]. rewrite Hlen. lia.
Qed.

(** ** Comparing the methods of a class *)

Section spec.
Context (classes : string → option cls).

(** No class that [name] can hand over to ends with skip_align *)
Fixpoint align_free (fuel : nat) (name : string) : bool :=
  match fuel with
  | 0 => false
  | S fuel =>
      match classes name with
      | Some c => negb (c_align c) && forallb (λ zs, align_free fuel zs.2) (c_subtypes c)
      | None => false
      end
  end.
(** Objects whose class does *)
Definition obj_aligned (v : val) : bool :=
  match v with
  | VObj d _ => match classes d with Some c => c_align c | None => false end
  | _ => false
  end.

Definition list_lens (its : list pstmt) : list nat :=
  omap (λ it, match it with p_list_len _ i => Some i | _ => None end) its.
(** The index of the placeholder for the length of a list *)
Definition sub_index (c : cls) : option nat := head (list_lens (c_pack c)).
(** The index of the placeholder for the length of the object *)
Definition main_index (c : cls) : option nat :=
  match c_tail c with t_none => None | t_len i | t_len_pad i _ | t_pad_len i _ => Some i end.

Definition is_placeholder (it : option pstmt) : bool :=
  match it with Some p_placeholder => true | _ => false end.
Definition is_slice (k : nat) (u : option ustmt) : bool :=
  match u with Some (u_slice n) => bool_decide (n = k) | _ => false end.
Definition is_attr (c : cls) (a : string) : bool := bool_decide (a ∈ od_keys (c_init c)).
Definition aligned (off : option nat) : bool :=
  match off with Some o => bool_decide (o mod 8 = 0) | None => false end.

(** The number of bytes a statement reads, when it is fixed *)
Definition stmt_size (u : ustmt) : option nat :=
  match u with
  | u_check n _ | u_int n _ | u_skip n | u_str n _ _ | u_bytes n _ => Some n
  | u_slice _ | u_sublen => Some 2
  | u_checksum_128 _ | u_bitmap_128 _ => Some 16
  | u_bitmap_512 _ => Some 64
  | _ => None
  end.
Definition advance (off : option nat) (u : ustmt) : option nat :=
  o ← off; n ← stmt_size u; Some (o + n).

Section agree.
Context (c : cls) (last : bool).     (** [last]: the reader ends where the object does *)

Definition item_agrees (off : option nat) (j : nat) (it : pstmt) (u : ustmt) (final : bool) : bool :=
  match it, u with
  | p_int n a, u_check m z =>
      bool_decide (n = m) && negb (is_attr c a) && bool_decide (od_get a (c_consts c) = Some z) && in_range n z
  | p_int n a, u_int m b => bool_decide (n = m) && bool_decide (a = b) && is_attr c a
  | p_placeholder, u_sublen => bool_decide (sub_index c = Some j) && bool_decide (main_index c ≠ Some j)
  | p_zeros n, u_skip m => bool_decide (n = m)
  | p_raw a, u_rest b => bool_decide (a = b) && is_attr c a && last && final
  | p_str n a, u_str m _ b => bool_decide (n = m) && bool_decide (a = b) && is_attr c a
  | p_bytes n a, u_bytes m b => bool_decide (n = m) && bool_decide (a = b) && is_attr c a
  | p_obj a, u_obj b k => bool_decide (a = b) && is_attr c a && (align_free HIERARCHY k || aligned off)
  | p_list a, u_list b k =>
      bool_decide (a = b) && is_attr c a && last && final &&
      (align_free HIERARCHY k || aligned off)
  | p_list_len a i, u_sublist b k =>
      bool_decide (a = b) && is_attr c a && bool_decide (sub_index c = Some i) && bool_decide (i < j)
  | p_checksum_128 a, u_checksum_128 b => bool_decide (a = b) && is_attr c a
  | p_bitmap_128 a, u_bitmap_128 b => bool_decide (a = b) && is_attr c a
  | p_bitmap_512 a, u_bitmap_512 b => bool_decide (a = b) && is_attr c a
  | _, _ => false
  end.

Fixpoint agree (off : option nat) (j : nat) (its : list pstmt) (us : list ustmt) : bool :=
  match its, us with
  | [], [] => true
  | it :: its, u :: us =>
      item_agrees off j it u (bool_decide (us = [])) && agree (advance off u) (S j) its us
  | _, _ => false
  end.
End agree.

Definition assigned (u : ustmt) : option string :=
  match u with
  | u_int _ a | u_rest a | u_str _ _ a | u_bytes _ a | u_obj a _ | u_list a _ | u_sublist a _
  | u_checksum_128 a | u_bitmap_128 a | u_bitmap_512 a => Some a
  | _ => None
  end.
Definition fixed_size (us : list ustmt) : nat := sum_list (omap stmt_size us).

Definition all_sized (us : list ustmt) : bool := forallb (λ u, bool_decide (stmt_size u ≠ None)) us.

Definition class_ok (c : cls) : bool :=
  let '(its, us) := (c_pack c, c_unpack c) in
  bool_decide (NoDup (od_keys (c_init c))) &&
  forallb (λ a, bool_decide (a ∈ omap assigned us)) (od_keys (c_init c)) &&
  forallb (λ i, is_placeholder (its !! i)) (list_lens its) &&
  bool_decide (length (list_lens its) ≤ 1) &&
  match main_index c with
  | None => agree c false None 0 its us && negb (c_align c) && all_sized us && bool_decide (fixed_size us ≠ 0)
  | Some m =>
      let k := fixed_size (take m us) + 2 in
      is_placeholder (its !! m) &&
      is_slice k (us !! m) &&
      bool_decide (sub_index c ≠ Some m) &&
      all_sized (take m us) &&
      agree c false None 0 (take m its) (take m us) &&
      agree c (match c_tail c with t_pad_len _ _ => false | _ => true end) (Some k) (S m)
        (drop (S m) its) (drop (S m) us) &&
      match c_tail c with t_len_pad _ n => c_align c && bool_decide (n = 8) | _ => negb (c_align c) end
  end.

(** ** Objects that survive *)

(** The bytes of the objects of a class, when all have the same number of them *)
Definition item_size (it : pstmt) : option nat :=
  match it with p_int n _ | p_zeros n | p_bytes n _ => Some n | _ => None end.
Definition object_size (c : cls) : option nat :=
  match c_tail c with
  | t_none => foldr (λ it n, m ← item_size it; k ← n; Some (m + k)) (Some 0) (c_pack c)
  | _ => None
  end.
Definition value_size (v : val) : option nat :=
  match v with VObj d _ => c ← classes d; object_size c | _ => None end.

(** The integer that the method [pack] writes at an offset *)
Fixpoint header_int (c : cls) (attrs : list (string * val)) (its : list pstmt) (n off : nat) : option Z :=
  match its with
  | p_int m a :: its =>
      match off with
      | 0 => if bool_decide (n = m) then
               match get_attr c attrs a with Ok (VInt z) => Some z | _ => None end
             else None
      | _ => if bool_decide (m ≤ off) then header_int c attrs its n (off - m) else None
      end
  | p_placeholder :: its => if bool_decide (2 ≤ off) then header_int c attrs its n (off - 2) else None
  | p_zeros m :: its => if bool_decide (m ≤ off) then header_int c attrs its n (off - m) else None
  | p_obj a :: its =>
      m ← od_get a attrs ≫= value_size;
      if bool_decide (m ≤ off) then header_int c attrs its n (off - m) else None
  | _ => None
  end.

(** Unpacking an object of class [c] as a [name] ends up in class [c]. *)
Fixpoint routes (fuel : nat) (name : string) (c : cls) (attrs : list (string * val)) : bool :=
  match fuel with
  | 0 => false
  | S fuel =>
      match classes name with
      | Some k =>
          match c_dispatch k with
          | None => bool_decide (name = c_name c)
          | Some (n, off) =>
              match header_int c attrs (c_pack c) n off with
              | Some z =>
                  match od_get z (c_subtypes k) with
                  | Some sub => routes fuel sub c attrs
                  | None => bool_decide (name = c_name c)
                  end
              | None => false
              end
          end
      | None => false
      end
  end.

(** The integers of a set, in ascending order *)
Definition ascending (n : Z) (l : list Z) : bool := bool_decide (filter (.∈ l) (seqZ 0 n) = l).

Definition attr_ok (wf : string → val → bool) (attrs : list (string * val)) (u : ustmt) : bool :=
  match u with
  | u_str n strip a =>
      match od_get a attrs with
      | Some (VStr s) =>
          if strip then bool_decide (length s ≤ n) && bool_decide (rstrip s = s) else bool_decide (length s = n)
      | _ => false
      end
  | u_obj a k => match od_get a attrs with Some v => wf k v | None => false end
  | u_list a k | u_sublist a k =>
      match od_get a attrs with
      | Some (VList l) => forallb (wf k) l && (align_free HIERARCHY k || forallb obj_aligned l)
      | _ => false
      end
  | u_checksum_128 a => match od_get a attrs with Some (VInt z) => in_range 16 z | _ => false end
  | u_bitmap_128 a => match od_get a attrs with Some (VSet l) => ascending 128 l | _ => false end
  | u_bitmap_512 a => match od_get a attrs with Some (VSet l) => ascending 512 l | _ => false end
  | _ => true
  end.

(** The objects that can be unpacked as a [name]: their class passes the check and
    is the one the dispatch finds, they have the attributes of their class, fixed
    strings fit and have no trailing zeros where these are stripped, and nested
    objects are of the classes that are expected; where some of these end at a
    multiple of eight bytes, all entries of a list do. *)
Fixpoint wf (fuel : nat) (name : string) (v : val) : bool :=
  match fuel, v with
  | S fuel, VObj d attrs =>
      match classes d with
      | Some c =>
          class_ok c && bool_decide (c_name c = d) && bool_decide (od_keys attrs = od_keys (c_init c)) &&
          routes HIERARCHY name c attrs && forallb (attr_ok (wf fuel) attrs) (c_unpack c)
      | None => false
      end
  | _, _ => false
  end.
End spec.
