(* ===== verification/LoxiRoundtrip.v ===== *)
(** * The OpenFlow bindings: proof of the round trip

    First what [pack_object] writes, statement by statement, with the lengths that
    are patched in; then that each statement of [unpack] reads back what the
    statement of [pack] it was compared with has written; then objects, by
    induction on their nesting. *)

From Stdlib Require Import Strings.Byte.
From stdpp Require Import prelude strings list.
From S2P Require Import Prelude LoxiWire LoxiSpec.

(** Conjunctions of boolean checks *)
Ltac split_checks :=
  repeat match goal with
  | H : _ && _ = true |- _ => apply andb_true_iff in H as [? ?]
  | H : bool_decide _ = true |- _ => apply bool_decide_eq_true in H
  | H : negb _ = true |- _ => apply negb_true_iff in H
  end.

Lemma omap_unique {A B} (f : A → option B) l x y u v :
  length (omap f l) ≤ 1 → x ∈ l → y ∈ l → f x = Some u → f y = Some v → x = y.
Proof.
  induction l as [|z l IH]; cbn; [by intros _ ?%not_elem_of_nil|]. intros Hlen Hx Hy Hfx Hfy.
  assert (∀ w t, w ∈ l → f w = Some t → 0 < length (omap f l)) as Hpos.
  { intros w t Hw Ht. destruct (omap f l) eqn:Ho; [|cbn; lia]. exfalso. apply (not_elem_of_nil t).
    rewrite <- Ho. apply list_elem_of_omap. eauto. }
  apply elem_of_cons in Hx as [-> |Hx], Hy as [-> |Hy]; [done| | |].
  - rewrite Hfx in Hlen. cbn in Hlen. pose proof (Hpos y v Hy Hfy). lia.
  - rewrite Hfy in Hlen. cbn in Hlen. pose proof (Hpos x u Hx Hfx). lia.
  - apply IH; try done. destruct (f z); cbn in Hlen; lia.
Qed.

(** ** What is packed *)

Section chunks.
Context (pack : val → result (list byte)) (c : cls) (attrs : list (string * val)).

Definition patches (its : list pstmt) (bs : list (list byte)) : list (nat * list byte) :=
  omap (λ p, match p.1 with p_list_len _ i => Some (i, be_pack 2 (Z.of_nat (length p.2))) | _ => None end)
    (zip its bs).
Definition apply_patches (ps : list (nat * list byte)) (l : list (list byte)) : list (list byte) :=
  foldl (λ l p, <[p.1 := p.2]> l) l ps.

Lemma set_at_Ok {A} i (x : A) l l' : set_at i x l = Ok l' → i < length l ∧ l' = <[i := x]> l.
Proof. unfold set_at. case_bool_decide; [|done]. by intros [= <-]. Qed.

Lemma pack_items_Ok its packed fc :
  pack_items pack c attrs its packed = Ok fc →
  ∃ bs, Forall2 (λ it b, item_bytes pack c attrs it = Ok b) its bs ∧
    fc = apply_patches (patches its bs) (packed ++ bs) ∧
    Forall (λ p, ∃ a b, p_list_len a p.1 ∈ its ∧ b ∈ bs ∧ item_bytes pack c attrs (p_list_len a p.1) = Ok b ∧
              p.2 = be_pack 2 (Z.of_nat (length b)) ∧ in_range 2 (Z.of_nat (length b)) = true) (patches its bs).
Proof.
  revert packed. induction its as [|it its IH]; intros packed; cbn [pack_items].
  { intros [= <-]. exists []. rewrite app_nil_r. split_and!; [by constructor|done|by constructor]. }
  intros (b & Hb & (p1 & Hp1 & Hfc)%result_bind_Ok)%result_bind_Ok.
  destruct (IH _ Hfc) as (bs & Hbs & Heq & Hps). exists (b :: bs).
  assert (Forall (λ p, ∃ a b0, p_list_len a p.1 ∈ it :: its ∧ b0 ∈ b :: bs ∧
    item_bytes pack c attrs (p_list_len a p.1) = Ok b0 ∧
    p.2 = be_pack 2 (Z.of_nat (length b0)) ∧ in_range 2 (Z.of_nat (length b0)) = true) (patches its bs)) as Hps'.
  { eapply Forall_impl; [exact Hps|]. cbn. intros p (a & b0 & ? & ? & ? & ? & ?). exists a, b0.
    split_and!; try done; by apply elem_of_cons; right. }
  split; [by constructor|].
  assert (match it with p_list_len _ _ => False | _ => True end → p1 = packed ++ [b]) as Hplain.
  { destruct it; try (by intros _; injection Hp1 as <-). done. }
  destruct (match it with p_list_len _ _ => true | _ => false end) eqn:Hit.
  - destruct it; try done. apply result_bind_Ok in Hp1 as (l & Hl & [Hi ->]%set_at_Ok).
    apply pack_int_Ok in Hl as (z & [= <-] & Hr & ->). split.
    + change (patches (p_list_len attr i :: its) (b :: bs))
        with ((i, be_pack 2 (Z.of_nat (length b))) :: patches its bs).
      rewrite Heq. cbn [apply_patches foldl]. fold apply_patches. unfold apply_patches.
      f_equal. cbn. rewrite <- insert_app_l by done. by rewrite <- (assoc_L (++)).
    + constructor; [|exact Hps']. exists attr, b. split_and!; try done; left.
  - assert (patches (it :: its) (b :: bs) = patches its bs) as -> by (by destruct it).
    split; [|done]. rewrite Heq, Hplain by (by destruct it). by rewrite <- (assoc_L (++)).
Qed.

Lemma patches_keys its bs :
  Forall2 (λ it b, item_bytes pack c attrs it = Ok b) its bs → (patches its bs).*1 = list_lens its.
Proof.
  induction 1 as [|it b its bs _ _ IH]; [done|]. unfold patches, list_lens in *.
  destruct it; cbn [zip zip_with omap list_omap fst snd fmap list_fmap]; rewrite ?IH; done.
Qed.

(** A chunk of the finished message: the bytes of a statement, or a length where
    there was a placeholder *)
Definition chunk (L S : nat) (j : nat) (it : pstmt) : result (list byte) :=
  match it with
  | p_placeholder =>
      Ok (be_pack 2 (if bool_decide (main_index c = Some j) then Z.of_nat L
                     else if bool_decide (sub_index c = Some j) then Z.of_nat S else 0%Z))
  | _ => item_bytes pack c attrs it
  end.
Definition chunks (L S : nat) (j : nat) (its : list pstmt) (bs : list (list byte)) : Prop :=
  length bs = length its ∧
  ∀ k it, its !! k = Some it → ∃ b, bs !! k = Some b ∧ chunk L S (j + k) it = Ok b.

Lemma chunks_cons L S j it its bs :
  chunks L S j (it :: its) bs →
  ∃ b bs', bs = b :: bs' ∧ chunk L S j it = Ok b ∧ chunks L S (Datatypes.S j) its bs'.
Proof.
  intros [Hlen Hk]. destruct bs as [|b bs']; [done|]. exists b, bs'. split; [done|].
  destruct (Hk 0 it eq_refl) as (b0 & [= <-] & Hb). rewrite Nat.add_0_r in Hb. split; [done|].
  split; [by injection Hlen|]. intros k it' Hit'. destruct (Hk (Datatypes.S k) it' Hit') as (b' & Hb' & Hc).
  exists b'. split; [done|]. by replace (Datatypes.S j + k) with (j + Datatypes.S k) by lia.
Qed.

Lemma chunks_app L S j l1 l2 bs :
  chunks L S j (l1 ++ l2) bs →
  ∃ b1 b2, bs = b1 ++ b2 ∧ chunks L S j l1 b1 ∧ chunks L S (j + length l1) l2 b2.
Proof.
  revert j bs. induction l1 as [|it l1 IH]; intros j bs Hc.
  - exists [], bs. rewrite Nat.add_0_r. split_and!; [done| |done]. by split.
  - cbn in Hc. apply chunks_cons in Hc as (b & bs' & -> & Hb & Hc).
    destruct (IH _ _ Hc) as (b1 & b2 & -> & H1 & H2). exists (b :: b1), b2. split_and!; [done| |].
    + destruct H1 as [Hl H1]. split; [cbn; by rewrite Hl|]. intros [|k] it' Hk.
      * injection Hk as <-. exists b. by rewrite Nat.add_0_r.
      * destruct (H1 k it' Hk) as (b' & Hb' & Hc'). exists b'. split; [done|].
        by replace (j + Datatypes.S k) with (Datatypes.S j + k) by lia.
    + cbn. by replace (j + Datatypes.S (length l1)) with (Datatypes.S j + length l1) by lia.
Qed.

Lemma concat_insert_length (l : list (list byte)) i x y :
  l !! i = Some x → length x = length y → length (concat (<[i := y]> l)) = length (concat l).
Proof.
  intros Hi Hxy. rewrite <- (take_drop_middle l i x Hi) at 2. rewrite insert_take_drop by by eapply lookup_lt_Some.
  rewrite !concat_app, !length_app. cbn. rewrite !length_app. lia.
Qed.

Lemma is_placeholder_Some (o : option pstmt) : is_placeholder o = true → o = Some p_placeholder.
Proof. by destruct o as [[]|]. Qed.

(** What holds of the lists, before the length of the object is known *)
Lemma pack_items_chunks classes fc :
  class_ok classes c = true → pack_items pack c attrs (c_pack c) [] = Ok fc →
  ∃ S, in_range 2 (Z.of_nat S) = true ∧ length fc = length (c_pack c) ∧
    (∀ j it, c_pack c !! j = Some it → ∃ b, fc !! j = Some b ∧
       (main_index c ≠ Some j → chunk 0 S j it = Ok b) ∧ (it = p_placeholder → length b = 2)) ∧
    (∀ a i b, p_list_len a i ∈ c_pack c → item_bytes pack c attrs (p_list_len a i) = Ok b → length b = S).
Proof.
  intros Hok (bs & Hbs & Hfc & Hps)%pack_items_Ok. pose proof (patches_keys _ _ Hbs) as Hkeys.
  unfold class_ok in Hok. split_checks. rewrite app_nil_l in Hfc.
  pose proof (Forall2_length _ _ _ Hbs) as Hlen.
  assert (∀ j it, c_pack c !! j = Some it → ∃ b, bs !! j = Some b ∧ item_bytes pack c attrs it = Ok b) as Hplain.
  { intros j it Hj. destruct (Forall2_lookup_l _ _ _ _ _ Hbs Hj) as (b & ? & ?). eauto. }
  destruct (list_lens (c_pack c)) as [|i [|? ?]] eqn:Hll; [| |cbn in *; lia].
  - destruct (patches (c_pack c) bs) eqn:Hp; [|done]. cbn in Hfc. subst fc. exists 0.
    split_and!; [done|done| |].
    + intros j it Hj. destruct (Hplain j it Hj) as (b & Hb & Hib). exists b. split_and!; [done| |].
      * intros Hm. destruct it; try done. injection Hib as <-. unfold chunk.
        rewrite bool_decide_eq_false_2 by done. destruct (bool_decide (sub_index c = Some j)); reflexivity.
      * intros ->. by injection Hib as <-.
    + intros a i b Hin. exfalso. apply (not_elem_of_nil i). rewrite <- Hll. unfold list_lens.
      apply list_elem_of_omap. by exists (p_list_len a i).
  - destruct (patches (c_pack c) bs) as [|[i' x] [|? ?]] eqn:Hp; [done| |done]. injection Hkeys as ->.
    apply Forall_singleton in Hps as (a & b & Hin & _ & Hb & Hx & Hr). cbn [fst snd] in *. subst x.
    unfold apply_patches in Hfc. cbn [foldl fst snd] in Hfc. subst fc.
    assert (c_pack c !! i = Some p_placeholder) as Hi.
    { apply is_placeholder_Some. cbn in *. by split_checks. }
    assert (sub_index c = Some i) as Hsub by (unfold sub_index; by rewrite Hll).
    assert (∀ a' i', p_list_len a' i' ∈ c_pack c → i' = i) as Hone.
    { intros a' i' Hin'. apply list_elem_of_singleton. rewrite <- Hll. apply list_elem_of_omap. by exists (p_list_len a' i'). }
    exists (length b). split_and!; [done|by rewrite length_insert| |].
    + intros j it Hj. destruct (Hplain j it Hj) as (b' & Hb' & Hib).
      destruct (decide (j = i)) as [->|Hne].
      * rewrite Hi in Hj. injection Hj as <-. eexists. rewrite list_lookup_insert_eq by by eapply lookup_lt_Some.
        split_and!; [done| |done]. intros Hm. cbn [chunk].
        by rewrite bool_decide_eq_false_2, bool_decide_eq_true_2 by done.
      * rewrite list_lookup_insert_ne by done. exists b'. split_and!; [done| |].
        -- intros Hm. destruct it; try done. injection Hib as <-. cbn [chunk].
           rewrite !bool_decide_eq_false_2; [done| |done]. rewrite Hsub. congruence.
        -- intros ->. by injection Hib as <-.
    + intros a' i' b' Hin' Hb'. pose proof (Hone a' i' Hin') as ->.
      assert (p_list_len a' i = p_list_len a i) as Heq; [|by rewrite Heq, Hb in Hb'; injection Hb' as ->].
      refine (omap_unique (λ it, match it with p_list_len _ i => Some i | _ => None end)
                (c_pack c) _ _ i i _ Hin' Hin eq_refl eq_refl).
      change (length (list_lens (c_pack c)) ≤ 1). by rewrite Hll.
Qed.

(** What [pack_object] writes *)
Lemma pack_object_chunks classes bs :
  class_ok classes c = true → pack_object pack c attrs = Ok bs →
  ∃ L S fc pad, chunks L S 0 (c_pack c) fc ∧ bs = concat fc ++ pad ∧ in_range 2 (Z.of_nat S) = true ∧
    (∀ a i b, p_list_len a i ∈ c_pack c → item_bytes pack c attrs (p_list_len a i) = Ok b → length b = S) ∧
    (main_index c ≠ None → in_range 2 (Z.of_nat L) = true) ∧
    match c_tail c with
    | t_none => pad = []
    | t_len _ => pad = [] ∧ L = length (concat fc)
    | t_len_pad _ n => pad = pad_to n L ∧ L = length (concat fc)
    | t_pad_len _ n => L = length (concat fc ++ pad)
    end.
Proof.
  intros Hok (fc1 & Hpk & (fc2 & Ht & [= <-])%result_bind_Ok)%result_bind_Ok.
  destruct (pack_items_chunks classes fc1 Hok Hpk) as (S & HS & Hlen & Hfc & Hsub).
  unfold class_ok in Hok. split_checks. rename select (match main_index c with _ => _ end = true) into Hm.
  destruct (main_index c) as [m|] eqn:Hmi.
  2: { unfold main_index in Hmi. destruct (c_tail c); try done. injection Ht as <-.
       exists 0, S, fc1, []. rewrite app_nil_r. split_and!; try done.
       split; [done|]. intros k it Hk. destruct (Hfc k it Hk) as (b & Hb & Hc & _). exists b. split; [done|]. by apply Hc. }
  split_checks. rename select (is_placeholder (c_pack c !! m) = true) into Hph.
  apply is_placeholder_Some in Hph. destruct (Hfc m _ Hph) as (b0 & Hb0 & _ & Hl0). specialize (Hl0 eq_refl).
  assert (∀ L, chunks L S 0 (c_pack c) (<[m := be_pack 2 (Z.of_nat L)]> fc1)) as Hch.
  { intros L. split; [by rewrite length_insert|]. intros k it Hk. cbn [Nat.add].
    destruct (Hfc k it Hk) as (b & Hb & Hc & _). destruct (decide (k = m)) as [-> |Hne].
    - rewrite Hph in Hk. injection Hk as <-. eexists.
      rewrite list_lookup_insert_eq by by eapply lookup_lt_Some. split; [done|]. unfold chunk.
      by rewrite Hmi, bool_decide_eq_true_2.
    - rewrite list_lookup_insert_ne by done. exists b. split; [done|].
      rewrite <- Hc by congruence. unfold chunk. destruct it; try done.
      by rewrite Hmi, !(bool_decide_eq_false_2 (Some m = Some k)) by congruence. }
  assert (∀ L, length (concat (<[m := be_pack 2 (Z.of_nat L)]> fc1)) = length (concat fc1)) as Hcl.
  { intros L. apply concat_insert_length with (x := b0); [done|]. by rewrite length_be_pack. }
  unfold main_index in Hmi. destruct (c_tail c) as [|i|i n|i n] eqn:Htail; try done; injection Hmi as ->; unfold pack_tail in Ht; cbv zeta in Ht.
  - apply result_bind_Ok in Ht as (l & (z & [= <-] & Hr & ->)%pack_int_Ok & [_ ->]%set_at_Ok).
    exists (length (concat fc1)), S. eexists _, []. rewrite app_nil_r, Hcl. by split_and!.
  - apply result_bind_Ok in Ht as (l & (z & [= <-] & Hr & ->)%pack_int_Ok & Ht).
    apply result_bind_Ok in Ht as (fc & [_ ->]%set_at_Ok & [= <-]).
    exists (length (concat fc1)), S. eexists _, _. rewrite concat_app, Hcl. cbn [concat]. rewrite app_nil_r.
    by split_and!.
  - apply result_bind_Ok in Ht as (l & (z & [= <-] & Hr & ->)%pack_int_Ok & [_ ->]%set_at_Ok).
    rewrite insert_app_l, concat_app by by eapply lookup_lt_Some. cbn [concat]. rewrite app_nil_r.
    eexists _, S, _, _. split; [apply Hch|]. split; [done|]. rewrite length_app, Hcl. by split_and!.
Qed.
End chunks.

(** ** Readers in front of the bytes they are to read *)

Lemma r_read_at pre b post :
  r_read (length b) (mk_reader (pre ++ b ++ post) (length pre)) =
  Ok (b, mk_reader (pre ++ b ++ post) (length pre + length b)).
Proof.
  unfold r_read. cbn. rewrite bool_decide_eq_false_2 by (rewrite !length_app; lia).
  by rewrite drop_app_length, take_app_length.
Qed.

Lemma r_skip_at pre b post :
  r_skip (length b) (mk_reader (pre ++ b ++ post) (length pre)) =
  Ok (mk_reader (pre ++ b ++ post) (length pre + length b)).
Proof. unfold r_skip. cbn. by rewrite bool_decide_eq_false_2 by (rewrite !length_app; lia). Qed.

Lemma r_read_all_at pre b :
  r_read_all (mk_reader (pre ++ b ++ []) (length pre)) = (b, mk_reader (pre ++ b ++ []) (length pre + length b)).
Proof. unfold r_read_all. cbn. by rewrite app_nil_r, drop_app_length, length_app. Qed.

(** A slice without rewinding *)
Lemma r_slice_at pre b post :
  r_slice (length b) 0 (mk_reader (pre ++ b ++ post) (length pre)) =
  Ok (mk_reader b 0, mk_reader (pre ++ b ++ post) (length pre + length b)).
Proof.
  unfold r_slice, r_skip. cbn [r_buf r_offset]. rewrite bool_decide_eq_false_2 by (rewrite !length_app; lia).
  rewrite !Nat.sub_0_r, drop_app_length, take_app_length. by rewrite bool_decide_eq_false_2 by lia.
Qed.

(** The slice of an object whose header has been read *)
Lemma r_slice_object pre hdr body post :
  r_slice (length hdr + length body) (length hdr) (mk_reader (pre ++ (hdr ++ body) ++ post) (length pre + length hdr)) =
  Ok (mk_reader (hdr ++ body) (length hdr),
      mk_reader (pre ++ (hdr ++ body) ++ post) (length pre + (length hdr + length body))).
Proof.
  unfold r_slice, r_skip. cbn [r_buf r_offset]. rewrite bool_decide_eq_false_2 by (rewrite !length_app; lia).
  rewrite Nat.add_sub, drop_app_length, (take_app_length' (hdr ++ body)) by (by rewrite length_app). cbn.
  rewrite bool_decide_eq_false_2 by (rewrite length_app; lia). cbn [mbind result_bind]. do 3 f_equal. lia.
Qed.

(** ** Attributes *)

Lemma od_set_same_keys {V} (a : string) (v : V) d : a ∈ od_keys d → od_keys (od_set a v d) = od_keys d.
Proof. apply od_set_keys_in. Qed.

Lemma od_ext {V} (d d' : list (string * V)) :
  NoDup (od_keys d) → od_keys d = od_keys d' → (∀ a, a ∈ od_keys d → od_get a d = od_get a d') → d = d'.
Proof.
  revert d'. induction d as [|[a v] d IH]; intros [|[a' v'] d']; cbn; try done.
  intros [Ha Hd]%NoDup_cons [= <- Hk] Hg. f_equal.
  - specialize (Hg a ltac:(left)). rewrite !decide_True in Hg by done. by injection Hg as ->.
  - apply IH; [done..|]. intros b Hb. specialize (Hg b ltac:(by right)).
    assert (a ≠ b) by (intros ->; done). by rewrite !decide_False in Hg by done.
Qed.

Section attrs.
Context (c : cls) (attrs : list (string * val)) (Hkeys : od_keys attrs = od_keys (c_init c)).

Lemma attr_get a : is_attr c a = true → ∃ v, od_get a attrs = Some v ∧ get_attr c attrs a = Ok v.
Proof.
  intros Ha%bool_decide_eq_true. rewrite <- Hkeys in Ha. destruct (od_get a attrs) as [v|] eqn:Hv.
  - exists v. unfold get_attr. by rewrite Hv.
  - by apply od_get_None in Hv.
Qed.

Lemma const_get a z : is_attr c a = false → od_get a (c_consts c) = Some z → get_attr c attrs a = Ok (VInt z).
Proof.
  intros Ha%bool_decide_eq_false Hz. rewrite <- Hkeys in Ha. unfold get_attr.
  apply od_get_None in Ha. by rewrite Ha, Hz.
Qed.
End attrs.

(** ** Statement by statement *)

Section stmt.
Context (classes : string → option cls).
Context (packf : val → result (list byte)) (unpackf : string → reader → result (val * reader)).
Context (wff : string → val → bool) (bound : nat).

(** Reading an entry in front of [post] *)
Definition reads (k : string) (v : val) (b : list byte) : Prop :=
  b ≠ [] ∧ (obj_aligned classes v = true → length b mod 8 = 0) ∧
  ∀ pre post, align_free classes HIERARCHY k = true ∨ length pre mod 8 = 0 →
    unpackf k (mk_reader (pre ++ b ++ post) (length pre)) =
    Ok (v, mk_reader (pre ++ b ++ post) (length pre + length b)).

(** What is known of nested objects *)
Context (Hnested : ∀ k v b, wff k v = true → packf v = Ok b → length b ≤ bound → reads k v b).

Lemma unpack_list_run k l bs pre fuel :
  Forall2 (reads k) l bs → align_free classes HIERARCHY k = true ∨ length pre mod 8 = 0 →
  align_free classes HIERARCHY k = true ∨ Forall (λ v, obj_aligned classes v = true) l →
  length (concat bs) ≤ fuel →
  unpack_list unpackf fuel k (mk_reader (pre ++ concat bs) (length pre)) =
  Ok (l, mk_reader (pre ++ concat bs) (length pre + length (concat bs))).
Proof.
  intros Hl. revert pre fuel. induction Hl as [|v b l bs (Hne & Hal & Hrd) Hl IH]; intros pre fuel Hpre Hall Hf.
  { destruct fuel; cbn [unpack_list]; unfold r_is_empty; cbn; rewrite app_nil_r, Nat.add_0_r;
      by rewrite bool_decide_eq_true_2. }
  cbn [concat] in *. rewrite length_app in Hf. destruct b as [|b0 b']; [done|]. set (b := b0 :: b') in *.
  destruct fuel as [|fuel]; [cbn in Hf; lia|]. cbn [unpack_list]. unfold r_is_empty. cbn [r_buf r_offset].
  rewrite bool_decide_eq_false_2 by (rewrite !length_app; cbn; lia). rewrite Hrd by done. cbn [mbind result_bind].
  assert (align_free classes HIERARCHY k = true ∨ length (pre ++ b) mod 8 = 0) as Hpre'.
  { destruct Hpre as [?|Hpre]; [by left|]. destruct Hall as [?|[Hv _]%Forall_cons]; [by left|]. right.
    rewrite length_app. specialize (Hal Hv). rewrite Nat.Div0.add_mod, Hpre, Hal. done. }
  rewrite <- length_app, (assoc_L (++)). rewrite IH; [|done| |cbn in Hf; lia].
  - cbn [mbind result_bind]. do 3 f_equal. rewrite !length_app. lia.
  - destruct Hall as [?|[_ ?]%Forall_cons]; auto.
Qed.

Lemma pack_list_entries k v b :
  pack_list packf v = Ok b → length b ≤ bound →
  match v with VList l => forallb (wff k) l | _ => false end = true →
  ∃ l bs, v = VList l ∧ b = concat bs ∧ Forall2 (reads k) l bs.
Proof.
  intros Hp Hb Hwf. destruct v as [| | | | |l|]; try done. cbn in Hp.
  apply result_bind_Ok in Hp as (bs & Hbs & [= <-]). exists l, bs. split_and!; [done..|].
  apply mapM_Ok in Hbs. revert Hb Hwf.
  induction Hbs as [|v b l bs Hvb Hbs IH]; intros Hb Hwf; [constructor|].
  cbn in Hb, Hwf. rewrite length_app in Hb. apply andb_true_iff in Hwf as [Hv Hl]. constructor.
  - apply Hnested; [done..|lia].
  - apply IH; [lia|done].
Qed.

Context (c : cls) (attrs : list (string * val)) (Hkeys : od_keys attrs = od_keys (c_init c)).
Context (L S : nat) (HS : in_range 2 (Z.of_nat S) = true).
Context (Hlens : ∀ a i b, p_list_len a i ∈ c_pack c → item_bytes packf c attrs (p_list_len a i) = Ok b → length b = S).

(** The state before statement [j] *)
Record ready (j : nat) (r : reader) (st : ustate) : Prop := {
  ready_reader : u_reader st = r;
  ready_len i : sub_index c = Some i → i < j → u_len st = S;
  ready_keys : od_keys (u_obj_attrs st) = od_keys (c_init c);
}.

(** The attributes assigned so far are those of the object. *)
Definition keeps (u : ustmt) (st st' : ustate) : Prop :=
  u_orig st' = u_orig st ∧
  ∀ a, od_get a (u_obj_attrs st') =
    (if bool_decide (assigned u = Some a) then od_get a attrs else od_get a (u_obj_attrs st)).

Lemma assign_ready j r r' st a v u :
  ready j r st → is_attr c a = true → od_get a attrs = Some v → assigned u = Some a → sub_index c ≠ Some j →
  ready (Datatypes.S j) r' (assign a v r' st) ∧ keeps u st (assign a v r' st).
Proof.
  intros [Hr Hl Hk] Ha%bool_decide_eq_true Hv Hu Hj. split; [split|split]; cbn.
  - done.
  - intros i Hi Hij. apply (Hl i Hi). assert (i ≠ j) by congruence. lia.
  - rewrite <- Hk. apply od_set_keys_in. by rewrite Hk.
  - done.
  - intros a'. rewrite Hu. case_bool_decide as Heq.
    + injection Heq as <-. by rewrite od_get_set, Hv.
    + rewrite od_get_set_ne by congruence. done.
Qed.

Lemma skip_ready j r r' st u :
  ready j r st → assigned u = None → sub_index c ≠ Some j →
  ready (Datatypes.S j) r' (set_reader r' st) ∧ keeps u st (set_reader r' st).
Proof.
  intros [Hr Hl Hk] Hu Hj. split; [split|split]; cbn; try done.
  - intros i Hi Hij. apply (Hl i Hi). assert (i ≠ j) by congruence. lia.
  - intros a. by rewrite Hu.
Qed.

(** What is needed to read back the bytes [b] of statement [j] *)
Definition item_goal (j : nat) (u : ustmt) (b : list byte) (pre post : list byte) (st : ustate) : Prop :=
  ∃ st', unpack_stmt unpackf u st = Ok st' ∧
    ready (Datatypes.S j) (mk_reader (pre ++ b ++ post) (length pre + length b)) st' ∧ keeps u st st' ∧
    (∀ n, stmt_size u = Some n → length b = n).

(** Statements that read [n] bytes into an attribute *)
Lemma read_goal j u n a f b pre post st :
  ready j (mk_reader (pre ++ b ++ post) (length pre)) st →
  unpack_stmt unpackf u st = ('(b', r) ← r_read n (u_reader st); Ok (assign a (f b') r st)) →
  length b = n → is_attr c a = true → od_get a attrs = Some (f b) → assigned u = Some a → stmt_size u = Some n →
  sub_index c ≠ Some j → item_goal j u b pre post st.
Proof.
  intros Hr Hu <- Ha Hv Has Hsz Hj. exists (assign a (f b) (mk_reader (pre ++ b ++ post) (length pre + length b)) st).
  destruct (assign_ready j _ (mk_reader (pre ++ b ++ post) (length pre + length b)) st a _ u Hr Ha Hv Has Hj) as [H1 H2].
  split_and!; [|done|done|by intros n [= <-]%(eq_trans (eq_sym Hsz))].
  by rewrite Hu, (ready_reader _ _ _ Hr), r_read_at.
Qed.

Context (Hsub : ∀ i, sub_index c = Some i → c_pack c !! i = Some p_placeholder).

Lemma not_sub j it : c_pack c !! j = Some it → it ≠ p_placeholder → sub_index c ≠ Some j.
Proof. intros Hj Hit Hs. apply Hsub in Hs. congruence. Qed.

(** Integers *)
Lemma int_goal j n a b pre post st :
  ready j (mk_reader (pre ++ b ++ post) (length pre)) st → c_pack c !! j = Some (p_int n a) →
  item_bytes packf c attrs (p_int n a) = Ok b → is_attr c a = true → item_goal j (u_int n a) b pre post st.
Proof.
  intros Hr Hj Hb Ha. destruct (attr_get c attrs Hkeys a Ha) as (v & Hv & Hg). cbn in Hb. rewrite Hg in Hb.
  apply pack_int_Ok in Hb as (z & -> & Hz & ->).
  apply (read_goal j _ n a (λ b, VInt (be_unpack b))); try done.
  - apply length_be_pack.
  - by rewrite be_unpack_pack.
  - by eapply not_sub.
Qed.

Lemma check_goal j n a z b pre post st :
  ready j (mk_reader (pre ++ b ++ post) (length pre)) st → c_pack c !! j = Some (p_int n a) →
  item_bytes packf c attrs (p_int n a) = Ok b → is_attr c a = false → od_get a (c_consts c) = Some z →
  item_goal j (u_check n z) b pre post st.
Proof.
  intros Hr Hj Hb Ha Hz. cbn in Hb. rewrite (const_get c attrs Hkeys a z Ha Hz) in Hb.
  cbn [mbind result_bind] in Hb.
  apply pack_int_Ok in Hb as (z' & [= <-] & Hrz & ->).
  destruct (skip_ready j _ (mk_reader (pre ++ be_pack n z ++ post) (length pre + length (be_pack n z))) st
    (u_check n z) Hr eq_refl) as [H1 H2]; [by eapply not_sub|].
  eexists. split_and!; [|exact H1|exact H2|intros m [= <-]; apply length_be_pack].
  cbn. rewrite (ready_reader _ _ _ Hr). rewrite <- (length_be_pack n z) at 1. rewrite r_read_at.
  cbn [mbind result_bind]. rewrite be_unpack_pack by done. by rewrite bool_decide_eq_true_2.
Qed.

(** Strings of fixed size, lists of bytes, checksums and bitmaps *)
Lemma str_goal j n strip a b pre post st :
  ready j (mk_reader (pre ++ b ++ post) (length pre)) st → c_pack c !! j = Some (p_str n a) →
  item_bytes packf c attrs (p_str n a) = Ok b → is_attr c a = true →
  attr_ok classes wff attrs (u_str n strip a) = true → item_goal j (u_str n strip a) b pre post st.
Proof.
  intros Hr Hj Hb Ha Hok. destruct (attr_get c attrs Hkeys a Ha) as (v & Hv & Hg). cbn in Hb, Hok.
  rewrite Hg in Hb. rewrite Hv in Hok. destruct v as [| |s| | | |]; try done. injection Hb as <-.
  assert (length s ≤ n) as Hlen by (destruct strip; split_checks; lia).
  apply (read_goal j _ n a (λ b, VStr (if strip then rstrip b else b))); try done.
  - rewrite length_app, length_take, length_replicate. lia.
  - rewrite Hv. do 2 f_equal. rewrite take_ge by done. destruct strip; split_checks.
    + by rewrite rstrip_zeros.
    + replace (n - length s) with 0 by lia. by rewrite app_nil_r.
  - by eapply not_sub.
Qed.

Lemma bytes_goal j n a b pre post st :
  ready j (mk_reader (pre ++ b ++ post) (length pre)) st → c_pack c !! j = Some (p_bytes n a) →
  item_bytes packf c attrs (p_bytes n a) = Ok b → is_attr c a = true → item_goal j (u_bytes n a) b pre post st.
Proof.
  intros Hr Hj Hb Ha. destruct (attr_get c attrs Hkeys a Ha) as (v & Hv & Hg). cbn in Hb.
  rewrite Hg in Hb. destruct v as [| | |l| | |]; try done. cbn in Hb.
  destruct (bool_decide (length l = n) && forallb (in_range 1) l) eqn:Hl; [|done]. injection Hb as <-. split_checks.
  apply (read_goal j _ n a (λ b, VInts (Z_of_byte <$> b))); try done.
  - by rewrite length_fmap.
  - rewrite Hv. do 2 f_equal. rewrite <- list_fmap_compose. symmetry.
    rewrite <- (list_fmap_id l) at 2. apply list_fmap_ext. intros i z Hz.
    rewrite forallb_forall in *. unfold compose. rewrite Z_of_byte_of_Z.
    rename select (∀ x, In x l → _) into Hin. specialize (Hin z). apply Z.mod_small.
    apply bool_decide_eq_true in Hin; [exact Hin|]. apply list_elem_of_In. by eapply list_elem_of_lookup_2.
  - by eapply not_sub.
Qed.

Lemma checksum_goal j a b pre post st :
  ready j (mk_reader (pre ++ b ++ post) (length pre)) st → c_pack c !! j = Some (p_checksum_128 a) →
  item_bytes packf c attrs (p_checksum_128 a) = Ok b → is_attr c a = true →
  attr_ok classes wff attrs (u_checksum_128 a) = true → item_goal j (u_checksum_128 a) b pre post st.
Proof.
  intros Hr Hj Hb Ha Hok. destruct (attr_get c attrs Hkeys a Ha) as (v & Hv & Hg). cbn in Hb, Hok.
  rewrite Hg in Hb. rewrite Hv in Hok. destruct v as [|z| | | | |]; try done. injection Hb as <-.
  apply (read_goal j _ 16 a
    (λ b, VInt (Z.lor (Z.shiftl (be_unpack (take 8 b)) 64) (be_unpack (drop 8 b))))); try done.
  - rewrite Hv. do 2 f_equal. destruct (pack_QQ_halves (Z.land (Z.shiftr z 64) MASK64) (Z.land z MASK64)) as [-> ->].
    by rewrite checksum_back.
  - by eapply not_sub.
Qed.

Lemma bitmap_128_goal j a b pre post st :
  ready j (mk_reader (pre ++ b ++ post) (length pre)) st → c_pack c !! j = Some (p_bitmap_128 a) →
  item_bytes packf c attrs (p_bitmap_128 a) = Ok b → is_attr c a = true →
  attr_ok classes wff attrs (u_bitmap_128 a) = true → item_goal j (u_bitmap_128 a) b pre post st.
Proof.
  intros Hr Hj Hb Ha Hok. destruct (attr_get c attrs Hkeys a Ha) as (v & Hv & Hg).
  unfold item_bytes in Hb. rewrite Hg in Hb. unfold attr_ok in Hok. rewrite Hv in Hok. destruct v as [| | | |l| |]; try done.
  apply bool_decide_eq_true in Hok. destruct (bitmap_128_back l b Hb Hok) as [Hlen Hback].
  apply (read_goal j _ 16 a
    (λ b, VSet (unpack_bits 128 0 (Z.lor (Z.shiftl (be_unpack (take 8 b)) 64) (be_unpack (drop 8 b)))))); try done.
  - by rewrite Hback.
  - by eapply not_sub.
Qed.

Lemma bitmap_512_goal j a b pre post st :
  ready j (mk_reader (pre ++ b ++ post) (length pre)) st → c_pack c !! j = Some (p_bitmap_512 a) →
  item_bytes packf c attrs (p_bitmap_512 a) = Ok b → is_attr c a = true →
  attr_ok classes wff attrs (u_bitmap_512 a) = true → item_goal j (u_bitmap_512 a) b pre post st.
Proof.
  intros Hr Hj Hb Ha Hok. destruct (attr_get c attrs Hkeys a Ha) as (v & Hv & Hg).
  unfold item_bytes in Hb. rewrite Hg in Hb. unfold attr_ok in Hok. rewrite Hv in Hok. destruct v as [| | | |l| |]; try done.
  apply bool_decide_eq_true in Hok. destruct (bitmap_512_back l b Hb Hok) as [Hlen Hback].
  apply (read_goal j _ 64 a
    (λ b, VSet (unpack_bits 512 0 (join_words ((λ i, be_unpack (take 8 (drop (8 * i) b))) <$> seq 0 8))))); try done.
  - by rewrite Hback.
  - by eapply not_sub.
Qed.

(** The rest of the buffer, padding, and the length of a list *)
Lemma rest_goal j a b pre st :
  ready j (mk_reader (pre ++ b ++ []) (length pre)) st → c_pack c !! j = Some (p_raw a) →
  item_bytes packf c attrs (p_raw a) = Ok b → is_attr c a = true → item_goal j (u_rest a) b pre [] st.
Proof.
  intros Hr Hj Hb Ha. destruct (attr_get c attrs Hkeys a Ha) as (v & Hv & Hg). cbn in Hb. rewrite Hg in Hb.
  cbn [mbind result_bind] in Hb. destruct v as [| |s| | | |]; try done. injection Hb as ->.
  destruct (assign_ready j _ (mk_reader (pre ++ b ++ []) (length pre + length b)) st a (VStr b) (u_rest a) Hr Ha Hv)
    as [H1 H2]; [done|by eapply not_sub|].
  eexists. split_and!; [|exact H1|exact H2|done].
  cbn [unpack_stmt]. rewrite (ready_reader _ _ _ Hr), r_read_all_at. done.
Qed.

Lemma zeros_goal j n b pre post st :
  ready j (mk_reader (pre ++ b ++ post) (length pre)) st → c_pack c !! j = Some (p_zeros n) →
  item_bytes packf c attrs (p_zeros n) = Ok b → item_goal j (u_skip n) b pre post st.
Proof.
  intros Hr Hj [= <-]. destruct (skip_ready j _ (mk_reader (pre ++ replicate n x00 ++ post)
    (length pre + length (replicate n x00))) st (u_skip n) Hr eq_refl) as [H1 H2]; [by eapply not_sub|].
  eexists. split_and!; [|exact H1|exact H2|intros m [= <-]; apply length_replicate].
  cbn [unpack_stmt]. rewrite (ready_reader _ _ _ Hr). rewrite <- (length_replicate n x00) at 1.
  by rewrite r_skip_at.
Qed.

Lemma sublen_goal j b pre post st :
  ready j (mk_reader (pre ++ b ++ post) (length pre)) st → sub_index c = Some j → main_index c ≠ Some j →
  chunk packf c attrs L S j p_placeholder = Ok b → item_goal j u_sublen b pre post st.
Proof.
  intros Hr Hj Hm Hb. unfold chunk in Hb. rewrite bool_decide_eq_false_2, bool_decide_eq_true_2 in Hb by done.
  injection Hb as Hb. set (b1 := be_pack 2 (Z.of_nat S)) in *. assert (b = b1) as -> by done.
  eexists. split_and!.
  - cbn [unpack_stmt]. rewrite (ready_reader _ _ _ Hr). change 2 with (length b1). by rewrite r_read_at.
  - destruct Hr as [_ _ Hk]. split; [done| |done]. intros _ _ _. cbn [u_len].
    assert (be_unpack b1 = Z.of_nat S) as -> by by apply be_unpack_pack. lia.
  - by split.
  - by intros n [= <-].
Qed.

(** Nested objects and lists of them *)
Lemma obj_goal j a k b pre post st off :
  ready j (mk_reader (pre ++ b ++ post) (length pre)) st → c_pack c !! j = Some (p_obj a) →
  item_bytes packf c attrs (p_obj a) = Ok b → is_attr c a = true → length b ≤ bound →
  attr_ok classes wff attrs (u_obj a k) = true →
  align_free classes HIERARCHY k || aligned off = true → (∀ o, off = Some o → length pre = o) →
  item_goal j (u_obj a k) b pre post st.
Proof.
  intros Hr Hj Hb Ha Hlen Hok Hal Hoff. destruct (attr_get c attrs Hkeys a Ha) as (v & Hv & Hg).
  cbn in Hb, Hok. rewrite Hg in Hb. rewrite Hv in Hok. destruct (Hnested k v b Hok Hb Hlen) as (_ & _ & Hrd).
  destruct (assign_ready j _ (mk_reader (pre ++ b ++ post) (length pre + length b)) st a v (u_obj a k) Hr Ha Hv)
    as [H1 H2]; [done|by eapply not_sub|].
  eexists. split_and!; [|exact H1|exact H2|done].
  cbn [unpack_stmt]. rewrite (ready_reader _ _ _ Hr), Hrd; [done|].
  apply orb_true_iff in Hal as [?|Hal]; [by left|right]. destruct off as [o|]; [|done].
  rewrite (Hoff o eq_refl). by apply bool_decide_eq_true in Hal.
Qed.

Lemma entries_read a k b :
  item_bytes packf c attrs (p_list a) = Ok b → is_attr c a = true → length b ≤ bound →
  attr_ok classes wff attrs (u_list a k) = true →
  ∃ l bs, od_get a attrs = Some (VList l) ∧ b = concat bs ∧ Forall2 (reads k) l bs ∧
    (align_free classes HIERARCHY k = true ∨ Forall (λ v, obj_aligned classes v = true) l).
Proof.
  intros Hb Ha Hlen Hok. destruct (attr_get c attrs Hkeys a Ha) as (v & Hv & Hg).
  cbn in Hb, Hok. rewrite Hg in Hb. rewrite Hv in Hok.
  destruct v as [| | | | |l|]; try done. apply andb_true_iff in Hok as [Hok Hal].
  destruct (pack_list_entries k (VList l) b Hb Hlen Hok) as (l' & bs & [= <-] & -> & Hrd).
  exists l, bs. split_and!; [done..|]. apply orb_true_iff in Hal as [?|Hal]; [by left|right].
  apply Forall_forall. rewrite forallb_forall in Hal. intros x Hx. by apply Hal, list_elem_of_In.
Qed.

Lemma list_goal j a k b pre st off :
  ready j (mk_reader (pre ++ b ++ []) (length pre)) st → c_pack c !! j = Some (p_list a) →
  item_bytes packf c attrs (p_list a) = Ok b → is_attr c a = true → length b ≤ bound →
  attr_ok classes wff attrs (u_list a k) = true →
  align_free classes HIERARCHY k || aligned off = true → (∀ o, off = Some o → length pre = o) →
  item_goal j (u_list a k) b pre [] st.
Proof.
  intros Hr Hj Hb Ha Hlen Hok Hal Hoff.
  destruct (entries_read a k b Hb Ha Hlen Hok) as (l & bs & Hv & -> & Hrd & Hall). rewrite app_nil_r in Hr.
  destruct (assign_ready j _ (mk_reader (pre ++ concat bs) (length pre + length (concat bs))) st a (VList l)
    (u_list a k) Hr Ha Hv) as [H1 H2]; [done|by eapply not_sub|].
  unfold item_goal. rewrite app_nil_r. eexists. split_and!; [|exact H1|exact H2|done].
  cbn [unpack_stmt]. unfold unpack_all. rewrite (ready_reader _ _ _ Hr). cbn [r_buf].
  rewrite (unpack_list_run k l bs); [done|done| |done|rewrite length_app; lia].
  apply orb_true_iff in Hal as [?|Hal]; [by left|right]. destruct off as [o|]; [|done].
  rewrite (Hoff o eq_refl). by apply bool_decide_eq_true in Hal.
Qed.

Lemma sublist_goal j a i k b pre post st :
  ready j (mk_reader (pre ++ b ++ post) (length pre)) st → c_pack c !! j = Some (p_list_len a i) →
  item_bytes packf c attrs (p_list_len a i) = Ok b → is_attr c a = true → length b ≤ bound →
  attr_ok classes wff attrs (u_sublist a k) = true → sub_index c = Some i → i < j →
  item_goal j (u_sublist a k) b pre post st.
Proof.
  intros Hr Hj Hb Ha Hlen Hok Hs Hij.
  assert (length b = S) as HbS by (eapply Hlens; [by eapply list_elem_of_lookup_2|done]).
  destruct (entries_read a k b Hb Ha Hlen Hok) as (l & bs & Hv & -> & Hrd & Hall).
  destruct (assign_ready j _ (mk_reader (pre ++ concat bs ++ post) (length pre + length (concat bs))) st a (VList l)
    (u_sublist a k) Hr Ha Hv) as [H1 H2]; [done|by eapply not_sub|].
  eexists. split_and!; [|exact H1|exact H2|done].
  cbn [unpack_stmt]. rewrite (ready_reader _ _ _ Hr), (ready_len _ _ _ Hr i Hs Hij), <- HbS, r_slice_at.
  cbn [mbind result_bind]. unfold unpack_all. cbn [r_buf].
  pose proof (unpack_list_run k l bs [] (length (concat bs)) Hrd) as Hrun. cbn [app length] in Hrun.
  rewrite Hrun; [done|by right|done|done].
Qed.

Lemma item_run last off j it u final b pre post st :
  item_agrees classes c last off j it u final = true → c_pack c !! j = Some it →
  chunk packf c attrs L S j it = Ok b → attr_ok classes wff attrs u = true →
  (stmt_size u = None → length b ≤ bound) →
  ready j (mk_reader (pre ++ b ++ post) (length pre)) st → (∀ o, off = Some o → length pre = o) →
  (last = true → final = true → post = []) → item_goal j u b pre post st.
Proof.
  intros Hag Hj Hb Hok Hlen Hr Hoff Hpost.
  destruct it, u; try done; cbn [item_agrees] in Hag; split_checks; subst;
    try (specialize (Hlen eq_refl)); try (rewrite Hpost in * by done);
    first [by eapply check_goal | by eapply int_goal | by eapply sublen_goal | by eapply zeros_goal
          | by eapply rest_goal | by eapply str_goal | by eapply bytes_goal | by eapply obj_goal
          | by eapply list_goal | by eapply sublist_goal | by eapply checksum_goal
          | by eapply bitmap_128_goal | by eapply bitmap_512_goal].
Qed.

Lemma agree_run last off j its us bs pre post st :
  agree classes c last off j its us = true → (∀ k it, its !! k = Some it → c_pack c !! (j + k) = Some it) →
  chunks packf c attrs L S j its bs → forallb (attr_ok classes wff attrs) us = true →
  all_sized us = true ∨ length (concat bs) ≤ bound →
  ready j (mk_reader (pre ++ concat bs ++ post) (length pre)) st → (∀ o, off = Some o → length pre = o) →
  (last = true → post = []) →
  ∃ st', unpack_stmts unpackf us st = Ok st' ∧
    ready (j + length its) (mk_reader (pre ++ concat bs ++ post) (length pre + length (concat bs))) st' ∧
    u_orig st' = u_orig st ∧
    (∀ a, od_get a (u_obj_attrs st') =
       (if bool_decide (a ∈ omap assigned us) then od_get a attrs else od_get a (u_obj_attrs st))) ∧
    fixed_size us ≤ length (concat bs) ∧ (all_sized us = true → length (concat bs) = fixed_size us).
Proof.
  revert off j us bs pre st. induction its as [|it its IH]; intros off j us bs pre st Hag Hits Hch Hok Hlen Hr Hoff Hpost.
  { destruct us; [|done]. destruct Hch as [Hl _]. destruct bs; [|done]. exists st. cbn [concat app length] in *.
    rewrite !Nat.add_0_r. by split_and!. }
  destruct us as [|u us]; [done|]. cbn [agree] in Hag. apply andb_true_iff in Hag as [Hit Hag].
  apply chunks_cons in Hch as (b & bs' & -> & Hb & Hch). cbn [concat] in *. rewrite length_app in Hlen.
  cbn [all_sized forallb] in Hok. apply andb_true_iff in Hok as [Hoku Hok].
  assert (stmt_size u = None → length b ≤ bound) as Hlen1.
  { intros Hu. destruct Hlen as [Hsz|Hlen]; [|lia]. cbn in Hsz. by rewrite Hu in Hsz. }
  rewrite <- (assoc_L (++)) in Hr. pose proof (Hits 0 it eq_refl) as Hj. rewrite Nat.add_0_r in Hj.
  destruct (item_run _ _ _ _ _ _ _ _ _ _ Hit Hj Hb Hoku Hlen1 Hr Hoff) as (st1 & Hst1 & Hr1 & [Ho1 Ha1] & Hsz).
  { intros Hlast ->%bool_decide_eq_true. destruct its; [|done]. destruct Hch as [Hl _]. destruct bs'; [|done].
    by rewrite (Hpost Hlast). }
  replace (pre ++ b ++ concat bs' ++ post) with ((pre ++ b) ++ concat bs' ++ post) in Hr1
    by by rewrite <- !(assoc_L (++)).
  rewrite <- length_app in Hr1.
  destruct (IH (advance off u) (Datatypes.S j) us bs' (pre ++ b) st1 Hag) as (st' & Hst' & Hr' & Ho' & Ha' & Hf' & Hs');
    try done.
  - intros k it' Hk. replace (Datatypes.S j + k) with (j + Datatypes.S k) by lia. by apply Hits.
  - destruct Hlen as [Hsz'|Hlen]; [left|right; lia]. by apply andb_true_iff in Hsz' as [_ ?].
  - intros o. destruct off as [o0|]; [|done]. cbn. intros (n & Hn & [= <-])%bind_Some.
    by rewrite length_app, (Hoff o0 eq_refl), (Hsz n Hn).
  - exists st'. split_and!.
    + cbn [unpack_stmts]. by rewrite Hst1.
    + replace (j + length (it :: its)) with (Datatypes.S j + length its) by (cbn; lia).
      rewrite <- !(assoc_L (++)) in Hr'. rewrite <- !(assoc_L (++)). rewrite !length_app in *.
      by rewrite Nat.add_assoc.
    + congruence.
    + intros a. rewrite Ha', Ha1. cbn [omap list_omap]. destruct (assigned u) as [a'|] eqn:Hu; cbn.
      * rewrite (bool_decide_ext (a ∈ a' :: omap assigned us) (a = a' ∨ a ∈ omap assigned us)) by apply elem_of_cons.
        rewrite (bool_decide_ext (Some a' = Some a) (a = a')) by naive_solver.
        repeat case_bool_decide; naive_solver.
      * done.
    + unfold fixed_size in *. cbn [omap list_omap]. rewrite length_app.
      destruct (stmt_size u) as [n|] eqn:Hn; cbn; [rewrite (Hsz n eq_refl)|]; lia.
    + unfold fixed_size, all_sized in *. cbn [omap list_omap forallb]. rewrite length_app.
      destruct (stmt_size u) as [n|] eqn:Hn; cbn; [rewrite (Hsz n eq_refl)|done]. intros H. by rewrite Hs'.
Qed.
End stmt.

(** ** Objects *)

Lemma unpack_stmts_app unpackf us1 us2 st :
  unpack_stmts unpackf (us1 ++ us2) st = (st ← unpack_stmts unpackf us1 st; unpack_stmts unpackf us2 st).
Proof.
  revert st. induction us1 as [|u us1 IH]; intros st; [done|]. cbn [app unpack_stmts].
  destruct (unpack_stmt unpackf u st) as [st'|e]; [|done]. cbn [mbind result_bind]. apply IH.
Qed.

(** Reading the length and taking the slice *)
Lemma slice_step unpackf pre h body L rest st :
  let lenb := be_pack 2 (Z.of_nat L) in
  let W := pre ++ ((h ++ lenb) ++ body) ++ rest in
  in_range 2 (Z.of_nat L) = true → L = length ((h ++ lenb) ++ body) →
  u_reader st = mk_reader W (length pre + length h) →
  unpack_stmt unpackf (u_slice (length h + 2)) st =
  Ok (mk_ustate (mk_reader ((h ++ lenb) ++ body) (length h + 2)) (Some (mk_reader W (length pre + L)))
        (u_len st) (u_obj_attrs st)).
Proof.
  cbv zeta. set (lenb := be_pack 2 (Z.of_nat L)). intros HL Hlen Hr. cbn [unpack_stmt]. rewrite Hr.
  assert (length lenb = 2) as Hl2 by apply length_be_pack.
  pose proof (r_read_at (pre ++ h) lenb (body ++ rest)) as Hread.
  replace ((pre ++ h) ++ lenb ++ body ++ rest) with (pre ++ ((h ++ lenb) ++ body) ++ rest) in Hread
    by by rewrite <- !(assoc_L (++)).
  rewrite length_app, Hl2 in Hread. rewrite Hread. cbn [mbind result_bind]. unfold lenb at 1.
  rewrite be_unpack_pack, Nat2Z.id by done.
  pose proof (r_slice_object pre (h ++ lenb) body rest) as Hs.
  clearbody lenb. rewrite !length_app, Hl2 in Hs. rewrite !length_app, Hl2 in Hlen.
  rewrite <- Hlen, Nat.add_assoc in Hs. by rewrite Hs.
Qed.

Section object.
Context (classes : string → option cls).
Context (packf : val → result (list byte)) (unpackf : string → reader → result (val * reader)).
Context (wff : string → val → bool) (bound : nat).
Context (Hnested : ∀ k v b, wff k v = true → packf v = Ok b → length b ≤ bound → reads classes unpackf k v b).

Context (c : cls) (attrs : list (string * val)) (bs : list byte).
Context (Hok : class_ok classes c = true) (Hkeys : od_keys attrs = od_keys (c_init c)).
Context (Hattrs : forallb (attr_ok classes wff attrs) (c_unpack c) = true).
Context (Hlen : length bs ≤ Datatypes.S bound).

Lemma sub_placeholder i : sub_index c = Some i → c_pack c !! i = Some p_placeholder.
Proof.
  intros Hi. pose proof Hok as H. unfold class_ok in H. split_checks. apply is_placeholder_Some.
  rename select (forallb _ (list_lens _) = true) into Hf. rewrite forallb_forall in Hf. apply Hf.
  apply list_elem_of_In. unfold sub_index in Hi. destruct (list_lens (c_pack c)); [done|]. injection Hi as ->. left.
Qed.

(** All attributes have been assigned. *)
Lemma attrs_complete final :
  od_keys final = od_keys (c_init c) →
  (∀ a, od_get a final = (if bool_decide (a ∈ omap assigned (c_unpack c)) then od_get a attrs else od_get a (c_init c))) →
  final = attrs.
Proof.
  intros Hk Hg. pose proof Hok as H. unfold class_ok in H. split_checks.
  rename select (forallb _ (od_keys _) = true) into Hf. rewrite forallb_forall in Hf.
  apply od_ext; [by rewrite Hk|by rewrite Hk, Hkeys|]. intros a Ha. rewrite Hk in Ha. rewrite Hg.
  apply list_elem_of_In, Hf in Ha. by rewrite Ha.
Qed.

Lemma plain_object pre post :
  main_index c = None → pack_object packf c attrs = Ok bs →
  bs ≠ [] ∧
  unpack_object unpackf c (mk_reader (pre ++ bs ++ post) (length pre)) =
  Ok (VObj (c_name c) attrs, mk_reader (pre ++ bs ++ post) (length pre + length bs)).
Proof.
  intros Hm Hp. destruct (pack_object_chunks packf c attrs classes bs Hok Hp) as (L & S & fc & pad & Hch & Hbs & HS & Hlens & _ & Ht).
  assert (bs = concat fc) as ->.
  { unfold main_index in Hm. destruct (c_tail c); try done. subst. by rewrite app_nil_r. }
  pose proof Hok as H. unfold class_ok in H. rewrite Hm in H. split_checks.
  destruct (agree_run classes packf unpackf wff bound Hnested c attrs Hkeys L S HS Hlens sub_placeholder
    false None 0 (c_pack c) (c_unpack c) fc pre post
    (mk_ustate (mk_reader (pre ++ concat fc ++ post) (length pre)) None 0 (c_init c)))
    as (st' & Hst' & [Hr' _ Hk'] & Ho' & Ha' & Hfs & _); try done; try by left.
  { split; cbn; [done| |done]. intros; lia. }
  split.
  - intros Hnil. rewrite Hnil in Hfs. cbn in Hfs. lia.
  - unfold unpack_object. rewrite Hst'. cbn [mbind result_bind]. rewrite Ho', Hr'. cbn.
    rename select (c_align c = false) into Hal. rewrite Hal. cbn. by rewrite (attrs_complete _ Hk' Ha').
Qed.

(** The padding is inside or outside the length of the object. *)
Lemma padding_split m (whole pad : list byte) L :
  main_index c = Some m →
  match c_tail c with t_len_pad _ n => c_align c && bool_decide (n = 8) | _ => negb (c_align c) end = true →
  match c_tail c with
  | t_none => pad = []
  | t_len _ => pad = [] ∧ L = length whole
  | t_len_pad _ n => pad = pad_to n L ∧ L = length whole
  | t_pad_len _ n => L = length (whole ++ pad)
  end →
  ∃ inner outer, pad = inner ++ outer ∧ L = length whole + length inner ∧
    (match c_tail c with t_pad_len _ _ => false | _ => true end = true → inner = []) ∧
    outer = (if c_align c then pad_to 8 L else []).
Proof.
  unfold main_index. destruct (c_tail c) as [|i|i n|i n]; [done|..]; intros _ Hal Ht.
  - apply negb_true_iff in Hal as ->. destruct Ht as [-> ->]. exists [], []. by rewrite Nat.add_0_r.
  - split_checks. rename select (c_align c = true) into Ha. subst n. rewrite Ha. destruct Ht as [-> ->].
    exists [], (pad_to 8 (length whole)). by rewrite Nat.add_0_r.
  - apply negb_true_iff in Hal as ->. exists pad, []. rewrite app_nil_r, Ht, length_app. done.
Qed.

(** An object with a length: its header up to the length, and the rest *)
Lemma sliced_object m pre post :
  main_index c = Some m → pack_object packf c attrs = Ok bs → c_align c = false ∨ length pre mod 8 = 0 →
  bs ≠ [] ∧ (c_align c = true → length bs mod 8 = 0) ∧
  unpack_object unpackf c (mk_reader (pre ++ bs ++ post) (length pre)) =
  Ok (VObj (c_name c) attrs, mk_reader (pre ++ bs ++ post) (length pre + length bs)).
Proof.
  intros Hm Hp Hpre.
  destruct (pack_object_chunks packf c attrs classes bs Hok Hp) as (L & S & fc & pad & Hch & Hbs & HS & Hlens & HL & Ht).
  pose proof Hok as H. unfold class_ok in H. rewrite Hm in H. split_checks.
  rename select (is_placeholder (c_pack c !! m) = true) into Hph. apply is_placeholder_Some in Hph.
  set (k := fixed_size (take m (c_unpack c)) + 2) in *.
  assert (c_unpack c !! m = Some (u_slice k)) as Hus.
  { rename select (is_slice _ _ = true) into Hsl. unfold is_slice in Hsl.
    destruct (c_unpack c !! m) as [[]|]; try done. by apply bool_decide_eq_true in Hsl as ->. }
  pose proof (lookup_lt_Some _ _ _ Hph) as Hml.
  assert (length (take m (c_pack c)) = m) as Htm by (rewrite length_take; lia).
  rewrite <- (take_drop_middle _ _ _ Hph) in Hch.
  apply chunks_app in Hch as (b1 & b2' & -> & Hch1 & Hch2). rewrite Htm in Hch2. cbn [Nat.add] in Hch2.
  apply chunks_cons in Hch2 as (lenb & b2 & -> & Hlenb & Hch2).
  assert (lenb = be_pack 2 (Z.of_nat L)) as ->.
  { unfold chunk in Hlenb. rewrite bool_decide_eq_true_2 in Hlenb by done. by injection Hlenb as <-. }
  set (lenb := be_pack 2 (Z.of_nat L)) in *. set (hdr := concat b1 ++ lenb).
  assert (concat (b1 ++ lenb :: b2) = hdr ++ concat b2) as Hwhole.
  { unfold hdr. by rewrite concat_app, <- (assoc_L (++)). }
  rewrite Hwhole in *.
  destruct (padding_split m (hdr ++ concat b2) pad L Hm ltac:(done) Ht) as (inner & outer & -> & HLen & Hin & Hout).
  rewrite length_app in HLen. rewrite (assoc_L (++)) in Hbs.
  set (body := concat b2 ++ inner). assert (bs = (hdr ++ body) ++ outer) as Hbs' by (by rewrite Hbs; unfold body; rewrite !(assoc_L (++))).
  assert (length hdr = length (concat b1) + 2) as Hhdr by (unfold hdr; rewrite length_app; done).
  assert (L = length (hdr ++ body)) as HL' by (unfold body; rewrite !length_app; lia).
  assert (length bs = L + length outer) as Hbl by (rewrite Hbs', length_app; lia).
  set (W := pre ++ (hdr ++ body) ++ outer ++ post).
  assert (pre ++ bs ++ post = W) as HW by (unfold W; by rewrite Hbs', <- !(assoc_L (++))).
  pose proof Hattrs as Ha. rewrite <- (take_drop_middle _ _ _ Hus), forallb_app in Ha. cbn [forallb] in Ha.
  apply andb_true_iff in Ha as [Ha1 [_ Ha2]%andb_true_iff].
  destruct (agree_run classes packf unpackf wff bound Hnested c attrs Hkeys L S HS Hlens sub_placeholder
    false None 0 (take m (c_pack c)) (take m (c_unpack c)) b1 pre (lenb ++ body ++ outer ++ post)
    (mk_ustate (mk_reader W (length pre)) None 0 (c_init c)))
    as (st1 & Hst1 & [Hr1 Hl1 Hk1] & Ho1 & Hg1 & _ & Hsz1); try done; try by left.
  { intros k' it Hk'. by apply lookup_take_Some in Hk' as [? _]. }
  { split; cbn; [unfold W, hdr; by rewrite <- !(assoc_L (++))|intros; lia|done]. }
  specialize (Hsz1 ltac:(done)). assert (k = length (concat b1) + 2) as Hk by (unfold k; lia).
  assert (unpack_stmt unpackf (u_slice k) st1 =
    Ok (mk_ustate (mk_reader (hdr ++ body) (length hdr)) (Some (mk_reader W (length pre + L)))
          (u_len st1) (u_obj_attrs st1))) as Hslice.
  { rewrite Hk, Hhdr. apply slice_step; [by apply HL; rewrite Hm|done|]. rewrite Hr1. unfold W, hdr.
    by rewrite <- !(assoc_L (++)). }
  destruct (agree_run classes packf unpackf wff bound Hnested c attrs Hkeys L S HS Hlens sub_placeholder
    (match c_tail c with t_pad_len _ _ => false | _ => true end) (Some k) (Datatypes.S m)
    (drop (Datatypes.S m) (c_pack c)) (drop (Datatypes.S m) (c_unpack c)) b2 hdr inner
    (mk_ustate (mk_reader (hdr ++ body) (length hdr)) (Some (mk_reader W (length pre + L)))
       (u_len st1) (u_obj_attrs st1)))
    as (st3 & Hst3 & [_ _ Hk3] & Ho3 & Hg3 & _); try done.
  { intros k' it. by rewrite lookup_drop. }
  { right. rewrite Hbl, HL', !length_app in Hlen. unfold body in Hlen. rewrite length_app in Hlen. lia. }
  { split; [done| |done]. intros i Hi Him. cbn. apply (Hl1 i Hi). rewrite Htm.
    assert (i ≠ m) by congruence. lia. }
  { intros o [= <-]. by rewrite Hk. }
  assert (u_obj_attrs st3 = attrs) as Hfinal.
  { apply attrs_complete; [done|]. intros a. rewrite Hg3. cbn. rewrite Hg1. cbn.
    assert (omap assigned (c_unpack c) =
      omap assigned (take m (c_unpack c)) ++ omap assigned (drop (Datatypes.S m) (c_unpack c))) as ->.
    { pose proof (f_equal (omap assigned) (take_drop_middle _ _ _ Hus)) as Hom. by rewrite omap_app in Hom. }
    rewrite (bool_decide_ext _ _ (elem_of_app _ _ _)). repeat case_bool_decide; tauto. }
  rewrite HW. unfold unpack_object. rewrite <- (take_drop_middle _ _ _ Hus), unpack_stmts_app, Hst1.
  cbn [mbind result_bind unpack_stmts]. rewrite Hslice. cbn [mbind result_bind]. rewrite Hst3. cbn [mbind result_bind].
  rewrite Ho3, Hfinal. cbn [u_orig from_option]. unfold id. split_and!.
  - intros Hnil. rewrite Hnil in Hbl. cbn in Hbl. rewrite HL', length_app in Hbl. lia.
  - intros Hal. rewrite Hal in Hout. rewrite Hbl, Hout. by apply pad_to_length.
  - rewrite Hbl. destruct (c_align c).
    + destruct Hpre as [?|Hpre]; [done|]. unfold r_skip_align. cbv zeta. cbn [r_offset r_buf].
      rewrite align_pad, <- Hout by done. rewrite bool_decide_eq_false_2.
      * cbn. by rewrite Nat.add_assoc.
      * unfold W. rewrite !length_app, <- HL' || rewrite !length_app. rewrite length_app in HL'. lia.
    + subst outer. cbn. by rewrite Nat.add_0_r.
Qed.
End object.

(** ** Finding the class *)

(** An object of a class whose objects have one size has that size. *)
Lemma items_sized packf c attrs its packed fc m :
  foldr (λ it n, m ← item_size it; k ← n; Some (m + k)) (Some 0) its = Some m →
  pack_items packf c attrs its packed = Ok fc → length (concat fc) = length (concat packed) + m.
Proof.
  revert packed m. induction its as [|it its IH]; intros packed m; cbn [foldr pack_items].
  { intros [= <-] [= ->]. lia. }
  intros Hm (b & Hb & (packed' & Hp & Hfc)%result_bind_Ok)%result_bind_Ok.
  destruct (item_size it) as [k|] eqn:Hk; [|done]. cbn in Hm.
  destruct (foldr _ _ its) as [k'|] eqn:Hf; [|done]. injection Hm as <-.
  assert (packed' = packed ++ [b] ∧ length b = k) as [-> Hlen].
  { destruct it; try done; injection Hk as <-; injection Hp as <-; (split; [done|]); cbn in Hb.
    - apply result_bind_Ok in Hb as (v & _ & (z & -> & _ & ->)%pack_int_Ok). apply length_be_pack.
    - injection Hb as <-. apply length_replicate.
    - apply result_bind_Ok in Hb as (v & _ & Hv). unfold pack_bytes in Hv. destruct v; try done.
      case_bool_decide; [|done]. destruct (forallb _ _); [|done]. injection Hv as <-. by rewrite length_fmap. }
  rewrite (IH _ _ eq_refl Hfc), concat_app, length_app. cbn. rewrite app_nil_r. lia.
Qed.
Lemma pack_sized classes f v b m :
  value_size classes v = Some m → pack classes f v = Ok b → length b = m.
Proof.
  destruct f as [|f]; [done|]. destruct v as [| | | | | |d attrs]; try done. cbn [value_size pack].
  destruct (classes d) as [c|]; [|done]. cbn [mbind option_bind of_option result_bind].
  unfold object_size. destruct (c_tail c) eqn:Ht; try done. intros Hm. unfold pack_object. rewrite Ht.
  intros (fc & Hfc & [= <-])%result_bind_Ok. by rewrite (items_sized _ _ _ _ _ _ _ Hm Hfc).
Qed.

Lemma header_int_read classes packf c attrs L S j its fc n off z :
  (∀ v b m, value_size classes v = Some m → packf v = Ok b → length b = m) →
  chunks packf c attrs L S j its fc → header_int classes c attrs its n off = Some z →
  off + n ≤ length (concat fc) ∧ be_unpack (take n (drop off (concat fc))) = z.
Proof.
  intros Hsz. revert j fc off. induction its as [|it its IH]; intros j fc off Hch Hh; [done|].
  apply chunks_cons in Hch as (b & bs & -> & Hb & Hch). cbn [concat].
  assert (∀ m, length b = m → m ≤ off → header_int classes c attrs its n (off - m) = Some z →
    off + n ≤ length (b ++ concat bs) ∧ be_unpack (take n (drop off (b ++ concat bs))) = z) as Hskip.
  { intros m <- Hm Hz. destruct (IH _ _ _ Hch Hz) as [Hle Heq]. rewrite length_app. split; [lia|].
    rewrite drop_app_ge by done. done. }
  destruct it as [m a| |m| | | |a| | | | |]; try done; cbn [header_int] in Hh.
  - cbn in Hb. destruct (get_attr c attrs a) as [v|] eqn:Hg; [|done]. apply pack_int_Ok in Hb as (z' & -> & Hr & ->).
    destruct off as [|off].
    + destruct (bool_decide (n = m)) eqn:Hnm; [|done]. apply bool_decide_eq_true in Hnm as ->. injection Hh as ->.
      rewrite length_app, length_be_pack, drop_0, take_app_length' by by rewrite length_be_pack.
      split; [lia|]. by apply be_unpack_pack.
    + case_bool_decide; [|done]. apply (Hskip m); [apply length_be_pack|done..].
  - case_bool_decide; [|done]. injection Hb as <-. by apply (Hskip 2).
  - case_bool_decide; [|done]. injection Hb as <-. apply (Hskip m); [apply length_replicate|done..].
  - cbn in Hb. destruct (od_get a attrs) as [v|] eqn:Hv; [|done]. cbn in Hh.
    destruct (value_size classes v) as [m|] eqn:Hm; [|done]. cbn in Hh. case_bool_decide; [|done].
    unfold get_attr in Hb. rewrite Hv in Hb. cbn in Hb. apply (Hskip m); [by eapply Hsz|done..].
Qed.

Lemma r_peek_at n off pre b post :
  off + n ≤ length b →
  r_peek n off (mk_reader (pre ++ b ++ post) (length pre)) = Ok (be_unpack (take n (drop off b))).
Proof.
  intros Hle. unfold r_peek. cbn [r_buf r_offset]. rewrite bool_decide_eq_false_2 by (rewrite !length_app; lia).
  rewrite drop_app_add, drop_app_le, take_app_le by (rewrite ?length_drop; lia). done.
Qed.

Section top.
Context (classes : string → option cls).

Lemma routes_hand_over packf c attrs b fuel name pre post :
  (∀ v b m, value_size classes v = Some m → packf v = Ok b → length b = m) →
  class_ok classes c = true → classes (c_name c) = Some c → pack_object packf c attrs = Ok b →
  routes classes fuel name c attrs = true →
  hand_over classes fuel name (mk_reader (pre ++ b ++ post) (length pre)) = Ok c.
Proof.
  intros Hsz Hok Hc Hp. destruct (pack_object_chunks packf c attrs classes b Hok Hp) as (L & S & fc & pad & Hch & -> & _).
  revert name. induction fuel as [|fuel IH]; intros name Hr; [done|]. cbn [routes hand_over] in *.
  destruct (classes name) as [k|] eqn:Hk; [|done]. cbn [of_option mbind result_bind].
  destruct (c_dispatch k) as [[n off]|].
  - destruct (header_int classes c attrs (c_pack c) n off) as [z|] eqn:Hh; [|done].
    destruct (header_int_read _ _ _ _ _ _ _ _ _ _ _ _ Hsz Hch Hh) as [Hle Hz].
    rewrite r_peek_at by (rewrite length_app; lia). cbn [mbind result_bind].
    rewrite drop_app_le, take_app_le, Hz by (rewrite ?length_drop; lia).
    destruct (od_get z (c_subtypes k)); [by apply IH|]. apply bool_decide_eq_true in Hr as ->. congruence.
  - apply bool_decide_eq_true in Hr as ->. congruence.
Qed.

Lemma hand_over_align fuel name r c :
  align_free classes fuel name = true → hand_over classes fuel name r = Ok c → c_align c = false.
Proof.
  revert name. induction fuel as [|fuel IH]; intros name; [done|]. cbn [align_free hand_over].
  destruct (classes name) as [k|]; [|done]. intros [Ha%negb_true_iff Hs]%andb_true_iff.
  cbn [of_option mbind result_bind]. destruct (c_dispatch k) as [[n off]|]; [|by intros [= <-]].
  destruct (r_peek n off r) as [z|]; [|done]. cbn [mbind result_bind].
  destruct (od_get z (c_subtypes k)) as [sub|] eqn:Hz; [|by intros [= <-]].
  apply IH. rewrite forallb_forall in Hs. apply (Hs (z, sub)), list_elem_of_In. by apply od_get_Some_elem.
Qed.

(** Every object that [wf] accepts is read back, wherever it stands in a buffer. *)
Lemma wf_reads n name v f b fuel :
  wf classes n name v = true → pack classes f v = Ok b → length b ≤ fuel →
  reads classes (unpack classes fuel) name v b.
Proof.
  revert name v f b fuel. induction n as [|n IH]; intros name v f b fuel Hwf Hp Hf; [done|].
  destruct v as [| | | | | |d attrs]; try done. cbn [wf] in Hwf. destruct (classes d) as [c|] eqn:Hd; [|done].
  split_checks. subst d. rename select (class_ok classes c = true) into Hok. rename select (forallb _ _ = true) into Hat.
  rename select (routes _ _ _ _ _ = true) into Hro. rename select (od_keys _ = od_keys _) into Hk.
  destruct f as [|f]; [done|]. cbn [pack] in Hp. rewrite Hd in Hp. cbn [of_option mbind result_bind] in Hp.
  assert (∀ pre post, hand_over classes HIERARCHY name (mk_reader (pre ++ b ++ post) (length pre)) = Ok c) as Hho.
  { intros pre post. eapply routes_hand_over; [|done..]. intros v' b' m'. apply pack_sized. }
  assert (∀ k v b, wf classes n k v = true → pack classes f v = Ok b → length b ≤ Nat.pred fuel →
    reads classes (unpack classes (Nat.pred fuel)) k v b) as Hnest by eauto.
  assert (length b ≤ S (Nat.pred fuel)) as Hlen by lia.
  assert (∀ pre post, c_align c = false ∨ length pre mod 8 = 0 →
    b ≠ [] ∧ (c_align c = true → length b mod 8 = 0) ∧
    unpack_object (unpack classes (Nat.pred fuel)) c (mk_reader (pre ++ b ++ post) (length pre)) =
    Ok (VObj (c_name c) attrs, mk_reader (pre ++ b ++ post) (length pre + length b))) as Hrun.
  { intros pre post Hpre. destruct (main_index c) as [m|] eqn:Hm.
    - by apply (sliced_object classes _ _ _ _ Hnest c attrs b Hok Hk Hat Hlen m).
    - destruct (plain_object classes _ _ _ _ Hnest c attrs b Hok Hk Hat Hlen pre post Hm Hp) as [? ?].
      split_and!; [done| |done]. unfold class_ok in Hok. rewrite Hm in Hok. split_checks. congruence. }
  destruct (Hrun [] [] ltac:(by right)) as (Hne & Hal & _).
  split_and!; [done|cbn; by rewrite Hd|]. intros pre post Hpre.
  destruct fuel as [|fuel]; [destruct b; [done|cbn in Hf; lia]|]. cbn [unpack]. rewrite Hho. cbn [mbind result_bind].
  apply Hrun. destruct Hpre as [Hfree|]; [left|by right].
  eapply hand_over_align; [done|apply (Hho pre post)].
Qed.

(** Unpacking the bytes of an object from a buffer gives the object. *)
Lemma unpack_pack_buffer n name v f b :
  wf classes n name v = true → pack classes f v = Ok b → unpack_buffer classes name b = Ok v.
Proof.
  intros Hwf Hp. destruct (wf_reads n name v f b (S (length b)) Hwf Hp ltac:(lia)) as (_ & _ & Hrd).
  specialize (Hrd [] [] ltac:(by right)). cbn [app length] in Hrd. rewrite app_nil_r in Hrd.
  unfold unpack_buffer. by rewrite Hrd.
Qed.
End top.
