(* ===== verification/LoxiTotal.v ===== *)
(** * The OpenFlow bindings: unpacking and packing end

    Unpacking an object consumes at least a byte, and a nested object is read from
    what is left, whatever the lengths in the bytes say; so the fuel that
    [unpack_buffer] takes, the size of the buffer, is enough for every input.
    Packing needs as much fuel as objects are nested. *)

From Stdlib Require Import Strings.Byte.
From stdpp Require Import prelude strings list.
From S2P Require Import Prelude LoxiWire LoxiSpec LoxiRoundtrip.

Definition reader_ok (r : reader) : Prop := r_offset r ≤ length (r_buf r).
Definition left_over (r : reader) : nat := length (r_buf r) - r_offset r.

(** [r'] is [r] after at least [n] bytes *)
Definition moved (n : nat) (r r' : reader) : Prop :=
  r_buf r' = r_buf r ∧ r_offset r + n ≤ r_offset r' ∧ reader_ok r'.

Lemma moved_trans n m r1 r2 r3 : moved n r1 r2 → moved m r2 r3 → moved (n + m) r1 r3.
Proof. intros (H1 & ? & ?) (H2 & ? & ?). split_and!; [congruence|lia|done]. Qed.
Lemma moved_weaken n m r r' : n ≤ m → moved m r r' → moved n r r'.
Proof. intros ? (? & ? & ?). split_and!; [done|lia|done]. Qed.
Lemma moved_refl r : reader_ok r → moved 0 r r.
Proof. intros. split_and!; [done|lia|done]. Qed.
Lemma moved_left n r r' : moved n r r' → n + left_over r' ≤ left_over r.
Proof. unfold moved, left_over, reader_ok. intros (-> & ? & ?). lia. Qed.

(** ** The readers *)

Lemma r_read_moves n r b r' : r_read n r = Ok (b, r') → moved n r r'.
Proof. unfold r_read. case_bool_decide; [done|]. intros [= _ <-]. split_and!; cbn; [done..|]. unfold reader_ok. cbn. lia. Qed.
Lemma r_skip_moves n r r' : r_skip n r = Ok r' → moved n r r'.
Proof. unfold r_skip. case_bool_decide; [done|]. intros [= <-]. split_and!; cbn; [done..|]. unfold reader_ok. cbn. lia. Qed.
Lemma r_read_all_moves r b r' : reader_ok r → r_read_all r = (b, r') → moved 0 r r'.
Proof. unfold r_read_all, reader_ok. intros ? [= _ <-]. split_and!; cbn; [done|lia|]. unfold reader_ok. done. Qed.
Lemma r_skip_align_moves r r' : r_skip_align r = Ok r' → moved 0 r r'.
Proof.
  unfold r_skip_align. cbv zeta.
  pose proof (Nat.div_mod (r_offset r + 7) 8 ltac:(lia)). pose proof (Nat.mod_upper_bound (r_offset r + 7) 8 ltac:(lia)).
  set (q := (r_offset r + 7) / 8) in *. clearbody q. case_bool_decide; [done|]. intros [= <-].
  unfold moved, reader_ok. cbn [r_buf r_offset]. split_and!; [done|lia..].
Qed.
Lemma r_slice_moves len rewind r sub r' :
  r_slice len rewind r = Ok (sub, r') → reader_ok r →
  moved 0 r r' ∧ reader_ok sub ∧ left_over sub ≤ left_over r.
Proof.
  unfold r_slice. case_bool_decide; [done|]. intros (s & (Hb & Ho & Hok)%r_skip_moves & [= <- <-])%result_bind_Ok Hr.
  unfold moved, reader_ok, left_over in *. rewrite Hb in *. cbn [r_buf r_offset] in *.
  rewrite length_take, length_drop in *. split_and!; [done|lia..].
Qed.

Lemma r_read_in_fuel n r : r_read n r ≠ Raise OutOfFuel.
Proof. unfold r_read. by case_bool_decide. Qed.
Lemma r_skip_in_fuel n r : r_skip n r ≠ Raise OutOfFuel.
Proof. unfold r_skip. by case_bool_decide. Qed.
Lemma r_slice_in_fuel len rewind r : r_slice len rewind r ≠ Raise OutOfFuel.
Proof. unfold r_slice, r_skip. case_bool_decide; [done|]. by case_bool_decide. Qed.

(** A computation that does not run out of fuel, when its parts do not *)
Lemma bind_in_fuel {A B} (m : result A) (k : A → result B) :
  m ≠ Raise OutOfFuel → (∀ a, m = Ok a → k a ≠ Raise OutOfFuel) → (a ← m; k a) ≠ Raise OutOfFuel.
Proof. intros Hm Hk. destruct m as [a|e]; cbn; [by apply Hk|]. by intros [= ->]. Qed.

Lemma Ok_inj {A} (a b : A) : Ok a = Ok b → a = b.
Proof. by intros [= ->]. Qed.

(** ** Statements *)

Definition is_u_slice (u : ustmt) : bool := match u with u_slice _ => true | _ => false end.

Section stmt.
Context (unpackf : string → reader → result (val * reader)) (bound : nat).
Context (Hmoves : ∀ name r v r', reader_ok r → unpackf name r = Ok (v, r') → moved 1 r r').
Context (Hfuel : ∀ name r, reader_ok r → left_over r < bound → unpackf name r ≠ Raise OutOfFuel).

Lemma unpack_list_moves fuel name r vs r' :
  reader_ok r → unpack_list unpackf fuel name r = Ok (vs, r') → moved 0 r r'.
Proof.
  revert r vs. induction fuel as [|fuel IH]; intros r vs Hr; cbn [unpack_list]; destruct (r_is_empty r); try done.
  1,2: intros [= _ <-]; by apply moved_refl.
  intros ([v r1] & Hv & ([vs' r2] & Hvs & [= _ <-])%result_bind_Ok)%result_bind_Ok.
  pose proof (Hmoves _ _ _ _ Hr Hv) as H1. eapply moved_weaken, moved_trans; [|exact H1|]; [lia|].
  eapply IH; [|done]. apply H1.
Qed.

Lemma unpack_list_in_fuel fuel name r :
  reader_ok r → left_over r < bound → left_over r ≤ fuel → unpack_list unpackf fuel name r ≠ Raise OutOfFuel.
Proof.
  revert r. induction fuel as [|fuel IH]; intros r Hr Hb Hf; cbn [unpack_list]; unfold r_is_empty;
    case_bool_decide as He; try done.
  - unfold left_over, reader_ok in *. lia.
  - apply bind_in_fuel; [by apply Hfuel|]. intros [v r1] Hv. pose proof (Hmoves _ _ _ _ Hr Hv) as H1.
    pose proof (moved_left _ _ _ H1). apply bind_in_fuel; [|by intros []]. apply IH; [apply H1|lia..].
Qed.

Lemma unpack_all_in_fuel name r :
  reader_ok r → left_over r < bound → unpack_all unpackf name r ≠ Raise OutOfFuel.
Proof. intros. apply unpack_list_in_fuel; [done..|]. unfold left_over. lia. Qed.

(** A statement moves the reader, or opens the slice that holds the object. *)
Lemma unpack_stmt_moves s st st' :
  reader_ok (u_reader st) → unpack_stmt unpackf s st = Ok st' →
  if is_u_slice s
  then ∃ r, u_orig st' = Some r ∧ moved 2 (u_reader st) r ∧ reader_ok (u_reader st') ∧
            2 + left_over (u_reader st') ≤ left_over (u_reader st)
  else u_orig st' = u_orig st ∧ moved (default 0 (stmt_size s)) (u_reader st) (u_reader st').
Proof.
  intros Hr. destruct s; cbn [unpack_stmt is_u_slice stmt_size default]; cbv zeta;
    try (intros ([b r] & Hb%r_read_moves & <-%Ok_inj)%result_bind_Ok; split; [reflexivity|exact Hb]).
  - intros ([b r] & Hb%r_read_moves & (? & _ & [= <-])%result_bind_Ok)%result_bind_Ok. by split.
  - intros ([b r] & Hb%r_read_moves & ([sub r'] & Hs & [= <-])%result_bind_Ok)%result_bind_Ok. cbn [u_orig u_reader].
    apply r_slice_moves in Hs as (Hm & Hok & Hle); [|apply Hb]. pose proof (moved_left _ _ _ Hb).
    exists r'. split_and!; [done| |done|lia]. exact (moved_trans 2 0 _ _ _ Hb Hm).
  - intros (r & Hb%r_skip_moves & [= <-])%result_bind_Ok. by split.
  - destruct (r_read_all _) as [b r] eqn:Hb. intros [= <-]. split; [done|]. by eapply r_read_all_moves.
  - intros ([v r] & Hb & [= <-])%result_bind_Ok. split; [done|].
    apply (moved_weaken _ 1); [cbn; lia|]. by eapply Hmoves.
  - intros ([vs r] & Hb & [= <-])%result_bind_Ok. split; [done|]. by eapply unpack_list_moves.
  - intros ([sub r] & Hb & ([vs ?] & _ & [= <-])%result_bind_Ok)%result_bind_Ok. split; [done|].
    by apply r_slice_moves in Hb as [? _].
Qed.

(** Statements that read no object *)
Lemma sized_in_fuel s st : stmt_size s ≠ None → unpack_stmt unpackf s st ≠ Raise OutOfFuel.
Proof.
  destruct s; cbn [unpack_stmt stmt_size]; cbv zeta; intros Hs;
    try (apply bind_in_fuel; [apply r_read_in_fuel|by intros []]); try done.
  - apply bind_in_fuel; [apply r_read_in_fuel|]. intros [b r] _. apply bind_in_fuel; [|done].
    unfold assert_. by case_bool_decide.
  - apply bind_in_fuel; [apply r_read_in_fuel|]. intros [b r] _.
    apply bind_in_fuel; [apply r_slice_in_fuel|by intros []].
  - apply bind_in_fuel; [apply r_skip_in_fuel|done].
Qed.

Lemma unpack_stmt_in_fuel s st :
  reader_ok (u_reader st) → left_over (u_reader st) < bound → unpack_stmt unpackf s st ≠ Raise OutOfFuel.
Proof.
  intros Hr Hb. destruct s; try (by apply sized_in_fuel); cbn [unpack_stmt]; cbv zeta.
  - done.
  - apply bind_in_fuel; [by apply Hfuel|by intros []].
  - apply bind_in_fuel; [by apply unpack_all_in_fuel|by intros []].
  - apply bind_in_fuel; [apply r_slice_in_fuel|]. intros [sub r] (_ & Hok & Hle)%r_slice_moves; [|done].
    apply bind_in_fuel; [apply unpack_all_in_fuel; [done|lia]|by intros []].
Qed.

(** ** Objects *)

Definition outer (st : ustate) : reader := default (u_reader st) (u_orig st).

(** The state of [unpack] after at least [n] bytes of [r0] *)
Definition within (n : nat) (r0 : reader) (us : list ustmt) (st : ustate) : Prop :=
  moved n r0 (outer st) ∧ reader_ok (u_reader st) ∧ n + left_over (u_reader st) ≤ left_over r0 ∧
  (u_orig st = None ∨ forallb (λ u, negb (is_u_slice u)) us = true).

(** At most one slice *)
Fixpoint one_slice (us : list ustmt) : bool :=
  match us with
  | [] => true
  | u :: us => if is_u_slice u then forallb (λ u, negb (is_u_slice u)) us else one_slice us
  end.

Lemma no_slice us : forallb (λ u, negb (is_u_slice u)) us = true → one_slice us = true.
Proof. induction us as [|u us IH]; [done|]. cbn. intros [->%negb_true_iff ?]%andb_true_iff. auto. Qed.

Lemma within_step n r0 s us st st' :
  within n r0 (s :: us) st → one_slice (s :: us) = true → unpack_stmt unpackf s st = Ok st' →
  within (n + if u_orig st then 0 else default 0 (stmt_size s)) r0 us st' ∧ one_slice us = true.
Proof.
  intros (Hm & Hr & Hle & Ho) Hone Hs. pose proof (unpack_stmt_moves s st st' Hr Hs) as Hmv.
  unfold within, outer in *. cbn [one_slice forallb] in *. destruct (is_u_slice s) eqn:His.
  - destruct Ho as [Ho|Ho]; [|done]. destruct Hmv as (r & Ho' & Hm' & Hr' & Hle'). rewrite Ho, Ho' in *.
    destruct s; try done. cbn in Hm |- *. unfold id in *.
    split; [|by apply no_slice]. split_and!; [exact (moved_trans _ _ _ _ _ Hm Hm')|done|lia|by right].
  - destruct Hmv as (Ho' & Hm'). split; [|done]. pose proof (moved_left _ _ _ Hm'). rewrite Ho'.
    destruct (u_orig st) as [o|] eqn:Hst; cbn [from_option] in *; unfold id in *.
    + rewrite Nat.add_0_r. split_and!; [done|apply Hm'|lia|]. right. by destruct Ho.
    + split_and!; [exact (moved_trans _ _ _ _ _ Hm Hm')|apply Hm'|lia|by left].
Qed.

Lemma within_weaken n m r0 us st : n ≤ m → within m r0 us st → within n r0 us st.
Proof. intros ? (? & ? & ? & ?). split_and!; [by eapply moved_weaken|done|lia|done]. Qed.

Lemma unpack_stmts_within n r0 us st st' :
  within n r0 us st → one_slice us = true → unpack_stmts unpackf us st = Ok st' → within n r0 [] st'.
Proof.
  revert st. induction us as [|s us IH]; intros st Hw Hone; cbn [unpack_stmts].
  { by intros [= <-]. }
  intros (st1 & Hs & Hrest)%result_bind_Ok. destruct (within_step _ _ _ _ _ _ Hw Hone Hs) as [Hw1 Hone1].
  eapply IH; [|done..]. by eapply within_weaken, Hw1; lia.
Qed.

Lemma unpack_stmts_in_fuel n r0 us st :
  within n r0 us st → one_slice us = true → left_over r0 < n + bound → unpack_stmts unpackf us st ≠ Raise OutOfFuel.
Proof.
  revert st. induction us as [|s us IH]; intros st Hw Hone Hb; cbn [unpack_stmts]; [done|].
  pose proof Hw as (_ & Hr & Hle & _). apply bind_in_fuel; [apply unpack_stmt_in_fuel; [done|lia]|].
  intros st1 Hs. destruct (within_step _ _ _ _ _ _ Hw Hone Hs) as [Hw1 Hone1].
  apply IH; [|done..]. by eapply within_weaken, Hw1; lia.
Qed.

(** An object starts with bytes of its own. *)
Definition class_total (c : cls) : bool :=
  one_slice (c_unpack c) &&
  match c_unpack c with
  | s :: _ => bool_decide (1 ≤ default 0 (stmt_size s))
  | [] => false
  end.
End stmt.

Section total.
Context (classes : string → option cls).

(** The hierarchy below a class is not higher than the fuel. *)
Fixpoint height_ok (fuel : nat) (name : string) : bool :=
  match fuel with
  | 0 => false
  | S fuel =>
      match classes name with
      | Some c => forallb (λ zs, height_ok fuel zs.2) (c_subtypes c)
      | None => true
      end
  end.

Context (Htotal : ∀ name c, classes name = Some c → class_total c = true ∧ height_ok HIERARCHY name = true).

Lemma hand_over_class fuel name r c : hand_over classes fuel name r = Ok c → ∃ k, classes k = Some c.
Proof.
  revert name. induction fuel as [|fuel IH]; intros name; [done|]. cbn [hand_over].
  destruct (classes name) as [k|] eqn:Hk; [|done]. cbn [of_option mbind result_bind].
  destruct (c_dispatch k) as [[n off]|]; [|intros [= <-]; eauto].
  intros (z & _ & Hz)%result_bind_Ok. destruct (od_get z (c_subtypes k)); [by eapply IH|injection Hz as <-; eauto].
Qed.

Lemma hand_over_in_fuel fuel name r : height_ok fuel name = true → hand_over classes fuel name r ≠ Raise OutOfFuel.
Proof.
  revert name. induction fuel as [|fuel IH]; intros name; [done|]. cbn [hand_over height_ok].
  destruct (classes name) as [k|]; [|done]. intros Hk. cbn [of_option mbind result_bind].
  destruct (c_dispatch k) as [[n off]|]; [|done]. apply bind_in_fuel.
  - unfold r_peek. by case_bool_decide.
  - intros z _. destruct (od_get z (c_subtypes k)) as [sub|] eqn:Hz; [|done]. apply IH.
    rewrite forallb_forall in Hk. apply od_get_Some_elem, list_elem_of_In, Hk in Hz. done.
Qed.

Lemma fresh_within r attrs us : reader_ok r → within 0 r us (mk_ustate r None 0 attrs).
Proof. intros Hr. split_and!; [by apply moved_refl|done|cbn; lia|by left]. Qed.

(** An object is read from its first byte on: its statements, after the first one *)
Lemma first_stmt unpackf c r :
  (∀ name r v r', reader_ok r → unpackf name r = Ok (v, r') → moved 1 r r') →
  class_total c = true → reader_ok r →
  ∃ s us, c_unpack c = s :: us ∧ one_slice us = true ∧ stmt_size s ≠ None ∧
    ∀ st, unpack_stmt unpackf s (mk_ustate r None 0 (c_init c)) = Ok st → within 1 r us st.
Proof.
  intros Hmv Hc Hr. unfold class_total in Hc. destruct (c_unpack c) as [|s us]; [split_checks; done|]. split_checks.
  exists s, us. split_and!; [done| |by destruct (stmt_size s); cbn in *; [|lia]|].
  - cbn [one_slice] in *. destruct (is_u_slice s); [by apply no_slice|done].
  - intros st Hst. eapply (within_step unpackf Hmv 0) in Hst as [Hst _]; [|by apply fresh_within|done].
    eapply within_weaken, Hst. done.
Qed.

Lemma unpack_object_moves unpackf c r v r' :
  (∀ name r v r', reader_ok r → unpackf name r = Ok (v, r') → moved 1 r r') →
  class_total c = true → reader_ok r → unpack_object unpackf c r = Ok (v, r') → moved 1 r r'.
Proof.
  intros Hmv Hc Hr. destruct (first_stmt unpackf c r Hmv Hc Hr) as (s & us & Hus & Hone & Hsize & Hfirst).
  unfold unpack_object. rewrite Hus. cbn [unpack_stmts].
  intros (st & (st1 & Hs & Hrest)%result_bind_Ok & Hend)%result_bind_Ok. cbv zeta in Hend.
  eapply unpack_stmts_within in Hrest as (Hm & _); [|done|by apply Hfirst|done].
  apply result_bind_Ok in Hend as (r1 & H1 & [= _ <-]). unfold outer in Hm.
  destruct (c_align c); [|by injection H1 as <-].
  apply r_skip_align_moves in H1. exact (moved_trans 1 0 _ _ _ Hm H1).
Qed.

Lemma unpack_moves fuel name r v r' : reader_ok r → unpack classes fuel name r = Ok (v, r') → moved 1 r r'.
Proof.
  revert name r v r'. induction fuel as [|fuel IH]; intros name r v r' Hr; [done|]. cbn [unpack].
  intros (c & [k Hk]%hand_over_class & Hobj)%result_bind_Ok. destruct (Htotal k c Hk) as [Hc _].
  by eapply unpack_object_moves.
Qed.

Lemma unpack_in_fuel fuel name r :
  reader_ok r → left_over r < fuel → unpack classes fuel name r ≠ Raise OutOfFuel.
Proof.
  revert name r. induction fuel as [|fuel IH]; intros name r Hr Hb; [lia|]. cbn [unpack]. apply bind_in_fuel.
  { destruct (classes name) as [c|] eqn:Hn; [by apply hand_over_in_fuel, (Htotal name c)|].
    unfold HIERARCHY. cbn [hand_over]. by rewrite Hn. }
  intros c [k Hk]%hand_over_class. destruct (Htotal k c Hk) as [Hc _].
  destruct (first_stmt (unpack classes fuel) c r (unpack_moves fuel) Hc Hr) as (s & us & Hus & Hone & Hsize & Hfirst).
  unfold unpack_object. rewrite Hus. cbn [unpack_stmts]. apply bind_in_fuel; [apply bind_in_fuel|].
  - by apply sized_in_fuel.
  - intros st Hst. eapply (unpack_stmts_in_fuel _ fuel (unpack_moves fuel) IH 1 r); [by apply Hfirst|done|lia].
  - intros st _. apply bind_in_fuel; [|done]. destruct (c_align c); [|done]. unfold r_skip_align. cbv zeta.
    by case_bool_decide.
Qed.

(** [unpack] returns a value or raises an exception of the code, on every buffer. *)
Lemma unpack_buffer_ends name buf : unpack_buffer classes name buf ≠ Raise OutOfFuel.
Proof.
  unfold unpack_buffer. apply bind_in_fuel; [|by intros []].
  apply unpack_in_fuel; unfold reader_ok, left_over; cbn; lia.
Qed.
End total.

(** ** Packing *)

(** The nesting of objects *)
Fixpoint depth (v : val) : nat :=
  match v with
  | VObj _ attrs => S (foldr (λ av n, max (depth av.2) n) 0 attrs)
  | VList l => foldr (λ v n, max (depth v) n) 0 l
  | _ => 0
  end.

Lemma foldr_max {A} (f : A → nat) (l : list A) x : x ∈ l → f x ≤ foldr (λ y n, max (f y) n) 0 l.
Proof. induction l as [|y l IH]; [by intros ?%not_elem_of_nil|]. intros [-> |H%IH]%elem_of_cons; cbn; lia. Qed.

Lemma mapM_in_fuel {A B} (f : A → result B) l :
  (∀ x, x ∈ l → f x ≠ Raise OutOfFuel) → mapM f l ≠ Raise OutOfFuel.
Proof.
  induction l as [|x l IH]; intros Hf; [done|]. cbn [mapM].
  apply bind_in_fuel; [apply Hf; left|]. intros y _. apply bind_in_fuel; [|done]. apply IH. intros z Hz. apply Hf. by right.
Qed.

Lemma pack_int_in_fuel n v : pack_int n v ≠ Raise OutOfFuel.
Proof. destruct v; try done. unfold pack_int. by destruct (in_range n z). Qed.
Lemma set_at_in_fuel {A} i (x : A) l : set_at i x l ≠ Raise OutOfFuel.
Proof. unfold set_at. by case_bool_decide. Qed.
Lemma get_attr_in_fuel c attrs a : get_attr c attrs a ≠ Raise OutOfFuel.
Proof. unfold get_attr. destruct (od_get a attrs); [done|]. by destruct (od_get a (c_consts c)). Qed.

Section pack.
Context (packf : val → result (list byte)) (c : cls) (attrs : list (string * val)).
Context (Hpack : ∀ v, depth v ≤ foldr (λ av n, max (depth av.2) n) 0 attrs → packf v ≠ Raise OutOfFuel).

Lemma attr_depth a v : get_attr c attrs a = Ok v → depth v ≤ foldr (λ av n, max (depth av.2) n) 0 attrs.
Proof.
  unfold get_attr. destruct (od_get a attrs) as [w|] eqn:Ha.
  - intros [= ->]. apply od_get_Some_elem in Ha. by apply (foldr_max (λ av, depth av.2)) in Ha.
  - intros (z & _ & [= <-])%result_bind_Ok. cbn. lia.
Qed.

Lemma pack_list_in_fuel a v : get_attr c attrs a = Ok v → pack_list packf v ≠ Raise OutOfFuel.
Proof.
  intros Hv%attr_depth. destruct v as [| | | | |l|]; try done. cbn [pack_list]. apply bind_in_fuel; [|done].
  apply mapM_in_fuel. intros x Hx%(foldr_max depth). apply Hpack. cbn in Hv. lia.
Qed.

Lemma item_in_fuel it : item_bytes packf c attrs it ≠ Raise OutOfFuel.
Proof.
  destruct it; cbn [item_bytes]; try done; apply bind_in_fuel; try apply get_attr_in_fuel; intros v Hv.
  - apply pack_int_in_fuel.
  - by destruct v.
  - by destruct v.
  - destruct v; try done. unfold pack_bytes. by destruct (_ && _).
  - by apply Hpack, (attr_depth attr).
  - by eapply pack_list_in_fuel.
  - by eapply pack_list_in_fuel.
  - by destruct v.
  - destruct v; try done. unfold pack_bitmap_128. by destruct (forallb _ _).
  - destruct v; try done. unfold pack_bitmap_512. by repeat destruct (negb _).
Qed.

Lemma pack_items_in_fuel its packed : pack_items packf c attrs its packed ≠ Raise OutOfFuel.
Proof.
  revert packed. induction its as [|it its IH]; intros packed; cbn [pack_items]; [done|].
  apply bind_in_fuel; [apply item_in_fuel|]. intros b _. apply bind_in_fuel; [|intros ? _; apply IH].
  destruct it; try done. apply bind_in_fuel; [apply pack_int_in_fuel|]. intros l _. apply set_at_in_fuel.
Qed.

Lemma pack_tail_in_fuel t packed : pack_tail t packed ≠ Raise OutOfFuel.
Proof.
  destruct t; unfold pack_tail; cbv zeta; [done|..]; apply bind_in_fuel; try apply pack_int_in_fuel; intros l _;
    try apply set_at_in_fuel. apply bind_in_fuel; [apply set_at_in_fuel|done].
Qed.
End pack.

Lemma pack_ends classes fuel v : depth v < fuel → pack classes fuel v ≠ Raise OutOfFuel.
Proof.
  revert v. induction fuel as [|fuel IH]; intros v Hd; [lia|]. destruct v as [| | | | | |d attrs]; try done.
  cbn [pack]. apply bind_in_fuel; [by destruct (classes d)|]. intros c _. unfold pack_object.
  apply bind_in_fuel.
  - apply pack_items_in_fuel. intros v Hv. apply IH. cbn in Hd. lia.
  - intros packed _. apply bind_in_fuel; [apply pack_tail_in_fuel|done].
Qed.
