(* ===== verification/LoxiEqual.v ===== *)
(** * The OpenFlow bindings: comparing objects

    Where the methods __eq__ compare every attribute, two objects are equal for
    Python exactly when they are the same value. *)

From Stdlib Require Import Strings.Byte.
From stdpp Require Import prelude strings list.
From S2P Require Import Prelude LoxiWire LoxiSpec LoxiRoundtrip LoxiTotal.

Section equal.
Context (classes : string → option cls).

(** Objects of known classes, with the attributes of their class *)
Inductive shaped : val → Prop :=
  | shaped_none : shaped VNone
  | shaped_int z : shaped (VInt z)
  | shaped_str s : shaped (VStr s)
  | shaped_ints l : shaped (VInts l)
  | shaped_set l : shaped (VSet l)
  | shaped_list l : (∀ v, v ∈ l → shaped v) → shaped (VList l)
  | shaped_obj d attrs c :
      classes d = Some c → od_keys attrs = od_keys (c_init c) →
      (∀ a v, (a, v) ∈ attrs → shaped v) → shaped (VObj d attrs).

(** __eq__ compares the attributes of the constructor. *)
Definition eq_checked (c : cls) : bool :=
  bool_decide (c_eq c = od_keys (c_init c)) && bool_decide (NoDup (od_keys (c_init c))).
Context (Hchecked : ∀ d c, classes d = Some c → eq_checked c = true).

Definition decides (f : val → val → result bool) (v w : val) : Prop :=
  ∃ b, f v w = Ok b ∧ (b = true ↔ v = w).

Lemma list_equal_decides f l k :
  length l = length k → (∀ v w, v ∈ l → w ∈ k → decides f v w) → ∃ b, list_equal f l k = Ok b ∧ (b = true ↔ l = k).
Proof.
  revert k. induction l as [|v l IH]; intros [|w k] Hlen Hf; try done; cbn [list_equal]; [by exists true|].
  destruct (Hf v w ltac:(left) ltac:(left)) as (b & -> & Hb). cbn [mbind result_bind]. destruct b.
  - destruct (IH k) as (b' & -> & Hb'); [by injection Hlen|intros; apply Hf; by right|].
    exists b'. split; [done|]. naive_solver.
  - exists false. split; [done|]. naive_solver.
Qed.

Lemma attrs_equal_decides f c attrs attrs' compared :
  (∀ a, a ∈ compared → ∃ v w, od_get a attrs = Some v ∧ od_get a attrs' = Some w ∧ decides f v w) →
  ∃ b, attrs_equal f c compared attrs attrs' = Ok b ∧ (b = true ↔ ∀ a, a ∈ compared → od_get a attrs = od_get a attrs').
Proof.
  induction compared as [|a compared IH]; intros Hf; cbn [attrs_equal].
  { exists true. split; [done|]. split; [by intros _ a ?%not_elem_of_nil|done]. }
  destruct (Hf a ltac:(left)) as (v & w & Hv & Hw & b & Heq & Hb). unfold get_attr at 1 2. rewrite Hv, Hw.
  cbn [mbind result_bind]. rewrite Heq. cbn [mbind result_bind]. destruct b.
  - destruct IH as (b' & -> & Hb'); [intros; apply Hf; by right|]. exists b'. split; [done|]. rewrite Hb'.
    setoid_rewrite elem_of_cons. split; [|by auto]. intros Hall x [->|Hx]; [|auto].
    rewrite Hv, Hw. f_equal. by apply Hb.
  - exists false. split; [done|]. split; [done|]. intros Hall. specialize (Hall a ltac:(left)).
    rewrite Hv, Hw in Hall. injection Hall as Hall. tauto.
Qed.

(** The nesting of objects and lists *)
Fixpoint height (v : val) : nat :=
  match v with
  | VObj _ attrs => S (foldr (λ av n, max (height av.2) n) 0 attrs)
  | VList l => S (foldr (λ v n, max (height v) n) 0 l)
  | _ => 0
  end.

Lemma keys_get (attrs : list (string * val)) a : a ∈ od_keys attrs → ∃ v, od_get a attrs = Some v ∧ (a, v) ∈ attrs.
Proof.
  intros Ha. destruct (od_get a attrs) as [v|] eqn:Hv; [|by apply od_get_None in Hv].
  exists v. split; [done|]. by apply od_get_Some_elem.
Qed.

Lemma obj_equal_decides fuel d attrs attrs' c :
  classes d = Some c → od_keys attrs = od_keys (c_init c) → od_keys attrs' = od_keys (c_init c) →
  (∀ a v w, (a, v) ∈ attrs → (a, w) ∈ attrs' → decides (equal classes fuel) v w) →
  decides (equal classes (S fuel)) (VObj d attrs) (VObj d attrs').
Proof.
  intros Hd Hk Hk' Hsub. pose proof (Hchecked d c Hd) as Hc. unfold eq_checked in Hc. split_checks.
  rename select (c_eq c = _) into Heq. rename select (NoDup _) into Hnd.
  unfold decides. cbn [equal]. rewrite bool_decide_eq_false_2 by naive_solver. rewrite Hd. cbn [of_option mbind result_bind].
  destruct (attrs_equal_decides (equal classes fuel) c attrs attrs' (c_eq c)) as (b & -> & Hb).
  { rewrite Heq. intros a Ha. destruct (keys_get attrs a) as (v & Hv & Hin); [congruence|].
    destruct (keys_get attrs' a) as (w & Hw & Hin'); [congruence|]. eauto 6. }
  exists b. split; [done|]. rewrite Hb, Heq. split; [|by intros [= ->]].
  intros Hall. f_equal. apply od_ext; [congruence|congruence|]. by rewrite Hk.
Qed.

Lemma equal_decides fuel v w : shaped v → shaped w → height v < fuel → decides (equal classes fuel) v w.
Proof.
  revert v w. induction fuel as [|fuel IH]; intros v w Hv Hw Hf; [lia|].
  destruct Hv as [|z|s|l|l|l Hl|d attrs c Hd Hk Ha], Hw as [|z'|s'|l'|l'|l' Hl'|d' attrs' c' Hd' Hk' Ha'];
    try (eexists; split; [done|]; done);
    try (eexists; split; [done|]; rewrite bool_decide_eq_true; naive_solver).
  - unfold decides. cbn [equal]. case_bool_decide as Hlen.
    + destruct (list_equal_decides (equal classes fuel) l l' Hlen) as (b & -> & Hb).
      { intros v w Hin Hin'. apply IH; [auto..|]. apply (foldr_max height) in Hin. cbn in Hf. lia. }
      exists b. split; [done|]. rewrite Hb. naive_solver.
    + exists false. split; [done|]. naive_solver.
  - destruct (decide (d = d')) as [<-|Hne].
    + rewrite Hd in Hd'. injection Hd' as <-. apply (obj_equal_decides fuel d attrs attrs' c); [done..|].
      intros a v w Hin Hin'. apply IH; [eauto..|]. apply (foldr_max (λ av, height av.2)) in Hin. cbn in Hf, Hin. lia.
    + exists false. cbn [equal]. rewrite bool_decide_eq_true_2 by done. split; [done|]. naive_solver.
Qed.
End equal.
