(* ===== verification/LoxiPrint.v ===== *)
(** * The OpenFlow bindings: printing (loxi/pp.py, util.py)

    [obj.show()] prints an object by the methods [pretty_print] of its class and of
    the objects in it, through the printer of pp.py: a method appends texts and
    possible line breaks to nested groups, and each group is then written on one
    line if it fits there, else with a new line at each of its breaks. *)

From Stdlib Require Import Strings.Byte Ascii.
From stdpp Require Import prelude strings list.
From S2P Require Import Prelude LoxiWire LoxiSpec LoxiRoundtrip LoxiTotal LoxiEqual.

Local Open Scope Z_scope.

(** ** Numbers and strings as Python writes them *)

(** What Python leaves open: the order of the elements of a set, and the text of
    values that have none of their own (an object's holds its address). *)
Class PyText : Type := {
  set_iter : list Z → list Z;
  set_iter_perm l : set_iter l ≡ₚ l;
  repr_other : val → string;
}.

Definition char (b : byte) : string := String (ascii_of_byte b) EmptyString.
(** repr of a string: single quotes, unless it holds such and no double quote *)
Definition escape (quote b : byte) : string :=
  let n := Z_of_byte b in
  if bool_decide (b = quote ∨ b = x5c) then char x5c +:+ char b
  else if bool_decide (b = x09) then char x5c +:+ "t"
  else if bool_decide (b = x0a) then char x5c +:+ "n"
  else if bool_decide (b = x0d) then char x5c +:+ "r"
  else if bool_decide (n < 32 ∨ 127 ≤ n) then char x5c +:+ "x" +:+ py_hex02 n
  else char b.
Definition repr_str (s : list byte) : string :=
  let quote := if bool_decide (x27 ∈ s ∧ x22 ∉ s) then x22 else x27 in
  char quote +:+ py_join "" (escape quote <$> s) +:+ char quote.
(** A number beyond sys.maxint is a long. *)
Definition repr_int (z : Z) : string := py_dec z +:+ if bool_decide (-2 ^ 63 ≤ z < 2 ^ 63) then "" else "L".

Section text.
Context `{PyText}.

Definition repr (v : val) : string :=
  match v with
  | VNone => "None"
  | VInt z => repr_int z
  | VStr s => repr_str s
  | VSet l => "set([" +:+ py_join ", " (repr_int <$> set_iter l) +:+ "])"
  | _ => repr_other v
  end.
Definition str (v : val) : string :=
  match v with
  | VInt z => py_dec z
  | VStr s => py_join "" (char <$> s)
  | _ => repr v
  end.

(** ** The functions of util.py; a version has its constants *)

Record constants : Type := mk_constants { OFPP : list (string * Z); OFPFW : list (string * Z) }.
Context (const : constants).

Definition text_hex (v : val) : result string :=
  match v with VInt z => Ok (py_hex z) | _ => Raise TypeError end.

Definition pretty_mac (v : val) : result string :=
  match v with
  | VInts l => Ok (py_join ":" (py_hex02 <$> l))
  | VSet l => Ok (py_join ":" (py_hex02 <$> set_iter l))
  | VList [] | VStr [] => Ok ""
  | _ => Raise TypeError
  end.

Definition pretty_ipv4 (v : val) : result string :=
  match v with
  | VInt z =>
      let part i := py_dec (Z.land (Z.shiftr z i) 255) in
      Ok (part 24 +:+ "." +:+ part 16 +:+ "." +:+ part 8 +:+ "." +:+ py_dec (Z.land z 255))
  | _ => Raise TypeError
  end.

Fixpoint set_flags (v : Z) (flag_names : list string) (acc : list string) : result (list string * Z) :=
  match flag_names with
  | [] => Ok (acc, v)
  | n :: ns =>
      f ← of_option AttributeError (od_get n (OFPFW const));
      let acc := if bool_decide (Z.land v f = f) then acc ++ [n]
                 else if bool_decide (Z.land v f ≠ 0) then acc ++ [n +:+ "&" +:+ py_hex (Z.land v f)]
                 else acc in
      set_flags (Z.ldiff v f) ns acc
  end.
Definition pretty_flags (v : Z) (flag_names : list string) : result string :=
  '(acc, v) ← set_flags v flag_names [];
  let acc := if bool_decide (v ≠ 0) then acc ++ [py_hex v] else acc in
  Ok (if bool_decide (py_join "|" acc = "") then "0" else py_join "|" acc).

Definition FLAG_NAMES : list string :=
  ["OFPFW_IN_PORT"; "OFPFW_DL_VLAN"; "OFPFW_DL_SRC"; "OFPFW_DL_DST"; "OFPFW_DL_TYPE"; "OFPFW_NW_PROTO";
   "OFPFW_TP_SRC"; "OFPFW_TP_DST"; "OFPFW_NW_SRC_MASK"; "OFPFW_NW_DST_MASK"; "OFPFW_DL_VLAN_PCP";
   "OFPFW_NW_TOS"].
Definition pretty_wildcards (v : val) : result string :=
  all ← of_option AttributeError (od_get "OFPFW_ALL" (OFPFW const));
  match v with
  | VInt z => if bool_decide (z = all) then Ok "OFPFW_ALL" else pretty_flags z FLAG_NAMES
  | _ =>
      _ ← of_option AttributeError (od_get "OFPFW_IN_PORT" (OFPFW const));
      Raise TypeError
  end.

(** The name of a reserved port, else what was given, as [q.text] writes it *)
Definition pretty_port (v : val) : string :=
  match v with
  | VInt z => match find_index (λ kv, bool_decide (z = kv.2)) (OFPP const) with
              | Some (_, kv) => kv.1
              | None => str v
              end
  | _ => str v
  end.
End text.

(** ** The printer (pp.py) *)

(** What a group holds: texts, possible breaks, and groups that are closed, with
    their length. *)
Inductive fragment : Type :=
  | Text (s : string)
  | Breakable (sep : string) (indent : nat)
  | FGroup (fragments : list fragment) (len : nat).

Definition len (x : fragment) : nat :=
  match x with Text s => String.length s | Breakable sep _ => String.length sep | FGroup _ n => n end.

Record group : Type := mk_group { fragments : list fragment; g_length : nat; g_first : bool }.
Definition new_group : group := mk_group [] 0 true.
Definition g_append (x : fragment) (g : group) : group :=
  mk_group (fragments g ++ [x]) (g_length g + len x) (g_first g).

(** [root_group] is the last element of the stack. *)
Record printer : Type := mk_printer {
  maxwidth : Z;
  cur_indent : nat;
  group_stack : list group;            (** the innermost group first *)
}.
Definition new_printer (w : Z) : printer := mk_printer w 0 [new_group].

Definition set_indent (n : nat) (q : printer) : printer := mk_printer (maxwidth q) n (group_stack q).
Definition set_stack (gs : list group) (q : printer) : printer := mk_printer (maxwidth q) (cur_indent q) gs.

Definition append (x : fragment) : M printer unit := λ q,
  match group_stack q with
  | [] => (Raise IndexError, q)
  | g :: gs => (Ok tt, set_stack (g_append x g :: gs) q)
  end.
Definition text (s : string) : M printer unit := append (Text s).
Definition breakable : M printer unit := λ q, append (Breakable " " (cur_indent q)) q.
Definition first : M printer bool := λ q,
  match group_stack q with
  | [] => (Raise IndexError, q)
  | g :: gs =>
      if g_first g then (Ok true, set_stack (mk_group (fragments g) (g_length g) false :: gs) q) else (Ok false, q)
  end.
(** The context managers; an exception in the body leaves them half-way. *)
Definition indent (n : nat) (body : M printer unit) : M printer unit :=
  _ ← modify (λ q, set_indent (cur_indent q + n) q);
  _ ← body;
  modify (λ q, set_indent (cur_indent q - n) q).
Definition close_group : M printer unit := λ q,
  match group_stack q with
  | g :: gs => append (FGroup (fragments g) (g_length g)) (set_stack gs q)
  | [] => (Raise IndexError, q)
  end.
Definition with_group (body : M printer unit) : M printer unit :=
  _ ← modify (λ q, set_stack (new_group :: group_stack q) q);
  _ ← body;
  close_group.

(** Group.render: the text of a fragment, and the width of the line after it *)
Definition NEWLINE : string := char x0a.
Definition spaces (n : nat) : string := py_join "" (replicate n " ").
Section render.
Context (maxwidth : Z).
Definition dobreak (n : nat) (curwidth : Z) : bool := bool_decide (Z.of_nat n > maxwidth - curwidth).

Fixpoint render_fragment (b : bool) (curwidth : Z) (x : fragment) : string * Z :=
  match x with
  | Text s => (s, curwidth + Z.of_nat (String.length s))
  | Breakable sep n =>
      if b then (NEWLINE +:+ spaces n, Z.of_nat n) else (sep, curwidth + Z.of_nat (String.length sep))
  | FGroup xs n =>
      let s := (fix render_all cw xs :=
                  match xs with
                  | [] => ""
                  | x :: xs => let r := render_fragment (dobreak n curwidth) cw x in r.1 +:+ render_all r.2 xs
                  end) curwidth xs in
      (s, curwidth + Z.of_nat (String.length s))
  end.
Fixpoint render_all (b : bool) (curwidth : Z) (xs : list fragment) : string :=
  match xs with
  | [] => ""
  | x :: xs => let r := render_fragment b curwidth x in r.1 +:+ render_all b r.2 xs
  end.
Definition render (g : group) (curwidth : Z) : string :=
  render_all (dobreak (g_length g) curwidth) curwidth (fragments g).
End render.

(** ** Printing values *)

Definition q_attr (q : qstmt) : string :=
  match q with
  | q_hex a | q_hex_or_none a | q_pp a | q_port a | q_mac a | q_ipv4 a | q_wildcards a => a
  end.

(** The name of a class without its module *)
Fixpoint after_dot (s : string) : string :=
  match s with
  | EmptyString => ""
  | String c s' => if bool_decide (c = ascii_of_byte x2e) then s' else after_dot s'
  end.
Definition c_title (c : cls) : string := after_dot (c_name c).

Section print.
Context `{PyText} (const : constants) (classes : string → option cls).

(** The text of an attribute that is not printed by [q.pp] *)
Definition attr_text (q : qstmt) (v : val) : result string :=
  match q with
  | q_hex _ => text_hex v
  | q_hex_or_none _ => match v with VNone => Ok "None" | _ => text_hex v end
  | q_pp _ => Ok (repr v)
  | q_port _ => Ok (pretty_port const v)
  | q_mac _ => pretty_mac v
  | q_ipv4 _ => pretty_ipv4 v
  | q_wildcards _ => pretty_wildcards const v
  end.

Section step.
Context (pp : val → M printer unit).

Definition print_attr (c : cls) (attrs : list (string * val)) (q : qstmt) : M printer unit :=
  _ ← text (q_attr q +:+ " = ");
  v ← lift (get_attr c attrs (q_attr q));
  match q with
  | q_pp _ => pp v
  | _ => s ← lift (attr_text q v); text s
  end.
Fixpoint print_attrs (c : cls) (attrs : list (string * val)) (qs : list qstmt) : M printer unit :=
  match qs with
  | [] => mret tt
  | [q] => print_attr c attrs q
  | q :: qs =>
      _ ← print_attr c attrs q;
      _ ← text ",";
      _ ← breakable;
      print_attrs c attrs qs
  end.
(** The method [pretty_print] of a class *)
Definition pretty_print (c : cls) (attrs : list (string * val)) : M printer unit :=
  _ ← text (c_title c +:+ " {");
  _ ← with_group (
    _ ← indent 2 (_ ← breakable; print_attrs c attrs (c_print c));
    breakable);
  text "}".

Fixpoint print_entries (l : list val) : M printer unit :=
  match l with
  | [] => mret tt
  | v :: l =>
      is_first ← first;
      _ ← (if is_first : bool then mret tt else text ",");
      _ ← breakable;
      _ ← pp v;
      print_entries l
  end.
Definition pretty_print_list (l : list val) : M printer unit :=
  with_group (
    _ ← text "[";
    _ ← indent 2 (print_entries l);
    _ ← breakable;
    text "]").
End step.

(** [q.pp(v)]; the fuel bounds the nesting. *)
Fixpoint pp (fuel : nat) (v : val) : M printer unit :=
  match fuel with
  | O => raise OutOfFuel
  | S fuel =>
      match v with
      | VObj d attrs => c ← lift (of_option AttributeError (classes d)); pretty_print (pp fuel) c attrs
      | VList l => pretty_print_list (pp fuel) l
      | VInts l => pretty_print_list (pp fuel) (VInt <$> l)
      | _ => text (repr v)
      end
  end.

(** [loxi.pp.pp(v)], and [v.show()] of an object; lists of numbers nest once more. *)
Definition pp_text (w : Z) (v : val) : result string :=
  match pp (S (S (height v))) v (new_printer w) with
  | (Ok _, q) => g ← of_option IndexError (last (group_stack q)); Ok (render (maxwidth q) g 0)
  | (Raise e, _) => Raise e
  end.
Definition show (v : val) : result string := pp_text 79 v.
End print.

(** ** What is printed *)

(** A group is written on one line if it fits, and otherwise differs from that
    line in blanks only. *)
Section render_spec.

Definition total (xs : list fragment) : nat := foldr (λ x n, (len x + n)%nat) 0%nat xs.
Fixpoint flat (x : fragment) : string :=
  match x with
  | Text s => s
  | Breakable sep _ => sep
  | FGroup xs _ => foldr (λ x s, flat x +:+ s) "" xs
  end.
Definition flat_all (xs : list fragment) : string := foldr (λ x s, flat x +:+ s) "" xs.

(** Lengths are right and breaks are single blanks. *)
Fixpoint consistent (x : fragment) : Prop :=
  match x with
  | Text _ => True
  | Breakable sep _ => sep = " "
  | FGroup xs n => n = total xs ∧ foldr (λ x P, consistent x ∧ P) True xs
  end.
Definition consistent_all (xs : list fragment) : Prop := foldr (λ x P, consistent x ∧ P) True xs.

Lemma fragment_nested_ind (P : fragment → Prop) :
  (∀ s, P (Text s)) → (∀ sep n, P (Breakable sep n)) → (∀ xs n, Forall P xs → P (FGroup xs n)) → ∀ x, P x.
Proof.
  intros Ht Hb Hg. fix IH 1. intros [s|sep n|xs n]; [apply Ht|apply Hb|]. apply Hg.
  induction xs as [|x xs IHxs]; constructor; [apply IH|exact IHxs].
Qed.

Lemma flat_length x : consistent x → String.length (flat x) = len x.
Proof.
  induction x as [s|sep n|xs n IH] using fragment_nested_ind; cbn; [done..|]. intros [-> Hxs].
  induction IH as [|x xs Hx _ IHxs]; [done|]. destruct Hxs as [H1 H2]. simpl. rewrite string_length_app, Hx by done.
  f_equal. by apply IHxs.
Qed.
Lemma flat_all_length xs : consistent_all xs → String.length (flat_all xs) = total xs.
Proof. intros Hxs. apply (flat_length (FGroup xs (total xs))). by split. Qed.

Lemma flat_all_app xs ys : flat_all (xs ++ ys) = flat_all xs +:+ flat_all ys.
Proof.
  induction xs as [|x xs IH]; [done|]. unfold flat_all in *. cbn [app foldr]. rewrite IH. symmetry. apply append_assoc.
Qed.
Lemma total_app xs ys : total (xs ++ ys) = (total xs + total ys)%nat.
Proof. induction xs as [|x xs IH]; [done|]. unfold total in *. cbn [app foldr]. rewrite IH. lia. Qed.
Lemma consistent_app xs ys : consistent_all (xs ++ ys) ↔ consistent_all xs ∧ consistent_all ys.
Proof. induction xs as [|x xs IH]; cbn; [naive_solver|]. unfold consistent_all in IH. rewrite IH. naive_solver. Qed.

Context (w : Z).

Lemma render_group b cw xs n :
  render_fragment w b cw (FGroup xs n) =
  (render_all w (dobreak w n cw) cw xs, cw + Z.of_nat (String.length (render_all w (dobreak w n cw) cw xs))).
Proof.
  cbn [render_fragment]. set (b' := dobreak w n cw). clearbody b'. cbv zeta.
  match goal with |- (?F cw xs, _) = _ => assert (∀ cw, F cw xs = render_all w b' cw xs) as -> end; [|done].
  induction xs as [|x xs IH]; intros c; cbn; [done|]. by rewrite IH.
Qed.

Lemma render_fits x cw : consistent x → Z.of_nat (len x) + cw ≤ w →
  render_fragment w false cw x = (flat x, cw + Z.of_nat (len x)).
Proof.
  revert cw. induction x as [s|sep n|xs n IH] using fragment_nested_ind; intros cw; cbn [consistent len]; [done..|].
  intros [Hn Hxs] Hfit. rewrite render_group. assert (dobreak w n cw = false) as -> by (apply bool_decide_eq_false; lia).
  assert (render_all w false cw xs = flat_all xs) as ->.
  { subst n. revert cw Hfit. induction IH as [|x xs Hx _ IHxs]; intros cw Hfit; [done|].
    destruct Hxs as [H1 H2]. change (total (x :: xs)) with (len x + total xs)%nat in Hfit. cbn [render_all].
    rewrite Hx by (done || lia). cbn [fst snd]. rewrite IHxs by (done || lia). done. }
  rewrite flat_all_length by done. by subst n.
Qed.
Lemma render_all_fits xs cw : consistent_all xs → Z.of_nat (total xs) + cw ≤ w → render_all w false cw xs = flat_all xs.
Proof.
  intros Hxs Hfit. pose proof (render_fits (FGroup xs (total xs)) cw (conj eq_refl Hxs) Hfit) as Hr.
  rewrite render_group in Hr. assert (dobreak w (total xs) cw = false) as Hb by (apply bool_decide_eq_false; lia).
  rewrite Hb in Hr. by injection Hr as ? _.
Qed.

(** A text without its blanks and line ends *)
Definition blank (c : ascii) : bool := bool_decide (c = ascii_of_byte x20 ∨ c = ascii_of_byte x0a).
Fixpoint no_blanks (s : string) : string :=
  match s with
  | EmptyString => EmptyString
  | String c s => if blank c then no_blanks s else String c (no_blanks s)
  end.
Lemma no_blanks_app s1 s2 : no_blanks (s1 +:+ s2) = no_blanks s1 +:+ no_blanks s2.
Proof. induction s1 as [|c s1 IH]; [done|]. simpl. destruct (blank c); [exact IH|]. exact (f_equal (String c) IH). Qed.
Lemma no_blanks_spaces n : no_blanks (spaces n) = "".
Proof.
  unfold spaces, py_join. induction n as [|[|n] IH]; [done..|].
  change (String.concat "" (replicate (S (S n)) " ")) with (" " +:+ String.concat "" (replicate (S n) " ")).
  by rewrite no_blanks_app, IH.
Qed.

Lemma render_blanks x b cw : consistent x → no_blanks (render_fragment w b cw x).1 = no_blanks (flat x).
Proof.
  revert b cw. induction x as [s|sep n|xs n IH] using fragment_nested_ind; intros b cw; [done| |].
  - intros ->. destruct b; [|done]. cbn [render_fragment fst flat]. by rewrite no_blanks_app, no_blanks_spaces.
  - intros [_ Hxs]. rewrite render_group. cbn [fst flat]. generalize (dobreak w n cw) as b'. clear b. intros b.
    revert cw. induction IH as [|x xs Hx _ IHxs]; intros cw; [done|].
    destruct Hxs as [H1 H2]. cbn [render_all foldr]. rewrite !no_blanks_app, Hx by done. f_equal. by apply IHxs.
Qed.
Lemma render_all_blanks xs b cw : consistent_all xs → no_blanks (render_all w b cw xs) = no_blanks (flat_all xs).
Proof.
  revert cw. induction xs as [|x xs IH]; intros cw; [done|]. intros [Hx Hxs].
  change (flat_all (x :: xs)) with (flat x +:+ flat_all xs). cbn [render_all].
  by rewrite !no_blanks_app, render_blanks, IH.
Qed.
End render_spec.

(** ** What a method appends to the current group

    [emits f f' m t]: the computation [m] ends, appends fragments that read [t] on
    one line, changes the flag of the group from [f] to [f'], and leaves the rest
    of the printer as it was. *)
Section emits.

Definition extend (xs : list fragment) (f : bool) (g : group) : group :=
  mk_group (fragments g ++ xs) (g_length g + total xs) f.
Definition emits (f f' : bool) (m : M printer unit) (t : string) : Prop :=
  ∀ q g gs, group_stack q = g :: gs → g_first g = f →
  ∃ xs, m q = (Ok tt, set_stack (extend xs f' g :: gs) q) ∧ consistent_all xs ∧ flat_all xs = t.

Lemma emits_append f x : consistent x → emits f f (append x) (flat x).
Proof.
  intros Hx q g gs Hq Hf. exists [x]. split_and!; [|by split|by apply append_empty_r].
  unfold append. rewrite Hq. unfold extend, g_append, total. cbn [foldr]. by rewrite Hf, Nat.add_0_r.
Qed.
Lemma emits_text f s : emits f f (text s) s.
Proof. by apply (emits_append f (Text s)). Qed.
Lemma emits_breakable f : emits f f breakable " ".
Proof. intros q. by apply (emits_append f (Breakable " " (cur_indent q))). Qed.
Lemma emits_ret f : emits f f (mret tt) "".
Proof.
  intros q g gs Hq Hf. exists []. split_and!; [|done..]. destruct q as [w n s], g as [xs l b]. cbn in *. subst.
  unfold extend, set_stack. cbn. by rewrite app_nil_r, Nat.add_0_r.
Qed.

Lemma set_stack_twice s s' q : set_stack s (set_stack s' q) = set_stack s q.
Proof. done. Qed.

Lemma emits_bind f f' f'' m k t t' :
  emits f f' m t → emits f' f'' k t' → emits f f'' (_ ← m; k) (t +:+ t').
Proof.
  intros Hm Hk q g gs Hq Hf. destruct (Hm q g gs Hq Hf) as (xs & Hrun & Hc & <-).
  destruct (Hk (set_stack (extend xs f' g :: gs) q) (extend xs f' g) gs eq_refl eq_refl) as (ys & Hrun' & Hc' & <-).
  exists (xs ++ ys). split_and!; [|by apply consistent_app|by apply flat_all_app].
  rewrite (M_bind_eq _ _ _ _ _ Hrun), Hrun', set_stack_twice. do 3 f_equal. unfold extend.
  cbn [fragments g_length]. by rewrite app_assoc, total_app, Nat.add_assoc.
Qed.

Lemma emits_indent f f' n m t : emits f f' m t → emits f f' (indent n m) t.
Proof.
  intros Hm q g gs Hq Hf. destruct (Hm (set_indent (cur_indent q + n) q) g gs Hq Hf) as (xs & Hrun & Hc & Ht).
  exists xs. split_and!; [|done..]. unfold indent. erewrite M_bind_eq by reflexivity. erewrite M_bind_eq by exact Hrun.
  unfold modify, set_indent, set_stack. cbn [maxwidth cur_indent group_stack]. do 2 f_equal. lia.
Qed.

Lemma emits_group f f' m t : emits true f' m t → emits f f (with_group m) t.
Proof.
  intros Hm q g gs Hq Hf. destruct (Hm (set_stack (new_group :: group_stack q) q) new_group (g :: gs)) as (xs & Hrun & Hc & <-);
    [cbn; by rewrite Hq|done|].
  destruct (emits_append f (FGroup xs (total xs)) (conj eq_refl Hc) (set_stack (g :: gs) q) g gs eq_refl Hf)
    as (ys & Hrun' & Hc' & Ht').
  exists ys. split_and!; [|done|exact Ht']. unfold with_group. erewrite M_bind_eq by reflexivity.
  erewrite M_bind_eq by exact Hrun. exact Hrun'.
Qed.

Lemma emits_eq f f' m t t' : emits f f' m t → t = t' → emits f f' m t'.
Proof. by intros ? <-. Qed.
Lemma emits_lift f f' {A} (r : result A) a k t : r = Ok a → emits f f' (k a) t → emits f f' (x ← lift r; k x) t.
Proof. intros -> Hk q g gs Hq Hf. exact (Hk q g gs Hq Hf). Qed.

Definition rest (ts : list string) : string := foldr (λ t s, ", " +:+ t +:+ s) "" ts.
Lemma join_rest t ts : py_join ", " (t :: ts) = t +:+ rest ts.
Proof.
  unfold py_join. revert t. induction ts as [|t' ts IH]; intros t; [symmetry; apply append_empty_r|].
  change (String.concat ", " (t :: t' :: ts)) with (t +:+ (", " +:+ String.concat ", " (t' :: ts))). by rewrite IH.
Qed.

(** The first entry of a list comes without a comma. *)
Lemma emits_first b : emits b false (is_first ← first; if is_first : bool then mret tt else text ",") (if b then "" else ",").
Proof.
  intros q g gs Hq Hf. unfold first. destruct b.
  - exists []. split_and!; [|done..]. unfold mbind, M_bind. rewrite Hq, Hf. destruct q, g. cbn in *. subst.
    unfold extend, set_stack. cbn. by rewrite app_nil_r, Nat.add_0_r.
  - destruct (emits_text false "," q g gs Hq Hf) as (xs & Hrun & Hxs). exists xs. split; [|done].
    unfold mbind, M_bind. by rewrite Hq, Hf.
Qed.
Lemma print_entries_cons pp v l q :
  print_entries pp (v :: l) q =
  (_ ← (is_first ← first; if is_first : bool then mret tt else text ","); _ ← breakable; _ ← pp v; print_entries pp l) q.
Proof. cbn [print_entries]. unfold mbind, M_bind. by destruct (first q) as [[]]. Qed.
Lemma emits_ext f f' m m' t : (∀ q, m q = m' q) → emits f f' m' t → emits f f' m t.
Proof. intros Hm He q g gs Hq Hf. rewrite Hm. by apply He. Qed.
Lemma emits_more pp l ts :
  Forall2 (λ v t, ∀ f, emits f f (pp v) t) l ts → emits false false (print_entries pp l) (rest ts).
Proof.
  induction 1 as [|v t l ts Hv _ IH]; [apply emits_ret|]. eapply emits_ext; [apply print_entries_cons|].
  eapply emits_eq.
  - eapply emits_bind; [apply (emits_first false)|]. eapply emits_bind; [apply emits_breakable|].
    eapply emits_bind; [apply Hv|exact IH].
  - reflexivity.
Qed.
Lemma emits_entries pp l ts :
  Forall2 (λ v t, ∀ f, emits f f (pp v) t) l ts →
  ∃ f, emits true f (print_entries pp l) (match ts with [] => "" | t :: ts => " " +:+ t +:+ rest ts end).
Proof.
  destruct 1 as [|v t l ts Hv Hl]; [exists true; apply emits_ret|exists false].
  eapply emits_ext; [apply print_entries_cons|]. eapply emits_eq.
  - eapply emits_bind; [apply (emits_first true)|]. eapply emits_bind; [apply emits_breakable|].
    eapply emits_bind; [apply Hv|by apply emits_more].
  - reflexivity.
Qed.

Definition list_text (ts : list string) : string :=
  match ts with [] => "[ ]" | _ => "[ " +:+ py_join ", " ts +:+ " ]" end.
Lemma emits_list pp l ts f :
  Forall2 (λ v t, ∀ f, emits f f (pp v) t) l ts → emits f f (pretty_print_list pp l) (list_text ts).
Proof.
  intros Hl. destruct (emits_entries pp l ts Hl) as [f' He]. eapply emits_group. eapply emits_eq.
  - eapply emits_bind; [apply emits_text|]. eapply emits_bind; [by apply emits_indent|].
    eapply emits_bind; [apply emits_breakable|apply emits_text].
  - destruct ts as [|t ts]; [done|]. unfold list_text. rewrite join_rest.
    rewrite !append_assoc. reflexivity.
Qed.
End emits.

(** ** The text of a value on one line *)

Section describe.
Context `{PyText} (const : constants) (classes : string → option cls).

Fixpoint describe (fuel : nat) (v : val) : result string :=
  match fuel with
  | O => Raise OutOfFuel
  | S fuel =>
      match v with
      | VObj d attrs =>
          c ← of_option AttributeError (classes d);
          ts ← mapM (λ q, v ← get_attr c attrs (q_attr q);
                          t ← match q with q_pp _ => describe fuel v | _ => attr_text const q v end;
                          Ok (q_attr q +:+ " = " +:+ t)) (c_print c);
          Ok (c_title c +:+ " { " +:+ py_join ", " ts +:+ " }")
      | VList l => ts ← mapM (describe fuel) l; Ok (list_text ts)
      | VInts l => Ok (list_text (repr_int <$> l))
      | _ => Ok (repr v)
      end
  end.

(** Values that can be printed: objects of known classes with the attributes that
    are printed, of types that the printing functions take *)
Inductive printable : val → Prop :=
  | pr_none : printable VNone
  | pr_int z : printable (VInt z)
  | pr_str s : printable (VStr s)
  | pr_ints l : printable (VInts l)
  | pr_set l : printable (VSet l)
  | pr_list l : (∀ v, v ∈ l → printable v) → printable (VList l)
  | pr_obj d attrs c :
      classes d = Some c →
      (∀ q, q ∈ c_print c → ∃ v t, od_get (q_attr q) attrs = Some v ∧ attr_text const q v = Ok t) →
      (∀ q v, q ∈ c_print c → od_get (q_attr q) attrs = Some v → printable v) → printable (VObj d attrs).

Lemma emits_attr pp c attrs q v t f :
  od_get (q_attr q) attrs = Some v →
  match q with q_pp _ => ∀ f, emits f f (pp v) t | _ => attr_text const q v = Ok t end →
  emits f f (print_attr const pp c attrs q) (q_attr q +:+ " = " +:+ t).
Proof.
  intros Hv Hq. unfold print_attr. rewrite <- append_assoc. eapply emits_bind; [apply emits_text|].
  apply (emits_lift _ _ _ v); [unfold get_attr; by rewrite Hv|].
  destruct q; try (eapply emits_lift; [exact Hq|apply emits_text]). apply Hq.
Qed.

Lemma emits_attrs pp c attrs qs ts f :
  Forall2 (λ q t, emits f f (print_attr const pp c attrs q) t) qs ts →
  emits f f (print_attrs const pp c attrs qs) (py_join ", " ts).
Proof.
  induction 1 as [|q t qs ts Hq Hqs IH]; [apply emits_ret|].
  destruct Hqs as [|q' t' qs ts Hq' Hqs]; [exact Hq|]. eapply emits_eq.
  - eapply emits_bind; [exact Hq|]. eapply emits_bind; [apply emits_text|]. eapply emits_bind; [apply emits_breakable|exact IH].
  - reflexivity.
Qed.

Lemma emits_object pp c attrs ts f :
  (∀ f, Forall2 (λ q t, emits f f (print_attr const pp c attrs q) t) (c_print c) ts) →
  emits f f (pretty_print const pp c attrs) (c_title c +:+ " { " +:+ py_join ", " ts +:+ " }").
Proof.
  intros Hts. eapply emits_eq.
  - eapply emits_bind; [apply emits_text|]. eapply emits_bind; [|apply emits_text]. eapply emits_group.
    eapply emits_bind; [|apply emits_breakable]. eapply emits_indent, emits_bind; [apply emits_breakable|].
    by apply emits_attrs.
  - rewrite !append_assoc. reflexivity.
Qed.

Lemma mapM_of {A B} (f : A → result B) l : (∀ x, x ∈ l → ∃ y, f x = Ok y) → ∃ k, mapM f l = Ok k.
Proof.
  intros Hf. induction l as [|x l IH]; [by exists []|]. destruct (Hf x ltac:(left)) as [y Hy].
  destruct IH as [k Hk]; [intros; apply Hf; by right|]. exists (y :: k). apply mapM_Ok. constructor; [done|]. by apply mapM_Ok.
Qed.

Lemma Forall2_impl_in {A B} (P Q : A → B → Prop) l k :
  Forall2 P l k → (∀ a b, a ∈ l → P a b → Q a b) → Forall2 Q l k.
Proof.
  induction 1 as [|a b l k Hab _ IH]; intros Himp; constructor; [apply Himp; [left|done]|].
  apply IH. intros; apply Himp; [by right|done].
Qed.

(** A value and what is printed for it *)
Definition prints (fuel : nat) (v : val) : Prop :=
  ∃ t, describe fuel v = Ok t ∧ ∀ f, emits f f (pp const classes fuel v) t.

Lemma prints_list fuel l : (∀ v, v ∈ l → prints fuel v) →
  ∃ ts, mapM (describe fuel) l = Ok ts ∧ Forall2 (λ v t, ∀ f, emits f f (pp const classes fuel v) t) l ts.
Proof.
  intros Hl. destruct (mapM_of (describe fuel) l) as [ts Hts]; [intros v Hv; destruct (Hl v Hv) as (t & ? & _); eauto|].
  exists ts. split; [done|]. apply mapM_Ok in Hts. eapply Forall2_impl_in; [exact Hts|]. intros v t Hv Ht.
  destruct (Hl v Hv) as (t' & Ht' & He). assert (t = t') as -> by congruence. exact He.
Qed.

Lemma prints_object fuel d attrs c :
  classes d = Some c →
  (∀ q, q ∈ c_print c → ∃ v t, od_get (q_attr q) attrs = Some v ∧ attr_text const q v = Ok t) →
  (∀ q v, q ∈ c_print c → od_get (q_attr q) attrs = Some v → prints fuel v) → prints (S fuel) (VObj d attrs).
Proof.
  intros Hd Hq Hsub. unfold prints. cbn [describe pp]. rewrite Hd. cbn [of_option mbind result_bind].
  match goal with |- ∃ t, (mapM ?F _ ≫= _) = _ ∧ _ => assert (∀ q, q ∈ c_print c → ∃ t, F q = Ok t ∧
    ∀ f, emits f f (print_attr const (pp const classes fuel) c attrs q) t) as Hall; [|set (F0 := F) in *] end.
  { intros q Hin. destruct (Hq q Hin) as (v & t & Hv & Ht).
    destruct (Hsub q v Hin Hv) as (t' & Ht' & He). unfold get_attr. rewrite Hv. cbn [mbind result_bind].
    destruct q; try (rewrite Ht; eexists; split; [done|]; intros f; by eapply emits_attr).
    rewrite Ht'. eexists. split; [done|]. intros f. by eapply emits_attr. }
  destruct (mapM_of F0 (c_print c)) as [ts Hts]; [intros q Hin; destruct (Hall q Hin) as (t & ? & _); eauto|].
  rewrite Hts. eexists. split; [done|]. intros f. apply (emits_lift _ _ _ c); [done|]. apply emits_object.
  intros f'. apply mapM_Ok in Hts. eapply Forall2_impl_in; [exact Hts|]. intros q t Hin Ht.
  destruct (Hall q Hin) as (t' & Ht' & He). assert (t = t') as -> by congruence. apply He.
Qed.

Lemma printable_prints fuel v : printable v → (height v + 2 ≤ fuel)%nat → prints fuel v.
Proof.
  revert v. induction fuel as [|fuel IH]; intros v Hv Hf; [lia|].
  assert (∀ v', printable v' → (height v' < height v)%nat → prints fuel v') as Hsub by (intros; apply IH; [done|lia]).
  destruct Hv as [|z|s|l|l|l Hl|d attrs c Hd Hq Ha];
    try (eexists; split; [reflexivity|]; intros f; apply emits_text).
  - destruct fuel as [|fuel]; [cbn in Hf; lia|]. eexists. split; [reflexivity|]. intros f. apply emits_list.
    clear. induction l as [|z l IHl]; constructor; [|exact IHl]. intros f. apply emits_text.
  - destruct (prints_list fuel l) as (ts & Hts & He).
    { intros v Hin. apply Hsub; [auto|]. apply (foldr_max height) in Hin. cbn. lia. }
    exists (list_text ts). cbn [describe pp]. rewrite Hts. split; [done|]. intros f. by apply emits_list.
  - apply (prints_object fuel d attrs c); [done..|]. intros q v Hin Hqv. apply Hsub; [eauto|].
    apply od_get_Some_elem, (foldr_max (λ av, height av.2)) in Hqv. cbn in Hqv |- *. lia.
Qed.

(** An exception ends the printing. *)
Definition raises (e : exn) (m : M printer unit) : Prop :=
  ∀ q g gs, group_stack q = g :: gs → ∃ q', m q = (Raise e, q').
Lemma raises_bind e m k : raises e m → raises e (_ ← m; k).
Proof. intros Hm q g gs Hq. destruct (Hm q g gs Hq) as [q' Hr]. exists q'. by apply M_bind_Raise_eq. Qed.
Lemma raises_after e m k t : (∀ f, emits f f m t) → raises e k → raises e (_ ← m; k).
Proof.
  intros Hm Hk q g gs Hq. destruct (Hm _ q g gs Hq eq_refl) as (xs & Hr & _). rewrite (M_bind_eq _ _ _ _ _ Hr).
  by eapply Hk.
Qed.
Lemma raises_attr pp c attrs q v e :
  od_get (q_attr q) attrs = Some v → attr_text const q v = Raise e → raises e (print_attr const pp c attrs q).
Proof.
  intros Hv Ht. unfold print_attr. eapply raises_after; [intros; apply emits_text|]. intros s g gs Hs.
  erewrite M_bind_eq by (unfold lift, get_attr; rewrite Hv; reflexivity).
  destruct q; try done; eexists; (erewrite M_bind_Raise_eq; [reflexivity|]); unfold lift; by rewrite Ht.
Qed.
Lemma raises_attrs pp c attrs qs q qs' e :
  Forall (λ q, ∃ t, ∀ f, emits f f (print_attr const pp c attrs q) t) qs →
  raises e (print_attr const pp c attrs q) → raises e (print_attrs const pp c attrs (qs ++ q :: qs')).
Proof.
  intros Hqs Hq. induction Hqs as [|q0 qs [t Ht] _ IH]; cbn [app].
  - destruct qs' as [|q' qs']; [exact Hq|]. by apply raises_bind.
  - destruct (qs ++ q :: qs') as [|q1 l] eqn:El; [by destruct qs|]. cbn [print_attrs].
    eapply raises_after; [exact Ht|]. eapply raises_after; [intros; apply emits_text|].
    eapply raises_after; [intros; apply emits_breakable|exact IH].
Qed.
Lemma raises_group e m : raises e m → raises e (with_group m).
Proof.
  intros Hm q g gs Hq. unfold with_group. erewrite M_bind_eq by reflexivity.
  destruct (Hm (set_stack (new_group :: group_stack q) q) new_group (group_stack q) eq_refl) as [q' Hr].
  exists q'. by apply M_bind_Raise_eq.
Qed.
Lemma raises_indent e n m : raises e m → raises e (indent n m).
Proof.
  intros Hm q g gs Hq. unfold indent. erewrite M_bind_eq by reflexivity.
  destruct (Hm (set_indent (cur_indent q + n) q) g gs Hq) as [q' Hr]. exists q'. by apply M_bind_Raise_eq.
Qed.
Lemma raises_object w d attrs c qs q qs' v e :
  classes d = Some c → c_print c = qs ++ q :: qs' →
  (∀ q, q ∈ qs → ∃ v t, od_get (q_attr q) attrs = Some v ∧ attr_text const q v = Ok t ∧ printable v) →
  od_get (q_attr q) attrs = Some v → attr_text const q v = Raise e →
  pp_text const classes w (VObj d attrs) = Raise e.
Proof.
  intros Hd Hc Hqs Hv He. unfold pp_text. set (n := S (height (VObj d attrs))).
  assert (raises e (pp const classes (S n) (VObj d attrs))) as Hr.
  { intros p g gs Hp. cbn [pp]. rewrite Hd. erewrite M_bind_eq by reflexivity. unfold pretty_print. revert p g gs Hp.
    eapply raises_after; [intros; apply emits_text|]. apply raises_bind, raises_group, raises_bind, raises_indent.
    eapply raises_after; [intros; apply emits_breakable|]. rewrite Hc. apply raises_attrs; [|by eapply raises_attr].
    apply Forall_forall. intros q0 Hq0. destruct (Hqs q0 Hq0) as (v0 & t & Hv0 & Ht & Hpr).
    destruct (printable_prints n v0 Hpr) as (t' & _ & He').
    { apply od_get_Some_elem, (foldr_max (λ av, height av.2)) in Hv0. subst n. cbn in Hv0 |- *. lia. }
    destruct q0; eexists; intros f; (eapply emits_attr; [exact Hv0|]); try exact Ht. exact He'. }
  destruct (Hr (new_printer w) new_group [] eq_refl) as [q' ->]. done.
Qed.

(** Printing ends; what is printed is the text of the value, on one line where it
    fits, and else laid out on several lines. *)
Lemma pp_text_exact w v : printable v →
  ∃ s t, pp_text const classes w v = Ok s ∧ describe (S (S (height v))) v = Ok t ∧
    no_blanks s = no_blanks t ∧ (Z.of_nat (String.length t) ≤ w → s = t).
Proof.
  intros Hv. destruct (printable_prints (S (S (height v))) v Hv) as (t & Ht & He); [lia|].
  destruct (He true (new_printer w) new_group [] eq_refl eq_refl) as (xs & Hrun & Hc & <-).
  eexists _, _. split_and!; [|exact Ht| |].
  - unfold pp_text. rewrite Hrun. reflexivity.
  - unfold render. by apply render_all_blanks.
  - intros Hw. rewrite flat_all_length in Hw by done. unfold render.
    assert (dobreak w (total xs) 0 = false) as Hb by (apply bool_decide_eq_false; lia).
    cbn [extend fragments g_length new_group]. change (0 + total xs)%nat with (total xs).
    cbn [maxwidth set_stack new_printer]. rewrite Hb. apply render_all_fits; [done|lia].
Qed.
End describe.

(** ** What is received can be printed *)

Section received.
Context `{PyText} (const : constants) (classes : string → option cls).

(** The attribute that a statement of [unpack] assigns *)
Definition assigned (u : ustmt) : option string :=
  match u with
  | u_check _ _ | u_slice _ | u_sublen | u_skip _ => None
  | u_int _ a | u_rest a | u_str _ _ a | u_bytes _ a | u_obj a _ | u_list a _ | u_sublist a _
  | u_checksum_128 a | u_bitmap_128 a | u_bitmap_512 a => Some a
  end.
Definition assigns (a : string) (us : list ustmt) : list ustmt := filter (λ u, assigned u = Some a) us.

(** The values that can be assigned, when [P] holds of the objects that are read *)
Definition kind (P : val → Prop) (u : ustmt) (v : val) : Prop :=
  match u with
  | u_int _ _ | u_checksum_128 _ => ∃ z, v = VInt z
  | u_rest _ | u_str _ _ _ => ∃ s, v = VStr s
  | u_bytes _ _ => ∃ l, v = VInts l
  | u_obj _ _ => P v
  | u_list _ _ | u_sublist _ _ => ∃ l, v = VList l ∧ ∀ x, x ∈ l → P x
  | u_bitmap_128 _ | u_bitmap_512 _ => ∃ l, v = VSet l
  | _ => False
  end.

(** pretty_wildcards finds its constants. *)
Definition wildcards_known : bool :=
  forallb (λ n, bool_decide (is_Some (od_get n (OFPFW const)))) ("OFPFW_ALL" :: FLAG_NAMES).

(** What a class prints is assigned once, and is of the type that it is printed as. *)
Definition fits (q : qstmt) (u : ustmt) : bool :=
  match q, u with
  | (q_hex _ | q_hex_or_none _), (u_int _ _ | u_checksum_128 _) => true
  | (q_pp _ | q_port _), _ => true
  | q_mac _, u_bytes _ _ => true
  | q_ipv4 _, u_int _ _ => true
  | q_wildcards _, u_int _ _ => wildcards_known
  | _, _ => false
  end.
Definition print_checked (c : cls) : bool :=
  forallb (λ q, match assigns (q_attr q) (c_unpack c) with [u] => fits q u | _ => false end) (c_print c).

Lemma set_flags_known z ns acc :
  Forall (λ n, is_Some (od_get n (OFPFW const))) ns → ∃ r, set_flags const z ns acc = Ok r.
Proof.
  intros Hns. revert z acc. induction Hns as [|n ns [f Hf] _ IH]; intros z acc; [by eexists|].
  cbn [set_flags]. rewrite Hf. apply IH.
Qed.
Lemma set_flags_missing z ns n ns' acc :
  Forall (λ n, is_Some (od_get n (OFPFW const))) ns → od_get n (OFPFW const) = None →
  set_flags const z (ns ++ n :: ns') acc = Raise AttributeError.
Proof.
  intros Hns Hn. revert z acc. induction Hns as [|n0 ns [f Hf] _ IH]; intros z acc; cbn [app set_flags].
  - by rewrite Hn.
  - rewrite Hf. apply IH.
Qed.
Lemma wildcards_missing all z ns n ns' :
  od_get "OFPFW_ALL" (OFPFW const) = Some all → FLAG_NAMES = ns ++ n :: ns' →
  Forall (λ n, is_Some (od_get n (OFPFW const))) ns → od_get n (OFPFW const) = None → z ≠ all →
  pretty_wildcards const (VInt z) = Raise AttributeError.
Proof.
  intros Hall Hnames Hns Hn Hz. unfold pretty_wildcards. rewrite Hall. cbn [of_option mbind result_bind].
  rewrite bool_decide_eq_false_2 by done. unfold pretty_flags. by rewrite Hnames, set_flags_missing.
Qed.
Lemma wildcards_print z : wildcards_known = true → ∃ t, pretty_wildcards const (VInt z) = Ok t.
Proof.
  unfold wildcards_known. rewrite forallb_forall. intros Hk.
  assert (∀ n, n ∈ "OFPFW_ALL" :: FLAG_NAMES → is_Some (od_get n (OFPFW const))) as Hs.
  { intros n Hn. apply list_elem_of_In, Hk in Hn. by apply bool_decide_eq_true in Hn. }
  unfold pretty_wildcards. destruct (Hs "OFPFW_ALL" ltac:(left)) as [all ->]. cbn [of_option mbind result_bind].
  case_bool_decide; [by eexists|]. unfold pretty_flags.
  destruct (set_flags_known z FLAG_NAMES []) as [[acc v] ->]; [|by eexists].
  apply Forall_forall. intros n Hn. apply Hs. by right.
Qed.

Lemma fits_prints P q u v : fits q u = true → kind P u v → ∃ t, attr_text const q v = Ok t.
Proof.
  destruct q, u; cbn [fits kind]; try done; intros Hf Hk; try (destruct Hk as [? ->]);
    try (by eexists). by apply wildcards_print.
Qed.

Section stmts.
Context (unpackf : string → reader → result (val * reader)) (P : val → Prop).
Context (HP : ∀ name r v r', unpackf name r = Ok (v, r') → P v).

Lemma unpack_list_all fuel name r vs r' : unpack_list unpackf fuel name r = Ok (vs, r') → ∀ v, v ∈ vs → P v.
Proof.
  revert r vs. induction fuel as [|fuel IH]; intros r vs; cbn [unpack_list]; destruct (r_is_empty r); try done.
  1,2: intros [= <- _] v ?%not_elem_of_nil; done.
  intros ([v r1] & Hv & ([vs' r2] & Hvs & [= <- ->])%result_bind_Ok)%result_bind_Ok x [->|Hx]%elem_of_cons; [by eapply HP|].
  by eapply IH.
Qed.

Lemma unpack_stmt_assigns s st st' : unpack_stmt unpackf s st = Ok st' →
  match assigned s with
  | Some a => ∃ v, u_obj_attrs st' = od_set a v (u_obj_attrs st) ∧ kind P s v
  | None => u_obj_attrs st' = u_obj_attrs st
  end.
Proof.
  destruct s; cbn [unpack_stmt assigned kind]; cbv zeta;
    try (intros ([b r] & _ & <-%Ok_inj)%result_bind_Ok; eexists; split; [reflexivity|by eexists]).
  - intros ([b r] & _ & (? & _ & <-%Ok_inj)%result_bind_Ok)%result_bind_Ok. done.
  - intros ([b r] & _ & ([sub r'] & _ & <-%Ok_inj)%result_bind_Ok)%result_bind_Ok. done.
  - intros ([b r] & _ & <-%Ok_inj)%result_bind_Ok. done.
  - intros (r & _ & <-%Ok_inj)%result_bind_Ok. done.
  - destruct (r_read_all _) as [b r]. intros <-%Ok_inj. eexists. split; [reflexivity|by eexists].
  - intros ([v r] & Hv & <-%Ok_inj)%result_bind_Ok. eexists. split; [reflexivity|]. by eapply HP.
  - intros ([vs r] & Hv & <-%Ok_inj)%result_bind_Ok. eexists. split; [reflexivity|]. eexists.
    split; [reflexivity|]. by eapply unpack_list_all.
  - intros ([sub r] & _ & ([vs ?] & Hv & <-%Ok_inj)%result_bind_Ok)%result_bind_Ok. eexists. split; [reflexivity|].
    eexists. split; [reflexivity|]. by eapply unpack_list_all.
Qed.

Lemma unpack_stmts_assign us st st' a : unpack_stmts unpackf us st = Ok st' →
  match assigns a us with
  | [] => od_get a (u_obj_attrs st') = od_get a (u_obj_attrs st)
  | [u] => ∃ v, od_get a (u_obj_attrs st') = Some v ∧ kind P u v
  | _ => True
  end.
Proof.
  revert st. induction us as [|s us IH]; intros st; cbn [unpack_stmts]; [by intros [= <-]|].
  intros (st1 & Hs & Hrest)%result_bind_Ok. specialize (IH st1 Hrest). apply unpack_stmt_assigns in Hs.
  unfold assigns in *. rewrite filter_cons. case_decide as Ha.
  - rewrite Ha in Hs. destruct Hs as (v & Hst & Hk). destruct (filter _ us); [|done].
    exists v. split; [|done]. by rewrite IH, Hst, od_get_set.
  - assert (od_get a (u_obj_attrs st1) = od_get a (u_obj_attrs st)) as <-; [|done].
    destruct (assigned s) as [b|]; [|congruence]. destruct Hs as (v & -> & _). apply od_get_set_ne. congruence.
Qed.
End stmts.

Context (Hname : ∀ n c, classes n = Some c → n = c_name c).
Context (Hchecked : ∀ n c, classes n = Some c → print_checked c = true).

Lemma hand_over_printed fuel name r c : hand_over classes fuel name r = Ok c → ∃ n, classes n = Some c.
Proof.
  revert name. induction fuel as [|fuel IH]; intros name; cbn [hand_over]; [done|]. intros Hh. inv_ok.
  destruct (c_dispatch _) as [[n off]|]; inv_ok; [|eauto]. destruct (od_get _ _); inv_ok; eauto.
Qed.

Lemma unpack_printable fuel name r v r' : unpack classes fuel name r = Ok (v, r') → printable const classes v.
Proof.
  revert name r v r'. induction fuel as [|fuel IH]; intros name r v r'; cbn [unpack]; [done|].
  intros (c & [n Hc]%hand_over_printed & (st & Hst & (r1 & _ & [= <- _])%result_bind_Ok)%result_bind_Ok)%result_bind_Ok.
  pose proof (Hname n c Hc) as ->. pose proof (Hchecked _ c Hc) as Hck. unfold print_checked in Hck.
  rewrite forallb_forall in Hck.
  assert (∀ q, q ∈ c_print c → ∃ u v, od_get (q_attr q) (u_obj_attrs st) = Some v ∧ kind (printable const classes) u v ∧
    fits q u = true) as Hall.
  { intros q Hin. specialize (Hck q ltac:(by apply list_elem_of_In)).
    pose proof (unpack_stmts_assign _ _ IH _ _ _ (q_attr q) Hst) as Ha.
    destruct (assigns _ _) as [|u [|]]; try done. destruct Ha as (v & Hv & Hk). by exists u, v. }
  apply (pr_obj _ _ _ _ c); [done|..].
  - intros q Hin. destruct (Hall q Hin) as (u & v & Hv & Hk & Hf). destruct (fits_prints _ _ _ _ Hf Hk) as [t Ht]. eauto.
  - intros q v Hin Hv. destruct (Hall q Hin) as (u & v' & Hv' & Hk & Hf). assert (v' = v) as -> by congruence.
    destruct u; cbn in Hk; try done; try (destruct Hk as [? ->]; constructor).
    all: destruct Hk as (l & -> & Hl); by constructor.
Qed.
End received.
