(* ===== verification/LoxiMessage.v ===== *)
(** * The OpenFlow bindings: messages on a connection

    Every packed message starts with the header that [of_connection] looks for, so
    the bindings are what the connection expects of them: an instance of [Loxi] for
    all wire versions, and of [WireFormat] for a version whose classes pass the
    comparison of [messages_checked]. *)

From Stdlib Require Import Strings.Byte.
From stdpp Require Import prelude strings list.
From S2P Require Import Prelude MessageQueue OfConnection LoxiWire LoxiSpec LoxiRoundtrip LoxiTotal.

(** The classes of a version by their names *)
Definition by_name (l : list cls) (name : string) : option cls :=
  od_get name (map (λ c, (c_name c, c)) l).

(** ** Headers *)

Section header.
Context (classes : string → option cls) (ver : Z).

(** A method [pack] that starts with version, type, length and xid *)
Definition message_header (c : cls) : bool :=
  match c_pack c, c_tail c with
  | p_int 1 v :: p_int 1 _ :: p_placeholder :: p_int 4 _ :: _, t_len 2 =>
      bool_decide (od_get v (c_consts c) = Some ver) && negb (is_attr c v)
  | _, _ => false
  end.

(** All classes that [message.unpack] can hand over to do. *)
Definition messages_checked (names : list string) : bool :=
  bool_decide ("message.message" ∈ names) && bool_decide (1 ≤ ver ≤ 5)%Z &&
  forallb (λ name, match classes name with
                   | Some c => message_header c && forallb (λ zs, bool_decide (zs.2 ∈ names)) (c_subtypes c)
                   | None => false
                   end) names.

Lemma byte_val_Z b : byte_val b = Z.to_nat (Z_of_byte b).
Proof. unfold byte_val, Z_of_byte. lia. Qed.

Lemma be_Z l : be l = Z.to_nat (be_unpack l).
Proof.
  induction l as [|b l IH] using rev_ind; [done|]. unfold be in *. rewrite foldl_app, IH, be_unpack_app. cbn [foldl].
  change (be_unpack [b]) with (0 * 256 + Z_of_byte b)%Z. change (256 ^ Z.of_nat (length [b]))%Z with 256%Z.
  rewrite byte_val_Z. pose proof (Z_of_byte_range b). pose proof (be_unpack_range l). lia.
Qed.

Lemma be_packed n z : in_range n z = true → be (be_pack n z) = Z.to_nat z.
Proof. intros Hr. by rewrite be_Z, be_unpack_pack. Qed.

Lemma parse_header_packed v t l x rest :
  in_range 1 v = true → in_range 1 t = true → in_range 2 l = true → in_range 4 x = true →
  parse_header (be_pack 1 v ++ be_pack 1 t ++ be_pack 2 l ++ be_pack 4 x ++ rest) =
  Ok (Z.to_nat v, Z.to_nat t, Z.to_nat l, Z.to_nat x).
Proof.
  intros Hv Ht Hl Hx. rewrite <- (be_packed 1 v), <- (be_packed 1 t), <- (be_packed 2 l), <- (be_packed 4 x) by done.
  reflexivity.
Qed.

Lemma routes_names names fuel name c attrs :
  messages_checked names = true → name ∈ names → routes classes fuel name c attrs = true →
  classes (c_name c) = Some c → message_header c = true.
Proof.
  unfold messages_checked. intros Hck. split_checks. rename select (forallb _ names = true) into Hall.
  rewrite forallb_forall in Hall. revert name. induction fuel as [|fuel IH]; intros name Hin Hr Hc; [done|].
  specialize (Hall name ltac:(by apply list_elem_of_In)). cbn [routes] in Hr.
  destruct (classes name) as [k|] eqn:Hk; [|done]. split_checks.
  assert (bool_decide (name = c_name c) = true → message_header c = true) as Hhere.
  { intros ->%bool_decide_eq_true. rewrite Hc in Hk. by injection Hk as ->. }
  destruct (c_dispatch k) as [[n off]|]; [|auto]. destruct (header_int _ _ _ _ _ _) as [z|]; [|done].
  destruct (od_get z (c_subtypes k)) as [sub|] eqn:Hz; [|auto].
  apply (IH sub); [|done..]. rename select (forallb _ (c_subtypes k) = true) into Hs.
  rewrite forallb_forall in Hs. apply od_get_Some_elem, list_elem_of_In, Hs in Hz. by split_checks.
Qed.

(** What the header of a packed message says *)
Lemma packed_header names n v f b :
  messages_checked names = true → wf classes n "message.message" v = true → pack classes f v = Ok b →
  ∃ t x, parse_header b = Ok (Z.to_nat ver, t, length b, x).
Proof.
  intros Hck Hwf Hp. destruct n as [|n]; [done|]. destruct v as [| | | | | |d attrs]; try done.
  cbn [wf] in Hwf. destruct (classes d) as [c|] eqn:Hd; [|done]. split_checks. subst d.
  rename select (od_keys _ = od_keys _) into Hk. rename select (class_ok classes c = true) into Hok.
  assert (message_header c = true) as Hh.
  { eapply routes_names; [done| |done..]. unfold messages_checked in Hck. by split_checks. }
  destruct f as [|f]; [done|]. cbn [pack] in Hp. rewrite Hd in Hp. cbn [of_option mbind result_bind] in Hp.
  destruct (pack_object_chunks _ c attrs classes b Hok Hp) as (L & S & fc & pad & Hch & -> & _ & _ & HL & Ht).
  unfold message_header in Hh.
  destruct (c_pack c) as [|[[|[|?]] v| | | | | | | | | | |] its]; try done.
  destruct its as [|[[|[|?]] t| | | | | | | | | | |] its]; try done. destruct its as [|[] its]; try done.
  destruct its as [|[[|[|[|[|[|?]]]]] x| | | | | | | | | | |] its]; try done.
  destruct (c_tail c) as [|[|[|[|?]]]| |] eqn:Htail; try done. split_checks.
  assert (main_index c = Some 2) as Hm by (unfold main_index; by rewrite Htail). rewrite Hm in HL.
  destruct Ht as [-> HLen]. rewrite app_nil_r.
  repeat (apply chunks_cons in Hch as (? & ? & -> & ? & Hch)). cbn [concat] in *.
  rename select (chunk _ _ _ _ _ 2 _ = _) into Hlen2. cbn [chunk] in Hlen2. rewrite Hm, bool_decide_eq_true_2 in Hlen2 by done.
  injection Hlen2 as <-. cbn [chunk item_bytes] in *. rewrite (const_get c attrs Hk v ver) in * by done.
  repeat match goal with H : (_ ← _; _) = Ok _ |- _ => apply result_bind_Ok in H as (? & ? & ?) end.
  simplify_eq. repeat match goal with H : pack_int _ _ = Ok _ |- _ => apply pack_int_Ok in H as (? & ? & ? & ->) end.
  simplify_eq. rewrite <- HLen. change [byte_of_Z _; byte_of_Z _] with (be_pack 2 (Z.of_nat L)).
  rewrite parse_header_packed by (done || by apply HL). rewrite Nat2Z.id. eauto.
Qed.

Lemma checked_version names : messages_checked names = true → 1 ≤ Z.to_nat ver ≤ 5.
Proof. unfold messages_checked. intros Hck. split_checks. lia. Qed.
End header.

(** ** The bindings of all wire versions *)

(** [message.unpack]'s class and the classes below it *)
Definition message_names (l : list cls) : list string :=
  filter (λ name, String.prefix "message." name = true) (c_name <$> l).

(** The checks of the classes of one version: those whose two methods do not
    agree, and whether reading ends and messages have headers *)
Definition disagreeing (l : list cls) : list string :=
  c_name <$> filter (λ c, class_ok (by_name l) c = false) l.
Definition reading_checked (l : list cls) : bool :=
  forallb (λ c, class_total c && height_ok (by_name l) HIERARCHY (c_name c)) l.

Lemma by_name_Some l name c : by_name l name = Some c → c ∈ l ∧ name = c_name c.
Proof.
  unfold by_name. intros Hc%od_get_Some_elem. apply list_elem_of_In, in_map_iff in Hc as (c' & [= <- ->] & Hin).
  by apply list_elem_of_In in Hin.
Qed.

Lemma reading_total l : reading_checked l = true →
  ∀ name c, by_name l name = Some c → class_total c = true ∧ height_ok (by_name l) HIERARCHY name = true.
Proof.
  unfold reading_checked. rewrite forallb_forall. intros Hl name c [Hin%list_elem_of_In%Hl ->]%by_name_Some.
  by apply andb_true_iff in Hin.
Qed.

Section bindings.
Context (modules : nat → list cls).

(** A message is an object of a class of the module of some wire version. *)
#[local] Instance loxi : Loxi := {
  msg := nat * val;
  OfConnection.unpack ver buf := v ← unpack_buffer (by_name (modules ver)) "message.message" buf; Ok (ver, v);
  OfConnection.pack m := LoxiWire.pack (by_name (modules m.1)) (S (depth m.2)) m.2;
  msg_xid m := match m.2 with
               | VObj _ attrs => match od_get "xid" attrs with Some (VInt z) => Some z | _ => None end
               | _ => None
               end;
  set_xid z m := (m.1, match m.2 with
                       | VObj d attrs => VObj d (od_set "xid" (VInt z) attrs)
                       | v => v
                       end);
}.

(** What the connection relies on holds for the messages that [wf] accepts. *)
Definition good_message (ver : nat) (m : nat * val) : Prop :=
  m.1 = ver ∧ ∃ n, wf (by_name (modules ver)) n "message.message" m.2 = true.

Lemma loxi_header ver names m b :
  messages_checked (by_name (modules ver)) (Z.of_nat ver) names = true →
  good_message ver m → OfConnection.pack m = Ok b →
  ∃ t x, parse_header b = Ok (ver, t, length b, x).
Proof.
  intros Hck [<- [n Hwf]] Hp. rewrite <- (Nat2Z.id m.1). exact (packed_header _ _ names n m.2 _ b Hck Hwf Hp).
Qed.

Lemma loxi_back ver m b :
  good_message ver m → OfConnection.pack m = Ok b → OfConnection.unpack ver b = Ok m.
Proof.
  intros [<- [n Hwf]] Hp. cbn [OfConnection.unpack loxi]. rewrite (unpack_pack_buffer _ n _ m.2 _ b Hwf Hp). cbn.
  by rewrite <- surjective_pairing.
Qed.

Definition loxi_wire ver names
    (Hck : messages_checked (by_name (modules ver)) (Z.of_nat ver) names = true) : @WireFormat loxi ver.
Proof.
  refine {| good := good_message ver |}.
  - pose proof (checked_version _ _ _ Hck). lia.
  - intros m b. by eapply loxi_header.
  - intros m b. by apply loxi_back.
Defined.

Lemma loxi_ends ver buf :
  reading_checked (modules ver) = true → OfConnection.unpack ver buf ≠ Raise OutOfFuel.
Proof.
  intros Hck. cbn [OfConnection.unpack loxi]. apply bind_in_fuel; [|done]. apply unpack_buffer_ends. by apply reading_total.
Qed.
End bindings.
