(* ===== verification/Of10Common.v ===== *)
(** * OpenFlow 1.0: actions and structures shared by messages
    (of10/action.py, of10/common.py)

    One definition per class of the generated bindings, with the statements of its
    methods; see LoxiWire for what they mean. *)

From Stdlib Require Import Strings.Byte.
From stdpp Require Import prelude strings list.
From S2P Require Import Prelude LoxiWire.

Module Action.
Import LoxiNotations.

Definition action : cls := mk_cls "action.action"
  []
  [("type", VInt 0)]
  [p_int 2 "type"; p_placeholder; p_zeros 4]
  (t_len 1) (Some (2, 0))
  [65535 ⇒ "action.experimenter"; 11 ⇒ "action.enqueue"; 0 ⇒ "action.output"; 5 ⇒ "action.set_dl_dst";
   4 ⇒ "action.set_dl_src"; 7 ⇒ "action.set_nw_dst"; 6 ⇒ "action.set_nw_src"; 8 ⇒ "action.set_nw_tos";
   10 ⇒ "action.set_tp_dst"; 9 ⇒ "action.set_tp_src"; 2 ⇒ "action.set_vlan_pcp";
   1 ⇒ "action.set_vlan_vid"; 3 ⇒ "action.strip_vlan"]
  [u_int 2 "type"; u_slice 4; u_skip 4]
  false
  ["type"]
  [].

Definition experimenter : cls := mk_cls "action.experimenter"
  ["type" ↦ 65535]
  [("experimenter", VInt 0); ("data", VStr [])]
  [p_int 2 "type"; p_placeholder; p_int 4 "experimenter"; p_raw "data"]
  (t_len 1) (Some (4, 4))
  [6035143 ⇒ "action.bsn"; 8992 ⇒ "action.nicira"]
  [u_check 2 65535; u_slice 4; u_int 4 "experimenter"; u_rest "data"]
  false
  ["experimenter"; "data"]
  [q_pp "data"].

Definition bsn : cls := mk_cls "action.bsn"
  ["type" ↦ 65535; "experimenter" ↦ 6035143]
  [("subtype", VInt 0)]
  [p_int 2 "type"; p_placeholder; p_int 4 "experimenter"; p_int 4 "subtype"; p_zeros 4]
  (t_len 1) (Some (4, 8))
  [4 ⇒ "action.bsn_checksum"; 1 ⇒ "action.bsn_mirror"; 2 ⇒ "action.bsn_set_tunnel_dst"]
  [u_check 2 65535; u_slice 4; u_check 4 6035143; u_int 4 "subtype"; u_skip 4]
  false
  ["subtype"]
  [].

Definition bsn_checksum : cls := mk_cls "action.bsn_checksum"
  ["type" ↦ 65535; "experimenter" ↦ 6035143; "subtype" ↦ 4]
  [("checksum", VInt 0)]
  [p_int 2 "type"; p_placeholder; p_int 4 "experimenter"; p_int 4 "subtype"; p_checksum_128 "checksum"]
  (t_len 1) None []
  [u_check 2 65535; u_slice 4; u_check 4 6035143; u_check 4 4; u_checksum_128 "checksum"]
  false
  ["checksum"]
  [q_pp "checksum"].

Definition bsn_mirror : cls := mk_cls "action.bsn_mirror"
  ["type" ↦ 65535; "experimenter" ↦ 6035143; "subtype" ↦ 1]
  [("dest_port", VInt 0); ("vlan_tag", VInt 0); ("copy_stage", VInt 0)]
  [p_int 2 "type"; p_placeholder; p_int 4 "experimenter"; p_int 4 "subtype"; p_int 4 "dest_port";
   p_int 4 "vlan_tag"; p_int 1 "copy_stage"; p_zeros 3]
  (t_len 1) None []
  [u_check 2 65535; u_slice 4; u_check 4 6035143; u_check 4 1; u_int 4 "dest_port"; u_int 4 "vlan_tag";
   u_int 1 "copy_stage"; u_skip 3]
  false
  ["dest_port"; "vlan_tag"; "copy_stage"]
  [q_hex "dest_port"; q_hex "vlan_tag"; q_hex "copy_stage"].

Definition bsn_set_tunnel_dst : cls := mk_cls "action.bsn_set_tunnel_dst"
  ["type" ↦ 65535; "experimenter" ↦ 6035143; "subtype" ↦ 2]
  [("dst", VInt 0)]
  [p_int 2 "type"; p_placeholder; p_int 4 "experimenter"; p_int 4 "subtype"; p_int 4 "dst"]
  (t_len 1) None []
  [u_check 2 65535; u_slice 4; u_check 4 6035143; u_check 4 2; u_int 4 "dst"]
  false
  ["dst"]
  [q_hex "dst"].

Definition enqueue : cls := mk_cls "action.enqueue"
  ["type" ↦ 11]
  [("port", VInt 0); ("queue_id", VInt 0)]
  [p_int 2 "type"; p_placeholder; p_int 2 "port"; p_zeros 6; p_int 4 "queue_id"]
  (t_len 1) None []
  [u_check 2 11; u_slice 4; u_int 2 "port"; u_skip 6; u_int 4 "queue_id"]
  false
  ["port"; "queue_id"]
  [q_port "port"; q_hex "queue_id"].

Definition nicira : cls := mk_cls "action.nicira"
  ["type" ↦ 65535; "experimenter" ↦ 8992]
  [("subtype", VInt 0)]
  [p_int 2 "type"; p_placeholder; p_int 4 "experimenter"; p_int 2 "subtype"; p_zeros 2; p_zeros 4]
  (t_len 1) (Some (2, 8))
  [18 ⇒ "action.nicira_dec_ttl"]
  [u_check 2 65535; u_slice 4; u_check 4 8992; u_int 2 "subtype"; u_skip 2; u_skip 4]
  false
  ["subtype"]
  [].

Definition nicira_dec_ttl : cls := mk_cls "action.nicira_dec_ttl"
  ["type" ↦ 65535; "experimenter" ↦ 8992; "subtype" ↦ 18]
  []
  [p_int 2 "type"; p_placeholder; p_int 4 "experimenter"; p_int 2 "subtype"; p_zeros 2; p_zeros 4]
  (t_len 1) None []
  [u_check 2 65535; u_slice 4; u_check 4 8992; u_check 2 18; u_skip 2; u_skip 4]
  false
  []
  [].

Definition output : cls := mk_cls "action.output"
  ["type" ↦ 0]
  [("port", VInt 0); ("max_len", VInt 0)]
  [p_int 2 "type"; p_placeholder; p_int 2 "port"; p_int 2 "max_len"]
  (t_len 1) None []
  [u_check 2 0; u_slice 4; u_int 2 "port"; u_int 2 "max_len"]
  false
  ["port"; "max_len"]
  [q_port "port"; q_hex "max_len"].

Definition set_dl_dst : cls := mk_cls "action.set_dl_dst"
  ["type" ↦ 5]
  [("dl_addr", VInts [0; 0; 0; 0; 0; 0]%Z)]
  [p_int 2 "type"; p_placeholder; p_bytes 6 "dl_addr"; p_zeros 6]
  (t_len 1) None []
  [u_check 2 5; u_slice 4; u_bytes 6 "dl_addr"; u_skip 6]
  false
  ["dl_addr"]
  [q_mac "dl_addr"].

Definition set_dl_src : cls := mk_cls "action.set_dl_src"
  ["type" ↦ 4]
  [("dl_addr", VInts [0; 0; 0; 0; 0; 0]%Z)]
  [p_int 2 "type"; p_placeholder; p_bytes 6 "dl_addr"; p_zeros 6]
  (t_len 1) None []
  [u_check 2 4; u_slice 4; u_bytes 6 "dl_addr"; u_skip 6]
  false
  ["dl_addr"]
  [q_mac "dl_addr"].

Definition set_nw_dst : cls := mk_cls "action.set_nw_dst"
  ["type" ↦ 7]
  [("nw_addr", VInt 0)]
  [p_int 2 "type"; p_placeholder; p_int 4 "nw_addr"]
  (t_len 1) None []
  [u_check 2 7; u_slice 4; u_int 4 "nw_addr"]
  false
  ["nw_addr"]
  [q_hex "nw_addr"].

Definition set_nw_src : cls := mk_cls "action.set_nw_src"
  ["type" ↦ 6]
  [("nw_addr", VInt 0)]
  [p_int 2 "type"; p_placeholder; p_int 4 "nw_addr"]
  (t_len 1) None []
  [u_check 2 6; u_slice 4; u_int 4 "nw_addr"]
  false
  ["nw_addr"]
  [q_hex "nw_addr"].

Definition set_nw_tos : cls := mk_cls "action.set_nw_tos"
  ["type" ↦ 8]
  [("nw_tos", VInt 0)]
  [p_int 2 "type"; p_placeholder; p_int 1 "nw_tos"; p_zeros 3]
  (t_len 1) None []
  [u_check 2 8; u_slice 4; u_int 1 "nw_tos"; u_skip 3]
  false
  ["nw_tos"]
  [q_hex "nw_tos"].

Definition set_tp_dst : cls := mk_cls "action.set_tp_dst"
  ["type" ↦ 10]
  [("tp_port", VInt 0)]
  [p_int 2 "type"; p_placeholder; p_int 2 "tp_port"; p_zeros 2]
  (t_len 1) None []
  [u_check 2 10; u_slice 4; u_int 2 "tp_port"; u_skip 2]
  false
  ["tp_port"]
  [q_hex "tp_port"].

Definition set_tp_src : cls := mk_cls "action.set_tp_src"
  ["type" ↦ 9]
  [("tp_port", VInt 0)]
  [p_int 2 "type"; p_placeholder; p_int 2 "tp_port"; p_zeros 2]
  (t_len 1) None []
  [u_check 2 9; u_slice 4; u_int 2 "tp_port"; u_skip 2]
  false
  ["tp_port"]
  [q_hex "tp_port"].

Definition set_vlan_pcp : cls := mk_cls "action.set_vlan_pcp"
  ["type" ↦ 2]
  [("vlan_pcp", VInt 0)]
  [p_int 2 "type"; p_placeholder; p_int 1 "vlan_pcp"; p_zeros 3]
  (t_len 1) None []
  [u_check 2 2; u_slice 4; u_int 1 "vlan_pcp"; u_skip 3]
  false
  ["vlan_pcp"]
  [q_hex "vlan_pcp"].

Definition set_vlan_vid : cls := mk_cls "action.set_vlan_vid"
  ["type" ↦ 1]
  [("vlan_vid", VInt 0)]
  [p_int 2 "type"; p_placeholder; p_int 2 "vlan_vid"; p_zeros 2]
  (t_len 1) None []
  [u_check 2 1; u_slice 4; u_int 2 "vlan_vid"; u_skip 2]
  false
  ["vlan_vid"]
  [q_hex "vlan_vid"].

Definition strip_vlan : cls := mk_cls "action.strip_vlan"
  ["type" ↦ 3]
  []
  [p_int 2 "type"; p_placeholder; p_zeros 4]
  (t_len 1) None []
  [u_check 2 3; u_slice 4; u_skip 4]
  false
  []
  [].

Definition classes : list cls :=
  [action; experimenter; bsn; bsn_checksum; bsn_mirror; bsn_set_tunnel_dst; enqueue; nicira;
   nicira_dec_ttl; output; set_dl_dst; set_dl_src; set_nw_dst; set_nw_src; set_nw_tos; set_tp_dst;
   set_tp_src; set_vlan_pcp; set_vlan_vid; strip_vlan].
End Action.

Module Common.
Import LoxiNotations.

Definition bsn_interface : cls := mk_cls "common.bsn_interface"
  []
  [("hw_addr", VInts [0; 0; 0; 0; 0; 0]%Z); ("name", VStr []); ("ipv4_addr", VInt 0);
   ("ipv4_netmask", VInt 0)]
  [p_bytes 6 "hw_addr"; p_zeros 2; p_str 16 "name"; p_int 4 "ipv4_addr"; p_int 4 "ipv4_netmask"]
  t_none None []
  [u_bytes 6 "hw_addr"; u_skip 2; u_str 16 true "name"; u_int 4 "ipv4_addr"; u_int 4 "ipv4_netmask"]
  false
  ["hw_addr"; "name"; "ipv4_addr"; "ipv4_netmask"]
  [q_mac "hw_addr"; q_pp "name"; q_ipv4 "ipv4_addr"; q_ipv4 "ipv4_netmask"].

Definition bsn_vport : cls := mk_cls "common.bsn_vport"
  []
  [("type", VInt 0)]
  [p_int 2 "type"; p_placeholder]
  (t_len 1) (Some (2, 0))
  [1 ⇒ "common.bsn_vport_l2gre"; 0 ⇒ "common.bsn_vport_q_in_q"]
  [u_int 2 "type"; u_slice 4]
  false
  ["type"]
  [].

Definition bsn_vport_l2gre : cls := mk_cls "common.bsn_vport_l2gre"
  ["type" ↦ 1]
  [("flags", VInt 0); ("port_no", VInt 0); ("loopback_port_no", VInt 0);
   ("local_mac", VInts [0; 0; 0; 0; 0; 0]%Z); ("nh_mac", VInts [0; 0; 0; 0; 0; 0]%Z); ("src_ip", VInt 0);
   ("dst_ip", VInt 0); ("dscp", VInt 0); ("ttl", VInt 0); ("vpn", VInt 0); ("rate_limit", VInt 0);
   ("if_name", VStr [])]
  [p_int 2 "type"; p_placeholder; p_int 4 "flags"; p_int 2 "port_no"; p_int 2 "loopback_port_no";
   p_bytes 6 "local_mac"; p_bytes 6 "nh_mac"; p_int 4 "src_ip"; p_int 4 "dst_ip"; p_int 1 "dscp";
   p_int 1 "ttl"; p_zeros 2; p_int 4 "vpn"; p_int 4 "rate_limit"; p_str 16 "if_name"]
  (t_len 1) None []
  [u_check 2 1; u_slice 4; u_int 4 "flags"; u_int 2 "port_no"; u_int 2 "loopback_port_no";
   u_bytes 6 "local_mac"; u_bytes 6 "nh_mac"; u_int 4 "src_ip"; u_int 4 "dst_ip"; u_int 1 "dscp";
   u_int 1 "ttl"; u_skip 2; u_int 4 "vpn"; u_int 4 "rate_limit"; u_str 16 true "if_name"]
  false
  ["flags"; "port_no"; "loopback_port_no"; "local_mac"; "nh_mac"; "src_ip"; "dst_ip"; "dscp"; "ttl";
   "vpn"; "rate_limit"; "if_name"]
  [q_hex "flags"; q_port "port_no"; q_port "loopback_port_no"; q_mac "local_mac"; q_mac "nh_mac";
   q_ipv4 "src_ip"; q_ipv4 "dst_ip"; q_hex "dscp"; q_hex "ttl"; q_hex "vpn"; q_hex "rate_limit";
   q_pp "if_name"].

Definition bsn_vport_q_in_q : cls := mk_cls "common.bsn_vport_q_in_q"
  ["type" ↦ 0]
  [("port_no", VInt 0); ("ingress_tpid", VInt 0); ("ingress_vlan_id", VInt 0); ("egress_tpid", VInt 0);
   ("egress_vlan_id", VInt 0); ("if_name", VStr [])]
  [p_int 2 "type"; p_placeholder; p_int 4 "port_no"; p_int 2 "ingress_tpid"; p_int 2 "ingress_vlan_id";
   p_int 2 "egress_tpid"; p_int 2 "egress_vlan_id"; p_str 16 "if_name"]
  (t_len 1) None []
  [u_check 2 0; u_slice 4; u_int 4 "port_no"; u_int 2 "ingress_tpid"; u_int 2 "ingress_vlan_id";
   u_int 2 "egress_tpid"; u_int 2 "egress_vlan_id"; u_str 16 true "if_name"]
  false
  ["port_no"; "ingress_tpid"; "ingress_vlan_id"; "egress_tpid"; "egress_vlan_id"; "if_name"]
  [q_hex "port_no"; q_hex "ingress_tpid"; q_hex "ingress_vlan_id"; q_hex "egress_tpid";
   q_hex "egress_vlan_id"; q_pp "if_name"].

Definition match_v1 : cls := mk_cls "common.match_v1"
  []
  [("wildcards", VInt (4194303)); ("in_port", VInt 0); ("eth_src", VInts [0; 0; 0; 0; 0; 0]%Z);
   ("eth_dst", VInts [0; 0; 0; 0; 0; 0]%Z); ("vlan_vid", VInt 0); ("vlan_pcp", VInt 0);
   ("eth_type", VInt 0); ("ip_dscp", VInt 0); ("ip_proto", VInt 0); ("ipv4_src", VInt 0);
   ("ipv4_dst", VInt 0); ("tcp_src", VInt 0); ("tcp_dst", VInt 0)]
  [p_int 4 "wildcards"; p_int 2 "in_port"; p_bytes 6 "eth_src"; p_bytes 6 "eth_dst"; p_int 2 "vlan_vid";
   p_int 1 "vlan_pcp"; p_zeros 1; p_int 2 "eth_type"; p_int 1 "ip_dscp"; p_int 1 "ip_proto"; p_zeros 2;
   p_int 4 "ipv4_src"; p_int 4 "ipv4_dst"; p_int 2 "tcp_src"; p_int 2 "tcp_dst"]
  t_none None []
  [u_int 4 "wildcards"; u_int 2 "in_port"; u_bytes 6 "eth_src"; u_bytes 6 "eth_dst"; u_int 2 "vlan_vid";
   u_int 1 "vlan_pcp"; u_skip 1; u_int 2 "eth_type"; u_int 1 "ip_dscp"; u_int 1 "ip_proto"; u_skip 2;
   u_int 4 "ipv4_src"; u_int 4 "ipv4_dst"; u_int 2 "tcp_src"; u_int 2 "tcp_dst"]
  false
  ["wildcards"; "in_port"; "eth_src"; "eth_dst"; "vlan_vid"; "vlan_pcp"; "eth_type"; "ip_dscp";
   "ip_proto"; "ipv4_src"; "ipv4_dst"; "tcp_src"; "tcp_dst"]
  [q_wildcards "wildcards"; q_port "in_port"; q_mac "eth_src"; q_mac "eth_dst"; q_hex "vlan_vid";
   q_hex "vlan_pcp"; q_hex "eth_type"; q_hex "ip_dscp"; q_hex "ip_proto"; q_ipv4 "ipv4_src";
   q_ipv4 "ipv4_dst"; q_hex "tcp_src"; q_hex "tcp_dst"].

Definition flow_stats_entry : cls := mk_cls "common.flow_stats_entry"
  []
  [("table_id", VInt 0); ("match", new_object match_v1); ("duration_sec", VInt 0);
   ("duration_nsec", VInt 0); ("priority", VInt 0); ("idle_timeout", VInt 0); ("hard_timeout", VInt 0);
   ("cookie", VInt 0); ("packet_count", VInt 0); ("byte_count", VInt 0); ("actions", VList [])]
  [p_placeholder; p_int 1 "table_id"; p_zeros 1; p_obj "match"; p_int 4 "duration_sec";
   p_int 4 "duration_nsec"; p_int 2 "priority"; p_int 2 "idle_timeout"; p_int 2 "hard_timeout"; p_zeros 6;
   p_int 8 "cookie"; p_int 8 "packet_count"; p_int 8 "byte_count"; p_list "actions"]
  (t_len 0) None []
  [u_slice 2; u_int 1 "table_id"; u_skip 1; u_obj "match" "common.match_v1"; u_int 4 "duration_sec";
   u_int 4 "duration_nsec"; u_int 2 "priority"; u_int 2 "idle_timeout"; u_int 2 "hard_timeout"; u_skip 6;
   u_int 8 "cookie"; u_int 8 "packet_count"; u_int 8 "byte_count"; u_list "actions" "action.action"]
  false
  ["table_id"; "match"; "duration_sec"; "duration_nsec"; "priority"; "idle_timeout"; "hard_timeout";
   "cookie"; "packet_count"; "byte_count"; "actions"]
  [q_hex "table_id"; q_pp "match"; q_hex "duration_sec"; q_hex "duration_nsec"; q_hex "priority";
   q_hex "idle_timeout"; q_hex "hard_timeout"; q_hex "cookie"; q_hex "packet_count"; q_hex "byte_count";
   q_pp "actions"].

Definition packet_queue : cls := mk_cls "common.packet_queue"
  []
  [("queue_id", VInt 0); ("properties", VList [])]
  [p_int 4 "queue_id"; p_placeholder; p_zeros 2; p_list "properties"]
  (t_len 1) None []
  [u_int 4 "queue_id"; u_slice 6; u_skip 2; u_list "properties" "common.queue_prop"]
  false
  ["queue_id"; "properties"]
  [q_hex "queue_id"; q_pp "properties"].

Definition port_desc : cls := mk_cls "common.port_desc"
  []
  [("port_no", VInt 0); ("hw_addr", VInts [0; 0; 0; 0; 0; 0]%Z); ("name", VStr []); ("config", VInt 0);
   ("state", VInt 0); ("curr", VInt 0); ("advertised", VInt 0); ("supported", VInt 0); ("peer", VInt 0)]
  [p_int 2 "port_no"; p_bytes 6 "hw_addr"; p_str 16 "name"; p_int 4 "config"; p_int 4 "state";
   p_int 4 "curr"; p_int 4 "advertised"; p_int 4 "supported"; p_int 4 "peer"]
  t_none None []
  [u_int 2 "port_no"; u_bytes 6 "hw_addr"; u_str 16 true "name"; u_int 4 "config"; u_int 4 "state";
   u_int 4 "curr"; u_int 4 "advertised"; u_int 4 "supported"; u_int 4 "peer"]
  false
  ["port_no"; "hw_addr"; "name"; "config"; "state"; "curr"; "advertised"; "supported"; "peer"]
  [q_port "port_no"; q_mac "hw_addr"; q_pp "name"; q_hex "config"; q_hex "state"; q_hex "curr";
   q_hex "advertised"; q_hex "supported"; q_hex "peer"].

Definition port_stats_entry : cls := mk_cls "common.port_stats_entry"
  []
  [("port_no", VInt 0); ("rx_packets", VInt 0); ("tx_packets", VInt 0); ("rx_bytes", VInt 0);
   ("tx_bytes", VInt 0); ("rx_dropped", VInt 0); ("tx_dropped", VInt 0); ("rx_errors", VInt 0);
   ("tx_errors", VInt 0); ("rx_frame_err", VInt 0); ("rx_over_err", VInt 0); ("rx_crc_err", VInt 0);
   ("collisions", VInt 0)]
  [p_int 2 "port_no"; p_zeros 6; p_int 8 "rx_packets"; p_int 8 "tx_packets"; p_int 8 "rx_bytes";
   p_int 8 "tx_bytes"; p_int 8 "rx_dropped"; p_int 8 "tx_dropped"; p_int 8 "rx_errors";
   p_int 8 "tx_errors"; p_int 8 "rx_frame_err"; p_int 8 "rx_over_err"; p_int 8 "rx_crc_err";
   p_int 8 "collisions"]
  t_none None []
  [u_int 2 "port_no"; u_skip 6; u_int 8 "rx_packets"; u_int 8 "tx_packets"; u_int 8 "rx_bytes";
   u_int 8 "tx_bytes"; u_int 8 "rx_dropped"; u_int 8 "tx_dropped"; u_int 8 "rx_errors";
   u_int 8 "tx_errors"; u_int 8 "rx_frame_err"; u_int 8 "rx_over_err"; u_int 8 "rx_crc_err";
   u_int 8 "collisions"]
  false
  ["port_no"; "rx_packets"; "tx_packets"; "rx_bytes"; "tx_bytes"; "rx_dropped"; "tx_dropped"; "rx_errors";
   "tx_errors"; "rx_frame_err"; "rx_over_err"; "rx_crc_err"; "collisions"]
  [q_port "port_no"; q_hex "rx_packets"; q_hex "tx_packets"; q_hex "rx_bytes"; q_hex "tx_bytes";
   q_hex "rx_dropped"; q_hex "tx_dropped"; q_hex "rx_errors"; q_hex "tx_errors"; q_hex "rx_frame_err";
   q_hex "rx_over_err"; q_hex "rx_crc_err"; q_hex "collisions"].

Definition queue_prop : cls := mk_cls "common.queue_prop"
  []
  [("type", VInt 0)]
  [p_int 2 "type"; p_placeholder; p_zeros 4]
  (t_len 1) (Some (2, 0))
  [1 ⇒ "common.queue_prop_min_rate"]
  [u_int 2 "type"; u_slice 4; u_skip 4]
  false
  ["type"]
  [].

Definition queue_prop_min_rate : cls := mk_cls "common.queue_prop_min_rate"
  ["type" ↦ 1]
  [("rate", VInt 0)]
  [p_int 2 "type"; p_placeholder; p_zeros 4; p_int 2 "rate"; p_zeros 6]
  (t_len 1) None []
  [u_check 2 1; u_slice 4; u_skip 4; u_int 2 "rate"; u_skip 6]
  false
  ["rate"]
  [q_hex "rate"].

Definition queue_stats_entry : cls := mk_cls "common.queue_stats_entry"
  []
  [("port_no", VInt 0); ("queue_id", VInt 0); ("tx_bytes", VInt 0); ("tx_packets", VInt 0);
   ("tx_errors", VInt 0)]
  [p_int 2 "port_no"; p_zeros 2; p_int 4 "queue_id"; p_int 8 "tx_bytes"; p_int 8 "tx_packets";
   p_int 8 "tx_errors"]
  t_none None []
  [u_int 2 "port_no"; u_skip 2; u_int 4 "queue_id"; u_int 8 "tx_bytes"; u_int 8 "tx_packets";
   u_int 8 "tx_errors"]
  false
  ["port_no"; "queue_id"; "tx_bytes"; "tx_packets"; "tx_errors"]
  [q_port "port_no"; q_hex "queue_id"; q_hex "tx_bytes"; q_hex "tx_packets"; q_hex "tx_errors"].

Definition table_stats_entry : cls := mk_cls "common.table_stats_entry"
  []
  [("table_id", VInt 0); ("name", VStr []); ("wildcards", VInt (4194303)); ("max_entries", VInt 0);
   ("active_count", VInt 0); ("lookup_count", VInt 0); ("matched_count", VInt 0)]
  [p_int 1 "table_id"; p_zeros 3; p_str 32 "name"; p_int 4 "wildcards"; p_int 4 "max_entries";
   p_int 4 "active_count"; p_int 8 "lookup_count"; p_int 8 "matched_count"]
  t_none None []
  [u_int 1 "table_id"; u_skip 3; u_str 32 true "name"; u_int 4 "wildcards"; u_int 4 "max_entries";
   u_int 4 "active_count"; u_int 8 "lookup_count"; u_int 8 "matched_count"]
  false
  ["table_id"; "name"; "wildcards"; "max_entries"; "active_count"; "lookup_count"; "matched_count"]
  [q_hex "table_id"; q_pp "name"; q_wildcards "wildcards"; q_hex "max_entries"; q_hex "active_count";
   q_hex "lookup_count"; q_hex "matched_count"].

Definition classes : list cls :=
  [bsn_interface; bsn_vport; bsn_vport_l2gre; bsn_vport_q_in_q; match_v1; flow_stats_entry; packet_queue;
   port_desc; port_stats_entry; queue_prop; queue_prop_min_rate; queue_stats_entry; table_stats_entry].
End Common.
