(* ===== verification/Of11Common.v ===== *)
(** * OpenFlow 1.1: actions, instructions and structures shared by messages
    (of11/action.py, of11/instruction.py, of11/common.py)

    One definition per class of the generated bindings, with the statements of its
    methods; see LoxiWire for what they mean. *)

From Stdlib Require Import Strings.Byte.
From stdpp Require Import prelude strings list.
From S2P Require Import Prelude LoxiWire.

Module Action.
Import LoxiNotations.

Definition action : cls := mk_cls "action.action"
  []
  [("type", VInt 0)]
  [p_int 2 "type"; p_placeholder; p_zeros 4]
  (t_len 1) (Some (2, 0))
  [65535 ⇒ "action.experimenter"; 12 ⇒ "action.copy_ttl_in"; 11 ⇒ "action.copy_ttl_out";
   16 ⇒ "action.dec_mpls_ttl"; 24 ⇒ "action.dec_nw_ttl"; 22 ⇒ "action.group"; 0 ⇒ "action.output";
   20 ⇒ "action.pop_mpls"; 18 ⇒ "action.pop_vlan"; 19 ⇒ "action.push_mpls"; 17 ⇒ "action.push_vlan";
   4 ⇒ "action.set_dl_dst"; 3 ⇒ "action.set_dl_src"; 13 ⇒ "action.set_mpls_label";
   14 ⇒ "action.set_mpls_tc"; 15 ⇒ "action.set_mpls_ttl"; 6 ⇒ "action.set_nw_dst";
   8 ⇒ "action.set_nw_ecn"; 5 ⇒ "action.set_nw_src"; 7 ⇒ "action.set_nw_tos"; 23 ⇒ "action.set_nw_ttl";
   21 ⇒ "action.set_queue"; 10 ⇒ "action.set_tp_dst"; 9 ⇒ "action.set_tp_src"; 2 ⇒ "action.set_vlan_pcp";
   1 ⇒ "action.set_vlan_vid"]
  [u_int 2 "type"; u_slice 4; u_skip 4]
  false
  ["type"]
  [].

Definition experimenter : cls := mk_cls "action.experimenter"
  ["type" ↦ 65535]
  [("experimenter", VInt 0); ("data", VStr [])]
  [p_int 2 "type"; p_placeholder; p_int 4 "experimenter"; p_raw "data"]
  (t_len 1) (Some (4, 4))
  [6035143 ⇒ "action.bsn"; 8992 ⇒ "action.nicira"]
  [u_check 2 65535; u_slice 4; u_int 4 "experimenter"; u_rest "data"]
  false
  ["experimenter"; "data"]
  [q_pp "data"].

Definition bsn : cls := mk_cls "action.bsn"
  ["type" ↦ 65535; "experimenter" ↦ 6035143]
  [("subtype", VInt 0)]
  [p_int 2 "type"; p_placeholder; p_int 4 "experimenter"; p_int 4 "subtype"; p_zeros 4]
  (t_len 1) (Some (4, 8))
  [4 ⇒ "action.bsn_checksum"; 1 ⇒ "action.bsn_mirror"; 2 ⇒ "action.bsn_set_tunnel_dst"]
  [u_check 2 65535; u_slice 4; u_check 4 6035143; u_int 4 "subtype"; u_skip 4]
  false
  ["subtype"]
  [].

Definition bsn_checksum : cls := mk_cls "action.bsn_checksum"
  ["type" ↦ 65535; "experimenter" ↦ 6035143; "subtype" ↦ 4]
  [("checksum", VInt 0)]
  [p_int 2 "type"; p_placeholder; p_int 4 "experimenter"; p_int 4 "subtype"; p_checksum_128 "checksum"]
  (t_len 1) None []
  [u_check 2 65535; u_slice 4; u_check 4 6035143; u_check 4 4; u_checksum_128 "checksum"]
  false
  ["checksum"]
  [q_pp "checksum"].

Definition bsn_mirror : cls := mk_cls "action.bsn_mirror"
  ["type" ↦ 65535; "experimenter" ↦ 6035143; "subtype" ↦ 1]
  [("dest_port", VInt 0); ("vlan_tag", VInt 0); ("copy_stage", VInt 0)]
  [p_int 2 "type"; p_placeholder; p_int 4 "experimenter"; p_int 4 "subtype"; p_int 4 "dest_port";
   p_int 4 "vlan_tag"; p_int 1 "copy_stage"; p_zeros 3]
  (t_len 1) None []
  [u_check 2 65535; u_slice 4; u_check 4 6035143; u_check 4 1; u_int 4 "dest_port"; u_int 4 "vlan_tag";
   u_int 1 "copy_stage"; u_skip 3]
  false
  ["dest_port"; "vlan_tag"; "copy_stage"]
  [q_hex "dest_port"; q_hex "vlan_tag"; q_hex "copy_stage"].

Definition bsn_set_tunnel_dst : cls := mk_cls "action.bsn_set_tunnel_dst"
  ["type" ↦ 65535; "experimenter" ↦ 6035143; "subtype" ↦ 2]
  [("dst", VInt 0)]
  [p_int 2 "type"; p_placeholder; p_int 4 "experimenter"; p_int 4 "subtype"; p_int 4 "dst"]
  (t_len 1) None []
  [u_check 2 65535; u_slice 4; u_check 4 6035143; u_check 4 2; u_int 4 "dst"]
  false
  ["dst"]
  [q_hex "dst"].

Definition copy_ttl_in : cls := mk_cls "action.copy_ttl_in"
  ["type" ↦ 12]
  []
  [p_int 2 "type"; p_placeholder; p_zeros 4]
  (t_len 1) None []
  [u_check 2 12; u_slice 4; u_skip 4]
  false
  []
  [].

Definition copy_ttl_out : cls := mk_cls "action.copy_ttl_out"
  ["type" ↦ 11]
  []
  [p_int 2 "type"; p_placeholder; p_zeros 4]
  (t_len 1) None []
  [u_check 2 11; u_slice 4; u_skip 4]
  false
  []
  [].

Definition dec_mpls_ttl : cls := mk_cls "action.dec_mpls_ttl"
  ["type" ↦ 16]
  []
  [p_int 2 "type"; p_placeholder; p_zeros 4]
  (t_len 1) None []
  [u_check 2 16; u_slice 4; u_skip 4]
  false
  []
  [].

Definition dec_nw_ttl : cls := mk_cls "action.dec_nw_ttl"
  ["type" ↦ 24]
  []
  [p_int 2 "type"; p_placeholder; p_zeros 4]
  (t_len 1) None []
  [u_check 2 24; u_slice 4; u_skip 4]
  false
  []
  [].

Definition group : cls := mk_cls "action.group"
  ["type" ↦ 22]
  [("group_id", VInt 0)]
  [p_int 2 "type"; p_placeholder; p_int 4 "group_id"]
  (t_len 1) None []
  [u_check 2 22; u_slice 4; u_int 4 "group_id"]
  false
  ["group_id"]
  [q_hex "group_id"].

Definition nicira : cls := mk_cls "action.nicira"
  ["type" ↦ 65535; "experimenter" ↦ 8992]
  [("subtype", VInt 0)]
  [p_int 2 "type"; p_placeholder; p_int 4 "experimenter"; p_int 2 "subtype"; p_zeros 2; p_zeros 4]
  (t_len 1) (Some (2, 8))
  [18 ⇒ "action.nicira_dec_ttl"]
  [u_check 2 65535; u_slice 4; u_check 4 8992; u_int 2 "subtype"; u_skip 2; u_skip 4]
  false
  ["subtype"]
  [].

Definition nicira_dec_ttl : cls := mk_cls "action.nicira_dec_ttl"
  ["type" ↦ 65535; "experimenter" ↦ 8992; "subtype" ↦ 18]
  []
  [p_int 2 "type"; p_placeholder; p_int 4 "experimenter"; p_int 2 "subtype"; p_zeros 2; p_zeros 4]
  (t_len 1) None []
  [u_check 2 65535; u_slice 4; u_check 4 8992; u_check 2 18; u_skip 2; u_skip 4]
  false
  []
  [].

Definition output : cls := mk_cls "action.output"
  ["type" ↦ 0]
  [("port", VInt 0); ("max_len", VInt 0)]
  [p_int 2 "type"; p_placeholder; p_int 4 "port"; p_int 2 "max_len"; p_zeros 6]
  (t_len 1) None []
  [u_check 2 0; u_slice 4; u_int 4 "port"; u_int 2 "max_len"; u_skip 6]
  false
  ["port"; "max_len"]
  [q_port "port"; q_hex "max_len"].

Definition pop_mpls : cls := mk_cls "action.pop_mpls"
  ["type" ↦ 20]
  [("ethertype", VInt 0)]
  [p_int 2 "type"; p_placeholder; p_int 2 "ethertype"; p_zeros 2]
  (t_len 1) None []
  [u_check 2 20; u_slice 4; u_int 2 "ethertype"; u_skip 2]
  false
  ["ethertype"]
  [q_hex "ethertype"].

Definition pop_vlan : cls := mk_cls "action.pop_vlan"
  ["type" ↦ 18]
  []
  [p_int 2 "type"; p_placeholder; p_zeros 4]
  (t_len 1) None []
  [u_check 2 18; u_slice 4; u_skip 4]
  false
  []
  [].

Definition push_mpls : cls := mk_cls "action.push_mpls"
  ["type" ↦ 19]
  [("ethertype", VInt 0)]
  [p_int 2 "type"; p_placeholder; p_int 2 "ethertype"; p_zeros 2]
  (t_len 1) None []
  [u_check 2 19; u_slice 4; u_int 2 "ethertype"; u_skip 2]
  false
  ["ethertype"]
  [q_hex "ethertype"].

Definition push_vlan : cls := mk_cls "action.push_vlan"
  ["type" ↦ 17]
  [("ethertype", VInt 0)]
  [p_int 2 "type"; p_placeholder; p_int 2 "ethertype"; p_zeros 2]
  (t_len 1) None []
  [u_check 2 17; u_slice 4; u_int 2 "ethertype"; u_skip 2]
  false
  ["ethertype"]
  [q_hex "ethertype"].

Definition set_dl_dst : cls := mk_cls "action.set_dl_dst"
  ["type" ↦ 4]
  [("dl_addr", VInts [0; 0; 0; 0; 0; 0]%Z)]
  [p_int 2 "type"; p_placeholder; p_bytes 6 "dl_addr"; p_zeros 6]
  (t_len 1) None []
  [u_check 2 4; u_slice 4; u_bytes 6 "dl_addr"; u_skip 6]
  false
  ["dl_addr"]
  [q_mac "dl_addr"].

Definition set_dl_src : cls := mk_cls "action.set_dl_src"
  ["type" ↦ 3]
  [("dl_addr", VInts [0; 0; 0; 0; 0; 0]%Z)]
  [p_int 2 "type"; p_placeholder; p_bytes 6 "dl_addr"; p_zeros 6]
  (t_len 1) None []
  [u_check 2 3; u_slice 4; u_bytes 6 "dl_addr"; u_skip 6]
  false
  ["dl_addr"]
  [q_mac "dl_addr"].

Definition set_mpls_label : cls := mk_cls "action.set_mpls_label"
  ["type" ↦ 13]
  [("mpls_label", VInt 0)]
  [p_int 2 "type"; p_placeholder; p_int 4 "mpls_label"]
  (t_len 1) None []
  [u_check 2 13; u_slice 4; u_int 4 "mpls_label"]
  false
  ["mpls_label"]
  [q_hex "mpls_label"].

Definition set_mpls_tc : cls := mk_cls "action.set_mpls_tc"
  ["type" ↦ 14]
  [("mpls_tc", VInt 0)]
  [p_int 2 "type"; p_placeholder; p_int 1 "mpls_tc"; p_zeros 3]
  (t_len 1) None []
  [u_check 2 14; u_slice 4; u_int 1 "mpls_tc"; u_skip 3]
  false
  ["mpls_tc"]
  [q_hex "mpls_tc"].

Definition set_mpls_ttl : cls := mk_cls "action.set_mpls_ttl"
  ["type" ↦ 15]
  [("mpls_ttl", VInt 0)]
  [p_int 2 "type"; p_placeholder; p_int 1 "mpls_ttl"; p_zeros 3]
  (t_len 1) None []
  [u_check 2 15; u_slice 4; u_int 1 "mpls_ttl"; u_skip 3]
  false
  ["mpls_ttl"]
  [q_hex "mpls_ttl"].

Definition set_nw_dst : cls := mk_cls "action.set_nw_dst"
  ["type" ↦ 6]
  [("nw_addr", VInt 0)]
  [p_int 2 "type"; p_placeholder; p_int 4 "nw_addr"]
  (t_len 1) None []
  [u_check 2 6; u_slice 4; u_int 4 "nw_addr"]
  false
  ["nw_addr"]
  [q_hex "nw_addr"].

Definition set_nw_ecn : cls := mk_cls "action.set_nw_ecn"
  ["type" ↦ 8]
  [("nw_ecn", VInt 0)]
  [p_int 2 "type"; p_placeholder; p_int 1 "nw_ecn"; p_zeros 3]
  (t_len 1) None []
  [u_check 2 8; u_slice 4; u_int 1 "nw_ecn"; u_skip 3]
  false
  ["nw_ecn"]
  [q_hex "nw_ecn"].

Definition set_nw_src : cls := mk_cls "action.set_nw_src"
  ["type" ↦ 5]
  [("nw_addr", VInt 0)]
  [p_int 2 "type"; p_placeholder; p_int 4 "nw_addr"]
  (t_len 1) None []
  [u_check 2 5; u_slice 4; u_int 4 "nw_addr"]
  false
  ["nw_addr"]
  [q_hex "nw_addr"].

Definition set_nw_tos : cls := mk_cls "action.set_nw_tos"
  ["type" ↦ 7]
  [("nw_tos", VInt 0)]
  [p_int 2 "type"; p_placeholder; p_int 1 "nw_tos"; p_zeros 3]
  (t_len 1) None []
  [u_check 2 7; u_slice 4; u_int 1 "nw_tos"; u_skip 3]
  false
  ["nw_tos"]
  [q_hex "nw_tos"].

Definition set_nw_ttl : cls := mk_cls "action.set_nw_ttl"
  ["type" ↦ 23]
  [("nw_ttl", VInt 0)]
  [p_int 2 "type"; p_placeholder; p_int 1 "nw_ttl"; p_zeros 3]
  (t_len 1) None []
  [u_check 2 23; u_slice 4; u_int 1 "nw_ttl"; u_skip 3]
  false
  ["nw_ttl"]
  [q_hex "nw_ttl"].

Definition set_queue : cls := mk_cls "action.set_queue"
  ["type" ↦ 21]
  [("queue_id", VInt 0)]
  [p_int 2 "type"; p_placeholder; p_int 4 "queue_id"]
  (t_len 1) None []
  [u_check 2 21; u_slice 4; u_int 4 "queue_id"]
  false
  ["queue_id"]
  [q_hex "queue_id"].

Definition set_tp_dst : cls := mk_cls "action.set_tp_dst"
  ["type" ↦ 10]
  [("tp_port", VInt 0)]
  [p_int 2 "type"; p_placeholder; p_int 2 "tp_port"; p_zeros 2]
  (t_len 1) None []
  [u_check 2 10; u_slice 4; u_int 2 "tp_port"; u_skip 2]
  false
  ["tp_port"]
  [q_hex "tp_port"].

Definition set_tp_src : cls := mk_cls "action.set_tp_src"
  ["type" ↦ 9]
  [("tp_port", VInt 0)]
  [p_int 2 "type"; p_placeholder; p_int 2 "tp_port"; p_zeros 2]
  (t_len 1) None []
  [u_check 2 9; u_slice 4; u_int 2 "tp_port"; u_skip 2]
  false
  ["tp_port"]
  [q_hex "tp_port"].

Definition set_vlan_pcp : cls := mk_cls "action.set_vlan_pcp"
  ["type" ↦ 2]
  [("vlan_pcp", VInt 0)]
  [p_int 2 "type"; p_placeholder; p_int 1 "vlan_pcp"; p_zeros 3]
  (t_len 1) None []
  [u_check 2 2; u_slice 4; u_int 1 "vlan_pcp"; u_skip 3]
  false
  ["vlan_pcp"]
  [q_hex "vlan_pcp"].

Definition set_vlan_vid : cls := mk_cls "action.set_vlan_vid"
  ["type" ↦ 1]
  [("vlan_vid", VInt 0)]
  [p_int 2 "type"; p_placeholder; p_int 2 "vlan_vid"; p_zeros 2]
  (t_len 1) None []
  [u_check 2 1; u_slice 4; u_int 2 "vlan_vid"; u_skip 2]
  false
  ["vlan_vid"]
  [q_hex "vlan_vid"].

Definition classes : list cls :=
  [action; experimenter; bsn; bsn_checksum; bsn_mirror; bsn_set_tunnel_dst; copy_ttl_in; copy_ttl_out;
   dec_mpls_ttl; dec_nw_ttl; group; nicira; nicira_dec_ttl; output; pop_mpls; pop_vlan; push_mpls;
   push_vlan; set_dl_dst; set_dl_src; set_mpls_label; set_mpls_tc; set_mpls_ttl; set_nw_dst; set_nw_ecn;
   set_nw_src; set_nw_tos; set_nw_ttl; set_queue; set_tp_dst; set_tp_src; set_vlan_pcp; set_vlan_vid].
End Action.

Module Instruction.
Import LoxiNotations.

Definition instruction : cls := mk_cls "instruction.instruction"
  []
  [("type", VInt 0)]
  [p_int 2 "type"; p_placeholder; p_zeros 4]
  (t_len 1) (Some (2, 0))
  [4 ⇒ "instruction.apply_actions"; 5 ⇒ "instruction.clear_actions"; 65535 ⇒ "instruction.experimenter";
   1 ⇒ "instruction.goto_table"; 3 ⇒ "instruction.write_actions"; 2 ⇒ "instruction.write_metadata"]
  [u_int 2 "type"; u_slice 4; u_skip 4]
  false
  ["type"]
  [].

Definition apply_actions : cls := mk_cls "instruction.apply_actions"
  ["type" ↦ 4]
  [("actions", VList [])]
  [p_int 2 "type"; p_placeholder; p_zeros 4; p_list "actions"]
  (t_len 1) None []
  [u_check 2 4; u_slice 4; u_skip 4; u_list "actions" "action.action"]
  false
  ["actions"]
  [q_pp "actions"].

Definition clear_actions : cls := mk_cls "instruction.clear_actions"
  ["type" ↦ 5]
  []
  [p_int 2 "type"; p_placeholder; p_zeros 4]
  (t_len 1) None []
  [u_check 2 5; u_slice 4; u_skip 4]
  false
  []
  [].

Definition experimenter : cls := mk_cls "instruction.experimenter"
  ["type" ↦ 65535]
  [("experimenter", VInt 0); ("data", VStr [])]
  [p_int 2 "type"; p_placeholder; p_int 4 "experimenter"; p_raw "data"]
  (t_len 1) (Some (4, 4)) []
  [u_check 2 65535; u_slice 4; u_int 4 "experimenter"; u_rest "data"]
  false
  ["experimenter"; "data"]
  [q_pp "data"].

Definition goto_table : cls := mk_cls "instruction.goto_table"
  ["type" ↦ 1]
  [("table_id", VInt 0)]
  [p_int 2 "type"; p_placeholder; p_int 1 "table_id"; p_zeros 3]
  (t_len 1) None []
  [u_check 2 1; u_slice 4; u_int 1 "table_id"; u_skip 3]
  false
  ["table_id"]
  [q_hex "table_id"].

Definition write_actions : cls := mk_cls "instruction.write_actions"
  ["type" ↦ 3]
  [("actions", VList [])]
  [p_int 2 "type"; p_placeholder; p_zeros 4; p_list "actions"]
  (t_len 1) None []
  [u_check 2 3; u_slice 4; u_skip 4; u_list "actions" "action.action"]
  false
  ["actions"]
  [q_pp "actions"].

Definition write_metadata : cls := mk_cls "instruction.write_metadata"
  ["type" ↦ 2]
  [("metadata", VInt 0); ("metadata_mask", VInt 0)]
  [p_int 2 "type"; p_placeholder; p_zeros 4; p_int 8 "metadata"; p_int 8 "metadata_mask"]
  (t_len 1) None []
  [u_check 2 2; u_slice 4; u_skip 4; u_int 8 "metadata"; u_int 8 "metadata_mask"]
  false
  ["metadata"; "metadata_mask"]
  [q_hex "metadata"; q_hex "metadata_mask"].

Definition classes : list cls :=
  [instruction; apply_actions; clear_actions; experimenter; goto_table; write_actions; write_metadata].
End Instruction.

Module Common.
Import LoxiNotations.

Definition bsn_interface : cls := mk_cls "common.bsn_interface"
  []
  [("hw_addr", VInts [0; 0; 0; 0; 0; 0]%Z); ("name", VStr []); ("ipv4_addr", VInt 0);
   ("ipv4_netmask", VInt 0)]
  [p_bytes 6 "hw_addr"; p_zeros 2; p_str 16 "name"; p_int 4 "ipv4_addr"; p_int 4 "ipv4_netmask"]
  t_none None []
  [u_bytes 6 "hw_addr"; u_skip 2; u_str 16 true "name"; u_int 4 "ipv4_addr"; u_int 4 "ipv4_netmask"]
  false
  ["hw_addr"; "name"; "ipv4_addr"; "ipv4_netmask"]
  [q_mac "hw_addr"; q_pp "name"; q_ipv4 "ipv4_addr"; q_ipv4 "ipv4_netmask"].

Definition bsn_vport : cls := mk_cls "common.bsn_vport"
  []
  [("type", VInt 0)]
  [p_int 2 "type"; p_placeholder]
  (t_len 1) (Some (2, 0))
  [1 ⇒ "common.bsn_vport_l2gre"; 0 ⇒ "common.bsn_vport_q_in_q"]
  [u_int 2 "type"; u_slice 4]
  false
  ["type"]
  [].

Definition bsn_vport_l2gre : cls := mk_cls "common.bsn_vport_l2gre"
  ["type" ↦ 1]
  [("flags", VInt 0); ("port_no", VInt 0); ("loopback_port_no", VInt 0);
   ("local_mac", VInts [0; 0; 0; 0; 0; 0]%Z); ("nh_mac", VInts [0; 0; 0; 0; 0; 0]%Z); ("src_ip", VInt 0);
   ("dst_ip", VInt 0); ("dscp", VInt 0); ("ttl", VInt 0); ("vpn", VInt 0); ("rate_limit", VInt 0);
   ("if_name", VStr [])]
  [p_int 2 "type"; p_placeholder; p_int 4 "flags"; p_int 4 "port_no"; p_int 4 "loopback_port_no";
   p_bytes 6 "local_mac"; p_bytes 6 "nh_mac"; p_int 4 "src_ip"; p_int 4 "dst_ip"; p_int 1 "dscp";
   p_int 1 "ttl"; p_zeros 2; p_int 4 "vpn"; p_int 4 "rate_limit"; p_str 16 "if_name"]
  (t_len 1) None []
  [u_check 2 1; u_slice 4; u_int 4 "flags"; u_int 4 "port_no"; u_int 4 "loopback_port_no";
   u_bytes 6 "local_mac"; u_bytes 6 "nh_mac"; u_int 4 "src_ip"; u_int 4 "dst_ip"; u_int 1 "dscp";
   u_int 1 "ttl"; u_skip 2; u_int 4 "vpn"; u_int 4 "rate_limit"; u_str 16 true "if_name"]
  false
  ["flags"; "port_no"; "loopback_port_no"; "local_mac"; "nh_mac"; "src_ip"; "dst_ip"; "dscp"; "ttl";
   "vpn"; "rate_limit"; "if_name"]
  [q_hex "flags"; q_port "port_no"; q_port "loopback_port_no"; q_mac "local_mac"; q_mac "nh_mac";
   q_ipv4 "src_ip"; q_ipv4 "dst_ip"; q_hex "dscp"; q_hex "ttl"; q_hex "vpn"; q_hex "rate_limit";
   q_pp "if_name"].

Definition bsn_vport_q_in_q : cls := mk_cls "common.bsn_vport_q_in_q"
  ["type" ↦ 0]
  [("port_no", VInt 0); ("ingress_tpid", VInt 0); ("ingress_vlan_id", VInt 0); ("egress_tpid", VInt 0);
   ("egress_vlan_id", VInt 0); ("if_name", VStr [])]
  [p_int 2 "type"; p_placeholder; p_int 4 "port_no"; p_int 2 "ingress_tpid"; p_int 2 "ingress_vlan_id";
   p_int 2 "egress_tpid"; p_int 2 "egress_vlan_id"; p_str 16 "if_name"]
  (t_len 1) None []
  [u_check 2 0; u_slice 4; u_int 4 "port_no"; u_int 2 "ingress_tpid"; u_int 2 "ingress_vlan_id";
   u_int 2 "egress_tpid"; u_int 2 "egress_vlan_id"; u_str 16 true "if_name"]
  false
  ["port_no"; "ingress_tpid"; "ingress_vlan_id"; "egress_tpid"; "egress_vlan_id"; "if_name"]
  [q_hex "port_no"; q_hex "ingress_tpid"; q_hex "ingress_vlan_id"; q_hex "egress_tpid";
   q_hex "egress_vlan_id"; q_pp "if_name"].

Definition bucket : cls := mk_cls "common.bucket"
  []
  [("weight", VInt 0); ("watch_port", VInt 0); ("watch_group", VInt 0); ("actions", VList [])]
  [p_placeholder; p_int 2 "weight"; p_int 4 "watch_port"; p_int 4 "watch_group"; p_zeros 4;
   p_list "actions"]
  (t_len 0) None []
  [u_slice 2; u_int 2 "weight"; u_int 4 "watch_port"; u_int 4 "watch_group"; u_skip 4;
   u_list "actions" "action.action"]
  false
  ["weight"; "watch_port"; "watch_group"; "actions"]
  [q_hex "weight"; q_port "watch_port"; q_hex "watch_group"; q_pp "actions"].

Definition bucket_counter : cls := mk_cls "common.bucket_counter"
  []
  [("packet_count", VInt 0); ("byte_count", VInt 0)]
  [p_int 8 "packet_count"; p_int 8 "byte_count"]
  t_none None []
  [u_int 8 "packet_count"; u_int 8 "byte_count"]
  false
  ["packet_count"; "byte_count"]
  [q_hex "packet_count"; q_hex "byte_count"].

Definition match_v2 : cls := mk_cls "common.match_v2"
  ["type" ↦ 0]
  [("in_port", VInt 0); ("wildcards", VInt (1023)); ("eth_src", VInts [0; 0; 0; 0; 0; 0]%Z);
   ("eth_src_mask", VInts [0; 0; 0; 0; 0; 0]%Z); ("eth_dst", VInts [0; 0; 0; 0; 0; 0]%Z);
   ("eth_dst_mask", VInts [0; 0; 0; 0; 0; 0]%Z); ("vlan_vid", VInt 0); ("vlan_pcp", VInt 0);
   ("eth_type", VInt 0); ("ip_dscp", VInt 0); ("ip_proto", VInt 0); ("ipv4_src", VInt 0);
   ("ipv4_src_mask", VInt 0); ("ipv4_dst", VInt 0); ("ipv4_dst_mask", VInt 0); ("tcp_src", VInt 0);
   ("tcp_dst", VInt 0); ("mpls_label", VInt 0); ("mpls_tc", VInt 0); ("metadata", VInt 0);
   ("metadata_mask", VInt 0)]
  [p_int 2 "type"; p_placeholder; p_int 4 "in_port"; p_int 4 "wildcards"; p_bytes 6 "eth_src";
   p_bytes 6 "eth_src_mask"; p_bytes 6 "eth_dst"; p_bytes 6 "eth_dst_mask"; p_int 2 "vlan_vid";
   p_int 1 "vlan_pcp"; p_zeros 1; p_int 2 "eth_type"; p_int 1 "ip_dscp"; p_int 1 "ip_proto";
   p_int 4 "ipv4_src"; p_int 4 "ipv4_src_mask"; p_int 4 "ipv4_dst"; p_int 4 "ipv4_dst_mask";
   p_int 2 "tcp_src"; p_int 2 "tcp_dst"; p_int 4 "mpls_label"; p_int 1 "mpls_tc"; p_zeros 3;
   p_int 8 "metadata"; p_int 8 "metadata_mask"]
  (t_len 1) None []
  [u_check 2 0; u_slice 4; u_int 4 "in_port"; u_int 4 "wildcards"; u_bytes 6 "eth_src";
   u_bytes 6 "eth_src_mask"; u_bytes 6 "eth_dst"; u_bytes 6 "eth_dst_mask"; u_int 2 "vlan_vid";
   u_int 1 "vlan_pcp"; u_skip 1; u_int 2 "eth_type"; u_int 1 "ip_dscp"; u_int 1 "ip_proto";
   u_int 4 "ipv4_src"; u_int 4 "ipv4_src_mask"; u_int 4 "ipv4_dst"; u_int 4 "ipv4_dst_mask";
   u_int 2 "tcp_src"; u_int 2 "tcp_dst"; u_int 4 "mpls_label"; u_int 1 "mpls_tc"; u_skip 3;
   u_int 8 "metadata"; u_int 8 "metadata_mask"]
  false
  ["in_port"; "wildcards"; "eth_src"; "eth_src_mask"; "eth_dst"; "eth_dst_mask"; "vlan_vid"; "vlan_pcp";
   "eth_type"; "ip_dscp"; "ip_proto"; "ipv4_src"; "ipv4_src_mask"; "ipv4_dst"; "ipv4_dst_mask"; "tcp_src";
   "tcp_dst"; "mpls_label"; "mpls_tc"; "metadata"; "metadata_mask"]
  [q_port "in_port"; q_wildcards "wildcards"; q_mac "eth_src"; q_mac "eth_src_mask"; q_mac "eth_dst";
   q_mac "eth_dst_mask"; q_hex "vlan_vid"; q_hex "vlan_pcp"; q_hex "eth_type"; q_hex "ip_dscp";
   q_hex "ip_proto"; q_ipv4 "ipv4_src"; q_ipv4 "ipv4_src_mask"; q_ipv4 "ipv4_dst"; q_ipv4 "ipv4_dst_mask";
   q_hex "tcp_src"; q_hex "tcp_dst"; q_hex "mpls_label"; q_hex "mpls_tc"; q_hex "metadata";
   q_hex "metadata_mask"].

Definition flow_stats_entry : cls := mk_cls "common.flow_stats_entry"
  []
  [("table_id", VInt 0); ("duration_sec", VInt 0); ("duration_nsec", VInt 0); ("priority", VInt 0);
   ("idle_timeout", VInt 0); ("hard_timeout", VInt 0); ("cookie", VInt 0); ("packet_count", VInt 0);
   ("byte_count", VInt 0); ("match", new_object match_v2); ("instructions", VList [])]
  [p_placeholder; p_int 1 "table_id"; p_zeros 1; p_int 4 "duration_sec"; p_int 4 "duration_nsec";
   p_int 2 "priority"; p_int 2 "idle_timeout"; p_int 2 "hard_timeout"; p_zeros 6; p_int 8 "cookie";
   p_int 8 "packet_count"; p_int 8 "byte_count"; p_obj "match"; p_list "instructions"]
  (t_len 0) None []
  [u_slice 2; u_int 1 "table_id"; u_skip 1; u_int 4 "duration_sec"; u_int 4 "duration_nsec";
   u_int 2 "priority"; u_int 2 "idle_timeout"; u_int 2 "hard_timeout"; u_skip 6; u_int 8 "cookie";
   u_int 8 "packet_count"; u_int 8 "byte_count"; u_obj "match" "common.match_v2";
   u_list "instructions" "instruction.instruction"]
  false
  ["table_id"; "duration_sec"; "duration_nsec"; "priority"; "idle_timeout"; "hard_timeout"; "cookie";
   "packet_count"; "byte_count"; "match"; "instructions"]
  [q_hex "table_id"; q_hex "duration_sec"; q_hex "duration_nsec"; q_hex "priority"; q_hex "idle_timeout";
   q_hex "hard_timeout"; q_hex "cookie"; q_hex "packet_count"; q_hex "byte_count"; q_pp "match";
   q_pp "instructions"].

Definition group_desc_stats_entry : cls := mk_cls "common.group_desc_stats_entry"
  []
  [("group_type", VInt 0); ("group_id", VInt 0); ("buckets", VList [])]
  [p_placeholder; p_int 1 "group_type"; p_zeros 1; p_int 4 "group_id"; p_list "buckets"]
  (t_len 0) None []
  [u_slice 2; u_int 1 "group_type"; u_skip 1; u_int 4 "group_id"; u_list "buckets" "common.bucket"]
  false
  ["group_type"; "group_id"; "buckets"]
  [q_hex "group_type"; q_hex "group_id"; q_pp "buckets"].

Definition group_stats_entry : cls := mk_cls "common.group_stats_entry"
  []
  [("group_id", VInt 0); ("ref_count", VInt 0); ("packet_count", VInt 0); ("byte_count", VInt 0);
   ("bucket_stats", VList [])]
  [p_placeholder; p_zeros 2; p_int 4 "group_id"; p_int 4 "ref_count"; p_zeros 4; p_int 8 "packet_count";
   p_int 8 "byte_count"; p_list "bucket_stats"]
  (t_len 0) None []
  [u_slice 2; u_skip 2; u_int 4 "group_id"; u_int 4 "ref_count"; u_skip 4; u_int 8 "packet_count";
   u_int 8 "byte_count"; u_list "bucket_stats" "common.bucket_counter"]
  false
  ["group_id"; "ref_count"; "packet_count"; "byte_count"; "bucket_stats"]
  [q_hex "group_id"; q_hex "ref_count"; q_hex "packet_count"; q_hex "byte_count"; q_pp "bucket_stats"].

Definition packet_queue : cls := mk_cls "common.packet_queue"
  []
  [("queue_id", VInt 0); ("properties", VList [])]
  [p_int 4 "queue_id"; p_placeholder; p_zeros 2; p_list "properties"]
  (t_len 1) None []
  [u_int 4 "queue_id"; u_slice 6; u_skip 2; u_list "properties" "common.queue_prop"]
  false
  ["queue_id"; "properties"]
  [q_hex "queue_id"; q_pp "properties"].

Definition port_desc : cls := mk_cls "common.port_desc"
  []
  [("port_no", VInt 0); ("hw_addr", VInts [0; 0; 0; 0; 0; 0]%Z); ("name", VStr []); ("config", VInt 0);
   ("state", VInt 0); ("curr", VInt 0); ("advertised", VInt 0); ("supported", VInt 0); ("peer", VInt 0);
   ("curr_speed", VInt 0); ("max_speed", VInt 0)]
  [p_int 4 "port_no"; p_zeros 4; p_bytes 6 "hw_addr"; p_zeros 2; p_str 16 "name"; p_int 4 "config";
   p_int 4 "state"; p_int 4 "curr"; p_int 4 "advertised"; p_int 4 "supported"; p_int 4 "peer";
   p_int 4 "curr_speed"; p_int 4 "max_speed"]
  t_none None []
  [u_int 4 "port_no"; u_skip 4; u_bytes 6 "hw_addr"; u_skip 2; u_str 16 true "name"; u_int 4 "config";
   u_int 4 "state"; u_int 4 "curr"; u_int 4 "advertised"; u_int 4 "supported"; u_int 4 "peer";
   u_int 4 "curr_speed"; u_int 4 "max_speed"]
  false
  ["port_no"; "hw_addr"; "name"; "config"; "state"; "curr"; "advertised"; "supported"; "peer";
   "curr_speed"; "max_speed"]
  [q_port "port_no"; q_mac "hw_addr"; q_pp "name"; q_hex "config"; q_hex "state"; q_hex "curr";
   q_hex "advertised"; q_hex "supported"; q_hex "peer"; q_hex "curr_speed"; q_hex "max_speed"].

Definition port_stats_entry : cls := mk_cls "common.port_stats_entry"
  []
  [("port_no", VInt 0); ("rx_packets", VInt 0); ("tx_packets", VInt 0); ("rx_bytes", VInt 0);
   ("tx_bytes", VInt 0); ("rx_dropped", VInt 0); ("tx_dropped", VInt 0); ("rx_errors", VInt 0);
   ("tx_errors", VInt 0); ("rx_frame_err", VInt 0); ("rx_over_err", VInt 0); ("rx_crc_err", VInt 0);
   ("collisions", VInt 0)]
  [p_int 4 "port_no"; p_zeros 4; p_int 8 "rx_packets"; p_int 8 "tx_packets"; p_int 8 "rx_bytes";
   p_int 8 "tx_bytes"; p_int 8 "rx_dropped"; p_int 8 "tx_dropped"; p_int 8 "rx_errors";
   p_int 8 "tx_errors"; p_int 8 "rx_frame_err"; p_int 8 "rx_over_err"; p_int 8 "rx_crc_err";
   p_int 8 "collisions"]
  t_none None []
  [u_int 4 "port_no"; u_skip 4; u_int 8 "rx_packets"; u_int 8 "tx_packets"; u_int 8 "rx_bytes";
   u_int 8 "tx_bytes"; u_int 8 "rx_dropped"; u_int 8 "tx_dropped"; u_int 8 "rx_errors";
   u_int 8 "tx_errors"; u_int 8 "rx_frame_err"; u_int 8 "rx_over_err"; u_int 8 "rx_crc_err";
   u_int 8 "collisions"]
  false
  ["port_no"; "rx_packets"; "tx_packets"; "rx_bytes"; "tx_bytes"; "rx_dropped"; "tx_dropped"; "rx_errors";
   "tx_errors"; "rx_frame_err"; "rx_over_err"; "rx_crc_err"; "collisions"]
  [q_port "port_no"; q_hex "rx_packets"; q_hex "tx_packets"; q_hex "rx_bytes"; q_hex "tx_bytes";
   q_hex "rx_dropped"; q_hex "tx_dropped"; q_hex "rx_errors"; q_hex "tx_errors"; q_hex "rx_frame_err";
   q_hex "rx_over_err"; q_hex "rx_crc_err"; q_hex "collisions"].

Definition queue_prop : cls := mk_cls "common.queue_prop"
  []
  [("type", VInt 0)]
  [p_int 2 "type"; p_placeholder; p_zeros 4]
  (t_len 1) (Some (2, 0))
  [1 ⇒ "common.queue_prop_min_rate"]
  [u_int 2 "type"; u_slice 4; u_skip 4]
  false
  ["type"]
  [].

Definition queue_prop_min_rate : cls := mk_cls "common.queue_prop_min_rate"
  ["type" ↦ 1]
  [("rate", VInt 0)]
  [p_int 2 "type"; p_placeholder; p_zeros 4; p_int 2 "rate"; p_zeros 6]
  (t_len 1) None []
  [u_check 2 1; u_slice 4; u_skip 4; u_int 2 "rate"; u_skip 6]
  false
  ["rate"]
  [q_hex "rate"].

Definition queue_stats_entry : cls := mk_cls "common.queue_stats_entry"
  []
  [("port_no", VInt 0); ("queue_id", VInt 0); ("tx_bytes", VInt 0); ("tx_packets", VInt 0);
   ("tx_errors", VInt 0)]
  [p_int 4 "port_no"; p_int 4 "queue_id"; p_int 8 "tx_bytes"; p_int 8 "tx_packets"; p_int 8 "tx_errors"]
  t_none None []
  [u_int 4 "port_no"; u_int 4 "queue_id"; u_int 8 "tx_bytes"; u_int 8 "tx_packets"; u_int 8 "tx_errors"]
  false
  ["port_no"; "queue_id"; "tx_bytes"; "tx_packets"; "tx_errors"]
  [q_port "port_no"; q_hex "queue_id"; q_hex "tx_bytes"; q_hex "tx_packets"; q_hex "tx_errors"].

Definition table_stats_entry : cls := mk_cls "common.table_stats_entry"
  []
  [("table_id", VInt 0); ("name", VStr []); ("wildcards", VInt (1023)); ("match", VInt (1023));
   ("instructions", VInt 0); ("write_actions", VInt 0); ("apply_actions", VInt 0); ("config", VInt 0);
   ("max_entries", VInt 0); ("active_count", VInt 0); ("lookup_count", VInt 0); ("matched_count", VInt 0)]
  [p_int 1 "table_id"; p_zeros 7; p_str 32 "name"; p_int 4 "wildcards"; p_int 4 "match";
   p_int 4 "instructions"; p_int 4 "write_actions"; p_int 4 "apply_actions"; p_int 4 "config";
   p_int 4 "max_entries"; p_int 4 "active_count"; p_int 8 "lookup_count"; p_int 8 "matched_count"]
  t_none None []
  [u_int 1 "table_id"; u_skip 7; u_str 32 true "name"; u_int 4 "wildcards"; u_int 4 "match";
   u_int 4 "instructions"; u_int 4 "write_actions"; u_int 4 "apply_actions"; u_int 4 "config";
   u_int 4 "max_entries"; u_int 4 "active_count"; u_int 8 "lookup_count"; u_int 8 "matched_count"]
  false
  ["table_id"; "name"; "wildcards"; "match"; "instructions"; "write_actions"; "apply_actions"; "config";
   "max_entries"; "active_count"; "lookup_count"; "matched_count"]
  [q_hex "table_id"; q_pp "name"; q_wildcards "wildcards"; q_pp "match"; q_hex "instructions";
   q_hex "write_actions"; q_hex "apply_actions"; q_hex "config"; q_hex "max_entries";
   q_hex "active_count"; q_hex "lookup_count"; q_hex "matched_count"].

Definition classes : list cls :=
  [bsn_interface; bsn_vport; bsn_vport_l2gre; bsn_vport_q_in_q; bucket; bucket_counter; match_v2;
   flow_stats_entry; group_desc_stats_entry; group_stats_entry; packet_queue; port_desc; port_stats_entry;
   queue_prop; queue_prop_min_rate; queue_stats_entry; table_stats_entry].
End Common.
