(* ===== verification/Of11Message.v ===== *)
(** * OpenFlow 1.1: messages (of11/message.py)

    One definition per class of the generated bindings, with the statements of its
    methods; see LoxiWire for what they mean. *)

From Stdlib Require Import Strings.Byte.
From stdpp Require Import prelude strings list.
From S2P Require Import Prelude LoxiWire LoxiSpec LoxiEqual LoxiMessage Of11Common.

Module Message.
Import LoxiNotations.

Definition message : cls := mk_cls "message.message"
  ["version" ↦ 2]
  [("type", VInt 0); ("xid", VNone)]
  [p_int 1 "version"; p_int 1 "type"; p_placeholder; p_int 4 "xid"]
  (t_len 2) (Some (1, 1))
  [19 ⇒ "message.stats_reply"; 18 ⇒ "message.stats_request"; 1 ⇒ "message.error_msg";
   21 ⇒ "message.barrier_reply"; 20 ⇒ "message.barrier_request"; 4 ⇒ "message.experimenter";
   3 ⇒ "message.echo_reply"; 2 ⇒ "message.echo_request"; 6 ⇒ "message.features_reply";
   5 ⇒ "message.features_request"; 14 ⇒ "message.flow_mod"; 11 ⇒ "message.flow_removed";
   8 ⇒ "message.get_config_reply"; 7 ⇒ "message.get_config_request"; 15 ⇒ "message.group_mod";
   0 ⇒ "message.hello"; 10 ⇒ "message.packet_in"; 13 ⇒ "message.packet_out"; 16 ⇒ "message.port_mod";
   12 ⇒ "message.port_status"; 23 ⇒ "message.queue_get_config_reply";
   22 ⇒ "message.queue_get_config_request"; 9 ⇒ "message.set_config"; 17 ⇒ "message.table_mod"]
  [u_check 1 2; u_int 1 "type"; u_slice 4; u_int 4 "xid"]
  false
  ["type"; "xid"]
  [q_hex_or_none "xid"].

Definition stats_reply : cls := mk_cls "message.stats_reply"
  ["version" ↦ 2; "type" ↦ 19]
  [("xid", VNone); ("stats_type", VInt 0); ("flags", VInt 0)]
  [p_int 1 "version"; p_int 1 "type"; p_placeholder; p_int 4 "xid"; p_int 2 "stats_type"; p_int 2 "flags";
   p_zeros 4]
  (t_len 2) (Some (2, 8))
  [2 ⇒ "message.aggregate_stats_reply"; 65535 ⇒ "message.experimenter_stats_reply";
   0 ⇒ "message.desc_stats_reply"; 1 ⇒ "message.flow_stats_reply"; 7 ⇒ "message.group_desc_stats_reply";
   6 ⇒ "message.group_stats_reply"; 4 ⇒ "message.port_stats_reply"; 5 ⇒ "message.queue_stats_reply";
   3 ⇒ "message.table_stats_reply"]
  [u_check 1 2; u_check 1 19; u_slice 4; u_int 4 "xid"; u_int 2 "stats_type"; u_int 2 "flags"; u_skip 4]
  false
  ["xid"; "stats_type"; "flags"]
  [q_hex_or_none "xid"; q_hex "flags"].

Definition aggregate_stats_reply : cls := mk_cls "message.aggregate_stats_reply"
  ["version" ↦ 2; "type" ↦ 19; "stats_type" ↦ 2]
  [("xid", VNone); ("flags", VInt 0); ("packet_count", VInt 0); ("byte_count", VInt 0);
   ("flow_count", VInt 0)]
  [p_int 1 "version"; p_int 1 "type"; p_placeholder; p_int 4 "xid"; p_int 2 "stats_type"; p_int 2 "flags";
   p_zeros 4; p_int 8 "packet_count"; p_int 8 "byte_count"; p_int 4 "flow_count"; p_zeros 4]
  (t_len 2) None []
  [u_check 1 2; u_check 1 19; u_slice 4; u_int 4 "xid"; u_check 2 2; u_int 2 "flags"; u_skip 4;
   u_int 8 "packet_count"; u_int 8 "byte_count"; u_int 4 "flow_count"; u_skip 4]
  false
  ["xid"; "flags"; "packet_count"; "byte_count"; "flow_count"]
  [q_hex_or_none "xid"; q_hex "flags"; q_hex "packet_count"; q_hex "byte_count"; q_hex "flow_count"].

Definition stats_request : cls := mk_cls "message.stats_request"
  ["version" ↦ 2; "type" ↦ 18]
  [("xid", VNone); ("stats_type", VInt 0); ("flags", VInt 0)]
  [p_int 1 "version"; p_int 1 "type"; p_placeholder; p_int 4 "xid"; p_int 2 "stats_type"; p_int 2 "flags";
   p_zeros 4]
  (t_len 2) (Some (2, 8))
  [2 ⇒ "message.aggregate_stats_request"; 65535 ⇒ "message.experimenter_stats_request";
   0 ⇒ "message.desc_stats_request"; 1 ⇒ "message.flow_stats_request";
   7 ⇒ "message.group_desc_stats_request"; 6 ⇒ "message.group_stats_request";
   4 ⇒ "message.port_stats_request"; 5 ⇒ "message.queue_stats_request"; 3 ⇒ "message.table_stats_request"]
  [u_check 1 2; u_check 1 18; u_slice 4; u_int 4 "xid"; u_int 2 "stats_type"; u_int 2 "flags"; u_skip 4]
  false
  ["xid"; "stats_type"; "flags"]
  [q_hex_or_none "xid"; q_hex "flags"].

Definition aggregate_stats_request : cls := mk_cls "message.aggregate_stats_request"
  ["version" ↦ 2; "type" ↦ 18; "stats_type" ↦ 2]
  [("xid", VNone); ("flags", VInt 0); ("table_id", VInt 0); ("out_port", VInt 0); ("out_group", VInt 0);
   ("cookie", VInt 0); ("cookie_mask", VInt 0); ("match", new_object Common.match_v2)]
  [p_int 1 "version"; p_int 1 "type"; p_placeholder; p_int 4 "xid"; p_int 2 "stats_type"; p_int 2 "flags";
   p_zeros 4; p_int 1 "table_id"; p_zeros 3; p_int 4 "out_port"; p_int 4 "out_group"; p_zeros 4;
   p_int 8 "cookie"; p_int 8 "cookie_mask"; p_obj "match"]
  (t_len 2) None []
  [u_check 1 2; u_check 1 18; u_slice 4; u_int 4 "xid"; u_check 2 2; u_int 2 "flags"; u_skip 4;
   u_int 1 "table_id"; u_skip 3; u_int 4 "out_port"; u_int 4 "out_group"; u_skip 4; u_int 8 "cookie";
   u_int 8 "cookie_mask"; u_obj "match" "common.match_v2"]
  false
  ["xid"; "flags"; "table_id"; "out_port"; "out_group"; "cookie"; "cookie_mask"; "match"]
  [q_hex_or_none "xid"; q_hex "flags"; q_hex "table_id"; q_port "out_port"; q_hex "out_group";
   q_hex "cookie"; q_hex "cookie_mask"; q_pp "match"].

Definition error_msg : cls := mk_cls "message.error_msg"
  ["version" ↦ 2; "type" ↦ 1]
  [("xid", VNone); ("err_type", VInt 0)]
  [p_int 1 "version"; p_int 1 "type"; p_placeholder; p_int 4 "xid"; p_int 2 "err_type"]
  (t_len 2) (Some (2, 8))
  [2 ⇒ "message.bad_action_error_msg"; 3 ⇒ "message.bad_instruction_error_msg";
   4 ⇒ "message.bad_match_error_msg"; 1 ⇒ "message.bad_request_error_msg";
   5 ⇒ "message.flow_mod_failed_error_msg"; 6 ⇒ "message.group_mod_failed_error_msg";
   0 ⇒ "message.hello_failed_error_msg"; 7 ⇒ "message.port_mod_failed_error_msg";
   9 ⇒ "message.queue_op_failed_error_msg"; 10 ⇒ "message.switch_config_failed_error_msg";
   8 ⇒ "message.table_mod_failed_error_msg"]
  [u_check 1 2; u_check 1 1; u_slice 4; u_int 4 "xid"; u_int 2 "err_type"]
  false
  ["xid"; "err_type"]
  [q_hex_or_none "xid"].

Definition bad_action_error_msg : cls := mk_cls "message.bad_action_error_msg"
  ["version" ↦ 2; "type" ↦ 1; "err_type" ↦ 2]
  [("xid", VNone); ("code", VInt 0); ("data", VStr [])]
  [p_int 1 "version"; p_int 1 "type"; p_placeholder; p_int 4 "xid"; p_int 2 "err_type"; p_int 2 "code";
   p_raw "data"]
  (t_len 2) None []
  [u_check 1 2; u_check 1 1; u_slice 4; u_int 4 "xid"; u_check 2 2; u_int 2 "code"; u_rest "data"]
  false
  ["xid"; "code"; "data"]
  [q_hex_or_none "xid"; q_hex "code"; q_pp "data"].

Definition bad_instruction_error_msg : cls := mk_cls "message.bad_instruction_error_msg"
  ["version" ↦ 2; "type" ↦ 1; "err_type" ↦ 3]
  [("xid", VNone); ("code", VInt 0); ("data", VStr [])]
  [p_int 1 "version"; p_int 1 "type"; p_placeholder; p_int 4 "xid"; p_int 2 "err_type"; p_int 2 "code";
   p_raw "data"]
  (t_len 2) None []
  [u_check 1 2; u_check 1 1; u_slice 4; u_int 4 "xid"; u_check 2 3; u_int 2 "code"; u_rest "data"]
  false
  ["xid"; "code"; "data"]
  [q_hex_or_none "xid"; q_hex "code"; q_pp "data"].

Definition bad_match_error_msg : cls := mk_cls "message.bad_match_error_msg"
  ["version" ↦ 2; "type" ↦ 1; "err_type" ↦ 4]
  [("xid", VNone); ("code", VInt 0); ("data", VStr [])]
  [p_int 1 "version"; p_int 1 "type"; p_placeholder; p_int 4 "xid"; p_int 2 "err_type"; p_int 2 "code";
   p_raw "data"]
  (t_len 2) None []
  [u_check 1 2; u_check 1 1; u_slice 4; u_int 4 "xid"; u_check 2 4; u_int 2 "code"; u_rest "data"]
  false
  ["xid"; "code"; "data"]
  [q_hex_or_none "xid"; q_hex "code"; q_pp "data"].

Definition bad_request_error_msg : cls := mk_cls "message.bad_request_error_msg"
  ["version" ↦ 2; "type" ↦ 1; "err_type" ↦ 1]
  [("xid", VNone); ("code", VInt 0); ("data", VStr [])]
  [p_int 1 "version"; p_int 1 "type"; p_placeholder; p_int 4 "xid"; p_int 2 "err_type"; p_int 2 "code";
   p_raw "data"]
  (t_len 2) None []
  [u_check 1 2; u_check 1 1; u_slice 4; u_int 4 "xid"; u_check 2 1; u_int 2 "code"; u_rest "data"]
  false
  ["xid"; "code"; "data"]
  [q_hex_or_none "xid"; q_hex "code"; q_pp "data"].

Definition barrier_reply : cls := mk_cls "message.barrier_reply"
  ["version" ↦ 2; "type" ↦ 21]
  [("xid", VNone)]
  [p_int 1 "version"; p_int 1 "type"; p_placeholder; p_int 4 "xid"]
  (t_len 2) None []
  [u_check 1 2; u_check 1 21; u_slice 4; u_int 4 "xid"]
  false
  ["xid"]
  [q_hex_or_none "xid"].

Definition barrier_request : cls := mk_cls "message.barrier_request"
  ["version" ↦ 2; "type" ↦ 20]
  [("xid", VNone)]
  [p_int 1 "version"; p_int 1 "type"; p_placeholder; p_int 4 "xid"]
  (t_len 2) None []
  [u_check 1 2; u_check 1 20; u_slice 4; u_int 4 "xid"]
  false
  ["xid"]
  [q_hex_or_none "xid"].

Definition experimenter : cls := mk_cls "message.experimenter"
  ["version" ↦ 2; "type" ↦ 4]
  [("xid", VNone); ("experimenter", VInt 0); ("data", VStr [])]
  [p_int 1 "version"; p_int 1 "type"; p_placeholder; p_int 4 "xid"; p_int 4 "experimenter"; p_raw "data"]
  (t_len 2) (Some (4, 8))
  [6035143 ⇒ "message.bsn_header"; 8992 ⇒ "message.nicira_header"]
  [u_check 1 2; u_check 1 4; u_slice 4; u_int 4 "xid"; u_int 4 "experimenter"; u_rest "data"]
  false
  ["xid"; "experimenter"; "data"]
  [q_hex_or_none "xid"; q_pp "data"].

Definition bsn_header : cls := mk_cls "message.bsn_header"
  ["version" ↦ 2; "type" ↦ 4; "experimenter" ↦ 6035143]
  [("xid", VNone); ("subtype", VInt 0)]
  [p_int 1 "version"; p_int 1 "type"; p_placeholder; p_int 4 "xid"; p_int 4 "experimenter";
   p_int 4 "subtype"]
  (t_len 2) (Some (4, 12))
  [22 ⇒ "message.bsn_bw_clear_data_reply"; 21 ⇒ "message.bsn_bw_clear_data_request";
   20 ⇒ "message.bsn_bw_enable_get_reply"; 19 ⇒ "message.bsn_bw_enable_get_request";
   23 ⇒ "message.bsn_bw_enable_set_reply"; 18 ⇒ "message.bsn_bw_enable_set_request";
   10 ⇒ "message.bsn_get_interfaces_reply"; 9 ⇒ "message.bsn_get_interfaces_request";
   5 ⇒ "message.bsn_get_mirroring_reply"; 4 ⇒ "message.bsn_get_mirroring_request";
   34 ⇒ "message.bsn_pdu_rx_reply"; 33 ⇒ "message.bsn_pdu_rx_request"; 35 ⇒ "message.bsn_pdu_rx_timeout";
   32 ⇒ "message.bsn_pdu_tx_reply"; 31 ⇒ "message.bsn_pdu_tx_request"; 3 ⇒ "message.bsn_set_mirroring";
   25 ⇒ "message.bsn_set_pktin_suppression_reply"; 11 ⇒ "message.bsn_set_pktin_suppression_request";
   16 ⇒ "message.bsn_virtual_port_create_reply"; 15 ⇒ "message.bsn_virtual_port_create_request";
   26 ⇒ "message.bsn_virtual_port_remove_reply"; 17 ⇒ "message.bsn_virtual_port_remove_request"]
  [u_check 1 2; u_check 1 4; u_slice 4; u_int 4 "xid"; u_check 4 6035143; u_int 4 "subtype"]
  false
  ["xid"; "subtype"]
  [q_hex_or_none "xid"].

Definition bsn_bw_clear_data_reply : cls := mk_cls "message.bsn_bw_clear_data_reply"
  ["version" ↦ 2; "type" ↦ 4; "experimenter" ↦ 6035143; "subtype" ↦ 22]
  [("xid", VNone); ("status", VInt 0)]
  [p_int 1 "version"; p_int 1 "type"; p_placeholder; p_int 4 "xid"; p_int 4 "experimenter";
   p_int 4 "subtype"; p_int 4 "status"]
  (t_len 2) None []
  [u_check 1 2; u_check 1 4; u_slice 4; u_int 4 "xid"; u_check 4 6035143; u_check 4 22; u_int 4 "status"]
  false
  ["xid"; "status"]
  [q_hex_or_none "xid"; q_hex "status"].

Definition bsn_bw_clear_data_request : cls := mk_cls "message.bsn_bw_clear_data_request"
  ["version" ↦ 2; "type" ↦ 4; "experimenter" ↦ 6035143; "subtype" ↦ 21]
  [("xid", VNone)]
  [p_int 1 "version"; p_int 1 "type"; p_placeholder; p_int 4 "xid"; p_int 4 "experimenter";
   p_int 4 "subtype"]
  (t_len 2) None []
  [u_check 1 2; u_check 1 4; u_slice 4; u_int 4 "xid"; u_check 4 6035143; u_check 4 21]
  false
  ["xid"]
  [q_hex_or_none "xid"].

Definition bsn_bw_enable_get_reply : cls := mk_cls "message.bsn_bw_enable_get_reply"
  ["version" ↦ 2; "type" ↦ 4; "experimenter" ↦ 6035143; "subtype" ↦ 20]
  [("xid", VNone); ("enabled", VInt 0)]
  [p_int 1 "version"; p_int 1 "type"; p_placeholder; p_int 4 "xid"; p_int 4 "experimenter";
   p_int 4 "subtype"; p_int 4 "enabled"]
  (t_len 2) None []
  [u_check 1 2; u_check 1 4; u_slice 4; u_int 4 "xid"; u_check 4 6035143; u_check 4 20; u_int 4 "enabled"]
  false
  ["xid"; "enabled"]
  [q_hex_or_none "xid"; q_hex "enabled"].

Definition bsn_bw_enable_get_request : cls := mk_cls "message.bsn_bw_enable_get_request"
  ["version" ↦ 2; "type" ↦ 4; "experimenter" ↦ 6035143; "subtype" ↦ 19]
  [("xid", VNone)]
  [p_int 1 "version"; p_int 1 "type"; p_placeholder; p_int 4 "xid"; p_int 4 "experimenter";
   p_int 4 "subtype"]
  (t_len 2) None []
  [u_check 1 2; u_check 1 4; u_slice 4; u_int 4 "xid"; u_check 4 6035143; u_check 4 19]
  false
  ["xid"]
  [q_hex_or_none "xid"].

Definition bsn_bw_enable_set_reply : cls := mk_cls "message.bsn_bw_enable_set_reply"
  ["version" ↦ 2; "type" ↦ 4; "experimenter" ↦ 6035143; "subtype" ↦ 23]
  [("xid", VNone); ("enable", VInt 0); ("status", VInt 0)]
  [p_int 1 "version"; p_int 1 "type"; p_placeholder; p_int 4 "xid"; p_int 4 "experimenter";
   p_int 4 "subtype"; p_int 4 "enable"; p_int 4 "status"]
  (t_len 2) None []
  [u_check 1 2; u_check 1 4; u_slice 4; u_int 4 "xid"; u_check 4 6035143; u_check 4 23; u_int 4 "enable";
   u_int 4 "status"]
  false
  ["xid"; "enable"; "status"]
  [q_hex_or_none "xid"; q_hex "enable"; q_hex "status"].

Definition bsn_bw_enable_set_request : cls := mk_cls "message.bsn_bw_enable_set_request"
  ["version" ↦ 2; "type" ↦ 4; "experimenter" ↦ 6035143; "subtype" ↦ 18]
  [("xid", VNone); ("enable", VInt 0)]
  [p_int 1 "version"; p_int 1 "type"; p_placeholder; p_int 4 "xid"; p_int 4 "experimenter";
   p_int 4 "subtype"; p_int 4 "enable"]
  (t_len 2) None []
  [u_check 1 2; u_check 1 4; u_slice 4; u_int 4 "xid"; u_check 4 6035143; u_check 4 18; u_int 4 "enable"]
  false
  ["xid"; "enable"]
  [q_hex_or_none "xid"; q_hex "enable"].

Definition bsn_get_interfaces_reply : cls := mk_cls "message.bsn_get_interfaces_reply"
  ["version" ↦ 2; "type" ↦ 4; "experimenter" ↦ 6035143; "subtype" ↦ 10]
  [("xid", VNone); ("interfaces", VList [])]
  [p_int 1 "version"; p_int 1 "type"; p_placeholder; p_int 4 "xid"; p_int 4 "experimenter";
   p_int 4 "subtype"; p_list "interfaces"]
  (t_len 2) None []
  [u_check 1 2; u_check 1 4; u_slice 4; u_int 4 "xid"; u_check 4 6035143; u_check 4 10;
   u_list "interfaces" "common.bsn_interface"]
  false
  ["xid"; "interfaces"]
  [q_hex_or_none "xid"; q_pp "interfaces"].

Definition bsn_get_interfaces_request : cls := mk_cls "message.bsn_get_interfaces_request"
  ["version" ↦ 2; "type" ↦ 4; "experimenter" ↦ 6035143; "subtype" ↦ 9]
  [("xid", VNone)]
  [p_int 1 "version"; p_int 1 "type"; p_placeholder; p_int 4 "xid"; p_int 4 "experimenter";
   p_int 4 "subtype"]
  (t_len 2) None []
  [u_check 1 2; u_check 1 4; u_slice 4; u_int 4 "xid"; u_check 4 6035143; u_check 4 9]
  false
  ["xid"]
  [q_hex_or_none "xid"].

Definition bsn_get_mirroring_reply : cls := mk_cls "message.bsn_get_mirroring_reply"
  ["version" ↦ 2; "type" ↦ 4; "experimenter" ↦ 6035143; "subtype" ↦ 5]
  [("xid", VNone); ("report_mirror_ports", VInt 0)]
  [p_int 1 "version"; p_int 1 "type"; p_placeholder; p_int 4 "xid"; p_int 4 "experimenter";
   p_int 4 "subtype"; p_int 1 "report_mirror_ports"; p_zeros 3]
  (t_len 2) None []
  [u_check 1 2; u_check 1 4; u_slice 4; u_int 4 "xid"; u_check 4 6035143; u_check 4 5;
   u_int 1 "report_mirror_ports"; u_skip 3]
  false
  ["xid"; "report_mirror_ports"]
  [q_hex_or_none "xid"; q_hex "report_mirror_ports"].

Definition bsn_get_mirroring_request : cls := mk_cls "message.bsn_get_mirroring_request"
  ["version" ↦ 2; "type" ↦ 4; "experimenter" ↦ 6035143; "subtype" ↦ 4]
  [("xid", VNone); ("report_mirror_ports", VInt 0)]
  [p_int 1 "version"; p_int 1 "type"; p_placeholder; p_int 4 "xid"; p_int 4 "experimenter";
   p_int 4 "subtype"; p_int 1 "report_mirror_ports"; p_zeros 3]
  (t_len 2) None []
  [u_check 1 2; u_check 1 4; u_slice 4; u_int 4 "xid"; u_check 4 6035143; u_check 4 4;
   u_int 1 "report_mirror_ports"; u_skip 3]
  false
  ["xid"; "report_mirror_ports"]
  [q_hex_or_none "xid"; q_hex "report_mirror_ports"].

Definition bsn_pdu_rx_reply : cls := mk_cls "message.bsn_pdu_rx_reply"
  ["version" ↦ 2; "type" ↦ 4; "experimenter" ↦ 6035143; "subtype" ↦ 34]
  [("xid", VNone); ("status", VInt 0); ("port_no", VInt 0); ("slot_num", VInt 0)]
  [p_int 1 "version"; p_int 1 "type"; p_placeholder; p_int 4 "xid"; p_int 4 "experimenter";
   p_int 4 "subtype"; p_int 4 "status"; p_int 4 "port_no"; p_int 1 "slot_num"]
  (t_len 2) None []
  [u_check 1 2; u_check 1 4; u_slice 4; u_int 4 "xid"; u_check 4 6035143; u_check 4 34; u_int 4 "status";
   u_int 4 "port_no"; u_int 1 "slot_num"]
  false
  ["xid"; "status"; "port_no"; "slot_num"]
  [q_hex_or_none "xid"; q_hex "status"; q_port "port_no"; q_hex "slot_num"].

Definition bsn_pdu_rx_request : cls := mk_cls "message.bsn_pdu_rx_request"
  ["version" ↦ 2; "type" ↦ 4; "experimenter" ↦ 6035143; "subtype" ↦ 33]
  [("xid", VNone); ("timeout_ms", VInt 0); ("port_no", VInt 0); ("slot_num", VInt 0); ("data", VStr [])]
  [p_int 1 "version"; p_int 1 "type"; p_placeholder; p_int 4 "xid"; p_int 4 "experimenter";
   p_int 4 "subtype"; p_int 4 "timeout_ms"; p_int 4 "port_no"; p_int 1 "slot_num"; p_zeros 3;
   p_raw "data"]
  (t_len 2) None []
  [u_check 1 2; u_check 1 4; u_slice 4; u_int 4 "xid"; u_check 4 6035143; u_check 4 33;
   u_int 4 "timeout_ms"; u_int 4 "port_no"; u_int 1 "slot_num"; u_skip 3; u_rest "data"]
  false
  ["xid"; "timeout_ms"; "port_no"; "slot_num"; "data"]
  [q_hex_or_none "xid"; q_hex "timeout_ms"; q_port "port_no"; q_hex "slot_num"; q_pp "data"].

Definition bsn_pdu_rx_timeout : cls := mk_cls "message.bsn_pdu_rx_timeout"
  ["version" ↦ 2; "type" ↦ 4; "experimenter" ↦ 6035143; "subtype" ↦ 35]
  [("xid", VNone); ("port_no", VInt 0); ("slot_num", VInt 0)]
  [p_int 1 "version"; p_int 1 "type"; p_placeholder; p_int 4 "xid"; p_int 4 "experimenter";
   p_int 4 "subtype"; p_int 4 "port_no"; p_int 1 "slot_num"]
  (t_len 2) None []
  [u_check 1 2; u_check 1 4; u_slice 4; u_int 4 "xid"; u_check 4 6035143; u_check 4 35; u_int 4 "port_no";
   u_int 1 "slot_num"]
  false
  ["xid"; "port_no"; "slot_num"]
  [q_hex_or_none "xid"; q_port "port_no"; q_hex "slot_num"].

Definition bsn_pdu_tx_reply : cls := mk_cls "message.bsn_pdu_tx_reply"
  ["version" ↦ 2; "type" ↦ 4; "experimenter" ↦ 6035143; "subtype" ↦ 32]
  [("xid", VNone); ("status", VInt 0); ("port_no", VInt 0); ("slot_num", VInt 0)]
  [p_int 1 "version"; p_int 1 "type"; p_placeholder; p_int 4 "xid"; p_int 4 "experimenter";
   p_int 4 "subtype"; p_int 4 "status"; p_int 4 "port_no"; p_int 1 "slot_num"]
  (t_len 2) None []
  [u_check 1 2; u_check 1 4; u_slice 4; u_int 4 "xid"; u_check 4 6035143; u_check 4 32; u_int 4 "status";
   u_int 4 "port_no"; u_int 1 "slot_num"]
  false
  ["xid"; "status"; "port_no"; "slot_num"]
  [q_hex_or_none "xid"; q_hex "status"; q_port "port_no"; q_hex "slot_num"].

Definition bsn_pdu_tx_request : cls := mk_cls "message.bsn_pdu_tx_request"
  ["version" ↦ 2; "type" ↦ 4; "experimenter" ↦ 6035143; "subtype" ↦ 31]
  [("xid", VNone); ("tx_interval_ms", VInt 0); ("port_no", VInt 0); ("slot_num", VInt 0);
   ("data", VStr [])]
  [p_int 1 "version"; p_int 1 "type"; p_placeholder; p_int 4 "xid"; p_int 4 "experimenter";
   p_int 4 "subtype"; p_int 4 "tx_interval_ms"; p_int 4 "port_no"; p_int 1 "slot_num"; p_zeros 3;
   p_raw "data"]
  (t_len 2) None []
  [u_check 1 2; u_check 1 4; u_slice 4; u_int 4 "xid"; u_check 4 6035143; u_check 4 31;
   u_int 4 "tx_interval_ms"; u_int 4 "port_no"; u_int 1 "slot_num"; u_skip 3; u_rest "data"]
  false
  ["xid"; "tx_interval_ms"; "port_no"; "slot_num"; "data"]
  [q_hex_or_none "xid"; q_hex "tx_interval_ms"; q_port "port_no"; q_hex "slot_num"; q_pp "data"].

Definition bsn_set_mirroring : cls := mk_cls "message.bsn_set_mirroring"
  ["version" ↦ 2; "type" ↦ 4; "experimenter" ↦ 6035143; "subtype" ↦ 3]
  [("xid", VNone); ("report_mirror_ports", VInt 0)]
  [p_int 1 "version"; p_int 1 "type"; p_placeholder; p_int 4 "xid"; p_int 4 "experimenter";
   p_int 4 "subtype"; p_int 1 "report_mirror_ports"; p_zeros 3]
  (t_len 2) None []
  [u_check 1 2; u_check 1 4; u_slice 4; u_int 4 "xid"; u_check 4 6035143; u_check 4 3;
   u_int 1 "report_mirror_ports"; u_skip 3]
  false
  ["xid"; "report_mirror_ports"]
  [q_hex_or_none "xid"; q_hex "report_mirror_ports"].

Definition bsn_set_pktin_suppression_reply : cls := mk_cls "message.bsn_set_pktin_suppression_reply"
  ["version" ↦ 2; "type" ↦ 4; "experimenter" ↦ 6035143; "subtype" ↦ 25]
  [("xid", VNone); ("status", VInt 0)]
  [p_int 1 "version"; p_int 1 "type"; p_placeholder; p_int 4 "xid"; p_int 4 "experimenter";
   p_int 4 "subtype"; p_int 4 "status"]
  (t_len 2) None []
  [u_check 1 2; u_check 1 4; u_slice 4; u_int 4 "xid"; u_check 4 6035143; u_check 4 25; u_int 4 "status"]
  false
  ["xid"; "status"]
  [q_hex_or_none "xid"; q_hex "status"].

Definition bsn_set_pktin_suppression_request : cls := mk_cls "message.bsn_set_pktin_suppression_request"
  ["version" ↦ 2; "type" ↦ 4; "experimenter" ↦ 6035143; "subtype" ↦ 11]
  [("xid", VNone); ("enabled", VInt 0); ("idle_timeout", VInt 0); ("hard_timeout", VInt 0);
   ("priority", VInt 0); ("cookie", VInt 0)]
  [p_int 1 "version"; p_int 1 "type"; p_placeholder; p_int 4 "xid"; p_int 4 "experimenter";
   p_int 4 "subtype"; p_int 1 "enabled"; p_zeros 1; p_int 2 "idle_timeout"; p_int 2 "hard_timeout";
   p_int 2 "priority"; p_int 8 "cookie"]
  (t_len 2) None []
  [u_check 1 2; u_check 1 4; u_slice 4; u_int 4 "xid"; u_check 4 6035143; u_check 4 11; u_int 1 "enabled";
   u_skip 1; u_int 2 "idle_timeout"; u_int 2 "hard_timeout"; u_int 2 "priority"; u_int 8 "cookie"]
  false
  ["xid"; "enabled"; "idle_timeout"; "hard_timeout"; "priority"; "cookie"]
  [q_hex_or_none "xid"; q_hex "enabled"; q_hex "idle_timeout"; q_hex "hard_timeout"; q_hex "priority";
   q_hex "cookie"].

Definition experimenter_stats_reply : cls := mk_cls "message.experimenter_stats_reply"
  ["version" ↦ 2; "type" ↦ 19; "stats_type" ↦ 65535]
  [("xid", VNone); ("flags", VInt 0); ("experimenter", VInt 0); ("data", VStr [])]
  [p_int 1 "version"; p_int 1 "type"; p_placeholder; p_int 4 "xid"; p_int 2 "stats_type"; p_int 2 "flags";
   p_zeros 4; p_int 4 "experimenter"; p_zeros 4; p_raw "data"]
  (t_len 2) (Some (4, 16))
  [6035143 ⇒ "message.bsn_stats_reply"]
  [u_check 1 2; u_check 1 19; u_slice 4; u_int 4 "xid"; u_check 2 65535; u_int 2 "flags"; u_skip 4;
   u_int 4 "experimenter"; u_skip 4; u_rest "data"]
  false
  ["xid"; "flags"; "experimenter"; "data"]
  [q_hex_or_none "xid"; q_hex "flags"; q_pp "data"].

Definition bsn_stats_reply : cls := mk_cls "message.bsn_stats_reply"
  ["version" ↦ 2; "type" ↦ 19; "stats_type" ↦ 65535; "experimenter" ↦ 6035143]
  [("xid", VNone); ("flags", VInt 0); ("subtype", VInt 0)]
  [p_int 1 "version"; p_int 1 "type"; p_placeholder; p_int 4 "xid"; p_int 2 "stats_type"; p_int 2 "flags";
   p_zeros 4; p_int 4 "experimenter"; p_int 4 "subtype"]
  (t_len 2) (Some (4, 20)) []
  [u_check 1 2; u_check 1 19; u_slice 4; u_int 4 "xid"; u_check 2 65535; u_int 2 "flags"; u_skip 4;
   u_check 4 6035143; u_int 4 "subtype"]
  false
  ["xid"; "flags"; "subtype"]
  [q_hex_or_none "xid"; q_hex "flags"].

Definition experimenter_stats_request : cls := mk_cls "message.experimenter_stats_request"
  ["version" ↦ 2; "type" ↦ 18; "stats_type" ↦ 65535]
  [("xid", VNone); ("flags", VInt 0); ("experimenter", VInt 0); ("data", VStr [])]
  [p_int 1 "version"; p_int 1 "type"; p_placeholder; p_int 4 "xid"; p_int 2 "stats_type"; p_int 2 "flags";
   p_zeros 4; p_int 4 "experimenter"; p_zeros 4; p_raw "data"]
  (t_len 2) (Some (4, 16))
  [6035143 ⇒ "message.bsn_stats_request"]
  [u_check 1 2; u_check 1 18; u_slice 4; u_int 4 "xid"; u_check 2 65535; u_int 2 "flags"; u_skip 4;
   u_int 4 "experimenter"; u_skip 4; u_rest "data"]
  false
  ["xid"; "flags"; "experimenter"; "data"]
  [q_hex_or_none "xid"; q_hex "flags"; q_pp "data"].

Definition bsn_stats_request : cls := mk_cls "message.bsn_stats_request"
  ["version" ↦ 2; "type" ↦ 18; "stats_type" ↦ 65535; "experimenter" ↦ 6035143]
  [("xid", VNone); ("flags", VInt 0); ("subtype", VInt 0)]
  [p_int 1 "version"; p_int 1 "type"; p_placeholder; p_int 4 "xid"; p_int 2 "stats_type"; p_int 2 "flags";
   p_zeros 4; p_int 4 "experimenter"; p_int 4 "subtype"]
  (t_len 2) (Some (4, 20)) []
  [u_check 1 2; u_check 1 18; u_slice 4; u_int 4 "xid"; u_check 2 65535; u_int 2 "flags"; u_skip 4;
   u_check 4 6035143; u_int 4 "subtype"]
  false
  ["xid"; "flags"; "subtype"]
  [q_hex_or_none "xid"; q_hex "flags"].

Definition bsn_virtual_port_create_reply : cls := mk_cls "message.bsn_virtual_port_create_reply"
  ["version" ↦ 2; "type" ↦ 4; "experimenter" ↦ 6035143; "subtype" ↦ 16]
  [("xid", VNone); ("status", VInt 0); ("vport_no", VInt 0)]
  [p_int 1 "version"; p_int 1 "type"; p_placeholder; p_int 4 "xid"; p_int 4 "experimenter";
   p_int 4 "subtype"; p_int 4 "status"; p_int 4 "vport_no"]
  (t_len 2) None []
  [u_check 1 2; u_check 1 4; u_slice 4; u_int 4 "xid"; u_check 4 6035143; u_check 4 16; u_int 4 "status";
   u_int 4 "vport_no"]
  false
  ["xid"; "status"; "vport_no"]
  [q_hex_or_none "xid"; q_hex "status"; q_hex "vport_no"].

Definition bsn_virtual_port_create_request : cls := mk_cls "message.bsn_virtual_port_create_request"
  ["version" ↦ 2; "type" ↦ 4; "experimenter" ↦ 6035143; "subtype" ↦ 15]
  [("xid", VNone); ("vport", new_object Common.bsn_vport)]
  [p_int 1 "version"; p_int 1 "type"; p_placeholder; p_int 4 "xid"; p_int 4 "experimenter";
   p_int 4 "subtype"; p_obj "vport"]
  (t_len 2) None []
  [u_check 1 2; u_check 1 4; u_slice 4; u_int 4 "xid"; u_check 4 6035143; u_check 4 15;
   u_obj "vport" "common.bsn_vport"]
  false
  ["xid"; "vport"]
  [q_hex_or_none "xid"; q_pp "vport"].

Definition bsn_virtual_port_remove_reply : cls := mk_cls "message.bsn_virtual_port_remove_reply"
  ["version" ↦ 2; "type" ↦ 4; "experimenter" ↦ 6035143; "subtype" ↦ 26]
  [("xid", VNone); ("status", VInt 0)]
  [p_int 1 "version"; p_int 1 "type"; p_placeholder; p_int 4 "xid"; p_int 4 "experimenter";
   p_int 4 "subtype"; p_int 4 "status"]
  (t_len 2) None []
  [u_check 1 2; u_check 1 4; u_slice 4; u_int 4 "xid"; u_check 4 6035143; u_check 4 26; u_int 4 "status"]
  false
  ["xid"; "status"]
  [q_hex_or_none "xid"; q_hex "status"].

Definition bsn_virtual_port_remove_request : cls := mk_cls "message.bsn_virtual_port_remove_request"
  ["version" ↦ 2; "type" ↦ 4; "experimenter" ↦ 6035143; "subtype" ↦ 17]
  [("xid", VNone); ("vport_no", VInt 0)]
  [p_int 1 "version"; p_int 1 "type"; p_placeholder; p_int 4 "xid"; p_int 4 "experimenter";
   p_int 4 "subtype"; p_int 4 "vport_no"]
  (t_len 2) None []
  [u_check 1 2; u_check 1 4; u_slice 4; u_int 4 "xid"; u_check 4 6035143; u_check 4 17;
   u_int 4 "vport_no"]
  false
  ["xid"; "vport_no"]
  [q_hex_or_none "xid"; q_hex "vport_no"].

Definition desc_stats_reply : cls := mk_cls "message.desc_stats_reply"
  ["version" ↦ 2; "type" ↦ 19; "stats_type" ↦ 0]
  [("xid", VNone); ("flags", VInt 0); ("mfr_desc", VStr []); ("hw_desc", VStr []); ("sw_desc", VStr []);
   ("serial_num", VStr []); ("dp_desc", VStr [])]
  [p_int 1 "version"; p_int 1 "type"; p_placeholder; p_int 4 "xid"; p_int 2 "stats_type"; p_int 2 "flags";
   p_zeros 4; p_str 256 "mfr_desc"; p_str 256 "hw_desc"; p_str 256 "sw_desc"; p_str 32 "serial_num";
   p_str 256 "dp_desc"]
  (t_len 2) None []
  [u_check 1 2; u_check 1 19; u_slice 4; u_int 4 "xid"; u_check 2 0; u_int 2 "flags"; u_skip 4;
   u_str 256 true "mfr_desc"; u_str 256 true "hw_desc"; u_str 256 true "sw_desc";
   u_str 32 true "serial_num"; u_str 256 true "dp_desc"]
  false
  ["xid"; "flags"; "mfr_desc"; "hw_desc"; "sw_desc"; "serial_num"; "dp_desc"]
  [q_hex_or_none "xid"; q_hex "flags"; q_pp "mfr_desc"; q_pp "hw_desc"; q_pp "sw_desc"; q_pp "serial_num";
   q_pp "dp_desc"].

Definition desc_stats_request : cls := mk_cls "message.desc_stats_request"
  ["version" ↦ 2; "type" ↦ 18; "stats_type" ↦ 0]
  [("xid", VNone); ("flags", VInt 0)]
  [p_int 1 "version"; p_int 1 "type"; p_placeholder; p_int 4 "xid"; p_int 2 "stats_type"; p_int 2 "flags";
   p_zeros 4]
  (t_len 2) None []
  [u_check 1 2; u_check 1 18; u_slice 4; u_int 4 "xid"; u_check 2 0; u_int 2 "flags"; u_skip 4]
  false
  ["xid"; "flags"]
  [q_hex_or_none "xid"; q_hex "flags"].

Definition echo_reply : cls := mk_cls "message.echo_reply"
  ["version" ↦ 2; "type" ↦ 3]
  [("xid", VNone); ("data", VStr [])]
  [p_int 1 "version"; p_int 1 "type"; p_placeholder; p_int 4 "xid"; p_raw "data"]
  (t_len 2) None []
  [u_check 1 2; u_check 1 3; u_slice 4; u_int 4 "xid"; u_rest "data"]
  false
  ["xid"; "data"]
  [q_hex_or_none "xid"; q_pp "data"].

Definition echo_request : cls := mk_cls "message.echo_request"
  ["version" ↦ 2; "type" ↦ 2]
  [("xid", VNone); ("data", VStr [])]
  [p_int 1 "version"; p_int 1 "type"; p_placeholder; p_int 4 "xid"; p_raw "data"]
  (t_len 2) None []
  [u_check 1 2; u_check 1 2; u_slice 4; u_int 4 "xid"; u_rest "data"]
  false
  ["xid"; "data"]
  [q_hex_or_none "xid"; q_pp "data"].

Definition features_reply : cls := mk_cls "message.features_reply"
  ["version" ↦ 2; "type" ↦ 6]
  [("xid", VNone); ("datapath_id", VInt 0); ("n_buffers", VInt 0); ("n_tables", VInt 0);
   ("capabilities", VInt 0); ("reserved", VInt 0); ("ports", VList [])]
  [p_int 1 "version"; p_int 1 "type"; p_placeholder; p_int 4 "xid"; p_int 8 "datapath_id";
   p_int 4 "n_buffers"; p_int 1 "n_tables"; p_zeros 3; p_int 4 "capabilities"; p_int 4 "reserved";
   p_list "ports"]
  (t_len 2) None []
  [u_check 1 2; u_check 1 6; u_slice 4; u_int 4 "xid"; u_int 8 "datapath_id"; u_int 4 "n_buffers";
   u_int 1 "n_tables"; u_skip 3; u_int 4 "capabilities"; u_int 4 "reserved";
   u_list "ports" "common.port_desc"]
  false
  ["xid"; "datapath_id"; "n_buffers"; "n_tables"; "capabilities"; "reserved"; "ports"]
  [q_hex_or_none "xid"; q_hex "datapath_id"; q_hex "n_buffers"; q_hex "n_tables"; q_hex "capabilities";
   q_hex "reserved"; q_pp "ports"].

Definition features_request : cls := mk_cls "message.features_request"
  ["version" ↦ 2; "type" ↦ 5]
  [("xid", VNone)]
  [p_int 1 "version"; p_int 1 "type"; p_placeholder; p_int 4 "xid"]
  (t_len 2) None []
  [u_check 1 2; u_check 1 5; u_slice 4; u_int 4 "xid"]
  false
  ["xid"]
  [q_hex_or_none "xid"].

Definition flow_mod : cls := mk_cls "message.flow_mod"
  ["version" ↦ 2; "type" ↦ 14]
  [("xid", VNone); ("cookie", VInt 0); ("cookie_mask", VInt 0); ("table_id", VInt 0);
   ("_command", VInt 0); ("idle_timeout", VInt 0); ("hard_timeout", VInt 0); ("priority", VInt 0);
   ("buffer_id", VInt 0); ("out_port", VInt 0); ("out_group", VInt 0); ("flags", VInt 0);
   ("match", new_object Common.match_v2); ("instructions", VList [])]
  [p_int 1 "version"; p_int 1 "type"; p_placeholder; p_int 4 "xid"; p_int 8 "cookie";
   p_int 8 "cookie_mask"; p_int 1 "table_id"; p_int 1 "_command"; p_int 2 "idle_timeout";
   p_int 2 "hard_timeout"; p_int 2 "priority"; p_int 4 "buffer_id"; p_int 4 "out_port";
   p_int 4 "out_group"; p_int 2 "flags"; p_zeros 2; p_obj "match"; p_list "instructions"]
  (t_len 2) (Some (1, 25))
  [0 ⇒ "message.flow_add"; 3 ⇒ "message.flow_delete"; 4 ⇒ "message.flow_delete_strict";
   1 ⇒ "message.flow_modify"; 2 ⇒ "message.flow_modify_strict"]
  [u_check 1 2; u_check 1 14; u_slice 4; u_int 4 "xid"; u_int 8 "cookie"; u_int 8 "cookie_mask";
   u_int 1 "table_id"; u_int 1 "_command"; u_int 2 "idle_timeout"; u_int 2 "hard_timeout";
   u_int 2 "priority"; u_int 4 "buffer_id"; u_int 4 "out_port"; u_int 4 "out_group"; u_int 2 "flags";
   u_skip 2; u_obj "match" "common.match_v2"; u_list "instructions" "instruction.instruction"]
  false
  ["xid"; "cookie"; "cookie_mask"; "table_id"; "_command"; "idle_timeout"; "hard_timeout"; "priority";
   "buffer_id"; "out_port"; "out_group"; "flags"; "match"; "instructions"]
  [q_hex_or_none "xid"; q_hex "cookie"; q_hex "cookie_mask"; q_hex "table_id"; q_hex "idle_timeout";
   q_hex "hard_timeout"; q_hex "priority"; q_hex "buffer_id"; q_port "out_port"; q_hex "out_group";
   q_hex "flags"; q_pp "match"; q_pp "instructions"].

Definition flow_add : cls := mk_cls "message.flow_add"
  ["version" ↦ 2; "type" ↦ 14; "_command" ↦ 0]
  [("xid", VNone); ("cookie", VInt 0); ("cookie_mask", VInt 0); ("table_id", VInt 0);
   ("idle_timeout", VInt 0); ("hard_timeout", VInt 0); ("priority", VInt 0); ("buffer_id", VInt 0);
   ("out_port", VInt 0); ("out_group", VInt 0); ("flags", VInt 0); ("match", new_object Common.match_v2);
   ("instructions", VList [])]
  [p_int 1 "version"; p_int 1 "type"; p_placeholder; p_int 4 "xid"; p_int 8 "cookie";
   p_int 8 "cookie_mask"; p_int 1 "table_id"; p_int 1 "_command"; p_int 2 "idle_timeout";
   p_int 2 "hard_timeout"; p_int 2 "priority"; p_int 4 "buffer_id"; p_int 4 "out_port";
   p_int 4 "out_group"; p_int 2 "flags"; p_zeros 2; p_obj "match"; p_list "instructions"]
  (t_len 2) None []
  [u_check 1 2; u_check 1 14; u_slice 4; u_int 4 "xid"; u_int 8 "cookie"; u_int 8 "cookie_mask";
   u_int 1 "table_id"; u_check 1 0; u_int 2 "idle_timeout"; u_int 2 "hard_timeout"; u_int 2 "priority";
   u_int 4 "buffer_id"; u_int 4 "out_port"; u_int 4 "out_group"; u_int 2 "flags"; u_skip 2;
   u_obj "match" "common.match_v2"; u_list "instructions" "instruction.instruction"]
  false
  ["xid"; "cookie"; "cookie_mask"; "table_id"; "idle_timeout"; "hard_timeout"; "priority"; "buffer_id";
   "out_port"; "out_group"; "flags"; "match"; "instructions"]
  [q_hex_or_none "xid"; q_hex "cookie"; q_hex "cookie_mask"; q_hex "table_id"; q_hex "idle_timeout";
   q_hex "hard_timeout"; q_hex "priority"; q_hex "buffer_id"; q_port "out_port"; q_hex "out_group";
   q_hex "flags"; q_pp "match"; q_pp "instructions"].

Definition flow_delete : cls := mk_cls "message.flow_delete"
  ["version" ↦ 2; "type" ↦ 14; "_command" ↦ 3]
  [("xid", VNone); ("cookie", VInt 0); ("cookie_mask", VInt 0); ("table_id", VInt 0);
   ("idle_timeout", VInt 0); ("hard_timeout", VInt 0); ("priority", VInt 0); ("buffer_id", VInt 0);
   ("out_port", VInt 0); ("out_group", VInt 0); ("flags", VInt 0); ("match", new_object Common.match_v2);
   ("instructions", VList [])]
  [p_int 1 "version"; p_int 1 "type"; p_placeholder; p_int 4 "xid"; p_int 8 "cookie";
   p_int 8 "cookie_mask"; p_int 1 "table_id"; p_int 1 "_command"; p_int 2 "idle_timeout";
   p_int 2 "hard_timeout"; p_int 2 "priority"; p_int 4 "buffer_id"; p_int 4 "out_port";
   p_int 4 "out_group"; p_int 2 "flags"; p_zeros 2; p_obj "match"; p_list "instructions"]
  (t_len 2) None []
  [u_check 1 2; u_check 1 14; u_slice 4; u_int 4 "xid"; u_int 8 "cookie"; u_int 8 "cookie_mask";
   u_int 1 "table_id"; u_check 1 3; u_int 2 "idle_timeout"; u_int 2 "hard_timeout"; u_int 2 "priority";
   u_int 4 "buffer_id"; u_int 4 "out_port"; u_int 4 "out_group"; u_int 2 "flags"; u_skip 2;
   u_obj "match" "common.match_v2"; u_list "instructions" "instruction.instruction"]
  false
  ["xid"; "cookie"; "cookie_mask"; "table_id"; "idle_timeout"; "hard_timeout"; "priority"; "buffer_id";
   "out_port"; "out_group"; "flags"; "match"; "instructions"]
  [q_hex_or_none "xid"; q_hex "cookie"; q_hex "cookie_mask"; q_hex "table_id"; q_hex "idle_timeout";
   q_hex "hard_timeout"; q_hex "priority"; q_hex "buffer_id"; q_port "out_port"; q_hex "out_group";
   q_hex "flags"; q_pp "match"; q_pp "instructions"].

Definition flow_delete_strict : cls := mk_cls "message.flow_delete_strict"
  ["version" ↦ 2; "type" ↦ 14; "_command" ↦ 4]
  [("xid", VNone); ("cookie", VInt 0); ("cookie_mask", VInt 0); ("table_id", VInt 0);
   ("idle_timeout", VInt 0); ("hard_timeout", VInt 0); ("priority", VInt 0); ("buffer_id", VInt 0);
   ("out_port", VInt 0); ("out_group", VInt 0); ("flags", VInt 0); ("match", new_object Common.match_v2);
   ("instructions", VList [])]
  [p_int 1 "version"; p_int 1 "type"; p_placeholder; p_int 4 "xid"; p_int 8 "cookie";
   p_int 8 "cookie_mask"; p_int 1 "table_id"; p_int 1 "_command"; p_int 2 "idle_timeout";
   p_int 2 "hard_timeout"; p_int 2 "priority"; p_int 4 "buffer_id"; p_int 4 "out_port";
   p_int 4 "out_group"; p_int 2 "flags"; p_zeros 2; p_obj "match"; p_list "instructions"]
  (t_len 2) None []
  [u_check 1 2; u_check 1 14; u_slice 4; u_int 4 "xid"; u_int 8 "cookie"; u_int 8 "cookie_mask";
   u_int 1 "table_id"; u_check 1 4; u_int 2 "idle_timeout"; u_int 2 "hard_timeout"; u_int 2 "priority";
   u_int 4 "buffer_id"; u_int 4 "out_port"; u_int 4 "out_group"; u_int 2 "flags"; u_skip 2;
   u_obj "match" "common.match_v2"; u_list "instructions" "instruction.instruction"]
  false
  ["xid"; "cookie"; "cookie_mask"; "table_id"; "idle_timeout"; "hard_timeout"; "priority"; "buffer_id";
   "out_port"; "out_group"; "flags"; "match"; "instructions"]
  [q_hex_or_none "xid"; q_hex "cookie"; q_hex "cookie_mask"; q_hex "table_id"; q_hex "idle_timeout";
   q_hex "hard_timeout"; q_hex "priority"; q_hex "buffer_id"; q_port "out_port"; q_hex "out_group";
   q_hex "flags"; q_pp "match"; q_pp "instructions"].

Definition flow_mod_failed_error_msg : cls := mk_cls "message.flow_mod_failed_error_msg"
  ["version" ↦ 2; "type" ↦ 1; "err_type" ↦ 5]
  [("xid", VNone); ("code", VInt 0); ("data", VStr [])]
  [p_int 1 "version"; p_int 1 "type"; p_placeholder; p_int 4 "xid"; p_int 2 "err_type"; p_int 2 "code";
   p_raw "data"]
  (t_len 2) None []
  [u_check 1 2; u_check 1 1; u_slice 4; u_int 4 "xid"; u_check 2 5; u_int 2 "code"; u_rest "data"]
  false
  ["xid"; "code"; "data"]
  [q_hex_or_none "xid"; q_hex "code"; q_pp "data"].

Definition flow_modify : cls := mk_cls "message.flow_modify"
  ["version" ↦ 2; "type" ↦ 14; "_command" ↦ 1]
  [("xid", VNone); ("cookie", VInt 0); ("cookie_mask", VInt 0); ("table_id", VInt 0);
   ("idle_timeout", VInt 0); ("hard_timeout", VInt 0); ("priority", VInt 0); ("buffer_id", VInt 0);
   ("out_port", VInt 0); ("out_group", VInt 0); ("flags", VInt 0); ("match", new_object Common.match_v2);
   ("instructions", VList [])]
  [p_int 1 "version"; p_int 1 "type"; p_placeholder; p_int 4 "xid"; p_int 8 "cookie";
   p_int 8 "cookie_mask"; p_int 1 "table_id"; p_int 1 "_command"; p_int 2 "idle_timeout";
   p_int 2 "hard_timeout"; p_int 2 "priority"; p_int 4 "buffer_id"; p_int 4 "out_port";
   p_int 4 "out_group"; p_int 2 "flags"; p_zeros 2; p_obj "match"; p_list "instructions"]
  (t_len 2) None []
  [u_check 1 2; u_check 1 14; u_slice 4; u_int 4 "xid"; u_int 8 "cookie"; u_int 8 "cookie_mask";
   u_int 1 "table_id"; u_check 1 1; u_int 2 "idle_timeout"; u_int 2 "hard_timeout"; u_int 2 "priority";
   u_int 4 "buffer_id"; u_int 4 "out_port"; u_int 4 "out_group"; u_int 2 "flags"; u_skip 2;
   u_obj "match" "common.match_v2"; u_list "instructions" "instruction.instruction"]
  false
  ["xid"; "cookie"; "cookie_mask"; "table_id"; "idle_timeout"; "hard_timeout"; "priority"; "buffer_id";
   "out_port"; "out_group"; "flags"; "match"; "instructions"]
  [q_hex_or_none "xid"; q_hex "cookie"; q_hex "cookie_mask"; q_hex "table_id"; q_hex "idle_timeout";
   q_hex "hard_timeout"; q_hex "priority"; q_hex "buffer_id"; q_port "out_port"; q_hex "out_group";
   q_hex "flags"; q_pp "match"; q_pp "instructions"].

Definition flow_modify_strict : cls := mk_cls "message.flow_modify_strict"
  ["version" ↦ 2; "type" ↦ 14; "_command" ↦ 2]
  [("xid", VNone); ("cookie", VInt 0); ("cookie_mask", VInt 0); ("table_id", VInt 0);
   ("idle_timeout", VInt 0); ("hard_timeout", VInt 0); ("priority", VInt 0); ("buffer_id", VInt 0);
   ("out_port", VInt 0); ("out_group", VInt 0); ("flags", VInt 0); ("match", new_object Common.match_v2);
   ("instructions", VList [])]
  [p_int 1 "version"; p_int 1 "type"; p_placeholder; p_int 4 "xid"; p_int 8 "cookie";
   p_int 8 "cookie_mask"; p_int 1 "table_id"; p_int 1 "_command"; p_int 2 "idle_timeout";
   p_int 2 "hard_timeout"; p_int 2 "priority"; p_int 4 "buffer_id"; p_int 4 "out_port";
   p_int 4 "out_group"; p_int 2 "flags"; p_zeros 2; p_obj "match"; p_list "instructions"]
  (t_len 2) None []
  [u_check 1 2; u_check 1 14; u_slice 4; u_int 4 "xid"; u_int 8 "cookie"; u_int 8 "cookie_mask";
   u_int 1 "table_id"; u_check 1 2; u_int 2 "idle_timeout"; u_int 2 "hard_timeout"; u_int 2 "priority";
   u_int 4 "buffer_id"; u_int 4 "out_port"; u_int 4 "out_group"; u_int 2 "flags"; u_skip 2;
   u_obj "match" "common.match_v2"; u_list "instructions" "instruction.instruction"]
  false
  ["xid"; "cookie"; "cookie_mask"; "table_id"; "idle_timeout"; "hard_timeout"; "priority"; "buffer_id";
   "out_port"; "out_group"; "flags"; "match"; "instructions"]
  [q_hex_or_none "xid"; q_hex "cookie"; q_hex "cookie_mask"; q_hex "table_id"; q_hex "idle_timeout";
   q_hex "hard_timeout"; q_hex "priority"; q_hex "buffer_id"; q_port "out_port"; q_hex "out_group";
   q_hex "flags"; q_pp "match"; q_pp "instructions"].

Definition flow_removed : cls := mk_cls "message.flow_removed"
  ["version" ↦ 2; "type" ↦ 11]
  [("xid", VNone); ("cookie", VInt 0); ("priority", VInt 0); ("reason", VInt 0); ("table_id", VInt 0);
   ("duration_sec", VInt 0); ("duration_nsec", VInt 0); ("idle_timeout", VInt 0);
   ("packet_count", VInt 0); ("byte_count", VInt 0); ("match", new_object Common.match_v2)]
  [p_int 1 "version"; p_int 1 "type"; p_placeholder; p_int 4 "xid"; p_int 8 "cookie"; p_int 2 "priority";
   p_int 1 "reason"; p_int 1 "table_id"; p_int 4 "duration_sec"; p_int 4 "duration_nsec";
   p_int 2 "idle_timeout"; p_zeros 2; p_int 8 "packet_count"; p_int 8 "byte_count"; p_obj "match"]
  (t_len 2) None []
  [u_check 1 2; u_check 1 11; u_slice 4; u_int 4 "xid"; u_int 8 "cookie"; u_int 2 "priority";
   u_int 1 "reason"; u_int 1 "table_id"; u_int 4 "duration_sec"; u_int 4 "duration_nsec";
   u_int 2 "idle_timeout"; u_skip 2; u_int 8 "packet_count"; u_int 8 "byte_count";
   u_obj "match" "common.match_v2"]
  false
  ["xid"; "cookie"; "priority"; "reason"; "table_id"; "duration_sec"; "duration_nsec"; "idle_timeout";
   "packet_count"; "byte_count"; "match"]
  [q_hex_or_none "xid"; q_hex "cookie"; q_hex "priority"; q_hex "reason"; q_hex "table_id";
   q_hex "duration_sec"; q_hex "duration_nsec"; q_hex "idle_timeout"; q_hex "packet_count";
   q_hex "byte_count"; q_pp "match"].

Definition flow_stats_reply : cls := mk_cls "message.flow_stats_reply"
  ["version" ↦ 2; "type" ↦ 19; "stats_type" ↦ 1]
  [("xid", VNone); ("flags", VInt 0); ("entries", VList [])]
  [p_int 1 "version"; p_int 1 "type"; p_placeholder; p_int 4 "xid"; p_int 2 "stats_type"; p_int 2 "flags";
   p_zeros 4; p_list "entries"]
  (t_len 2) None []
  [u_check 1 2; u_check 1 19; u_slice 4; u_int 4 "xid"; u_check 2 1; u_int 2 "flags"; u_skip 4;
   u_list "entries" "common.flow_stats_entry"]
  false
  ["xid"; "flags"; "entries"]
  [q_hex_or_none "xid"; q_hex "flags"; q_pp "entries"].

Definition flow_stats_request : cls := mk_cls "message.flow_stats_request"
  ["version" ↦ 2; "type" ↦ 18; "stats_type" ↦ 1]
  [("xid", VNone); ("flags", VInt 0); ("table_id", VInt 0); ("out_port", VInt 0); ("out_group", VInt 0);
   ("cookie", VInt 0); ("cookie_mask", VInt 0); ("match", new_object Common.match_v2)]
  [p_int 1 "version"; p_int 1 "type"; p_placeholder; p_int 4 "xid"; p_int 2 "stats_type"; p_int 2 "flags";
   p_zeros 4; p_int 1 "table_id"; p_zeros 3; p_int 4 "out_port"; p_int 4 "out_group"; p_zeros 4;
   p_int 8 "cookie"; p_int 8 "cookie_mask"; p_obj "match"]
  (t_len 2) None []
  [u_check 1 2; u_check 1 18; u_slice 4; u_int 4 "xid"; u_check 2 1; u_int 2 "flags"; u_skip 4;
   u_int 1 "table_id"; u_skip 3; u_int 4 "out_port"; u_int 4 "out_group"; u_skip 4; u_int 8 "cookie";
   u_int 8 "cookie_mask"; u_obj "match" "common.match_v2"]
  false
  ["xid"; "flags"; "table_id"; "out_port"; "out_group"; "cookie"; "cookie_mask"; "match"]
  [q_hex_or_none "xid"; q_hex "flags"; q_hex "table_id"; q_port "out_port"; q_hex "out_group";
   q_hex "cookie"; q_hex "cookie_mask"; q_pp "match"].

Definition get_config_reply : cls := mk_cls "message.get_config_reply"
  ["version" ↦ 2; "type" ↦ 8]
  [("xid", VNone); ("flags", VInt 0); ("miss_send_len", VInt 0)]
  [p_int 1 "version"; p_int 1 "type"; p_placeholder; p_int 4 "xid"; p_int 2 "flags";
   p_int 2 "miss_send_len"]
  (t_len 2) None []
  [u_check 1 2; u_check 1 8; u_slice 4; u_int 4 "xid"; u_int 2 "flags"; u_int 2 "miss_send_len"]
  false
  ["xid"; "flags"; "miss_send_len"]
  [q_hex_or_none "xid"; q_hex "flags"; q_hex "miss_send_len"].

Definition get_config_request : cls := mk_cls "message.get_config_request"
  ["version" ↦ 2; "type" ↦ 7]
  [("xid", VNone)]
  [p_int 1 "version"; p_int 1 "type"; p_placeholder; p_int 4 "xid"]
  (t_len 2) None []
  [u_check 1 2; u_check 1 7; u_slice 4; u_int 4 "xid"]
  false
  ["xid"]
  [q_hex_or_none "xid"].

Definition group_mod : cls := mk_cls "message.group_mod"
  ["version" ↦ 2; "type" ↦ 15]
  [("xid", VNone); ("command", VInt 0); ("group_type", VInt 0); ("group_id", VInt 0);
   ("buckets", VList [])]
  [p_int 1 "version"; p_int 1 "type"; p_placeholder; p_int 4 "xid"; p_int 2 "command";
   p_int 1 "group_type"; p_zeros 1; p_int 4 "group_id"; p_list "buckets"]
  (t_len 2) (Some (2, 8))
  [0 ⇒ "message.group_add"; 2 ⇒ "message.group_delete"; 1 ⇒ "message.group_modify"]
  [u_check 1 2; u_check 1 15; u_slice 4; u_int 4 "xid"; u_int 2 "command"; u_int 1 "group_type"; u_skip 1;
   u_int 4 "group_id"; u_list "buckets" "common.bucket"]
  false
  ["xid"; "command"; "group_type"; "group_id"; "buckets"]
  [q_hex_or_none "xid"; q_hex "group_type"; q_hex "group_id"; q_pp "buckets"].

Definition group_add : cls := mk_cls "message.group_add"
  ["version" ↦ 2; "type" ↦ 15; "command" ↦ 0]
  [("xid", VNone); ("group_type", VInt 0); ("group_id", VInt 0); ("buckets", VList [])]
  [p_int 1 "version"; p_int 1 "type"; p_placeholder; p_int 4 "xid"; p_int 2 "command";
   p_int 1 "group_type"; p_zeros 1; p_int 4 "group_id"; p_list "buckets"]
  (t_len 2) None []
  [u_check 1 2; u_check 1 15; u_slice 4; u_int 4 "xid"; u_check 2 0; u_int 1 "group_type"; u_skip 1;
   u_int 4 "group_id"; u_list "buckets" "common.bucket"]
  false
  ["xid"; "group_type"; "group_id"; "buckets"]
  [q_hex_or_none "xid"; q_hex "group_type"; q_hex "group_id"; q_pp "buckets"].

Definition group_delete : cls := mk_cls "message.group_delete"
  ["version" ↦ 2; "type" ↦ 15; "command" ↦ 2]
  [("xid", VNone); ("group_type", VInt 0); ("group_id", VInt 0); ("buckets", VList [])]
  [p_int 1 "version"; p_int 1 "type"; p_placeholder; p_int 4 "xid"; p_int 2 "command";
   p_int 1 "group_type"; p_zeros 1; p_int 4 "group_id"; p_list "buckets"]
  (t_len 2) None []
  [u_check 1 2; u_check 1 15; u_slice 4; u_int 4 "xid"; u_check 2 2; u_int 1 "group_type"; u_skip 1;
   u_int 4 "group_id"; u_list "buckets" "common.bucket"]
  false
  ["xid"; "group_type"; "group_id"; "buckets"]
  [q_hex_or_none "xid"; q_hex "group_type"; q_hex "group_id"; q_pp "buckets"].

Definition group_desc_stats_reply : cls := mk_cls "message.group_desc_stats_reply"
  ["version" ↦ 2; "type" ↦ 19; "stats_type" ↦ 7]
  [("xid", VNone); ("flags", VInt 0); ("entries", VList [])]
  [p_int 1 "version"; p_int 1 "type"; p_placeholder; p_int 4 "xid"; p_int 2 "stats_type"; p_int 2 "flags";
   p_zeros 4; p_list "entries"]
  (t_len 2) None []
  [u_check 1 2; u_check 1 19; u_slice 4; u_int 4 "xid"; u_check 2 7; u_int 2 "flags"; u_skip 4;
   u_list "entries" "common.group_desc_stats_entry"]
  false
  ["xid"; "flags"; "entries"]
  [q_hex_or_none "xid"; q_hex "flags"; q_pp "entries"].

Definition group_desc_stats_request : cls := mk_cls "message.group_desc_stats_request"
  ["version" ↦ 2; "type" ↦ 18; "stats_type" ↦ 7]
  [("xid", VNone); ("flags", VInt 0)]
  [p_int 1 "version"; p_int 1 "type"; p_placeholder; p_int 4 "xid"; p_int 2 "stats_type"; p_int 2 "flags";
   p_zeros 4]
  (t_len 2) None []
  [u_check 1 2; u_check 1 18; u_slice 4; u_int 4 "xid"; u_check 2 7; u_int 2 "flags"; u_skip 4]
  false
  ["xid"; "flags"]
  [q_hex_or_none "xid"; q_hex "flags"].

Definition group_mod_failed_error_msg : cls := mk_cls "message.group_mod_failed_error_msg"
  ["version" ↦ 2; "type" ↦ 1; "err_type" ↦ 6]
  [("xid", VNone); ("code", VInt 0); ("data", VStr [])]
  [p_int 1 "version"; p_int 1 "type"; p_placeholder; p_int 4 "xid"; p_int 2 "err_type"; p_int 2 "code";
   p_raw "data"]
  (t_len 2) None []
  [u_check 1 2; u_check 1 1; u_slice 4; u_int 4 "xid"; u_check 2 6; u_int 2 "code"; u_rest "data"]
  false
  ["xid"; "code"; "data"]
  [q_hex_or_none "xid"; q_hex "code"; q_pp "data"].

Definition group_modify : cls := mk_cls "message.group_modify"
  ["version" ↦ 2; "type" ↦ 15; "command" ↦ 1]
  [("xid", VNone); ("group_type", VInt 0); ("group_id", VInt 0); ("buckets", VList [])]
  [p_int 1 "version"; p_int 1 "type"; p_placeholder; p_int 4 "xid"; p_int 2 "command";
   p_int 1 "group_type"; p_zeros 1; p_int 4 "group_id"; p_list "buckets"]
  (t_len 2) None []
  [u_check 1 2; u_check 1 15; u_slice 4; u_int 4 "xid"; u_check 2 1; u_int 1 "group_type"; u_skip 1;
   u_int 4 "group_id"; u_list "buckets" "common.bucket"]
  false
  ["xid"; "group_type"; "group_id"; "buckets"]
  [q_hex_or_none "xid"; q_hex "group_type"; q_hex "group_id"; q_pp "buckets"].

Definition group_stats_reply : cls := mk_cls "message.group_stats_reply"
  ["version" ↦ 2; "type" ↦ 19; "stats_type" ↦ 6]
  [("xid", VNone); ("flags", VInt 0); ("entries", VList [])]
  [p_int 1 "version"; p_int 1 "type"; p_placeholder; p_int 4 "xid"; p_int 2 "stats_type"; p_int 2 "flags";
   p_zeros 4; p_list "entries"]
  (t_len 2) None []
  [u_check 1 2; u_check 1 19; u_slice 4; u_int 4 "xid"; u_check 2 6; u_int 2 "flags"; u_skip 4;
   u_list "entries" "common.group_stats_entry"]
  false
  ["xid"; "flags"; "entries"]
  [q_hex_or_none "xid"; q_hex "flags"; q_pp "entries"].

Definition group_stats_request : cls := mk_cls "message.group_stats_request"
  ["version" ↦ 2; "type" ↦ 18; "stats_type" ↦ 6]
  [("xid", VNone); ("flags", VInt 0); ("group_id", VInt 0)]
  [p_int 1 "version"; p_int 1 "type"; p_placeholder; p_int 4 "xid"; p_int 2 "stats_type"; p_int 2 "flags";
   p_zeros 4; p_int 4 "group_id"; p_zeros 4]
  (t_len 2) None []
  [u_check 1 2; u_check 1 18; u_slice 4; u_int 4 "xid"; u_check 2 6; u_int 2 "flags"; u_skip 4;
   u_int 4 "group_id"; u_skip 4]
  false
  ["xid"; "flags"; "group_id"]
  [q_hex_or_none "xid"; q_hex "flags"; q_hex "group_id"].

Definition hello : cls := mk_cls "message.hello"
  ["version" ↦ 2; "type" ↦ 0]
  [("xid", VNone)]
  [p_int 1 "version"; p_int 1 "type"; p_placeholder; p_int 4 "xid"]
  (t_len 2) None []
  [u_check 1 2; u_check 1 0; u_slice 4; u_int 4 "xid"]
  false
  ["xid"]
  [q_hex_or_none "xid"].

Definition hello_failed_error_msg : cls := mk_cls "message.hello_failed_error_msg"
  ["version" ↦ 2; "type" ↦ 1; "err_type" ↦ 0]
  [("xid", VNone); ("code", VInt 0); ("data", VStr [])]
  [p_int 1 "version"; p_int 1 "type"; p_placeholder; p_int 4 "xid"; p_int 2 "err_type"; p_int 2 "code";
   p_raw "data"]
  (t_len 2) None []
  [u_check 1 2; u_check 1 1; u_slice 4; u_int 4 "xid"; u_check 2 0; u_int 2 "code"; u_rest "data"]
  false
  ["xid"; "code"; "data"]
  [q_hex_or_none "xid"; q_hex "code"; q_pp "data"].

Definition nicira_header : cls := mk_cls "message.nicira_header"
  ["version" ↦ 2; "type" ↦ 4; "experimenter" ↦ 8992]
  [("xid", VNone); ("subtype", VInt 0)]
  [p_int 1 "version"; p_int 1 "type"; p_placeholder; p_int 4 "xid"; p_int 4 "experimenter";
   p_int 4 "subtype"]
  (t_len 2) (Some (4, 12)) []
  [u_check 1 2; u_check 1 4; u_slice 4; u_int 4 "xid"; u_check 4 8992; u_int 4 "subtype"]
  false
  ["xid"; "subtype"]
  [q_hex_or_none "xid"].

Definition packet_in : cls := mk_cls "message.packet_in"
  ["version" ↦ 2; "type" ↦ 10]
  [("xid", VNone); ("buffer_id", VInt 0); ("in_port", VInt 0); ("in_phy_port", VInt 0);
   ("total_len", VInt 0); ("reason", VInt 0); ("table_id", VInt 0); ("data", VStr [])]
  [p_int 1 "version"; p_int 1 "type"; p_placeholder; p_int 4 "xid"; p_int 4 "buffer_id";
   p_int 4 "in_port"; p_int 4 "in_phy_port"; p_int 2 "total_len"; p_int 1 "reason"; p_int 1 "table_id";
   p_raw "data"]
  (t_len 2) None []
  [u_check 1 2; u_check 1 10; u_slice 4; u_int 4 "xid"; u_int 4 "buffer_id"; u_int 4 "in_port";
   u_int 4 "in_phy_port"; u_int 2 "total_len"; u_int 1 "reason"; u_int 1 "table_id"; u_rest "data"]
  false
  ["xid"; "buffer_id"; "in_port"; "in_phy_port"; "total_len"; "reason"; "table_id"; "data"]
  [q_hex_or_none "xid"; q_hex "buffer_id"; q_port "in_port"; q_port "in_phy_port"; q_hex "total_len";
   q_hex "reason"; q_hex "table_id"; q_pp "data"].

Definition packet_out : cls := mk_cls "message.packet_out"
  ["version" ↦ 2; "type" ↦ 13]
  [("xid", VNone); ("buffer_id", VInt 0); ("in_port", VInt 0); ("actions", VList []); ("data", VStr [])]
  [p_int 1 "version"; p_int 1 "type"; p_placeholder; p_int 4 "xid"; p_int 4 "buffer_id";
   p_int 4 "in_port"; p_placeholder; p_zeros 6; p_list_len "actions" 6; p_raw "data"]
  (t_len 2) None []
  [u_check 1 2; u_check 1 13; u_slice 4; u_int 4 "xid"; u_int 4 "buffer_id"; u_int 4 "in_port"; u_sublen;
   u_skip 6; u_sublist "actions" "action.action"; u_rest "data"]
  false
  ["xid"; "buffer_id"; "in_port"; "actions"; "data"]
  [q_hex_or_none "xid"; q_hex "buffer_id"; q_port "in_port"; q_pp "actions"; q_pp "data"].

Definition port_mod : cls := mk_cls "message.port_mod"
  ["version" ↦ 2; "type" ↦ 16]
  [("xid", VNone); ("port_no", VInt 0); ("hw_addr", VInts [0; 0; 0; 0; 0; 0]%Z); ("config", VInt 0);
   ("mask", VInt 0); ("advertise", VInt 0)]
  [p_int 1 "version"; p_int 1 "type"; p_placeholder; p_int 4 "xid"; p_int 4 "port_no"; p_zeros 4;
   p_bytes 6 "hw_addr"; p_zeros 2; p_int 4 "config"; p_int 4 "mask"; p_int 4 "advertise"; p_zeros 4]
  (t_len 2) None []
  [u_check 1 2; u_check 1 16; u_slice 4; u_int 4 "xid"; u_int 4 "port_no"; u_skip 4; u_bytes 6 "hw_addr";
   u_skip 2; u_int 4 "config"; u_int 4 "mask"; u_int 4 "advertise"; u_skip 4]
  false
  ["xid"; "port_no"; "hw_addr"; "config"; "mask"; "advertise"]
  [q_hex_or_none "xid"; q_port "port_no"; q_mac "hw_addr"; q_hex "config"; q_hex "mask";
   q_hex "advertise"].

Definition port_mod_failed_error_msg : cls := mk_cls "message.port_mod_failed_error_msg"
  ["version" ↦ 2; "type" ↦ 1; "err_type" ↦ 7]
  [("xid", VNone); ("code", VInt 0); ("data", VStr [])]
  [p_int 1 "version"; p_int 1 "type"; p_placeholder; p_int 4 "xid"; p_int 2 "err_type"; p_int 2 "code";
   p_raw "data"]
  (t_len 2) None []
  [u_check 1 2; u_check 1 1; u_slice 4; u_int 4 "xid"; u_check 2 7; u_int 2 "code"; u_rest "data"]
  false
  ["xid"; "code"; "data"]
  [q_hex_or_none "xid"; q_hex "code"; q_pp "data"].

Definition port_stats_reply : cls := mk_cls "message.port_stats_reply"
  ["version" ↦ 2; "type" ↦ 19; "stats_type" ↦ 4]
  [("xid", VNone); ("flags", VInt 0); ("entries", VList [])]
  [p_int 1 "version"; p_int 1 "type"; p_placeholder; p_int 4 "xid"; p_int 2 "stats_type"; p_int 2 "flags";
   p_zeros 4; p_list "entries"]
  (t_len 2) None []
  [u_check 1 2; u_check 1 19; u_slice 4; u_int 4 "xid"; u_check 2 4; u_int 2 "flags"; u_skip 4;
   u_list "entries" "common.port_stats_entry"]
  false
  ["xid"; "flags"; "entries"]
  [q_hex_or_none "xid"; q_hex "flags"; q_pp "entries"].

Definition port_stats_request : cls := mk_cls "message.port_stats_request"
  ["version" ↦ 2; "type" ↦ 18; "stats_type" ↦ 4]
  [("xid", VNone); ("flags", VInt 0); ("port_no", VInt 0)]
  [p_int 1 "version"; p_int 1 "type"; p_placeholder; p_int 4 "xid"; p_int 2 "stats_type"; p_int 2 "flags";
   p_zeros 4; p_int 4 "port_no"; p_zeros 4]
  (t_len 2) None []
  [u_check 1 2; u_check 1 18; u_slice 4; u_int 4 "xid"; u_check 2 4; u_int 2 "flags"; u_skip 4;
   u_int 4 "port_no"; u_skip 4]
  false
  ["xid"; "flags"; "port_no"]
  [q_hex_or_none "xid"; q_hex "flags"; q_port "port_no"].

Definition port_status : cls := mk_cls "message.port_status"
  ["version" ↦ 2; "type" ↦ 12]
  [("xid", VNone); ("reason", VInt 0); ("desc", new_object Common.port_desc)]
  [p_int 1 "version"; p_int 1 "type"; p_placeholder; p_int 4 "xid"; p_int 1 "reason"; p_zeros 7;
   p_obj "desc"]
  (t_len 2) None []
  [u_check 1 2; u_check 1 12; u_slice 4; u_int 4 "xid"; u_int 1 "reason"; u_skip 7;
   u_obj "desc" "common.port_desc"]
  false
  ["xid"; "reason"; "desc"]
  [q_hex_or_none "xid"; q_hex "reason"; q_pp "desc"].

Definition queue_get_config_reply : cls := mk_cls "message.queue_get_config_reply"
  ["version" ↦ 2; "type" ↦ 23]
  [("xid", VNone); ("port", VInt 0); ("queues", VList [])]
  [p_int 1 "version"; p_int 1 "type"; p_placeholder; p_int 4 "xid"; p_int 4 "port"; p_zeros 4;
   p_list "queues"]
  (t_len 2) None []
  [u_check 1 2; u_check 1 23; u_slice 4; u_int 4 "xid"; u_int 4 "port"; u_skip 4;
   u_list "queues" "common.packet_queue"]
  false
  ["xid"; "port"; "queues"]
  [q_hex_or_none "xid"; q_port "port"; q_pp "queues"].

Definition queue_get_config_request : cls := mk_cls "message.queue_get_config_request"
  ["version" ↦ 2; "type" ↦ 22]
  [("xid", VNone); ("port", VInt 0)]
  [p_int 1 "version"; p_int 1 "type"; p_placeholder; p_int 4 "xid"; p_int 4 "port"; p_zeros 4]
  (t_len 2) None []
  [u_check 1 2; u_check 1 22; u_slice 4; u_int 4 "xid"; u_int 4 "port"; u_skip 4]
  false
  ["xid"; "port"]
  [q_hex_or_none "xid"; q_port "port"].

Definition queue_op_failed_error_msg : cls := mk_cls "message.queue_op_failed_error_msg"
  ["version" ↦ 2; "type" ↦ 1; "err_type" ↦ 9]
  [("xid", VNone); ("code", VInt 0); ("data", VStr [])]
  [p_int 1 "version"; p_int 1 "type"; p_placeholder; p_int 4 "xid"; p_int 2 "err_type"; p_int 2 "code";
   p_raw "data"]
  (t_len 2) None []
  [u_check 1 2; u_check 1 1; u_slice 4; u_int 4 "xid"; u_check 2 9; u_int 2 "code"; u_rest "data"]
  false
  ["xid"; "code"; "data"]
  [q_hex_or_none "xid"; q_hex "code"; q_pp "data"].

Definition queue_stats_reply : cls := mk_cls "message.queue_stats_reply"
  ["version" ↦ 2; "type" ↦ 19; "stats_type" ↦ 5]
  [("xid", VNone); ("flags", VInt 0); ("entries", VList [])]
  [p_int 1 "version"; p_int 1 "type"; p_placeholder; p_int 4 "xid"; p_int 2 "stats_type"; p_int 2 "flags";
   p_zeros 4; p_list "entries"]
  (t_len 2) None []
  [u_check 1 2; u_check 1 19; u_slice 4; u_int 4 "xid"; u_check 2 5; u_int 2 "flags"; u_skip 4;
   u_list "entries" "common.queue_stats_entry"]
  false
  ["xid"; "flags"; "entries"]
  [q_hex_or_none "xid"; q_hex "flags"; q_pp "entries"].

Definition queue_stats_request : cls := mk_cls "message.queue_stats_request"
  ["version" ↦ 2; "type" ↦ 18; "stats_type" ↦ 5]
  [("xid", VNone); ("flags", VInt 0); ("port_no", VInt 0); ("queue_id", VInt 0)]
  [p_int 1 "version"; p_int 1 "type"; p_placeholder; p_int 4 "xid"; p_int 2 "stats_type"; p_int 2 "flags";
   p_zeros 4; p_int 4 "port_no"; p_int 4 "queue_id"]
  (t_len 2) None []
  [u_check 1 2; u_check 1 18; u_slice 4; u_int 4 "xid"; u_check 2 5; u_int 2 "flags"; u_skip 4;
   u_int 4 "port_no"; u_int 4 "queue_id"]
  false
  ["xid"; "flags"; "port_no"; "queue_id"]
  [q_hex_or_none "xid"; q_hex "flags"; q_port "port_no"; q_hex "queue_id"].

Definition set_config : cls := mk_cls "message.set_config"
  ["version" ↦ 2; "type" ↦ 9]
  [("xid", VNone); ("flags", VInt 0); ("miss_send_len", VInt 0)]
  [p_int 1 "version"; p_int 1 "type"; p_placeholder; p_int 4 "xid"; p_int 2 "flags";
   p_int 2 "miss_send_len"]
  (t_len 2) None []
  [u_check 1 2; u_check 1 9; u_slice 4; u_int 4 "xid"; u_int 2 "flags"; u_int 2 "miss_send_len"]
  false
  ["xid"; "flags"; "miss_send_len"]
  [q_hex_or_none "xid"; q_hex "flags"; q_hex "miss_send_len"].

Definition switch_config_failed_error_msg : cls := mk_cls "message.switch_config_failed_error_msg"
  ["version" ↦ 2; "type" ↦ 1; "err_type" ↦ 10]
  [("xid", VNone); ("code", VInt 0); ("data", VStr [])]
  [p_int 1 "version"; p_int 1 "type"; p_placeholder; p_int 4 "xid"; p_int 2 "err_type"; p_int 2 "code";
   p_raw "data"]
  (t_len 2) None []
  [u_check 1 2; u_check 1 1; u_slice 4; u_int 4 "xid"; u_check 2 10; u_int 2 "code"; u_rest "data"]
  false
  ["xid"; "code"; "data"]
  [q_hex_or_none "xid"; q_hex "code"; q_pp "data"].

Definition table_mod : cls := mk_cls "message.table_mod"
  ["version" ↦ 2; "type" ↦ 17]
  [("xid", VNone); ("table_id", VInt 0); ("config", VInt 0)]
  [p_int 1 "version"; p_int 1 "type"; p_placeholder; p_int 4 "xid"; p_int 1 "table_id"; p_zeros 3;
   p_int 4 "config"]
  (t_len 2) None []
  [u_check 1 2; u_check 1 17; u_slice 4; u_int 4 "xid"; u_int 1 "table_id"; u_skip 3; u_int 4 "config"]
  false
  ["xid"; "table_id"; "config"]
  [q_hex_or_none "xid"; q_hex "table_id"; q_hex "config"].

Definition table_mod_failed_error_msg : cls := mk_cls "message.table_mod_failed_error_msg"
  ["version" ↦ 2; "type" ↦ 1; "err_type" ↦ 8]
  [("xid", VNone); ("code", VInt 0); ("data", VStr [])]
  [p_int 1 "version"; p_int 1 "type"; p_placeholder; p_int 4 "xid"; p_int 2 "err_type"; p_int 2 "code";
   p_raw "data"]
  (t_len 2) None []
  [u_check 1 2; u_check 1 1; u_slice 4; u_int 4 "xid"; u_check 2 8; u_int 2 "code"; u_rest "data"]
  false
  ["xid"; "code"; "data"]
  [q_hex_or_none "xid"; q_hex "code"; q_pp "data"].

Definition table_stats_reply : cls := mk_cls "message.table_stats_reply"
  ["version" ↦ 2; "type" ↦ 19; "stats_type" ↦ 3]
  [("xid", VNone); ("flags", VInt 0); ("entries", VList [])]
  [p_int 1 "version"; p_int 1 "type"; p_placeholder; p_int 4 "xid"; p_int 2 "stats_type"; p_int 2 "flags";
   p_zeros 4; p_list "entries"]
  (t_len 2) None []
  [u_check 1 2; u_check 1 19; u_slice 4; u_int 4 "xid"; u_check 2 3; u_int 2 "flags"; u_skip 4;
   u_list "entries" "common.table_stats_entry"]
  false
  ["xid"; "flags"; "entries"]
  [q_hex_or_none "xid"; q_hex "flags"; q_pp "entries"].

Definition table_stats_request : cls := mk_cls "message.table_stats_request"
  ["version" ↦ 2; "type" ↦ 18; "stats_type" ↦ 3]
  [("xid", VNone); ("flags", VInt 0)]
  [p_int 1 "version"; p_int 1 "type"; p_placeholder; p_int 4 "xid"; p_int 2 "stats_type"; p_int 2 "flags";
   p_zeros 4]
  (t_len 2) None []
  [u_check 1 2; u_check 1 18; u_slice 4; u_int 4 "xid"; u_check 2 3; u_int 2 "flags"; u_skip 4]
  false
  ["xid"; "flags"]
  [q_hex_or_none "xid"; q_hex "flags"].

Definition classes : list cls :=
  [message; stats_reply; aggregate_stats_reply; stats_request; aggregate_stats_request; error_msg;
   bad_action_error_msg; bad_instruction_error_msg; bad_match_error_msg; bad_request_error_msg;
   barrier_reply; barrier_request; experimenter; bsn_header; bsn_bw_clear_data_reply;
   bsn_bw_clear_data_request; bsn_bw_enable_get_reply; bsn_bw_enable_get_request; bsn_bw_enable_set_reply;
   bsn_bw_enable_set_request; bsn_get_interfaces_reply; bsn_get_interfaces_request;
   bsn_get_mirroring_reply; bsn_get_mirroring_request; bsn_pdu_rx_reply; bsn_pdu_rx_request;
   bsn_pdu_rx_timeout; bsn_pdu_tx_reply; bsn_pdu_tx_request; bsn_set_mirroring;
   bsn_set_pktin_suppression_reply; bsn_set_pktin_suppression_request; experimenter_stats_reply;
   bsn_stats_reply; experimenter_stats_request; bsn_stats_request; bsn_virtual_port_create_reply;
   bsn_virtual_port_create_request; bsn_virtual_port_remove_reply; bsn_virtual_port_remove_request;
   desc_stats_reply; desc_stats_request; echo_reply; echo_request; features_reply; features_request;
   flow_mod; flow_add; flow_delete; flow_delete_strict; flow_mod_failed_error_msg; flow_modify;
   flow_modify_strict; flow_removed; flow_stats_reply; flow_stats_request; get_config_reply;
   get_config_request; group_mod; group_add; group_delete; group_desc_stats_reply;
   group_desc_stats_request; group_mod_failed_error_msg; group_modify; group_stats_reply;
   group_stats_request; hello; hello_failed_error_msg; nicira_header; packet_in; packet_out; port_mod;
   port_mod_failed_error_msg; port_stats_reply; port_stats_request; port_status; queue_get_config_reply;
   queue_get_config_request; queue_op_failed_error_msg; queue_stats_reply; queue_stats_request;
   set_config; switch_config_failed_error_msg; table_mod; table_mod_failed_error_msg; table_stats_reply;
   table_stats_request].
End Message.

(** ** The classes of the version together, and what the comparison of their
    methods gives *)

Definition of11 : list cls :=
  Message.classes ++ Common.classes ++ Action.classes ++ Instruction.classes.

Lemma of11_agrees : length of11 = 145 ∧ NoDup (c_name <$> of11) ∧ disagreeing of11 = [].
Proof. split_and!; [reflexivity|apply (bool_decide_unpack _); vm_compute; exact I|vm_compute; reflexivity]. Qed.
Lemma of11_reading : reading_checked of11 = true.
Proof. vm_compute. reflexivity. Qed.
Lemma of11_messages : messages_checked (by_name of11) 2 (message_names of11) = true.
Proof. vm_compute. reflexivity. Qed.
Lemma of11_equality : forallb eq_checked of11 = true.
Proof. vm_compute. reflexivity. Qed.
