(* ===== verification/Of12Match.v ===== *)
(** * OpenFlow 1.2: match fields (of12/oxm.py)

    One definition per class of the generated bindings, with the statements of its
    methods; see LoxiWire for what they mean. *)

From Stdlib Require Import Strings.Byte.
From stdpp Require Import prelude strings list.
From S2P Require Import Prelude LoxiWire.

Module Oxm.
Import LoxiNotations.

Definition oxm : cls := mk_cls "oxm.oxm"
  []
  [("type_len", VInt 0)]
  [p_int 4 "type_len"]
  t_none (Some (4, 0))
  [2147494402 ⇒ "oxm.arp_op"; 2147494660 ⇒ "oxm.arp_op_masked"; 2147495942 ⇒ "oxm.arp_sha";
   2147496204 ⇒ "oxm.arp_sha_masked"; 2147494916 ⇒ "oxm.arp_spa"; 2147495176 ⇒ "oxm.arp_spa_masked";
   2147496454 ⇒ "oxm.arp_tha"; 2147496716 ⇒ "oxm.arp_tha_masked"; 2147495428 ⇒ "oxm.arp_tpa";
   2147495688 ⇒ "oxm.arp_tpa_masked"; 200196 ⇒ "oxm.bsn_egr_port_group_id";
   200456 ⇒ "oxm.bsn_egr_port_group_id_masked"; 198145 ⇒ "oxm.bsn_global_vrf_allowed";
   198402 ⇒ "oxm.bsn_global_vrf_allowed_masked"; 196624 ⇒ "oxm.bsn_in_ports_128";
   196896 ⇒ "oxm.bsn_in_ports_128_masked"; 206400 ⇒ "oxm.bsn_in_ports_512";
   206720 ⇒ "oxm.bsn_in_ports_512_masked"; 206852 ⇒ "oxm.bsn_ingress_port_group_id";
   207112 ⇒ "oxm.bsn_ingress_port_group_id_masked"; 205825 ⇒ "oxm.bsn_l2_cache_hit";
   206082 ⇒ "oxm.bsn_l2_cache_hit_masked"; 199684 ⇒ "oxm.bsn_l3_dst_class_id";
   199944 ⇒ "oxm.bsn_l3_dst_class_id_masked"; 198660 ⇒ "oxm.bsn_l3_interface_class_id";
   198920 ⇒ "oxm.bsn_l3_interface_class_id_masked"; 199172 ⇒ "oxm.bsn_l3_src_class_id";
   199432 ⇒ "oxm.bsn_l3_src_class_id_masked"; 197124 ⇒ "oxm.bsn_lag_id"; 197384 ⇒ "oxm.bsn_lag_id_masked";
   204802 ⇒ "oxm.bsn_tcp_flags"; 205060 ⇒ "oxm.bsn_tcp_flags_masked"; 200708 ⇒ "oxm.bsn_udf0";
   200968 ⇒ "oxm.bsn_udf0_masked"; 201220 ⇒ "oxm.bsn_udf1"; 201480 ⇒ "oxm.bsn_udf1_masked";
   201732 ⇒ "oxm.bsn_udf2"; 201992 ⇒ "oxm.bsn_udf2_masked"; 202244 ⇒ "oxm.bsn_udf3";
   202504 ⇒ "oxm.bsn_udf3_masked"; 202756 ⇒ "oxm.bsn_udf4"; 203016 ⇒ "oxm.bsn_udf4_masked";
   203268 ⇒ "oxm.bsn_udf5"; 203528 ⇒ "oxm.bsn_udf5_masked"; 203780 ⇒ "oxm.bsn_udf6";
   204040 ⇒ "oxm.bsn_udf6_masked"; 204292 ⇒ "oxm.bsn_udf7"; 204552 ⇒ "oxm.bsn_udf7_masked";
   205316 ⇒ "oxm.bsn_vlan_xlate_port_group_id"; 205576 ⇒ "oxm.bsn_vlan_xlate_port_group_id_masked";
   197636 ⇒ "oxm.bsn_vrf"; 197896 ⇒ "oxm.bsn_vrf_masked"; 2147485190 ⇒ "oxm.eth_dst";
   2147485452 ⇒ "oxm.eth_dst_masked"; 2147485702 ⇒ "oxm.eth_src"; 2147485964 ⇒ "oxm.eth_src_masked";
   2147486210 ⇒ "oxm.eth_type"; 2147486468 ⇒ "oxm.eth_type_masked"; 2147493889 ⇒ "oxm.icmpv4_code";
   2147494146 ⇒ "oxm.icmpv4_code_masked"; 2147493377 ⇒ "oxm.icmpv4_type";
   2147493634 ⇒ "oxm.icmpv4_type_masked"; 2147499009 ⇒ "oxm.icmpv6_code";
   2147499266 ⇒ "oxm.icmpv6_code_masked"; 2147498497 ⇒ "oxm.icmpv6_type";
   2147498754 ⇒ "oxm.icmpv6_type_masked"; 2147484164 ⇒ "oxm.in_phy_port";
   2147484424 ⇒ "oxm.in_phy_port_masked"; 2147483652 ⇒ "oxm.in_port"; 2147483912 ⇒ "oxm.in_port_masked";
   2147487745 ⇒ "oxm.ip_dscp"; 2147488002 ⇒ "oxm.ip_dscp_masked"; 2147488257 ⇒ "oxm.ip_ecn";
   2147488514 ⇒ "oxm.ip_ecn_masked"; 2147488769 ⇒ "oxm.ip_proto"; 2147489026 ⇒ "oxm.ip_proto_masked";
   2147489796 ⇒ "oxm.ipv4_dst"; 2147490056 ⇒ "oxm.ipv4_dst_masked"; 2147489284 ⇒ "oxm.ipv4_src";
   2147489544 ⇒ "oxm.ipv4_src_masked"; 2147497488 ⇒ "oxm.ipv6_dst"; 2147497760 ⇒ "oxm.ipv6_dst_masked";
   2147497988 ⇒ "oxm.ipv6_flabel"; 2147498248 ⇒ "oxm.ipv6_flabel_masked"; 2147500038 ⇒ "oxm.ipv6_nd_sll";
   2147500300 ⇒ "oxm.ipv6_nd_sll_masked"; 2147499536 ⇒ "oxm.ipv6_nd_target";
   2147499808 ⇒ "oxm.ipv6_nd_target_masked"; 2147500550 ⇒ "oxm.ipv6_nd_tll";
   2147500812 ⇒ "oxm.ipv6_nd_tll_masked"; 2147496976 ⇒ "oxm.ipv6_src"; 2147497248 ⇒ "oxm.ipv6_src_masked";
   2147484680 ⇒ "oxm.metadata"; 2147484944 ⇒ "oxm.metadata_masked"; 2147501060 ⇒ "oxm.mpls_label";
   2147501320 ⇒ "oxm.mpls_label_masked"; 2147501569 ⇒ "oxm.mpls_tc"; 2147501826 ⇒ "oxm.mpls_tc_masked";
   2147492866 ⇒ "oxm.sctp_dst"; 2147493124 ⇒ "oxm.sctp_dst_masked"; 2147492354 ⇒ "oxm.sctp_src";
   2147492612 ⇒ "oxm.sctp_src_masked"; 2147490818 ⇒ "oxm.tcp_dst"; 2147491076 ⇒ "oxm.tcp_dst_masked";
   2147490306 ⇒ "oxm.tcp_src"; 2147490564 ⇒ "oxm.tcp_src_masked"; 81924 ⇒ "oxm.tunnel_ipv4_dst";
   82184 ⇒ "oxm.tunnel_ipv4_dst_masked"; 81412 ⇒ "oxm.tunnel_ipv4_src";
   81672 ⇒ "oxm.tunnel_ipv4_src_masked"; 2147491842 ⇒ "oxm.udp_dst"; 2147492100 ⇒ "oxm.udp_dst_masked";
   2147491330 ⇒ "oxm.udp_src"; 2147491588 ⇒ "oxm.udp_src_masked"; 2147487233 ⇒ "oxm.vlan_pcp";
   2147487490 ⇒ "oxm.vlan_pcp_masked"; 2147486722 ⇒ "oxm.vlan_vid"; 2147486980 ⇒ "oxm.vlan_vid_masked"]
  [u_int 4 "type_len"]
  false
  ["type_len"]
  [].

Definition arp_op : cls := mk_cls "oxm.arp_op"
  ["type_len" ↦ 2147494402]
  [("value", VInt 0)]
  [p_int 4 "type_len"; p_int 2 "value"]
  t_none None []
  [u_check 4 2147494402; u_int 2 "value"]
  false
  ["value"]
  [q_hex "value"].

Definition arp_op_masked : cls := mk_cls "oxm.arp_op_masked"
  ["type_len" ↦ 2147494660]
  [("value", VInt 0); ("value_mask", VInt 0)]
  [p_int 4 "type_len"; p_int 2 "value"; p_int 2 "value_mask"]
  t_none None []
  [u_check 4 2147494660; u_int 2 "value"; u_int 2 "value_mask"]
  false
  ["value"; "value_mask"]
  [q_hex "value"; q_hex "value_mask"].

Definition arp_sha : cls := mk_cls "oxm.arp_sha"
  ["type_len" ↦ 2147495942]
  [("value", VInts [0; 0; 0; 0; 0; 0]%Z)]
  [p_int 4 "type_len"; p_bytes 6 "value"]
  t_none None []
  [u_check 4 2147495942; u_bytes 6 "value"]
  false
  ["value"]
  [q_mac "value"].

Definition arp_sha_masked : cls := mk_cls "oxm.arp_sha_masked"
  ["type_len" ↦ 2147496204]
  [("value", VInts [0; 0; 0; 0; 0; 0]%Z); ("value_mask", VInts [0; 0; 0; 0; 0; 0]%Z)]
  [p_int 4 "type_len"; p_bytes 6 "value"; p_bytes 6 "value_mask"]
  t_none None []
  [u_check 4 2147496204; u_bytes 6 "value"; u_bytes 6 "value_mask"]
  false
  ["value"; "value_mask"]
  [q_mac "value"; q_mac "value_mask"].

Definition arp_spa : cls := mk_cls "oxm.arp_spa"
  ["type_len" ↦ 2147494916]
  [("value", VInt 0)]
  [p_int 4 "type_len"; p_int 4 "value"]
  t_none None []
  [u_check 4 2147494916; u_int 4 "value"]
  false
  ["value"]
  [q_hex "value"].

Definition arp_spa_masked : cls := mk_cls "oxm.arp_spa_masked"
  ["type_len" ↦ 2147495176]
  [("value", VInt 0); ("value_mask", VInt 0)]
  [p_int 4 "type_len"; p_int 4 "value"; p_int 4 "value_mask"]
  t_none None []
  [u_check 4 2147495176; u_int 4 "value"; u_int 4 "value_mask"]
  false
  ["value"; "value_mask"]
  [q_hex "value"; q_hex "value_mask"].

Definition arp_tha : cls := mk_cls "oxm.arp_tha"
  ["type_len" ↦ 2147496454]
  [("value", VInts [0; 0; 0; 0; 0; 0]%Z)]
  [p_int 4 "type_len"; p_bytes 6 "value"]
  t_none None []
  [u_check 4 2147496454; u_bytes 6 "value"]
  false
  ["value"]
  [q_mac "value"].

Definition arp_tha_masked : cls := mk_cls "oxm.arp_tha_masked"
  ["type_len" ↦ 2147496716]
  [("value", VInts [0; 0; 0; 0; 0; 0]%Z); ("value_mask", VInts [0; 0; 0; 0; 0; 0]%Z)]
  [p_int 4 "type_len"; p_bytes 6 "value"; p_bytes 6 "value_mask"]
  t_none None []
  [u_check 4 2147496716; u_bytes 6 "value"; u_bytes 6 "value_mask"]
  false
  ["value"; "value_mask"]
  [q_mac "value"; q_mac "value_mask"].

Definition arp_tpa : cls := mk_cls "oxm.arp_tpa"
  ["type_len" ↦ 2147495428]
  [("value", VInt 0)]
  [p_int 4 "type_len"; p_int 4 "value"]
  t_none None []
  [u_check 4 2147495428; u_int 4 "value"]
  false
  ["value"]
  [q_hex "value"].

Definition arp_tpa_masked : cls := mk_cls "oxm.arp_tpa_masked"
  ["type_len" ↦ 2147495688]
  [("value", VInt 0); ("value_mask", VInt 0)]
  [p_int 4 "type_len"; p_int 4 "value"; p_int 4 "value_mask"]
  t_none None []
  [u_check 4 2147495688; u_int 4 "value"; u_int 4 "value_mask"]
  false
  ["value"; "value_mask"]
  [q_hex "value"; q_hex "value_mask"].

Definition bsn_egr_port_group_id : cls := mk_cls "oxm.bsn_egr_port_group_id"
  ["type_len" ↦ 200196]
  [("value", VInt 0)]
  [p_int 4 "type_len"; p_int 4 "value"]
  t_none None []
  [u_check 4 200196; u_int 4 "value"]
  false
  ["value"]
  [q_hex "value"].

Definition bsn_egr_port_group_id_masked : cls := mk_cls "oxm.bsn_egr_port_group_id_masked"
  ["type_len" ↦ 200456]
  [("value", VInt 0); ("value_mask", VInt 0)]
  [p_int 4 "type_len"; p_int 4 "value"; p_int 4 "value_mask"]
  t_none None []
  [u_check 4 200456; u_int 4 "value"; u_int 4 "value_mask"]
  false
  ["value"; "value_mask"]
  [q_hex "value"; q_hex "value_mask"].

Definition bsn_global_vrf_allowed : cls := mk_cls "oxm.bsn_global_vrf_allowed"
  ["type_len" ↦ 198145]
  [("value", VInt 0)]
  [p_int 4 "type_len"; p_int 1 "value"]
  t_none None []
  [u_check 4 198145; u_int 1 "value"]
  false
  ["value"]
  [q_hex "value"].

Definition bsn_global_vrf_allowed_masked : cls := mk_cls "oxm.bsn_global_vrf_allowed_masked"
  ["type_len" ↦ 198402]
  [("value", VInt 0); ("value_mask", VInt 0)]
  [p_int 4 "type_len"; p_int 1 "value"; p_int 1 "value_mask"]
  t_none None []
  [u_check 4 198402; u_int 1 "value"; u_int 1 "value_mask"]
  false
  ["value"; "value_mask"]
  [q_hex "value"; q_hex "value_mask"].

Definition bsn_in_ports_128 : cls := mk_cls "oxm.bsn_in_ports_128"
  ["type_len" ↦ 196624]
  [("value", VSet [])]
  [p_int 4 "type_len"; p_bitmap_128 "value"]
  t_none None []
  [u_check 4 196624; u_bitmap_128 "value"]
  false
  ["value"]
  [q_pp "value"].

Definition bsn_in_ports_128_masked : cls := mk_cls "oxm.bsn_in_ports_128_masked"
  ["type_len" ↦ 196896]
  [("value", VSet []); ("value_mask", VSet [])]
  [p_int 4 "type_len"; p_bitmap_128 "value"; p_bitmap_128 "value_mask"]
  t_none None []
  [u_check 4 196896; u_bitmap_128 "value"; u_bitmap_128 "value_mask"]
  false
  ["value"; "value_mask"]
  [q_pp "value"; q_pp "value_mask"].

Definition bsn_in_ports_512 : cls := mk_cls "oxm.bsn_in_ports_512"
  ["type_len" ↦ 206400]
  [("value", VSet [])]
  [p_int 4 "type_len"; p_bitmap_512 "value"]
  t_none None []
  [u_check 4 206400; u_bitmap_512 "value"]
  false
  ["value"]
  [q_pp "value"].

Definition bsn_in_ports_512_masked : cls := mk_cls "oxm.bsn_in_ports_512_masked"
  ["type_len" ↦ 206720]
  [("value", VSet []); ("value_mask", VSet [])]
  [p_int 4 "type_len"; p_bitmap_512 "value"; p_bitmap_512 "value_mask"]
  t_none None []
  [u_check 4 206720; u_bitmap_512 "value"; u_bitmap_512 "value_mask"]
  false
  ["value"; "value_mask"]
  [q_pp "value"; q_pp "value_mask"].

Definition bsn_ingress_port_group_id : cls := mk_cls "oxm.bsn_ingress_port_group_id"
  ["type_len" ↦ 206852]
  [("value", VInt 0)]
  [p_int 4 "type_len"; p_int 4 "value"]
  t_none None []
  [u_check 4 206852; u_int 4 "value"]
  false
  ["value"]
  [q_hex "value"].

Definition bsn_ingress_port_group_id_masked : cls := mk_cls "oxm.bsn_ingress_port_group_id_masked"
  ["type_len" ↦ 207112]
  [("value", VInt 0); ("value_mask", VInt 0)]
  [p_int 4 "type_len"; p_int 4 "value"; p_int 4 "value_mask"]
  t_none None []
  [u_check 4 207112; u_int 4 "value"; u_int 4 "value_mask"]
  false
  ["value"; "value_mask"]
  [q_hex "value"; q_hex "value_mask"].

Definition bsn_l2_cache_hit : cls := mk_cls "oxm.bsn_l2_cache_hit"
  ["type_len" ↦ 205825]
  [("value", VInt 0)]
  [p_int 4 "type_len"; p_int 1 "value"]
  t_none None []
  [u_check 4 205825; u_int 1 "value"]
  false
  ["value"]
  [q_hex "value"].

Definition bsn_l2_cache_hit_masked : cls := mk_cls "oxm.bsn_l2_cache_hit_masked"
  ["type_len" ↦ 206082]
  [("value", VInt 0); ("value_mask", VInt 0)]
  [p_int 4 "type_len"; p_int 1 "value"; p_int 1 "value_mask"]
  t_none None []
  [u_check 4 206082; u_int 1 "value"; u_int 1 "value_mask"]
  false
  ["value"; "value_mask"]
  [q_hex "value"; q_hex "value_mask"].

Definition bsn_l3_dst_class_id : cls := mk_cls "oxm.bsn_l3_dst_class_id"
  ["type_len" ↦ 199684]
  [("value", VInt 0)]
  [p_int 4 "type_len"; p_int 4 "value"]
  t_none None []
  [u_check 4 199684; u_int 4 "value"]
  false
  ["value"]
  [q_hex "value"].

Definition bsn_l3_dst_class_id_masked : cls := mk_cls "oxm.bsn_l3_dst_class_id_masked"
  ["type_len" ↦ 199944]
  [("value", VInt 0); ("value_mask", VInt 0)]
  [p_int 4 "type_len"; p_int 4 "value"; p_int 4 "value_mask"]
  t_none None []
  [u_check 4 199944; u_int 4 "value"; u_int 4 "value_mask"]
  false
  ["value"; "value_mask"]
  [q_hex "value"; q_hex "value_mask"].

Definition bsn_l3_interface_class_id : cls := mk_cls "oxm.bsn_l3_interface_class_id"
  ["type_len" ↦ 198660]
  [("value", VInt 0)]
  [p_int 4 "type_len"; p_int 4 "value"]
  t_none None []
  [u_check 4 198660; u_int 4 "value"]
  false
  ["value"]
  [q_hex "value"].

Definition bsn_l3_interface_class_id_masked : cls := mk_cls "oxm.bsn_l3_interface_class_id_masked"
  ["type_len" ↦ 198920]
  [("value", VInt 0); ("value_mask", VInt 0)]
  [p_int 4 "type_len"; p_int 4 "value"; p_int 4 "value_mask"]
  t_none None []
  [u_check 4 198920; u_int 4 "value"; u_int 4 "value_mask"]
  false
  ["value"; "value_mask"]
  [q_hex "value"; q_hex "value_mask"].

Definition bsn_l3_src_class_id : cls := mk_cls "oxm.bsn_l3_src_class_id"
  ["type_len" ↦ 199172]
  [("value", VInt 0)]
  [p_int 4 "type_len"; p_int 4 "value"]
  t_none None []
  [u_check 4 199172; u_int 4 "value"]
  false
  ["value"]
  [q_hex "value"].

Definition bsn_l3_src_class_id_masked : cls := mk_cls "oxm.bsn_l3_src_class_id_masked"
  ["type_len" ↦ 199432]
  [("value", VInt 0); ("value_mask", VInt 0)]
  [p_int 4 "type_len"; p_int 4 "value"; p_int 4 "value_mask"]
  t_none None []
  [u_check 4 199432; u_int 4 "value"; u_int 4 "value_mask"]
  false
  ["value"; "value_mask"]
  [q_hex "value"; q_hex "value_mask"].

Definition bsn_lag_id : cls := mk_cls "oxm.bsn_lag_id"
  ["type_len" ↦ 197124]
  [("value", VInt 0)]
  [p_int 4 "type_len"; p_int 4 "value"]
  t_none None []
  [u_check 4 197124; u_int 4 "value"]
  false
  ["value"]
  [q_hex "value"].

Definition bsn_lag_id_masked : cls := mk_cls "oxm.bsn_lag_id_masked"
  ["type_len" ↦ 197384]
  [("value", VInt 0); ("value_mask", VInt 0)]
  [p_int 4 "type_len"; p_int 4 "value"; p_int 4 "value_mask"]
  t_none None []
  [u_check 4 197384; u_int 4 "value"; u_int 4 "value_mask"]
  false
  ["value"; "value_mask"]
  [q_hex "value"; q_hex "value_mask"].

Definition bsn_tcp_flags : cls := mk_cls "oxm.bsn_tcp_flags"
  ["type_len" ↦ 204802]
  [("value", VInt 0)]
  [p_int 4 "type_len"; p_int 2 "value"]
  t_none None []
  [u_check 4 204802; u_int 2 "value"]
  false
  ["value"]
  [q_hex "value"].

Definition bsn_tcp_flags_masked : cls := mk_cls "oxm.bsn_tcp_flags_masked"
  ["type_len" ↦ 205060]
  [("value", VInt 0); ("value_mask", VInt 0)]
  [p_int 4 "type_len"; p_int 2 "value"; p_int 2 "value_mask"]
  t_none None []
  [u_check 4 205060; u_int 2 "value"; u_int 2 "value_mask"]
  false
  ["value"; "value_mask"]
  [q_hex "value"; q_hex "value_mask"].

Definition bsn_udf0 : cls := mk_cls "oxm.bsn_udf0"
  ["type_len" ↦ 200708]
  [("value", VInt 0)]
  [p_int 4 "type_len"; p_int 4 "value"]
  t_none None []
  [u_check 4 200708; u_int 4 "value"]
  false
  ["value"]
  [q_hex "value"].

Definition bsn_udf0_masked : cls := mk_cls "oxm.bsn_udf0_masked"
  ["type_len" ↦ 200968]
  [("value", VInt 0); ("value_mask", VInt 0)]
  [p_int 4 "type_len"; p_int 4 "value"; p_int 4 "value_mask"]
  t_none None []
  [u_check 4 200968; u_int 4 "value"; u_int 4 "value_mask"]
  false
  ["value"; "value_mask"]
  [q_hex "value"; q_hex "value_mask"].

Definition bsn_udf1 : cls := mk_cls "oxm.bsn_udf1"
  ["type_len" ↦ 201220]
  [("value", VInt 0)]
  [p_int 4 "type_len"; p_int 4 "value"]
  t_none None []
  [u_check 4 201220; u_int 4 "value"]
  false
  ["value"]
  [q_hex "value"].

Definition bsn_udf1_masked : cls := mk_cls "oxm.bsn_udf1_masked"
  ["type_len" ↦ 201480]
  [("value", VInt 0); ("value_mask", VInt 0)]
  [p_int 4 "type_len"; p_int 4 "value"; p_int 4 "value_mask"]
  t_none None []
  [u_check 4 201480; u_int 4 "value"; u_int 4 "value_mask"]
  false
  ["value"; "value_mask"]
  [q_hex "value"; q_hex "value_mask"].

Definition bsn_udf2 : cls := mk_cls "oxm.bsn_udf2"
  ["type_len" ↦ 201732]
  [("value", VInt 0)]
  [p_int 4 "type_len"; p_int 4 "value"]
  t_none None []
  [u_check 4 201732; u_int 4 "value"]
  false
  ["value"]
  [q_hex "value"].

Definition bsn_udf2_masked : cls := mk_cls "oxm.bsn_udf2_masked"
  ["type_len" ↦ 201992]
  [("value", VInt 0); ("value_mask", VInt 0)]
  [p_int 4 "type_len"; p_int 4 "value"; p_int 4 "value_mask"]
  t_none None []
  [u_check 4 201992; u_int 4 "value"; u_int 4 "value_mask"]
  false
  ["value"; "value_mask"]
  [q_hex "value"; q_hex "value_mask"].

Definition bsn_udf3 : cls := mk_cls "oxm.bsn_udf3"
  ["type_len" ↦ 202244]
  [("value", VInt 0)]
  [p_int 4 "type_len"; p_int 4 "value"]
  t_none None []
  [u_check 4 202244; u_int 4 "value"]
  false
  ["value"]
  [q_hex "value"].

Definition bsn_udf3_masked : cls := mk_cls "oxm.bsn_udf3_masked"
  ["type_len" ↦ 202504]
  [("value", VInt 0); ("value_mask", VInt 0)]
  [p_int 4 "type_len"; p_int 4 "value"; p_int 4 "value_mask"]
  t_none None []
  [u_check 4 202504; u_int 4 "value"; u_int 4 "value_mask"]
  false
  ["value"; "value_mask"]
  [q_hex "value"; q_hex "value_mask"].

Definition bsn_udf4 : cls := mk_cls "oxm.bsn_udf4"
  ["type_len" ↦ 202756]
  [("value", VInt 0)]
  [p_int 4 "type_len"; p_int 4 "value"]
  t_none None []
  [u_check 4 202756; u_int 4 "value"]
  false
  ["value"]
  [q_hex "value"].

Definition bsn_udf4_masked : cls := mk_cls "oxm.bsn_udf4_masked"
  ["type_len" ↦ 203016]
  [("value", VInt 0); ("value_mask", VInt 0)]
  [p_int 4 "type_len"; p_int 4 "value"; p_int 4 "value_mask"]
  t_none None []
  [u_check 4 203016; u_int 4 "value"; u_int 4 "value_mask"]
  false
  ["value"; "value_mask"]
  [q_hex "value"; q_hex "value_mask"].

Definition bsn_udf5 : cls := mk_cls "oxm.bsn_udf5"
  ["type_len" ↦ 203268]
  [("value", VInt 0)]
  [p_int 4 "type_len"; p_int 4 "value"]
  t_none None []
  [u_check 4 203268; u_int 4 "value"]
  false
  ["value"]
  [q_hex "value"].

Definition bsn_udf5_masked : cls := mk_cls "oxm.bsn_udf5_masked"
  ["type_len" ↦ 203528]
  [("value", VInt 0); ("value_mask", VInt 0)]
  [p_int 4 "type_len"; p_int 4 "value"; p_int 4 "value_mask"]
  t_none None []
  [u_check 4 203528; u_int 4 "value"; u_int 4 "value_mask"]
  false
  ["value"; "value_mask"]
  [q_hex "value"; q_hex "value_mask"].

Definition bsn_udf6 : cls := mk_cls "oxm.bsn_udf6"
  ["type_len" ↦ 203780]
  [("value", VInt 0)]
  [p_int 4 "type_len"; p_int 4 "value"]
  t_none None []
  [u_check 4 203780; u_int 4 "value"]
  false
  ["value"]
  [q_hex "value"].

Definition bsn_udf6_masked : cls := mk_cls "oxm.bsn_udf6_masked"
  ["type_len" ↦ 204040]
  [("value", VInt 0); ("value_mask", VInt 0)]
  [p_int 4 "type_len"; p_int 4 "value"; p_int 4 "value_mask"]
  t_none None []
  [u_check 4 204040; u_int 4 "value"; u_int 4 "value_mask"]
  false
  ["value"; "value_mask"]
  [q_hex "value"; q_hex "value_mask"].

Definition bsn_udf7 : cls := mk_cls "oxm.bsn_udf7"
  ["type_len" ↦ 204292]
  [("value", VInt 0)]
  [p_int 4 "type_len"; p_int 4 "value"]
  t_none None []
  [u_check 4 204292; u_int 4 "value"]
  false
  ["value"]
  [q_hex "value"].

Definition bsn_udf7_masked : cls := mk_cls "oxm.bsn_udf7_masked"
  ["type_len" ↦ 204552]
  [("value", VInt 0); ("value_mask", VInt 0)]
  [p_int 4 "type_len"; p_int 4 "value"; p_int 4 "value_mask"]
  t_none None []
  [u_check 4 204552; u_int 4 "value"; u_int 4 "value_mask"]
  false
  ["value"; "value_mask"]
  [q_hex "value"; q_hex "value_mask"].

Definition bsn_vlan_xlate_port_group_id : cls := mk_cls "oxm.bsn_vlan_xlate_port_group_id"
  ["type_len" ↦ 205316]
  [("value", VInt 0)]
  [p_int 4 "type_len"; p_int 4 "value"]
  t_none None []
  [u_check 4 205316; u_int 4 "value"]
  false
  ["value"]
  [q_hex "value"].

Definition bsn_vlan_xlate_port_group_id_masked : cls := mk_cls "oxm.bsn_vlan_xlate_port_group_id_masked"
  ["type_len" ↦ 205576]
  [("value", VInt 0); ("value_mask", VInt 0)]
  [p_int 4 "type_len"; p_int 4 "value"; p_int 4 "value_mask"]
  t_none None []
  [u_check 4 205576; u_int 4 "value"; u_int 4 "value_mask"]
  false
  ["value"; "value_mask"]
  [q_hex "value"; q_hex "value_mask"].

Definition bsn_vrf : cls := mk_cls "oxm.bsn_vrf"
  ["type_len" ↦ 197636]
  [("value", VInt 0)]
  [p_int 4 "type_len"; p_int 4 "value"]
  t_none None []
  [u_check 4 197636; u_int 4 "value"]
  false
  ["value"]
  [q_hex "value"].

Definition bsn_vrf_masked : cls := mk_cls "oxm.bsn_vrf_masked"
  ["type_len" ↦ 197896]
  [("value", VInt 0); ("value_mask", VInt 0)]
  [p_int 4 "type_len"; p_int 4 "value"; p_int 4 "value_mask"]
  t_none None []
  [u_check 4 197896; u_int 4 "value"; u_int 4 "value_mask"]
  false
  ["value"; "value_mask"]
  [q_hex "value"; q_hex "value_mask"].

Definition eth_dst : cls := mk_cls "oxm.eth_dst"
  ["type_len" ↦ 2147485190]
  [("value", VInts [0; 0; 0; 0; 0; 0]%Z)]
  [p_int 4 "type_len"; p_bytes 6 "value"]
  t_none None []
  [u_check 4 2147485190; u_bytes 6 "value"]
  false
  ["value"]
  [q_mac "value"].

Definition eth_dst_masked : cls := mk_cls "oxm.eth_dst_masked"
  ["type_len" ↦ 2147485452]
  [("value", VInts [0; 0; 0; 0; 0; 0]%Z); ("value_mask", VInts [0; 0; 0; 0; 0; 0]%Z)]
  [p_int 4 "type_len"; p_bytes 6 "value"; p_bytes 6 "value_mask"]
  t_none None []
  [u_check 4 2147485452; u_bytes 6 "value"; u_bytes 6 "value_mask"]
  false
  ["value"; "value_mask"]
  [q_mac "value"; q_mac "value_mask"].

Definition eth_src : cls := mk_cls "oxm.eth_src"
  ["type_len" ↦ 2147485702]
  [("value", VInts [0; 0; 0; 0; 0; 0]%Z)]
  [p_int 4 "type_len"; p_bytes 6 "value"]
  t_none None []
  [u_check 4 2147485702; u_bytes 6 "value"]
  false
  ["value"]
  [q_mac "value"].

Definition eth_src_masked : cls := mk_cls "oxm.eth_src_masked"
  ["type_len" ↦ 2147485964]
  [("value", VInts [0; 0; 0; 0; 0; 0]%Z); ("value_mask", VInts [0; 0; 0; 0; 0; 0]%Z)]
  [p_int 4 "type_len"; p_bytes 6 "value"; p_bytes 6 "value_mask"]
  t_none None []
  [u_check 4 2147485964; u_bytes 6 "value"; u_bytes 6 "value_mask"]
  false
  ["value"; "value_mask"]
  [q_mac "value"; q_mac "value_mask"].

Definition eth_type : cls := mk_cls "oxm.eth_type"
  ["type_len" ↦ 2147486210]
  [("value", VInt 0)]
  [p_int 4 "type_len"; p_int 2 "value"]
  t_none None []
  [u_check 4 2147486210; u_int 2 "value"]
  false
  ["value"]
  [q_hex "value"].

Definition eth_type_masked : cls := mk_cls "oxm.eth_type_masked"
  ["type_len" ↦ 2147486468]
  [("value", VInt 0); ("value_mask", VInt 0)]
  [p_int 4 "type_len"; p_int 2 "value"; p_int 2 "value_mask"]
  t_none None []
  [u_check 4 2147486468; u_int 2 "value"; u_int 2 "value_mask"]
  false
  ["value"; "value_mask"]
  [q_hex "value"; q_hex "value_mask"].

Definition icmpv4_code : cls := mk_cls "oxm.icmpv4_code"
  ["type_len" ↦ 2147493889]
  [("value", VInt 0)]
  [p_int 4 "type_len"; p_int 1 "value"]
  t_none None []
  [u_check 4 2147493889; u_int 1 "value"]
  false
  ["value"]
  [q_hex "value"].

Definition icmpv4_code_masked : cls := mk_cls "oxm.icmpv4_code_masked"
  ["type_len" ↦ 2147494146]
  [("value", VInt 0); ("value_mask", VInt 0)]
  [p_int 4 "type_len"; p_int 1 "value"; p_int 1 "value_mask"]
  t_none None []
  [u_check 4 2147494146; u_int 1 "value"; u_int 1 "value_mask"]
  false
  ["value"; "value_mask"]
  [q_hex "value"; q_hex "value_mask"].

Definition icmpv4_type : cls := mk_cls "oxm.icmpv4_type"
  ["type_len" ↦ 2147493377]
  [("value", VInt 0)]
  [p_int 4 "type_len"; p_int 1 "value"]
  t_none None []
  [u_check 4 2147493377; u_int 1 "value"]
  false
  ["value"]
  [q_hex "value"].

Definition icmpv4_type_masked : cls := mk_cls "oxm.icmpv4_type_masked"
  ["type_len" ↦ 2147493634]
  [("value", VInt 0); ("value_mask", VInt 0)]
  [p_int 4 "type_len"; p_int 1 "value"; p_int 1 "value_mask"]
  t_none None []
  [u_check 4 2147493634; u_int 1 "value"; u_int 1 "value_mask"]
  false
  ["value"; "value_mask"]
  [q_hex "value"; q_hex "value_mask"].

Definition icmpv6_code : cls := mk_cls "oxm.icmpv6_code"
  ["type_len" ↦ 2147499009]
  [("value", VInt 0)]
  [p_int 4 "type_len"; p_int 1 "value"]
  t_none None []
  [u_check 4 2147499009; u_int 1 "value"]
  false
  ["value"]
  [q_hex "value"].

Definition icmpv6_code_masked : cls := mk_cls "oxm.icmpv6_code_masked"
  ["type_len" ↦ 2147499266]
  [("value", VInt 0); ("value_mask", VInt 0)]
  [p_int 4 "type_len"; p_int 1 "value"; p_int 1 "value_mask"]
  t_none None []
  [u_check 4 2147499266; u_int 1 "value"; u_int 1 "value_mask"]
  false
  ["value"; "value_mask"]
  [q_hex "value"; q_hex "value_mask"].

Definition icmpv6_type : cls := mk_cls "oxm.icmpv6_type"
  ["type_len" ↦ 2147498497]
  [("value", VInt 0)]
  [p_int 4 "type_len"; p_int 1 "value"]
  t_none None []
  [u_check 4 2147498497; u_int 1 "value"]
  false
  ["value"]
  [q_hex "value"].

Definition icmpv6_type_masked : cls := mk_cls "oxm.icmpv6_type_masked"
  ["type_len" ↦ 2147498754]
  [("value", VInt 0); ("value_mask", VInt 0)]
  [p_int 4 "type_len"; p_int 1 "value"; p_int 1 "value_mask"]
  t_none None []
  [u_check 4 2147498754; u_int 1 "value"; u_int 1 "value_mask"]
  false
  ["value"; "value_mask"]
  [q_hex "value"; q_hex "value_mask"].

Definition in_phy_port : cls := mk_cls "oxm.in_phy_port"
  ["type_len" ↦ 2147484164]
  [("value", VInt 0)]
  [p_int 4 "type_len"; p_int 4 "value"]
  t_none None []
  [u_check 4 2147484164; u_int 4 "value"]
  false
  ["value"]
  [q_port "value"].

Definition in_phy_port_masked : cls := mk_cls "oxm.in_phy_port_masked"
  ["type_len" ↦ 2147484424]
  [("value", VInt 0); ("value_mask", VInt 0)]
  [p_int 4 "type_len"; p_int 4 "value"; p_int 4 "value_mask"]
  t_none None []
  [u_check 4 2147484424; u_int 4 "value"; u_int 4 "value_mask"]
  false
  ["value"; "value_mask"]
  [q_port "value"; q_port "value_mask"].

Definition in_port : cls := mk_cls "oxm.in_port"
  ["type_len" ↦ 2147483652]
  [("value", VInt 0)]
  [p_int 4 "type_len"; p_int 4 "value"]
  t_none None []
  [u_check 4 2147483652; u_int 4 "value"]
  false
  ["value"]
  [q_port "value"].

Definition in_port_masked : cls := mk_cls "oxm.in_port_masked"
  ["type_len" ↦ 2147483912]
  [("value", VInt 0); ("value_mask", VInt 0)]
  [p_int 4 "type_len"; p_int 4 "value"; p_int 4 "value_mask"]
  t_none None []
  [u_check 4 2147483912; u_int 4 "value"; u_int 4 "value_mask"]
  false
  ["value"; "value_mask"]
  [q_port "value"; q_port "value_mask"].

Definition ip_dscp : cls := mk_cls "oxm.ip_dscp"
  ["type_len" ↦ 2147487745]
  [("value", VInt 0)]
  [p_int 4 "type_len"; p_int 1 "value"]
  t_none None []
  [u_check 4 2147487745; u_int 1 "value"]
  false
  ["value"]
  [q_hex "value"].

Definition ip_dscp_masked : cls := mk_cls "oxm.ip_dscp_masked"
  ["type_len" ↦ 2147488002]
  [("value", VInt 0); ("value_mask", VInt 0)]
  [p_int 4 "type_len"; p_int 1 "value"; p_int 1 "value_mask"]
  t_none None []
  [u_check 4 2147488002; u_int 1 "value"; u_int 1 "value_mask"]
  false
  ["value"; "value_mask"]
  [q_hex "value"; q_hex "value_mask"].

Definition ip_ecn : cls := mk_cls "oxm.ip_ecn"
  ["type_len" ↦ 2147488257]
  [("value", VInt 0)]
  [p_int 4 "type_len"; p_int 1 "value"]
  t_none None []
  [u_check 4 2147488257; u_int 1 "value"]
  false
  ["value"]
  [q_hex "value"].

Definition ip_ecn_masked : cls := mk_cls "oxm.ip_ecn_masked"
  ["type_len" ↦ 2147488514]
  [("value", VInt 0); ("value_mask", VInt 0)]
  [p_int 4 "type_len"; p_int 1 "value"; p_int 1 "value_mask"]
  t_none None []
  [u_check 4 2147488514; u_int 1 "value"; u_int 1 "value_mask"]
  false
  ["value"; "value_mask"]
  [q_hex "value"; q_hex "value_mask"].

Definition ip_proto : cls := mk_cls "oxm.ip_proto"
  ["type_len" ↦ 2147488769]
  [("value", VInt 0)]
  [p_int 4 "type_len"; p_int 1 "value"]
  t_none None []
  [u_check 4 2147488769; u_int 1 "value"]
  false
  ["value"]
  [q_hex "value"].

Definition ip_proto_masked : cls := mk_cls "oxm.ip_proto_masked"
  ["type_len" ↦ 2147489026]
  [("value", VInt 0); ("value_mask", VInt 0)]
  [p_int 4 "type_len"; p_int 1 "value"; p_int 1 "value_mask"]
  t_none None []
  [u_check 4 2147489026; u_int 1 "value"; u_int 1 "value_mask"]
  false
  ["value"; "value_mask"]
  [q_hex "value"; q_hex "value_mask"].

Definition ipv4_dst : cls := mk_cls "oxm.ipv4_dst"
  ["type_len" ↦ 2147489796]
  [("value", VInt 0)]
  [p_int 4 "type_len"; p_int 4 "value"]
  t_none None []
  [u_check 4 2147489796; u_int 4 "value"]
  false
  ["value"]
  [q_ipv4 "value"].

Definition ipv4_dst_masked : cls := mk_cls "oxm.ipv4_dst_masked"
  ["type_len" ↦ 2147490056]
  [("value", VInt 0); ("value_mask", VInt 0)]
  [p_int 4 "type_len"; p_int 4 "value"; p_int 4 "value_mask"]
  t_none None []
  [u_check 4 2147490056; u_int 4 "value"; u_int 4 "value_mask"]
  false
  ["value"; "value_mask"]
  [q_ipv4 "value"; q_ipv4 "value_mask"].

Definition ipv4_src : cls := mk_cls "oxm.ipv4_src"
  ["type_len" ↦ 2147489284]
  [("value", VInt 0)]
  [p_int 4 "type_len"; p_int 4 "value"]
  t_none None []
  [u_check 4 2147489284; u_int 4 "value"]
  false
  ["value"]
  [q_ipv4 "value"].

Definition ipv4_src_masked : cls := mk_cls "oxm.ipv4_src_masked"
  ["type_len" ↦ 2147489544]
  [("value", VInt 0); ("value_mask", VInt 0)]
  [p_int 4 "type_len"; p_int 4 "value"; p_int 4 "value_mask"]
  t_none None []
  [u_check 4 2147489544; u_int 4 "value"; u_int 4 "value_mask"]
  false
  ["value"; "value_mask"]
  [q_ipv4 "value"; q_ipv4 "value_mask"].

Definition ipv6_dst : cls := mk_cls "oxm.ipv6_dst"
  ["type_len" ↦ 2147497488]
  [("value", VStr (replicate 16 x00))]
  [p_int 4 "type_len"; p_str 16 "value"]
  t_none None []
  [u_check 4 2147497488; u_str 16 false "value"]
  false
  ["value"]
  [q_pp "value"].

Definition ipv6_dst_masked : cls := mk_cls "oxm.ipv6_dst_masked"
  ["type_len" ↦ 2147497760]
  [("value", VStr (replicate 16 x00)); ("value_mask", VStr (replicate 16 x00))]
  [p_int 4 "type_len"; p_str 16 "value"; p_str 16 "value_mask"]
  t_none None []
  [u_check 4 2147497760; u_str 16 false "value"; u_str 16 false "value_mask"]
  false
  ["value"; "value_mask"]
  [q_pp "value"; q_pp "value_mask"].

Definition ipv6_flabel : cls := mk_cls "oxm.ipv6_flabel"
  ["type_len" ↦ 2147497988]
  [("value", VInt 0)]
  [p_int 4 "type_len"; p_int 4 "value"]
  t_none None []
  [u_check 4 2147497988; u_int 4 "value"]
  false
  ["value"]
  [q_hex "value"].

Definition ipv6_flabel_masked : cls := mk_cls "oxm.ipv6_flabel_masked"
  ["type_len" ↦ 2147498248]
  [("value", VInt 0); ("value_mask", VInt 0)]
  [p_int 4 "type_len"; p_int 4 "value"; p_int 4 "value_mask"]
  t_none None []
  [u_check 4 2147498248; u_int 4 "value"; u_int 4 "value_mask"]
  false
  ["value"; "value_mask"]
  [q_hex "value"; q_hex "value_mask"].

Definition ipv6_nd_sll : cls := mk_cls "oxm.ipv6_nd_sll"
  ["type_len" ↦ 2147500038]
  [("value", VInts [0; 0; 0; 0; 0; 0]%Z)]
  [p_int 4 "type_len"; p_bytes 6 "value"]
  t_none None []
  [u_check 4 2147500038; u_bytes 6 "value"]
  false
  ["value"]
  [q_mac "value"].

Definition ipv6_nd_sll_masked : cls := mk_cls "oxm.ipv6_nd_sll_masked"
  ["type_len" ↦ 2147500300]
  [("value", VInts [0; 0; 0; 0; 0; 0]%Z); ("value_mask", VInts [0; 0; 0; 0; 0; 0]%Z)]
  [p_int 4 "type_len"; p_bytes 6 "value"; p_bytes 6 "value_mask"]
  t_none None []
  [u_check 4 2147500300; u_bytes 6 "value"; u_bytes 6 "value_mask"]
  false
  ["value"; "value_mask"]
  [q_mac "value"; q_mac "value_mask"].

Definition ipv6_nd_target : cls := mk_cls "oxm.ipv6_nd_target"
  ["type_len" ↦ 2147499536]
  [("value", VStr (replicate 16 x00))]
  [p_int 4 "type_len"; p_str 16 "value"]
  t_none None []
  [u_check 4 2147499536; u_str 16 false "value"]
  false
  ["value"]
  [q_pp "value"].

Definition ipv6_nd_target_masked : cls := mk_cls "oxm.ipv6_nd_target_masked"
  ["type_len" ↦ 2147499808]
  [("value", VStr (replicate 16 x00)); ("value_mask", VStr (replicate 16 x00))]
  [p_int 4 "type_len"; p_str 16 "value"; p_str 16 "value_mask"]
  t_none None []
  [u_check 4 2147499808; u_str 16 false "value"; u_str 16 false "value_mask"]
  false
  ["value"; "value_mask"]
  [q_pp "value"; q_pp "value_mask"].

Definition ipv6_nd_tll : cls := mk_cls "oxm.ipv6_nd_tll"
  ["type_len" ↦ 2147500550]
  [("value", VInts [0; 0; 0; 0; 0; 0]%Z)]
  [p_int 4 "type_len"; p_bytes 6 "value"]
  t_none None []
  [u_check 4 2147500550; u_bytes 6 "value"]
  false
  ["value"]
  [q_mac "value"].

Definition ipv6_nd_tll_masked : cls := mk_cls "oxm.ipv6_nd_tll_masked"
  ["type_len" ↦ 2147500812]
  [("value", VInts [0; 0; 0; 0; 0; 0]%Z); ("value_mask", VInts [0; 0; 0; 0; 0; 0]%Z)]
  [p_int 4 "type_len"; p_bytes 6 "value"; p_bytes 6 "value_mask"]
  t_none None []
  [u_check 4 2147500812; u_bytes 6 "value"; u_bytes 6 "value_mask"]
  false
  ["value"; "value_mask"]
  [q_mac "value"; q_mac "value_mask"].

Definition ipv6_src : cls := mk_cls "oxm.ipv6_src"
  ["type_len" ↦ 2147496976]
  [("value", VStr (replicate 16 x00))]
  [p_int 4 "type_len"; p_str 16 "value"]
  t_none None []
  [u_check 4 2147496976; u_str 16 false "value"]
  false
  ["value"]
  [q_pp "value"].

Definition ipv6_src_masked : cls := mk_cls "oxm.ipv6_src_masked"
  ["type_len" ↦ 2147497248]
  [("value", VStr (replicate 16 x00)); ("value_mask", VStr (replicate 16 x00))]
  [p_int 4 "type_len"; p_str 16 "value"; p_str 16 "value_mask"]
  t_none None []
  [u_check 4 2147497248; u_str 16 false "value"; u_str 16 false "value_mask"]
  false
  ["value"; "value_mask"]
  [q_pp "value"; q_pp "value_mask"].

Definition metadata : cls := mk_cls "oxm.metadata"
  ["type_len" ↦ 2147484680]
  [("value", VInt 0)]
  [p_int 4 "type_len"; p_int 8 "value"]
  t_none None []
  [u_check 4 2147484680; u_int 8 "value"]
  false
  ["value"]
  [q_hex "value"].

Definition metadata_masked : cls := mk_cls "oxm.metadata_masked"
  ["type_len" ↦ 2147484944]
  [("value", VInt 0); ("value_mask", VInt 0)]
  [p_int 4 "type_len"; p_int 8 "value"; p_int 8 "value_mask"]
  t_none None []
  [u_check 4 2147484944; u_int 8 "value"; u_int 8 "value_mask"]
  false
  ["value"; "value_mask"]
  [q_hex "value"; q_hex "value_mask"].

Definition mpls_label : cls := mk_cls "oxm.mpls_label"
  ["type_len" ↦ 2147501060]
  [("value", VInt 0)]
  [p_int 4 "type_len"; p_int 4 "value"]
  t_none None []
  [u_check 4 2147501060; u_int 4 "value"]
  false
  ["value"]
  [q_hex "value"].

Definition mpls_label_masked : cls := mk_cls "oxm.mpls_label_masked"
  ["type_len" ↦ 2147501320]
  [("value", VInt 0); ("value_mask", VInt 0)]
  [p_int 4 "type_len"; p_int 4 "value"; p_int 4 "value_mask"]
  t_none None []
  [u_check 4 2147501320; u_int 4 "value"; u_int 4 "value_mask"]
  false
  ["value"; "value_mask"]
  [q_hex "value"; q_hex "value_mask"].

Definition mpls_tc : cls := mk_cls "oxm.mpls_tc"
  ["type_len" ↦ 2147501569]
  [("value", VInt 0)]
  [p_int 4 "type_len"; p_int 1 "value"]
  t_none None []
  [u_check 4 2147501569; u_int 1 "value"]
  false
  ["value"]
  [q_hex "value"].

Definition mpls_tc_masked : cls := mk_cls "oxm.mpls_tc_masked"
  ["type_len" ↦ 2147501826]
  [("value", VInt 0); ("value_mask", VInt 0)]
  [p_int 4 "type_len"; p_int 1 "value"; p_int 1 "value_mask"]
  t_none None []
  [u_check 4 2147501826; u_int 1 "value"; u_int 1 "value_mask"]
  false
  ["value"; "value_mask"]
  [q_hex "value"; q_hex "value_mask"].

Definition sctp_dst : cls := mk_cls "oxm.sctp_dst"
  ["type_len" ↦ 2147492866]
  [("value", VInt 0)]
  [p_int 4 "type_len"; p_int 2 "value"]
  t_none None []
  [u_check 4 2147492866; u_int 2 "value"]
  false
  ["value"]
  [q_hex "value"].

Definition sctp_dst_masked : cls := mk_cls "oxm.sctp_dst_masked"
  ["type_len" ↦ 2147493124]
  [("value", VInt 0); ("value_mask", VInt 0)]
  [p_int 4 "type_len"; p_int 2 "value"; p_int 2 "value_mask"]
  t_none None []
  [u_check 4 2147493124; u_int 2 "value"; u_int 2 "value_mask"]
  false
  ["value"; "value_mask"]
  [q_hex "value"; q_hex "value_mask"].

Definition sctp_src : cls := mk_cls "oxm.sctp_src"
  ["type_len" ↦ 2147492354]
  [("value", VInt 0)]
  [p_int 4 "type_len"; p_int 2 "value"]
  t_none None []
  [u_check 4 2147492354; u_int 2 "value"]
  false
  ["value"]
  [q_hex "value"].

Definition sctp_src_masked : cls := mk_cls "oxm.sctp_src_masked"
  ["type_len" ↦ 2147492612]
  [("value", VInt 0); ("value_mask", VInt 0)]
  [p_int 4 "type_len"; p_int 2 "value"; p_int 2 "value_mask"]
  t_none None []
  [u_check 4 2147492612; u_int 2 "value"; u_int 2 "value_mask"]
  false
  ["value"; "value_mask"]
  [q_hex "value"; q_hex "value_mask"].

Definition tcp_dst : cls := mk_cls "oxm.tcp_dst"
  ["type_len" ↦ 2147490818]
  [("value", VInt 0)]
  [p_int 4 "type_len"; p_int 2 "value"]
  t_none None []
  [u_check 4 2147490818; u_int 2 "value"]
  false
  ["value"]
  [q_hex "value"].

Definition tcp_dst_masked : cls := mk_cls "oxm.tcp_dst_masked"
  ["type_len" ↦ 2147491076]
  [("value", VInt 0); ("value_mask", VInt 0)]
  [p_int 4 "type_len"; p_int 2 "value"; p_int 2 "value_mask"]
  t_none None []
  [u_check 4 2147491076; u_int 2 "value"; u_int 2 "value_mask"]
  false
  ["value"; "value_mask"]
  [q_hex "value"; q_hex "value_mask"].

Definition tcp_src : cls := mk_cls "oxm.tcp_src"
  ["type_len" ↦ 2147490306]
  [("value", VInt 0)]
  [p_int 4 "type_len"; p_int 2 "value"]
  t_none None []
  [u_check 4 2147490306; u_int 2 "value"]
  false
  ["value"]
  [q_hex "value"].

Definition tcp_src_masked : cls := mk_cls "oxm.tcp_src_masked"
  ["type_len" ↦ 2147490564]
  [("value", VInt 0); ("value_mask", VInt 0)]
  [p_int 4 "type_len"; p_int 2 "value"; p_int 2 "value_mask"]
  t_none None []
  [u_check 4 2147490564; u_int 2 "value"; u_int 2 "value_mask"]
  false
  ["value"; "value_mask"]
  [q_hex "value"; q_hex "value_mask"].

Definition tunnel_ipv4_dst : cls := mk_cls "oxm.tunnel_ipv4_dst"
  ["type_len" ↦ 81924]
  [("value", VInt 0)]
  [p_int 4 "type_len"; p_int 4 "value"]
  t_none None []
  [u_check 4 81924; u_int 4 "value"]
  false
  ["value"]
  [q_ipv4 "value"].

Definition tunnel_ipv4_dst_masked : cls := mk_cls "oxm.tunnel_ipv4_dst_masked"
  ["type_len" ↦ 82184]
  [("value", VInt 0); ("value_mask", VInt 0)]
  [p_int 4 "type_len"; p_int 4 "value"; p_int 4 "value_mask"]
  t_none None []
  [u_check 4 82184; u_int 4 "value"; u_int 4 "value_mask"]
  false
  ["value"; "value_mask"]
  [q_ipv4 "value"; q_ipv4 "value_mask"].

Definition tunnel_ipv4_src : cls := mk_cls "oxm.tunnel_ipv4_src"
  ["type_len" ↦ 81412]
  [("value", VInt 0)]
  [p_int 4 "type_len"; p_int 4 "value"]
  t_none None []
  [u_check 4 81412; u_int 4 "value"]
  false
  ["value"]
  [q_ipv4 "value"].

Definition tunnel_ipv4_src_masked : cls := mk_cls "oxm.tunnel_ipv4_src_masked"
  ["type_len" ↦ 81672]
  [("value", VInt 0); ("value_mask", VInt 0)]
  [p_int 4 "type_len"; p_int 4 "value"; p_int 4 "value_mask"]
  t_none None []
  [u_check 4 81672; u_int 4 "value"; u_int 4 "value_mask"]
  false
  ["value"; "value_mask"]
  [q_ipv4 "value"; q_ipv4 "value_mask"].

Definition udp_dst : cls := mk_cls "oxm.udp_dst"
  ["type_len" ↦ 2147491842]
  [("value", VInt 0)]
  [p_int 4 "type_len"; p_int 2 "value"]
  t_none None []
  [u_check 4 2147491842; u_int 2 "value"]
  false
  ["value"]
  [q_hex "value"].

Definition udp_dst_masked : cls := mk_cls "oxm.udp_dst_masked"
  ["type_len" ↦ 2147492100]
  [("value", VInt 0); ("value_mask", VInt 0)]
  [p_int 4 "type_len"; p_int 2 "value"; p_int 2 "value_mask"]
  t_none None []
  [u_check 4 2147492100; u_int 2 "value"; u_int 2 "value_mask"]
  false
  ["value"; "value_mask"]
  [q_hex "value"; q_hex "value_mask"].

Definition udp_src : cls := mk_cls "oxm.udp_src"
  ["type_len" ↦ 2147491330]
  [("value", VInt 0)]
  [p_int 4 "type_len"; p_int 2 "value"]
  t_none None []
  [u_check 4 2147491330; u_int 2 "value"]
  false
  ["value"]
  [q_hex "value"].

Definition udp_src_masked : cls := mk_cls "oxm.udp_src_masked"
  ["type_len" ↦ 2147491588]
  [("value", VInt 0); ("value_mask", VInt 0)]
  [p_int 4 "type_len"; p_int 2 "value"; p_int 2 "value_mask"]
  t_none None []
  [u_check 4 2147491588; u_int 2 "value"; u_int 2 "value_mask"]
  false
  ["value"; "value_mask"]
  [q_hex "value"; q_hex "value_mask"].

Definition vlan_pcp : cls := mk_cls "oxm.vlan_pcp"
  ["type_len" ↦ 2147487233]
  [("value", VInt 0)]
  [p_int 4 "type_len"; p_int 1 "value"]
  t_none None []
  [u_check 4 2147487233; u_int 1 "value"]
  false
  ["value"]
  [q_hex "value"].

Definition vlan_pcp_masked : cls := mk_cls "oxm.vlan_pcp_masked"
  ["type_len" ↦ 2147487490]
  [("value", VInt 0); ("value_mask", VInt 0)]
  [p_int 4 "type_len"; p_int 1 "value"; p_int 1 "value_mask"]
  t_none None []
  [u_check 4 2147487490; u_int 1 "value"; u_int 1 "value_mask"]
  false
  ["value"; "value_mask"]
  [q_hex "value"; q_hex "value_mask"].

Definition vlan_vid : cls := mk_cls "oxm.vlan_vid"
  ["type_len" ↦ 2147486722]
  [("value", VInt 0)]
  [p_int 4 "type_len"; p_int 2 "value"]
  t_none None []
  [u_check 4 2147486722; u_int 2 "value"]
  false
  ["value"]
  [q_hex "value"].

Definition vlan_vid_masked : cls := mk_cls "oxm.vlan_vid_masked"
  ["type_len" ↦ 2147486980]
  [("value", VInt 0); ("value_mask", VInt 0)]
  [p_int 4 "type_len"; p_int 2 "value"; p_int 2 "value_mask"]
  t_none None []
  [u_check 4 2147486980; u_int 2 "value"; u_int 2 "value_mask"]
  false
  ["value"; "value_mask"]
  [q_hex "value"; q_hex "value_mask"].

Definition classes : list cls :=
  [oxm; arp_op; arp_op_masked; arp_sha; arp_sha_masked; arp_spa; arp_spa_masked; arp_tha; arp_tha_masked;
   arp_tpa; arp_tpa_masked; bsn_egr_port_group_id; bsn_egr_port_group_id_masked; bsn_global_vrf_allowed;
   bsn_global_vrf_allowed_masked; bsn_in_ports_128; bsn_in_ports_128_masked; bsn_in_ports_512;
   bsn_in_ports_512_masked; bsn_ingress_port_group_id; bsn_ingress_port_group_id_masked; bsn_l2_cache_hit;
   bsn_l2_cache_hit_masked; bsn_l3_dst_class_id; bsn_l3_dst_class_id_masked; bsn_l3_interface_class_id;
   bsn_l3_interface_class_id_masked; bsn_l3_src_class_id; bsn_l3_src_class_id_masked; bsn_lag_id;
   bsn_lag_id_masked; bsn_tcp_flags; bsn_tcp_flags_masked; bsn_udf0; bsn_udf0_masked; bsn_udf1;
   bsn_udf1_masked; bsn_udf2; bsn_udf2_masked; bsn_udf3; bsn_udf3_masked; bsn_udf4; bsn_udf4_masked;
   bsn_udf5; bsn_udf5_masked; bsn_udf6; bsn_udf6_masked; bsn_udf7; bsn_udf7_masked;
   bsn_vlan_xlate_port_group_id; bsn_vlan_xlate_port_group_id_masked; bsn_vrf; bsn_vrf_masked; eth_dst;
   eth_dst_masked; eth_src; eth_src_masked; eth_type; eth_type_masked; icmpv4_code; icmpv4_code_masked;
   icmpv4_type; icmpv4_type_masked; icmpv6_code; icmpv6_code_masked; icmpv6_type; icmpv6_type_masked;
   in_phy_port; in_phy_port_masked; in_port; in_port_masked; ip_dscp; ip_dscp_masked; ip_ecn;
   ip_ecn_masked; ip_proto; ip_proto_masked; ipv4_dst; ipv4_dst_masked; ipv4_src; ipv4_src_masked;
   ipv6_dst; ipv6_dst_masked; ipv6_flabel; ipv6_flabel_masked; ipv6_nd_sll; ipv6_nd_sll_masked;
   ipv6_nd_target; ipv6_nd_target_masked; ipv6_nd_tll; ipv6_nd_tll_masked; ipv6_src; ipv6_src_masked;
   metadata; metadata_masked; mpls_label; mpls_label_masked; mpls_tc; mpls_tc_masked; sctp_dst;
   sctp_dst_masked; sctp_src; sctp_src_masked; tcp_dst; tcp_dst_masked; tcp_src; tcp_src_masked;
   tunnel_ipv4_dst; tunnel_ipv4_dst_masked; tunnel_ipv4_src; tunnel_ipv4_src_masked; udp_dst;
   udp_dst_masked; udp_src; udp_src_masked; vlan_pcp; vlan_pcp_masked; vlan_vid; vlan_vid_masked].
End Oxm.
