(* ===== verification/Of13Match.v ===== *)
(** * OpenFlow 1.3: match fields and the type-length-value entries of extensions (of13/oxm.py,
    of13/bsn_tlv.py)

    One definition per class of the generated bindings, with the statements of its
    methods; see LoxiWire for what they mean. *)

From Stdlib Require Import Strings.Byte.
From stdpp Require Import prelude strings list.
From S2P Require Import Prelude LoxiWire.

Module Oxm.
Import LoxiNotations.

Definition oxm : cls := mk_cls "oxm.oxm"
  []
  [("type_len", VInt 0)]
  [p_int 4 "type_len"]
  t_none (Some (4, 0))
  [2147494402 ⇒ "oxm.arp_op"; 2147494660 ⇒ "oxm.arp_op_masked"; 2147495942 ⇒ "oxm.arp_sha";
   2147496204 ⇒ "oxm.arp_sha_masked"; 2147494916 ⇒ "oxm.arp_spa"; 2147495176 ⇒ "oxm.arp_spa_masked";
   2147496454 ⇒ "oxm.arp_tha"; 2147496716 ⇒ "oxm.arp_tha_masked"; 2147495428 ⇒ "oxm.arp_tpa";
   2147495688 ⇒ "oxm.arp_tpa_masked"; 200196 ⇒ "oxm.bsn_egr_port_group_id";
   200456 ⇒ "oxm.bsn_egr_port_group_id_masked"; 198145 ⇒ "oxm.bsn_global_vrf_allowed";
   198402 ⇒ "oxm.bsn_global_vrf_allowed_masked"; 196624 ⇒ "oxm.bsn_in_ports_128";
   196896 ⇒ "oxm.bsn_in_ports_128_masked"; 206400 ⇒ "oxm.bsn_in_ports_512";
   206720 ⇒ "oxm.bsn_in_ports_512_masked"; 206852 ⇒ "oxm.bsn_ingress_port_group_id";
   207112 ⇒ "oxm.bsn_ingress_port_group_id_masked"; 207878 ⇒ "oxm.bsn_inner_eth_dst";
   208140 ⇒ "oxm.bsn_inner_eth_dst_masked"; 208390 ⇒ "oxm.bsn_inner_eth_src";
   208652 ⇒ "oxm.bsn_inner_eth_src_masked"; 208898 ⇒ "oxm.bsn_inner_vlan_vid";
   209156 ⇒ "oxm.bsn_inner_vlan_vid_masked"; 205825 ⇒ "oxm.bsn_l2_cache_hit";
   206082 ⇒ "oxm.bsn_l2_cache_hit_masked"; 199684 ⇒ "oxm.bsn_l3_dst_class_id";
   199944 ⇒ "oxm.bsn_l3_dst_class_id_masked"; 198660 ⇒ "oxm.bsn_l3_interface_class_id";
   198920 ⇒ "oxm.bsn_l3_interface_class_id_masked"; 199172 ⇒ "oxm.bsn_l3_src_class_id";
   199432 ⇒ "oxm.bsn_l3_src_class_id_masked"; 197124 ⇒ "oxm.bsn_lag_id"; 197384 ⇒ "oxm.bsn_lag_id_masked";
   204802 ⇒ "oxm.bsn_tcp_flags"; 205060 ⇒ "oxm.bsn_tcp_flags_masked"; 200708 ⇒ "oxm.bsn_udf0";
   200968 ⇒ "oxm.bsn_udf0_masked"; 201220 ⇒ "oxm.bsn_udf1"; 201480 ⇒ "oxm.bsn_udf1_masked";
   201732 ⇒ "oxm.bsn_udf2"; 201992 ⇒ "oxm.bsn_udf2_masked"; 202244 ⇒ "oxm.bsn_udf3";
   202504 ⇒ "oxm.bsn_udf3_masked"; 202756 ⇒ "oxm.bsn_udf4"; 203016 ⇒ "oxm.bsn_udf4_masked";
   203268 ⇒ "oxm.bsn_udf5"; 203528 ⇒ "oxm.bsn_udf5_masked"; 203780 ⇒ "oxm.bsn_udf6";
   204040 ⇒ "oxm.bsn_udf6_masked"; 204292 ⇒ "oxm.bsn_udf7"; 204552 ⇒ "oxm.bsn_udf7_masked";
   209410 ⇒ "oxm.bsn_vfi"; 209668 ⇒ "oxm.bsn_vfi_masked"; 205316 ⇒ "oxm.bsn_vlan_xlate_port_group_id";
   205576 ⇒ "oxm.bsn_vlan_xlate_port_group_id_masked"; 197636 ⇒ "oxm.bsn_vrf";
   197896 ⇒ "oxm.bsn_vrf_masked"; 207364 ⇒ "oxm.bsn_vxlan_network_id";
   207624 ⇒ "oxm.bsn_vxlan_network_id_masked"; 2147485190 ⇒ "oxm.eth_dst";
   2147485452 ⇒ "oxm.eth_dst_masked"; 2147485702 ⇒ "oxm.eth_src"; 2147485964 ⇒ "oxm.eth_src_masked";
   2147486210 ⇒ "oxm.eth_type"; 2147486468 ⇒ "oxm.eth_type_masked"; 2147493889 ⇒ "oxm.icmpv4_code";
   2147494146 ⇒ "oxm.icmpv4_code_masked"; 2147493377 ⇒ "oxm.icmpv4_type";
   2147493634 ⇒ "oxm.icmpv4_type_masked"; 2147499009 ⇒ "oxm.icmpv6_code";
   2147499266 ⇒ "oxm.icmpv6_code_masked"; 2147498497 ⇒ "oxm.icmpv6_type";
   2147498754 ⇒ "oxm.icmpv6_type_masked"; 2147484164 ⇒ "oxm.in_phy_port";
   2147484424 ⇒ "oxm.in_phy_port_masked"; 2147483652 ⇒ "oxm.in_port"; 2147483912 ⇒ "oxm.in_port_masked";
   2147487745 ⇒ "oxm.ip_dscp"; 2147488002 ⇒ "oxm.ip_dscp_masked"; 2147488257 ⇒ "oxm.ip_ecn";
   2147488514 ⇒ "oxm.ip_ecn_masked"; 2147488769 ⇒ "oxm.ip_proto"; 2147489026 ⇒ "oxm.ip_proto_masked";
   2147489796 ⇒ "oxm.ipv4_dst"; 2147490056 ⇒ "oxm.ipv4_dst_masked"; 2147489284 ⇒ "oxm.ipv4_src";
   2147489544 ⇒ "oxm.ipv4_src_masked"; 2147497488 ⇒ "oxm.ipv6_dst"; 2147497760 ⇒ "oxm.ipv6_dst_masked";
   2147503618 ⇒ "oxm.ipv6_exthdr"; 2147503876 ⇒ "oxm.ipv6_exthdr_masked"; 2147497988 ⇒ "oxm.ipv6_flabel";
   2147498248 ⇒ "oxm.ipv6_flabel_masked"; 2147500038 ⇒ "oxm.ipv6_nd_sll";
   2147500300 ⇒ "oxm.ipv6_nd_sll_masked"; 2147499536 ⇒ "oxm.ipv6_nd_target";
   2147499808 ⇒ "oxm.ipv6_nd_target_masked"; 2147500550 ⇒ "oxm.ipv6_nd_tll";
   2147500812 ⇒ "oxm.ipv6_nd_tll_masked"; 2147496976 ⇒ "oxm.ipv6_src"; 2147497248 ⇒ "oxm.ipv6_src_masked";
   2147484680 ⇒ "oxm.metadata"; 2147484944 ⇒ "oxm.metadata_masked"; 2147502081 ⇒ "oxm.mpls_bos";
   2147502338 ⇒ "oxm.mpls_bos_masked"; 2147501060 ⇒ "oxm.mpls_label";
   2147501320 ⇒ "oxm.mpls_label_masked"; 2147501569 ⇒ "oxm.mpls_tc"; 2147501826 ⇒ "oxm.mpls_tc_masked";
   2147492866 ⇒ "oxm.sctp_dst"; 2147493124 ⇒ "oxm.sctp_dst_masked"; 2147492354 ⇒ "oxm.sctp_src";
   2147492612 ⇒ "oxm.sctp_src_masked"; 2147490818 ⇒ "oxm.tcp_dst"; 2147491076 ⇒ "oxm.tcp_dst_masked";
   2147490306 ⇒ "oxm.tcp_src"; 2147490564 ⇒ "oxm.tcp_src_masked"; 2147503112 ⇒ "oxm.tunnel_id";
   2147503376 ⇒ "oxm.tunnel_id_masked"; 81924 ⇒ "oxm.tunnel_ipv4_dst";
   82184 ⇒ "oxm.tunnel_ipv4_dst_masked"; 81412 ⇒ "oxm.tunnel_ipv4_src";
   81672 ⇒ "oxm.tunnel_ipv4_src_masked"; 2147491842 ⇒ "oxm.udp_dst"; 2147492100 ⇒ "oxm.udp_dst_masked";
   2147491330 ⇒ "oxm.udp_src"; 2147491588 ⇒ "oxm.udp_src_masked"; 2147487233 ⇒ "oxm.vlan_pcp";
   2147487490 ⇒ "oxm.vlan_pcp_masked"; 2147486722 ⇒ "oxm.vlan_vid"; 2147486980 ⇒ "oxm.vlan_vid_masked"]
  [u_int 4 "type_len"]
  false
  ["type_len"]
  [].

Definition arp_op : cls := mk_cls "oxm.arp_op"
  ["type_len" ↦ 2147494402]
  [("value", VInt 0)]
  [p_int 4 "type_len"; p_int 2 "value"]
  t_none None []
  [u_check 4 2147494402; u_int 2 "value"]
  false
  ["value"]
  [q_hex "value"].

Definition arp_op_masked : cls := mk_cls "oxm.arp_op_masked"
  ["type_len" ↦ 2147494660]
  [("value", VInt 0); ("value_mask", VInt 0)]
  [p_int 4 "type_len"; p_int 2 "value"; p_int 2 "value_mask"]
  t_none None []
  [u_check 4 2147494660; u_int 2 "value"; u_int 2 "value_mask"]
  false
  ["value"; "value_mask"]
  [q_hex "value"; q_hex "value_mask"].

Definition arp_sha : cls := mk_cls "oxm.arp_sha"
  ["type_len" ↦ 2147495942]
  [("value", VInts [0; 0; 0; 0; 0; 0]%Z)]
  [p_int 4 "type_len"; p_bytes 6 "value"]
  t_none None []
  [u_check 4 2147495942; u_bytes 6 "value"]
  false
  ["value"]
  [q_mac "value"].

Definition arp_sha_masked : cls := mk_cls "oxm.arp_sha_masked"
  ["type_len" ↦ 2147496204]
  [("value", VInts [0; 0; 0; 0; 0; 0]%Z); ("value_mask", VInts [0; 0; 0; 0; 0; 0]%Z)]
  [p_int 4 "type_len"; p_bytes 6 "value"; p_bytes 6 "value_mask"]
  t_none None []
  [u_check 4 2147496204; u_bytes 6 "value"; u_bytes 6 "value_mask"]
  false
  ["value"; "value_mask"]
  [q_mac "value"; q_mac "value_mask"].

Definition arp_spa : cls := mk_cls "oxm.arp_spa"
  ["type_len" ↦ 2147494916]
  [("value", VInt 0)]
  [p_int 4 "type_len"; p_int 4 "value"]
  t_none None []
  [u_check 4 2147494916; u_int 4 "value"]
  false
  ["value"]
  [q_hex "value"].

Definition arp_spa_masked : cls := mk_cls "oxm.arp_spa_masked"
  ["type_len" ↦ 2147495176]
  [("value", VInt 0); ("value_mask", VInt 0)]
  [p_int 4 "type_len"; p_int 4 "value"; p_int 4 "value_mask"]
  t_none None []
  [u_check 4 2147495176; u_int 4 "value"; u_int 4 "value_mask"]
  false
  ["value"; "value_mask"]
  [q_hex "value"; q_hex "value_mask"].

Definition arp_tha : cls := mk_cls "oxm.arp_tha"
  ["type_len" ↦ 2147496454]
  [("value", VInts [0; 0; 0; 0; 0; 0]%Z)]
  [p_int 4 "type_len"; p_bytes 6 "value"]
  t_none None []
  [u_check 4 2147496454; u_bytes 6 "value"]
  false
  ["value"]
  [q_mac "value"].

Definition arp_tha_masked : cls := mk_cls "oxm.arp_tha_masked"
  ["type_len" ↦ 2147496716]
  [("value", VInts [0; 0; 0; 0; 0; 0]%Z); ("value_mask", VInts [0; 0; 0; 0; 0; 0]%Z)]
  [p_int 4 "type_len"; p_bytes 6 "value"; p_bytes 6 "value_mask"]
  t_none None []
  [u_check 4 2147496716; u_bytes 6 "value"; u_bytes 6 "value_mask"]
  false
  ["value"; "value_mask"]
  [q_mac "value"; q_mac "value_mask"].

Definition arp_tpa : cls := mk_cls "oxm.arp_tpa"
  ["type_len" ↦ 2147495428]
  [("value", VInt 0)]
  [p_int 4 "type_len"; p_int 4 "value"]
  t_none None []
  [u_check 4 2147495428; u_int 4 "value"]
  false
  ["value"]
  [q_hex "value"].

Definition arp_tpa_masked : cls := mk_cls "oxm.arp_tpa_masked"
  ["type_len" ↦ 2147495688]
  [("value", VInt 0); ("value_mask", VInt 0)]
  [p_int 4 "type_len"; p_int 4 "value"; p_int 4 "value_mask"]
  t_none None []
  [u_check 4 2147495688; u_int 4 "value"; u_int 4 "value_mask"]
  false
  ["value"; "value_mask"]
  [q_hex "value"; q_hex "value_mask"].

Definition bsn_egr_port_group_id : cls := mk_cls "oxm.bsn_egr_port_group_id"
  ["type_len" ↦ 200196]
  [("value", VInt 0)]
  [p_int 4 "type_len"; p_int 4 "value"]
  t_none None []
  [u_check 4 200196; u_int 4 "value"]
  false
  ["value"]
  [q_hex "value"].

Definition bsn_egr_port_group_id_masked : cls := mk_cls "oxm.bsn_egr_port_group_id_masked"
  ["type_len" ↦ 200456]
  [("value", VInt 0); ("value_mask", VInt 0)]
  [p_int 4 "type_len"; p_int 4 "value"; p_int 4 "value_mask"]
  t_none None []
  [u_check 4 200456; u_int 4 "value"; u_int 4 "value_mask"]
  false
  ["value"; "value_mask"]
  [q_hex "value"; q_hex "value_mask"].

Definition bsn_global_vrf_allowed : cls := mk_cls "oxm.bsn_global_vrf_allowed"
  ["type_len" ↦ 198145]
  [("value", VInt 0)]
  [p_int 4 "type_len"; p_int 1 "value"]
  t_none None []
  [u_check 4 198145; u_int 1 "value"]
  false
  ["value"]
  [q_hex "value"].

Definition bsn_global_vrf_allowed_masked : cls := mk_cls "oxm.bsn_global_vrf_allowed_masked"
  ["type_len" ↦ 198402]
  [("value", VInt 0); ("value_mask", VInt 0)]
  [p_int 4 "type_len"; p_int 1 "value"; p_int 1 "value_mask"]
  t_none None []
  [u_check 4 198402; u_int 1 "value"; u_int 1 "value_mask"]
  false
  ["value"; "value_mask"]
  [q_hex "value"; q_hex "value_mask"].

Definition bsn_in_ports_128 : cls := mk_cls "oxm.bsn_in_ports_128"
  ["type_len" ↦ 196624]
  [("value", VSet [])]
  [p_int 4 "type_len"; p_bitmap_128 "value"]
  t_none None []
  [u_check 4 196624; u_bitmap_128 "value"]
  false
  ["value"]
  [q_pp "value"].

Definition bsn_in_ports_128_masked : cls := mk_cls "oxm.bsn_in_ports_128_masked"
  ["type_len" ↦ 196896]
  [("value", VSet []); ("value_mask", VSet [])]
  [p_int 4 "type_len"; p_bitmap_128 "value"; p_bitmap_128 "value_mask"]
  t_none None []
  [u_check 4 196896; u_bitmap_128 "value"; u_bitmap_128 "value_mask"]
  false
  ["value"; "value_mask"]
  [q_pp "value"; q_pp "value_mask"].

Definition bsn_in_ports_512 : cls := mk_cls "oxm.bsn_in_ports_512"
  ["type_len" ↦ 206400]
  [("value", VSet [])]
  [p_int 4 "type_len"; p_bitmap_512 "value"]
  t_none None []
  [u_check 4 206400; u_bitmap_512 "value"]
  false
  ["value"]
  [q_pp "value"].

Definition bsn_in_ports_512_masked : cls := mk_cls "oxm.bsn_in_ports_512_masked"
  ["type_len" ↦ 206720]
  [("value", VSet []); ("value_mask", VSet [])]
  [p_int 4 "type_len"; p_bitmap_512 "value"; p_bitmap_512 "value_mask"]
  t_none None []
  [u_check 4 206720; u_bitmap_512 "value"; u_bitmap_512 "value_mask"]
  false
  ["value"; "value_mask"]
  [q_pp "value"; q_pp "value_mask"].

Definition bsn_ingress_port_group_id : cls := mk_cls "oxm.bsn_ingress_port_group_id"
  ["type_len" ↦ 206852]
  [("value", VInt 0)]
  [p_int 4 "type_len"; p_int 4 "value"]
  t_none None []
  [u_check 4 206852; u_int 4 "value"]
  false
  ["value"]
  [q_hex "value"].

Definition bsn_ingress_port_group_id_masked : cls := mk_cls "oxm.bsn_ingress_port_group_id_masked"
  ["type_len" ↦ 207112]
  [("value", VInt 0); ("value_mask", VInt 0)]
  [p_int 4 "type_len"; p_int 4 "value"; p_int 4 "value_mask"]
  t_none None []
  [u_check 4 207112; u_int 4 "value"; u_int 4 "value_mask"]
  false
  ["value"; "value_mask"]
  [q_hex "value"; q_hex "value_mask"].

Definition bsn_inner_eth_dst : cls := mk_cls "oxm.bsn_inner_eth_dst"
  ["type_len" ↦ 207878]
  [("value", VInts [0; 0; 0; 0; 0; 0]%Z)]
  [p_int 4 "type_len"; p_bytes 6 "value"]
  t_none None []
  [u_check 4 207878; u_bytes 6 "value"]
  false
  ["value"]
  [q_mac "value"].

Definition bsn_inner_eth_dst_masked : cls := mk_cls "oxm.bsn_inner_eth_dst_masked"
  ["type_len" ↦ 208140]
  [("value", VInts [0; 0; 0; 0; 0; 0]%Z); ("value_mask", VInts [0; 0; 0; 0; 0; 0]%Z)]
  [p_int 4 "type_len"; p_bytes 6 "value"; p_bytes 6 "value_mask"]
  t_none None []
  [u_check 4 208140; u_bytes 6 "value"; u_bytes 6 "value_mask"]
  false
  ["value"; "value_mask"]
  [q_mac "value"; q_mac "value_mask"].

Definition bsn_inner_eth_src : cls := mk_cls "oxm.bsn_inner_eth_src"
  ["type_len" ↦ 208390]
  [("value", VInts [0; 0; 0; 0; 0; 0]%Z)]
  [p_int 4 "type_len"; p_bytes 6 "value"]
  t_none None []
  [u_check 4 208390; u_bytes 6 "value"]
  false
  ["value"]
  [q_mac "value"].

Definition bsn_inner_eth_src_masked : cls := mk_cls "oxm.bsn_inner_eth_src_masked"
  ["type_len" ↦ 208652]
  [("value", VInts [0; 0; 0; 0; 0; 0]%Z); ("value_mask", VInts [0; 0; 0; 0; 0; 0]%Z)]
  [p_int 4 "type_len"; p_bytes 6 "value"; p_bytes 6 "value_mask"]
  t_none None []
  [u_check 4 208652; u_bytes 6 "value"; u_bytes 6 "value_mask"]
  false
  ["value"; "value_mask"]
  [q_mac "value"; q_mac "value_mask"].

Definition bsn_inner_vlan_vid : cls := mk_cls "oxm.bsn_inner_vlan_vid"
  ["type_len" ↦ 208898]
  [("value", VInt 0)]
  [p_int 4 "type_len"; p_int 2 "value"]
  t_none None []
  [u_check 4 208898; u_int 2 "value"]
  false
  ["value"]
  [q_hex "value"].

Definition bsn_inner_vlan_vid_masked : cls := mk_cls "oxm.bsn_inner_vlan_vid_masked"
  ["type_len" ↦ 209156]
  [("value", VInt 0); ("value_mask", VInt 0)]
  [p_int 4 "type_len"; p_int 2 "value"; p_int 2 "value_mask"]
  t_none None []
  [u_check 4 209156; u_int 2 "value"; u_int 2 "value_mask"]
  false
  ["value"; "value_mask"]
  [q_hex "value"; q_hex "value_mask"].

Definition bsn_l2_cache_hit : cls := mk_cls "oxm.bsn_l2_cache_hit"
  ["type_len" ↦ 205825]
  [("value", VInt 0)]
  [p_int 4 "type_len"; p_int 1 "value"]
  t_none None []
  [u_check 4 205825; u_int 1 "value"]
  false
  ["value"]
  [q_hex "value"].

Definition bsn_l2_cache_hit_masked : cls := mk_cls "oxm.bsn_l2_cache_hit_masked"
  ["type_len" ↦ 206082]
  [("value", VInt 0); ("value_mask", VInt 0)]
  [p_int 4 "type_len"; p_int 1 "value"; p_int 1 "value_mask"]
  t_none None []
  [u_check 4 206082; u_int 1 "value"; u_int 1 "value_mask"]
  false
  ["value"; "value_mask"]
  [q_hex "value"; q_hex "value_mask"].

Definition bsn_l3_dst_class_id : cls := mk_cls "oxm.bsn_l3_dst_class_id"
  ["type_len" ↦ 199684]
  [("value", VInt 0)]
  [p_int 4 "type_len"; p_int 4 "value"]
  t_none None []
  [u_check 4 199684; u_int 4 "value"]
  false
  ["value"]
  [q_hex "value"].

Definition bsn_l3_dst_class_id_masked : cls := mk_cls "oxm.bsn_l3_dst_class_id_masked"
  ["type_len" ↦ 199944]
  [("value", VInt 0); ("value_mask", VInt 0)]
  [p_int 4 "type_len"; p_int 4 "value"; p_int 4 "value_mask"]
  t_none None []
  [u_check 4 199944; u_int 4 "value"; u_int 4 "value_mask"]
  false
  ["value"; "value_mask"]
  [q_hex "value"; q_hex "value_mask"].

Definition bsn_l3_interface_class_id : cls := mk_cls "oxm.bsn_l3_interface_class_id"
  ["type_len" ↦ 198660]
  [("value", VInt 0)]
  [p_int 4 "type_len"; p_int 4 "value"]
  t_none None []
  [u_check 4 198660; u_int 4 "value"]
  false
  ["value"]
  [q_hex "value"].

Definition bsn_l3_interface_class_id_masked : cls := mk_cls "oxm.bsn_l3_interface_class_id_masked"
  ["type_len" ↦ 198920]
  [("value", VInt 0); ("value_mask", VInt 0)]
  [p_int 4 "type_len"; p_int 4 "value"; p_int 4 "value_mask"]
  t_none None []
  [u_check 4 198920; u_int 4 "value"; u_int 4 "value_mask"]
  false
  ["value"; "value_mask"]
  [q_hex "value"; q_hex "value_mask"].

Definition bsn_l3_src_class_id : cls := mk_cls "oxm.bsn_l3_src_class_id"
  ["type_len" ↦ 199172]
  [("value", VInt 0)]
  [p_int 4 "type_len"; p_int 4 "value"]
  t_none None []
  [u_check 4 199172; u_int 4 "value"]
  false
  ["value"]
  [q_hex "value"].

Definition bsn_l3_src_class_id_masked : cls := mk_cls "oxm.bsn_l3_src_class_id_masked"
  ["type_len" ↦ 199432]
  [("value", VInt 0); ("value_mask", VInt 0)]
  [p_int 4 "type_len"; p_int 4 "value"; p_int 4 "value_mask"]
  t_none None []
  [u_check 4 199432; u_int 4 "value"; u_int 4 "value_mask"]
  false
  ["value"; "value_mask"]
  [q_hex "value"; q_hex "value_mask"].

Definition bsn_lag_id : cls := mk_cls "oxm.bsn_lag_id"
  ["type_len" ↦ 197124]
  [("value", VInt 0)]
  [p_int 4 "type_len"; p_int 4 "value"]
  t_none None []
  [u_check 4 197124; u_int 4 "value"]
  false
  ["value"]
  [q_hex "value"].

Definition bsn_lag_id_masked : cls := mk_cls "oxm.bsn_lag_id_masked"
  ["type_len" ↦ 197384]
  [("value", VInt 0); ("value_mask", VInt 0)]
  [p_int 4 "type_len"; p_int 4 "value"; p_int 4 "value_mask"]
  t_none None []
  [u_check 4 197384; u_int 4 "value"; u_int 4 "value_mask"]
  false
  ["value"; "value_mask"]
  [q_hex "value"; q_hex "value_mask"].

Definition bsn_tcp_flags : cls := mk_cls "oxm.bsn_tcp_flags"
  ["type_len" ↦ 204802]
  [("value", VInt 0)]
  [p_int 4 "type_len"; p_int 2 "value"]
  t_none None []
  [u_check 4 204802; u_int 2 "value"]
  false
  ["value"]
  [q_hex "value"].

Definition bsn_tcp_flags_masked : cls := mk_cls "oxm.bsn_tcp_flags_masked"
  ["type_len" ↦ 205060]
  [("value", VInt 0); ("value_mask", VInt 0)]
  [p_int 4 "type_len"; p_int 2 "value"; p_int 2 "value_mask"]
  t_none None []
  [u_check 4 205060; u_int 2 "value"; u_int 2 "value_mask"]
  false
  ["value"; "value_mask"]
  [q_hex "value"; q_hex "value_mask"].

Definition bsn_udf0 : cls := mk_cls "oxm.bsn_udf0"
  ["type_len" ↦ 200708]
  [("value", VInt 0)]
  [p_int 4 "type_len"; p_int 4 "value"]
  t_none None []
  [u_check 4 200708; u_int 4 "value"]
  false
  ["value"]
  [q_hex "value"].

Definition bsn_udf0_masked : cls := mk_cls "oxm.bsn_udf0_masked"
  ["type_len" ↦ 200968]
  [("value", VInt 0); ("value_mask", VInt 0)]
  [p_int 4 "type_len"; p_int 4 "value"; p_int 4 "value_mask"]
  t_none None []
  [u_check 4 200968; u_int 4 "value"; u_int 4 "value_mask"]
  false
  ["value"; "value_mask"]
  [q_hex "value"; q_hex "value_mask"].

Definition bsn_udf1 : cls := mk_cls "oxm.bsn_udf1"
  ["type_len" ↦ 201220]
  [("value", VInt 0)]
  [p_int 4 "type_len"; p_int 4 "value"]
  t_none None []
  [u_check 4 201220; u_int 4 "value"]
  false
  ["value"]
  [q_hex "value"].

Definition bsn_udf1_masked : cls := mk_cls "oxm.bsn_udf1_masked"
  ["type_len" ↦ 201480]
  [("value", VInt 0); ("value_mask", VInt 0)]
  [p_int 4 "type_len"; p_int 4 "value"; p_int 4 "value_mask"]
  t_none None []
  [u_check 4 201480; u_int 4 "value"; u_int 4 "value_mask"]
  false
  ["value"; "value_mask"]
  [q_hex "value"; q_hex "value_mask"].

Definition bsn_udf2 : cls := mk_cls "oxm.bsn_udf2"
  ["type_len" ↦ 201732]
  [("value", VInt 0)]
  [p_int 4 "type_len"; p_int 4 "value"]
  t_none None []
  [u_check 4 201732; u_int 4 "value"]
  false
  ["value"]
  [q_hex "value"].

Definition bsn_udf2_masked : cls := mk_cls "oxm.bsn_udf2_masked"
  ["type_len" ↦ 201992]
  [("value", VInt 0); ("value_mask", VInt 0)]
  [p_int 4 "type_len"; p_int 4 "value"; p_int 4 "value_mask"]
  t_none None []
  [u_check 4 201992; u_int 4 "value"; u_int 4 "value_mask"]
  false
  ["value"; "value_mask"]
  [q_hex "value"; q_hex "value_mask"].

Definition bsn_udf3 : cls := mk_cls "oxm.bsn_udf3"
  ["type_len" ↦ 202244]
  [("value", VInt 0)]
  [p_int 4 "type_len"; p_int 4 "value"]
  t_none None []
  [u_check 4 202244; u_int 4 "value"]
  false
  ["value"]
  [q_hex "value"].

Definition bsn_udf3_masked : cls := mk_cls "oxm.bsn_udf3_masked"
  ["type_len" ↦ 202504]
  [("value", VInt 0); ("value_mask", VInt 0)]
  [p_int 4 "type_len"; p_int 4 "value"; p_int 4 "value_mask"]
  t_none None []
  [u_check 4 202504; u_int 4 "value"; u_int 4 "value_mask"]
  false
  ["value"; "value_mask"]
  [q_hex "value"; q_hex "value_mask"].

Definition bsn_udf4 : cls := mk_cls "oxm.bsn_udf4"
  ["type_len" ↦ 202756]
  [("value", VInt 0)]
  [p_int 4 "type_len"; p_int 4 "value"]
  t_none None []
  [u_check 4 202756; u_int 4 "value"]
  false
  ["value"]
  [q_hex "value"].

Definition bsn_udf4_masked : cls := mk_cls "oxm.bsn_udf4_masked"
  ["type_len" ↦ 203016]
  [("value", VInt 0); ("value_mask", VInt 0)]
  [p_int 4 "type_len"; p_int 4 "value"; p_int 4 "value_mask"]
  t_none None []
  [u_check 4 203016; u_int 4 "value"; u_int 4 "value_mask"]
  false
  ["value"; "value_mask"]
  [q_hex "value"; q_hex "value_mask"].

Definition bsn_udf5 : cls := mk_cls "oxm.bsn_udf5"
  ["type_len" ↦ 203268]
  [("value", VInt 0)]
  [p_int 4 "type_len"; p_int 4 "value"]
  t_none None []
  [u_check 4 203268; u_int 4 "value"]
  false
  ["value"]
  [q_hex "value"].

Definition bsn_udf5_masked : cls := mk_cls "oxm.bsn_udf5_masked"
  ["type_len" ↦ 203528]
  [("value", VInt 0); ("value_mask", VInt 0)]
  [p_int 4 "type_len"; p_int 4 "value"; p_int 4 "value_mask"]
  t_none None []
  [u_check 4 203528; u_int 4 "value"; u_int 4 "value_mask"]
  false
  ["value"; "value_mask"]
  [q_hex "value"; q_hex "value_mask"].

Definition bsn_udf6 : cls := mk_cls "oxm.bsn_udf6"
  ["type_len" ↦ 203780]
  [("value", VInt 0)]
  [p_int 4 "type_len"; p_int 4 "value"]
  t_none None []
  [u_check 4 203780; u_int 4 "value"]
  false
  ["value"]
  [q_hex "value"].

Definition bsn_udf6_masked : cls := mk_cls "oxm.bsn_udf6_masked"
  ["type_len" ↦ 204040]
  [("value", VInt 0); ("value_mask", VInt 0)]
  [p_int 4 "type_len"; p_int 4 "value"; p_int 4 "value_mask"]
  t_none None []
  [u_check 4 204040; u_int 4 "value"; u_int 4 "value_mask"]
  false
  ["value"; "value_mask"]
  [q_hex "value"; q_hex "value_mask"].

Definition bsn_udf7 : cls := mk_cls "oxm.bsn_udf7"
  ["type_len" ↦ 204292]
  [("value", VInt 0)]
  [p_int 4 "type_len"; p_int 4 "value"]
  t_none None []
  [u_check 4 204292; u_int 4 "value"]
  false
  ["value"]
  [q_hex "value"].

Definition bsn_udf7_masked : cls := mk_cls "oxm.bsn_udf7_masked"
  ["type_len" ↦ 204552]
  [("value", VInt 0); ("value_mask", VInt 0)]
  [p_int 4 "type_len"; p_int 4 "value"; p_int 4 "value_mask"]
  t_none None []
  [u_check 4 204552; u_int 4 "value"; u_int 4 "value_mask"]
  false
  ["value"; "value_mask"]
  [q_hex "value"; q_hex "value_mask"].

Definition bsn_vfi : cls := mk_cls "oxm.bsn_vfi"
  ["type_len" ↦ 209410]
  [("value", VInt 0)]
  [p_int 4 "type_len"; p_int 2 "value"]
  t_none None []
  [u_check 4 209410; u_int 2 "value"]
  false
  ["value"]
  [q_hex "value"].

Definition bsn_vfi_masked : cls := mk_cls "oxm.bsn_vfi_masked"
  ["type_len" ↦ 209668]
  [("value", VInt 0); ("value_mask", VInt 0)]
  [p_int 4 "type_len"; p_int 2 "value"; p_int 2 "value_mask"]
  t_none None []
  [u_check 4 209668; u_int 2 "value"; u_int 2 "value_mask"]
  false
  ["value"; "value_mask"]
  [q_hex "value"; q_hex "value_mask"].

Definition bsn_vlan_xlate_port_group_id : cls := mk_cls "oxm.bsn_vlan_xlate_port_group_id"
  ["type_len" ↦ 205316]
  [("value", VInt 0)]
  [p_int 4 "type_len"; p_int 4 "value"]
  t_none None []
  [u_check 4 205316; u_int 4 "value"]
  false
  ["value"]
  [q_hex "value"].

Definition bsn_vlan_xlate_port_group_id_masked : cls := mk_cls "oxm.bsn_vlan_xlate_port_group_id_masked"
  ["type_len" ↦ 205576]
  [("value", VInt 0); ("value_mask", VInt 0)]
  [p_int 4 "type_len"; p_int 4 "value"; p_int 4 "value_mask"]
  t_none None []
  [u_check 4 205576; u_int 4 "value"; u_int 4 "value_mask"]
  false
  ["value"; "value_mask"]
  [q_hex "value"; q_hex "value_mask"].

Definition bsn_vrf : cls := mk_cls "oxm.bsn_vrf"
  ["type_len" ↦ 197636]
  [("value", VInt 0)]
  [p_int 4 "type_len"; p_int 4 "value"]
  t_none None []
  [u_check 4 197636; u_int 4 "value"]
  false
  ["value"]
  [q_hex "value"].

Definition bsn_vrf_masked : cls := mk_cls "oxm.bsn_vrf_masked"
  ["type_len" ↦ 197896]
  [("value", VInt 0); ("value_mask", VInt 0)]
  [p_int 4 "type_len"; p_int 4 "value"; p_int 4 "value_mask"]
  t_none None []
  [u_check 4 197896; u_int 4 "value"; u_int 4 "value_mask"]
  false
  ["value"; "value_mask"]
  [q_hex "value"; q_hex "value_mask"].

Definition bsn_vxlan_network_id : cls := mk_cls "oxm.bsn_vxlan_network_id"
  ["type_len" ↦ 207364]
  [("value", VInt 0)]
  [p_int 4 "type_len"; p_int 4 "value"]
  t_none None []
  [u_check 4 207364; u_int 4 "value"]
  false
  ["value"]
  [q_hex "value"].

Definition bsn_vxlan_network_id_masked : cls := mk_cls "oxm.bsn_vxlan_network_id_masked"
  ["type_len" ↦ 207624]
  [("value", VInt 0); ("value_mask", VInt 0)]
  [p_int 4 "type_len"; p_int 4 "value"; p_int 4 "value_mask"]
  t_none None []
  [u_check 4 207624; u_int 4 "value"; u_int 4 "value_mask"]
  false
  ["value"; "value_mask"]
  [q_hex "value"; q_hex "value_mask"].

Definition eth_dst : cls := mk_cls "oxm.eth_dst"
  ["type_len" ↦ 2147485190]
  [("value", VInts [0; 0; 0; 0; 0; 0]%Z)]
  [p_int 4 "type_len"; p_bytes 6 "value"]
  t_none None []
  [u_check 4 2147485190; u_bytes 6 "value"]
  false
  ["value"]
  [q_mac "value"].

Definition eth_dst_masked : cls := mk_cls "oxm.eth_dst_masked"
  ["type_len" ↦ 2147485452]
  [("value", VInts [0; 0; 0; 0; 0; 0]%Z); ("value_mask", VInts [0; 0; 0; 0; 0; 0]%Z)]
  [p_int 4 "type_len"; p_bytes 6 "value"; p_bytes 6 "value_mask"]
  t_none None []
  [u_check 4 2147485452; u_bytes 6 "value"; u_bytes 6 "value_mask"]
  false
  ["value"; "value_mask"]
  [q_mac "value"; q_mac "value_mask"].

Definition eth_src : cls := mk_cls "oxm.eth_src"
  ["type_len" ↦ 2147485702]
  [("value", VInts [0; 0; 0; 0; 0; 0]%Z)]
  [p_int 4 "type_len"; p_bytes 6 "value"]
  t_none None []
  [u_check 4 2147485702; u_bytes 6 "value"]
  false
  ["value"]
  [q_mac "value"].

Definition eth_src_masked : cls := mk_cls "oxm.eth_src_masked"
  ["type_len" ↦ 2147485964]
  [("value", VInts [0; 0; 0; 0; 0; 0]%Z); ("value_mask", VInts [0; 0; 0; 0; 0; 0]%Z)]
  [p_int 4 "type_len"; p_bytes 6 "value"; p_bytes 6 "value_mask"]
  t_none None []
  [u_check 4 2147485964; u_bytes 6 "value"; u_bytes 6 "value_mask"]
  false
  ["value"; "value_mask"]
  [q_mac "value"; q_mac "value_mask"].

Definition eth_type : cls := mk_cls "oxm.eth_type"
  ["type_len" ↦ 2147486210]
  [("value", VInt 0)]
  [p_int 4 "type_len"; p_int 2 "value"]
  t_none None []
  [u_check 4 2147486210; u_int 2 "value"]
  false
  ["value"]
  [q_hex "value"].

Definition eth_type_masked : cls := mk_cls "oxm.eth_type_masked"
  ["type_len" ↦ 2147486468]
  [("value", VInt 0); ("value_mask", VInt 0)]
  [p_int 4 "type_len"; p_int 2 "value"; p_int 2 "value_mask"]
  t_none None []
  [u_check 4 2147486468; u_int 2 "value"; u_int 2 "value_mask"]
  false
  ["value"; "value_mask"]
  [q_hex "value"; q_hex "value_mask"].

Definition icmpv4_code : cls := mk_cls "oxm.icmpv4_code"
  ["type_len" ↦ 2147493889]
  [("value", VInt 0)]
  [p_int 4 "type_len"; p_int 1 "value"]
  t_none None []
  [u_check 4 2147493889; u_int 1 "value"]
  false
  ["value"]
  [q_hex "value"].

Definition icmpv4_code_masked : cls := mk_cls "oxm.icmpv4_code_masked"
  ["type_len" ↦ 2147494146]
  [("value", VInt 0); ("value_mask", VInt 0)]
  [p_int 4 "type_len"; p_int 1 "value"; p_int 1 "value_mask"]
  t_none None []
  [u_check 4 2147494146; u_int 1 "value"; u_int 1 "value_mask"]
  false
  ["value"; "value_mask"]
  [q_hex "value"; q_hex "value_mask"].

Definition icmpv4_type : cls := mk_cls "oxm.icmpv4_type"
  ["type_len" ↦ 2147493377]
  [("value", VInt 0)]
  [p_int 4 "type_len"; p_int 1 "value"]
  t_none None []
  [u_check 4 2147493377; u_int 1 "value"]
  false
  ["value"]
  [q_hex "value"].

Definition icmpv4_type_masked : cls := mk_cls "oxm.icmpv4_type_masked"
  ["type_len" ↦ 2147493634]
  [("value", VInt 0); ("value_mask", VInt 0)]
  [p_int 4 "type_len"; p_int 1 "value"; p_int 1 "value_mask"]
  t_none None []
  [u_check 4 2147493634; u_int 1 "value"; u_int 1 "value_mask"]
  false
  ["value"; "value_mask"]
  [q_hex "value"; q_hex "value_mask"].

Definition icmpv6_code : cls := mk_cls "oxm.icmpv6_code"
  ["type_len" ↦ 2147499009]
  [("value", VInt 0)]
  [p_int 4 "type_len"; p_int 1 "value"]
  t_none None []
  [u_check 4 2147499009; u_int 1 "value"]
  false
  ["value"]
  [q_hex "value"].

Definition icmpv6_code_masked : cls := mk_cls "oxm.icmpv6_code_masked"
  ["type_len" ↦ 2147499266]
  [("value", VInt 0); ("value_mask", VInt 0)]
  [p_int 4 "type_len"; p_int 1 "value"; p_int 1 "value_mask"]
  t_none None []
  [u_check 4 2147499266; u_int 1 "value"; u_int 1 "value_mask"]
  false
  ["value"; "value_mask"]
  [q_hex "value"; q_hex "value_mask"].

Definition icmpv6_type : cls := mk_cls "oxm.icmpv6_type"
  ["type_len" ↦ 2147498497]
  [("value", VInt 0)]
  [p_int 4 "type_len"; p_int 1 "value"]
  t_none None []
  [u_check 4 2147498497; u_int 1 "value"]
  false
  ["value"]
  [q_hex "value"].

Definition icmpv6_type_masked : cls := mk_cls "oxm.icmpv6_type_masked"
  ["type_len" ↦ 2147498754]
  [("value", VInt 0); ("value_mask", VInt 0)]
  [p_int 4 "type_len"; p_int 1 "value"; p_int 1 "value_mask"]
  t_none None []
  [u_check 4 2147498754; u_int 1 "value"; u_int 1 "value_mask"]
  false
  ["value"; "value_mask"]
  [q_hex "value"; q_hex "value_mask"].

Definition in_phy_port : cls := mk_cls "oxm.in_phy_port"
  ["type_len" ↦ 2147484164]
  [("value", VInt 0)]
  [p_int 4 "type_len"; p_int 4 "value"]
  t_none None []
  [u_check 4 2147484164; u_int 4 "value"]
  false
  ["value"]
  [q_port "value"].

Definition in_phy_port_masked : cls := mk_cls "oxm.in_phy_port_masked"
  ["type_len" ↦ 2147484424]
  [("value", VInt 0); ("value_mask", VInt 0)]
  [p_int 4 "type_len"; p_int 4 "value"; p_int 4 "value_mask"]
  t_none None []
  [u_check 4 2147484424; u_int 4 "value"; u_int 4 "value_mask"]
  false
  ["value"; "value_mask"]
  [q_port "value"; q_port "value_mask"].

Definition in_port : cls := mk_cls "oxm.in_port"
  ["type_len" ↦ 2147483652]
  [("value", VInt 0)]
  [p_int 4 "type_len"; p_int 4 "value"]
  t_none None []
  [u_check 4 2147483652; u_int 4 "value"]
  false
  ["value"]
  [q_port "value"].

Definition in_port_masked : cls := mk_cls "oxm.in_port_masked"
  ["type_len" ↦ 2147483912]
  [("value", VInt 0); ("value_mask", VInt 0)]
  [p_int 4 "type_len"; p_int 4 "value"; p_int 4 "value_mask"]
  t_none None []
  [u_check 4 2147483912; u_int 4 "value"; u_int 4 "value_mask"]
  false
  ["value"; "value_mask"]
  [q_port "value"; q_port "value_mask"].

Definition ip_dscp : cls := mk_cls "oxm.ip_dscp"
  ["type_len" ↦ 2147487745]
  [("value", VInt 0)]
  [p_int 4 "type_len"; p_int 1 "value"]
  t_none None []
  [u_check 4 2147487745; u_int 1 "value"]
  false
  ["value"]
  [q_hex "value"].

Definition ip_dscp_masked : cls := mk_cls "oxm.ip_dscp_masked"
  ["type_len" ↦ 2147488002]
  [("value", VInt 0); ("value_mask", VInt 0)]
  [p_int 4 "type_len"; p_int 1 "value"; p_int 1 "value_mask"]
  t_none None []
  [u_check 4 2147488002; u_int 1 "value"; u_int 1 "value_mask"]
  false
  ["value"; "value_mask"]
  [q_hex "value"; q_hex "value_mask"].

Definition ip_ecn : cls := mk_cls "oxm.ip_ecn"
  ["type_len" ↦ 2147488257]
  [("value", VInt 0)]
  [p_int 4 "type_len"; p_int 1 "value"]
  t_none None []
  [u_check 4 2147488257; u_int 1 "value"]
  false
  ["value"]
  [q_hex "value"].

Definition ip_ecn_masked : cls := mk_cls "oxm.ip_ecn_masked"
  ["type_len" ↦ 2147488514]
  [("value", VInt 0); ("value_mask", VInt 0)]
  [p_int 4 "type_len"; p_int 1 "value"; p_int 1 "value_mask"]
  t_none None []
  [u_check 4 2147488514; u_int 1 "value"; u_int 1 "value_mask"]
  false
  ["value"; "value_mask"]
  [q_hex "value"; q_hex "value_mask"].

Definition ip_proto : cls := mk_cls "oxm.ip_proto"
  ["type_len" ↦ 2147488769]
  [("value", VInt 0)]
  [p_int 4 "type_len"; p_int 1 "value"]
  t_none None []
  [u_check 4 2147488769; u_int 1 "value"]
  false
  ["value"]
  [q_hex "value"].

Definition ip_proto_masked : cls := mk_cls "oxm.ip_proto_masked"
  ["type_len" ↦ 2147489026]
  [("value", VInt 0); ("value_mask", VInt 0)]
  [p_int 4 "type_len"; p_int 1 "value"; p_int 1 "value_mask"]
  t_none None []
  [u_check 4 2147489026; u_int 1 "value"; u_int 1 "value_mask"]
  false
  ["value"; "value_mask"]
  [q_hex "value"; q_hex "value_mask"].

Definition ipv4_dst : cls := mk_cls "oxm.ipv4_dst"
  ["type_len" ↦ 2147489796]
  [("value", VInt 0)]
  [p_int 4 "type_len"; p_int 4 "value"]
  t_none None []
  [u_check 4 2147489796; u_int 4 "value"]
  false
  ["value"]
  [q_ipv4 "value"].

Definition ipv4_dst_masked : cls := mk_cls "oxm.ipv4_dst_masked"
  ["type_len" ↦ 2147490056]
  [("value", VInt 0); ("value_mask", VInt 0)]
  [p_int 4 "type_len"; p_int 4 "value"; p_int 4 "value_mask"]
  t_none None []
  [u_check 4 2147490056; u_int 4 "value"; u_int 4 "value_mask"]
  false
  ["value"; "value_mask"]
  [q_ipv4 "value"; q_ipv4 "value_mask"].

Definition ipv4_src : cls := mk_cls "oxm.ipv4_src"
  ["type_len" ↦ 2147489284]
  [("value", VInt 0)]
  [p_int 4 "type_len"; p_int 4 "value"]
  t_none None []
  [u_check 4 2147489284; u_int 4 "value"]
  false
  ["value"]
  [q_ipv4 "value"].

Definition ipv4_src_masked : cls := mk_cls "oxm.ipv4_src_masked"
  ["type_len" ↦ 2147489544]
  [("value", VInt 0); ("value_mask", VInt 0)]
  [p_int 4 "type_len"; p_int 4 "value"; p_int 4 "value_mask"]
  t_none None []
  [u_check 4 2147489544; u_int 4 "value"; u_int 4 "value_mask"]
  false
  ["value"; "value_mask"]
  [q_ipv4 "value"; q_ipv4 "value_mask"].

Definition ipv6_dst : cls := mk_cls "oxm.ipv6_dst"
  ["type_len" ↦ 2147497488]
  [("value", VStr (replicate 16 x00))]
  [p_int 4 "type_len"; p_str 16 "value"]
  t_none None []
  [u_check 4 2147497488; u_str 16 false "value"]
  false
  ["value"]
  [q_pp "value"].

Definition ipv6_dst_masked : cls := mk_cls "oxm.ipv6_dst_masked"
  ["type_len" ↦ 2147497760]
  [("value", VStr (replicate 16 x00)); ("value_mask", VStr (replicate 16 x00))]
  [p_int 4 "type_len"; p_str 16 "value"; p_str 16 "value_mask"]
  t_none None []
  [u_check 4 2147497760; u_str 16 false "value"; u_str 16 false "value_mask"]
  false
  ["value"; "value_mask"]
  [q_pp "value"; q_pp "value_mask"].

Definition ipv6_exthdr : cls := mk_cls "oxm.ipv6_exthdr"
  ["type_len" ↦ 2147503618]
  [("value", VInt 0)]
  [p_int 4 "type_len"; p_int 2 "value"]
  t_none None []
  [u_check 4 2147503618; u_int 2 "value"]
  false
  ["value"]
  [q_hex "value"].

Definition ipv6_exthdr_masked : cls := mk_cls "oxm.ipv6_exthdr_masked"
  ["type_len" ↦ 2147503876]
  [("value", VInt 0); ("value_mask", VInt 0)]
  [p_int 4 "type_len"; p_int 2 "value"; p_int 2 "value_mask"]
  t_none None []
  [u_check 4 2147503876; u_int 2 "value"; u_int 2 "value_mask"]
  false
  ["value"; "value_mask"]
  [q_hex "value"; q_hex "value_mask"].

Definition ipv6_flabel : cls := mk_cls "oxm.ipv6_flabel"
  ["type_len" ↦ 2147497988]
  [("value", VInt 0)]
  [p_int 4 "type_len"; p_int 4 "value"]
  t_none None []
  [u_check 4 2147497988; u_int 4 "value"]
  false
  ["value"]
  [q_hex "value"].

Definition ipv6_flabel_masked : cls := mk_cls "oxm.ipv6_flabel_masked"
  ["type_len" ↦ 2147498248]
  [("value", VInt 0); ("value_mask", VInt 0)]
  [p_int 4 "type_len"; p_int 4 "value"; p_int 4 "value_mask"]
  t_none None []
  [u_check 4 2147498248; u_int 4 "value"; u_int 4 "value_mask"]
  false
  ["value"; "value_mask"]
  [q_hex "value"; q_hex "value_mask"].

Definition ipv6_nd_sll : cls := mk_cls "oxm.ipv6_nd_sll"
  ["type_len" ↦ 2147500038]
  [("value", VInts [0; 0; 0; 0; 0; 0]%Z)]
  [p_int 4 "type_len"; p_bytes 6 "value"]
  t_none None []
  [u_check 4 2147500038; u_bytes 6 "value"]
  false
  ["value"]
  [q_mac "value"].

Definition ipv6_nd_sll_masked : cls := mk_cls "oxm.ipv6_nd_sll_masked"
  ["type_len" ↦ 2147500300]
  [("value", VInts [0; 0; 0; 0; 0; 0]%Z); ("value_mask", VInts [0; 0; 0; 0; 0; 0]%Z)]
  [p_int 4 "type_len"; p_bytes 6 "value"; p_bytes 6 "value_mask"]
  t_none None []
  [u_check 4 2147500300; u_bytes 6 "value"; u_bytes 6 "value_mask"]
  false
  ["value"; "value_mask"]
  [q_mac "value"; q_mac "value_mask"].

Definition ipv6_nd_target : cls := mk_cls "oxm.ipv6_nd_target"
  ["type_len" ↦ 2147499536]
  [("value", VStr (replicate 16 x00))]
  [p_int 4 "type_len"; p_str 16 "value"]
  t_none None []
  [u_check 4 2147499536; u_str 16 false "value"]
  false
  ["value"]
  [q_pp "value"].

Definition ipv6_nd_target_masked : cls := mk_cls "oxm.ipv6_nd_target_masked"
  ["type_len" ↦ 2147499808]
  [("value", VStr (replicate 16 x00)); ("value_mask", VStr (replicate 16 x00))]
  [p_int 4 "type_len"; p_str 16 "value"; p_str 16 "value_mask"]
  t_none None []
  [u_check 4 2147499808; u_str 16 false "value"; u_str 16 false "value_mask"]
  false
  ["value"; "value_mask"]
  [q_pp "value"; q_pp "value_mask"].

Definition ipv6_nd_tll : cls := mk_cls "oxm.ipv6_nd_tll"
  ["type_len" ↦ 2147500550]
  [("value", VInts [0; 0; 0; 0; 0; 0]%Z)]
  [p_int 4 "type_len"; p_bytes 6 "value"]
  t_none None []
  [u_check 4 2147500550; u_bytes 6 "value"]
  false
  ["value"]
  [q_mac "value"].

Definition ipv6_nd_tll_masked : cls := mk_cls "oxm.ipv6_nd_tll_masked"
  ["type_len" ↦ 2147500812]
  [("value", VInts [0; 0; 0; 0; 0; 0]%Z); ("value_mask", VInts [0; 0; 0; 0; 0; 0]%Z)]
  [p_int 4 "type_len"; p_bytes 6 "value"; p_bytes 6 "value_mask"]
  t_none None []
  [u_check 4 2147500812; u_bytes 6 "value"; u_bytes 6 "value_mask"]
  false
  ["value"; "value_mask"]
  [q_mac "value"; q_mac "value_mask"].

Definition ipv6_src : cls := mk_cls "oxm.ipv6_src"
  ["type_len" ↦ 2147496976]
  [("value", VStr (replicate 16 x00))]
  [p_int 4 "type_len"; p_str 16 "value"]
  t_none None []
  [u_check 4 2147496976; u_str 16 false "value"]
  false
  ["value"]
  [q_pp "value"].

Definition ipv6_src_masked : cls := mk_cls "oxm.ipv6_src_masked"
  ["type_len" ↦ 2147497248]
  [("value", VStr (replicate 16 x00)); ("value_mask", VStr (replicate 16 x00))]
  [p_int 4 "type_len"; p_str 16 "value"; p_str 16 "value_mask"]
  t_none None []
  [u_check 4 2147497248; u_str 16 false "value"; u_str 16 false "value_mask"]
  false
  ["value"; "value_mask"]
  [q_pp "value"; q_pp "value_mask"].

Definition metadata : cls := mk_cls "oxm.metadata"
  ["type_len" ↦ 2147484680]
  [("value", VInt 0)]
  [p_int 4 "type_len"; p_int 8 "value"]
  t_none None []
  [u_check 4 2147484680; u_int 8 "value"]
  false
  ["value"]
  [q_hex "value"].

Definition metadata_masked : cls := mk_cls "oxm.metadata_masked"
  ["type_len" ↦ 2147484944]
  [("value", VInt 0); ("value_mask", VInt 0)]
  [p_int 4 "type_len"; p_int 8 "value"; p_int 8 "value_mask"]
  t_none None []
  [u_check 4 2147484944; u_int 8 "value"; u_int 8 "value_mask"]
  false
  ["value"; "value_mask"]
  [q_hex "value"; q_hex "value_mask"].

Definition mpls_bos : cls := mk_cls "oxm.mpls_bos"
  ["type_len" ↦ 2147502081]
  [("value", VInt 0)]
  [p_int 4 "type_len"; p_int 1 "value"]
  t_none None []
  [u_check 4 2147502081; u_int 1 "value"]
  false
  ["value"]
  [q_hex "value"].

Definition mpls_bos_masked : cls := mk_cls "oxm.mpls_bos_masked"
  ["type_len" ↦ 2147502338]
  [("value", VInt 0); ("value_mask", VInt 0)]
  [p_int 4 "type_len"; p_int 1 "value"; p_int 1 "value_mask"]
  t_none None []
  [u_check 4 2147502338; u_int 1 "value"; u_int 1 "value_mask"]
  false
  ["value"; "value_mask"]
  [q_hex "value"; q_hex "value_mask"].

Definition mpls_label : cls := mk_cls "oxm.mpls_label"
  ["type_len" ↦ 2147501060]
  [("value", VInt 0)]
  [p_int 4 "type_len"; p_int 4 "value"]
  t_none None []
  [u_check 4 2147501060; u_int 4 "value"]
  false
  ["value"]
  [q_hex "value"].

Definition mpls_label_masked : cls := mk_cls "oxm.mpls_label_masked"
  ["type_len" ↦ 2147501320]
  [("value", VInt 0); ("value_mask", VInt 0)]
  [p_int 4 "type_len"; p_int 4 "value"; p_int 4 "value_mask"]
  t_none None []
  [u_check 4 2147501320; u_int 4 "value"; u_int 4 "value_mask"]
  false
  ["value"; "value_mask"]
  [q_hex "value"; q_hex "value_mask"].

Definition mpls_tc : cls := mk_cls "oxm.mpls_tc"
  ["type_len" ↦ 2147501569]
  [("value", VInt 0)]
  [p_int 4 "type_len"; p_int 1 "value"]
  t_none None []
  [u_check 4 2147501569; u_int 1 "value"]
  false
  ["value"]
  [q_hex "value"].

Definition mpls_tc_masked : cls := mk_cls "oxm.mpls_tc_masked"
  ["type_len" ↦ 2147501826]
  [("value", VInt 0); ("value_mask", VInt 0)]
  [p_int 4 "type_len"; p_int 1 "value"; p_int 1 "value_mask"]
  t_none None []
  [u_check 4 2147501826; u_int 1 "value"; u_int 1 "value_mask"]
  false
  ["value"; "value_mask"]
  [q_hex "value"; q_hex "value_mask"].

Definition sctp_dst : cls := mk_cls "oxm.sctp_dst"
  ["type_len" ↦ 2147492866]
  [("value", VInt 0)]
  [p_int 4 "type_len"; p_int 2 "value"]
  t_none None []
  [u_check 4 2147492866; u_int 2 "value"]
  false
  ["value"]
  [q_hex "value"].

Definition sctp_dst_masked : cls := mk_cls "oxm.sctp_dst_masked"
  ["type_len" ↦ 2147493124]
  [("value", VInt 0); ("value_mask", VInt 0)]
  [p_int 4 "type_len"; p_int 2 "value"; p_int 2 "value_mask"]
  t_none None []
  [u_check 4 2147493124; u_int 2 "value"; u_int 2 "value_mask"]
  false
  ["value"; "value_mask"]
  [q_hex "value"; q_hex "value_mask"].

Definition sctp_src : cls := mk_cls "oxm.sctp_src"
  ["type_len" ↦ 2147492354]
  [("value", VInt 0)]
  [p_int 4 "type_len"; p_int 2 "value"]
  t_none None []
  [u_check 4 2147492354; u_int 2 "value"]
  false
  ["value"]
  [q_hex "value"].

Definition sctp_src_masked : cls := mk_cls "oxm.sctp_src_masked"
  ["type_len" ↦ 2147492612]
  [("value", VInt 0); ("value_mask", VInt 0)]
  [p_int 4 "type_len"; p_int 2 "value"; p_int 2 "value_mask"]
  t_none None []
  [u_check 4 2147492612; u_int 2 "value"; u_int 2 "value_mask"]
  false
  ["value"; "value_mask"]
  [q_hex "value"; q_hex "value_mask"].

Definition tcp_dst : cls := mk_cls "oxm.tcp_dst"
  ["type_len" ↦ 2147490818]
  [("value", VInt 0)]
  [p_int 4 "type_len"; p_int 2 "value"]
  t_none None []
  [u_check 4 2147490818; u_int 2 "value"]
  false
  ["value"]
  [q_hex "value"].

Definition tcp_dst_masked : cls := mk_cls "oxm.tcp_dst_masked"
  ["type_len" ↦ 2147491076]
  [("value", VInt 0); ("value_mask", VInt 0)]
  [p_int 4 "type_len"; p_int 2 "value"; p_int 2 "value_mask"]
  t_none None []
  [u_check 4 2147491076; u_int 2 "value"; u_int 2 "value_mask"]
  false
  ["value"; "value_mask"]
  [q_hex "value"; q_hex "value_mask"].

Definition tcp_src : cls := mk_cls "oxm.tcp_src"
  ["type_len" ↦ 2147490306]
  [("value", VInt 0)]
  [p_int 4 "type_len"; p_int 2 "value"]
  t_none None []
  [u_check 4 2147490306; u_int 2 "value"]
  false
  ["value"]
  [q_hex "value"].

Definition tcp_src_masked : cls := mk_cls "oxm.tcp_src_masked"
  ["type_len" ↦ 2147490564]
  [("value", VInt 0); ("value_mask", VInt 0)]
  [p_int 4 "type_len"; p_int 2 "value"; p_int 2 "value_mask"]
  t_none None []
  [u_check 4 2147490564; u_int 2 "value"; u_int 2 "value_mask"]
  false
  ["value"; "value_mask"]
  [q_hex "value"; q_hex "value_mask"].

Definition tunnel_id : cls := mk_cls "oxm.tunnel_id"
  ["type_len" ↦ 2147503112]
  [("value", VInt 0)]
  [p_int 4 "type_len"; p_int 8 "value"]
  t_none None []
  [u_check 4 2147503112; u_int 8 "value"]
  false
  ["value"]
  [q_hex "value"].

Definition tunnel_id_masked : cls := mk_cls "oxm.tunnel_id_masked"
  ["type_len" ↦ 2147503376]
  [("value", VInt 0); ("value_mask", VInt 0)]
  [p_int 4 "type_len"; p_int 8 "value"; p_int 8 "value_mask"]
  t_none None []
  [u_check 4 2147503376; u_int 8 "value"; u_int 8 "value_mask"]
  false
  ["value"; "value_mask"]
  [q_hex "value"; q_hex "value_mask"].

Definition tunnel_ipv4_dst : cls := mk_cls "oxm.tunnel_ipv4_dst"
  ["type_len" ↦ 81924]
  [("value", VInt 0)]
  [p_int 4 "type_len"; p_int 4 "value"]
  t_none None []
  [u_check 4 81924; u_int 4 "value"]
  false
  ["value"]
  [q_ipv4 "value"].

Definition tunnel_ipv4_dst_masked : cls := mk_cls "oxm.tunnel_ipv4_dst_masked"
  ["type_len" ↦ 82184]
  [("value", VInt 0); ("value_mask", VInt 0)]
  [p_int 4 "type_len"; p_int 4 "value"; p_int 4 "value_mask"]
  t_none None []
  [u_check 4 82184; u_int 4 "value"; u_int 4 "value_mask"]
  false
  ["value"; "value_mask"]
  [q_ipv4 "value"; q_ipv4 "value_mask"].

Definition tunnel_ipv4_src : cls := mk_cls "oxm.tunnel_ipv4_src"
  ["type_len" ↦ 81412]
  [("value", VInt 0)]
  [p_int 4 "type_len"; p_int 4 "value"]
  t_none None []
  [u_check 4 81412; u_int 4 "value"]
  false
  ["value"]
  [q_ipv4 "value"].

Definition tunnel_ipv4_src_masked : cls := mk_cls "oxm.tunnel_ipv4_src_masked"
  ["type_len" ↦ 81672]
  [("value", VInt 0); ("value_mask", VInt 0)]
  [p_int 4 "type_len"; p_int 4 "value"; p_int 4 "value_mask"]
  t_none None []
  [u_check 4 81672; u_int 4 "value"; u_int 4 "value_mask"]
  false
  ["value"; "value_mask"]
  [q_ipv4 "value"; q_ipv4 "value_mask"].

Definition udp_dst : cls := mk_cls "oxm.udp_dst"
  ["type_len" ↦ 2147491842]
  [("value", VInt 0)]
  [p_int 4 "type_len"; p_int 2 "value"]
  t_none None []
  [u_check 4 2147491842; u_int 2 "value"]
  false
  ["value"]
  [q_hex "value"].

Definition udp_dst_masked : cls := mk_cls "oxm.udp_dst_masked"
  ["type_len" ↦ 2147492100]
  [("value", VInt 0); ("value_mask", VInt 0)]
  [p_int 4 "type_len"; p_int 2 "value"; p_int 2 "value_mask"]
  t_none None []
  [u_check 4 2147492100; u_int 2 "value"; u_int 2 "value_mask"]
  false
  ["value"; "value_mask"]
  [q_hex "value"; q_hex "value_mask"].

Definition udp_src : cls := mk_cls "oxm.udp_src"
  ["type_len" ↦ 2147491330]
  [("value", VInt 0)]
  [p_int 4 "type_len"; p_int 2 "value"]
  t_none None []
  [u_check 4 2147491330; u_int 2 "value"]
  false
  ["value"]
  [q_hex "value"].

Definition udp_src_masked : cls := mk_cls "oxm.udp_src_masked"
  ["type_len" ↦ 2147491588]
  [("value", VInt 0); ("value_mask", VInt 0)]
  [p_int 4 "type_len"; p_int 2 "value"; p_int 2 "value_mask"]
  t_none None []
  [u_check 4 2147491588; u_int 2 "value"; u_int 2 "value_mask"]
  false
  ["value"; "value_mask"]
  [q_hex "value"; q_hex "value_mask"].

Definition vlan_pcp : cls := mk_cls "oxm.vlan_pcp"
  ["type_len" ↦ 2147487233]
  [("value", VInt 0)]
  [p_int 4 "type_len"; p_int 1 "value"]
  t_none None []
  [u_check 4 2147487233; u_int 1 "value"]
  false
  ["value"]
  [q_hex "value"].

Definition vlan_pcp_masked : cls := mk_cls "oxm.vlan_pcp_masked"
  ["type_len" ↦ 2147487490]
  [("value", VInt 0); ("value_mask", VInt 0)]
  [p_int 4 "type_len"; p_int 1 "value"; p_int 1 "value_mask"]
  t_none None []
  [u_check 4 2147487490; u_int 1 "value"; u_int 1 "value_mask"]
  false
  ["value"; "value_mask"]
  [q_hex "value"; q_hex "value_mask"].

Definition vlan_vid : cls := mk_cls "oxm.vlan_vid"
  ["type_len" ↦ 2147486722]
  [("value", VInt 0)]
  [p_int 4 "type_len"; p_int 2 "value"]
  t_none None []
  [u_check 4 2147486722; u_int 2 "value"]
  false
  ["value"]
  [q_hex "value"].

Definition vlan_vid_masked : cls := mk_cls "oxm.vlan_vid_masked"
  ["type_len" ↦ 2147486980]
  [("value", VInt 0); ("value_mask", VInt 0)]
  [p_int 4 "type_len"; p_int 2 "value"; p_int 2 "value_mask"]
  t_none None []
  [u_check 4 2147486980; u_int 2 "value"; u_int 2 "value_mask"]
  false
  ["value"; "value_mask"]
  [q_hex "value"; q_hex "value_mask"].

Definition classes : list cls :=
  [oxm; arp_op; arp_op_masked; arp_sha; arp_sha_masked; arp_spa; arp_spa_masked; arp_tha; arp_tha_masked;
   arp_tpa; arp_tpa_masked; bsn_egr_port_group_id; bsn_egr_port_group_id_masked; bsn_global_vrf_allowed;
   bsn_global_vrf_allowed_masked; bsn_in_ports_128; bsn_in_ports_128_masked; bsn_in_ports_512;
   bsn_in_ports_512_masked; bsn_ingress_port_group_id; bsn_ingress_port_group_id_masked;
   bsn_inner_eth_dst; bsn_inner_eth_dst_masked; bsn_inner_eth_src; bsn_inner_eth_src_masked;
   bsn_inner_vlan_vid; bsn_inner_vlan_vid_masked; bsn_l2_cache_hit; bsn_l2_cache_hit_masked;
   bsn_l3_dst_class_id; bsn_l3_dst_class_id_masked; bsn_l3_interface_class_id;
   bsn_l3_interface_class_id_masked; bsn_l3_src_class_id; bsn_l3_src_class_id_masked; bsn_lag_id;
   bsn_lag_id_masked; bsn_tcp_flags; bsn_tcp_flags_masked; bsn_udf0; bsn_udf0_masked; bsn_udf1;
   bsn_udf1_masked; bsn_udf2; bsn_udf2_masked; bsn_udf3; bsn_udf3_masked; bsn_udf4; bsn_udf4_masked;
   bsn_udf5; bsn_udf5_masked; bsn_udf6; bsn_udf6_masked; bsn_udf7; bsn_udf7_masked; bsn_vfi;
   bsn_vfi_masked; bsn_vlan_xlate_port_group_id; bsn_vlan_xlate_port_group_id_masked; bsn_vrf;
   bsn_vrf_masked; bsn_vxlan_network_id; bsn_vxlan_network_id_masked; eth_dst; eth_dst_masked; eth_src;
   eth_src_masked; eth_type; eth_type_masked; icmpv4_code; icmpv4_code_masked; icmpv4_type;
   icmpv4_type_masked; icmpv6_code; icmpv6_code_masked; icmpv6_type; icmpv6_type_masked; in_phy_port;
   in_phy_port_masked; in_port; in_port_masked; ip_dscp; ip_dscp_masked; ip_ecn; ip_ecn_masked; ip_proto;
   ip_proto_masked; ipv4_dst; ipv4_dst_masked; ipv4_src; ipv4_src_masked; ipv6_dst; ipv6_dst_masked;
   ipv6_exthdr; ipv6_exthdr_masked; ipv6_flabel; ipv6_flabel_masked; ipv6_nd_sll; ipv6_nd_sll_masked;
   ipv6_nd_target; ipv6_nd_target_masked; ipv6_nd_tll; ipv6_nd_tll_masked; ipv6_src; ipv6_src_masked;
   metadata; metadata_masked; mpls_bos; mpls_bos_masked; mpls_label; mpls_label_masked; mpls_tc;
   mpls_tc_masked; sctp_dst; sctp_dst_masked; sctp_src; sctp_src_masked; tcp_dst; tcp_dst_masked; tcp_src;
   tcp_src_masked; tunnel_id; tunnel_id_masked; tunnel_ipv4_dst; tunnel_ipv4_dst_masked; tunnel_ipv4_src;
   tunnel_ipv4_src_masked; udp_dst; udp_dst_masked; udp_src; udp_src_masked; vlan_pcp; vlan_pcp_masked;
   vlan_vid; vlan_vid_masked].
End Oxm.

Module BsnTlv.
Import LoxiNotations.

Definition bsn_tlv : cls := mk_cls "bsn_tlv.bsn_tlv"
  []
  [("type", VInt 0)]
  [p_int 2 "type"; p_placeholder]
  (t_len 1) (Some (2, 0))
  [44 ⇒ "bsn_tlv.actor_key"; 43 ⇒ "bsn_tlv.actor_port_num"; 42 ⇒ "bsn_tlv.actor_port_priority";
   53 ⇒ "bsn_tlv.actor_state"; 41 ⇒ "bsn_tlv.actor_system_mac"; 40 ⇒ "bsn_tlv.actor_system_priority";
   81 ⇒ "bsn_tlv.anchor"; 10 ⇒ "bsn_tlv.broadcast_query_timeout"; 90 ⇒ "bsn_tlv.broadcast_rate";
   64 ⇒ "bsn_tlv.bucket"; 14 ⇒ "bsn_tlv.circuit_id"; 45 ⇒ "bsn_tlv.convergence_status";
   22 ⇒ "bsn_tlv.crc_enabled"; 55 ⇒ "bsn_tlv.data"; 85 ⇒ "bsn_tlv.decap"; 33 ⇒ "bsn_tlv.eth_dst";
   32 ⇒ "bsn_tlv.eth_src"; 26 ⇒ "bsn_tlv.external_gateway_ip"; 29 ⇒ "bsn_tlv.external_gateway_mac";
   23 ⇒ "bsn_tlv.external_ip"; 24 ⇒ "bsn_tlv.external_mac"; 25 ⇒ "bsn_tlv.external_netmask";
   80 ⇒ "bsn_tlv.generation_id"; 103 ⇒ "bsn_tlv.hash_packet_field"; 102 ⇒ "bsn_tlv.hash_packet_type";
   100 ⇒ "bsn_tlv.hash_seed"; 101 ⇒ "bsn_tlv.hash_type"; 31 ⇒ "bsn_tlv.header_size";
   69 ⇒ "bsn_tlv.icmp_code"; 70 ⇒ "bsn_tlv.icmp_id"; 68 ⇒ "bsn_tlv.icmp_type";
   7 ⇒ "bsn_tlv.idle_notification"; 5 ⇒ "bsn_tlv.idle_time"; 8 ⇒ "bsn_tlv.idle_timeout";
   78 ⇒ "bsn_tlv.igmp_snooping"; 28 ⇒ "bsn_tlv.internal_gateway_mac"; 27 ⇒ "bsn_tlv.internal_mac";
   58 ⇒ "bsn_tlv.interval"; 67 ⇒ "bsn_tlv.ip_proto"; 4 ⇒ "bsn_tlv.ipv4"; 35 ⇒ "bsn_tlv.ipv4_dst";
   60 ⇒ "bsn_tlv.ipv4_netmask"; 34 ⇒ "bsn_tlv.ipv4_src"; 84 ⇒ "bsn_tlv.ipv6";
   91 ⇒ "bsn_tlv.known_multicast_rate"; 79 ⇒ "bsn_tlv.l2_multicast_lookup"; 1 ⇒ "bsn_tlv.mac";
   56 ⇒ "bsn_tlv.mac_mask"; 87 ⇒ "bsn_tlv.mcg_type_vxlan"; 13 ⇒ "bsn_tlv.miss_packets";
   62 ⇒ "bsn_tlv.mpls_control_word"; 61 ⇒ "bsn_tlv.mpls_label"; 63 ⇒ "bsn_tlv.mpls_sequenced";
   95 ⇒ "bsn_tlv.multicast_interface_id"; 52 ⇒ "bsn_tlv.name"; 83 ⇒ "bsn_tlv.negate";
   94 ⇒ "bsn_tlv.nexthop_type_vxlan"; 82 ⇒ "bsn_tlv.offset"; 51 ⇒ "bsn_tlv.partner_key";
   50 ⇒ "bsn_tlv.partner_port_num"; 49 ⇒ "bsn_tlv.partner_port_priority"; 54 ⇒ "bsn_tlv.partner_state";
   48 ⇒ "bsn_tlv.partner_system_mac"; 47 ⇒ "bsn_tlv.partner_system_priority"; 0 ⇒ "bsn_tlv.port";
   88 ⇒ "bsn_tlv.port_vxlan_mode"; 57 ⇒ "bsn_tlv.priority"; 20 ⇒ "bsn_tlv.queue_id";
   21 ⇒ "bsn_tlv.queue_weight"; 89 ⇒ "bsn_tlv.rate_unit"; 59 ⇒ "bsn_tlv.reference";
   12 ⇒ "bsn_tlv.reply_packets"; 11 ⇒ "bsn_tlv.request_packets"; 71 ⇒ "bsn_tlv.rx_bytes";
   2 ⇒ "bsn_tlv.rx_packets"; 30 ⇒ "bsn_tlv.sampling_rate"; 74 ⇒ "bsn_tlv.set_loopback_mode";
   97 ⇒ "bsn_tlv.status"; 75 ⇒ "bsn_tlv.strip_mpls_l2_on_ingress";
   76 ⇒ "bsn_tlv.strip_mpls_l3_on_ingress"; 73 ⇒ "bsn_tlv.strip_vlan_on_egress";
   38 ⇒ "bsn_tlv.sub_agent_id"; 66 ⇒ "bsn_tlv.tcp_dst"; 65 ⇒ "bsn_tlv.tcp_src"; 39 ⇒ "bsn_tlv.tx_bytes";
   3 ⇒ "bsn_tlv.tx_packets"; 16 ⇒ "bsn_tlv.udf_anchor"; 15 ⇒ "bsn_tlv.udf_id"; 18 ⇒ "bsn_tlv.udf_length";
   17 ⇒ "bsn_tlv.udf_offset"; 37 ⇒ "bsn_tlv.udp_dst"; 36 ⇒ "bsn_tlv.udp_src";
   9 ⇒ "bsn_tlv.unicast_query_timeout"; 93 ⇒ "bsn_tlv.unicast_rate";
   92 ⇒ "bsn_tlv.unknown_multicast_rate"; 96 ⇒ "bsn_tlv.use_packet_state"; 99 ⇒ "bsn_tlv.vfi";
   72 ⇒ "bsn_tlv.vlan_pcp"; 6 ⇒ "bsn_tlv.vlan_vid"; 77 ⇒ "bsn_tlv.vlan_vid_mask"; 86 ⇒ "bsn_tlv.vni";
   19 ⇒ "bsn_tlv.vrf"]
  [u_int 2 "type"; u_slice 4]
  false
  ["type"]
  [].

Definition actor_key : cls := mk_cls "bsn_tlv.actor_key"
  ["type" ↦ 44]
  [("value", VInt 0)]
  [p_int 2 "type"; p_placeholder; p_int 2 "value"]
  (t_len 1) None []
  [u_check 2 44; u_slice 4; u_int 2 "value"]
  false
  ["value"]
  [q_hex "value"].

Definition actor_port_num : cls := mk_cls "bsn_tlv.actor_port_num"
  ["type" ↦ 43]
  [("value", VInt 0)]
  [p_int 2 "type"; p_placeholder; p_int 2 "value"]
  (t_len 1) None []
  [u_check 2 43; u_slice 4; u_int 2 "value"]
  false
  ["value"]
  [q_hex "value"].

Definition actor_port_priority : cls := mk_cls "bsn_tlv.actor_port_priority"
  ["type" ↦ 42]
  [("value", VInt 0)]
  [p_int 2 "type"; p_placeholder; p_int 2 "value"]
  (t_len 1) None []
  [u_check 2 42; u_slice 4; u_int 2 "value"]
  false
  ["value"]
  [q_hex "value"].

Definition actor_state : cls := mk_cls "bsn_tlv.actor_state"
  ["type" ↦ 53]
  [("value", VInt 0)]
  [p_int 2 "type"; p_placeholder; p_int 1 "value"]
  (t_len 1) None []
  [u_check 2 53; u_slice 4; u_int 1 "value"]
  false
  ["value"]
  [q_hex "value"].

Definition actor_system_mac : cls := mk_cls "bsn_tlv.actor_system_mac"
  ["type" ↦ 41]
  [("value", VInts [0; 0; 0; 0; 0; 0]%Z)]
  [p_int 2 "type"; p_placeholder; p_bytes 6 "value"]
  (t_len 1) None []
  [u_check 2 41; u_slice 4; u_bytes 6 "value"]
  false
  ["value"]
  [q_mac "value"].

Definition actor_system_priority : cls := mk_cls "bsn_tlv.actor_system_priority"
  ["type" ↦ 40]
  [("value", VInt 0)]
  [p_int 2 "type"; p_placeholder; p_int 2 "value"]
  (t_len 1) None []
  [u_check 2 40; u_slice 4; u_int 2 "value"]
  false
  ["value"]
  [q_hex "value"].

Definition anchor : cls := mk_cls "bsn_tlv.anchor"
  ["type" ↦ 81]
  [("value", VInt 0)]
  [p_int 2 "type"; p_placeholder; p_int 2 "value"]
  (t_len 1) None []
  [u_check 2 81; u_slice 4; u_int 2 "value"]
  false
  ["value"]
  [q_hex "value"].

Definition broadcast_query_timeout : cls := mk_cls "bsn_tlv.broadcast_query_timeout"
  ["type" ↦ 10]
  [("value", VInt 0)]
  [p_int 2 "type"; p_placeholder; p_int 4 "value"]
  (t_len 1) None []
  [u_check 2 10; u_slice 4; u_int 4 "value"]
  false
  ["value"]
  [q_hex "value"].

Definition broadcast_rate : cls := mk_cls "bsn_tlv.broadcast_rate"
  ["type" ↦ 90]
  [("value", VInt 0)]
  [p_int 2 "type"; p_placeholder; p_int 4 "value"]
  (t_len 1) None []
  [u_check 2 90; u_slice 4; u_int 4 "value"]
  false
  ["value"]
  [q_hex "value"].

Definition bucket : cls := mk_cls "bsn_tlv.bucket"
  ["type" ↦ 64]
  [("value", VList [])]
  [p_int 2 "type"; p_placeholder; p_list "value"]
  (t_len 1) None []
  [u_check 2 64; u_slice 4; u_list "value" "bsn_tlv.bsn_tlv"]
  false
  ["value"]
  [q_pp "value"].

Definition circuit_id : cls := mk_cls "bsn_tlv.circuit_id"
  ["type" ↦ 14]
  [("value", VStr [])]
  [p_int 2 "type"; p_placeholder; p_raw "value"]
  (t_len 1) None []
  [u_check 2 14; u_slice 4; u_rest "value"]
  false
  ["value"]
  [q_pp "value"].

Definition convergence_status : cls := mk_cls "bsn_tlv.convergence_status"
  ["type" ↦ 45]
  [("value", VInt 0)]
  [p_int 2 "type"; p_placeholder; p_int 1 "value"]
  (t_len 1) None []
  [u_check 2 45; u_slice 4; u_int 1 "value"]
  false
  ["value"]
  [q_hex "value"].

Definition crc_enabled : cls := mk_cls "bsn_tlv.crc_enabled"
  ["type" ↦ 22]
  [("value", VInt 0)]
  [p_int 2 "type"; p_placeholder; p_int 1 "value"]
  (t_len 1) None []
  [u_check 2 22; u_slice 4; u_int 1 "value"]
  false
  ["value"]
  [q_hex "value"].

Definition data : cls := mk_cls "bsn_tlv.data"
  ["type" ↦ 55]
  [("value", VStr [])]
  [p_int 2 "type"; p_placeholder; p_raw "value"]
  (t_len 1) None []
  [u_check 2 55; u_slice 4; u_rest "value"]
  false
  ["value"]
  [q_pp "value"].

Definition decap : cls := mk_cls "bsn_tlv.decap"
  ["type" ↦ 85]
  [("value", VInt 0)]
  [p_int 2 "type"; p_placeholder; p_int 2 "value"]
  (t_len 1) None []
  [u_check 2 85; u_slice 4; u_int 2 "value"]
  false
  ["value"]
  [q_hex "value"].

Definition eth_dst : cls := mk_cls "bsn_tlv.eth_dst"
  ["type" ↦ 33]
  [("value", VInts [0; 0; 0; 0; 0; 0]%Z)]
  [p_int 2 "type"; p_placeholder; p_bytes 6 "value"]
  (t_len 1) None []
  [u_check 2 33; u_slice 4; u_bytes 6 "value"]
  false
  ["value"]
  [q_mac "value"].

Definition eth_src : cls := mk_cls "bsn_tlv.eth_src"
  ["type" ↦ 32]
  [("value", VInts [0; 0; 0; 0; 0; 0]%Z)]
  [p_int 2 "type"; p_placeholder; p_bytes 6 "value"]
  (t_len 1) None []
  [u_check 2 32; u_slice 4; u_bytes 6 "value"]
  false
  ["value"]
  [q_mac "value"].

Definition external_gateway_ip : cls := mk_cls "bsn_tlv.external_gateway_ip"
  ["type" ↦ 26]
  [("value", VInt 0)]
  [p_int 2 "type"; p_placeholder; p_int 4 "value"]
  (t_len 1) None []
  [u_check 2 26; u_slice 4; u_int 4 "value"]
  false
  ["value"]
  [q_ipv4 "value"].

Definition external_gateway_mac : cls := mk_cls "bsn_tlv.external_gateway_mac"
  ["type" ↦ 29]
  [("value", VInts [0; 0; 0; 0; 0; 0]%Z)]
  [p_int 2 "type"; p_placeholder; p_bytes 6 "value"]
  (t_len 1) None []
  [u_check 2 29; u_slice 4; u_bytes 6 "value"]
  false
  ["value"]
  [q_mac "value"].

Definition external_ip : cls := mk_cls "bsn_tlv.external_ip"
  ["type" ↦ 23]
  [("value", VInt 0)]
  [p_int 2 "type"; p_placeholder; p_int 4 "value"]
  (t_len 1) None []
  [u_check 2 23; u_slice 4; u_int 4 "value"]
  false
  ["value"]
  [q_ipv4 "value"].

Definition external_mac : cls := mk_cls "bsn_tlv.external_mac"
  ["type" ↦ 24]
  [("value", VInts [0; 0; 0; 0; 0; 0]%Z)]
  [p_int 2 "type"; p_placeholder; p_bytes 6 "value"]
  (t_len 1) None []
  [u_check 2 24; u_slice 4; u_bytes 6 "value"]
  false
  ["value"]
  [q_mac "value"].

Definition external_netmask : cls := mk_cls "bsn_tlv.external_netmask"
  ["type" ↦ 25]
  [("value", VInt 0)]
  [p_int 2 "type"; p_placeholder; p_int 4 "value"]
  (t_len 1) None []
  [u_check 2 25; u_slice 4; u_int 4 "value"]
  false
  ["value"]
  [q_ipv4 "value"].

Definition generation_id : cls := mk_cls "bsn_tlv.generation_id"
  ["type" ↦ 80]
  [("value", VInt 0)]
  [p_int 2 "type"; p_placeholder; p_int 8 "value"]
  (t_len 1) None []
  [u_check 2 80; u_slice 4; u_int 8 "value"]
  false
  ["value"]
  [q_hex "value"].

Definition hash_packet_field : cls := mk_cls "bsn_tlv.hash_packet_field"
  ["type" ↦ 103]
  [("value", VInt 0)]
  [p_int 2 "type"; p_placeholder; p_int 8 "value"]
  (t_len 1) None []
  [u_check 2 103; u_slice 4; u_int 8 "value"]
  false
  ["value"]
  [q_hex "value"].

Definition hash_packet_type : cls := mk_cls "bsn_tlv.hash_packet_type"
  ["type" ↦ 102]
  [("value", VInt 0)]
  [p_int 2 "type"; p_placeholder; p_int 1 "value"]
  (t_len 1) None []
  [u_check 2 102; u_slice 4; u_int 1 "value"]
  false
  ["value"]
  [q_hex "value"].

Definition hash_seed : cls := mk_cls "bsn_tlv.hash_seed"
  ["type" ↦ 100]
  [("seed1", VInt 0); ("seed2", VInt 0)]
  [p_int 2 "type"; p_placeholder; p_int 4 "seed1"; p_int 4 "seed2"]
  (t_len 1) None []
  [u_check 2 100; u_slice 4; u_int 4 "seed1"; u_int 4 "seed2"]
  false
  ["seed1"; "seed2"]
  [q_hex "seed1"; q_hex "seed2"].

Definition hash_type : cls := mk_cls "bsn_tlv.hash_type"
  ["type" ↦ 101]
  [("value", VInt 0)]
  [p_int 2 "type"; p_placeholder; p_int 1 "value"]
  (t_len 1) None []
  [u_check 2 101; u_slice 4; u_int 1 "value"]
  false
  ["value"]
  [q_hex "value"].

Definition header_size : cls := mk_cls "bsn_tlv.header_size"
  ["type" ↦ 31]
  [("value", VInt 0)]
  [p_int 2 "type"; p_placeholder; p_int 4 "value"]
  (t_len 1) None []
  [u_check 2 31; u_slice 4; u_int 4 "value"]
  false
  ["value"]
  [q_hex "value"].

Definition icmp_code : cls := mk_cls "bsn_tlv.icmp_code"
  ["type" ↦ 69]
  [("value", VInt 0)]
  [p_int 2 "type"; p_placeholder; p_int 1 "value"]
  (t_len 1) None []
  [u_check 2 69; u_slice 4; u_int 1 "value"]
  false
  ["value"]
  [q_hex "value"].

Definition icmp_id : cls := mk_cls "bsn_tlv.icmp_id"
  ["type" ↦ 70]
  [("value", VInt 0)]
  [p_int 2 "type"; p_placeholder; p_int 2 "value"]
  (t_len 1) None []
  [u_check 2 70; u_slice 4; u_int 2 "value"]
  false
  ["value"]
  [q_hex "value"].

Definition icmp_type : cls := mk_cls "bsn_tlv.icmp_type"
  ["type" ↦ 68]
  [("value", VInt 0)]
  [p_int 2 "type"; p_placeholder; p_int 1 "value"]
  (t_len 1) None []
  [u_check 2 68; u_slice 4; u_int 1 "value"]
  false
  ["value"]
  [q_hex "value"].

Definition idle_notification : cls := mk_cls "bsn_tlv.idle_notification"
  ["type" ↦ 7]
  []
  [p_int 2 "type"; p_placeholder]
  (t_len 1) None []
  [u_check 2 7; u_slice 4]
  false
  []
  [].

Definition idle_time : cls := mk_cls "bsn_tlv.idle_time"
  ["type" ↦ 5]
  [("value", VInt 0)]
  [p_int 2 "type"; p_placeholder; p_int 8 "value"]
  (t_len 1) None []
  [u_check 2 5; u_slice 4; u_int 8 "value"]
  false
  ["value"]
  [q_hex "value"].

Definition idle_timeout : cls := mk_cls "bsn_tlv.idle_timeout"
  ["type" ↦ 8]
  [("value", VInt 0)]
  [p_int 2 "type"; p_placeholder; p_int 4 "value"]
  (t_len 1) None []
  [u_check 2 8; u_slice 4; u_int 4 "value"]
  false
  ["value"]
  [q_hex "value"].

Definition igmp_snooping : cls := mk_cls "bsn_tlv.igmp_snooping"
  ["type" ↦ 78]
  []
  [p_int 2 "type"; p_placeholder]
  (t_len 1) None []
  [u_check 2 78; u_slice 4]
  false
  []
  [].

Definition internal_gateway_mac : cls := mk_cls "bsn_tlv.internal_gateway_mac"
  ["type" ↦ 28]
  [("value", VInts [0; 0; 0; 0; 0; 0]%Z)]
  [p_int 2 "type"; p_placeholder; p_bytes 6 "value"]
  (t_len 1) None []
  [u_check 2 28; u_slice 4; u_bytes 6 "value"]
  false
  ["value"]
  [q_mac "value"].

Definition internal_mac : cls := mk_cls "bsn_tlv.internal_mac"
  ["type" ↦ 27]
  [("value", VInts [0; 0; 0; 0; 0; 0]%Z)]
  [p_int 2 "type"; p_placeholder; p_bytes 6 "value"]
  (t_len 1) None []
  [u_check 2 27; u_slice 4; u_bytes 6 "value"]
  false
  ["value"]
  [q_mac "value"].

Definition interval : cls := mk_cls "bsn_tlv.interval"
  ["type" ↦ 58]
  [("value", VInt 0)]
  [p_int 2 "type"; p_placeholder; p_int 4 "value"]
  (t_len 1) None []
  [u_check 2 58; u_slice 4; u_int 4 "value"]
  false
  ["value"]
  [q_hex "value"].

Definition ip_proto : cls := mk_cls "bsn_tlv.ip_proto"
  ["type" ↦ 67]
  [("value", VInt 0)]
  [p_int 2 "type"; p_placeholder; p_int 1 "value"]
  (t_len 1) None []
  [u_check 2 67; u_slice 4; u_int 1 "value"]
  false
  ["value"]
  [q_hex "value"].

Definition ipv4 : cls := mk_cls "bsn_tlv.ipv4"
  ["type" ↦ 4]
  [("value", VInt 0)]
  [p_int 2 "type"; p_placeholder; p_int 4 "value"]
  (t_len 1) None []
  [u_check 2 4; u_slice 4; u_int 4 "value"]
  false
  ["value"]
  [q_ipv4 "value"].

Definition ipv4_dst : cls := mk_cls "bsn_tlv.ipv4_dst"
  ["type" ↦ 35]
  [("value", VInt 0)]
  [p_int 2 "type"; p_placeholder; p_int 4 "value"]
  (t_len 1) None []
  [u_check 2 35; u_slice 4; u_int 4 "value"]
  false
  ["value"]
  [q_ipv4 "value"].

Definition ipv4_netmask : cls := mk_cls "bsn_tlv.ipv4_netmask"
  ["type" ↦ 60]
  [("value", VInt 0)]
  [p_int 2 "type"; p_placeholder; p_int 4 "value"]
  (t_len 1) None []
  [u_check 2 60; u_slice 4; u_int 4 "value"]
  false
  ["value"]
  [q_ipv4 "value"].

Definition ipv4_src : cls := mk_cls "bsn_tlv.ipv4_src"
  ["type" ↦ 34]
  [("value", VInt 0)]
  [p_int 2 "type"; p_placeholder; p_int 4 "value"]
  (t_len 1) None []
  [u_check 2 34; u_slice 4; u_int 4 "value"]
  false
  ["value"]
  [q_ipv4 "value"].

Definition ipv6 : cls := mk_cls "bsn_tlv.ipv6"
  ["type" ↦ 84]
  [("value", VStr (replicate 16 x00))]
  [p_int 2 "type"; p_placeholder; p_str 16 "value"]
  (t_len 1) None []
  [u_check 2 84; u_slice 4; u_str 16 false "value"]
  false
  ["value"]
  [q_pp "value"].

Definition known_multicast_rate : cls := mk_cls "bsn_tlv.known_multicast_rate"
  ["type" ↦ 91]
  [("value", VInt 0)]
  [p_int 2 "type"; p_placeholder; p_int 4 "value"]
  (t_len 1) None []
  [u_check 2 91; u_slice 4; u_int 4 "value"]
  false
  ["value"]
  [q_hex "value"].

Definition l2_multicast_lookup : cls := mk_cls "bsn_tlv.l2_multicast_lookup"
  ["type" ↦ 79]
  []
  [p_int 2 "type"; p_placeholder]
  (t_len 1) None []
  [u_check 2 79; u_slice 4]
  false
  []
  [].

Definition mac : cls := mk_cls "bsn_tlv.mac"
  ["type" ↦ 1]
  [("value", VInts [0; 0; 0; 0; 0; 0]%Z)]
  [p_int 2 "type"; p_placeholder; p_bytes 6 "value"]
  (t_len 1) None []
  [u_check 2 1; u_slice 4; u_bytes 6 "value"]
  false
  ["value"]
  [q_mac "value"].

Definition mac_mask : cls := mk_cls "bsn_tlv.mac_mask"
  ["type" ↦ 56]
  [("value", VInts [0; 0; 0; 0; 0; 0]%Z)]
  [p_int 2 "type"; p_placeholder; p_bytes 6 "value"]
  (t_len 1) None []
  [u_check 2 56; u_slice 4; u_bytes 6 "value"]
  false
  ["value"]
  [q_mac "value"].

Definition mcg_type_vxlan : cls := mk_cls "bsn_tlv.mcg_type_vxlan"
  ["type" ↦ 87]
  []
  [p_int 2 "type"; p_placeholder]
  (t_len 1) None []
  [u_check 2 87; u_slice 4]
  false
  []
  [].

Definition miss_packets : cls := mk_cls "bsn_tlv.miss_packets"
  ["type" ↦ 13]
  [("value", VInt 0)]
  [p_int 2 "type"; p_placeholder; p_int 8 "value"]
  (t_len 1) None []
  [u_check 2 13; u_slice 4; u_int 8 "value"]
  false
  ["value"]
  [q_hex "value"].

Definition mpls_control_word : cls := mk_cls "bsn_tlv.mpls_control_word"
  ["type" ↦ 62]
  [("value", VInt 0)]
  [p_int 2 "type"; p_placeholder; p_int 1 "value"]
  (t_len 1) None []
  [u_check 2 62; u_slice 4; u_int 1 "value"]
  false
  ["value"]
  [q_hex "value"].

Definition mpls_label : cls := mk_cls "bsn_tlv.mpls_label"
  ["type" ↦ 61]
  [("value", VInt 0)]
  [p_int 2 "type"; p_placeholder; p_int 4 "value"]
  (t_len 1) None []
  [u_check 2 61; u_slice 4; u_int 4 "value"]
  false
  ["value"]
  [q_hex "value"].

Definition mpls_sequenced : cls := mk_cls "bsn_tlv.mpls_sequenced"
  ["type" ↦ 63]
  [("value", VInt 0)]
  [p_int 2 "type"; p_placeholder; p_int 1 "value"]
  (t_len 1) None []
  [u_check 2 63; u_slice 4; u_int 1 "value"]
  false
  ["value"]
  [q_hex "value"].

Definition multicast_interface_id : cls := mk_cls "bsn_tlv.multicast_interface_id"
  ["type" ↦ 95]
  [("value", VInt 0)]
  [p_int 2 "type"; p_placeholder; p_int 4 "value"]
  (t_len 1) None []
  [u_check 2 95; u_slice 4; u_int 4 "value"]
  false
  ["value"]
  [q_hex "value"].

Definition name : cls := mk_cls "bsn_tlv.name"
  ["type" ↦ 52]
  [("value", VStr [])]
  [p_int 2 "type"; p_placeholder; p_raw "value"]
  (t_len 1) None []
  [u_check 2 52; u_slice 4; u_rest "value"]
  false
  ["value"]
  [q_pp "value"].

Definition negate : cls := mk_cls "bsn_tlv.negate"
  ["type" ↦ 83]
  []
  [p_int 2 "type"; p_placeholder]
  (t_len 1) None []
  [u_check 2 83; u_slice 4]
  false
  []
  [].

Definition nexthop_type_vxlan : cls := mk_cls "bsn_tlv.nexthop_type_vxlan"
  ["type" ↦ 94]
  []
  [p_int 2 "type"; p_placeholder]
  (t_len 1) None []
  [u_check 2 94; u_slice 4]
  false
  []
  [].

Definition offset : cls := mk_cls "bsn_tlv.offset"
  ["type" ↦ 82]
  [("value", VInt 0)]
  [p_int 2 "type"; p_placeholder; p_int 2 "value"]
  (t_len 1) None []
  [u_check 2 82; u_slice 4; u_int 2 "value"]
  false
  ["value"]
  [q_hex "value"].

Definition partner_key : cls := mk_cls "bsn_tlv.partner_key"
  ["type" ↦ 51]
  [("value", VInt 0)]
  [p_int 2 "type"; p_placeholder; p_int 2 "value"]
  (t_len 1) None []
  [u_check 2 51; u_slice 4; u_int 2 "value"]
  false
  ["value"]
  [q_hex "value"].

Definition partner_port_num : cls := mk_cls "bsn_tlv.partner_port_num"
  ["type" ↦ 50]
  [("value", VInt 0)]
  [p_int 2 "type"; p_placeholder; p_int 2 "value"]
  (t_len 1) None []
  [u_check 2 50; u_slice 4; u_int 2 "value"]
  false
  ["value"]
  [q_hex "value"].

Definition partner_port_priority : cls := mk_cls "bsn_tlv.partner_port_priority"
  ["type" ↦ 49]
  [("value", VInt 0)]
  [p_int 2 "type"; p_placeholder; p_int 2 "value"]
  (t_len 1) None []
  [u_check 2 49; u_slice 4; u_int 2 "value"]
  false
  ["value"]
  [q_hex "value"].

Definition partner_state : cls := mk_cls "bsn_tlv.partner_state"
  ["type" ↦ 54]
  [("value", VInt 0)]
  [p_int 2 "type"; p_placeholder; p_int 1 "value"]
  (t_len 1) None []
  [u_check 2 54; u_slice 4; u_int 1 "value"]
  false
  ["value"]
  [q_hex "value"].

Definition partner_system_mac : cls := mk_cls "bsn_tlv.partner_system_mac"
  ["type" ↦ 48]
  [("value", VInts [0; 0; 0; 0; 0; 0]%Z)]
  [p_int 2 "type"; p_placeholder; p_bytes 6 "value"]
  (t_len 1) None []
  [u_check 2 48; u_slice 4; u_bytes 6 "value"]
  false
  ["value"]
  [q_mac "value"].

Definition partner_system_priority : cls := mk_cls "bsn_tlv.partner_system_priority"
  ["type" ↦ 47]
  [("value", VInt 0)]
  [p_int 2 "type"; p_placeholder; p_int 2 "value"]
  (t_len 1) None []
  [u_check 2 47; u_slice 4; u_int 2 "value"]
  false
  ["value"]
  [q_hex "value"].

Definition port : cls := mk_cls "bsn_tlv.port"
  ["type" ↦ 0]
  [("value", VInt 0)]
  [p_int 2 "type"; p_placeholder; p_int 4 "value"]
  (t_len 1) None []
  [u_check 2 0; u_slice 4; u_int 4 "value"]
  false
  ["value"]
  [q_port "value"].

Definition port_vxlan_mode : cls := mk_cls "bsn_tlv.port_vxlan_mode"
  ["type" ↦ 88]
  [("value", VInt 0)]
  [p_int 2 "type"; p_placeholder; p_int 1 "value"]
  (t_len 1) None []
  [u_check 2 88; u_slice 4; u_int 1 "value"]
  false
  ["value"]
  [q_hex "value"].

Definition priority : cls := mk_cls "bsn_tlv.priority"
  ["type" ↦ 57]
  [("value", VInt 0)]
  [p_int 2 "type"; p_placeholder; p_int 4 "value"]
  (t_len 1) None []
  [u_check 2 57; u_slice 4; u_int 4 "value"]
  false
  ["value"]
  [q_hex "value"].

Definition queue_id : cls := mk_cls "bsn_tlv.queue_id"
  ["type" ↦ 20]
  [("value", VInt 0)]
  [p_int 2 "type"; p_placeholder; p_int 4 "value"]
  (t_len 1) None []
  [u_check 2 20; u_slice 4; u_int 4 "value"]
  false
  ["value"]
  [q_hex "value"].

Definition queue_weight : cls := mk_cls "bsn_tlv.queue_weight"
  ["type" ↦ 21]
  [("value", VInt 0)]
  [p_int 2 "type"; p_placeholder; p_int 4 "value"]
  (t_len 1) None []
  [u_check 2 21; u_slice 4; u_int 4 "value"]
  false
  ["value"]
  [q_hex "value"].

Definition rate_unit : cls := mk_cls "bsn_tlv.rate_unit"
  ["type" ↦ 89]
  [("value", VInt 0)]
  [p_int 2 "type"; p_placeholder; p_int 1 "value"]
  (t_len 1) None []
  [u_check 2 89; u_slice 4; u_int 1 "value"]
  false
  ["value"]
  [q_hex "value"].

Definition reference : cls := mk_cls "bsn_tlv.reference"
  ["type" ↦ 59]
  [("table_id", VInt 0); ("key", VList [])]
  [p_int 2 "type"; p_placeholder; p_int 2 "table_id"; p_list "key"]
  (t_len 1) None []
  [u_check 2 59; u_slice 4; u_int 2 "table_id"; u_list "key" "bsn_tlv.bsn_tlv"]
  false
  ["table_id"; "key"]
  [q_hex "table_id"; q_pp "key"].

Definition reply_packets : cls := mk_cls "bsn_tlv.reply_packets"
  ["type" ↦ 12]
  [("value", VInt 0)]
  [p_int 2 "type"; p_placeholder; p_int 8 "value"]
  (t_len 1) None []
  [u_check 2 12; u_slice 4; u_int 8 "value"]
  false
  ["value"]
  [q_hex "value"].

Definition request_packets : cls := mk_cls "bsn_tlv.request_packets"
  ["type" ↦ 11]
  [("value", VInt 0)]
  [p_int 2 "type"; p_placeholder; p_int 8 "value"]
  (t_len 1) None []
  [u_check 2 11; u_slice 4; u_int 8 "value"]
  false
  ["value"]
  [q_hex "value"].

Definition rx_bytes : cls := mk_cls "bsn_tlv.rx_bytes"
  ["type" ↦ 71]
  [("value", VInt 0)]
  [p_int 2 "type"; p_placeholder; p_int 8 "value"]
  (t_len 1) None []
  [u_check 2 71; u_slice 4; u_int 8 "value"]
  false
  ["value"]
  [q_hex "value"].

Definition rx_packets : cls := mk_cls "bsn_tlv.rx_packets"
  ["type" ↦ 2]
  [("value", VInt 0)]
  [p_int 2 "type"; p_placeholder; p_int 8 "value"]
  (t_len 1) None []
  [u_check 2 2; u_slice 4; u_int 8 "value"]
  false
  ["value"]
  [q_hex "value"].

Definition sampling_rate : cls := mk_cls "bsn_tlv.sampling_rate"
  ["type" ↦ 30]
  [("value", VInt 0)]
  [p_int 2 "type"; p_placeholder; p_int 4 "value"]
  (t_len 1) None []
  [u_check 2 30; u_slice 4; u_int 4 "value"]
  false
  ["value"]
  [q_hex "value"].

Definition set_loopback_mode : cls := mk_cls "bsn_tlv.set_loopback_mode"
  ["type" ↦ 74]
  []
  [p_int 2 "type"; p_placeholder]
  (t_len 1) None []
  [u_check 2 74; u_slice 4]
  false
  []
  [].

Definition status : cls := mk_cls "bsn_tlv.status"
  ["type" ↦ 97]
  [("value", VInt 0)]
  [p_int 2 "type"; p_placeholder; p_int 1 "value"]
  (t_len 1) None []
  [u_check 2 97; u_slice 4; u_int 1 "value"]
  false
  ["value"]
  [q_hex "value"].

Definition strip_mpls_l2_on_ingress : cls := mk_cls "bsn_tlv.strip_mpls_l2_on_ingress"
  ["type" ↦ 75]
  []
  [p_int 2 "type"; p_placeholder]
  (t_len 1) None []
  [u_check 2 75; u_slice 4]
  false
  []
  [].

Definition strip_mpls_l3_on_ingress : cls := mk_cls "bsn_tlv.strip_mpls_l3_on_ingress"
  ["type" ↦ 76]
  []
  [p_int 2 "type"; p_placeholder]
  (t_len 1) None []
  [u_check 2 76; u_slice 4]
  false
  []
  [].

Definition strip_vlan_on_egress : cls := mk_cls "bsn_tlv.strip_vlan_on_egress"
  ["type" ↦ 73]
  []
  [p_int 2 "type"; p_placeholder]
  (t_len 1) None []
  [u_check 2 73; u_slice 4]
  false
  []
  [].

Definition sub_agent_id : cls := mk_cls "bsn_tlv.sub_agent_id"
  ["type" ↦ 38]
  [("value", VInt 0)]
  [p_int 2 "type"; p_placeholder; p_int 4 "value"]
  (t_len 1) None []
  [u_check 2 38; u_slice 4; u_int 4 "value"]
  false
  ["value"]
  [q_hex "value"].

Definition tcp_dst : cls := mk_cls "bsn_tlv.tcp_dst"
  ["type" ↦ 66]
  [("value", VInt 0)]
  [p_int 2 "type"; p_placeholder; p_int 2 "value"]
  (t_len 1) None []
  [u_check 2 66; u_slice 4; u_int 2 "value"]
  false
  ["value"]
  [q_hex "value"].

Definition tcp_src : cls := mk_cls "bsn_tlv.tcp_src"
  ["type" ↦ 65]
  [("value", VInt 0)]
  [p_int 2 "type"; p_placeholder; p_int 2 "value"]
  (t_len 1) None []
  [u_check 2 65; u_slice 4; u_int 2 "value"]
  false
  ["value"]
  [q_hex "value"].

Definition tx_bytes : cls := mk_cls "bsn_tlv.tx_bytes"
  ["type" ↦ 39]
  [("value", VInt 0)]
  [p_int 2 "type"; p_placeholder; p_int 8 "value"]
  (t_len 1) None []
  [u_check 2 39; u_slice 4; u_int 8 "value"]
  false
  ["value"]
  [q_hex "value"].

Definition tx_packets : cls := mk_cls "bsn_tlv.tx_packets"
  ["type" ↦ 3]
  [("value", VInt 0)]
  [p_int 2 "type"; p_placeholder; p_int 8 "value"]
  (t_len 1) None []
  [u_check 2 3; u_slice 4; u_int 8 "value"]
  false
  ["value"]
  [q_hex "value"].

Definition udf_anchor : cls := mk_cls "bsn_tlv.udf_anchor"
  ["type" ↦ 16]
  [("value", VInt 0)]
  [p_int 2 "type"; p_placeholder; p_int 2 "value"]
  (t_len 1) None []
  [u_check 2 16; u_slice 4; u_int 2 "value"]
  false
  ["value"]
  [q_hex "value"].

Definition udf_id : cls := mk_cls "bsn_tlv.udf_id"
  ["type" ↦ 15]
  [("value", VInt 0)]
  [p_int 2 "type"; p_placeholder; p_int 2 "value"]
  (t_len 1) None []
  [u_check 2 15; u_slice 4; u_int 2 "value"]
  false
  ["value"]
  [q_hex "value"].

Definition udf_length : cls := mk_cls "bsn_tlv.udf_length"
  ["type" ↦ 18]
  [("value", VInt 0)]
  [p_int 2 "type"; p_placeholder; p_int 2 "value"]
  (t_len 1) None []
  [u_check 2 18; u_slice 4; u_int 2 "value"]
  false
  ["value"]
  [q_hex "value"].

Definition udf_offset : cls := mk_cls "bsn_tlv.udf_offset"
  ["type" ↦ 17]
  [("value", VInt 0)]
  [p_int 2 "type"; p_placeholder; p_int 2 "value"]
  (t_len 1) None []
  [u_check 2 17; u_slice 4; u_int 2 "value"]
  false
  ["value"]
  [q_hex "value"].

Definition udp_dst : cls := mk_cls "bsn_tlv.udp_dst"
  ["type" ↦ 37]
  [("value", VInt 0)]
  [p_int 2 "type"; p_placeholder; p_int 2 "value"]
  (t_len 1) None []
  [u_check 2 37; u_slice 4; u_int 2 "value"]
  false
  ["value"]
  [q_hex "value"].

Definition udp_src : cls := mk_cls "bsn_tlv.udp_src"
  ["type" ↦ 36]
  [("value", VInt 0)]
  [p_int 2 "type"; p_placeholder; p_int 2 "value"]
  (t_len 1) None []
  [u_check 2 36; u_slice 4; u_int 2 "value"]
  false
  ["value"]
  [q_hex "value"].

Definition unicast_query_timeout : cls := mk_cls "bsn_tlv.unicast_query_timeout"
  ["type" ↦ 9]
  [("value", VInt 0)]
  [p_int 2 "type"; p_placeholder; p_int 4 "value"]
  (t_len 1) None []
  [u_check 2 9; u_slice 4; u_int 4 "value"]
  false
  ["value"]
  [q_hex "value"].

Definition unicast_rate : cls := mk_cls "bsn_tlv.unicast_rate"
  ["type" ↦ 93]
  [("value", VInt 0)]
  [p_int 2 "type"; p_placeholder; p_int 4 "value"]
  (t_len 1) None []
  [u_check 2 93; u_slice 4; u_int 4 "value"]
  false
  ["value"]
  [q_hex "value"].

Definition unknown_multicast_rate : cls := mk_cls "bsn_tlv.unknown_multicast_rate"
  ["type" ↦ 92]
  [("value", VInt 0)]
  [p_int 2 "type"; p_placeholder; p_int 4 "value"]
  (t_len 1) None []
  [u_check 2 92; u_slice 4; u_int 4 "value"]
  false
  ["value"]
  [q_hex "value"].

Definition use_packet_state : cls := mk_cls "bsn_tlv.use_packet_state"
  ["type" ↦ 96]
  [("value", VInt 0)]
  [p_int 2 "type"; p_placeholder; p_int 1 "value"]
  (t_len 1) None []
  [u_check 2 96; u_slice 4; u_int 1 "value"]
  false
  ["value"]
  [q_hex "value"].

Definition vfi : cls := mk_cls "bsn_tlv.vfi"
  ["type" ↦ 99]
  [("value", VInt 0)]
  [p_int 2 "type"; p_placeholder; p_int 2 "value"]
  (t_len 1) None []
  [u_check 2 99; u_slice 4; u_int 2 "value"]
  false
  ["value"]
  [q_hex "value"].

Definition vlan_pcp : cls := mk_cls "bsn_tlv.vlan_pcp"
  ["type" ↦ 72]
  [("value", VInt 0)]
  [p_int 2 "type"; p_placeholder; p_int 1 "value"]
  (t_len 1) None []
  [u_check 2 72; u_slice 4; u_int 1 "value"]
  false
  ["value"]
  [q_hex "value"].

Definition vlan_vid : cls := mk_cls "bsn_tlv.vlan_vid"
  ["type" ↦ 6]
  [("value", VInt 0)]
  [p_int 2 "type"; p_placeholder; p_int 2 "value"]
  (t_len 1) None []
  [u_check 2 6; u_slice 4; u_int 2 "value"]
  false
  ["value"]
  [q_hex "value"].

Definition vlan_vid_mask : cls := mk_cls "bsn_tlv.vlan_vid_mask"
  ["type" ↦ 77]
  [("value", VInt 0)]
  [p_int 2 "type"; p_placeholder; p_int 2 "value"]
  (t_len 1) None []
  [u_check 2 77; u_slice 4; u_int 2 "value"]
  false
  ["value"]
  [q_hex "value"].

Definition vni : cls := mk_cls "bsn_tlv.vni"
  ["type" ↦ 86]
  [("value", VInt 0)]
  [p_int 2 "type"; p_placeholder; p_int 4 "value"]
  (t_len 1) None []
  [u_check 2 86; u_slice 4; u_int 4 "value"]
  false
  ["value"]
  [q_hex "value"].

Definition vrf : cls := mk_cls "bsn_tlv.vrf"
  ["type" ↦ 19]
  [("value", VInt 0)]
  [p_int 2 "type"; p_placeholder; p_int 4 "value"]
  (t_len 1) None []
  [u_check 2 19; u_slice 4; u_int 4 "value"]
  false
  ["value"]
  [q_hex "value"].

Definition classes : list cls :=
  [bsn_tlv; actor_key; actor_port_num; actor_port_priority; actor_state; actor_system_mac;
   actor_system_priority; anchor; broadcast_query_timeout; broadcast_rate; bucket; circuit_id;
   convergence_status; crc_enabled; data; decap; eth_dst; eth_src; external_gateway_ip;
   external_gateway_mac; external_ip; external_mac; external_netmask; generation_id; hash_packet_field;
   hash_packet_type; hash_seed; hash_type; header_size; icmp_code; icmp_id; icmp_type; idle_notification;
   idle_time; idle_timeout; igmp_snooping; internal_gateway_mac; internal_mac; interval; ip_proto; ipv4;
   ipv4_dst; ipv4_netmask; ipv4_src; ipv6; known_multicast_rate; l2_multicast_lookup; mac; mac_mask;
   mcg_type_vxlan; miss_packets; mpls_control_word; mpls_label; mpls_sequenced; multicast_interface_id;
   name; negate; nexthop_type_vxlan; offset; partner_key; partner_port_num; partner_port_priority;
   partner_state; partner_system_mac; partner_system_priority; port; port_vxlan_mode; priority; queue_id;
   queue_weight; rate_unit; reference; reply_packets; request_packets; rx_bytes; rx_packets;
   sampling_rate; set_loopback_mode; status; strip_mpls_l2_on_ingress; strip_mpls_l3_on_ingress;
   strip_vlan_on_egress; sub_agent_id; tcp_dst; tcp_src; tx_bytes; tx_packets; udf_anchor; udf_id;
   udf_length; udf_offset; udp_dst; udp_src; unicast_query_timeout; unicast_rate; unknown_multicast_rate;
   use_packet_state; vfi; vlan_pcp; vlan_vid; vlan_vid_mask; vni; vrf].
End BsnTlv.
