(* ===== verification/Of13Action.v ===== *)
(** * OpenFlow 1.3: actions, action ids and meter bands (of13/action.py, of13/action_id.py,
    of13/meter_band.py)

    One definition per class of the generated bindings, with the statements of its
    methods; see LoxiWire for what they mean. *)

From Stdlib Require Import Strings.Byte.
From stdpp Require Import prelude strings list.
From S2P Require Import Prelude LoxiWire.

Module Action.
Import LoxiNotations.

Definition action : cls := mk_cls "action.action"
  []
  [("type", VInt 0)]
  [p_int 2 "type"; p_placeholder; p_zeros 4]
  (t_len 1) (Some (2, 0))
  [65535 ⇒ "action.experimenter"; 12 ⇒ "action.copy_ttl_in"; 11 ⇒ "action.copy_ttl_out";
   16 ⇒ "action.dec_mpls_ttl"; 24 ⇒ "action.dec_nw_ttl"; 22 ⇒ "action.group"; 0 ⇒ "action.output";
   20 ⇒ "action.pop_mpls"; 27 ⇒ "action.pop_pbb"; 18 ⇒ "action.pop_vlan"; 19 ⇒ "action.push_mpls";
   26 ⇒ "action.push_pbb"; 17 ⇒ "action.push_vlan"; 25 ⇒ "action.set_field"; 15 ⇒ "action.set_mpls_ttl";
   23 ⇒ "action.set_nw_ttl"; 21 ⇒ "action.set_queue"]
  [u_int 2 "type"; u_slice 4; u_skip 4]
  false
  ["type"]
  [].

Definition experimenter : cls := mk_cls "action.experimenter"
  ["type" ↦ 65535]
  [("experimenter", VInt 0); ("data", VStr [])]
  [p_int 2 "type"; p_placeholder; p_int 4 "experimenter"; p_raw "data"]
  (t_pad_len 1 8) (Some (4, 4))
  [6035143 ⇒ "action.bsn"; 8992 ⇒ "action.nicira"]
  [u_check 2 65535; u_slice 4; u_int 4 "experimenter"; u_rest "data"]
  false
  ["experimenter"; "data"]
  [q_pp "data"].

Definition bsn : cls := mk_cls "action.bsn"
  ["type" ↦ 65535; "experimenter" ↦ 6035143]
  [("subtype", VInt 0)]
  [p_int 2 "type"; p_placeholder; p_int 4 "experimenter"; p_int 4 "subtype"; p_zeros 4]
  (t_len 1) (Some (4, 8))
  [4 ⇒ "action.bsn_checksum"; 5 ⇒ "action.bsn_gentable"; 1 ⇒ "action.bsn_mirror";
   2 ⇒ "action.bsn_set_tunnel_dst"]
  [u_check 2 65535; u_slice 4; u_check 4 6035143; u_int 4 "subtype"; u_skip 4]
  false
  ["subtype"]
  [].

Definition bsn_checksum : cls := mk_cls "action.bsn_checksum"
  ["type" ↦ 65535; "experimenter" ↦ 6035143; "subtype" ↦ 4]
  [("checksum", VInt 0)]
  [p_int 2 "type"; p_placeholder; p_int 4 "experimenter"; p_int 4 "subtype"; p_checksum_128 "checksum"]
  (t_len 1) None []
  [u_check 2 65535; u_slice 4; u_check 4 6035143; u_check 4 4; u_checksum_128 "checksum"]
  false
  ["checksum"]
  [q_pp "checksum"].

Definition bsn_gentable : cls := mk_cls "action.bsn_gentable"
  ["type" ↦ 65535; "experimenter" ↦ 6035143; "subtype" ↦ 5]
  [("table_id", VInt 0); ("key", VList [])]
  [p_int 2 "type"; p_placeholder; p_int 4 "experimenter"; p_int 4 "subtype"; p_int 4 "table_id";
   p_list "key"]
  (t_len 1) None []
  [u_check 2 65535; u_slice 4; u_check 4 6035143; u_check 4 5; u_int 4 "table_id";
   u_list "key" "bsn_tlv.bsn_tlv"]
  false
  ["table_id"; "key"]
  [q_hex "table_id"; q_pp "key"].

Definition bsn_mirror : cls := mk_cls "action.bsn_mirror"
  ["type" ↦ 65535; "experimenter" ↦ 6035143; "subtype" ↦ 1]
  [("dest_port", VInt 0); ("vlan_tag", VInt 0); ("copy_stage", VInt 0)]
  [p_int 2 "type"; p_placeholder; p_int 4 "experimenter"; p_int 4 "subtype"; p_int 4 "dest_port";
   p_int 4 "vlan_tag"; p_int 1 "copy_stage"; p_zeros 3]
  (t_len 1) None []
  [u_check 2 65535; u_slice 4; u_check 4 6035143; u_check 4 1; u_int 4 "dest_port"; u_int 4 "vlan_tag";
   u_int 1 "copy_stage"; u_skip 3]
  false
  ["dest_port"; "vlan_tag"; "copy_stage"]
  [q_hex "dest_port"; q_hex "vlan_tag"; q_hex "copy_stage"].

Definition bsn_set_tunnel_dst : cls := mk_cls "action.bsn_set_tunnel_dst"
  ["type" ↦ 65535; "experimenter" ↦ 6035143; "subtype" ↦ 2]
  [("dst", VInt 0)]
  [p_int 2 "type"; p_placeholder; p_int 4 "experimenter"; p_int 4 "subtype"; p_int 4 "dst"]
  (t_len 1) None []
  [u_check 2 65535; u_slice 4; u_check 4 6035143; u_check 4 2; u_int 4 "dst"]
  false
  ["dst"]
  [q_hex "dst"].

Definition copy_ttl_in : cls := mk_cls "action.copy_ttl_in"
  ["type" ↦ 12]
  []
  [p_int 2 "type"; p_placeholder; p_zeros 4]
  (t_len 1) None []
  [u_check 2 12; u_slice 4; u_skip 4]
  false
  []
  [].

Definition copy_ttl_out : cls := mk_cls "action.copy_ttl_out"
  ["type" ↦ 11]
  []
  [p_int 2 "type"; p_placeholder; p_zeros 4]
  (t_len 1) None []
  [u_check 2 11; u_slice 4; u_skip 4]
  false
  []
  [].

Definition dec_mpls_ttl : cls := mk_cls "action.dec_mpls_ttl"
  ["type" ↦ 16]
  []
  [p_int 2 "type"; p_placeholder; p_zeros 4]
  (t_len 1) None []
  [u_check 2 16; u_slice 4; u_skip 4]
  false
  []
  [].

Definition dec_nw_ttl : cls := mk_cls "action.dec_nw_ttl"
  ["type" ↦ 24]
  []
  [p_int 2 "type"; p_placeholder; p_zeros 4]
  (t_len 1) None []
  [u_check 2 24; u_slice 4; u_skip 4]
  false
  []
  [].

Definition group : cls := mk_cls "action.group"
  ["type" ↦ 22]
  [("group_id", VInt 0)]
  [p_int 2 "type"; p_placeholder; p_int 4 "group_id"]
  (t_len 1) None []
  [u_check 2 22; u_slice 4; u_int 4 "group_id"]
  false
  ["group_id"]
  [q_hex "group_id"].

Definition nicira : cls := mk_cls "action.nicira"
  ["type" ↦ 65535; "experimenter" ↦ 8992]
  [("subtype", VInt 0)]
  [p_int 2 "type"; p_placeholder; p_int 4 "experimenter"; p_int 2 "subtype"; p_zeros 2; p_zeros 4]
  (t_len 1) (Some (2, 8))
  [18 ⇒ "action.nicira_dec_ttl"]
  [u_check 2 65535; u_slice 4; u_check 4 8992; u_int 2 "subtype"; u_skip 2; u_skip 4]
  false
  ["subtype"]
  [].

Definition nicira_dec_ttl : cls := mk_cls "action.nicira_dec_ttl"
  ["type" ↦ 65535; "experimenter" ↦ 8992; "subtype" ↦ 18]
  []
  [p_int 2 "type"; p_placeholder; p_int 4 "experimenter"; p_int 2 "subtype"; p_zeros 2; p_zeros 4]
  (t_len 1) None []
  [u_check 2 65535; u_slice 4; u_check 4 8992; u_check 2 18; u_skip 2; u_skip 4]
  false
  []
  [].

Definition output : cls := mk_cls "action.output"
  ["type" ↦ 0]
  [("port", VInt 0); ("max_len", VInt 0)]
  [p_int 2 "type"; p_placeholder; p_int 4 "port"; p_int 2 "max_len"; p_zeros 6]
  (t_len 1) None []
  [u_check 2 0; u_slice 4; u_int 4 "port"; u_int 2 "max_len"; u_skip 6]
  false
  ["port"; "max_len"]
  [q_port "port"; q_hex "max_len"].

Definition pop_mpls : cls := mk_cls "action.pop_mpls"
  ["type" ↦ 20]
  [("ethertype", VInt 0)]
  [p_int 2 "type"; p_placeholder; p_int 2 "ethertype"; p_zeros 2]
  (t_len 1) None []
  [u_check 2 20; u_slice 4; u_int 2 "ethertype"; u_skip 2]
  false
  ["ethertype"]
  [q_hex "ethertype"].

Definition pop_pbb : cls := mk_cls "action.pop_pbb"
  ["type" ↦ 27]
  []
  [p_int 2 "type"; p_placeholder; p_zeros 4]
  (t_len 1) None []
  [u_check 2 27; u_slice 4; u_skip 4]
  false
  []
  [].

Definition pop_vlan : cls := mk_cls "action.pop_vlan"
  ["type" ↦ 18]
  []
  [p_int 2 "type"; p_placeholder; p_zeros 4]
  (t_len 1) None []
  [u_check 2 18; u_slice 4; u_skip 4]
  false
  []
  [].

Definition push_mpls : cls := mk_cls "action.push_mpls"
  ["type" ↦ 19]
  [("ethertype", VInt 0)]
  [p_int 2 "type"; p_placeholder; p_int 2 "ethertype"; p_zeros 2]
  (t_len 1) None []
  [u_check 2 19; u_slice 4; u_int 2 "ethertype"; u_skip 2]
  false
  ["ethertype"]
  [q_hex "ethertype"].

Definition push_pbb : cls := mk_cls "action.push_pbb"
  ["type" ↦ 26]
  [("ethertype", VInt 0)]
  [p_int 2 "type"; p_placeholder; p_int 2 "ethertype"; p_zeros 2]
  (t_len 1) None []
  [u_check 2 26; u_slice 4; u_int 2 "ethertype"; u_skip 2]
  false
  ["ethertype"]
  [q_hex "ethertype"].

Definition push_vlan : cls := mk_cls "action.push_vlan"
  ["type" ↦ 17]
  [("ethertype", VInt 0)]
  [p_int 2 "type"; p_placeholder; p_int 2 "ethertype"; p_zeros 2]
  (t_len 1) None []
  [u_check 2 17; u_slice 4; u_int 2 "ethertype"; u_skip 2]
  false
  ["ethertype"]
  [q_hex "ethertype"].

Definition set_field : cls := mk_cls "action.set_field"
  ["type" ↦ 25]
  [("field", VNone)]
  [p_int 2 "type"; p_placeholder; p_obj "field"]
  (t_pad_len 1 8) None []
  [u_check 2 25; u_slice 4; u_obj "field" "oxm.oxm"]
  false
  ["field"]
  [q_pp "field"].

Definition set_mpls_ttl : cls := mk_cls "action.set_mpls_ttl"
  ["type" ↦ 15]
  [("mpls_ttl", VInt 0)]
  [p_int 2 "type"; p_placeholder; p_int 1 "mpls_ttl"; p_zeros 3]
  (t_len 1) None []
  [u_check 2 15; u_slice 4; u_int 1 "mpls_ttl"; u_skip 3]
  false
  ["mpls_ttl"]
  [q_hex "mpls_ttl"].

Definition set_nw_ttl : cls := mk_cls "action.set_nw_ttl"
  ["type" ↦ 23]
  [("nw_ttl", VInt 0)]
  [p_int 2 "type"; p_placeholder; p_int 1 "nw_ttl"; p_zeros 3]
  (t_len 1) None []
  [u_check 2 23; u_slice 4; u_int 1 "nw_ttl"; u_skip 3]
  false
  ["nw_ttl"]
  [q_hex "nw_ttl"].

Definition set_queue : cls := mk_cls "action.set_queue"
  ["type" ↦ 21]
  [("queue_id", VInt 0)]
  [p_int 2 "type"; p_placeholder; p_int 4 "queue_id"]
  (t_len 1) None []
  [u_check 2 21; u_slice 4; u_int 4 "queue_id"]
  false
  ["queue_id"]
  [q_hex "queue_id"].

Definition classes : list cls :=
  [action; experimenter; bsn; bsn_checksum; bsn_gentable; bsn_mirror; bsn_set_tunnel_dst; copy_ttl_in;
   copy_ttl_out; dec_mpls_ttl; dec_nw_ttl; group; nicira; nicira_dec_ttl; output; pop_mpls; pop_pbb;
   pop_vlan; push_mpls; push_pbb; push_vlan; set_field; set_mpls_ttl; set_nw_ttl; set_queue].
End Action.

Module ActionId.
Import LoxiNotations.

Definition action_id : cls := mk_cls "action_id.action_id"
  []
  [("type", VInt 0)]
  [p_int 2 "type"; p_placeholder]
  (t_len 1) (Some (2, 0))
  [65535 ⇒ "action_id.experimenter"; 12 ⇒ "action_id.copy_ttl_in"; 11 ⇒ "action_id.copy_ttl_out";
   16 ⇒ "action_id.dec_mpls_ttl"; 24 ⇒ "action_id.dec_nw_ttl"; 22 ⇒ "action_id.group";
   0 ⇒ "action_id.output"; 20 ⇒ "action_id.pop_mpls"; 27 ⇒ "action_id.pop_pbb"; 18 ⇒ "action_id.pop_vlan";
   19 ⇒ "action_id.push_mpls"; 26 ⇒ "action_id.push_pbb"; 17 ⇒ "action_id.push_vlan";
   25 ⇒ "action_id.set_field"; 15 ⇒ "action_id.set_mpls_ttl"; 23 ⇒ "action_id.set_nw_ttl";
   21 ⇒ "action_id.set_queue"]
  [u_int 2 "type"; u_slice 4]
  false
  ["type"]
  [].

Definition experimenter : cls := mk_cls "action_id.experimenter"
  ["type" ↦ 65535]
  [("experimenter", VInt 0)]
  [p_int 2 "type"; p_placeholder; p_int 4 "experimenter"]
  (t_len 1) (Some (4, 4))
  [6035143 ⇒ "action_id.bsn"; 8992 ⇒ "action_id.nicira"]
  [u_check 2 65535; u_slice 4; u_int 4 "experimenter"]
  false
  ["experimenter"]
  [].

Definition bsn : cls := mk_cls "action_id.bsn"
  ["type" ↦ 65535; "experimenter" ↦ 6035143]
  [("subtype", VInt 0)]
  [p_int 2 "type"; p_placeholder; p_int 4 "experimenter"; p_int 4 "subtype"]
  (t_len 1) (Some (4, 8))
  [4 ⇒ "action_id.bsn_checksum"; 5 ⇒ "action_id.bsn_gentable"; 1 ⇒ "action_id.bsn_mirror";
   2 ⇒ "action_id.bsn_set_tunnel_dst"]
  [u_check 2 65535; u_slice 4; u_check 4 6035143; u_int 4 "subtype"]
  false
  ["subtype"]
  [].

Definition bsn_checksum : cls := mk_cls "action_id.bsn_checksum"
  ["type" ↦ 65535; "experimenter" ↦ 6035143; "subtype" ↦ 4]
  []
  [p_int 2 "type"; p_placeholder; p_int 4 "experimenter"; p_int 4 "subtype"]
  (t_len 1) None []
  [u_check 2 65535; u_slice 4; u_check 4 6035143; u_check 4 4]
  false
  []
  [].

Definition bsn_gentable : cls := mk_cls "action_id.bsn_gentable"
  ["type" ↦ 65535; "experimenter" ↦ 6035143; "subtype" ↦ 5]
  []
  [p_int 2 "type"; p_placeholder; p_int 4 "experimenter"; p_int 4 "subtype"]
  (t_len 1) None []
  [u_check 2 65535; u_slice 4; u_check 4 6035143; u_check 4 5]
  false
  []
  [].

Definition bsn_mirror : cls := mk_cls "action_id.bsn_mirror"
  ["type" ↦ 65535; "experimenter" ↦ 6035143; "subtype" ↦ 1]
  []
  [p_int 2 "type"; p_placeholder; p_int 4 "experimenter"; p_int 4 "subtype"]
  (t_len 1) None []
  [u_check 2 65535; u_slice 4; u_check 4 6035143; u_check 4 1]
  false
  []
  [].

Definition bsn_set_tunnel_dst : cls := mk_cls "action_id.bsn_set_tunnel_dst"
  ["type" ↦ 65535; "experimenter" ↦ 6035143; "subtype" ↦ 2]
  []
  [p_int 2 "type"; p_placeholder; p_int 4 "experimenter"; p_int 4 "subtype"]
  (t_len 1) None []
  [u_check 2 65535; u_slice 4; u_check 4 6035143; u_check 4 2]
  false
  []
  [].

Definition copy_ttl_in : cls := mk_cls "action_id.copy_ttl_in"
  ["type" ↦ 12]
  []
  [p_int 2 "type"; p_placeholder]
  (t_len 1) None []
  [u_check 2 12; u_slice 4]
  false
  []
  [].

Definition copy_ttl_out : cls := mk_cls "action_id.copy_ttl_out"
  ["type" ↦ 11]
  []
  [p_int 2 "type"; p_placeholder]
  (t_len 1) None []
  [u_check 2 11; u_slice 4]
  false
  []
  [].

Definition dec_mpls_ttl : cls := mk_cls "action_id.dec_mpls_ttl"
  ["type" ↦ 16]
  []
  [p_int 2 "type"; p_placeholder]
  (t_len 1) None []
  [u_check 2 16; u_slice 4]
  false
  []
  [].

Definition dec_nw_ttl : cls := mk_cls "action_id.dec_nw_ttl"
  ["type" ↦ 24]
  []
  [p_int 2 "type"; p_placeholder]
  (t_len 1) None []
  [u_check 2 24; u_slice 4]
  false
  []
  [].

Definition group : cls := mk_cls "action_id.group"
  ["type" ↦ 22]
  []
  [p_int 2 "type"; p_placeholder]
  (t_len 1) None []
  [u_check 2 22; u_slice 4]
  false
  []
  [].

Definition nicira : cls := mk_cls "action_id.nicira"
  ["type" ↦ 65535; "experimenter" ↦ 8992]
  [("subtype", VInt 0)]
  [p_int 2 "type"; p_placeholder; p_int 4 "experimenter"; p_int 2 "subtype"]
  (t_len 1) (Some (2, 8))
  [18 ⇒ "action_id.nicira_dec_ttl"]
  [u_check 2 65535; u_slice 4; u_check 4 8992; u_int 2 "subtype"]
  false
  ["subtype"]
  [].

Definition nicira_dec_ttl : cls := mk_cls "action_id.nicira_dec_ttl"
  ["type" ↦ 65535; "experimenter" ↦ 8992; "subtype" ↦ 18]
  []
  [p_int 2 "type"; p_placeholder; p_int 4 "experimenter"; p_int 2 "subtype"]
  (t_len 1) None []
  [u_check 2 65535; u_slice 4; u_check 4 8992; u_check 2 18]
  false
  []
  [].

Definition output : cls := mk_cls "action_id.output"
  ["type" ↦ 0]
  []
  [p_int 2 "type"; p_placeholder]
  (t_len 1) None []
  [u_check 2 0; u_slice 4]
  false
  []
  [].

Definition pop_mpls : cls := mk_cls "action_id.pop_mpls"
  ["type" ↦ 20]
  []
  [p_int 2 "type"; p_placeholder]
  (t_len 1) None []
  [u_check 2 20; u_slice 4]
  false
  []
  [].

Definition pop_pbb : cls := mk_cls "action_id.pop_pbb"
  ["type" ↦ 27]
  []
  [p_int 2 "type"; p_placeholder]
  (t_len 1) None []
  [u_check 2 27; u_slice 4]
  false
  []
  [].

Definition pop_vlan : cls := mk_cls "action_id.pop_vlan"
  ["type" ↦ 18]
  []
  [p_int 2 "type"; p_placeholder]
  (t_len 1) None []
  [u_check 2 18; u_slice 4]
  false
  []
  [].

Definition push_mpls : cls := mk_cls "action_id.push_mpls"
  ["type" ↦ 19]
  []
  [p_int 2 "type"; p_placeholder]
  (t_len 1) None []
  [u_check 2 19; u_slice 4]
  false
  []
  [].

Definition push_pbb : cls := mk_cls "action_id.push_pbb"
  ["type" ↦ 26]
  []
  [p_int 2 "type"; p_placeholder]
  (t_len 1) None []
  [u_check 2 26; u_slice 4]
  false
  []
  [].

Definition push_vlan : cls := mk_cls "action_id.push_vlan"
  ["type" ↦ 17]
  []
  [p_int 2 "type"; p_placeholder]
  (t_len 1) None []
  [u_check 2 17; u_slice 4]
  false
  []
  [].

Definition set_field : cls := mk_cls "action_id.set_field"
  ["type" ↦ 25]
  []
  [p_int 2 "type"; p_placeholder]
  (t_len 1) None []
  [u_check 2 25; u_slice 4]
  false
  []
  [].

Definition set_mpls_ttl : cls := mk_cls "action_id.set_mpls_ttl"
  ["type" ↦ 15]
  []
  [p_int 2 "type"; p_placeholder]
  (t_len 1) None []
  [u_check 2 15; u_slice 4]
  false
  []
  [].

Definition set_nw_ttl : cls := mk_cls "action_id.set_nw_ttl"
  ["type" ↦ 23]
  []
  [p_int 2 "type"; p_placeholder]
  (t_len 1) None []
  [u_check 2 23; u_slice 4]
  false
  []
  [].

Definition set_queue : cls := mk_cls "action_id.set_queue"
  ["type" ↦ 21]
  []
  [p_int 2 "type"; p_placeholder]
  (t_len 1) None []
  [u_check 2 21; u_slice 4]
  false
  []
  [].

Definition classes : list cls :=
  [action_id; experimenter; bsn; bsn_checksum; bsn_gentable; bsn_mirror; bsn_set_tunnel_dst; copy_ttl_in;
   copy_ttl_out; dec_mpls_ttl; dec_nw_ttl; group; nicira; nicira_dec_ttl; output; pop_mpls; pop_pbb;
   pop_vlan; push_mpls; push_pbb; push_vlan; set_field; set_mpls_ttl; set_nw_ttl; set_queue].
End ActionId.

Module MeterBand.
Import LoxiNotations.

Definition meter_band : cls := mk_cls "meter_band.meter_band"
  []
  [("type", VInt 0)]
  [p_int 2 "type"; p_placeholder]
  (t_len 1) (Some (2, 0))
  [1 ⇒ "meter_band.drop"; 2 ⇒ "meter_band.dscp_remark"; 65535 ⇒ "meter_band.experimenter"]
  [u_int 2 "type"; u_slice 4]
  false
  ["type"]
  [].

Definition drop : cls := mk_cls "meter_band.drop"
  ["type" ↦ 1]
  [("rate", VInt 0); ("burst_size", VInt 0)]
  [p_int 2 "type"; p_placeholder; p_int 4 "rate"; p_int 4 "burst_size"; p_zeros 4]
  (t_len 1) None []
  [u_check 2 1; u_slice 4; u_int 4 "rate"; u_int 4 "burst_size"; u_skip 4]
  false
  ["rate"; "burst_size"]
  [q_hex "rate"; q_hex "burst_size"].

Definition dscp_remark : cls := mk_cls "meter_band.dscp_remark"
  ["type" ↦ 2]
  [("rate", VInt 0); ("burst_size", VInt 0); ("prec_level", VInt 0)]
  [p_int 2 "type"; p_placeholder; p_int 4 "rate"; p_int 4 "burst_size"; p_int 1 "prec_level"; p_zeros 3]
  (t_len 1) None []
  [u_check 2 2; u_slice 4; u_int 4 "rate"; u_int 4 "burst_size"; u_int 1 "prec_level"; u_skip 3]
  false
  ["rate"; "burst_size"; "prec_level"]
  [q_hex "rate"; q_hex "burst_size"; q_hex "prec_level"].

Definition experimenter : cls := mk_cls "meter_band.experimenter"
  ["type" ↦ 65535]
  [("rate", VInt 0); ("burst_size", VInt 0); ("experimenter", VInt 0)]
  [p_int 2 "type"; p_placeholder; p_int 4 "rate"; p_int 4 "burst_size"; p_int 4 "experimenter"]
  (t_len 1) None []
  [u_check 2 65535; u_slice 4; u_int 4 "rate"; u_int 4 "burst_size"; u_int 4 "experimenter"]
  false
  ["rate"; "burst_size"; "experimenter"]
  [q_hex "rate"; q_hex "burst_size"; q_hex "experimenter"].

Definition classes : list cls :=
  [meter_band; drop; dscp_remark; experimenter].
End MeterBand.
