(* ===== verification/Of13Instruction.v ===== *)
(** * OpenFlow 1.3: instructions and instruction ids (of13/instruction.py,
    of13/instruction_id.py)

    One definition per class of the generated bindings, with the statements of its
    methods; see LoxiWire for what they mean. *)

From Stdlib Require Import Strings.Byte.
From stdpp Require Import prelude strings list.
From S2P Require Import Prelude LoxiWire.

Module Instruction.
Import LoxiNotations.

Definition instruction : cls := mk_cls "instruction.instruction"
  []
  [("type", VInt 0)]
  [p_int 2 "type"; p_placeholder]
  (t_len 1) (Some (2, 0))
  [4 ⇒ "instruction.apply_actions"; 65535 ⇒ "instruction.experimenter"; 5 ⇒ "instruction.clear_actions";
   1 ⇒ "instruction.goto_table"; 6 ⇒ "instruction.meter"; 3 ⇒ "instruction.write_actions";
   2 ⇒ "instruction.write_metadata"]
  [u_int 2 "type"; u_slice 4]
  false
  ["type"]
  [].

Definition apply_actions : cls := mk_cls "instruction.apply_actions"
  ["type" ↦ 4]
  [("actions", VList [])]
  [p_int 2 "type"; p_placeholder; p_zeros 4; p_list "actions"]
  (t_len 1) None []
  [u_check 2 4; u_slice 4; u_skip 4; u_list "actions" "action.action"]
  false
  ["actions"]
  [q_pp "actions"].

Definition experimenter : cls := mk_cls "instruction.experimenter"
  ["type" ↦ 65535]
  [("experimenter", VInt 0); ("data", VStr [])]
  [p_int 2 "type"; p_placeholder; p_int 4 "experimenter"; p_raw "data"]
  (t_len 1) (Some (4, 4))
  [6035143 ⇒ "instruction.bsn"]
  [u_check 2 65535; u_slice 4; u_int 4 "experimenter"; u_rest "data"]
  false
  ["experimenter"; "data"]
  [q_pp "data"].

Definition bsn : cls := mk_cls "instruction.bsn"
  ["type" ↦ 65535; "experimenter" ↦ 6035143]
  [("subtype", VInt 0)]
  [p_int 2 "type"; p_placeholder; p_int 4 "experimenter"; p_int 4 "subtype"; p_zeros 4]
  (t_len 1) (Some (4, 8))
  [1 ⇒ "instruction.bsn_arp_offload"; 11 ⇒ "instruction.bsn_auto_negotiation"; 5 ⇒ "instruction.bsn_deny";
   2 ⇒ "instruction.bsn_dhcp_offload"; 13 ⇒ "instruction.bsn_disable_l3";
   3 ⇒ "instruction.bsn_disable_split_horizon_check"; 0 ⇒ "instruction.bsn_disable_src_mac_check";
   9 ⇒ "instruction.bsn_disable_vlan_counters"; 12 ⇒ "instruction.bsn_internal_priority";
   6 ⇒ "instruction.bsn_packet_of_death"; 4 ⇒ "instruction.bsn_permit";
   7 ⇒ "instruction.bsn_prioritize_pdus"; 8 ⇒ "instruction.bsn_require_vlan_xlate";
   10 ⇒ "instruction.bsn_span_destination"]
  [u_check 2 65535; u_slice 4; u_check 4 6035143; u_int 4 "subtype"; u_skip 4]
  false
  ["subtype"]
  [].

Definition bsn_arp_offload : cls := mk_cls "instruction.bsn_arp_offload"
  ["type" ↦ 65535; "experimenter" ↦ 6035143; "subtype" ↦ 1]
  []
  [p_int 2 "type"; p_placeholder; p_int 4 "experimenter"; p_int 4 "subtype"; p_zeros 4]
  (t_len 1) None []
  [u_check 2 65535; u_slice 4; u_check 4 6035143; u_check 4 1; u_skip 4]
  false
  []
  [].

Definition bsn_auto_negotiation : cls := mk_cls "instruction.bsn_auto_negotiation"
  ["type" ↦ 65535; "experimenter" ↦ 6035143; "subtype" ↦ 11]
  []
  [p_int 2 "type"; p_placeholder; p_int 4 "experimenter"; p_int 4 "subtype"; p_zeros 4]
  (t_len 1) None []
  [u_check 2 65535; u_slice 4; u_check 4 6035143; u_check 4 11; u_skip 4]
  false
  []
  [].

Definition bsn_deny : cls := mk_cls "instruction.bsn_deny"
  ["type" ↦ 65535; "experimenter" ↦ 6035143; "subtype" ↦ 5]
  []
  [p_int 2 "type"; p_placeholder; p_int 4 "experimenter"; p_int 4 "subtype"; p_zeros 4]
  (t_len 1) None []
  [u_check 2 65535; u_slice 4; u_check 4 6035143; u_check 4 5; u_skip 4]
  false
  []
  [].

Definition bsn_dhcp_offload : cls := mk_cls "instruction.bsn_dhcp_offload"
  ["type" ↦ 65535; "experimenter" ↦ 6035143; "subtype" ↦ 2]
  []
  [p_int 2 "type"; p_placeholder; p_int 4 "experimenter"; p_int 4 "subtype"; p_zeros 4]
  (t_len 1) None []
  [u_check 2 65535; u_slice 4; u_check 4 6035143; u_check 4 2; u_skip 4]
  false
  []
  [].

Definition bsn_disable_l3 : cls := mk_cls "instruction.bsn_disable_l3"
  ["type" ↦ 65535; "experimenter" ↦ 6035143; "subtype" ↦ 13]
  []
  [p_int 2 "type"; p_placeholder; p_int 4 "experimenter"; p_int 4 "subtype"; p_zeros 4]
  (t_len 1) None []
  [u_check 2 65535; u_slice 4; u_check 4 6035143; u_check 4 13; u_skip 4]
  false
  []
  [].

Definition bsn_disable_split_horizon_check : cls := mk_cls "instruction.bsn_disable_split_horizon_check"
  ["type" ↦ 65535; "experimenter" ↦ 6035143; "subtype" ↦ 3]
  []
  [p_int 2 "type"; p_placeholder; p_int 4 "experimenter"; p_int 4 "subtype"; p_zeros 4]
  (t_len 1) None []
  [u_check 2 65535; u_slice 4; u_check 4 6035143; u_check 4 3; u_skip 4]
  false
  []
  [].

Definition bsn_disable_src_mac_check : cls := mk_cls "instruction.bsn_disable_src_mac_check"
  ["type" ↦ 65535; "experimenter" ↦ 6035143; "subtype" ↦ 0]
  []
  [p_int 2 "type"; p_placeholder; p_int 4 "experimenter"; p_int 4 "subtype"; p_zeros 4]
  (t_len 1) None []
  [u_check 2 65535; u_slice 4; u_check 4 6035143; u_check 4 0; u_skip 4]
  false
  []
  [].

Definition bsn_disable_vlan_counters : cls := mk_cls "instruction.bsn_disable_vlan_counters"
  ["type" ↦ 65535; "experimenter" ↦ 6035143; "subtype" ↦ 9]
  []
  [p_int 2 "type"; p_placeholder; p_int 4 "experimenter"; p_int 4 "subtype"; p_zeros 4]
  (t_len 1) None []
  [u_check 2 65535; u_slice 4; u_check 4 6035143; u_check 4 9; u_skip 4]
  false
  []
  [].

Definition bsn_internal_priority : cls := mk_cls "instruction.bsn_internal_priority"
  ["type" ↦ 65535; "experimenter" ↦ 6035143; "subtype" ↦ 12]
  [("value", VInt 0)]
  [p_int 2 "type"; p_placeholder; p_int 4 "experimenter"; p_int 4 "subtype"; p_int 4 "value"]
  (t_len 1) None []
  [u_check 2 65535; u_slice 4; u_check 4 6035143; u_check 4 12; u_int 4 "value"]
  false
  ["value"]
  [q_hex "value"].

Definition bsn_packet_of_death : cls := mk_cls "instruction.bsn_packet_of_death"
  ["type" ↦ 65535; "experimenter" ↦ 6035143; "subtype" ↦ 6]
  []
  [p_int 2 "type"; p_placeholder; p_int 4 "experimenter"; p_int 4 "subtype"; p_zeros 4]
  (t_len 1) None []
  [u_check 2 65535; u_slice 4; u_check 4 6035143; u_check 4 6; u_skip 4]
  false
  []
  [].

Definition bsn_permit : cls := mk_cls "instruction.bsn_permit"
  ["type" ↦ 65535; "experimenter" ↦ 6035143; "subtype" ↦ 4]
  []
  [p_int 2 "type"; p_placeholder; p_int 4 "experimenter"; p_int 4 "subtype"; p_zeros 4]
  (t_len 1) None []
  [u_check 2 65535; u_slice 4; u_check 4 6035143; u_check 4 4; u_skip 4]
  false
  []
  [].

Definition bsn_prioritize_pdus : cls := mk_cls "instruction.bsn_prioritize_pdus"
  ["type" ↦ 65535; "experimenter" ↦ 6035143; "subtype" ↦ 7]
  []
  [p_int 2 "type"; p_placeholder; p_int 4 "experimenter"; p_int 4 "subtype"; p_zeros 4]
  (t_len 1) None []
  [u_check 2 65535; u_slice 4; u_check 4 6035143; u_check 4 7; u_skip 4]
  false
  []
  [].

Definition bsn_require_vlan_xlate : cls := mk_cls "instruction.bsn_require_vlan_xlate"
  ["type" ↦ 65535; "experimenter" ↦ 6035143; "subtype" ↦ 8]
  []
  [p_int 2 "type"; p_placeholder; p_int 4 "experimenter"; p_int 4 "subtype"; p_zeros 4]
  (t_len 1) None []
  [u_check 2 65535; u_slice 4; u_check 4 6035143; u_check 4 8; u_skip 4]
  false
  []
  [].

Definition bsn_span_destination : cls := mk_cls "instruction.bsn_span_destination"
  ["type" ↦ 65535; "experimenter" ↦ 6035143; "subtype" ↦ 10]
  []
  [p_int 2 "type"; p_placeholder; p_int 4 "experimenter"; p_int 4 "subtype"; p_zeros 4]
  (t_len 1) None []
  [u_check 2 65535; u_slice 4; u_check 4 6035143; u_check 4 10; u_skip 4]
  false
  []
  [].

Definition clear_actions : cls := mk_cls "instruction.clear_actions"
  ["type" ↦ 5]
  []
  [p_int 2 "type"; p_placeholder; p_zeros 4]
  (t_len 1) None []
  [u_check 2 5; u_slice 4; u_skip 4]
  false
  []
  [].

Definition goto_table : cls := mk_cls "instruction.goto_table"
  ["type" ↦ 1]
  [("table_id", VInt 0)]
  [p_int 2 "type"; p_placeholder; p_int 1 "table_id"; p_zeros 3]
  (t_len 1) None []
  [u_check 2 1; u_slice 4; u_int 1 "table_id"; u_skip 3]
  false
  ["table_id"]
  [q_hex "table_id"].

Definition meter : cls := mk_cls "instruction.meter"
  ["type" ↦ 6]
  [("meter_id", VInt 0)]
  [p_int 2 "type"; p_placeholder; p_int 4 "meter_id"]
  (t_len 1) None []
  [u_check 2 6; u_slice 4; u_int 4 "meter_id"]
  false
  ["meter_id"]
  [q_hex "meter_id"].

Definition write_actions : cls := mk_cls "instruction.write_actions"
  ["type" ↦ 3]
  [("actions", VList [])]
  [p_int 2 "type"; p_placeholder; p_zeros 4; p_list "actions"]
  (t_len 1) None []
  [u_check 2 3; u_slice 4; u_skip 4; u_list "actions" "action.action"]
  false
  ["actions"]
  [q_pp "actions"].

Definition write_metadata : cls := mk_cls "instruction.write_metadata"
  ["type" ↦ 2]
  [("metadata", VInt 0); ("metadata_mask", VInt 0)]
  [p_int 2 "type"; p_placeholder; p_zeros 4; p_int 8 "metadata"; p_int 8 "metadata_mask"]
  (t_len 1) None []
  [u_check 2 2; u_slice 4; u_skip 4; u_int 8 "metadata"; u_int 8 "metadata_mask"]
  false
  ["metadata"; "metadata_mask"]
  [q_hex "metadata"; q_hex "metadata_mask"].

Definition classes : list cls :=
  [instruction; apply_actions; experimenter; bsn; bsn_arp_offload; bsn_auto_negotiation; bsn_deny;
   bsn_dhcp_offload; bsn_disable_l3; bsn_disable_split_horizon_check; bsn_disable_src_mac_check;
   bsn_disable_vlan_counters; bsn_internal_priority; bsn_packet_of_death; bsn_permit; bsn_prioritize_pdus;
   bsn_require_vlan_xlate; bsn_span_destination; clear_actions; goto_table; meter; write_actions;
   write_metadata].
End Instruction.

Module InstructionId.
Import LoxiNotations.

Definition instruction_id : cls := mk_cls "instruction_id.instruction_id"
  []
  [("type", VInt 0)]
  [p_int 2 "type"; p_placeholder]
  (t_len 1) (Some (2, 0))
  [4 ⇒ "instruction_id.apply_actions"; 65535 ⇒ "instruction_id.experimenter";
   5 ⇒ "instruction_id.clear_actions"; 1 ⇒ "instruction_id.goto_table"; 6 ⇒ "instruction_id.meter";
   3 ⇒ "instruction_id.write_actions"; 2 ⇒ "instruction_id.write_metadata"]
  [u_int 2 "type"; u_slice 4]
  false
  ["type"]
  [].

Definition apply_actions : cls := mk_cls "instruction_id.apply_actions"
  ["type" ↦ 4]
  []
  [p_int 2 "type"; p_placeholder]
  (t_len 1) None []
  [u_check 2 4; u_slice 4]
  false
  []
  [].

Definition experimenter : cls := mk_cls "instruction_id.experimenter"
  ["type" ↦ 65535]
  [("experimenter", VInt 0)]
  [p_int 2 "type"; p_placeholder; p_int 4 "experimenter"]
  (t_len 1) (Some (4, 4))
  [6035143 ⇒ "instruction_id.bsn"]
  [u_check 2 65535; u_slice 4; u_int 4 "experimenter"]
  false
  ["experimenter"]
  [].

Definition bsn : cls := mk_cls "instruction_id.bsn"
  ["type" ↦ 65535; "experimenter" ↦ 6035143]
  [("subtype", VInt 0)]
  [p_int 2 "type"; p_placeholder; p_int 4 "experimenter"; p_int 4 "subtype"]
  (t_len 1) (Some (4, 8))
  [1 ⇒ "instruction_id.bsn_arp_offload"; 11 ⇒ "instruction_id.bsn_auto_negotiation";
   5 ⇒ "instruction_id.bsn_deny"; 2 ⇒ "instruction_id.bsn_dhcp_offload";
   13 ⇒ "instruction_id.bsn_disable_l3"; 3 ⇒ "instruction_id.bsn_disable_split_horizon_check";
   0 ⇒ "instruction_id.bsn_disable_src_mac_check"; 9 ⇒ "instruction_id.bsn_disable_vlan_counters";
   12 ⇒ "instruction_id.bsn_internal_priority"; 6 ⇒ "instruction_id.bsn_packet_of_death";
   4 ⇒ "instruction_id.bsn_permit"; 7 ⇒ "instruction_id.bsn_prioritize_pdus";
   8 ⇒ "instruction_id.bsn_require_vlan_xlate"; 10 ⇒ "instruction_id.bsn_span_destination"]
  [u_check 2 65535; u_slice 4; u_check 4 6035143; u_int 4 "subtype"]
  false
  ["subtype"]
  [].

Definition bsn_arp_offload : cls := mk_cls "instruction_id.bsn_arp_offload"
  ["type" ↦ 65535; "experimenter" ↦ 6035143; "subtype" ↦ 1]
  []
  [p_int 2 "type"; p_placeholder; p_int 4 "experimenter"; p_int 4 "subtype"]
  (t_len 1) None []
  [u_check 2 65535; u_slice 4; u_check 4 6035143; u_check 4 1]
  false
  []
  [].

Definition bsn_auto_negotiation : cls := mk_cls "instruction_id.bsn_auto_negotiation"
  ["type" ↦ 65535; "experimenter" ↦ 6035143; "subtype" ↦ 11]
  []
  [p_int 2 "type"; p_placeholder; p_int 4 "experimenter"; p_int 4 "subtype"]
  (t_len 1) None []
  [u_check 2 65535; u_slice 4; u_check 4 6035143; u_check 4 11]
  false
  []
  [].

Definition bsn_deny : cls := mk_cls "instruction_id.bsn_deny"
  ["type" ↦ 65535; "experimenter" ↦ 6035143; "subtype" ↦ 5]
  []
  [p_int 2 "type"; p_placeholder; p_int 4 "experimenter"; p_int 4 "subtype"]
  (t_len 1) None []
  [u_check 2 65535; u_slice 4; u_check 4 6035143; u_check 4 5]
  false
  []
  [].

Definition bsn_dhcp_offload : cls := mk_cls "instruction_id.bsn_dhcp_offload"
  ["type" ↦ 65535; "experimenter" ↦ 6035143; "subtype" ↦ 2]
  []
  [p_int 2 "type"; p_placeholder; p_int 4 "experimenter"; p_int 4 "subtype"]
  (t_len 1) None []
  [u_check 2 65535; u_slice 4; u_check 4 6035143; u_check 4 2]
  false
  []
  [].

Definition bsn_disable_l3 : cls := mk_cls "instruction_id.bsn_disable_l3"
  ["type" ↦ 65535; "experimenter" ↦ 6035143; "subtype" ↦ 13]
  []
  [p_int 2 "type"; p_placeholder; p_int 4 "experimenter"; p_int 4 "subtype"]
  (t_len 1) None []
  [u_check 2 65535; u_slice 4; u_check 4 6035143; u_check 4 13]
  false
  []
  [].

Definition bsn_disable_split_horizon_check : cls := mk_cls "instruction_id.bsn_disable_split_horizon_check"
  ["type" ↦ 65535; "experimenter" ↦ 6035143; "subtype" ↦ 3]
  []
  [p_int 2 "type"; p_placeholder; p_int 4 "experimenter"; p_int 4 "subtype"]
  (t_len 1) None []
  [u_check 2 65535; u_slice 4; u_check 4 6035143; u_check 4 3]
  false
  []
  [].

Definition bsn_disable_src_mac_check : cls := mk_cls "instruction_id.bsn_disable_src_mac_check"
  ["type" ↦ 65535; "experimenter" ↦ 6035143; "subtype" ↦ 0]
  []
  [p_int 2 "type"; p_placeholder; p_int 4 "experimenter"; p_int 4 "subtype"]
  (t_len 1) None []
  [u_check 2 65535; u_slice 4; u_check 4 6035143; u_check 4 0]
  false
  []
  [].

Definition bsn_disable_vlan_counters : cls := mk_cls "instruction_id.bsn_disable_vlan_counters"
  ["type" ↦ 65535; "experimenter" ↦ 6035143; "subtype" ↦ 9]
  []
  [p_int 2 "type"; p_placeholder; p_int 4 "experimenter"; p_int 4 "subtype"]
  (t_len 1) None []
  [u_check 2 65535; u_slice 4; u_check 4 6035143; u_check 4 9]
  false
  []
  [].

Definition bsn_internal_priority : cls := mk_cls "instruction_id.bsn_internal_priority"
  ["type" ↦ 65535; "experimenter" ↦ 6035143; "subtype" ↦ 12]
  []
  [p_int 2 "type"; p_placeholder; p_int 4 "experimenter"; p_int 4 "subtype"]
  (t_len 1) None []
  [u_check 2 65535; u_slice 4; u_check 4 6035143; u_check 4 12]
  false
  []
  [].

Definition bsn_packet_of_death : cls := mk_cls "instruction_id.bsn_packet_of_death"
  ["type" ↦ 65535; "experimenter" ↦ 6035143; "subtype" ↦ 6]
  []
  [p_int 2 "type"; p_placeholder; p_int 4 "experimenter"; p_int 4 "subtype"]
  (t_len 1) None []
  [u_check 2 65535; u_slice 4; u_check 4 6035143; u_check 4 6]
  false
  []
  [].

Definition bsn_permit : cls := mk_cls "instruction_id.bsn_permit"
  ["type" ↦ 65535; "experimenter" ↦ 6035143; "subtype" ↦ 4]
  []
  [p_int 2 "type"; p_placeholder; p_int 4 "experimenter"; p_int 4 "subtype"]
  (t_len 1) None []
  [u_check 2 65535; u_slice 4; u_check 4 6035143; u_check 4 4]
  false
  []
  [].

Definition bsn_prioritize_pdus : cls := mk_cls "instruction_id.bsn_prioritize_pdus"
  ["type" ↦ 65535; "experimenter" ↦ 6035143; "subtype" ↦ 7]
  []
  [p_int 2 "type"; p_placeholder; p_int 4 "experimenter"; p_int 4 "subtype"]
  (t_len 1) None []
  [u_check 2 65535; u_slice 4; u_check 4 6035143; u_check 4 7]
  false
  []
  [].

Definition bsn_require_vlan_xlate : cls := mk_cls "instruction_id.bsn_require_vlan_xlate"
  ["type" ↦ 65535; "experimenter" ↦ 6035143; "subtype" ↦ 8]
  []
  [p_int 2 "type"; p_placeholder; p_int 4 "experimenter"; p_int 4 "subtype"]
  (t_len 1) None []
  [u_check 2 65535; u_slice 4; u_check 4 6035143; u_check 4 8]
  false
  []
  [].

Definition bsn_span_destination : cls := mk_cls "instruction_id.bsn_span_destination"
  ["type" ↦ 65535; "experimenter" ↦ 6035143; "subtype" ↦ 10]
  []
  [p_int 2 "type"; p_placeholder; p_int 4 "experimenter"; p_int 4 "subtype"]
  (t_len 1) None []
  [u_check 2 65535; u_slice 4; u_check 4 6035143; u_check 4 10]
  false
  []
  [].

Definition clear_actions : cls := mk_cls "instruction_id.clear_actions"
  ["type" ↦ 5]
  []
  [p_int 2 "type"; p_placeholder]
  (t_len 1) None []
  [u_check 2 5; u_slice 4]
  false
  []
  [].

Definition goto_table : cls := mk_cls "instruction_id.goto_table"
  ["type" ↦ 1]
  []
  [p_int 2 "type"; p_placeholder]
  (t_len 1) None []
  [u_check 2 1; u_slice 4]
  false
  []
  [].

Definition meter : cls := mk_cls "instruction_id.meter"
  ["type" ↦ 6]
  []
  [p_int 2 "type"; p_placeholder]
  (t_len 1) None []
  [u_check 2 6; u_slice 4]
  false
  []
  [].

Definition write_actions : cls := mk_cls "instruction_id.write_actions"
  ["type" ↦ 3]
  []
  [p_int 2 "type"; p_placeholder]
  (t_len 1) None []
  [u_check 2 3; u_slice 4]
  false
  []
  [].

Definition write_metadata : cls := mk_cls "instruction_id.write_metadata"
  ["type" ↦ 2]
  []
  [p_int 2 "type"; p_placeholder]
  (t_len 1) None []
  [u_check 2 2; u_slice 4]
  false
  []
  [].

Definition classes : list cls :=
  [instruction_id; apply_actions; experimenter; bsn; bsn_arp_offload; bsn_auto_negotiation; bsn_deny;
   bsn_dhcp_offload; bsn_disable_l3; bsn_disable_split_horizon_check; bsn_disable_src_mac_check;
   bsn_disable_vlan_counters; bsn_internal_priority; bsn_packet_of_death; bsn_permit; bsn_prioritize_pdus;
   bsn_require_vlan_xlate; bsn_span_destination; clear_actions; goto_table; meter; write_actions;
   write_metadata].
End InstructionId.
