(* ===== verification/Of13Common.v ===== *)
(** * OpenFlow 1.3: structures shared by messages (of13/common.py)

    One definition per class of the generated bindings, with the statements of its
    methods; see LoxiWire for what they mean. *)

From Stdlib Require Import Strings.Byte.
From stdpp Require Import prelude strings list.
From S2P Require Import Prelude LoxiWire.

Module Common.
Import LoxiNotations.

Definition bsn_controller_connection : cls := mk_cls "common.bsn_controller_connection"
  []
  [("state", VInt 0); ("auxiliary_id", VInt 0); ("role", VInt 0); ("uri", VStr [])]
  [p_int 1 "state"; p_int 1 "auxiliary_id"; p_zeros 2; p_int 4 "role"; p_str 256 "uri"]
  t_none None []
  [u_int 1 "state"; u_int 1 "auxiliary_id"; u_skip 2; u_int 4 "role"; u_str 256 true "uri"]
  false
  ["state"; "auxiliary_id"; "role"; "uri"]
  [q_hex "state"; q_hex "auxiliary_id"; q_hex "role"; q_pp "uri"].

Definition bsn_debug_counter_desc_stats_entry : cls := mk_cls "common.bsn_debug_counter_desc_stats_entry"
  []
  [("counter_id", VInt 0); ("name", VStr []); ("description", VStr [])]
  [p_int 8 "counter_id"; p_str 64 "name"; p_str 256 "description"]
  t_none None []
  [u_int 8 "counter_id"; u_str 64 true "name"; u_str 256 true "description"]
  false
  ["counter_id"; "name"; "description"]
  [q_hex "counter_id"; q_pp "name"; q_pp "description"].

Definition bsn_debug_counter_stats_entry : cls := mk_cls "common.bsn_debug_counter_stats_entry"
  []
  [("counter_id", VInt 0); ("value", VInt 0)]
  [p_int 8 "counter_id"; p_int 8 "value"]
  t_none None []
  [u_int 8 "counter_id"; u_int 8 "value"]
  false
  ["counter_id"; "value"]
  [q_hex "counter_id"; q_hex "value"].

Definition bsn_flow_checksum_bucket_stats_entry : cls := mk_cls "common.bsn_flow_checksum_bucket_stats_entry"
  []
  [("checksum", VInt 0)]
  [p_int 8 "checksum"]
  t_none None []
  [u_int 8 "checksum"]
  false
  ["checksum"]
  [q_hex "checksum"].

Definition bsn_generic_stats_entry : cls := mk_cls "common.bsn_generic_stats_entry"
  []
  [("tlvs", VList [])]
  [p_placeholder; p_list "tlvs"]
  (t_len 0) None []
  [u_slice 2; u_list "tlvs" "bsn_tlv.bsn_tlv"]
  false
  ["tlvs"]
  [q_pp "tlvs"].

Definition bsn_gentable_bucket_stats_entry : cls := mk_cls "common.bsn_gentable_bucket_stats_entry"
  []
  [("checksum", VInt 0)]
  [p_checksum_128 "checksum"]
  t_none None []
  [u_checksum_128 "checksum"]
  false
  ["checksum"]
  [q_pp "checksum"].

Definition bsn_gentable_desc_stats_entry : cls := mk_cls "common.bsn_gentable_desc_stats_entry"
  []
  [("table_id", VInt 0); ("name", VStr []); ("buckets_size", VInt 0); ("max_entries", VInt 0)]
  [p_placeholder; p_int 2 "table_id"; p_str 32 "name"; p_int 4 "buckets_size"; p_int 4 "max_entries";
   p_zeros 4]
  (t_len 0) None []
  [u_slice 2; u_int 2 "table_id"; u_str 32 true "name"; u_int 4 "buckets_size"; u_int 4 "max_entries";
   u_skip 4]
  false
  ["table_id"; "name"; "buckets_size"; "max_entries"]
  [q_hex "table_id"; q_pp "name"; q_hex "buckets_size"; q_hex "max_entries"].

Definition bsn_gentable_entry_desc_stats_entry : cls := mk_cls "common.bsn_gentable_entry_desc_stats_entry"
  []
  [("checksum", VInt 0); ("key", VList []); ("value", VList [])]
  [p_placeholder; p_placeholder; p_checksum_128 "checksum"; p_list_len "key" 1; p_list "value"]
  (t_len 0) None []
  [u_slice 2; u_sublen; u_checksum_128 "checksum"; u_sublist "key" "bsn_tlv.bsn_tlv";
   u_list "value" "bsn_tlv.bsn_tlv"]
  false
  ["checksum"; "key"; "value"]
  [q_pp "checksum"; q_pp "key"; q_pp "value"].

Definition bsn_gentable_entry_stats_entry : cls := mk_cls "common.bsn_gentable_entry_stats_entry"
  []
  [("key", VList []); ("stats", VList [])]
  [p_placeholder; p_placeholder; p_list_len "key" 1; p_list "stats"]
  (t_len 0) None []
  [u_slice 2; u_sublen; u_sublist "key" "bsn_tlv.bsn_tlv"; u_list "stats" "bsn_tlv.bsn_tlv"]
  false
  ["key"; "stats"]
  [q_pp "key"; q_pp "stats"].

Definition bsn_gentable_stats_entry : cls := mk_cls "common.bsn_gentable_stats_entry"
  []
  [("table_id", VInt 0); ("entry_count", VInt 0); ("checksum", VInt 0)]
  [p_int 2 "table_id"; p_zeros 2; p_int 4 "entry_count"; p_checksum_128 "checksum"]
  t_none None []
  [u_int 2 "table_id"; u_skip 2; u_int 4 "entry_count"; u_checksum_128 "checksum"]
  false
  ["table_id"; "entry_count"; "checksum"]
  [q_hex "table_id"; q_hex "entry_count"; q_pp "checksum"].

Definition bsn_interface : cls := mk_cls "common.bsn_interface"
  []
  [("hw_addr", VInts [0; 0; 0; 0; 0; 0]%Z); ("name", VStr []); ("ipv4_addr", VInt 0);
   ("ipv4_netmask", VInt 0)]
  [p_bytes 6 "hw_addr"; p_zeros 2; p_str 16 "name"; p_int 4 "ipv4_addr"; p_int 4 "ipv4_netmask"]
  t_none None []
  [u_bytes 6 "hw_addr"; u_skip 2; u_str 16 true "name"; u_int 4 "ipv4_addr"; u_int 4 "ipv4_netmask"]
  false
  ["hw_addr"; "name"; "ipv4_addr"; "ipv4_netmask"]
  [q_mac "hw_addr"; q_pp "name"; q_ipv4 "ipv4_addr"; q_ipv4 "ipv4_netmask"].

Definition bsn_lacp_stats_entry : cls := mk_cls "common.bsn_lacp_stats_entry"
  []
  [("port_no", VInt 0); ("actor_sys_priority", VInt 0); ("actor_sys_mac", VInts [0; 0; 0; 0; 0; 0]%Z);
   ("actor_port_priority", VInt 0); ("actor_port_num", VInt 0); ("actor_key", VInt 0);
   ("convergence_status", VInt 0); ("partner_sys_priority", VInt 0);
   ("partner_sys_mac", VInts [0; 0; 0; 0; 0; 0]%Z); ("partner_port_priority", VInt 0);
   ("partner_port_num", VInt 0); ("partner_key", VInt 0)]
  [p_int 4 "port_no"; p_int 2 "actor_sys_priority"; p_bytes 6 "actor_sys_mac";
   p_int 2 "actor_port_priority"; p_int 2 "actor_port_num"; p_int 2 "actor_key";
   p_int 1 "convergence_status"; p_zeros 1; p_int 2 "partner_sys_priority"; p_bytes 6 "partner_sys_mac";
   p_int 2 "partner_port_priority"; p_int 2 "partner_port_num"; p_int 2 "partner_key"; p_zeros 2]
  t_none None []
  [u_int 4 "port_no"; u_int 2 "actor_sys_priority"; u_bytes 6 "actor_sys_mac";
   u_int 2 "actor_port_priority"; u_int 2 "actor_port_num"; u_int 2 "actor_key";
   u_int 1 "convergence_status"; u_skip 1; u_int 2 "partner_sys_priority"; u_bytes 6 "partner_sys_mac";
   u_int 2 "partner_port_priority"; u_int 2 "partner_port_num"; u_int 2 "partner_key"; u_skip 2]
  false
  ["port_no"; "actor_sys_priority"; "actor_sys_mac"; "actor_port_priority"; "actor_port_num"; "actor_key";
   "convergence_status"; "partner_sys_priority"; "partner_sys_mac"; "partner_port_priority";
   "partner_port_num"; "partner_key"]
  [q_port "port_no"; q_hex "actor_sys_priority"; q_mac "actor_sys_mac"; q_hex "actor_port_priority";
   q_hex "actor_port_num"; q_hex "actor_key"; q_hex "convergence_status"; q_hex "partner_sys_priority";
   q_mac "partner_sys_mac"; q_hex "partner_port_priority"; q_hex "partner_port_num"; q_hex "partner_key"].

Definition bsn_port_counter_stats_entry : cls := mk_cls "common.bsn_port_counter_stats_entry"
  []
  [("port_no", VInt 0); ("values", VList [])]
  [p_placeholder; p_zeros 2; p_int 4 "port_no"; p_list "values"]
  (t_len 0) None []
  [u_slice 2; u_skip 2; u_int 4 "port_no"; u_list "values" "common.uint64"]
  false
  ["port_no"; "values"]
  [q_port "port_no"; q_pp "values"].

Definition bsn_switch_pipeline_stats_entry : cls := mk_cls "common.bsn_switch_pipeline_stats_entry"
  []
  [("pipeline", VStr [])]
  [p_str 256 "pipeline"]
  t_none None []
  [u_str 256 true "pipeline"]
  false
  ["pipeline"]
  [q_pp "pipeline"].

Definition bsn_table_checksum_stats_entry : cls := mk_cls "common.bsn_table_checksum_stats_entry"
  []
  [("table_id", VInt 0); ("checksum", VInt 0)]
  [p_int 1 "table_id"; p_int 8 "checksum"]
  t_none None []
  [u_int 1 "table_id"; u_int 8 "checksum"]
  false
  ["table_id"; "checksum"]
  [q_hex "table_id"; q_hex "checksum"].

Definition bsn_tlv_vlan_mac_list : cls := mk_cls "common.bsn_tlv_vlan_mac_list"
  ["type" ↦ 98]
  [("key", VList [])]
  [p_int 2 "type"; p_placeholder; p_list "key"]
  (t_len 1) None []
  [u_check 2 98; u_slice 4; u_list "key" "common.bsn_vlan_mac"]
  false
  ["key"]
  [q_pp "key"].

Definition bsn_vport : cls := mk_cls "common.bsn_vport"
  []
  [("type", VInt 0)]
  [p_int 2 "type"; p_placeholder]
  (t_len 1) (Some (2, 0))
  [1 ⇒ "common.bsn_vport_l2gre"; 0 ⇒ "common.bsn_vport_q_in_q"]
  [u_int 2 "type"; u_slice 4]
  false
  ["type"]
  [].

Definition bsn_vlan_counter_stats_entry : cls := mk_cls "common.bsn_vlan_counter_stats_entry"
  []
  [("vlan_vid", VInt 0); ("values", VList [])]
  [p_placeholder; p_int 2 "vlan_vid"; p_zeros 4; p_list "values"]
  (t_len 0) None []
  [u_slice 2; u_int 2 "vlan_vid"; u_skip 4; u_list "values" "common.uint64"]
  false
  ["vlan_vid"; "values"]
  [q_hex "vlan_vid"; q_pp "values"].

Definition bsn_vlan_mac : cls := mk_cls "common.bsn_vlan_mac"
  []
  [("vlan_vid", VInt 0); ("mac", VInts [0; 0; 0; 0; 0; 0]%Z)]
  [p_int 2 "vlan_vid"; p_bytes 6 "mac"]
  t_none None []
  [u_int 2 "vlan_vid"; u_bytes 6 "mac"]
  false
  ["vlan_vid"; "mac"]
  [q_hex "vlan_vid"; q_mac "mac"].

Definition bsn_vport_l2gre : cls := mk_cls "common.bsn_vport_l2gre"
  ["type" ↦ 1]
  [("flags", VInt 0); ("port_no", VInt 0); ("loopback_port_no", VInt 0);
   ("local_mac", VInts [0; 0; 0; 0; 0; 0]%Z); ("nh_mac", VInts [0; 0; 0; 0; 0; 0]%Z); ("src_ip", VInt 0);
   ("dst_ip", VInt 0); ("dscp", VInt 0); ("ttl", VInt 0); ("vpn", VInt 0); ("rate_limit", VInt 0);
   ("if_name", VStr [])]
  [p_int 2 "type"; p_placeholder; p_int 4 "flags"; p_int 4 "port_no"; p_int 4 "loopback_port_no";
   p_bytes 6 "local_mac"; p_bytes 6 "nh_mac"; p_int 4 "src_ip"; p_int 4 "dst_ip"; p_int 1 "dscp";
   p_int 1 "ttl"; p_zeros 2; p_int 4 "vpn"; p_int 4 "rate_limit"; p_str 16 "if_name"]
  (t_len 1) None []
  [u_check 2 1; u_slice 4; u_int 4 "flags"; u_int 4 "port_no"; u_int 4 "loopback_port_no";
   u_bytes 6 "local_mac"; u_bytes 6 "nh_mac"; u_int 4 "src_ip"; u_int 4 "dst_ip"; u_int 1 "dscp";
   u_int 1 "ttl"; u_skip 2; u_int 4 "vpn"; u_int 4 "rate_limit"; u_str 16 true "if_name"]
  false
  ["flags"; "port_no"; "loopback_port_no"; "local_mac"; "nh_mac"; "src_ip"; "dst_ip"; "dscp"; "ttl";
   "vpn"; "rate_limit"; "if_name"]
  [q_hex "flags"; q_port "port_no"; q_port "loopback_port_no"; q_mac "local_mac"; q_mac "nh_mac";
   q_ipv4 "src_ip"; q_ipv4 "dst_ip"; q_hex "dscp"; q_hex "ttl"; q_hex "vpn"; q_hex "rate_limit";
   q_pp "if_name"].

Definition bsn_vport_q_in_q : cls := mk_cls "common.bsn_vport_q_in_q"
  ["type" ↦ 0]
  [("port_no", VInt 0); ("ingress_tpid", VInt 0); ("ingress_vlan_id", VInt 0); ("egress_tpid", VInt 0);
   ("egress_vlan_id", VInt 0); ("if_name", VStr [])]
  [p_int 2 "type"; p_placeholder; p_int 4 "port_no"; p_int 2 "ingress_tpid"; p_int 2 "ingress_vlan_id";
   p_int 2 "egress_tpid"; p_int 2 "egress_vlan_id"; p_str 16 "if_name"]
  (t_len 1) None []
  [u_check 2 0; u_slice 4; u_int 4 "port_no"; u_int 2 "ingress_tpid"; u_int 2 "ingress_vlan_id";
   u_int 2 "egress_tpid"; u_int 2 "egress_vlan_id"; u_str 16 true "if_name"]
  false
  ["port_no"; "ingress_tpid"; "ingress_vlan_id"; "egress_tpid"; "egress_vlan_id"; "if_name"]
  [q_hex "port_no"; q_hex "ingress_tpid"; q_hex "ingress_vlan_id"; q_hex "egress_tpid";
   q_hex "egress_vlan_id"; q_pp "if_name"].

Definition bsn_vrf_counter_stats_entry : cls := mk_cls "common.bsn_vrf_counter_stats_entry"
  []
  [("vrf", VInt 0); ("values", VList [])]
  [p_placeholder; p_zeros 2; p_int 4 "vrf"; p_list "values"]
  (t_len 0) None []
  [u_slice 2; u_skip 2; u_int 4 "vrf"; u_list "values" "common.uint64"]
  false
  ["vrf"; "values"]
  [q_hex "vrf"; q_pp "values"].

Definition bucket : cls := mk_cls "common.bucket"
  []
  [("weight", VInt 0); ("watch_port", VInt 0); ("watch_group", VInt 0); ("actions", VList [])]
  [p_placeholder; p_int 2 "weight"; p_int 4 "watch_port"; p_int 4 "watch_group"; p_zeros 4;
   p_list "actions"]
  (t_len 0) None []
  [u_slice 2; u_int 2 "weight"; u_int 4 "watch_port"; u_int 4 "watch_group"; u_skip 4;
   u_list "actions" "action.action"]
  false
  ["weight"; "watch_port"; "watch_group"; "actions"]
  [q_hex "weight"; q_port "watch_port"; q_hex "watch_group"; q_pp "actions"].

Definition bucket_counter : cls := mk_cls "common.bucket_counter"
  []
  [("packet_count", VInt 0); ("byte_count", VInt 0)]
  [p_int 8 "packet_count"; p_int 8 "byte_count"]
  t_none None []
  [u_int 8 "packet_count"; u_int 8 "byte_count"]
  false
  ["packet_count"; "byte_count"]
  [q_hex "packet_count"; q_hex "byte_count"].

Definition match_v3 : cls := mk_cls "common.match_v3"
  ["type" ↦ 1]
  [("oxm_list", VList [])]
  [p_int 2 "type"; p_placeholder; p_list "oxm_list"]
  (t_len_pad 1 8) None []
  [u_check 2 1; u_slice 4; u_list "oxm_list" "oxm.oxm"]
  true
  ["oxm_list"]
  [q_pp "oxm_list"].

Definition flow_stats_entry : cls := mk_cls "common.flow_stats_entry"
  []
  [("table_id", VInt 0); ("duration_sec", VInt 0); ("duration_nsec", VInt 0); ("priority", VInt 0);
   ("idle_timeout", VInt 0); ("hard_timeout", VInt 0); ("flags", VInt 0); ("cookie", VInt 0);
   ("packet_count", VInt 0); ("byte_count", VInt 0); ("match", new_object match_v3);
   ("instructions", VList [])]
  [p_placeholder; p_int 1 "table_id"; p_zeros 1; p_int 4 "duration_sec"; p_int 4 "duration_nsec";
   p_int 2 "priority"; p_int 2 "idle_timeout"; p_int 2 "hard_timeout"; p_int 2 "flags"; p_zeros 4;
   p_int 8 "cookie"; p_int 8 "packet_count"; p_int 8 "byte_count"; p_obj "match"; p_list "instructions"]
  (t_len 0) None []
  [u_slice 2; u_int 1 "table_id"; u_skip 1; u_int 4 "duration_sec"; u_int 4 "duration_nsec";
   u_int 2 "priority"; u_int 2 "idle_timeout"; u_int 2 "hard_timeout"; u_int 2 "flags"; u_skip 4;
   u_int 8 "cookie"; u_int 8 "packet_count"; u_int 8 "byte_count"; u_obj "match" "common.match_v3";
   u_list "instructions" "instruction.instruction"]
  false
  ["table_id"; "duration_sec"; "duration_nsec"; "priority"; "idle_timeout"; "hard_timeout"; "flags";
   "cookie"; "packet_count"; "byte_count"; "match"; "instructions"]
  [q_hex "table_id"; q_hex "duration_sec"; q_hex "duration_nsec"; q_hex "priority"; q_hex "idle_timeout";
   q_hex "hard_timeout"; q_hex "flags"; q_hex "cookie"; q_hex "packet_count"; q_hex "byte_count";
   q_pp "match"; q_pp "instructions"].

Definition group_desc_stats_entry : cls := mk_cls "common.group_desc_stats_entry"
  []
  [("group_type", VInt 0); ("group_id", VInt 0); ("buckets", VList [])]
  [p_placeholder; p_int 1 "group_type"; p_zeros 1; p_int 4 "group_id"; p_list "buckets"]
  (t_len 0) None []
  [u_slice 2; u_int 1 "group_type"; u_skip 1; u_int 4 "group_id"; u_list "buckets" "common.bucket"]
  false
  ["group_type"; "group_id"; "buckets"]
  [q_hex "group_type"; q_hex "group_id"; q_pp "buckets"].

Definition group_stats_entry : cls := mk_cls "common.group_stats_entry"
  []
  [("group_id", VInt 0); ("ref_count", VInt 0); ("packet_count", VInt 0); ("byte_count", VInt 0);
   ("duration_sec", VInt 0); ("duration_nsec", VInt 0); ("bucket_stats", VList [])]
  [p_placeholder; p_zeros 2; p_int 4 "group_id"; p_int 4 "ref_count"; p_zeros 4; p_int 8 "packet_count";
   p_int 8 "byte_count"; p_int 4 "duration_sec"; p_int 4 "duration_nsec"; p_list "bucket_stats"]
  (t_len 0) None []
  [u_slice 2; u_skip 2; u_int 4 "group_id"; u_int 4 "ref_count"; u_skip 4; u_int 8 "packet_count";
   u_int 8 "byte_count"; u_int 4 "duration_sec"; u_int 4 "duration_nsec";
   u_list "bucket_stats" "common.bucket_counter"]
  false
  ["group_id"; "ref_count"; "packet_count"; "byte_count"; "duration_sec"; "duration_nsec"; "bucket_stats"]
  [q_hex "group_id"; q_hex "ref_count"; q_hex "packet_count"; q_hex "byte_count"; q_hex "duration_sec";
   q_hex "duration_nsec"; q_pp "bucket_stats"].

Definition hello_elem : cls := mk_cls "common.hello_elem"
  []
  [("type", VInt 0)]
  [p_int 2 "type"; p_placeholder]
  (t_len 1) (Some (2, 0))
  [1 ⇒ "common.hello_elem_versionbitmap"]
  [u_int 2 "type"; u_slice 4]
  false
  ["type"]
  [].

Definition hello_elem_versionbitmap : cls := mk_cls "common.hello_elem_versionbitmap"
  ["type" ↦ 1]
  [("bitmaps", VList [])]
  [p_int 2 "type"; p_placeholder; p_list "bitmaps"]
  (t_len 1) None []
  [u_check 2 1; u_slice 4; u_list "bitmaps" "common.uint32"]
  false
  ["bitmaps"]
  [q_pp "bitmaps"].

Definition meter_band_stats : cls := mk_cls "common.meter_band_stats"
  []
  [("packet_band_count", VInt 0); ("byte_band_count", VInt 0)]
  [p_int 8 "packet_band_count"; p_int 8 "byte_band_count"]
  t_none None []
  [u_int 8 "packet_band_count"; u_int 8 "byte_band_count"]
  false
  ["packet_band_count"; "byte_band_count"]
  [q_hex "packet_band_count"; q_hex "byte_band_count"].

Definition meter_config : cls := mk_cls "common.meter_config"
  []
  [("flags", VInt 0); ("meter_id", VInt 0); ("entries", VList [])]
  [p_placeholder; p_int 2 "flags"; p_int 4 "meter_id"; p_list "entries"]
  (t_len 0) None []
  [u_slice 2; u_int 2 "flags"; u_int 4 "meter_id"; u_list "entries" "meter_band.meter_band"]
  false
  ["flags"; "meter_id"; "entries"]
  [q_hex "flags"; q_hex "meter_id"; q_pp "entries"].

Definition meter_features : cls := mk_cls "common.meter_features"
  []
  [("max_meter", VInt 0); ("band_types", VInt 0); ("capabilities", VInt 0); ("max_bands", VInt 0);
   ("max_color", VInt 0)]
  [p_int 4 "max_meter"; p_int 4 "band_types"; p_int 4 "capabilities"; p_int 1 "max_bands";
   p_int 1 "max_color"; p_zeros 2]
  t_none None []
  [u_int 4 "max_meter"; u_int 4 "band_types"; u_int 4 "capabilities"; u_int 1 "max_bands";
   u_int 1 "max_color"; u_skip 2]
  false
  ["max_meter"; "band_types"; "capabilities"; "max_bands"; "max_color"]
  [q_hex "max_meter"; q_hex "band_types"; q_hex "capabilities"; q_hex "max_bands"; q_hex "max_color"].

Definition meter_stats : cls := mk_cls "common.meter_stats"
  []
  [("meter_id", VInt 0); ("flow_count", VInt 0); ("packet_in_count", VInt 0); ("byte_in_count", VInt 0);
   ("duration_sec", VInt 0); ("duration_nsec", VInt 0); ("band_stats", VList [])]
  [p_int 4 "meter_id"; p_placeholder; p_zeros 6; p_int 4 "flow_count"; p_int 8 "packet_in_count";
   p_int 8 "byte_in_count"; p_int 4 "duration_sec"; p_int 4 "duration_nsec"; p_list "band_stats"]
  (t_len 1) None []
  [u_int 4 "meter_id"; u_slice 6; u_skip 6; u_int 4 "flow_count"; u_int 8 "packet_in_count";
   u_int 8 "byte_in_count"; u_int 4 "duration_sec"; u_int 4 "duration_nsec";
   u_list "band_stats" "common.meter_band_stats"]
  false
  ["meter_id"; "flow_count"; "packet_in_count"; "byte_in_count"; "duration_sec"; "duration_nsec";
   "band_stats"]
  [q_hex "meter_id"; q_hex "flow_count"; q_hex "packet_in_count"; q_hex "byte_in_count";
   q_hex "duration_sec"; q_hex "duration_nsec"; q_pp "band_stats"].

Definition packet_queue : cls := mk_cls "common.packet_queue"
  []
  [("queue_id", VInt 0); ("port", VInt 0); ("properties", VList [])]
  [p_int 4 "queue_id"; p_int 4 "port"; p_placeholder; p_zeros 6; p_list "properties"]
  (t_len 2) None []
  [u_int 4 "queue_id"; u_int 4 "port"; u_slice 10; u_skip 6; u_list "properties" "common.queue_prop"]
  false
  ["queue_id"; "port"; "properties"]
  [q_hex "queue_id"; q_port "port"; q_pp "properties"].

Definition port_desc : cls := mk_cls "common.port_desc"
  []
  [("port_no", VInt 0); ("hw_addr", VInts [0; 0; 0; 0; 0; 0]%Z); ("name", VStr []); ("config", VInt 0);
   ("state", VInt 0); ("curr", VInt 0); ("advertised", VInt 0); ("supported", VInt 0); ("peer", VInt 0);
   ("curr_speed", VInt 0); ("max_speed", VInt 0)]
  [p_int 4 "port_no"; p_zeros 4; p_bytes 6 "hw_addr"; p_zeros 2; p_str 16 "name"; p_int 4 "config";
   p_int 4 "state"; p_int 4 "curr"; p_int 4 "advertised"; p_int 4 "supported"; p_int 4 "peer";
   p_int 4 "curr_speed"; p_int 4 "max_speed"]
  t_none None []
  [u_int 4 "port_no"; u_skip 4; u_bytes 6 "hw_addr"; u_skip 2; u_str 16 true "name"; u_int 4 "config";
   u_int 4 "state"; u_int 4 "curr"; u_int 4 "advertised"; u_int 4 "supported"; u_int 4 "peer";
   u_int 4 "curr_speed"; u_int 4 "max_speed"]
  false
  ["port_no"; "hw_addr"; "name"; "config"; "state"; "curr"; "advertised"; "supported"; "peer";
   "curr_speed"; "max_speed"]
  [q_port "port_no"; q_mac "hw_addr"; q_pp "name"; q_hex "config"; q_hex "state"; q_hex "curr";
   q_hex "advertised"; q_hex "supported"; q_hex "peer"; q_hex "curr_speed"; q_hex "max_speed"].

Definition port_stats_entry : cls := mk_cls "common.port_stats_entry"
  []
  [("port_no", VInt 0); ("rx_packets", VInt 0); ("tx_packets", VInt 0); ("rx_bytes", VInt 0);
   ("tx_bytes", VInt 0); ("rx_dropped", VInt 0); ("tx_dropped", VInt 0); ("rx_errors", VInt 0);
   ("tx_errors", VInt 0); ("rx_frame_err", VInt 0); ("rx_over_err", VInt 0); ("rx_crc_err", VInt 0);
   ("collisions", VInt 0); ("duration_sec", VInt 0); ("duration_nsec", VInt 0)]
  [p_int 4 "port_no"; p_zeros 4; p_int 8 "rx_packets"; p_int 8 "tx_packets"; p_int 8 "rx_bytes";
   p_int 8 "tx_bytes"; p_int 8 "rx_dropped"; p_int 8 "tx_dropped"; p_int 8 "rx_errors";
   p_int 8 "tx_errors"; p_int 8 "rx_frame_err"; p_int 8 "rx_over_err"; p_int 8 "rx_crc_err";
   p_int 8 "collisions"; p_int 4 "duration_sec"; p_int 4 "duration_nsec"]
  t_none None []
  [u_int 4 "port_no"; u_skip 4; u_int 8 "rx_packets"; u_int 8 "tx_packets"; u_int 8 "rx_bytes";
   u_int 8 "tx_bytes"; u_int 8 "rx_dropped"; u_int 8 "tx_dropped"; u_int 8 "rx_errors";
   u_int 8 "tx_errors"; u_int 8 "rx_frame_err"; u_int 8 "rx_over_err"; u_int 8 "rx_crc_err";
   u_int 8 "collisions"; u_int 4 "duration_sec"; u_int 4 "duration_nsec"]
  false
  ["port_no"; "rx_packets"; "tx_packets"; "rx_bytes"; "tx_bytes"; "rx_dropped"; "tx_dropped"; "rx_errors";
   "tx_errors"; "rx_frame_err"; "rx_over_err"; "rx_crc_err"; "collisions"; "duration_sec";
   "duration_nsec"]
  [q_port "port_no"; q_hex "rx_packets"; q_hex "tx_packets"; q_hex "rx_bytes"; q_hex "tx_bytes";
   q_hex "rx_dropped"; q_hex "tx_dropped"; q_hex "rx_errors"; q_hex "tx_errors"; q_hex "rx_frame_err";
   q_hex "rx_over_err"; q_hex "rx_crc_err"; q_hex "collisions"; q_hex "duration_sec";
   q_hex "duration_nsec"].

Definition queue_prop : cls := mk_cls "common.queue_prop"
  []
  [("type", VInt 0)]
  [p_int 2 "type"; p_placeholder; p_zeros 4]
  (t_len 1) (Some (2, 0))
  [65535 ⇒ "common.queue_prop_experimenter"; 2 ⇒ "common.queue_prop_max_rate";
   1 ⇒ "common.queue_prop_min_rate"]
  [u_int 2 "type"; u_slice 4; u_skip 4]
  false
  ["type"]
  [].

Definition queue_prop_experimenter : cls := mk_cls "common.queue_prop_experimenter"
  ["type" ↦ 65535]
  [("experimenter", VInt 0); ("data", VStr [])]
  [p_int 2 "type"; p_placeholder; p_zeros 4; p_int 4 "experimenter"; p_zeros 4; p_raw "data"]
  (t_len 1) (Some (4, 8)) []
  [u_check 2 65535; u_slice 4; u_skip 4; u_int 4 "experimenter"; u_skip 4; u_rest "data"]
  false
  ["experimenter"; "data"]
  [q_pp "data"].

Definition queue_prop_max_rate : cls := mk_cls "common.queue_prop_max_rate"
  ["type" ↦ 2]
  [("rate", VInt 0)]
  [p_int 2 "type"; p_placeholder; p_zeros 4; p_int 2 "rate"; p_zeros 6]
  (t_len 1) None []
  [u_check 2 2; u_slice 4; u_skip 4; u_int 2 "rate"; u_skip 6]
  false
  ["rate"]
  [q_hex "rate"].

Definition queue_prop_min_rate : cls := mk_cls "common.queue_prop_min_rate"
  ["type" ↦ 1]
  [("rate", VInt 0)]
  [p_int 2 "type"; p_placeholder; p_zeros 4; p_int 2 "rate"; p_zeros 6]
  (t_len 1) None []
  [u_check 2 1; u_slice 4; u_skip 4; u_int 2 "rate"; u_skip 6]
  false
  ["rate"]
  [q_hex "rate"].

Definition queue_stats_entry : cls := mk_cls "common.queue_stats_entry"
  []
  [("port_no", VInt 0); ("queue_id", VInt 0); ("tx_bytes", VInt 0); ("tx_packets", VInt 0);
   ("tx_errors", VInt 0); ("duration_sec", VInt 0); ("duration_nsec", VInt 0)]
  [p_int 4 "port_no"; p_int 4 "queue_id"; p_int 8 "tx_bytes"; p_int 8 "tx_packets"; p_int 8 "tx_errors";
   p_int 4 "duration_sec"; p_int 4 "duration_nsec"]
  t_none None []
  [u_int 4 "port_no"; u_int 4 "queue_id"; u_int 8 "tx_bytes"; u_int 8 "tx_packets"; u_int 8 "tx_errors";
   u_int 4 "duration_sec"; u_int 4 "duration_nsec"]
  false
  ["port_no"; "queue_id"; "tx_bytes"; "tx_packets"; "tx_errors"; "duration_sec"; "duration_nsec"]
  [q_port "port_no"; q_hex "queue_id"; q_hex "tx_bytes"; q_hex "tx_packets"; q_hex "tx_errors";
   q_hex "duration_sec"; q_hex "duration_nsec"].

Definition table_feature_prop : cls := mk_cls "common.table_feature_prop"
  []
  [("type", VInt 0)]
  [p_int 2 "type"; p_placeholder]
  (t_len 1) (Some (2, 0))
  [6 ⇒ "common.table_feature_prop_apply_actions"; 7 ⇒ "common.table_feature_prop_apply_actions_miss";
   14 ⇒ "common.table_feature_prop_apply_setfield"; 15 ⇒ "common.table_feature_prop_apply_setfield_miss";
   65534 ⇒ "common.table_feature_prop_experimenter";
   65535 ⇒ "common.table_feature_prop_experimenter_miss"; 0 ⇒ "common.table_feature_prop_instructions";
   1 ⇒ "common.table_feature_prop_instructions_miss"; 8 ⇒ "common.table_feature_prop_match";
   2 ⇒ "common.table_feature_prop_next_tables"; 3 ⇒ "common.table_feature_prop_next_tables_miss";
   10 ⇒ "common.table_feature_prop_wildcards"; 4 ⇒ "common.table_feature_prop_write_actions";
   5 ⇒ "common.table_feature_prop_write_actions_miss"; 12 ⇒ "common.table_feature_prop_write_setfield";
   13 ⇒ "common.table_feature_prop_write_setfield_miss"]
  [u_int 2 "type"; u_slice 4]
  false
  ["type"]
  [].

Definition table_feature_prop_apply_actions : cls := mk_cls "common.table_feature_prop_apply_actions"
  ["type" ↦ 6]
  [("action_ids", VList [])]
  [p_int 2 "type"; p_placeholder; p_list "action_ids"]
  (t_len_pad 1 8) None []
  [u_check 2 6; u_slice 4; u_list "action_ids" "action_id.action_id"]
  true
  ["action_ids"]
  [q_pp "action_ids"].

Definition table_feature_prop_apply_actions_miss : cls := mk_cls "common.table_feature_prop_apply_actions_miss"
  ["type" ↦ 7]
  [("action_ids", VList [])]
  [p_int 2 "type"; p_placeholder; p_list "action_ids"]
  (t_len_pad 1 8) None []
  [u_check 2 7; u_slice 4; u_list "action_ids" "action_id.action_id"]
  true
  ["action_ids"]
  [q_pp "action_ids"].

Definition table_feature_prop_apply_setfield : cls := mk_cls "common.table_feature_prop_apply_setfield"
  ["type" ↦ 14]
  [("oxm_ids", VList [])]
  [p_int 2 "type"; p_placeholder; p_list "oxm_ids"]
  (t_len_pad 1 8) None []
  [u_check 2 14; u_slice 4; u_list "oxm_ids" "common.uint32"]
  true
  ["oxm_ids"]
  [q_pp "oxm_ids"].

Definition table_feature_prop_apply_setfield_miss : cls := mk_cls "common.table_feature_prop_apply_setfield_miss"
  ["type" ↦ 15]
  [("oxm_ids", VList [])]
  [p_int 2 "type"; p_placeholder; p_list "oxm_ids"]
  (t_len_pad 1 8) None []
  [u_check 2 15; u_slice 4; u_list "oxm_ids" "common.uint32"]
  true
  ["oxm_ids"]
  [q_pp "oxm_ids"].

Definition table_feature_prop_experimenter : cls := mk_cls "common.table_feature_prop_experimenter"
  ["type" ↦ 65534]
  [("experimenter", VInt 0); ("subtype", VInt 0); ("experimenter_data", VStr [])]
  [p_int 2 "type"; p_placeholder; p_int 4 "experimenter"; p_int 4 "subtype"; p_raw "experimenter_data"]
  (t_len_pad 1 8) (Some (4, 4)) []
  [u_check 2 65534; u_slice 4; u_int 4 "experimenter"; u_int 4 "subtype"; u_rest "experimenter_data"]
  true
  ["experimenter"; "subtype"; "experimenter_data"]
  [q_hex "subtype"; q_pp "experimenter_data"].

Definition table_feature_prop_experimenter_miss : cls := mk_cls "common.table_feature_prop_experimenter_miss"
  ["type" ↦ 65535]
  [("experimenter", VInt 0); ("subtype", VInt 0); ("experimenter_data", VStr [])]
  [p_int 2 "type"; p_placeholder; p_int 4 "experimenter"; p_int 4 "subtype"; p_raw "experimenter_data"]
  (t_len_pad 1 8) (Some (4, 4)) []
  [u_check 2 65535; u_slice 4; u_int 4 "experimenter"; u_int 4 "subtype"; u_rest "experimenter_data"]
  true
  ["experimenter"; "subtype"; "experimenter_data"]
  [q_hex "subtype"; q_pp "experimenter_data"].

Definition table_feature_prop_instructions : cls := mk_cls "common.table_feature_prop_instructions"
  ["type" ↦ 0]
  [("instruction_ids", VList [])]
  [p_int 2 "type"; p_placeholder; p_list "instruction_ids"]
  (t_len_pad 1 8) None []
  [u_check 2 0; u_slice 4; u_list "instruction_ids" "instruction_id.instruction_id"]
  true
  ["instruction_ids"]
  [q_pp "instruction_ids"].

Definition table_feature_prop_instructions_miss : cls := mk_cls "common.table_feature_prop_instructions_miss"
  ["type" ↦ 1]
  [("instruction_ids", VList [])]
  [p_int 2 "type"; p_placeholder; p_list "instruction_ids"]
  (t_len_pad 1 8) None []
  [u_check 2 1; u_slice 4; u_list "instruction_ids" "instruction_id.instruction_id"]
  true
  ["instruction_ids"]
  [q_pp "instruction_ids"].

Definition table_feature_prop_match : cls := mk_cls "common.table_feature_prop_match"
  ["type" ↦ 8]
  [("oxm_ids", VList [])]
  [p_int 2 "type"; p_placeholder; p_list "oxm_ids"]
  (t_len_pad 1 8) None []
  [u_check 2 8; u_slice 4; u_list "oxm_ids" "common.uint32"]
  true
  ["oxm_ids"]
  [q_pp "oxm_ids"].

Definition table_feature_prop_next_tables : cls := mk_cls "common.table_feature_prop_next_tables"
  ["type" ↦ 2]
  [("next_table_ids", VList [])]
  [p_int 2 "type"; p_placeholder; p_list "next_table_ids"]
  (t_len_pad 1 8) None []
  [u_check 2 2; u_slice 4; u_list "next_table_ids" "common.uint8"]
  true
  ["next_table_ids"]
  [q_pp "next_table_ids"].

Definition table_feature_prop_next_tables_miss : cls := mk_cls "common.table_feature_prop_next_tables_miss"
  ["type" ↦ 3]
  [("next_table_ids", VList [])]
  [p_int 2 "type"; p_placeholder; p_list "next_table_ids"]
  (t_len_pad 1 8) None []
  [u_check 2 3; u_slice 4; u_list "next_table_ids" "common.uint8"]
  true
  ["next_table_ids"]
  [q_pp "next_table_ids"].

Definition table_feature_prop_wildcards : cls := mk_cls "common.table_feature_prop_wildcards"
  ["type" ↦ 10]
  [("oxm_ids", VList [])]
  [p_int 2 "type"; p_placeholder; p_list "oxm_ids"]
  (t_len_pad 1 8) None []
  [u_check 2 10; u_slice 4; u_list "oxm_ids" "common.uint32"]
  true
  ["oxm_ids"]
  [q_pp "oxm_ids"].

Definition table_feature_prop_write_actions : cls := mk_cls "common.table_feature_prop_write_actions"
  ["type" ↦ 4]
  [("action_ids", VList [])]
  [p_int 2 "type"; p_placeholder; p_list "action_ids"]
  (t_len_pad 1 8) None []
  [u_check 2 4; u_slice 4; u_list "action_ids" "action_id.action_id"]
  true
  ["action_ids"]
  [q_pp "action_ids"].

Definition table_feature_prop_write_actions_miss : cls := mk_cls "common.table_feature_prop_write_actions_miss"
  ["type" ↦ 5]
  [("action_ids", VList [])]
  [p_int 2 "type"; p_placeholder; p_list "action_ids"]
  (t_len_pad 1 8) None []
  [u_check 2 5; u_slice 4; u_list "action_ids" "action_id.action_id"]
  true
  ["action_ids"]
  [q_pp "action_ids"].

Definition table_feature_prop_write_setfield : cls := mk_cls "common.table_feature_prop_write_setfield"
  ["type" ↦ 12]
  [("oxm_ids", VList [])]
  [p_int 2 "type"; p_placeholder; p_list "oxm_ids"]
  (t_len_pad 1 8) None []
  [u_check 2 12; u_slice 4; u_list "oxm_ids" "common.uint32"]
  true
  ["oxm_ids"]
  [q_pp "oxm_ids"].

Definition table_feature_prop_write_setfield_miss : cls := mk_cls "common.table_feature_prop_write_setfield_miss"
  ["type" ↦ 13]
  [("oxm_ids", VList [])]
  [p_int 2 "type"; p_placeholder; p_list "oxm_ids"]
  (t_len_pad 1 8) None []
  [u_check 2 13; u_slice 4; u_list "oxm_ids" "common.uint32"]
  true
  ["oxm_ids"]
  [q_pp "oxm_ids"].

Definition table_features : cls := mk_cls "common.table_features"
  []
  [("table_id", VInt 0); ("name", VStr []); ("metadata_match", VInt 0); ("metadata_write", VInt 0);
   ("config", VInt 0); ("max_entries", VInt 0); ("properties", VList [])]
  [p_placeholder; p_int 1 "table_id"; p_zeros 5; p_str 32 "name"; p_int 8 "metadata_match";
   p_int 8 "metadata_write"; p_int 4 "config"; p_int 4 "max_entries"; p_list "properties"]
  (t_len 0) None []
  [u_slice 2; u_int 1 "table_id"; u_skip 5; u_str 32 true "name"; u_int 8 "metadata_match";
   u_int 8 "metadata_write"; u_int 4 "config"; u_int 4 "max_entries";
   u_list "properties" "common.table_feature_prop"]
  false
  ["table_id"; "name"; "metadata_match"; "metadata_write"; "config"; "max_entries"; "properties"]
  [q_hex "table_id"; q_pp "name"; q_hex "metadata_match"; q_hex "metadata_write"; q_hex "config";
   q_hex "max_entries"; q_pp "properties"].

Definition table_stats_entry : cls := mk_cls "common.table_stats_entry"
  []
  [("table_id", VInt 0); ("active_count", VInt 0); ("lookup_count", VInt 0); ("matched_count", VInt 0)]
  [p_int 1 "table_id"; p_zeros 3; p_int 4 "active_count"; p_int 8 "lookup_count"; p_int 8 "matched_count"]
  t_none None []
  [u_int 1 "table_id"; u_skip 3; u_int 4 "active_count"; u_int 8 "lookup_count"; u_int 8 "matched_count"]
  false
  ["table_id"; "active_count"; "lookup_count"; "matched_count"]
  [q_hex "table_id"; q_hex "active_count"; q_hex "lookup_count"; q_hex "matched_count"].

Definition uint32 : cls := mk_cls "common.uint32"
  []
  [("value", VInt 0)]
  [p_int 4 "value"]
  t_none None []
  [u_int 4 "value"]
  false
  ["value"]
  [q_hex "value"].

Definition uint64 : cls := mk_cls "common.uint64"
  []
  [("value", VInt 0)]
  [p_int 8 "value"]
  t_none None []
  [u_int 8 "value"]
  false
  ["value"]
  [q_hex "value"].

Definition uint8 : cls := mk_cls "common.uint8"
  []
  [("value", VInt 0)]
  [p_int 1 "value"]
  t_none None []
  [u_int 1 "value"]
  false
  ["value"]
  [q_hex "value"].

Definition classes : list cls :=
  [bsn_controller_connection; bsn_debug_counter_desc_stats_entry; bsn_debug_counter_stats_entry;
   bsn_flow_checksum_bucket_stats_entry; bsn_generic_stats_entry; bsn_gentable_bucket_stats_entry;
   bsn_gentable_desc_stats_entry; bsn_gentable_entry_desc_stats_entry; bsn_gentable_entry_stats_entry;
   bsn_gentable_stats_entry; bsn_interface; bsn_lacp_stats_entry; bsn_port_counter_stats_entry;
   bsn_switch_pipeline_stats_entry; bsn_table_checksum_stats_entry; bsn_tlv_vlan_mac_list; bsn_vport;
   bsn_vlan_counter_stats_entry; bsn_vlan_mac; bsn_vport_l2gre; bsn_vport_q_in_q;
   bsn_vrf_counter_stats_entry; bucket; bucket_counter; match_v3; flow_stats_entry;
   group_desc_stats_entry; group_stats_entry; hello_elem; hello_elem_versionbitmap; meter_band_stats;
   meter_config; meter_features; meter_stats; packet_queue; port_desc; port_stats_entry; queue_prop;
   queue_prop_experimenter; queue_prop_max_rate; queue_prop_min_rate; queue_stats_entry;
   table_feature_prop; table_feature_prop_apply_actions; table_feature_prop_apply_actions_miss;
   table_feature_prop_apply_setfield; table_feature_prop_apply_setfield_miss;
   table_feature_prop_experimenter; table_feature_prop_experimenter_miss; table_feature_prop_instructions;
   table_feature_prop_instructions_miss; table_feature_prop_match; table_feature_prop_next_tables;
   table_feature_prop_next_tables_miss; table_feature_prop_wildcards; table_feature_prop_write_actions;
   table_feature_prop_write_actions_miss; table_feature_prop_write_setfield;
   table_feature_prop_write_setfield_miss; table_features; table_stats_entry; uint32; uint64; uint8].
End Common.
