(* ===== verification/Of14Prop.v ===== *)
(** * OpenFlow 1.4: properties of messages and structures (of14/*_prop.py)

    One definition per class of the generated bindings, with the statements of its
    methods; see LoxiWire for what they mean. *)

From Stdlib Require Import Strings.Byte.
From stdpp Require Import prelude strings list.
From S2P Require Import Prelude LoxiWire.

Module AsyncConfigProp.
Import LoxiNotations.

Definition async_config_prop : cls := mk_cls "async_config_prop.async_config_prop"
  []
  [("type", VInt 0)]
  [p_int 2 "type"; p_placeholder]
  (t_len 1) (Some (2, 0))
  [65535 ⇒ "async_config_prop.experimenter_master"; 65534 ⇒ "async_config_prop.experimenter_slave";
   5 ⇒ "async_config_prop.flow_removed_master"; 4 ⇒ "async_config_prop.flow_removed_slave";
   1 ⇒ "async_config_prop.packet_in_master"; 0 ⇒ "async_config_prop.packet_in_slave";
   3 ⇒ "async_config_prop.port_status_master"; 2 ⇒ "async_config_prop.port_status_slave";
   11 ⇒ "async_config_prop.requestforward_master"; 10 ⇒ "async_config_prop.requestforward_slave";
   7 ⇒ "async_config_prop.role_status_master"; 6 ⇒ "async_config_prop.role_status_slave";
   9 ⇒ "async_config_prop.table_status_master"; 8 ⇒ "async_config_prop.table_status_slave"]
  [u_int 2 "type"; u_slice 4]
  false
  ["type"]
  [].

Definition experimenter_master : cls := mk_cls "async_config_prop.experimenter_master"
  ["type" ↦ 65535]
  []
  [p_int 2 "type"; p_placeholder]
  (t_len 1) None []
  [u_check 2 65535; u_slice 4]
  false
  []
  [].

Definition experimenter_slave : cls := mk_cls "async_config_prop.experimenter_slave"
  ["type" ↦ 65534]
  []
  [p_int 2 "type"; p_placeholder]
  (t_len 1) None []
  [u_check 2 65534; u_slice 4]
  false
  []
  [].

Definition flow_removed_master : cls := mk_cls "async_config_prop.flow_removed_master"
  ["type" ↦ 5]
  [("mask", VInt 0)]
  [p_int 2 "type"; p_placeholder; p_int 4 "mask"]
  (t_len 1) None []
  [u_check 2 5; u_slice 4; u_int 4 "mask"]
  false
  ["mask"]
  [q_hex "mask"].

Definition flow_removed_slave : cls := mk_cls "async_config_prop.flow_removed_slave"
  ["type" ↦ 4]
  [("mask", VInt 0)]
  [p_int 2 "type"; p_placeholder; p_int 4 "mask"]
  (t_len 1) None []
  [u_check 2 4; u_slice 4; u_int 4 "mask"]
  false
  ["mask"]
  [q_hex "mask"].

Definition packet_in_master : cls := mk_cls "async_config_prop.packet_in_master"
  ["type" ↦ 1]
  [("mask", VInt 0)]
  [p_int 2 "type"; p_placeholder; p_int 4 "mask"]
  (t_len 1) None []
  [u_check 2 1; u_slice 4; u_int 4 "mask"]
  false
  ["mask"]
  [q_hex "mask"].

Definition packet_in_slave : cls := mk_cls "async_config_prop.packet_in_slave"
  ["type" ↦ 0]
  [("mask", VInt 0)]
  [p_int 2 "type"; p_placeholder; p_int 4 "mask"]
  (t_len 1) None []
  [u_check 2 0; u_slice 4; u_int 4 "mask"]
  false
  ["mask"]
  [q_hex "mask"].

Definition port_status_master : cls := mk_cls "async_config_prop.port_status_master"
  ["type" ↦ 3]
  [("mask", VInt 0)]
  [p_int 2 "type"; p_placeholder; p_int 4 "mask"]
  (t_len 1) None []
  [u_check 2 3; u_slice 4; u_int 4 "mask"]
  false
  ["mask"]
  [q_hex "mask"].

Definition port_status_slave : cls := mk_cls "async_config_prop.port_status_slave"
  ["type" ↦ 2]
  [("mask", VInt 0)]
  [p_int 2 "type"; p_placeholder; p_int 4 "mask"]
  (t_len 1) None []
  [u_check 2 2; u_slice 4; u_int 4 "mask"]
  false
  ["mask"]
  [q_hex "mask"].

Definition requestforward_master : cls := mk_cls "async_config_prop.requestforward_master"
  ["type" ↦ 11]
  [("mask", VInt 0)]
  [p_int 2 "type"; p_placeholder; p_int 4 "mask"]
  (t_len 1) None []
  [u_check 2 11; u_slice 4; u_int 4 "mask"]
  false
  ["mask"]
  [q_hex "mask"].

Definition requestforward_slave : cls := mk_cls "async_config_prop.requestforward_slave"
  ["type" ↦ 10]
  [("mask", VInt 0)]
  [p_int 2 "type"; p_placeholder; p_int 4 "mask"]
  (t_len 1) None []
  [u_check 2 10; u_slice 4; u_int 4 "mask"]
  false
  ["mask"]
  [q_hex "mask"].

Definition role_status_master : cls := mk_cls "async_config_prop.role_status_master"
  ["type" ↦ 7]
  [("mask", VInt 0)]
  [p_int 2 "type"; p_placeholder; p_int 4 "mask"]
  (t_len 1) None []
  [u_check 2 7; u_slice 4; u_int 4 "mask"]
  false
  ["mask"]
  [q_hex "mask"].

Definition role_status_slave : cls := mk_cls "async_config_prop.role_status_slave"
  ["type" ↦ 6]
  [("mask", VInt 0)]
  [p_int 2 "type"; p_placeholder; p_int 4 "mask"]
  (t_len 1) None []
  [u_check 2 6; u_slice 4; u_int 4 "mask"]
  false
  ["mask"]
  [q_hex "mask"].

Definition table_status_master : cls := mk_cls "async_config_prop.table_status_master"
  ["type" ↦ 9]
  [("mask", VInt 0)]
  [p_int 2 "type"; p_placeholder; p_int 4 "mask"]
  (t_len 1) None []
  [u_check 2 9; u_slice 4; u_int 4 "mask"]
  false
  ["mask"]
  [q_hex "mask"].

Definition table_status_slave : cls := mk_cls "async_config_prop.table_status_slave"
  ["type" ↦ 8]
  [("mask", VInt 0)]
  [p_int 2 "type"; p_placeholder; p_int 4 "mask"]
  (t_len 1) None []
  [u_check 2 8; u_slice 4; u_int 4 "mask"]
  false
  ["mask"]
  [q_hex "mask"].

Definition classes : list cls :=
  [async_config_prop; experimenter_master; experimenter_slave; flow_removed_master; flow_removed_slave;
   packet_in_master; packet_in_slave; port_status_master; port_status_slave; requestforward_master;
   requestforward_slave; role_status_master; role_status_slave; table_status_master; table_status_slave].
End AsyncConfigProp.

Module BundleProp.
Import LoxiNotations.

Definition bundle_prop : cls := mk_cls "bundle_prop.bundle_prop"
  []
  [("type", VInt 0)]
  [p_int 2 "type"; p_placeholder]
  (t_len 1) (Some (2, 0))
  [65535 ⇒ "bundle_prop.experimenter"]
  [u_int 2 "type"; u_slice 4]
  false
  ["type"]
  [].

Definition experimenter : cls := mk_cls "bundle_prop.experimenter"
  ["type" ↦ 65535]
  [("experimenter", VInt 0); ("exp_type", VInt 0)]
  [p_int 2 "type"; p_placeholder; p_int 4 "experimenter"; p_int 4 "exp_type"]
  (t_len 1) (Some (4, 4)) []
  [u_check 2 65535; u_slice 4; u_int 4 "experimenter"; u_int 4 "exp_type"]
  false
  ["experimenter"; "exp_type"]
  [q_hex "exp_type"].

Definition classes : list cls :=
  [bundle_prop; experimenter].
End BundleProp.

Module PortDescProp.
Import LoxiNotations.

Definition port_desc_prop : cls := mk_cls "port_desc_prop.port_desc_prop"
  []
  [("type", VInt 0)]
  [p_int 2 "type"; p_placeholder]
  (t_len 1) (Some (2, 0))
  [65535 ⇒ "port_desc_prop.experimenter"; 0 ⇒ "port_desc_prop.ethernet"; 1 ⇒ "port_desc_prop.optical"]
  [u_int 2 "type"; u_slice 4]
  false
  ["type"]
  [].

Definition experimenter : cls := mk_cls "port_desc_prop.experimenter"
  ["type" ↦ 65535]
  [("experimenter", VInt 0)]
  [p_int 2 "type"; p_placeholder; p_int 4 "experimenter"]
  (t_len 1) (Some (4, 4))
  [6035143 ⇒ "port_desc_prop.bsn"]
  [u_check 2 65535; u_slice 4; u_int 4 "experimenter"]
  false
  ["experimenter"]
  [].

Definition bsn : cls := mk_cls "port_desc_prop.bsn"
  ["type" ↦ 65535; "experimenter" ↦ 6035143]
  [("exp_type", VInt 0)]
  [p_int 2 "type"; p_placeholder; p_int 4 "experimenter"; p_int 4 "exp_type"]
  (t_len 1) (Some (4, 8))
  [1 ⇒ "port_desc_prop.bsn_generation_id"; 0 ⇒ "port_desc_prop.bsn_uplink"]
  [u_check 2 65535; u_slice 4; u_check 4 6035143; u_int 4 "exp_type"]
  false
  ["exp_type"]
  [].

Definition bsn_generation_id : cls := mk_cls "port_desc_prop.bsn_generation_id"
  ["type" ↦ 65535; "experimenter" ↦ 6035143; "exp_type" ↦ 1]
  [("generation_id", VInt 0)]
  [p_int 2 "type"; p_placeholder; p_int 4 "experimenter"; p_int 4 "exp_type"; p_int 8 "generation_id"]
  (t_len 1) None []
  [u_check 2 65535; u_slice 4; u_check 4 6035143; u_check 4 1; u_int 8 "generation_id"]
  false
  ["generation_id"]
  [q_hex "generation_id"].

Definition bsn_uplink : cls := mk_cls "port_desc_prop.bsn_uplink"
  ["type" ↦ 65535; "experimenter" ↦ 6035143; "exp_type" ↦ 0]
  []
  [p_int 2 "type"; p_placeholder; p_int 4 "experimenter"; p_int 4 "exp_type"]
  (t_len 1) None []
  [u_check 2 65535; u_slice 4; u_check 4 6035143; u_check 4 0]
  false
  []
  [].

Definition ethernet : cls := mk_cls "port_desc_prop.ethernet"
  ["type" ↦ 0]
  [("curr", VInt 0); ("advertised", VInt 0); ("supported", VInt 0); ("peer", VInt 0);
   ("curr_speed", VInt 0); ("max_speed", VInt 0)]
  [p_int 2 "type"; p_placeholder; p_zeros 4; p_int 4 "curr"; p_int 4 "advertised"; p_int 4 "supported";
   p_int 4 "peer"; p_int 4 "curr_speed"; p_int 4 "max_speed"]
  (t_len 1) None []
  [u_check 2 0; u_slice 4; u_skip 4; u_int 4 "curr"; u_int 4 "advertised"; u_int 4 "supported";
   u_int 4 "peer"; u_int 4 "curr_speed"; u_int 4 "max_speed"]
  false
  ["curr"; "advertised"; "supported"; "peer"; "curr_speed"; "max_speed"]
  [q_hex "curr"; q_hex "advertised"; q_hex "supported"; q_hex "peer"; q_hex "curr_speed";
   q_hex "max_speed"].

Definition optical : cls := mk_cls "port_desc_prop.optical"
  ["type" ↦ 1]
  [("supported", VInt 0); ("tx_min_freq_lmda", VInt 0); ("tx_max_freq_lmda", VInt 0);
   ("tx_grid_freq_lmda", VInt 0); ("rx_min_freq_lmda", VInt 0); ("rx_max_freq_lmda", VInt 0);
   ("rx_grid_freq_lmda", VInt 0); ("tx_pwr_min", VInt 0); ("tx_pwr_max", VInt 0)]
  [p_int 2 "type"; p_placeholder; p_zeros 4; p_int 4 "supported"; p_int 4 "tx_min_freq_lmda";
   p_int 4 "tx_max_freq_lmda"; p_int 4 "tx_grid_freq_lmda"; p_int 4 "rx_min_freq_lmda";
   p_int 4 "rx_max_freq_lmda"; p_int 4 "rx_grid_freq_lmda"; p_int 4 "tx_pwr_min"; p_int 4 "tx_pwr_max"]
  (t_len 1) None []
  [u_check 2 1; u_slice 4; u_skip 4; u_int 4 "supported"; u_int 4 "tx_min_freq_lmda";
   u_int 4 "tx_max_freq_lmda"; u_int 4 "tx_grid_freq_lmda"; u_int 4 "rx_min_freq_lmda";
   u_int 4 "rx_max_freq_lmda"; u_int 4 "rx_grid_freq_lmda"; u_int 4 "tx_pwr_min"; u_int 4 "tx_pwr_max"]
  false
  ["supported"; "tx_min_freq_lmda"; "tx_max_freq_lmda"; "tx_grid_freq_lmda"; "rx_min_freq_lmda";
   "rx_max_freq_lmda"; "rx_grid_freq_lmda"; "tx_pwr_min"; "tx_pwr_max"]
  [q_hex "supported"; q_hex "tx_min_freq_lmda"; q_hex "tx_max_freq_lmda"; q_hex "tx_grid_freq_lmda";
   q_hex "rx_min_freq_lmda"; q_hex "rx_max_freq_lmda"; q_hex "rx_grid_freq_lmda"; q_hex "tx_pwr_min";
   q_hex "tx_pwr_max"].

Definition classes : list cls :=
  [port_desc_prop; experimenter; bsn; bsn_generation_id; bsn_uplink; ethernet; optical].
End PortDescProp.

Module PortModProp.
Import LoxiNotations.

Definition port_mod_prop : cls := mk_cls "port_mod_prop.port_mod_prop"
  []
  [("type", VInt 0)]
  [p_int 2 "type"; p_placeholder]
  (t_len 1) (Some (2, 0))
  [0 ⇒ "port_mod_prop.ethernet"; 65535 ⇒ "port_mod_prop.experimenter"; 1 ⇒ "port_mod_prop.optical"]
  [u_int 2 "type"; u_slice 4]
  false
  ["type"]
  [].

Definition ethernet : cls := mk_cls "port_mod_prop.ethernet"
  ["type" ↦ 0]
  [("advertise", VInt 0)]
  [p_int 2 "type"; p_placeholder; p_int 4 "advertise"]
  (t_len 1) None []
  [u_check 2 0; u_slice 4; u_int 4 "advertise"]
  false
  ["advertise"]
  [q_hex "advertise"].

Definition experimenter : cls := mk_cls "port_mod_prop.experimenter"
  ["type" ↦ 65535]
  [("experimenter", VInt 0); ("exp_type", VInt 0)]
  [p_int 2 "type"; p_placeholder; p_int 4 "experimenter"; p_int 4 "exp_type"]
  (t_len 1) (Some (4, 4)) []
  [u_check 2 65535; u_slice 4; u_int 4 "experimenter"; u_int 4 "exp_type"]
  false
  ["experimenter"; "exp_type"]
  [q_hex "exp_type"].

Definition optical : cls := mk_cls "port_mod_prop.optical"
  ["type" ↦ 1]
  [("configure", VInt 0); ("freq_ldma", VInt 0); ("fl_offset", VInt 0); ("grid_span", VInt 0);
   ("tx_pwr", VInt 0)]
  [p_int 2 "type"; p_placeholder; p_int 4 "configure"; p_int 4 "freq_ldma"; p_int 4 "fl_offset";
   p_int 4 "grid_span"; p_int 4 "tx_pwr"]
  (t_len 1) None []
  [u_check 2 1; u_slice 4; u_int 4 "configure"; u_int 4 "freq_ldma"; u_int 4 "fl_offset";
   u_int 4 "grid_span"; u_int 4 "tx_pwr"]
  false
  ["configure"; "freq_ldma"; "fl_offset"; "grid_span"; "tx_pwr"]
  [q_hex "configure"; q_hex "freq_ldma"; q_hex "fl_offset"; q_hex "grid_span"; q_hex "tx_pwr"].

Definition classes : list cls :=
  [port_mod_prop; ethernet; experimenter; optical].
End PortModProp.

Module PortStatsProp.
Import LoxiNotations.

Definition port_stats_prop : cls := mk_cls "port_stats_prop.port_stats_prop"
  []
  [("type", VInt 0)]
  [p_int 2 "type"; p_placeholder]
  (t_len 1) (Some (2, 0))
  [0 ⇒ "port_stats_prop.ethernet"; 65535 ⇒ "port_stats_prop.experimenter"; 1 ⇒ "port_stats_prop.optical"]
  [u_int 2 "type"; u_slice 4]
  false
  ["type"]
  [].

Definition ethernet : cls := mk_cls "port_stats_prop.ethernet"
  ["type" ↦ 0]
  [("rx_frame_err", VInt 0); ("rx_over_err", VInt 0); ("rx_crc_err", VInt 0); ("collisions", VInt 0)]
  [p_int 2 "type"; p_placeholder; p_zeros 4; p_int 8 "rx_frame_err"; p_int 8 "rx_over_err";
   p_int 8 "rx_crc_err"; p_int 8 "collisions"]
  (t_len 1) None []
  [u_check 2 0; u_slice 4; u_skip 4; u_int 8 "rx_frame_err"; u_int 8 "rx_over_err"; u_int 8 "rx_crc_err";
   u_int 8 "collisions"]
  false
  ["rx_frame_err"; "rx_over_err"; "rx_crc_err"; "collisions"]
  [q_hex "rx_frame_err"; q_hex "rx_over_err"; q_hex "rx_crc_err"; q_hex "collisions"].

Definition experimenter : cls := mk_cls "port_stats_prop.experimenter"
  ["type" ↦ 65535]
  [("experimenter", VInt 0); ("exp_type", VInt 0); ("experimenter_data", VStr [])]
  [p_int 2 "type"; p_placeholder; p_int 4 "experimenter"; p_int 4 "exp_type"; p_raw "experimenter_data"]
  (t_len 1) (Some (4, 4)) []
  [u_check 2 65535; u_slice 4; u_int 4 "experimenter"; u_int 4 "exp_type"; u_rest "experimenter_data"]
  false
  ["experimenter"; "exp_type"; "experimenter_data"]
  [q_hex "exp_type"; q_pp "experimenter_data"].

Definition optical : cls := mk_cls "port_stats_prop.optical"
  ["type" ↦ 1]
  [("flags", VInt 0); ("tx_freq_lmda", VInt 0); ("tx_offset", VInt 0); ("tx_grid_span", VInt 0);
   ("rx_freq_lmda", VInt 0); ("rx_offset", VInt 0); ("rx_grid_span", VInt 0); ("tx_pwr", VInt 0);
   ("rx_pwr", VInt 0); ("bias_current", VInt 0); ("temperature", VInt 0)]
  [p_int 2 "type"; p_placeholder; p_zeros 4; p_int 4 "flags"; p_int 4 "tx_freq_lmda"; p_int 4 "tx_offset";
   p_int 4 "tx_grid_span"; p_int 4 "rx_freq_lmda"; p_int 4 "rx_offset"; p_int 4 "rx_grid_span";
   p_int 2 "tx_pwr"; p_int 2 "rx_pwr"; p_int 2 "bias_current"; p_int 2 "temperature"]
  (t_len 1) None []
  [u_check 2 1; u_slice 4; u_skip 4; u_int 4 "flags"; u_int 4 "tx_freq_lmda"; u_int 4 "tx_offset";
   u_int 4 "tx_grid_span"; u_int 4 "rx_freq_lmda"; u_int 4 "rx_offset"; u_int 4 "rx_grid_span";
   u_int 2 "tx_pwr"; u_int 2 "rx_pwr"; u_int 2 "bias_current"; u_int 2 "temperature"]
  false
  ["flags"; "tx_freq_lmda"; "tx_offset"; "tx_grid_span"; "rx_freq_lmda"; "rx_offset"; "rx_grid_span";
   "tx_pwr"; "rx_pwr"; "bias_current"; "temperature"]
  [q_hex "flags"; q_hex "tx_freq_lmda"; q_hex "tx_offset"; q_hex "tx_grid_span"; q_hex "rx_freq_lmda";
   q_hex "rx_offset"; q_hex "rx_grid_span"; q_hex "tx_pwr"; q_hex "rx_pwr"; q_hex "bias_current";
   q_hex "temperature"].

Definition classes : list cls :=
  [port_stats_prop; ethernet; experimenter; optical].
End PortStatsProp.

Module QueueDescProp.
Import LoxiNotations.

Definition queue_desc_prop : cls := mk_cls "queue_desc_prop.queue_desc_prop"
  []
  [("type", VInt 0)]
  [p_int 2 "type"; p_placeholder]
  (t_len 1) (Some (2, 0))
  [65535 ⇒ "queue_desc_prop.experimenter"; 2 ⇒ "queue_desc_prop.max_rate"; 1 ⇒ "queue_desc_prop.min_rate"]
  [u_int 2 "type"; u_slice 4]
  false
  ["type"]
  [].

Definition experimenter : cls := mk_cls "queue_desc_prop.experimenter"
  ["type" ↦ 65535]
  [("experimenter", VInt 0); ("exp_type", VInt 0)]
  [p_int 2 "type"; p_placeholder; p_int 4 "experimenter"; p_int 4 "exp_type"]
  (t_len 1) (Some (4, 4)) []
  [u_check 2 65535; u_slice 4; u_int 4 "experimenter"; u_int 4 "exp_type"]
  false
  ["experimenter"; "exp_type"]
  [q_hex "exp_type"].

Definition max_rate : cls := mk_cls "queue_desc_prop.max_rate"
  ["type" ↦ 2]
  [("rate", VInt 0)]
  [p_int 2 "type"; p_placeholder; p_int 2 "rate"; p_zeros 2]
  (t_len 1) None []
  [u_check 2 2; u_slice 4; u_int 2 "rate"; u_skip 2]
  false
  ["rate"]
  [q_hex "rate"].

Definition min_rate : cls := mk_cls "queue_desc_prop.min_rate"
  ["type" ↦ 1]
  [("rate", VInt 0)]
  [p_int 2 "type"; p_placeholder; p_int 2 "rate"; p_zeros 2]
  (t_len 1) None []
  [u_check 2 1; u_slice 4; u_int 2 "rate"; u_skip 2]
  false
  ["rate"]
  [q_hex "rate"].

Definition classes : list cls :=
  [queue_desc_prop; experimenter; max_rate; min_rate].
End QueueDescProp.

Module QueueStatsProp.
Import LoxiNotations.

Definition queue_stats_prop : cls := mk_cls "queue_stats_prop.queue_stats_prop"
  []
  [("type", VInt 0)]
  [p_int 2 "type"; p_placeholder]
  (t_len 1) (Some (2, 0))
  [65535 ⇒ "queue_stats_prop.experimenter"]
  [u_int 2 "type"; u_slice 4]
  false
  ["type"]
  [].

Definition experimenter : cls := mk_cls "queue_stats_prop.experimenter"
  ["type" ↦ 65535]
  [("experimenter", VInt 0); ("exp_type", VInt 0)]
  [p_int 2 "type"; p_placeholder; p_int 4 "experimenter"; p_int 4 "exp_type"]
  (t_len 1) (Some (4, 4)) []
  [u_check 2 65535; u_slice 4; u_int 4 "experimenter"; u_int 4 "exp_type"]
  false
  ["experimenter"; "exp_type"]
  [q_hex "exp_type"].

Definition classes : list cls :=
  [queue_stats_prop; experimenter].
End QueueStatsProp.

Module RoleProp.
Import LoxiNotations.

Definition role_prop : cls := mk_cls "role_prop.role_prop"
  []
  [("type", VInt 0)]
  [p_int 2 "type"; p_placeholder]
  (t_len 1) (Some (2, 0))
  [65535 ⇒ "role_prop.experimenter"]
  [u_int 2 "type"; u_slice 4]
  false
  ["type"]
  [].

Definition experimenter : cls := mk_cls "role_prop.experimenter"
  ["type" ↦ 65535]
  [("experimenter", VInt 0); ("exp_type", VInt 0)]
  [p_int 2 "type"; p_placeholder; p_int 4 "experimenter"; p_int 4 "exp_type"]
  (t_len 1) (Some (4, 4)) []
  [u_check 2 65535; u_slice 4; u_int 4 "experimenter"; u_int 4 "exp_type"]
  false
  ["experimenter"; "exp_type"]
  [q_hex "exp_type"].

Definition classes : list cls :=
  [role_prop; experimenter].
End RoleProp.

Module TableModProp.
Import LoxiNotations.

Definition table_mod_prop : cls := mk_cls "table_mod_prop.table_mod_prop"
  []
  [("type", VInt 0)]
  [p_int 2 "type"; p_placeholder]
  (t_len 1) (Some (2, 0)) []
  [u_int 2 "type"; u_slice 4]
  false
  ["type"]
  [].

Definition classes : list cls :=
  [table_mod_prop].
End TableModProp.
