(* ===== verification/Of14Message.v ===== *)
(** * OpenFlow 1.4: messages (of14/message.py)

    One definition per class of the generated bindings, with the statements of its
    methods; see LoxiWire for what they mean. *)

From Stdlib Require Import Strings.Byte.
From stdpp Require Import prelude strings list.
From S2P Require Import Prelude LoxiWire LoxiSpec LoxiEqual LoxiMessage Of14Common Of14Match Of14Action Of14Instruction Of14Prop.

Module Message.
Import LoxiNotations.

Definition message : cls := mk_cls "message.message"
  ["version" ↦ 5]
  [("type", VInt 0); ("xid", VNone)]
  [p_int 1 "version"; p_int 1 "type"; p_placeholder; p_int 4 "xid"]
  (t_len 2) (Some (1, 1))
  [19 ⇒ "message.stats_reply"; 18 ⇒ "message.stats_request"; 1 ⇒ "message.error_msg";
   27 ⇒ "message.async_get_reply"; 26 ⇒ "message.async_get_request"; 28 ⇒ "message.async_set";
   21 ⇒ "message.barrier_reply"; 20 ⇒ "message.barrier_request"; 4 ⇒ "message.experimenter";
   34 ⇒ "message.bundle_add_msg"; 33 ⇒ "message.bundle_ctrl_msg"; 3 ⇒ "message.echo_reply";
   2 ⇒ "message.echo_request"; 6 ⇒ "message.features_reply"; 5 ⇒ "message.features_request";
   14 ⇒ "message.flow_mod"; 11 ⇒ "message.flow_removed"; 8 ⇒ "message.get_config_reply";
   7 ⇒ "message.get_config_request"; 15 ⇒ "message.group_mod"; 0 ⇒ "message.hello";
   29 ⇒ "message.meter_mod"; 10 ⇒ "message.packet_in"; 13 ⇒ "message.packet_out"; 16 ⇒ "message.port_mod";
   12 ⇒ "message.port_status"; 32 ⇒ "message.requestforward"; 25 ⇒ "message.role_reply";
   24 ⇒ "message.role_request"; 30 ⇒ "message.role_status"; 9 ⇒ "message.set_config";
   17 ⇒ "message.table_mod"; 31 ⇒ "message.table_status"]
  [u_check 1 5; u_int 1 "type"; u_slice 4; u_int 4 "xid"]
  false
  ["type"; "xid"]
  [q_hex_or_none "xid"].

Definition stats_reply : cls := mk_cls "message.stats_reply"
  ["version" ↦ 5; "type" ↦ 19]
  [("xid", VNone); ("stats_type", VInt 0); ("flags", VInt 0)]
  [p_int 1 "version"; p_int 1 "type"; p_placeholder; p_int 4 "xid"; p_int 2 "stats_type"; p_int 2 "flags";
   p_zeros 4]
  (t_len 2) (Some (2, 8))
  [2 ⇒ "message.aggregate_stats_reply"; 65535 ⇒ "message.experimenter_stats_reply";
   0 ⇒ "message.desc_stats_reply"; 1 ⇒ "message.flow_stats_reply"; 7 ⇒ "message.group_desc_stats_reply";
   8 ⇒ "message.group_features_stats_reply"; 6 ⇒ "message.group_stats_reply";
   10 ⇒ "message.meter_config_stats_reply"; 11 ⇒ "message.meter_features_stats_reply";
   9 ⇒ "message.meter_stats_reply"; 13 ⇒ "message.port_desc_stats_reply"; 4 ⇒ "message.port_stats_reply";
   15 ⇒ "message.queue_desc_stats_reply"; 5 ⇒ "message.queue_stats_reply";
   14 ⇒ "message.table_desc_stats_reply"; 12 ⇒ "message.table_features_stats_reply";
   3 ⇒ "message.table_stats_reply"]
  [u_check 1 5; u_check 1 19; u_slice 4; u_int 4 "xid"; u_int 2 "stats_type"; u_int 2 "flags"; u_skip 4]
  false
  ["xid"; "stats_type"; "flags"]
  [q_hex_or_none "xid"; q_hex "flags"].

Definition aggregate_stats_reply : cls := mk_cls "message.aggregate_stats_reply"
  ["version" ↦ 5; "type" ↦ 19; "stats_type" ↦ 2]
  [("xid", VNone); ("flags", VInt 0); ("packet_count", VInt 0); ("byte_count", VInt 0);
   ("flow_count", VInt 0)]
  [p_int 1 "version"; p_int 1 "type"; p_placeholder; p_int 4 "xid"; p_int 2 "stats_type"; p_int 2 "flags";
   p_zeros 4; p_int 8 "packet_count"; p_int 8 "byte_count"; p_int 4 "flow_count"; p_zeros 4]
  (t_len 2) None []
  [u_check 1 5; u_check 1 19; u_slice 4; u_int 4 "xid"; u_check 2 2; u_int 2 "flags"; u_skip 4;
   u_int 8 "packet_count"; u_int 8 "byte_count"; u_int 4 "flow_count"; u_skip 4]
  false
  ["xid"; "flags"; "packet_count"; "byte_count"; "flow_count"]
  [q_hex_or_none "xid"; q_hex "flags"; q_hex "packet_count"; q_hex "byte_count"; q_hex "flow_count"].

Definition stats_request : cls := mk_cls "message.stats_request"
  ["version" ↦ 5; "type" ↦ 18]
  [("xid", VNone); ("stats_type", VInt 0); ("flags", VInt 0)]
  [p_int 1 "version"; p_int 1 "type"; p_placeholder; p_int 4 "xid"; p_int 2 "stats_type"; p_int 2 "flags";
   p_zeros 4]
  (t_len 2) (Some (2, 8))
  [2 ⇒ "message.aggregate_stats_request"; 65535 ⇒ "message.experimenter_stats_request";
   0 ⇒ "message.desc_stats_request"; 1 ⇒ "message.flow_stats_request";
   7 ⇒ "message.group_desc_stats_request"; 8 ⇒ "message.group_features_stats_request";
   6 ⇒ "message.group_stats_request"; 10 ⇒ "message.meter_config_stats_request";
   11 ⇒ "message.meter_features_stats_request"; 9 ⇒ "message.meter_stats_request";
   13 ⇒ "message.port_desc_stats_request"; 4 ⇒ "message.port_stats_request";
   15 ⇒ "message.queue_desc_stats_request"; 5 ⇒ "message.queue_stats_request";
   14 ⇒ "message.table_desc_stats_request"; 12 ⇒ "message.table_features_stats_request";
   3 ⇒ "message.table_stats_request"]
  [u_check 1 5; u_check 1 18; u_slice 4; u_int 4 "xid"; u_int 2 "stats_type"; u_int 2 "flags"; u_skip 4]
  false
  ["xid"; "stats_type"; "flags"]
  [q_hex_or_none "xid"; q_hex "flags"].

Definition aggregate_stats_request : cls := mk_cls "message.aggregate_stats_request"
  ["version" ↦ 5; "type" ↦ 18; "stats_type" ↦ 2]
  [("xid", VNone); ("flags", VInt 0); ("table_id", VInt 0); ("out_port", VInt 0); ("out_group", VInt 0);
   ("cookie", VInt 0); ("cookie_mask", VInt 0); ("match", new_object Common.match_v3)]
  [p_int 1 "version"; p_int 1 "type"; p_placeholder; p_int 4 "xid"; p_int 2 "stats_type"; p_int 2 "flags";
   p_zeros 4; p_int 1 "table_id"; p_zeros 3; p_int 4 "out_port"; p_int 4 "out_group"; p_zeros 4;
   p_int 8 "cookie"; p_int 8 "cookie_mask"; p_obj "match"]
  (t_len 2) None []
  [u_check 1 5; u_check 1 18; u_slice 4; u_int 4 "xid"; u_check 2 2; u_int 2 "flags"; u_skip 4;
   u_int 1 "table_id"; u_skip 3; u_int 4 "out_port"; u_int 4 "out_group"; u_skip 4; u_int 8 "cookie";
   u_int 8 "cookie_mask"; u_obj "match" "common.match_v3"]
  false
  ["xid"; "flags"; "table_id"; "out_port"; "out_group"; "cookie"; "cookie_mask"; "match"]
  [q_hex_or_none "xid"; q_hex "flags"; q_hex "table_id"; q_port "out_port"; q_hex "out_group";
   q_hex "cookie"; q_hex "cookie_mask"; q_pp "match"].

Definition error_msg : cls := mk_cls "message.error_msg"
  ["version" ↦ 5; "type" ↦ 1]
  [("xid", VNone); ("err_type", VInt 0)]
  [p_int 1 "version"; p_int 1 "type"; p_placeholder; p_int 4 "xid"; p_int 2 "err_type"]
  (t_len 2) (Some (2, 8))
  [15 ⇒ "message.async_config_failed_error_msg"; 2 ⇒ "message.bad_action_error_msg";
   3 ⇒ "message.bad_instruction_error_msg"; 4 ⇒ "message.bad_match_error_msg";
   14 ⇒ "message.bad_property_error_msg"; 1 ⇒ "message.bad_request_error_msg";
   65535 ⇒ "message.experimenter_error_msg"; 17 ⇒ "message.bundle_failed_error_msg";
   5 ⇒ "message.flow_mod_failed_error_msg"; 16 ⇒ "message.flow_monitor_failed_error_msg";
   6 ⇒ "message.group_mod_failed_error_msg"; 0 ⇒ "message.hello_failed_error_msg";
   12 ⇒ "message.meter_mod_failed_error_msg"; 7 ⇒ "message.port_mod_failed_error_msg";
   9 ⇒ "message.queue_op_failed_error_msg"; 11 ⇒ "message.role_request_failed_error_msg";
   10 ⇒ "message.switch_config_failed_error_msg"; 13 ⇒ "message.table_features_failed_error_msg";
   8 ⇒ "message.table_mod_failed_error_msg"]
  [u_check 1 5; u_check 1 1; u_slice 4; u_int 4 "xid"; u_int 2 "err_type"]
  false
  ["xid"; "err_type"]
  [q_hex_or_none "xid"].

Definition async_config_failed_error_msg : cls := mk_cls "message.async_config_failed_error_msg"
  ["version" ↦ 5; "type" ↦ 1; "err_type" ↦ 15]
  [("xid", VNone); ("code", VInt 0); ("data", VStr [])]
  [p_int 1 "version"; p_int 1 "type"; p_placeholder; p_int 4 "xid"; p_int 2 "err_type"; p_int 2 "code";
   p_raw "data"]
  (t_len 2) None []
  [u_check 1 5; u_check 1 1; u_slice 4; u_int 4 "xid"; u_check 2 15; u_int 2 "code"; u_rest "data"]
  false
  ["xid"; "code"; "data"]
  [q_hex_or_none "xid"; q_hex "code"; q_pp "data"].

Definition async_get_reply : cls := mk_cls "message.async_get_reply"
  ["version" ↦ 5; "type" ↦ 27]
  [("xid", VNone); ("properties", VList [])]
  [p_int 1 "version"; p_int 1 "type"; p_placeholder; p_int 4 "xid"; p_list "properties"]
  (t_len 2) None []
  [u_check 1 5; u_check 1 27; u_slice 4; u_int 4 "xid";
   u_list "properties" "async_config_prop.async_config_prop"]
  false
  ["xid"; "properties"]
  [q_hex_or_none "xid"; q_pp "properties"].

Definition async_get_request : cls := mk_cls "message.async_get_request"
  ["version" ↦ 5; "type" ↦ 26]
  [("xid", VNone)]
  [p_int 1 "version"; p_int 1 "type"; p_placeholder; p_int 4 "xid"]
  (t_len 2) None []
  [u_check 1 5; u_check 1 26; u_slice 4; u_int 4 "xid"]
  false
  ["xid"]
  [q_hex_or_none "xid"].

Definition async_set : cls := mk_cls "message.async_set"
  ["version" ↦ 5; "type" ↦ 28]
  [("xid", VNone); ("properties", VList [])]
  [p_int 1 "version"; p_int 1 "type"; p_placeholder; p_int 4 "xid"; p_list "properties"]
  (t_len 2) None []
  [u_check 1 5; u_check 1 28; u_slice 4; u_int 4 "xid";
   u_list "properties" "async_config_prop.async_config_prop"]
  false
  ["xid"; "properties"]
  [q_hex_or_none "xid"; q_pp "properties"].

Definition bad_action_error_msg : cls := mk_cls "message.bad_action_error_msg"
  ["version" ↦ 5; "type" ↦ 1; "err_type" ↦ 2]
  [("xid", VNone); ("code", VInt 0); ("data", VStr [])]
  [p_int 1 "version"; p_int 1 "type"; p_placeholder; p_int 4 "xid"; p_int 2 "err_type"; p_int 2 "code";
   p_raw "data"]
  (t_len 2) None []
  [u_check 1 5; u_check 1 1; u_slice 4; u_int 4 "xid"; u_check 2 2; u_int 2 "code"; u_rest "data"]
  false
  ["xid"; "code"; "data"]
  [q_hex_or_none "xid"; q_hex "code"; q_pp "data"].

Definition bad_instruction_error_msg : cls := mk_cls "message.bad_instruction_error_msg"
  ["version" ↦ 5; "type" ↦ 1; "err_type" ↦ 3]
  [("xid", VNone); ("code", VInt 0); ("data", VStr [])]
  [p_int 1 "version"; p_int 1 "type"; p_placeholder; p_int 4 "xid"; p_int 2 "err_type"; p_int 2 "code";
   p_raw "data"]
  (t_len 2) None []
  [u_check 1 5; u_check 1 1; u_slice 4; u_int 4 "xid"; u_check 2 3; u_int 2 "code"; u_rest "data"]
  false
  ["xid"; "code"; "data"]
  [q_hex_or_none "xid"; q_hex "code"; q_pp "data"].

Definition bad_match_error_msg : cls := mk_cls "message.bad_match_error_msg"
  ["version" ↦ 5; "type" ↦ 1; "err_type" ↦ 4]
  [("xid", VNone); ("code", VInt 0); ("data", VStr [])]
  [p_int 1 "version"; p_int 1 "type"; p_placeholder; p_int 4 "xid"; p_int 2 "err_type"; p_int 2 "code";
   p_raw "data"]
  (t_len 2) None []
  [u_check 1 5; u_check 1 1; u_slice 4; u_int 4 "xid"; u_check 2 4; u_int 2 "code"; u_rest "data"]
  false
  ["xid"; "code"; "data"]
  [q_hex_or_none "xid"; q_hex "code"; q_pp "data"].

Definition bad_property_error_msg : cls := mk_cls "message.bad_property_error_msg"
  ["version" ↦ 5; "type" ↦ 1; "err_type" ↦ 14]
  [("xid", VNone); ("code", VInt 0); ("data", VStr [])]
  [p_int 1 "version"; p_int 1 "type"; p_placeholder; p_int 4 "xid"; p_int 2 "err_type"; p_int 2 "code";
   p_raw "data"]
  (t_len 2) None []
  [u_check 1 5; u_check 1 1; u_slice 4; u_int 4 "xid"; u_check 2 14; u_int 2 "code"; u_rest "data"]
  false
  ["xid"; "code"; "data"]
  [q_hex_or_none "xid"; q_hex "code"; q_pp "data"].

Definition bad_request_error_msg : cls := mk_cls "message.bad_request_error_msg"
  ["version" ↦ 5; "type" ↦ 1; "err_type" ↦ 1]
  [("xid", VNone); ("code", VInt 0); ("data", VStr [])]
  [p_int 1 "version"; p_int 1 "type"; p_placeholder; p_int 4 "xid"; p_int 2 "err_type"; p_int 2 "code";
   p_raw "data"]
  (t_len 2) None []
  [u_check 1 5; u_check 1 1; u_slice 4; u_int 4 "xid"; u_check 2 1; u_int 2 "code"; u_rest "data"]
  false
  ["xid"; "code"; "data"]
  [q_hex_or_none "xid"; q_hex "code"; q_pp "data"].

Definition barrier_reply : cls := mk_cls "message.barrier_reply"
  ["version" ↦ 5; "type" ↦ 21]
  [("xid", VNone)]
  [p_int 1 "version"; p_int 1 "type"; p_placeholder; p_int 4 "xid"]
  (t_len 2) None []
  [u_check 1 5; u_check 1 21; u_slice 4; u_int 4 "xid"]
  false
  ["xid"]
  [q_hex_or_none "xid"].

Definition barrier_request : cls := mk_cls "message.barrier_request"
  ["version" ↦ 5; "type" ↦ 20]
  [("xid", VNone)]
  [p_int 1 "version"; p_int 1 "type"; p_placeholder; p_int 4 "xid"]
  (t_len 2) None []
  [u_check 1 5; u_check 1 20; u_slice 4; u_int 4 "xid"]
  false
  ["xid"]
  [q_hex_or_none "xid"].

Definition experimenter : cls := mk_cls "message.experimenter"
  ["version" ↦ 5; "type" ↦ 4]
  [("xid", VNone); ("experimenter", VInt 0); ("subtype", VInt 0); ("data", VStr [])]
  [p_int 1 "version"; p_int 1 "type"; p_placeholder; p_int 4 "xid"; p_int 4 "experimenter";
   p_int 4 "subtype"; p_raw "data"]
  (t_len 2) (Some (4, 8))
  [6035143 ⇒ "message.bsn_header"; 8992 ⇒ "message.nicira_header"]
  [u_check 1 5; u_check 1 4; u_slice 4; u_int 4 "xid"; u_int 4 "experimenter"; u_int 4 "subtype";
   u_rest "data"]
  false
  ["xid"; "experimenter"; "subtype"; "data"]
  [q_hex_or_none "xid"; q_hex "subtype"; q_pp "data"].

Definition bsn_header : cls := mk_cls "message.bsn_header"
  ["version" ↦ 5; "type" ↦ 4; "experimenter" ↦ 6035143]
  [("xid", VNone); ("subtype", VInt 0)]
  [p_int 1 "version"; p_int 1 "type"; p_placeholder; p_int 4 "xid"; p_int 4 "experimenter";
   p_int 4 "subtype"]
  (t_len 2) (Some (4, 12))
  [60 ⇒ "message.bsn_arp_idle"; 22 ⇒ "message.bsn_bw_clear_data_reply";
   21 ⇒ "message.bsn_bw_clear_data_request"; 20 ⇒ "message.bsn_bw_enable_get_reply";
   19 ⇒ "message.bsn_bw_enable_get_request"; 23 ⇒ "message.bsn_bw_enable_set_reply";
   18 ⇒ "message.bsn_bw_enable_set_request"; 57 ⇒ "message.bsn_controller_connections_reply";
   56 ⇒ "message.bsn_controller_connections_request"; 40 ⇒ "message.bsn_flow_idle";
   39 ⇒ "message.bsn_flow_idle_enable_get_reply"; 38 ⇒ "message.bsn_flow_idle_enable_get_request";
   37 ⇒ "message.bsn_flow_idle_enable_set_reply"; 36 ⇒ "message.bsn_flow_idle_enable_set_request";
   68 ⇒ "message.bsn_generic_async"; 71 ⇒ "message.bsn_generic_command";
   49 ⇒ "message.bsn_gentable_clear_reply"; 48 ⇒ "message.bsn_gentable_clear_request";
   46 ⇒ "message.bsn_gentable_entry_add"; 47 ⇒ "message.bsn_gentable_entry_delete";
   50 ⇒ "message.bsn_gentable_set_buckets_size"; 10 ⇒ "message.bsn_get_interfaces_reply";
   9 ⇒ "message.bsn_get_interfaces_request"; 5 ⇒ "message.bsn_get_mirroring_reply";
   4 ⇒ "message.bsn_get_mirroring_request"; 52 ⇒ "message.bsn_get_switch_pipeline_reply";
   51 ⇒ "message.bsn_get_switch_pipeline_request"; 43 ⇒ "message.bsn_lacp_convergence_notif";
   63 ⇒ "message.bsn_log"; 66 ⇒ "message.bsn_lua_command_reply"; 65 ⇒ "message.bsn_lua_command_request";
   67 ⇒ "message.bsn_lua_notification"; 64 ⇒ "message.bsn_lua_upload"; 34 ⇒ "message.bsn_pdu_rx_reply";
   33 ⇒ "message.bsn_pdu_rx_request"; 35 ⇒ "message.bsn_pdu_rx_timeout"; 32 ⇒ "message.bsn_pdu_tx_reply";
   31 ⇒ "message.bsn_pdu_tx_request"; 59 ⇒ "message.bsn_set_aux_cxns_reply";
   58 ⇒ "message.bsn_set_aux_cxns_request"; 42 ⇒ "message.bsn_set_lacp_reply";
   41 ⇒ "message.bsn_set_lacp_request"; 3 ⇒ "message.bsn_set_mirroring";
   25 ⇒ "message.bsn_set_pktin_suppression_reply"; 11 ⇒ "message.bsn_set_pktin_suppression_request";
   54 ⇒ "message.bsn_set_switch_pipeline_reply"; 53 ⇒ "message.bsn_set_switch_pipeline_request";
   61 ⇒ "message.bsn_table_set_buckets_size"; 69 ⇒ "message.bsn_takeover"; 45 ⇒ "message.bsn_time_reply";
   44 ⇒ "message.bsn_time_request"; 16 ⇒ "message.bsn_virtual_port_create_reply";
   15 ⇒ "message.bsn_virtual_port_create_request"; 26 ⇒ "message.bsn_virtual_port_remove_reply";
   17 ⇒ "message.bsn_virtual_port_remove_request"; 70 ⇒ "message.bsn_vlan_counter_clear"]
  [u_check 1 5; u_check 1 4; u_slice 4; u_int 4 "xid"; u_check 4 6035143; u_int 4 "subtype"]
  false
  ["xid"; "subtype"]
  [q_hex_or_none "xid"].

Definition bsn_arp_idle : cls := mk_cls "message.bsn_arp_idle"
  ["version" ↦ 5; "type" ↦ 4; "experimenter" ↦ 6035143; "subtype" ↦ 60]
  [("xid", VNone); ("vlan_vid", VInt 0); ("ipv4_addr", VInt 0)]
  [p_int 1 "version"; p_int 1 "type"; p_placeholder; p_int 4 "xid"; p_int 4 "experimenter";
   p_int 4 "subtype"; p_int 2 "vlan_vid"; p_zeros 2; p_int 4 "ipv4_addr"]
  (t_len 2) None []
  [u_check 1 5; u_check 1 4; u_slice 4; u_int 4 "xid"; u_check 4 6035143; u_check 4 60;
   u_int 2 "vlan_vid"; u_skip 2; u_int 4 "ipv4_addr"]
  false
  ["xid"; "vlan_vid"; "ipv4_addr"]
  [q_hex_or_none "xid"; q_hex "vlan_vid"; q_ipv4 "ipv4_addr"].

Definition experimenter_error_msg : cls := mk_cls "message.experimenter_error_msg"
  ["version" ↦ 5; "type" ↦ 1; "err_type" ↦ 65535]
  [("xid", VNone); ("subtype", VInt 0); ("experimenter", VInt 0); ("data", VStr [])]
  [p_int 1 "version"; p_int 1 "type"; p_placeholder; p_int 4 "xid"; p_int 2 "err_type"; p_int 2 "subtype";
   p_int 4 "experimenter"; p_raw "data"]
  (t_len 2) (Some (4, 12))
  [6035143 ⇒ "message.bsn_base_error"]
  [u_check 1 5; u_check 1 1; u_slice 4; u_int 4 "xid"; u_check 2 65535; u_int 2 "subtype";
   u_int 4 "experimenter"; u_rest "data"]
  false
  ["xid"; "subtype"; "experimenter"; "data"]
  [q_hex_or_none "xid"; q_hex "subtype"; q_pp "data"].

Definition bsn_base_error : cls := mk_cls "message.bsn_base_error"
  ["version" ↦ 5; "type" ↦ 1; "err_type" ↦ 65535; "experimenter" ↦ 6035143]
  [("xid", VNone); ("subtype", VInt 0); ("err_msg", VStr []); ("data", VStr [])]
  [p_int 1 "version"; p_int 1 "type"; p_placeholder; p_int 4 "xid"; p_int 2 "err_type"; p_int 2 "subtype";
   p_int 4 "experimenter"; p_str 256 "err_msg"; p_raw "data"]
  (t_len 2) (Some (2, 10))
  [1 ⇒ "message.bsn_error"]
  [u_check 1 5; u_check 1 1; u_slice 4; u_int 4 "xid"; u_check 2 65535; u_int 2 "subtype";
   u_check 4 6035143; u_str 256 true "err_msg"; u_rest "data"]
  false
  ["xid"; "subtype"; "err_msg"; "data"]
  [q_hex_or_none "xid"; q_pp "err_msg"; q_pp "data"].

Definition bsn_bw_clear_data_reply : cls := mk_cls "message.bsn_bw_clear_data_reply"
  ["version" ↦ 5; "type" ↦ 4; "experimenter" ↦ 6035143; "subtype" ↦ 22]
  [("xid", VNone); ("status", VInt 0)]
  [p_int 1 "version"; p_int 1 "type"; p_placeholder; p_int 4 "xid"; p_int 4 "experimenter";
   p_int 4 "subtype"; p_int 4 "status"]
  (t_len 2) None []
  [u_check 1 5; u_check 1 4; u_slice 4; u_int 4 "xid"; u_check 4 6035143; u_check 4 22; u_int 4 "status"]
  false
  ["xid"; "status"]
  [q_hex_or_none "xid"; q_hex "status"].

Definition bsn_bw_clear_data_request : cls := mk_cls "message.bsn_bw_clear_data_request"
  ["version" ↦ 5; "type" ↦ 4; "experimenter" ↦ 6035143; "subtype" ↦ 21]
  [("xid", VNone)]
  [p_int 1 "version"; p_int 1 "type"; p_placeholder; p_int 4 "xid"; p_int 4 "experimenter";
   p_int 4 "subtype"]
  (t_len 2) None []
  [u_check 1 5; u_check 1 4; u_slice 4; u_int 4 "xid"; u_check 4 6035143; u_check 4 21]
  false
  ["xid"]
  [q_hex_or_none "xid"].

Definition bsn_bw_enable_get_reply : cls := mk_cls "message.bsn_bw_enable_get_reply"
  ["version" ↦ 5; "type" ↦ 4; "experimenter" ↦ 6035143; "subtype" ↦ 20]
  [("xid", VNone); ("enabled", VInt 0)]
  [p_int 1 "version"; p_int 1 "type"; p_placeholder; p_int 4 "xid"; p_int 4 "experimenter";
   p_int 4 "subtype"; p_int 4 "enabled"]
  (t_len 2) None []
  [u_check 1 5; u_check 1 4; u_slice 4; u_int 4 "xid"; u_check 4 6035143; u_check 4 20; u_int 4 "enabled"]
  false
  ["xid"; "enabled"]
  [q_hex_or_none "xid"; q_hex "enabled"].

Definition bsn_bw_enable_get_request : cls := mk_cls "message.bsn_bw_enable_get_request"
  ["version" ↦ 5; "type" ↦ 4; "experimenter" ↦ 6035143; "subtype" ↦ 19]
  [("xid", VNone)]
  [p_int 1 "version"; p_int 1 "type"; p_placeholder; p_int 4 "xid"; p_int 4 "experimenter";
   p_int 4 "subtype"]
  (t_len 2) None []
  [u_check 1 5; u_check 1 4; u_slice 4; u_int 4 "xid"; u_check 4 6035143; u_check 4 19]
  false
  ["xid"]
  [q_hex_or_none "xid"].

Definition bsn_bw_enable_set_reply : cls := mk_cls "message.bsn_bw_enable_set_reply"
  ["version" ↦ 5; "type" ↦ 4; "experimenter" ↦ 6035143; "subtype" ↦ 23]
  [("xid", VNone); ("enable", VInt 0); ("status", VInt 0)]
  [p_int 1 "version"; p_int 1 "type"; p_placeholder; p_int 4 "xid"; p_int 4 "experimenter";
   p_int 4 "subtype"; p_int 4 "enable"; p_int 4 "status"]
  (t_len 2) None []
  [u_check 1 5; u_check 1 4; u_slice 4; u_int 4 "xid"; u_check 4 6035143; u_check 4 23; u_int 4 "enable";
   u_int 4 "status"]
  false
  ["xid"; "enable"; "status"]
  [q_hex_or_none "xid"; q_hex "enable"; q_hex "status"].

Definition bsn_bw_enable_set_request : cls := mk_cls "message.bsn_bw_enable_set_request"
  ["version" ↦ 5; "type" ↦ 4; "experimenter" ↦ 6035143; "subtype" ↦ 18]
  [("xid", VNone); ("enable", VInt 0)]
  [p_int 1 "version"; p_int 1 "type"; p_placeholder; p_int 4 "xid"; p_int 4 "experimenter";
   p_int 4 "subtype"; p_int 4 "enable"]
  (t_len 2) None []
  [u_check 1 5; u_check 1 4; u_slice 4; u_int 4 "xid"; u_check 4 6035143; u_check 4 18; u_int 4 "enable"]
  false
  ["xid"; "enable"]
  [q_hex_or_none "xid"; q_hex "enable"].

Definition bsn_controller_connections_reply : cls := mk_cls "message.bsn_controller_connections_reply"
  ["version" ↦ 5; "type" ↦ 4; "experimenter" ↦ 6035143; "subtype" ↦ 57]
  [("xid", VNone); ("connections", VList [])]
  [p_int 1 "version"; p_int 1 "type"; p_placeholder; p_int 4 "xid"; p_int 4 "experimenter";
   p_int 4 "subtype"; p_list "connections"]
  (t_len 2) None []
  [u_check 1 5; u_check 1 4; u_slice 4; u_int 4 "xid"; u_check 4 6035143; u_check 4 57;
   u_list "connections" "common.bsn_controller_connection"]
  false
  ["xid"; "connections"]
  [q_hex_or_none "xid"; q_pp "connections"].

Definition bsn_controller_connections_request : cls := mk_cls "message.bsn_controller_connections_request"
  ["version" ↦ 5; "type" ↦ 4; "experimenter" ↦ 6035143; "subtype" ↦ 56]
  [("xid", VNone)]
  [p_int 1 "version"; p_int 1 "type"; p_placeholder; p_int 4 "xid"; p_int 4 "experimenter";
   p_int 4 "subtype"]
  (t_len 2) None []
  [u_check 1 5; u_check 1 4; u_slice 4; u_int 4 "xid"; u_check 4 6035143; u_check 4 56]
  false
  ["xid"]
  [q_hex_or_none "xid"].

Definition experimenter_stats_reply : cls := mk_cls "message.experimenter_stats_reply"
  ["version" ↦ 5; "type" ↦ 19; "stats_type" ↦ 65535]
  [("xid", VNone); ("flags", VInt 0); ("experimenter", VInt 0); ("subtype", VInt 0)]
  [p_int 1 "version"; p_int 1 "type"; p_placeholder; p_int 4 "xid"; p_int 2 "stats_type"; p_int 2 "flags";
   p_zeros 4; p_int 4 "experimenter"; p_int 4 "subtype"]
  (t_len 2) (Some (4, 16))
  [6035143 ⇒ "message.bsn_stats_reply"]
  [u_check 1 5; u_check 1 19; u_slice 4; u_int 4 "xid"; u_check 2 65535; u_int 2 "flags"; u_skip 4;
   u_int 4 "experimenter"; u_int 4 "subtype"]
  false
  ["xid"; "flags"; "experimenter"; "subtype"]
  [q_hex_or_none "xid"; q_hex "flags"; q_hex "subtype"].

Definition bsn_stats_reply : cls := mk_cls "message.bsn_stats_reply"
  ["version" ↦ 5; "type" ↦ 19; "stats_type" ↦ 65535; "experimenter" ↦ 6035143]
  [("xid", VNone); ("flags", VInt 0); ("subtype", VInt 0)]
  [p_int 1 "version"; p_int 1 "type"; p_placeholder; p_int 4 "xid"; p_int 2 "stats_type"; p_int 2 "flags";
   p_zeros 4; p_int 4 "experimenter"; p_int 4 "subtype"]
  (t_len 2) (Some (4, 20))
  [13 ⇒ "message.bsn_debug_counter_desc_stats_reply"; 12 ⇒ "message.bsn_debug_counter_stats_reply";
   10 ⇒ "message.bsn_flow_checksum_bucket_stats_reply"; 16 ⇒ "message.bsn_generic_stats_reply";
   5 ⇒ "message.bsn_gentable_bucket_stats_reply"; 4 ⇒ "message.bsn_gentable_desc_stats_reply";
   2 ⇒ "message.bsn_gentable_entry_desc_stats_reply"; 3 ⇒ "message.bsn_gentable_entry_stats_reply";
   7 ⇒ "message.bsn_gentable_stats_reply"; 14 ⇒ "message.bsn_image_desc_stats_reply";
   1 ⇒ "message.bsn_lacp_stats_reply"; 8 ⇒ "message.bsn_port_counter_stats_reply";
   6 ⇒ "message.bsn_switch_pipeline_stats_reply"; 11 ⇒ "message.bsn_table_checksum_stats_reply";
   9 ⇒ "message.bsn_vlan_counter_stats_reply"; 15 ⇒ "message.bsn_vrf_counter_stats_reply"]
  [u_check 1 5; u_check 1 19; u_slice 4; u_int 4 "xid"; u_check 2 65535; u_int 2 "flags"; u_skip 4;
   u_check 4 6035143; u_int 4 "subtype"]
  false
  ["xid"; "flags"; "subtype"]
  [q_hex_or_none "xid"; q_hex "flags"].

Definition bsn_debug_counter_desc_stats_reply : cls := mk_cls "message.bsn_debug_counter_desc_stats_reply"
  ["version" ↦ 5; "type" ↦ 19; "stats_type" ↦ 65535; "experimenter" ↦ 6035143; "subtype" ↦ 13]
  [("xid", VNone); ("flags", VInt 0); ("entries", VList [])]
  [p_int 1 "version"; p_int 1 "type"; p_placeholder; p_int 4 "xid"; p_int 2 "stats_type"; p_int 2 "flags";
   p_zeros 4; p_int 4 "experimenter"; p_int 4 "subtype"; p_list "entries"]
  (t_len 2) None []
  [u_check 1 5; u_check 1 19; u_slice 4; u_int 4 "xid"; u_check 2 65535; u_int 2 "flags"; u_skip 4;
   u_check 4 6035143; u_check 4 13; u_list "entries" "common.bsn_debug_counter_desc_stats_entry"]
  false
  ["xid"; "flags"; "entries"]
  [q_hex_or_none "xid"; q_hex "flags"; q_pp "entries"].

Definition experimenter_stats_request : cls := mk_cls "message.experimenter_stats_request"
  ["version" ↦ 5; "type" ↦ 18; "stats_type" ↦ 65535]
  [("xid", VNone); ("flags", VInt 0); ("experimenter", VInt 0); ("subtype", VInt 0)]
  [p_int 1 "version"; p_int 1 "type"; p_placeholder; p_int 4 "xid"; p_int 2 "stats_type"; p_int 2 "flags";
   p_zeros 4; p_int 4 "experimenter"; p_int 4 "subtype"]
  (t_len 2) (Some (4, 16))
  [6035143 ⇒ "message.bsn_stats_request"]
  [u_check 1 5; u_check 1 18; u_slice 4; u_int 4 "xid"; u_check 2 65535; u_int 2 "flags"; u_skip 4;
   u_int 4 "experimenter"; u_int 4 "subtype"]
  false
  ["xid"; "flags"; "experimenter"; "subtype"]
  [q_hex_or_none "xid"; q_hex "flags"; q_hex "subtype"].

Definition bsn_stats_request : cls := mk_cls "message.bsn_stats_request"
  ["version" ↦ 5; "type" ↦ 18; "stats_type" ↦ 65535; "experimenter" ↦ 6035143]
  [("xid", VNone); ("flags", VInt 0); ("subtype", VInt 0)]
  [p_int 1 "version"; p_int 1 "type"; p_placeholder; p_int 4 "xid"; p_int 2 "stats_type"; p_int 2 "flags";
   p_zeros 4; p_int 4 "experimenter"; p_int 4 "subtype"]
  (t_len 2) (Some (4, 20))
  [13 ⇒ "message.bsn_debug_counter_desc_stats_request"; 12 ⇒ "message.bsn_debug_counter_stats_request";
   10 ⇒ "message.bsn_flow_checksum_bucket_stats_request"; 16 ⇒ "message.bsn_generic_stats_request";
   5 ⇒ "message.bsn_gentable_bucket_stats_request"; 4 ⇒ "message.bsn_gentable_desc_stats_request";
   2 ⇒ "message.bsn_gentable_entry_desc_stats_request"; 3 ⇒ "message.bsn_gentable_entry_stats_request";
   7 ⇒ "message.bsn_gentable_stats_request"; 14 ⇒ "message.bsn_image_desc_stats_request";
   1 ⇒ "message.bsn_lacp_stats_request"; 8 ⇒ "message.bsn_port_counter_stats_request";
   6 ⇒ "message.bsn_switch_pipeline_stats_request"; 11 ⇒ "message.bsn_table_checksum_stats_request";
   9 ⇒ "message.bsn_vlan_counter_stats_request"; 15 ⇒ "message.bsn_vrf_counter_stats_request"]
  [u_check 1 5; u_check 1 18; u_slice 4; u_int 4 "xid"; u_check 2 65535; u_int 2 "flags"; u_skip 4;
   u_check 4 6035143; u_int 4 "subtype"]
  false
  ["xid"; "flags"; "subtype"]
  [q_hex_or_none "xid"; q_hex "flags"].

Definition bsn_debug_counter_desc_stats_request : cls := mk_cls "message.bsn_debug_counter_desc_stats_request"
  ["version" ↦ 5; "type" ↦ 18; "stats_type" ↦ 65535; "experimenter" ↦ 6035143; "subtype" ↦ 13]
  [("xid", VNone); ("flags", VInt 0)]
  [p_int 1 "version"; p_int 1 "type"; p_placeholder; p_int 4 "xid"; p_int 2 "stats_type"; p_int 2 "flags";
   p_zeros 4; p_int 4 "experimenter"; p_int 4 "subtype"]
  (t_len 2) None []
  [u_check 1 5; u_check 1 18; u_slice 4; u_int 4 "xid"; u_check 2 65535; u_int 2 "flags"; u_skip 4;
   u_check 4 6035143; u_check 4 13]
  false
  ["xid"; "flags"]
  [q_hex_or_none "xid"; q_hex "flags"].

Definition bsn_debug_counter_stats_reply : cls := mk_cls "message.bsn_debug_counter_stats_reply"
  ["version" ↦ 5; "type" ↦ 19; "stats_type" ↦ 65535; "experimenter" ↦ 6035143; "subtype" ↦ 12]
  [("xid", VNone); ("flags", VInt 0); ("entries", VList [])]
  [p_int 1 "version"; p_int 1 "type"; p_placeholder; p_int 4 "xid"; p_int 2 "stats_type"; p_int 2 "flags";
   p_zeros 4; p_int 4 "experimenter"; p_int 4 "subtype"; p_list "entries"]
  (t_len 2) None []
  [u_check 1 5; u_check 1 19; u_slice 4; u_int 4 "xid"; u_check 2 65535; u_int 2 "flags"; u_skip 4;
   u_check 4 6035143; u_check 4 12; u_list "entries" "common.bsn_debug_counter_stats_entry"]
  false
  ["xid"; "flags"; "entries"]
  [q_hex_or_none "xid"; q_hex "flags"; q_pp "entries"].

Definition bsn_debug_counter_stats_request : cls := mk_cls "message.bsn_debug_counter_stats_request"
  ["version" ↦ 5; "type" ↦ 18; "stats_type" ↦ 65535; "experimenter" ↦ 6035143; "subtype" ↦ 12]
  [("xid", VNone); ("flags", VInt 0)]
  [p_int 1 "version"; p_int 1 "type"; p_placeholder; p_int 4 "xid"; p_int 2 "stats_type"; p_int 2 "flags";
   p_zeros 4; p_int 4 "experimenter"; p_int 4 "subtype"]
  (t_len 2) None []
  [u_check 1 5; u_check 1 18; u_slice 4; u_int 4 "xid"; u_check 2 65535; u_int 2 "flags"; u_skip 4;
   u_check 4 6035143; u_check 4 12]
  false
  ["xid"; "flags"]
  [q_hex_or_none "xid"; q_hex "flags"].

Definition bsn_error : cls := mk_cls "message.bsn_error"
  ["version" ↦ 5; "type" ↦ 1; "err_type" ↦ 65535; "subtype" ↦ 1; "experimenter" ↦ 6035143]
  [("xid", VNone); ("err_msg", VStr []); ("data", VStr [])]
  [p_int 1 "version"; p_int 1 "type"; p_placeholder; p_int 4 "xid"; p_int 2 "err_type"; p_int 2 "subtype";
   p_int 4 "experimenter"; p_str 256 "err_msg"; p_raw "data"]
  (t_len 2) None []
  [u_check 1 5; u_check 1 1; u_slice 4; u_int 4 "xid"; u_check 2 65535; u_check 2 1; u_check 4 6035143;
   u_str 256 true "err_msg"; u_rest "data"]
  false
  ["xid"; "err_msg"; "data"]
  [q_hex_or_none "xid"; q_pp "err_msg"; q_pp "data"].

Definition bsn_flow_checksum_bucket_stats_reply : cls := mk_cls "message.bsn_flow_checksum_bucket_stats_reply"
  ["version" ↦ 5; "type" ↦ 19; "stats_type" ↦ 65535; "experimenter" ↦ 6035143; "subtype" ↦ 10]
  [("xid", VNone); ("flags", VInt 0); ("entries", VList [])]
  [p_int 1 "version"; p_int 1 "type"; p_placeholder; p_int 4 "xid"; p_int 2 "stats_type"; p_int 2 "flags";
   p_zeros 4; p_int 4 "experimenter"; p_int 4 "subtype"; p_list "entries"]
  (t_len 2) None []
  [u_check 1 5; u_check 1 19; u_slice 4; u_int 4 "xid"; u_check 2 65535; u_int 2 "flags"; u_skip 4;
   u_check 4 6035143; u_check 4 10; u_list "entries" "common.bsn_flow_checksum_bucket_stats_entry"]
  false
  ["xid"; "flags"; "entries"]
  [q_hex_or_none "xid"; q_hex "flags"; q_pp "entries"].

Definition bsn_flow_checksum_bucket_stats_request : cls := mk_cls "message.bsn_flow_checksum_bucket_stats_request"
  ["version" ↦ 5; "type" ↦ 18; "stats_type" ↦ 65535; "experimenter" ↦ 6035143; "subtype" ↦ 10]
  [("xid", VNone); ("flags", VInt 0); ("table_id", VInt 0)]
  [p_int 1 "version"; p_int 1 "type"; p_placeholder; p_int 4 "xid"; p_int 2 "stats_type"; p_int 2 "flags";
   p_zeros 4; p_int 4 "experimenter"; p_int 4 "subtype"; p_int 1 "table_id"]
  (t_len 2) None []
  [u_check 1 5; u_check 1 18; u_slice 4; u_int 4 "xid"; u_check 2 65535; u_int 2 "flags"; u_skip 4;
   u_check 4 6035143; u_check 4 10; u_int 1 "table_id"]
  false
  ["xid"; "flags"; "table_id"]
  [q_hex_or_none "xid"; q_hex "flags"; q_hex "table_id"].

Definition bsn_flow_idle : cls := mk_cls "message.bsn_flow_idle"
  ["version" ↦ 5; "type" ↦ 4; "experimenter" ↦ 6035143; "subtype" ↦ 40]
  [("xid", VNone); ("cookie", VInt 0); ("priority", VInt 0); ("table_id", VInt 0);
   ("match", new_object Common.match_v3)]
  [p_int 1 "version"; p_int 1 "type"; p_placeholder; p_int 4 "xid"; p_int 4 "experimenter";
   p_int 4 "subtype"; p_int 8 "cookie"; p_int 2 "priority"; p_int 1 "table_id"; p_zeros 5; p_obj "match"]
  (t_len 2) None []
  [u_check 1 5; u_check 1 4; u_slice 4; u_int 4 "xid"; u_check 4 6035143; u_check 4 40; u_int 8 "cookie";
   u_int 2 "priority"; u_int 1 "table_id"; u_skip 5; u_obj "match" "common.match_v3"]
  false
  ["xid"; "cookie"; "priority"; "table_id"; "match"]
  [q_hex_or_none "xid"; q_hex "cookie"; q_hex "priority"; q_hex "table_id"; q_pp "match"].

Definition bsn_flow_idle_enable_get_reply : cls := mk_cls "message.bsn_flow_idle_enable_get_reply"
  ["version" ↦ 5; "type" ↦ 4; "experimenter" ↦ 6035143; "subtype" ↦ 39]
  [("xid", VNone); ("enabled", VInt 0)]
  [p_int 1 "version"; p_int 1 "type"; p_placeholder; p_int 4 "xid"; p_int 4 "experimenter";
   p_int 4 "subtype"; p_int 4 "enabled"]
  (t_len 2) None []
  [u_check 1 5; u_check 1 4; u_slice 4; u_int 4 "xid"; u_check 4 6035143; u_check 4 39; u_int 4 "enabled"]
  false
  ["xid"; "enabled"]
  [q_hex_or_none "xid"; q_hex "enabled"].

Definition bsn_flow_idle_enable_get_request : cls := mk_cls "message.bsn_flow_idle_enable_get_request"
  ["version" ↦ 5; "type" ↦ 4; "experimenter" ↦ 6035143; "subtype" ↦ 38]
  [("xid", VNone)]
  [p_int 1 "version"; p_int 1 "type"; p_placeholder; p_int 4 "xid"; p_int 4 "experimenter";
   p_int 4 "subtype"]
  (t_len 2) None []
  [u_check 1 5; u_check 1 4; u_slice 4; u_int 4 "xid"; u_check 4 6035143; u_check 4 38]
  false
  ["xid"]
  [q_hex_or_none "xid"].

Definition bsn_flow_idle_enable_set_reply : cls := mk_cls "message.bsn_flow_idle_enable_set_reply"
  ["version" ↦ 5; "type" ↦ 4; "experimenter" ↦ 6035143; "subtype" ↦ 37]
  [("xid", VNone); ("enable", VInt 0); ("status", VInt 0)]
  [p_int 1 "version"; p_int 1 "type"; p_placeholder; p_int 4 "xid"; p_int 4 "experimenter";
   p_int 4 "subtype"; p_int 4 "enable"; p_int 4 "status"]
  (t_len 2) None []
  [u_check 1 5; u_check 1 4; u_slice 4; u_int 4 "xid"; u_check 4 6035143; u_check 4 37; u_int 4 "enable";
   u_int 4 "status"]
  false
  ["xid"; "enable"; "status"]
  [q_hex_or_none "xid"; q_hex "enable"; q_hex "status"].

Definition bsn_flow_idle_enable_set_request : cls := mk_cls "message.bsn_flow_idle_enable_set_request"
  ["version" ↦ 5; "type" ↦ 4; "experimenter" ↦ 6035143; "subtype" ↦ 36]
  [("xid", VNone); ("enable", VInt 0)]
  [p_int 1 "version"; p_int 1 "type"; p_placeholder; p_int 4 "xid"; p_int 4 "experimenter";
   p_int 4 "subtype"; p_int 4 "enable"]
  (t_len 2) None []
  [u_check 1 5; u_check 1 4; u_slice 4; u_int 4 "xid"; u_check 4 6035143; u_check 4 36; u_int 4 "enable"]
  false
  ["xid"; "enable"]
  [q_hex_or_none "xid"; q_hex "enable"].

Definition bsn_generic_async : cls := mk_cls "message.bsn_generic_async"
  ["version" ↦ 5; "type" ↦ 4; "experimenter" ↦ 6035143; "subtype" ↦ 68]
  [("xid", VNone); ("name", VStr []); ("tlvs", VList [])]
  [p_int 1 "version"; p_int 1 "type"; p_placeholder; p_int 4 "xid"; p_int 4 "experimenter";
   p_int 4 "subtype"; p_str 64 "name"; p_list "tlvs"]
  (t_len 2) None []
  [u_check 1 5; u_check 1 4; u_slice 4; u_int 4 "xid"; u_check 4 6035143; u_check 4 68;
   u_str 64 true "name"; u_list "tlvs" "bsn_tlv.bsn_tlv"]
  false
  ["xid"; "name"; "tlvs"]
  [q_hex_or_none "xid"; q_pp "name"; q_pp "tlvs"].

Definition bsn_generic_command : cls := mk_cls "message.bsn_generic_command"
  ["version" ↦ 5; "type" ↦ 4; "experimenter" ↦ 6035143; "subtype" ↦ 71]
  [("xid", VNone); ("name", VStr []); ("tlvs", VList [])]
  [p_int 1 "version"; p_int 1 "type"; p_placeholder; p_int 4 "xid"; p_int 4 "experimenter";
   p_int 4 "subtype"; p_str 64 "name"; p_list "tlvs"]
  (t_len 2) None []
  [u_check 1 5; u_check 1 4; u_slice 4; u_int 4 "xid"; u_check 4 6035143; u_check 4 71;
   u_str 64 true "name"; u_list "tlvs" "bsn_tlv.bsn_tlv"]
  false
  ["xid"; "name"; "tlvs"]
  [q_hex_or_none "xid"; q_pp "name"; q_pp "tlvs"].

Definition bsn_generic_stats_reply : cls := mk_cls "message.bsn_generic_stats_reply"
  ["version" ↦ 5; "type" ↦ 19; "stats_type" ↦ 65535; "experimenter" ↦ 6035143; "subtype" ↦ 16]
  [("xid", VNone); ("flags", VInt 0); ("entries", VList [])]
  [p_int 1 "version"; p_int 1 "type"; p_placeholder; p_int 4 "xid"; p_int 2 "stats_type"; p_int 2 "flags";
   p_zeros 4; p_int 4 "experimenter"; p_int 4 "subtype"; p_list "entries"]
  (t_len 2) None []
  [u_check 1 5; u_check 1 19; u_slice 4; u_int 4 "xid"; u_check 2 65535; u_int 2 "flags"; u_skip 4;
   u_check 4 6035143; u_check 4 16; u_list "entries" "common.bsn_generic_stats_entry"]
  false
  ["xid"; "flags"; "entries"]
  [q_hex_or_none "xid"; q_hex "flags"; q_pp "entries"].

Definition bsn_generic_stats_request : cls := mk_cls "message.bsn_generic_stats_request"
  ["version" ↦ 5; "type" ↦ 18; "stats_type" ↦ 65535; "experimenter" ↦ 6035143; "subtype" ↦ 16]
  [("xid", VNone); ("flags", VInt 0); ("name", VStr []); ("tlvs", VList [])]
  [p_int 1 "version"; p_int 1 "type"; p_placeholder; p_int 4 "xid"; p_int 2 "stats_type"; p_int 2 "flags";
   p_zeros 4; p_int 4 "experimenter"; p_int 4 "subtype"; p_str 64 "name"; p_list "tlvs"]
  (t_len 2) None []
  [u_check 1 5; u_check 1 18; u_slice 4; u_int 4 "xid"; u_check 2 65535; u_int 2 "flags"; u_skip 4;
   u_check 4 6035143; u_check 4 16; u_str 64 true "name"; u_list "tlvs" "bsn_tlv.bsn_tlv"]
  false
  ["xid"; "flags"; "name"; "tlvs"]
  [q_hex_or_none "xid"; q_hex "flags"; q_pp "name"; q_pp "tlvs"].

Definition bsn_gentable_bucket_stats_reply : cls := mk_cls "message.bsn_gentable_bucket_stats_reply"
  ["version" ↦ 5; "type" ↦ 19; "stats_type" ↦ 65535; "experimenter" ↦ 6035143; "subtype" ↦ 5]
  [("xid", VNone); ("flags", VInt 0); ("entries", VList [])]
  [p_int 1 "version"; p_int 1 "type"; p_placeholder; p_int 4 "xid"; p_int 2 "stats_type"; p_int 2 "flags";
   p_zeros 4; p_int 4 "experimenter"; p_int 4 "subtype"; p_list "entries"]
  (t_len 2) None []
  [u_check 1 5; u_check 1 19; u_slice 4; u_int 4 "xid"; u_check 2 65535; u_int 2 "flags"; u_skip 4;
   u_check 4 6035143; u_check 4 5; u_list "entries" "common.bsn_gentable_bucket_stats_entry"]
  false
  ["xid"; "flags"; "entries"]
  [q_hex_or_none "xid"; q_hex "flags"; q_pp "entries"].

Definition bsn_gentable_bucket_stats_request : cls := mk_cls "message.bsn_gentable_bucket_stats_request"
  ["version" ↦ 5; "type" ↦ 18; "stats_type" ↦ 65535; "experimenter" ↦ 6035143; "subtype" ↦ 5]
  [("xid", VNone); ("flags", VInt 0); ("table_id", VInt 0)]
  [p_int 1 "version"; p_int 1 "type"; p_placeholder; p_int 4 "xid"; p_int 2 "stats_type"; p_int 2 "flags";
   p_zeros 4; p_int 4 "experimenter"; p_int 4 "subtype"; p_int 2 "table_id"]
  (t_len 2) None []
  [u_check 1 5; u_check 1 18; u_slice 4; u_int 4 "xid"; u_check 2 65535; u_int 2 "flags"; u_skip 4;
   u_check 4 6035143; u_check 4 5; u_int 2 "table_id"]
  false
  ["xid"; "flags"; "table_id"]
  [q_hex_or_none "xid"; q_hex "flags"; q_hex "table_id"].

Definition bsn_gentable_clear_reply : cls := mk_cls "message.bsn_gentable_clear_reply"
  ["version" ↦ 5; "type" ↦ 4; "experimenter" ↦ 6035143; "subtype" ↦ 49]
  [("xid", VNone); ("table_id", VInt 0); ("deleted_count", VInt 0); ("error_count", VInt 0)]
  [p_int 1 "version"; p_int 1 "type"; p_placeholder; p_int 4 "xid"; p_int 4 "experimenter";
   p_int 4 "subtype"; p_int 2 "table_id"; p_zeros 2; p_int 4 "deleted_count"; p_int 4 "error_count"]
  (t_len 2) None []
  [u_check 1 5; u_check 1 4; u_slice 4; u_int 4 "xid"; u_check 4 6035143; u_check 4 49;
   u_int 2 "table_id"; u_skip 2; u_int 4 "deleted_count"; u_int 4 "error_count"]
  false
  ["xid"; "table_id"; "deleted_count"; "error_count"]
  [q_hex_or_none "xid"; q_hex "table_id"; q_hex "deleted_count"; q_hex "error_count"].

Definition bsn_gentable_clear_request : cls := mk_cls "message.bsn_gentable_clear_request"
  ["version" ↦ 5; "type" ↦ 4; "experimenter" ↦ 6035143; "subtype" ↦ 48]
  [("xid", VNone); ("table_id", VInt 0); ("checksum", VInt 0); ("checksum_mask", VInt 0)]
  [p_int 1 "version"; p_int 1 "type"; p_placeholder; p_int 4 "xid"; p_int 4 "experimenter";
   p_int 4 "subtype"; p_int 2 "table_id"; p_zeros 2; p_checksum_128 "checksum";
   p_checksum_128 "checksum_mask"]
  (t_len 2) None []
  [u_check 1 5; u_check 1 4; u_slice 4; u_int 4 "xid"; u_check 4 6035143; u_check 4 48;
   u_int 2 "table_id"; u_skip 2; u_checksum_128 "checksum"; u_checksum_128 "checksum_mask"]
  false
  ["xid"; "table_id"; "checksum"; "checksum_mask"]
  [q_hex_or_none "xid"; q_hex "table_id"; q_pp "checksum"; q_pp "checksum_mask"].

Definition bsn_gentable_desc_stats_reply : cls := mk_cls "message.bsn_gentable_desc_stats_reply"
  ["version" ↦ 5; "type" ↦ 19; "stats_type" ↦ 65535; "experimenter" ↦ 6035143; "subtype" ↦ 4]
  [("xid", VNone); ("flags", VInt 0); ("entries", VList [])]
  [p_int 1 "version"; p_int 1 "type"; p_placeholder; p_int 4 "xid"; p_int 2 "stats_type"; p_int 2 "flags";
   p_zeros 4; p_int 4 "experimenter"; p_int 4 "subtype"; p_list "entries"]
  (t_len 2) None []
  [u_check 1 5; u_check 1 19; u_slice 4; u_int 4 "xid"; u_check 2 65535; u_int 2 "flags"; u_skip 4;
   u_check 4 6035143; u_check 4 4; u_list "entries" "common.bsn_gentable_desc_stats_entry"]
  false
  ["xid"; "flags"; "entries"]
  [q_hex_or_none "xid"; q_hex "flags"; q_pp "entries"].

Definition bsn_gentable_desc_stats_request : cls := mk_cls "message.bsn_gentable_desc_stats_request"
  ["version" ↦ 5; "type" ↦ 18; "stats_type" ↦ 65535; "experimenter" ↦ 6035143; "subtype" ↦ 4]
  [("xid", VNone); ("flags", VInt 0)]
  [p_int 1 "version"; p_int 1 "type"; p_placeholder; p_int 4 "xid"; p_int 2 "stats_type"; p_int 2 "flags";
   p_zeros 4; p_int 4 "experimenter"; p_int 4 "subtype"]
  (t_len 2) None []
  [u_check 1 5; u_check 1 18; u_slice 4; u_int 4 "xid"; u_check 2 65535; u_int 2 "flags"; u_skip 4;
   u_check 4 6035143; u_check 4 4]
  false
  ["xid"; "flags"]
  [q_hex_or_none "xid"; q_hex "flags"].

Definition bsn_gentable_entry_add : cls := mk_cls "message.bsn_gentable_entry_add"
  ["version" ↦ 5; "type" ↦ 4; "experimenter" ↦ 6035143; "subtype" ↦ 46]
  [("xid", VNone); ("table_id", VInt 0); ("checksum", VInt 0); ("key", VList []); ("value", VList [])]
  [p_int 1 "version"; p_int 1 "type"; p_placeholder; p_int 4 "xid"; p_int 4 "experimenter";
   p_int 4 "subtype"; p_int 2 "table_id"; p_placeholder; p_checksum_128 "checksum"; p_list_len "key" 7;
   p_list "value"]
  (t_len 2) None []
  [u_check 1 5; u_check 1 4; u_slice 4; u_int 4 "xid"; u_check 4 6035143; u_check 4 46;
   u_int 2 "table_id"; u_sublen; u_checksum_128 "checksum"; u_sublist "key" "bsn_tlv.bsn_tlv";
   u_list "value" "bsn_tlv.bsn_tlv"]
  false
  ["xid"; "table_id"; "checksum"; "key"; "value"]
  [q_hex_or_none "xid"; q_hex "table_id"; q_pp "checksum"; q_pp "key"; q_pp "value"].

Definition bsn_gentable_entry_delete : cls := mk_cls "message.bsn_gentable_entry_delete"
  ["version" ↦ 5; "type" ↦ 4; "experimenter" ↦ 6035143; "subtype" ↦ 47]
  [("xid", VNone); ("table_id", VInt 0); ("key", VList [])]
  [p_int 1 "version"; p_int 1 "type"; p_placeholder; p_int 4 "xid"; p_int 4 "experimenter";
   p_int 4 "subtype"; p_int 2 "table_id"; p_list "key"]
  (t_len 2) None []
  [u_check 1 5; u_check 1 4; u_slice 4; u_int 4 "xid"; u_check 4 6035143; u_check 4 47;
   u_int 2 "table_id"; u_list "key" "bsn_tlv.bsn_tlv"]
  false
  ["xid"; "table_id"; "key"]
  [q_hex_or_none "xid"; q_hex "table_id"; q_pp "key"].

Definition bsn_gentable_entry_desc_stats_reply : cls := mk_cls "message.bsn_gentable_entry_desc_stats_reply"
  ["version" ↦ 5; "type" ↦ 19; "stats_type" ↦ 65535; "experimenter" ↦ 6035143; "subtype" ↦ 2]
  [("xid", VNone); ("flags", VInt 0); ("entries", VList [])]
  [p_int 1 "version"; p_int 1 "type"; p_placeholder; p_int 4 "xid"; p_int 2 "stats_type"; p_int 2 "flags";
   p_zeros 4; p_int 4 "experimenter"; p_int 4 "subtype"; p_list "entries"]
  (t_len 2) None []
  [u_check 1 5; u_check 1 19; u_slice 4; u_int 4 "xid"; u_check 2 65535; u_int 2 "flags"; u_skip 4;
   u_check 4 6035143; u_check 4 2; u_list "entries" "common.bsn_gentable_entry_desc_stats_entry"]
  false
  ["xid"; "flags"; "entries"]
  [q_hex_or_none "xid"; q_hex "flags"; q_pp "entries"].

Definition bsn_gentable_entry_desc_stats_request : cls := mk_cls "message.bsn_gentable_entry_desc_stats_request"
  ["version" ↦ 5; "type" ↦ 18; "stats_type" ↦ 65535; "experimenter" ↦ 6035143; "subtype" ↦ 2]
  [("xid", VNone); ("flags", VInt 0); ("table_id", VInt 0); ("checksum", VInt 0);
   ("checksum_mask", VInt 0)]
  [p_int 1 "version"; p_int 1 "type"; p_placeholder; p_int 4 "xid"; p_int 2 "stats_type"; p_int 2 "flags";
   p_zeros 4; p_int 4 "experimenter"; p_int 4 "subtype"; p_int 2 "table_id"; p_zeros 2;
   p_checksum_128 "checksum"; p_checksum_128 "checksum_mask"]
  (t_len 2) None []
  [u_check 1 5; u_check 1 18; u_slice 4; u_int 4 "xid"; u_check 2 65535; u_int 2 "flags"; u_skip 4;
   u_check 4 6035143; u_check 4 2; u_int 2 "table_id"; u_skip 2; u_checksum_128 "checksum";
   u_checksum_128 "checksum_mask"]
  false
  ["xid"; "flags"; "table_id"; "checksum"; "checksum_mask"]
  [q_hex_or_none "xid"; q_hex "flags"; q_hex "table_id"; q_pp "checksum"; q_pp "checksum_mask"].

Definition bsn_gentable_entry_stats_reply : cls := mk_cls "message.bsn_gentable_entry_stats_reply"
  ["version" ↦ 5; "type" ↦ 19; "stats_type" ↦ 65535; "experimenter" ↦ 6035143; "subtype" ↦ 3]
  [("xid", VNone); ("flags", VInt 0); ("entries", VList [])]
  [p_int 1 "version"; p_int 1 "type"; p_placeholder; p_int 4 "xid"; p_int 2 "stats_type"; p_int 2 "flags";
   p_zeros 4; p_int 4 "experimenter"; p_int 4 "subtype"; p_list "entries"]
  (t_len 2) None []
  [u_check 1 5; u_check 1 19; u_slice 4; u_int 4 "xid"; u_check 2 65535; u_int 2 "flags"; u_skip 4;
   u_check 4 6035143; u_check 4 3; u_list "entries" "common.bsn_gentable_entry_stats_entry"]
  false
  ["xid"; "flags"; "entries"]
  [q_hex_or_none "xid"; q_hex "flags"; q_pp "entries"].

Definition bsn_gentable_entry_stats_request : cls := mk_cls "message.bsn_gentable_entry_stats_request"
  ["version" ↦ 5; "type" ↦ 18; "stats_type" ↦ 65535; "experimenter" ↦ 6035143; "subtype" ↦ 3]
  [("xid", VNone); ("flags", VInt 0); ("table_id", VInt 0); ("checksum", VInt 0);
   ("checksum_mask", VInt 0)]
  [p_int 1 "version"; p_int 1 "type"; p_placeholder; p_int 4 "xid"; p_int 2 "stats_type"; p_int 2 "flags";
   p_zeros 4; p_int 4 "experimenter"; p_int 4 "subtype"; p_int 2 "table_id"; p_zeros 2;
   p_checksum_128 "checksum"; p_checksum_128 "checksum_mask"]
  (t_len 2) None []
  [u_check 1 5; u_check 1 18; u_slice 4; u_int 4 "xid"; u_check 2 65535; u_int 2 "flags"; u_skip 4;
   u_check 4 6035143; u_check 4 3; u_int 2 "table_id"; u_skip 2; u_checksum_128 "checksum";
   u_checksum_128 "checksum_mask"]
  false
  ["xid"; "flags"; "table_id"; "checksum"; "checksum_mask"]
  [q_hex_or_none "xid"; q_hex "flags"; q_hex "table_id"; q_pp "checksum"; q_pp "checksum_mask"].

Definition bsn_gentable_set_buckets_size : cls := mk_cls "message.bsn_gentable_set_buckets_size"
  ["version" ↦ 5; "type" ↦ 4; "experimenter" ↦ 6035143; "subtype" ↦ 50]
  [("xid", VNone); ("table_id", VInt 0); ("buckets_size", VInt 0)]
  [p_int 1 "version"; p_int 1 "type"; p_placeholder; p_int 4 "xid"; p_int 4 "experimenter";
   p_int 4 "subtype"; p_int 2 "table_id"; p_zeros 2; p_int 4 "buckets_size"]
  (t_len 2) None []
  [u_check 1 5; u_check 1 4; u_slice 4; u_int 4 "xid"; u_check 4 6035143; u_check 4 50;
   u_int 2 "table_id"; u_skip 2; u_int 4 "buckets_size"]
  false
  ["xid"; "table_id"; "buckets_size"]
  [q_hex_or_none "xid"; q_hex "table_id"; q_hex "buckets_size"].

Definition bsn_gentable_stats_reply : cls := mk_cls "message.bsn_gentable_stats_reply"
  ["version" ↦ 5; "type" ↦ 19; "stats_type" ↦ 65535; "experimenter" ↦ 6035143; "subtype" ↦ 7]
  [("xid", VNone); ("flags", VInt 0); ("entries", VList [])]
  [p_int 1 "version"; p_int 1 "type"; p_placeholder; p_int 4 "xid"; p_int 2 "stats_type"; p_int 2 "flags";
   p_zeros 4; p_int 4 "experimenter"; p_int 4 "subtype"; p_list "entries"]
  (t_len 2) None []
  [u_check 1 5; u_check 1 19; u_slice 4; u_int 4 "xid"; u_check 2 65535; u_int 2 "flags"; u_skip 4;
   u_check 4 6035143; u_check 4 7; u_list "entries" "common.bsn_gentable_stats_entry"]
  false
  ["xid"; "flags"; "entries"]
  [q_hex_or_none "xid"; q_hex "flags"; q_pp "entries"].

Definition bsn_gentable_stats_request : cls := mk_cls "message.bsn_gentable_stats_request"
  ["version" ↦ 5; "type" ↦ 18; "stats_type" ↦ 65535; "experimenter" ↦ 6035143; "subtype" ↦ 7]
  [("xid", VNone); ("flags", VInt 0)]
  [p_int 1 "version"; p_int 1 "type"; p_placeholder; p_int 4 "xid"; p_int 2 "stats_type"; p_int 2 "flags";
   p_zeros 4; p_int 4 "experimenter"; p_int 4 "subtype"]
  (t_len 2) None []
  [u_check 1 5; u_check 1 18; u_slice 4; u_int 4 "xid"; u_check 2 65535; u_int 2 "flags"; u_skip 4;
   u_check 4 6035143; u_check 4 7]
  false
  ["xid"; "flags"]
  [q_hex_or_none "xid"; q_hex "flags"].

Definition bsn_get_interfaces_reply : cls := mk_cls "message.bsn_get_interfaces_reply"
  ["version" ↦ 5; "type" ↦ 4; "experimenter" ↦ 6035143; "subtype" ↦ 10]
  [("xid", VNone); ("interfaces", VList [])]
  [p_int 1 "version"; p_int 1 "type"; p_placeholder; p_int 4 "xid"; p_int 4 "experimenter";
   p_int 4 "subtype"; p_list "interfaces"]
  (t_len 2) None []
  [u_check 1 5; u_check 1 4; u_slice 4; u_int 4 "xid"; u_check 4 6035143; u_check 4 10;
   u_list "interfaces" "common.bsn_interface"]
  false
  ["xid"; "interfaces"]
  [q_hex_or_none "xid"; q_pp "interfaces"].

Definition bsn_get_interfaces_request : cls := mk_cls "message.bsn_get_interfaces_request"
  ["version" ↦ 5; "type" ↦ 4; "experimenter" ↦ 6035143; "subtype" ↦ 9]
  [("xid", VNone)]
  [p_int 1 "version"; p_int 1 "type"; p_placeholder; p_int 4 "xid"; p_int 4 "experimenter";
   p_int 4 "subtype"]
  (t_len 2) None []
  [u_check 1 5; u_check 1 4; u_slice 4; u_int 4 "xid"; u_check 4 6035143; u_check 4 9]
  false
  ["xid"]
  [q_hex_or_none "xid"].

Definition bsn_get_mirroring_reply : cls := mk_cls "message.bsn_get_mirroring_reply"
  ["version" ↦ 5; "type" ↦ 4; "experimenter" ↦ 6035143; "subtype" ↦ 5]
  [("xid", VNone); ("report_mirror_ports", VInt 0)]
  [p_int 1 "version"; p_int 1 "type"; p_placeholder; p_int 4 "xid"; p_int 4 "experimenter";
   p_int 4 "subtype"; p_int 1 "report_mirror_ports"; p_zeros 3]
  (t_len 2) None []
  [u_check 1 5; u_check 1 4; u_slice 4; u_int 4 "xid"; u_check 4 6035143; u_check 4 5;
   u_int 1 "report_mirror_ports"; u_skip 3]
  false
  ["xid"; "report_mirror_ports"]
  [q_hex_or_none "xid"; q_hex "report_mirror_ports"].

Definition bsn_get_mirroring_request : cls := mk_cls "message.bsn_get_mirroring_request"
  ["version" ↦ 5; "type" ↦ 4; "experimenter" ↦ 6035143; "subtype" ↦ 4]
  [("xid", VNone); ("report_mirror_ports", VInt 0)]
  [p_int 1 "version"; p_int 1 "type"; p_placeholder; p_int 4 "xid"; p_int 4 "experimenter";
   p_int 4 "subtype"; p_int 1 "report_mirror_ports"; p_zeros 3]
  (t_len 2) None []
  [u_check 1 5; u_check 1 4; u_slice 4; u_int 4 "xid"; u_check 4 6035143; u_check 4 4;
   u_int 1 "report_mirror_ports"; u_skip 3]
  false
  ["xid"; "report_mirror_ports"]
  [q_hex_or_none "xid"; q_hex "report_mirror_ports"].

Definition bsn_get_switch_pipeline_reply : cls := mk_cls "message.bsn_get_switch_pipeline_reply"
  ["version" ↦ 5; "type" ↦ 4; "experimenter" ↦ 6035143; "subtype" ↦ 52]
  [("xid", VNone); ("pipeline", VStr [])]
  [p_int 1 "version"; p_int 1 "type"; p_placeholder; p_int 4 "xid"; p_int 4 "experimenter";
   p_int 4 "subtype"; p_str 256 "pipeline"]
  (t_len 2) None []
  [u_check 1 5; u_check 1 4; u_slice 4; u_int 4 "xid"; u_check 4 6035143; u_check 4 52;
   u_str 256 true "pipeline"]
  false
  ["xid"; "pipeline"]
  [q_hex_or_none "xid"; q_pp "pipeline"].

Definition bsn_get_switch_pipeline_request : cls := mk_cls "message.bsn_get_switch_pipeline_request"
  ["version" ↦ 5; "type" ↦ 4; "experimenter" ↦ 6035143; "subtype" ↦ 51]
  [("xid", VNone)]
  [p_int 1 "version"; p_int 1 "type"; p_placeholder; p_int 4 "xid"; p_int 4 "experimenter";
   p_int 4 "subtype"]
  (t_len 2) None []
  [u_check 1 5; u_check 1 4; u_slice 4; u_int 4 "xid"; u_check 4 6035143; u_check 4 51]
  false
  ["xid"]
  [q_hex_or_none "xid"].

Definition bsn_image_desc_stats_reply : cls := mk_cls "message.bsn_image_desc_stats_reply"
  ["version" ↦ 5; "type" ↦ 19; "stats_type" ↦ 65535; "experimenter" ↦ 6035143; "subtype" ↦ 14]
  [("xid", VNone); ("flags", VInt 0); ("image_checksum", VStr []); ("startup_config_checksum", VStr [])]
  [p_int 1 "version"; p_int 1 "type"; p_placeholder; p_int 4 "xid"; p_int 2 "stats_type"; p_int 2 "flags";
   p_zeros 4; p_int 4 "experimenter"; p_int 4 "subtype"; p_str 256 "image_checksum";
   p_str 256 "startup_config_checksum"]
  (t_len 2) None []
  [u_check 1 5; u_check 1 19; u_slice 4; u_int 4 "xid"; u_check 2 65535; u_int 2 "flags"; u_skip 4;
   u_check 4 6035143; u_check 4 14; u_str 256 true "image_checksum";
   u_str 256 true "startup_config_checksum"]
  false
  ["xid"; "flags"; "image_checksum"; "startup_config_checksum"]
  [q_hex_or_none "xid"; q_hex "flags"; q_pp "image_checksum"; q_pp "startup_config_checksum"].

Definition bsn_image_desc_stats_request : cls := mk_cls "message.bsn_image_desc_stats_request"
  ["version" ↦ 5; "type" ↦ 18; "stats_type" ↦ 65535; "experimenter" ↦ 6035143; "subtype" ↦ 14]
  [("xid", VNone); ("flags", VInt 0)]
  [p_int 1 "version"; p_int 1 "type"; p_placeholder; p_int 4 "xid"; p_int 2 "stats_type"; p_int 2 "flags";
   p_zeros 4; p_int 4 "experimenter"; p_int 4 "subtype"]
  (t_len 2) None []
  [u_check 1 5; u_check 1 18; u_slice 4; u_int 4 "xid"; u_check 2 65535; u_int 2 "flags"; u_skip 4;
   u_check 4 6035143; u_check 4 14]
  false
  ["xid"; "flags"]
  [q_hex_or_none "xid"; q_hex "flags"].

Definition bsn_lacp_convergence_notif : cls := mk_cls "message.bsn_lacp_convergence_notif"
  ["version" ↦ 5; "type" ↦ 4; "experimenter" ↦ 6035143; "subtype" ↦ 43]
  [("xid", VNone); ("convergence_status", VInt 0); ("port_no", VInt 0); ("actor_sys_priority", VInt 0);
   ("actor_sys_mac", VInts [0; 0; 0; 0; 0; 0]%Z); ("actor_port_priority", VInt 0);
   ("actor_port_num", VInt 0); ("actor_key", VInt 0); ("partner_sys_priority", VInt 0);
   ("partner_sys_mac", VInts [0; 0; 0; 0; 0; 0]%Z); ("partner_port_priority", VInt 0);
   ("partner_port_num", VInt 0); ("partner_key", VInt 0)]
  [p_int 1 "version"; p_int 1 "type"; p_placeholder; p_int 4 "xid"; p_int 4 "experimenter";
   p_int 4 "subtype"; p_int 1 "convergence_status"; p_zeros 3; p_int 4 "port_no";
   p_int 2 "actor_sys_priority"; p_bytes 6 "actor_sys_mac"; p_int 2 "actor_port_priority";
   p_int 2 "actor_port_num"; p_int 2 "actor_key"; p_int 2 "partner_sys_priority";
   p_bytes 6 "partner_sys_mac"; p_int 2 "partner_port_priority"; p_int 2 "partner_port_num";
   p_int 2 "partner_key"]
  (t_len 2) None []
  [u_check 1 5; u_check 1 4; u_slice 4; u_int 4 "xid"; u_check 4 6035143; u_check 4 43;
   u_int 1 "convergence_status"; u_skip 3; u_int 4 "port_no"; u_int 2 "actor_sys_priority";
   u_bytes 6 "actor_sys_mac"; u_int 2 "actor_port_priority"; u_int 2 "actor_port_num";
   u_int 2 "actor_key"; u_int 2 "partner_sys_priority"; u_bytes 6 "partner_sys_mac";
   u_int 2 "partner_port_priority"; u_int 2 "partner_port_num"; u_int 2 "partner_key"]
  false
  ["xid"; "convergence_status"; "port_no"; "actor_sys_priority"; "actor_sys_mac"; "actor_port_priority";
   "actor_port_num"; "actor_key"; "partner_sys_priority"; "partner_sys_mac"; "partner_port_priority";
   "partner_port_num"; "partner_key"]
  [q_hex_or_none "xid"; q_hex "convergence_status"; q_port "port_no"; q_hex "actor_sys_priority";
   q_mac "actor_sys_mac"; q_hex "actor_port_priority"; q_hex "actor_port_num"; q_hex "actor_key";
   q_hex "partner_sys_priority"; q_mac "partner_sys_mac"; q_hex "partner_port_priority";
   q_hex "partner_port_num"; q_hex "partner_key"].

Definition bsn_lacp_stats_reply : cls := mk_cls "message.bsn_lacp_stats_reply"
  ["version" ↦ 5; "type" ↦ 19; "stats_type" ↦ 65535; "experimenter" ↦ 6035143; "subtype" ↦ 1]
  [("xid", VNone); ("flags", VInt 0); ("entries", VList [])]
  [p_int 1 "version"; p_int 1 "type"; p_placeholder; p_int 4 "xid"; p_int 2 "stats_type"; p_int 2 "flags";
   p_zeros 4; p_int 4 "experimenter"; p_int 4 "subtype"; p_list "entries"]
  (t_len 2) None []
  [u_check 1 5; u_check 1 19; u_slice 4; u_int 4 "xid"; u_check 2 65535; u_int 2 "flags"; u_skip 4;
   u_check 4 6035143; u_check 4 1; u_list "entries" "common.bsn_lacp_stats_entry"]
  false
  ["xid"; "flags"; "entries"]
  [q_hex_or_none "xid"; q_hex "flags"; q_pp "entries"].

Definition bsn_lacp_stats_request : cls := mk_cls "message.bsn_lacp_stats_request"
  ["version" ↦ 5; "type" ↦ 18; "stats_type" ↦ 65535; "experimenter" ↦ 6035143; "subtype" ↦ 1]
  [("xid", VNone); ("flags", VInt 0)]
  [p_int 1 "version"; p_int 1 "type"; p_placeholder; p_int 4 "xid"; p_int 2 "stats_type"; p_int 2 "flags";
   p_zeros 4; p_int 4 "experimenter"; p_int 4 "subtype"]
  (t_len 2) None []
  [u_check 1 5; u_check 1 18; u_slice 4; u_int 4 "xid"; u_check 2 65535; u_int 2 "flags"; u_skip 4;
   u_check 4 6035143; u_check 4 1]
  false
  ["xid"; "flags"]
  [q_hex_or_none "xid"; q_hex "flags"].

Definition bsn_log : cls := mk_cls "message.bsn_log"
  ["version" ↦ 5; "type" ↦ 4; "experimenter" ↦ 6035143; "subtype" ↦ 63]
  [("xid", VNone); ("loglevel", VInt 0); ("data", VStr [])]
  [p_int 1 "version"; p_int 1 "type"; p_placeholder; p_int 4 "xid"; p_int 4 "experimenter";
   p_int 4 "subtype"; p_int 1 "loglevel"; p_raw "data"]
  (t_len 2) None []
  [u_check 1 5; u_check 1 4; u_slice 4; u_int 4 "xid"; u_check 4 6035143; u_check 4 63;
   u_int 1 "loglevel"; u_rest "data"]
  false
  ["xid"; "loglevel"; "data"]
  [q_hex_or_none "xid"; q_hex "loglevel"; q_pp "data"].

Definition bsn_lua_command_reply : cls := mk_cls "message.bsn_lua_command_reply"
  ["version" ↦ 5; "type" ↦ 4; "experimenter" ↦ 6035143; "subtype" ↦ 66]
  [("xid", VNone); ("data", VStr [])]
  [p_int 1 "version"; p_int 1 "type"; p_placeholder; p_int 4 "xid"; p_int 4 "experimenter";
   p_int 4 "subtype"; p_raw "data"]
  (t_len 2) None []
  [u_check 1 5; u_check 1 4; u_slice 4; u_int 4 "xid"; u_check 4 6035143; u_check 4 66; u_rest "data"]
  false
  ["xid"; "data"]
  [q_hex_or_none "xid"; q_pp "data"].

Definition bsn_lua_command_request : cls := mk_cls "message.bsn_lua_command_request"
  ["version" ↦ 5; "type" ↦ 4; "experimenter" ↦ 6035143; "subtype" ↦ 65]
  [("xid", VNone); ("data", VStr [])]
  [p_int 1 "version"; p_int 1 "type"; p_placeholder; p_int 4 "xid"; p_int 4 "experimenter";
   p_int 4 "subtype"; p_raw "data"]
  (t_len 2) None []
  [u_check 1 5; u_check 1 4; u_slice 4; u_int 4 "xid"; u_check 4 6035143; u_check 4 65; u_rest "data"]
  false
  ["xid"; "data"]
  [q_hex_or_none "xid"; q_pp "data"].

Definition bsn_lua_notification : cls := mk_cls "message.bsn_lua_notification"
  ["version" ↦ 5; "type" ↦ 4; "experimenter" ↦ 6035143; "subtype" ↦ 67]
  [("xid", VNone); ("data", VStr [])]
  [p_int 1 "version"; p_int 1 "type"; p_placeholder; p_int 4 "xid"; p_int 4 "experimenter";
   p_int 4 "subtype"; p_raw "data"]
  (t_len 2) None []
  [u_check 1 5; u_check 1 4; u_slice 4; u_int 4 "xid"; u_check 4 6035143; u_check 4 67; u_rest "data"]
  false
  ["xid"; "data"]
  [q_hex_or_none "xid"; q_pp "data"].

Definition bsn_lua_upload : cls := mk_cls "message.bsn_lua_upload"
  ["version" ↦ 5; "type" ↦ 4; "experimenter" ↦ 6035143; "subtype" ↦ 64]
  [("xid", VNone); ("flags", VInt 0); ("filename", VStr []); ("data", VStr [])]
  [p_int 1 "version"; p_int 1 "type"; p_placeholder; p_int 4 "xid"; p_int 4 "experimenter";
   p_int 4 "subtype"; p_int 2 "flags"; p_str 64 "filename"; p_raw "data"]
  (t_len 2) None []
  [u_check 1 5; u_check 1 4; u_slice 4; u_int 4 "xid"; u_check 4 6035143; u_check 4 64; u_int 2 "flags";
   u_str 64 true "filename"; u_rest "data"]
  false
  ["xid"; "flags"; "filename"; "data"]
  [q_hex_or_none "xid"; q_hex "flags"; q_pp "filename"; q_pp "data"].

Definition bsn_pdu_rx_reply : cls := mk_cls "message.bsn_pdu_rx_reply"
  ["version" ↦ 5; "type" ↦ 4; "experimenter" ↦ 6035143; "subtype" ↦ 34]
  [("xid", VNone); ("status", VInt 0); ("port_no", VInt 0); ("slot_num", VInt 0)]
  [p_int 1 "version"; p_int 1 "type"; p_placeholder; p_int 4 "xid"; p_int 4 "experimenter";
   p_int 4 "subtype"; p_int 4 "status"; p_int 4 "port_no"; p_int 1 "slot_num"]
  (t_len 2) None []
  [u_check 1 5; u_check 1 4; u_slice 4; u_int 4 "xid"; u_check 4 6035143; u_check 4 34; u_int 4 "status";
   u_int 4 "port_no"; u_int 1 "slot_num"]
  false
  ["xid"; "status"; "port_no"; "slot_num"]
  [q_hex_or_none "xid"; q_hex "status"; q_port "port_no"; q_hex "slot_num"].

Definition bsn_pdu_rx_request : cls := mk_cls "message.bsn_pdu_rx_request"
  ["version" ↦ 5; "type" ↦ 4; "experimenter" ↦ 6035143; "subtype" ↦ 33]
  [("xid", VNone); ("timeout_ms", VInt 0); ("port_no", VInt 0); ("slot_num", VInt 0); ("data", VStr [])]
  [p_int 1 "version"; p_int 1 "type"; p_placeholder; p_int 4 "xid"; p_int 4 "experimenter";
   p_int 4 "subtype"; p_int 4 "timeout_ms"; p_int 4 "port_no"; p_int 1 "slot_num"; p_zeros 3;
   p_raw "data"]
  (t_len 2) None []
  [u_check 1 5; u_check 1 4; u_slice 4; u_int 4 "xid"; u_check 4 6035143; u_check 4 33;
   u_int 4 "timeout_ms"; u_int 4 "port_no"; u_int 1 "slot_num"; u_skip 3; u_rest "data"]
  false
  ["xid"; "timeout_ms"; "port_no"; "slot_num"; "data"]
  [q_hex_or_none "xid"; q_hex "timeout_ms"; q_port "port_no"; q_hex "slot_num"; q_pp "data"].

Definition bsn_pdu_rx_timeout : cls := mk_cls "message.bsn_pdu_rx_timeout"
  ["version" ↦ 5; "type" ↦ 4; "experimenter" ↦ 6035143; "subtype" ↦ 35]
  [("xid", VNone); ("port_no", VInt 0); ("slot_num", VInt 0)]
  [p_int 1 "version"; p_int 1 "type"; p_placeholder; p_int 4 "xid"; p_int 4 "experimenter";
   p_int 4 "subtype"; p_int 4 "port_no"; p_int 1 "slot_num"]
  (t_len 2) None []
  [u_check 1 5; u_check 1 4; u_slice 4; u_int 4 "xid"; u_check 4 6035143; u_check 4 35; u_int 4 "port_no";
   u_int 1 "slot_num"]
  false
  ["xid"; "port_no"; "slot_num"]
  [q_hex_or_none "xid"; q_port "port_no"; q_hex "slot_num"].

Definition bsn_pdu_tx_reply : cls := mk_cls "message.bsn_pdu_tx_reply"
  ["version" ↦ 5; "type" ↦ 4; "experimenter" ↦ 6035143; "subtype" ↦ 32]
  [("xid", VNone); ("status", VInt 0); ("port_no", VInt 0); ("slot_num", VInt 0)]
  [p_int 1 "version"; p_int 1 "type"; p_placeholder; p_int 4 "xid"; p_int 4 "experimenter";
   p_int 4 "subtype"; p_int 4 "status"; p_int 4 "port_no"; p_int 1 "slot_num"]
  (t_len 2) None []
  [u_check 1 5; u_check 1 4; u_slice 4; u_int 4 "xid"; u_check 4 6035143; u_check 4 32; u_int 4 "status";
   u_int 4 "port_no"; u_int 1 "slot_num"]
  false
  ["xid"; "status"; "port_no"; "slot_num"]
  [q_hex_or_none "xid"; q_hex "status"; q_port "port_no"; q_hex "slot_num"].

Definition bsn_pdu_tx_request : cls := mk_cls "message.bsn_pdu_tx_request"
  ["version" ↦ 5; "type" ↦ 4; "experimenter" ↦ 6035143; "subtype" ↦ 31]
  [("xid", VNone); ("tx_interval_ms", VInt 0); ("port_no", VInt 0); ("slot_num", VInt 0);
   ("data", VStr [])]
  [p_int 1 "version"; p_int 1 "type"; p_placeholder; p_int 4 "xid"; p_int 4 "experimenter";
   p_int 4 "subtype"; p_int 4 "tx_interval_ms"; p_int 4 "port_no"; p_int 1 "slot_num"; p_zeros 3;
   p_raw "data"]
  (t_len 2) None []
  [u_check 1 5; u_check 1 4; u_slice 4; u_int 4 "xid"; u_check 4 6035143; u_check 4 31;
   u_int 4 "tx_interval_ms"; u_int 4 "port_no"; u_int 1 "slot_num"; u_skip 3; u_rest "data"]
  false
  ["xid"; "tx_interval_ms"; "port_no"; "slot_num"; "data"]
  [q_hex_or_none "xid"; q_hex "tx_interval_ms"; q_port "port_no"; q_hex "slot_num"; q_pp "data"].

Definition bsn_port_counter_stats_reply : cls := mk_cls "message.bsn_port_counter_stats_reply"
  ["version" ↦ 5; "type" ↦ 19; "stats_type" ↦ 65535; "experimenter" ↦ 6035143; "subtype" ↦ 8]
  [("xid", VNone); ("flags", VInt 0); ("entries", VList [])]
  [p_int 1 "version"; p_int 1 "type"; p_placeholder; p_int 4 "xid"; p_int 2 "stats_type"; p_int 2 "flags";
   p_zeros 4; p_int 4 "experimenter"; p_int 4 "subtype"; p_list "entries"]
  (t_len 2) None []
  [u_check 1 5; u_check 1 19; u_slice 4; u_int 4 "xid"; u_check 2 65535; u_int 2 "flags"; u_skip 4;
   u_check 4 6035143; u_check 4 8; u_list "entries" "common.bsn_port_counter_stats_entry"]
  false
  ["xid"; "flags"; "entries"]
  [q_hex_or_none "xid"; q_hex "flags"; q_pp "entries"].

Definition bsn_port_counter_stats_request : cls := mk_cls "message.bsn_port_counter_stats_request"
  ["version" ↦ 5; "type" ↦ 18; "stats_type" ↦ 65535; "experimenter" ↦ 6035143; "subtype" ↦ 8]
  [("xid", VNone); ("flags", VInt 0); ("port_no", VInt 0)]
  [p_int 1 "version"; p_int 1 "type"; p_placeholder; p_int 4 "xid"; p_int 2 "stats_type"; p_int 2 "flags";
   p_zeros 4; p_int 4 "experimenter"; p_int 4 "subtype"; p_int 4 "port_no"]
  (t_len 2) None []
  [u_check 1 5; u_check 1 18; u_slice 4; u_int 4 "xid"; u_check 2 65535; u_int 2 "flags"; u_skip 4;
   u_check 4 6035143; u_check 4 8; u_int 4 "port_no"]
  false
  ["xid"; "flags"; "port_no"]
  [q_hex_or_none "xid"; q_hex "flags"; q_port "port_no"].

Definition bsn_set_aux_cxns_reply : cls := mk_cls "message.bsn_set_aux_cxns_reply"
  ["version" ↦ 5; "type" ↦ 4; "experimenter" ↦ 6035143; "subtype" ↦ 59]
  [("xid", VNone); ("num_aux", VInt 0); ("status", VInt 0)]
  [p_int 1 "version"; p_int 1 "type"; p_placeholder; p_int 4 "xid"; p_int 4 "experimenter";
   p_int 4 "subtype"; p_int 4 "num_aux"; p_int 4 "status"]
  (t_len 2) None []
  [u_check 1 5; u_check 1 4; u_slice 4; u_int 4 "xid"; u_check 4 6035143; u_check 4 59; u_int 4 "num_aux";
   u_int 4 "status"]
  false
  ["xid"; "num_aux"; "status"]
  [q_hex_or_none "xid"; q_hex "num_aux"; q_hex "status"].

Definition bsn_set_aux_cxns_request : cls := mk_cls "message.bsn_set_aux_cxns_request"
  ["version" ↦ 5; "type" ↦ 4; "experimenter" ↦ 6035143; "subtype" ↦ 58]
  [("xid", VNone); ("num_aux", VInt 0)]
  [p_int 1 "version"; p_int 1 "type"; p_placeholder; p_int 4 "xid"; p_int 4 "experimenter";
   p_int 4 "subtype"; p_int 4 "num_aux"]
  (t_len 2) None []
  [u_check 1 5; u_check 1 4; u_slice 4; u_int 4 "xid"; u_check 4 6035143; u_check 4 58; u_int 4 "num_aux"]
  false
  ["xid"; "num_aux"]
  [q_hex_or_none "xid"; q_hex "num_aux"].

Definition bsn_set_lacp_reply : cls := mk_cls "message.bsn_set_lacp_reply"
  ["version" ↦ 5; "type" ↦ 4; "experimenter" ↦ 6035143; "subtype" ↦ 42]
  [("xid", VNone); ("status", VInt 0); ("port_no", VInt 0)]
  [p_int 1 "version"; p_int 1 "type"; p_placeholder; p_int 4 "xid"; p_int 4 "experimenter";
   p_int 4 "subtype"; p_int 4 "status"; p_int 4 "port_no"]
  (t_len 2) None []
  [u_check 1 5; u_check 1 4; u_slice 4; u_int 4 "xid"; u_check 4 6035143; u_check 4 42; u_int 4 "status";
   u_int 4 "port_no"]
  false
  ["xid"; "status"; "port_no"]
  [q_hex_or_none "xid"; q_hex "status"; q_port "port_no"].

Definition bsn_set_lacp_request : cls := mk_cls "message.bsn_set_lacp_request"
  ["version" ↦ 5; "type" ↦ 4; "experimenter" ↦ 6035143; "subtype" ↦ 41]
  [("xid", VNone); ("enabled", VInt 0); ("port_no", VInt 0); ("actor_sys_priority", VInt 0);
   ("actor_sys_mac", VInts [0; 0; 0; 0; 0; 0]%Z); ("actor_port_priority", VInt 0);
   ("actor_port_num", VInt 0); ("actor_key", VInt 0)]
  [p_int 1 "version"; p_int 1 "type"; p_placeholder; p_int 4 "xid"; p_int 4 "experimenter";
   p_int 4 "subtype"; p_int 1 "enabled"; p_zeros 3; p_int 4 "port_no"; p_int 2 "actor_sys_priority";
   p_bytes 6 "actor_sys_mac"; p_int 2 "actor_port_priority"; p_int 2 "actor_port_num";
   p_int 2 "actor_key"]
  (t_len 2) None []
  [u_check 1 5; u_check 1 4; u_slice 4; u_int 4 "xid"; u_check 4 6035143; u_check 4 41; u_int 1 "enabled";
   u_skip 3; u_int 4 "port_no"; u_int 2 "actor_sys_priority"; u_bytes 6 "actor_sys_mac";
   u_int 2 "actor_port_priority"; u_int 2 "actor_port_num"; u_int 2 "actor_key"]
  false
  ["xid"; "enabled"; "port_no"; "actor_sys_priority"; "actor_sys_mac"; "actor_port_priority";
   "actor_port_num"; "actor_key"]
  [q_hex_or_none "xid"; q_hex "enabled"; q_port "port_no"; q_hex "actor_sys_priority";
   q_mac "actor_sys_mac"; q_hex "actor_port_priority"; q_hex "actor_port_num"; q_hex "actor_key"].

Definition bsn_set_mirroring : cls := mk_cls "message.bsn_set_mirroring"
  ["version" ↦ 5; "type" ↦ 4; "experimenter" ↦ 6035143; "subtype" ↦ 3]
  [("xid", VNone); ("report_mirror_ports", VInt 0)]
  [p_int 1 "version"; p_int 1 "type"; p_placeholder; p_int 4 "xid"; p_int 4 "experimenter";
   p_int 4 "subtype"; p_int 1 "report_mirror_ports"; p_zeros 3]
  (t_len 2) None []
  [u_check 1 5; u_check 1 4; u_slice 4; u_int 4 "xid"; u_check 4 6035143; u_check 4 3;
   u_int 1 "report_mirror_ports"; u_skip 3]
  false
  ["xid"; "report_mirror_ports"]
  [q_hex_or_none "xid"; q_hex "report_mirror_ports"].

Definition bsn_set_pktin_suppression_reply : cls := mk_cls "message.bsn_set_pktin_suppression_reply"
  ["version" ↦ 5; "type" ↦ 4; "experimenter" ↦ 6035143; "subtype" ↦ 25]
  [("xid", VNone); ("status", VInt 0)]
  [p_int 1 "version"; p_int 1 "type"; p_placeholder; p_int 4 "xid"; p_int 4 "experimenter";
   p_int 4 "subtype"; p_int 4 "status"]
  (t_len 2) None []
  [u_check 1 5; u_check 1 4; u_slice 4; u_int 4 "xid"; u_check 4 6035143; u_check 4 25; u_int 4 "status"]
  false
  ["xid"; "status"]
  [q_hex_or_none "xid"; q_hex "status"].

Definition bsn_set_pktin_suppression_request : cls := mk_cls "message.bsn_set_pktin_suppression_request"
  ["version" ↦ 5; "type" ↦ 4; "experimenter" ↦ 6035143; "subtype" ↦ 11]
  [("xid", VNone); ("enabled", VInt 0); ("idle_timeout", VInt 0); ("hard_timeout", VInt 0);
   ("priority", VInt 0); ("cookie", VInt 0)]
  [p_int 1 "version"; p_int 1 "type"; p_placeholder; p_int 4 "xid"; p_int 4 "experimenter";
   p_int 4 "subtype"; p_int 1 "enabled"; p_zeros 1; p_int 2 "idle_timeout"; p_int 2 "hard_timeout";
   p_int 2 "priority"; p_int 8 "cookie"]
  (t_len 2) None []
  [u_check 1 5; u_check 1 4; u_slice 4; u_int 4 "xid"; u_check 4 6035143; u_check 4 11; u_int 1 "enabled";
   u_skip 1; u_int 2 "idle_timeout"; u_int 2 "hard_timeout"; u_int 2 "priority"; u_int 8 "cookie"]
  false
  ["xid"; "enabled"; "idle_timeout"; "hard_timeout"; "priority"; "cookie"]
  [q_hex_or_none "xid"; q_hex "enabled"; q_hex "idle_timeout"; q_hex "hard_timeout"; q_hex "priority";
   q_hex "cookie"].

Definition bsn_set_switch_pipeline_reply : cls := mk_cls "message.bsn_set_switch_pipeline_reply"
  ["version" ↦ 5; "type" ↦ 4; "experimenter" ↦ 6035143; "subtype" ↦ 54]
  [("xid", VNone); ("status", VInt 0)]
  [p_int 1 "version"; p_int 1 "type"; p_placeholder; p_int 4 "xid"; p_int 4 "experimenter";
   p_int 4 "subtype"; p_int 4 "status"]
  (t_len 2) None []
  [u_check 1 5; u_check 1 4; u_slice 4; u_int 4 "xid"; u_check 4 6035143; u_check 4 54; u_int 4 "status"]
  false
  ["xid"; "status"]
  [q_hex_or_none "xid"; q_hex "status"].

Definition bsn_set_switch_pipeline_request : cls := mk_cls "message.bsn_set_switch_pipeline_request"
  ["version" ↦ 5; "type" ↦ 4; "experimenter" ↦ 6035143; "subtype" ↦ 53]
  [("xid", VNone); ("pipeline", VStr [])]
  [p_int 1 "version"; p_int 1 "type"; p_placeholder; p_int 4 "xid"; p_int 4 "experimenter";
   p_int 4 "subtype"; p_str 256 "pipeline"]
  (t_len 2) None []
  [u_check 1 5; u_check 1 4; u_slice 4; u_int 4 "xid"; u_check 4 6035143; u_check 4 53;
   u_str 256 true "pipeline"]
  false
  ["xid"; "pipeline"]
  [q_hex_or_none "xid"; q_pp "pipeline"].

Definition bsn_switch_pipeline_stats_reply : cls := mk_cls "message.bsn_switch_pipeline_stats_reply"
  ["version" ↦ 5; "type" ↦ 19; "stats_type" ↦ 65535; "experimenter" ↦ 6035143; "subtype" ↦ 6]
  [("xid", VNone); ("flags", VInt 0); ("entries", VList [])]
  [p_int 1 "version"; p_int 1 "type"; p_placeholder; p_int 4 "xid"; p_int 2 "stats_type"; p_int 2 "flags";
   p_zeros 4; p_int 4 "experimenter"; p_int 4 "subtype"; p_list "entries"]
  (t_len 2) None []
  [u_check 1 5; u_check 1 19; u_slice 4; u_int 4 "xid"; u_check 2 65535; u_int 2 "flags"; u_skip 4;
   u_check 4 6035143; u_check 4 6; u_list "entries" "common.bsn_switch_pipeline_stats_entry"]
  false
  ["xid"; "flags"; "entries"]
  [q_hex_or_none "xid"; q_hex "flags"; q_pp "entries"].

Definition bsn_switch_pipeline_stats_request : cls := mk_cls "message.bsn_switch_pipeline_stats_request"
  ["version" ↦ 5; "type" ↦ 18; "stats_type" ↦ 65535; "experimenter" ↦ 6035143; "subtype" ↦ 6]
  [("xid", VNone); ("flags", VInt 0)]
  [p_int 1 "version"; p_int 1 "type"; p_placeholder; p_int 4 "xid"; p_int 2 "stats_type"; p_int 2 "flags";
   p_zeros 4; p_int 4 "experimenter"; p_int 4 "subtype"]
  (t_len 2) None []
  [u_check 1 5; u_check 1 18; u_slice 4; u_int 4 "xid"; u_check 2 65535; u_int 2 "flags"; u_skip 4;
   u_check 4 6035143; u_check 4 6]
  false
  ["xid"; "flags"]
  [q_hex_or_none "xid"; q_hex "flags"].

Definition bsn_table_checksum_stats_reply : cls := mk_cls "message.bsn_table_checksum_stats_reply"
  ["version" ↦ 5; "type" ↦ 19; "stats_type" ↦ 65535; "experimenter" ↦ 6035143; "subtype" ↦ 11]
  [("xid", VNone); ("flags", VInt 0); ("entries", VList [])]
  [p_int 1 "version"; p_int 1 "type"; p_placeholder; p_int 4 "xid"; p_int 2 "stats_type"; p_int 2 "flags";
   p_zeros 4; p_int 4 "experimenter"; p_int 4 "subtype"; p_list "entries"]
  (t_len 2) None []
  [u_check 1 5; u_check 1 19; u_slice 4; u_int 4 "xid"; u_check 2 65535; u_int 2 "flags"; u_skip 4;
   u_check 4 6035143; u_check 4 11; u_list "entries" "common.bsn_table_checksum_stats_entry"]
  false
  ["xid"; "flags"; "entries"]
  [q_hex_or_none "xid"; q_hex "flags"; q_pp "entries"].

Definition bsn_table_checksum_stats_request : cls := mk_cls "message.bsn_table_checksum_stats_request"
  ["version" ↦ 5; "type" ↦ 18; "stats_type" ↦ 65535; "experimenter" ↦ 6035143; "subtype" ↦ 11]
  [("xid", VNone); ("flags", VInt 0)]
  [p_int 1 "version"; p_int 1 "type"; p_placeholder; p_int 4 "xid"; p_int 2 "stats_type"; p_int 2 "flags";
   p_zeros 4; p_int 4 "experimenter"; p_int 4 "subtype"]
  (t_len 2) None []
  [u_check 1 5; u_check 1 18; u_slice 4; u_int 4 "xid"; u_check 2 65535; u_int 2 "flags"; u_skip 4;
   u_check 4 6035143; u_check 4 11]
  false
  ["xid"; "flags"]
  [q_hex_or_none "xid"; q_hex "flags"].

Definition bsn_table_set_buckets_size : cls := mk_cls "message.bsn_table_set_buckets_size"
  ["version" ↦ 5; "type" ↦ 4; "experimenter" ↦ 6035143; "subtype" ↦ 61]
  [("xid", VNone); ("table_id", VInt 0); ("buckets_size", VInt 0)]
  [p_int 1 "version"; p_int 1 "type"; p_placeholder; p_int 4 "xid"; p_int 4 "experimenter";
   p_int 4 "subtype"; p_zeros 1; p_int 1 "table_id"; p_zeros 2; p_int 4 "buckets_size"]
  (t_len 2) None []
  [u_check 1 5; u_check 1 4; u_slice 4; u_int 4 "xid"; u_check 4 6035143; u_check 4 61; u_skip 1;
   u_int 1 "table_id"; u_skip 2; u_int 4 "buckets_size"]
  false
  ["xid"; "table_id"; "buckets_size"]
  [q_hex_or_none "xid"; q_hex "table_id"; q_hex "buckets_size"].

Definition bsn_takeover : cls := mk_cls "message.bsn_takeover"
  ["version" ↦ 5; "type" ↦ 4; "experimenter" ↦ 6035143; "subtype" ↦ 69]
  [("xid", VNone)]
  [p_int 1 "version"; p_int 1 "type"; p_placeholder; p_int 4 "xid"; p_int 4 "experimenter";
   p_int 4 "subtype"]
  (t_len 2) None []
  [u_check 1 5; u_check 1 4; u_slice 4; u_int 4 "xid"; u_check 4 6035143; u_check 4 69]
  false
  ["xid"]
  [q_hex_or_none "xid"].

Definition bsn_time_reply : cls := mk_cls "message.bsn_time_reply"
  ["version" ↦ 5; "type" ↦ 4; "experimenter" ↦ 6035143; "subtype" ↦ 45]
  [("xid", VNone); ("time_ms", VInt 0)]
  [p_int 1 "version"; p_int 1 "type"; p_placeholder; p_int 4 "xid"; p_int 4 "experimenter";
   p_int 4 "subtype"; p_int 8 "time_ms"]
  (t_len 2) None []
  [u_check 1 5; u_check 1 4; u_slice 4; u_int 4 "xid"; u_check 4 6035143; u_check 4 45; u_int 8 "time_ms"]
  false
  ["xid"; "time_ms"]
  [q_hex_or_none "xid"; q_hex "time_ms"].

Definition bsn_time_request : cls := mk_cls "message.bsn_time_request"
  ["version" ↦ 5; "type" ↦ 4; "experimenter" ↦ 6035143; "subtype" ↦ 44]
  [("xid", VNone)]
  [p_int 1 "version"; p_int 1 "type"; p_placeholder; p_int 4 "xid"; p_int 4 "experimenter";
   p_int 4 "subtype"]
  (t_len 2) None []
  [u_check 1 5; u_check 1 4; u_slice 4; u_int 4 "xid"; u_check 4 6035143; u_check 4 44]
  false
  ["xid"]
  [q_hex_or_none "xid"].

Definition bsn_virtual_port_create_reply : cls := mk_cls "message.bsn_virtual_port_create_reply"
  ["version" ↦ 5; "type" ↦ 4; "experimenter" ↦ 6035143; "subtype" ↦ 16]
  [("xid", VNone); ("status", VInt 0); ("vport_no", VInt 0)]
  [p_int 1 "version"; p_int 1 "type"; p_placeholder; p_int 4 "xid"; p_int 4 "experimenter";
   p_int 4 "subtype"; p_int 4 "status"; p_int 4 "vport_no"]
  (t_len 2) None []
  [u_check 1 5; u_check 1 4; u_slice 4; u_int 4 "xid"; u_check 4 6035143; u_check 4 16; u_int 4 "status";
   u_int 4 "vport_no"]
  false
  ["xid"; "status"; "vport_no"]
  [q_hex_or_none "xid"; q_hex "status"; q_hex "vport_no"].

Definition bsn_virtual_port_create_request : cls := mk_cls "message.bsn_virtual_port_create_request"
  ["version" ↦ 5; "type" ↦ 4; "experimenter" ↦ 6035143; "subtype" ↦ 15]
  [("xid", VNone); ("vport", new_object Common.bsn_vport)]
  [p_int 1 "version"; p_int 1 "type"; p_placeholder; p_int 4 "xid"; p_int 4 "experimenter";
   p_int 4 "subtype"; p_obj "vport"]
  (t_len 2) None []
  [u_check 1 5; u_check 1 4; u_slice 4; u_int 4 "xid"; u_check 4 6035143; u_check 4 15;
   u_obj "vport" "common.bsn_vport"]
  false
  ["xid"; "vport"]
  [q_hex_or_none "xid"; q_pp "vport"].

Definition bsn_virtual_port_remove_reply : cls := mk_cls "message.bsn_virtual_port_remove_reply"
  ["version" ↦ 5; "type" ↦ 4; "experimenter" ↦ 6035143; "subtype" ↦ 26]
  [("xid", VNone); ("status", VInt 0)]
  [p_int 1 "version"; p_int 1 "type"; p_placeholder; p_int 4 "xid"; p_int 4 "experimenter";
   p_int 4 "subtype"; p_int 4 "status"]
  (t_len 2) None []
  [u_check 1 5; u_check 1 4; u_slice 4; u_int 4 "xid"; u_check 4 6035143; u_check 4 26; u_int 4 "status"]
  false
  ["xid"; "status"]
  [q_hex_or_none "xid"; q_hex "status"].

Definition bsn_virtual_port_remove_request : cls := mk_cls "message.bsn_virtual_port_remove_request"
  ["version" ↦ 5; "type" ↦ 4; "experimenter" ↦ 6035143; "subtype" ↦ 17]
  [("xid", VNone); ("vport_no", VInt 0)]
  [p_int 1 "version"; p_int 1 "type"; p_placeholder; p_int 4 "xid"; p_int 4 "experimenter";
   p_int 4 "subtype"; p_int 4 "vport_no"]
  (t_len 2) None []
  [u_check 1 5; u_check 1 4; u_slice 4; u_int 4 "xid"; u_check 4 6035143; u_check 4 17;
   u_int 4 "vport_no"]
  false
  ["xid"; "vport_no"]
  [q_hex_or_none "xid"; q_hex "vport_no"].

Definition bsn_vlan_counter_clear : cls := mk_cls "message.bsn_vlan_counter_clear"
  ["version" ↦ 5; "type" ↦ 4; "experimenter" ↦ 6035143; "subtype" ↦ 70]
  [("xid", VNone); ("vlan_vid", VInt 0)]
  [p_int 1 "version"; p_int 1 "type"; p_placeholder; p_int 4 "xid"; p_int 4 "experimenter";
   p_int 4 "subtype"; p_int 2 "vlan_vid"]
  (t_len 2) None []
  [u_check 1 5; u_check 1 4; u_slice 4; u_int 4 "xid"; u_check 4 6035143; u_check 4 70;
   u_int 2 "vlan_vid"]
  false
  ["xid"; "vlan_vid"]
  [q_hex_or_none "xid"; q_hex "vlan_vid"].

Definition bsn_vlan_counter_stats_reply : cls := mk_cls "message.bsn_vlan_counter_stats_reply"
  ["version" ↦ 5; "type" ↦ 19; "stats_type" ↦ 65535; "experimenter" ↦ 6035143; "subtype" ↦ 9]
  [("xid", VNone); ("flags", VInt 0); ("entries", VList [])]
  [p_int 1 "version"; p_int 1 "type"; p_placeholder; p_int 4 "xid"; p_int 2 "stats_type"; p_int 2 "flags";
   p_zeros 4; p_int 4 "experimenter"; p_int 4 "subtype"; p_list "entries"]
  (t_len 2) None []
  [u_check 1 5; u_check 1 19; u_slice 4; u_int 4 "xid"; u_check 2 65535; u_int 2 "flags"; u_skip 4;
   u_check 4 6035143; u_check 4 9; u_list "entries" "common.bsn_vlan_counter_stats_entry"]
  false
  ["xid"; "flags"; "entries"]
  [q_hex_or_none "xid"; q_hex "flags"; q_pp "entries"].

Definition bsn_vlan_counter_stats_request : cls := mk_cls "message.bsn_vlan_counter_stats_request"
  ["version" ↦ 5; "type" ↦ 18; "stats_type" ↦ 65535; "experimenter" ↦ 6035143; "subtype" ↦ 9]
  [("xid", VNone); ("flags", VInt 0); ("vlan_vid", VInt 0)]
  [p_int 1 "version"; p_int 1 "type"; p_placeholder; p_int 4 "xid"; p_int 2 "stats_type"; p_int 2 "flags";
   p_zeros 4; p_int 4 "experimenter"; p_int 4 "subtype"; p_int 2 "vlan_vid"]
  (t_len 2) None []
  [u_check 1 5; u_check 1 18; u_slice 4; u_int 4 "xid"; u_check 2 65535; u_int 2 "flags"; u_skip 4;
   u_check 4 6035143; u_check 4 9; u_int 2 "vlan_vid"]
  false
  ["xid"; "flags"; "vlan_vid"]
  [q_hex_or_none "xid"; q_hex "flags"; q_hex "vlan_vid"].

Definition bsn_vrf_counter_stats_reply : cls := mk_cls "message.bsn_vrf_counter_stats_reply"
  ["version" ↦ 5; "type" ↦ 19; "stats_type" ↦ 65535; "experimenter" ↦ 6035143; "subtype" ↦ 15]
  [("xid", VNone); ("flags", VInt 0); ("entries", VList [])]
  [p_int 1 "version"; p_int 1 "type"; p_placeholder; p_int 4 "xid"; p_int 2 "stats_type"; p_int 2 "flags";
   p_zeros 4; p_int 4 "experimenter"; p_int 4 "subtype"; p_list "entries"]
  (t_len 2) None []
  [u_check 1 5; u_check 1 19; u_slice 4; u_int 4 "xid"; u_check 2 65535; u_int 2 "flags"; u_skip 4;
   u_check 4 6035143; u_check 4 15; u_list "entries" "common.bsn_vrf_counter_stats_entry"]
  false
  ["xid"; "flags"; "entries"]
  [q_hex_or_none "xid"; q_hex "flags"; q_pp "entries"].

Definition bsn_vrf_counter_stats_request : cls := mk_cls "message.bsn_vrf_counter_stats_request"
  ["version" ↦ 5; "type" ↦ 18; "stats_type" ↦ 65535; "experimenter" ↦ 6035143; "subtype" ↦ 15]
  [("xid", VNone); ("flags", VInt 0); ("vrf", VInt 0)]
  [p_int 1 "version"; p_int 1 "type"; p_placeholder; p_int 4 "xid"; p_int 2 "stats_type"; p_int 2 "flags";
   p_zeros 4; p_int 4 "experimenter"; p_int 4 "subtype"; p_int 4 "vrf"]
  (t_len 2) None []
  [u_check 1 5; u_check 1 18; u_slice 4; u_int 4 "xid"; u_check 2 65535; u_int 2 "flags"; u_skip 4;
   u_check 4 6035143; u_check 4 15; u_int 4 "vrf"]
  false
  ["xid"; "flags"; "vrf"]
  [q_hex_or_none "xid"; q_hex "flags"; q_hex "vrf"].

Definition bundle_add_msg : cls := mk_cls "message.bundle_add_msg"
  ["version" ↦ 5; "type" ↦ 34]
  [("xid", VNone); ("bundle_id", VInt 0); ("flags", VInt 0); ("data", VStr [])]
  [p_int 1 "version"; p_int 1 "type"; p_placeholder; p_int 4 "xid"; p_int 4 "bundle_id"; p_zeros 2;
   p_int 2 "flags"; p_raw "data"]
  (t_len 2) None []
  [u_check 1 5; u_check 1 34; u_slice 4; u_int 4 "xid"; u_int 4 "bundle_id"; u_skip 2; u_int 2 "flags";
   u_rest "data"]
  false
  ["xid"; "bundle_id"; "flags"; "data"]
  [q_hex_or_none "xid"; q_hex "bundle_id"; q_hex "flags"; q_pp "data"].

Definition bundle_ctrl_msg : cls := mk_cls "message.bundle_ctrl_msg"
  ["version" ↦ 5; "type" ↦ 33]
  [("xid", VNone); ("bundle_id", VInt 0); ("bundle_ctrl_type", VInt 0); ("flags", VInt 0);
   ("properties", VList [])]
  [p_int 1 "version"; p_int 1 "type"; p_placeholder; p_int 4 "xid"; p_int 4 "bundle_id";
   p_int 2 "bundle_ctrl_type"; p_int 2 "flags"; p_list "properties"]
  (t_len 2) None []
  [u_check 1 5; u_check 1 33; u_slice 4; u_int 4 "xid"; u_int 4 "bundle_id"; u_int 2 "bundle_ctrl_type";
   u_int 2 "flags"; u_list "properties" "bundle_prop.bundle_prop"]
  false
  ["xid"; "bundle_id"; "bundle_ctrl_type"; "flags"; "properties"]
  [q_hex_or_none "xid"; q_hex "bundle_id"; q_hex "bundle_ctrl_type"; q_hex "flags"; q_pp "properties"].

Definition bundle_failed_error_msg : cls := mk_cls "message.bundle_failed_error_msg"
  ["version" ↦ 5; "type" ↦ 1; "err_type" ↦ 17]
  [("xid", VNone); ("code", VInt 0); ("data", VStr [])]
  [p_int 1 "version"; p_int 1 "type"; p_placeholder; p_int 4 "xid"; p_int 2 "err_type"; p_int 2 "code";
   p_raw "data"]
  (t_len 2) None []
  [u_check 1 5; u_check 1 1; u_slice 4; u_int 4 "xid"; u_check 2 17; u_int 2 "code"; u_rest "data"]
  false
  ["xid"; "code"; "data"]
  [q_hex_or_none "xid"; q_hex "code"; q_pp "data"].

Definition desc_stats_reply : cls := mk_cls "message.desc_stats_reply"
  ["version" ↦ 5; "type" ↦ 19; "stats_type" ↦ 0]
  [("xid", VNone); ("flags", VInt 0); ("mfr_desc", VStr []); ("hw_desc", VStr []); ("sw_desc", VStr []);
   ("serial_num", VStr []); ("dp_desc", VStr [])]
  [p_int 1 "version"; p_int 1 "type"; p_placeholder; p_int 4 "xid"; p_int 2 "stats_type"; p_int 2 "flags";
   p_zeros 4; p_str 256 "mfr_desc"; p_str 256 "hw_desc"; p_str 256 "sw_desc"; p_str 32 "serial_num";
   p_str 256 "dp_desc"]
  (t_len 2) None []
  [u_check 1 5; u_check 1 19; u_slice 4; u_int 4 "xid"; u_check 2 0; u_int 2 "flags"; u_skip 4;
   u_str 256 true "mfr_desc"; u_str 256 true "hw_desc"; u_str 256 true "sw_desc";
   u_str 32 true "serial_num"; u_str 256 true "dp_desc"]
  false
  ["xid"; "flags"; "mfr_desc"; "hw_desc"; "sw_desc"; "serial_num"; "dp_desc"]
  [q_hex_or_none "xid"; q_hex "flags"; q_pp "mfr_desc"; q_pp "hw_desc"; q_pp "sw_desc"; q_pp "serial_num";
   q_pp "dp_desc"].

Definition desc_stats_request : cls := mk_cls "message.desc_stats_request"
  ["version" ↦ 5; "type" ↦ 18; "stats_type" ↦ 0]
  [("xid", VNone); ("flags", VInt 0)]
  [p_int 1 "version"; p_int 1 "type"; p_placeholder; p_int 4 "xid"; p_int 2 "stats_type"; p_int 2 "flags";
   p_zeros 4]
  (t_len 2) None []
  [u_check 1 5; u_check 1 18; u_slice 4; u_int 4 "xid"; u_check 2 0; u_int 2 "flags"; u_skip 4]
  false
  ["xid"; "flags"]
  [q_hex_or_none "xid"; q_hex "flags"].

Definition echo_reply : cls := mk_cls "message.echo_reply"
  ["version" ↦ 5; "type" ↦ 3]
  [("xid", VNone); ("data", VStr [])]
  [p_int 1 "version"; p_int 1 "type"; p_placeholder; p_int 4 "xid"; p_raw "data"]
  (t_len 2) None []
  [u_check 1 5; u_check 1 3; u_slice 4; u_int 4 "xid"; u_rest "data"]
  false
  ["xid"; "data"]
  [q_hex_or_none "xid"; q_pp "data"].

Definition echo_request : cls := mk_cls "message.echo_request"
  ["version" ↦ 5; "type" ↦ 2]
  [("xid", VNone); ("data", VStr [])]
  [p_int 1 "version"; p_int 1 "type"; p_placeholder; p_int 4 "xid"; p_raw "data"]
  (t_len 2) None []
  [u_check 1 5; u_check 1 2; u_slice 4; u_int 4 "xid"; u_rest "data"]
  false
  ["xid"; "data"]
  [q_hex_or_none "xid"; q_pp "data"].

Definition features_reply : cls := mk_cls "message.features_reply"
  ["version" ↦ 5; "type" ↦ 6]
  [("xid", VNone); ("datapath_id", VInt 0); ("n_buffers", VInt 0); ("n_tables", VInt 0);
   ("auxiliary_id", VInt 0); ("capabilities", VInt 0); ("reserved", VInt 0)]
  [p_int 1 "version"; p_int 1 "type"; p_placeholder; p_int 4 "xid"; p_int 8 "datapath_id";
   p_int 4 "n_buffers"; p_int 1 "n_tables"; p_int 1 "auxiliary_id"; p_zeros 2; p_int 4 "capabilities";
   p_int 4 "reserved"]
  (t_len 2) None []
  [u_check 1 5; u_check 1 6; u_slice 4; u_int 4 "xid"; u_int 8 "datapath_id"; u_int 4 "n_buffers";
   u_int 1 "n_tables"; u_int 1 "auxiliary_id"; u_skip 2; u_int 4 "capabilities"; u_int 4 "reserved"]
  false
  ["xid"; "datapath_id"; "n_buffers"; "n_tables"; "auxiliary_id"; "capabilities"; "reserved"]
  [q_hex_or_none "xid"; q_hex "datapath_id"; q_hex "n_buffers"; q_hex "n_tables"; q_hex "auxiliary_id";
   q_hex "capabilities"; q_hex "reserved"].

Definition features_request : cls := mk_cls "message.features_request"
  ["version" ↦ 5; "type" ↦ 5]
  [("xid", VNone)]
  [p_int 1 "version"; p_int 1 "type"; p_placeholder; p_int 4 "xid"]
  (t_len 2) None []
  [u_check 1 5; u_check 1 5; u_slice 4; u_int 4 "xid"]
  false
  ["xid"]
  [q_hex_or_none "xid"].

Definition flow_mod : cls := mk_cls "message.flow_mod"
  ["version" ↦ 5; "type" ↦ 14]
  [("xid", VNone); ("cookie", VInt 0); ("cookie_mask", VInt 0); ("table_id", VInt 0);
   ("_command", VInt 0); ("idle_timeout", VInt 0); ("hard_timeout", VInt 0); ("priority", VInt 0);
   ("buffer_id", VInt 0); ("out_port", VInt 0); ("out_group", VInt 0); ("flags", VInt 0);
   ("match", new_object Common.match_v3); ("instructions", VList [])]
  [p_int 1 "version"; p_int 1 "type"; p_placeholder; p_int 4 "xid"; p_int 8 "cookie";
   p_int 8 "cookie_mask"; p_int 1 "table_id"; p_int 1 "_command"; p_int 2 "idle_timeout";
   p_int 2 "hard_timeout"; p_int 2 "priority"; p_int 4 "buffer_id"; p_int 4 "out_port";
   p_int 4 "out_group"; p_int 2 "flags"; p_zeros 2; p_obj "match"; p_list "instructions"]
  (t_len 2) (Some (1, 25))
  [0 ⇒ "message.flow_add"; 3 ⇒ "message.flow_delete"; 4 ⇒ "message.flow_delete_strict";
   1 ⇒ "message.flow_modify"; 2 ⇒ "message.flow_modify_strict"]
  [u_check 1 5; u_check 1 14; u_slice 4; u_int 4 "xid"; u_int 8 "cookie"; u_int 8 "cookie_mask";
   u_int 1 "table_id"; u_int 1 "_command"; u_int 2 "idle_timeout"; u_int 2 "hard_timeout";
   u_int 2 "priority"; u_int 4 "buffer_id"; u_int 4 "out_port"; u_int 4 "out_group"; u_int 2 "flags";
   u_skip 2; u_obj "match" "common.match_v3"; u_list "instructions" "instruction.instruction"]
  false
  ["xid"; "cookie"; "cookie_mask"; "table_id"; "_command"; "idle_timeout"; "hard_timeout"; "priority";
   "buffer_id"; "out_port"; "out_group"; "flags"; "match"; "instructions"]
  [q_hex_or_none "xid"; q_hex "cookie"; q_hex "cookie_mask"; q_hex "table_id"; q_hex "idle_timeout";
   q_hex "hard_timeout"; q_hex "priority"; q_hex "buffer_id"; q_port "out_port"; q_hex "out_group";
   q_hex "flags"; q_pp "match"; q_pp "instructions"].

Definition flow_add : cls := mk_cls "message.flow_add"
  ["version" ↦ 5; "type" ↦ 14; "_command" ↦ 0]
  [("xid", VNone); ("cookie", VInt 0); ("cookie_mask", VInt 0); ("table_id", VInt 0);
   ("idle_timeout", VInt 0); ("hard_timeout", VInt 0); ("priority", VInt 0); ("buffer_id", VInt 0);
   ("out_port", VInt 0); ("out_group", VInt 0); ("flags", VInt 0); ("importance", VInt 0);
   ("match", new_object Common.match_v3); ("instructions", VList [])]
  [p_int 1 "version"; p_int 1 "type"; p_placeholder; p_int 4 "xid"; p_int 8 "cookie";
   p_int 8 "cookie_mask"; p_int 1 "table_id"; p_int 1 "_command"; p_int 2 "idle_timeout";
   p_int 2 "hard_timeout"; p_int 2 "priority"; p_int 4 "buffer_id"; p_int 4 "out_port";
   p_int 4 "out_group"; p_int 2 "flags"; p_int 2 "importance"; p_obj "match"; p_list "instructions"]
  (t_len 2) None []
  [u_check 1 5; u_check 1 14; u_slice 4; u_int 4 "xid"; u_int 8 "cookie"; u_int 8 "cookie_mask";
   u_int 1 "table_id"; u_check 1 0; u_int 2 "idle_timeout"; u_int 2 "hard_timeout"; u_int 2 "priority";
   u_int 4 "buffer_id"; u_int 4 "out_port"; u_int 4 "out_group"; u_int 2 "flags"; u_int 2 "importance";
   u_obj "match" "common.match_v3"; u_list "instructions" "instruction.instruction"]
  false
  ["xid"; "cookie"; "cookie_mask"; "table_id"; "idle_timeout"; "hard_timeout"; "priority"; "buffer_id";
   "out_port"; "out_group"; "flags"; "importance"; "match"; "instructions"]
  [q_hex_or_none "xid"; q_hex "cookie"; q_hex "cookie_mask"; q_hex "table_id"; q_hex "idle_timeout";
   q_hex "hard_timeout"; q_hex "priority"; q_hex "buffer_id"; q_port "out_port"; q_hex "out_group";
   q_hex "flags"; q_hex "importance"; q_pp "match"; q_pp "instructions"].

Definition flow_delete : cls := mk_cls "message.flow_delete"
  ["version" ↦ 5; "type" ↦ 14; "_command" ↦ 3]
  [("xid", VNone); ("cookie", VInt 0); ("cookie_mask", VInt 0); ("table_id", VInt 0);
   ("idle_timeout", VInt 0); ("hard_timeout", VInt 0); ("priority", VInt 0); ("buffer_id", VInt 0);
   ("out_port", VInt 0); ("out_group", VInt 0); ("flags", VInt 0); ("importance", VInt 0);
   ("match", new_object Common.match_v3); ("instructions", VList [])]
  [p_int 1 "version"; p_int 1 "type"; p_placeholder; p_int 4 "xid"; p_int 8 "cookie";
   p_int 8 "cookie_mask"; p_int 1 "table_id"; p_int 1 "_command"; p_int 2 "idle_timeout";
   p_int 2 "hard_timeout"; p_int 2 "priority"; p_int 4 "buffer_id"; p_int 4 "out_port";
   p_int 4 "out_group"; p_int 2 "flags"; p_int 2 "importance"; p_obj "match"; p_list "instructions"]
  (t_len 2) None []
  [u_check 1 5; u_check 1 14; u_slice 4; u_int 4 "xid"; u_int 8 "cookie"; u_int 8 "cookie_mask";
   u_int 1 "table_id"; u_check 1 3; u_int 2 "idle_timeout"; u_int 2 "hard_timeout"; u_int 2 "priority";
   u_int 4 "buffer_id"; u_int 4 "out_port"; u_int 4 "out_group"; u_int 2 "flags"; u_int 2 "importance";
   u_obj "match" "common.match_v3"; u_list "instructions" "instruction.instruction"]
  false
  ["xid"; "cookie"; "cookie_mask"; "table_id"; "idle_timeout"; "hard_timeout"; "priority"; "buffer_id";
   "out_port"; "out_group"; "flags"; "importance"; "match"; "instructions"]
  [q_hex_or_none "xid"; q_hex "cookie"; q_hex "cookie_mask"; q_hex "table_id"; q_hex "idle_timeout";
   q_hex "hard_timeout"; q_hex "priority"; q_hex "buffer_id"; q_port "out_port"; q_hex "out_group";
   q_hex "flags"; q_hex "importance"; q_pp "match"; q_pp "instructions"].

Definition flow_delete_strict : cls := mk_cls "message.flow_delete_strict"
  ["version" ↦ 5; "type" ↦ 14; "_command" ↦ 4]
  [("xid", VNone); ("cookie", VInt 0); ("cookie_mask", VInt 0); ("table_id", VInt 0);
   ("idle_timeout", VInt 0); ("hard_timeout", VInt 0); ("priority", VInt 0); ("buffer_id", VInt 0);
   ("out_port", VInt 0); ("out_group", VInt 0); ("flags", VInt 0); ("importance", VInt 0);
   ("match", new_object Common.match_v3); ("instructions", VList [])]
  [p_int 1 "version"; p_int 1 "type"; p_placeholder; p_int 4 "xid"; p_int 8 "cookie";
   p_int 8 "cookie_mask"; p_int 1 "table_id"; p_int 1 "_command"; p_int 2 "idle_timeout";
   p_int 2 "hard_timeout"; p_int 2 "priority"; p_int 4 "buffer_id"; p_int 4 "out_port";
   p_int 4 "out_group"; p_int 2 "flags"; p_int 2 "importance"; p_obj "match"; p_list "instructions"]
  (t_len 2) None []
  [u_check 1 5; u_check 1 14; u_slice 4; u_int 4 "xid"; u_int 8 "cookie"; u_int 8 "cookie_mask";
   u_int 1 "table_id"; u_check 1 4; u_int 2 "idle_timeout"; u_int 2 "hard_timeout"; u_int 2 "priority";
   u_int 4 "buffer_id"; u_int 4 "out_port"; u_int 4 "out_group"; u_int 2 "flags"; u_int 2 "importance";
   u_obj "match" "common.match_v3"; u_list "instructions" "instruction.instruction"]
  false
  ["xid"; "cookie"; "cookie_mask"; "table_id"; "idle_timeout"; "hard_timeout"; "priority"; "buffer_id";
   "out_port"; "out_group"; "flags"; "importance"; "match"; "instructions"]
  [q_hex_or_none "xid"; q_hex "cookie"; q_hex "cookie_mask"; q_hex "table_id"; q_hex "idle_timeout";
   q_hex "hard_timeout"; q_hex "priority"; q_hex "buffer_id"; q_port "out_port"; q_hex "out_group";
   q_hex "flags"; q_hex "importance"; q_pp "match"; q_pp "instructions"].

Definition flow_mod_failed_error_msg : cls := mk_cls "message.flow_mod_failed_error_msg"
  ["version" ↦ 5; "type" ↦ 1; "err_type" ↦ 5]
  [("xid", VNone); ("code", VInt 0); ("data", VStr [])]
  [p_int 1 "version"; p_int 1 "type"; p_placeholder; p_int 4 "xid"; p_int 2 "err_type"; p_int 2 "code";
   p_raw "data"]
  (t_len 2) None []
  [u_check 1 5; u_check 1 1; u_slice 4; u_int 4 "xid"; u_check 2 5; u_int 2 "code"; u_rest "data"]
  false
  ["xid"; "code"; "data"]
  [q_hex_or_none "xid"; q_hex "code"; q_pp "data"].

Definition flow_modify : cls := mk_cls "message.flow_modify"
  ["version" ↦ 5; "type" ↦ 14; "_command" ↦ 1]
  [("xid", VNone); ("cookie", VInt 0); ("cookie_mask", VInt 0); ("table_id", VInt 0);
   ("idle_timeout", VInt 0); ("hard_timeout", VInt 0); ("priority", VInt 0); ("buffer_id", VInt 0);
   ("out_port", VInt 0); ("out_group", VInt 0); ("flags", VInt 0); ("importance", VInt 0);
   ("match", new_object Common.match_v3); ("instructions", VList [])]
  [p_int 1 "version"; p_int 1 "type"; p_placeholder; p_int 4 "xid"; p_int 8 "cookie";
   p_int 8 "cookie_mask"; p_int 1 "table_id"; p_int 1 "_command"; p_int 2 "idle_timeout";
   p_int 2 "hard_timeout"; p_int 2 "priority"; p_int 4 "buffer_id"; p_int 4 "out_port";
   p_int 4 "out_group"; p_int 2 "flags"; p_int 2 "importance"; p_obj "match"; p_list "instructions"]
  (t_len 2) None []
  [u_check 1 5; u_check 1 14; u_slice 4; u_int 4 "xid"; u_int 8 "cookie"; u_int 8 "cookie_mask";
   u_int 1 "table_id"; u_check 1 1; u_int 2 "idle_timeout"; u_int 2 "hard_timeout"; u_int 2 "priority";
   u_int 4 "buffer_id"; u_int 4 "out_port"; u_int 4 "out_group"; u_int 2 "flags"; u_int 2 "importance";
   u_obj "match" "common.match_v3"; u_list "instructions" "instruction.instruction"]
  false
  ["xid"; "cookie"; "cookie_mask"; "table_id"; "idle_timeout"; "hard_timeout"; "priority"; "buffer_id";
   "out_port"; "out_group"; "flags"; "importance"; "match"; "instructions"]
  [q_hex_or_none "xid"; q_hex "cookie"; q_hex "cookie_mask"; q_hex "table_id"; q_hex "idle_timeout";
   q_hex "hard_timeout"; q_hex "priority"; q_hex "buffer_id"; q_port "out_port"; q_hex "out_group";
   q_hex "flags"; q_hex "importance"; q_pp "match"; q_pp "instructions"].

Definition flow_modify_strict : cls := mk_cls "message.flow_modify_strict"
  ["version" ↦ 5; "type" ↦ 14; "_command" ↦ 2]
  [("xid", VNone); ("cookie", VInt 0); ("cookie_mask", VInt 0); ("table_id", VInt 0);
   ("idle_timeout", VInt 0); ("hard_timeout", VInt 0); ("priority", VInt 0); ("buffer_id", VInt 0);
   ("out_port", VInt 0); ("out_group", VInt 0); ("flags", VInt 0); ("importance", VInt 0);
   ("match", new_object Common.match_v3); ("instructions", VList [])]
  [p_int 1 "version"; p_int 1 "type"; p_placeholder; p_int 4 "xid"; p_int 8 "cookie";
   p_int 8 "cookie_mask"; p_int 1 "table_id"; p_int 1 "_command"; p_int 2 "idle_timeout";
   p_int 2 "hard_timeout"; p_int 2 "priority"; p_int 4 "buffer_id"; p_int 4 "out_port";
   p_int 4 "out_group"; p_int 2 "flags"; p_int 2 "importance"; p_obj "match"; p_list "instructions"]
  (t_len 2) None []
  [u_check 1 5; u_check 1 14; u_slice 4; u_int 4 "xid"; u_int 8 "cookie"; u_int 8 "cookie_mask";
   u_int 1 "table_id"; u_check 1 2; u_int 2 "idle_timeout"; u_int 2 "hard_timeout"; u_int 2 "priority";
   u_int 4 "buffer_id"; u_int 4 "out_port"; u_int 4 "out_group"; u_int 2 "flags"; u_int 2 "importance";
   u_obj "match" "common.match_v3"; u_list "instructions" "instruction.instruction"]
  false
  ["xid"; "cookie"; "cookie_mask"; "table_id"; "idle_timeout"; "hard_timeout"; "priority"; "buffer_id";
   "out_port"; "out_group"; "flags"; "importance"; "match"; "instructions"]
  [q_hex_or_none "xid"; q_hex "cookie"; q_hex "cookie_mask"; q_hex "table_id"; q_hex "idle_timeout";
   q_hex "hard_timeout"; q_hex "priority"; q_hex "buffer_id"; q_port "out_port"; q_hex "out_group";
   q_hex "flags"; q_hex "importance"; q_pp "match"; q_pp "instructions"].

Definition flow_monitor_failed_error_msg : cls := mk_cls "message.flow_monitor_failed_error_msg"
  ["version" ↦ 5; "type" ↦ 1; "err_type" ↦ 16]
  [("xid", VNone); ("code", VInt 0); ("data", VStr [])]
  [p_int 1 "version"; p_int 1 "type"; p_placeholder; p_int 4 "xid"; p_int 2 "err_type"; p_int 2 "code";
   p_raw "data"]
  (t_len 2) None []
  [u_check 1 5; u_check 1 1; u_slice 4; u_int 4 "xid"; u_check 2 16; u_int 2 "code"; u_rest "data"]
  false
  ["xid"; "code"; "data"]
  [q_hex_or_none "xid"; q_hex "code"; q_pp "data"].

Definition flow_removed : cls := mk_cls "message.flow_removed"
  ["version" ↦ 5; "type" ↦ 11]
  [("xid", VNone); ("cookie", VInt 0); ("priority", VInt 0); ("reason", VInt 0); ("table_id", VInt 0);
   ("duration_sec", VInt 0); ("duration_nsec", VInt 0); ("idle_timeout", VInt 0);
   ("hard_timeout", VInt 0); ("packet_count", VInt 0); ("byte_count", VInt 0);
   ("match", new_object Common.match_v3)]
  [p_int 1 "version"; p_int 1 "type"; p_placeholder; p_int 4 "xid"; p_int 8 "cookie"; p_int 2 "priority";
   p_int 1 "reason"; p_int 1 "table_id"; p_int 4 "duration_sec"; p_int 4 "duration_nsec";
   p_int 2 "idle_timeout"; p_int 2 "hard_timeout"; p_int 8 "packet_count"; p_int 8 "byte_count";
   p_obj "match"]
  (t_len 2) None []
  [u_check 1 5; u_check 1 11; u_slice 4; u_int 4 "xid"; u_int 8 "cookie"; u_int 2 "priority";
   u_int 1 "reason"; u_int 1 "table_id"; u_int 4 "duration_sec"; u_int 4 "duration_nsec";
   u_int 2 "idle_timeout"; u_int 2 "hard_timeout"; u_int 8 "packet_count"; u_int 8 "byte_count";
   u_obj "match" "common.match_v3"]
  false
  ["xid"; "cookie"; "priority"; "reason"; "table_id"; "duration_sec"; "duration_nsec"; "idle_timeout";
   "hard_timeout"; "packet_count"; "byte_count"; "match"]
  [q_hex_or_none "xid"; q_hex "cookie"; q_hex "priority"; q_hex "reason"; q_hex "table_id";
   q_hex "duration_sec"; q_hex "duration_nsec"; q_hex "idle_timeout"; q_hex "hard_timeout";
   q_hex "packet_count"; q_hex "byte_count"; q_pp "match"].

Definition flow_stats_reply : cls := mk_cls "message.flow_stats_reply"
  ["version" ↦ 5; "type" ↦ 19; "stats_type" ↦ 1]
  [("xid", VNone); ("flags", VInt 0); ("entries", VList [])]
  [p_int 1 "version"; p_int 1 "type"; p_placeholder; p_int 4 "xid"; p_int 2 "stats_type"; p_int 2 "flags";
   p_zeros 4; p_list "entries"]
  (t_len 2) None []
  [u_check 1 5; u_check 1 19; u_slice 4; u_int 4 "xid"; u_check 2 1; u_int 2 "flags"; u_skip 4;
   u_list "entries" "common.flow_stats_entry"]
  false
  ["xid"; "flags"; "entries"]
  [q_hex_or_none "xid"; q_hex "flags"; q_pp "entries"].

Definition flow_stats_request : cls := mk_cls "message.flow_stats_request"
  ["version" ↦ 5; "type" ↦ 18; "stats_type" ↦ 1]
  [("xid", VNone); ("flags", VInt 0); ("table_id", VInt 0); ("out_port", VInt 0); ("out_group", VInt 0);
   ("cookie", VInt 0); ("cookie_mask", VInt 0); ("match", new_object Common.match_v3)]
  [p_int 1 "version"; p_int 1 "type"; p_placeholder; p_int 4 "xid"; p_int 2 "stats_type"; p_int 2 "flags";
   p_zeros 4; p_int 1 "table_id"; p_zeros 3; p_int 4 "out_port"; p_int 4 "out_group"; p_zeros 4;
   p_int 8 "cookie"; p_int 8 "cookie_mask"; p_obj "match"]
  (t_len 2) None []
  [u_check 1 5; u_check 1 18; u_slice 4; u_int 4 "xid"; u_check 2 1; u_int 2 "flags"; u_skip 4;
   u_int 1 "table_id"; u_skip 3; u_int 4 "out_port"; u_int 4 "out_group"; u_skip 4; u_int 8 "cookie";
   u_int 8 "cookie_mask"; u_obj "match" "common.match_v3"]
  false
  ["xid"; "flags"; "table_id"; "out_port"; "out_group"; "cookie"; "cookie_mask"; "match"]
  [q_hex_or_none "xid"; q_hex "flags"; q_hex "table_id"; q_port "out_port"; q_hex "out_group";
   q_hex "cookie"; q_hex "cookie_mask"; q_pp "match"].

Definition get_config_reply : cls := mk_cls "message.get_config_reply"
  ["version" ↦ 5; "type" ↦ 8]
  [("xid", VNone); ("flags", VInt 0); ("miss_send_len", VInt 0)]
  [p_int 1 "version"; p_int 1 "type"; p_placeholder; p_int 4 "xid"; p_int 2 "flags";
   p_int 2 "miss_send_len"]
  (t_len 2) None []
  [u_check 1 5; u_check 1 8; u_slice 4; u_int 4 "xid"; u_int 2 "flags"; u_int 2 "miss_send_len"]
  false
  ["xid"; "flags"; "miss_send_len"]
  [q_hex_or_none "xid"; q_hex "flags"; q_hex "miss_send_len"].

Definition get_config_request : cls := mk_cls "message.get_config_request"
  ["version" ↦ 5; "type" ↦ 7]
  [("xid", VNone)]
  [p_int 1 "version"; p_int 1 "type"; p_placeholder; p_int 4 "xid"]
  (t_len 2) None []
  [u_check 1 5; u_check 1 7; u_slice 4; u_int 4 "xid"]
  false
  ["xid"]
  [q_hex_or_none "xid"].

Definition group_mod : cls := mk_cls "message.group_mod"
  ["version" ↦ 5; "type" ↦ 15]
  [("xid", VNone); ("command", VInt 0); ("group_type", VInt 0); ("group_id", VInt 0);
   ("buckets", VList [])]
  [p_int 1 "version"; p_int 1 "type"; p_placeholder; p_int 4 "xid"; p_int 2 "command";
   p_int 1 "group_type"; p_zeros 1; p_int 4 "group_id"; p_list "buckets"]
  (t_len 2) (Some (2, 8))
  [0 ⇒ "message.group_add"; 2 ⇒ "message.group_delete"; 1 ⇒ "message.group_modify"]
  [u_check 1 5; u_check 1 15; u_slice 4; u_int 4 "xid"; u_int 2 "command"; u_int 1 "group_type"; u_skip 1;
   u_int 4 "group_id"; u_list "buckets" "common.bucket"]
  false
  ["xid"; "command"; "group_type"; "group_id"; "buckets"]
  [q_hex_or_none "xid"; q_hex "group_type"; q_hex "group_id"; q_pp "buckets"].

Definition group_add : cls := mk_cls "message.group_add"
  ["version" ↦ 5; "type" ↦ 15; "command" ↦ 0]
  [("xid", VNone); ("group_type", VInt 0); ("group_id", VInt 0); ("buckets", VList [])]
  [p_int 1 "version"; p_int 1 "type"; p_placeholder; p_int 4 "xid"; p_int 2 "command";
   p_int 1 "group_type"; p_zeros 1; p_int 4 "group_id"; p_list "buckets"]
  (t_len 2) None []
  [u_check 1 5; u_check 1 15; u_slice 4; u_int 4 "xid"; u_check 2 0; u_int 1 "group_type"; u_skip 1;
   u_int 4 "group_id"; u_list "buckets" "common.bucket"]
  false
  ["xid"; "group_type"; "group_id"; "buckets"]
  [q_hex_or_none "xid"; q_hex "group_type"; q_hex "group_id"; q_pp "buckets"].

Definition group_delete : cls := mk_cls "message.group_delete"
  ["version" ↦ 5; "type" ↦ 15; "command" ↦ 2]
  [("xid", VNone); ("group_type", VInt 0); ("group_id", VInt 0); ("buckets", VList [])]
  [p_int 1 "version"; p_int 1 "type"; p_placeholder; p_int 4 "xid"; p_int 2 "command";
   p_int 1 "group_type"; p_zeros 1; p_int 4 "group_id"; p_list "buckets"]
  (t_len 2) None []
  [u_check 1 5; u_check 1 15; u_slice 4; u_int 4 "xid"; u_check 2 2; u_int 1 "group_type"; u_skip 1;
   u_int 4 "group_id"; u_list "buckets" "common.bucket"]
  false
  ["xid"; "group_type"; "group_id"; "buckets"]
  [q_hex_or_none "xid"; q_hex "group_type"; q_hex "group_id"; q_pp "buckets"].

Definition group_desc_stats_reply : cls := mk_cls "message.group_desc_stats_reply"
  ["version" ↦ 5; "type" ↦ 19; "stats_type" ↦ 7]
  [("xid", VNone); ("flags", VInt 0); ("entries", VList [])]
  [p_int 1 "version"; p_int 1 "type"; p_placeholder; p_int 4 "xid"; p_int 2 "stats_type"; p_int 2 "flags";
   p_zeros 4; p_list "entries"]
  (t_len 2) None []
  [u_check 1 5; u_check 1 19; u_slice 4; u_int 4 "xid"; u_check 2 7; u_int 2 "flags"; u_skip 4;
   u_list "entries" "common.group_desc_stats_entry"]
  false
  ["xid"; "flags"; "entries"]
  [q_hex_or_none "xid"; q_hex "flags"; q_pp "entries"].

Definition group_desc_stats_request : cls := mk_cls "message.group_desc_stats_request"
  ["version" ↦ 5; "type" ↦ 18; "stats_type" ↦ 7]
  [("xid", VNone); ("flags", VInt 0)]
  [p_int 1 "version"; p_int 1 "type"; p_placeholder; p_int 4 "xid"; p_int 2 "stats_type"; p_int 2 "flags";
   p_zeros 4]
  (t_len 2) None []
  [u_check 1 5; u_check 1 18; u_slice 4; u_int 4 "xid"; u_check 2 7; u_int 2 "flags"; u_skip 4]
  false
  ["xid"; "flags"]
  [q_hex_or_none "xid"; q_hex "flags"].

Definition group_features_stats_reply : cls := mk_cls "message.group_features_stats_reply"
  ["version" ↦ 5; "type" ↦ 19; "stats_type" ↦ 8]
  [("xid", VNone); ("flags", VInt 0); ("types", VInt 0); ("capabilities", VInt 0);
   ("max_groups_all", VInt 0); ("max_groups_select", VInt 0); ("max_groups_indirect", VInt 0);
   ("max_groups_ff", VInt 0); ("actions_all", VInt 0); ("actions_select", VInt 0);
   ("actions_indirect", VInt 0); ("actions_ff", VInt 0)]
  [p_int 1 "version"; p_int 1 "type"; p_placeholder; p_int 4 "xid"; p_int 2 "stats_type"; p_int 2 "flags";
   p_zeros 4; p_int 4 "types"; p_int 4 "capabilities"; p_int 4 "max_groups_all";
   p_int 4 "max_groups_select"; p_int 4 "max_groups_indirect"; p_int 4 "max_groups_ff";
   p_int 4 "actions_all"; p_int 4 "actions_select"; p_int 4 "actions_indirect"; p_int 4 "actions_ff"]
  (t_len 2) None []
  [u_check 1 5; u_check 1 19; u_slice 4; u_int 4 "xid"; u_check 2 8; u_int 2 "flags"; u_skip 4;
   u_int 4 "types"; u_int 4 "capabilities"; u_int 4 "max_groups_all"; u_int 4 "max_groups_select";
   u_int 4 "max_groups_indirect"; u_int 4 "max_groups_ff"; u_int 4 "actions_all";
   u_int 4 "actions_select"; u_int 4 "actions_indirect"; u_int 4 "actions_ff"]
  false
  ["xid"; "flags"; "types"; "capabilities"; "max_groups_all"; "max_groups_select"; "max_groups_indirect";
   "max_groups_ff"; "actions_all"; "actions_select"; "actions_indirect"; "actions_ff"]
  [q_hex_or_none "xid"; q_hex "flags"; q_hex "types"; q_hex "capabilities"; q_hex "max_groups_all";
   q_hex "max_groups_select"; q_hex "max_groups_indirect"; q_hex "max_groups_ff"; q_hex "actions_all";
   q_hex "actions_select"; q_hex "actions_indirect"; q_hex "actions_ff"].

Definition group_features_stats_request : cls := mk_cls "message.group_features_stats_request"
  ["version" ↦ 5; "type" ↦ 18; "stats_type" ↦ 8]
  [("xid", VNone); ("flags", VInt 0)]
  [p_int 1 "version"; p_int 1 "type"; p_placeholder; p_int 4 "xid"; p_int 2 "stats_type"; p_int 2 "flags";
   p_zeros 4]
  (t_len 2) None []
  [u_check 1 5; u_check 1 18; u_slice 4; u_int 4 "xid"; u_check 2 8; u_int 2 "flags"; u_skip 4]
  false
  ["xid"; "flags"]
  [q_hex_or_none "xid"; q_hex "flags"].

Definition group_mod_failed_error_msg : cls := mk_cls "message.group_mod_failed_error_msg"
  ["version" ↦ 5; "type" ↦ 1; "err_type" ↦ 6]
  [("xid", VNone); ("code", VInt 0); ("data", VStr [])]
  [p_int 1 "version"; p_int 1 "type"; p_placeholder; p_int 4 "xid"; p_int 2 "err_type"; p_int 2 "code";
   p_raw "data"]
  (t_len 2) None []
  [u_check 1 5; u_check 1 1; u_slice 4; u_int 4 "xid"; u_check 2 6; u_int 2 "code"; u_rest "data"]
  false
  ["xid"; "code"; "data"]
  [q_hex_or_none "xid"; q_hex "code"; q_pp "data"].

Definition group_modify : cls := mk_cls "message.group_modify"
  ["version" ↦ 5; "type" ↦ 15; "command" ↦ 1]
  [("xid", VNone); ("group_type", VInt 0); ("group_id", VInt 0); ("buckets", VList [])]
  [p_int 1 "version"; p_int 1 "type"; p_placeholder; p_int 4 "xid"; p_int 2 "command";
   p_int 1 "group_type"; p_zeros 1; p_int 4 "group_id"; p_list "buckets"]
  (t_len 2) None []
  [u_check 1 5; u_check 1 15; u_slice 4; u_int 4 "xid"; u_check 2 1; u_int 1 "group_type"; u_skip 1;
   u_int 4 "group_id"; u_list "buckets" "common.bucket"]
  false
  ["xid"; "group_type"; "group_id"; "buckets"]
  [q_hex_or_none "xid"; q_hex "group_type"; q_hex "group_id"; q_pp "buckets"].

Definition group_stats_reply : cls := mk_cls "message.group_stats_reply"
  ["version" ↦ 5; "type" ↦ 19; "stats_type" ↦ 6]
  [("xid", VNone); ("flags", VInt 0); ("entries", VList [])]
  [p_int 1 "version"; p_int 1 "type"; p_placeholder; p_int 4 "xid"; p_int 2 "stats_type"; p_int 2 "flags";
   p_zeros 4; p_list "entries"]
  (t_len 2) None []
  [u_check 1 5; u_check 1 19; u_slice 4; u_int 4 "xid"; u_check 2 6; u_int 2 "flags"; u_skip 4;
   u_list "entries" "common.group_stats_entry"]
  false
  ["xid"; "flags"; "entries"]
  [q_hex_or_none "xid"; q_hex "flags"; q_pp "entries"].

Definition group_stats_request : cls := mk_cls "message.group_stats_request"
  ["version" ↦ 5; "type" ↦ 18; "stats_type" ↦ 6]
  [("xid", VNone); ("flags", VInt 0); ("group_id", VInt 0)]
  [p_int 1 "version"; p_int 1 "type"; p_placeholder; p_int 4 "xid"; p_int 2 "stats_type"; p_int 2 "flags";
   p_zeros 4; p_int 4 "group_id"; p_zeros 4]
  (t_len 2) None []
  [u_check 1 5; u_check 1 18; u_slice 4; u_int 4 "xid"; u_check 2 6; u_int 2 "flags"; u_skip 4;
   u_int 4 "group_id"; u_skip 4]
  false
  ["xid"; "flags"; "group_id"]
  [q_hex_or_none "xid"; q_hex "flags"; q_hex "group_id"].

Definition hello : cls := mk_cls "message.hello"
  ["version" ↦ 5; "type" ↦ 0]
  [("xid", VNone); ("elements", VList [])]
  [p_int 1 "version"; p_int 1 "type"; p_placeholder; p_int 4 "xid"; p_list "elements"]
  (t_len 2) None []
  [u_check 1 5; u_check 1 0; u_slice 4; u_int 4 "xid"; u_list "elements" "common.hello_elem"]
  false
  ["xid"; "elements"]
  [q_hex_or_none "xid"; q_pp "elements"].

Definition hello_failed_error_msg : cls := mk_cls "message.hello_failed_error_msg"
  ["version" ↦ 5; "type" ↦ 1; "err_type" ↦ 0]
  [("xid", VNone); ("code", VInt 0); ("data", VStr [])]
  [p_int 1 "version"; p_int 1 "type"; p_placeholder; p_int 4 "xid"; p_int 2 "err_type"; p_int 2 "code";
   p_raw "data"]
  (t_len 2) None []
  [u_check 1 5; u_check 1 1; u_slice 4; u_int 4 "xid"; u_check 2 0; u_int 2 "code"; u_rest "data"]
  false
  ["xid"; "code"; "data"]
  [q_hex_or_none "xid"; q_hex "code"; q_pp "data"].

Definition meter_config_stats_reply : cls := mk_cls "message.meter_config_stats_reply"
  ["version" ↦ 5; "type" ↦ 19; "stats_type" ↦ 10]
  [("xid", VNone); ("flags", VInt 0); ("entries", VList [])]
  [p_int 1 "version"; p_int 1 "type"; p_placeholder; p_int 4 "xid"; p_int 2 "stats_type"; p_int 2 "flags";
   p_zeros 4; p_list "entries"]
  (t_len 2) None []
  [u_check 1 5; u_check 1 19; u_slice 4; u_int 4 "xid"; u_check 2 10; u_int 2 "flags"; u_skip 4;
   u_list "entries" "common.meter_config"]
  false
  ["xid"; "flags"; "entries"]
  [q_hex_or_none "xid"; q_hex "flags"; q_pp "entries"].

Definition meter_config_stats_request : cls := mk_cls "message.meter_config_stats_request"
  ["version" ↦ 5; "type" ↦ 18; "stats_type" ↦ 10]
  [("xid", VNone); ("flags", VInt 0); ("meter_id", VInt 0)]
  [p_int 1 "version"; p_int 1 "type"; p_placeholder; p_int 4 "xid"; p_int 2 "stats_type"; p_int 2 "flags";
   p_zeros 4; p_int 4 "meter_id"; p_zeros 4]
  (t_len 2) None []
  [u_check 1 5; u_check 1 18; u_slice 4; u_int 4 "xid"; u_check 2 10; u_int 2 "flags"; u_skip 4;
   u_int 4 "meter_id"; u_skip 4]
  false
  ["xid"; "flags"; "meter_id"]
  [q_hex_or_none "xid"; q_hex "flags"; q_hex "meter_id"].

Definition meter_features_stats_reply : cls := mk_cls "message.meter_features_stats_reply"
  ["version" ↦ 5; "type" ↦ 19; "stats_type" ↦ 11]
  [("xid", VNone); ("flags", VInt 0); ("features", new_object Common.meter_features)]
  [p_int 1 "version"; p_int 1 "type"; p_placeholder; p_int 4 "xid"; p_int 2 "stats_type"; p_int 2 "flags";
   p_zeros 4; p_obj "features"]
  (t_len 2) None []
  [u_check 1 5; u_check 1 19; u_slice 4; u_int 4 "xid"; u_check 2 11; u_int 2 "flags"; u_skip 4;
   u_obj "features" "common.meter_features"]
  false
  ["xid"; "flags"; "features"]
  [q_hex_or_none "xid"; q_hex "flags"; q_pp "features"].

Definition meter_features_stats_request : cls := mk_cls "message.meter_features_stats_request"
  ["version" ↦ 5; "type" ↦ 18; "stats_type" ↦ 11]
  [("xid", VNone); ("flags", VInt 0)]
  [p_int 1 "version"; p_int 1 "type"; p_placeholder; p_int 4 "xid"; p_int 2 "stats_type"; p_int 2 "flags";
   p_zeros 4]
  (t_len 2) None []
  [u_check 1 5; u_check 1 18; u_slice 4; u_int 4 "xid"; u_check 2 11; u_int 2 "flags"; u_skip 4]
  false
  ["xid"; "flags"]
  [q_hex_or_none "xid"; q_hex "flags"].

Definition meter_mod : cls := mk_cls "message.meter_mod"
  ["version" ↦ 5; "type" ↦ 29]
  [("xid", VNone); ("command", VInt 0); ("flags", VInt 0); ("meter_id", VInt 0); ("bands", VList [])]
  [p_int 1 "version"; p_int 1 "type"; p_placeholder; p_int 4 "xid"; p_int 2 "command"; p_int 2 "flags";
   p_int 4 "meter_id"; p_list "bands"]
  (t_len 2) None []
  [u_check 1 5; u_check 1 29; u_slice 4; u_int 4 "xid"; u_int 2 "command"; u_int 2 "flags";
   u_int 4 "meter_id"; u_list "bands" "meter_band.meter_band"]
  false
  ["xid"; "command"; "flags"; "meter_id"; "bands"]
  [q_hex_or_none "xid"; q_hex "command"; q_hex "flags"; q_hex "meter_id"; q_pp "bands"].

Definition meter_mod_failed_error_msg : cls := mk_cls "message.meter_mod_failed_error_msg"
  ["version" ↦ 5; "type" ↦ 1; "err_type" ↦ 12]
  [("xid", VNone); ("code", VInt 0); ("data", VStr [])]
  [p_int 1 "version"; p_int 1 "type"; p_placeholder; p_int 4 "xid"; p_int 2 "err_type"; p_int 2 "code";
   p_raw "data"]
  (t_len 2) None []
  [u_check 1 5; u_check 1 1; u_slice 4; u_int 4 "xid"; u_check 2 12; u_int 2 "code"; u_rest "data"]
  false
  ["xid"; "code"; "data"]
  [q_hex_or_none "xid"; q_hex "code"; q_pp "data"].

Definition meter_stats_reply : cls := mk_cls "message.meter_stats_reply"
  ["version" ↦ 5; "type" ↦ 19; "stats_type" ↦ 9]
  [("xid", VNone); ("flags", VInt 0); ("entries", VList [])]
  [p_int 1 "version"; p_int 1 "type"; p_placeholder; p_int 4 "xid"; p_int 2 "stats_type"; p_int 2 "flags";
   p_zeros 4; p_list "entries"]
  (t_len 2) None []
  [u_check 1 5; u_check 1 19; u_slice 4; u_int 4 "xid"; u_check 2 9; u_int 2 "flags"; u_skip 4;
   u_list "entries" "common.meter_stats"]
  false
  ["xid"; "flags"; "entries"]
  [q_hex_or_none "xid"; q_hex "flags"; q_pp "entries"].

Definition meter_stats_request : cls := mk_cls "message.meter_stats_request"
  ["version" ↦ 5; "type" ↦ 18; "stats_type" ↦ 9]
  [("xid", VNone); ("flags", VInt 0); ("meter_id", VInt 0)]
  [p_int 1 "version"; p_int 1 "type"; p_placeholder; p_int 4 "xid"; p_int 2 "stats_type"; p_int 2 "flags";
   p_zeros 4; p_int 4 "meter_id"; p_zeros 4]
  (t_len 2) None []
  [u_check 1 5; u_check 1 18; u_slice 4; u_int 4 "xid"; u_check 2 9; u_int 2 "flags"; u_skip 4;
   u_int 4 "meter_id"; u_skip 4]
  false
  ["xid"; "flags"; "meter_id"]
  [q_hex_or_none "xid"; q_hex "flags"; q_hex "meter_id"].

Definition nicira_header : cls := mk_cls "message.nicira_header"
  ["version" ↦ 5; "type" ↦ 4; "experimenter" ↦ 8992]
  [("xid", VNone); ("subtype", VInt 0)]
  [p_int 1 "version"; p_int 1 "type"; p_placeholder; p_int 4 "xid"; p_int 4 "experimenter";
   p_int 4 "subtype"]
  (t_len 2) (Some (4, 12)) []
  [u_check 1 5; u_check 1 4; u_slice 4; u_int 4 "xid"; u_check 4 8992; u_int 4 "subtype"]
  false
  ["xid"; "subtype"]
  [q_hex_or_none "xid"].

Definition packet_in : cls := mk_cls "message.packet_in"
  ["version" ↦ 5; "type" ↦ 10]
  [("xid", VNone); ("buffer_id", VInt 0); ("total_len", VInt 0); ("reason", VInt 0); ("table_id", VInt 0);
   ("cookie", VInt 0); ("match", new_object Common.match_v3); ("data", VStr [])]
  [p_int 1 "version"; p_int 1 "type"; p_placeholder; p_int 4 "xid"; p_int 4 "buffer_id";
   p_int 2 "total_len"; p_int 1 "reason"; p_int 1 "table_id"; p_int 8 "cookie"; p_obj "match"; p_zeros 2;
   p_raw "data"]
  (t_len 2) None []
  [u_check 1 5; u_check 1 10; u_slice 4; u_int 4 "xid"; u_int 4 "buffer_id"; u_int 2 "total_len";
   u_int 1 "reason"; u_int 1 "table_id"; u_int 8 "cookie"; u_obj "match" "common.match_v3"; u_skip 2;
   u_rest "data"]
  false
  ["xid"; "buffer_id"; "total_len"; "reason"; "table_id"; "cookie"; "match"; "data"]
  [q_hex_or_none "xid"; q_hex "buffer_id"; q_hex "total_len"; q_hex "reason"; q_hex "table_id";
   q_hex "cookie"; q_pp "match"; q_pp "data"].

Definition packet_out : cls := mk_cls "message.packet_out"
  ["version" ↦ 5; "type" ↦ 13]
  [("xid", VNone); ("buffer_id", VInt 0); ("in_port", VInt 0); ("actions", VList []); ("data", VStr [])]
  [p_int 1 "version"; p_int 1 "type"; p_placeholder; p_int 4 "xid"; p_int 4 "buffer_id";
   p_int 4 "in_port"; p_placeholder; p_zeros 6; p_list_len "actions" 6; p_raw "data"]
  (t_len 2) None []
  [u_check 1 5; u_check 1 13; u_slice 4; u_int 4 "xid"; u_int 4 "buffer_id"; u_int 4 "in_port"; u_sublen;
   u_skip 6; u_sublist "actions" "action.action"; u_rest "data"]
  false
  ["xid"; "buffer_id"; "in_port"; "actions"; "data"]
  [q_hex_or_none "xid"; q_hex "buffer_id"; q_port "in_port"; q_pp "actions"; q_pp "data"].

Definition port_desc_stats_reply : cls := mk_cls "message.port_desc_stats_reply"
  ["version" ↦ 5; "type" ↦ 19; "stats_type" ↦ 13]
  [("xid", VNone); ("flags", VInt 0); ("entries", VList [])]
  [p_int 1 "version"; p_int 1 "type"; p_placeholder; p_int 4 "xid"; p_int 2 "stats_type"; p_int 2 "flags";
   p_zeros 4; p_list "entries"]
  (t_len 2) None []
  [u_check 1 5; u_check 1 19; u_slice 4; u_int 4 "xid"; u_check 2 13; u_int 2 "flags"; u_skip 4;
   u_list "entries" "common.port_desc"]
  false
  ["xid"; "flags"; "entries"]
  [q_hex_or_none "xid"; q_hex "flags"; q_pp "entries"].

Definition port_desc_stats_request : cls := mk_cls "message.port_desc_stats_request"
  ["version" ↦ 5; "type" ↦ 18; "stats_type" ↦ 13]
  [("xid", VNone); ("flags", VInt 0)]
  [p_int 1 "version"; p_int 1 "type"; p_placeholder; p_int 4 "xid"; p_int 2 "stats_type"; p_int 2 "flags";
   p_zeros 4]
  (t_len 2) None []
  [u_check 1 5; u_check 1 18; u_slice 4; u_int 4 "xid"; u_check 2 13; u_int 2 "flags"; u_skip 4]
  false
  ["xid"; "flags"]
  [q_hex_or_none "xid"; q_hex "flags"].

Definition port_mod : cls := mk_cls "message.port_mod"
  ["version" ↦ 5; "type" ↦ 16]
  [("xid", VNone); ("port_no", VInt 0); ("hw_addr", VInts [0; 0; 0; 0; 0; 0]%Z); ("config", VInt 0);
   ("mask", VInt 0); ("properties", VList [])]
  [p_int 1 "version"; p_int 1 "type"; p_placeholder; p_int 4 "xid"; p_int 4 "port_no"; p_zeros 4;
   p_bytes 6 "hw_addr"; p_zeros 2; p_int 4 "config"; p_int 4 "mask"; p_list "properties"]
  (t_len 2) None []
  [u_check 1 5; u_check 1 16; u_slice 4; u_int 4 "xid"; u_int 4 "port_no"; u_skip 4; u_bytes 6 "hw_addr";
   u_skip 2; u_int 4 "config"; u_int 4 "mask"; u_list "properties" "port_mod_prop.port_mod_prop"]
  false
  ["xid"; "port_no"; "hw_addr"; "config"; "mask"; "properties"]
  [q_hex_or_none "xid"; q_port "port_no"; q_mac "hw_addr"; q_hex "config"; q_hex "mask";
   q_pp "properties"].

Definition port_mod_failed_error_msg : cls := mk_cls "message.port_mod_failed_error_msg"
  ["version" ↦ 5; "type" ↦ 1; "err_type" ↦ 7]
  [("xid", VNone); ("code", VInt 0); ("data", VStr [])]
  [p_int 1 "version"; p_int 1 "type"; p_placeholder; p_int 4 "xid"; p_int 2 "err_type"; p_int 2 "code";
   p_raw "data"]
  (t_len 2) None []
  [u_check 1 5; u_check 1 1; u_slice 4; u_int 4 "xid"; u_check 2 7; u_int 2 "code"; u_rest "data"]
  false
  ["xid"; "code"; "data"]
  [q_hex_or_none "xid"; q_hex "code"; q_pp "data"].

Definition port_stats_reply : cls := mk_cls "message.port_stats_reply"
  ["version" ↦ 5; "type" ↦ 19; "stats_type" ↦ 4]
  [("xid", VNone); ("flags", VInt 0); ("entries", VList [])]
  [p_int 1 "version"; p_int 1 "type"; p_placeholder; p_int 4 "xid"; p_int 2 "stats_type"; p_int 2 "flags";
   p_zeros 4; p_list "entries"]
  (t_len 2) None []
  [u_check 1 5; u_check 1 19; u_slice 4; u_int 4 "xid"; u_check 2 4; u_int 2 "flags"; u_skip 4;
   u_list "entries" "common.port_stats_entry"]
  false
  ["xid"; "flags"; "entries"]
  [q_hex_or_none "xid"; q_hex "flags"; q_pp "entries"].

Definition port_stats_request : cls := mk_cls "message.port_stats_request"
  ["version" ↦ 5; "type" ↦ 18; "stats_type" ↦ 4]
  [("xid", VNone); ("flags", VInt 0); ("port_no", VInt 0)]
  [p_int 1 "version"; p_int 1 "type"; p_placeholder; p_int 4 "xid"; p_int 2 "stats_type"; p_int 2 "flags";
   p_zeros 4; p_int 4 "port_no"; p_zeros 4]
  (t_len 2) None []
  [u_check 1 5; u_check 1 18; u_slice 4; u_int 4 "xid"; u_check 2 4; u_int 2 "flags"; u_skip 4;
   u_int 4 "port_no"; u_skip 4]
  false
  ["xid"; "flags"; "port_no"]
  [q_hex_or_none "xid"; q_hex "flags"; q_port "port_no"].

Definition port_status : cls := mk_cls "message.port_status"
  ["version" ↦ 5; "type" ↦ 12]
  [("xid", VNone); ("reason", VInt 0); ("desc", new_object Common.port_desc)]
  [p_int 1 "version"; p_int 1 "type"; p_placeholder; p_int 4 "xid"; p_int 1 "reason"; p_zeros 7;
   p_obj "desc"]
  (t_len 2) None []
  [u_check 1 5; u_check 1 12; u_slice 4; u_int 4 "xid"; u_int 1 "reason"; u_skip 7;
   u_obj "desc" "common.port_desc"]
  false
  ["xid"; "reason"; "desc"]
  [q_hex_or_none "xid"; q_hex "reason"; q_pp "desc"].

Definition queue_desc_stats_reply : cls := mk_cls "message.queue_desc_stats_reply"
  ["version" ↦ 5; "type" ↦ 19; "stats_type" ↦ 15]
  [("xid", VNone); ("flags", VInt 0); ("entries", VList [])]
  [p_int 1 "version"; p_int 1 "type"; p_placeholder; p_int 4 "xid"; p_int 2 "stats_type"; p_int 2 "flags";
   p_zeros 4; p_list "entries"]
  (t_len 2) None []
  [u_check 1 5; u_check 1 19; u_slice 4; u_int 4 "xid"; u_check 2 15; u_int 2 "flags"; u_skip 4;
   u_list "entries" "common.queue_desc"]
  false
  ["xid"; "flags"; "entries"]
  [q_hex_or_none "xid"; q_hex "flags"; q_pp "entries"].

Definition queue_desc_stats_request : cls := mk_cls "message.queue_desc_stats_request"
  ["version" ↦ 5; "type" ↦ 18; "stats_type" ↦ 15]
  [("xid", VNone); ("flags", VInt 0)]
  [p_int 1 "version"; p_int 1 "type"; p_placeholder; p_int 4 "xid"; p_int 2 "stats_type"; p_int 2 "flags";
   p_zeros 4]
  (t_len 2) None []
  [u_check 1 5; u_check 1 18; u_slice 4; u_int 4 "xid"; u_check 2 15; u_int 2 "flags"; u_skip 4]
  false
  ["xid"; "flags"]
  [q_hex_or_none "xid"; q_hex "flags"].

Definition queue_op_failed_error_msg : cls := mk_cls "message.queue_op_failed_error_msg"
  ["version" ↦ 5; "type" ↦ 1; "err_type" ↦ 9]
  [("xid", VNone); ("code", VInt 0); ("data", VStr [])]
  [p_int 1 "version"; p_int 1 "type"; p_placeholder; p_int 4 "xid"; p_int 2 "err_type"; p_int 2 "code";
   p_raw "data"]
  (t_len 2) None []
  [u_check 1 5; u_check 1 1; u_slice 4; u_int 4 "xid"; u_check 2 9; u_int 2 "code"; u_rest "data"]
  false
  ["xid"; "code"; "data"]
  [q_hex_or_none "xid"; q_hex "code"; q_pp "data"].

Definition queue_stats_reply : cls := mk_cls "message.queue_stats_reply"
  ["version" ↦ 5; "type" ↦ 19; "stats_type" ↦ 5]
  [("xid", VNone); ("flags", VInt 0); ("entries", VList [])]
  [p_int 1 "version"; p_int 1 "type"; p_placeholder; p_int 4 "xid"; p_int 2 "stats_type"; p_int 2 "flags";
   p_zeros 4; p_list "entries"]
  (t_len 2) None []
  [u_check 1 5; u_check 1 19; u_slice 4; u_int 4 "xid"; u_check 2 5; u_int 2 "flags"; u_skip 4;
   u_list "entries" "common.queue_stats_entry"]
  false
  ["xid"; "flags"; "entries"]
  [q_hex_or_none "xid"; q_hex "flags"; q_pp "entries"].

Definition queue_stats_request : cls := mk_cls "message.queue_stats_request"
  ["version" ↦ 5; "type" ↦ 18; "stats_type" ↦ 5]
  [("xid", VNone); ("flags", VInt 0); ("port_no", VInt 0); ("queue_id", VInt 0)]
  [p_int 1 "version"; p_int 1 "type"; p_placeholder; p_int 4 "xid"; p_int 2 "stats_type"; p_int 2 "flags";
   p_zeros 4; p_int 4 "port_no"; p_int 4 "queue_id"]
  (t_len 2) None []
  [u_check 1 5; u_check 1 18; u_slice 4; u_int 4 "xid"; u_check 2 5; u_int 2 "flags"; u_skip 4;
   u_int 4 "port_no"; u_int 4 "queue_id"]
  false
  ["xid"; "flags"; "port_no"; "queue_id"]
  [q_hex_or_none "xid"; q_hex "flags"; q_port "port_no"; q_hex "queue_id"].

Definition requestforward : cls := mk_cls "message.requestforward"
  ["version" ↦ 5; "type" ↦ 32]
  [("xid", VNone); ("role", VInt 0); ("data", VStr [])]
  [p_int 1 "version"; p_int 1 "type"; p_placeholder; p_int 4 "xid"; p_int 4 "role"; p_raw "data"]
  (t_len 2) None []
  [u_check 1 5; u_check 1 32; u_slice 4; u_int 4 "xid"; u_int 4 "role"; u_rest "data"]
  false
  ["xid"; "role"; "data"]
  [q_hex_or_none "xid"; q_hex "role"; q_pp "data"].

Definition role_reply : cls := mk_cls "message.role_reply"
  ["version" ↦ 5; "type" ↦ 25]
  [("xid", VNone); ("role", VInt 0); ("generation_id", VInt 0)]
  [p_int 1 "version"; p_int 1 "type"; p_placeholder; p_int 4 "xid"; p_int 4 "role"; p_zeros 4;
   p_int 8 "generation_id"]
  (t_len 2) None []
  [u_check 1 5; u_check 1 25; u_slice 4; u_int 4 "xid"; u_int 4 "role"; u_skip 4; u_int 8 "generation_id"]
  false
  ["xid"; "role"; "generation_id"]
  [q_hex_or_none "xid"; q_hex "role"; q_hex "generation_id"].

Definition role_request : cls := mk_cls "message.role_request"
  ["version" ↦ 5; "type" ↦ 24]
  [("xid", VNone); ("role", VInt 0); ("generation_id", VInt 0)]
  [p_int 1 "version"; p_int 1 "type"; p_placeholder; p_int 4 "xid"; p_int 4 "role"; p_zeros 4;
   p_int 8 "generation_id"]
  (t_len 2) None []
  [u_check 1 5; u_check 1 24; u_slice 4; u_int 4 "xid"; u_int 4 "role"; u_skip 4; u_int 8 "generation_id"]
  false
  ["xid"; "role"; "generation_id"]
  [q_hex_or_none "xid"; q_hex "role"; q_hex "generation_id"].

Definition role_request_failed_error_msg : cls := mk_cls "message.role_request_failed_error_msg"
  ["version" ↦ 5; "type" ↦ 1; "err_type" ↦ 11]
  [("xid", VNone); ("code", VInt 0); ("data", VStr [])]
  [p_int 1 "version"; p_int 1 "type"; p_placeholder; p_int 4 "xid"; p_int 2 "err_type"; p_int 2 "code";
   p_raw "data"]
  (t_len 2) None []
  [u_check 1 5; u_check 1 1; u_slice 4; u_int 4 "xid"; u_check 2 11; u_int 2 "code"; u_rest "data"]
  false
  ["xid"; "code"; "data"]
  [q_hex_or_none "xid"; q_hex "code"; q_pp "data"].

Definition role_status : cls := mk_cls "message.role_status"
  ["version" ↦ 5; "type" ↦ 30]
  [("xid", VNone); ("role", VInt 0); ("reason", VInt 0); ("generation_id", VInt 0);
   ("properties", VList [])]
  [p_int 1 "version"; p_int 1 "type"; p_placeholder; p_int 4 "xid"; p_int 4 "role"; p_int 1 "reason";
   p_zeros 3; p_int 8 "generation_id"; p_list "properties"]
  (t_len 2) None []
  [u_check 1 5; u_check 1 30; u_slice 4; u_int 4 "xid"; u_int 4 "role"; u_int 1 "reason"; u_skip 3;
   u_int 8 "generation_id"; u_list "properties" "role_prop.role_prop"]
  false
  ["xid"; "role"; "reason"; "generation_id"; "properties"]
  [q_hex_or_none "xid"; q_hex "role"; q_hex "reason"; q_hex "generation_id"; q_pp "properties"].

Definition set_config : cls := mk_cls "message.set_config"
  ["version" ↦ 5; "type" ↦ 9]
  [("xid", VNone); ("flags", VInt 0); ("miss_send_len", VInt 0)]
  [p_int 1 "version"; p_int 1 "type"; p_placeholder; p_int 4 "xid"; p_int 2 "flags";
   p_int 2 "miss_send_len"]
  (t_len 2) None []
  [u_check 1 5; u_check 1 9; u_slice 4; u_int 4 "xid"; u_int 2 "flags"; u_int 2 "miss_send_len"]
  false
  ["xid"; "flags"; "miss_send_len"]
  [q_hex_or_none "xid"; q_hex "flags"; q_hex "miss_send_len"].

Definition switch_config_failed_error_msg : cls := mk_cls "message.switch_config_failed_error_msg"
  ["version" ↦ 5; "type" ↦ 1; "err_type" ↦ 10]
  [("xid", VNone); ("code", VInt 0); ("data", VStr [])]
  [p_int 1 "version"; p_int 1 "type"; p_placeholder; p_int 4 "xid"; p_int 2 "err_type"; p_int 2 "code";
   p_raw "data"]
  (t_len 2) None []
  [u_check 1 5; u_check 1 1; u_slice 4; u_int 4 "xid"; u_check 2 10; u_int 2 "code"; u_rest "data"]
  false
  ["xid"; "code"; "data"]
  [q_hex_or_none "xid"; q_hex "code"; q_pp "data"].

Definition table_desc_stats_reply : cls := mk_cls "message.table_desc_stats_reply"
  ["version" ↦ 5; "type" ↦ 19; "stats_type" ↦ 14]
  [("xid", VNone); ("flags", VInt 0); ("entries", VList [])]
  [p_int 1 "version"; p_int 1 "type"; p_placeholder; p_int 4 "xid"; p_int 2 "stats_type"; p_int 2 "flags";
   p_zeros 4; p_list "entries"]
  (t_len 2) None []
  [u_check 1 5; u_check 1 19; u_slice 4; u_int 4 "xid"; u_check 2 14; u_int 2 "flags"; u_skip 4;
   u_list "entries" "common.table_desc"]
  false
  ["xid"; "flags"; "entries"]
  [q_hex_or_none "xid"; q_hex "flags"; q_pp "entries"].

Definition table_desc_stats_request : cls := mk_cls "message.table_desc_stats_request"
  ["version" ↦ 5; "type" ↦ 18; "stats_type" ↦ 14]
  [("xid", VNone); ("flags", VInt 0)]
  [p_int 1 "version"; p_int 1 "type"; p_placeholder; p_int 4 "xid"; p_int 2 "stats_type"; p_int 2 "flags";
   p_zeros 4]
  (t_len 2) None []
  [u_check 1 5; u_check 1 18; u_slice 4; u_int 4 "xid"; u_check 2 14; u_int 2 "flags"; u_skip 4]
  false
  ["xid"; "flags"]
  [q_hex_or_none "xid"; q_hex "flags"].

Definition table_features_failed_error_msg : cls := mk_cls "message.table_features_failed_error_msg"
  ["version" ↦ 5; "type" ↦ 1; "err_type" ↦ 13]
  [("xid", VNone); ("code", VInt 0); ("data", VStr [])]
  [p_int 1 "version"; p_int 1 "type"; p_placeholder; p_int 4 "xid"; p_int 2 "err_type"; p_int 2 "code";
   p_raw "data"]
  (t_len 2) None []
  [u_check 1 5; u_check 1 1; u_slice 4; u_int 4 "xid"; u_check 2 13; u_int 2 "code"; u_rest "data"]
  false
  ["xid"; "code"; "data"]
  [q_hex_or_none "xid"; q_hex "code"; q_pp "data"].

Definition table_features_stats_reply : cls := mk_cls "message.table_features_stats_reply"
  ["version" ↦ 5; "type" ↦ 19; "stats_type" ↦ 12]
  [("xid", VNone); ("flags", VInt 0); ("entries", VList [])]
  [p_int 1 "version"; p_int 1 "type"; p_placeholder; p_int 4 "xid"; p_int 2 "stats_type"; p_int 2 "flags";
   p_zeros 4; p_list "entries"]
  (t_len 2) None []
  [u_check 1 5; u_check 1 19; u_slice 4; u_int 4 "xid"; u_check 2 12; u_int 2 "flags"; u_skip 4;
   u_list "entries" "common.table_features"]
  false
  ["xid"; "flags"; "entries"]
  [q_hex_or_none "xid"; q_hex "flags"; q_pp "entries"].

Definition table_features_stats_request : cls := mk_cls "message.table_features_stats_request"
  ["version" ↦ 5; "type" ↦ 18; "stats_type" ↦ 12]
  [("xid", VNone); ("flags", VInt 0); ("entries", VList [])]
  [p_int 1 "version"; p_int 1 "type"; p_placeholder; p_int 4 "xid"; p_int 2 "stats_type"; p_int 2 "flags";
   p_zeros 4; p_list "entries"]
  (t_len 2) None []
  [u_check 1 5; u_check 1 18; u_slice 4; u_int 4 "xid"; u_check 2 12; u_int 2 "flags"; u_skip 4;
   u_list "entries" "common.table_features"]
  false
  ["xid"; "flags"; "entries"]
  [q_hex_or_none "xid"; q_hex "flags"; q_pp "entries"].

Definition table_mod : cls := mk_cls "message.table_mod"
  ["version" ↦ 5; "type" ↦ 17]
  [("xid", VNone); ("table_id", VInt 0); ("config", VInt 0); ("properties", VList [])]
  [p_int 1 "version"; p_int 1 "type"; p_placeholder; p_int 4 "xid"; p_int 1 "table_id"; p_zeros 3;
   p_int 4 "config"; p_list "properties"]
  (t_len 2) None []
  [u_check 1 5; u_check 1 17; u_slice 4; u_int 4 "xid"; u_int 1 "table_id"; u_skip 3; u_int 4 "config";
   u_list "properties" "table_mod_prop.table_mod_prop"]
  false
  ["xid"; "table_id"; "config"; "properties"]
  [q_hex_or_none "xid"; q_hex "table_id"; q_hex "config"; q_pp "properties"].

Definition table_mod_failed_error_msg : cls := mk_cls "message.table_mod_failed_error_msg"
  ["version" ↦ 5; "type" ↦ 1; "err_type" ↦ 8]
  [("xid", VNone); ("code", VInt 0); ("data", VStr [])]
  [p_int 1 "version"; p_int 1 "type"; p_placeholder; p_int 4 "xid"; p_int 2 "err_type"; p_int 2 "code";
   p_raw "data"]
  (t_len 2) None []
  [u_check 1 5; u_check 1 1; u_slice 4; u_int 4 "xid"; u_check 2 8; u_int 2 "code"; u_rest "data"]
  false
  ["xid"; "code"; "data"]
  [q_hex_or_none "xid"; q_hex "code"; q_pp "data"].

Definition table_stats_reply : cls := mk_cls "message.table_stats_reply"
  ["version" ↦ 5; "type" ↦ 19; "stats_type" ↦ 3]
  [("xid", VNone); ("flags", VInt 0); ("entries", VList [])]
  [p_int 1 "version"; p_int 1 "type"; p_placeholder; p_int 4 "xid"; p_int 2 "stats_type"; p_int 2 "flags";
   p_zeros 4; p_list "entries"]
  (t_len 2) None []
  [u_check 1 5; u_check 1 19; u_slice 4; u_int 4 "xid"; u_check 2 3; u_int 2 "flags"; u_skip 4;
   u_list "entries" "common.table_stats_entry"]
  false
  ["xid"; "flags"; "entries"]
  [q_hex_or_none "xid"; q_hex "flags"; q_pp "entries"].

Definition table_stats_request : cls := mk_cls "message.table_stats_request"
  ["version" ↦ 5; "type" ↦ 18; "stats_type" ↦ 3]
  [("xid", VNone); ("flags", VInt 0)]
  [p_int 1 "version"; p_int 1 "type"; p_placeholder; p_int 4 "xid"; p_int 2 "stats_type"; p_int 2 "flags";
   p_zeros 4]
  (t_len 2) None []
  [u_check 1 5; u_check 1 18; u_slice 4; u_int 4 "xid"; u_check 2 3; u_int 2 "flags"; u_skip 4]
  false
  ["xid"; "flags"]
  [q_hex_or_none "xid"; q_hex "flags"].

Definition table_status : cls := mk_cls "message.table_status"
  ["version" ↦ 5; "type" ↦ 31]
  [("xid", VNone); ("role", VInt 0); ("reason", VInt 0); ("table", new_object Common.table_desc)]
  [p_int 1 "version"; p_int 1 "type"; p_placeholder; p_int 4 "xid"; p_int 4 "role"; p_int 1 "reason";
   p_zeros 7; p_obj "table"]
  (t_len 2) None []
  [u_check 1 5; u_check 1 31; u_slice 4; u_int 4 "xid"; u_int 4 "role"; u_int 1 "reason"; u_skip 7;
   u_obj "table" "common.table_desc"]
  false
  ["xid"; "role"; "reason"; "table"]
  [q_hex_or_none "xid"; q_hex "role"; q_hex "reason"; q_pp "table"].

Definition classes : list cls :=
  [message; stats_reply; aggregate_stats_reply; stats_request; aggregate_stats_request; error_msg;
   async_config_failed_error_msg; async_get_reply; async_get_request; async_set; bad_action_error_msg;
   bad_instruction_error_msg; bad_match_error_msg; bad_property_error_msg; bad_request_error_msg;
   barrier_reply; barrier_request; experimenter; bsn_header; bsn_arp_idle; experimenter_error_msg;
   bsn_base_error; bsn_bw_clear_data_reply; bsn_bw_clear_data_request; bsn_bw_enable_get_reply;
   bsn_bw_enable_get_request; bsn_bw_enable_set_reply; bsn_bw_enable_set_request;
   bsn_controller_connections_reply; bsn_controller_connections_request; experimenter_stats_reply;
   bsn_stats_reply; bsn_debug_counter_desc_stats_reply; experimenter_stats_request; bsn_stats_request;
   bsn_debug_counter_desc_stats_request; bsn_debug_counter_stats_reply; bsn_debug_counter_stats_request;
   bsn_error; bsn_flow_checksum_bucket_stats_reply; bsn_flow_checksum_bucket_stats_request; bsn_flow_idle;
   bsn_flow_idle_enable_get_reply; bsn_flow_idle_enable_get_request; bsn_flow_idle_enable_set_reply;
   bsn_flow_idle_enable_set_request; bsn_generic_async; bsn_generic_command; bsn_generic_stats_reply;
   bsn_generic_stats_request; bsn_gentable_bucket_stats_reply; bsn_gentable_bucket_stats_request;
   bsn_gentable_clear_reply; bsn_gentable_clear_request; bsn_gentable_desc_stats_reply;
   bsn_gentable_desc_stats_request; bsn_gentable_entry_add; bsn_gentable_entry_delete;
   bsn_gentable_entry_desc_stats_reply; bsn_gentable_entry_desc_stats_request;
   bsn_gentable_entry_stats_reply; bsn_gentable_entry_stats_request; bsn_gentable_set_buckets_size;
   bsn_gentable_stats_reply; bsn_gentable_stats_request; bsn_get_interfaces_reply;
   bsn_get_interfaces_request; bsn_get_mirroring_reply; bsn_get_mirroring_request;
   bsn_get_switch_pipeline_reply; bsn_get_switch_pipeline_request; bsn_image_desc_stats_reply;
   bsn_image_desc_stats_request; bsn_lacp_convergence_notif; bsn_lacp_stats_reply; bsn_lacp_stats_request;
   bsn_log; bsn_lua_command_reply; bsn_lua_command_request; bsn_lua_notification; bsn_lua_upload;
   bsn_pdu_rx_reply; bsn_pdu_rx_request; bsn_pdu_rx_timeout; bsn_pdu_tx_reply; bsn_pdu_tx_request;
   bsn_port_counter_stats_reply; bsn_port_counter_stats_request; bsn_set_aux_cxns_reply;
   bsn_set_aux_cxns_request; bsn_set_lacp_reply; bsn_set_lacp_request; bsn_set_mirroring;
   bsn_set_pktin_suppression_reply; bsn_set_pktin_suppression_request; bsn_set_switch_pipeline_reply;
   bsn_set_switch_pipeline_request; bsn_switch_pipeline_stats_reply; bsn_switch_pipeline_stats_request;
   bsn_table_checksum_stats_reply; bsn_table_checksum_stats_request; bsn_table_set_buckets_size;
   bsn_takeover; bsn_time_reply; bsn_time_request; bsn_virtual_port_create_reply;
   bsn_virtual_port_create_request; bsn_virtual_port_remove_reply; bsn_virtual_port_remove_request;
   bsn_vlan_counter_clear; bsn_vlan_counter_stats_reply; bsn_vlan_counter_stats_request;
   bsn_vrf_counter_stats_reply; bsn_vrf_counter_stats_request; bundle_add_msg; bundle_ctrl_msg;
   bundle_failed_error_msg; desc_stats_reply; desc_stats_request; echo_reply; echo_request;
   features_reply; features_request; flow_mod; flow_add; flow_delete; flow_delete_strict;
   flow_mod_failed_error_msg; flow_modify; flow_modify_strict; flow_monitor_failed_error_msg;
   flow_removed; flow_stats_reply; flow_stats_request; get_config_reply; get_config_request; group_mod;
   group_add; group_delete; group_desc_stats_reply; group_desc_stats_request; group_features_stats_reply;
   group_features_stats_request; group_mod_failed_error_msg; group_modify; group_stats_reply;
   group_stats_request; hello; hello_failed_error_msg; meter_config_stats_reply;
   meter_config_stats_request; meter_features_stats_reply; meter_features_stats_request; meter_mod;
   meter_mod_failed_error_msg; meter_stats_reply; meter_stats_request; nicira_header; packet_in;
   packet_out; port_desc_stats_reply; port_desc_stats_request; port_mod; port_mod_failed_error_msg;
   port_stats_reply; port_stats_request; port_status; queue_desc_stats_reply; queue_desc_stats_request;
   queue_op_failed_error_msg; queue_stats_reply; queue_stats_request; requestforward; role_reply;
   role_request; role_request_failed_error_msg; role_status; set_config; switch_config_failed_error_msg;
   table_desc_stats_reply; table_desc_stats_request; table_features_failed_error_msg;
   table_features_stats_reply; table_features_stats_request; table_mod; table_mod_failed_error_msg;
   table_stats_reply; table_stats_request; table_status].
End Message.

(** ** The classes of the version together, and what the comparison of their
    methods gives *)

Definition of14 : list cls :=
  Message.classes ++ Common.classes ++ AsyncConfigProp.classes ++ BundleProp.classes ++
  PortDescProp.classes ++ PortModProp.classes ++ PortStatsProp.classes ++ QueueDescProp.classes ++
  QueueStatsProp.classes ++ RoleProp.classes ++ TableModProp.classes ++ Instruction.classes ++
  InstructionId.classes ++ Action.classes ++ ActionId.classes ++ MeterBand.classes ++ Oxm.classes ++
  BsnTlv.classes.

Lemma of14_agrees : length of14 = 634 ∧ NoDup (c_name <$> of14) ∧ disagreeing of14 = ["action.experimenter"].
Proof. split_and!; [reflexivity|apply (bool_decide_unpack _); vm_compute; exact I|vm_compute; reflexivity]. Qed.
Lemma of14_reading : reading_checked of14 = true.
Proof. vm_compute. reflexivity. Qed.
Lemma of14_messages : messages_checked (by_name of14) 5 (message_names of14) = true.
Proof. vm_compute. reflexivity. Qed.
Lemma of14_equality : forallb eq_checked of14 = true.
Proof. vm_compute. reflexivity. Qed.
