(* ===== verification/Openflow.v ===== *)
(** * The OpenFlow bindings of the agent (ofagent/loxi)

    [loxi.protocol] selects the module of a wire version; with the five modules the
    connection of the agent is complete, and its contract with the bindings holds:
    messages are read back as they were sent, and reading ends on every input. *)

From Stdlib Require Import Strings.Byte.
From stdpp Require Import prelude strings list.
From S2P Require Import Prelude MessageQueue OfConnection LoxiWire LoxiSpec LoxiRoundtrip LoxiTotal LoxiEqual LoxiPrint LoxiMessage Of11Common Of10Message Of11Message Of12Message Of13Message Of14Message.

(** The module of a wire version *)
Definition modules (ver : nat) : list cls :=
  match ver with 1 => of10 | 2 => of11 | 3 => of12 | 4 => of13 | 5 => of14 | _ => [] end.

#[export] Instance openflow : Loxi := loxi modules.

Definition VERSIONS : list nat := [1; 2; 3; 4; 5].

(** The two methods of the classes agree: of the 1740 classes of the bindings,
    under distinct names in each version, all pass the comparison of what pack
    writes with what unpack reads (the same fields in the same order and widths,
    the class constants that are asserted, lengths, padding and the alignment of
    nested objects, every attribute of the constructor), but the base class of
    experimenter actions since version 1.2, whose data comes back with padding. *)
Theorem bindings_agree :
  length ∘ modules <$> VERSIONS = [122; 145; 261; 578; 634] ∧
  Forall (λ ver, NoDup (c_name <$> modules ver)) VERSIONS ∧
  disagreeing ∘ modules <$> VERSIONS =
    [[]; []; ["action.experimenter"]; ["action.experimenter"]; ["action.experimenter"]].
Proof.
  destruct of10_agrees as (L0 & N0 & D0), of11_agrees as (L1 & N1 & D1), of12_agrees as (L2 & N2 & D2),
    of13_agrees as (L3 & N3 & D3), of14_agrees as (L4 & N4 & D4).
  split_and!.
  - change ([length of10; length of11; length of12; length of13; length of14] = [122; 145; 261; 578; 634]).
    by rewrite L0, L1, L2, L3, L4.
  - unfold VERSIONS. repeat (apply Forall_cons; split; [assumption|]). by apply Forall_nil.
  - change ([disagreeing of10; disagreeing of11; disagreeing of12; disagreeing of13; disagreeing of14] =
            [[]; []; ["action.experimenter"]; ["action.experimenter"]; ["action.experimenter"]]).
    by rewrite D0, D1, D2, D3, D4.
Qed.

Lemma modules_messages ver :
  1 ≤ ver ≤ 5 → messages_checked (by_name (modules ver)) (Z.of_nat ver) (message_names (modules ver)) = true.
Proof.
  intros Hv. destruct ver as [|[|[|[|[|[|ver]]]]]]; [lia| | | | | |lia].
  - exact of10_messages.
  - exact of11_messages.
  - exact of12_messages.
  - exact of13_messages.
  - exact of14_messages.
Qed.

Lemma modules_reading ver : reading_checked (modules ver) = true.
Proof.
  destruct ver as [|[|[|[|[|[|ver]]]]]].
  - done.
  - exact of10_reading.
  - exact of11_reading.
  - exact of12_reading.
  - exact of13_reading.
  - exact of14_reading.
  - done.
Qed.

(** ** Which objects come back *)

Section valid.
Context (classes : string → option cls).

Definition concrete (c : cls) : bool := match c_dispatch c with None => true | Some _ => false end.

(** The class that [unpack] expects in an attribute, and the size of its objects *)
Definition obj_kind (c : cls) (a : string) : option string :=
  head (omap (λ u, match u with u_obj b k => if decide (a = b) then Some k else None | _ => None end)
             (c_unpack c)).
Definition kind_size (k : string) : option nat :=
  c ← classes k; if concrete c then object_size c else None.

(** The integer that [pack] writes at an offset, when it is a class constant and
    the statements before it write a fixed number of bytes *)
Fixpoint const_int (c : cls) (its : list pstmt) (n off : nat) : option Z :=
  match its with
  | p_int m a :: its =>
      match off with
      | 0 => if bool_decide (n = m) && negb (is_attr c a) then od_get a (c_consts c) else None
      | _ => if bool_decide (m ≤ off) then const_int c its n (off - m) else None
      end
  | p_placeholder :: its => if bool_decide (2 ≤ off) then const_int c its n (off - 2) else None
  | p_zeros m :: its => if bool_decide (m ≤ off) then const_int c its n (off - m) else None
  | p_obj a :: its =>
      m ← obj_kind c a ≫= kind_size;
      if bool_decide (m ≤ off) then const_int c its n (off - m) else None
  | _ => None
  end.
(** Unpacking an object of class [c] as a [name] hands over to [c], by the
    constants of [c] alone. *)
Fixpoint finds (fuel : nat) (name : string) (c : cls) : bool :=
  match fuel with
  | 0 => false
  | S fuel =>
      match classes name with
      | Some k =>
          match c_dispatch k with
          | None => bool_decide (name = c_name c)
          | Some (n, off) =>
              match const_int c (c_pack c) n off with
              | Some z =>
                  match od_get z (c_subtypes k) with
                  | Some sub => finds fuel sub c
                  | None => bool_decide (name = c_name c)
                  end
              | None => false
              end
          end
      | None => false
      end
  end.

(** The objects in the attributes of [c] have the sizes that are expected. *)
Definition sized_attrs (c : cls) (attrs : list (string * val)) : Prop := ∀ a k m,
  obj_kind c a = Some k → kind_size k = Some m →
  ∃ v, od_get a attrs = Some v ∧ value_size classes v = Some m.

Lemma const_header_int c attrs its n off z :
  od_keys attrs = od_keys (c_init c) → sized_attrs c attrs → const_int c its n off = Some z →
  header_int classes c attrs its n off = Some z.
Proof.
  intros Hk Hs. revert off. induction its as [|it its IH]; intros off; [done|].
  destruct it as [m a| |m| | | |a| | | | | ]; cbn [const_int header_int]; try done.
  - destruct off as [|off]; [|case_bool_decide; [apply IH|done]].
    case_bool_decide; [|done]. cbn [andb]. destruct (is_attr c a) eqn:Ha; [done|]. cbn.
    intros Hz. by rewrite (const_get c attrs Hk a z).
  - case_bool_decide; [apply IH|done].
  - case_bool_decide; [apply IH|done].
  - destruct (obj_kind c a) as [k|] eqn:Ho; [|done]. cbn. destruct (kind_size k) as [m|] eqn:Hm; [|done].
    destruct (Hs a k m Ho Hm) as (v & -> & Hv). cbn. rewrite Hv. cbn. case_bool_decide; [apply IH|done].
Qed.
Lemma finds_routes fuel name c attrs :
  od_keys attrs = od_keys (c_init c) → sized_attrs c attrs → finds fuel name c = true →
  routes classes fuel name c attrs = true.
Proof.
  intros Hk Hs. revert name. induction fuel as [|fuel IH]; intros name; [done|]. cbn [finds routes].
  destruct (classes name) as [k|]; [|done]. destruct (c_dispatch k) as [[n off]|]; [|done].
  destruct (const_int _ _ _ _) as [z|] eqn:Hz; [|done]. rewrite (const_header_int _ _ _ _ _ _ Hk Hs Hz).
  destruct (od_get z _); [apply IH|done].
Qed.

(** The classes that the tables of [unpack] list below a class, with itself *)
Fixpoint below (fuel : nat) (name : string) : list string :=
  match fuel with
  | 0 => []
  | S fuel =>
      name :: match classes name with
              | Some k => if c_dispatch k then concat (map (λ zs, below fuel zs.2) (c_subtypes k)) else []
              | None => []
              end
  end.
(** Every class without subclasses of its own that is listed below [name] is
    found from there. *)
Definition routing_ok (name : string) : bool :=
  forallb (λ d, match classes d with
                | Some c => negb (concrete c) || finds HIERARCHY name c
                | None => false
                end) (below HIERARCHY name).

(** The objects that can be sent where a [name] is expected: of a class of the
    module, not one of [lossy], with the attributes of that class; the class is
    listed below [name], and an object of a base class must not have the type of
    one of its subclasses; fixed strings fit and have no trailing zeros where
    these are stripped, sets are ascending, and so for the nested objects; where
    some of these end at a multiple of eight bytes, all entries of a list do. *)
Fixpoint valid (lossy : list string) (fuel : nat) (name : string) (v : val) : bool :=
  match fuel, v with
  | S fuel, VObj d attrs =>
      match classes d with
      | Some c =>
          bool_decide (d ∉ lossy) && bool_decide (od_keys attrs = od_keys (c_init c)) &&
          (if concrete c then bool_decide (d ∈ below HIERARCHY name)
           else routes classes HIERARCHY name c attrs) &&
          forallb (attr_ok classes (valid lossy fuel) attrs) (c_unpack c)
      | None => false
      end
  | _, _ => false
  end.

Lemma below_concrete fuel name c : classes name = Some c → concrete c = true →
  below (S fuel) name = [name].
Proof. intros Hn Hc. cbn. rewrite Hn. unfold concrete in Hc. by destruct (c_dispatch c). Qed.
Lemma routes_concrete fuel name k c attrs : classes name = Some k → concrete k = true →
  routes classes fuel name c attrs = true → name = c_name c.
Proof.
  intros Hn Hk. destruct fuel as [|fuel]; [done|]. cbn [routes]. rewrite Hn. unfold concrete in Hk.
  destruct (c_dispatch k); [done|]. apply bool_decide_eq_true.
Qed.

(** A valid object where a class without subclasses is expected is of that class. *)
Lemma valid_size lossy fuel name v m :
  (∀ d c, classes d = Some c → d = c_name c) →
  valid lossy fuel name v = true → kind_size name = Some m → value_size classes v = Some m.
Proof.
  intros Hnames Hv Hm. unfold kind_size in Hm. destruct (classes name) as [k|] eqn:Hk; [|done]. cbn in Hm.
  destruct (concrete k) eqn:Hc; [|done]. destruct fuel as [|fuel]; [done|].
  destruct v as [| | | | | |d attrs]; try done. cbn [valid] in Hv.
  destruct (classes d) as [c|] eqn:Hd; [|done]. split_checks. cbn [value_size].
  assert (d = name) as ->; [|by rewrite Hk].
  rename select ((if concrete c then _ else _) = true) into Hr. destruct (concrete c).
  - apply bool_decide_eq_true in Hr. unfold HIERARCHY in Hr.
    rewrite (below_concrete _ _ _ Hk Hc) in Hr. by apply list_elem_of_singleton.
  - apply (routes_concrete _ _ _ _ _ Hk Hc) in Hr. rewrite Hr. by apply Hnames.
Qed.
Lemma valid_sized lossy fuel c attrs :
  (∀ d c, classes d = Some c → d = c_name c) →
  forallb (attr_ok classes (valid lossy fuel) attrs) (c_unpack c) = true → sized_attrs c attrs.
Proof.
  intros Hnames Hall a k m Hk Hm. rewrite forallb_forall in Hall. unfold obj_kind in Hk.
  destruct (omap _ (c_unpack c)) as [|k' l] eqn:Ho; [done|]. cbn in Hk. injection Hk as ->.
  assert (k ∈ omap (λ u, match u with u_obj b k => if decide (a = b) then Some k else None | _ => None end)
             (c_unpack c)) as Hin by (rewrite Ho; left).
  apply list_elem_of_omap in Hin as (u & Hu & Huk). destruct u; try done. case_decide; [|done]. simplify_eq.
  apply list_elem_of_In, Hall in Hu. cbn [attr_ok] in Hu. destruct (od_get _ attrs) as [v|]; [|done].
  exists v. split; [done|]. by eapply valid_size.
Qed.

Lemma attr_ok_mono f g attrs u : (∀ k v, f k v = true → g k v = true) →
  attr_ok classes f attrs u = true → attr_ok classes g attrs u = true.
Proof.
  intros Hfg. destruct u; cbn [attr_ok]; try done; destruct (od_get _ attrs) as [[]|]; try done; auto.
  all: rewrite !andb_true_iff, !forallb_forall; intros [Hl Ha]; split; [|done]; auto.
Qed.
End valid.

(** The classes that do not come back as they were packed: the data of an
    experimenter action get padding. *)
Definition lossy (ver : nat) : list string := if bool_decide (3 ≤ ver) then ["action.experimenter"] else [].

Definition dispatching (l : list cls) : list string := c_name <$> filter (λ c, concrete c = false) l.

Lemma modules_routing ver : 1 ≤ ver ≤ 5 →
  forallb (routing_ok (by_name (modules ver))) (dispatching (modules ver)) = true.
Proof.
  intros Hv. destruct ver as [|[|[|[|[|[|ver]]]]]]; [lia| | | | | |lia]; vm_compute; reflexivity.
Qed.
Lemma modules_agree ver : 1 ≤ ver ≤ 5 → disagreeing (modules ver) = lossy ver.
Proof.
  intros Hv. destruct ver as [|[|[|[|[|[|ver]]]]]]; [lia| | | | | |lia].
  - apply of10_agrees.
  - apply of11_agrees.
  - apply of12_agrees.
  - apply of13_agrees.
  - apply of14_agrees.
Qed.

Lemma module_class_ok ver d c : 1 ≤ ver ≤ 5 → by_name (modules ver) d = Some c → d ∉ lossy ver →
  class_ok (by_name (modules ver)) c = true.
Proof.
  intros Hv [Hin ->]%by_name_Some Hl. destruct (class_ok _ c) eqn:Hc; [done|]. destruct Hl.
  rewrite <- modules_agree by done. unfold disagreeing. apply list_elem_of_fmap. exists c.
  split; [done|]. by apply list_elem_of_filter.
Qed.
Lemma module_routes ver name d c attrs : 1 ≤ ver ≤ 5 → by_name (modules ver) d = Some c →
  concrete c = true → d ∈ below (by_name (modules ver)) HIERARCHY name →
  od_keys attrs = od_keys (c_init c) → sized_attrs (by_name (modules ver)) c attrs →
  routes (by_name (modules ver)) HIERARCHY name c attrs = true.
Proof.
  intros Hv Hd Hc Hb Hk Hs. pose proof (by_name_Some _ _ _ Hd) as [_ Hn]. apply finds_routes; [done|done|].
  destruct (by_name (modules ver) name) as [k|] eqn:Hname.
  - destruct (concrete k) eqn:Hkc.
    + unfold concrete in Hkc. cbn [below HIERARCHY finds] in Hb |- *. rewrite Hname in Hb |- *.
      destruct (c_dispatch k); [done|]. apply list_elem_of_singleton in Hb. subst. by apply bool_decide_eq_true.
    + pose proof (modules_routing ver Hv) as Hall. rewrite forallb_forall in Hall.
      assert (routing_ok (by_name (modules ver)) name = true) as Hr.
      { apply Hall, list_elem_of_In, list_elem_of_fmap. apply by_name_Some in Hname as [Hin ->].
        exists k. split; [done|]. by apply list_elem_of_filter. }
      unfold routing_ok in Hr. rewrite forallb_forall in Hr. apply list_elem_of_In in Hb.
      specialize (Hr d Hb). rewrite Hd, Hc in Hr. exact Hr.
  - cbn [below HIERARCHY] in Hb. rewrite Hname in Hb. apply list_elem_of_singleton in Hb. congruence.
Qed.

(** The comparison of the two methods of all classes, done by computation on the
    tables, and their routing give what the round trip needs. *)
Lemma valid_wf ver n name v : 1 ≤ ver ≤ 5 →
  valid (by_name (modules ver)) (lossy ver) n name v = true → wf (by_name (modules ver)) n name v = true.
Proof.
  intros Hv. revert name v. induction n as [|n IH]; intros name v; [done|].
  destruct v as [| | | | | |d attrs]; try done. cbn [valid wf].
  destruct (by_name (modules ver) d) as [c|] eqn:Hd; [|done]. intros Hval. split_checks.
  rename select (forallb _ _ = true) into Hat. rename select (d ∉ _) into Hl.
  rename select (od_keys _ = od_keys _) into Hk.
  rewrite (module_class_ok ver d c) by done. pose proof (by_name_Some _ _ _ Hd) as [_ Hn].
  rewrite !bool_decide_eq_true_2 by done. cbn [andb]. apply andb_true_iff. split.
  - destruct (concrete c) eqn:Hc; [|done]. eapply module_routes; try done; [by eapply bool_decide_eq_true|].
    eapply valid_sized; [|exact Hat]. by intros d' c' [_ ?]%by_name_Some.
  - rewrite forallb_forall in Hat |- *. intros u Hu. eapply attr_ok_mono; [|by apply Hat]. done.
Qed.

(** A message of a wire version that the connection can carry *)
Definition valid_message (ver : nat) (m : nat * val) : Prop :=
  m.1 = ver ∧ ∃ n, valid (by_name (modules ver)) (lossy ver) n "message.message" m.2 = true.
Lemma valid_good ver m : 1 ≤ ver ≤ 5 → valid_message ver m → good_message modules ver m.
Proof. intros Hver [Hm [n Hn]]. split; [done|]. exists n. by apply valid_wf. Qed.

(** C19: a message of any wire version is unpacked as it was packed: the packed
    bytes start with a header that holds the version and their number, and
    unpacking them gives the message back.  This is so for every message of every
    class of the module, whose attributes are those of the class and whose fixed
    strings and nested objects fit, with one exception: since version 1.2 no
    experimenter action of the base class may be in it, whose data come back with
    padding; and a message of a base class must not have the type of one of its
    subclasses. *)
Theorem message_roundtrip ver n v b :
  1 ≤ ver ≤ 5 → valid (by_name (modules ver)) (lossy ver) n "message.message" v = true →
  OfConnection.pack (ver, v) = Ok b →
  (∃ t x, parse_header b = Ok (ver, t, length b, x)) ∧ OfConnection.unpack ver b = Ok (ver, v).
Proof.
  intros Hver Hv Hp. assert (good_message modules ver (ver, v)) as Hg.
  { apply valid_good; [done|]. split; eauto. }
  split; [by eapply loxi_header; [apply modules_messages|..]|by apply loxi_back].
Qed.

(** C20: the receiver of the agent ends on every input: no bytes from the network,
    whatever lengths they claim, make unpacking a message or the receive loop of
    the connection run forever, and packing a message ends too. *)
Theorem receiving_ends ver buf data c m :
  OfConnection.unpack ver buf ≠ Raise OutOfFuel ∧ OfConnection.pack m ≠ Raise OutOfFuel ∧
  (dataReceived data c).1 ≠ Raise OutOfFuel.
Proof.
  assert (∀ v b, OfConnection.unpack v b ≠ Raise OutOfFuel) as Hu.
  { intros v b. apply loxi_ends, modules_reading. }
  split_and!; [apply Hu|apply pack_ends; lia|by apply dataReceived_in_fuel].
Qed.

Lemma modules_equality ver : forallb eq_checked (modules ver) = true.
Proof.
  destruct ver as [|[|[|[|[|[|ver]]]]]].
  - done.
  - exact of10_equality.
  - exact of11_equality.
  - exact of12_equality.
  - exact of13_equality.
  - exact of14_equality.
  - done.
Qed.

(** Comparing objects of the bindings is exact: for objects of any version,
    with the attributes of their classes at every level, Python's == ends, raises
    nothing, and is true for the same value only: the methods __eq__ of the 1740
    classes leave no attribute out. *)
Theorem objects_compare ver v w :
  shaped (by_name (modules ver)) v → shaped (by_name (modules ver)) w →
  ∃ b, equal (by_name (modules ver)) (S (height v)) v w = Ok b ∧ (b = true ↔ v = w).
Proof.
  intros Hv Hw. apply (equal_decides (by_name (modules ver))); [|done..|lia].
  intros d c [Hin _]%by_name_Some. pose proof (modules_equality ver) as Hall.
  rewrite forallb_forall in Hall. by apply Hall, list_elem_of_In.
Qed.

(** The beginning of a message that has not arrived completely *)
Definition beginning (ver : nat) (tail : list byte) : Prop :=
  tail = [] ∨ ∃ m b, valid_message ver m ∧ OfConnection.pack m = Ok b ∧ tail `prefix_of` b ∧ tail ≠ b.

(** C18: what one side of a connection sends the other receives: messages of a wire
    version, with an xid filled in where they had none, are packed, cut by TCP in
    any way, put together, unpacked and queued in the order they were sent, even
    when the beginning of one more message has arrived, which stays in the buffer.
    The messages are of any class of the version, with the attributes of their
    class and with strings and nested objects that fit; the one exception are
    experimenter actions of the base class since version 1.2, whose data come
    back with padding, and a message of a base class must not have the type of one
    of its subclasses. *)
Theorem openflow_stream ver ms peer peer' chunks tail c :
  1 ≤ ver ≤ 5 →
  send_all ms peer = (Ok tt, peer') → c_written peer = [] →
  Forall (λ m, ∀ m', numbered m m' → valid_message ver m') ms →
  beginning ver tail → concat chunks = concat (c_written peer') ++ tail →
  chunks ≠ [] → Forall (.≠ []) chunks → c_read_buffer c = None →
  ∃ ms', Forall2 numbered ms ms' ∧ feed chunks c = (Ok tt, settle tail (queue_all ms' c)).
Proof.
  intros Hver Hsend Hw Hms Htail.
  refine (stream_back (WireFormat0 := loxi_wire modules ver _ (modules_messages ver Hver)) _ _ _ _ _ _ Hsend Hw _ _).
  - eapply Forall_impl; [exact Hms|]. intros m Hm m' Hm'. by apply valid_good, Hm.
  - destruct Htail as [->|(m & b & Hm & Hb)]; [by left|right]. exists m, b. split; [by apply valid_good|done].
Qed.

(** ** Printing messages *)

(** The constants that the printing functions look up (const.py): the names of the
    reserved ports and the wildcards, which only the first two versions have *)
Definition of10_ports : list (string * Z) := (
  [("OFPP_MAX", 65280); ("OFPP_IN_PORT", 65528); ("OFPP_TABLE", 65529); ("OFPP_NORMAL", 65530);
   ("OFPP_FLOOD", 65531); ("OFPP_ALL", 65532); ("OFPP_CONTROLLER", 65533); ("OFPP_LOCAL", 65534);
   ("OFPP_NONE", 65535)])%Z.
Definition of11_ports : list (string * Z) := (
  [("OFPP_MAX", 4294967040); ("OFPP_IN_PORT", 4294967288); ("OFPP_TABLE", 4294967289);
   ("OFPP_NORMAL", 4294967290); ("OFPP_FLOOD", 4294967291); ("OFPP_ALL", 4294967292);
   ("OFPP_CONTROLLER", 4294967293); ("OFPP_LOCAL", 4294967294); ("OFPP_ANY", 4294967295)])%Z.
Definition of12_ports : list (string * Z) := (
  [("OFPP_MAX", 4294967040); ("OFPP_IN_PORT", 4294967288); ("OFPP_TABLE", 4294967289);
   ("OFPP_NORMAL", 4294967290); ("OFPP_FLOOD", 4294967291); ("OFPP_ALL", 4294967292);
   ("OFPP_CONTROLLER", 4294967293); ("OFPP_LOCAL", 4294967294); ("OFPP_ANY", 4294967295)])%Z.
Definition of13_ports : list (string * Z) := (
  [("OFPP_MAX", 4294967040); ("OFPP_IN_PORT", 4294967288); ("OFPP_TABLE", 4294967289);
   ("OFPP_NORMAL", 4294967290); ("OFPP_FLOOD", 4294967291); ("OFPP_ALL", 4294967292);
   ("OFPP_CONTROLLER", 4294967293); ("OFPP_LOCAL", 4294967294); ("OFPP_ANY", 4294967295)])%Z.
Definition of14_ports : list (string * Z) := (
  [("OFPP_MAX", 4294967040); ("OFPP_IN_PORT", 4294967288); ("OFPP_TABLE", 4294967289);
   ("OFPP_NORMAL", 4294967290); ("OFPP_FLOOD", 4294967291); ("OFPP_ALL", 4294967292);
   ("OFPP_CONTROLLER", 4294967293); ("OFPP_LOCAL", 4294967294); ("OFPP_ANY", 4294967295)])%Z.
Definition of10_wildcards : list (string * Z) := (
  [("OFPFW_IN_PORT", 1); ("OFPFW_DL_VLAN", 2); ("OFPFW_DL_SRC", 4); ("OFPFW_NW_DST_BITS", 6);
   ("OFPFW_NW_SRC_BITS", 6); ("OFPFW_NW_SRC_SHIFT", 8); ("OFPFW_DL_DST", 8); ("OFPFW_NW_DST_SHIFT", 14);
   ("OFPFW_DL_TYPE", 16); ("OFPFW_NW_PROTO", 32); ("OFPFW_TP_SRC", 64); ("OFPFW_TP_DST", 128);
   ("OFPFW_NW_SRC_ALL", 8192); ("OFPFW_NW_SRC_MASK", 16128); ("OFPFW_NW_DST_ALL", 524288);
   ("OFPFW_NW_DST_MASK", 1032192); ("OFPFW_DL_VLAN_PCP", 1048576); ("OFPFW_NW_TOS", 2097152);
   ("OFPFW_ALL", 4194303)])%Z.
Definition of11_wildcards : list (string * Z) := (
  [("OFPFW_IN_PORT", 1); ("OFPFW_DL_VLAN", 2); ("OFPFW_DL_VLAN_PCP", 4); ("OFPFW_DL_TYPE", 8);
   ("OFPFW_NW_TOS", 16); ("OFPFW_NW_PROTO", 32); ("OFPFW_TP_SRC", 64); ("OFPFW_TP_DST", 128);
   ("OFPFW_MPLS_LABEL", 256); ("OFPFW_MPLS_TC", 512); ("OFPFW_ALL", 1023)])%Z.

Definition consts (ver : nat) : constants :=
  match ver with
  | 1 => mk_constants of10_ports of10_wildcards
  | 2 => mk_constants of11_ports of11_wildcards
  | 3 => mk_constants of12_ports []
  | 4 => mk_constants of13_ports []
  | 5 => mk_constants of14_ports []
  | _ => mk_constants [] []
  end.

Lemma modules_printing ver : ver ∈ [1; 3; 4; 5] → forallb (print_checked (consts ver)) (modules ver) = true.
Proof.
  rewrite !elem_of_cons, elem_of_nil. intros [->|[->|[->|[->|[]]]]]; vm_compute; reflexivity.
Qed.

Section printing.
Context `{PyText}.

(** [m.show()] of a message, and its text on one line *)
Definition show_message (m : msg) : result string := show (consts m.1) (by_name (modules m.1)) m.2.
Definition describe_message (m : msg) : result string :=
  describe (consts m.1) (by_name (modules m.1)) (S (S (height m.2))) m.2.

(** C34: Whatever is received can be printed, in every version but 1.1. When a message
    of version 1.0, 1.2, 1.3 or 1.4 is unpacked from the network, with all the
    objects in it, its method [show] ends and raises nothing; it gives the text of
    the message on one line when that has at most 79 characters, and otherwise a
    layout of it on several lines, which differs in blanks only. *)
Theorem received_messages_print ver buf m :
  ver ∈ [1; 3; 4; 5] → OfConnection.unpack ver buf = Ok m →
  ∃ s t, show_message m = Ok s ∧ describe_message m = Ok t ∧
    no_blanks s = no_blanks t ∧ (String.length t ≤ 79 → s = t).
Proof.
  intros Hver (v & Hv & [= <-])%result_bind_Ok.
  assert (printable (consts ver) (by_name (modules ver)) v) as Hp.
  { unfold unpack_buffer in Hv. apply result_bind_Ok in Hv as ([v' r] & Hu & [= ->]).
    eapply unpack_printable; [|..|exact Hu]; intros n c [Hin ->]%by_name_Some; [done|].
    pose proof (modules_printing ver Hver) as Hall. rewrite forallb_forall in Hall. by apply Hall, list_elem_of_In. }
  destruct (pp_text_exact _ _ 79 v Hp) as (s & t & Hs & Ht & Hb & Hl). exists s, t.
  split_and!; [done..|]. intros Hlen. apply Hl. lia.
Qed.

(** The third flag is no constant of version 1.1. *)
Lemma of11_wildcards_fail z : z ≠ 1023%Z → pretty_wildcards (consts 2) (VInt z) = Raise AttributeError.
Proof.
  apply (wildcards_missing _ 1023 z ["OFPFW_IN_PORT"; "OFPFW_DL_VLAN"] "OFPFW_DL_SRC" (drop 3 FLAG_NAMES));
    [vm_compute; reflexivity|reflexivity| |vm_compute; reflexivity].
  repeat (apply Forall_cons; split; [by eexists; vm_compute|]). by apply Forall_nil.
Qed.

(** An OpenFlow 1.1 match cannot be printed. pretty_wildcards of version 1.1 has
    the flag names of version 1.0, and several of them are no constants of version
    1.1: unless all fields are wildcards, [show] of a match raises AttributeError. *)
Theorem of11_match_unprintable attrs p z :
  od_get "in_port" attrs = Some (VInt p) → od_get "wildcards" attrs = Some (VInt z) → z ≠ 1023%Z →
  show_message (2, VObj "common.match_v2" attrs) = Raise AttributeError.
Proof.
  intros Hp Hz Hne. unfold show_message, show. cbn [fst snd].
  apply (raises_object _ _ _ _ _ Of11Common.Common.match_v2 [q_port "in_port"] (q_wildcards "wildcards")
           (drop 2 (c_print Of11Common.Common.match_v2)) (VInt z)); [vm_compute; reflexivity|reflexivity| |done|].
  - intros q ->%list_elem_of_singleton. eexists _, _. split_and!; [exact Hp|reflexivity|constructor].
  - by apply of11_wildcards_fail.
Qed.
End printing.

(** ** Witnesses: a flow rule and an echo request of OpenFlow 1.3 *)

(** [C(a1=v1, ...)] *)
Definition construct (l : list cls) (name : string) (args : list (string * val)) : val :=
  match by_name l name with
  | Some c => VObj name (foldl (λ d av, od_set av.1 av.2 d) (c_init c) args)
  | None => VNone
  end.
Definition of13_object := construct of13.

Definition flow_rule : val := Eval vm_compute in
  of13_object "message.flow_add"
    [("cookie", VInt 7); ("priority", VInt 1000); ("buffer_id", VInt 4294967295);
     ("match", of13_object "common.match_v3"
        [("oxm_list", VList [of13_object "oxm.in_port" [("value", VInt 3)];
                             of13_object "oxm.vlan_vid" [("value", VInt 4097)]])]);
     ("instructions", VList [of13_object "instruction.apply_actions"
        [("actions", VList [of13_object "action.push_vlan" [("ethertype", VInt 33024)];
                            of13_object "action.output" [("port", VInt 2); ("max_len", VInt 65535)]])]])].
Definition echo : val := Eval vm_compute in
  of13_object "message.echo_request" [("xid", VInt 9); ("data", VStr [x61; x62; x63])].

Definition sender : conn := mk_conn 1 None MessageQueue.init true [].
Definition sender' : conn := (send_all [(4, flow_rule); (4, echo)] sender).2.
Definition on_the_wire : list byte := Eval vm_compute in concat (c_written sender') ++ [x04; x02].
Definition pieces : list (list byte) := Eval vm_compute in
  [take 5 on_the_wire; take 90 (drop 5 on_the_wire); drop 95 on_the_wire].

Lemma sender_sends : send_all [(4, flow_rule); (4, echo)] sender = (Ok tt, sender').
Proof.
  unfold sender'. assert ((send_all [(4, flow_rule); (4, echo)] sender).1 = Ok tt) as <- by (vm_compute; reflexivity).
  apply surjective_pairing.
Qed.

Example echo_bytes : OfConnection.pack (4, echo) = Ok [x04; x02; x00; x0b; x00; x00; x00; x09; x61; x62; x63].
Proof. vm_compute. reflexivity. Qed.

(** A flow_mod of OpenFlow 1.0, whose command stands after the match *)
Definition of10_flow : val := Eval vm_compute in
  construct of10 "message.flow_add"
    [("xid", VInt 3); ("idle_timeout", VInt 10); ("hard_timeout", VInt 20);
     ("actions", VList [construct of10 "action.output" [("port", VInt 2)]])].
Lemma of10_flow_good : valid_message 1 (1, of10_flow).
Proof. split; [reflexivity|]. exists 3. vm_compute. reflexivity. Qed.

Lemma message_roundtrip_witness :
  (∃ t x, parse_header [x04; x02; x00; x0b; x00; x00; x00; x09; x61; x62; x63] = Ok (4, t, 11, x)) ∧
  OfConnection.unpack 4 [x04; x02; x00; x0b; x00; x00; x00; x09; x61; x62; x63] = Ok (4, echo).
Proof. apply (message_roundtrip 4 1 echo); [lia|vm_compute; reflexivity..]. Defined.

Lemma echo_shaped : shaped (by_name (modules 4)) echo.
Proof.
  eapply shaped_obj; [vm_compute; reflexivity|reflexivity|]. intros a v Hin.
  rewrite !elem_of_cons, elem_of_nil in Hin. destruct Hin as [[= -> ->]|[[= -> ->]|[]]]; constructor.
Qed.
Lemma objects_compare_witness :
  ∃ b, equal (by_name (modules 4)) (S (height echo)) echo echo = Ok b ∧ (b = true ↔ echo = echo).
Proof. exact (objects_compare 4 echo echo echo_shaped echo_shaped). Defined.

(** Any xid that [send] fills in leaves the flow rule well-formed. *)
Lemma flow_rule_good m' : numbered (4, flow_rule) m' → valid_message 4 m'.
Proof.
  intros [xid ->]. split; [reflexivity|]. exists 5. vm_compute. reflexivity.
Qed.
Lemma echo_good : valid_message 4 (4, echo).
Proof. split; [reflexivity|]. exists 1. vm_compute. reflexivity. Qed.

Lemma openflow_stream_witness :
  ∃ ms', Forall2 numbered [(4, flow_rule); (4, echo)] ms' ∧
    feed pieces new_conn = (Ok tt, settle [x04; x02] (queue_all ms' new_conn)).
Proof.
  apply (openflow_stream 4 _ sender sender'); [lia|exact sender_sends|reflexivity| | | |discriminate| |reflexivity].
  - apply Forall_cons; split; [exact flow_rule_good|]. apply Forall_cons; split; [|by apply Forall_nil].
    intros m' ->. exact echo_good.
  - right. exists (4, echo). eexists. split; [exact echo_good|]. split; [exact echo_bytes|]. split; [|done].
    eexists. reflexivity.
  - vm_compute. reflexivity.
  - vm_compute. repeat constructor; done.
Defined.

#[local] Instance python_text : PyText :=
  {| set_iter := id; set_iter_perm := λ l, reflexivity l; repr_other := λ _, "<object>" |}.

Example echo_shown : show_message (4, echo) = Ok "echo_request { xid = 0x9, data = 'abc' }".
Proof. vm_compute. reflexivity. Qed.
(** A message too long for a line is broken, group by group. *)
Example flow_rule_shown : show_message (4, flow_rule) = Ok (py_join NEWLINE
  ["flow_add {"; "  xid = None,"; "  cookie = 0x7,"; "  cookie_mask = 0x0,"; "  table_id = 0x0,"; "  idle_timeout = 0x0,";
   "  hard_timeout = 0x0,"; "  priority = 0x3e8,"; "  buffer_id = 0xffffffff,"; "  out_port = 0,"; "  out_group = 0x0,";
   "  flags = 0x0,"; "  match = match_v3 {";
   "    oxm_list = [ in_port { value = 3 }, vlan_vid { value = 0x1001 } ]"; "  },"; "  instructions = [";
   "    apply_actions {"; "      actions = ["; "        push_vlan { ethertype = 0x8100 },";
   "        output { port = 2, max_len = 0xffff }"; "      ]"; "    }"; "  ]"; "}"]).
Proof. vm_compute. reflexivity. Qed.

Lemma received_messages_print_witness :
  ∃ s t, show_message (4, echo) = Ok s ∧ describe_message (4, echo) = Ok t ∧
    no_blanks s = no_blanks t ∧ (String.length t ≤ 79 → s = t).
Proof.
  apply (received_messages_print 4 [x04; x02; x00; x0b; x00; x00; x00; x09; x61; x62; x63] (4, echo)).
  - right. right. left.
  - vm_compute. reflexivity.
Defined.
(** A match on the ingress port, as a controller would send it *)
Definition of11_match : val := Eval vm_compute in
  construct of11 "common.match_v2" [("in_port", VInt 1); ("wildcards", VInt 1022)].
Lemma of11_match_unprintable_witness : show_message (2, of11_match) = Raise AttributeError.
Proof. apply (of11_match_unprintable _ 1 1022); [reflexivity|reflexivity|discriminate]. Defined.

(** The data of an experimenter action is padded to a multiple of eight bytes, and
    the padding is counted: it comes back as data. *)
Example experimenter_padding :
  let a := of13_object "action.experimenter" [("experimenter", VInt 1); ("data", VStr [x61])] in
  (b ← LoxiWire.pack (by_name of13) 1 a; unpack_buffer (by_name of13) "action.action" b) =
  Ok (of13_object "action.experimenter"
        [("experimenter", VInt 1); ("data", VStr (x61 :: replicate 7 x00))]).
Proof. vm_compute. reflexivity. Qed.
