(* ===== verification/OmciEntities.v ===== *)
(** * OMCI managed entities (voltha/extensions/omci/omci_defs.py, omci_entities.py)

    The attribute tables of the managed entities and the attribute masks of the
    messages.  The wire format of a single field is scapy's: the class
    [FieldCodec] has the two operations of a field, with their documented
    behaviour as laws. *)

From stdpp Require Import prelude strings list sorting.
From S2P Require Import Prelude.

Open Scope Z_scope.

(** ** Fields *)

(** The field classes the entities use; a string field has a fixed length. *)
Inductive fkind : Type := FByte | FShort | FInt | FMac | FIp | FStr (length : nat).
Definition width (k : fkind) : nat :=
  match k with FByte => 1 | FShort => 2 | FInt => 4 | FMac => 6 | FIp => 4 | FStr n => n end.

(** Python values of fields: numbers, strings (of characters or bytes), None. *)
Inductive fval : Type := VNone | VInt (z : Z) | VStr (s : list Z).
#[export] Instance fkind_eq_dec : EqDecision fkind. Proof. solve_decision. Defined.
#[export] Instance fval_eq_dec : EqDecision fval. Proof. solve_decision. Defined.

(** [field.addfield(pkt, s, val)] appends the bytes of [val] to [s];
    [field.getfield(pkt, s)] returns the rest of [s] and the value. *)
Class FieldCodec : Type := {
  pack_field : fkind → fval → result (list Z);
  getfield : fkind → list Z → result (list Z * fval);
}.
(** The values a field reproduces: [canonical k v]. *)
Class FieldCodecLaws `{FieldCodec} : Type := {
  canonical : fkind → fval → Prop;
  pack_canonical k v : canonical k v → ∃ b, pack_field k v = Ok b ∧ length b = width k ∧
    ∀ rest, getfield k (b ++ rest) = Ok (rest, v);
}.
Definition addfield `{FieldCodec} (k : fkind) (s : list Z) (v : fval) : result (list Z) :=
  b ← pack_field k v; Ok (s ++ b).

(** ** Definitions of omci_defs.py *)

(** The loop of [bitpos_from_mask]; a negative mask never becomes 0. *)
Fixpoint bitpos_loop (fuel : nat) (mask lsb_pos increment : Z) (out : list Z) : result (list Z) :=
  match fuel with
  | O => Raise OutOfFuel
  | S fuel =>
      if bool_decide (mask = 0) then Ok out
      else bitpos_loop fuel (Z.shiftr mask 1) (lsb_pos + increment) increment
             (if bool_decide (Z.land mask 1 = 0) then out else out ++ [lsb_pos])
  end.
Definition bitpos_from_mask (mask lsb_pos increment : Z) : result (list Z) :=
  out ← bitpos_loop (S (S (Z.to_nat (Z.log2 mask)))) mask lsb_pos increment [];
  Ok (merge_sort Z.le out).

Inductive AttributeAccess : Type := R | W | SBC.
#[export] Instance AttributeAccess_eq_dec : EqDecision AttributeAccess. Proof. solve_decision. Defined.
Definition OmciNullPointer : Z := 0xffff.

Inductive EntityOperations : Type :=
  | OpCreate | OpCreateComplete | OpDelete | OpSet | OpGet | OpGetComplete | OpGetAllAlarms
  | OpGetAllAlarmsNext | OpMibUpload | OpMibUploadNext | OpMibReset | OpAlarmNotification
  | OpAttributeValueChange | OpTest | OpStartSoftwareDownload | OpDownlaodSection
  | OpEndSoftwareDownload | OpActivateSoftware | OpCommitSoftware | OpSynchronizeTime | OpReboot
  | OpGetNext | OpTestResult | OpGetCurrentData.
#[export] Instance EntityOperations_eq_dec : EqDecision EntityOperations. Proof. solve_decision. Defined.
Definition op_code (o : EntityOperations) : Z :=
  match o with
  | OpCreate => 4 | OpCreateComplete => 5 | OpDelete => 6 | OpSet => 8 | OpGet => 9
  | OpGetComplete => 10 | OpGetAllAlarms => 11 | OpGetAllAlarmsNext => 12 | OpMibUpload => 13
  | OpMibUploadNext => 14 | OpMibReset => 15 | OpAlarmNotification => 16
  | OpAttributeValueChange => 17 | OpTest => 18 | OpStartSoftwareDownload => 19
  | OpDownlaodSection => 20 | OpEndSoftwareDownload => 21 | OpActivateSoftware => 22
  | OpCommitSoftware => 23 | OpSynchronizeTime => 24 | OpReboot => 25 | OpGetNext => 26
  | OpTestResult => 27 | OpGetCurrentData => 28
  end.

(** ** Entity classes *)

Record EntityClassAttribute : Type := mk_ECA {
  eca_name : string;
  eca_kind : fkind;
  eca_default : fval;
  eca_access : list AttributeAccess;
  eca_optional : bool;
}.
Definition ECA (name : string) (k : fkind) (default : fval) (access : list AttributeAccess)
    : EntityClassAttribute := mk_ECA name k default access false.
Definition ECAo (name : string) (k : fkind) (default : fval) (access : list AttributeAccess)
    : EntityClassAttribute := mk_ECA name k default access true.

Record EntityClass : Type := mk_EntityClass {
  ec_name : string;
  class_id : Z;
  attributes : list EntityClassAttribute;
  mandatory_operations : list EntityOperations;
  optional_operations : list EntityOperations;
}.

#[export] Instance EntityClassAttribute_eq_dec : EqDecision EntityClassAttribute.
Proof. solve_decision. Defined.
#[export] Instance EntityClass_eq_dec : EqDecision EntityClass.
Proof. solve_decision. Defined.

(** The metaclass's [attribute_name_to_index_map] *)
Definition attribute_name_to_index_map (cls : EntityClass) : list (string * nat) :=
  od_of_list (imap (λ i a, (eca_name a, i)) (attributes cls)).

(** The keyword arguments of an instance, [self._data]. *)
Definition data : Type := list (string * fval).
Definition new_entity (cls : EntityClass) (kw : data) : result data :=
  _ ← assert_ (forallb (λ kv, bool_decide (is_Some (od_get kv.1 (attribute_name_to_index_map cls)))) kw);
  Ok kw.

(** Each of the two bytes of a mask; the lookup tables hold these values. *)
Definition attribute_indices_from_mask (mask : Z) : result (list Z) :=
  b1 ← bitpos_from_mask (Z.land (Z.shiftr mask 8) 0xff) 8 (-1);
  b2 ← bitpos_from_mask (Z.land mask 0xff) 16 (-1);
  Ok (b1 ++ b2).

Definition attribute_indices_from_data (cls : EntityClass) (d : data) : result (list Z) :=
  l ← mapM (λ k, i ← of_option KeyError (od_get k (attribute_name_to_index_map cls)); Ok (Z.of_nat i))
           (od_keys d);
  Ok (merge_sort Z.le l).

(** [l[i]]: a negative index counts from the end. *)
Definition py_nth {A} (l : list A) (i : Z) : result A :=
  let j := if i <? 0 then Z.of_nat (length l) + i else i in
  if j <? 0 then Raise IndexError else of_option IndexError (l !! Z.to_nat j).

(** [mask_for]: shifting by a negative amount is a ValueError. *)
Definition mask_step (cls : EntityClass) (mask : Z) (attr_name : string) : result Z :=
  i ← of_option KeyError (od_get attr_name (attribute_name_to_index_map cls));
  if 16 <? Z.of_nat i then Raise ValueError
  else Ok (Z.lor mask (Z.shiftl 1 (16 - Z.of_nat i))).
Definition mask_for (cls : EntityClass) (attr_names : list string) : result Z :=
  foldl (λ acc n, m ← acc; mask_step cls m n) (Ok 0) attr_names.

Section serialize.
Context `{!FieldCodec}.

Fixpoint serialize_indices (cls : EntityClass) (d : data) (indices : list Z) (bytes : list Z)
    : result (list Z) :=
  match indices with
  | [] => Ok bytes
  | index :: indices =>
      a ← py_nth (attributes cls) index;
      value ← of_option OmciUninitializedFieldError (od_get (eca_name a) d);
      bytes ← addfield (eca_kind a) bytes value;
      serialize_indices cls d indices bytes
  end.
Definition serialize (cls : EntityClass) (d : data) (mask : option Z) : result (list Z) :=
  indices ← (match mask with
             | Some m => attribute_indices_from_mask m
             | None => attribute_indices_from_data cls d
             end);
  serialize_indices cls d indices [].
End serialize.

(** ** The tables *)

Definition OntData : EntityClass := mk_EntityClass "OntData" 2
  [ECA "managed_entity_id" FShort VNone [R];
   ECA "mib_data_sync" FByte (VInt 0) [R; W]]
  [OpGet; OpSet; OpGetAllAlarms; OpGetAllAlarmsNext; OpMibReset; OpMibUpload; OpMibUploadNext] [].
Definition Cardholder : EntityClass := mk_EntityClass "Cardholder" 5
  [ECA "managed_entity_id" FShort VNone [R];
   ECA "actual_plugin_unit_type" FByte VNone [R];
   ECA "expected_plugin_unit_type" FByte VNone [R; W];
   ECAo "expected_port_count" FByte VNone [R; W];
   ECAo "expected_equipment_id" (FStr 20) VNone [R; W];
   ECAo "actual_equipment_id" (FStr 20) VNone [R];
   ECAo "protection_profile_pointer" FByte VNone [R];
   ECAo "invoke_protection_switch" FByte VNone [R; W];
   ECA "arc" FByte VNone [R; W];
   ECA "arc_interval" FByte VNone [R; W]]
  [OpGet; OpSet] [].
Definition CircuitPack : EntityClass := mk_EntityClass "CircuitPack" 6
  [ECA "managed_entity_id" (FStr 22) VNone [R; SBC];
   ECA "type" FByte VNone [R; SBC];
   ECAo "number_of_ports" FByte VNone [R];
   ECA "serial_number" (FStr 8) VNone [R];
   ECA "version" (FStr 14) VNone [R];
   ECA "vendor_id" (FStr 4) VNone [R];
   ECA "administrative_state" FByte VNone [R; W; SBC];
   ECAo "operational_state" FByte VNone [R];
   ECAo "bridged_or_ip_ind" FByte VNone [R; W];
   ECAo "equipment_id" (FStr 20) VNone [R];
   ECA "card_configuration" FByte VNone [R; W; SBC];
   ECA "total_tcont_buffer_number" FByte VNone [R];
   ECA "total_priority_queue_number" FByte VNone [R];
   ECA "total_traffic_scheduler_number" FByte VNone [R];
   ECAo "power_sched_override" FInt VNone [R; W]]
  [OpGet; OpSet; OpReboot] [OpCreate; OpDelete; OpTest].
Definition SoftwareImage : EntityClass := mk_EntityClass "SoftwareImage" 7
  [ECA "managed_entity_id" FShort VNone [R];
   ECA "version" (FStr 14) VNone [R];
   ECA "is_committed" FByte VNone [R];
   ECA "is_active" FByte VNone [R];
   ECA "is_valid" FByte VNone [R]]
  [OpGet] [].
Definition MacBridgeServiceProfile : EntityClass := mk_EntityClass "MacBridgeServiceProfile" 45
  [ECA "managed_entity_id" FShort VNone [R; SBC];
   ECA "spanning_tree_ind" FByte (VInt 0) [R; W; SBC];
   ECA "learning_ind" FByte (VInt 0) [R; W; SBC];
   ECA "port_bridging_ind" FByte (VInt 0) [R; W; SBC];
   ECA "priority" FShort VNone [R; W; SBC];
   ECA "max_age" FShort VNone [R; W; SBC];
   ECA "hello_time" FShort VNone [R; W; SBC];
   ECA "forward_delay" FShort VNone [R; W; SBC];
   ECA "unknown_mac_address_discard" FByte (VInt 0) [R; W; SBC];
   ECAo "mac_learning_depth" FByte (VInt 0) [R; W; SBC]]
  [OpCreate; OpDelete; OpGet; OpSet] [].
Definition MacBridgePortConfigurationData : EntityClass := mk_EntityClass "MacBridgePortConfigurationData" 47
  [ECA "managed_entity_id" FShort VNone [R; SBC];
   ECA "bridge_id_pointer" FShort VNone [R; W; SBC];
   ECA "port_num" FByte VNone [R; W; SBC];
   ECA "tp_type" FByte VNone [R; W; SBC];
   ECA "tp_pointer" FShort VNone [R; W; SBC];
   ECA "port_priority" FShort VNone [R; W; SBC];
   ECA "port_path_cost" FShort VNone [R; W; SBC];
   ECA "port_spanning_tree_in" FByte VNone [R; W; SBC];
   ECAo "encapsulation_methods" FByte VNone [R; W; SBC];
   ECAo "lan_fcs_ind" FByte VNone [R; W; SBC];
   ECAo "port_mac_address" FMac VNone [R];
   ECAo "outbound_td_pointer" FShort VNone [R; W];
   ECAo "inbound_td_pointer" FShort VNone [R; W]]
  [OpCreate; OpDelete; OpGet; OpSet] [].
Definition VlanTaggingFilterData : EntityClass := mk_EntityClass "VlanTaggingFilterData" 84
  [ECA "managed_entity_id" FShort VNone [R; SBC];
   ECA "vlan_filter_0" FShort VNone [R; W; SBC];
   ECA "vlan_filter_1" FShort VNone [R; W; SBC];
   ECA "vlan_filter_2" FShort VNone [R; W; SBC];
   ECA "vlan_filter_3" FShort VNone [R; W; SBC];
   ECA "vlan_filter_4" FShort VNone [R; W; SBC];
   ECA "vlan_filter_5" FShort VNone [R; W; SBC];
   ECA "vlan_filter_6" FShort VNone [R; W; SBC];
   ECA "vlan_filter_7" FShort VNone [R; W; SBC];
   ECA "vlan_filter_8" FShort VNone [R; W; SBC];
   ECA "vlan_filter_9" FShort VNone [R; W; SBC];
   ECA "vlan_filter_10" FShort VNone [R; W; SBC];
   ECA "vlan_filter_11" FShort VNone [R; W; SBC];
   ECA "forward_operation" FByte VNone [R; W; SBC];
   ECA "number_of_entries" FByte VNone [R; W; SBC]]
  [OpCreate; OpDelete; OpGet; OpSet] [].
Definition Ieee8021pMapperServiceProfile : EntityClass := mk_EntityClass "Ieee8021pMapperServiceProfile" 130
  [ECA "managed_entity_id" FShort VNone [R; SBC];
   ECA "tp_pointer" FShort (VInt OmciNullPointer) [R; W; SBC];
   ECA "interwork_tp_pointer_for_p_bit_priority_0" FShort (VInt OmciNullPointer) [R; W; SBC];
   ECA "interwork_tp_pointer_for_p_bit_priority_1" FShort (VInt OmciNullPointer) [R; W; SBC];
   ECA "interwork_tp_pointer_for_p_bit_priority_2" FShort (VInt OmciNullPointer) [R; W; SBC];
   ECA "interwork_tp_pointer_for_p_bit_priority_3" FShort (VInt OmciNullPointer) [R; W; SBC];
   ECA "interwork_tp_pointer_for_p_bit_priority_4" FShort (VInt OmciNullPointer) [R; W; SBC];
   ECA "interwork_tp_pointer_for_p_bit_priority_5" FShort (VInt OmciNullPointer) [R; W; SBC];
   ECA "interwork_tp_pointer_for_p_bit_priority_6" FShort (VInt OmciNullPointer) [R; W; SBC];
   ECA "interwork_tp_pointer_for_p_bit_priority_7" FShort (VInt OmciNullPointer) [R; W; SBC];
   ECA "unmarked_frame_option" FByte VNone [R; W; SBC];
   ECA "dscp_to_p_bit_mapping" (FStr 24) VNone [R; W];
   ECA "default_p_bit_marking" FByte VNone [R; W; SBC];
   ECAo "tp_type" FByte VNone [R; W; SBC]]
  [OpCreate; OpDelete; OpGet; OpSet] [].
Definition OltG : EntityClass := mk_EntityClass "OltG" 131
  [ECA "managed_entity_id" FShort VNone [R];
   ECA "olt_vendor_id" (FStr 4) VNone [R; W];
   ECA "equipment_id" (FStr 20) VNone [R; W];
   ECA "version" (FStr 14) VNone [R; W];
   ECA "time_of_day" (FStr 14) VNone [R; W]]
  [OpGet; OpSet] [].
Definition OntPowerShedding : EntityClass := mk_EntityClass "OntPowerShedding" 133
  [ECA "managed_entity_id" FShort VNone [R];
   ECA "restore_power_time_reset_interval" FShort VNone [R; W];
   ECA "data_class_shedding_interval" FShort VNone [R; W];
   ECA "voice_class_shedding_interval" FShort VNone [R; W];
   ECA "video_overlay_class_shedding_interval" FShort VNone [R; W];
   ECA "video_return_class_shedding_interval" FShort VNone [R; W];
   ECA "dsl_class_shedding_interval" FShort VNone [R; W];
   ECA "atm_class_shedding_interval" FShort VNone [R; W];
   ECA "ces_class_shedding_interval" FShort VNone [R; W];
   ECA "frame_class_shedding_interval" FShort VNone [R; W];
   ECA "sonet_class_shedding_interval" FShort VNone [R; W];
   ECA "shedding_status" FShort VNone [R; W]]
  [OpGet; OpSet] [].
Definition IpHostConfigData : EntityClass := mk_EntityClass "IpHostConfigData" 134
  [ECA "managed_entity_id" FShort VNone [R];
   ECA "ip_options" FByte VNone [R; W];
   ECA "mac_address" FMac VNone [R];
   ECA "ont_identifier" (FStr 25) VNone [R; W];
   ECA "ip_address" FIp VNone [R; W];
   ECA "mask" FIp VNone [R; W];
   ECA "gateway" FIp VNone [R; W];
   ECA "primary_dns" FIp VNone [R; W];
   ECA "secondary_dns" FIp VNone [R; W];
   ECA "current_address" FIp VNone [R];
   ECA "current_mask" FIp VNone [R];
   ECA "current_gateway" FIp VNone [R];
   ECA "current_primary_dns" FIp VNone [R];
   ECA "current_secondary_dns" FIp VNone [R];
   ECA "domain_name" (FStr 25) VNone [R];
   ECA "host_name" (FStr 25) VNone [R]]
  [OpGet; OpSet; OpTest] [].
Definition ExtendedVlanTaggingOperationConfigurationData : EntityClass := mk_EntityClass "ExtendedVlanTaggingOperationConfigurationData" 171
  [ECA "managed_entity_id" FShort VNone [R; SBC];
   ECA "association_type" FByte VNone [R; W; SBC];
   ECA "received_vlan_tagging_operation_table_max_size" FShort VNone [R];
   ECA "input_tpid" FShort VNone [R; W];
   ECA "output_tpid" FShort VNone [R; W];
   ECA "downstream_mode" FByte VNone [R; W];
   ECA "received_frame_vlan_tagging_operation_table" (FStr 16) VNone [R; W];
   ECA "associated_me_pointer" FShort VNone [R; W; SBC]]
  [OpCreate; OpDelete; OpSet; OpGet; OpGetNext] [].
Definition OntG : EntityClass := mk_EntityClass "OntG" 256
  [ECA "managed_entity_id" FShort VNone [R];
   ECA "vendor_id" (FStr 4) VNone [R];
   ECA "version" (FStr 14) VNone [R];
   ECA "serial_number" (FStr 8) VNone [R];
   ECA "traffic_management_options" FByte VNone [R];
   ECAo "vp_vc_cross_connection_option" FByte VNone [R];
   ECA "administrative_state" FByte VNone [R; W];
   ECAo "operational_state" FByte VNone [R];
   ECA "ont_survival_time" FByte VNone [R]]
  [OpGet; OpSet; OpReboot; OpTest; OpSynchronizeTime] [].
Definition Ont2G : EntityClass := mk_EntityClass "Ont2G" 257
  [ECA "managed_entity_id" FShort VNone [R];
   ECA "equipment_id" (FStr 20) VNone [R];
   ECA "omcc_version" FByte VNone [R];
   ECAo "vendor_product_code" FShort VNone [R];
   ECA "security_capability" FByte VNone [R];
   ECA "security_mode" FByte VNone [R; W];
   ECA "total_priority_queue_number" FShort VNone [R];
   ECA "total_traffic_scheduler_number" FByte VNone [R];
   ECA "mode" FByte VNone [R];
   ECAo "total_gem_port_id_number" FShort VNone [R];
   ECAo "sys_uptime" FInt VNone [R]]
  [OpGet; OpSet] [].
Definition Tcont : EntityClass := mk_EntityClass "Tcont" 262
  [ECA "managed_entity_id" FShort VNone [R];
   ECA "alloc_id" FShort (VInt 0x00ff) [R; W];
   ECA "mode_indicator" FByte (VInt 1) [R];
   ECA "policy" FByte VNone [R; W]]
  [OpGet; OpSet] [].
Definition AniG : EntityClass := mk_EntityClass "AniG" 263
  [ECA "managed_entity_id" FShort VNone [R];
   ECA "sr_indication" FByte VNone [R];
   ECA "total_tcont_number" FShort VNone [R];
   ECA "gem_block_length" FShort VNone [R; W];
   ECA "piggyback_dba_reporting" FByte VNone [R];
   ECA "whole_ont_dba_reporting" FByte VNone [R];
   ECA "sf_threshold" FByte VNone [R; W];
   ECA "sd_threshold" FByte VNone [R; W];
   ECA "arc" FByte VNone [R; W];
   ECA "arc_interval" FByte VNone [R; W];
   ECA "optical_signal_level" FShort VNone [R];
   ECAo "lower_optical_threshold" FByte VNone [R; W];
   ECAo "upper_optical_threshold" FByte VNone [R; W];
   ECAo "ont_response_time" FByte VNone [R];
   ECAo "transmit_optical_level" FShort VNone [R];
   ECAo "lower_transmit_power_threshold" FByte VNone [R; W];
   ECAo "upper_transmit_power_threshold" FByte VNone [R; W]]
  [OpGet; OpSet; OpTest] [].
Definition UniG : EntityClass := mk_EntityClass "UniG" 264
  [ECA "managed_entity_id" FShort VNone [R];
   ECA "configuration_option_status" FShort VNone [R; W];
   ECA "administrative_state" FByte VNone [R; W]]
  [OpGet; OpSet] [].
Definition GemInterworkingTp : EntityClass := mk_EntityClass "GemInterworkingTp" 266
  [ECA "managed_entity_id" FShort VNone [R; SBC];
   ECA "gem_port_network_ctp_pointer" FShort VNone [R; W; SBC];
   ECA "interworking_option" FByte VNone [R; W; SBC];
   ECA "service_profile_pointer" FShort VNone [R; W; SBC];
   ECA "interworking_tp_pointer" FShort VNone [R; W; SBC];
   ECAo "pptp_counter" FByte VNone [R];
   ECAo "operational_state" FByte VNone [R];
   ECA "gal_profile_pointer" FShort VNone [R; W; SBC];
   ECA "gal_loopback_configuration" FByte VNone [R; W]]
  [] [].
Definition GemPortNetworkCtp : EntityClass := mk_EntityClass "GemPortNetworkCtp" 268
  [ECA "managed_entity_id" FShort VNone [R; SBC];
   ECA "port_id" FShort VNone [R; W; SBC];
   ECA "tcont_pointer" FShort VNone [R; W; SBC];
   ECA "direction" FByte VNone [R; W; SBC];
   ECA "traffic_management_pointer_upstream" FShort VNone [R; W; SBC];
   ECAo "traffic_descriptor_profile_pointer" FShort VNone [R; W; SBC];
   ECAo "uni_counter" FByte VNone [R];
   ECA "priority_queue_pointer_downstream" FShort VNone [R; W; SBC];
   ECAo "encryption_state" FByte VNone [R]]
  [OpCreate; OpDelete; OpGet; OpSet] [].
Definition GalEthernetProfile : EntityClass := mk_EntityClass "GalEthernetProfile" 272
  [ECA "managed_entity_id" FShort VNone [R; SBC];
   ECA "max_gem_payload_size" FShort VNone [R; W; SBC]]
  [OpCreate; OpDelete; OpGet; OpSet] [].
Definition PriorityQueueG : EntityClass := mk_EntityClass "PriorityQueueG" 277
  [ECA "managed_entity_id" FShort VNone [R];
   ECA "queue_configuration_option" FByte VNone [R];
   ECA "maximum_queue_size" FShort VNone [R];
   ECA "allocated_queue_size" FShort VNone [R; W];
   ECA "discard_block_countter_reset_interval" FShort VNone [R; W];
   ECA "threshold_value_for_discarded_blocks" FShort VNone [R; W];
   ECA "related_port" FInt VNone [R];
   ECA "traffic_scheduler_g_pointer" FShort VNone [R; W];
   ECA "weight" FByte VNone [R; W];
   ECA "back_pressure_operation" FShort VNone [R; W];
   ECA "back_pressure_time" FInt VNone [R; W];
   ECA "back_pressure_occur_queue_threshold" FShort VNone [R; W];
   ECA "back_pressure_clear_queue_threshold" FShort VNone [R; W]]
  [OpGet; OpSet] [].
Definition TrafficSchedulerG : EntityClass := mk_EntityClass "TrafficSchedulerG" 278
  [ECA "managed_entity_id" FShort VNone [R];
   ECA "tcont_pointer" FShort VNone [R];
   ECA "traffic_scheduler_pointer" FShort VNone [R];
   ECA "policy" FByte VNone [R];
   ECA "priority_weight" FByte VNone [R]]
  [OpGet; OpSet] [].
Definition MulticastGemInterworkingTp : EntityClass := mk_EntityClass "MulticastGemInterworkingTp" 281
  [ECA "managed_entity_id" FShort VNone [R; SBC];
   ECA "gem_port_network_ctp_pointer" FShort VNone [R; SBC];
   ECA "interworking_option" FByte VNone [R; SBC];
   ECA "service_profile_pointer" FShort VNone [R; SBC];
   ECA "interworking_tp_pointer" FShort (VInt 0) [R; SBC];
   ECAo "pptp_counter" FByte VNone [R];
   ECAo "operational_state" FByte VNone [R];
   ECA "gal_profile_pointer" FShort VNone [R; W; SBC];
   ECA "gal_loopback_configuration" FByte VNone [R; W; SBC]]
  [OpCreate; OpDelete; OpGet; OpGetNext; OpSet] [].
Definition Unknown329 : EntityClass := mk_EntityClass "Unknown329" 329
  []
  [] [].
Definition Unknown332 : EntityClass := mk_EntityClass "Unknown332" 332
  []
  [] [].
Definition Unknown347 : EntityClass := mk_EntityClass "Unknown347" 347
  []
  [] [].

(** The classes of the module by name, and by class id. *)
Definition entity_classes : list EntityClass :=
  [AniG; Cardholder; CircuitPack; ExtendedVlanTaggingOperationConfigurationData;
   GalEthernetProfile; GemInterworkingTp; GemPortNetworkCtp; Ieee8021pMapperServiceProfile;
   IpHostConfigData; MacBridgePortConfigurationData; MacBridgeServiceProfile;
   MulticastGemInterworkingTp; OltG; Ont2G; OntData; OntG; OntPowerShedding; PriorityQueueG;
   SoftwareImage; Tcont; TrafficSchedulerG; UniG; Unknown329; Unknown332; Unknown347;
   VlanTaggingFilterData].
Definition entity_id_to_class_map : list (Z * EntityClass) :=
  od_of_list ((λ c, (class_id c, c)) <$> entity_classes).
