(* ===== verification/OmciMessages.v ===== *)
(** * OMCI messages and frames (voltha/extensions/omci/omci_messages.py, omci_frame.py,
      and FixedLenField of omci_defs.py)

    A message is described by a list of fields; scapy builds the bytes of a
    packet field by field, and dissects them the same way, stopping when no
    bytes are left. *)

From stdpp Require Import prelude strings list sorting.
From S2P Require Import Prelude OmciEntities.

Open Scope Z_scope.

(** ** Packets *)

Inductive pval : Type := PV (v : fval) | PD (d : data).
#[export] Instance pval_eq_dec : EqDecision pval. Proof. solve_decision. Defined.
(** The fields of a packet that were set, by name. *)
Definition packet : Type := list (string * pval).

Inductive mfield : Type :=
  | MF (name : string) (k : fkind) (default : fval)
  | MData (name : string) (entity_class : string)                       (** OmciData *)
  | MMasked (name : string) (entity_class attributes_mask : string)     (** OmciMaskedData *)
  | MIfSuccess (f : mfield).              (** ConditionalField(f, pkt.success_code == 0) *)

Record OmciMessage : Type := mk_OmciMessage {
  om_name : string;
  message_id : Z;
  fields_desc : list mfield;
}.

Fixpoint mf_name (f : mfield) : string :=
  match f with MF n _ _ => n | MData n _ => n | MMasked n _ _ => n | MIfSuccess f => mf_name f end.
Fixpoint mf_default (f : mfield) : pval :=
  match f with MF _ _ d => PV d | MIfSuccess f => mf_default f | _ => PV VNone end.

(** [getattr(pkt, name)]: the value set, or the default of the field. *)
Definition pkt_attr (desc : list mfield) (pkt : packet) (name : string) : result pval :=
  match od_get name pkt with
  | Some v => Ok v
  | None => of_option AttributeError
              (mf_default <$> find (λ f, bool_decide (mf_name f = name)) desc)
  end.

Section messages.
Context `{!FieldCodec}.

(** [entity_id_to_class_map.get(class_id)], whose [None] has no attributes. *)
Definition class_of (v : pval) : option EntityClass :=
  match v with PV (VInt i) => od_get i entity_id_to_class_map | _ => None end.
(** The attributes that are set by create, without the entity id. *)
Definition create_attributes (cls : EntityClass) : list EntityClassAttribute :=
  filter (λ a, SBC ∈ eca_access a ∧ eca_name a ≠ "managed_entity_id") (attributes cls).

(** ** OmciData *)

Fixpoint add_attributes (attrs : list EntityClassAttribute) (s : list Z) (val : data) : result (list Z) :=
  match attrs with
  | [] => Ok s
  | a :: attrs =>
      s ← addfield (eca_kind a) s (default (eca_default a) (od_get (eca_name a) val));
      add_attributes attrs s val
  end.
Fixpoint get_attributes (attrs : list EntityClassAttribute) (s : list Z) (d : data)
    : result (list Z * data) :=
  match attrs with
  | [] => Ok (s, d)
  | a :: attrs =>
      r ← getfield (eca_kind a) s;
      get_attributes attrs r.1 (od_set (eca_name a) r.2 d)
  end.
Definition OmciData_addfield (cls : pval) (s : list Z) (val : pval) : result (list Z) :=
  c ← of_option AttributeError (class_of cls);
  d ← (match val with PD d => Ok d | PV _ => Raise AttributeError end);
  add_attributes (create_attributes c) s d.
Definition OmciData_getfield (cls : pval) (s : list Z) : result (list Z * pval) :=
  c ← of_option AttributeError (class_of cls);
  r ← get_attributes (create_attributes c) s [];
  Ok (r.1, PD r.2).

(** ** OmciMaskedData *)

Definition mask_indices (mask : pval) : result (list Z) :=
  match mask with PV (VInt m) => attribute_indices_from_mask m | _ => Raise TypeError end.

(** Building needs every attribute of the mask. *)
Fixpoint add_indices (cls : EntityClass) (indices : list Z) (s : list Z) (val : data) : result (list Z) :=
  match indices with
  | [] => Ok s
  | index :: indices =>
      a ← py_nth (attributes cls) index;
      v ← of_option KeyError (od_get (eca_name a) val);
      s ← addfield (eca_kind a) s v;
      add_indices cls indices s val
  end.
(** Dissecting logs and skips a bit for which the class has no attribute. *)
Fixpoint get_indices (cls : EntityClass) (indices : list Z) (s : list Z) (d : data)
    : result (list Z * data) :=
  match indices with
  | [] => Ok (s, d)
  | index :: indices =>
      match py_nth (attributes cls) index with
      | Raise _ => get_indices cls indices s d
      | Ok a =>
          r ← getfield (eca_kind a) s;
          get_indices cls indices r.1 (od_set (eca_name a) r.2 d)
      end
  end.
Definition OmciMaskedData_addfield (cls mask : pval) (s : list Z) (val : pval) : result (list Z) :=
  c ← of_option AttributeError (class_of cls);
  indices ← mask_indices mask;
  match indices, val with
  | [], _ => Ok s
  | _, PD d => add_indices c indices s d
  | _, PV _ => Raise TypeError
  end.
Definition OmciMaskedData_getfield (cls mask : pval) (s : list Z) : result (list Z * pval) :=
  c ← of_option KeyError (class_of cls);
  indices ← mask_indices mask;
  r ← get_indices c indices s [];
  Ok (r.1, PD r.2).

(** ** Building and dissecting a message *)

Definition is_success (desc : list mfield) (pkt : packet) : result bool :=
  v ← pkt_attr desc pkt "success_code"; Ok (bool_decide (v = PV (VInt 0))).

Fixpoint add_mfield (desc : list mfield) (pkt : packet) (f : mfield) (s : list Z) : result (list Z) :=
  match f with
  | MF name k _ =>
      v ← pkt_attr desc pkt name;
      match v with PV v => addfield k s v | PD _ => Raise TypeError end
  | MData name ec =>
      v ← pkt_attr desc pkt name;
      c ← pkt_attr desc pkt ec;
      OmciData_addfield c s v
  | MMasked name ec mask =>
      v ← pkt_attr desc pkt name;
      c ← pkt_attr desc pkt ec;
      m ← pkt_attr desc pkt mask;
      OmciMaskedData_addfield c m s v
  | MIfSuccess f =>
      b ← is_success desc pkt;
      if b : bool then add_mfield desc pkt f s else Ok s
  end.
Fixpoint build_fields (desc : list mfield) (pkt : packet) (fs : list mfield) (s : list Z) : result (list Z) :=
  match fs with
  | [] => Ok s
  | f :: fs => s ← add_mfield desc pkt f s; build_fields desc pkt fs s
  end.

Fixpoint get_mfield (desc : list mfield) (pkt : packet) (f : mfield) (s : list Z) : result (list Z * pval) :=
  match f with
  | MF _ k _ => r ← getfield k s; Ok (r.1, PV r.2)
  | MData _ ec => c ← pkt_attr desc pkt ec; OmciData_getfield c s
  | MMasked _ ec mask =>
      c ← pkt_attr desc pkt ec;
      m ← pkt_attr desc pkt mask;
      OmciMaskedData_getfield c m s
  | MIfSuccess f =>
      b ← is_success desc pkt;
      if b : bool then get_mfield desc pkt f s else Ok (s, PV VNone)
  end.
Fixpoint dissect_fields (desc : list mfield) (fs : list mfield) (s : list Z) (pkt : packet)
    : result (list Z * packet) :=
  match fs with
  | [] => Ok (s, pkt)
  | f :: fs =>
      match s with
      | [] => Ok (s, pkt)
      | _ =>
          r ← get_mfield desc pkt f s;
          dissect_fields desc fs r.1 (od_set (mf_name f) r.2 pkt)
      end
  end.

(** A message packet with the raw payload that follows its fields. *)
Record msgval : Type := mk_msgval { mv_fields : packet; mv_payload : list Z }.
Definition build_message (m : OmciMessage) (v : msgval) : result (list Z) :=
  s ← build_fields (fields_desc m) (mv_fields v) (fields_desc m) [];
  Ok (s ++ mv_payload v).
Definition dissect_message (m : OmciMessage) (s : list Z) : result msgval :=
  r ← dissect_fields (fields_desc m) (fields_desc m) s [];
  Ok (mk_msgval r.2 r.1).

(** [FixedLenField(PacketField(...), align=36)]: padded to a multiple of 36 when
    built; only 36 bytes are dissected, and a payload of padding is dropped. *)
Definition align : Z := 36.
Definition pad_message (m : OmciMessage) (s : list Z) (v : msgval) : result (list Z) :=
  b ← build_message m v;
  Ok (s ++ b ++ replicate (Z.to_nat ((- Z.of_nat (length b)) mod align)) 0).
Definition fixed_getfield (m : OmciMessage) (s : list Z) : result (list Z * msgval) :=
  v ← dissect_message m (take (Z.to_nat align) s);
  let v' := if forallb (λ b, bool_decide (b = 0)) (mv_payload v) then mk_msgval (mv_fields v) [] else v in
  Ok (drop (Z.to_nat align) s, v').
End messages.

(** ** The messages *)

Definition OmciCreate : OmciMessage := mk_OmciMessage "OmciCreate" 0x44
  [MF "entity_class" FShort VNone;
   MF "entity_id" FShort (VInt 0);
   MData "data" "entity_class"].
Definition OmciCreateResponse : OmciMessage := mk_OmciMessage "OmciCreateResponse" 0x24
  [MF "entity_class" FShort VNone;
   MF "entity_id" FShort VNone;
   MF "success_code" FByte (VInt 0);
   MF "parameter_error_attributes_mask" FShort VNone].
Definition OmciDelete : OmciMessage := mk_OmciMessage "OmciDelete" 0x46
  [MF "entity_class" FShort VNone;
   MF "entity_id" FShort VNone].
Definition OmciDeleteResponse : OmciMessage := mk_OmciMessage "OmciDeleteResponse" 0x26
  [MF "entity_class" FShort VNone;
   MF "entity_id" FShort VNone;
   MF "success_code" FByte (VInt 0)].
Definition OmciSet : OmciMessage := mk_OmciMessage "OmciSet" 0x48
  [MF "entity_class" FShort VNone;
   MF "entity_id" FShort (VInt 0);
   MF "attributes_mask" FShort VNone;
   MMasked "data" "entity_class" "attributes_mask"].
Definition OmciSetResponse : OmciMessage := mk_OmciMessage "OmciSetResponse" 0x28
  [MF "entity_class" FShort VNone;
   MF "entity_id" FShort VNone;
   MF "success_code" FByte (VInt 0);
   MF "unsupported_attributes_mask" FShort VNone;
   MF "failed_attributes_mask" FShort VNone].
Definition OmciGet : OmciMessage := mk_OmciMessage "OmciGet" 0x49
  [MF "entity_class" FShort VNone;
   MF "entity_id" FShort (VInt 0);
   MF "attributes_mask" FShort VNone].
Definition OmciGetResponse : OmciMessage := mk_OmciMessage "OmciGetResponse" 0x29
  [MF "entity_class" FShort VNone;
   MF "entity_id" FShort (VInt 0);
   MF "success_code" FByte (VInt 0);
   MF "attributes_mask" FShort VNone;
   MIfSuccess (MMasked "data" "entity_class" "attributes_mask")].
Definition OmciGetAllAlarms : OmciMessage := mk_OmciMessage "OmciGetAllAlarms" 0x4b
  [MF "entity_class" FShort (VInt 2);
   MF "entity_id" FShort (VInt 0);
   MF "alarm_retrieval_mode" FByte (VInt 0)].
Definition OmciGetAllAlarmsResponse : OmciMessage := mk_OmciMessage "OmciGetAllAlarmsResponse" 0x2b
  [MF "entity_class" FShort (VInt 2);
   MF "entity_id" FShort (VInt 0);
   MF "number_of_commands" FShort VNone].
Definition OmciGetAllAlarmsNext : OmciMessage := mk_OmciMessage "OmciGetAllAlarmsNext" 0x4c
  [MF "entity_class" FShort (VInt 2);
   MF "entity_id" FShort (VInt 0);
   MF "command_sequence_number" FShort VNone].
Definition OmciGetAllAlarmsNextResponse : OmciMessage := mk_OmciMessage "OmciGetAllAlarmsNextResponse" 0x2c
  [MF "entity_class" FShort (VInt 2);
   MF "entity_id" FShort (VInt 0);
   MF "alarmed_entity_class" FShort VNone;
   MF "alarmed_entity_id" FShort (VInt 0);
   MF "alarm_bit_map" (FStr 27) VNone].
Definition OmciMibUpload : OmciMessage := mk_OmciMessage "OmciMibUpload" 0x4d
  [MF "entity_class" FShort (VInt 2);
   MF "entity_id" FShort (VInt 0)].
Definition OmciMibUploadResponse : OmciMessage := mk_OmciMessage "OmciMibUploadResponse" 0x2d
  [MF "entity_class" FShort (VInt 2);
   MF "entity_id" FShort (VInt 0);
   MF "number_of_commands" FShort VNone].
Definition OmciMibUploadNext : OmciMessage := mk_OmciMessage "OmciMibUploadNext" 0x4e
  [MF "entity_class" FShort (VInt 2);
   MF "entity_id" FShort (VInt 0);
   MF "command_sequence_number" FShort VNone].
Definition OmciMibUploadNextResponse : OmciMessage := mk_OmciMessage "OmciMibUploadNextResponse" 0x2e
  [MF "entity_class" FShort (VInt 2);
   MF "entity_id" FShort (VInt 0);
   MF "object_entity_class" FShort VNone;
   MF "object_entity_id" FShort (VInt 0);
   MF "object_attributes_mask" FShort VNone;
   MMasked "object_data" "object_entity_class" "object_attributes_mask"].
Definition OmciMibReset : OmciMessage := mk_OmciMessage "OmciMibReset" 0x4f
  [MF "entity_class" FShort VNone;
   MF "entity_id" FShort (VInt 0)].
Definition OmciMibResetResponse : OmciMessage := mk_OmciMessage "OmciMibResetResponse" 0x2f
  [MF "entity_class" FShort VNone;
   MF "entity_id" FShort (VInt 0);
   MF "success_code" FByte (VInt 0)].

(** The conditional fields of [OmciFrame], in order. *)
Definition omci_messages : list OmciMessage :=
  [OmciCreate; OmciCreateResponse; OmciDelete; OmciDeleteResponse; OmciSet; OmciSetResponse;
   OmciGet; OmciGetResponse; OmciGetAllAlarms; OmciGetAllAlarmsResponse; OmciGetAllAlarmsNext;
   OmciGetAllAlarmsNextResponse; OmciMibUpload; OmciMibUploadResponse; OmciMibUploadNext;
   OmciMibUploadNextResponse; OmciMibReset; OmciMibResetResponse].

(** ** Frames *)

(** The fields of a frame that were set. *)
Record OmciFrame : Type := mk_OmciFrame {
  transaction_id : option fval;
  message_type : option fval;
  omci : option fval;
  omci_message : option msgval;
  omci_trailer : option fval;
}.
Definition frame_type (f : OmciFrame) : fval := default VNone (message_type f).

Section frames.
Context `{!FieldCodec}.

(** The conditional message fields: each is present when the type is its own. *)
Fixpoint add_messages (msgs : list OmciMessage) (f : OmciFrame) (s : list Z) : result (list Z) :=
  match msgs with
  | [] => Ok s
  | m :: msgs =>
      s ← (if bool_decide (frame_type f = VInt (message_id m))
           then v ← of_option TypeError (omci_message f); pad_message m s v
           else Ok s);
      add_messages msgs f s
  end.
Definition build_frame (f : OmciFrame) : result (list Z) :=
  s ← addfield FShort [] (default (VInt 0) (transaction_id f));
  s ← addfield FByte s (frame_type f);
  s ← addfield FByte s (default (VInt 0x0a) (omci f));
  s ← add_messages omci_messages f s;
  addfield FInt s (default (VInt 0x00000028) (omci_trailer f)).

(** [do_dissect]: an absent conditional field yields None and does not overwrite
    the message that another one has set. *)
Fixpoint get_messages (msgs : list OmciMessage) (ty : fval) (s : list Z) (cur : option msgval)
    : result (list Z * option msgval) :=
  match msgs with
  | [] => Ok (s, cur)
  | m :: msgs =>
      match s with
      | [] => Ok (s, cur)
      | _ =>
          if bool_decide (ty = VInt (message_id m))
          then r ← fixed_getfield m s; get_messages msgs ty r.1 (Some r.2)
          else get_messages msgs ty s cur
      end
  end.
(** The next field when bytes are left. *)
Definition next_field (k : fkind) (s : list Z) : result (list Z * option fval) :=
  match s with
  | [] => Ok ([], None)
  | _ => r ← getfield k s; Ok (r.1, Some r.2)
  end.
Definition dissect_frame (s : list Z) : result (OmciFrame * list Z) :=
  tid ← next_field FShort s;
  ty ← next_field FByte tid.1;
  om ← next_field FByte ty.1;
  msg ← get_messages omci_messages (default VNone ty.2) om.1 None;
  tr ← next_field FInt msg.1;
  Ok (mk_OmciFrame tid.2 ty.2 om.2 msg.2 tr.2, tr.1).
End frames.
