(* ===== verification/OmciSpec.v ===== *)
(** * Attribute masks and the round trip of OMCI frames *)

From stdpp Require Import prelude strings list sorting.
From S2P Require Import Prelude OmciEntities OmciMessages.
Open Scope Z_scope.

(** ** Masks *)

(** Attribute [i] (1 to 16) is bit [16 - i] of a mask. *)
Definition mask_set (mask : Z) : list Z := filter (λ i, Z.testbit mask (16 - i) = true) (seqZ 1 16).

Lemma byte_tables :
  forallb (λ m,
    bool_decide (bitpos_from_mask m 8 (-1) = Ok (filter (λ i, Z.testbit m (8 - i) = true) (seqZ 1 8))) &&
    bool_decide (bitpos_from_mask m 16 (-1) = Ok (filter (λ i, Z.testbit m (16 - i) = true) (seqZ 9 8))))
    (seqZ 0 256) = true.
Proof. vm_compute. reflexivity. Qed.
Lemma byte_table m : 0 ≤ m < 256 →
  bitpos_from_mask m 8 (-1) = Ok (filter (λ i, Z.testbit m (8 - i) = true) (seqZ 1 8)) ∧
  bitpos_from_mask m 16 (-1) = Ok (filter (λ i, Z.testbit m (16 - i) = true) (seqZ 9 8)).
Proof.
  intros Hm. pose proof byte_tables as Ht. rewrite forallb_forall in Ht.
  specialize (Ht m). rewrite andb_true_iff, !bool_decide_eq_true in Ht. apply Ht.
  apply list_elem_of_In, elem_of_seqZ. lia.
Qed.

Lemma land_byte z : 0 ≤ Z.land z 0xff < 256.
Proof.
  change 0xff with (Z.ones 8). rewrite Z.land_ones by lia. apply Z.mod_pos_bound. lia.
Qed.
Lemma testbit_byte z i : 0 ≤ i < 8 → Z.testbit (Z.land z 0xff) i = Z.testbit z i.
Proof.
  intros Hi. rewrite Z.land_spec. change 0xff with (Z.ones 8).
  rewrite Z.ones_spec_low by lia. apply andb_true_r.
Qed.

Lemma attribute_indices_mask mask : attribute_indices_from_mask mask = Ok (mask_set mask).
Proof.
  unfold attribute_indices_from_mask.
  destruct (byte_table (Z.land (Z.shiftr mask 8) 0xff)) as [-> _]; [apply land_byte|].
  destruct (byte_table (Z.land mask 0xff)) as [_ ->]; [apply land_byte|].
  cbn [mbind result_bind]. f_equal. unfold mask_set.
  change (seqZ 1 16) with (seqZ 1 8 ++ seqZ 9 8). rewrite filter_app. f_equal.
  - apply filter_ext_in. intros i Hi%elem_of_seqZ.
    rewrite testbit_byte, Z.shiftr_spec by lia. by replace (8 - i + 8) with (16 - i) by lia.
  - apply filter_ext_in. intros i Hi%elem_of_seqZ. by rewrite testbit_byte by lia.
Qed.

(** The attribute indices of a mask are, in increasing order, exactly the
    numbers i from 1 to 16 whose bit 16 - i is set; the bits above are ignored. *)
Theorem attribute_indices_spec mask :
  attribute_indices_from_mask mask = Ok (filter (λ i, Z.testbit mask (16 - i) = true) (seqZ 1 16)).
Proof. apply attribute_indices_mask. Qed.

(** The mask of a list of indices *)
Lemma mask_for_bits cls names idxs m0 :
  Forall2 (λ n i, od_get n (attribute_name_to_index_map cls) = Some i ∧ (i ≤ 16)%nat) names idxs →
  ∃ m, foldl (λ acc n, m ← acc; mask_step cls m n) (Ok m0) names = Ok m ∧
    ∀ b, 0 ≤ b → Z.testbit m b = true ↔
      Z.testbit m0 b = true ∨ ∃ i, i ∈ idxs ∧ b = 16 - Z.of_nat i.
Proof.
  intros Hall. revert m0. induction Hall as [|n i names idxs [Hn Hi] Hall IH]; intros m0.
  { exists m0. split; [done|]. intros b _. split; [by left|].
    intros [?|(i & Hi & _)]; [done|by apply not_elem_of_nil in Hi]. }
  destruct (IH (Z.lor m0 (Z.shiftl 1 (16 - Z.of_nat i)))) as (m & Hm & Hbits).
  exists m. split.
  { cbn [foldl mbind result_bind]. unfold mask_step at 2. rewrite Hn. cbn [mbind result_bind of_option].
    destruct (Z.ltb_spec 16 (Z.of_nat i)); [lia|]. done. }
  intros b Hb. rewrite (Hbits b Hb), Z.lor_spec, orb_true_iff, Z.shiftl_1_l, Z.pow2_bits_eqb, Z.eqb_eq by lia.
  split.
  - intros [[?|Heq]|(j & Hj & ->)]; [by left|right; exists i|right; exists j]; (split; [|lia]); [left|by right].
  - intros [?|(j & [->|Hj]%elem_of_cons & ->)]; [by left; left|by left; right|right; by exists j].
Qed.

(** Mask_for and attribute_indices_from_mask are inverse: the mask of a list
    of attribute names gives back the set of their indices, in increasing order.
    The entity id (index 0) is not among them: its bit is beyond the two bytes of
    a mask. *)
Theorem mask_for_roundtrip cls names idxs :
  Forall2 (λ n i, od_get n (attribute_name_to_index_map cls) = Some i ∧ (i ≤ 16)%nat) names idxs →
  ∃ m, mask_for cls names = Ok m ∧
    attribute_indices_from_mask m = Ok (filter (λ i, Z.to_nat i ∈ idxs) (seqZ 1 16)).
Proof.
  intros Hall. destruct (mask_for_bits cls names idxs 0 Hall) as (m & Hm & Hbits).
  exists m. split; [exact Hm|]. rewrite attribute_indices_mask. f_equal. unfold mask_set.
  apply filter_ext_in. intros i Hi%elem_of_seqZ. rewrite Hbits, Z.bits_0 by lia. split.
  - intros [?|(j & Hj & Heq)]; [done|]. by replace (Z.to_nat i) with j by lia.
  - intros Hj. right. exists (Z.to_nat i). split; [done|lia].
Qed.

(** ** The tables *)

Definition create_width (cls : EntityClass) : nat := sum_list (width ∘ eca_kind <$> create_attributes cls).
Definition entity_ok (cls : EntityClass) : bool :=
  bool_decide (NoDup (eca_name <$> attributes cls)) &&
  bool_decide (length (attributes cls) ≤ 17)%nat &&
  (match attributes cls with [] => true | _ => false end || bool_decide (eca_name <$> head (attributes cls) = Some "managed_entity_id")) &&
  bool_decide (4 + create_width cls ≤ 36)%nat &&
  bool_decide (od_get (class_id cls) entity_id_to_class_map = Some cls).
(** Every name a field refers to belongs to an earlier field. *)
Fixpoint refs_ok (done : list string) (f : mfield) : bool :=
  match f with
  | MF _ _ _ => true
  | MData _ ec => bool_decide (ec ∈ done)
  | MMasked _ ec mask => bool_decide (ec ∈ done) && bool_decide (mask ∈ done)
  | MIfSuccess f => bool_decide ("success_code" ∈ done) && refs_ok done f
  end.
Fixpoint desc_ok (done : list string) (fs : list mfield) : bool :=
  match fs with
  | [] => true
  | f :: fs => refs_ok done f && negb (bool_decide (mf_name f ∈ done)) && desc_ok (done ++ [mf_name f]) fs
  end.

Lemma entity_facts cls : cls ∈ entity_classes → entity_ok cls = true.
Proof.
  assert (forallb entity_ok entity_classes = true) as Hent by (vm_compute; reflexivity).
  rewrite forallb_forall in Hent. intros Hin. apply Hent. by apply list_elem_of_In.
Qed.
Lemma message_facts m : m ∈ omci_messages → desc_ok [] (fields_desc m) = true.
Proof.
  assert (forallb (λ m, desc_ok [] (fields_desc m)) omci_messages = true) as Hdesc
    by (vm_compute; reflexivity).
  rewrite forallb_forall in Hdesc. intros Hin. apply Hdesc. by apply list_elem_of_In.
Qed.
Lemma message_ids_NoDup : NoDup (message_id <$> omci_messages).
Proof. apply (bool_decide_unpack _). vm_compute. exact I. Qed.

Lemma class_of_NoDup c cls : class_of c = Some cls → NoDup (eca_name <$> attributes cls).
Proof.
  assert (∀ kv, kv ∈ entity_id_to_class_map → entity_ok kv.2 = true) as Hall.
  { intros kv Hin. assert (forallb (λ kv, entity_ok kv.2) entity_id_to_class_map = true) as Hf
      by (vm_compute; reflexivity).
    rewrite forallb_forall in Hf. apply Hf. by apply list_elem_of_In. }
  destruct c as [[|i|]|]; try done. intros Hget%od_get_Some_elem. apply Hall in Hget. cbn in Hget.
  unfold entity_ok in Hget. rewrite !andb_true_iff, !bool_decide_eq_true in Hget. tauto.
Qed.

(** ** Data fields *)

Section codec.
Context `{!FieldCodec, !FieldCodecLaws}.

(** A dictionary with the attributes [attrs], in their order, and values that
    the wire format reproduces. *)
Definition shaped (attrs : list EntityClassAttribute) (d : data) : Prop :=
  Forall2 (λ a kv, kv.1 = eca_name a ∧ canonical (eca_kind a) kv.2) attrs d.

Lemma shaped_keys attrs d : shaped attrs d → od_keys d = eca_name <$> attrs.
Proof. induction 1 as [|a kv attrs d [Hk _] _ IH]; [done|]. unfold od_keys in *. cbn. f_equal; [exact Hk|exact IH]. Qed.

Lemma attributes_run attrs d full :
  shaped attrs d → (∀ k v, (k, v) ∈ d → od_get k full = Some v) →
  ∃ b, (∀ s, add_attributes attrs s full = Ok (s ++ b)) ∧
    ∀ rest d0, NoDup (od_keys (d0 ++ d)) → get_attributes attrs (b ++ rest) d0 = Ok (rest, d0 ++ d).
Proof.
  induction 1 as [|a [k v] attrs d [Hk Hc] Hsh IH]; intros Hfull.
  { exists []. split; [intros s; by rewrite app_nil_r|]. intros rest d0 _. by rewrite app_nil_r. }
  cbn in Hk. subst k. destruct IH as (b & Hadd & Hget); [intros; apply Hfull; by right|].
  destruct (pack_canonical _ _ Hc) as (b1 & Hpack & _ & Hget1).
  exists (b1 ++ b). split.
  - intros s. cbn [add_attributes]. rewrite (Hfull (eca_name a) v) by left. cbn [default id].
    unfold addfield. cbn in Hpack. rewrite Hpack. cbn [mbind result_bind].
    by rewrite Hadd, (assoc_L (++)).
  - intros rest d0 Hnd. cbn [get_attributes]. rewrite <- (assoc_L (++)). cbn in Hget1. rewrite Hget1.
    cbn [mbind result_bind fst snd]. rewrite od_set_notin.
    + rewrite Hget; [by rewrite <- (assoc_L (++))|]. by rewrite <- (assoc_L (++)).
    + unfold od_keys in *. rewrite fmap_app in Hnd. apply NoDup_app in Hnd as (_ & Hdisj & _).
      intros Hin. apply (Hdisj _ Hin). cbn. by left.
Qed.

(** The attributes at the indices of a mask. *)
Definition attrs_at (cls : EntityClass) (idx : list Z) (attrs : list EntityClassAttribute) : Prop :=
  Forall2 (λ i a, py_nth (attributes cls) i = Ok a) idx attrs.

Lemma add_indices_eq cls idx attrs d s :
  attrs_at cls idx attrs → (∀ a, a ∈ attrs → is_Some (od_get (eca_name a) d)) →
  add_indices cls idx s d = add_attributes attrs s d.
Proof.
  intros Hat. revert s. induction Hat as [|i a idx attrs Hi _ IH]; intros s Hall; [done|].
  cbn [add_indices add_attributes]. rewrite Hi. cbn [mbind result_bind].
  destruct (Hall a) as [v Hv]; [by left|]. rewrite Hv. cbn [of_option mbind result_bind default id].
  destruct (addfield _ _ _) as [s'|]; [|done]. cbn. apply IH. intros; apply Hall. by right.
Qed.
Lemma get_indices_eq cls idx attrs d s :
  attrs_at cls idx attrs → get_indices cls idx s d = get_attributes attrs s d.
Proof.
  intros Hat. revert s d. induction Hat as [|i a idx attrs Hi _ IH]; intros s d; [done|].
  cbn [get_indices get_attributes]. rewrite Hi. destruct (getfield _ _) as [r|]; [|done]. cbn. apply IH.
Qed.

Lemma py_nth_lookup {A} (l : list A) i a : 0 ≤ i → py_nth l i = Ok a → l !! Z.to_nat i = Some a.
Proof.
  intros Hi. unfold py_nth. destruct (Z.ltb_spec i 0); [lia|]. cbv zeta.
  destruct (Z.ltb_spec i 0); [lia|]. apply of_option_Ok.
Qed.
Lemma attrs_at_NoDup cls m attrs :
  NoDup (eca_name <$> attributes cls) → attrs_at cls (mask_set m) attrs → NoDup (eca_name <$> attrs).
Proof.
  intros Hnd Hat. apply NoDup_alt. intros j k x. rewrite !list_lookup_fmap.
  intros (a & Ha & ->)%fmap_Some (b & Hb & Heq)%fmap_Some.
  destruct (Forall2_lookup_r _ _ _ _ _ Hat Ha) as (i1 & Hi1 & Hn1).
  destruct (Forall2_lookup_r _ _ _ _ _ Hat Hb) as (i2 & Hi2 & Hn2).
  assert (∀ i, i ∈ mask_set m → 1 ≤ i) as Hpos.
  { intros i [_ Hi%elem_of_seqZ]%list_elem_of_filter. lia. }
  pose proof (Hpos _ (list_elem_of_lookup_2 _ _ _ Hi1)) as P1.
  pose proof (Hpos _ (list_elem_of_lookup_2 _ _ _ Hi2)) as P2.
  apply py_nth_lookup in Hn1; [|lia]. apply py_nth_lookup in Hn2; [|lia].
  assert (Z.to_nat i1 = Z.to_nat i2) as Hi.
  { eapply (NoDup_lookup _ _ _ (eca_name a) Hnd); rewrite list_lookup_fmap; [by rewrite Hn1|].
    by rewrite Hn2, Heq. }
  assert (i1 = i2) as -> by lia.
  eapply NoDup_lookup; [|exact Hi1|exact Hi2]. apply NoDup_filter, NoDup_seqZ.
Qed.

(** ** Messages *)

(** The value of a field, given the fields before it: what the wire format
    reproduces, and for the data fields exactly the attributes that the entity
    class, or the mask, asks for. *)
Fixpoint value_ok (before : packet) (f : mfield) (v : pval) : Prop :=
  match f with
  | MF _ k _ => ∃ x, v = PV x ∧ canonical k x
  | MData _ ec => ∃ c cls d, od_get ec before = Some c ∧ class_of c = Some cls ∧ v = PD d ∧
      shaped (create_attributes cls) d
  | MMasked _ ec mk => ∃ c cls m attrs d, od_get ec before = Some c ∧ class_of c = Some cls ∧
      od_get mk before = Some (PV (VInt m)) ∧ attrs_at cls (mask_set m) attrs ∧ v = PD d ∧ shaped attrs d
  | MIfSuccess f => ∃ sc, od_get "success_code" before = Some sc ∧
      if bool_decide (sc = PV (VInt 0)) then value_ok before f v else v = PV VNone
  end.
(** A packet with all fields of a message set, in their order. *)
Fixpoint packet_ok (before : packet) (fs : list mfield) (pkt : packet) : Prop :=
  match fs, pkt with
  | [], [] => True
  | f :: fs, (n, v) :: pkt => n = mf_name f ∧ value_ok before f v ∧ packet_ok (before ++ [(n, v)]) fs pkt
  | _, _ => False
  end.

Lemma od_get_prefix {K V} `{!EqDecision K} (k : K) (v : V) d1 d2 :
  od_get k d1 = Some v → od_get k (d1 ++ d2) = Some v.
Proof. induction d1 as [|[k' v'] d1 IH]; cbn; [done|]. case_decide; [done|exact IH]. Qed.
Lemma od_get_app_r {K V} `{!EqDecision K} (k : K) (d1 d2 : list (K * V)) :
  k ∉ od_keys d1 → od_get k (d1 ++ d2) = od_get k d2.
Proof.
  unfold od_keys. induction d1 as [|[k' v'] d1 IH]; cbn; [done|].
  rewrite not_elem_of_cons. intros [? ?]. rewrite decide_False by done. by apply IH.
Qed.
Lemma pkt_attr_set desc pkt n v : od_get n pkt = Some v → pkt_attr desc pkt n = Ok v.
Proof. unfold pkt_attr. by intros ->. Qed.

Lemma create_run before cls d :
  class_of before = Some cls → shaped (create_attributes cls) d →
  ∃ b, (∀ s, OmciData_addfield before s (PD d) = Ok (s ++ b)) ∧
    ∀ rest, OmciData_getfield before (b ++ rest) = Ok (rest, PD d).
Proof.
  intros Hcls Hsh.
  assert (NoDup (od_keys d)) as Hnd.
  { rewrite (shaped_keys _ _ Hsh). eapply sublist_NoDup; [by eapply class_of_NoDup|].
    apply fmap_sublist, sublist_filter. }
  destruct (attributes_run _ _ d Hsh) as (b & Hadd & Hget); [intros; by apply od_get_elem|].
  exists b. unfold OmciData_addfield, OmciData_getfield. rewrite Hcls. cbn [of_option mbind result_bind].
  split; [apply Hadd|]. intros rest. by rewrite Hget.
Qed.
Lemma masked_run c cls m attrs d :
  class_of c = Some cls → attrs_at cls (mask_set m) attrs → shaped attrs d →
  ∃ b, (∀ s, OmciMaskedData_addfield c (PV (VInt m)) s (PD d) = Ok (s ++ b)) ∧
    ∀ rest, OmciMaskedData_getfield c (PV (VInt m)) (b ++ rest) = Ok (rest, PD d).
Proof.
  intros Hcls Hat Hsh.
  assert (NoDup (od_keys d)) as Hnd.
  { rewrite (shaped_keys _ _ Hsh). eapply attrs_at_NoDup; [by eapply class_of_NoDup|done]. }
  destruct (attributes_run _ _ d Hsh) as (b & Hadd & Hget); [intros; by apply od_get_elem|].
  assert (∀ a, a ∈ attrs → is_Some (od_get (eca_name a) d)) as Hall.
  { intros a Ha. destruct (od_get (eca_name a) d) eqn:He; [by eexists|].
    apply od_get_None in He. destruct He. rewrite (shaped_keys _ _ Hsh). by apply list_elem_of_fmap_2. }
  exists b. unfold OmciMaskedData_addfield, OmciMaskedData_getfield, mask_indices.
  rewrite Hcls, attribute_indices_mask. cbn [of_option mbind result_bind]. split.
  - intros s. rewrite <- (Hadd s), <- (add_indices_eq cls (mask_set m) attrs) by done.
    by destruct (mask_set m).
  - intros rest. by rewrite (get_indices_eq _ _ attrs), Hget.
Qed.

Lemma mfield_run desc before f v after :
  value_ok before f v → mf_name f ∉ od_keys before →
  ∃ b, (∀ s, add_mfield desc (before ++ (mf_name f, v) :: after) f s = Ok (s ++ b)) ∧
    ∀ rest, get_mfield desc before f (b ++ rest) = Ok (rest, v).
Proof.
  intros Hv Hn. set (full := before ++ (mf_name f, v) :: after).
  assert (od_get (mf_name f) full = Some v) as Hself.
  { unfold full. rewrite od_get_app_r by done. cbn. by rewrite decide_True. }
  assert (∀ n x, od_get n before = Some x → pkt_attr desc full n = Ok x ∧ pkt_attr desc before n = Ok x) as Hprev.
  { intros n x Hx. split; apply pkt_attr_set; [by apply od_get_prefix|done]. }
  assert (pkt_attr desc full (mf_name f) = Ok v) as Hattr by by apply pkt_attr_set.
  clearbody full. clear Hn Hself. revert Hv Hattr.
  induction f as [n k dflt|n ec|n ec mk|f IH]; cbn [value_ok mf_name add_mfield get_mfield]; intros Hv Hattr.
  - destruct Hv as (x & -> & Hc). destruct (pack_canonical _ _ Hc) as (b & Hpack & _ & Hget).
    exists b. rewrite Hattr. cbn [mbind result_bind]. unfold addfield. split; [intros s; by rewrite Hpack|].
    intros rest. by rewrite Hget.
  - destruct Hv as (c & cls & d & Hec & Hcls & -> & Hsh). destruct (Hprev _ _ Hec) as [Hf Hb].
    rewrite Hattr, Hf, Hb. cbn [mbind result_bind]. by eapply create_run.
  - destruct Hv as (c & cls & m & attrs & d & Hec & Hcls & Hmk & Hat & -> & Hsh).
    destruct (Hprev _ _ Hec) as [Hf Hb], (Hprev _ _ Hmk) as [Hf' Hb'].
    rewrite Hattr, Hf, Hb, Hf', Hb'. cbn [mbind result_bind]. by eapply masked_run.
  - destruct Hv as (sc & Hsc & Hv). destruct (Hprev _ _ Hsc) as [Hf Hb].
    unfold is_success. rewrite Hf, Hb. cbn [mbind result_bind].
    case_bool_decide; [by apply IH|subst v]. exists []. split; [intros s; by rewrite app_nil_r|done].
Qed.

Lemma fields_run desc fs before pkt :
  packet_ok before fs pkt → NoDup (od_keys before ++ (mf_name <$> fs)) →
  ∃ b, (∀ s, build_fields desc (before ++ pkt) fs s = Ok (s ++ b)) ∧
    ∀ rest, rest ≠ [] → dissect_fields desc fs (b ++ rest) before = Ok (rest, before ++ pkt).
Proof.
  revert before pkt. induction fs as [|f fs IH]; intros before [|[n v] pkt]; cbn [packet_ok]; try done.
  { intros _ _. exists []. split; [intros s; cbn; by rewrite app_nil_r|]. intros rest _. cbn. by rewrite app_nil_r. }
  intros (-> & Hv & Hok) Hnd.
  assert (mf_name f ∉ od_keys before) as Hn.
  { apply NoDup_app in Hnd as (_ & Hdisj & _). intros Hin. apply (Hdisj _ Hin). by left. }
  destruct (mfield_run desc before f v pkt Hv Hn) as (b1 & Hadd & Hget).
  destruct (IH (before ++ [(mf_name f, v)]) pkt) as (b & Hbuild & Hdis); [done| |].
  { unfold od_keys in *. rewrite fmap_app, <- (assoc_L (++)). exact Hnd. }
  rewrite <- (assoc_L (++)) in Hbuild. cbn in Hbuild.
  exists (b1 ++ b). split.
  - intros s. cbn [build_fields]. rewrite Hadd. cbn [mbind result_bind]. by rewrite Hbuild, (assoc_L (++)).
  - intros rest Hrest. cbn [dissect_fields].
    destruct ((b1 ++ b) ++ rest) as [|x xs] eqn:Hs; [by apply app_nil in Hs as [_ ?]|rewrite <- Hs; clear x xs Hs].
    rewrite <- (assoc_L (++)), Hget. cbn [mbind result_bind fst snd].
    rewrite od_set_notin, Hdis by done. by rewrite <- (assoc_L (++)).
Qed.

Lemma desc_ok_NoDup done fs : NoDup done → desc_ok done fs = true → NoDup (done ++ (mf_name <$> fs)).
Proof.
  revert done. induction fs as [|f fs IH]; intros done Hnd Hok; [by rewrite app_nil_r|].
  cbn in Hok. rewrite !andb_true_iff, negb_true_iff, bool_decide_eq_false in Hok. destruct Hok as [[_ Hni] Hok].
  change (f :: fs) with ([f] ++ fs). rewrite fmap_app, (assoc_L (++)). apply IH; [|done].
  apply NoDup_app. split_and!; [done| |apply NoDup_singleton].
  intros x Hx Hin. apply list_elem_of_singleton in Hin. by subst x.
Qed.

(** ** Frames *)

Lemma get_messages_skip msgs ty s cur :
  s ≠ [] → Forall (λ m, ty ≠ VInt (message_id m)) msgs → get_messages msgs ty s cur = Ok (s, cur).
Proof.
  intros Hs. induction 1 as [|m msgs Hm _ IH]; [done|]. cbn [get_messages].
  destruct s as [|x s]; [done|]. by rewrite bool_decide_eq_false_2.
Qed.
Lemma add_messages_skip msgs f s :
  Forall (λ m, frame_type f ≠ VInt (message_id m)) msgs → add_messages msgs f s = Ok s.
Proof.
  induction 1 as [|m msgs Hm _ IH]; [done|]. cbn [add_messages]. by rewrite bool_decide_eq_false_2.
Qed.

(** Every message starts with the entity class, two bytes. *)
Lemma message_starts m :
  m ∈ omci_messages → ∃ n d fs, fields_desc m = MF n FShort d :: fs.
Proof.
  assert (forallb (λ m, match fields_desc m with MF _ FShort _ :: _ => true | _ => false end) omci_messages = true)
    as Hall by (vm_compute; reflexivity).
  rewrite forallb_forall in Hall. intros Hm. specialize (Hall m (proj1 (list_elem_of_In _ _) Hm)).
  destruct (fields_desc m) as [|[n [] d|n ec|n ec mk|f] fs]; try done. by exists n, d, fs.
Qed.
Lemma message_nonempty m p b :
  m ∈ omci_messages → packet_ok [] (fields_desc m) p → NoDup (mf_name <$> fields_desc m) →
  build_fields (fields_desc m) p (fields_desc m) [] = Ok b → (2 ≤ length b)%nat.
Proof.
  intros Hm Hok Hnd Hb. destruct (message_starts m Hm) as (n & d & fs & Hd).
  rewrite Hd in Hok, Hnd. destruct p as [|[k v] p]; [done|].
  cbn [packet_ok value_ok mf_name] in Hok. destruct Hok as (-> & (x & -> & Hc) & Hok).
  destruct (pack_canonical _ _ Hc) as (b1 & Hpack & Hlen & _).
  destruct (fields_run (fields_desc m) fs [(n, PV x)] p) as (b2 & Hbuild & _); [done|done|].
  rewrite Hd in Hb at 2. cbn [build_fields add_mfield] in Hb. unfold pkt_attr in Hb. cbn [od_get] in Hb.
  rewrite decide_True in Hb by done. cbn [mbind result_bind] in Hb. unfold addfield in Hb.
  rewrite Hpack in Hb. cbn [mbind result_bind] in Hb. cbn [app] in Hbuild. rewrite Hbuild in Hb.
  injection Hb as <-. rewrite !length_app, Hlen. cbn. lia.
Qed.

(** The message part of a frame: 36 bytes that give the message back. *)
Lemma message_run m p b :
  m ∈ omci_messages → packet_ok [] (fields_desc m) p →
  build_message m (mk_msgval p []) = Ok b → (length b < 36)%nat →
  let padded := b ++ replicate (36 - length b) 0%Z in
  (∀ s, pad_message m s (mk_msgval p []) = Ok (s ++ padded)) ∧
  ∀ rest, fixed_getfield m (padded ++ rest) = Ok (rest, mk_msgval p []).
Proof.
  intros Hm Hok Hb Hlen padded.
  pose proof (desc_ok_NoDup [] _ (NoDup_nil_2) (message_facts m Hm)) as Hnd.
  destruct (fields_run (fields_desc m) (fields_desc m) [] p Hok Hnd) as (b' & Hbuild & Hdis).
  cbn [app] in Hbuild, Hdis.
  assert (b' = b) as ->.
  { unfold build_message in Hb. cbn [mv_fields mv_payload] in Hb. rewrite Hbuild in Hb. cbn in Hb.
    rewrite app_nil_r in Hb. by injection Hb. }
  pose proof (message_nonempty m p b Hm Hok Hnd (Hbuild [])) as Hpos.
  assert (length padded = 36)%nat as Hlp.
  { unfold padded. rewrite length_app, length_replicate. lia. }
  split.
  - intros s. unfold pad_message. rewrite Hb. cbn [mbind result_bind]. unfold align, padded.
    rewrite Z.mod_opp_l_nz, Z.mod_small by (try rewrite Z.mod_small; lia).
    do 4 f_equal. lia.
  - intros rest. unfold fixed_getfield, dissect_message, align. change (Z.to_nat 36) with 36%nat.
    rewrite take_app_length', drop_app_length' by done. unfold padded. rewrite Hdis.
    2:{ intros Hr%(f_equal length). rewrite length_replicate in Hr. cbn in Hr. lia. }
    cbn [mbind result_bind fst snd mv_payload mv_fields].
    assert (forallb (λ x, bool_decide (x = 0%Z)) (replicate (36 - length b) 0%Z) = true) as ->; [|done].
    apply forallb_forall. intros x [-> _]%list_elem_of_In%elem_of_replicate. by apply bool_decide_eq_true.
Qed.

(** Of the conditional message fields exactly the one of the type is present. *)
Lemma one_message m :
  m ∈ omci_messages → ∃ l1 l2, omci_messages = l1 ++ m :: l2 ∧
    Forall (λ m', VInt (message_id m) ≠ VInt (message_id m')) l1 ∧
    Forall (λ m', VInt (message_id m) ≠ VInt (message_id m')) l2.
Proof.
  intros Hm. destruct (list_elem_of_split _ _ Hm) as (l1 & l2 & Hsplit). exists l1, l2.
  pose proof message_ids_NoDup as Hids. rewrite Hsplit, fmap_app in Hids. cbn in Hids.
  apply NoDup_app in Hids as (_ & Hdisj & [Hni _]%NoDup_cons).
  split_and!; [done| |]; apply Forall_forall; intros m' Hin [= Heq].
  - apply (Hdisj (message_id m')); [by apply list_elem_of_fmap_2|]. rewrite <- Heq. by left.
  - apply Hni. rewrite Heq. by apply list_elem_of_fmap_2.
Qed.
Lemma add_messages_run m f v padded s :
  m ∈ omci_messages → frame_type f = VInt (message_id m) → omci_message f = Some v →
  (∀ s, pad_message m s v = Ok (s ++ padded)) →
  add_messages omci_messages f s = Ok (s ++ padded).
Proof.
  intros Hm Hty Hv Hpad. destruct (one_message m Hm) as (l1 & l2 & -> & Hl1 & Hl2). rewrite <- Hty in Hl1, Hl2.
  induction Hl1 as [|m' l1 Hm' _ IH]; cbn [app add_messages].
  - rewrite bool_decide_eq_true_2, Hv by done. cbn [of_option mbind result_bind].
    rewrite Hpad. cbn [mbind result_bind]. by apply add_messages_skip.
  - rewrite bool_decide_eq_false_2 by done. exact IH.
Qed.
Lemma get_messages_run m v padded rest :
  m ∈ omci_messages → rest ≠ [] →
  (∀ rest, fixed_getfield m (padded ++ rest) = Ok (rest, v)) →
  get_messages omci_messages (VInt (message_id m)) (padded ++ rest) None = Ok (rest, Some v).
Proof.
  intros Hm Hrest Hget. destruct (one_message m Hm) as (l1 & l2 & -> & Hl1 & Hl2).
  assert (padded ++ rest ≠ []) as Hne by (by intros [_ ?]%app_nil).
  induction Hl1 as [|m' l1 Hm' _ IH]; cbn [app get_messages];
    destruct (padded ++ rest) as [|x xs] eqn:Hs; try done; rewrite <- Hs in *.
  - rewrite bool_decide_eq_true_2, Hget by done. cbn [mbind result_bind fst snd]. by apply get_messages_skip.
  - rewrite bool_decide_eq_false_2 by done. by apply IH.
Qed.
Lemma next_field_run k b v rest :
  (0 < length b)%nat → getfield k (b ++ rest) = Ok (rest, v) → next_field k (b ++ rest) = Ok (rest, Some v).
Proof. unfold next_field. intros Hb Hg. destruct b as [|x b]; cbn in *; [lia|]. by rewrite Hg. Qed.

(** C10: a frame of any of the message types, all of whose fields are set to values
    the wire format reproduces and whose data holds exactly the attributes asked
    for, is built into 44 bytes when the message has fewer than 36 bytes, and
    dissecting these bytes gives the frame back with nothing left over. *)
Theorem frame_roundtrip m p b tid om tr :
  m ∈ omci_messages → packet_ok [] (fields_desc m) p →
  build_message m (mk_msgval p []) = Ok b → (length b < 36)%nat →
  canonical FShort tid → canonical FByte (VInt (message_id m)) → canonical FByte om → canonical FInt tr →
  let f := mk_OmciFrame (Some tid) (Some (VInt (message_id m))) (Some om) (Some (mk_msgval p [])) (Some tr) in
  ∃ bytes, build_frame f = Ok bytes ∧ length bytes = 44%nat ∧ dissect_frame bytes = Ok (f, []).
Proof.
  intros Hm Hok Hb Hlen Htid Hty Hom Htr f.
  destruct (message_run m p b Hm Hok Hb Hlen) as [Hpad Hget].
  set (padded := b ++ replicate (36 - length b) 0%Z) in *.
  assert (length padded = 36)%nat as Hlp.
  { unfold padded. rewrite length_app, length_replicate. lia. }
  destruct (pack_canonical _ _ Htid) as (b1 & Hp1 & Hl1 & Hg1).
  destruct (pack_canonical _ _ Hty) as (b2 & Hp2 & Hl2 & Hg2).
  destruct (pack_canonical _ _ Hom) as (b3 & Hp3 & Hl3 & Hg3).
  destruct (pack_canonical _ _ Htr) as (b4 & Hp4 & Hl4 & Hg4). cbn [width] in *.
  exists (b1 ++ b2 ++ b3 ++ padded ++ b4). split_and!.
  - unfold build_frame, addfield. cbn [transaction_id omci omci_trailer f default id]. rewrite Hp1.
    cbn [mbind result_bind]. change (frame_type f) with (VInt (message_id m)). rewrite Hp2.
    cbn [mbind result_bind]. rewrite Hp3. cbn [mbind result_bind].
    rewrite (add_messages_run m f (mk_msgval p []) padded) by done. cbn [mbind result_bind]. rewrite Hp4.
    cbn [mbind result_bind]. by rewrite <- !(assoc_L (++)).
  - rewrite !length_app, Hl1, Hl2, Hl3, Hl4, Hlp. done.
  - unfold dissect_frame. rewrite (next_field_run _ _ tid) by (lia || done). cbn [mbind result_bind fst snd].
    rewrite (next_field_run _ _ (VInt (message_id m))) by (lia || done). cbn [mbind result_bind fst snd].
    rewrite (next_field_run _ _ om) by (lia || done). cbn [mbind result_bind fst snd default id].
    rewrite (get_messages_run m (mk_msgval p [])); [|done|by intros ->; cbn in Hl4|done].
    cbn [mbind result_bind fst snd]. rewrite <- (app_nil_r b4).
    rewrite (next_field_run _ _ tr); [done|lia|apply Hg4].
Qed.
End codec.

(** ** A wire format for OMCI fields

    Big-endian numbers and fixed-length strings: an instance of the field codec,
    on which the witnesses of the round-trip theorems are computed. *)

Fixpoint be (n : nat) (z : Z) : list Z :=
  match n with O => [] | S n => be n (z / 256) ++ [z mod 256] end.
Definition un_be (l : list Z) : Z := foldl (λ acc b, acc * 256 + b) 0 l.

Lemma be_length n z : length (be n z) = n.
Proof. revert z. induction n as [|n IH]; intros z; [done|]. cbn. rewrite length_app, IH. cbn. lia. Qed.
Lemma un_be_be n z : 0 ≤ z < 256 ^ Z.of_nat n → un_be (be n z) = z.
Proof.
  revert z. induction n as [|n IH]; intros z Hz; [cbn in *; lia|].
  unfold un_be in *. cbn [be]. rewrite foldl_app. cbn.
  rewrite IH; [pose proof (Z.div_mod z 256); lia|].
  rewrite Nat2Z.inj_succ, Z.pow_succ_r in Hz by lia.
  split; [apply Z.div_pos; lia|apply Z.div_lt_upper_bound; lia].
Qed.

Definition is_number (k : fkind) : bool :=
  match k with FByte | FShort | FInt => true | _ => false end.
Definition in_range (k : fkind) (z : Z) : bool := (0 <=? z) && (z <? 256 ^ Z.of_nat (width k)).

#[export] Instance demo_codec : FieldCodec := {|
  pack_field k v :=
    if is_number k then
      match v with
      | VNone => Ok (be (width k) 0)
      | VInt z => if in_range k z then Ok (be (width k) z) else Raise GenericException
      | VStr _ => Raise GenericException
      end
    else
      match v with
      | VNone => Ok (replicate (width k) 0)
      | VInt _ => Raise GenericException
      | VStr s => Ok (take (width k) (s ++ replicate (width k) 0))
      end;
  getfield k s :=
    let b := take (width k) s in
    if bool_decide (length b = width k)
    then Ok (drop (width k) s, if is_number k then VInt (un_be b) else VStr b)
    else Raise GenericException;
|}.
Definition demo_canonical (k : fkind) (v : fval) : bool :=
  match v with
  | VNone => false
  | VInt z => is_number k && in_range k z
  | VStr s => negb (is_number k) && bool_decide (length s = width k)
  end.
#[export] Instance demo_codec_laws : FieldCodecLaws.
Proof.
  refine {| canonical k v := demo_canonical k v = true |}.
  intros k [|z|s] Hc; cbn [demo_canonical] in Hc; [done| |]; apply andb_true_iff in Hc as [Hk Hv].
  - exists (be (width k) z). cbn [pack_field getfield demo_codec]. rewrite Hk, Hv.
    split_and!; [done|apply be_length|]. intros rest.
    rewrite take_app_length', drop_app_length', be_length, bool_decide_eq_true_2 by (by rewrite ?be_length).
    unfold in_range in Hv. apply andb_true_iff in Hv as [?%Z.leb_le ?%Z.ltb_lt]. by rewrite un_be_be by lia.
  - apply negb_true_iff in Hk. apply bool_decide_eq_true in Hv. exists s.
    cbn [pack_field getfield demo_codec]. rewrite Hk. split_and!; [|done|].
    + by rewrite take_app_length' by done.
    + intros rest. by rewrite take_app_length', drop_app_length', bool_decide_eq_true_2.
Defined.

(** ** Witnesses *)

Lemma mask_for_roundtrip_witness :
  ∃ m, mask_for GemPortNetworkCtp ["direction"; "port_id"; "managed_entity_id"] = Ok m ∧
    attribute_indices_from_mask m = Ok [1; 3].
Proof.
  destruct (mask_for_roundtrip GemPortNetworkCtp ["direction"; "port_id"; "managed_entity_id"] [3; 1; 0]%nat)
    as (m & Hm & Hidx).
  - repeat constructor.
  - exists m. split; [exact Hm|]. rewrite Hidx. vm_compute. reflexivity.
Defined.

(** A set message of a T-CONT: its alloc id and its policy. *)
Definition set_tcont : packet :=
  [("entity_class", PV (VInt 262)); ("entity_id", PV (VInt 0x8001)); ("attributes_mask", PV (VInt 0xa000));
   ("data", PD [("alloc_id", VInt 1024); ("policy", VInt 2)])].
Definition set_tcont_bytes : list Z :=
  match build_message OmciSet (mk_msgval set_tcont []) with Ok b => b | Raise _ => [] end.

Lemma set_tcont_ok : packet_ok [] (fields_desc OmciSet) set_tcont.
Proof.
  cbn [packet_ok fields_desc OmciSet set_tcont mf_name value_ok].
  split_and!; try done; try (eexists; split; [reflexivity|vm_compute; reflexivity]).
  exists (PV (VInt 262)), Tcont, 0xa000.
  exists [ECA "alloc_id" FShort (VInt 0x00ff) [R; W]; ECA "policy" FByte VNone [R; W]].
  eexists. split_and!; [reflexivity|vm_compute; reflexivity|reflexivity| |reflexivity|].
  - unfold attrs_at. replace (mask_set 0xa000) with [1; 3] by (vm_compute; reflexivity).
    repeat constructor.
  - repeat constructor.
Qed.

Lemma frame_roundtrip_witness : ∃ bytes,
  build_frame (mk_OmciFrame (Some (VInt 7)) (Some (VInt 0x48)) (Some (VInt 10))
                 (Some (mk_msgval set_tcont [])) (Some (VInt 40))) = Ok bytes ∧
  length bytes = 44%nat ∧
  dissect_frame bytes = Ok (mk_OmciFrame (Some (VInt 7)) (Some (VInt 0x48)) (Some (VInt 10))
                              (Some (mk_msgval set_tcont [])) (Some (VInt 40)), []).
Proof.
  apply (frame_roundtrip OmciSet set_tcont set_tcont_bytes (VInt 7) (VInt 10) (VInt 40)).
  - apply list_elem_of_lookup_2 with 4%nat. reflexivity.
  - exact set_tcont_ok.
  - vm_compute. reflexivity.
  - vm_compute. lia.
  - vm_compute. reflexivity.
  - vm_compute. reflexivity.
  - vm_compute. reflexivity.
  - vm_compute. reflexivity.
Defined.
